(* ===== verification/_CoqProject ===== *)
-Q . S2P
Prelude.v
PyDecimal.v
Hashing.v
DecimalMath.v
Domain.v
OrderState.v
Settlement.v
RiskMachine.v
ArmState.v
Text.v
Payload.v
Journal.v
Execution.v
Reconciliation.v
QuantConfig.v
Covariance.v
Signals.v
Allocation.v
Turnover.v
Planning.v
Falsification.v
Promotion.v
Schedule.v
DispatchExecution.v
WorkLedger.v
WorkLifecycle.v
Challenger.v
ChallengerLedger.v
ChallengerLifecycle.v
ChallengerOos.v
Cycles.v
CycleStore.v
CycleLifecycle.v
Q1Records.v
Q1Store.v
TradingRuns.v
TradingOrders.v
PyRandom.v
MatchedEvaluation.v
RuntimeConfig.v
MarketData.v
ExecutionCycle.v
ExecutionExample.v
ExecutionSafety.v
ExecutionCommit.v
ExecutionBounds.v
MarketSafety.v
MatchedSafety.v
EvaluationCycle.v
EvaluationExample.v
EvaluationSafety.v
EvaluationCommit.v
