(* ===== verification/Prelude.v ===== *)
(** * A verified model of the adaptive trading research platform

    The program (package [trading], under src/src/trading) runs paper-trading arms of
    the Q1 strategy next to a research plane that proposes and tests challengers to it.
    This library models the parts of it that decide: what happens to orders, cash,
    positions and risk on the trading side, and which evidence and which leases let
    research work count on the research side.

    ** Program and files

    Trading side.  A decision of an arm becomes order intents; every order lives as an
    append-only stream of events; simulated fills change the arm state and post a
    balanced journal entry; the cash of a sale settles a business day later; a risk
    check every few minutes can open an episode that forces reductions; and a
    reconciliation compares the stored arm state with what the event tables imply.

    - [OrderState] (execution/order_state.py): event streams, the fold
      [reduce_order_events], and the commands that append events.
    - [Settlement] (settlement/service.py): cash events, their fold, due settlement and
      the business calendar.
    - [RiskMachine] (risk/state_machine.py): thresholds, episodes, reduction targets and
      their progress.
    - [ArmState] (runtime/q1_state.py): fills and settlements applied to an arm; its
      value.  [Payload] is its JSON form.
    - [Journal] (ledger/journal.py, ledger/nav.py): double-entry postings and NAV.
    - [Execution] (execution/q1_paper.py): price guard, fill size, price, commission.
    - [Reconciliation] (risk/reconciliation.py): every check, on the rows that the
      repository returns.
    - [QuantConfig] (quant/config.py): the parameters of the strategy and the parser of the
      configuration document, whose floats are the text they are written as.
    - [Covariance] (quant/covariance.py), [Signals] (quant/signals.py): the shrunk EWMA
      covariance, and the trend signal from the bars that were available at the cutoff.
    - [Allocation] (quant/allocator.py): target weights under caps, the value of an arm in
      weights, turnover control.  [Turnover] has the theorems on turnover control.
    - [Planning] (runtime/q1_planning.py, the decision records of domain/q1.py): decisions,
      and the order intents of a rebalancing or of a reduction.

    - [Cycles] (runtime/q1_scheduler.py): the schedule, the cycles of a market session and the
      windows for orders.
    - [CycleStore] (runtime/scheduler.py, the fences of persistence/q1_runtime.py and
      persistence/q1.py): the cycle table and the transactions that schedule, claim, complete,
      defer and fail cycles.  [CycleLifecycle]: the lifecycle that they refine, leases and
      fences.
    - [Q1Records] (domain/q1.py): calendar sessions, evaluation anchors and results.
      [Q1Store] (persistence/q1.py, persistence/q1_runtime.py, the rows of
      persistence/models.py): the trading tables with their constraints, every append and query
      of the repositories, and the order book.
    - [TradingRuns]: runs of all these transactions, what each adds, and fencing.
      [TradingOrders]: workers that prepare events from the stored book, and the order tables
      after any interleaving of them.

    - [RuntimeConfig] (runtime/q1_config.py, [Q1ConfigBundle] of settings.py): the typed
      configurations read from the two documents, and the repository's own documents.
    - [MarketData] (data/market_repository.py, data/q1_pit.py, the market rows of
      persistence/models.py): the market tables with their idempotent inserts and queries, the
      stream status, completed daily series and traded volumes.  [MarketSafety]: what the daily
      inputs contain.
    - [ExecutionCycle] (runtime/q1_execution_cycle.py): the processor of an execution cycle, from
      the queries ([prepare]) to the one transaction that commits ([_commit]).
      [ExecutionSafety]: the events and fills it prepares.  [ExecutionCommit]: its commit as a run
      of the repositories' commands.  [ExecutionBounds]: the affordability loop and the calendar.
      [ExecutionExample]: a concrete cycle.
    - [MatchedEvaluation] (evaluation/matched.py): the performance of an arm and the attribution of
      a pair of arms, with every statistic.  [MatchedSafety]: what the two say of their
      observations.  [PyRandom]: the generator that the bootstrap seeds, as a class with CPython's
      generator as its instance.
    - [EvaluationCycle] (runtime/q1_evaluation_cycle.py): the processor of the daily evaluation, from
      the queries ([prepare_evaluation]) to the commit ([commit_evaluation]).  [EvaluationSafety]:
      the results it prepares and the orders it expires.  [EvaluationCommit]: its transaction and
      the orders after it.  [EvaluationExample]: a concrete evaluation.

    A cycle computes [compute_q1_signal], [allocate_q1], [apply_turnover_control],
    [build_portfolio_decision] and [plan_normal_orders] in this order; the intents are the
    orders of [OrderState], and [ExecutionCycle] fills them with [Execution]; after the close
    [EvaluationCycle] expires what is left of them and values the arms.

    Research side.  A scheduler derives due work from market sessions and evidence;
    workers claim it under leases in an append-only ledger; an executor claims the
    dispatched work under a second lease and records an attested result.  A proposal becomes
    a challenger, whose artifact passes a deterministic replay, a falsification report, a
    budgeted out-of-sample test and a shadow period before it may be promoted; every step is
    a transaction that appends to the challenger's ledger and moves its status.

    - [Schedule] (research/scheduler.py, part of research/config.py): contracts of plans,
      leases and receipts, and the planner [build_due_schedule_plans].
    - [WorkLedger] (persistence/research_scheduler.py): the tables as lists of rows and
      every repository operation as a function from ledger to ledger.
    - [WorkLifecycle]: the abstract lifecycle of a work item and the theorems on runs of
      the ledger's transactions.
    - [DispatchExecution] (research/dispatch_execution.py): execution requests, results
      and their deep validation.
    - [Falsification] (research/falsification.py, research/falsification_runner.py, the
      binding gate of persistence/research.py).
    - [Promotion] (research/promotion.py, research/replay.py, research/shadow.py).
    - [Challenger] (research/contracts.py, research/candidate_artifact.py): the contracts of
      challengers, candidate artifacts, test failures, out-of-sample results and budget
      reservations, and the table of allowed transitions.
    - [ChallengerLedger] (persistence/research.py, the rows of persistence/models.py,
      research/lifecycle.py): the tables with their constraints, the repository's gates and
      budget as functions from ledger to ledger, and the service methods around them.
    - [ChallengerLifecycle]: runs of these transactions, the lifecycle that they refine and
      the evidence behind each status.  [ChallengerOos]: the out-of-sample budget, racing
      reservations and the evaluation service.

    Shared.  [Prelude] (this file) has the exception monad [res], Python's list, dict and
    sort operations and the generic lemmas.  [PyDecimal] is decimal.Decimal: a signed
    coefficient and exponent, rounded to the context's digits.  [Hashing]
    (domain/hashing.py, domain/time.py) is canonical JSON and content hashes, over a class
    [Digest] of which SHA-256 is an instance.  [Domain] (domain/q1.py, domain/contracts.py,
    domain/enums.py, domain/q1_runtime.py) has the records; [Text] the readers and writers
    of numbers, dates and times.

    ** Conventions

    A Python function that may raise returns [res]: [Ok] or the exception's class and
    message head.  Dataclasses and pydantic models are records with a [validate_] function
    that builds them, so that a value passed on is one whose validation succeeded.  Rows
    that the program only appends are lists in insertion order.  Arithmetic on money is
    [Decimal] arithmetic of the context's precision (28 digits unless the code sets
    another), with its rounding: nothing is idealised to rationals; theorems that need
    exactness assume amounts on a decimal grid small enough not to round ([LIMIT]), and
    the others hold for every rounding.  Identifiers are digests, so a theorem that
    identifies a row by its identifier either concludes up to an exhibited collision or
    takes injectivity on the payloads at hand.

    ** What the theorems show

    - Orders: the event fold refines the lifecycle of an order; terminal orders are final,
      pending ones can always be ended; appending keeps a stream valid; the order in which
      rows are read does not matter; a soft stop cancels exactly the pending buys.
    - Cash: folding settlement events conserves cash and never spends unsettled cash;
      settling the due receivables settles exactly those.
    - Arms: every history of fills and settlements accounts for its cash, positions and
      receivables; the journal of the same fills holds the same positions and cash; a fill
      changes the arm's value by its commission and price difference only; the stored
      payload reads back as the same state; a clean reconciliation means that the state is
      the one the tables imply.
    - Fills: the largest size within the order, the participation in the displayed size and the
      volume cap, price no better than quoted,
      commissions that add up over partial fills.
    - Risk: no check that breaches a loss threshold goes unanswered; targets only reduce;
      severity falls only by release, which needs a later session; a critical exit is always
      planned, whether it activates, escalates or stands; planning extends the episode's stream.
    - Signals and weights: bars from after the cutoff, bars that are not asked for and the order
      of the bars do not matter;
      scores stay within their clips; from any signal the allocator is long only, within its
      caps and sums to one; covariances are symmetric and floored.
    - Turnover: the daily cap, where it is not bypassed, holds up to a stated allowance;
      emergencies only sell, small
      orders are left out.
    - Orders planned: sales are covered by positions, purchases by settled cash, reductions
      leave their target; a decision uses what was known in time; a reclaimed cycle repeats
      its orders; and one branch of the planner always raises
      ([omitted_rebalance_unplannable]).
    - Planner: plans are due and rest only on data known by then; evidence is consumed in
      exact batches; planning never fails on validated input.
    - Cycles: a session gives exactly the scheduled cycles; every transaction of the store moves
      at most one cycle along its lifecycle; a lease excludes all others until it expires, and
      afterwards its holder can do nothing; the claim loop ends with the first due cycle; a
      session is worked off in its schedule's order.
    - Trading tables: the rows of a cycle carry its attempts in order, and a worker whose lease
      is over adds none; the repository alone keeps every order's rows contiguous and its
      quantity conserved; with workers that prepare events from the book, each stored stream is
      a chain of appends, an event is accepted exactly when nothing was stored for its order
      since, and the query for pending orders agrees with the event fold.
    - Market inputs: the aligned daily series hold stored, adjusted bars that were available by
      the cutoff, of completed sessions only, and all cover the same sessions up to the latest.
    - Execution cycles: each pending order gets exactly one event, unless it waits for its window;
      fills use fresh quotes seen after the order and by now; the arm state and the cash ledger
      move by the same amounts, within the settled cash and the position; the quantity a purchase
      can afford is the largest of its grid; the commit is one run of the repositories' commands,
      refuses stale preparations and takes effect once; and a session that the calendar holds in
      two revisions stops every execution cycle ([revised_session_stops_execution]).
    - Daily evaluations: every arm with a state gets a result, valued at closing quotes and measured
      from its own latest earlier result (an inherited arm without closing quotes is reported as
      unavailable instead); an order that is pending at the close is expired by the
      committed evaluation; the commit is one run of the repositories' commands and takes effect
      once.
    - Evaluation: an attribution covers exactly the sessions both arms have and depends on nothing
      else; performance does not depend on the order of the rows, its drawdown is that of the
      compounded wealth and stays within 0 and 1, and its counts within the sessions.
    - Ledger: in any history of concurrent transactions, each only adds rows and moves at most
      one item, along the lifecycle, from the state that its selection read; stale leases can do
      nothing; a claim takes the first eligible item, and its loop ends; racing dispatch claims
      do not share an item; in serial runs finished work stays finished and model contexts are
      used once, while a claim on a stale snapshot can take over a running execution or restart
      finished work and two concurrent outcomes can share a context (the examples at the end of
      [WorkLifecycle]); storing the same plans twice changes nothing; a granted execution can be
      run.
    - Challengers: every transaction moves at most one challenger, along an allowed
      transition; its stored events are that walk, numbered without gaps; terminal statuses are
      final; each gated status has its evidence on record; a reservation stays within the
      budget, is granted once, and racing ones are serializable; a submission is evaluated once.
    - Gates: an execution result is bound to its request, attested, and has the artifacts of its
      decision; the falsification runner reports exactly when every observation can be stored,
      and its report passes exactly when its tests do; promotion is eligible exactly on its criteria.

    ** Bounds and fuel

    Loops over lists are structural.  The exceptions carry fuel: digit counting (log2 of the
    number plus one, which bounds its decimal digits), the business-day search (the calendar's
    range), the slot loops of [Cycles] (the session's length over the interval,
    [loop_fuel_enough]), and the claim loops, for which [claim_next_terminates] and
    [claim_takes_first_due] show one iteration more than there are items to be enough, and the
    affordability loop, whose fuel is the first quantity in units of its last place plus one
    ([affordable_quantity_is_largest]).  The decimal ln and exp of [DecimalMath]
    follow Python's own algorithm; the loops that raise the working precision carry fuel and
    raise an error when it ends.  Datetimes are microseconds since the epoch; calendar
    years run from 1 to 9999 as in Python.  The New York time zone is a parameter.  A random index
    is drawn again until it is in range, up to 2^64 times ([randbelow]), and each draw is in range
    with a chance of at least one half.

    ** Restrictions

    Decimals are finite: signed zeros are zeros, and NaN, infinities and the exponent limits
    of the context are absent.  Readers of numbers, dates and times accept the canonical
    spelling that the program writes, and reject the others that Python accepts.  Case
    conversion is on ASCII.  Floats are data only: a float in canonical data is the exact binary
    number, written with the digits that the program's 12-digit format gives it.  A database
    transaction is atomic; in the work ledger a claim's selection and an outcome's check of all
    results may see an older snapshot than the state they write to ([run_history]), which is how
    PostgreSQL's READ COMMITTED shows in the model; JSON columns hold
    the contract that they serialise, and numeric columns the amount that they are given.  The
    queries of the preparation of an execution or evaluation cycle run in sessions of their own, so
    each of them sees a store of its own ([Snapshots], [EvaluationSnapshots]); the seconds between
    two quotes are exact, where the program goes through a float; a number or version of the runtime configuration that is written as a list
    or mapping is refused; a quote's spread limit, which only a caller outside the model sets, is
    the database's division and a parameter.  The registration of proposals, challengers and artifacts
    is the insertion of their rows under the tables' constraints.

    ** Not modelled

    The ORM and SQL of the other repositories and the migrations; network, broker, browser
    and language-model providers; subprocess sandboxes and files; the command line, the user
    interface and dashboards; feature formulas and statistics over floats, with the language
    model's overlay that uses them; and the runtime cycles other than the execution and the daily
    evaluation, which fetch inputs and call the functions modelled here.  These are I/O around the core, or, for the
    floats, arithmetic that this library has no model of.  The conversion of provider messages to
    market rows is not modelled either: a market table holds rows.  Of the challenger
    repository: cycles, decisions and evidence bundles, the second version of out-of-sample
    results, performance summaries, trusted promotion and the designation of a champion (so no
    run here reaches PROMOTED).  The earlier generation of the program (forward-paper engine,
    its risk and replay) is left out in favour of the Q1 generation, which replaces it. *)
From stdpp Require Import base list list_numbers strings option sorting sets.
From Stdlib Require Import ZArith Lia Permutation.
Set Default Goal Selector "!".

(** ** Exceptions and the result monad *)

(** The exception classes the modelled code raises.  pydantic wraps every
    validator failure in [ValidationError] (a [ValueError]). *)
Inductive exn_class :=
  | ValueError | KeyError | ValidationError | OrderStateError | Q1RiskError
  | SettlementError | InvalidOperation | DivisionByZero | Q1PriceGuardViolation
  | CanonicalizationError | FalsificationGateError | ResearchPersistenceError
  | ResearchSchedulerPersistenceError | ResearchScheduleFenceError | IntegrityError | Q1MathError | Q1ConfigError | IndexError | StopIteration | Q1PlanningError | ResearchLifecycleError
  | TypeError | OverflowError | PaperCycleFenceError | Q1PersistenceConflict | Q1CycleFenceError | Q1RuntimePersistenceError
  | Q1StaleWorkerError | Q1CycleNotReady | Q1WorkerConfigurationError | Q1ExecutionCycleError | Q1PointInTimeDataError | EvaluationError
  | Q1EvaluationCycleError | Q1EvaluationDataNotReady.

#[global] Instance exn_class_eq_dec : EqDecision exn_class.
Proof. solve_decision. Defined.

(** A raised exception: its class and the head of its message. *)
Record exn := Exn { exn_kind : exn_class; exn_msg : string }.

Inductive res (A : Type) :=
  | Ok (a : A)
  | Raise (e : exn).
Arguments Ok {A} a.
Arguments Raise {A} e.

#[global] Instance res_ret : MRet res := λ A a, Ok a.
#[global] Instance res_bind : MBind res :=
  λ A B f m, match m with Ok a => f a | Raise e => Raise e end.
#[global] Instance res_fmap : FMap res :=
  λ A B f m, match m with Ok a => Ok (f a) | Raise e => Raise e end.

Definition raise {A} (k : exn_class) (m : string) : res A := Raise (Exn k m).

(** [if b: raise k(m)] *)
Definition raise_if (b : bool) (k : exn_class) (m : string) : res () :=
  if b then raise k m else Ok ().

Definition is_ok {A} (r : res A) : bool :=
  match r with Ok _ => true | Raise _ => false end.

(** [while True], at most [p] times: the body continues ([inl]) or leaves the loop ([inr]). *)
Fixpoint iter_until {A B} (p : positive) (f : A → A + B) (a : A) : A + B :=
  match p with
  | xH => f a
  | xO p => match iter_until p f a with inl a => iter_until p f a | inr b => inr b end
  | xI p => match f a with
            | inl a => match iter_until p f a with inl a => iter_until p f a | inr b => inr b end
            | inr b => inr b
            end
  end.

(** [for x in l: acc = f(acc, x)] where the body may raise. *)
Fixpoint foldM {A B} (f : B → A → res B) (acc : B) (l : list A) : res B :=
  match l with
  | [] => Ok acc
  | x :: l => acc ← f acc x; foldM f acc l
  end.

(** [[f(x) for x in l]] where [f] may raise. *)
Fixpoint mapM_res {A B} (f : A → res B) (l : list A) : res (list B) :=
  match l with
  | [] => Ok []
  | x :: l => y ← f x; ys ← mapM_res f l; Ok (y :: ys)
  end.

Lemma bind_Ok_inv {A B} (m : res A) (f : A → res B) b :
  (m ≫= f) = Ok b ↔ ∃ a, m = Ok a ∧ f a = Ok b.
Proof. destruct m; cbn; naive_solver. Qed.

Lemma raise_if_Ok_inv b k m u : raise_if b k m = Ok u ↔ b = false.
Proof. destruct b, u; cbn; naive_solver. Qed.

Lemma raise_not_Ok {A} k m (a : A) : raise k m = Ok a ↔ False.
Proof. by split. Qed.

Lemma mret_Ok_inv {A} (a b : A) : Ok a = Ok b ↔ a = b.
Proof. split; congruence. Qed.

Lemma foldM_app {A B} (f : B → A → res B) acc l1 l2 :
  foldM f acc (l1 ++ l2) = foldM f acc l1 ≫= λ acc', foldM f acc' l2.
Proof. revert acc. induction l1 as [|x l1 IH]; intros acc; cbn; [done|]. destruct (f acc x); cbn; auto. Qed.

(** Induction principle for loops that end normally: an invariant
    established before the loop and kept by every iteration holds at the end. *)
Lemma foldM_invariant {A B} (P : B → Prop) (f : B → A → res B) l :
  (∀ acc x acc', x ∈ l → P acc → f acc x = Ok acc' → P acc') →
  ∀ acc r, P acc → foldM f acc l = Ok r → P r.
Proof.
  induction l as [|x l IH]; intros Hstep acc r HP Hr; cbn in Hr.
  { naive_solver. }
  destruct (f acc x) as [acc'|] eqn:E; cbn in Hr; [|done].
  eapply IH; [|by eapply Hstep; [left|..]|exact Hr].
  intros ???? . eapply Hstep. by right.
Qed.

Lemma mapM_res_Forall2 {A B} (f : A → res B) l ys :
  mapM_res f l = Ok ys ↔ Forall2 (λ x y, f x = Ok y) l ys.
Proof.
  revert ys. induction l as [|x l IH]; intros ys; cbn.
  { split; [intros [= <-]; constructor|]. by inversion 1. }
  split.
  - destruct (f x) eqn:E; cbn; [|done].
    destruct (mapM_res f l) eqn:E2; cbn; [|done]. intros [= <-].
    constructor; [done|]. by apply IH.
  - inversion 1 as [|??? l' Hx Hl]; subst. rewrite Hx; cbn.
    apply IH in Hl. by rewrite Hl.
Qed.

(** ** Automation *)

Create HintDb q1.

(** Peel a successful run of monadic code into its successful parts. *)
Ltac inv_ok :=
  repeat match goal with
  | H : Ok _ = Ok _ |- _ => injection H as H; try subst
  | H : Raise _ = Ok _ |- _ => discriminate H
  | H : raise _ _ = Ok _ |- _ => discriminate H
  | H : mret _ = Ok _ |- _ => change (Ok _ = Ok _) in H
  | H : raise_if _ _ _ = Ok _ |- _ => apply raise_if_Ok_inv in H
  | H : mbind _ _ = Ok _ |- _ =>
      let x := fresh "x" in let E := fresh "E" in
      apply bind_Ok_inv in H as (x & E & H)
  | x : unit |- _ => destruct x
  end.

Ltac split_bool :=
  repeat match goal with
  | H : (_ || _) = false |- _ => apply orb_false_iff in H as [? ?]
  | H : (_ && _) = true |- _ => apply andb_true_iff in H as [? ?]
  | H : negb _ = true |- _ => apply negb_true_iff in H
  | H : negb _ = false |- _ => apply negb_false_iff in H
  | H : bool_decide _ = true |- _ => apply bool_decide_eq_true in H
  | H : bool_decide _ = false |- _ => apply bool_decide_eq_false in H
  end.

(** ** Python's [sorted]: a stable sort by a boolean order *)

Section py_sorted.
Context {A : Type} (le : A → A → bool).

Fixpoint sinsert (x : A) (l : list A) : list A :=
  match l with
  | [] => [x]
  | y :: l' => if le x y then x :: y :: l' else y :: sinsert x l'
  end.

Fixpoint sorted (l : list A) : list A :=
  match l with
  | [] => []
  | x :: l' => sinsert x (sorted l')
  end.

Lemma sinsert_perm x l : sinsert x l ≡ₚ x :: l.
Proof.
  induction l as [|y l IH]; cbn; [done|]. destruct (le x y); [done|].
  rewrite IH. constructor.
Qed.

Lemma sorted_perm l : sorted l ≡ₚ l.
Proof. induction l as [|x l IH]; cbn; [done|]. by rewrite sinsert_perm, IH. Qed.

Lemma elem_of_sorted x l : x ∈ sorted l ↔ x ∈ l.
Proof. by rewrite sorted_perm. Qed.

Lemma length_sorted l : length (sorted l) = length l.
Proof. by rewrite sorted_perm. Qed.

Hypothesis le_total : ∀ x y, le x y = false → le y x = true.
Hypothesis le_trans : ∀ x y z, le x y = true → le y z = true → le x z = true.

Lemma sinsert_sorted x l :
  StronglySorted (λ a b, le a b = true) l → StronglySorted (λ a b, le a b = true) (sinsert x l).
Proof.
  induction 1 as [|y l Hl IH Hy]; cbn; [repeat constructor|].
  destruct (le x y) eqn:E.
  - constructor; [by constructor|]. constructor; [done|].
    eapply Forall_impl; [exact Hy|]. eauto.
  - constructor; [done|]. rewrite sinsert_perm. constructor; auto.
Qed.

Lemma sorted_StronglySorted l : StronglySorted (λ a b, le a b = true) (sorted l).
Proof. induction l; cbn; [constructor|]. by apply sinsert_sorted. Qed.

(** A list that is already in order is not changed. *)
Lemma sorted_id l : StronglySorted (λ a b, le a b = true) l → sorted l = l.
Proof.
  induction 1 as [|x l Hl IH Hx]; cbn; [done|]. rewrite IH.
  destruct Hx as [|y l Hxy _]; cbn; [done|]. by rewrite Hxy.
Qed.
End py_sorted.

(** Two strictly increasing lists with the same elements are equal, so sorting by
    an injective key forgets the order of the input. *)
Lemma strongly_sorted_unique {A} (R : A → A → Prop) l1 l2 :
  (∀ x, ¬ R x x) → (∀ x y, R x y → R y x → False) →
  StronglySorted R l1 → StronglySorted R l2 → l1 ≡ₚ l2 → l1 = l2.
Proof.
  intros Hirr Hasym. revert l2. induction l1 as [|x l1 IH]; intros l2 H1 H2 Hp.
  { by apply Permutation_nil in Hp. }
  destruct l2 as [|y l2]; [by apply Permutation_sym, Permutation_nil_cons in Hp|].
  inversion H1 as [|?? H1' Hx]; inversion H2 as [|?? H2' Hy]; subst.
  assert (x = y) as ->.
  { assert (x ∈ y :: l2) as Hin by (rewrite <- Hp; left).
    apply elem_of_cons in Hin as [->|Hin]; [done|].
    assert (y ∈ x :: l1) as Hin' by (rewrite Hp; left).
    apply elem_of_cons in Hin' as [->|Hin']; [done|].
    rewrite Forall_forall in Hx, Hy. exfalso. eauto. }
  f_equal. apply IH; [done..|]. by eapply Permutation_cons_inv.
Qed.

(** ** Python dictionaries: insertion-ordered association lists *)

Abbreviation pydict A := (list (string * A)).

(** [d.get(k)] *)
Fixpoint dget {A} (k : string) (d : pydict A) : option A :=
  match d with
  | [] => None
  | (k', v) :: d => if String.eqb k k' then Some v else dget k d
  end.

(** [d[k] = v]: overwrites in place, or appends a new key at the end. *)
Fixpoint dset {A} (k : string) (v : A) (d : pydict A) : pydict A :=
  match d with
  | [] => [(k, v)]
  | (k', v') :: d => if String.eqb k k' then (k', v) :: d else (k', v') :: dset k v d
  end.

(** [d.pop(k, None)] *)
Fixpoint dpop {A} (k : string) (d : pydict A) : pydict A :=
  match d with
  | [] => []
  | (k', v') :: d => if String.eqb k k' then d else (k', v') :: dpop k d
  end.

(** [d[k]] *)
Definition dindex {A} (k : string) (d : pydict A) : res A :=
  match dget k d with Some v => Ok v | None => raise KeyError k end.

Definition dmem {A} (k : string) (d : pydict A) : bool :=
  match dget k d with Some _ => true | None => false end.

(** [sorted(d.items())]: the keys of a dictionary are distinct, so the order
    is the order of the keys. *)
Definition sorted_items {A} (d : pydict A) : pydict A :=
  sorted (λ a b, String.leb a.1 b.1) d.

(** A dictionary built from pairs, later pairs overwriting earlier ones. *)
Definition dict_of_pairs {A} (l : list (string * A)) : pydict A :=
  fold_left (λ d kv, dset kv.1 kv.2 d) l [].

Lemma dget_dset {A} k k' (v : A) d :
  dget k' (dset k v d) = if String.eqb k' k then Some v else dget k' d.
Proof.
  induction d as [|[k2 v2] d IH]; cbn; [done|].
  destruct (String.eqb_spec k k2) as [->|Hk]; cbn.
  - by destruct (String.eqb_spec k' k2).
  - rewrite IH. destruct (String.eqb_spec k' k2), (String.eqb_spec k' k); congruence.
Qed.

Lemma dget_dset_eq {A} k (v : A) d : dget k (dset k v d) = Some v.
Proof. by rewrite dget_dset, String.eqb_refl. Qed.

Lemma dget_dset_ne {A} k k' (v : A) d : k' ≠ k → dget k' (dset k v d) = dget k' d.
Proof. intros. rewrite dget_dset. by destruct (String.eqb_spec k' k). Qed.

Lemma dset_keys {A} k (v : A) d k' : k' ∈ (dset k v d).*1 ↔ k' = k ∨ k' ∈ d.*1.
Proof.
  induction d as [|[k2 v2] d IH]; cbn; [set_solver|].
  destruct (String.eqb_spec k k2) as [->|Hk]; cbn; set_solver.
Qed.

Lemma dset_NoDup {A} k (v : A) d : NoDup d.*1 → NoDup (dset k v d).*1.
Proof.
  induction d as [|[k2 v2] d IH]; cbn; intros H.
  { repeat constructor. set_solver. }
  apply NoDup_cons in H as [H1 H2].
  destruct (String.eqb_spec k k2) as [->|Hk]; cbn; apply NoDup_cons; split; auto.
  rewrite dset_keys. set_solver.
Qed.

Lemma dpop_keys {A} k (d : pydict A) k' : NoDup d.*1 → k' ∈ (dpop k d).*1 ↔ k' ≠ k ∧ k' ∈ d.*1.
Proof.
  induction d as [|[k2 v2] d IH]; cbn; intros H; [set_solver|].
  apply NoDup_cons in H as [H1 H2].
  destruct (String.eqb_spec k k2) as [->|Hk]; cbn; [|set_solver].
  split; [|set_solver]. intros Hin. split; [|set_solver]. intros ->. done.
Qed.

Lemma dpop_NoDup {A} k (d : pydict A) : NoDup d.*1 → NoDup (dpop k d).*1.
Proof.
  induction d as [|[k2 v2] d IH]; cbn; intros H; [done|].
  apply NoDup_cons in H as [H1 H2].
  destruct (String.eqb_spec k k2) as [->|Hk]; cbn; [done|].
  apply NoDup_cons; split; [|auto]. rewrite dpop_keys by done. set_solver.
Qed.

Lemma dget_dpop {A} k k' (d : pydict A) :
  NoDup d.*1 → dget k' (dpop k d) = if String.eqb k' k then None else dget k' d.
Proof.
  induction d as [|[k2 v2] d IH]; cbn; intros H; [by destruct (String.eqb _ _)|].
  apply NoDup_cons in H as [H1 H2].
  destruct (String.eqb_spec k k2) as [->|Hk]; cbn.
  - destruct (String.eqb_spec k' k2) as [->|]; [|done].
    clear IH H2. induction d as [|[k3 v3] d IH]; cbn; [done|].
    cbn in H1. destruct (String.eqb_spec k2 k3) as [->|]; [set_solver|].
    apply IH. set_solver.
  - rewrite IH by done. destruct (String.eqb_spec k' k2), (String.eqb_spec k' k); congruence.
Qed.

Lemma dget_Some_elem {A} k (v : A) d : dget k d = Some v → (k, v) ∈ d.
Proof.
  induction d as [|[k2 v2] d IH]; cbn; [done|].
  destruct (String.eqb_spec k k2) as [->|]; intros H; [|right; auto].
  injection H as ->. left.
Qed.

Lemma dget_None_not_key {A} k (d : pydict A) : dget k d = None ↔ k ∉ d.*1.
Proof.
  induction d as [|[k2 v2] d IH]; cbn; [set_solver|].
  destruct (String.eqb_spec k k2) as [->|]; [set_solver|]. rewrite IH. set_solver.
Qed.

Lemma dget_elem {A} k (v : A) d : NoDup d.*1 → (k, v) ∈ d → dget k d = Some v.
Proof.
  induction d as [|[k2 v2] d IH]; cbn; intros H Hin; [set_solver|].
  apply NoDup_cons in H as [H1 H2]. apply elem_of_cons in Hin as [[= -> ->]|Hin].
  { by rewrite String.eqb_refl. }
  destruct (String.eqb_spec k k2) as [->|]; [|auto].
  exfalso. apply H1. apply list_elem_of_fmap. by exists (k2, v).
Qed.

#[export] Hint Resolve dset_NoDup dpop_NoDup : q1.

(** ** Strings *)

Lemma string_compare_trans a b c :
  String.compare a b ≠ Gt → String.compare b c ≠ Gt → String.compare a c ≠ Gt.
Proof.
  revert b c. induction a as [|x a IH]; intros [|y b] [|z c]; cbn; try done.
  unfold Ascii.compare.
  destruct (N.compare_spec (Ascii.N_of_ascii x) (Ascii.N_of_ascii y));
    destruct (N.compare_spec (Ascii.N_of_ascii y) (Ascii.N_of_ascii z));
    destruct (N.compare_spec (Ascii.N_of_ascii x) (Ascii.N_of_ascii z));
    try done; try lia; eauto.
Qed.

Lemma string_leb_total a b : String.leb a b = false → String.leb b a = true.
Proof. unfold String.leb. rewrite (String.compare_antisym a b). by destruct (String.compare b a). Qed.

Lemma string_leb_trans a b c : String.leb a b = true → String.leb b c = true → String.leb a c = true.
Proof.
  unfold String.leb. intros H1 H2.
  assert (String.compare a c ≠ Gt) as H
    by (eapply (string_compare_trans a b c); [by destruct (String.compare a b)|by destruct (String.compare b c)]).
  by destruct (String.compare a c).
Qed.

Lemma string_leb_refl a : String.leb a a = true.
Proof. unfold String.leb. induction a; cbn; [done|]. unfold Ascii.compare. by rewrite N.compare_refl. Qed.

Lemma string_leb_antisym a b : String.leb a b = true → String.leb b a = true → a = b.
Proof.
  unfold String.leb. intros H1 H2. rewrite (String.compare_antisym a b) in H1.
  destruct (String.compare b a) eqn:E; try done. symmetry. by apply String.compare_eq_iff.
Qed.

Lemma sorted_items_perm {A} (d : pydict A) : sorted_items d ≡ₚ d.
Proof. apply sorted_perm. Qed.

(** ** Filters, enumeration and other list helpers *)

Lemma elem_of_filterb {A} (f : A → bool) x l : x ∈ List.filter f l ↔ f x = true ∧ x ∈ l.
Proof. rewrite !list_elem_of_In, filter_In. tauto. Qed.

Lemma NoDup_map_filter {A B} (g : A → B) (f : A → bool) l : NoDup (map g l) → NoDup (map g (List.filter f l)).
Proof.
  induction l as [|x l IH]; cbn; [done|]. intros [Hx Hl]%NoDup_cons. destruct (f x); cbn; [|by apply IH]. apply NoDup_cons. split; [|by apply IH].
  intros (y & E & [_ Hy]%elem_of_filterb)%list_elem_of_fmap. apply Hx. rewrite E. apply list_elem_of_fmap. eauto.
Qed.

Lemma NoDup_filter_fst {A} (f : string * A → bool) (d : pydict A) : NoDup d.*1 → NoDup (List.filter f d).*1.
Proof. apply (NoDup_map_filter fst). Qed.

Lemma filterb_perm {A} (f : A → bool) l1 l2 : l1 ≡ₚ l2 → List.filter f l1 ≡ₚ List.filter f l2.
Proof.
  induction 1 as [|x l l' _ IH|x y l|? ? ? _ IH1 _ IH2]; cbn; [done| | |by etrans].
  - destruct (f x); by rewrite ?IH.
  - destruct (f x), (f y); try done. constructor.
Qed.

Lemma filterb_nil {A} (f : A → bool) l : (∀ x, x ∈ l → f x = false) → List.filter f l = [].
Proof.
  induction l as [|x l IH]; cbn; intros H; [done|]. rewrite (H x) by left. apply IH. intros. apply H. by right.
Qed.

Lemma filterb_all {A} (f : A → bool) l : (∀ x, x ∈ l → f x = true) → List.filter f l = l.
Proof.
  induction l as [|x l IH]; cbn; intros H; [done|]. rewrite (H x) by left. f_equal. apply IH. intros. apply H. by right.
Qed.

(** [all(f(x) == i for i, x in enumerate(l, start=n))] *)
Fixpoint contiguous {A} (f : A → Z) (n : Z) (l : list A) : bool :=
  match l with
  | [] => true
  | x :: l => (f x =? n)%Z && contiguous f (n + 1) l
  end.

Section by_sequence.
Context {A : Type} (f : A → Z).

Definition seq_le (a b : A) : bool := (f a <=? f b)%Z.

Lemma contiguous_ge n l x : contiguous f n l = true → x ∈ l → (n <= f x)%Z.
Proof.
  revert n. induction l as [|y l IH]; cbn; intros n H Hx; [set_solver|]. split_bool.
  apply elem_of_cons in Hx as [->|Hx]; [lia|]. specialize (IH _ H0 Hx). lia.
Qed.

Lemma contiguous_strict n l : contiguous f n l = true → StronglySorted (λ a b, (f a < f b)%Z) l.
Proof.
  revert n. induction l as [|y l IH]; cbn; intros n H; [constructor|]. split_bool.
  constructor; [eauto|]. rewrite Forall_forall. intros x Hx. pose proof (contiguous_ge _ _ _ H0 Hx). lia.
Qed.

(** A contiguous stream has one order: sorting any permutation of it gives it back. *)
Lemma sorted_contiguous_unique l1 l2 :
  contiguous f 1 (sorted seq_le l1) = true → l1 ≡ₚ l2 → sorted seq_le l1 = sorted seq_le l2.
Proof.
  intros Hc Hp. pose proof (contiguous_strict _ _ Hc) as Hs.
  assert (sorted seq_le l1 ≡ₚ sorted seq_le l2) as Hp' by (by rewrite !sorted_perm).
  assert (NoDup (map f (sorted seq_le l1))) as Hn.
  { clear Hc Hp Hp'. induction Hs as [|x l Hl IH Hx]; cbn; [constructor|].
    apply NoDup_cons. split; [|done]. intros (y & Ey & Hy)%list_elem_of_fmap.
    rewrite Forall_forall in Hx. specialize (Hx y Hy). cbn in Hx. lia. }
  apply (strongly_sorted_unique (λ a b, (f a < f b)%Z)); [lia|lia|done| |done].
  assert (NoDup (map f (sorted seq_le l2))) as Hn2 by (by rewrite <- Hp').
  assert (StronglySorted (λ a b, seq_le a b = true) (sorted seq_le l2)) as Hs2.
  { apply sorted_StronglySorted; unfold seq_le; lia. }
  clear - Hn2 Hs2. induction Hs2 as [|x l Hl IH Hx]; [constructor|]. cbn in Hn2.
  apply NoDup_cons in Hn2 as [Hn1 Hn2]. constructor; [auto|]. rewrite Forall_forall in *.
  intros y Hy. specialize (Hx y Hy). unfold seq_le in Hx.
  assert (f x ≠ f y); [|lia]. intros E. apply Hn1. rewrite E. apply list_elem_of_fmap. eauto.
Qed.

Lemma contiguous_app n l1 l2 :
  contiguous f n (l1 ++ l2) = contiguous f n l1 && contiguous f (n + Z.of_nat (length l1)) l2.
Proof.
  revert n. induction l1 as [|x l1 IH]; intros n; cbn [app contiguous length].
  { change (Z.of_nat 0) with 0%Z. by rewrite Z.add_0_r. }
  rewrite IH, andb_assoc. do 2 f_equal. lia.
Qed.

Lemma contiguous_sorted n l : contiguous f n l = true → sorted seq_le l = l.
Proof.
  intros H. apply sorted_id. apply contiguous_strict in H.
  induction H as [|x l Hl IH Hx]; constructor; [done|].
  eapply Forall_impl; [exact Hx|]. unfold seq_le. cbn. intros. lia.
Qed.

(** Appending the element with the next sequence number keeps the sorted stream and adds it at the end. *)
Lemma sorted_snoc_next l x :
  contiguous f 1 (sorted seq_le l) = true → f x = (1 + Z.of_nat (length l))%Z →
  sorted seq_le (l ++ [x]) = sorted seq_le l ++ [x] ∧ contiguous f 1 (sorted seq_le l ++ [x]) = true.
Proof.
  intros Hc Hx. assert (contiguous f 1 (sorted seq_le l ++ [x]) = true) as Hc'.
  { rewrite contiguous_app, Hc. cbn. rewrite length_sorted, Hx. rewrite Z.eqb_refl. done. }
  split; [|done]. rewrite <- (contiguous_sorted _ _ Hc'). symmetry. apply sorted_contiguous_unique.
  - by rewrite (contiguous_sorted _ _ Hc').
  - by rewrite sorted_perm.
Qed.
End by_sequence.

Lemma foldM_snoc {A B} (f : B → A → res B) acc l x :
  foldM f acc (l ++ [x]) = foldM f acc l ≫= λ acc', f acc' x.
Proof. rewrite foldM_app. destruct (foldM f acc l); cbn; [|done]. by destruct (f a x). Qed.

(** A loop that succeeds also succeeds, with the same result, when its body is replaced by one that agrees on success. *)
Lemma foldM_mono {A B} (f g : B → A → res B) l acc r :
  (∀ acc x r, x ∈ l → f acc x = Ok r → g acc x = Ok r) → foldM f acc l = Ok r → foldM g acc l = Ok r.
Proof.
  revert acc. induction l as [|x l IH]; intros acc Hfg; cbn; [done|]. intros (a & Ha & Hl)%bind_Ok_inv.
  rewrite (Hfg _ _ _ ltac:(left) Ha). cbn. apply IH; [|done]. intros ???? . apply Hfg. by right.
Qed.

(** Loop invariants that mention the elements processed so far. *)
Lemma foldM_prefix_invariant {A B} (P : list A → B → Prop) (f : B → A → res B) acc0 :
  P [] acc0 → ∀ l r,
  (∀ pre x acc acc', pre ++ [x] `prefix_of` l → P pre acc → f acc x = Ok acc' → P (pre ++ [x]) acc') →
  foldM f acc0 l = Ok r → P l r.
Proof.
  intros H0 l. induction l as [|x l IH] using rev_ind; intros r Hstep Hf.
  { cbn in Hf. by injection Hf as <-. }
  rewrite foldM_snoc in Hf. apply bind_Ok_inv in Hf as (acc & Hl & Hx).
  eapply Hstep; [done| |exact Hx]. apply IH; [|done].
  intros pre y a a' Hpre. apply Hstep. etrans; [exact Hpre|]. by apply prefix_app_r.
Qed.

(** Sorting with a total order that separates the elements forgets the input order. *)
Lemma sorted_perm_unique {A} (le : A → A → bool) l1 l2 :
  (∀ x y, le x y = false → le y x = true) →
  (∀ x y z, le x y = true → le y z = true → le x z = true) →
  (∀ x y, x ∈ l1 → y ∈ l1 → le x y = true → le y x = true → x = y) →
  l1 ≡ₚ l2 → sorted le l1 = sorted le l2.
Proof.
  intros Htot Htr Hanti Hp.
  assert (Hs : ∀ l, StronglySorted (λ a b, le a b = true) (sorted le l)) by (intros; by apply sorted_StronglySorted).
  assert (sorted le l1 ≡ₚ sorted le l2) as Hp' by (by rewrite !sorted_perm).
  assert (∀ x y, x ∈ sorted le l1 → y ∈ sorted le l1 → le x y = true → le y x = true → x = y) as Ha'
    by (intros x y; rewrite !elem_of_sorted; apply Hanti).
  generalize (Hs l1) (Hs l2). revert Hp' Ha'. generalize (sorted le l2), (sorted le l1). clear.
  intros l2 l1. revert l2. induction l1 as [|x l1 IH]; intros l2 Hp Ha H1 H2.
  { by apply Permutation_nil in Hp. }
  destruct l2 as [|y l2]; [by apply Permutation_sym, Permutation_nil_cons in Hp|].
  inversion H1 as [|?? H1' Hx]; inversion H2 as [|?? H2' Hy]; subst. rewrite Forall_forall in Hx, Hy.
  assert (x = y) as ->.
  { assert (x ∈ y :: l2) as Hin by (rewrite <- Hp; left). apply elem_of_cons in Hin as [->|Hin]; [done|].
    assert (y ∈ x :: l1) as Hin' by (rewrite Hp; left). apply elem_of_cons in Hin' as [->|Hin']; [done|].
    apply Ha; [left|by right|auto|auto]. }
  f_equal. apply IH; [by eapply Permutation_cons_inv| |done|done].
  intros a b Hxa Hxb. apply Ha; by right.
Qed.

(** A loop that skips some elements and appends one result for each of the others. *)
Lemma foldM_collect {A B} (skip : A → bool) (f : A → res B) r0 l r :
  foldM (λ r x, if skip x then Ok r else y ← f x; Ok (r ++ [y])) r0 l = Ok r →
  ∃ ys, r = r0 ++ ys ∧ Forall2 (λ x y, f x = Ok y) (List.filter (λ x, negb (skip x)) l) ys.
Proof.
  revert r0. induction l as [|x l IH]; intros r0 Hr; cbn in Hr.
  { injection Hr as <-. exists []. rewrite app_nil_r. by split. }
  apply bind_Ok_inv in Hr as (r1 & H1 & Hr). destruct (IH _ Hr) as (ys & -> & Hys). cbn.
  destruct (skip x); cbn.
  - injection H1 as <-. by exists ys.
  - apply bind_Ok_inv in H1 as (y & Hy & [= <-]). exists (y :: ys). rewrite <- app_assoc. split; [done|]. by constructor.
Qed.

(** When every element is skipped the loop returns its start value. *)
Lemma foldM_skip_all {A B} (skip : A → bool) (f : A → res B) r0 l :
  (∀ x, x ∈ l → skip x = true) →
  foldM (λ r x, if skip x then Ok r else y ← f x; Ok (r ++ [y])) r0 l = Ok r0.
Proof.
  induction l as [|x l IH]; intros Hs; cbn; [done|]. rewrite (Hs x) by left. cbn. apply IH. intros. apply Hs. by right.
Qed.

(** ** Integer sums *)

Definition zsum (l : list Z) : Z := foldr Z.add 0%Z l.

Lemma zsum_app l1 l2 : zsum (l1 ++ l2) = (zsum l1 + zsum l2)%Z.
Proof. induction l1 as [|x l1 IH]; cbn; [done|]. unfold zsum in *. rewrite IH. lia. Qed.

Lemma zsum_cons x l : zsum (x :: l) = (x + zsum l)%Z.
Proof. done. Qed.

#[global] Instance zsum_perm : Proper (Permutation ==> eq) zsum.
Proof. induction 1; cbn in *; unfold zsum in *; lia. Qed.

Lemma zsum_abs_le l : (Z.abs (zsum l) <= zsum (map Z.abs l))%Z.
Proof. induction l as [|x l IH]; cbn; [done|]. unfold zsum in *. lia. Qed.

Lemma zsum_abs_nonneg l : (0 <= zsum (map Z.abs l))%Z.
Proof. pose proof (zsum_abs_le l). lia. Qed.

Lemma zsum_map_add {A} (f g : A → Z) l : zsum (map (λ x, (f x + g x)%Z) l) = (zsum (map f l) + zsum (map g l))%Z.
Proof. induction l as [|x l IH]; cbn in *; unfold zsum in *; lia. Qed.

(** ** Dictionaries built from pairs *)

Lemma dict_of_pairs_snoc {A} (l : list (string * A)) kv :
  dict_of_pairs (l ++ [kv]) = dset kv.1 kv.2 (dict_of_pairs l).
Proof. unfold dict_of_pairs. by rewrite fold_left_app. Qed.

Lemma dict_of_pairs_NoDup {A} (l : list (string * A)) : NoDup (dict_of_pairs l).*1.
Proof.
  induction l as [|kv l IH] using rev_ind; [constructor|]. rewrite dict_of_pairs_snoc. by apply dset_NoDup.
Qed.

Lemma dict_of_pairs_elem {A} (l : list (string * A)) k v : dget k (dict_of_pairs l) = Some v → (k, v) ∈ l.
Proof.
  induction l as [|[k2 v2] l IH] using rev_ind; [done|]. rewrite dict_of_pairs_snoc, dget_dset. cbn.
  destruct (String.eqb_spec k k2) as [->|]; [intros [= ->]; set_solver|]. intros ?. set_solver.
Qed.

Lemma dict_of_pairs_mem {A} (l : list (string * A)) k v : (k, v) ∈ l → ∃ v', dget k (dict_of_pairs l) = Some v'.
Proof.
  induction l as [|[k2 v2] l IH] using rev_ind; [set_solver|]. rewrite dict_of_pairs_snoc, dget_dset. cbn.
  intros Hin. destruct (String.eqb_spec k k2) as [->|]; [eauto|]. apply IH. set_solver.
Qed.

Lemma dset_fresh {A} k (v : A) d : dget k d = None → dset k v d = d ++ [(k, v)].
Proof.
  induction d as [|[k2 v2] d IH]; cbn; [done|]. destruct (String.eqb k k2); [done|]. intros. by rewrite IH.
Qed.

Lemma dpop_split {A} k (v : A) d : dget k d = Some v → d ≡ₚ (k, v) :: dpop k d.
Proof.
  induction d as [|[k2 v2] d IH]; cbn; [done|]. destruct (String.eqb_spec k k2) as [->|]; [by intros [= ->]|].
  intros. rewrite IH at 1 by done. constructor.
Qed.

Lemma prefix_of_snoc_elem {A} (pre l : list A) x : pre ++ [x] `prefix_of` l → x ∈ l.
Proof. intros [k ->]. set_solver. Qed.

(** Sums over a part of a list of magnitudes. *)
Lemma zsum_abs_prefix (pre l : list Z) : pre `prefix_of` l → (zsum (map Z.abs pre) <= zsum (map Z.abs l))%Z.
Proof. intros [k ->]. rewrite map_app, zsum_app. pose proof (zsum_abs_nonneg k). lia. Qed.

Lemma zsum_abs_filter {A} (f : A → bool) (g : A → Z) l :
  (zsum (map Z.abs (map g (List.filter f l))) <= zsum (map Z.abs (map g l)))%Z.
Proof. induction l as [|x l IH]; cbn; [done|]. destruct (f x); cbn; unfold zsum in *; lia. Qed.

Lemma zsum_abs_elem x l : x ∈ l → (Z.abs x <= zsum (map Z.abs l))%Z.
Proof.
  induction 1 as [x l|x y l _ IH]; cbn [map]; rewrite zsum_cons; [|lia]. pose proof (zsum_abs_nonneg l). lia.
Qed.

Lemma foldM_ext {A B} (f g : B → A → res B) acc l : (∀ acc x, f acc x = g acc x) → foldM f acc l = foldM g acc l.
Proof. intros E. revert acc. induction l as [|x l IH]; intros acc; cbn; [done|]. rewrite E. by destruct (g acc x); cbn. Qed.

(** The sum over a dictionary after an update. *)
Lemma zsum_dset {A} (g : string * A → Z) k v d :
  zsum (map g (dset k v d)) = (zsum (map g d) - match dget k d with Some v0 => g (k, v0) | None => 0 end + g (k, v))%Z.
Proof.
  induction d as [|[k2 v2] d IH]; cbn [dset dget map]; [unfold zsum; cbn; lia|].
  destruct (String.eqb_spec k k2) as [->|]; cbn [map]; rewrite !zsum_cons; [lia|]. rewrite IH. lia.
Qed.

Lemma Forall_dset {A} (P : string * A → Prop) k v d : Forall P d → P (k, v) → Forall P (dset k v d).
Proof.
  induction 1 as [|[k2 v2] d H1 H2 IH]; cbn; intros Hv; [by repeat constructor|].
  destruct (String.eqb_spec k k2) as [->|]; constructor; auto.
Qed.

Lemma Forall_dpop {A} (P : string * A → Prop) k d : Forall P d → Forall P (dpop k d).
Proof. induction 1 as [|[k2 v2] d H1 H2 IH]; cbn; [done|]. destruct (String.eqb k k2); [done|]. by constructor. Qed.

(** Pairs with distinct keys are the dictionary they build, and only they keep its length. *)
Lemma dict_of_pairs_keys {A} (l : list (string * A)) k : k ∈ map fst (dict_of_pairs l) ↔ k ∈ map fst l.
Proof.
  rewrite !list_elem_of_fmap. split; intros ([k' v] & -> & Hin).
  - apply (dget_elem k') in Hin; [|apply dict_of_pairs_NoDup]. apply dict_of_pairs_elem in Hin. by exists (k', v).
  - destruct (dict_of_pairs_mem _ _ _ Hin) as (v' & Hg%dget_Some_elem). by exists (k', v').
Qed.

Lemma dict_of_pairs_id {A} (l : list (string * A)) : NoDup l.*1 → dict_of_pairs l = l.
Proof.
  induction l as [|[k v] l IH] using rev_ind; [done|]. rewrite fmap_app. intros (H1 & H2 & _)%NoDup_app. rewrite dict_of_pairs_snoc, IH by done. cbn.
  apply dset_fresh. apply dget_None_not_key. intros Hk. apply (H2 k Hk). by left.
Qed.

Lemma dict_of_pairs_length {A} (l : list (string * A)) : length (dict_of_pairs l) = length l → NoDup l.*1.
Proof.
  intros Hlen. assert ((dict_of_pairs l).*1 ≡ₚ l.*1) as <-; [|apply dict_of_pairs_NoDup].
  apply submseteq_length_Permutation; [|by rewrite !length_fmap, Hlen]. apply NoDup_submseteq; [apply dict_of_pairs_NoDup|].
  intros k ([k' v] & -> & Hin)%list_elem_of_fmap. apply (dget_elem k') in Hin; [|apply dict_of_pairs_NoDup].
  apply dict_of_pairs_elem in Hin. apply list_elem_of_fmap. by exists (k', v).
Qed.

(** ** Tuple keys, [max] by a key, and batches *)

(** Tuples compare lexicographically: the comparisons of their fields, first difference first. *)
Fixpoint lex_lt (cs : list comparison) : bool :=
  match cs with [] => false | Lt :: _ => true | Eq :: cs => lex_lt cs | Gt :: _ => false end.

(** [max(x, *l, key=...)]: the first greatest element. *)
Definition max_by {A} (lt : A → A → bool) (x : A) (l : list A) : A := fold_left (λ m y, if lt m y then y else m) l x.

(** [l[0:n], l[n:2n], ...] as long as they are full. *)
Fixpoint full_batches {A} (fuel n : nat) (l : list A) : list (list A) :=
  match fuel with
  | O => []
  | S fuel => if (length (take n l) <? n)%nat then [] else take n l :: full_batches fuel n (drop n l)
  end.

Lemma max_by_elem {A} (lt : A → A → bool) x l : max_by lt x l ∈ x :: l.
Proof.
  unfold max_by. revert x. induction l as [|y l IH]; intros x; cbn; [by left|].
  destruct (lt x y); [right; apply IH|]. specialize (IH x). set_solver.
Qed.

(** When the order refines an integer key, the greatest element has the greatest key. *)
Lemma max_by_key {A} (key : A → Z) (lt : A → A → bool) x l :
  (∀ a b, if lt a b then (key a <= key b)%Z else (key b <= key a)%Z) → ∀ y, y ∈ x :: l → (key y <= key (max_by lt x l))%Z.
Proof.
  intros Hlt. unfold max_by. revert x. induction l as [|z l IH]; intros x y Hy; cbn [fold_left].
  { apply list_elem_of_singleton in Hy as ->. lia. }
  specialize (Hlt x z). destruct (lt x z).
  - pose proof (IH z z ltac:(left)). apply elem_of_cons in Hy as [->|Hy]; [lia|]. by apply IH.
  - pose proof (IH x x ltac:(left)). apply elem_of_cons in Hy as [->|Hy]; [lia|].
    apply elem_of_cons in Hy as [->|Hy]; [lia|]. apply IH. by right.
Qed.

(** The greatest element of a total preorder that the order refines. *)
Lemma max_by_greatest {A} (R : A → A → Prop) (lt : A → A → bool) x l :
  (∀ a, R a a) → (∀ a b c, R a b → R b c → R a c) → (∀ a b, if lt a b then R b a else R a b) →
  ∀ y, y ∈ x :: l → R (max_by lt x l) y.
Proof.
  intros Hr Ht Hlt. unfold max_by. revert x. induction l as [|z l IH]; intros x y Hy; cbn [fold_left].
  { apply list_elem_of_singleton in Hy as ->. apply Hr. }
  specialize (Hlt x z). destruct (lt x z).
  - apply elem_of_cons in Hy as [->|Hy]; [|by apply IH]. eapply Ht; [|exact Hlt]. apply IH. left.
  - apply elem_of_cons in Hy as [->|Hy]; [apply IH; left|]. apply elem_of_cons in Hy as [->|Hy]; [|apply IH; by right].
    eapply Ht; [|exact Hlt]. apply IH. left.
Qed.

Lemma max_by_snoc {A} (lt : A → A → bool) x l y : max_by lt x (l ++ [y]) = if lt (max_by lt x l) y then y else max_by lt x l.
Proof. unfold max_by. by rewrite fold_left_app. Qed.

Lemma length_filter_lt {A} (p q : A → bool) l x :
  (∀ y, p y = true → q y = true) → x ∈ l → q x = true → p x = false → (length (List.filter p l) < length (List.filter q l))%nat.
Proof.
  intros Hpq Hx Hq Hp.
  assert (∀ l, length (List.filter p l) <= length (List.filter q l))%nat as Hle.
  { intros l'. induction l' as [|y l' IH]; cbn; [lia|]. specialize (Hpq y). destruct (p y), (q y); cbn; try lia; by discriminate Hpq. }
  induction Hx as [x l|x y l Hx IH]; cbn.
  - rewrite Hp, Hq. cbn. specialize (Hle l). lia.
  - specialize (IH Hq Hp). specialize (Hpq y). destruct (p y), (q y); cbn; try lia; by discriminate Hpq.
Qed.

Lemma length_filterb_le {A} (p : A → bool) l : (length (List.filter p l) <= length l)%nat.
Proof. induction l as [|x l IH]; cbn; [lia|]. destruct (p x); cbn; lia. Qed.

Lemma full_batches_length {A} fuel n (l : list A) b : b ∈ full_batches fuel n l → length b = n.
Proof.
  revert l. induction fuel as [|fuel IH]; intros l; cbn [full_batches]; [set_solver|].
  destruct (Nat.ltb_spec (length (take n l)) n) as [?|Hn]; [set_solver|].
  intros [->|Hb]%elem_of_cons; [|eauto]. rewrite length_take in *. lia.
Qed.

(** The full batches are a prefix of the list; what is left over is shorter than a batch. *)
Lemma full_batches_split {A} fuel n (l : list A) :
  (0 < n)%nat → (length l <= fuel)%nat →
  ∃ rest, l = concat (full_batches fuel n l) ++ rest ∧ (length rest < n)%nat.
Proof.
  intros Hn. revert l. induction fuel as [|fuel IH]; intros l Hl; cbn [full_batches].
  { destruct l; cbn in *; [|lia]. exists []. split; [done|cbn; lia]. }
  destruct (Nat.ltb_spec (length (take n l)) n) as [Ht|Ht]; rewrite length_take in Ht.
  { exists l. split; [done|lia]. }
  destruct (IH (drop n l)) as (rest & E & Hr); [rewrite length_drop; lia|].
  exists rest. split; [|done]. cbn [concat]. rewrite <- app_assoc, <- E. by rewrite take_drop.
Qed.

(** Comparisons that order: swapping the arguments reverses them, and "not greater" is transitive. *)
Record ordering {A} (c : A → A → comparison) : Prop := {
  ord_opp : ∀ x y, c y x = CompOpp (c x y);
  ord_trans : ∀ x y z, c x y ≠ Gt → c y z ≠ Gt → c x z ≠ Gt;
}.

Fixpoint lex {A} (cs : list (A → A → comparison)) (x y : A) : comparison :=
  match cs with [] => Eq | c :: cs => match c x y with Eq => lex cs x y | r => r end end.

Lemma lex_lt_lex {A} (cs : list (A → A → comparison)) x y :
  lex_lt (map (λ c, c x y) cs) = match lex cs x y with Lt => true | _ => false end.
Proof. induction cs as [|c cs IH]; cbn; [done|]. by destruct (c x y). Qed.

Lemma lex_ordering {A} (cs : list (A → A → comparison)) : Forall ordering cs → ordering (lex cs).
Proof.
  induction 1 as [|c cs [Ho Ht] _ [Ho' Ht']]; [by split|]. split.
  - intros x y. cbn. rewrite Ho. destruct (c x y); cbn; [apply Ho'|done..].
  - intros x y z. cbn. intros Hxy Hyz.
    assert (c x y ≠ Gt) as Gxy by (by intros E; rewrite E in Hxy).
    assert (c y z ≠ Gt) as Gyz by (by intros E; rewrite E in Hyz).
    pose proof (Ht _ _ _ Gxy Gyz) as Gxz. destruct (c x z) eqn:Exz; [|done|done].
    assert (c z x ≠ Gt) as Gzx by (by rewrite Ho, Exz).
    pose proof (Ht _ _ _ Gzx Gxy) as Gzy. pose proof (Ht _ _ _ Gyz Gzx) as Gyx. rewrite Ho in Gzy, Gyx.
    destruct (c x y), (c y z); try done. by apply (Ht' x y z).
Qed.

Lemma Zcompare_ordering {A} (f : A → Z) : ordering (λ a b, (f a ?= f b)%Z).
Proof. split; [intros; apply Z.compare_antisym|]. intros x y z. rewrite !Z.compare_ngt_iff. lia. Qed.

Lemma string_ordering {A} (f : A → string) : ordering (λ a b, String.compare (f a) (f b)).
Proof. split; [intros; apply String.compare_antisym|]. intros x y z. apply string_compare_trans. Qed.

(** Sorting by a lexicographic key. *)
Lemma sorted_lex {A} (cs : list (A → A → comparison)) (le : A → A → bool) l :
  Forall ordering cs → (∀ a b, le a b = negb (lex_lt (map (λ c, c b a) cs))) →
  (∀ a b, le a b = true ↔ lex cs a b ≠ Gt) ∧ StronglySorted (λ a b, le a b = true) (sorted le l).
Proof.
  intros [Ho Ht]%lex_ordering Hle.
  assert (∀ a b, le a b = true ↔ lex cs a b ≠ Gt) as Hiff.
  { intros a b. rewrite Hle, lex_lt_lex, Ho. by destruct (lex cs a b). }
  split; [done|]. apply sorted_StronglySorted.
  - intros a b Hab. apply Hiff. rewrite Ho. rewrite Hle, lex_lt_lex, Ho in Hab. by destruct (lex cs a b).
  - intros a b c. rewrite !Hiff. apply Ht.
Qed.

(** The head is least. *)
Lemma sorted_lex_head {A} (cs : list (A → A → comparison)) (le : A → A → bool) l x :
  Forall ordering cs → (∀ a b, le a b = negb (lex_lt (map (λ c, c b a) cs))) →
  List.hd_error (sorted le l) = Some x → x ∈ l ∧ ∀ y, y ∈ l → le x y = true.
Proof.
  intros Hcs Hle Hx. destruct (sorted_lex cs le l Hcs Hle) as [Hiff Hs]. apply lex_ordering in Hcs as [Ho _].
  destruct (sorted le l) as [|y s] eqn:Es; [done|]. injection Hx as ->. split; [rewrite <- (elem_of_sorted le), Es; left|].
  intros y Hy. rewrite <- (elem_of_sorted le), Es in Hy. apply elem_of_cons in Hy as [->|Hy].
  - apply Hiff. specialize (Ho x x). by destruct (lex cs x x).
  - inversion Hs as [|?? _ Hall]; subst. rewrite Forall_forall in Hall. by apply Hall.
Qed.

Lemma sorted_hd_None {A} (le : A → A → bool) l : List.hd_error (sorted le l) = None ↔ l = [].
Proof.
  split; [|by intros ->]. intros Hn. apply length_zero_iff_nil. rewrite <- (length_sorted le). by destruct (sorted le l).
Qed.

Lemma ordering_flip {A} (c : A → A → comparison) : ordering c → ordering (λ a b, c b a).
Proof. intros [Ho Ht]. split; [intros; apply Ho|]. intros x y z Hxy Hyz. by apply (Ht z y x). Qed.

(** [ORDER BY number DESC, id DESC LIMIT 1] gives the last row of a table numbered in the order of insertion. *)
Lemma newest_is_last {A} (f : A → Z) (id : A → string) (le : A → A → bool) n l :
  (∀ a b, le a b = negb (lex_lt [(f a ?= f b)%Z; String.compare (id a) (id b)])) →
  contiguous f n l = true → List.hd_error (sorted le l) = last l.
Proof.
  intros Hle Hc. destruct l as [|y l0] eqn:El using rev_ind; [done|]. clear IHl0. subst l. rewrite last_snoc.
  destruct (List.hd_error (sorted le (l0 ++ [y]))) as [x|] eqn:Ex; [|apply sorted_hd_None in Ex; by destruct l0].
  apply (sorted_lex_head [(λ a b, (f b ?= f a)%Z); (λ a b, String.compare (id b) (id a))]) in Ex as [Hin Hmax]; [| |exact Hle].
  2: { apply Forall_cons; split; [apply (ordering_flip _ (Zcompare_ordering f))|].
       apply Forall_cons; split; [apply (ordering_flip _ (string_ordering id))|constructor]. }
  f_equal. apply elem_of_app in Hin as [Hin|Hin%list_elem_of_singleton]; [|done].
  assert (f x < f y)%Z as Hlt.
  { apply contiguous_strict in Hc. apply list_elem_of_split in Hin as (l1 & l2 & ->). rewrite <- app_assoc in Hc. cbn in Hc.
    clear -Hc. induction l1 as [|z l1 IH]; cbn in Hc; apply StronglySorted_inv in Hc as [Hc Hf]; [|by apply IH].
    rewrite Forall_forall in Hf. apply Hf. set_solver. }
  specialize (Hmax y ltac:(set_solver)). rewrite Hle in Hmax. cbn in Hmax.
  destruct (Z.compare_spec (f x) (f y)); [lia|done|lia].
Qed.

(** ** The first match in a table that only grows *)

Lemma find_app_Some {A} (f : A → bool) l k x : List.find f l = Some x → List.find f (l ++ k) = Some x.
Proof. induction l as [|y l IH]; cbn; [done|]. by destruct (f y). Qed.

Lemma find_snoc {A} (f : A → bool) l x :
  List.find f (l ++ [x]) = match List.find f l with Some y => Some y | None => if f x then Some x else None end.
Proof. induction l as [|y l IH]; cbn; [done|]. by destruct (f y). Qed.

Lemma find_prefix {A} (f : A → bool) l l' x : l `prefix_of` l' → List.find f l = Some x → List.find f l' = Some x.
Proof. intros [k ->]. apply find_app_Some. Qed.

Lemma prefix_elem {A} (l l' : list A) x : l `prefix_of` l' → x ∈ l → x ∈ l'.
Proof. intros [k ->] Hx. apply elem_of_app. by left. Qed.

Lemma find_elem {A} (f : A → bool) l x : List.find f l = Some x → x ∈ l ∧ f x = true.
Proof. intros [Hi Hf]%find_some. by apply list_elem_of_In in Hi. Qed.

Lemma find_absent {A} (f : A → bool) l x : List.find f l = None → x ∈ l → f x = false.
Proof. intros Hf Hx. apply (find_none _ _ Hf). by apply list_elem_of_In. Qed.

(** ** Lists of numbers in strictly increasing order *)

Lemma strictly_increasing l : NoDup l → StronglySorted Z.le l → StronglySorted Z.lt l.
Proof.
  intros Hn Hs. induction Hs as [|x k Hk IH Hx]; [constructor|]. apply NoDup_cons in Hn as [H1 H2].
  constructor; [auto|]. rewrite Forall_forall in *. intros y Hy. specialize (Hx y Hy). assert (x ≠ y) by (intros ->; done). lia.
Qed.

Lemma sorted_increasing l : NoDup l → StronglySorted Z.lt (sorted Z.leb l).
Proof.
  intros Hn. apply strictly_increasing; [by rewrite sorted_perm|].
  assert (StronglySorted (λ a b, Z.leb a b = true) (sorted Z.leb l)) as Hs by (apply sorted_StronglySorted; lia).
  induction Hs as [|x k _ IH Hx]; [constructor|]. constructor; [done|]. eapply Forall_impl; [exact Hx|]. intros y. cbn. lia.
Qed.

(** Sorting pairs by a number sorts the numbers. *)
Lemma sorted_keys {A} (f : A → Z) l : NoDup (map f l) → StronglySorted Z.lt (map f (sorted (λ a b, f a <=? f b)%Z l)).
Proof.
  intros Hn. apply strictly_increasing; [by rewrite sorted_perm|].
  assert (StronglySorted (λ a b, (f a <=? f b)%Z = true) (sorted (λ a b, f a <=? f b)%Z l)) as Hs by (apply sorted_StronglySorted; lia).
  induction Hs as [|x k _ IH Hx]; cbn; [constructor|]. constructor; [done|]. apply Forall_fmap. eapply Forall_impl; [exact Hx|]. intros y. cbn. lia.
Qed.

Lemma increasing_NoDup l : StronglySorted Z.lt l → NoDup l.
Proof.
  induction 1 as [|x l _ IH Hx]; [constructor|]. apply NoDup_cons. split; [|done]. intros Hin. rewrite Forall_forall in Hx. specialize (Hx x Hin). lia.
Qed.

Lemma increasing_unique l1 l2 : StronglySorted Z.lt l1 → StronglySorted Z.lt l2 → (∀ x, x ∈ l1 ↔ x ∈ l2) → l1 = l2.
Proof.
  intros H1 H2 Hiff. apply (StronglySorted_unique Z.le).
  - clear - H1. induction H1 as [|x l _ IH Hx]; [constructor|]. constructor; [done|]. eapply Forall_impl; [exact Hx|]. lia.
  - clear - H2. induction H2 as [|x l _ IH Hx]; [constructor|]. constructor; [done|]. eapply Forall_impl; [exact Hx|]. lia.
  - apply list.NoDup_Permutation; [by apply increasing_NoDup..|done].
Qed.

Lemma increasing_filter f l : StronglySorted Z.lt l → StronglySorted Z.lt (List.filter f l).
Proof.
  induction 1 as [|x l _ IH Hx]; cbn; [constructor|]. destruct (f x); [|done]. constructor; [done|]. rewrite Forall_forall in *.
  intros y [_ Hy]%elem_of_filterb. by apply Hx.
Qed.

Lemma increasing_skipn n l : StronglySorted Z.lt l → StronglySorted Z.lt (skipn n l).
Proof. revert l. induction n as [|n IH]; intros l Hl; [done|]. destruct Hl; [constructor|]. by apply IH. Qed.
