(* ===== verification/PyDecimal.v ===== *)
(** * Python's [decimal.Decimal] under a fixed context precision

    A finite [Decimal] is a signed coefficient and an exponent; signed zeros are
    identified with zero, and the exponent range of the context (±999999) is not
    bounded.  [28] digits and [ROUND_HALF_EVEN] are Python's default context; the
    operations take the precision as an argument so that code running under
    [localcontext(prec=...)] uses the same definitions.

    The theory is one relation, [rounds_to p x d]: the [p]-digit decimal [d] is a
    correct rounding of the rational [x], in the sense that no [p]-digit decimal
    lies strictly between them.  Every client proof about rounded arithmetic goes
    through it. *)
From stdpp Require Import base list strings numbers.
From Stdlib Require Import ZArith Lia QArith Qpower Qabs Qround Lqa.
From S2P Require Import Prelude.
Set Default Goal Selector "!".
Open Scope Z_scope.

(** ** Representation and operations *)

Record dec := Dec { dcoef : Z; dexp : Z }.

#[global] Instance dec_eq_dec : EqDecision dec.
Proof. solve_decision. Defined.

(** The rational value of a decimal. *)
Definition q10 (e : Z) : Q := Qpower (10 # 1) e.
Definition dval (d : dec) : Q := inject_Z (dcoef d) * q10 (dexp d).

(** The number of decimal digits of |n| (one for zero, as [len(str(0))]). *)
Fixpoint digits_fuel (f : nat) (n : Z) : Z :=
  match f with
  | O => 1
  | S f => if n <? 10 then 1 else 1 + digits_fuel f (n / 10)
  end.
Definition ndigits (n : Z) : Z :=
  digits_fuel (S (Z.to_nat (Z.log2 (Z.abs n)))) (Z.abs n).

Inductive rounding := ROUND_HALF_EVEN | ROUND_DOWN.

(** Drop [k] low digits of a magnitude [n] under a rounding mode. *)
Definition round_mag (r : rounding) (n k : Z) : Z :=
  let q := n / 10 ^ k in
  let m := n mod 10 ^ k in
  match r with
  | ROUND_DOWN => q
  | ROUND_HALF_EVEN =>
      if (10 ^ k <? 2 * m) || ((2 * m =? 10 ^ k) && Z.odd q) then q + 1 else q
  end.
Definition round_coef (r : rounding) (c k : Z) : Z :=
  Z.sgn c * round_mag r (Z.abs c) k.

(** [Decimal._fix]: round to [p] significant digits, half to even. *)
Definition dround (p : Z) (d : dec) : dec :=
  let k := ndigits (dcoef d) - p in
  if k <=? 0 then d
  else
    let c := round_coef ROUND_HALF_EVEN (dcoef d) k in
    if p <? ndigits c then Dec (Z.quot c 10) (dexp d + k + 1) else Dec c (dexp d + k).

(** The coefficient of [d] rescaled to a smaller exponent [e]. *)
Definition at_exp (e : Z) (d : dec) : Z := dcoef d * 10 ^ (dexp d - e).

Definition dadd_p (p : Z) (a b : dec) : dec :=
  let e := Z.min (dexp a) (dexp b) in
  dround p (Dec (at_exp e a + at_exp e b) e).
Definition dneg_p (p : Z) (a : dec) : dec := dround p (Dec (- dcoef a) (dexp a)).
Definition dsub_p (p : Z) (a b : dec) : dec :=
  let e := Z.min (dexp a) (dexp b) in
  dround p (Dec (at_exp e a - at_exp e b) e).
Definition dmul_p (p : Z) (a b : dec) : dec :=
  dround p (Dec (dcoef a * dcoef b) (dexp a + dexp b)).
Definition dabs_p (p : Z) (a : dec) : dec := dround p (Dec (Z.abs (dcoef a)) (dexp a)).

(** An exact quotient drops trailing zeros up to the ideal exponent. *)
Fixpoint strip_zeros (f : nat) (c e : Z) : Z * Z :=
  match f with
  | O => (c, e)
  | S f => if c mod 10 =? 0 then strip_zeros f (c / 10) (e + 1) else (c, e)
  end.

Definition ddiv_p (p : Z) (a b : dec) : res dec :=
  if dcoef b =? 0 then
    if dcoef a =? 0 then raise InvalidOperation "DivisionUndefined"
    else raise DivisionByZero "division by zero"
  else if dcoef a =? 0 then Ok (dround p (Dec 0 (dexp a - dexp b)))
  else
    let s := Z.sgn (dcoef a) * Z.sgn (dcoef b) in
    let na := Z.abs (dcoef a) in
    let nb := Z.abs (dcoef b) in
    let shift := ndigits nb - ndigits na + p + 1 in
    let ideal := dexp a - dexp b in
    let e := ideal - shift in
    let A := if 0 <=? shift then na * 10 ^ shift else na in
    let B := if 0 <=? shift then nb else nb * 10 ^ (- shift) in
    let q := A / B in
    if A mod B =? 0 then
      let '(c, e') := strip_zeros (Z.to_nat (ideal - e)) q e in
      Ok (dround p (Dec (s * c) e'))
    else Ok (dround p (Dec (s * (if q mod 5 =? 0 then q + 1 else q)) e)).

(** [value.quantize(precision, rounding)]: the coefficient at the exponent of
    [precision]; [InvalidOperation] when it needs more than [p] digits. *)
Definition rescale (r : rounding) (d : dec) (e : Z) : dec :=
  if e <=? dexp d then Dec (at_exp e d) e
  else Dec (round_coef r (dcoef d) (e - dexp d)) e.
Definition dquantize_p (p : Z) (d q : dec) (r : rounding) : res dec :=
  let a := rescale r d (dexp q) in
  if p <? ndigits (dcoef a) then raise InvalidOperation "quantize result has too many digits"
  else Ok a.

(** [value.sqrt()] of a non-negative decimal, correctly rounded half-even. *)
Definition dsqrt_p (p : Z) (d : dec) : res dec :=
  if dcoef d <? 0 then raise InvalidOperation "sqrt(-x), x > 0"
  else if dcoef d =? 0 then Ok (dround p (Dec 0 (dexp d / 2)))
  else
    let odd := Z.odd (dexp d) in
    let len := ndigits (dcoef d) in
    let c := if odd then dcoef d * 10 else dcoef d in
    let l := if odd then len / 2 + 1 else (len + 1) / 2 in
    let shift := p + 1 - l in
    let c' := if 0 <=? shift then c * 100 ^ shift else c / 100 ^ (- shift) in
    let exact := if 0 <=? shift then true else c mod 100 ^ (- shift) =? 0 in
    let e := dexp d / 2 - shift in
    let n := Z.sqrt c' in
    if exact && (n * n =? c') then
      Ok (dround p (Dec (if 0 <=? shift then n / 10 ^ shift else n * 10 ^ (- shift)) (e + shift)))
    else Ok (dround p (Dec (if n mod 5 =? 0 then n + 1 else n) e)).

(** Numeric comparison. *)
Definition dleb (a b : dec) : bool :=
  let e := Z.min (dexp a) (dexp b) in at_exp e a <=? at_exp e b.
Definition dltb (a b : dec) : bool := negb (dleb b a).
Definition deqb (a b : dec) : bool := dleb a b && dleb b a.

(** The default context. *)
Definition PREC : Z := 28.
Definition dadd := dadd_p PREC.
Definition dsub := dsub_p PREC.
Definition dmul := dmul_p PREC.
Definition dneg := dneg_p PREC.
Definition dabs := dabs_p PREC.
Definition ddiv := ddiv_p PREC.
Definition dquantize := dquantize_p PREC.
Definition dsqrt := dsqrt_p PREC.

Definition d0 : dec := Dec 0 0.
Definition d1 : dec := Dec 1 0.

(** [min] and [max] return their first extremal argument; [sum(it, Decimal("0"))]
    is a left fold. *)
Definition dmin (a b : dec) : dec := if dltb b a then b else a.
Definition dmax (a b : dec) : dec := if dltb a b then b else a.
Definition dsum (l : list dec) : dec := fold_left dadd l d0.

Arguments dadd : simpl never.
Arguments dsub : simpl never.
Arguments dmul : simpl never.
Arguments dneg : simpl never.
Arguments dabs : simpl never.
Arguments ddiv : simpl never.
Arguments dquantize : simpl never.
Arguments dsqrt : simpl never.
Arguments dleb : simpl never.
Arguments dltb : simpl never.
Arguments deqb : simpl never.
Arguments dmin : simpl never.
Arguments dmax : simpl never.
Arguments dsum : simpl never.

Declare Scope dec_scope.
Delimit Scope dec_scope with dec.
Bind Scope dec_scope with dec.
Infix "+" := dadd : dec_scope.
Infix "-" := dsub : dec_scope.
Infix "*" := dmul : dec_scope.
Notation "- a" := (dneg a) : dec_scope.
Infix "<=?" := dleb : dec_scope.
Infix "<?" := dltb : dec_scope.
Notation "a >? b" := (dltb b a) (only parsing) : dec_scope.
Notation "a >=? b" := (dleb b a) (only parsing) : dec_scope.
Infix "=?" := deqb : dec_scope.

(** ** Powers of ten *)

Lemma q10_pos e : (0 < q10 e)%Q.
Proof. apply Qpower_0_lt. reflexivity. Qed.

Lemma q10_add a b : (q10 (a + b) == q10 a * q10 b)%Q.
Proof. apply Qpower_plus. discriminate. Qed.

Lemma q10_Z k : 0 <= k → (q10 k == inject_Z (10 ^ k))%Q.
Proof. intros Hk. unfold q10. change (10 # 1)%Q with (inject_Z 10). symmetry. by apply Zpower_Qpower. Qed.

Lemma qv_at c e m : m <= e → (inject_Z c * q10 e == inject_Z (c * 10 ^ (e - m)) * q10 m)%Q.
Proof.
  intros Hm. replace e with ((e - m) + m) at 1 by lia.
  rewrite q10_add, (q10_Z (e - m)) by lia. rewrite inject_Z_mult. ring.
Qed.

(** Comparison of scaled integers reduces to integers at a common exponent. *)
Lemma qv_le c1 e1 c2 e2 m :
  m <= e1 → m <= e2 →
  (inject_Z c1 * q10 e1 <= inject_Z c2 * q10 e2)%Q ↔ c1 * 10 ^ (e1 - m) <= c2 * 10 ^ (e2 - m).
Proof.
  intros H1 H2. rewrite (qv_at c1 e1 m), (qv_at c2 e2 m) by done.
  rewrite Qmult_le_r by apply q10_pos. by rewrite <- Zle_Qle.
Qed.

Lemma dval_le_at a b e :
  e <= dexp a → e <= dexp b → (dval a <= dval b)%Q ↔ at_exp e a <= at_exp e b.
Proof. intros. by apply qv_le. Qed.

Lemma dval_at d e : e <= dexp d → (dval d == inject_Z (at_exp e d) * q10 e)%Q.
Proof. intros. by apply qv_at. Qed.

Lemma dleb_le a b : dleb a b = true ↔ (dval a <= dval b)%Q.
Proof.
  unfold dleb. rewrite Z.leb_le. symmetry. apply dval_le_at; lia.
Qed.

Lemma dleb_gt a b : dleb a b = false ↔ (dval b < dval a)%Q.
Proof.
  rewrite <- not_true_iff_false, dleb_le. split; [apply Qnot_le_lt|apply Qlt_not_le].
Qed.

Lemma dltb_lt a b : dltb a b = true ↔ (dval a < dval b)%Q.
Proof. unfold dltb. rewrite negb_true_iff. apply dleb_gt. Qed.

Lemma dltb_ge a b : dltb a b = false ↔ (dval b <= dval a)%Q.
Proof. unfold dltb. rewrite negb_false_iff. apply dleb_le. Qed.

Lemma deqb_eq a b : deqb a b = true ↔ (dval a == dval b)%Q.
Proof.
  unfold deqb. rewrite andb_true_iff, !dleb_le. split; [intros [??]; by apply Qle_antisym|].
  intros ->. split; apply Qle_refl.
Qed.

Lemma deqb_ne a b : deqb a b = false ↔ ¬ (dval a == dval b)%Q.
Proof. by rewrite <- deqb_eq, not_true_iff_false. Qed.

Lemma deqb_refl a : deqb a a = true.
Proof. by apply deqb_eq. Qed.

Lemma dval_d0 : (dval d0 == 0)%Q.
Proof. reflexivity. Qed.

Lemma dval_d1 : (dval d1 == 1)%Q.
Proof. reflexivity. Qed.

(** Turn every decimal comparison into a rational one. *)
Ltac dec_to_Q :=
  repeat match goal with
  | H : dleb _ _ = true |- _ => apply dleb_le in H
  | H : dleb _ _ = false |- _ => apply dleb_gt in H
  | H : dltb _ _ = true |- _ => apply dltb_lt in H
  | H : dltb _ _ = false |- _ => apply dltb_ge in H
  | H : deqb _ _ = true |- _ => apply deqb_eq in H
  | H : deqb _ _ = false |- _ => apply deqb_ne in H
  | |- dleb _ _ = true => apply dleb_le
  | |- dltb _ _ = true => apply dltb_lt
  | |- dltb _ _ = false => apply dltb_ge
  | |- dleb _ _ = false => apply dleb_gt
  | |- deqb _ _ = true => apply deqb_eq
  end; rewrite ?dval_d0, ?dval_d1 in *.

Lemma dmax_spec a b :
  (dval (dmax a b) == dval a ∧ dval b <= dval a ∨ dval (dmax a b) == dval b ∧ dval a <= dval b)%Q.
Proof.
  unfold dmax. destruct (dltb a b) eqn:E; dec_to_Q; [right|left]; split; lra.
Qed.

Lemma dmin_spec a b :
  (dval (dmin a b) == dval a ∧ dval a <= dval b ∨ dval (dmin a b) == dval b ∧ dval b <= dval a)%Q.
Proof.
  unfold dmin. destruct (dltb b a) eqn:E; dec_to_Q; [right|left]; split; lra.
Qed.

(** ** Digit counts *)

Lemma digits_fuel_spec f n :
  0 < n < 2 ^ Z.of_nat f → let d := digits_fuel f n in 1 <= d ∧ 10 ^ (d - 1) <= n < 10 ^ d.
Proof.
  revert n. induction f as [|f IH]; intros n Hn; cbn [digits_fuel].
  { cbn in Hn. lia. }
  destruct (Z.ltb_spec n 10) as [H|H]; [cbn; lia|].
  assert (0 < n / 10 < 2 ^ Z.of_nat f) as Hq.
  { rewrite Nat2Z.inj_succ, Z.pow_succ_r in Hn by lia.
    pose proof (Z.div_mod n 10). pose proof (Z.mod_pos_bound n 10). nia. }
  specialize (IH _ Hq). cbv zeta in IH. set (d := digits_fuel f (n / 10)) in *.
  cbv zeta. split; [lia|].
  replace (1 + d - 1) with ((d - 1) + 1) by lia. replace (1 + d) with (d + 1) by lia.
  rewrite !Z.pow_add_r by lia. pose proof (Z.div_mod n 10). pose proof (Z.mod_pos_bound n 10). nia.
Qed.

Lemma ndigits_spec n :
  n ≠ 0 → 1 <= ndigits n ∧ 10 ^ (ndigits n - 1) <= Z.abs n < 10 ^ ndigits n.
Proof.
  intros Hn. unfold ndigits. apply digits_fuel_spec.
  pose proof (Z.log2_spec (Z.abs n)). pose proof (Z.log2_nonneg (Z.abs n)).
  rewrite Nat2Z.inj_succ, Z2Nat.id by lia. lia.
Qed.

Lemma ndigits_le n p : 0 < p → ndigits n <= p ↔ Z.abs n < 10 ^ p.
Proof.
  intros Hp. destruct (Z.eq_dec n 0) as [->|Hn].
  { change (ndigits 0) with 1. cbn. pose proof (Z.pow_pos_nonneg 10 p). lia. }
  destruct (ndigits_spec n Hn) as (H1 & H2 & H3). split; intros H.
  - eapply Z.lt_le_trans; [exact H3|]. apply Z.pow_le_mono_r; lia.
  - assert (10 ^ (ndigits n - 1) < 10 ^ p) as H' by lia.
    apply Z.pow_lt_mono_r_iff in H'; lia.
Qed.

Lemma ndigits_nonzero p n : 0 < p → p < ndigits n → n ≠ 0.
Proof. intros Hp Hn ->. change (ndigits 0) with 1 in Hn. lia. Qed.

(** ** Rounding: no representable number is crossed *)

Definition repr (p : Z) (d : dec) : Prop := Z.abs (dcoef d) < 10 ^ p.

(** No [p]-digit decimal lies strictly between [x] and the value of [d]. *)
Definition nocross (p : Z) (x : Q) (d : dec) : Prop :=
  ∀ y, repr p y → ((x <= dval y)%Q → (dval d <= dval y)%Q) ∧ ((dval y <= x)%Q → (dval y <= dval d)%Q).

Definition rounds_to (p : Z) (x : Q) (d : dec) : Prop := repr p d ∧ nocross p x d.

(** [n'] is the quotient [A / B] rounded up or down, and only moved when inexact. *)
Definition quot_near (A B n' : Z) : Prop :=
  n' = A / B ∨ n' = A / B + 1 ∧ A mod B ≠ 0.

Section quotient.
Context (p A B E n' cy ey : Z).
Hypothesis (Hp : 0 < p) (HB : 0 < B) (HA : 10 ^ (p - 1) * B <= A) (Hn : quot_near A B n').
Hypothesis (Hcy : 0 <= cy < 10 ^ p).

Lemma quot_up :
  (inject_Z A * q10 E <= inject_Z (cy * B) * q10 ey)%Q →
  (inject_Z n' * q10 E <= inject_Z cy * q10 ey)%Q.
Proof.
  intros H. assert (10 ^ p = 10 * 10 ^ (p - 1)) as Hpow.
  { rewrite <- Z.pow_succ_r by lia. f_equal. lia. }
  assert (E <= ey) as HE.
  { destruct (Z.le_gt_cases E ey) as [|Hlt]; [done|exfalso].
    apply (qv_le _ _ _ _ ey) in H; [|lia..]. rewrite Z.sub_diag, Z.pow_0_r in H.
    assert (10 <= 10 ^ (E - ey)) by (apply (Z.pow_le_mono_r 10 1); lia). nia. }
  apply (qv_le _ _ _ _ E) in H; [|lia..]. apply (qv_le _ _ _ _ E); [lia..|].
  rewrite Z.sub_diag, Z.pow_0_r in *. set (Y := cy * 10 ^ (ey - E)).
  assert (A <= Y * B) as HY by (unfold Y; nia).
  pose proof (Z.div_mod A B). pose proof (Z.mod_pos_bound A B). destruct Hn as [->|[-> ?]]; nia.
Qed.

Lemma quot_down :
  (inject_Z (cy * B) * q10 ey <= inject_Z A * q10 E)%Q →
  (inject_Z cy * q10 ey <= inject_Z n' * q10 E)%Q.
Proof.
  intros H. pose proof (Z.div_mod A B). pose proof (Z.mod_pos_bound A B).
  assert (A / B <= n') as Hq by (destruct Hn as [->|[-> ?]]; lia).
  destruct (Z.le_gt_cases E ey) as [HE|Hlt].
  - apply (qv_le _ _ _ _ E) in H; [|lia..]. apply (qv_le _ _ _ _ E); [lia..|].
    rewrite Z.sub_diag, Z.pow_0_r in *. set (Y := cy * 10 ^ (ey - E)).
    assert (Y * B <= A) as HY by (unfold Y; nia).
    assert (Y <= A / B) by (apply Z.div_le_lower_bound; nia). lia.
  - apply (qv_le _ _ _ _ ey); [lia..|]. rewrite Z.sub_diag, Z.pow_0_r.
    assert (10 <= 10 ^ (E - ey)) by (apply (Z.pow_le_mono_r 10 1); lia).
    assert (10 ^ (p - 1) <= A / B) by (apply Z.div_le_lower_bound; nia).
    assert (10 ^ p = 10 * 10 ^ (p - 1)) by (rewrite <- Z.pow_succ_r by lia; f_equal; lia).
    assert (0 < 10 ^ (p - 1)) by (apply Z.pow_pos_nonneg; lia). nia.
Qed.
End quotient.

Lemma quot_near_bound A B n' : 0 <= A → 0 < B → quot_near A B n' → 0 <= A / B <= n' ∧ n' <= A / B + 1.
Proof. intros HA HB H. pose proof (Z.div_pos A B HA HB). destruct H as [->|[-> _]]; lia. Qed.

Lemma round_mag_near r n k : 0 <= n → 0 <= k → quot_near n (10 ^ k) (round_mag r n k).
Proof.
  intros Hn Hk. assert (0 < 10 ^ k) by (apply Z.pow_pos_nonneg; lia).
  unfold quot_near, round_mag. destruct r; [|by left].
  destruct (_ || _) eqn:E; [right|by left]. split; [done|]. intros Hm. rewrite Hm in E.
  apply orb_true_iff in E as [E|E]; [lia|].
  apply andb_true_iff in E as [E _]. lia.
Qed.

Lemma inject_Z_nonneg z : (0 <= inject_Z z)%Q ↔ 0 <= z.
Proof. change 0%Q with (inject_Z 0). by rewrite <- Zle_Qle. Qed.

Lemma inject_Z_pos z : (0 < inject_Z z)%Q ↔ 0 < z.
Proof. change 0%Q with (inject_Z 0). by rewrite <- Zlt_Qlt. Qed.

Lemma Qmult_neg_pos x y : (x < 0)%Q → (0 < y)%Q → (x * y < 0)%Q.
Proof. intros. nra. Qed.

(** The value a rounding stands for only matters up to [==]. *)
#[global] Instance rounds_to_proper p : Proper (Qeq ==> eq ==> iff) (rounds_to p).
Proof. intros x y Hxy d ? <-. unfold rounds_to, nocross. by setoid_rewrite Hxy. Qed.

Definition dopp (d : dec) : dec := Dec (- dcoef d) (dexp d).

Lemma dval_dopp d : (dval (dopp d) == - dval d)%Q.
Proof. unfold dval, dopp; cbn. rewrite inject_Z_opp. ring. Qed.

Lemma nocross_opp p x d : nocross p (- x) (dopp d) → nocross p x d.
Proof.
  intros H y Hy.
  destruct (H (dopp y)) as [H1 H2]; [unfold repr, dopp in *; cbn; by rewrite Z.abs_opp|].
  rewrite !dval_dopp in H1, H2. split; intros; [assert (- dval y <= - dval d)%Q by (apply H2; lra)
    |assert (- dval d <= - dval y)%Q by (apply H1; lra)]; lra.
Qed.

(** A positive quotient [A/B · 10^E] of at least [p] digits, rounded either way, is
    a rounding of the exact value. *)
Lemma quot_pos_nocross p A B E n' d x :
  0 < p → 0 < B → 10 ^ (p - 1) * B <= A → quot_near A B n' →
  (x * inject_Z B == inject_Z A * q10 E)%Q →
  (dval d == inject_Z n' * q10 E)%Q → nocross p x d.
Proof.
  intros Hp HB HA Hn Hx Hd [cy ey] Hy. unfold repr in Hy; cbn in Hy.
  rewrite Hd. unfold dval; cbn [dcoef dexp].
  pose proof (quot_up p A B E n' cy ey Hp HB HA Hn) as U.
  pose proof (quot_down p A B E n' cy ey Hp HB HA Hn) as D.
  assert (0 < 10 ^ (p - 1)) by (apply Z.pow_pos_nonneg; lia).
  assert (0 <= n') by (pose proof (Z.div_pos A B); destruct Hn as [->|[-> ?]]; nia).
  assert (HBq : (0 < inject_Z B)%Q) by (by apply inject_Z_pos).
  pose proof (q10_pos E) as HE. pose proof (q10_pos ey) as Hey.
  assert (Hn0 : (0 <= inject_Z n')%Q) by (by apply inject_Z_nonneg).
  assert (HA0 : (0 < inject_Z A)%Q) by (apply inject_Z_pos; nia).
  rewrite inject_Z_mult in U, D.
  rewrite <- (Qmult_le_r x _ _ HBq), <- (Qmult_le_r _ x _ HBq), Hx.
  assert (inject_Z cy * q10 ey * inject_Z B == inject_Z cy * inject_Z B * q10 ey)%Q as -> by ring.
  destruct (Z.le_gt_cases 0 cy) as [Hc0|Hc0]; [split; [apply U|apply D]; lia|].
  assert (Hc : (inject_Z cy < 0)%Q) by (change 0%Q with (inject_Z 0); by rewrite <- Zlt_Qlt).
  pose proof (Qmult_lt_0_compat _ _ HA0 HE). pose proof (Qmult_neg_pos _ _ (Qmult_neg_pos _ _ Hc HBq) Hey).
  pose proof (Qmult_neg_pos _ _ Hc Hey). pose proof (Qmult_le_0_compat _ _ Hn0 (Qlt_le_weak _ _ HE)).
  split; intros; lra.
Qed.

(** Signed version: the exact value is [s · A/B · 10^E] for a sign [s]. *)
Lemma quot_near_nocross p s A B E n' d x :
  0 < p → 0 < B → 10 ^ (p - 1) * B <= A → quot_near A B n' → (s = 1 ∨ s = -1) →
  (x * inject_Z B == inject_Z (s * A) * q10 E)%Q →
  (dval d == inject_Z (s * n') * q10 E)%Q → nocross p x d.
Proof.
  intros Hp HB HA Hn [-> | ->] Hx Hd.
  { rewrite Z.mul_1_l in *. by eapply quot_pos_nocross. }
  rewrite inject_Z_mult in *. change (inject_Z (-1)) with (-(1))%Q in *.
  apply nocross_opp. eapply (quot_pos_nocross p A B E n'); [done..| |].
  - lra.
  - rewrite dval_dopp, Hd. lra.
Qed.

Lemma dround_exact p d : 0 < p → repr p d → dround p d = d.
Proof.
  intros Hp Hd. unfold dround. apply ndigits_le in Hd; [|done].
  destruct (Z.leb_spec (ndigits (dcoef d) - p) 0); [done|lia].
Qed.

(** The value of a coefficient rounded to [p] digits, when there are more. *)
Lemma dround_big p d :
  0 < p → p < ndigits (dcoef d) →
  let k := ndigits (dcoef d) - p in
  let n' := round_mag ROUND_HALF_EVEN (Z.abs (dcoef d)) k in
  (dval (dround p d) == inject_Z (Z.sgn (dcoef d) * n') * q10 (dexp d + k))%Q ∧ repr p (dround p d)
  ∧ 10 ^ (p - 1) * 10 ^ k <= Z.abs (dcoef d).
Proof.
  intros Hp Hbig k n'. pose proof (ndigits_nonzero p (dcoef d) Hp Hbig) as Hnz.
  destruct (ndigits_spec _ Hnz) as (H1 & H2 & H3).
  assert (Hk : 0 < k) by (unfold k; lia).
  assert (Hpk : 0 < 10 ^ k) by (apply Z.pow_pos_nonneg; lia).
  assert (Hlow : 10 ^ (p - 1) * 10 ^ k <= Z.abs (dcoef d)).
  { rewrite <- Z.pow_add_r by lia. replace (p - 1 + k) with (ndigits (dcoef d) - 1) by (unfold k; lia). done. }
  assert (Hhigh : Z.abs (dcoef d) < 10 ^ p * 10 ^ k).
  { rewrite <- Z.pow_add_r by lia. replace (p + k) with (ndigits (dcoef d)) by (unfold k; lia). done. }
  assert (Hq : Z.abs (dcoef d) / 10 ^ k < 10 ^ p) by (apply Z.div_lt_upper_bound; lia).
  assert (Hn : 0 <= n' <= 10 ^ p).
  { pose proof (quot_near_bound _ _ n' (Z.abs_nonneg (dcoef d)) Hpk
      (round_mag_near ROUND_HALF_EVEN _ k (Z.abs_nonneg _) (Z.lt_le_incl _ _ Hk))). lia. }
  assert (Hs : Z.sgn (dcoef d) = 1 ∨ Z.sgn (dcoef d) = -1) by lia.
  assert (Habs : Z.abs (Z.sgn (dcoef d) * n') = n') by (destruct Hs as [-> | ->]; lia).
  split; [|split; [|done]].
  - unfold dround. fold k. destruct (Z.leb_spec k 0); [lia|]. unfold round_coef. fold n'.
    destruct (Z.ltb_spec p (ndigits (Z.sgn (dcoef d) * n'))) as [Hl|Hl]; [|done].
    assert (¬ ndigits (Z.sgn (dcoef d) * n') <= p) as Hl' by lia. rewrite ndigits_le, Habs in Hl' by lia.
    assert (n' = 10 * 10 ^ (p - 1)) as ->.
    { rewrite <- Z.pow_succ_r by lia. replace (Z.succ (p - 1)) with p by lia. lia. }
    replace (Z.sgn (dcoef d) * (10 * 10 ^ (p - 1))) with (Z.sgn (dcoef d) * 10 ^ (p - 1) * 10) by ring.
    rewrite Z.quot_mul by lia. unfold dval; cbn [dcoef dexp].
    rewrite (q10_add (dexp d + k) 1), (inject_Z_mult _ 10). change (q10 1) with (10 # 1)%Q. change (inject_Z 10) with (10 # 1)%Q. ring.
  - unfold dround. fold k. destruct (Z.leb_spec k 0); [lia|]. unfold round_coef. fold n'.
    destruct (Z.ltb_spec p (ndigits (Z.sgn (dcoef d) * n'))) as [Hl|Hl]; unfold repr; cbn [dcoef].
    + assert (Z.abs (Z.quot (Z.sgn (dcoef d) * n') 10) <= 10 ^ (p - 1)); [|].
      { assert (10 ^ p = 10 * 10 ^ (p - 1)) by (rewrite <- Z.pow_succ_r by lia; f_equal; lia).
        destruct Hs as [-> | ->].
        - rewrite Z.mul_1_l, Z.quot_div_nonneg by lia. pose proof (Z.div_pos n' 10).
          assert (n' / 10 <= 10 ^ (p - 1)) by (apply Z.div_le_upper_bound; lia). lia.
        - replace (-1 * n') with (- n') by ring. rewrite Z.quot_opp_l, Z.quot_div_nonneg by lia.
          pose proof (Z.div_pos n' 10).
          assert (n' / 10 <= 10 ^ (p - 1)) by (apply Z.div_le_upper_bound; lia). lia. }
      assert (10 ^ (p - 1) < 10 ^ p) by (apply Z.pow_lt_mono_r; lia). lia.
    + by apply ndigits_le.
Qed.

Lemma dround_rounds p d : 0 < p → rounds_to p (dval d) (dround p d).
Proof.
  intros Hp. destruct (Z.le_gt_cases (ndigits (dcoef d)) p) as [Hs|Hbig].
  { assert (repr p d) as Hr by (by apply ndigits_le). rewrite dround_exact by done. by split. }
  destruct (dround_big p d Hp Hbig) as (Hv & Hr & Hlow).
  set (k := ndigits (dcoef d) - p) in *. assert (0 <= k) by (unfold k; lia).
  pose proof (ndigits_nonzero p (dcoef d) Hp Hbig) as Hnz.
  split; [done|].
  eapply (quot_near_nocross p (Z.sgn (dcoef d)) (Z.abs (dcoef d)) (10 ^ k) (dexp d + k)); [done| |done| | | |exact Hv].
  - apply Z.pow_pos_nonneg; lia.
  - apply round_mag_near; lia.
  - lia.
  - unfold dval. rewrite Z.mul_comm, Z.abs_sgn, q10_add, (q10_Z k) by lia. ring.
Qed.

Lemma rounds_to_exact p x d y : rounds_to p x d → repr p y → (x == dval y)%Q → (dval d == x)%Q.
Proof.
  intros [_ H] Hy Hx. destruct (H y Hy) as [H1 H2]. rewrite Hx in *.
  apply Qle_antisym; [apply H1|apply H2]; apply Qle_refl.
Qed.

(** ** What each operation computes *)

Lemma dadd_rounds p a b : 0 < p → rounds_to p (dval a + dval b) (dadd_p p a b).
Proof.
  intros Hp. pose proof (dround_rounds p (Dec (at_exp (Z.min (dexp a) (dexp b)) a + at_exp (Z.min (dexp a) (dexp b)) b) (Z.min (dexp a) (dexp b))) Hp) as H.
  unfold dadd_p. cbv zeta. eapply rounds_to_proper; [|reflexivity|exact H].
  unfold dval at 3; cbn [dcoef dexp]. rewrite (dval_at a (Z.min (dexp a) (dexp b))), (dval_at b (Z.min (dexp a) (dexp b))) by lia.
  rewrite inject_Z_plus. ring.
Qed.

Lemma dsub_rounds p a b : 0 < p → rounds_to p (dval a - dval b) (dsub_p p a b).
Proof.
  intros Hp. pose proof (dround_rounds p (Dec (at_exp (Z.min (dexp a) (dexp b)) a - at_exp (Z.min (dexp a) (dexp b)) b) (Z.min (dexp a) (dexp b))) Hp) as H.
  unfold dsub_p. cbv zeta. eapply rounds_to_proper; [|reflexivity|exact H].
  unfold dval at 3; cbn [dcoef dexp]. rewrite (dval_at a (Z.min (dexp a) (dexp b))), (dval_at b (Z.min (dexp a) (dexp b))) by lia.
  unfold Z.sub. rewrite inject_Z_plus, inject_Z_opp. ring.
Qed.

Lemma dmul_rounds p a b : 0 < p → rounds_to p (dval a * dval b) (dmul_p p a b).
Proof.
  intros Hp. unfold dmul_p. eapply rounds_to_proper; [|reflexivity|by apply dround_rounds].
  unfold dval; cbn [dcoef dexp]. rewrite q10_add, inject_Z_mult. ring.
Qed.

Lemma dneg_rounds p a : 0 < p → rounds_to p (- dval a) (dneg_p p a).
Proof.
  intros Hp. unfold dneg_p. eapply rounds_to_proper; [|reflexivity|by apply dround_rounds].
  unfold dval; cbn [dcoef dexp]. rewrite inject_Z_opp. ring.
Qed.

Lemma strip_zeros_val f c e :
  let '(c', e') := strip_zeros f c e in (inject_Z c' * q10 e' == inject_Z c * q10 e)%Q.
Proof.
  revert c e. induction f as [|f IH]; intros c e; cbn; [done|].
  destruct (Z.eqb_spec (c mod 10) 0) as [H|H]; [|done].
  specialize (IH (c / 10) (e + 1)). destruct (strip_zeros f (c / 10) (e + 1)) as [c' e']. rewrite IH.
  rewrite (Z.div_mod c 10) at 2 by lia. rewrite H, Z.add_0_r, (Z.mul_comm 10), q10_add, inject_Z_mult.
  change (q10 1) with (inject_Z 10). ring.
Qed.

(** Rounding an intermediate with a sticky last digit is still a rounding. *)
Lemma rounds_to_trans p x m d : rounds_to p (dval m) d → nocross p x m → rounds_to p x d.
Proof. intros [Hr H1] H2. split; [done|]. intros y Hy. destruct (H1 y Hy), (H2 y Hy). auto. Qed.

(** The scaled operands of a division have a quotient of more than [p] digits. *)
Lemma ddiv_operands p na nb :
  0 < p → 0 < na → 0 < nb →
  let shift := ndigits nb - ndigits na + p + 1 in
  let A := if 0 <=? shift then na * 10 ^ shift else na in
  let B := if 0 <=? shift then nb else nb * 10 ^ (- shift) in
  0 < B ∧ 10 ^ p * B <= A ∧ (inject_Z A * q10 (- shift) * inject_Z nb == inject_Z na * inject_Z B)%Q.
Proof.
  intros Hp Ha Hb shift A B.
  destruct (ndigits_spec na) as (Ha1 & Ha2 & Ha3); [lia|].
  destruct (ndigits_spec nb) as (Hb1 & Hb2 & Hb3); [lia|]. rewrite Z.abs_eq in * by lia.
  assert (Hmain : 0 < B ∧ 10 ^ p * B <= A); [|split; [apply Hmain|split; [apply Hmain|]]].
  - unfold A, B. destruct (Z.leb_spec 0 shift) as [Hs|Hs].
    + split; [done|]. etransitivity; [apply Z.mul_le_mono_nonneg_l; [apply Z.pow_nonneg; lia|apply Z.lt_le_incl, Hb3]|].
      rewrite <- Z.pow_add_r by lia. replace (p + ndigits nb) with (ndigits na - 1 + shift) by (unfold shift; lia).
      rewrite Z.pow_add_r by lia. apply Z.mul_le_mono_nonneg_r; [apply Z.pow_nonneg; lia|done].
    + split; [apply Z.mul_pos_pos; [done|apply Z.pow_pos_nonneg; lia]|].
      transitivity (10 ^ p * (10 ^ ndigits nb * 10 ^ (- shift))).
      { apply Z.mul_le_mono_nonneg_l; [apply Z.pow_nonneg; lia|].
        apply Z.mul_le_mono_nonneg_r; [apply Z.pow_nonneg; lia|lia]. }
      rewrite <- !Z.pow_add_r by lia. etransitivity; [|exact Ha2]. apply Z.pow_le_mono_r; unfold shift; lia.
  - unfold A, B. destruct (Z.leb_spec 0 shift) as [Hs|Hs].
    + rewrite inject_Z_mult, <- (q10_Z shift) by done.
      assert (q10 shift * q10 (- shift) == 1)%Q as Hq by (rewrite <- q10_add, Z.add_opp_diag_r; reflexivity).
      rewrite <- (Qmult_assoc (inject_Z na)), Hq. ring.
    + rewrite inject_Z_mult, <- (q10_Z (- shift)) by lia. ring.
Qed.

Lemma dval_nonzero d : dcoef d ≠ 0 → ¬ (dval d == 0)%Q.
Proof.
  intros Hc H. unfold dval in H. apply Qmult_integral in H as [H|H].
  - apply Hc. by apply (inject_Z_injective _ 0).
  - pose proof (q10_pos (dexp d)). lra.
Qed.


Lemma ddiv_value a b A B shift :
  dcoef a ≠ 0 → dcoef b ≠ 0 →
  (inject_Z A * q10 (- shift) * inject_Z (Z.abs (dcoef b)) == inject_Z (Z.abs (dcoef a)) * inject_Z B)%Q →
  (dval a / dval b * inject_Z B
   == inject_Z (Z.sgn (dcoef a) * Z.sgn (dcoef b) * A) * q10 (dexp a - dexp b - shift))%Q.
Proof.
  intros Ha Hb Hq. pose proof (dval_nonzero b Hb) as Hb0.
  assert (Hsa : (inject_Z (dcoef a) == inject_Z (Z.sgn (dcoef a)) * inject_Z (Z.abs (dcoef a)))%Q)
    by (by rewrite <- inject_Z_mult, Z.mul_comm, Z.abs_sgn).
  assert (Hsb : (inject_Z (dcoef b) == inject_Z (Z.sgn (dcoef b)) * inject_Z (Z.abs (dcoef b)))%Q)
    by (by rewrite <- inject_Z_mult, Z.mul_comm, Z.abs_sgn).
  assert (H1 : (inject_Z (Z.sgn (dcoef b)) * inject_Z (Z.sgn (dcoef b)) == 1)%Q).
  { rewrite <- inject_Z_mult. assert (Z.sgn (dcoef b) * Z.sgn (dcoef b) = 1) as -> by lia. reflexivity. }
  assert (He : (q10 (dexp a - dexp b - shift) * q10 (dexp b) == q10 (dexp a) * q10 (- shift))%Q).
  { rewrite <- !q10_add. by replace (dexp a - dexp b - shift + dexp b) with (dexp a + - shift) by lia. }
  apply (Qmult_inj_r _ _ (dval b) Hb0).
  assert (dval a / dval b * inject_Z B * dval b == dval a * inject_Z B)%Q as -> by (by field).
  rewrite !inject_Z_mult. unfold dval. rewrite Hsa, Hsb.
  transitivity (inject_Z (Z.sgn (dcoef a)) * (inject_Z (Z.sgn (dcoef b)) * inject_Z (Z.sgn (dcoef b)))
    * (q10 (dexp a) * q10 (- shift)) * (inject_Z A * inject_Z (Z.abs (dcoef b))))%Q.
  - rewrite H1. transitivity (inject_Z (Z.sgn (dcoef a)) * q10 (dexp a)
      * (inject_Z A * q10 (- shift) * inject_Z (Z.abs (dcoef b))))%Q; [rewrite Hq|]; ring.
  - rewrite <- He. ring.
Qed.

(** Division is correctly rounded, and only a zero divisor raises. *)
Lemma ddiv_rounds p a b :
  0 < p → dcoef b ≠ 0 → ∃ d, ddiv_p p a b = Ok d ∧ rounds_to p (dval a / dval b) d.
Proof.
  intros Hp Hb. unfold ddiv_p. destruct (Z.eqb_spec (dcoef b) 0) as [|_]; [done|].
  pose proof (dval_nonzero b Hb) as Hb0.
  destruct (Z.eqb_spec (dcoef a) 0) as [Ha|Ha].
  { eexists; split; [done|]. eapply rounds_to_proper; [|reflexivity|by apply dround_rounds].
    unfold dval at 1 3; cbn [dcoef dexp]. rewrite Ha. change (inject_Z 0) with 0%Q. by field. }
  destruct (ddiv_operands p (Z.abs (dcoef a)) (Z.abs (dcoef b))) as (HB & HA & Hq); [lia..|].
  cbv zeta. set (shift := ndigits (Z.abs (dcoef b)) - ndigits (Z.abs (dcoef a)) + p + 1) in *.
  set (A := if 0 <=? shift then _ else Z.abs (dcoef a)) in *.
  set (B := if 0 <=? shift then Z.abs (dcoef b) else _) in *.
  set (s := Z.sgn (dcoef a) * Z.sgn (dcoef b)) in *.
  set (e := dexp a - dexp b - shift) in *.
  assert (Hs : s = 1 ∨ s = -1) by (unfold s; lia).
  assert (Hx : (dval a / dval b * inject_Z B == inject_Z (s * A) * q10 e)%Q) by (by apply ddiv_value).
  assert (HA' : 10 ^ (p - 1) * B <= A).
  { pose proof (Z.pow_le_mono_r 10 (p - 1) p). nia. }
  destruct (Z.eqb_spec (A mod B) 0) as [Hm|Hm].
  - pose proof (strip_zeros_val (Z.to_nat (dexp a - dexp b - e)) (A / B) e) as Hst.
    destruct (strip_zeros _ _ _) as [c e']. eexists; split; [done|].
    eapply rounds_to_trans; [by apply dround_rounds|].
    eapply (quot_near_nocross p s A B e (A / B)); [done..|by left|done|done|].
    unfold dval; cbn [dcoef dexp]. rewrite !inject_Z_mult, <- !Qmult_assoc, Hst. reflexivity.
  - eexists; split; [done|]. eapply rounds_to_trans; [by apply dround_rounds|].
    eapply (quot_near_nocross p s A B e); [done..| |done|done|reflexivity].
    destruct (_ =? 0); [right|left]; done.
Qed.

(** ** Fixed point: decimals on a grid of [k] places

    A decimal whose exponent is at least [-k] is an integer number of units of
    [10^-k]; while the units stay below [10^28] the rounded operations are the exact
    integer ones.  Conservation laws are proved on units with [lia]. *)

Definition on_grid (k : Z) (d : dec) : Prop := - k <= dexp d.
Definition units (k : Z) (d : dec) : Z := at_exp (- k) d.
Definition LIMIT : Z := 10 ^ PREC.

Lemma units_dval k d : on_grid k d → (dval d == inject_Z (units k d) * q10 (- k))%Q.
Proof. apply dval_at. Qed.

Lemma dval_units_le k a b :
  on_grid k a → on_grid k b → (dval a <= dval b)%Q ↔ units k a <= units k b.
Proof. apply dval_le_at. Qed.

Lemma dval_units_eq k a b :
  on_grid k a → on_grid k b → (dval a == dval b)%Q ↔ units k a = units k b.
Proof.
  intros Ha Hb. pose proof (dval_units_le k a b Ha Hb). pose proof (dval_units_le k b a Hb Ha).
  split; intros E.
  - assert (dval a <= dval b)%Q by lra. assert (dval b <= dval a)%Q by lra. naive_solver lia.
  - apply Qle_antisym; [apply H|apply H0]; lia.
Qed.

Lemma dleb_units k a b : on_grid k a → on_grid k b → dleb a b = (units k a <=? units k b).
Proof. intros Ha Hb. apply eq_bool_prop_intro. rewrite !Is_true_true, dleb_le, Z.leb_le. by apply dval_units_le. Qed.

Lemma dltb_units k a b : on_grid k a → on_grid k b → dltb a b = (units k a <? units k b).
Proof. intros. unfold dltb. rewrite (dleb_units k) by done. rewrite Z.ltb_antisym. done. Qed.

Lemma deqb_units k a b : on_grid k a → on_grid k b → deqb a b = (units k a =? units k b).
Proof. intros. unfold deqb. rewrite !(dleb_units k) by done.
  destruct (Z.leb_spec (units k a) (units k b)), (Z.leb_spec (units k b) (units k a)), (Z.eqb_spec (units k a) (units k b)); done || lia. Qed.

(** A coefficient whose units are in range is representable, hence kept by [_fix]. *)
Lemma dround_on_grid k c e :
  - k <= e → Z.abs (c * 10 ^ (e + k)) < LIMIT →
  on_grid k (dround PREC (Dec c e)) ∧ units k (dround PREC (Dec c e)) = c * 10 ^ (e + k).
Proof.
  intros He Hlim. assert (0 < 10 ^ (e + k)) by (apply Z.pow_pos_nonneg; lia).
  rewrite dround_exact; [|reflexivity|].
  - unfold on_grid, units, at_exp; cbn. split; [done|]. do 2 f_equal. lia.
  - unfold repr; cbn [dcoef]. unfold LIMIT in Hlim. nia.
Qed.

Lemma at_exp_units k d e : - k <= e <= dexp d → units k d = at_exp e d * 10 ^ (e + k).
Proof.
  intros. unfold units, at_exp. rewrite <- Z.mul_assoc, <- Z.pow_add_r by lia. do 2 f_equal. lia.
Qed.

Lemma dadd_units k a b :
  on_grid k a → on_grid k b → Z.abs (units k a + units k b) < LIMIT →
  on_grid k (dadd a b) ∧ units k (dadd a b) = units k a + units k b.
Proof.
  unfold on_grid. intros Ha Hb Hl. set (e := Z.min (dexp a) (dexp b)).
  rewrite (at_exp_units k a e), (at_exp_units k b e), <- Z.mul_add_distr_r in * by lia.
  apply dround_on_grid; [lia|done].
Qed.

Lemma dsub_units k a b :
  on_grid k a → on_grid k b → Z.abs (units k a - units k b) < LIMIT →
  on_grid k (dsub a b) ∧ units k (dsub a b) = units k a - units k b.
Proof.
  unfold on_grid. intros Ha Hb Hl. set (e := Z.min (dexp a) (dexp b)).
  rewrite (at_exp_units k a e), (at_exp_units k b e), <- Z.mul_sub_distr_r in * by lia.
  apply dround_on_grid; [lia|done].
Qed.

Lemma dneg_units k a :
  on_grid k a → Z.abs (units k a) < LIMIT → on_grid k (dneg a) ∧ units k (dneg a) = - units k a.
Proof.
  unfold on_grid. intros Ha Hl. unfold units, at_exp in *.
  replace (- (dcoef a * 10 ^ (dexp a - - k))) with (- dcoef a * 10 ^ (dexp a + k))
    by (rewrite Z.mul_opp_l; do 3 f_equal; lia).
  apply dround_on_grid; [done|]. rewrite Z.mul_opp_l, Z.abs_opp. by replace (dexp a + k) with (dexp a - - k) by lia.
Qed.

Lemma dmul_units j k a b :
  on_grid j a → on_grid k b → Z.abs (units j a * units k b) < LIMIT →
  on_grid (j + k) (dmul a b) ∧ units (j + k) (dmul a b) = units j a * units k b.
Proof.
  unfold on_grid. intros Ha Hb Hl.
  assert (units j a * units k b = dcoef a * dcoef b * 10 ^ (dexp a + dexp b + (j + k))) as E.
  { unfold units, at_exp. replace (dexp a + dexp b + (j + k)) with ((dexp a - - j) + (dexp b - - k)) by lia.
    rewrite Z.pow_add_r by lia. ring. }
  rewrite E in *. apply dround_on_grid; [lia|done].
Qed.

Lemma on_grid_d0 k : 0 <= k → on_grid k d0.
Proof. unfold on_grid; cbn; lia. Qed.

Lemma units_d0 k : units k d0 = 0.
Proof. reflexivity. Qed.

(** ** Bounds that survive rounding in the default context *)

Definition drepr := repr PREC.

Lemma drepr_d0 : drepr d0. Proof. reflexivity. Qed.
Lemma drepr_d1 : drepr d1. Proof. reflexivity. Qed.
#[export] Hint Resolve drepr_d0 drepr_d1 : q1.

Lemma prec_pos : 0 < PREC. Proof. reflexivity. Qed.

Section rounded_bounds.
Context (x : Q) (d : dec).
Hypothesis Hx : rounds_to PREC x d.

Lemma rounded_repr : drepr d.
Proof. apply Hx. Qed.

Lemma rounded_le y : drepr y → (x <= dval y)%Q → (dval d <= dval y)%Q.
Proof. intros Hy. by apply Hx. Qed.

Lemma rounded_ge y : drepr y → (dval y <= x)%Q → (dval y <= dval d)%Q.
Proof. intros Hy. by apply Hx. Qed.

Lemma rounded_nonneg : (0 <= x)%Q → (0 <= dval d)%Q.
Proof. intros H. rewrite <- dval_d0. apply rounded_ge; [apply drepr_d0|by rewrite dval_d0]. Qed.
End rounded_bounds.

Lemma dmul_nonneg a b : (0 <= dval a)%Q → (0 <= dval b)%Q → (0 <= dval (a * b)%dec)%Q.
Proof. intros. eapply rounded_nonneg; [by apply dmul_rounds|]. by apply Qmult_le_0_compat. Qed.

Lemma dadd_nonneg a b : (0 <= dval a)%Q → (0 <= dval b)%Q → (0 <= dval (a + b)%dec)%Q.
Proof. intros. eapply rounded_nonneg; [by apply dadd_rounds|]. lra. Qed.

Lemma dsub_nonneg a b : (dval b <= dval a)%Q → (0 <= dval (a - b)%dec)%Q.
Proof. intros. eapply rounded_nonneg; [by apply dsub_rounds|]. lra. Qed.

(** Scaling a representable amount by a factor at most one never increases it. *)
Lemma dmul_le_self a s :
  drepr a → (0 <= dval a)%Q → (dval s <= 1)%Q → (dval (a * s)%dec <= dval a)%Q.
Proof. intros Ha H0 Hs. eapply rounded_le; [by apply dmul_rounds|done|]. nra. Qed.

Lemma dval_pos_coef d : (0 < dval d)%Q → dcoef d ≠ 0.
Proof. intros H E. unfold dval in H. rewrite E in H. change (inject_Z 0) with 0%Q in H. lra. Qed.

(** [x / y] for [0 <= x <= y], [0 < y] is a fraction. *)
Lemma ddiv_fraction a b :
  (0 <= dval a)%Q → (dval a <= dval b)%Q → (0 < dval b)%Q →
  ∃ d, ddiv a b = Ok d ∧ (0 <= dval d <= 1)%Q ∧ drepr d.
Proof.
  intros H0 Hab Hb. destruct (ddiv_rounds PREC a b prec_pos) as (d & E & Hd); [by apply dval_pos_coef|].
  exists d. split; [done|]. assert (0 <= dval a / dval b <= 1)%Q as [Hl Hu].
  { split; [apply Qle_shift_div_l|apply Qle_shift_div_r]; lra. }
  split; [split|by eapply rounded_repr].
  - by eapply rounded_nonneg.
  - rewrite <- dval_d1. eapply rounded_le; [done|apply drepr_d1|by rewrite dval_d1].
Qed.

Lemma dval_pow_pos p : (0 < dval p)%Q ↔ 0 < dcoef p.
Proof.
  unfold dval. pose proof (q10_pos (dexp p)). split; intros H'.
  - apply inject_Z_pos. nra.
  - apply Qmult_lt_0_compat; [by apply inject_Z_pos|done].
Qed.

Lemma dval_nonneg_coef d : (0 <= dval d)%Q ↔ 0 <= dcoef d.
Proof.
  unfold dval. pose proof (q10_pos (dexp d)). split; intros H'.
  - apply inject_Z_nonneg. nra.
  - apply Qmult_le_0_compat; [by apply inject_Z_nonneg|lra].
Qed.

(** [quantize(..., ROUND_DOWN)] of a non-negative value never increases it and keeps
    it non-negative, on the grid of the requested precision. *)
Lemma dquantize_down d q a :
  dquantize d q ROUND_DOWN = Ok a → (0 <= dval d)%Q →
  dexp a = dexp q ∧ drepr a ∧ (0 <= dval a <= dval d)%Q.
Proof.
  unfold dquantize, dquantize_p. cbv zeta. destruct (Z.ltb_spec PREC (ndigits (dcoef (rescale ROUND_DOWN d (dexp q))))) as [|Hn]; [done|].
  intros [= <-] H0. rewrite ndigits_le in Hn by apply prec_pos. split; [|split; [exact Hn|]].
  { unfold rescale. by destruct (_ <=? _). }
  clear Hn. unfold rescale. destruct (Z.leb_spec (dexp q) (dexp d)) as [He|He].
  { assert (dval (Dec (at_exp (dexp q) d) (dexp q)) == dval d)%Q as -> by (symmetry; by apply dval_at). lra. }
  apply dval_nonneg_coef in H0 as Hc. unfold round_coef, round_mag. cbv zeta.
  assert (0 < 10 ^ (dexp q - dexp d)) by (apply Z.pow_pos_nonneg; lia).
  pose proof (Z.div_pos (Z.abs (dcoef d)) (10 ^ (dexp q - dexp d))).
  split; [apply dval_nonneg_coef; cbn; lia|].
  unfold dval; cbn [dcoef dexp]. apply (qv_le _ _ _ _ (dexp d)); [lia..|].
  rewrite Z.sub_diag, Z.pow_0_r, Z.abs_eq by done.
  pose proof (Z.mul_div_le (dcoef d) (10 ^ (dexp q - dexp d))). nia.
Qed.

(** Sums on the grid. *)
Lemma dsum_units_from k acc l :
  on_grid k acc → Forall (on_grid k) l → Z.abs (units k acc) + zsum (map Z.abs (map (units k) l)) < LIMIT →
  on_grid k (fold_left dadd l acc) ∧ units k (fold_left dadd l acc) = units k acc + zsum (map (units k) l).
Proof.
  revert acc. induction l as [|x l IH]; intros acc Ha Hl Hb; cbn.
  { split; [done|lia]. }
  inversion Hl as [|?? Hx Hl']; subst. cbn [map] in Hb. rewrite zsum_cons in Hb.
  pose proof (zsum_abs_nonneg (map (units k) l)).
  destruct (dadd_units k acc x Ha Hx) as [G U]; [lia|].
  destruct (IH (acc + x)%dec G Hl') as [G' U']; [lia|]. split; [done|]. rewrite U', U. unfold zsum; cbn. lia.
Qed.

Lemma dsum_units k l :
  0 <= k → Forall (on_grid k) l → zsum (map Z.abs (map (units k) l)) < LIMIT →
  on_grid k (dsum l) ∧ units k (dsum l) = zsum (map (units k) l).
Proof.
  intros Hk Hl Hb. destruct (dsum_units_from k d0 l) as [G U]; [by apply on_grid_d0|done|by rewrite units_d0|].
  split; [done|]. unfold dsum. rewrite U, units_d0. done.
Qed.

(** ** Bounds that survive rounding, at any precision *)

Section any_precision.
Context (p : Z) (Hp : 0 < p) (x : Q) (d : dec).
Hypothesis Hx : rounds_to p x d.

Lemma repr_zero : repr p d0.
Proof. unfold repr; cbn. by apply Z.pow_pos_nonneg; lia. Qed.

Lemma repr_one : 1 < 10 ^ p → repr p d1.
Proof. done. Qed.

Lemma rounds_repr : repr p d.
Proof. apply Hx. Qed.

Lemma rounds_le y : repr p y → (x <= dval y)%Q → (dval d <= dval y)%Q.
Proof. intros Hy. by apply Hx. Qed.

Lemma rounds_ge y : repr p y → (dval y <= x)%Q → (dval y <= dval d)%Q.
Proof. intros Hy. by apply Hx. Qed.

Lemma rounds_nonneg : (0 <= x)%Q → (0 <= dval d)%Q.
Proof. intros H. rewrite <- dval_d0. apply rounds_ge; [apply repr_zero|by rewrite dval_d0]. Qed.

Lemma rounds_nonpos : (x <= 0)%Q → (dval d <= 0)%Q.
Proof. intros H. rewrite <- dval_d0. apply rounds_le; [apply repr_zero|by rewrite dval_d0]. Qed.
End any_precision.

Lemma pow10_gt1 p : 0 < p → 1 < 10 ^ p.
Proof. intros. by apply Z.pow_gt_1. Qed.

Lemma repr_mono p q d : p <= q → repr p d → repr q d.
Proof. unfold repr. intros. eapply Z.lt_le_trans; [done|]. by apply Z.pow_le_mono_r. Qed.

Lemma ddiv_repr p a b d : 0 < p → ddiv_p p a b = Ok d → repr p d.
Proof.
  intros Hp Hd. destruct (Z.eq_dec (dcoef b) 0) as [E|E].
  { unfold ddiv_p in Hd. rewrite E in Hd. cbn in Hd. by destruct (dcoef a =? 0). }
  destruct (ddiv_rounds p a b Hp E) as (d' & Hd' & Hr). rewrite Hd' in Hd. injection Hd as ->. apply Hr.
Qed.

Lemma ddiv_Ok_rounds p a b d : 0 < p → ddiv_p p a b = Ok d → (¬ dval b == 0)%Q ∧ rounds_to p (dval a / dval b) d.
Proof.
  intros Hp Hd. destruct (Z.eq_dec (dcoef b) 0) as [E|E].
  { unfold ddiv_p in Hd. rewrite E in Hd. cbn in Hd. by destruct (dcoef a =? 0). }
  split; [by apply dval_nonzero|].
  destruct (ddiv_rounds p a b Hp E) as (d' & Hd' & Hr). rewrite Hd' in Hd. by injection Hd as <-.
Qed.

Lemma repr_max p a b : repr p a → repr p b → repr p (dmax a b).
Proof. unfold dmax. by destruct (dltb a b). Qed.
Lemma repr_min p a b : repr p a → repr p b → repr p (dmin a b).
Proof. unfold dmin. by destruct (dltb b a). Qed.

Lemma repr_dopp p a : repr p a → repr p (dopp a).
Proof. unfold repr, dopp. cbn. by rewrite Z.abs_opp. Qed.

Lemma dneg_exact p a : 0 < p → repr p a → dneg_p p a = dopp a.
Proof. intros Hp Ha. apply dround_exact; [done|]. by apply repr_dopp. Qed.

(** Taking off is adding the opposite. *)
Lemma dsub_dneg p a b : 0 < p → repr p b → dsub_p p a b = dadd_p p a (dneg_p p b).
Proof.
  intros Hp Hb. rewrite dneg_exact by done. unfold dsub_p, dadd_p, at_exp, dopp. cbn [dcoef dexp]. do 2 f_equal. lia.
Qed.

(** ** How far rounding goes *)

Lemma dval_Dec c e : dval (Dec c e) = (inject_Z c * q10 e)%Q.
Proof. done. Qed.

(** A value of at most [p - 1] digits above the unit [10 ^ e] moves by at most one unit. *)
Lemma rounds_error p x d e :
  0 < p → rounds_to p x d → (Qabs x <= inject_Z (10 ^ (p - 1)) * q10 e)%Q → (Qabs (dval d - x) <= q10 e)%Q.
Proof.
  intros Hp [_ Hn] Hx. pose proof (q10_pos e) as Hq.
  assert (10 ^ p = 10 * 10 ^ (p - 1)) as Epow by (rewrite <- Z.pow_succ_r by lia; f_equal; lia).
  assert (0 < 10 ^ (p - 1)) as Hpow by (apply Z.pow_pos_nonneg; lia).
  set (m := Qfloor (x / q10 e)).
  assert (inject_Z m * q10 e <= x)%Q as Hlo.
  { pose proof (Qfloor_le (x / q10 e)) as H. apply (Qmult_le_r _ _ (q10 e)) in H; [|done].
    eapply Qle_trans; [exact H|]. rewrite Qmult_comm, Qmult_div_r by lra. apply Qle_refl. }
  assert (x < inject_Z (m + 1) * q10 e)%Q as Hhi.
  { pose proof (Qlt_floor (x / q10 e)) as H. apply (Qmult_lt_r _ _ (q10 e)) in H; [|done].
    eapply Qle_lt_trans; [|exact H]. rewrite (Qmult_comm (x / q10 e)), Qmult_div_r by lra. apply Qle_refl. }
  clearbody m. apply Qabs_Qle_condition in Hx as [Hxl Hxu].
  assert (- 10 ^ (p - 1) < m + 1) as Hm1.
  { rewrite Zlt_Qlt, inject_Z_opp. apply (Qmult_lt_r _ _ (q10 e)); [done|]. eapply Qle_lt_trans; [|exact Hhi]. lra. }
  assert (m <= 10 ^ (p - 1)) as Hm2.
  { rewrite Zle_Qle. apply (Qmult_le_r _ _ (q10 e)); [done|]. eapply Qle_trans; [exact Hlo|exact Hxu]. }
  destruct (Hn (Dec m e)) as [_ H1]; [unfold repr; cbn [dcoef]; lia|].
  destruct (Hn (Dec (m + 1) e)) as [H2 _]; [unfold repr; cbn [dcoef]; lia|]. rewrite !dval_Dec in *.
  specialize (H1 Hlo). specialize (H2 (Qlt_le_weak _ _ Hhi)). rewrite inject_Z_plus in *. change (inject_Z 1) with 1%Q in *.
  apply Qabs_Qle_condition. split; nra.
Qed.

(** The order of magnitude of a positive rational. *)
Lemma magnitude x : (0 < x)%Q → ∃ a, (q10 a <= x < q10 (a + 2))%Q.
Proof.
  intros Hx. destruct x as [n d]. assert (0 < n) as Hn by (unfold Qlt in Hx; cbn in Hx; lia).
  destruct (ndigits_spec n) as (Hn1 & Hnl & Hnu); [lia|]. destruct (ndigits_spec (Z.pos d)) as (Hd1 & Hdl & Hdu); [lia|].
  rewrite Z.abs_eq in * by lia. set (i := ndigits n) in *. set (j := ndigits (Z.pos d)) in *.
  exists (i - 1 - j). split.
  - assert (q10 (i - 1 - j) * inject_Z (10 ^ j) == inject_Z (10 ^ (i - 1)))%Q as E.
    { rewrite <- !q10_Z, <- q10_add by lia. replace (i - 1 - j + j) with (i - 1) by lia. reflexivity. }
    apply (Qmult_le_r _ _ (inject_Z (10 ^ j))); [apply inject_Z_pos; lia|]. rewrite E.
    unfold Qle, Qmult, inject_Z; cbn [Qnum Qden]. rewrite Pos.mul_1_r, Z.mul_1_r.
    apply Z.mul_le_mono_nonneg; lia || by apply Z.pow_nonneg.
  - assert (q10 (i - 1 - j + 2) * inject_Z (10 ^ (j - 1)) == inject_Z (10 ^ i))%Q as E.
    { rewrite <- !q10_Z, <- q10_add by lia. replace (i - 1 - j + 2 + (j - 1)) with i by lia. reflexivity. }
    apply (Qmult_lt_r _ _ (inject_Z (10 ^ (j - 1)))); [apply inject_Z_pos; apply Z.pow_pos_nonneg; lia|]. rewrite E.
    unfold Qlt, Qmult, inject_Z; cbn [Qnum Qden]. rewrite Pos.mul_1_r, Z.mul_1_r.
    eapply Z.lt_le_trans; [apply Z.mul_lt_mono_pos_r; [apply Z.pow_pos_nonneg; lia|exact Hnu]|].
    apply Z.mul_le_mono_nonneg_l; [by apply Z.pow_nonneg|done].
Qed.

(** Rounding to [p] digits changes a value by a relative error of at most [10 ^ (3 - p)]. *)
Lemma rounds_relative p x d : 0 < p → rounds_to p x d → (Qabs (dval d - x) <= Qabs x * q10 (3 - p))%Q.
Proof.
  intros Hp Hr. destruct (Qlt_le_dec 0 (Qabs x)) as [Hx|Hx].
  - destruct (magnitude _ Hx) as (a & Hl & Hu).
    assert (Qabs (dval d - x) <= q10 (a + 3 - p))%Q as He.
    { apply (rounds_error p); [done..|]. rewrite <- q10_Z, <- q10_add by lia. replace (p - 1 + (a + 3 - p)) with (a + 2) by lia. lra. }
    eapply Qle_trans; [exact He|]. replace (a + 3 - p) with (a + (3 - p)) by lia. rewrite q10_add.
    apply Qmult_le_compat_r; [done|]. apply Qlt_le_weak, q10_pos.
  - assert (x == 0)%Q as E0.
    { pose proof (Qle_Qabs x). pose proof (Qle_Qabs (- x)) as H'. rewrite Qabs_opp in H'. lra. }
    destruct Hr as [_ Hn]. destruct (Hn d0 (repr_zero p Hp)) as [H1 H2]. rewrite dval_d0, E0 in *.
    assert (dval d == 0)%Q as -> by (apply Qle_antisym; [apply H1|apply H2]; apply Qle_refl).
    change (Qabs (0 - 0)) with 0%Q. change (Qabs 0) with 0%Q. lra.
Qed.

(** ** Signs of quotients and roots, at any precision *)

Lemma ddiv_nonneg p a b d :
  0 < p → ddiv_p p a b = Ok d → (0 <= dval a)%Q → (0 <= dval b)%Q → (0 <= dval d)%Q.
Proof.
  intros Hp Hd Ha Hb. destruct (ddiv_Ok_rounds _ _ _ _ Hp Hd) as [Hnz Hr]. eapply rounds_nonneg; [done|exact Hr|].
  apply Qle_shift_div_l; [|lra]. destruct (Qle_lt_or_eq _ _ Hb) as [?|E]; [done|]. by rewrite <- E in Hnz.
Qed.

(** [a / b] for [0 <= a <= b]. *)
Lemma ddiv_unit p a b d :
  0 < p → ddiv_p p a b = Ok d → (0 <= dval a)%Q → (dval a <= dval b)%Q → (0 <= dval d <= 1)%Q.
Proof.
  intros Hp Hd Ha Hb. split; [eapply ddiv_nonneg; [done..|lra]|].
  destruct (ddiv_Ok_rounds _ _ _ _ Hp Hd) as [Hnz Hr]. rewrite <- dval_d1. eapply rounds_le; [exact Hr|by apply repr_one, pow10_gt1|].
  rewrite dval_d1. apply Qle_shift_div_r; [|lra].
  assert (0 <= dval b)%Q as Hb0 by lra. destruct (Qle_lt_or_eq _ _ Hb0) as [?|E]; [done|]. by rewrite <- E in Hnz.
Qed.

Lemma dmul_le_factor p a s :
  0 < p → repr p a → (0 <= dval a)%Q → (dval s <= 1)%Q → (dval (dmul_p p a s) <= dval a)%Q.
Proof. intros Hp Ha H0 Hs. eapply rounds_le; [by apply dmul_rounds|done|]. nra. Qed.

Lemma dmul_p_nonneg p a b : 0 < p → (0 <= dval a)%Q → (0 <= dval b)%Q → (0 <= dval (dmul_p p a b))%Q.
Proof. intros. eapply rounds_nonneg; [done|by apply dmul_rounds|]. by apply Qmult_le_0_compat. Qed.

Lemma dadd_p_nonneg p a b : 0 < p → (0 <= dval a)%Q → (0 <= dval b)%Q → (0 <= dval (dadd_p p a b))%Q.
Proof. intros. eapply rounds_nonneg; [done|by apply dadd_rounds|]. lra. Qed.

Lemma dround_nonneg p d : 0 < p → 0 <= dcoef d → (0 <= dval (dround p d))%Q.
Proof. intros Hp H. eapply rounds_nonneg; [done|by apply dround_rounds|]. by apply dval_nonneg_coef. Qed.

Lemma dsqrt_nonneg p d r : 0 < p → dsqrt_p p d = Ok r → (0 <= dval r)%Q.
Proof.
  intros Hp. unfold dsqrt_p. cbv zeta. destruct (dcoef d <? 0); [done|]. destruct (dcoef d =? 0).
  { intros [= <-]. by apply dround_nonneg. }
  match goal with |- context [Z.sqrt ?x] => pose proof (Z.sqrt_nonneg x); set (n := Z.sqrt x) in * end.
  destruct (_ && _); intros [= <-]; apply dround_nonneg; try done; cbn [dcoef].
  - destruct (Z.leb_spec 0 (p + 1 - (if Z.odd (dexp d) then ndigits (dcoef d) / 2 + 1 else (ndigits (dcoef d) + 1) / 2))); [apply Z.div_pos; [done|apply Z.pow_pos_nonneg; lia]|apply Z.mul_nonneg_nonneg; [done|by apply Z.pow_nonneg]].
  - destruct (n mod 5 =? 0); lia.
Qed.

Lemma dabs_rounds p a : 0 < p → rounds_to p (Qabs (dval a)) (dabs_p p a).
Proof.
  intros Hp. eapply rounds_to_proper; [|reflexivity|by apply dround_rounds].
  unfold dval; cbn [dcoef dexp]. pose proof (q10_pos (dexp a)) as Hq.
  rewrite Qabs_Qmult, (Qabs_pos (q10 _)) by lra. reflexivity.
Qed.
