(* ===== verification/Hashing.v ===== *)
(** * Time values, canonical data and content hashes

    Models [domain/time.py] and [domain/hashing.py]: timezone-aware datetimes,
    the canonical JSON text of a value and the identifiers derived from its
    SHA-256 digest.  Components use hashing only through the class [Digest], so that
    their theorems hold for every digest function; [Sha256.sha256_digest] is the instance
    the program runs with.  Strings are byte strings holding UTF-8 text, on which
    [str.encode("utf-8")] is the identity and byte order is code-point order.  A float is
    its exact binary value; the text of its twelve-digit rounding is exact for normal
    doubles (a subnormal one would print with fewer digits). *)
From Stdlib Require Import ZArith Lia Ascii String.
From stdpp Require Import base list strings numbers sorting.
From S2P Require Import Prelude PyDecimal.
Set Default Goal Selector "!".
Open Scope Z_scope.

(** ** [domain/time.py] *)

(** A [datetime]: its instant in microseconds since 1970-01-01T00:00:00 (UTC for an
    aware value, wall time for a naive one). *)
Record datetime := DT { instant : Z; tz_aware : bool }.

#[global] Instance datetime_eq_dec : EqDecision datetime.
Proof. solve_decision. Defined.

Definition utc (us : Z) : datetime := DT us true.

(** A [date]: days since 1970-01-01. *)
Notation date := Z (only parsing).

Definition require_aware_utc (value : datetime) : res datetime :=
  if tz_aware value then Ok value else raise ValueError "datetime must be timezone-aware".

Lemma aware_ok t u : require_aware_utc t = Ok u → u = t.
Proof. unfold require_aware_utc. destruct (tz_aware t); [by intros [= <-]|done]. Qed.

(** Comparisons between aware datetimes. *)
Definition dt_le (a b : datetime) : bool := instant a <=? instant b.
Definition dt_lt (a b : datetime) : bool := instant a <? instant b.

Module FrozenClock.
Record t := { _instant : datetime }.
Definition init (i : datetime) : res t := i' ← require_aware_utc i; Ok {| _instant := i' |}.
Definition now (c : t) : datetime := _instant c.
End FrozenClock.

(** ** Text of numbers, dates and datetimes *)

Definition digit_char (d : Z) : Ascii.ascii := Ascii.ascii_of_N (Z.to_N (48 + d)).

(** Exactly [w] decimal digits of [n], zero padded. *)
Fixpoint digits_pad (w : nat) (n : Z) (acc : string) : string :=
  match w with
  | O => acc
  | S w => digits_pad w (n / 10) (String (digit_char (n mod 10)) acc)
  end.

Definition string_of_nonneg (n : Z) : string := digits_pad (Z.to_nat (ndigits n)) n EmptyString.
Definition string_of_Z (n : Z) : string :=
  if n <? 0 then String.append "-" (string_of_nonneg (- n)) else string_of_nonneg n.

Fixpoint zeros (k : nat) : string := match k with O => EmptyString | S k => String "0"%char (zeros k) end.

(** [format(d, "f")] *)
Definition format_f (d : dec) : string :=
  let sign := if dcoef d <? 0 then "-" else "" in
  let n := Z.abs (dcoef d) in
  if 0 <=? dexp d then
    String.append sign
      (if n =? 0 then "0" else String.append (string_of_nonneg n) (zeros (Z.to_nat (dexp d))))
  else
    let k := - dexp d in
    String.append sign
      (String.append (string_of_nonneg (n / 10 ^ k))
         (String "."%char (digits_pad (Z.to_nat k) (n mod 10 ^ k) EmptyString))).

(** [str(d)] of a decimal: plain notation for small exponents, scientific otherwise. *)
Definition dec_str (d : dec) : string :=
  let sign := if dcoef d <? 0 then "-" else "" in
  let digits := string_of_nonneg (Z.abs (dcoef d)) in
  let len := Z.of_nat (String.length digits) in
  let leftdigits := dexp d + len in
  let dotplace := if (dexp d <=? 0) && (-6 <? leftdigits) then leftdigits else 1 in
  let mantissa :=
    if dotplace <=? 0 then String.append "0." (String.append (zeros (Z.to_nat (- dotplace))) digits)
    else if len <=? dotplace then String.append digits (zeros (Z.to_nat (dotplace - len)))
    else String.append (String.substring 0 (Z.to_nat dotplace) digits)
           (String "."%char (String.substring (Z.to_nat dotplace) (Z.to_nat (len - dotplace)) digits)) in
  let e := leftdigits - dotplace in
  let exponent := if e =? 0 then "" else String.append (if e <? 0 then "E-" else "E+") (string_of_nonneg (Z.abs e)) in
  String.append sign (String.append mantissa exponent).

(** Proleptic Gregorian calendar date of a day number. *)
Definition civil_from_days (day : Z) : Z * Z * Z :=
  let z := day + 719468 in
  let era := z / 146097 in
  let doe := z mod 146097 in
  let yoe := (doe - doe / 1460 + doe / 36524 - doe / 146096) / 365 in
  let doy := doe - (365 * yoe + yoe / 4 - yoe / 100) in
  let mp := (5 * doy + 2) / 153 in
  let d := doy - (153 * mp + 2) / 5 + 1 in
  let m := if mp <? 10 then mp + 3 else mp - 9 in
  let y := yoe + era * 400 + (if m <=? 2 then 1 else 0) in
  (y, m, d).

Definition date_isoformat (d : date) : string :=
  let '(y, m, dd) := civil_from_days d in
  digits_pad 4 y (String "-"%char (digits_pad 2 m (String "-"%char (digits_pad 2 dd EmptyString)))).

(** [value.astimezone(UTC).isoformat(timespec="microseconds")] with ["+00:00"] replaced by ["Z"]. *)
Definition datetime_isoformat (t : datetime) : string :=
  let us := instant t in
  let day := us / 86400000000 in
  let r := us mod 86400000000 in
  let s := r / 1000000 in
  String.append (date_isoformat day)
    (String "T"%char (digits_pad 2 (s / 3600) (String ":"%char (digits_pad 2 (s / 60 mod 60)
       (String ":"%char (digits_pad 2 (s mod 60) (String "."%char (digits_pad 6 (r mod 1000000) "Z")))))))).

(** ** Floats *)

(** A finite double, [(-1)^neg * m * 2^e]. *)
Record pyfloat := Float { fneg : bool; fmant : N; fexp : Z }.

#[global] Instance pyfloat_eq_dec : EqDecision pyfloat.
Proof. solve_decision. Defined.

(** Its magnitude as a decimal, exactly. *)
Definition float_magnitude (f : pyfloat) : dec :=
  let m := Z.of_N (fmant f) in
  if 0 <=? fexp f then Dec (m * 2 ^ fexp f) 0 else Dec (m * 5 ^ (- fexp f)) (fexp f).

(** [repr] of the double nearest to a decimal of at most fifteen digits. *)
Definition float_repr (neg : bool) (d : dec) : string :=
  let '(c, x) := strip_zeros (Z.to_nat (ndigits (dcoef d) - 1)) (dcoef d) (dexp d) in
  let digits := string_of_nonneg c in
  let len := Z.of_nat (String.length digits) in
  let point := x + len in
  let body :=
    if c =? 0 then "0.0"
    else if (-4 <? point) && (point <=? 16) then
      if point <=? 0 then String.append "0." (String.append (zeros (Z.to_nat (- point))) digits)
      else if len <=? point then String.append digits (String.append (zeros (Z.to_nat (point - len))) ".0")
      else String.append (String.substring 0 (Z.to_nat point) digits)
             (String "."%char (String.substring (Z.to_nat point) (Z.to_nat (len - point)) digits))
    else
      let mantissa := if len =? 1 then digits
        else String.append (String.substring 0 1 digits) (String "."%char (String.substring 1 (Z.to_nat (len - 1)) digits)) in
      let e := Z.abs (point - 1) in
      String.append mantissa (String.append (if point - 1 <? 0 then "e-" else "e+") (digits_pad (Z.to_nat (Z.max 2 (ndigits e))) e EmptyString)) in
  String.append (if neg then "-" else "") body.

(** [json.dumps(float(format(value, ".12g")))] *)
Definition float_json (f : pyfloat) : string := float_repr (fneg f) (dround 12 (float_magnitude f)).

(** ** [domain/hashing.py]: canonical data *)

(** The Python values that are hashed.  An enum member is its string value, a
    pydantic model the mapping of its fields; [PObject] is a value [canonical_data] refuses: an
    instance of a class it has no case for, a dataclass for one, or a float that is not finite. *)
Inductive pyval :=
  | PNone
  | PBool (b : bool)
  | PInt (z : Z)
  | PStr (s : string)
  | PFloat (f : pyfloat)
  | PDecimal (d : dec)
  | PDatetime (t : datetime)
  | PDate (d : date)
  | PList (l : list pyval)
  | PDict (l : list (string * pyval))
  | PObject (type_name : string).

Inductive cval :=
  | CNone
  | CBool (b : bool)
  | CInt (z : Z)
  | CStr (s : string)
  | CFloat (f : pyfloat)
  | CList (l : list cval)
  | CDict (l : list (string * cval)).

(** Entries are converted and then put in key order (the code sorts the keys while
    converting; the only possible error is the same for every entry). *)
Fixpoint canonical_data (value : pyval) : res cval :=
  match value with
  | PNone => Ok CNone
  | PBool b => Ok (CBool b)
  | PInt z => Ok (CInt z)
  | PStr s => Ok (CStr s)
  | PFloat f => Ok (CFloat f)
  | PDecimal d => Ok (CStr (format_f d))
  | PDatetime t =>
      if tz_aware t then Ok (CStr (datetime_isoformat t))
      else raise CanonicalizationError "Naive datetime cannot be canonicalized"
  | PDate d => Ok (CStr (date_isoformat d))
  | PList l =>
      r ← (fix go l := match l with
           | [] => Ok []
           | x :: l => y ← canonical_data x; ys ← go l; Ok (y :: ys)
           end) l;
      Ok (CList r)
  | PDict l =>
      r ← (fix go (l : list (string * pyval)) := match l with
           | [] => Ok []
           | (k, x) :: l => y ← canonical_data x; ys ← go l; Ok ((k, y) :: ys)
           end) l;
      Ok (CDict (sorted_items r))
  | PObject _ => raise CanonicalizationError "Unsupported canonical type"
  end.

(** ** [canonical_json]: [json.dumps(..., ensure_ascii=False, separators=(",", ":"), sort_keys=True)] *)

Definition quote_char : Ascii.ascii := Ascii.ascii_of_N 34.
Definition backslash_char : Ascii.ascii := Ascii.ascii_of_N 92.

Definition hex_digit (n : Z) : Ascii.ascii :=
  Ascii.ascii_of_N (Z.to_N (if n <? 10 then 48 + n else 87 + n)).

Definition json_escape_char (c : Ascii.ascii) : string :=
  let n := Z.of_N (Ascii.N_of_ascii c) in
  let esc (x : Ascii.ascii) := String backslash_char (String x EmptyString) in
  if n =? 34 then esc quote_char
  else if n =? 92 then esc backslash_char
  else if n =? 8 then esc "b"%char
  else if n =? 9 then esc "t"%char
  else if n =? 10 then esc "n"%char
  else if n =? 12 then esc "f"%char
  else if n =? 13 then esc "r"%char
  else if n <? 32 then
    String backslash_char (String "u"%char (String "0"%char (String "0"
      (String (hex_digit (n / 16)) (String (hex_digit (n mod 16)) EmptyString)))))
  else String c EmptyString.

Fixpoint json_escape (s : string) : string :=
  match s with
  | EmptyString => EmptyString
  | String c s => String.append (json_escape_char c) (json_escape s)
  end.

Definition json_string (s : string) : string :=
  String quote_char (String.append (json_escape s) (String quote_char EmptyString)).

Fixpoint json_dumps (v : cval) : string :=
  match v with
  | CNone => "null"
  | CBool b => if b then "true" else "false"
  | CInt z => string_of_Z z
  | CStr s => json_string s
  | CFloat f => float_json f
  | CList l =>
      String "["%char (String.append (String.concat "," (map json_dumps l)) "]")
  | CDict l =>
      String "{"%char (String.append (String.concat ","
        (map (λ kv, String.append (json_string kv.1) (String ":"%char (json_dumps kv.2))) l)) "}")
  end.

Definition canonical_json (value : pyval) : res string := c ← canonical_data value; Ok (json_dumps c).

(** ** Digests *)

(** What the components use of [hashlib.sha256(...).hexdigest()]. *)
Class Digest := hexdigest : string → string.

Section hashing.
Context `{Digest}.

Definition canonical_hash (value : pyval) : res string := j ← canonical_json value; Ok (hexdigest j).

(** [stable_id(prefix, *parts)] *)
Definition stable_id (prefix : string) (parts : list pyval) : res string :=
  h ← canonical_hash (PDict [("prefix", PStr prefix); ("parts", PList parts)]);
  Ok (String.append prefix (String "_"%char (String.substring 0 24 h))).
End hashing.
Arguments canonical_hash : simpl never.
Arguments stable_id : simpl never.

(** ** SHA-256 (FIPS 180-4) *)

Module Sha256.
Definition mask32 (x : Z) : Z := Z.land x 4294967295.
Definition add32 (x y : Z) : Z := mask32 (x + y).
Definition rotr (n x : Z) : Z := Z.lor (Z.shiftr x n) (mask32 (Z.shiftl x (32 - n))).

(** The constants are the first 32 fractional bits of the cube and square roots of the
    first primes. *)
Definition is_prime (n : Z) : bool :=
  forallb (λ d, negb (n mod d =? 0)) (seqZ 2 (n - 2)).
Definition primes : list Z := Eval vm_compute in List.filter is_prime (seqZ 2 310).

(** Largest [r < lo + 2^k] with [r^3 <= n], one bit at a time. *)
Fixpoint cube_root (k : nat) (lo n : Z) : Z :=
  match k with
  | O => lo
  | S k => let r := lo + 2 ^ Z.of_nat k in cube_root k (if r ^ 3 <=? n then r else lo) n
  end.

Definition K : list Z := Eval vm_compute in map (λ p, mask32 (cube_root 40 0 (p * 2 ^ 96))) primes.
Definition H0 : list Z := Eval vm_compute in map (λ p, mask32 (Z.sqrt (p * 2 ^ 64))) (take 8 primes).

Definition small0 x := Z.lxor (rotr 7 x) (Z.lxor (rotr 18 x) (Z.shiftr x 3)).
Definition small1 x := Z.lxor (rotr 17 x) (Z.lxor (rotr 19 x) (Z.shiftr x 10)).
Definition big0 x := Z.lxor (rotr 2 x) (Z.lxor (rotr 13 x) (rotr 22 x)).
Definition big1 x := Z.lxor (rotr 6 x) (Z.lxor (rotr 11 x) (rotr 25 x)).
Definition ch x y z := Z.lxor (Z.land x y) (Z.land (Z.lxor x 4294967295) z).
Definition maj x y z := Z.lxor (Z.land x y) (Z.lxor (Z.land x z) (Z.land y z)).

(** Message schedule, most recent word first. *)
Fixpoint schedule (n : nat) (w : list Z) : list Z :=
  match n with
  | O => w
  | S n =>
      let x := add32 (add32 (small1 (nth 1 w 0)) (nth 6 w 0)) (add32 (small0 (nth 14 w 0)) (nth 15 w 0)) in
      schedule n (x :: w)
  end.

Definition round (s : list Z) (kw : Z * Z) : list Z :=
  match s with
  | [a; b; c; d; e; f; g; h] =>
      let t1 := add32 (add32 h (big1 e)) (add32 (ch e f g) (add32 kw.1 kw.2)) in
      let t2 := add32 (big0 a) (maj a b c) in
      [add32 t1 t2; a; b; c; add32 d t1; e; f; g]
  | _ => s
  end.

Definition compress (hs block : list Z) : list Z :=
  let w := rev (schedule 48 (rev block)) in
  zip_with add32 hs (fold_left round (zip K w) hs).

Fixpoint be_bytes (n : nat) (x : Z) (acc : list Z) : list Z :=
  match n with O => acc | S n => be_bytes n (x / 256) (x mod 256 :: acc) end.

Definition pad (msg : list Z) : list Z :=
  let len := Z.of_nat (length msg) in
  msg ++ [128] ++ replicate (Z.to_nat ((55 - len) mod 64)) 0 ++ be_bytes 8 (8 * len) [].

Fixpoint words (l : list Z) : list Z :=
  match l with
  | a :: b :: c :: d :: l => (((a * 256 + b) * 256 + c) * 256 + d) :: words l
  | _ => []
  end.

Fixpoint blocks (n : nat) (ws hs : list Z) : list Z :=
  match n with
  | O => hs
  | S n => blocks n (drop 16 ws) (compress hs (take 16 ws))
  end.

Fixpoint bytes_of (s : string) : list Z :=
  match s with EmptyString => [] | String c s => Z.of_N (Ascii.N_of_ascii c) :: bytes_of s end.

Fixpoint hex_of (l : list Z) : string :=
  match l with
  | [] => EmptyString
  | b :: l => String (hex_digit (b / 16)) (String (hex_digit (b mod 16)) (hex_of l))
  end.

Definition digest (s : string) : string :=
  let ws := words (pad (bytes_of s)) in
  let hs := blocks (length ws / 16) ws H0 in
  hex_of (concat (map (λ w, be_bytes 4 w []) hs)).
End Sha256.

#[export] Instance sha256_digest : Digest := Sha256.digest.

(** ** Canonicalization succeeds on aware values and ignores key order *)

(** Every datetime inside the value is timezone-aware and every object of a supported class. *)
Fixpoint val_ok (v : pyval) : bool :=
  match v with
  | PDatetime t => tz_aware t
  | PList l => forallb val_ok l
  | PDict l => forallb (λ kv, val_ok kv.2) l
  | PObject _ => false
  | _ => true
  end.

Definition entry_data (kv : string * pyval) : res (string * cval) := c ← canonical_data kv.2; Ok (kv.1, c).

Lemma canonical_data_list l : canonical_data (PList l) = r ← mapM_res canonical_data l; Ok (CList r).
Proof.
  cbn. f_equal. induction l as [|x l IH]; cbn; [done|].
  destruct (canonical_data x); cbn; [|done]. by rewrite IH.
Qed.

Lemma canonical_data_dict l :
  canonical_data (PDict l) = r ← mapM_res entry_data l; Ok (CDict (sorted_items r)).
Proof.
  cbn. f_equal. induction l as [|[k x] l IH]; cbn; [done|]. unfold entry_data at 1; cbn.
  destruct (canonical_data x); cbn; [|done]. by rewrite IH.
Qed.

Lemma mapM_res_ok {A B} (f : A → res B) l :
  is_ok (mapM_res f l) = forallb (λ x, is_ok (f x)) l.
Proof. induction l as [|x l IH]; cbn; [done|]. destruct (f x); cbn; [|done]. rewrite <- IH. by destruct (mapM_res f l). Qed.

Section pyval_induction.
Context (P : pyval → Prop).
Hypothesis (HNone : P PNone) (HBool : ∀ b, P (PBool b)) (HInt : ∀ z, P (PInt z)) (HStr : ∀ s, P (PStr s)).
Hypothesis (HFloat : ∀ f, P (PFloat f)) (HDec : ∀ d, P (PDecimal d)) (HDt : ∀ t, P (PDatetime t)) (HDate : ∀ d, P (PDate d)).
Hypothesis (HObject : ∀ t, P (PObject t)).
Hypothesis (HList : ∀ l, Forall P l → P (PList l)) (HDict : ∀ l, Forall (λ kv, P kv.2) l → P (PDict l)).

Fixpoint pyval_ind' (v : pyval) : P v :=
  match v with
  | PNone => HNone
  | PBool b => HBool b
  | PInt z => HInt z
  | PStr s => HStr s
  | PFloat f => HFloat f
  | PDecimal d => HDec d
  | PDatetime t => HDt t
  | PDate d => HDate d
  | PList l => HList l ((fix go l : Forall P l := match l with
      | [] => Forall_nil_2 _ | x :: l => Forall_cons_2 _ _ _ (pyval_ind' x) (go l) end) l)
  | PDict l => HDict l ((fix go l : Forall (λ kv : string * pyval, P kv.2) l := match l with
      | [] => Forall_nil_2 _ | x :: l => Forall_cons_2 _ _ _ (pyval_ind' x.2) (go l) end) l)
  | PObject t => HObject t
  end.
End pyval_induction.

Lemma canonical_data_ok v : is_ok (canonical_data v) = val_ok v.
Proof.
  induction v as [| | | | | |t| | |l IH|l IH] using pyval_ind'; try done.
  - cbn. by destruct (tz_aware t).
  - rewrite canonical_data_list. transitivity (is_ok (mapM_res canonical_data l)).
    { by destruct (mapM_res canonical_data l). }
    rewrite mapM_res_ok. cbn. induction IH as [|x l Hx _ IHl]; cbn; [done|]. by rewrite Hx, IHl.
  - rewrite canonical_data_dict. transitivity (is_ok (mapM_res entry_data l)).
    { by destruct (mapM_res entry_data l). }
    rewrite mapM_res_ok. cbn. induction IH as [|[k x] l Hx _ IHl]; cbn in *; [done|].
    rewrite IHl. f_equal. rewrite <- Hx. unfold entry_data; cbn. by destruct (canonical_data x).
Qed.

Lemma is_ok_ex {A} (r : res A) : is_ok r = true ↔ ∃ a, r = Ok a.
Proof. destruct r; cbn; naive_solver. Qed.

Section hashing_facts.
Context `{Digest}.

Lemma canonical_hash_ok v : val_ok v = true → ∃ h, canonical_hash v = Ok h.
Proof.
  intros Hv. rewrite <- canonical_data_ok in Hv. apply is_ok_ex in Hv as [c Hc].
  unfold canonical_hash, canonical_json. rewrite Hc. cbn. eauto.
Qed.

Lemma stable_id_ok prefix parts :
  forallb val_ok parts = true → ∃ h, stable_id prefix parts = Ok h.
Proof.
  intros Hv. unfold stable_id.
  destruct (canonical_hash_ok (PDict [("prefix", PStr prefix); ("parts", PList parts)])) as [h ->]; [|cbn; eauto].
  cbn. by rewrite Hv.
Qed.
End hashing_facts.

Lemma mapM_res_perm {A B} (f : A → res B) l1 l2 r1 :
  l1 ≡ₚ l2 → mapM_res f l1 = Ok r1 → ∃ r2, mapM_res f l2 = Ok r2 ∧ r1 ≡ₚ r2.
Proof.
  intros Hp. revert r1. induction Hp as [|x l l' Hl IH|x y l|l l' l'' _ IH1 _ IH2]; cbn; intros r1 H1.
  - eauto.
  - destruct (f x) as [y|]; cbn in *; [|done]. destruct (mapM_res f l) as [r|] eqn:El; cbn in *; [|done].
    destruct (IH r eq_refl) as (r2 & -> & ?). injection H1 as <-. cbn. eexists; split; [done|]. by constructor.
  - destruct (f x) as [x'|]; cbn in *; [|by destruct (f y)]. destruct (f y) as [y'|]; cbn in *; [|done].
    destruct (mapM_res f l) as [r|]; cbn in *; [|done]. injection H1 as <-.
    eexists; split; [done|]. constructor.
  - destruct (IH1 _ H1) as (r2 & H2 & ?). destruct (IH2 _ H2) as (r3 & -> & ?).
    eexists; split; [done|]. by etrans.
Qed.

Lemma mapM_entry_keys l r : mapM_res entry_data l = Ok r → r.*1 = l.*1.
Proof.
  rewrite mapM_res_Forall2. induction 1 as [|[k x] y l r Hx Hl IH]; cbn; [done|].
  unfold entry_data in Hx. inv_ok. cbn. by rewrite IH.
Qed.

Definition key_lt {A} (a b : string * A) : Prop := String.leb a.1 b.1 = true ∧ a.1 ≠ b.1.

(** Distinct keys make the sorted entries strictly increasing. *)
Lemma sorted_items_strict {A} (d : pydict A) : NoDup d.*1 → StronglySorted key_lt (sorted_items d).
Proof.
  intros Hd. assert (NoDup (sorted_items d).*1) as Hn by (unfold sorted_items; by rewrite sorted_perm).
  assert (StronglySorted (λ a b : string * A, String.leb a.1 b.1 = true) (sorted_items d)) as Hs.
  { apply sorted_StronglySorted; [intros ??; apply string_leb_total|intros ???; apply string_leb_trans]. }
  induction Hs as [|x l Hl IH Hx]; constructor; cbn in Hn; apply NoDup_cons in Hn as [Hn1 Hn2]; [auto|].
  rewrite Forall_forall in Hx |- *. intros y Hy. split; [auto|]. intros E. apply Hn1. rewrite E.
  apply list_elem_of_fmap. eauto.
Qed.

Lemma sorted_items_unique {A} (d1 d2 : pydict A) :
  NoDup d1.*1 → d1 ≡ₚ d2 → sorted_items d1 = sorted_items d2.
Proof.
  intros Hd Hp. apply (strongly_sorted_unique key_lt).
  - by intros ? [_ ?].
  - intros ?? [? Hne] [? _]. apply Hne. by apply string_leb_antisym.
  - by apply sorted_items_strict.
  - apply sorted_items_strict. by rewrite <- Hp.
  - unfold sorted_items. by rewrite !sorted_perm.
Qed.

(** The canonical text of a mapping does not depend on the insertion order of its
    entries. *)
Lemma canonical_json_perm l1 l2 j :
  NoDup l1.*1 → l1 ≡ₚ l2 → canonical_json (PDict l1) = Ok j → canonical_json (PDict l2) = Ok j.
Proof.
  intros Hd Hp. unfold canonical_json. rewrite !canonical_data_dict.
  destruct (mapM_res entry_data l1) as [r1|] eqn:E; cbn; [|done]. intros [= <-].
  destruct (mapM_res_perm _ _ _ _ Hp E) as (r2 & -> & Hr). cbn [mbind res_bind].
  by rewrite (sorted_items_unique r1 r2) by (rewrite ?(mapM_entry_keys _ _ E); done).
Qed.

(** A small digest used to evaluate concrete examples. *)
Definition rolling_digest : Digest :=
  λ s, string_of_Z (fold_left (λ h c, Z.land (Z.shiftl h 5 + h + c) 1099511627775) (Sha256.bytes_of s) 7).
