(* ===== verification/DecimalMath.v ===== *)
(** * Logarithm and exponential of decimals

    What the quantitative code uses of [Decimal.ln] and [Decimal.exp]: a class, so that the theorems hold for every such
    pair of functions, and the instance of the Python standard library ([_pydecimal]), in integer arithmetic.  Its loops
    that raise the working precision until the last digits decide the rounding carry fuel; when the fuel ends they raise,
    so that no undecided digit is returned.  Overflow and underflow are outside the model. *)
From Stdlib Require Import ZArith Lia Ascii String.
From stdpp Require Import base list strings numbers.
From S2P Require Import Prelude PyDecimal Hashing.
Set Default Goal Selector "!".
Open Scope Z_scope.

(** [value.ln()] and [value.exp()] in a context of [p] digits. *)
Class DecimalMath := { dln_p : Z → dec → res dec; dexp_p : Z → dec → res dec }.

Module PyDecimalMath.

(** [len(str(z))] and [int.bit_length] *)
Definition len_str (z : Z) : Z := ndigits z + (if z <? 0 then 1 else 0).
Definition nbits (z : Z) : Z := if z =? 0 then 0 else Z.log2 (Z.abs z) + 1.
Definition parity (z : Z) : Z := if Z.odd z then 1 else 0.
Definition one_if (b : bool) : Z := if b then 1 else 0.

Definition rshift_nearest (x shift : Z) : Z :=
  let b := Z.shiftl 1 shift in
  let q := Z.shiftr x shift in
  q + one_if (b <? 2 * Z.land x (b - 1) + parity q).

Definition div_nearest (a b : Z) : Z := a / b + one_if (b <? 2 * (a mod b) + parity (a / b)).

(** The closest integer to the square root. *)
Definition sqrt_nearest (n : Z) : Z := let s := Z.sqrt n in s + one_if (s <? n - s * s).

(** Argument reduction: [y] halves in every round, so that it needs few more than [L] of them. *)
Fixpoint reduce (fuel : nat) (M L y R : Z) : Z * Z :=
  match fuel with
  | O => (y, R)
  | S fuel =>
      let big := if R <=? L then M <=? Z.shiftl (Z.abs y) (L - R) else M <=? Z.shiftr (Z.abs y) (R - L) in
      if big then
        reduce fuel M L (div_nearest (Z.shiftl (M * y) 1) (M + sqrt_nearest (M * (M + rshift_nearest y R)))) (R + 1)
      else (y, R)
  end.

(** [-int(-10 * len(str(M)) // (3 * L))] *)
Definition taylor_terms (M L : Z) : Z := - (- 10 * len_str M / (3 * L)).

(** [k = T - 1, ..., 1] *)
Definition down_from (T : Z) : list Z := rev (seqZ 1 (T - 1)).

(** [M * log(x / M)] *)
Definition ilog (x M : Z) : Z :=
  let L := 8 in
  let '(y, R) := reduce 32 M L (x - M) 0 in
  let T := taylor_terms M L in
  let yshift := rshift_nearest y R in
  let w := fold_left (λ w k, div_nearest M k - div_nearest (yshift * w) M) (down_from T) (div_nearest M T) in
  div_nearest (w * y) M.

(** [floor(10**p * log(10))]: the digits that are stored, or as many as are asked for. *)
Definition log10_stored : Z := 23025850929940456840179914546843642076011014886.
Fixpoint log10_compute (fuel : nat) (p extra : Z) : Z :=
  let M := 10 ^ (p + extra + 2) in
  let digits := div_nearest (ilog (10 * M) M) 100 in
  match fuel with
  | O => digits / 10 ^ extra
  | S fuel => if digits mod 10 ^ extra =? 0 then log10_compute fuel p (extra + 3) else digits / 10 ^ extra
  end.
Definition log10_digits (p : Z) : Z :=
  if p <? 47 then log10_stored / 10 ^ (46 - p) else log10_compute 8 p 3.

(** [10**p * log(c * 10**e)] *)
Definition dlog (c e p : Z) : Z :=
  let p := p + 2 in
  let l := len_str c in
  let f := e + l - one_if (1 <=? e + l) in
  let log_d :=
    if 0 <? p then
      let k := e + p - f in
      ilog (if 0 <=? k then c * 10 ^ k else div_nearest c (10 ^ (- k))) (10 ^ p)
    else 0 in
  let f_log_ten :=
    if f =? 0 then 0
    else
      let extra := len_str (Z.abs f) - 1 in
      if 0 <=? p + extra then div_nearest (f * log10_digits (p + extra)) (10 ^ extra) else 0 in
  div_nearest (f_log_ten + log_d) 100.

(** [M * exp(x / M)] *)
Definition iexp (x M : Z) : Z :=
  let L := 8 in
  let R := nbits (Z.shiftl x L / M) in
  let T := taylor_terms M L in
  let Mshift := Z.shiftl M R in
  let y := fold_left (λ y i, div_nearest (x * (Mshift + y)) (Mshift * i)) (down_from T) (div_nearest x T) in
  M + fold_left (λ y k, let Mshift := Z.shiftl M (k + 2) in div_nearest (y * (y + Mshift)) Mshift) (rev (seqZ 0 R)) y.

(** [exp(c * 10**e)] with [p] digits: a coefficient and its exponent. *)
Definition dexp (c e p : Z) : Z * Z :=
  let p := p + 2 in
  let extra := Z.max 0 (e + len_str c - 1) in
  let q := p + extra in
  let shift := e + q in
  let cshift := if 0 <=? shift then c * 10 ^ shift else c / 10 ^ (- shift) in
  let quot := cshift / log10_digits q in
  let rem := div_nearest (cshift mod log10_digits q) (10 ^ extra) in
  (div_nearest (iexp rem (10 ^ p)) 1000, quot - p + 3).

(** The digits of [coeff] after the first [p] decide how it rounds. *)
Definition decides (coeff p : Z) : bool := negb (coeff mod (5 * 10 ^ (len_str (Z.abs coeff) - p - 1)) =? 0).

Fixpoint ziv_ln (fuel : nat) (c e p places : Z) : res dec :=
  let coeff := dlog c e places in
  if decides coeff p then Ok (dround p (Dec coeff (- places)))
  else match fuel with O => raise InvalidOperation "ln" | S fuel => ziv_ln fuel c e p (places + 3) end.

Fixpoint ziv_exp (fuel : nat) (c e p extra : Z) : res dec :=
  let '(coeff, exp) := dexp c e (p + extra) in
  if decides coeff p then Ok (dround p (Dec coeff exp))
  else match fuel with O => raise InvalidOperation "exp" | S fuel => ziv_exp fuel c e p (extra + 3) end.

(** [Decimal._ln_exp_bound] of a positive decimal other than one *)
Definition ln_exp_bound (d : dec) : Z :=
  let c := dcoef d in
  let e := PyDecimal.dexp d in
  let adj := e + len_str c - 1 in
  if 1 <=? adj then len_str (adj * 23 / 10) - 1
  else if adj <=? -2 then len_str ((-1 - adj) * 23 / 10) - 1
  else if adj =? 0 then
    let num := string_of_Z (c - 10 ^ (- e)) in
    let den := string_of_Z c in
    Z.of_nat (String.length num) - Z.of_nat (String.length den) - one_if (String.ltb num den)
  else e + len_str (10 ^ (- e) - c) - 1.

Definition adjusted (d : dec) : Z := PyDecimal.dexp d + len_str (Z.abs (dcoef d)) - 1.

Definition ln (p : Z) (d : dec) : res dec :=
  if dcoef d =? 0 then raise InvalidOperation "ln of zero is infinite"
  else if (d =? d1)%dec then Ok d0
  else if dcoef d <? 0 then raise InvalidOperation "ln of a negative value"
  else ziv_ln 64 (dcoef d) (PyDecimal.dexp d) p (p - ln_exp_bound d + 2).

Definition exp (p : Z) (d : dec) : res dec :=
  if dcoef d =? 0 then Ok d1
  else
    let adj := adjusted d in
    if (0 <? dcoef d) && (adj <? - p) then Ok (dround p (Dec (10 ^ p + 1) (- p)))
    else if (dcoef d <? 0) && (adj <? - p - 1) then Ok (dround p (Dec (10 ^ (p + 1) - 1) (- p - 1)))
    else ziv_exp 64 (dcoef d) (PyDecimal.dexp d) p 3.

End PyDecimalMath.

#[export] Instance python_decimal_math : DecimalMath := {| dln_p := PyDecimalMath.ln; dexp_p := PyDecimalMath.exp |}.

(** The decay of a covariance with half-life 20 and base one half. *)
Lemma decay_of_twenty_sessions :
  (v ← dln_p 40 (Dec 5 (-1)); x ← ddiv_p 40 v (Dec 20 0); dexp_p 40 x)
  = Ok (Dec 9659363289248455510651443129204638993907 (-40)).
Proof. vm_compute. reflexivity. Qed.
