(* ===== verification/Domain.v ===== *)
(** * Domain records of the Q1 trading core

    The enums and immutable records of [domain/enums.py], [domain/q1.py] and
    [domain/contracts.py] that the modelled components exchange.  Constructing a
    pydantic model runs its validators: [validate_X] is the constructor's check, and
    the record value is the constructed model.  pydantic reports all failures in one
    [ValidationError]; the model raises it with the first message. *)
From Stdlib Require Import ZArith Lia Ascii String.
From stdpp Require Import base list strings numbers.
From S2P Require Import Prelude PyDecimal Hashing.
Set Default Goal Selector "!".
Open Scope Z_scope.

(** ** Enumerations *)

Inductive OrderSide := BUY | SELL.
#[global] Instance OrderSide_eq_dec : EqDecision OrderSide.
Proof. solve_decision. Defined.

Inductive Q1ArmId := HOLD | LIVE_MIRROR | B0_CASH | B0_QQQ | B0_VOL | Q1_DET | Q1_LLM.
#[global] Instance Q1ArmId_eq_dec : EqDecision Q1ArmId.
Proof. solve_decision. Defined.

Definition Q1ArmId_value (a : Q1ArmId) : string :=
  match a with
  | HOLD => "HOLD" | LIVE_MIRROR => "LIVE-MIRROR" | B0_CASH => "B0-CASH" | B0_QQQ => "B0-QQQ"
  | B0_VOL => "B0-VOL" | Q1_DET => "Q1-DET" | Q1_LLM => "Q1-LLM"
  end.

Inductive OrderEventType :=
  | CREATED | ACTIVE | PARTIALLY_FILLED | FILLED | CANCELED_BY_RISK | SUPERSEDED | EXPIRED
  | REJECTED | BLOCKED_BY_DATA | BLOCKED_BY_PRICE_GUARD.
#[global] Instance OrderEventType_eq_dec : EqDecision OrderEventType.
Proof. solve_decision. Defined.

Definition OrderEventType_value (t : OrderEventType) : string :=
  match t with
  | CREATED => "CREATED" | ACTIVE => "ACTIVE" | PARTIALLY_FILLED => "PARTIALLY_FILLED"
  | FILLED => "FILLED" | CANCELED_BY_RISK => "CANCELED_BY_RISK" | SUPERSEDED => "SUPERSEDED"
  | EXPIRED => "EXPIRED" | REJECTED => "REJECTED" | BLOCKED_BY_DATA => "BLOCKED_BY_DATA"
  | BLOCKED_BY_PRICE_GUARD => "BLOCKED_BY_PRICE_GUARD"
  end.

Definition is_terminal_order_event (t : OrderEventType) : bool :=
  match t with
  | FILLED | CANCELED_BY_RISK | SUPERSEDED | EXPIRED | REJECTED => true
  | _ => false
  end.

(** [event_type in {PARTIALLY_FILLED, FILLED}] *)
Definition is_fill_event (t : OrderEventType) : bool :=
  match t with PARTIALLY_FILLED | FILLED => true | _ => false end.

Inductive RiskSeverity := NORMAL | SOFT_STOP | HARD_REDUCE | CRITICAL_EXIT.
#[global] Instance RiskSeverity_eq_dec : EqDecision RiskSeverity.
Proof. solve_decision. Defined.

Definition RiskSeverity_value (s : RiskSeverity) : string :=
  match s with
  | NORMAL => "NORMAL" | SOFT_STOP => "SOFT_STOP" | HARD_REDUCE => "HARD_REDUCE"
  | CRITICAL_EXIT => "CRITICAL_EXIT"
  end.

Inductive RiskEpisodeEventType := ACTIVATE | ESCALATE | TARGET_PROGRESS | TARGET_REACHED | RELEASE.
#[global] Instance RiskEpisodeEventType_eq_dec : EqDecision RiskEpisodeEventType.
Proof. solve_decision. Defined.

Definition RiskEpisodeEventType_value (t : RiskEpisodeEventType) : string :=
  match t with
  | ACTIVATE => "ACTIVATE" | ESCALATE => "ESCALATE" | TARGET_PROGRESS => "TARGET_PROGRESS"
  | TARGET_REACHED => "TARGET_REACHED" | RELEASE => "RELEASE"
  end.

Inductive CashSettlementEventType :=
  | OPENING_SETTLED_CASH | BUY_SETTLED_CASH_DEBIT | SELL_RECEIVABLE_CREATED | RECEIVABLE_SETTLED.
#[global] Instance CashSettlementEventType_eq_dec : EqDecision CashSettlementEventType.
Proof. solve_decision. Defined.

Definition CashSettlementEventType_value (t : CashSettlementEventType) : string :=
  match t with
  | OPENING_SETTLED_CASH => "OPENING_SETTLED_CASH"
  | BUY_SETTLED_CASH_DEBIT => "BUY_SETTLED_CASH_DEBIT"
  | SELL_RECEIVABLE_CREATED => "SELL_RECEIVABLE_CREATED"
  | RECEIVABLE_SETTLED => "RECEIVABLE_SETTLED"
  end.

Definition Q1_ALGORITHM_VERSION : string := "q1_math_core_v1".

(** ** Field constraints *)

(** [len(s)] in code points: UTF-8 continuation bytes are not counted. *)
Fixpoint pylen (s : string) : Z :=
  match s with
  | EmptyString => 0
  | String c s =>
      let n := N_of_ascii c in
      (if (128 <=? n)%N && (n <? 192)%N then 0 else 1) + pylen s
  end.

Definition str_empty (s : string) : bool := match s with EmptyString => true | _ => false end.

(** [not all((s1, s2, ...))] over strings *)
Definition any_empty (l : list string) : bool := existsb str_empty l.

Definition len_between (lo hi : Z) (s : string) : bool := (lo <=? pylen s) && (pylen s <=? hi).

Definition ascii_in (lo hi : N) (c : ascii) : bool := (lo <=? N_of_ascii c)%N && (N_of_ascii c <=? hi)%N.
Definition is_upper (c : ascii) : bool := ascii_in 65 90 c.
(** [str.upper], on ASCII text. *)
Fixpoint upper (s : string) : string :=
  match s with
  | EmptyString => EmptyString
  | String c s => String (if ascii_in 97 122 c then ascii_of_N (N_of_ascii c - 32) else c) (upper s)
  end.

(** [str.strip], on ASCII text. *)
Definition is_space (c : ascii) : bool := ascii_in 9 13 c || ascii_in 28 32 c.
Fixpoint lstrip (s : string) : string :=
  match s with String c s' => if is_space c then lstrip s' else s | EmptyString => EmptyString end.
Fixpoint rstrip (s : string) : string :=
  match s with
  | EmptyString => EmptyString
  | String c s => match rstrip s with EmptyString => if is_space c then EmptyString else String c EmptyString | s => String c s end
  end.
Definition strip (s : string) : string := rstrip (lstrip s).

(** [[A-Z0-9._-]] *)
Definition is_symbol_char (c : ascii) : bool :=
  is_upper c || ascii_in 48 57 c || Ascii.eqb c "."%char || Ascii.eqb c "_"%char || Ascii.eqb c "-"%char.
Fixpoint all_chars (p : ascii → bool) (s : string) : bool :=
  match s with EmptyString => true | String c s => p c && all_chars p s end.
(** pattern ["^[A-Z][A-Z0-9._-]{0,29}$"] *)
Definition symbol_pattern (s : string) : bool :=
  match s with
  | EmptyString => false
  | String c s => is_upper c && all_chars is_symbol_char s && (Z.of_nat (String.length s) <=? 29)
  end.

(** A validator failure. *)
Definition invalid (b : bool) (msg : string) : res () := raise_if b ValidationError msg.
(** A [require_aware_utc] field validator. *)
Definition aware (t : datetime) : res () := invalid (negb (tz_aware t)) "datetime must be timezone-aware".

(** ** [VersionedQ1Record] *)

Record VersionedQ1Record := {
  algorithm_version : string;
  config_manifest_hash : string;
  code_version : string;
  model_version : string;
  source_manifest_hash : string;
}.

Definition validate_versioned (v : VersionedQ1Record) : res () :=
  invalid (negb (String.eqb (algorithm_version v) Q1_ALGORITHM_VERSION)) "algorithm_version";;
  invalid (negb (len_between 1 64 (config_manifest_hash v))) "config_manifest_hash";;
  invalid (negb (len_between 1 80 (code_version v))) "code_version";;
  invalid (negb (len_between 1 120 (model_version v))) "model_version";;
  invalid (negb (len_between 1 64 (source_manifest_hash v))) "source_manifest_hash".

(** ** [OrderEvent] *)

Record OrderEvent := {
  oe_event_id : string;
  oe_order_intent_id : string;
  oe_event_type : OrderEventType;
  oe_event_sequence : Z;
  oe_quantity_delta : dec;
  oe_commission_delta_usd : dec;
  oe_remaining_quantity : dec;
  oe_cumulative_filled_quantity : dec;
  oe_cumulative_commission_usd : dec;
  oe_occurred_at : datetime;
  oe_available_at : datetime;
  oe_idempotency_key : string;
  oe_reason : option string;
  oe_source_id : option string;
  oe_quote_id : option string;
  oe_source_cycle_id : option string;
  oe_worker_fence_token : string;
  oe_cycle_attempt_count : Z;
  oe_event_hash : string;
  oe_versioned : VersionedQ1Record;
}.

Definition validate_OrderEvent (e : OrderEvent) : res OrderEvent :=
  invalid (oe_event_sequence e <? 1) "event_sequence";;
  invalid (oe_quantity_delta e <? d0)%dec "quantity_delta";;
  invalid (oe_commission_delta_usd e <? d0)%dec "commission_delta_usd";;
  invalid (oe_remaining_quantity e <? d0)%dec "remaining_quantity";;
  invalid (oe_cumulative_filled_quantity e <? d0)%dec "cumulative_filled_quantity";;
  invalid (oe_cumulative_commission_usd e <? d0)%dec "cumulative_commission_usd";;
  invalid (oe_cycle_attempt_count e <? 1) "cycle_attempt_count";;
  validate_versioned (oe_versioned e);;
  aware (oe_occurred_at e);;
  aware (oe_available_at e);;
  invalid (dt_lt (oe_available_at e) (oe_occurred_at e))
    "Order event available_at cannot precede occurred_at";;
  invalid (bool_decide (oe_event_type e = FILLED) && negb (oe_remaining_quantity e =? d0)%dec)
    "FILLED order event must have zero remaining quantity";;
  invalid (bool_decide (oe_event_type e = PARTIALLY_FILLED) && (oe_cumulative_filled_quantity e <=? d0)%dec)
    "PARTIALLY_FILLED requires a positive cumulative fill";;
  invalid (is_fill_event (oe_event_type e) && (oe_quantity_delta e <=? d0)%dec)
    "Fill events require a positive quantity_delta";;
  invalid (negb (is_fill_event (oe_event_type e))
    && (negb (oe_quantity_delta e =? d0)%dec || negb (oe_commission_delta_usd e =? d0)%dec))
    "Non-fill order events cannot change quantity or commission";;
  Ok e.

(** ** Risk records *)

Record RiskTarget := {
  rt_symbol : string;
  rt_target_quantity : dec;
  rt_trigger_quote_id : string;
  rt_target_generation : Z;
  rt_target_id : option string;
  rt_trigger_quantity : option dec;
  rt_trigger_price : option dec;
  rt_target_weight : option dec;
}.

Definition opt_holds {A} (p : A → bool) (o : option A) : bool :=
  match o with Some a => p a | None => true end.

Definition validate_RiskTarget (t : RiskTarget) : res RiskTarget :=
  invalid (negb (symbol_pattern (rt_symbol t))) "symbol";;
  invalid (rt_target_quantity t <? d0)%dec "target_quantity";;
  invalid (rt_target_generation t <? 1) "target_generation";;
  invalid (negb (opt_holds (λ q, (d0 <=? q)%dec) (rt_trigger_quantity t))) "trigger_quantity";;
  invalid (negb (opt_holds (λ q, (d0 <? q)%dec) (rt_trigger_price t))) "trigger_price";;
  invalid (negb (opt_holds (λ w, (d0 <=? w)%dec && (w <=? d1)%dec) (rt_target_weight t))) "target_weight";;
  Ok t.

Record RiskEpisode := {
  ep_risk_episode_id : string;
  ep_run_id : string;
  ep_arm_id : Q1ArmId;
  ep_severity : RiskSeverity;
  ep_calendar_session_id : string;
  ep_triggered_at : datetime;
  ep_trigger_nav_usd : dec;
  ep_session_open_nav_usd : dec;
  ep_running_peak_nav_usd : dec;
  ep_daily_loss : dec;
  ep_run_drawdown : dec;
  ep_portfolio_annualized_vol : option dec;
  ep_soft_daily_threshold : dec;
  ep_hard_daily_threshold : dec;
  ep_reconciliation_status : string;
  ep_targets : list RiskTarget;
  ep_target_manifest_hash : string;
  ep_episode_hash : string;
  ep_created_at : datetime;
  ep_versioned : VersionedQ1Record;
}.

Definition has_dup (l : list string) : bool := negb (bool_decide (NoDup l)).

Definition validate_RiskEpisode (e : RiskEpisode) : res RiskEpisode :=
  invalid (ep_trigger_nav_usd e <=? d0)%dec "trigger_nav_usd";;
  invalid (ep_session_open_nav_usd e <=? d0)%dec "session_open_nav_usd";;
  invalid (ep_running_peak_nav_usd e <=? d0)%dec "running_peak_nav_usd";;
  invalid (ep_daily_loss e <? d0)%dec "daily_loss";;
  invalid (ep_run_drawdown e <? d0)%dec "run_drawdown";;
  invalid (negb (opt_holds (λ v, (d0 <=? v)%dec) (ep_portfolio_annualized_vol e))) "portfolio_annualized_vol";;
  invalid (ep_soft_daily_threshold e <? d0)%dec "soft_daily_threshold";;
  invalid (ep_hard_daily_threshold e <? d0)%dec "hard_daily_threshold";;
  invalid (bool_decide (ep_targets e = [])) "targets";;
  validate_versioned (ep_versioned e);;
  aware (ep_triggered_at e);;
  aware (ep_created_at e);;
  invalid (negb (match ep_severity e with HARD_REDUCE | CRITICAL_EXIT => true | _ => false end))
    "Typed risk episodes require HARD_REDUCE or CRITICAL_EXIT";;
  invalid (has_dup (map rt_symbol (ep_targets e))) "Risk episode targets must have unique symbols";;
  invalid (existsb (λ t, negb (rt_target_generation t =? 1)) (ep_targets e))
    "Risk episode activation targets must use generation 1";;
  invalid (dt_lt (ep_created_at e) (ep_triggered_at e)) "Risk episode cannot be created before it is triggered";;
  Ok e.

Record RiskEpisodeEvent := {
  re_risk_episode_event_id : string;
  re_risk_episode_id : string;
  re_event_type : RiskEpisodeEventType;
  re_event_sequence : Z;
  re_severity : RiskSeverity;
  re_target_generation : Z;
  re_occurred_at : datetime;
  re_available_at : datetime;
  re_targets : list RiskTarget;
  re_target_symbol : option string;
  re_observed_quantity : option dec;
  re_residual_quantity : option dec;
  re_consecutive_valid_checks : Z;
  re_source_cycle_id : option string;
  re_worker_fence_token : string;
  re_cycle_attempt_count : Z;
  re_idempotency_key : string;
  re_event_hash : string;
  re_versioned : VersionedQ1Record;
}.

Definition validate_RiskEpisodeEvent (e : RiskEpisodeEvent) : res RiskEpisodeEvent :=
  invalid (re_event_sequence e <? 1) "event_sequence";;
  invalid (re_target_generation e <? 1) "target_generation";;
  invalid (negb (opt_holds (λ v, (d0 <=? v)%dec) (re_observed_quantity e))) "observed_quantity";;
  invalid (negb (opt_holds (λ v, (d0 <=? v)%dec) (re_residual_quantity e))) "residual_quantity";;
  invalid (re_consecutive_valid_checks e <? 0) "consecutive_valid_checks";;
  invalid (re_cycle_attempt_count e <? 1) "cycle_attempt_count";;
  validate_versioned (re_versioned e);;
  aware (re_occurred_at e);;
  aware (re_available_at e);;
  invalid (dt_lt (re_available_at e) (re_occurred_at e)) "Risk event available_at cannot precede occurred_at";;
  invalid (match re_event_type e with ACTIVATE | ESCALATE => bool_decide (re_targets e = []) | _ => false end)
    "ACTIVATE and ESCALATE events require non-empty typed targets";;
  invalid (match re_event_type e with
           | TARGET_PROGRESS | TARGET_REACHED => bool_decide (re_target_symbol e = None)
           | _ => false end)
    "Target progress events require target_symbol";;
  Ok e.

(** ** [CashSettlementEvent] *)

Record CashSettlementEvent := {
  cs_cash_settlement_event_id : string;
  cs_run_id : string;
  cs_arm_id : Q1ArmId;
  cs_event_type : CashSettlementEventType;
  cs_receivable_id : option string;
  cs_source_fill_id : option string;
  cs_settlement_policy_version : string;
  cs_currency : string;
  cs_settled_cash_delta_usd : dec;
  cs_unsettled_receivable_delta_usd : dec;
  cs_gross_amount_usd : dec;
  cs_commission_usd : dec;
  cs_trade_at : option datetime;
  cs_settlement_date : option date;
  cs_effective_at : datetime;
  cs_calendar_session_id : string;
  cs_source_cycle_id : string;
  cs_worker_fence_token : string;
  cs_cycle_attempt_count : Z;
  cs_idempotency_key : string;
  cs_event_hash : string;
  cs_created_at : datetime;
  cs_versioned : VersionedQ1Record;
}.

Definition validate_CashSettlementEvent (e : CashSettlementEvent) : res CashSettlementEvent :=
  invalid (negb (all_chars is_upper (cs_currency e) && (Z.of_nat (String.length (cs_currency e)) =? 3))) "currency";;
  invalid (cs_gross_amount_usd e <? d0)%dec "gross_amount_usd";;
  invalid (cs_commission_usd e <? d0)%dec "commission_usd";;
  invalid (cs_cycle_attempt_count e <? 1) "cycle_attempt_count";;
  validate_versioned (cs_versioned e);;
  invalid (negb (opt_holds tz_aware (cs_trade_at e))) "datetime must be timezone-aware";;
  aware (cs_effective_at e);;
  aware (cs_created_at e);;
  invalid (match cs_event_type e with
           | SELL_RECEIVABLE_CREATED | RECEIVABLE_SETTLED =>
               bool_decide (cs_receivable_id e = None) || bool_decide (cs_settlement_date e = None)
           | _ => false end)
    "Receivable events require receivable_id and settlement_date";;
  invalid (dt_lt (cs_created_at e) (cs_effective_at e)) "Settlement event cannot be created before effective_at";;
  Ok e.

(** ** [domain/contracts.py]: fills and ledger records *)

Record Fill := {
  fl_fill_id : string;
  fl_order_intent_id : string;
  fl_arm_id : string;
  fl_symbol : string;
  fl_side : OrderSide;
  fl_quantity : dec;
  fl_price : dec;
  fl_commission_usd : dec;
  fl_execution_scenario_id : string;
  fl_effective_at : datetime;
  fl_created_at : datetime;
}.

Definition validate_Fill (f : Fill) : res Fill :=
  invalid (fl_quantity f <=? d0)%dec "quantity";;
  invalid (fl_price f <=? d0)%dec "price";;
  invalid (fl_commission_usd f <? d0)%dec "commission_usd";;
  aware (fl_effective_at f);;
  aware (fl_created_at f);;
  Ok f.

Record LedgerTransaction := {
  lt_ledger_transaction_id : string;
  lt_arm_id : string;
  lt_transaction_type : string;
  lt_source_id : string;
  lt_effective_at : datetime;
  lt_created_at : datetime;
}.

Definition validate_LedgerTransaction (t : LedgerTransaction) : res LedgerTransaction :=
  aware (lt_effective_at t);; aware (lt_created_at t);; Ok t.

Record LedgerPosting := {
  lp_posting_id : string;
  lp_ledger_transaction_id : string;
  lp_account_code : string;
  lp_asset_code : string;
  lp_quantity_delta : dec;
  lp_usd_value_delta : dec;
  lp_metadata : list (string * string);
}.

Record LedgerEntry := { le_transaction : LedgerTransaction; le_postings : list LedgerPosting }.

Definition validate_LedgerEntry (e : LedgerEntry) : res LedgerEntry :=
  invalid (Z.of_nat (length (le_postings e)) <? 2) "postings";;
  invalid (existsb (λ p, negb (String.eqb (lp_ledger_transaction_id p)
                                 (lt_ledger_transaction_id (le_transaction e)))) (le_postings e))
    "Ledger posting references another transaction";;
  invalid (Dec 1 (-6) <? dabs (dsum (map lp_usd_value_delta (le_postings e))))%dec
    "Ledger transaction is not balanced";;
  Ok e.

Record NavSnapshot := {
  nv_nav_snapshot_id : string;
  nv_arm_id : string;
  nv_as_of : datetime;
  nv_cash_usd : dec;
  nv_positions_market_value_usd : dec;
  nv_nav_usd : dec;
  nv_price_manifest_hash : string;
  nv_created_at : datetime;
}.

Definition validate_NavSnapshot (n : NavSnapshot) : res NavSnapshot :=
  aware (nv_as_of n);; aware (nv_created_at n);;
  invalid (negb (nv_cash_usd n + nv_positions_market_value_usd n =? nv_nav_usd n)%dec) "NAV arithmetic mismatch";;
  Ok n.

Arguments validate_versioned : simpl never.
Arguments validate_OrderEvent : simpl never.
Arguments validate_RiskTarget : simpl never.
Arguments validate_RiskEpisode : simpl never.
Arguments validate_RiskEpisodeEvent : simpl never.
Arguments validate_CashSettlementEvent : simpl never.
Arguments validate_LedgerEntry : simpl never.

(** A validator returns the record it was given. *)
Ltac unfold_validator := unfold invalid, aware in *; inv_ok; split_bool.

Lemma validate_OrderEvent_id e e' : validate_OrderEvent e = Ok e' → e' = e.
Proof. unfold validate_OrderEvent. intros. unfold_validator. done. Qed.

Lemma validate_CashSettlementEvent_id e e' : validate_CashSettlementEvent e = Ok e' → e' = e.
Proof. unfold validate_CashSettlementEvent. intros. unfold_validator. done. Qed.

Lemma validate_RiskEpisodeEvent_id e e' : validate_RiskEpisodeEvent e = Ok e' → e' = e.
Proof. unfold validate_RiskEpisodeEvent. intros. unfold_validator. done. Qed.

Lemma validate_RiskEpisode_id e e' : validate_RiskEpisode e = Ok e' → e' = e.
Proof. unfold validate_RiskEpisode. intros. unfold_validator. done. Qed.

Lemma validate_RiskTarget_id e e' : validate_RiskTarget e = Ok e' → e' = e.
Proof. unfold validate_RiskTarget. intros. unfold_validator. done. Qed.

Lemma validate_LedgerEntry_id e e' : validate_LedgerEntry e = Ok e' → e' = e.
Proof. unfold validate_LedgerEntry. intros. unfold_validator. done. Qed.

Lemma has_dup_false l : has_dup l = false ↔ NoDup l.
Proof. unfold has_dup. rewrite negb_false_iff. apply bool_decide_eq_true. Qed.
