(* ===== verification/OrderState.v ===== *)
(** * The order event state machine ([execution/order_state.py])

    An order's state is never stored: it is derived from its append-only event
    stream by [reduce_order_events], and every new event is constructed and
    re-validated by [append_order_event].  The sweeps ([soft_stop_buy_cancellations],
    [supersede_normal_orders], [expire_orders]) end pending orders by appending
    terminal events. *)
From Stdlib Require Import ZArith Lia Ascii String QArith Lqa.
From stdpp Require Import base list strings numbers sorting sets.
From S2P Require Import Prelude PyDecimal Hashing Domain.
Set Default Goal Selector "!".
Open Scope Z_scope.

(** ** Data *)

Inductive Q1OrderClass := NORMAL_ORDER | EMERGENCY_REDUCTION | LLM_REDUCTION | LIVE_MIRROR_TRANSITION.
#[global] Instance Q1OrderClass_eq_dec : EqDecision Q1OrderClass.
Proof. solve_decision. Defined.

Record OrderDescriptor := {
  od_order_intent_id : string;
  od_arm_id : string;
  od_portfolio_decision_id : string;
  od_symbol : string;
  od_side : OrderSide;
  od_quantity : dec;
  od_order_class : Q1OrderClass;
  od_created_at : datetime;
  od_valid_until : datetime;
}.

(** [OrderDescriptor.__post_init__] *)
Definition validate_OrderDescriptor (o : OrderDescriptor) : res OrderDescriptor :=
  require_aware_utc (od_created_at o);;
  require_aware_utc (od_valid_until o);;
  raise_if (any_empty [od_order_intent_id o; od_arm_id o; od_portfolio_decision_id o; od_symbol o])
    OrderStateError "Order descriptor identifiers are required";;
  raise_if (od_quantity o <=? d0)%dec OrderStateError "Order quantity must be positive";;
  raise_if (dt_le (od_valid_until o) (od_created_at o))
    OrderStateError "Order valid_until must follow created_at";;
  Ok o.

Record OrderEventProvenance := {
  op_config_manifest_hash : string;
  op_code_version : string;
  op_model_version : string;
  op_source_manifest_hash : string;
  op_worker_fence_token : string;
  op_cycle_attempt_count : Z;
}.

(** [OrderEventProvenance.__post_init__] *)
Definition validate_OrderEventProvenance (p : OrderEventProvenance) : res OrderEventProvenance :=
  raise_if (any_empty [op_config_manifest_hash p; op_code_version p; op_model_version p;
                       op_source_manifest_hash p; op_worker_fence_token p])
    OrderStateError "Complete order-event provenance is required";;
  raise_if (op_cycle_attempt_count p <=? 0) OrderStateError "Cycle attempt count must be positive";;
  Ok p.

Record OrderAggregate := {
  ag_order : OrderDescriptor;
  ag_status : OrderEventType;
  ag_remaining_quantity : dec;
  ag_cumulative_filled_quantity : dec;
  ag_cumulative_commission_usd : dec;
  ag_latest_event_sequence : Z;
  ag_latest_event_id : string;
}.

Definition is_terminal (a : OrderAggregate) : bool := is_terminal_order_event (ag_status a).
Definition is_pending (a : OrderAggregate) : bool :=
  negb (is_terminal a) && (d0 <? ag_remaining_quantity a)%dec.

(** ** Reduction of an event stream *)

Definition _validate_event_identity (events : list OrderEvent) : res () :=
  raise_if (has_dup (map oe_event_id events)) OrderStateError "Duplicate order event ID";;
  raise_if (has_dup (map oe_idempotency_key events)) OrderStateError "Duplicate order event idempotency key".

(** The loop variables of [reduce_order_events]. *)
Record reduction := {
  rd_remaining : dec;
  rd_cumulative_fill : dec;
  rd_cumulative_commission : dec;
  rd_previous_status : option OrderEventType;
}.

(** One iteration of its loop. *)
Definition reduce_step (order : OrderDescriptor) (st : reduction) (event : OrderEvent) : res reduction :=
  raise_if (dt_lt (oe_occurred_at event) (od_created_at order))
    OrderStateError "Order event cannot predate its intent";;
  raise_if (match rd_previous_status st with Some s => is_terminal_order_event s | None => false end)
    OrderStateError "No order event may follow a terminal event";;
  st' ← (match oe_event_type event with
    | CREATED =>
        raise_if (match rd_previous_status st with Some _ => true | None => false end)
          OrderStateError "CREATED may occur only once";;
        raise_if (negb (oe_quantity_delta event =? d0)%dec || negb (oe_commission_delta_usd event =? d0)%dec)
          OrderStateError "CREATED cannot carry fill or commission deltas";;
        Ok st
    | PARTIALLY_FILLED | FILLED =>
        raise_if (oe_quantity_delta event <=? d0)%dec OrderStateError "Fill event quantity_delta must be positive";;
        raise_if (rd_remaining st <? oe_quantity_delta event)%dec
          OrderStateError "Fill event exceeds remaining quantity";;
        let cumulative_fill := (rd_cumulative_fill st + oe_quantity_delta event)%dec in
        let remaining := (rd_remaining st - oe_quantity_delta event)%dec in
        let cumulative_commission := (rd_cumulative_commission st + oe_commission_delta_usd event)%dec in
        raise_if (bool_decide (oe_event_type event = PARTIALLY_FILLED) && (remaining <=? d0)%dec)
          OrderStateError "PARTIALLY_FILLED must leave positive quantity";;
        raise_if (bool_decide (oe_event_type event = FILLED) && negb (remaining =? d0)%dec)
          OrderStateError "FILLED must consume exact remaining quantity";;
        Ok {| rd_remaining := remaining; rd_cumulative_fill := cumulative_fill;
              rd_cumulative_commission := cumulative_commission;
              rd_previous_status := rd_previous_status st |}
    | _ =>
        raise_if (negb (oe_quantity_delta event =? d0)%dec || negb (oe_commission_delta_usd event =? d0)%dec)
          OrderStateError "Non-fill order events cannot carry fill deltas";;
        Ok st
    end);
  raise_if (negb (oe_remaining_quantity event =? rd_remaining st')%dec)
    OrderStateError "Order event remaining_quantity snapshot is inconsistent";;
  raise_if (negb (oe_cumulative_filled_quantity event =? rd_cumulative_fill st')%dec)
    OrderStateError "Order cumulative fill snapshot is inconsistent";;
  raise_if (negb (oe_cumulative_commission_usd event =? rd_cumulative_commission st')%dec)
    OrderStateError "Order cumulative commission snapshot is inconsistent";;
  Ok {| rd_remaining := rd_remaining st'; rd_cumulative_fill := rd_cumulative_fill st';
        rd_cumulative_commission := rd_cumulative_commission st';
        rd_previous_status := Some (oe_event_type event) |}.

Definition reduction_init (order : OrderDescriptor) : reduction :=
  {| rd_remaining := od_quantity order; rd_cumulative_fill := d0;
     rd_cumulative_commission := d0; rd_previous_status := None |}.

(** The events of one order visible at [as_of]. *)
Definition visible_events (order : OrderDescriptor) (events : list OrderEvent) (as_of : option datetime)
  : list OrderEvent :=
  List.filter (λ event, String.eqb (oe_order_intent_id event) (od_order_intent_id order)
    && opt_holds (λ t, dt_le (oe_available_at event) t) as_of) events.

Definition no_created_msg (order : OrderDescriptor) : string :=
  String.append "Order " (String.append (od_order_intent_id order) " has no CREATED event").

Definition reduce_order_events (order : OrderDescriptor) (events : list OrderEvent)
    (as_of : option datetime) : res OrderAggregate :=
  match as_of with Some t => require_aware_utc t;; Ok () | None => Ok () end;;
  let materialized := visible_events order events as_of in
  raise_if (bool_decide (materialized = [])) OrderStateError (no_created_msg order);;
  _validate_event_identity materialized;;
  let ordered := sorted (seq_le oe_event_sequence) materialized in
  match head ordered, last ordered with
  | Some first, Some latest =>
      raise_if (negb (bool_decide (oe_event_type first = CREATED)))
        OrderStateError "First order event must be CREATED";;
      raise_if (negb (oe_event_sequence first =? 1)) OrderStateError "Order event sequence must start at one";;
      raise_if (negb (contiguous oe_event_sequence 1 ordered))
        OrderStateError "Order event sequence must be contiguous";;
      st ← foldM (reduce_step order) (reduction_init order) ordered;
      Ok {| ag_order := order;
            ag_status := oe_event_type latest;
            ag_remaining_quantity := rd_remaining st;
            ag_cumulative_filled_quantity := rd_cumulative_fill st;
            ag_cumulative_commission_usd := rd_cumulative_commission st;
            ag_latest_event_sequence := oe_event_sequence latest;
            ag_latest_event_id := oe_event_id latest |}
  | _, _ => raise OrderStateError (no_created_msg order)
  end.

Arguments reduce_order_events : simpl never.
Arguments reduce_step : simpl never.

(** Sort key [(order.created_at, order.order_intent_id)]. *)
Definition order_key_le (a b : OrderAggregate) : bool :=
  let ta := instant (od_created_at (ag_order a)) in
  let tb := instant (od_created_at (ag_order b)) in
  (ta <? tb) || ((ta =? tb) && String.leb (od_order_intent_id (ag_order a)) (od_order_intent_id (ag_order b))).

Definition pending_orders (orders : list OrderDescriptor) (events : list OrderEvent)
    (as_of : option datetime) : res (list OrderAggregate) :=
  aggregates ← mapM_res (λ order, reduce_order_events order events as_of) orders;
  Ok (sorted order_key_le (List.filter is_pending aggregates)).

(** ** Appending *)

Definition opt_str (o : option string) : pyval := match o with Some s => PStr s | None => PNone end.

(** The arguments of [append_order_event] besides the order and its events. *)
Record AppendRequest := {
  rq_event_type : OrderEventType;
  rq_occurred_at : datetime;
  rq_available_at : datetime;
  rq_provenance : OrderEventProvenance;
  rq_quantity_delta : dec;
  rq_commission_delta_usd : dec;
  rq_reason : option string;
  rq_source_id : option string;
  rq_quote_id : option string;
  rq_source_cycle_id : option string;
}.

Definition relevant_events (order : OrderDescriptor) (events : list OrderEvent) : list OrderEvent :=
  List.filter (λ event, String.eqb (oe_order_intent_id event) (od_order_intent_id order)) events.

(** Sequence number and running totals of the next event. *)
Definition next_totals (order : OrderDescriptor) (relevant : list OrderEvent) (rq : AppendRequest)
  : res (Z * dec * dec * dec) :=
  match rq_event_type rq with
  | CREATED =>
      raise_if (negb (bool_decide (relevant = []))) OrderStateError "CREATED event already exists";;
      raise_if (negb (rq_quantity_delta rq =? d0)%dec || negb (rq_commission_delta_usd rq =? d0)%dec)
        OrderStateError "CREATED cannot carry fill deltas";;
      Ok (1, od_quantity order, d0, d0)
  | _ =>
      aggregate ← reduce_order_events order relevant None;
      raise_if (is_terminal aggregate) OrderStateError "Cannot append after terminal order event";;
      let sequence := ag_latest_event_sequence aggregate + 1 in
      let remaining := ag_remaining_quantity aggregate in
      let cumulative_fill := ag_cumulative_filled_quantity aggregate in
      let cumulative_commission := ag_cumulative_commission_usd aggregate in
      if is_fill_event (rq_event_type rq) then
        raise_if ((rq_quantity_delta rq <=? d0)%dec || (remaining <? rq_quantity_delta rq)%dec)
          OrderStateError "Fill delta must be within remaining quantity";;
        let remaining := (remaining - rq_quantity_delta rq)%dec in
        let cumulative_fill := (cumulative_fill + rq_quantity_delta rq)%dec in
        let cumulative_commission := (cumulative_commission + rq_commission_delta_usd rq)%dec in
        raise_if (bool_decide (rq_event_type rq = PARTIALLY_FILLED) && (remaining <=? d0)%dec)
          OrderStateError "PARTIALLY_FILLED must leave a residual";;
        raise_if (bool_decide (rq_event_type rq = FILLED) && negb (remaining =? d0)%dec)
          OrderStateError "FILLED must consume the exact residual";;
        Ok (sequence, remaining, cumulative_fill, cumulative_commission)
      else
        raise_if (negb (rq_quantity_delta rq =? d0)%dec || negb (rq_commission_delta_usd rq =? d0)%dec)
          OrderStateError "Non-fill event cannot carry fill deltas";;
        Ok (sequence, remaining, cumulative_fill, cumulative_commission)
  end.

Section append.
Context `{Digest}.

(** The [identity] mapping, from which the event ID and the event hash derive. *)
Definition event_identity (order : OrderDescriptor) (rq : AppendRequest) (sequence : Z) (remaining : dec)
  : list (string * pyval) :=
  [("order_intent_id", PStr (od_order_intent_id order));
   ("event_type", PStr (OrderEventType_value (rq_event_type rq)));
   ("event_sequence", PInt sequence);
   ("quantity_delta", PDecimal (rq_quantity_delta rq));
   ("commission_delta_usd", PDecimal (rq_commission_delta_usd rq));
   ("remaining_quantity", PDecimal remaining);
   ("occurred_at", PDatetime (rq_occurred_at rq));
   ("source_id", opt_str (rq_source_id rq));
   ("quote_id", opt_str (rq_quote_id rq));
   ("source_cycle_id", opt_str (rq_source_cycle_id rq))].

(** The event built from a request once its totals are known. *)
Definition build_event (order : OrderDescriptor) (rq : AppendRequest)
    (totals : Z * dec * dec * dec) : res OrderEvent :=
  let '(sequence, remaining, cumulative_fill, cumulative_commission) := totals in
  let provenance := rq_provenance rq in
  let identity := event_identity order rq sequence remaining in
  event_id ← stable_id "q1-order-event" [PDict identity];
  event_hash ← canonical_hash (PDict (identity ++
    [("cumulative_filled_quantity", PDecimal cumulative_fill);
     ("cumulative_commission_usd", PDecimal cumulative_commission);
     ("reason", opt_str (rq_reason rq));
     ("config_manifest_hash", PStr (op_config_manifest_hash provenance));
     ("code_version", PStr (op_code_version provenance));
     ("model_version", PStr (op_model_version provenance));
     ("source_manifest_hash", PStr (op_source_manifest_hash provenance))]));
  idempotency_key ← stable_id "q1-order-event-idem" [PStr event_id];
  validate_OrderEvent {|
    oe_event_id := event_id;
    oe_order_intent_id := od_order_intent_id order;
    oe_event_type := rq_event_type rq;
    oe_event_sequence := sequence;
    oe_quantity_delta := rq_quantity_delta rq;
    oe_commission_delta_usd := rq_commission_delta_usd rq;
    oe_remaining_quantity := remaining;
    oe_cumulative_filled_quantity := cumulative_fill;
    oe_cumulative_commission_usd := cumulative_commission;
    oe_occurred_at := rq_occurred_at rq;
    oe_available_at := rq_available_at rq;
    oe_idempotency_key := idempotency_key;
    oe_reason := rq_reason rq;
    oe_source_id := rq_source_id rq;
    oe_quote_id := rq_quote_id rq;
    oe_source_cycle_id := rq_source_cycle_id rq;
    oe_worker_fence_token := op_worker_fence_token provenance;
    oe_cycle_attempt_count := op_cycle_attempt_count provenance;
    oe_event_hash := event_hash;
    oe_versioned := {|
      algorithm_version := Q1_ALGORITHM_VERSION;
      config_manifest_hash := op_config_manifest_hash provenance;
      code_version := op_code_version provenance;
      model_version := op_model_version provenance;
      source_manifest_hash := op_source_manifest_hash provenance |} |}.

Definition append_order_event (order : OrderDescriptor) (existing_events : list OrderEvent)
    (rq : AppendRequest) : res OrderEvent :=
  require_aware_utc (rq_occurred_at rq);;
  require_aware_utc (rq_available_at rq);;
  raise_if (dt_lt (rq_available_at rq) (rq_occurred_at rq))
    OrderStateError "Order event available_at cannot precede occurred_at";;
  let relevant := relevant_events order existing_events in
  totals ← next_totals order relevant rq;
  event ← build_event order rq totals;
  reduce_order_events order (relevant ++ [event]) None;;
  Ok event.

Arguments build_event : simpl never.
Arguments append_order_event : simpl never.

(** ** Sweeps over pending orders *)

(** [for aggregate in pending: if not selected: continue; result.append(append_order_event(...))] *)
Definition append_selected (selected : OrderAggregate → bool) (rq : AppendRequest)
    (materialized result : list OrderEvent) (pending : list OrderAggregate) : res (list OrderEvent) :=
  foldM (λ result aggregate,
    if selected aggregate then
      event ← append_order_event (ag_order aggregate) (materialized ++ result) rq;
      Ok (result ++ [event])
    else Ok result) result pending.

Definition terminal_request (t : OrderEventType) (occurred_at available_at : datetime)
    (provenance : OrderEventProvenance) (reason source_cycle_id : string) : AppendRequest :=
  {| rq_event_type := t; rq_occurred_at := occurred_at; rq_available_at := available_at;
     rq_provenance := provenance; rq_quantity_delta := d0; rq_commission_delta_usd := d0;
     rq_reason := Some reason; rq_source_id := None; rq_quote_id := None;
     rq_source_cycle_id := Some source_cycle_id |}.

Definition soft_stop_buy_cancellations (orders : list OrderDescriptor) (events : list OrderEvent)
    (occurred_at available_at : datetime) (provenance : OrderEventProvenance)
    (source_cycle_id : string) : res (list OrderEvent) :=
  pending ← pending_orders orders events None;
  append_selected (λ aggregate, bool_decide (od_side (ag_order aggregate) = BUY))
    (terminal_request CANCELED_BY_RISK occurred_at available_at provenance
       "Q1_SOFT_STOP_BLOCK_NEW_BUYS" source_cycle_id)
    events [] pending.

(** [replacement_sell_quantity[(arm_id, symbol)]] of a [defaultdict(Decimal)]. *)
Definition replacement_sell_quantity (replacements : list OrderDescriptor) (arm_id symbol : string) : dec :=
  dsum (map od_quantity (List.filter (λ o, bool_decide (od_side o = SELL)
    && String.eqb (od_arm_id o) arm_id && String.eqb (od_symbol o) symbol) replacements)).

Definition supersede_normal_orders (orders : list OrderDescriptor) (events : list OrderEvent)
    (replacement_orders : list OrderDescriptor) (occurred_at available_at : datetime)
    (provenance : OrderEventProvenance) (source_cycle_id : string) : res (list OrderEvent) :=
  let replacements := List.filter (λ o, bool_decide (od_order_class o = NORMAL_ORDER)) replacement_orders in
  if bool_decide (replacements = []) then Ok []
  else
    pending ← pending_orders orders events None;
    append_selected (λ aggregate,
        let o := ag_order aggregate in
        bool_decide (od_order_class o = NORMAL_ORDER)
        && existsb (String.eqb (od_arm_id o)) (map od_arm_id replacements)
        && negb (bool_decide (od_side o = SELL)
                 && (replacement_sell_quantity replacements (od_arm_id o) (od_symbol o)
                     <? ag_remaining_quantity aggregate)%dec))
      (terminal_request SUPERSEDED occurred_at available_at provenance
         "REPLACED_BY_NEW_STRATEGIC_TARGET" source_cycle_id)
      events [] pending.

Definition expire_orders (orders : list OrderDescriptor) (events : list OrderEvent) (as_of : datetime)
    (provenance : OrderEventProvenance) (source_cycle_id : string) (expire_at_boundary : bool)
  : res (list OrderEvent) :=
  require_aware_utc as_of;;
  pending ← pending_orders orders events (Some as_of);
  append_selected (λ aggregate,
      negb (negb expire_at_boundary && dt_le as_of (od_valid_until (ag_order aggregate))))
    (terminal_request EXPIRED as_of as_of provenance "ORDER_VALIDITY_WINDOW_ENDED" source_cycle_id)
    events [] pending.
End append.

Definition order_id_le (a b : OrderDescriptor) : bool :=
  String.leb (od_order_intent_id a) (od_order_intent_id b).

Definition validate_order_event_book (orders : list OrderDescriptor) (events : list OrderEvent)
  : res (list OrderAggregate) :=
  let order_ids := map od_order_intent_id orders in
  raise_if (existsb (λ event, negb (existsb (String.eqb (oe_order_intent_id event)) order_ids)) events)
    OrderStateError "Orphaned order events";;
  mapM_res (λ order, reduce_order_events order (relevant_events order events) None)
    (sorted order_id_le orders).

(** ** Facts about reduction *)

Definition stream_of (order : OrderDescriptor) (events : list OrderEvent) (as_of : option datetime)
  : list OrderEvent := sorted (seq_le oe_event_sequence) (visible_events order events as_of).

Definition aggregate_of (order : OrderDescriptor) (latest : OrderEvent) (st : reduction) : OrderAggregate :=
  {| ag_order := order; ag_status := oe_event_type latest;
     ag_remaining_quantity := rd_remaining st;
     ag_cumulative_filled_quantity := rd_cumulative_fill st;
     ag_cumulative_commission_usd := rd_cumulative_commission st;
     ag_latest_event_sequence := oe_event_sequence latest;
     ag_latest_event_id := oe_event_id latest |}.

(** What a successful reduction established. *)
Record reduced (order : OrderDescriptor) (events : list OrderEvent) (as_of : option datetime)
    (agg : OrderAggregate) : Prop := {
  red_aware : opt_holds tz_aware as_of = true;
  red_ids : NoDup (map oe_event_id (visible_events order events as_of));
  red_keys : NoDup (map oe_idempotency_key (visible_events order events as_of));
  red_contiguous : contiguous oe_event_sequence 1 (stream_of order events as_of) = true;
  red_run : ∃ first latest st,
    head (stream_of order events as_of) = Some first ∧ oe_event_type first = CREATED ∧
    last (stream_of order events as_of) = Some latest ∧
    foldM (reduce_step order) (reduction_init order) (stream_of order events as_of) = Ok st ∧
    agg = aggregate_of order latest st;
}.

Lemma reduce_Ok_iff order events as_of agg :
  reduce_order_events order events as_of = Ok agg ↔ reduced order events as_of agg.
Proof.
  unfold reduce_order_events. fold (stream_of order events as_of). cbv zeta. split.
  - intros Hr. apply bind_Ok_inv in Hr as (u & Ht & Hr). inv_ok.
    unfold _validate_event_identity in *. inv_ok.
    destruct (head (stream_of order events as_of)) as [first|] eqn:Eh; [|done].
    destruct (last (stream_of order events as_of)) as [latest|] eqn:El; [|done]. inv_ok. split_bool.
    split; [|by apply has_dup_false..|done|by eexists first, latest, _].
    destruct as_of as [t|]; [|done]. cbn. unfold require_aware_utc in Ht. by destruct (tz_aware t).
  - intros [Ha Hi Hk Hc (first & latest & st & Eh & Ec & El & Ef & ->)].
    assert (match as_of with Some t => require_aware_utc t;; Ok () | None => Ok () end = Ok ()) as ->.
    { destruct as_of as [t|]; [|done]. cbn in Ha. unfold require_aware_utc. by rewrite Ha. }
    cbn [mbind res_bind]. rewrite bool_decide_eq_false_2; cycle 1.
    { intros E. unfold stream_of in Eh. by rewrite E in Eh. }
    unfold _validate_event_identity. cbn [mbind res_bind raise_if].
    rewrite (proj2 (has_dup_false _) Hi), (proj2 (has_dup_false _) Hk). cbn [mbind res_bind raise_if].
    rewrite Eh, El. rewrite bool_decide_eq_true_2 by done. rewrite Hc, Ef.
    assert (oe_event_sequence first =? 1 = true) as ->.
    { destruct (stream_of order events as_of); cbn in *; [done|]. injection Eh as ->. by split_bool. }
    done.
Qed.

Lemma visible_None order events : visible_events order events None = relevant_events order events.
Proof. unfold visible_events, relevant_events. apply filter_ext. intros. cbn. by rewrite andb_true_r. Qed.

Lemma relevant_idem order events :
  relevant_events order (relevant_events order events) = relevant_events order events.
Proof. apply filterb_all. intros x Hx. by apply elem_of_filterb in Hx as [? _]. Qed.

Lemma relevant_app order l1 l2 :
  relevant_events order (l1 ++ l2) = relevant_events order l1 ++ relevant_events order l2.
Proof. apply List.filter_app. Qed.

(** The reduction reads only the order's own events. *)
Lemma reduce_relevant order l1 l2 :
  relevant_events order l1 = relevant_events order l2 →
  reduce_order_events order l1 None = reduce_order_events order l2 None.
Proof. intros E. unfold reduce_order_events. by rewrite !visible_None, E. Qed.

Lemma reduce_order_of order events as_of agg :
  reduce_order_events order events as_of = Ok agg → ag_order agg = order.
Proof. rewrite reduce_Ok_iff. by intros [_ _ _ _ (?&?&?&?&?&?&?&->)]. Qed.

Lemma contiguous_last {A} (f : A → Z) n l x :
  contiguous f n l = true → last l = Some x → f x = n + Z.of_nat (length l) - 1.
Proof.
  revert n. induction l as [|y l IH]; intros n Hc Hl; [done|]. cbn [contiguous] in Hc. split_bool.
  destruct l as [|z l]; [cbn in *; injection Hl as ->; lia|].
  rewrite last_cons_cons in Hl. rewrite (IH _ H0 Hl). cbn [length]. lia.
Qed.

(** ** The stream does not depend on the order in which events are read *)

Lemma reduce_permutation order l1 l2 as_of agg :
  l1 ≡ₚ l2 → reduce_order_events order l1 as_of = Ok agg → reduce_order_events order l2 as_of = Ok agg.
Proof.
  intros Hp. rewrite !reduce_Ok_iff. intros [Ha Hi Hk Hc Hr].
  assert (visible_events order l1 as_of ≡ₚ visible_events order l2 as_of) as Hv by (by apply filterb_perm).
  assert (stream_of order l1 as_of = stream_of order l2 as_of) as E by (by apply sorted_contiguous_unique).
  split; [done|by rewrite <- Hv..|by rewrite <- E|by rewrite <- E].
Qed.

(** ** One step of the reduction *)

(** The totals after one event. *)
Definition step_totals (st : reduction) (event : OrderEvent) : dec * dec * dec :=
  if is_fill_event (oe_event_type event) then
    (rd_remaining st - oe_quantity_delta event, rd_cumulative_fill st + oe_quantity_delta event,
     rd_cumulative_commission st + oe_commission_delta_usd event)%dec
  else (rd_remaining st, rd_cumulative_fill st, rd_cumulative_commission st).

(** The guard of one event on the state it meets. *)
Definition step_guard (order : OrderDescriptor) (st : reduction) (event : OrderEvent) : Prop :=
  let '(rem, fill, comm) := step_totals st event in
  dt_lt (oe_occurred_at event) (od_created_at order) = false ∧
  (∀ s, rd_previous_status st = Some s → is_terminal_order_event s = false) ∧
  (oe_event_type event = CREATED → rd_previous_status st = None) ∧
  (is_fill_event (oe_event_type event) = true →
     (d0 <? oe_quantity_delta event)%dec = true ∧ (oe_quantity_delta event <=? rd_remaining st)%dec = true) ∧
  (is_fill_event (oe_event_type event) = false →
     (oe_quantity_delta event =? d0)%dec = true ∧ (oe_commission_delta_usd event =? d0)%dec = true) ∧
  (oe_event_type event = PARTIALLY_FILLED → (d0 <? rem)%dec = true) ∧
  (oe_event_type event = FILLED → (rem =? d0)%dec = true) ∧
  (oe_remaining_quantity event =? rem)%dec = true ∧
  (oe_cumulative_filled_quantity event =? fill)%dec = true ∧
  (oe_cumulative_commission_usd event =? comm)%dec = true.

Lemma reduce_step_Ok_iff order st event st' :
  reduce_step order st event = Ok st' ↔
  step_guard order st event ∧
  let '(rem, fill, comm) := step_totals st event in
  st' = {| rd_remaining := rem; rd_cumulative_fill := fill; rd_cumulative_commission := comm;
           rd_previous_status := Some (oe_event_type event) |}.
Proof.
  destruct st as [rem fill comm prev]. unfold reduce_step, step_guard, step_totals, dltb.
  cbn [rd_remaining rd_cumulative_fill rd_cumulative_commission rd_previous_status]. split.
  - intros Hr. apply bind_Ok_inv in Hr as (u1 & E1 & Hr). apply bind_Ok_inv in Hr as (u2 & E2 & Hr).
    apply bind_Ok_inv in Hr as (st1 & E3 & Hr).
    destruct (oe_event_type event), prev as [s|]; inv_ok; split_bool; cbn in *; try done;
      (split; [|done]); repeat split; rewrite ?negb_true_iff, ?negb_false_iff; try done; intros; try congruence;
      by destruct (rem - oe_quantity_delta event =? d0)%dec.
  - destruct (oe_event_type event); cbn; intros [(H1 & H2 & H3 & H4 & H5 & H6 & H7 & H8 & H9 & H10) ->];
      rewrite H1; cbn;
      (assert (match prev with Some s => is_terminal_order_event s | None => false end = false) as ->
        by (destruct prev; [by apply H2|done])); cbn.
    1: rewrite (H3 eq_refl); destruct (H5 eq_refl) as [-> ->]; cbn; by rewrite H8, H9, H10.
    1: destruct (H5 eq_refl) as [-> ->]; cbn; by rewrite H8, H9, H10.
    1: destruct (H4 eq_refl) as [H41 H42]; specialize (H6 eq_refl);
       rewrite negb_true_iff in H41, H6; rewrite H41, H42; cbn; rewrite H6, andb_false_r; change (bool_decide (PARTIALLY_FILLED = FILLED)) with false; cbn; by rewrite H8, H9, H10.
    1: destruct (H4 eq_refl) as [H41 H42]; specialize (H7 eq_refl);
       rewrite negb_true_iff in H41; rewrite H41, H42; cbn; rewrite H7, andb_false_r; change (bool_decide (FILLED = PARTIALLY_FILLED)) with false; cbn; by rewrite H8, H9, H10.
    all: destruct (H5 eq_refl) as [-> ->]; cbn; by rewrite H8, H9, H10.
Qed.

(** After a run, the previous status is the type of the last event. *)
Lemma foldM_last_status order st0 l st latest :
  foldM (reduce_step order) st0 l = Ok st → last l = Some latest →
  rd_previous_status st = Some (oe_event_type latest).
Proof.
  destruct l as [|y l _] using rev_ind; [done|]. rewrite foldM_snoc, last_snoc. intros Hf [= ->].
  apply bind_Ok_inv in Hf as (st' & _ & Hf). apply reduce_step_Ok_iff in Hf.
  destruct (step_totals _ _) as [[??]?]. by destruct Hf as [_ ->].
Qed.

(** ** The order lifecycle as an abstract state machine

    A status with the exact remaining and filled quantities of an order of size [q]. *)
Inductive lifecycle (q : Q) : OrderEventType → Q → Q → Prop :=
  | life_created r f : (r == q)%Q → (f == 0)%Q → lifecycle q CREATED r f
  | life_note s r f t :
      lifecycle q s r f → is_terminal_order_event s = false →
      t ∈ [ACTIVE; BLOCKED_BY_DATA; BLOCKED_BY_PRICE_GUARD] → lifecycle q t r f
  | life_partial s r f x r' f' :
      lifecycle q s r f → is_terminal_order_event s = false →
      (0 < x)%Q → (x < r)%Q → (r' == r - x)%Q → (f' == f + x)%Q → lifecycle q PARTIALLY_FILLED r' f'
  | life_filled s r f r' f' :
      lifecycle q s r f → is_terminal_order_event s = false →
      (0 < r)%Q → (r' == 0)%Q → (f' == f + r)%Q → lifecycle q FILLED r' f'
  | life_ended s r f t :
      lifecycle q s r f → is_terminal_order_event s = false →
      t ∈ [CANCELED_BY_RISK; SUPERSEDED; EXPIRED; REJECTED] → lifecycle q t r f.

(** The invariant of the lifecycle, by rule induction. *)
Lemma lifecycle_inv q s r f :
  (0 < q)%Q → lifecycle q s r f →
  (r + f == q ∧ 0 <= f)%Q ∧ (if bool_decide (s = FILLED) then (r == 0)%Q else (0 < r)%Q).
Proof.
  intros Hq. induction 1 as [r f Hr Hf|s r f t _ IH Hs Ht|s r f x r' f' _ IH Hs H1 H2 H3 H4
    |s r f r' f' _ IH Hs H1 H2 H3|s r f t _ IH Hs Ht].
  - change (bool_decide (CREATED = FILLED)) with false. split; [split|]; lra.
  - destruct IH as [[IH1 IH2] IH3]. rewrite bool_decide_eq_false_2 in IH3 by (by intros ->).
    split; [done|]. rewrite bool_decide_eq_false_2; [done|]. intros ->. set_solver.
  - destruct IH as [[IH1 IH2] IH3]. change (bool_decide (PARTIALLY_FILLED = FILLED)) with false.
    split; [split|]; lra.
  - destruct IH as [[IH1 IH2] IH3]. change (bool_decide (FILLED = FILLED)) with true. split; [split|]; lra.
  - destruct IH as [[IH1 IH2] IH3]. rewrite bool_decide_eq_false_2 in IH3 by (by intros ->).
    split; [done|]. rewrite bool_decide_eq_false_2; [done|]. intros ->. set_solver.
Qed.

(** The order and its events use at most [k] decimal places and fit the precision. *)
Definition order_on_grid (k : Z) (order : OrderDescriptor) (events : list OrderEvent) : Prop :=
  0 <= k ∧ on_grid k (od_quantity order) ∧ 0 < units k (od_quantity order) < LIMIT ∧
  Forall (λ e, on_grid k (oe_quantity_delta e)) events.

(** The relation between the loop variables and the abstract state. *)
Definition reduction_sim (k : Z) (order : OrderDescriptor) (st : reduction) : Prop :=
  on_grid k (rd_remaining st) ∧ on_grid k (rd_cumulative_fill st) ∧
  0 <= units k (rd_remaining st) ∧ 0 <= units k (rd_cumulative_fill st) ∧
  units k (rd_remaining st) + units k (rd_cumulative_fill st) = units k (od_quantity order) ∧
  ∃ s, rd_previous_status st = Some s ∧
       lifecycle (dval (od_quantity order)) s (dval (rd_remaining st)) (dval (rd_cumulative_fill st)).

(** Units of an exact difference and sum of a fill. *)
Lemma fill_units k rem fill x total :
  on_grid k rem → on_grid k fill → on_grid k x →
  0 <= units k rem → 0 <= units k fill → units k rem + units k fill = total → 0 < total < LIMIT →
  0 < units k x <= units k rem →
  let rem' := (rem - x)%dec in let fill' := (fill + x)%dec in
  on_grid k rem' ∧ on_grid k fill' ∧ units k rem' = units k rem - units k x ∧
  units k fill' = units k fill + units k x ∧ (dval rem' == dval rem - dval x ∧ dval fill' == dval fill + dval x)%Q.
Proof.
  intros G1 G2 G3 H1 H2 H3 H4 H5 rem' fill'.
  destruct (dsub_units k rem x G1 G3) as [G4 U4]; [lia|]. destruct (dadd_units k fill x G2 G3) as [G5 U5]; [lia|].
  do 4 (split; [done|]). split.
  - rewrite !(units_dval k) by done. unfold rem'. rewrite U4. unfold Z.sub. rewrite inject_Z_plus, inject_Z_opp. ring.
  - rewrite !(units_dval k) by done. unfold fill'. rewrite U5, inject_Z_plus. ring.
Qed.

Lemma reduce_step_sim k order events st event st' :
  order_on_grid k order events → event ∈ events → reduction_sim k order st →
  reduce_step order st event = Ok st' → reduction_sim k order st'.
Proof.
  intros (Hk & G0 & Hq & HG) Hin (G1 & G2 & H1 & H2 & H3 & s & Hs & HL) Hstep.
  rewrite Forall_forall in HG. specialize (HG _ Hin).
  rewrite reduce_step_Ok_iff in Hstep. unfold step_guard, step_totals in Hstep.
  destruct (is_fill_event (oe_event_type event)) eqn:Ef.
  - destruct Hstep as [(_ & Ht & _ & Hfill & _ & Hpart & Hfull & _) ->]. destruct (Hfill eq_refl) as [Hx1 Hx2].
    pose proof Hx1 as Hxpos. apply dltb_lt in Hxpos. rewrite dval_d0 in Hxpos.
    specialize (Ht _ Hs). rewrite (dltb_units k) in Hx1 by (done || by apply on_grid_d0).
    rewrite (dleb_units k) in Hx2 by done. rewrite units_d0 in Hx1.
    destruct (fill_units k (rd_remaining st) (rd_cumulative_fill st) (oe_quantity_delta event) (units k (od_quantity order)))
      as (G1' & G2' & U1 & U2 & V1 & V2); [done..|lia|].
    unfold reduction_sim; cbn [rd_remaining rd_cumulative_fill rd_previous_status].
    do 2 (split; [done|]). do 3 (split; [lia|]). eexists; split; [done|].
    destruct (oe_event_type event); try done.
    + eapply life_partial; [exact HL|done|exact Hxpos| |exact V1|exact V2].
      specialize (Hpart eq_refl). dec_to_Q. lra.
    + specialize (Hfull eq_refl). dec_to_Q. eapply life_filled; [exact HL|done|lra|done|lra].
  - destruct Hstep as [(_ & Ht & Hc & _) ->]. specialize (Ht _ Hs).
    unfold reduction_sim; cbn [rd_remaining rd_cumulative_fill rd_previous_status].
    do 5 (split; [done|]). eexists; split; [done|].
    destruct (oe_event_type event); try done; try (by rewrite Hc in Hs);
      (eapply life_note; [exact HL|done|set_solver]) || (eapply life_ended; [exact HL|done|set_solver]).
Qed.

Lemma reduce_sim k order events as_of agg :
  order_on_grid k order events → reduce_order_events order events as_of = Ok agg →
  lifecycle (dval (od_quantity order)) (ag_status agg) (dval (ag_remaining_quantity agg))
    (dval (ag_cumulative_filled_quantity agg)).
Proof.
  intros HG. rewrite reduce_Ok_iff. intros [_ _ _ _ (first & latest & st & Eh & Ec & El & Ef & ->)].
  assert (∀ e, e ∈ stream_of order events as_of → e ∈ events) as Hsub.
  { intros e He. unfold stream_of in He. rewrite elem_of_sorted in He. by apply elem_of_filterb in He as [_ ?]. }
  destruct (stream_of order events as_of) as [|e0 rest] eqn:Es; [done|].
  cbn in Eh. injection Eh as ->. cbn [foldM] in Ef. apply bind_Ok_inv in Ef as (st1 & E1 & Ef).
  assert (reduction_sim k order st1) as Hsim1.
  { apply reduce_step_Ok_iff in E1. unfold step_totals in E1. rewrite Ec in E1. cbn in E1. destruct E1 as [_ ->].
    destruct HG as (Hk & G0 & Hq & _). unfold reduction_sim; cbn. rewrite units_d0.
    repeat split; [done|by apply on_grid_d0|lia|lia|lia|]. eexists; split; [done|]. by apply life_created. }
  assert (reduction_sim k order st ∧ rd_previous_status st = Some (oe_event_type latest)) as [Hsim Hlast].
  { split.
    - eapply (foldM_invariant (reduction_sim k order)); [|exact Hsim1|exact Ef].
      intros acc x acc' Hx HP Hs. eapply reduce_step_sim; [exact HG|apply Hsub; by right|exact HP|exact Hs].
    - eapply (foldM_last_status order (reduction_init order) (first :: rest)); [|exact El].
      cbn [foldM]. by rewrite E1. }
  destruct Hsim as (_ & _ & _ & _ & _ & s & Hs & HL). rewrite Hlast in Hs. injection Hs as <-. done.
Qed.

(** ** Appending one event *)

Lemma relevant_snoc order events ev :
  oe_order_intent_id ev = od_order_intent_id order →
  relevant_events order (events ++ [ev]) = relevant_events order events ++ [ev].
Proof. intros E. rewrite relevant_app. unfold relevant_events at 2. cbn. by rewrite E, String.eqb_refl. Qed.

(** Reduction after the event with the next sequence number is one more step. *)
Lemma reduce_snoc_iff order events ev agg agg' :
  reduce_order_events order events None = Ok agg →
  oe_order_intent_id ev = od_order_intent_id order →
  oe_event_sequence ev = ag_latest_event_sequence agg + 1 →
  reduce_order_events order (events ++ [ev]) None = Ok agg' ↔
  (oe_event_id ev ∉ map oe_event_id (relevant_events order events) ∧
   oe_idempotency_key ev ∉ map oe_idempotency_key (relevant_events order events)) ∧
  ∃ st', reduce_step order
    {| rd_remaining := ag_remaining_quantity agg; rd_cumulative_fill := ag_cumulative_filled_quantity agg;
       rd_cumulative_commission := ag_cumulative_commission_usd agg; rd_previous_status := Some (ag_status agg) |}
    ev = Ok st' ∧ agg' = aggregate_of order ev st'.
Proof.
  rewrite !reduce_Ok_iff. intros [_ Hi Hk Hc (first & latest & st & Eh & Ec & El & Ef & ->)] Hid Hseq.
  assert (Hst : st = {| rd_remaining := rd_remaining st; rd_cumulative_fill := rd_cumulative_fill st;
    rd_cumulative_commission := rd_cumulative_commission st; rd_previous_status := Some (oe_event_type latest) |}).
  { rewrite <- (foldM_last_status _ _ _ _ _ Ef El). by destruct st. }
  cbn [ag_remaining_quantity ag_cumulative_filled_quantity ag_cumulative_commission_usd ag_status aggregate_of].
  rewrite <- Hst.
  assert (length (stream_of order events None) = length (visible_events order events None)) as Hlen
    by apply length_sorted.
  assert (oe_event_sequence ev = 1 + Z.of_nat (length (visible_events order events None))) as Hseq'.
  { rewrite Hseq; cbn. rewrite (contiguous_last _ _ _ _ Hc El), Hlen. lia. }
  destruct (sorted_snoc_next oe_event_sequence _ ev Hc Hseq') as [Hs1 Hs2].
  assert (visible_events order (events ++ [ev]) None = visible_events order events None ++ [ev]) as Hv
    by (rewrite !visible_None; by apply relevant_snoc).
  assert (stream_of order (events ++ [ev]) None = stream_of order events None ++ [ev]) as Hs
    by (unfold stream_of; by rewrite Hv).
  split.
  - intros [_ Hi' Hk' _ (first' & latest' & st' & _ & _ & El' & Ef' & ->)].
    rewrite Hv, map_app in Hi', Hk'. rewrite visible_None in *.
    apply NoDup_app in Hi' as (_ & Hi' & _). apply NoDup_app in Hk' as (_ & Hk' & _).
    rewrite Hs, last_snoc in El'. injection El' as <-. rewrite Hs, foldM_snoc, Ef in Ef'. cbn in Ef'.
    split; [|eauto]. split; intros Hin; [eapply (Hi' _ Hin)|eapply (Hk' _ Hin)]; left.
  - intros [[Hf1 Hf2] (st' & Hstep & ->)]. rewrite <- visible_None in Hf1, Hf2. split.
    + done.
    + rewrite Hv, map_app. apply NoDup_app. split; [done|]. split; [|apply NoDup_singleton]. set_solver.
    + rewrite Hv, map_app. apply NoDup_app. split; [done|]. split; [|apply NoDup_singleton]. set_solver.
    + by rewrite Hs.
    + exists first, ev, st'. rewrite Hs, last_snoc, foldM_snoc, Ef. cbn.
      rewrite Hstep. repeat split; try done. destruct (stream_of order events None); [done|]. by cbn in *.
Qed.

Section append_facts.
Context `{Digest}.

(** The fields of a constructed event. *)
Lemma build_event_fields order rq s r f c ev :
  build_event order rq (s, r, f, c) = Ok ev →
  oe_order_intent_id ev = od_order_intent_id order ∧ oe_event_type ev = rq_event_type rq ∧
  oe_event_sequence ev = s ∧ oe_quantity_delta ev = rq_quantity_delta rq ∧
  oe_commission_delta_usd ev = rq_commission_delta_usd rq ∧ oe_remaining_quantity ev = r ∧
  oe_cumulative_filled_quantity ev = f ∧ oe_cumulative_commission_usd ev = c ∧
  oe_occurred_at ev = rq_occurred_at rq ∧ oe_available_at ev = rq_available_at rq ∧
  validate_OrderEvent ev = Ok ev.
Proof.
  unfold build_event. intros Hb. apply bind_Ok_inv in Hb as (? & _ & Hb). apply bind_Ok_inv in Hb as (? & _ & Hb).
  apply bind_Ok_inv in Hb as (? & _ & Hb). pose proof (validate_OrderEvent_id _ _ Hb) as ->. done.
Qed.

(** [next_totals] on a non-initial event, in terms of the aggregate it extends. *)
Lemma next_totals_inv order relevant rq s r f c :
  rq_event_type rq ≠ CREATED → next_totals order relevant rq = Ok (s, r, f, c) →
  ∃ agg, reduce_order_events order relevant None = Ok agg ∧ is_terminal agg = false ∧
    s = ag_latest_event_sequence agg + 1 ∧
    (r, f, c) = if is_fill_event (rq_event_type rq)
      then (ag_remaining_quantity agg - rq_quantity_delta rq,
            ag_cumulative_filled_quantity agg + rq_quantity_delta rq,
            ag_cumulative_commission_usd agg + rq_commission_delta_usd rq)%dec
      else (ag_remaining_quantity agg, ag_cumulative_filled_quantity agg, ag_cumulative_commission_usd agg).
Proof.
  intros Hne. unfold next_totals. destruct (rq_event_type rq) eqn:Et; [done|..]; intros Hn; inv_ok;
    cbn [is_fill_event] in *; inv_ok; eexists; repeat split; done.
Qed.

(** On success, the new stream reduces to the aggregate carrying the event's totals. *)
Lemma append_sound order events rq ev :
  append_order_event order events rq = Ok ev →
  ∃ s r f c, next_totals order (relevant_events order events) rq = Ok (s, r, f, c) ∧
    oe_order_intent_id ev = od_order_intent_id order ∧ oe_event_type ev = rq_event_type rq ∧
    reduce_order_events order (events ++ [ev]) None =
      Ok {| ag_order := order; ag_status := rq_event_type rq; ag_remaining_quantity := r;
            ag_cumulative_filled_quantity := f; ag_cumulative_commission_usd := c;
            ag_latest_event_sequence := s; ag_latest_event_id := oe_event_id ev |}.
Proof.
  unfold append_order_event. intros Ha. do 3 apply bind_Ok_inv in Ha as (? & _ & Ha).
  apply bind_Ok_inv in Ha as ([[[s r] f] c] & Hn & Ha). apply bind_Ok_inv in Ha as (ev' & Hb & Ha).
  apply bind_Ok_inv in Ha as (agg' & Hr & Ha). injection Ha as ->.
  exists s, r, f, c. split; [done|].
  destruct (build_event_fields _ _ _ _ _ _ _ Hb) as (F1 & F2 & F3 & F4 & F5 & F6 & F7 & F8 & _).
  split; [done|]. split; [done|].
  rewrite (reduce_relevant order (events ++ [ev]) (relevant_events order events ++ [ev])), Hr
    by (rewrite !relevant_snoc, relevant_idem; done).
  f_equal. destruct (decide (rq_event_type rq = CREATED)) as [Et|Et].
  - unfold next_totals in Hn. rewrite Et in Hn. inv_ok. split_bool.
    rewrite E in Hr. apply reduce_Ok_iff in Hr as [_ _ _ _ (first & latest & st & _ & _ & El & Ef & ->)].
    assert (stream_of order [ev] None = [ev]) as Hs.
    { unfold stream_of. rewrite visible_None. unfold relevant_events. cbn. by rewrite F1, String.eqb_refl. }
    cbn [app] in *. rewrite Hs in Ef, El. cbn in Ef, El. injection El as <-.
    apply bind_Ok_inv in Ef as (st' & Ef & [= ->]). apply reduce_step_Ok_iff in Ef.
    unfold step_totals in Ef. rewrite F2, Et in Ef. cbn in Ef. destruct Ef as [_ ->].
    unfold aggregate_of; cbn. by rewrite F2, F3, Et.
  - destruct (next_totals_inv _ _ _ _ _ _ _ Et Hn) as (agg & Hagg & _ & -> & Htot).
    apply (reduce_snoc_iff _ _ _ _ _ Hagg F1 F3) in Hr as [_ (st' & Hstep & ->)].
    apply reduce_step_Ok_iff in Hstep. unfold step_totals in Hstep.
    rewrite F2, F4, F5 in Hstep. cbn in Hstep.
    destruct (is_fill_event (rq_event_type rq)); injection Htot as -> -> ->; destruct Hstep as [_ ->];
      unfold aggregate_of; cbn; by rewrite F2, F3.
Qed.
End append_facts.

(** ** Ending a pending order *)

(** Collisions of the 96-bit identifiers are the only way a well-formed terminal event is refused. *)
Definition duplicate_error (e : exn) : Prop :=
  e = Exn OrderStateError "Duplicate order event ID" ∨
  e = Exn OrderStateError "Duplicate order event idempotency key".

(** A request the constructor accepts for [order]. *)
Definition request_ok (order : OrderDescriptor) (rq : AppendRequest) : bool :=
  tz_aware (rq_occurred_at rq) && tz_aware (rq_available_at rq)
  && dt_le (rq_occurred_at rq) (rq_available_at rq)
  && dt_le (od_created_at order) (rq_occurred_at rq)
  && is_ok (validate_versioned {| algorithm_version := Q1_ALGORITHM_VERSION;
       config_manifest_hash := op_config_manifest_hash (rq_provenance rq);
       code_version := op_code_version (rq_provenance rq);
       model_version := op_model_version (rq_provenance rq);
       source_manifest_hash := op_source_manifest_hash (rq_provenance rq) |})
  && (1 <=? op_cycle_attempt_count (rq_provenance rq)).

(** The events were constructed by the validating constructor. *)
Definition events_valid (events : list OrderEvent) : Prop :=
  Forall (λ e, validate_OrderEvent e = Ok e) events.

Lemma opt_str_ok o : val_ok (opt_str o) = true.
Proof. by destruct o. Qed.

(** Snapshot fields of the latest event bound the totals of the aggregate. *)
Lemma aggregate_nonneg order events agg :
  events_valid events → reduce_order_events order events None = Ok agg →
  (0 <= dval (ag_remaining_quantity agg) ∧ 0 <= dval (ag_cumulative_filled_quantity agg)
   ∧ 0 <= dval (ag_cumulative_commission_usd agg))%Q ∧ 1 <= ag_latest_event_sequence agg.
Proof.
  intros Hv. rewrite reduce_Ok_iff. intros [_ _ _ Hc (first & latest & st & _ & _ & El & Ef & ->)].
  assert (latest ∈ events) as Hin.
  { apply last_Some_elem_of in El. unfold stream_of in El. rewrite elem_of_sorted in El.
    by apply elem_of_filterb in El as [_ ?]. }
  unfold events_valid in Hv. rewrite Forall_forall in Hv. specialize (Hv _ Hin).
  destruct (stream_of order events None) as [|y l _] using rev_ind; [done|].
  rewrite last_snoc in El. injection El as ->. rewrite foldM_snoc in Ef. apply bind_Ok_inv in Ef as (st' & _ & Ef).
  apply reduce_step_Ok_iff in Ef. unfold step_guard in Ef.
  destruct (step_totals st' latest) as [[rem fill] comm]. destruct Ef as [(_ & _ & _ & _ & _ & _ & _ & S1 & S2 & S3) ->].
  unfold validate_OrderEvent in Hv. unfold_validator. cbn. dec_to_Q.
  repeat split; try lra. rewrite <- Z.ltb_ge. done.
Qed.

(** A stream that is refused after the snoc although the step is possible has a colliding identifier. *)
Lemma reduce_snoc_error order events ev agg st' e :
  reduce_order_events order events None = Ok agg →
  oe_order_intent_id ev = od_order_intent_id order →
  oe_event_sequence ev = ag_latest_event_sequence agg + 1 →
  reduce_step order
    {| rd_remaining := ag_remaining_quantity agg; rd_cumulative_fill := ag_cumulative_filled_quantity agg;
       rd_cumulative_commission := ag_cumulative_commission_usd agg; rd_previous_status := Some (ag_status agg) |}
    ev = Ok st' →
  reduce_order_events order (events ++ [ev]) None = Raise e → duplicate_error e.
Proof.
  intros Hr Hid Hseq Hstep He.
  assert (¬ (oe_event_id ev ∉ map oe_event_id (relevant_events order events) ∧
    oe_idempotency_key ev ∉ map oe_idempotency_key (relevant_events order events))) as Hdup.
  { intros Hfresh. assert (reduce_order_events order (events ++ [ev]) None = Ok (aggregate_of order ev st')) as E.
    { apply (reduce_snoc_iff _ _ _ _ _ Hr Hid Hseq). eauto. } congruence. }
  unfold reduce_order_events in He. rewrite visible_None, relevant_snoc in He by done. cbv zeta in He.
  cbn [mbind res_bind] in He. rewrite bool_decide_eq_false_2 in He by (by destruct (relevant_events order events)).
  cbn [mbind res_bind raise_if] in He. unfold _validate_event_identity in He. rewrite !map_app in He. cbn [map] in He.
  unfold duplicate_error.
  destruct (has_dup (map oe_event_id (relevant_events order events) ++ [oe_event_id ev])) eqn:D1;
    cbn in He; [left; congruence|].
  destruct (has_dup (map oe_idempotency_key (relevant_events order events) ++ [oe_idempotency_key ev])) eqn:D2;
    cbn in He; [right; congruence|].
  exfalso. apply Hdup. apply has_dup_false in D1, D2.
  apply NoDup_app in D1 as (_ & D1 & _). apply NoDup_app in D2 as (_ & D2 & _). set_solver.
Qed.

Section append_total.
Context `{Digest}.

Lemma next_totals_terminal order relevant t agg occ av prov reason cyc :
  t ≠ CREATED → is_fill_event t = false → is_terminal agg = false →
  reduce_order_events order relevant None = Ok agg →
  next_totals order relevant (terminal_request t occ av prov reason cyc) =
  Ok (ag_latest_event_sequence agg + 1, ag_remaining_quantity agg,
      ag_cumulative_filled_quantity agg, ag_cumulative_commission_usd agg).
Proof.
  intros H1 H2 H3 H4. unfold next_totals, terminal_request. cbn.
  destruct t; try done; rewrite H4; cbn; rewrite H3; done.
Qed.

Lemma build_terminal_ok order t s r f c occ av prov reason cyc :
  let rq := terminal_request t occ av prov reason cyc in
  is_fill_event t = false → request_ok order rq = true → 1 <= s →
  (0 <= dval r)%Q → (0 <= dval f)%Q → (0 <= dval c)%Q →
  ∃ ev, build_event order rq (s, r, f, c) = Ok ev.
Proof.
  intros rq Ht Hok Hs Hr Hf Hc. unfold request_ok in Hok. split_bool.
  apply is_ok_ex in H2 as [[] Hver]. unfold build_event.
  assert (val_ok (PDict (event_identity order rq s r)) = true) as Hid.
  { unfold event_identity. cbn in *. by rewrite H0. }
  destruct (stable_id_ok "q1-order-event" [PDict (event_identity order rq s r)]) as [eid ->]; [cbn -[event_identity] in *; by rewrite Hid|].
  cbn [mbind res_bind]. edestruct canonical_hash_ok as [hh ->].
  { cbn [val_ok]. rewrite forallb_app. cbn [val_ok] in Hid. by rewrite Hid. }
  cbn [mbind res_bind].
  destruct (stable_id_ok "q1-order-event-idem" [PStr eid]) as [key ->]; [done|]. cbn [mbind res_bind].
  assert (∀ x, (0 <= dval x)%Q → (x <? d0)%dec = false) as Hnn by (intros; dec_to_Q; done).
  unfold validate_OrderEvent, invalid, aware. cbn -[dt_lt dltb deqb] in *.
  rewrite !Hnn by done. rewrite H0, H5, Hver, Ht.
  assert (s <? 1 = false) as -> by lia. assert (op_cycle_attempt_count prov <? 1 = false) as -> by lia.
  assert (dt_lt av occ = false) as -> by (unfold dt_lt, dt_le in *; lia).
  rewrite !bool_decide_eq_false_2 by (by intros ->). cbn. eauto.
Qed.

(** A non-terminal order can always be ended, up to an identifier collision. *)
Lemma terminal_append order events agg t occ av prov reason cyc :
  let rq := terminal_request t occ av prov reason cyc in
  t ≠ CREATED → is_fill_event t = false → request_ok order rq = true → events_valid events →
  reduce_order_events order events None = Ok agg → is_terminal agg = false →
  match append_order_event order events rq with
  | Ok ev => reduce_order_events order (events ++ [ev]) None =
      Ok {| ag_order := order; ag_status := t; ag_remaining_quantity := ag_remaining_quantity agg;
            ag_cumulative_filled_quantity := ag_cumulative_filled_quantity agg;
            ag_cumulative_commission_usd := ag_cumulative_commission_usd agg;
            ag_latest_event_sequence := ag_latest_event_sequence agg + 1;
            ag_latest_event_id := oe_event_id ev |}
  | Raise e => duplicate_error e
  end.
Proof.
  intros rq Hc Hf Hok Hv Hr Ht. destruct (append_order_event order events rq) as [ev|e] eqn:Ea.
  { destruct (append_sound _ _ _ _ Ea) as (s & r & f & c & Hn & _ & _ & Hred).
    unfold rq in Hn. rewrite (next_totals_terminal order _ t agg) in Hn; [|done..|].
    - injection Hn as <- <- <- <-. exact Hred.
    - rewrite <- Hr. apply reduce_relevant. apply relevant_idem. }
  assert (reduce_order_events order (relevant_events order events) None = Ok agg) as Hr'
    by (rewrite <- Hr; apply reduce_relevant, relevant_idem).
  unfold append_order_event in Ea. pose proof Hok as Hok'. unfold request_ok in Hok'. split_bool.
  unfold require_aware_utc in Ea. rewrite H0, H5 in Ea. cbn [mbind res_bind] in Ea.
  assert (dt_lt (rq_available_at rq) (rq_occurred_at rq) = false) as Hlt by (unfold dt_lt, dt_le in *; lia).
  rewrite Hlt in Ea. cbn [mbind res_bind raise_if] in Ea.
  unfold rq in Ea. rewrite (next_totals_terminal order _ t agg) in Ea by done. fold rq in Ea. cbn [mbind res_bind] in Ea.
  destruct (aggregate_nonneg _ _ _ Hv Hr) as [(N1 & N2 & N3) N4].
  edestruct (build_terminal_ok order t (ag_latest_event_sequence agg + 1)) as [ev Hb]; [done|exact Hok|lia|exact N1|exact N2|exact N3|].
  fold rq in Hb. rewrite Hb in Ea. cbn [mbind res_bind] in Ea.
  destruct (reduce_order_events order (relevant_events order events ++ [ev]) None) as [agg'|e'] eqn:Er; [done|].
  injection Ea as ->. destruct (build_event_fields _ _ _ _ _ _ _ Hb) as (F1 & F2 & F3 & F4 & F5 & F6 & F7 & F8 & F9 & _).
  eapply (reduce_snoc_error order _ ev agg); [exact Hr'|exact F1|exact F3| |exact Er].
  apply reduce_step_Ok_iff. unfold step_guard, step_totals. rewrite F2, F4, F5, F6, F7, F8, F9. cbn [rq rq_event_type terminal_request].
  rewrite Hf. cbn. split; [|done]. split; [unfold rq, dt_lt, dt_le in *; cbn in *; lia|]. rewrite !deqb_refl.
  unfold is_terminal in Ht. repeat split; try done; try (by intros ->); congruence.
Qed.
End append_total.

(** ** The sweeps *)

Definition agg_id (a : OrderAggregate) : string := od_order_intent_id (ag_order a).

Lemma relevant_other order ev :
  oe_order_intent_id ev ≠ od_order_intent_id order → relevant_events order [ev] = [].
Proof. intros Hne. unfold relevant_events. cbn. by destruct (String.eqb_spec (oe_order_intent_id ev) (od_order_intent_id order)). Qed.

Section sweeps.
Context `{Digest}.

(** Each selected order receives exactly one event of the requested type, on top of the
    events it had; every other order keeps its events. *)
Lemma append_selected_spec selected rq mat res0 pend res :
  append_selected selected rq mat res0 pend = Ok res → NoDup (map agg_id pend) →
  (∀ o, (∀ a, a ∈ pend → selected a = true → agg_id a ≠ od_order_intent_id o) →
        relevant_events o (mat ++ res) = relevant_events o (mat ++ res0)) ∧
  (∀ a, a ∈ pend → selected a = true →
        ∃ ev res1, append_order_event (ag_order a) (mat ++ res1) rq = Ok ev ∧
          relevant_events (ag_order a) (mat ++ res1) = relevant_events (ag_order a) (mat ++ res0) ∧
          relevant_events (ag_order a) (mat ++ res) = relevant_events (ag_order a) (mat ++ res1 ++ [ev])).
Proof.
  revert res0. induction pend as [|a pend IH]; intros res0 Hs Hnd; cbn in Hs.
  { injection Hs as ->. split; [done|]. set_solver. }
  cbn in Hnd. apply NoDup_cons in Hnd as [Hn1 Hn2]. apply bind_Ok_inv in Hs as (res' & Ha & Hs).
  specialize (IH res' Hs Hn2) as [IH1 IH2].
  destruct (selected a) eqn:Ea.
  - apply bind_Ok_inv in Ha as (ev & Ha & [= <-]).
    destruct (append_sound _ _ _ _ Ha) as (_ & _ & _ & _ & _ & Hid & _).
    assert (Hother : ∀ o, agg_id a ≠ od_order_intent_id o →
      relevant_events o (mat ++ res0 ++ [ev]) = relevant_events o (mat ++ res0)).
    { intros o Hne. rewrite app_assoc, relevant_app, (relevant_other o ev), app_nil_r; [done|].
      rewrite Hid. exact Hne. }
    split.
    + intros o Ho. rewrite IH1; [|intros; apply Ho; [by right|done]]. apply Hother. by apply Ho; [left|].
    + intros b [->|Hb]%elem_of_cons Hsel.
      * exists ev, res0. split; [done|]. split; [done|]. apply IH1. intros c Hc _ E. apply Hn1.
        unfold agg_id at 1. rewrite <- E. apply list_elem_of_fmap. eauto.
      * destruct (IH2 b Hb Hsel) as (ev' & res1 & A1 & A2 & A3). exists ev', res1. split; [done|]. split; [|done].
        rewrite A2. apply Hother. intros E. apply Hn1. unfold agg_id at 1. unfold agg_id in E. rewrite E.
        apply list_elem_of_fmap. eauto.
  - injection Ha as <-. split; [intros o Ho; apply IH1; intros; apply Ho; [by right|done]|].
    intros b [->|Hb]%elem_of_cons Hsel; [congruence|auto].
Qed.

(** The orders a [pending_orders] call returns. *)
Lemma pending_orders_spec orders events as_of pend :
  pending_orders orders events as_of = Ok pend → NoDup (map od_order_intent_id orders) →
  NoDup (map agg_id pend) ∧
  (∀ o, o ∈ orders → ∃ a, reduce_order_events o events as_of = Ok a) ∧
  (∀ a, a ∈ pend ↔ is_pending a = true ∧ ag_order a ∈ orders ∧ reduce_order_events (ag_order a) events as_of = Ok a).
Proof.
  unfold pending_orders. intros Hp Hnd. apply bind_Ok_inv in Hp as (aggs & Hm & [= <-]).
  apply mapM_res_Forall2 in Hm.
  assert (map agg_id aggs = map od_order_intent_id orders) as Hids.
  { clear Hnd. induction Hm as [|o a orders aggs Ho _ IH]; cbn; [done|]. rewrite IH. f_equal.
    unfold agg_id. by rewrite (reduce_order_of _ _ _ _ Ho). }
  split; [|split].
  - rewrite sorted_perm. apply NoDup_map_filter. by rewrite Hids.
  - intros o Ho. apply list_elem_of_lookup in Ho as [i Hi]. destruct (Forall2_lookup_l _ _ _ _ _ Hm Hi) as (a & _ & Ha). eauto.
  - intros a. rewrite elem_of_sorted, elem_of_filterb. split.
    + intros [Hpend Ha]. split; [done|]. apply list_elem_of_lookup in Ha as [i Hi].
      destruct (Forall2_lookup_r _ _ _ _ _ Hm Hi) as (o & Ho & Hr).
      rewrite (reduce_order_of _ _ _ _ Hr). split; [|done]. apply list_elem_of_lookup. eauto.
    + intros (Hpend & Ho & Hr). split; [done|]. apply list_elem_of_lookup in Ho as [i Hi].
      destruct (Forall2_lookup_l _ _ _ _ _ Hm Hi) as (a' & Ha' & Hr').
      rewrite Hr in Hr'. injection Hr' as <-. apply list_elem_of_lookup. eauto.
Qed.

(** A sweep that ends with a terminal event type: selected pending orders end with their
    quantities unchanged, all other orders keep their aggregate. *)
Lemma terminal_sweep_spec selected t occ av prov reason cyc orders events as_of pend res :
  let rq := terminal_request t occ av prov reason cyc in
  t ≠ CREATED → is_fill_event t = false → NoDup (map od_order_intent_id orders) →
  pending_orders orders events as_of = Ok pend → append_selected selected rq events [] pend = Ok res →
  ∀ o a, o ∈ orders → reduce_order_events o events as_of = Ok a →
    if is_pending a && selected a
    then ∃ a0 a', reduce_order_events o events None = Ok a0 ∧ reduce_order_events o (events ++ res) None = Ok a' ∧
         ag_status a' = t ∧ ag_remaining_quantity a' = ag_remaining_quantity a0 ∧
         ag_cumulative_filled_quantity a' = ag_cumulative_filled_quantity a0
    else reduce_order_events o (events ++ res) None = reduce_order_events o events None.
Proof.
  intros rq Hc Hf Hnd Hp Hs o a Ho Ha.
  destruct (pending_orders_spec _ _ _ _ Hp Hnd) as (Hnp & _ & Hiff).
  destruct (append_selected_spec _ _ _ _ _ _ Hs Hnp) as [S1 S2].
  pose proof (reduce_order_of _ _ _ _ Ha) as Eo. rewrite app_nil_r in *.
  destruct (is_pending a && selected a) eqn:Es.
  - apply andb_true_iff in Es as [Epend Esel].
    assert (a ∈ pend) as Hin by (apply Hiff; rewrite Eo; auto).
    destruct (S2 a Hin Esel) as (ev & res1 & A1 & A2 & A3). rewrite Eo in *. rewrite app_assoc in A3.
    destruct (append_sound _ _ _ _ A1) as (s & r & f & c & Hn & _ & _ & Hred).
    rewrite A2 in Hn. pose proof (next_totals_inv _ _ rq _ _ _ _ Hc Hn) as (a0 & H0 & _ & _ & Htot).
    change (rq_event_type rq) with t in Htot. rewrite Hf in Htot. injection Htot as -> -> ->.
    exists a0. eexists. split; [|split; [rewrite (reduce_relevant _ _ _ A3); exact Hred|done]].
    rewrite <- H0. apply reduce_relevant. symmetry. apply relevant_idem.
  - apply reduce_relevant. apply S1. intros b Hb Hsel E. apply Hiff in Hb as (Hpb & Hob & Hrb).
    assert (ag_order b = o) as Eb.
    { apply list_elem_of_lookup in Ho as [i Hi], Hob as [j Hj].
      assert (i = j) as ->; [|congruence].
      eapply (NoDup_lookup _ i j _ Hnd); rewrite list_lookup_fmap; [rewrite Hi|rewrite Hj]; cbn; [done|].
      by rewrite <- E. }
    rewrite Eb, Ha in Hrb. injection Hrb as <-. by rewrite Hpb, Hsel in Es.
Qed.
End sweeps.

(** * Correctness of the order state machine *)

(** C1: refinement.  For an order and fills with at most [k] decimal places within the 28-digit
    context, the aggregate that [reduce_order_events] derives is a reachable state of the abstract order
    lifecycle, with the exact remaining and filled quantities. *)
Theorem reduce_refines_lifecycle k order events as_of agg :
  order_on_grid k order events → reduce_order_events order events as_of = Ok agg →
  lifecycle (dval (od_quantity order)) (ag_status agg) (dval (ag_remaining_quantity agg))
    (dval (ag_cumulative_filled_quantity agg)).
Proof. apply reduce_sim. Qed.

(** conservation.  Under the same hypotheses nothing is lost or over-filled: remaining plus
    filled is the order quantity, both are non-negative, and an order is pending exactly when its
    status is not terminal. *)
Theorem reduce_conserves_quantity k order events as_of agg :
  order_on_grid k order events → reduce_order_events order events as_of = Ok agg →
  (dval (ag_remaining_quantity agg) + dval (ag_cumulative_filled_quantity agg) == dval (od_quantity order) ∧
   0 <= dval (ag_remaining_quantity agg) ∧ 0 <= dval (ag_cumulative_filled_quantity agg))%Q ∧
  is_pending agg = negb (is_terminal agg).
Proof.
  intros HG Hr. pose proof (reduce_sim _ _ _ _ _ HG Hr) as HL. destruct HG as (Hk & G0 & Hq & _).
  apply lifecycle_inv in HL as [[H1 H2] H3].
  - assert (0 <= dval (ag_remaining_quantity agg))%Q by (destruct (bool_decide _); lra).
    split; [done|]. unfold is_pending, is_terminal. destruct (bool_decide _) eqn:E.
    + apply bool_decide_eq_true in E. by rewrite E.
    + assert ((d0 <? ag_remaining_quantity agg)%dec = true) as -> by (dec_to_Q; lra). by rewrite andb_true_r.
  - assert ((d0 <? od_quantity order)%dec = true) as Hpos.
    { rewrite (dltb_units k) by (done || by apply on_grid_d0). rewrite units_d0. lia. }
    by dec_to_Q.
Qed.

(** the derived state does not depend on the order in which the append-only events are read. *)
Theorem reduce_event_order_irrelevant order l1 l2 as_of agg :
  l1 ≡ₚ l2 → reduce_order_events order l1 as_of = Ok agg → reduce_order_events order l2 as_of = Ok agg.
Proof. apply reduce_permutation. Qed.

(** functional behaviour of [append_order_event]: the returned event belongs to the order, has the
    requested type, and the stream extended with it reduces to the totals computed by the append. *)
Theorem append_order_event_correct (HD : Digest) order events rq ev :
  append_order_event order events rq = Ok ev →
  ∃ s r f c, next_totals order (relevant_events order events) rq = Ok (s, r, f, c) ∧
    oe_order_intent_id ev = od_order_intent_id order ∧ oe_event_type ev = rq_event_type rq ∧
    reduce_order_events order (events ++ [ev]) None =
      Ok {| ag_order := order; ag_status := rq_event_type rq; ag_remaining_quantity := r;
            ag_cumulative_filled_quantity := f; ag_cumulative_commission_usd := c;
            ag_latest_event_sequence := s; ag_latest_event_id := oe_event_id ev |}.
Proof. apply append_sound. Qed.

(** no event of any kind can be appended to an order in a terminal state. *)
Theorem terminal_orders_are_final (HD : Digest) order events agg rq :
  reduce_order_events order events None = Ok agg → is_terminal agg = true →
  ∀ ev, append_order_event order events rq ≠ Ok ev.
Proof.
  intros Hr Ht ev Ha. destruct (append_sound _ _ _ _ Ha) as (s & r & f & c & Hn & _).
  destruct (decide (rq_event_type rq = CREATED)) as [E|E].
  - unfold next_totals in Hn. rewrite E in Hn. inv_ok. split_bool.
    rewrite reduce_Ok_iff in Hr. destruct Hr as [_ _ _ _ (first & ? & ? & Eh & _)].
    unfold stream_of in Eh. by rewrite visible_None, E0 in Eh.
  - destruct (next_totals_inv _ _ _ _ _ _ _ E Hn) as (agg' & Hr' & Ht' & _).
    rewrite (reduce_relevant _ _ events) in Hr' by apply relevant_idem. congruence.
Qed.

(** a pending order can always be ended.  For constructor-validated events and a well-formed
    request, appending a terminal (non-fill) event to a non-terminal order succeeds and keeps its
    quantities, unless the derived identifier collides with an existing one. *)
Theorem pending_order_can_be_ended (HD : Digest) order events agg t occ av prov reason cyc :
  t ≠ CREATED → is_fill_event t = false →
  request_ok order (terminal_request t occ av prov reason cyc) = true → events_valid events →
  reduce_order_events order events None = Ok agg → is_terminal agg = false →
  match append_order_event order events (terminal_request t occ av prov reason cyc) with
  | Ok ev => reduce_order_events order (events ++ [ev]) None =
      Ok {| ag_order := order; ag_status := t; ag_remaining_quantity := ag_remaining_quantity agg;
            ag_cumulative_filled_quantity := ag_cumulative_filled_quantity agg;
            ag_cumulative_commission_usd := ag_cumulative_commission_usd agg;
            ag_latest_event_sequence := ag_latest_event_sequence agg + 1;
            ag_latest_event_id := oe_event_id ev |}
  | Raise e => duplicate_error e
  end.
Proof. apply terminal_append. Qed.

(** the soft stop cancels every pending BUY, with its quantities unchanged, and leaves the state of
    every other order exactly as it was. *)
Theorem soft_stop_cancels_pending_buys (HD : Digest) orders events occ av prov cyc res o a :
  NoDup (map od_order_intent_id orders) →
  soft_stop_buy_cancellations orders events occ av prov cyc = Ok res →
  o ∈ orders → reduce_order_events o events None = Ok a →
  if is_pending a && bool_decide (od_side o = BUY)
  then ∃ a', reduce_order_events o (events ++ res) None = Ok a' ∧ ag_status a' = CANCELED_BY_RISK ∧
       ag_remaining_quantity a' = ag_remaining_quantity a ∧
       ag_cumulative_filled_quantity a' = ag_cumulative_filled_quantity a
  else reduce_order_events o (events ++ res) None = Ok a.
Proof.
  unfold soft_stop_buy_cancellations. intros Hnd Hs Ho Ha. apply bind_Ok_inv in Hs as (pend & Hp & Hs).
  epose proof (terminal_sweep_spec _ CANCELED_BY_RISK _ _ _ _ _ _ _ _ _ _ ltac:(done) eq_refl Hnd Hp Hs o a Ho Ha) as H.
  cbn beta in H. rewrite (reduce_order_of _ _ _ _ Ha) in H. destruct (is_pending a && _).
  - destruct H as (a0 & a' & E0 & E' & R). rewrite Ha in E0. injection E0 as <-. eauto.
  - by rewrite H.
Qed.

(** supersession is reduce-safe.  A pending order is superseded exactly when it is a NORMAL order of
    an arm that receives replacement orders and, if it is a SELL, the replacement SELL quantity for its
    symbol covers its remaining quantity; every other order keeps its state. *)
Theorem supersede_only_replaced_orders (HD : Digest) orders events replacements occ av prov cyc res o a :
  let normal := List.filter (λ r, bool_decide (od_order_class r = NORMAL_ORDER)) replacements in
  NoDup (map od_order_intent_id orders) →
  supersede_normal_orders orders events replacements occ av prov cyc = Ok res →
  o ∈ orders → reduce_order_events o events None = Ok a →
  if is_pending a && bool_decide (od_order_class o = NORMAL_ORDER)
     && existsb (String.eqb (od_arm_id o)) (map od_arm_id normal)
     && (bool_decide (od_side o = BUY)
         || (ag_remaining_quantity a <=? replacement_sell_quantity normal (od_arm_id o) (od_symbol o))%dec)
  then ∃ a', reduce_order_events o (events ++ res) None = Ok a' ∧ ag_status a' = SUPERSEDED ∧
       ag_remaining_quantity a' = ag_remaining_quantity a
  else reduce_order_events o (events ++ res) None = Ok a.
Proof.
  intros normal Hnd Hs Ho Ha. unfold supersede_normal_orders in Hs. fold normal in Hs. cbv zeta in Hs.
  destruct (bool_decide (normal = [])) eqn:En.
  { apply bool_decide_eq_true in En. injection Hs as <-. rewrite En, app_nil_r. cbn. by rewrite andb_false_r. }
  apply bind_Ok_inv in Hs as (pend & Hp & Hs).
  epose proof (terminal_sweep_spec _ SUPERSEDED _ _ _ _ _ _ _ _ _ _ ltac:(done) eq_refl Hnd Hp Hs o a Ho Ha) as H.
  cbn beta in H. rewrite (reduce_order_of _ _ _ _ Ha) in H. unfold dltb in H.
  assert (∀ b c : bool, negb (bool_decide (od_side o = SELL) && negb b) = (bool_decide (od_side o = BUY) || b)) as Hside.
  { intros b _. by destruct (od_side o), b. }
  rewrite Hside in H by exact true. rewrite !andb_assoc in H. destruct (_ && _) eqn:E.
  - destruct H as (a0 & a' & E0 & E' & R1 & R2 & R3). rewrite Ha in E0. injection E0 as <-. eauto.
  - by rewrite H.
Qed.

(** [expire_orders] expires exactly the pending orders whose validity window ended before [as_of]
    (all pending ones at a market-close boundary), and leaves the others untouched. *)
Theorem expire_orders_exact (HD : Digest) orders events as_of prov cyc boundary res o a :
  NoDup (map od_order_intent_id orders) →
  expire_orders orders events as_of prov cyc boundary = Ok res →
  o ∈ orders → reduce_order_events o events (Some as_of) = Ok a →
  if is_pending a && (boundary || dt_lt (od_valid_until o) as_of)
  then ∃ a', reduce_order_events o (events ++ res) None = Ok a' ∧ ag_status a' = EXPIRED
  else reduce_order_events o (events ++ res) None = reduce_order_events o events None.
Proof.
  unfold expire_orders. intros Hnd Hs Ho Ha. apply bind_Ok_inv in Hs as (? & _ & Hs).
  apply bind_Ok_inv in Hs as (pend & Hp & Hs).
  epose proof (terminal_sweep_spec _ EXPIRED _ _ _ _ _ _ _ _ _ _ ltac:(done) eq_refl Hnd Hp Hs o a Ho Ha) as H.
  cbn beta in H. rewrite (reduce_order_of _ _ _ _ Ha) in H.
  assert (negb (negb boundary && dt_le as_of (od_valid_until o)) = boundary || dt_lt (od_valid_until o) as_of) as E
    by (unfold dt_le, dt_lt; rewrite Z.ltb_antisym; by destruct boundary, (_ <=? _)).
  rewrite E in H.
  destruct (_ && _); [|done]. destruct H as (a0 & a' & E0 & E' & R1 & _). eauto.
Qed.

(** point in time.  Events that become available after [as_of] never influence the pending orders
    derived at [as_of]. *)
Theorem pending_orders_no_lookahead orders events future as_of :
  Forall (λ e, dt_lt as_of (oe_available_at e) = true) future →
  pending_orders orders (events ++ future) (Some as_of) = pending_orders orders events (Some as_of).
Proof.
  intros Hf. unfold pending_orders. f_equal. induction orders as [|o orders IH]; cbn; [done|]. rewrite IH.
  assert (visible_events o (events ++ future) (Some as_of) = visible_events o events (Some as_of)) as E.
  { unfold visible_events. rewrite List.filter_app, (filterb_nil _ future), app_nil_r; [done|].
    intros e He. rewrite Forall_forall in Hf. specialize (Hf e He). cbn. unfold dt_lt, dt_le in *.
    apply andb_false_iff. right. lia. }
  assert (reduce_order_events o (events ++ future) (Some as_of) = reduce_order_events o events (Some as_of)) as ->
    by (unfold reduce_order_events; by rewrite E).
  done.
Qed.

(** * Examples: the hypotheses above hold on concrete streams *)

#[local] Existing Instance rolling_digest.

Definition ex_prov : OrderEventProvenance :=
  {| op_config_manifest_hash := "cfg"; op_code_version := "1"; op_model_version := "m";
     op_source_manifest_hash := "src"; op_worker_fence_token := "w"; op_cycle_attempt_count := 1 |}.

Definition ex_order (id : string) (side : OrderSide) : OrderDescriptor :=
  {| od_order_intent_id := id; od_arm_id := "Q1-DET"; od_portfolio_decision_id := "p"; od_symbol := "QQQ";
     od_side := side; od_quantity := Dec 2500000 (-6); od_order_class := NORMAL_ORDER;
     od_created_at := utc 1000; od_valid_until := utc 5000 |}.

Definition ex_request (t : OrderEventType) (q c : dec) (at_ : Z) : AppendRequest :=
  {| rq_event_type := t; rq_occurred_at := utc at_; rq_available_at := utc at_; rq_provenance := ex_prov;
     rq_quantity_delta := q; rq_commission_delta_usd := c; rq_reason := None; rq_source_id := None;
     rq_quote_id := None; rq_source_cycle_id := None |}.

Definition append_all (order : OrderDescriptor) (rqs : list AppendRequest) : list OrderEvent :=
  fold_left (λ evs rq, match append_order_event order evs rq with Ok ev => evs ++ [ev] | Raise _ => evs end) rqs [].

(** A BUY of 2.5 shares, activated and partially filled with one share. *)
Definition ex_events : list OrderEvent :=
  Eval vm_compute in append_all (ex_order "o-1" BUY)
    [ex_request CREATED d0 d0 1000; ex_request ACTIVE d0 d0 1500;
     ex_request PARTIALLY_FILLED (Dec 1000000 (-6)) (Dec 10 (-2)) 2000].

(** The same with the residual canceled. *)
Definition ex_ended : list OrderEvent :=
  Eval vm_compute in append_all (ex_order "o-1" BUY)
    [ex_request CREATED d0 d0 1000; ex_request CANCELED_BY_RISK d0 d0 1500].

Definition ex_agg : OrderAggregate :=
  Eval vm_compute in match reduce_order_events (ex_order "o-1" BUY) ex_events None with
  | Ok a => a
  | Raise _ => {| ag_order := ex_order "o-1" BUY; ag_status := CREATED; ag_remaining_quantity := d0;
      ag_cumulative_filled_quantity := d0; ag_cumulative_commission_usd := d0;
      ag_latest_event_sequence := 0; ag_latest_event_id := "" |}
  end.

Lemma ex_on_grid : order_on_grid 6 (ex_order "o-1" BUY) ex_events.
Proof. split; [lia|]. split; [unfold on_grid; cbn; lia|]. split; [done|]. repeat constructor; unfold on_grid; cbn; lia. Qed.

Lemma ex_reduced : reduce_order_events (ex_order "o-1" BUY) ex_events None = Ok ex_agg.
Proof. vm_compute. reflexivity. Qed.

(** A second order of the book: a SELL that has only been created. *)
Definition ex_orders : list OrderDescriptor := [ex_order "o-1" BUY; ex_order "o-2" SELL].
Definition ex_book : list OrderEvent :=
  Eval vm_compute in ex_events ++ append_all (ex_order "o-2" SELL) [ex_request CREATED d0 d0 1200].

Definition ok_or {A} (d : A) (r : res A) : A := match r with Ok a => a | Raise _ => d end.

Definition ex_soft_stop : list OrderEvent :=
  Eval vm_compute in ok_or [] (soft_stop_buy_cancellations ex_orders ex_book (utc 3000) (utc 3000) ex_prov "cycle").
Definition ex_supersede : list OrderEvent :=
  Eval vm_compute in ok_or [] (supersede_normal_orders ex_orders ex_book [ex_order "o-3" BUY] (utc 3000) (utc 3000) ex_prov "cycle").
Definition ex_expire : list OrderEvent :=
  Eval vm_compute in ok_or [] (expire_orders ex_orders ex_book (utc 6000) ex_prov "cycle" false).

Lemma reduce_refines_lifecycle_witness :
  lifecycle (dval (Dec 2500000 (-6))) PARTIALLY_FILLED (dval (Dec 1500000 (-6))) (dval (Dec 1000000 (-6))).
Proof. exact (reduce_refines_lifecycle 6 (ex_order "o-1" BUY) ex_events None ex_agg ex_on_grid ex_reduced). Defined.

Lemma reduce_conserves_quantity_witness :
  (dval (Dec 1500000 (-6)) + dval (Dec 1000000 (-6)) == dval (Dec 2500000 (-6)))%Q ∧ is_pending ex_agg = true.
Proof.
  destruct (reduce_conserves_quantity 6 (ex_order "o-1" BUY) ex_events None ex_agg ex_on_grid ex_reduced) as [[H _] H'].
  split; [exact H|exact H'].
Defined.

Lemma reduce_event_order_irrelevant_witness :
  reduce_order_events (ex_order "o-1" BUY) (rev ex_events) None = Ok ex_agg.
Proof.
  apply (reduce_event_order_irrelevant _ ex_events); [apply Permutation_rev|exact ex_reduced].
Defined.

Lemma append_order_event_correct_witness :
  ∃ ev, append_order_event (ex_order "o-1" BUY) ex_events (ex_request FILLED (Dec 1500000 (-6)) (Dec 5 (-2)) 2500) = Ok ev ∧
    ∃ s r f c, next_totals (ex_order "o-1" BUY) (relevant_events (ex_order "o-1" BUY) ex_events)
                 (ex_request FILLED (Dec 1500000 (-6)) (Dec 5 (-2)) 2500) = Ok (s, r, f, c).
Proof.
  destruct (append_order_event (ex_order "o-1" BUY) ex_events (ex_request FILLED (Dec 1500000 (-6)) (Dec 5 (-2)) 2500))
    as [ev|e] eqn:E; [|vm_compute in E; discriminate E].
  exists ev. split; [reflexivity|].
  destruct (append_order_event_correct _ _ _ _ _ E) as (s & r & f & c & H & _). exists s, r, f, c. exact H.
Defined.

Lemma terminal_orders_are_final_witness :
  is_ok (append_order_event (ex_order "o-1" BUY) ex_ended (ex_request ACTIVE d0 d0 2000)) = false.
Proof.
  destruct (reduce_order_events (ex_order "o-1" BUY) ex_ended None) as [a|e] eqn:E; [|vm_compute in E; discriminate E].
  assert (is_terminal a = true) as Ht by (vm_compute in E; injection E as <-; reflexivity).
  pose proof (terminal_orders_are_final _ _ _ a (ex_request ACTIVE d0 d0 2000) E Ht) as H.
  destruct (append_order_event _ _ _) as [ev|]; [|reflexivity]. destruct (H ev eq_refl).
Defined.

Lemma pending_order_can_be_ended_witness :
  match append_order_event (ex_order "o-1" BUY) ex_events
          (terminal_request REJECTED (utc 2500) (utc 2500) ex_prov "r" "c") with
  | Ok ev => is_ok (reduce_order_events (ex_order "o-1" BUY) (ex_events ++ [ev]) None) = true
  | Raise e => duplicate_error e
  end.
Proof.
  pose proof (pending_order_can_be_ended _ (ex_order "o-1" BUY) ex_events ex_agg REJECTED (utc 2500) (utc 2500) ex_prov "r" "c"
    ltac:(discriminate) eq_refl ltac:(vm_compute; reflexivity) ltac:(repeat constructor) ex_reduced eq_refl) as H.
  destruct (append_order_event _ _ _); [rewrite H; reflexivity|exact H].
Defined.

Lemma soft_stop_cancels_pending_buys_witness :
  ∃ a', reduce_order_events (ex_order "o-1" BUY) (ex_book ++ ex_soft_stop) None = Ok a' ∧
        ag_status a' = CANCELED_BY_RISK ∧ ag_remaining_quantity a' = Dec 1500000 (-6) ∧
        ag_cumulative_filled_quantity a' = Dec 1000000 (-6).
Proof.
  apply (soft_stop_cancels_pending_buys _ ex_orders ex_book (utc 3000) (utc 3000) ex_prov "cycle" ex_soft_stop
    (ex_order "o-1" BUY) ex_agg); [|vm_compute; reflexivity|left|vm_compute; reflexivity].
  apply (bool_decide_eq_true_1 _). vm_compute. reflexivity.
Defined.

Lemma supersede_only_replaced_orders_witness :
  ∃ a', reduce_order_events (ex_order "o-1" BUY) (ex_book ++ ex_supersede) None = Ok a' ∧
        ag_status a' = SUPERSEDED ∧ ag_remaining_quantity a' = Dec 1500000 (-6).
Proof.
  apply (supersede_only_replaced_orders _ ex_orders ex_book [ex_order "o-3" BUY] (utc 3000) (utc 3000) ex_prov "cycle"
    ex_supersede (ex_order "o-1" BUY) ex_agg); [|vm_compute; reflexivity|left|vm_compute; reflexivity].
  apply (bool_decide_eq_true_1 _). vm_compute. reflexivity.
Defined.

Lemma expire_orders_exact_witness :
  ∃ a', reduce_order_events (ex_order "o-1" BUY) (ex_book ++ ex_expire) None = Ok a' ∧ ag_status a' = EXPIRED.
Proof.
  apply (expire_orders_exact _ ex_orders ex_book (utc 6000) ex_prov "cycle" false ex_expire
    (ex_order "o-1" BUY) ex_agg); [|vm_compute; reflexivity|left|vm_compute; reflexivity].
  apply (bool_decide_eq_true_1 _). vm_compute. reflexivity.
Defined.

Lemma pending_orders_no_lookahead_witness :
  pending_orders ex_orders (ex_book ++ ex_expire) (Some (utc 4000)) = pending_orders ex_orders ex_book (Some (utc 4000)).
Proof. apply pending_orders_no_lookahead. repeat constructor. Defined.
