(* ===== verification/Settlement.v ===== *)
(** * Cash settlement ([settlement/service.py])

    BUY fills debit settled cash immediately; SELL fills create an unsettled
    receivable that settles a fixed number of business sessions later.  Balances
    are derived from the append-only cash events. *)
From Stdlib Require Import ZArith Lia Ascii String QArith Lqa.
From stdpp Require Import base list strings numbers sorting sets.
From S2P Require Import Prelude PyDecimal Hashing Domain.
Set Default Goal Selector "!".
Open Scope Z_scope.

(** ** Policy and calendar *)

Record SettlementPolicy := {
  sp_version : string;
  sp_calendar_version : string;
  sp_lag_business_sessions : Z;
}.

Definition validate_SettlementPolicy (p : SettlementPolicy) : res SettlementPolicy :=
  raise_if (str_empty (sp_version p)) SettlementError "Settlement policy version is required";;
  raise_if (str_empty (sp_calendar_version p)) SettlementError "Settlement calendar version is required";;
  raise_if (sp_lag_business_sessions p <? 0) SettlementError "Settlement lag cannot be negative";;
  Ok p.

Record BusinessCalendar := { bc_version : string; bc_sessions : list date }.

Definition validate_BusinessCalendar (c : BusinessCalendar) : res BusinessCalendar :=
  raise_if (str_empty (bc_version c)) SettlementError "Business-calendar version is required";;
  raise_if (bool_decide (bc_sessions c = [])) SettlementError "Business calendar must contain sessions";;
  raise_if (negb (bool_decide (sorted Z.leb (remove_dups (bc_sessions c)) = bc_sessions c)))
    SettlementError "Business calendar sessions must be unique and strictly increasing";;
  Ok c.

(** [bisect.bisect_right(a, x)]: [while lo < hi: mid = (lo + hi) // 2; ...] *)
Fixpoint bisect_loop (fuel : nat) (a : list Z) (x : Z) (lo hi : nat) : nat :=
  match fuel with
  | O => lo
  | S fuel =>
      if (lo <? hi)%nat then
        let mid := ((lo + hi) / 2)%nat in
        if x <? nth mid a 0 then bisect_loop fuel a x lo mid else bisect_loop fuel a x (S mid) hi
      else lo
  end.
Definition bisect_right (a : list Z) (x : Z) : nat := bisect_loop (length a) a x 0 (length a).

Definition require_session (c : BusinessCalendar) (session_date : date) : res () :=
  let index := bisect_right (bc_sessions c) session_date in
  raise_if ((index =? 0)%nat || negb (nth (index - 1) (bc_sessions c) 0 =? session_date))
    SettlementError (String.append (date_isoformat session_date) " is not a calendar session").

Definition add_business_sessions (c : BusinessCalendar) (session_date : date) (count : Z) : res date :=
  raise_if (count <? 0) SettlementError "Business-session offset cannot be negative";;
  require_session c session_date;;
  let start := Z.of_nat (bisect_right (bc_sessions c) session_date) - 1 in
  let target := start + count in
  raise_if (Z.of_nat (length (bc_sessions c)) <=? target)
    SettlementError "Business calendar does not cover settlement date";;
  Ok (nth (Z.to_nat target) (bc_sessions c) 0).

Record SettlementProvenance := {
  pv_run_id : string;
  pv_source_cycle_id : string;
  pv_config_manifest_hash : string;
  pv_code_version : string;
  pv_model_version : string;
  pv_source_manifest_hash : string;
  pv_worker_fence_token : string;
  pv_cycle_attempt_count : Z;
}.

Definition validate_SettlementProvenance (p : SettlementProvenance) : res SettlementProvenance :=
  raise_if (any_empty [pv_run_id p; pv_source_cycle_id p; pv_config_manifest_hash p; pv_code_version p;
                       pv_model_version p; pv_source_manifest_hash p; pv_worker_fence_token p])
    SettlementError "Complete settlement provenance is required";;
  raise_if (pv_cycle_attempt_count p <=? 0) SettlementError "Settlement cycle attempt must be positive";;
  Ok p.

(** ** Balances *)

Record CashBalances := {
  cb_settled_cash_usd : dec;
  cb_unsettled_receivables : list (string * dec * date);
}.

Definition validate_CashBalances (b : CashBalances) : res CashBalances :=
  raise_if (cb_settled_cash_usd b <? d0)%dec SettlementError "Settled cash cannot be negative";;
  raise_if (existsb (λ r, (r.1.2 <=? d0)%dec) (cb_unsettled_receivables b))
    SettlementError "Unsettled receivables must be positive";;
  Ok b.

Definition unsettled_receivables_usd (b : CashBalances) : dec :=
  dsum (map (λ r, r.1.2) (cb_unsettled_receivables b)).
Definition total_cash_usd (b : CashBalances) : dec :=
  (cb_settled_cash_usd b + unsettled_receivables_usd b)%dec.

(** ** Recording events *)

Definition opt_date (o : option date) : pyval := match o with Some d => PDate d | None => PNone end.
Definition opt_datetime (o : option datetime) : pyval := match o with Some t => PDatetime t | None => PNone end.
Definition opt_string (o : option string) : pyval := match o with Some s => PStr s | None => PNone end.

Section record.
Context `{Digest}.

Definition _event (arm_id : Q1ArmId) (event_type : CashSettlementEventType)
    (receivable_id source_fill_id : option string) (settled_delta unsettled_delta gross_amount commission : dec)
    (trade_at : option datetime) (settlement_date : option date) (effective_at created_at : datetime)
    (calendar_session_id : string) (policy : SettlementPolicy) (provenance : SettlementProvenance)
  : res CashSettlementEvent :=
  let identity :=
    [("run_id", PStr (pv_run_id provenance));
     ("arm_id", PStr (Q1ArmId_value arm_id));
     ("event_type", PStr (CashSettlementEventType_value event_type));
     ("receivable_id", opt_string receivable_id);
     ("source_fill_id", opt_string source_fill_id);
     ("settled_delta", PDecimal settled_delta);
     ("unsettled_delta", PDecimal unsettled_delta);
     ("effective_at", PDatetime effective_at);
     ("policy_version", PStr (sp_version policy));
     ("source_cycle_id", PStr (pv_source_cycle_id provenance))] in
  event_id ← stable_id "q1-cash-event" [PDict identity];
  let content := identity ++
    [("gross_amount", PDecimal gross_amount);
     ("commission", PDecimal commission);
     ("trade_at", opt_datetime trade_at);
     ("settlement_date", opt_date settlement_date);
     ("calendar_session_id", PStr calendar_session_id);
     ("config_manifest_hash", PStr (pv_config_manifest_hash provenance));
     ("code_version", PStr (pv_code_version provenance));
     ("model_version", PStr (pv_model_version provenance));
     ("source_manifest_hash", PStr (pv_source_manifest_hash provenance))] in
  idempotency_key ← stable_id "q1-cash-idem" [PStr event_id];
  event_hash ← canonical_hash (PDict content);
  validate_CashSettlementEvent {|
    cs_cash_settlement_event_id := event_id;
    cs_run_id := pv_run_id provenance;
    cs_arm_id := arm_id;
    cs_event_type := event_type;
    cs_receivable_id := receivable_id;
    cs_source_fill_id := source_fill_id;
    cs_settlement_policy_version := sp_version policy;
    cs_currency := "USD";
    cs_settled_cash_delta_usd := settled_delta;
    cs_unsettled_receivable_delta_usd := unsettled_delta;
    cs_gross_amount_usd := gross_amount;
    cs_commission_usd := commission;
    cs_trade_at := trade_at;
    cs_settlement_date := settlement_date;
    cs_effective_at := effective_at;
    cs_calendar_session_id := calendar_session_id;
    cs_source_cycle_id := pv_source_cycle_id provenance;
    cs_worker_fence_token := pv_worker_fence_token provenance;
    cs_cycle_attempt_count := pv_cycle_attempt_count provenance;
    cs_idempotency_key := idempotency_key;
    cs_event_hash := event_hash;
    cs_created_at := created_at;
    cs_versioned := {|
      algorithm_version := Q1_ALGORITHM_VERSION;
      config_manifest_hash := pv_config_manifest_hash provenance;
      code_version := pv_code_version provenance;
      model_version := pv_model_version provenance;
      source_manifest_hash := pv_source_manifest_hash provenance |} |}.

Definition record_opening_settled_cash (arm_id : Q1ArmId) (amount_usd : dec) (effective_at created_at : datetime)
    (calendar_session_id : string) (policy : SettlementPolicy) (provenance : SettlementProvenance)
  : res CashSettlementEvent :=
  raise_if (amount_usd <? d0)%dec SettlementError "Opening settled cash cannot be negative";;
  _event arm_id OPENING_SETTLED_CASH None None amount_usd d0 amount_usd d0 None None
    effective_at created_at calendar_session_id policy provenance.

Definition record_buy_cash_debit (arm_id : Q1ArmId) (fill_id : string) (trade_at : datetime)
    (fill_notional_usd commission_usd : dec) (created_at : datetime) (calendar_session_id : string)
    (policy : SettlementPolicy) (provenance : SettlementProvenance) : res CashSettlementEvent :=
  raise_if ((fill_notional_usd <=? d0)%dec || (commission_usd <? d0)%dec)
    SettlementError "BUY fill notional must be positive and commission non-negative";;
  _event arm_id BUY_SETTLED_CASH_DEBIT None (Some fill_id) (- (fill_notional_usd + commission_usd))%dec d0
    fill_notional_usd commission_usd (Some trade_at) None trade_at created_at calendar_session_id policy provenance.

Definition _validate_policy_calendar (policy : SettlementPolicy) (calendar : BusinessCalendar) : res () :=
  raise_if (negb (String.eqb (sp_calendar_version policy) (bc_version calendar)))
    SettlementError "Settlement policy and calendar versions differ".

Definition record_sell_receivable (arm_id : Q1ArmId) (fill_id : string) (trade_at : datetime) (trade_session : date)
    (fill_notional_usd commission_usd : dec) (created_at : datetime) (calendar_session_id : string)
    (policy : SettlementPolicy) (calendar : BusinessCalendar) (provenance : SettlementProvenance)
  : res CashSettlementEvent :=
  _validate_policy_calendar policy calendar;;
  require_session calendar trade_session;;
  raise_if ((fill_notional_usd <=? d0)%dec || (commission_usd <? d0)%dec)
    SettlementError "SELL fill notional must be positive and commission non-negative";;
  let net_proceeds := (fill_notional_usd - commission_usd)%dec in
  raise_if (net_proceeds <=? d0)%dec SettlementError "SELL net proceeds must be positive";;
  settlement_date ← add_business_sessions calendar trade_session (sp_lag_business_sessions policy);
  receivable_id ← stable_id "q1-receivable"
    [PStr (pv_run_id provenance); PStr (Q1ArmId_value arm_id); PStr fill_id; PStr (sp_version policy)];
  _event arm_id SELL_RECEIVABLE_CREATED (Some receivable_id) (Some fill_id) d0 net_proceeds
    fill_notional_usd commission_usd (Some trade_at) (Some settlement_date) trade_at created_at
    calendar_session_id policy provenance.

Definition _validate_unique_events (events : list CashSettlementEvent) : res () :=
  raise_if (has_dup (map cs_cash_settlement_event_id events)) SettlementError "Duplicate cash-settlement event ID";;
  raise_if (has_dup (map cs_idempotency_key events)) SettlementError "Duplicate cash-settlement idempotency key".

(** [created_by_receivable]: the dict comprehension over the SELL receivables. *)
Definition created_by_receivable (events : list CashSettlementEvent) : pydict CashSettlementEvent :=
  dict_of_pairs (omap (λ e,
    match cs_event_type e, cs_receivable_id e with
    | SELL_RECEIVABLE_CREATED, Some r => Some (r, e)
    | _, _ => None
    end) events).

Definition already_settled (events : list CashSettlementEvent) (receivable_id : string) : bool :=
  existsb (λ e, bool_decide (cs_event_type e = RECEIVABLE_SETTLED)
                && bool_decide (cs_receivable_id e = Some receivable_id)) events.

Definition settle_due_receivables (events : list CashSettlementEvent) (through_session : date)
    (effective_at created_at : datetime) (calendar_session_id : string) (policy : SettlementPolicy)
    (calendar : BusinessCalendar) (provenance : SettlementProvenance) : res (list CashSettlementEvent) :=
  _validate_policy_calendar policy calendar;;
  require_session calendar through_session;;
  require_aware_utc effective_at;;
  require_aware_utc created_at;;
  _validate_unique_events events;;
  foldM (λ result item,
    let '(receivable_id, source) := item in
    if already_settled events receivable_id
       || negb (match cs_settlement_date source with Some d => d <=? through_session | None => false end)
    then Ok result
    else
      event ← _event (cs_arm_id source) RECEIVABLE_SETTLED (Some receivable_id) (cs_source_fill_id source)
        (cs_unsettled_receivable_delta_usd source) (- cs_unsettled_receivable_delta_usd source)%dec
        (cs_gross_amount_usd source) (cs_commission_usd source) (cs_trade_at source) (cs_settlement_date source)
        effective_at created_at calendar_session_id policy provenance;
      Ok (result ++ [event])) [] (sorted_items (created_by_receivable events)).
End record.

(** ** Deriving balances *)

Definition _EVENT_ORDER (t : CashSettlementEventType) : Z :=
  match t with
  | OPENING_SETTLED_CASH => 0 | BUY_SETTLED_CASH_DEBIT => 1
  | SELL_RECEIVABLE_CREATED => 2 | RECEIVABLE_SETTLED => 3
  end.

(** Sort key [(effective_at, _EVENT_ORDER[event_type], cash_settlement_event_id)]. *)
Definition cash_key_le (a b : CashSettlementEvent) : bool :=
  let ta := instant (cs_effective_at a) in
  let tb := instant (cs_effective_at b) in
  let oa := _EVENT_ORDER (cs_event_type a) in
  let ob := _EVENT_ORDER (cs_event_type b) in
  (ta <? tb) || ((ta =? tb) && ((oa <? ob) || ((oa =? ob)
    && String.leb (cs_cash_settlement_event_id a) (cs_cash_settlement_event_id b)))).

(** One iteration of the loop of [apply_settlement_events]. *)
Definition apply_step (st : dec * pydict (dec * date)) (event : CashSettlementEvent)
  : res (dec * pydict (dec * date)) :=
  let settled := (st.1 + cs_settled_cash_delta_usd event)%dec in
  receivables ← (match cs_event_type event with
    | SELL_RECEIVABLE_CREATED =>
        match cs_receivable_id event, cs_settlement_date event with
        | Some r, Some d =>
            raise_if (dmem r st.2) SettlementError "SELL fill created more than one receivable";;
            Ok (dset r (cs_unsettled_receivable_delta_usd event, d) st.2)
        | _, _ => raise SettlementError "SELL receivable has incomplete identity"
        end
    | RECEIVABLE_SETTLED =>
        match cs_receivable_id event with
        | None => raise SettlementError "Settlement event has no receivable identity"
        | Some r =>
            match dget r st.2 with
            | None => raise SettlementError "Settlement event has no open receivable"
            | Some receivable =>
                raise_if (negb (receivable.1 =? - cs_unsettled_receivable_delta_usd event)%dec)
                  SettlementError "Settlement amount differs from receivable";;
                Ok (dpop r st.2)
            end
        end
    | _ => Ok st.2
    end);
  raise_if (settled <? d0)%dec SettlementError "BUY fill would consume more than settled cash";;
  Ok (settled, receivables).

Definition cash_visible (as_of : datetime) (event : CashSettlementEvent) : bool :=
  dt_le (cs_effective_at event) as_of && dt_le (cs_created_at event) as_of.

Definition apply_settlement_events (events : list CashSettlementEvent) (as_of : datetime) : res CashBalances :=
  require_aware_utc as_of;;
  _validate_unique_events events;;
  let ordered := sorted cash_key_le (List.filter (cash_visible as_of) events) in
  st ← foldM apply_step (d0, []) ordered;
  validate_CashBalances {|
    cb_settled_cash_usd := st.1;
    cb_unsettled_receivables := map (λ kv, (kv.1, kv.2.1, kv.2.2)) (sorted_items st.2) |}.
Arguments _event : simpl never.
Arguments apply_step : simpl never.

(** ** The calendar *)

Lemma validate_calendar_sorted c c' :
  validate_BusinessCalendar c = Ok c' → StronglySorted Z.lt (bc_sessions c).
Proof.
  unfold validate_BusinessCalendar. intros H. inv_ok. split_bool.
  rewrite <- E1. apply sorted_increasing, NoDup_remove_dups.
Qed.

Lemma sorted_nth_mono l i j :
  StronglySorted Z.lt l → (i < j < length l)%nat → nth i l 0 < nth j l 0.
Proof.
  intros Hs. revert i j. induction Hs as [|x l Hl IH Hx]; intros i j Hij; cbn in Hij; [lia|].
  destruct j as [|j]; [lia|]. destruct i as [|i]; cbn.
  - rewrite Forall_forall in Hx. apply Hx. apply list_elem_of_In, nth_In. lia.
  - apply IH. lia.
Qed.

(** The loop invariant of the bisection and its termination: the fuel is the length of
    the searched interval. *)
Lemma bisect_loop_spec fuel l x lo hi :
  StronglySorted Z.lt l → (lo <= hi <= length l)%nat → (hi - lo <= fuel)%nat →
  (∀ i, (i < lo)%nat → nth i l 0 <= x) → (∀ i, (hi <= i < length l)%nat → x < nth i l 0) →
  let r := bisect_loop fuel l x lo hi in
  (lo <= r <= hi)%nat ∧ (∀ i, (i < r)%nat → nth i l 0 <= x) ∧ (∀ i, (r <= i < length l)%nat → x < nth i l 0).
Proof.
  intros Hs. revert lo hi. induction fuel as [|fuel IH]; intros lo hi Hb Hf Hlo Hhi; cbn [bisect_loop].
  { assert (lo = hi) as -> by lia. cbv zeta. auto. }
  destruct (Nat.ltb_spec lo hi) as [Hlt|Hge]; [|cbv zeta; assert (lo = hi) as -> by lia; auto].
  set (mid := ((lo + hi) / 2)%nat).
  assert (lo <= mid < hi)%nat as Hm.
  { unfold mid. split; [apply Nat.div_le_lower_bound|apply Nat.div_lt_upper_bound]; lia. }
  destruct (Z.ltb_spec x (nth mid l 0)) as [Hx|Hx].
  - destruct (IH lo mid) as (R1 & R2 & R3); [lia|lia|done| |cbv zeta; split; [lia|auto]].
    intros i Hi. destruct (Nat.eq_dec i mid) as [->|]; [done|].
    pose proof (sorted_nth_mono l mid i Hs). lia.
  - destruct (IH (S mid) hi) as (R1 & R2 & R3); [lia|lia| |done|cbv zeta; split; [lia|auto]].
    intros i Hi. destruct (Nat.eq_dec i mid) as [->|]; [done|].
    pose proof (sorted_nth_mono l i mid Hs). lia.
Qed.

Lemma bisect_right_spec l x :
  StronglySorted Z.lt l →
  let r := bisect_right l x in
  (r <= length l)%nat ∧ (∀ i, (i < r)%nat → nth i l 0 <= x) ∧ (∀ i, (r <= i < length l)%nat → x < nth i l 0).
Proof.
  intros Hs. destruct (bisect_loop_spec (length l) l x 0 (length l) Hs) as (H1 & H2 & H3); [lia..|].
  cbv zeta. split; [unfold bisect_right; lia|]. auto.
Qed.

Lemma bisect_right_at l i :
  StronglySorted Z.lt l → (i < length l)%nat → bisect_right l (nth i l 0) = S i.
Proof.
  intros Hs Hi. destruct (bisect_right_spec l (nth i l 0) Hs) as (H1 & H2 & H3).
  set (r := bisect_right l (nth i l 0)) in *.
  destruct (Nat.lt_trichotomy r (S i)) as [Hlt|[?|Hgt]]; [|done|].
  - specialize (H3 i). lia.
  - specialize (H2 (S i) ltac:(lia)). pose proof (sorted_nth_mono l i (S i) Hs). lia.
Qed.

Lemma require_session_iff c d :
  StronglySorted Z.lt (bc_sessions c) → require_session c d = Ok () ↔ d ∈ bc_sessions c.
Proof.
  intros Hs. unfold require_session. rewrite raise_if_Ok_inv, orb_false_iff, negb_false_iff, Z.eqb_eq. split.
  - intros [H1 H2]. apply Nat.eqb_neq in H1. rewrite <- H2.
    destruct (bisect_right_spec (bc_sessions c) d Hs) as (Hr & _). apply list_elem_of_In, nth_In. lia.
  - intros (i & Hi & E)%list_elem_of_In%(In_nth _ _ 0). subst d. rewrite bisect_right_at by done.
    split; [done|]. f_equal. lia.
Qed.

Lemma add_business_sessions_iff c d n d' :
  StronglySorted Z.lt (bc_sessions c) → 0 <= n →
  add_business_sessions c d n = Ok d' ↔
  ∃ i, bc_sessions c !! i = Some d ∧ bc_sessions c !! (i + Z.to_nat n)%nat = Some d'.
Proof.
  intros Hs Hn. unfold add_business_sessions. assert (n <? 0 = false) as -> by lia. cbn [raise_if mbind res_bind].
  assert (Hnth : ∀ i x, bc_sessions c !! i = Some x ↔ (i < length (bc_sessions c))%nat ∧ nth i (bc_sessions c) 0 = x).
  { intros i x. rewrite nth_lookup. split.
    - intros E. split; [by eapply lookup_lt_Some|by rewrite E].
    - intros [Hi <-]. apply lookup_lt_is_Some in Hi as [y E]. by rewrite E. }
  split.
  - intros H. apply bind_Ok_inv in H as ([] & Hd & H). apply (require_session_iff _ _ Hs) in Hd.
    apply list_elem_of_lookup in Hd as [i Hi]. exists i. split; [done|].
    apply Hnth in Hi as [Hi <-]. rewrite bisect_right_at in H by done. inv_ok.
    apply Z.leb_gt in E. apply Hnth. split; [lia|]. f_equal. lia.
  - intros (i & Hi & Hj). assert (d ∈ bc_sessions c) as Hd by (apply list_elem_of_lookup; eauto).
    apply (require_session_iff _ _ Hs) in Hd. rewrite Hd. cbn [mbind res_bind].
    apply Hnth in Hi as [Hi <-]. apply Hnth in Hj as [Hj <-]. rewrite bisect_right_at by done.
    assert (Z.of_nat (length (bc_sessions c)) <=? Z.of_nat (S i) - 1 + n = false) as -> by (apply Z.leb_gt; lia).
    cbn. do 2 f_equal. lia.
Qed.

(** ** What the recording functions produce *)

(** The deltas an event may carry, by type: only sales touch receivables, and a settlement
    moves the same amount from one side to the other. *)
Definition cash_shape (e : CashSettlementEvent) : Prop :=
  match cs_event_type e with
  | OPENING_SETTLED_CASH =>
      (0 <= dval (cs_settled_cash_delta_usd e))%Q ∧ cs_unsettled_receivable_delta_usd e = d0
  | BUY_SETTLED_CASH_DEBIT =>
      cs_settled_cash_delta_usd e = (- (cs_gross_amount_usd e + cs_commission_usd e))%dec ∧
      cs_unsettled_receivable_delta_usd e = d0
  | SELL_RECEIVABLE_CREATED =>
      cs_settled_cash_delta_usd e = d0 ∧ (0 < dval (cs_unsettled_receivable_delta_usd e))%Q ∧
      cs_unsettled_receivable_delta_usd e = (cs_gross_amount_usd e - cs_commission_usd e)%dec ∧
      (∃ r, cs_receivable_id e = Some r) ∧ (∃ d, cs_settlement_date e = Some d)
  | RECEIVABLE_SETTLED =>
      cs_unsettled_receivable_delta_usd e = (- cs_settled_cash_delta_usd e)%dec ∧ (∃ r, cs_receivable_id e = Some r)
  end.

Section record_facts.
Context `{Digest}.

Lemma _event_fields arm ty rid fid sd ud g c tr sdt eff cr cal pol prov e :
  _event arm ty rid fid sd ud g c tr sdt eff cr cal pol prov = Ok e →
  cs_event_type e = ty ∧ cs_receivable_id e = rid ∧ cs_source_fill_id e = fid ∧
  cs_settled_cash_delta_usd e = sd ∧ cs_unsettled_receivable_delta_usd e = ud ∧
  cs_gross_amount_usd e = g ∧ cs_commission_usd e = c ∧ cs_settlement_date e = sdt ∧
  cs_effective_at e = eff ∧ cs_created_at e = cr ∧ cs_arm_id e = arm.
Proof.
  unfold _event. intros He. do 3 apply bind_Ok_inv in He as (? & _ & He).
  apply validate_CashSettlementEvent_id in He as ->. done.
Qed.

Lemma record_opening_shape arm a eff cr cal pol prov e :
  record_opening_settled_cash arm a eff cr cal pol prov = Ok e → cash_shape e.
Proof.
  unfold record_opening_settled_cash. intros He. inv_ok.
  destruct (_event_fields _ _ _ _ _ _ _ _ _ _ _ _ _ _ _ _ He) as (E1 & E2 & E3 & E4 & E5 & _).
  unfold cash_shape. rewrite E1, E4, E5. dec_to_Q. done.
Qed.

Lemma record_buy_shape arm f tr n c cr cal pol prov e :
  record_buy_cash_debit arm f tr n c cr cal pol prov = Ok e →
  cash_shape e ∧ cs_settled_cash_delta_usd e = (- (n + c))%dec.
Proof.
  unfold record_buy_cash_debit. intros He. inv_ok.
  destruct (_event_fields _ _ _ _ _ _ _ _ _ _ _ _ _ _ _ _ He) as (E1 & E2 & E3 & E4 & E5 & E6 & E7 & _).
  unfold cash_shape. by rewrite E1, E4, E5, E6, E7.
Qed.

Lemma record_sell_shape arm f tr ses n c cr cal pol bc prov e :
  record_sell_receivable arm f tr ses n c cr cal pol bc prov = Ok e →
  cash_shape e ∧ cs_unsettled_receivable_delta_usd e = (n - c)%dec.
Proof.
  unfold record_sell_receivable. intros He. inv_ok. split_bool.
  destruct (_event_fields _ _ _ _ _ _ _ _ _ _ _ _ _ _ _ _ He) as (E1' & E2' & E3' & E4' & E5' & E6' & E7' & E8' & _).
  unfold cash_shape. rewrite E1', E2', E4', E5', E6', E7', E8'. dec_to_Q. repeat split; eauto.
Qed.
End record_facts.

(** ** Deriving balances: conservation *)

Lemma validate_CashBalances_id b b' :
  validate_CashBalances b = Ok b' → b' = b ∧ (0 <= dval (cb_settled_cash_usd b))%Q.
Proof. unfold validate_CashBalances. intros H. inv_ok. dec_to_Q. done. Qed.

(** Every delta is a multiple of [10^-k] dollars and their magnitudes add up within the context precision. *)
Definition cash_on_grid (k : Z) (events : list CashSettlementEvent) : Prop :=
  0 <= k ∧
  Forall (λ e, on_grid k (cs_settled_cash_delta_usd e) ∧ on_grid k (cs_unsettled_receivable_delta_usd e)) events ∧
  zsum (map Z.abs (map (λ e, units k (cs_settled_cash_delta_usd e)) events)) +
  zsum (map Z.abs (map (λ e, units k (cs_unsettled_receivable_delta_usd e)) events)) < LIMIT.

Definition sum_settled (k : Z) (l : list CashSettlementEvent) : Z := zsum (map (λ e, units k (cs_settled_cash_delta_usd e)) l).
Definition sum_unsettled (k : Z) (l : list CashSettlementEvent) : Z :=
  zsum (map (λ e, units k (cs_unsettled_receivable_delta_usd e)) l).

Lemma cash_on_grid_perm k l1 l2 : l1 ≡ₚ l2 → cash_on_grid k l1 → cash_on_grid k l2.
Proof. unfold cash_on_grid. intros Hp (H0 & H1 & H2). split; [done|]. split; [by rewrite <- Hp|].
  assert (∀ g : CashSettlementEvent → Z, zsum (map Z.abs (map g l2)) = zsum (map Z.abs (map g l1))) as E.
  { intros g. apply zsum_perm. do 2 apply Permutation_map. by symmetry. }
  by rewrite !E.
Qed.

Lemma cash_on_grid_filter k f l : cash_on_grid k l → cash_on_grid k (List.filter f l).
Proof.
  intros (H0 & H1 & H2). split; [done|]. split.
  - rewrite Forall_forall in *. intros x [_ Hx]%elem_of_filterb. auto.
  - pose proof (zsum_abs_filter f (λ e, units k (cs_settled_cash_delta_usd e)) l).
    pose proof (zsum_abs_filter f (λ e, units k (cs_unsettled_receivable_delta_usd e)) l). lia.
Qed.

(** The bounds a prefix of the processed events inherits. *)
Lemma cash_prefix_bounds k pre l :
  cash_on_grid k l → pre `prefix_of` l →
  Z.abs (sum_settled k pre) + Z.abs (sum_unsettled k pre) < LIMIT.
Proof.
  intros (_ & _ & Hb) Hp.
  pose proof (zsum_abs_le (map (λ e, units k (cs_settled_cash_delta_usd e)) pre)) as A1.
  pose proof (zsum_abs_le (map (λ e, units k (cs_unsettled_receivable_delta_usd e)) pre)) as A2.
  assert (∀ g : CashSettlementEvent → Z, zsum (map Z.abs (map g pre)) <= zsum (map Z.abs (map g l))) as A3.
  { intros g. apply zsum_abs_prefix. destruct Hp as [q ->]. rewrite map_app. by apply prefix_app_r. }
  pose proof (A3 (λ e, units k (cs_settled_cash_delta_usd e))).
  pose proof (A3 (λ e, units k (cs_unsettled_receivable_delta_usd e))). unfold sum_settled, sum_unsettled. lia.
Qed.

Lemma cash_elem_bound k l e :
  cash_on_grid k l → e ∈ l → Z.abs (units k (cs_unsettled_receivable_delta_usd e)) < LIMIT.
Proof.
  intros (_ & _ & Hb) He.
  pose proof (zsum_abs_nonneg (map (λ e, units k (cs_settled_cash_delta_usd e)) l)).
  pose proof (zsum_abs_elem _ _ (list_elem_of_fmap_2 (λ e, units k (cs_unsettled_receivable_delta_usd e)) _ _ He)) as H1.
  cbn beta in H1. change (@fmap list list_fmap) with @map in H1. lia.
Qed.

(** The loop invariant: settled cash is the sum of the settled deltas, the open receivables are
    positive and add up to the sum of the receivable deltas. *)
Definition cash_inv (k : Z) (pre : list CashSettlementEvent) (st : dec * pydict (dec * date)) : Prop :=
  on_grid k st.1 ∧ units k st.1 = sum_settled k pre ∧ 0 <= units k st.1 ∧ NoDup st.2.*1 ∧
  Forall (λ kv, on_grid k kv.2.1 ∧ 0 < units k kv.2.1) st.2 ∧
  zsum (map (λ kv, units k kv.2.1) st.2) = sum_unsettled k pre.

(** The ways one iteration can succeed. *)
Lemma apply_step_inv st e st' :
  apply_step st e = Ok st' →
  st'.1 = (st.1 + cs_settled_cash_delta_usd e)%dec ∧ (0 <= dval st'.1)%Q ∧
  match cs_event_type e with
  | SELL_RECEIVABLE_CREATED => ∃ r d, cs_receivable_id e = Some r ∧ cs_settlement_date e = Some d ∧
      dget r st.2 = None ∧ st'.2 = st.2 ++ [(r, (cs_unsettled_receivable_delta_usd e, d))]
  | RECEIVABLE_SETTLED => ∃ r v, cs_receivable_id e = Some r ∧ dget r st.2 = Some v ∧
      deqb v.1 (- cs_unsettled_receivable_delta_usd e)%dec = true ∧ st'.2 = dpop r st.2
  | _ => st'.2 = st.2
  end.
Proof.
  unfold apply_step. cbv zeta. intros H. apply bind_Ok_inv in H as (rs & Hr & H). inv_ok.
  cbn [fst snd]. dec_to_Q. do 2 (split; [done|]). destruct (cs_event_type e); inv_ok; try done.
  - destruct (cs_receivable_id e) as [r|]; [|done]. destruct (cs_settlement_date e) as [d|]; [|done]. inv_ok.
    unfold dmem in *. destruct (dget r st.2) eqn:G; [done|].
    exists r, d. rewrite dset_fresh by done. done.
  - destruct (cs_receivable_id e) as [r|]; [|done]. destruct (dget r st.2) as [v|] eqn:G; [|done]. inv_ok. split_bool.
    exists r, v. done.
Qed.

Lemma receivables_pop k (rs : pydict (dec * date)) r v :
  dget r rs = Some v → Forall (λ kv, on_grid k kv.2.1 ∧ 0 < units k kv.2.1) rs →
  on_grid k v.1 ∧ 0 < units k v.1 ∧ Forall (λ kv, on_grid k kv.2.1 ∧ 0 < units k kv.2.1) (dpop r rs) ∧
  zsum (map (λ kv, units k kv.2.1) rs) = units k v.1 + zsum (map (λ kv, units k kv.2.1) (dpop r rs)) ∧
  0 <= zsum (map (λ kv, units k kv.2.1) (dpop r rs)).
Proof.
  intros Hv HF. pose proof (dpop_split _ _ _ Hv) as Hp. rewrite Hp in HF.
  inversion HF as [|?? [J1 J2] J3]; subst. cbn [fst snd] in *. do 3 (split; [done|]). split.
  - rewrite Hp at 1. done.
  - clear - J3. induction J3 as [|x l [_ Hx] _ IH]; cbn [map]; [done|]. rewrite zsum_cons. lia.
Qed.

Lemma cash_inv_step k l pre e st st' :
  cash_on_grid k l → Forall cash_shape l → pre ++ [e] `prefix_of` l →
  cash_inv k pre st → apply_step st e = Ok st' → cash_inv k (pre ++ [e]) st'.
Proof.
  intros Hg Hsh Hpre (I1 & I2 & I3 & I4 & I5 & I6) Hs. apply apply_step_inv in Hs as (S1 & S2 & S3).
  pose proof (prefix_of_snoc_elem _ _ _ Hpre) as He. pose proof (cash_prefix_bounds _ _ _ Hg Hpre) as Hb.
  pose proof Hg as (H0 & Hgr & _). rewrite Forall_forall in Hgr, Hsh.
  destruct (Hgr e He) as [G1 G2]. specialize (Hsh e He).
  unfold sum_settled, sum_unsettled in *. rewrite !map_app, !zsum_app in *. cbn [map] in *. rewrite !zsum_cons in *.
  change (zsum []) with 0 in *.
  destruct (dadd_units k st.1 (cs_settled_cash_delta_usd e) I1 G1) as [G3 U3]; [lia|].
  unfold cash_inv, sum_settled, sum_unsettled. rewrite !map_app, !zsum_app. cbn [map]. rewrite !zsum_cons. change (zsum []) with 0.
  split; [by rewrite S1|]. split; [rewrite S1; lia|].
  split. { apply (dval_units_le k d0 st'.1) in S2; [|by apply on_grid_d0|by rewrite S1]. by rewrite units_d0 in S2. }
  unfold cash_shape in Hsh. destruct (cs_event_type e).
  - rewrite S3. destruct Hsh as [_ ->]. rewrite units_d0. rewrite I6. repeat split; [done..|lia].
  - rewrite S3. destruct Hsh as [_ ->]. rewrite units_d0. rewrite I6. repeat split; [done..|lia].
  - destruct S3 as (r & d & _ & _ & Hn & ->). destruct Hsh as (_ & Hpos & _).
    assert (0 < units k (cs_unsettled_receivable_delta_usd e)).
    { apply Z.lt_nge. intros Hle. rewrite <- (units_d0 k) in Hle.
      apply dval_units_le in Hle; [|done|by apply on_grid_d0]. rewrite dval_d0 in Hle. lra. }
    rewrite fmap_app, map_app, zsum_app. cbn. split; [|split; [|unfold zsum in *; cbn; lia]].
    + apply NoDup_app. split; [done|]. split; [|repeat constructor; set_solver].
      intros x Hx Hx'. apply dget_None_not_key in Hn. set_solver.
    + apply Forall_app. split; [done|]. by repeat constructor.
  - destruct S3 as (r & v & _ & Hv & Heq & ->). destruct Hsh as [Hneg _].
    destruct (receivables_pop k _ _ _ Hv I5) as (P1 & P2 & P3 & P4 & P5). split; [by apply dpop_NoDup|].
    split; [done|].
    assert (Z.abs (units k (cs_unsettled_receivable_delta_usd e)) < LIMIT) as Hlim by (by apply (cash_elem_bound k l)).
    destruct (dneg_units k (cs_unsettled_receivable_delta_usd e) G2 Hlim) as [N1 N2].
    rewrite (deqb_units k), N2, Z.eqb_eq in Heq by done. lia.
Qed.

(** The events visible at [as_of], in the order the loop processes them. *)
Definition processed (events : list CashSettlementEvent) (as_of : datetime) : list CashSettlementEvent :=
  sorted cash_key_le (List.filter (cash_visible as_of) events).

Lemma processed_elem e events as_of : e ∈ processed events as_of ↔ cash_visible as_of e = true ∧ e ∈ events.
Proof. unfold processed. by rewrite elem_of_sorted, elem_of_filterb. Qed.

Lemma processed_grid k events as_of : cash_on_grid k events → cash_on_grid k (processed events as_of).
Proof.
  intros Hg. eapply cash_on_grid_perm; [symmetry; apply sorted_perm|]. by apply cash_on_grid_filter.
Qed.

Lemma apply_events_run events as_of b :
  apply_settlement_events events as_of = Ok b →
  ∃ st, foldM apply_step (d0, []) (processed events as_of) = Ok st ∧ cb_settled_cash_usd b = st.1 ∧
    cb_unsettled_receivables b = map (λ kv, (kv.1, kv.2.1, kv.2.2)) (sorted_items st.2).
Proof.
  unfold apply_settlement_events. cbv zeta. intros H. inv_ok. apply validate_CashBalances_id in H as [-> _].
  exists x1. done.
Qed.

Lemma apply_events_inv k events as_of pre st :
  cash_on_grid k events → Forall cash_shape events →
  pre `prefix_of` processed events as_of → foldM apply_step (d0, []) pre = Ok st → cash_inv k pre st.
Proof.
  intros Hg Hsh Hpre Hf. apply processed_grid with (as_of := as_of) in Hg as Hg'.
  assert (Forall cash_shape (processed events as_of)) as Hsh'.
  { rewrite Forall_forall in *. intros e [_ He]%processed_elem. auto. }
  eapply (foldM_prefix_invariant (cash_inv k)); [..|exact Hf].
  - destruct Hg as [H0 _]. unfold cash_inv; cbn. rewrite units_d0. repeat split; [by apply on_grid_d0|done|constructor..].
  - intros p e s s' Hp. apply (cash_inv_step k (processed events as_of)); [done..|]. by etrans.
Qed.

(** C19: conservation of cash.  For events with the deltas the recording functions give them, on a grid of
    [10^-k] dollars, the balances derived at [as_of] are exact: settled cash is the sum of the
    settled deltas of the visible events, the open receivables add up to the sum of their
    receivable deltas, and total cash is the sum of both. *)
Theorem settlement_conserves_cash k events as_of b :
  cash_on_grid k events → Forall cash_shape events → apply_settlement_events events as_of = Ok b →
  let visible := List.filter (cash_visible as_of) events in
  units k (cb_settled_cash_usd b) = sum_settled k visible ∧
  units k (unsettled_receivables_usd b) = sum_unsettled k visible ∧
  (dval (total_cash_usd b) == inject_Z (sum_settled k visible + sum_unsettled k visible) * q10 (- k))%Q.
Proof.
  intros Hg Hsh Hb. apply apply_events_run in Hb as (st & Hf & B1 & B2).
  destruct (apply_events_inv k events as_of _ st Hg Hsh ltac:(done) Hf) as (I1 & I2 & I3 & I4 & I5 & I6).
  assert (∀ g, zsum (map g (processed events as_of)) = zsum (map g (List.filter (cash_visible as_of) events))) as Hp.
  { intros g. apply zsum_perm, Permutation_map, sorted_perm. }
  unfold sum_settled, sum_unsettled in *. rewrite Hp in I2, I6. cbv zeta.
  set (rs := map (λ r, r.1.2) (cb_unsettled_receivables b)).
  assert (zsum (map (units k) rs) = zsum (map (λ kv, units k kv.2.1) st.2)) as E1.
  { unfold rs. rewrite B2, !map_map. apply zsum_perm. rewrite (Permutation_map _ (sorted_items_perm st.2)). done. }
  assert (Forall (λ d, on_grid k d ∧ 0 < units k d) rs) as E2.
  { unfold rs. rewrite B2, map_map, Forall_map, sorted_items_perm. exact I5. }
  assert (zsum (map Z.abs (map (units k) rs)) = zsum (map (units k) rs)) as E3.
  { clear - E2. induction E2 as [|d l [_ Hd] _ IH]; cbn [map]; [done|]. rewrite !zsum_cons, IH. lia. }
  pose proof (cash_prefix_bounds k _ _ (processed_grid k events as_of Hg) ltac:(done)) as Hlim.
  unfold sum_settled, sum_unsettled in Hlim. rewrite !Hp in Hlim. destruct Hg as (H0 & _).
  destruct (dsum_units k rs H0) as [D1 D2]; [eapply Forall_impl; [exact E2|naive_solver]|lia|].
  change (dsum rs) with (unsettled_receivables_usd b) in D1, D2. rewrite B1. split; [done|]. split; [lia|].
  destruct (dadd_units k st.1 (unsettled_receivables_usd b) I1 D1) as [T1 T2]; [lia|].
  unfold total_cash_usd. rewrite B1, (units_dval k _ T1), T2, I2, D2, E1, I6. done.
Qed.

(** purchases are paid from settled cash only.  At every point of the processing order the
    exact sum of the settled deltas so far is non-negative, whatever is still receivable. *)
Theorem buys_use_settled_cash_only k events as_of b pre :
  cash_on_grid k events → Forall cash_shape events → apply_settlement_events events as_of = Ok b →
  pre `prefix_of` processed events as_of → 0 <= sum_settled k pre.
Proof.
  intros Hg Hsh Hb Hpre. apply apply_events_run in Hb as (st & Hf & _). pose proof Hpre as [post E].
  rewrite E, foldM_app in Hf. apply bind_Ok_inv in Hf as (s & Hs & _).
  destruct (apply_events_inv k events as_of pre s Hg Hsh Hpre Hs) as (_ & I2 & I3 & _). lia.
Qed.

Lemma cash_key_le_spec a b :
  cash_key_le a b = true ↔
  instant (cs_effective_at a) < instant (cs_effective_at b) ∨ (instant (cs_effective_at a) = instant (cs_effective_at b) ∧
    (_EVENT_ORDER (cs_event_type a) < _EVENT_ORDER (cs_event_type b) ∨
     (_EVENT_ORDER (cs_event_type a) = _EVENT_ORDER (cs_event_type b) ∧
      String.leb (cs_cash_settlement_event_id a) (cs_cash_settlement_event_id b) = true))).
Proof.
  unfold cash_key_le. cbv zeta. rewrite !orb_true_iff, !andb_true_iff, !orb_true_iff, !andb_true_iff, !Z.ltb_lt, !Z.eqb_eq. done.
Qed.

Lemma cash_key_le_total a b : cash_key_le a b = false → cash_key_le b a = true.
Proof.
  intros H. apply cash_key_le_spec. apply not_true_iff_false in H. rewrite cash_key_le_spec in H.
  destruct (String.leb (cs_cash_settlement_event_id a) (cs_cash_settlement_event_id b)) eqn:E; [lia|].
  apply string_leb_total in E. rewrite E. lia.
Qed.

Lemma cash_key_le_trans a b c : cash_key_le a b = true → cash_key_le b c = true → cash_key_le a c = true.
Proof.
  rewrite !cash_key_le_spec. intros H1 H2.
  pose proof (string_leb_trans (cs_cash_settlement_event_id a) (cs_cash_settlement_event_id b) (cs_cash_settlement_event_id c)).
  intuition (lia || auto).
Qed.

Lemma cash_key_le_ids a b :
  cash_key_le a b = true → cash_key_le b a = true → cs_cash_settlement_event_id a = cs_cash_settlement_event_id b.
Proof.
  rewrite !cash_key_le_spec. intros H1 H2. apply string_leb_antisym; intuition lia.
Qed.

Lemma has_dup_perm (l1 l2 : list string) : l1 ≡ₚ l2 → has_dup l1 = has_dup l2.
Proof.
  intros Hp. destruct (has_dup l1) eqn:E1, (has_dup l2) eqn:E2; try done.
  - apply has_dup_false in E2. rewrite <- Hp in E2. apply has_dup_false in E2. congruence.
  - apply has_dup_false in E1. rewrite Hp in E1. apply has_dup_false in E1. congruence.
Qed.

Lemma validate_unique_perm l1 l2 : l1 ≡ₚ l2 → _validate_unique_events l1 = _validate_unique_events l2.
Proof.
  intros Hp. unfold _validate_unique_events.
  by rewrite (has_dup_perm _ _ (Permutation_map cs_cash_settlement_event_id Hp)),
             (has_dup_perm _ _ (Permutation_map cs_idempotency_key Hp)).
Qed.

Lemma NoDup_map_inj {A B} (f : A → B) l x y : NoDup (map f l) → x ∈ l → y ∈ l → f x = f y → x = y.
Proof.
  induction l as [|z l IH]; cbn; intros Hn Hx Hy E; [set_solver|]. apply NoDup_cons in Hn as [Hz Hn].
  assert (∀ w, w ∈ l → f w ∈ map f l) as Hin by (intros; apply list_elem_of_fmap; eauto).
  apply elem_of_cons in Hx as [->|Hx], Hy as [->|Hy]; auto.
  - exfalso. apply Hz. rewrite E. auto.
  - exfalso. apply Hz. rewrite <- E. auto.
Qed.

(** the balances (and the error, if any) do not depend on the order in which the events are
    read back from storage. *)
Theorem balances_event_order_irrelevant events events' as_of :
  events ≡ₚ events' → apply_settlement_events events as_of = apply_settlement_events events' as_of.
Proof.
  intros Hp. unfold apply_settlement_events. rewrite (validate_unique_perm _ _ Hp). destruct (require_aware_utc as_of); [|done].
  cbn [mbind res_bind]. destruct (_validate_unique_events events') as [u|] eqn:Eu; [|done]. cbn [mbind res_bind]. cbv zeta.
  rewrite (sorted_perm_unique cash_key_le _ (List.filter (cash_visible as_of) events')); [done|..].
  - apply cash_key_le_total.
  - apply cash_key_le_trans.
  - intros x y [_ Hx]%elem_of_filterb [_ Hy]%elem_of_filterb L1 L2. rewrite <- (validate_unique_perm _ _ Hp) in Eu.
    unfold _validate_unique_events in Eu. inv_ok. apply has_dup_false in E.
    apply (NoDup_map_inj _ _ _ _ E Hx Hy). by apply cash_key_le_ids.
  - by apply filterb_perm.
Qed.

(** ** Settling receivables *)

Definition created_pair (e : CashSettlementEvent) : option (string * CashSettlementEvent) :=
  match cs_event_type e, cs_receivable_id e with
  | SELL_RECEIVABLE_CREATED, Some r => Some (r, e)
  | _, _ => None
  end.

Lemma created_pair_Some e r e' :
  created_pair e = Some (r, e') ↔ e' = e ∧ cs_event_type e = SELL_RECEIVABLE_CREATED ∧ cs_receivable_id e = Some r.
Proof. unfold created_pair. destruct (cs_event_type e), (cs_receivable_id e); naive_solver. Qed.

(** The identifiers of the receivables that were created. *)
Definition created_ids (events : list CashSettlementEvent) : list string := map fst (omap created_pair events).

Lemma elem_of_created_ids r events :
  r ∈ created_ids events ↔ ∃ e, e ∈ events ∧ cs_event_type e = SELL_RECEIVABLE_CREATED ∧ cs_receivable_id e = Some r.
Proof.
  unfold created_ids. change (@map (string * CashSettlementEvent)) with (@fmap list list_fmap (string * CashSettlementEvent)). rewrite list_elem_of_fmap. split.
  - intros ([r' e'] & -> & (e & He & (-> & H1 & H2)%created_pair_Some)%list_elem_of_omap). eauto.
  - intros (e & He & H1 & H2). exists (r, e). split; [done|]. apply list_elem_of_omap. exists e. split; [done|].
    by apply created_pair_Some.
Qed.

Lemma created_elem events r e :
  (r, e) ∈ created_by_receivable events →
  e ∈ events ∧ cs_event_type e = SELL_RECEIVABLE_CREATED ∧ cs_receivable_id e = Some r.
Proof.
  intros Hin. apply dget_elem in Hin; [|apply dict_of_pairs_NoDup]. apply dict_of_pairs_elem in Hin.
  apply list_elem_of_omap in Hin as (e' & He & Hc). change (created_pair e' = Some (r, e)) in Hc.
  by apply created_pair_Some in Hc as (-> & ? & ?).
Qed.

Lemma created_mem events r e :
  e ∈ events → cs_event_type e = SELL_RECEIVABLE_CREATED → cs_receivable_id e = Some r →
  ∃ e', (r, e') ∈ created_by_receivable events.
Proof.
  intros He H1 H2. destruct (dict_of_pairs_mem (omap created_pair events) r e) as [e' He'].
  - apply list_elem_of_omap. exists e. split; [done|]. by apply created_pair_Some.
  - exists e'. by apply dget_Some_elem.
Qed.

Lemma already_settled_true events r :
  already_settled events r = true ↔
  ∃ e, e ∈ events ∧ cs_event_type e = RECEIVABLE_SETTLED ∧ cs_receivable_id e = Some r.
Proof.
  unfold already_settled. rewrite existsb_exists. split.
  - intros (e & He & Hb). split_bool. exists e. split; [by apply list_elem_of_In|done].
  - intros (e & He & H1 & H2). exists e. split; [by apply list_elem_of_In|]. by rewrite H1, H2, !bool_decide_eq_true_2.
Qed.

Definition date_due (through : date) (e : CashSettlementEvent) : bool :=
  match cs_settlement_date e with Some d => d <=? through | None => false end.

Section settle_facts.
Context `{Digest}.
Context (events : list CashSettlementEvent) (through : date) (eff cr : datetime) (cal : string)
  (pol : SettlementPolicy) (bc : BusinessCalendar) (prov : SettlementProvenance).

(** The receivables the loop settles, in key order. *)
Definition due_receivables : list (string * CashSettlementEvent) :=
  List.filter (λ it, negb (already_settled events it.1 || negb (date_due through it.2)))
    (sorted_items (created_by_receivable events)).

(** A settlement event of a receivable: same receivable, arm, fill and dates, the amount moved
    from receivable to settled cash. *)
Definition settles (it : string * CashSettlementEvent) (e : CashSettlementEvent) : Prop :=
  cs_event_type e = RECEIVABLE_SETTLED ∧ cs_receivable_id e = Some it.1 ∧
  cs_source_fill_id e = cs_source_fill_id it.2 ∧ cs_arm_id e = cs_arm_id it.2 ∧
  cs_settled_cash_delta_usd e = cs_unsettled_receivable_delta_usd it.2 ∧
  cs_unsettled_receivable_delta_usd e = (- cs_unsettled_receivable_delta_usd it.2)%dec ∧
  cs_settlement_date e = cs_settlement_date it.2 ∧ cs_effective_at e = eff ∧ cs_created_at e = cr.

Lemma settle_due_Forall2 out :
  settle_due_receivables events through eff cr cal pol bc prov = Ok out → Forall2 settles due_receivables out.
Proof.
  unfold settle_due_receivables. intros Ho. inv_ok.
  assert (foldM (λ r x, if already_settled events x.1 || negb (date_due through x.2) then Ok r else
    ev ← _event (cs_arm_id x.2) RECEIVABLE_SETTLED (Some x.1) (cs_source_fill_id x.2)
        (cs_unsettled_receivable_delta_usd x.2) (- cs_unsettled_receivable_delta_usd x.2)%dec
        (cs_gross_amount_usd x.2) (cs_commission_usd x.2) (cs_trade_at x.2) (cs_settlement_date x.2)
        eff cr cal pol prov; Ok (r ++ [ev])) [] (sorted_items (created_by_receivable events)) = Ok out) as Ho'.
  { rewrite <- Ho. apply foldM_ext. by intros acc [r s]. }
  apply foldM_collect in Ho' as (ys & -> & HF). cbn. eapply Forall2_impl; [exact HF|].
  intros [r s] e He. apply _event_fields in He as (F1 & F2 & F3 & F4 & F5 & F6 & F7 & F8 & F9 & F10 & F11).
  unfold settles. by rewrite F1, F2, F3, F4, F5, F8, F9, F10, F11.
Qed.

Lemma due_receivables_elem r s :
  (r, s) ∈ due_receivables →
  s ∈ events ∧ cs_event_type s = SELL_RECEIVABLE_CREATED ∧ cs_receivable_id s = Some r ∧
  already_settled events r = false ∧ date_due through s = true.
Proof.
  unfold due_receivables, sorted_items. intros [Hb Hin]%elem_of_filterb. rewrite elem_of_sorted in Hin.
  apply created_elem in Hin as (H1 & H2 & H3). cbn in Hb. split_bool. done.
Qed.

Lemma due_receivables_NoDup : NoDup due_receivables.*1.
Proof.
  unfold due_receivables. assert (NoDup (sorted_items (created_by_receivable events)).*1) as Hn
    by (rewrite sorted_items_perm; apply dict_of_pairs_NoDup).
  revert Hn. generalize (sorted_items (created_by_receivable events)). intros l.
  induction l as [|[r s] l IH]; cbn; [done|]. intros [H1 H2]%NoDup_cons. destruct (negb _); cbn; [|auto].
  apply NoDup_cons. split; [|auto]. intros ([r' s'] & E & [_ Hin]%elem_of_filterb)%list_elem_of_fmap. cbn in E. subst.
  apply H1. apply list_elem_of_fmap. by exists (r', s').
Qed.

Lemma settled_elem out r s :
  settle_due_receivables events through eff cr cal pol bc prov = Ok out → (r, s) ∈ due_receivables →
  ∃ e, e ∈ out ∧ settles (r, s) e.
Proof.
  intros Ho Hin. apply settle_due_Forall2 in Ho. apply list_elem_of_lookup in Hin as [i Hi].
  destruct (Forall2_lookup_l _ _ _ _ _ Ho Hi) as (e & He & Hs). exists e. split; [|done].
  apply list_elem_of_lookup. eauto.
Qed.

(** exactly the due receivables settle.  Every event that [settle_due_receivables] returns moves
    the full amount of a created, not yet settled receivable whose settlement date has come,
    no receivable is settled twice, and (receivable identifiers being created once) no due one is missed. *)
Theorem settle_due_exact out :
  settle_due_receivables events through eff cr cal pol bc prov = Ok out →
  (∀ e, e ∈ out → ∃ r s, s ∈ events ∧ cs_event_type s = SELL_RECEIVABLE_CREATED ∧ cs_receivable_id s = Some r ∧
     already_settled events r = false ∧ date_due through s = true ∧ settles (r, s) e) ∧
  NoDup (map cs_receivable_id out) ∧
  (NoDup (created_ids events) → ∀ r s, s ∈ events → cs_event_type s = SELL_RECEIVABLE_CREATED →
     cs_receivable_id s = Some r → already_settled events r = false → date_due through s = true →
     ∃ e, e ∈ out ∧ settles (r, s) e).
Proof.
  intros Ho. pose proof (settle_due_Forall2 _ Ho) as HF. split; [|split].
  - intros e [i Hi]%list_elem_of_lookup. destruct (Forall2_lookup_r _ _ _ _ _ HF Hi) as ([r s] & Hrs & Hs).
    assert ((r, s) ∈ due_receivables) as (H1 & H2 & H3 & H4 & H5)%due_receivables_elem by (apply list_elem_of_lookup; eauto).
    exists r, s. do 5 (split; [done|]). done.
  - assert (map cs_receivable_id out = map Some due_receivables.*1) as ->.
    { clear Ho. induction HF as [|[r s] e l l' (_ & He & _) _ IH]; cbn; [done|]. by rewrite IH, He. }
    apply (NoDup_fmap_2 Some). apply due_receivables_NoDup.
  - intros Hn r s Hs H1 H2 H3 H4. apply settled_elem; [done|].
    destruct (created_mem _ _ _ Hs H1 H2) as [s' Hin]. pose proof (created_elem _ _ _ Hin) as (J1 & J2 & J3).
    assert (s' = s) as ->.
    { assert ((r, s') = (r, s)) as [= ->]; [|done].
      apply (NoDup_map_inj fst (omap created_pair events)); [done| | |done].
      - apply list_elem_of_omap. exists s'. split; [done|]. by apply created_pair_Some.
      - apply list_elem_of_omap. exists s. split; [done|]. by apply created_pair_Some. }
    unfold due_receivables. apply elem_of_filterb. cbn. rewrite H3, H4. split; [done|].
    unfold sorted_items. by rewrite elem_of_sorted.
Qed.
End settle_facts.

(** settling is idempotent.  When the returned events have been stored and nothing else has
    changed, the same call settles nothing more (or the store holds colliding identifiers). *)
Theorem settle_due_idempotent `{Digest} events through eff cr cal pol bc prov out :
  settle_due_receivables events through eff cr cal pol bc prov = Ok out →
  _validate_unique_events (events ++ out) = Ok () →
  settle_due_receivables (events ++ out) through eff cr cal pol bc prov = Ok [].
Proof.
  intros Ho Hu. pose proof (settle_due_Forall2 _ _ _ _ _ _ _ _ _ Ho) as HF. unfold settle_due_receivables in Ho |- *.
  destruct (_validate_policy_calendar pol bc); [|done]. destruct (require_session bc through); [|done].
  destruct (require_aware_utc eff) as [?|]; [|done]. destruct (require_aware_utc cr) as [?|]; [|done].
  clear Ho. cbn [mbind res_bind] in *. rewrite Hu. cbn [mbind res_bind].
  erewrite foldM_ext; [apply (foldM_skip_all (λ it, already_settled (events ++ out) it.1 || negb (date_due through it.2))
    (λ x, _event (cs_arm_id x.2) RECEIVABLE_SETTLED (Some x.1) (cs_source_fill_id x.2)
        (cs_unsettled_receivable_delta_usd x.2) (- cs_unsettled_receivable_delta_usd x.2)%dec
        (cs_gross_amount_usd x.2) (cs_commission_usd x.2) (cs_trade_at x.2) (cs_settlement_date x.2)
        eff cr cal pol prov))|by intros acc [r s]].
  intros [r s] Hin. unfold sorted_items in Hin. rewrite elem_of_sorted in Hin. cbn [fst snd].
  destruct (already_settled (events ++ out) r) eqn:Ha; [done|]. destruct (date_due through s) eqn:Hd; [|done]. exfalso.
  apply not_true_iff_false in Ha. apply Ha. apply already_settled_true.
  assert (∃ s', (r, s') ∈ due_receivables events through) as [s' Hs'].
  { assert (∀ e, e ∈ out → cs_event_type e = RECEIVABLE_SETTLED) as Hout.
    { intros e [i Hi]%list_elem_of_lookup. by destruct (Forall2_lookup_r _ _ _ _ _ HF Hi) as (? & _ & ? & _). }
    assert (created_by_receivable (events ++ out) = created_by_receivable events) as Ec.
    { unfold created_by_receivable. rewrite omap_app. f_equal. rewrite <- (app_nil_r (omap _ events)) at 2. f_equal.
      clear - Hout. induction out as [|e l IH]; cbn; [done|]. rewrite (Hout e) by left. apply IH. intros. apply Hout. by right. }
    rewrite Ec in Hin. exists s. unfold due_receivables. apply elem_of_filterb. cbn. rewrite Hd.
    split; [|unfold sorted_items; by rewrite elem_of_sorted].
    destruct (already_settled events r) eqn:Hb; [|done]. exfalso. apply Ha.
    apply already_settled_true in Hb as (e & He & Hb). apply already_settled_true. exists e. split; [set_solver|done]. }
  apply list_elem_of_lookup in Hs' as [i Hi]. destruct (Forall2_lookup_l _ _ _ _ _ HF Hi) as (e & He & S1 & S2 & _).
  exists e. split; [|done]. apply elem_of_app. right. apply list_elem_of_lookup. eauto.
Qed.

(** The open receivables of the loop are those created and not settled so far. *)
Definition open_inv (pre : list CashSettlementEvent) (st : dec * pydict (dec * date)) : Prop :=
  NoDup st.2.*1 ∧
  (∀ r v, dget r st.2 = Some v → already_settled pre r = false ∧
     ∃ s, s ∈ pre ∧ cs_event_type s = SELL_RECEIVABLE_CREATED ∧ cs_receivable_id s = Some r ∧ cs_settlement_date s = Some v.2) ∧
  (∀ r, already_settled pre r = true → r ∈ created_ids pre).

Lemma already_settled_snoc pre e r :
  already_settled (pre ++ [e]) r = already_settled pre r ||
    (bool_decide (cs_event_type e = RECEIVABLE_SETTLED) && bool_decide (cs_receivable_id e = Some r)).
Proof. unfold already_settled. rewrite existsb_app. cbn. by rewrite orb_false_r. Qed.

Lemma created_ids_snoc pre e :
  created_ids (pre ++ [e]) = created_ids pre ++ match created_pair e with Some p => [p.1] | None => [] end.
Proof. unfold created_ids. rewrite omap_app, map_app. cbn. by destruct (created_pair e). Qed.

Lemma open_inv_step pre e st st' :
  NoDup (created_ids (pre ++ [e])) → open_inv pre st → apply_step st e = Ok st' → open_inv (pre ++ [e]) st'.
Proof.
  intros Hn (I1 & I2 & I3) (_ & _ & S3)%apply_step_inv. rewrite created_ids_snoc in Hn.
  assert (∀ s, s ∈ pre → s ∈ pre ++ [e]) as Hmono by set_solver.
  unfold open_inv. setoid_rewrite already_settled_snoc. setoid_rewrite created_ids_snoc.
  assert (Hother : cs_event_type e ≠ RECEIVABLE_SETTLED → created_pair e = None → st'.2 = st.2 → open_inv (pre ++ [e]) st').
  { intros T1 T2 E2. unfold open_inv. rewrite E2. setoid_rewrite already_settled_snoc. setoid_rewrite created_ids_snoc. rewrite T2, app_nil_r.
    rewrite bool_decide_eq_false_2 by done. setoid_rewrite orb_false_r. split; [done|]. split; [|done].
    intros r v [Hs (s & Hs' & Hr)]%I2. split; [done|]. exists s. split; [by apply Hmono|done]. }
  unfold open_inv in Hother. setoid_rewrite already_settled_snoc in Hother. setoid_rewrite created_ids_snoc in Hother.
  destruct (cs_event_type e) eqn:Et; [apply Hother; try done; unfold created_pair; by rewrite Et..| |].
  - destruct S3 as (r & d & Hr & Hd & Hg & E2). clear Hother.
    assert (created_pair e = Some (r, e)) as Hc by (by apply created_pair_Some). rewrite Hc in *. cbn [fst] in *.
    rewrite E2. cbn [bool_decide andb]. setoid_rewrite orb_false_r. apply NoDup_app in Hn as (_ & Hn & _).
    split; [|split].
    + rewrite fmap_app. apply NoDup_app. split; [done|]. split; [|apply NoDup_singleton].
      intros x Hx ->%list_elem_of_singleton. by apply dget_None_not_key in Hg.
    + rewrite <- dset_fresh by done. intros r' v. rewrite dget_dset. destruct (String.eqb_spec r' r) as [->|Hne].
      * intros [= <-]. split; [|exists e; set_solver].
        destruct (already_settled pre r) eqn:Ha; [|done]. exfalso. apply I3 in Ha. apply (Hn r Ha). set_solver.
      * intros [Hs (s & Hs' & Hr')]%I2. split; [done|]. exists s. split; [by eapply Hmono|done].
    + intros r' Ha. apply I3 in Ha. set_solver.
  - destruct S3 as (r & v & Hr & Hg & _ & E2). clear Hother.
    assert (created_pair e = None) as Hc by (unfold created_pair; by rewrite Et). rewrite Hc, Hr, E2.
    rewrite bool_decide_eq_true_2 by done. cbn [andb]. setoid_rewrite app_nil_r. split; [by apply dpop_NoDup|]. split.
    + intros r' w. rewrite dget_dpop by done. destruct (String.eqb_spec r' r) as [->|Hne]; [done|].
      intros [Hs (s & Hs' & Hr')]%I2. rewrite Hs, bool_decide_eq_false_2 by congruence. split; [done|].
      exists s. split; [by eapply Hmono|done].
    + intros r' [Ha|Ha]%orb_true_iff; [by apply I3|]. split_bool. injection Ha as <-.
      destruct (I2 _ _ Hg) as (_ & s & Hs & H1 & H2 & _). apply elem_of_created_ids. eauto.
Qed.

Lemma apply_events_open events as_of st :
  NoDup (created_ids events) → foldM apply_step (d0, []) (processed events as_of) = Ok st →
  open_inv (processed events as_of) st.
Proof.
  intros Hn. apply (foldM_prefix_invariant open_inv).
  - split; [constructor|]. split; [done|]. done.
  - intros pre e s s' Hp. apply open_inv_step.
    assert (created_ids (processed events as_of) ≡ₚ created_ids (List.filter (cash_visible as_of) events)) as Hperm.
    { unfold created_ids. apply Permutation_map. unfold processed. by rewrite sorted_perm. }
    assert (NoDup (created_ids (List.filter (cash_visible as_of) events))) as Hf.
    { clear - Hn. induction events as [|x l IH]; [done|]. revert Hn. unfold created_ids in *. cbn.
      assert (∀ y, y ∈ map fst (omap created_pair (List.filter (cash_visible as_of) l)) → y ∈ map fst (omap created_pair l)) as Hsub.
      { intros y (z & Hz & T)%elem_of_created_ids. apply elem_of_filterb in Hz as [_ Hz]. apply elem_of_created_ids. eauto. }
      destruct (created_pair x) eqn:Ex.
      - cbn. intros [H1 H2]%NoDup_cons. destruct (cash_visible as_of x); cbn; [|auto].
        rewrite Ex. cbn. apply NoDup_cons. auto.
      - intros H1. destruct (cash_visible as_of x); cbn; [rewrite Ex|]; auto. }
    rewrite <- Hperm in Hf. destruct Hp as [post E]. rewrite E in Hf. unfold created_ids in *.
    rewrite omap_app, map_app in Hf. by apply NoDup_app in Hf as [Hf _].
Qed.

(** no due receivable stays open.  After the events returned by [settle_due_receivables] are
    applied, every receivable still open in the balances settles in a later session. *)
Theorem nothing_due_left_open `{Digest} events through eff cr cal pol bc prov out as_of b r a d :
  settle_due_receivables events through eff cr cal pol bc prov = Ok out →
  NoDup (created_ids events) → Forall (λ e, cash_visible as_of e = true) events →
  dt_le eff as_of = true → dt_le cr as_of = true →
  apply_settlement_events (events ++ out) as_of = Ok b →
  (r, a, d) ∈ cb_unsettled_receivables b → through < d.
Proof.
  intros Ho Hn Hv Heff Hcr Hb Hin. apply apply_events_run in Hb as (st & Hf & _ & B2).
  destruct (settle_due_exact _ _ _ _ _ _ _ _ _ Ho) as (X1 & _ & X3).
  assert (created_ids (events ++ out) = created_ids events) as Ec.
  { unfold created_ids. rewrite omap_app, map_app. rewrite <- (app_nil_r (map fst (omap created_pair events))) at 2. f_equal.
    assert (∀ e, e ∈ out → created_pair e = None) as Hc.
    { intros e (r' & s & _ & _ & _ & _ & _ & Ht & _)%X1. unfold created_pair. by rewrite Ht. }
    clear - Hc. induction out as [|x l IH]; cbn; [done|]. rewrite (Hc x) by left. apply IH. intros. apply Hc. by right. }
  assert (open_inv (processed (events ++ out) as_of) st) as (_ & I2 & _) by (apply apply_events_open; [by rewrite Ec|done]).
  assert (dget r st.2 = Some (a, d)) as Hg.
  { rewrite B2 in Hin. apply list_elem_of_fmap in Hin as ([r' [a' d']] & [= -> -> ->] & Hin). unfold sorted_items in Hin.
    rewrite elem_of_sorted in Hin. apply dget_elem; [|done].
    assert (open_inv (processed (events ++ out) as_of) st) as (Hnd & _) by (apply apply_events_open; [by rewrite Ec|done]). done. }
  apply I2 in Hg as (Hns & s & Hs & S1 & S2 & S3). cbn in S3. apply processed_elem in Hs as [_ Hs].
  apply elem_of_app in Hs as [Hs|Hs].
  2: { apply X1 in Hs as (? & ? & _ & _ & _ & _ & _ & Ht & _). congruence. }
  apply Z.nle_gt. intros Hle. apply not_true_iff_false in Hns. apply Hns. apply already_settled_true.
  rewrite Forall_forall in Hv. destruct (already_settled events r) eqn:Ha.
  - apply already_settled_true in Ha as (e & He & Ha). exists e. split; [|done]. apply processed_elem. split; [by apply Hv|set_solver].
  - destruct (X3 Hn r s Hs S1 S2 Ha) as (e & He & Hse); [unfold date_due; rewrite S3; by apply Z.leb_le|].
    destruct Hse as (T1 & T2 & _ & _ & _ & _ & _ & T3 & T4). exists e. split; [|done]. apply processed_elem.
    split; [unfold cash_visible; by rewrite T3, T4, Heff, Hcr|set_solver].
Qed.

(** settlement lag.  With a validated calendar and policy, a recorded sale credits the net
    proceeds as a receivable dated exactly [lag_business_sessions] sessions of the calendar after
    the trade session, and touches no settled cash. *)
Theorem sell_receivable_settles_after_lag `{Digest} arm f tr ses n c cr cal pol bc prov e :
  validate_BusinessCalendar bc = Ok bc → validate_SettlementPolicy pol = Ok pol →
  record_sell_receivable arm f tr ses n c cr cal pol bc prov = Ok e →
  (∃ i d, bc_sessions bc !! i = Some ses ∧ cs_settlement_date e = Some d ∧
     bc_sessions bc !! (i + Z.to_nat (sp_lag_business_sessions pol))%nat = Some d ∧ ses <= d) ∧
  cs_unsettled_receivable_delta_usd e = (n - c)%dec ∧ (0 < dval (cs_unsettled_receivable_delta_usd e))%Q ∧
  cs_settled_cash_delta_usd e = d0.
Proof.
  intros Hc Hp He. apply validate_calendar_sorted in Hc.
  pose proof (record_sell_shape _ _ _ _ _ _ _ _ _ _ _ _ He) as [Hsh Hud].
  unfold record_sell_receivable in He. inv_ok.
  destruct (_event_fields _ _ _ _ _ _ _ _ _ _ _ _ _ _ _ _ He) as (F1 & _ & _ & _ & _ & _ & _ & F8 & _).
  unfold cash_shape in Hsh. rewrite F1 in Hsh. destruct Hsh as (H1 & H2 & _). split; [|done].
  assert (0 <= sp_lag_business_sessions pol) as Hlag.
  { unfold validate_SettlementPolicy in Hp. inv_ok. by apply Z.ltb_ge. }
  lazymatch goal with E : add_business_sessions _ _ _ = Ok ?d |- _ =>
    apply (add_business_sessions_iff _ _ _ _ Hc Hlag) in E as (i & Hi & Hj); exists i, d end.
  do 3 (split; [done|]). destruct (Z.to_nat (sp_lag_business_sessions pol)) as [|m] eqn:Em.
  { rewrite Nat.add_0_r in Hj. rewrite Hi in Hj. injection Hj as ->. lia. }
  assert (∀ k x, bc_sessions bc !! k = Some x → nth k (bc_sessions bc) 0 = x ∧ (k < length (bc_sessions bc))%nat) as Hnth.
  { intros k x Hk. rewrite nth_lookup, Hk. split; [done|]. by eapply lookup_lt_Some. }
  apply Hnth in Hi as [<- Hi], Hj as [<- Hj]. pose proof (sorted_nth_mono _ i (i + S m) Hc). lia.
Qed.

(** ** Concrete runs *)

#[local] Existing Instance rolling_digest.

Definition ex_policy : SettlementPolicy :=
  {| sp_version := "settle-v1"; sp_calendar_version := "cal-v1"; sp_lag_business_sessions := 1 |}.
Definition ex_calendar : BusinessCalendar := {| bc_version := "cal-v1"; bc_sessions := [20089; 20090; 20093; 20094] |}.
Definition ex_cash_prov : SettlementProvenance :=
  {| pv_run_id := "run"; pv_source_cycle_id := "cycle"; pv_config_manifest_hash := "cfg"; pv_code_version := "code";
     pv_model_version := "model"; pv_source_manifest_hash := "src"; pv_worker_fence_token := "fence";
     pv_cycle_attempt_count := 1 |}.
Definition ex_sell : res CashSettlementEvent :=
  record_sell_receivable Q1_DET "fill-2" (utc 3000) 20090 (Dec 30000 (-2)) (Dec 100 (-2)) (utc 3000) "2025-01-03"
    ex_policy ex_calendar ex_cash_prov.
Definition res_list {A} (r : res A) : list A := match r with Ok a => [a] | Raise _ => [] end.
Definition ex_cash : list CashSettlementEvent :=
  Eval vm_compute in
    res_list (record_opening_settled_cash Q1_DET (Dec 100000 (-2)) (utc 1000) (utc 1000) "2025-01-02" ex_policy ex_cash_prov) ++
    res_list (record_buy_cash_debit Q1_DET "fill-1" (utc 2000) (Dec 40000 (-2)) (Dec 100 (-2)) (utc 2000) "2025-01-02"
                ex_policy ex_cash_prov) ++
    res_list ex_sell.
Definition ex_settled : list CashSettlementEvent :=
  Eval vm_compute in match settle_due_receivables ex_cash 20093 (utc 4000) (utc 4000) "2025-01-06" ex_policy ex_calendar ex_cash_prov with
                     | Ok l => l | Raise _ => [] end.
Definition ex_balances (l : list CashSettlementEvent) : CashBalances :=
  match apply_settlement_events l (utc 5000) with
  | Ok b => b
  | Raise _ => {| cb_settled_cash_usd := d0; cb_unsettled_receivables := [] |}
  end.

Lemma ex_cash_grid : cash_on_grid 2 ex_cash.
Proof.
  split; [discriminate|]. split; [repeat constructor; unfold on_grid; cbn; lia|vm_compute; reflexivity].
Qed.
Lemma ex_cash_shape : Forall cash_shape ex_cash.
Proof.
  repeat apply Forall_cons_2; try apply Forall_nil_2; unfold cash_shape; cbn; repeat split; try (by eexists); by vm_compute.
Qed.
Lemma ex_settle_run :
  settle_due_receivables ex_cash 20093 (utc 4000) (utc 4000) "2025-01-06" ex_policy ex_calendar ex_cash_prov = Ok ex_settled.
Proof. vm_compute. reflexivity. Qed.

Lemma settlement_conserves_cash_witness :
  units 2 (cb_settled_cash_usd (ex_balances ex_cash)) = 59900 ∧
  units 2 (unsettled_receivables_usd (ex_balances ex_cash)) = 29900.
Proof.
  destruct (settlement_conserves_cash 2 ex_cash (utc 5000) (ex_balances ex_cash) ex_cash_grid ex_cash_shape
    ltac:(vm_compute; reflexivity)) as (H1 & H2 & _). rewrite H1, H2. vm_compute. split; reflexivity.
Defined.

Lemma buys_use_settled_cash_only_witness : 0 <= sum_settled 2 (firstn 2 (processed ex_cash (utc 5000))).
Proof.
  apply (buys_use_settled_cash_only 2 ex_cash (utc 5000) (ex_balances ex_cash) _ ex_cash_grid ex_cash_shape);
    [vm_compute; reflexivity|]. exists (skipn 2 (processed ex_cash (utc 5000))). by rewrite take_drop.
Defined.

Lemma balances_event_order_irrelevant_witness :
  apply_settlement_events (rev ex_cash) (utc 5000) = Ok (ex_balances ex_cash).
Proof.
  rewrite <- (balances_event_order_irrelevant ex_cash); [vm_compute; reflexivity|apply Permutation_rev].
Defined.

Lemma settle_due_exact_witness :
  map cs_settled_cash_delta_usd ex_settled = [Dec 29900 (-2)] ∧ NoDup (map cs_receivable_id ex_settled).
Proof.
  split; [vm_compute; reflexivity|].
  apply (settle_due_exact ex_cash 20093 (utc 4000) (utc 4000) "2025-01-06" ex_policy ex_calendar ex_cash_prov ex_settled ex_settle_run).
Defined.

Lemma settle_due_idempotent_witness :
  settle_due_receivables (ex_cash ++ ex_settled) 20093 (utc 4000) (utc 4000) "2025-01-06" ex_policy ex_calendar ex_cash_prov = Ok [].
Proof. apply (settle_due_idempotent _ _ _ _ _ _ _ _ _ ex_settle_run). vm_compute. reflexivity. Defined.

(** One session earlier the receivable stays open, dated after the settled session. *)
Definition ex_early : list CashSettlementEvent :=
  Eval vm_compute in match settle_due_receivables ex_cash 20090 (utc 4000) (utc 4000) "2025-01-03" ex_policy ex_calendar ex_cash_prov with
                     | Ok l => l | Raise _ => [] end.

Lemma nothing_due_left_open_witness :
  map (λ x, x.2) (cb_unsettled_receivables (ex_balances (ex_cash ++ ex_early))) = [20093] ∧ 20090 < 20093.
Proof.
  split; [vm_compute; reflexivity|].
  destruct (cb_unsettled_receivables (ex_balances (ex_cash ++ ex_early))) as [|[[r a] d] l] eqn:E; [vm_compute in E; discriminate|].
  assert (d = 20093) as <- by (vm_compute in E; congruence).
  apply (nothing_due_left_open ex_cash 20090 (utc 4000) (utc 4000) "2025-01-03" ex_policy ex_calendar ex_cash_prov ex_early
    (utc 5000) (ex_balances (ex_cash ++ ex_early)) r a d); [vm_compute; reflexivity|..| | |rewrite E; left].
  - apply (bool_decide_eq_true_1 _). vm_compute. reflexivity.
  - repeat constructor.
  - reflexivity.
  - reflexivity.
  - vm_compute. reflexivity.
Defined.

Lemma sell_receivable_settles_after_lag_witness :
  match ex_sell with Ok e => (0 < dval (cs_unsettled_receivable_delta_usd e))%Q ∧ cs_settlement_date e = Some 20093 | Raise _ => False end.
Proof.
  destruct ex_sell as [e|] eqn:E; [|vm_compute in E; discriminate E].
  pose proof (sell_receivable_settles_after_lag _ _ _ _ _ _ _ _ ex_policy ex_calendar _ e eq_refl eq_refl E) as (_ & _ & H & _).
  split; [exact H|]. vm_compute in E. injection E as <-. reflexivity.
Defined.
