(* ===== verification/RiskMachine.v ===== *)
(** * The loss-control state machine ([risk/state_machine.py])

    A risk check turns the arm's marked-to-market state into loss metrics and an
    indicated severity; [plan_risk_transition] turns that into immutable episode events
    (activation, escalation, release) and the residual reduce-only targets. *)
From Stdlib Require Import ZArith Lia Ascii String QArith Lqa.
From stdpp Require Import base list strings numbers sorting gmap sets.
From S2P Require Import Prelude PyDecimal Hashing Domain.
Set Default Goal Selector "!".
Open Scope Z_scope.

(** ** Configuration and inputs *)

Record RiskEngineConfig := {
  rc_version : string;
  rc_annualization_sessions : dec;
  rc_soft_sigma_multiple : dec;
  rc_hard_sigma_multiple : dec;
  rc_soft_daily_floor : dec;
  rc_soft_daily_ceiling : dec;
  rc_hard_daily_floor : dec;
  rc_hard_daily_ceiling : dec;
  rc_soft_drawdown_threshold : dec;
  rc_hard_drawdown_threshold : dec;
  rc_critical_drawdown_threshold : dec;
  rc_q1_hard_gross_cap : dec;
  rc_q1_hard_soxx_weight_cap : dec;
  rc_live_mirror_semiconductor_weight_cap : dec;
  rc_release_daily_loss_soft_fraction : dec;
  rc_release_drawdown_threshold : dec;
  rc_release_consecutive_valid_checks : Z;
  rc_quantity_precision : dec;
  rc_leveraged_symbols : list string;
  rc_semiconductor_symbols : list string;
}.

Definition rc_fractions (c : RiskEngineConfig) : list dec :=
  [rc_soft_daily_floor c; rc_soft_daily_ceiling c; rc_hard_daily_floor c; rc_hard_daily_ceiling c;
   rc_soft_drawdown_threshold c; rc_hard_drawdown_threshold c; rc_critical_drawdown_threshold c;
   rc_q1_hard_gross_cap c; rc_q1_hard_soxx_weight_cap c; rc_live_mirror_semiconductor_weight_cap c;
   rc_release_daily_loss_soft_fraction c; rc_release_drawdown_threshold c].

Definition validate_RiskEngineConfig (c : RiskEngineConfig) : res RiskEngineConfig :=
  raise_if (str_empty (rc_version c)) Q1RiskError "Risk config version is required";;
  raise_if (rc_annualization_sessions c <=? d0)%dec Q1RiskError "Annualization sessions must be positive";;
  raise_if ((rc_soft_sigma_multiple c <? d0)%dec || (rc_hard_sigma_multiple c <? d0)%dec)
    Q1RiskError "Sigma multiples cannot be negative";;
  raise_if (existsb (λ v, (v <? d0)%dec || (d1 <? v)%dec) (rc_fractions c))
    Q1RiskError "Risk fractions must be within [0, 1]";;
  raise_if (rc_soft_daily_ceiling c <? rc_soft_daily_floor c)%dec
    Q1RiskError "Soft daily threshold bounds are inverted";;
  raise_if (rc_hard_daily_ceiling c <? rc_hard_daily_floor c)%dec
    Q1RiskError "Hard daily threshold bounds are inverted";;
  raise_if (rc_hard_drawdown_threshold c <=? rc_soft_drawdown_threshold c)%dec
    Q1RiskError "Soft drawdown must be below hard drawdown";;
  raise_if (rc_critical_drawdown_threshold c <=? rc_hard_drawdown_threshold c)%dec
    Q1RiskError "Hard drawdown must be below critical drawdown";;
  raise_if (rc_release_consecutive_valid_checks c <=? 0) Q1RiskError "Release check count must be positive";;
  raise_if (rc_quantity_precision c <=? d0)%dec Q1RiskError "Quantity precision must be positive";;
  Ok c.

Record RiskQuote := { qt_symbol : string; qt_quote_id : string; qt_midpoint : dec }.

Definition validate_RiskQuote (q : RiskQuote) : res RiskQuote :=
  raise_if (str_empty (qt_symbol q) || str_empty (qt_quote_id q)) Q1RiskError "Risk quote identity is required";;
  raise_if (qt_midpoint q <=? d0)%dec Q1RiskError "Risk quote midpoint must be positive";;
  Ok q.

Record RiskCheckInput := {
  ck_arm_id : Q1ArmId;
  ck_calendar_session_id : string;
  ck_scheduled_at : datetime;
  ck_decision_created_at : datetime;
  ck_positions : pydict dec;
  ck_settled_cash_usd : dec;
  ck_unsettled_receivables_usd : dec;
  ck_quotes : pydict RiskQuote;
  ck_session_open_nav_usd : dec;
  ck_running_peak_nav_usd : dec;
  ck_portfolio_annualized_vol : option dec;
  ck_reconciliation_ok : bool;
  ck_critical_reconciliation_condition : bool;
  ck_reconciliation_status : string;
}.

Definition validate_RiskCheckInput (c : RiskCheckInput) : res RiskCheckInput :=
  require_aware_utc (ck_scheduled_at c);;
  require_aware_utc (ck_decision_created_at c);;
  raise_if (str_empty (ck_calendar_session_id c)) Q1RiskError "Calendar-session ID is required";;
  raise_if (dt_lt (ck_decision_created_at c) (ck_scheduled_at c))
    Q1RiskError "Risk decision cannot be created before scheduled_at";;
  raise_if ((ck_settled_cash_usd c <? d0)%dec || (ck_unsettled_receivables_usd c <? d0)%dec)
    Q1RiskError "Cash balances cannot be negative";;
  raise_if ((ck_session_open_nav_usd c <=? d0)%dec || (ck_running_peak_nav_usd c <=? d0)%dec)
    Q1RiskError "Session-open and running-peak NAV must be positive";;
  raise_if (negb (opt_holds (λ v, negb (v <? d0)%dec) (ck_portfolio_annualized_vol c)))
    Q1RiskError "Portfolio volatility cannot be negative";;
  raise_if (existsb (λ kv, (kv.2 <? d0)%dec) (ck_positions c)) Q1RiskError "Q1 risk engine prohibits short positions";;
  raise_if (str_empty (ck_reconciliation_status c)) Q1RiskError "Reconciliation status is required";;
  raise_if (negb (Bool.eqb (ck_reconciliation_ok c) (String.eqb (ck_reconciliation_status c) "OK")))
    Q1RiskError "Reconciliation status and ok flag are inconsistent";;
  Ok c.

Record RiskMetrics := {
  mx_current_nav_usd : dec;
  mx_daily_loss : dec;
  mx_run_drawdown : dec;
  mx_daily_sigma : option dec;
  mx_soft_daily_threshold : dec;
  mx_hard_daily_threshold : dec;
  mx_indicated_severity : RiskSeverity;
}.

Record RiskEpisodeProvenance := {
  rp_run_id : string;
  rp_config_manifest_hash : string;
  rp_code_version : string;
  rp_model_version : string;
  rp_source_manifest_hash : string;
  rp_worker_fence_token : string;
  rp_cycle_attempt_count : Z;
}.

Definition validate_RiskEpisodeProvenance (p : RiskEpisodeProvenance) : res RiskEpisodeProvenance :=
  raise_if (any_empty [rp_run_id p; rp_config_manifest_hash p; rp_code_version p; rp_model_version p;
                       rp_source_manifest_hash p; rp_worker_fence_token p])
    Q1RiskError "Complete risk-episode provenance is required";;
  raise_if (rp_cycle_attempt_count p <=? 0) Q1RiskError "Cycle attempt count must be positive";;
  Ok p.

Definition risk_versioned (p : RiskEpisodeProvenance) : VersionedQ1Record := {|
  algorithm_version := Q1_ALGORITHM_VERSION;
  config_manifest_hash := rp_config_manifest_hash p;
  code_version := rp_code_version p;
  model_version := rp_model_version p;
  source_manifest_hash := rp_source_manifest_hash p |}.

Record RiskTransition := {
  tr_effective_severity : RiskSeverity;
  tr_block_new_buys : bool;
  tr_cancel_pending_buys : bool;
  tr_active_episode : option RiskEpisode;
  tr_new_episode : option RiskEpisode;
  tr_new_events : list RiskEpisodeEvent;
  tr_executable_residual_targets : list RiskTarget;
  tr_required_quote_symbols : gset string;
  tr_release_allows_automatic_buys : bool;
}.

(** ** Loss metrics *)

Definition _severity_rank (s : RiskSeverity) : Z :=
  match s with NORMAL => 0 | SOFT_STOP => 1 | HARD_REDUCE => 2 | CRITICAL_EXIT => 3 end.

(** [max(a, b, key=_severity_rank)]: the first of the maximal arguments. *)
Definition max_severity (a b : RiskSeverity) : RiskSeverity :=
  if _severity_rank a <? _severity_rank b then b else a.

Definition _clip (value lower upper : dec) : dec := dmin upper (dmax lower value).

Definition _floor_quantity (value precision : dec) : res dec := dquantize value precision ROUND_DOWN.

(** [{symbol: quantity for ... if quantity > 0}] *)
Definition positive_positions (positions : pydict dec) : pydict dec :=
  List.filter (λ kv, (d0 <? kv.2)%dec) positions.

(** [quantity * quotes[symbol].midpoint] *)
Definition marked_value (quotes : pydict RiskQuote) (kv : string * dec) : res dec :=
  quote ← dindex kv.1 quotes;
  Ok (kv.2 * qt_midpoint quote)%dec.

Definition evaluate_risk_check (check : RiskCheckInput) (config : RiskEngineConfig) : res RiskMetrics :=
  raise_if (existsb (λ kv, negb (dmem kv.1 (ck_quotes check))) (positive_positions (ck_positions check)))
    Q1RiskError "Fresh quotes missing for held risk assets";;
  values ← mapM_res (marked_value (ck_quotes check)) (positive_positions (ck_positions check));
  let current_nav := (ck_settled_cash_usd check + ck_unsettled_receivables_usd check + dsum values)%dec in
  raise_if (current_nav <=? d0)%dec Q1RiskError "Current NAV must be positive";;
  day ← ddiv (ck_session_open_nav_usd check - current_nav)%dec (ck_session_open_nav_usd check);
  let daily_loss := dmax d0 day in
  let effective_peak := dmax (ck_running_peak_nav_usd check) current_nav in
  fall ← ddiv (effective_peak - current_nav)%dec effective_peak;
  let run_drawdown := dmax d0 fall in
  daily_sigma ← (match ck_portfolio_annualized_vol check with
    | None => Ok None
    | Some vol => root ← dsqrt (rc_annualization_sessions config); s ← ddiv vol root; Ok (Some s)
    end);
  let sigma_for_threshold := match daily_sigma with Some s => if (s =? d0)%dec then d0 else s | None => d0 end in
  let soft_daily := _clip (rc_soft_sigma_multiple config * sigma_for_threshold)%dec
                      (rc_soft_daily_floor config) (rc_soft_daily_ceiling config) in
  let hard_daily := _clip (rc_hard_sigma_multiple config * sigma_for_threshold)%dec
                      (rc_hard_daily_floor config) (rc_hard_daily_ceiling config) in
  let severity :=
    if (rc_critical_drawdown_threshold config <=? run_drawdown)%dec || ck_critical_reconciliation_condition check
    then CRITICAL_EXIT
    else if (hard_daily <=? daily_loss)%dec || (rc_hard_drawdown_threshold config <=? run_drawdown)%dec
    then HARD_REDUCE
    else if (soft_daily <=? daily_loss)%dec || (rc_soft_drawdown_threshold config <=? run_drawdown)%dec
    then SOFT_STOP
    else NORMAL in
  Ok {| mx_current_nav_usd := current_nav; mx_daily_loss := daily_loss; mx_run_drawdown := run_drawdown;
        mx_daily_sigma := daily_sigma; mx_soft_daily_threshold := soft_daily;
        mx_hard_daily_threshold := hard_daily; mx_indicated_severity := severity |}.

(** ** Episode event streams *)

Definition by_sequence (events : list RiskEpisodeEvent) : list RiskEpisodeEvent := sorted (seq_le re_event_sequence) events.

(** One iteration of the loop of [_validate_episode_event_stream]; the state is
    [(released, severity, generation)]. *)
Definition stream_step (st : bool * RiskSeverity * Z) (event : RiskEpisodeEvent) : res (bool * RiskSeverity * Z) :=
  let '(released, severity, generation) := st in
  raise_if released Q1RiskError "No risk episode event may follow RELEASE";;
  raise_if (_severity_rank (re_severity event) <? _severity_rank severity)
    Q1RiskError "Risk episode cannot silently downgrade";;
  match re_event_type event with
  | ESCALATE =>
      raise_if (negb (bool_decide (severity = HARD_REDUCE))) Q1RiskError "Only HARD_REDUCE may escalate";;
      raise_if (negb (bool_decide (re_severity event = CRITICAL_EXIT)))
        Q1RiskError "Only CRITICAL_EXIT escalation is permitted";;
      raise_if (negb (re_target_generation event =? generation + 1))
        Q1RiskError "Escalation must advance target generation by one";;
      Ok (released, re_severity event, re_target_generation event)
  | ACTIVATE =>
      raise_if (negb (re_event_sequence event =? 1) || negb (re_target_generation event =? 1))
        Q1RiskError "Activation must create target generation one";;
      Ok st
  | t =>
      raise_if (negb (re_target_generation event =? generation))
        Q1RiskError "Only escalation may change target generation";;
      Ok (match t with RELEASE => true | _ => released end, severity, generation)
  end.

Definition _validate_episode_event_stream (episode : RiskEpisode) (events : list RiskEpisodeEvent) : res () :=
  raise_if (existsb (λ e, negb (String.eqb (re_risk_episode_id e) (ep_risk_episode_id episode))) events)
    Q1RiskError "Risk episode event references another episode";;
  raise_if (has_dup (map re_risk_episode_event_id events) || has_dup (map re_idempotency_key events))
    Q1RiskError "Duplicate risk episode event";;
  raise_if (negb (contiguous re_event_sequence 1 (by_sequence events)))
    Q1RiskError "Risk episode event sequence must be contiguous";;
  _ ← foldM stream_step (false, ep_severity episode, 1) (by_sequence events);
  Ok ().

Definition _episode_targets (episode : RiskEpisode) (events : list RiskEpisodeEvent) : res (list RiskTarget) :=
  let targets := fold_left (λ targets event,
    match re_event_type event with ACTIVATE | ESCALATE => re_targets event | _ => targets end)
    (by_sequence events) (ep_targets episode) in
  raise_if (bool_decide (targets = [])) Q1RiskError "Active risk episode cannot have empty targets";;
  Ok targets.

Definition _episode_target_generation (episode : RiskEpisode) (events : list RiskEpisodeEvent) : Z :=
  fold_left (λ _ event, re_target_generation event) (by_sequence events) 1.

(** The fold of [_episode_severity] over [(severity, released)]. *)
Definition severity_step (st : RiskSeverity * bool) (event : RiskEpisodeEvent) : RiskSeverity * bool :=
  match re_event_type event with
  | ESCALATE => (max_severity st.1 (re_severity event), st.2)
  | RELEASE => (st.1, true)
  | _ => st
  end.

Definition _episode_severity (episode : option RiskEpisode) (events : list RiskEpisodeEvent) : RiskSeverity :=
  match episode with
  | None => NORMAL
  | Some episode =>
      let '(severity, released) := fold_left severity_step (by_sequence events) (ep_severity episode, false) in
      if released then NORMAL else severity
  end.

Definition _latest_observed_quantities (events : list RiskEpisodeEvent) : pydict dec :=
  fold_left (λ result event,
    match re_target_symbol event, re_observed_quantity event with
    | Some symbol, Some quantity => dset symbol quantity result
    | _, _ => result
    end) (by_sequence events) [].

(** [positions.get(symbol, Decimal("0"))] *)
Definition held_quantity (positions : pydict dec) (symbol : string) : dec :=
  match dget symbol positions with Some q => q | None => d0 end.

Definition is_residual (positions : pydict dec) (target : RiskTarget) : bool :=
  (rt_target_quantity target <? held_quantity positions (rt_symbol target))%dec.

Definition residual_targets (targets : list RiskTarget) (positions : pydict dec) : list RiskTarget :=
  List.filter (is_residual positions) targets.

Definition required_residual_quote_symbols (targets : list RiskTarget) (positions : pydict dec) : gset string :=
  list_to_set (map rt_symbol (List.filter (is_residual positions) targets)).

Definition current_episode_targets (episode : RiskEpisode) (events : list RiskEpisodeEvent) : res (list RiskTarget) :=
  _validate_episode_event_stream episode events;;
  _episode_targets episode events.

Definition _can_release (check : RiskCheckInput) (metrics : RiskMetrics) (config : RiskEngineConfig)
    (active_episode : RiskEpisode) (is_next_session_strategic_cycle : bool)
    (consecutive_valid_release_checks : Z) : bool :=
  if String.eqb (ck_calendar_session_id check) (ep_calendar_session_id active_episode) then false
  else
    is_next_session_strategic_cycle
    && ck_reconciliation_ok check
    && negb (ck_critical_reconciliation_condition check)
    && (rc_release_consecutive_valid_checks config <=? consecutive_valid_release_checks)
    && (mx_daily_loss metrics <? rc_release_daily_loss_soft_fraction config * mx_soft_daily_threshold metrics)%dec
    && (mx_run_drawdown metrics <? rc_release_drawdown_threshold config)%dec.

(** ** Reduction targets *)

(** [symbol in {"QQQ", "SOXX"}] *)
Definition q1_core_symbol (symbol : string) : bool := String.eqb symbol "QQQ" || String.eqb symbol "SOXX".

Definition _q1_hard_targets (positions : pydict dec) (quotes : pydict RiskQuote) (nav : dec)
    (config : RiskEngineConfig) : res (pydict dec) :=
  let eligible := List.filter (λ kv, q1_core_symbol kv.1) positions in
  if bool_decide (eligible = []) then Ok []
  else
    values ← mapM_res (λ kv, v ← marked_value quotes kv; Ok (kv.1, v)) eligible;
    let values := match dget "SOXX" values with
                  | Some v => dset "SOXX" (dmin v (nav * rc_q1_hard_soxx_weight_cap config)%dec) values
                  | None => values
                  end in
    let gross := dsum values.*2 in
    let gross_cap := (nav * rc_q1_hard_gross_cap config)%dec in
    values ← (if (gross_cap <? gross)%dec then
                scale ← ddiv gross_cap gross;
                Ok (map (λ kv, (kv.1, kv.2 * scale)%dec) values)
              else Ok values);
    mapM_res (λ kv,
      quote ← dindex kv.1 quotes;
      q ← ddiv kv.2 (qt_midpoint quote);
      q ← _floor_quantity q (rc_quantity_precision config);
      Ok (kv.1, q)) (sorted_items values).

Definition str_mem (s : string) (l : list string) : bool := existsb (String.eqb s) l.

Definition _live_mirror_hard_targets (positions : pydict dec) (quotes : pydict RiskQuote) (nav : dec)
    (config : RiskEngineConfig) : res (pydict dec) :=
  let targets := map (λ kv, (kv.1, d0))
    (List.filter (λ kv, (d0 <? kv.2)%dec && str_mem kv.1 (rc_leveraged_symbols config)) positions) in
  let semiconductors := List.filter (λ kv, (d0 <? kv.2)%dec && str_mem kv.1 (rc_semiconductor_symbols config)
    && negb (str_mem kv.1 (rc_leveraged_symbols config))) positions in
  values ← mapM_res (marked_value quotes) semiconductors;
  let semiconductor_value := dsum values in
  let cap := (nav * rc_live_mirror_semiconductor_weight_cap config)%dec in
  scale ← (if (semiconductor_value <=? cap)%dec then Ok d1 else ddiv cap semiconductor_value);
  foldM (λ targets kv,
    q ← _floor_quantity (kv.2 * scale)%dec (rc_quantity_precision config);
    Ok (dset kv.1 q targets)) targets semiconductors.

Section identified.
Context `{Digest}.

Definition provenance_free_target_identity (arm_id : Q1ArmId) (symbol : string) (target_quantity : dec)
    (quote_id : string) (triggered_at : datetime) (target_generation : Z) : pyval :=
  PDict [("arm_id", PStr (Q1ArmId_value arm_id)); ("symbol", PStr symbol);
         ("target_quantity", PDecimal target_quantity); ("quote_id", PStr quote_id);
         ("triggered_at", PDatetime triggered_at); ("target_generation", PInt target_generation)].

(** One [RiskTarget] of the loop of [_build_targets]. *)
Definition build_target (check : RiskCheckInput) (metrics : RiskMetrics) (positive : pydict dec)
    (target_generation : Z) (kv : string * dec) : res RiskTarget :=
  let '(symbol, quantity) := kv in
  match dget symbol (ck_quotes check) with
  | None => raise Q1RiskError (String.append "Trigger quote missing for target symbol " symbol)
  | Some quote =>
      target_id ← stable_id "q1-risk-target"
        [provenance_free_target_identity (ck_arm_id check) symbol quantity (qt_quote_id quote)
           (ck_scheduled_at check) target_generation];
      trigger_quantity ← dindex symbol positive;
      weight ← ddiv (quantity * qt_midpoint quote)%dec (mx_current_nav_usd metrics);
      validate_RiskTarget {|
        rt_symbol := symbol;
        rt_target_quantity := quantity;
        rt_trigger_quote_id := qt_quote_id quote;
        rt_target_generation := target_generation;
        rt_target_id := Some target_id;
        rt_trigger_quantity := Some trigger_quantity;
        rt_trigger_price := Some (qt_midpoint quote);
        rt_target_weight := Some weight |}
  end.

Definition _build_targets (check : RiskCheckInput) (metrics : RiskMetrics) (severity : RiskSeverity)
    (config : RiskEngineConfig) (target_generation : Z) : res (list RiskTarget) :=
  let positive := positive_positions (ck_positions check) in
  if bool_decide (positive = []) then Ok []
  else
    quantities ← (match severity with
      | CRITICAL_EXIT => Ok (map (λ kv, (kv.1, d0)) positive)
      | _ =>
        match ck_arm_id check with
        | Q1_DET | Q1_LLM => _q1_hard_targets positive (ck_quotes check) (mx_current_nav_usd metrics) config
        | LIVE_MIRROR => _live_mirror_hard_targets positive (ck_quotes check) (mx_current_nav_usd metrics) config
        | _ => raise Q1RiskError "Deterministic loss overlay is not permitted"
        end
      end);
    mapM_res (build_target check metrics positive target_generation) (sorted_items quantities).

(** [model_dump] of a target. *)
Definition opt_decimal (o : option dec) : pyval := match o with Some d => PDecimal d | None => PNone end.
Definition opt_str (o : option string) : pyval := match o with Some s => PStr s | None => PNone end.
Definition target_data (t : RiskTarget) : pyval :=
  PDict [("symbol", PStr (rt_symbol t)); ("target_quantity", PDecimal (rt_target_quantity t));
         ("trigger_quote_id", PStr (rt_trigger_quote_id t)); ("target_generation", PInt (rt_target_generation t));
         ("target_id", opt_str (rt_target_id t)); ("trigger_quantity", opt_decimal (rt_trigger_quantity t));
         ("trigger_price", opt_decimal (rt_trigger_price t)); ("target_weight", opt_decimal (rt_target_weight t))].
Definition targets_data (l : list RiskTarget) : pyval := PList (map target_data l).

Definition _create_episode (check : RiskCheckInput) (metrics : RiskMetrics) (severity : RiskSeverity)
    (targets : list RiskTarget) (provenance : RiskEpisodeProvenance) : res RiskEpisode :=
  raise_if (bool_decide (targets = [])) Q1RiskError "Empty targets cannot activate a typed risk episode";;
  target_manifest_hash ← canonical_hash (targets_data targets);
  let identity :=
    [("run_id", PStr (rp_run_id provenance)); ("arm_id", PStr (Q1ArmId_value (ck_arm_id check)));
     ("calendar_session_id", PStr (ck_calendar_session_id check));
     ("severity", PStr (RiskSeverity_value severity)); ("triggered_at", PDatetime (ck_scheduled_at check));
     ("target_manifest_hash", PStr target_manifest_hash)] in
  episode_id ← stable_id "q1-risk-episode" [PDict identity];
  episode_hash ← canonical_hash (PDict (identity ++
    [("trigger_nav_usd", PDecimal (mx_current_nav_usd metrics)); ("daily_loss", PDecimal (mx_daily_loss metrics));
     ("run_drawdown", PDecimal (mx_run_drawdown metrics));
     ("config_manifest_hash", PStr (rp_config_manifest_hash provenance));
     ("code_version", PStr (rp_code_version provenance)); ("model_version", PStr (rp_model_version provenance));
     ("source_manifest_hash", PStr (rp_source_manifest_hash provenance))]));
  validate_RiskEpisode {|
    ep_risk_episode_id := episode_id;
    ep_run_id := rp_run_id provenance;
    ep_arm_id := ck_arm_id check;
    ep_severity := severity;
    ep_calendar_session_id := ck_calendar_session_id check;
    ep_triggered_at := ck_scheduled_at check;
    ep_trigger_nav_usd := mx_current_nav_usd metrics;
    ep_session_open_nav_usd := ck_session_open_nav_usd check;
    ep_running_peak_nav_usd := ck_running_peak_nav_usd check;
    ep_daily_loss := mx_daily_loss metrics;
    ep_run_drawdown := mx_run_drawdown metrics;
    ep_portfolio_annualized_vol := ck_portfolio_annualized_vol check;
    ep_soft_daily_threshold := mx_soft_daily_threshold metrics;
    ep_hard_daily_threshold := mx_hard_daily_threshold metrics;
    ep_reconciliation_status := ck_reconciliation_status check;
    ep_targets := targets;
    ep_target_manifest_hash := target_manifest_hash;
    ep_episode_hash := episode_hash;
    ep_created_at := ck_decision_created_at check;
    ep_versioned := risk_versioned provenance |}.

(** The keyword arguments of [_episode_event] that have defaults. *)
Record EventDetail := {
  ed_target_symbol : option string;
  ed_observed_quantity : option dec;
  ed_residual_quantity : option dec;
  ed_consecutive_valid_checks : Z;
}.
Definition no_detail : EventDetail :=
  {| ed_target_symbol := None; ed_observed_quantity := None; ed_residual_quantity := None; ed_consecutive_valid_checks := 0 |}.

Definition _episode_event (episode : RiskEpisode) (existing_events : list RiskEpisodeEvent)
    (event_type : RiskEpisodeEventType) (severity : RiskSeverity) (targets : list RiskTarget)
    (check : RiskCheckInput) (provenance : RiskEpisodeProvenance) (source_cycle_id : option string)
    (detail : EventDetail) : res RiskEpisodeEvent :=
  _validate_episode_event_stream episode existing_events;;
  let sequence := Z.of_nat (length existing_events) + 1 in
  let target_generation := match targets with
    | t :: _ => rt_target_generation t
    | [] => _episode_target_generation episode existing_events
    end in
  raise_if (existsb (λ t, negb (rt_target_generation t =? target_generation)) targets)
    Q1RiskError "Risk event targets must use one target generation";;
  let identity :=
    [("risk_episode_id", PStr (ep_risk_episode_id episode));
     ("event_type", PStr (RiskEpisodeEventType_value event_type)); ("event_sequence", PInt sequence);
     ("severity", PStr (RiskSeverity_value severity)); ("target_generation", PInt target_generation);
     ("targets", targets_data targets); ("target_symbol", opt_str (ed_target_symbol detail));
     ("observed_quantity", opt_decimal (ed_observed_quantity detail));
     ("residual_quantity", opt_decimal (ed_residual_quantity detail));
     ("occurred_at", PDatetime (ck_scheduled_at check)); ("source_cycle_id", opt_str source_cycle_id)] in
  event_id ← stable_id "q1-risk-episode-event" [PDict identity];
  idempotency_key ← stable_id "q1-risk-event-idem" [PStr event_id];
  event_hash ← canonical_hash (PDict (identity ++
    [("config_manifest_hash", PStr (rp_config_manifest_hash provenance));
     ("code_version", PStr (rp_code_version provenance)); ("model_version", PStr (rp_model_version provenance));
     ("source_manifest_hash", PStr (rp_source_manifest_hash provenance))]));
  validate_RiskEpisodeEvent {|
    re_risk_episode_event_id := event_id;
    re_risk_episode_id := ep_risk_episode_id episode;
    re_event_type := event_type;
    re_event_sequence := sequence;
    re_severity := severity;
    re_target_generation := target_generation;
    re_occurred_at := ck_scheduled_at check;
    re_available_at := ck_decision_created_at check;
    re_targets := targets;
    re_target_symbol := ed_target_symbol detail;
    re_observed_quantity := ed_observed_quantity detail;
    re_residual_quantity := ed_residual_quantity detail;
    re_consecutive_valid_checks := ed_consecutive_valid_checks detail;
    re_source_cycle_id := source_cycle_id;
    re_worker_fence_token := rp_worker_fence_token provenance;
    re_cycle_attempt_count := rp_cycle_attempt_count provenance;
    re_idempotency_key := idempotency_key;
    re_event_hash := event_hash;
    re_versioned := risk_versioned provenance |}.

(** ** Planning a transition *)

(** Activation and escalation: [(effective, episode, new_episode, new_events)] before the
    release test of [plan_risk_transition]. *)
Definition plan_activation (check : RiskCheckInput) (metrics : RiskMetrics) (config : RiskEngineConfig)
    (provenance : RiskEpisodeProvenance) (active_episode : option RiskEpisode) (events : list RiskEpisodeEvent)
    (source_cycle_id : option string)
  : res (RiskSeverity * option RiskEpisode * option RiskEpisode * list RiskEpisodeEvent) :=
  let active_severity := _episode_severity active_episode events in
  let indicated := mx_indicated_severity metrics in
  let effective := max_severity active_severity indicated in
  match active_episode with
  | None =>
      match indicated with
      | HARD_REDUCE | CRITICAL_EXIT =>
          targets ← _build_targets check metrics indicated config 1;
          (if bool_decide (targets = []) then Ok (indicated, None, None, [])
           else
             new_episode ← _create_episode check metrics indicated targets provenance;
             event ← _episode_event new_episode [] ACTIVATE indicated targets check provenance source_cycle_id no_detail;
             Ok (effective, Some new_episode, Some new_episode, [event]))
      | _ => Ok (effective, None, None, [])
      end
  | Some episode =>
      match active_severity, indicated with
      | HARD_REDUCE, CRITICAL_EXIT =>
          targets ← _build_targets check metrics CRITICAL_EXIT config (_episode_target_generation episode events + 1);
          new_events ← (if bool_decide (targets = []) then Ok []
                        else
                          event ← _episode_event episode events ESCALATE CRITICAL_EXIT targets check provenance source_cycle_id no_detail;
                          Ok [event]);
          Ok (CRITICAL_EXIT, Some episode, None, new_events)
      | _, _ => Ok (effective, Some episode, None, [])
      end
  end.

Definition plan_risk_transition (check : RiskCheckInput) (metrics : RiskMetrics) (config : RiskEngineConfig)
    (provenance : RiskEpisodeProvenance) (active_episode : option RiskEpisode)
    (existing_episode_events : list RiskEpisodeEvent) (is_next_session_strategic_cycle : bool)
    (consecutive_valid_release_checks : Z) (source_cycle_id : option string) : res RiskTransition :=
  let events := existing_episode_events in
  (match active_episode with Some episode => _validate_episode_event_stream episode events | None => Ok () end);;
  planned ← plan_activation check metrics config provenance active_episode events source_cycle_id;
  let '(effective, episode, new_episode, new_events) := planned in
  result ← (match episode with
    | Some ep =>
        current_targets ← _episode_targets ep (events ++ new_events);
        let residual := residual_targets current_targets (ck_positions check) in
        let required := required_residual_quote_symbols current_targets (ck_positions check) in
        (if _can_release check metrics config ep is_next_session_strategic_cycle consecutive_valid_release_checks then
           release_event ← _episode_event ep (events ++ new_events) RELEASE
             (_episode_severity (Some ep) (events ++ new_events)) [] check provenance source_cycle_id
             {| ed_target_symbol := None; ed_observed_quantity := None; ed_residual_quantity := None;
                ed_consecutive_valid_checks := consecutive_valid_release_checks |};
           Ok (NORMAL, None, new_events ++ [release_event], [], ∅)
         else Ok (effective, Some ep, new_events, residual, required))
    | None => Ok (effective, None, new_events, [], ∅)
    end);
  let '(effective, episode, new_events, residual, required) := result in
  Ok {| tr_effective_severity := effective;
        tr_block_new_buys := negb (bool_decide (effective = NORMAL));
        tr_cancel_pending_buys := negb (bool_decide (effective = NORMAL));
        tr_active_episode := episode;
        tr_new_episode := new_episode;
        tr_new_events := new_events;
        tr_executable_residual_targets := residual;
        tr_required_quote_symbols := required;
        tr_release_allows_automatic_buys := false |}.

(** The event for one target of [target_progress_events]. *)
Definition progress_event (episode : RiskEpisode) (materialized : list RiskEpisodeEvent) (check : RiskCheckInput)
    (provenance : RiskEpisodeProvenance) (source_cycle_id : option string) (positions : pydict dec)
    (result : list RiskEpisodeEvent) (target : RiskTarget) : res RiskEpisodeEvent :=
  let observed := held_quantity positions (rt_symbol target) in
  let residual := dmax d0 (observed - rt_target_quantity target)%dec in
  let event_type := if (residual =? d0)%dec then TARGET_REACHED else TARGET_PROGRESS in
  _episode_event episode (materialized ++ result) event_type (_episode_severity (Some episode) materialized) []
    check provenance source_cycle_id
    {| ed_target_symbol := Some (rt_symbol target); ed_observed_quantity := Some observed;
       ed_residual_quantity := Some residual; ed_consecutive_valid_checks := 0 |}.

Definition target_progress_events (episode : RiskEpisode) (existing_events : list RiskEpisodeEvent)
    (positions : pydict dec) (check : RiskCheckInput) (provenance : RiskEpisodeProvenance)
    (source_cycle_id : option string) : res (list RiskEpisodeEvent) :=
  let materialized := existing_events in
  _validate_episode_event_stream episode materialized;;
  targets ← _episode_targets episode materialized;
  let latest_observed := _latest_observed_quantities materialized in
  foldM (λ result target,
    if match dget (rt_symbol target) latest_observed with
       | Some q => (q =? held_quantity positions (rt_symbol target))%dec
       | None => false
       end
    then Ok result
    else
      event ← progress_event episode materialized check provenance source_cycle_id positions result target;
      Ok (result ++ [event])) [] targets.
End identified.
Arguments stream_step : simpl never.
Arguments _validate_episode_event_stream : simpl never.
Arguments _episode_event : simpl never.
Arguments build_target : simpl never.

(** ** Loss metrics: bounds and completeness of the triggers *)

Lemma clip_bounds v lo hi :
  (dval lo <= dval hi)%Q → (dval lo <= dval (_clip v lo hi) <= dval hi)%Q.
Proof.
  intros H. unfold _clip. pose proof (dmin_spec hi (dmax lo v)). pose proof (dmax_spec lo v).
  intuition lra.
Qed.

Lemma clip_repr v lo hi : drepr v → drepr lo → drepr hi → drepr (_clip v lo hi).
Proof. unfold _clip, dmin, dmax. intros. repeat case_match; done. Qed.

(** What a successful evaluation computed. *)
Lemma evaluate_inv check config m :
  evaluate_risk_check check config = Ok m →
  ∃ day fall sigma,
    let nav := mx_current_nav_usd m in
    let peak := dmax (ck_running_peak_nav_usd check) nav in
    (0 < dval nav)%Q ∧
    ddiv (ck_session_open_nav_usd check - nav)%dec (ck_session_open_nav_usd check) = Ok day ∧ mx_daily_loss m = dmax d0 day ∧
    ddiv (peak - nav)%dec peak = Ok fall ∧ mx_run_drawdown m = dmax d0 fall ∧
    mx_soft_daily_threshold m = _clip (rc_soft_sigma_multiple config * sigma)%dec (rc_soft_daily_floor config) (rc_soft_daily_ceiling config) ∧
    mx_hard_daily_threshold m = _clip (rc_hard_sigma_multiple config * sigma)%dec (rc_hard_daily_floor config) (rc_hard_daily_ceiling config) ∧
    mx_indicated_severity m =
      (if (rc_critical_drawdown_threshold config <=? mx_run_drawdown m)%dec || ck_critical_reconciliation_condition check
       then CRITICAL_EXIT
       else if (mx_hard_daily_threshold m <=? mx_daily_loss m)%dec || (rc_hard_drawdown_threshold config <=? mx_run_drawdown m)%dec
       then HARD_REDUCE
       else if (mx_soft_daily_threshold m <=? mx_daily_loss m)%dec || (rc_soft_drawdown_threshold config <=? mx_run_drawdown m)%dec
       then SOFT_STOP
       else NORMAL).
Proof.
  unfold evaluate_risk_check. intros H. apply bind_Ok_inv in H as (? & _ & H). apply bind_Ok_inv in H as (vs & _ & H).
  cbv zeta in H. apply bind_Ok_inv in H as (? & Hn & H). apply bind_Ok_inv in H as (day & Hd & H).
  apply bind_Ok_inv in H as (fall & Hf & H). apply bind_Ok_inv in H as (sg & _ & H). apply mret_Ok_inv in H as <-.
  apply raise_if_Ok_inv in Hn. dec_to_Q.
  exists day, fall, (match sg with Some s => if (s =? d0)%dec then d0 else s | None => d0 end).
  cbn [mx_current_nav_usd mx_daily_loss mx_run_drawdown mx_soft_daily_threshold mx_hard_daily_threshold mx_indicated_severity].
  cbv zeta. done.
Qed.

Lemma check_positive check :
  validate_RiskCheckInput check = Ok check →
  (0 < dval (ck_session_open_nav_usd check))%Q ∧ (0 < dval (ck_running_peak_nav_usd check))%Q.
Proof. unfold validate_RiskCheckInput. intros H. inv_ok. split_bool. dec_to_Q. done. Qed.

(** Amounts of money the comparison of two of which is exact. *)
Definition money (k : Z) (d : dec) : Prop := on_grid k d ∧ 0 <= units k d < LIMIT.

(** A relative loss that reaches a representable threshold is seen as reaching it, whatever the
    rounding of the quotient. *)
Lemma loss_reaches k base nav s d :
  money k base → money k nav → (0 < dval base)%Q → drepr s → ddiv (base - nav)%dec base = Ok d →
  (dval s * dval base <= dval base - dval nav)%Q → (dval s <= dval (dmax d0 d))%Q.
Proof.
  intros [Gb Ub] [Gn Un] Hb Hs Hd Hle.
  destruct (dsub_units k base nav Gb Gn) as [Gx Ux]; [lia|].
  assert (dval (base - nav)%dec == dval base - dval nav)%Q as Ex.
  { rewrite (units_dval k _ Gx), (units_dval k _ Gb), (units_dval k _ Gn), Ux. unfold Z.sub. rewrite inject_Z_plus, inject_Z_opp. ring. }
  destruct (ddiv_rounds PREC (base - nav)%dec base prec_pos) as (d' & Ed & Hr); [by apply dval_pos_coef|].
  change (ddiv_p PREC) with ddiv in Ed. rewrite Hd in Ed. injection Ed as <-.
  assert (dval s <= dval d)%Q as Hsd.
  { apply (rounded_ge _ _ Hr); [done|]. apply Qle_shift_div_l; [done|]. by rewrite Ex. }
  pose proof (dmax_spec d0 d) as Hm. rewrite dval_d0 in Hm. intuition lra.
Qed.

(** C23: no loss trigger is missed.  If the exact relative loss of the NAV from the session open or from
    the running peak reaches a threshold, the indicated severity is at least the one of that
    threshold, although both quotients are rounded to 28 digits. *)
Theorem no_missed_loss_trigger k check config m :
  validate_RiskCheckInput check = Ok check → evaluate_risk_check check config = Ok m →
  Forall drepr (rc_fractions config) →
  money k (ck_session_open_nav_usd check) → money k (ck_running_peak_nav_usd check) → money k (mx_current_nav_usd m) →
  let nav := dval (mx_current_nav_usd m) in
  let opening := dval (ck_session_open_nav_usd check) in
  let peak := dval (dmax (ck_running_peak_nav_usd check) (mx_current_nav_usd m)) in
  let at_least n := n <= _severity_rank (mx_indicated_severity m) in
  ((dval (rc_critical_drawdown_threshold config) * peak <= peak - nav)%Q → at_least 3) ∧
  ((dval (mx_hard_daily_threshold m) * opening <= opening - nav)%Q → at_least 2) ∧
  ((dval (rc_hard_drawdown_threshold config) * peak <= peak - nav)%Q → at_least 2) ∧
  ((dval (mx_soft_daily_threshold m) * opening <= opening - nav)%Q → at_least 1) ∧
  ((dval (rc_soft_drawdown_threshold config) * peak <= peak - nav)%Q → at_least 1).
Proof.
  intros Hck Hev Hrep Mo Mp Mn. apply check_positive in Hck as [Po Pp].
  apply evaluate_inv in Hev as (day & fall & sigma & Hnav & Hd & Ld & Hf & Lf & Ts & Th & Sev). cbv zeta.
  unfold rc_fractions in Hrep. repeat match goal with H : Forall _ (_ :: _) |- _ => apply Forall_cons in H as [? ?] end.
  set (peak := dmax (ck_running_peak_nav_usd check) (mx_current_nav_usd m)) in *.
  assert (money k peak) as Mk by (unfold peak, dmax; by destruct (dltb _ _)).
  assert (0 < dval peak)%Q as Pk
    by (pose proof (dmax_spec (ck_running_peak_nav_usd check) (mx_current_nav_usd m)); unfold peak; intuition lra).
  assert (Hday : ∀ s, drepr s → (dval s * dval (ck_session_open_nav_usd check) <= dval (ck_session_open_nav_usd check) - dval (mx_current_nav_usd m))%Q →
    (s <=? mx_daily_loss m)%dec = true) by (intros s Hs Hle; rewrite Ld; apply dleb_le; exact (loss_reaches k _ _ s day Mo Mn Po Hs Hd Hle)).
  assert (Hfall : ∀ s, drepr s → (dval s * dval peak <= dval peak - dval (mx_current_nav_usd m))%Q →
    (s <=? mx_run_drawdown m)%dec = true) by (intros s Hs Hle; rewrite Lf; apply dleb_le; exact (loss_reaches k _ _ s fall Mk Mn Pk Hs Hf Hle)).
  assert (drepr (mx_soft_daily_threshold m)) by (rewrite Ts; apply clip_repr; try done; apply dmul_rounds, prec_pos).
  assert (drepr (mx_hard_daily_threshold m)) by (rewrite Th; apply clip_repr; try done; apply dmul_rounds, prec_pos).
  rewrite Sev. split_and!; intros Hx.
  - by rewrite Hfall.
  - rewrite (Hday (mx_hard_daily_threshold m)) by done. by case_match.
  - rewrite (Hfall (rc_hard_drawdown_threshold config)) by done. rewrite orb_true_r. by case_match.
  - rewrite (Hday (mx_soft_daily_threshold m)) by done. by repeat case_match.
  - rewrite (Hfall (rc_soft_drawdown_threshold config)) by done. rewrite orb_true_r. by repeat case_match.
Qed.

(** ** Episode streams *)

Definition stream_state (episode : RiskEpisode) (events : list RiskEpisodeEvent) : res (bool * RiskSeverity * Z) :=
  foldM stream_step (false, ep_severity episode, 1) (by_sequence events).

Lemma validate_stream_iff episode events :
  _validate_episode_event_stream episode events = Ok () ↔
  Forall (λ e, re_risk_episode_id e = ep_risk_episode_id episode) events ∧
  NoDup (map re_risk_episode_event_id events) ∧ NoDup (map re_idempotency_key events) ∧
  contiguous re_event_sequence 1 (by_sequence events) = true ∧ is_ok (stream_state episode events) = true.
Proof.
  unfold _validate_episode_event_stream. fold (stream_state episode events).
  assert (existsb (λ e, negb (String.eqb (re_risk_episode_id e) (ep_risk_episode_id episode))) events = false ↔
    Forall (λ e, re_risk_episode_id e = ep_risk_episode_id episode) events) as E.
  { induction events as [|e l IH]; cbn; [done|]. rewrite orb_false_iff, negb_false_iff, String.eqb_eq, Forall_cons. tauto. }
  split.
  - intros H. apply bind_Ok_inv in H as (? & H1 & H). apply bind_Ok_inv in H as (? & H2 & H).
    apply bind_Ok_inv in H as (? & H3 & H). apply bind_Ok_inv in H as (st & H4 & _).
    apply raise_if_Ok_inv in H1, H2, H3. split_bool. rewrite <- !has_dup_false, H4. apply E in H1. done.
  - intros (H1 & H2 & H3 & H4 & H5). apply E in H1. rewrite H1, H4. apply has_dup_false in H2, H3. rewrite H2, H3. cbn.
    destruct (stream_state episode events); done.
Qed.

(** Identifiers of events are digests: a stream may collide with itself. *)
Definition colliding (events : list RiskEpisodeEvent) : Prop :=
  ¬ (NoDup (map re_risk_episode_event_id events) ∧ NoDup (map re_idempotency_key events)).

(** The rules a step obeys, as an abstract state machine over (released, severity, generation). *)
Inductive episode_step : bool * RiskSeverity * Z → RiskEpisodeEvent → bool * RiskSeverity * Z → Prop :=
  | step_activate sev gen e :
      re_event_type e = ACTIVATE → re_event_sequence e = 1 → re_target_generation e = 1 →
      _severity_rank sev <= _severity_rank (re_severity e) →
      episode_step (false, sev, gen) e (false, sev, gen)
  | step_escalate gen e :
      re_event_type e = ESCALATE → re_severity e = CRITICAL_EXIT → re_target_generation e = gen + 1 →
      episode_step (false, HARD_REDUCE, gen) e (false, CRITICAL_EXIT, gen + 1)
  | step_progress sev gen e :
      re_event_type e = TARGET_PROGRESS ∨ re_event_type e = TARGET_REACHED → re_target_generation e = gen →
      _severity_rank sev <= _severity_rank (re_severity e) →
      episode_step (false, sev, gen) e (false, sev, gen)
  | step_release sev gen e :
      re_event_type e = RELEASE → re_target_generation e = gen →
      _severity_rank sev <= _severity_rank (re_severity e) →
      episode_step (false, sev, gen) e (true, sev, gen).

Lemma stream_step_iff st e st' : stream_step st e = Ok st' ↔ episode_step st e st'.
Proof.
  destruct st as [[rel sev] gen]. unfold stream_step. split.
  - intros H. apply bind_Ok_inv in H as (? & H1 & H). apply bind_Ok_inv in H as (? & H2 & H).
    apply raise_if_Ok_inv in H1, H2. subst rel. apply Z.ltb_ge in H2.
    destruct (re_event_type e) eqn:Et; inv_ok; split_bool;
      rewrite ?Z.eqb_eq in *; subst; try (constructor; (assumption || lia || by auto)).
    rewrite E1, E0. by constructor.
  - intros Hs. inversion Hs as [? ? ? T Q G R|? ? T S G|? ? ? T G R|? ? ? T G R]; subst; cbn [raise_if mbind res_bind].
    + apply Z.ltb_ge in R. rewrite R, T, Q, G. done.
    + rewrite S, T, G, bool_decide_eq_true_2, Z.eqb_refl by done. done.
    + apply Z.ltb_ge in R. rewrite R. destruct T as [->| ->]; cbn; by rewrite Z.eqb_refl.
    + apply Z.ltb_ge in R. rewrite R, T. cbn. by rewrite Z.eqb_refl.
Qed.

Lemma max_severity_rank a b : _severity_rank (max_severity a b) = Z.max (_severity_rank a) (_severity_rank b).
Proof. by destruct a, b. Qed.

(** On a valid stream the three folds of the code and the state of the validation agree. *)
Lemma stream_state_spec episode events released sev gen :
  contiguous re_event_sequence 1 (by_sequence events) = true → stream_state episode events = Ok (released, sev, gen) →
  _episode_severity (Some episode) events = (if released then NORMAL else sev) ∧
  _episode_target_generation episode events = gen ∧
  _severity_rank (ep_severity episode) <= _severity_rank sev ∧ 1 <= gen.
Proof.
  unfold stream_state, _episode_severity, _episode_target_generation. intros Hc Hf.
  pose proof (foldM_prefix_invariant (λ pre st, fold_left severity_step pre (ep_severity episode, false) = (st.1.2, st.1.1) ∧
    fold_left (λ _ e, re_target_generation e) pre 1 = st.2 ∧ _severity_rank (ep_severity episode) <= _severity_rank st.1.2 ∧ 1 <= st.2)
    stream_step (false, ep_severity episode, 1)) as Hinv.
  destruct (Hinv ltac:(cbn; split_and!; done || lia) (by_sequence events) (released, sev, gen)) as (H1 & H2 & H3 & H4); [|exact Hf|].
  - intros pre x [[rel s] g] [[rel' s'] g'] [post Hpre] (I1 & I2 & I3 & I4) Hs%stream_step_iff. cbn in I1, I2, I3, I4 |- *.
    rewrite !fold_left_app, I1, I2. cbn [fold_left]. unfold severity_step.
    inversion Hs as [? ? ? T Q G R|? ? T S G|? ? ? T G R|? ? ? T G R]; subst.
    + rewrite T. split_and!; try done. rewrite Hpre, contiguous_app in Hc. split_bool.
      destruct pre as [|y pre]; [cbn; lia|]. exfalso. rewrite contiguous_app in H. cbn [contiguous] in H. split_bool.
      apply Z.eqb_eq in H1. cbn [length] in H1. lia.
    + rewrite T, S. split_and!; try done; [|lia]. cbn in I3 |- *. lia.
    + destruct T as [T|T]; rewrite T; split_and!; done || lia.
    + rewrite T. split_and!; done || lia.
  - cbn in H1, H2, H3, H4. rewrite H1. by destruct released.
Qed.

Lemma by_sequence_snoc episode events e :
  _validate_episode_event_stream episode events = Ok () → re_event_sequence e = Z.of_nat (length events) + 1 →
  by_sequence (events ++ [e]) = by_sequence events ++ [e] ∧ contiguous re_event_sequence 1 (by_sequence (events ++ [e])) = true.
Proof.
  intros (_ & _ & _ & Hc & _)%validate_stream_iff Hs. unfold by_sequence in *.
  destruct (sorted_snoc_next re_event_sequence events e Hc) as [E1 E2]; [lia|]. by rewrite E1.
Qed.

(** Appending a legal event of the episode with the next sequence number keeps the stream valid. *)
Lemma stream_extend episode events e st st' :
  _validate_episode_event_stream episode events = Ok () → stream_state episode events = Ok st →
  re_risk_episode_id e = ep_risk_episode_id episode → re_event_sequence e = Z.of_nat (length events) + 1 →
  episode_step st e st' →
  stream_state episode (events ++ [e]) = Ok st' ∧
  (_validate_episode_event_stream episode (events ++ [e]) = Ok () ∨ colliding (events ++ [e])).
Proof.
  intros Hv Hst Hid Hseq Hs. destruct (by_sequence_snoc _ _ _ Hv Hseq) as [E1 E2].
  assert (stream_state episode (events ++ [e]) = Ok st') as Hst'.
  { unfold stream_state in *. rewrite E1, foldM_snoc, Hst. cbn. by apply stream_step_iff. }
  split; [done|]. apply validate_stream_iff in Hv as (H1 & _).
  destruct (decide (NoDup (map re_risk_episode_event_id (events ++ [e])))) as [N1|]; [|right; by intros [? _]].
  destruct (decide (NoDup (map re_idempotency_key (events ++ [e])))) as [N2|]; [|right; by intros [_ ?]].
  left. apply validate_stream_iff. split_and!; try done; [|by rewrite Hst'].
  apply Forall_app. split; [done|]. by constructor.
Qed.

Section transitions.
Context `{Digest}.

Lemma episode_event_fields ep evs ty sev ts ck pv src det e :
  _episode_event ep evs ty sev ts ck pv src det = Ok e →
  _validate_episode_event_stream ep evs = Ok () ∧
  re_event_type e = ty ∧ re_severity e = sev ∧ re_targets e = ts ∧
  re_risk_episode_id e = ep_risk_episode_id ep ∧ re_event_sequence e = Z.of_nat (length evs) + 1 ∧
  re_target_generation e = (match ts with t :: _ => rt_target_generation t | [] => _episode_target_generation ep evs end) ∧
  re_target_symbol e = ed_target_symbol det ∧ re_observed_quantity e = ed_observed_quantity det ∧
  re_residual_quantity e = ed_residual_quantity det.
Proof.
  unfold _episode_event. intros He. apply bind_Ok_inv in He as ([] & Hv & He). apply bind_Ok_inv in He as (_ & _ & He).
  do 3 apply bind_Ok_inv in He as (? & _ & He). apply validate_RiskEpisodeEvent_id in He as ->. cbn. done.
Qed.

(** Every target built for a generation carries it. *)
Lemma build_targets_inv check m sev config gen ts :
  _build_targets check m sev config gen = Ok ts →
  Forall (λ t, rt_target_generation t = gen ∧ (0 <= dval (rt_target_quantity t))%Q ∧
    dget (rt_symbol t) (positive_positions (ck_positions check)) = rt_trigger_quantity t ∧ is_Some (rt_trigger_quantity t) ∧
    ∃ q, dget (rt_symbol t) (ck_quotes check) = Some q ∧ rt_trigger_price t = Some (qt_midpoint q)) ts.
Proof.
  unfold _build_targets. cbv zeta. case_bool_decide; [intros [= <-]; constructor|].
  intros Ht. apply bind_Ok_inv in Ht as (qs & _ & Ht). apply mapM_res_Forall2 in Ht. apply Forall_forall.
  intros t [i Hi]%list_elem_of_lookup. destruct (Forall2_lookup_r _ _ _ _ _ Ht Hi) as ([s q] & _ & Hb).
  unfold build_target in Hb. destruct (dget s (ck_quotes check)) as [quote|] eqn:Eq; [|done].
  apply bind_Ok_inv in Hb as (? & _ & Hb). apply bind_Ok_inv in Hb as (tq & Htq & Hb). apply bind_Ok_inv in Hb as (? & _ & Hb).
  pose proof (validate_RiskTarget_id _ _ Hb) as ->. cbn.
  unfold validate_RiskTarget in Hb. cbn in Hb. unfold_validator. dec_to_Q.
  unfold dindex in Htq. destruct (dget s (positive_positions _)) eqn:Ep; [|done]. injection Htq as ->.
  split_and!; eauto.
Qed.

Lemma build_targets_generation check m sev config gen t ts :
  _build_targets check m sev config gen = Ok (t :: ts) → rt_target_generation t = gen.
Proof. intros Ht%build_targets_inv. by apply Forall_cons in Ht as [[? _] _]. Qed.

(** An active, validated episode that has not been released. *)
Definition live_episode (ep : RiskEpisode) (events : list RiskEpisodeEvent) (sev : RiskSeverity) (gen : Z) : Prop :=
  _validate_episode_event_stream ep events = Ok () ∧ stream_state ep events = Ok (false, sev, gen).

Lemma live_episode_severity ep events sev gen :
  live_episode ep events sev gen →
  _episode_severity (Some ep) events = sev ∧ _episode_target_generation ep events = gen ∧
  _severity_rank (ep_severity ep) <= _severity_rank sev ∧ 1 <= gen.
Proof.
  intros [(_ & _ & _ & Hc & _)%validate_stream_iff Hs]. apply (stream_state_spec _ _ _ _ _ Hc Hs).
Qed.

(** What [_episode_event] appends to a live episode, by event type. *)
Lemma event_keeps_stream ep events sev gen ty esev ts ck pv src det e :
  live_episode ep events sev gen → _episode_event ep events ty esev ts ck pv src det = Ok e →
  (match ty with
   | ACTIVATE => events = [] ∧ _severity_rank sev <= _severity_rank esev ∧ (∃ t ts', ts = t :: ts' ∧ rt_target_generation t = 1)
   | ESCALATE => sev = HARD_REDUCE ∧ esev = CRITICAL_EXIT ∧ (∃ t ts', ts = t :: ts' ∧ rt_target_generation t = gen + 1)
   | _ => ts = [] ∧ esev = sev
   end) →
  ∃ st', stream_state ep (events ++ [e]) = Ok st' ∧
    st' = (match ty with RELEASE => (true, sev, gen) | ESCALATE => (false, CRITICAL_EXIT, gen + 1) | _ => (false, sev, gen) end) ∧
    (_validate_episode_event_stream ep (events ++ [e]) = Ok () ∨ colliding (events ++ [e])).
Proof.
  intros Hl He Hty. pose proof (live_episode_severity _ _ _ _ Hl) as (_ & Hg & _ & _). destruct Hl as [Hv Hst].
  apply episode_event_fields in He as (_ & F1 & F2 & F3 & F4 & F5 & F6 & _).
  assert (Hex : ∀ st', episode_step (false, sev, gen) e st' →
    stream_state ep (events ++ [e]) = Ok st' ∧ (_validate_episode_event_stream ep (events ++ [e]) = Ok () ∨ colliding (events ++ [e])))
    by (intros st'; by apply stream_extend).
  destruct ty.
  - destruct Hty as (-> & Hr & t & ts' & -> & Ht). edestruct Hex as [H1 H2]; [|eexists; split; [exact H1|by split]].
    apply step_activate; [done|by rewrite F5|by rewrite F6|by rewrite F2].
  - destruct Hty as (-> & -> & t & ts' & -> & Ht). edestruct Hex as [H1 H2]; [|eexists; split; [exact H1|by split]].
    apply step_escalate; [done|done|by rewrite F6].
  - destruct Hty as (-> & ->). edestruct Hex as [H1 H2]; [|eexists; split; [exact H1|by split]].
    apply step_progress; [auto|by rewrite F6|by rewrite F2].
  - destruct Hty as (-> & ->). edestruct Hex as [H1 H2]; [|eexists; split; [exact H1|by split]].
    apply step_progress; [auto|by rewrite F6|by rewrite F2].
  - destruct Hty as (-> & ->). edestruct Hex as [H1 H2]; [|eexists; split; [exact H1|by split]].
    apply step_release; [auto|by rewrite F6|by rewrite F2].
Qed.

Lemma plan_activation_live check m config pv ep events src sev gen eff epo newep nev :
  live_episode ep events sev gen →
  plan_activation check m config pv (Some ep) events src = Ok (eff, epo, newep, nev) →
  epo = Some ep ∧ newep = None ∧
  _severity_rank eff = Z.max (_severity_rank sev) (_severity_rank (mx_indicated_severity m)) ∧
  (nev = [] ∨
   ∃ e ts, nev = [e] ∧ sev = HARD_REDUCE ∧ mx_indicated_severity m = CRITICAL_EXIT ∧ re_event_type e = ESCALATE ∧
     re_targets e = ts ∧ _build_targets check m CRITICAL_EXIT config (gen + 1) = Ok ts ∧
     stream_state ep (events ++ [e]) = Ok (false, CRITICAL_EXIT, gen + 1) ∧
     (_validate_episode_event_stream ep (events ++ [e]) = Ok () ∨ colliding (events ++ [e]))).
Proof.
  intros Hl. pose proof (live_episode_severity _ _ _ _ Hl) as (Hsev & Hgen & _).
  unfold plan_activation. cbv zeta. rewrite Hsev, Hgen.
  assert (Hdef : Ok (max_severity sev (mx_indicated_severity m), Some ep, @None RiskEpisode, @nil RiskEpisodeEvent) = Ok (eff, epo, newep, nev) →
    epo = Some ep ∧ newep = None ∧ _severity_rank eff = Z.max (_severity_rank sev) (_severity_rank (mx_indicated_severity m)) ∧ nev = []).
  { intros [= <- <- <- <-]. by rewrite max_severity_rank. }
  destruct (decide (sev = HARD_REDUCE ∧ mx_indicated_severity m = CRITICAL_EXIT)) as [[-> Hi]|Hne].
  - rewrite Hi. clear Hdef. intros Hp. apply bind_Ok_inv in Hp as (ts & Hts & Hp). apply bind_Ok_inv in Hp as (nev' & Hn & [= <- <- <- <-]).
    do 3 (split; [done|]). case_bool_decide as Hc; [left; by injection Hn as <-|].
    apply bind_Ok_inv in Hn as (e & He & [= <-]). right. exists e, ts. destruct ts as [|t ts]; [done|].
    destruct (event_keeps_stream _ _ _ _ _ _ _ _ _ _ _ _ Hl He) as (st & Hst & -> & Hval).
    { do 2 (split; [done|]). exists t, ts. split; [done|]. by eapply build_targets_generation. }
    apply episode_event_fields in He as (_ & F1 & _ & F3 & _). done.
  - intros Hp. destruct Hdef as (? & ? & ? & ?); [|by split_and!; try left].
    destruct sev; try done; destruct (mx_indicated_severity m); try done. exfalso. by apply Hne.
Qed.

Lemma can_release_true check m config ep nxt n :
  _can_release check m config ep nxt n = true →
  ck_calendar_session_id check ≠ ep_calendar_session_id ep ∧ nxt = true ∧ ck_reconciliation_ok check = true ∧
  ck_critical_reconciliation_condition check = false ∧ rc_release_consecutive_valid_checks config <= n ∧
  (dval (mx_daily_loss m) < dval (rc_release_daily_loss_soft_fraction config * mx_soft_daily_threshold m)%dec)%Q ∧
  (dval (mx_run_drawdown m) < dval (rc_release_drawdown_threshold config))%Q.
Proof.
  unfold _can_release. destruct (String.eqb_spec (ck_calendar_session_id check) (ep_calendar_session_id ep)); [done|].
  intros Hr. split_bool. apply Z.leb_le in H3. dec_to_Q. done.
Qed.

(** The two outcomes of a plan for a live episode: it stays active, or it is released. *)
Lemma plan_live check m config pv ep events nxt n src sev gen tr :
  live_episode ep events sev gen →
  plan_risk_transition check m config pv (Some ep) events nxt n src = Ok tr →
  ∃ eff nev targets, plan_activation check m config pv (Some ep) events src = Ok (eff, Some ep, None, nev) ∧
  _episode_targets ep (events ++ nev) = Ok targets ∧ tr_new_episode tr = None ∧
  tr_block_new_buys tr = negb (bool_decide (tr_effective_severity tr = NORMAL)) ∧
  tr_cancel_pending_buys tr = tr_block_new_buys tr ∧
  ((tr_active_episode tr = Some ep ∧ tr_effective_severity tr = eff ∧ tr_new_events tr = nev ∧
    tr_executable_residual_targets tr = residual_targets targets (ck_positions check) ∧
    _can_release check m config ep nxt n = false) ∨
   (tr_active_episode tr = None ∧ tr_effective_severity tr = NORMAL ∧ tr_executable_residual_targets tr = [] ∧
    _can_release check m config ep nxt n = true ∧
    ∃ e, tr_new_events tr = nev ++ [e] ∧
      _episode_event ep (events ++ nev) RELEASE (_episode_severity (Some ep) (events ++ nev)) [] check pv src
        {| ed_target_symbol := None; ed_observed_quantity := None; ed_residual_quantity := None;
           ed_consecutive_valid_checks := n |} = Ok e)).
Proof.
  intros Hl Hp. unfold plan_risk_transition in Hp. cbv zeta in Hp.
  apply bind_Ok_inv in Hp as (? & _ & Hp). apply bind_Ok_inv in Hp as ([[[eff epo] newep] nev] & Ha & Hp).
  pose proof (plan_activation_live _ _ _ _ _ _ _ _ _ _ _ _ _ Hl Ha) as (-> & -> & _).
  apply bind_Ok_inv in Hp as ([[[[eff' epo'] nev'] rs] rq] & Hr & Hp). apply bind_Ok_inv in Hr as (targets & Ht & Hr).
  exists eff, nev, targets. do 2 (split; [done|]).
  injection Hp as <-. cbn. do 3 (split; [done|]).
  destruct (_can_release check m config ep nxt n) eqn:Hc.
  - apply bind_Ok_inv in Hr as (e & He & Hr). injection Hr as <- <- <- <- <-. right. split_and!; try done. by exists e.
  - injection Hr as <- <- <- <- <-. left. done.
Qed.

(** planning keeps the episode history valid.  From a live episode, the existing events extended
    with the planned ones (an escalation, a release, both or none) are again a valid stream, unless
    derived identifiers collide; the abstract state moves to CRITICAL_EXIT with the next target
    generation on escalation and to released on release. *)
Theorem plan_keeps_episode_history check m config pv ep events nxt n src sev gen tr :
  live_episode ep events sev gen →
  plan_risk_transition check m config pv (Some ep) events nxt n src = Ok tr →
  (_validate_episode_event_stream ep (events ++ tr_new_events tr) = Ok () ∨ colliding (events ++ tr_new_events tr)) ∧
  ∃ sev' gen', stream_state ep (events ++ tr_new_events tr) =
      Ok (match tr_active_episode tr with Some _ => false | None => true end, sev', gen') ∧
    (sev' = sev ∧ gen' = gen ∨
     sev = HARD_REDUCE ∧ mx_indicated_severity m = CRITICAL_EXIT ∧ sev' = CRITICAL_EXIT ∧ gen' = gen + 1).
Proof.
  intros Hl Hp. destruct (plan_live _ _ _ _ _ _ _ _ _ _ _ _ Hl Hp) as (eff & nev & ts & Ha & _ & _ & _ & _ & Hcase).
  pose proof (plan_activation_live _ _ _ _ _ _ _ _ _ _ _ _ _ Hl Ha) as (_ & _ & _ & Hnev).
  assert (∃ sev' gen', stream_state ep (events ++ nev) = Ok (false, sev', gen') ∧
    (_validate_episode_event_stream ep (events ++ nev) = Ok () ∨ colliding (events ++ nev)) ∧
    (sev' = sev ∧ gen' = gen ∨ sev = HARD_REDUCE ∧ mx_indicated_severity m = CRITICAL_EXIT ∧ sev' = CRITICAL_EXIT ∧ gen' = gen + 1))
    as (sev' & gen' & Hst & Hval & Hmove).
  { destruct Hnev as [->|(e & ts' & -> & H1 & H2 & _ & _ & _ & H3 & H4)].
    - destruct Hl as [Hv Hs]. rewrite app_nil_r. exists sev, gen. auto.
    - exists CRITICAL_EXIT, (gen + 1). auto 10. }
  destruct Hcase as [(-> & _ & -> & _)|(-> & _ & _ & _ & e & -> & He)]; [eauto|].
  pose proof (episode_event_fields _ _ _ _ _ _ _ _ _ _ He) as (Hv & _).
  assert (live_episode ep (events ++ nev) sev' gen') as Hl' by done.
  pose proof (live_episode_severity _ _ _ _ Hl') as (Hs' & _). rewrite Hs' in He.
  destruct (event_keeps_stream _ _ _ _ _ _ _ _ _ _ _ _ Hl' He) as (st & Hst' & -> & Hval'); [done|].
  rewrite app_assoc. split; [done|]. exists sev', gen'. done.
Qed.

(** severity is never lowered silently.  While the episode stays active the effective severity is the maximum
    of the episode's and the indicated one, and buys are blocked and cancelled; the only way out is a RELEASE,
    issued in another session, by a strategic cycle, after enough valid checks, with a clean
    reconciliation and losses below the release limits. *)
Theorem severity_only_lowered_by_release check m config pv ep events nxt n src sev gen tr :
  validate_RiskEpisode ep = Ok ep → live_episode ep events sev gen →
  plan_risk_transition check m config pv (Some ep) events nxt n src = Ok tr →
  (tr_active_episode tr = Some ep ∧ tr_block_new_buys tr = true ∧ tr_cancel_pending_buys tr = true ∧
   _severity_rank (tr_effective_severity tr) = Z.max (_severity_rank sev) (_severity_rank (mx_indicated_severity m))) ∨
  (tr_active_episode tr = None ∧ tr_executable_residual_targets tr = [] ∧
   (∃ e, last (tr_new_events tr) = Some e ∧ re_event_type e = RELEASE) ∧
   ck_calendar_session_id check ≠ ep_calendar_session_id ep ∧ nxt = true ∧ ck_reconciliation_ok check = true ∧
   ck_critical_reconciliation_condition check = false ∧ rc_release_consecutive_valid_checks config <= n ∧
   (dval (mx_daily_loss m) < dval (rc_release_daily_loss_soft_fraction config * mx_soft_daily_threshold m)%dec)%Q ∧
   (dval (mx_run_drawdown m) < dval (rc_release_drawdown_threshold config))%Q).
Proof.
  intros Hep Hl Hp. destruct (plan_live _ _ _ _ _ _ _ _ _ _ _ _ Hl Hp) as (eff & nev & ts & Ha & _ & _ & Hb & Hc & Hcase).
  pose proof (plan_activation_live _ _ _ _ _ _ _ _ _ _ _ _ _ Hl Ha) as (_ & _ & Hr & _).
  destruct Hcase as [(H1 & H2 & _)|(H1 & _ & H2 & Hcr & e & H3 & He)].
  - left. rewrite H2 in *. assert (2 <= _severity_rank eff) as Hge.
    { pose proof (live_episode_severity _ _ _ _ Hl) as (_ & _ & Hle & _).
      assert (2 <= _severity_rank (ep_severity ep)); [|lia].
      unfold validate_RiskEpisode in Hep. unfold_validator. by destruct (ep_severity ep). }
    assert (eff ≠ NORMAL) by (intros ->; cbn in Hge; lia). rewrite Hc, Hb, bool_decide_eq_false_2 by done. done.
  - right. apply can_release_true in Hcr. split_and!; try (done || apply Hcr).
    exists e. rewrite H3, last_snoc. split; [done|]. by apply episode_event_fields in He as (_ & -> & _).
Qed.

(** The order the shipped thresholds have. *)
Definition ordered_release (config : RiskEngineConfig) : Prop :=
  (dval (rc_release_drawdown_threshold config) <= dval (rc_soft_drawdown_threshold config))%Q.

Lemma config_fraction config d :
  validate_RiskEngineConfig config = Ok config → d ∈ rc_fractions config → (0 <= dval d <= 1)%Q.
Proof.
  unfold validate_RiskEngineConfig. intros Hv Hd. repeat (apply bind_Ok_inv in Hv as ([] & ? & Hv)).
  repeat match goal with X : raise_if _ _ _ = Ok _ |- _ => apply raise_if_Ok_inv in X end.
  match goal with X : existsb _ _ = false |- _ => rename X into Hf end.
  assert (((d <? d0) || (d1 <? d))%dec = false) as Hx.
  { apply not_true_iff_false. intros Ht. apply not_true_iff_false in Hf. apply Hf. apply existsb_exists.
    exists d. split; [by apply list_elem_of_In|done]. }
  split_bool. dec_to_Q. done.
Qed.

(** nothing is released under stress.  With a validated configuration whose release drawdown is not above
    the soft-stop drawdown (as shipped) and ordered daily thresholds, a check that releases an episode indicates
    NORMAL: no daily-loss or drawdown threshold is breached. *)
Theorem release_implies_normal check m config pv ep events nxt n src sev gen tr :
  validate_RiskEngineConfig config = Ok config → ordered_release config → Forall drepr (rc_fractions config) →
  evaluate_risk_check check config = Ok m → (dval (mx_soft_daily_threshold m) <= dval (mx_hard_daily_threshold m))%Q →
  live_episode ep events sev gen →
  plan_risk_transition check m config pv (Some ep) events nxt n src = Ok tr →
  tr_active_episode tr = None → mx_indicated_severity m = NORMAL.
Proof.
  intros Hcfg Hord Hrep Hev Hsh Hl Hp Hnone.
  destruct (plan_live _ _ _ _ _ _ _ _ _ _ _ _ Hl Hp) as (eff & nev & ts & _ & _ & _ & _ & _ & [(H1 & _)|(_ & _ & _ & Hcr & _)]); [congruence|].
  apply can_release_true in Hcr as (_ & _ & _ & Hcc & _ & Hday & Hdd).
  assert (∀ d, d ∈ rc_fractions config → drepr d ∧ (0 <= dval d <= 1)%Q) as Hf.
  { intros d Hd. split; [by eapply Forall_forall in Hrep|by apply (config_fraction config)]. }
  apply evaluate_inv in Hev as (day & fall & sg & _ & _ & _ & _ & _ & Ts & _ & Sev).
  assert (drepr (mx_soft_daily_threshold m) ∧ (0 <= dval (mx_soft_daily_threshold m))%Q) as [Hr H0].
  { rewrite Ts. assert (rc_soft_daily_floor config ∈ rc_fractions config) as F1%Hf by (unfold rc_fractions; set_solver).
    assert (rc_soft_daily_ceiling config ∈ rc_fractions config) as F2%Hf by (unfold rc_fractions; set_solver).
    split; [apply clip_repr; [apply dmul_rounds, prec_pos|apply F1|apply F2]|].
    unfold _clip. pose proof (dmin_spec (rc_soft_daily_ceiling config) (dmax (rc_soft_daily_floor config) (rc_soft_sigma_multiple config * sg)%dec)).
    pose proof (dmax_spec (rc_soft_daily_floor config) (rc_soft_sigma_multiple config * sg)%dec). intuition lra. }
  assert (dval (mx_daily_loss m) < dval (mx_soft_daily_threshold m))%Q as Hlow.
  { eapply Qlt_le_trans; [exact Hday|]. eapply rounded_le; [apply dmul_rounds, prec_pos|done|].
    assert (rc_release_daily_loss_soft_fraction config ∈ rc_fractions config) as [_ F]%Hf by (unfold rc_fractions; set_solver). nra. }
  unfold ordered_release in Hord. unfold validate_RiskEngineConfig in Hcfg. inv_ok. split_bool. dec_to_Q.
  rewrite Sev, Hcc.
  repeat match goal with |- context [dleb ?a ?b] =>
    let Y := fresh in assert (dleb a b = false) as Y by (apply dleb_gt; lra); rewrite Y; clear Y end. done.
Qed.

(** an activation starts a live episode.  Without an active episode, a plan that creates one creates it for the
    indicated HARD_REDUCE or CRITICAL_EXIT severity, with exactly one ACTIVATE event, whose stream is valid
    at target generation one; buys are blocked from then on. *)
Theorem activation_starts_live_episode check m config pv nxt n src tr ep :
  plan_risk_transition check m config pv None [] nxt n src = Ok tr → tr_new_episode tr = Some ep →
  live_episode ep (tr_new_events tr) (mx_indicated_severity m) 1 ∧ length (tr_new_events tr) = 1%nat ∧
  ep_arm_id ep = ck_arm_id check ∧ ep_severity ep = mx_indicated_severity m ∧
  tr_active_episode tr = Some ep ∧ tr_effective_severity tr = mx_indicated_severity m ∧ tr_block_new_buys tr = true ∧
  tr_executable_residual_targets tr = residual_targets (ep_targets ep) (ck_positions check).
Proof.
  intros Hp Hnew. unfold plan_risk_transition, plan_activation in Hp. cbn [mbind res_bind] in Hp. cbv zeta in Hp.
  cbn [_episode_severity] in Hp.
  assert (∃ ts e, mx_indicated_severity m ≠ NORMAL ∧ ts ≠ [] ∧ _build_targets check m (mx_indicated_severity m) config 1 = Ok ts ∧
    _create_episode check m (mx_indicated_severity m) ts pv = Ok ep ∧
    _episode_event ep [] ACTIVATE (mx_indicated_severity m) ts check pv src no_detail = Ok e ∧
    (result ← (current_targets ← _episode_targets ep [e];
       if _can_release check m config ep nxt n then
         release_event ← _episode_event ep [e] RELEASE (_episode_severity (Some ep) [e]) [] check pv src
             {| ed_target_symbol := None; ed_observed_quantity := None; ed_residual_quantity := None; ed_consecutive_valid_checks := n |};
         Ok (NORMAL, None, [e] ++ [release_event], [], ∅)
       else Ok (mx_indicated_severity m, Some ep, [e], residual_targets current_targets (ck_positions check),
                required_residual_quote_symbols current_targets (ck_positions check)));
     let '(effective, episode, new_events, residual, required) := result in
     Ok {| tr_effective_severity := effective; tr_block_new_buys := negb (bool_decide (effective = NORMAL));
        tr_cancel_pending_buys := negb (bool_decide (effective = NORMAL)); tr_active_episode := episode;
        tr_new_episode := Some ep; tr_new_events := new_events; tr_executable_residual_targets := residual;
        tr_required_quote_symbols := required; tr_release_allows_automatic_buys := false |}) = Ok tr)
    as (ts & e & Hi & Hne & Hts & Hep & He & Hr).
  { destruct (mx_indicated_severity m) eqn:Ei; cbn in Hp;
      [injection Hp as <-; done|injection Hp as <-; done|..];
      apply bind_Ok_inv in Hp as ([[[eff epo] nw] nev] & Ha & Hp); apply bind_Ok_inv in Ha as (ts & Hts & Ha);
      (case_bool_decide; [injection Ha as <- <- <- <-; cbn in Hp; injection Hp as <-; done|]);
      apply bind_Ok_inv in Ha as (ep' & Hep & Ha); apply bind_Ok_inv in Ha as (e & He & Ha);
      injection Ha as <- <- <- <-; pose proof Hp as Hp'; apply bind_Ok_inv in Hp' as ([[[[? ?] ?] ?] ?] & _ & Hp');
      injection Hp' as <-; cbn in Hnew; injection Hnew as ->;
      exists ts, e; split_and!; done. }
  clear Hp Hnew. pose proof Hep as Hep'. unfold _create_episode in Hep'. apply bind_Ok_inv in Hep' as (? & _ & Hep').
  do 3 apply bind_Ok_inv in Hep' as (? & _ & Hep'). apply validate_RiskEpisode_id in Hep'.
  assert (ep_severity ep = mx_indicated_severity m ∧ ep_arm_id ep = ck_arm_id check ∧ ep_targets ep = ts ∧
    ep_calendar_session_id ep = ck_calendar_session_id check) as (E1 & E2 & E3 & E4) by (by rewrite Hep').
  clear Hep'. unfold _can_release in Hr. rewrite E4, String.eqb_refl in Hr.
  pose proof (episode_event_fields _ _ _ _ _ _ _ _ _ _ He) as (Hv & F1 & F2 & F3 & _).
  assert (live_episode ep [] (mx_indicated_severity m) 1) as Hl by (split; [done|unfold stream_state; by rewrite E1]).
  destruct (event_keeps_stream _ _ _ _ _ _ _ _ _ _ _ _ Hl He) as (st & Hst & -> & Hval).
  { split; [done|]. split; [done|]. destruct ts as [|t ts]; [done|]. exists t, ts. split; [done|]. by eapply build_targets_generation. }
  assert (¬ colliding [e]) as Hnc by (intros Hcol; apply Hcol; split; apply NoDup_singleton).
  assert (_episode_targets ep [e] = Ok ts) as Het.
  { unfold _episode_targets. cbn. rewrite F1, F3, bool_decide_eq_false_2 by done. done. }
  rewrite Het in Hr. cbn in Hr. injection Hr as <-. cbn. rewrite bool_decide_eq_false_2, E3 by done.
  split_and!; try done. destruct Hval as [Hval|]; [done|done].
Qed.
End transitions.

(** ** Targets only reduce *)

(** A quantity on a share grid and a price on a tick grid whose product is exact. *)
Definition exact_mark (q mid : dec) : Prop :=
  drepr q ∧ ∃ j k, on_grid j q ∧ on_grid k mid ∧ Z.abs (units j q * units k mid) < LIMIT.

Lemma exact_mark_value q mid : exact_mark q mid → (dval (q * mid)%dec == dval q * dval mid)%Q.
Proof.
  intros (_ & j & k & Gq & Gm & Hl). destruct (dmul_units j k q mid Gq Gm Hl) as [G U].
  rewrite (units_dval _ _ G), (units_dval _ _ Gq), (units_dval _ _ Gm), U, inject_Z_mult.
  replace (- (j + k)) with (- j + - k) by lia. rewrite q10_add. ring.
Qed.

(** What is assumed of the marked positions: distinct symbols, positive quotes, exact marks. *)
Definition marks_ok (positions : pydict dec) (quotes : pydict RiskQuote) : Prop :=
  NoDup positions.*1 ∧
  Forall (λ kv, (0 < dval kv.2)%Q ∧
    ∀ quote, dget kv.1 quotes = Some quote → (0 < dval (qt_midpoint quote))%Q ∧ exact_mark kv.2 (qt_midpoint quote)) positions.

(** A quantity never above the held one. *)
Definition reduces (positions : pydict dec) (kt : string * dec) : Prop :=
  ∃ q, dget kt.1 positions = Some q ∧ (0 <= dval kt.2 <= dval q)%Q.

(** A representable value between zero and the marked value of a position. *)
Definition within_mark (positions : pydict dec) (quotes : pydict RiskQuote) (kv : string * dec) : Prop :=
  ∃ q quote, dget kv.1 positions = Some q ∧ dget kv.1 quotes = Some quote ∧ (0 < dval (qt_midpoint quote))%Q ∧ drepr q ∧ drepr kv.2 ∧
    (0 <= dval kv.2 <= dval q * dval (qt_midpoint quote))%Q.

Lemma marked_within positions quotes l vs :
  marks_ok positions quotes → (∀ kv, kv ∈ l → kv ∈ positions) →
  mapM_res (λ kv, v ← marked_value quotes kv; Ok (kv.1, v)) l = Ok vs → Forall (within_mark positions quotes) vs.
Proof.
  intros [Hn Hp] Hsub Hm. apply mapM_res_Forall2 in Hm. apply Forall_forall. intros x [i Hi]%list_elem_of_lookup.
  destruct (Forall2_lookup_r _ _ _ _ _ Hm Hi) as ([s q] & Hl & Hx). apply list_elem_of_lookup_2 in Hl. apply Hsub in Hl.
  rewrite Forall_forall in Hp. destruct (Hp _ Hl) as [Hq Hquote]. cbn in Hq, Hquote.
  unfold marked_value, dindex in Hx. cbn in Hx. destruct (dget s quotes) as [quote|] eqn:Eq; [|done]. injection Hx as <-.
  destruct (Hquote _ eq_refl) as [Hm0 He]. exists q, quote. cbn.
  pose proof (exact_mark_value _ _ He) as Ev. destruct He as [Hr _].
  assert (0 <= dval q * dval (qt_midpoint quote))%Q by (apply Qmult_le_0_compat; lra).
  split_and!; try done; [by apply dget_elem|apply dmul_rounds, prec_pos|lra|lra].
Qed.

Lemma within_mark_scale positions quotes scale l :
  (0 <= dval scale <= 1)%Q → Forall (within_mark positions quotes) l →
  Forall (within_mark positions quotes) (map (λ kv, (kv.1, kv.2 * scale)%dec) l).
Proof.
  intros Hs Hl. rewrite Forall_map. eapply Forall_impl; [exact Hl|]. intros [s v] (q & quote & H1 & H2 & H3 & H4 & H5 & H6 & H7).
  exists q, quote. cbn in *. pose proof (dmul_le_self v scale H5 H6 (proj2 Hs)).
  split_and!; try done; [apply dmul_rounds, prec_pos|apply dmul_nonneg; lra|lra].
Qed.

Lemma within_mark_cap positions quotes k cap l :
  drepr cap → (0 <= dval cap)%Q → NoDup l.*1 → Forall (within_mark positions quotes) l →
  Forall (within_mark positions quotes) (match dget k l with Some v => dset k (dmin v cap) l | None => l end).
Proof.
  intros Hr H0 Hn Hl. destruct (dget k l) as [v|] eqn:Ek; [|done]. apply Forall_forall. intros [s w] Hin.
  assert (dget s (dset k (dmin v cap) l) = Some w) as Hg by (apply dget_elem; [by apply dset_NoDup|done]).
  rewrite dget_dset in Hg. rewrite Forall_forall in Hl. destruct (String.eqb_spec s k) as [->|].
  - injection Hg as <-. apply dget_Some_elem in Ek. destruct (Hl _ Ek) as (q & quote & H1 & H2 & H3 & H4 & H5 & H6 & H7).
    exists q, quote. cbn in *. pose proof (dmin_spec v cap) as Hm. split_and!; try done.
    + unfold dmin. by destruct (dltb _ _).
    + intuition lra.
    + intuition lra.
  - apply Hl. by apply dget_Some_elem.
Qed.

Lemma sum_repr l : drepr (dsum l) ∨ l = [].
Proof. destruct l as [|x l] using rev_ind; [by right|]. left. unfold dsum. rewrite fold_left_app. cbn. apply dadd_rounds, prec_pos. Qed.

Lemma values_NoDup (quotes : pydict RiskQuote) (l vs : pydict dec) :
  mapM_res (λ kv, v ← marked_value quotes kv; Ok (kv.1, v)) l = Ok vs → vs.*1 = l.*1.
Proof.
  intros Hm. apply mapM_res_Forall2 in Hm. induction Hm as [|kv y l vs Hx _ IH]; cbn; [done|].
  apply bind_Ok_inv in Hx as (? & _ & [= <-]). by rewrite IH.
Qed.

Lemma floor_reduces d prec a q :
  _floor_quantity d prec = Ok a → (0 <= dval d <= dval q)%Q → (0 <= dval a <= dval q)%Q.
Proof. intros Hf [H0 H1]. destruct (dquantize_down _ _ _ Hf H0) as (_ & _ & ? & ?). lra. Qed.

Lemma q1_hard_reduces positions quotes nav config ts :
  marks_ok positions quotes → validate_RiskEngineConfig config = Ok config → (0 < dval nav)%Q →
  _q1_hard_targets positions quotes nav config = Ok ts → Forall (reduces positions) ts.
Proof.
  intros Hm Hcfg Hnav. unfold _q1_hard_targets. cbv zeta. case_bool_decide; [intros [= <-]; constructor|].
  intros Ht. apply bind_Ok_inv in Ht as (vs & Hvs & Ht).
  assert (rc_q1_hard_soxx_weight_cap config ∈ rc_fractions config) as [F1 _]%(config_fraction _ _ Hcfg) by (unfold rc_fractions; set_solver).
  assert (rc_q1_hard_gross_cap config ∈ rc_fractions config) as [F2 _]%(config_fraction _ _ Hcfg) by (unfold rc_fractions; set_solver).
  pose proof (marked_within positions quotes _ _ Hm ltac:(by intros kv [_ ?]%elem_of_filterb) Hvs) as Hw.
  apply (within_mark_cap _ _ "SOXX" (nav * rc_q1_hard_soxx_weight_cap config)%dec) in Hw;
    [|apply dmul_rounds, prec_pos|apply dmul_nonneg; lra|rewrite (values_NoDup _ _ _ Hvs); apply NoDup_filter_fst, Hm].
  set (vs' := match dget _ vs with Some _ => _ | None => _ end) in *.
  apply bind_Ok_inv in Ht as (ws & Hws & Ht).
  assert (Forall (within_mark positions quotes) ws) as Hw'.
  { destruct (dltb _ _) eqn:Eg; [|by injection Hws as <-]. apply bind_Ok_inv in Hws as (scale & Hsc & [= <-]).
    apply within_mark_scale; [|done]. dec_to_Q.
    assert (0 <= dval (nav * rc_q1_hard_gross_cap config)%dec)%Q by (apply dmul_nonneg; lra).
    destruct (ddiv_fraction (nav * rc_q1_hard_gross_cap config)%dec (dsum vs'.*2)) as (d & Ed & Hd & _); [lra..|].
    rewrite Hsc in Ed. by injection Ed as <-. }
  apply mapM_res_Forall2 in Ht. apply Forall_forall. intros t [i Hi]%list_elem_of_lookup.
  destruct (Forall2_lookup_r _ _ _ _ _ Ht Hi) as ([s v] & Hl & Hx). apply list_elem_of_lookup_2 in Hl.
  unfold sorted_items in Hl. rewrite elem_of_sorted in Hl. rewrite Forall_forall in Hw'.
  destruct (Hw' _ Hl) as (q & quote & H1 & H2 & H3 & H4 & H5 & H6). cbn [fst snd] in *.
  unfold dindex in Hx. rewrite H2 in Hx. cbn in Hx. apply bind_Ok_inv in Hx as (r & Hr & Hx).
  apply bind_Ok_inv in Hx as (a & Ha & [= <-]). exists q. split; [done|]. cbn.
  destruct (ddiv_rounds PREC v (qt_midpoint quote) prec_pos) as (r' & Er & Hrd); [by apply dval_pos_coef|].
  change (ddiv_p PREC) with ddiv in Er. rewrite Hr in Er. injection Er as <-.
  eapply floor_reduces; [exact Ha|]. split.
  - eapply rounded_nonneg; [exact Hrd|]. apply Qle_shift_div_l; lra.
  - eapply rounded_le; [exact Hrd|done|]. apply Qle_shift_div_r; [done|apply H6].
Qed.

Lemma live_mirror_reduces positions quotes nav config ts :
  marks_ok positions quotes → (∀ kv, kv ∈ positions → drepr kv.2) → validate_RiskEngineConfig config = Ok config → (0 < dval nav)%Q →
  _live_mirror_hard_targets positions quotes nav config = Ok ts → Forall (reduces positions) ts.
Proof.
  intros [Hn Hp] Hrepr Hcfg Hnav Ht. unfold _live_mirror_hard_targets in Ht. cbv zeta in Ht.
  apply bind_Ok_inv in Ht as (vs & _ & Ht). apply bind_Ok_inv in Ht as (scale & Hsc & Ht).
  assert (rc_live_mirror_semiconductor_weight_cap config ∈ rc_fractions config) as [F1 _]%(config_fraction _ _ Hcfg)
    by (unfold rc_fractions; set_solver).
  assert (0 <= dval scale <= 1)%Q as Hs.
  { destruct (dleb _ _) eqn:Eg; [injection Hsc as <-; rewrite dval_d1; lra|]. dec_to_Q.
    assert (0 <= dval (nav * rc_live_mirror_semiconductor_weight_cap config)%dec)%Q by (apply dmul_nonneg; lra).
    edestruct (ddiv_fraction (nav * rc_live_mirror_semiconductor_weight_cap config)%dec (dsum vs)) as (d & Ed & Hd & _); [lra..|].
    rewrite Hsc in Ed. by injection Ed as <-. }
  rewrite Forall_forall in Hp.
  eapply (foldM_invariant (λ ts, Forall (reduces positions) ts)); [..|exact Ht].
  - intros acc [s q] acc' [_ Hin]%elem_of_filterb Hacc Hstep. apply bind_Ok_inv in Hstep as (a & Ha & [= <-]). cbn [fst snd] in *.
    destruct (Hp _ Hin) as [Hq _]. cbn in Hq.
    assert (reduces positions (s, a)) as Hr.
    { exists q. split; [by apply dget_elem|]. eapply floor_reduces; [exact Ha|]. split; [apply dmul_nonneg; lra|].
      apply dmul_le_self; [by apply (Hrepr (s, q))|lra|apply Hs]. }
    clear - Hacc Hr. induction Hacc as [|[k v] l Hk Hl IH]; cbn; [by repeat constructor|].
    destruct (String.eqb_spec s k) as [->|]; constructor; done.
  - rewrite Forall_map. apply Forall_forall. intros [s q] [_ Hin]%elem_of_filterb.
    exists q. cbn. split; [by apply dget_elem|]. destruct (Hp _ Hin) as [Hq _]. cbn in Hq. rewrite dval_d0. lra.
Qed.

Section targets.
Context `{Digest}.

(** The quantities behind the targets. *)
Lemma build_targets_quantities check m sev config gen ts :
  _build_targets check m sev config gen = Ok ts →
  (positive_positions (ck_positions check) = [] ∧ ts = []) ∨
  ∃ qs, map (λ t, (rt_symbol t, rt_target_quantity t)) ts = sorted_items qs ∧
    match sev, ck_arm_id check with
    | CRITICAL_EXIT, _ => qs = map (λ kv, (kv.1, d0)) (positive_positions (ck_positions check))
    | _, (Q1_DET | Q1_LLM) =>
        _q1_hard_targets (positive_positions (ck_positions check)) (ck_quotes check) (mx_current_nav_usd m) config = Ok qs
    | _, LIVE_MIRROR =>
        _live_mirror_hard_targets (positive_positions (ck_positions check)) (ck_quotes check) (mx_current_nav_usd m) config = Ok qs
    | _, _ => False
    end.
Proof.
  unfold _build_targets. cbv zeta. case_bool_decide as Hb; [intros [= <-]; by left|]. intros Ht. right.
  apply bind_Ok_inv in Ht as (qs & Hq & Ht). exists qs. split.
  - apply mapM_res_Forall2 in Ht. induction Ht as [|[s q] t l l' Hx _ IH]; cbn; [done|]. rewrite IH. f_equal.
    unfold build_target in Hx. destruct (dget s (ck_quotes check)); [|done]. inv_ok. by apply validate_RiskTarget_id in Hx as ->.
  - destruct sev, (ck_arm_id check); try done; by injection Hq as <-.
Qed.

(** risk targets never increase a position.  Every target built for a reduction lies between zero and the held
    quantity of its symbol; a CRITICAL_EXIT targets zero for exactly the held symbols. *)
Theorem risk_targets_reduce_only check m sev config gen ts :
  validate_RiskEngineConfig config = Ok config → (0 < dval (mx_current_nav_usd m))%Q →
  marks_ok (positive_positions (ck_positions check)) (ck_quotes check) →
  Forall (λ kv, drepr kv.2) (positive_positions (ck_positions check)) →
  _build_targets check m sev config gen = Ok ts →
  Forall (λ t, ∃ q, dget (rt_symbol t) (positive_positions (ck_positions check)) = Some q ∧
    rt_trigger_quantity t = Some q ∧ (0 <= dval (rt_target_quantity t) <= dval q)%Q) ts ∧
  (sev = CRITICAL_EXIT → Forall (λ t, rt_target_quantity t = d0) ts ∧
     map rt_symbol ts ≡ₚ (positive_positions (ck_positions check)).*1).
Proof.
  intros Hcfg Hnav Hm Hrep Ht. pose proof (build_targets_inv _ _ _ _ _ _ Ht) as Hinv.
  pose proof (build_targets_quantities _ _ _ _ _ _ Ht) as Hshape.
  set (P := positive_positions (ck_positions check)) in *. destruct Hshape as [[E ->]|(qs & Eqs & Hqs)].
  { rewrite E. done. }
  assert (Forall (reduces P) qs) as Hred.
  { rewrite Forall_forall in Hrep. pose proof Hm as [Hn Hpos].
    destruct sev, (ck_arm_id check); try done; try (by eapply q1_hard_reduces); try (by eapply live_mirror_reduces);
      subst qs; rewrite Forall_map; apply Forall_forall; intros [s q] Hin; exists q; cbn; rewrite dval_d0;
      (split; [by apply dget_elem|]); rewrite Forall_forall in Hpos; destruct (Hpos _ Hin) as [Hq _]; cbn in Hq; lra. }
  assert (Forall (λ t, reduces P (rt_symbol t, rt_target_quantity t)) ts) as Hred'.
  { apply (Forall_map (λ t, (rt_symbol t, rt_target_quantity t)) (reduces P)). rewrite Eqs, sorted_items_perm. done. }
  split.
  - apply Forall_forall. intros t Hin. rewrite Forall_forall in Hinv, Hred'.
    destruct (Hinv _ Hin) as (_ & _ & G1 & _). destruct (Hred' _ Hin) as (q & G2 & G3). cbn in *. exists q.
    rewrite G2 in G1. done.
  - intros ->. assert (qs = map (λ kv, (kv.1, d0)) P) as -> by (by destruct (ck_arm_id check)).
    assert (map (λ t, (rt_symbol t, rt_target_quantity t)) ts ≡ₚ map (λ kv, (kv.1, d0)) P) as Hperm by (by rewrite Eqs, sorted_items_perm).
    split.
    + apply (Forall_map (λ t, (rt_symbol t, rt_target_quantity t)) (λ x, x.2 = d0)). rewrite Hperm, Forall_map. by apply Forall_forall.
    + apply (Permutation_map fst) in Hperm. rewrite !map_map in Hperm. cbn in Hperm. done.
Qed.
End targets.

(** ** Progress of the targets *)

Lemma dsub_pos a b : (dval b < dval a)%Q → (0 < dval (a - b)%dec)%Q.
Proof.
  intros Hlt. pose (e := Z.min (dexp a) (dexp b)).
  assert (dval a == inject_Z (at_exp e a) * q10 e)%Q as Ea by (apply dval_at; lia).
  assert (dval b == inject_Z (at_exp e b) * q10 e)%Q as Eb by (apply dval_at; lia).
  pose proof (q10_pos e) as Hq. assert (at_exp e b < at_exp e a) as Hz.
  { apply Z.nle_gt. intros Hle. 
    assert (inject_Z (at_exp e a) <= inject_Z (at_exp e b))%Q by (rewrite <- Zle_Qle; lia). nra. }
  assert (dval (Dec 1 e) <= dval (a - b)%dec)%Q as Hge.
  { eapply rounded_ge; [apply dsub_rounds, prec_pos|done|]. unfold dval at 1. cbn [dcoef dexp].
    assert (inject_Z (at_exp e b) + 1 <= inject_Z (at_exp e a))%Q.
    { change 1%Q with (inject_Z 1). rewrite <- inject_Z_plus, <- Zle_Qle. lia. }
    rewrite Ea, Eb. change (inject_Z 1) with 1%Q. nra. }
  assert (0 < dval (Dec 1 e))%Q by (by apply dval_pow_pos). lra.
Qed.

(** The residual of a target is zero exactly when the held quantity has come down to it. *)
Lemma residual_zero_iff held target :
  (dmax d0 (held - target)%dec =? d0)%dec = true ↔ (dval held <= dval target)%Q.
Proof.
  pose proof (dmax_spec d0 (held - target)%dec) as Hm. rewrite dval_d0 in Hm. rewrite deqb_eq, dval_d0. split.
  - intros Hz. apply Qnot_lt_le. intros Hlt. apply dsub_pos in Hlt. intuition lra.
  - intros Hle. assert (dval (held - target)%dec <= 0)%Q; [|intuition lra].
    rewrite <- dval_d0. eapply rounded_le; [apply dsub_rounds, prec_pos|apply drepr_d0|]. rewrite dval_d0. lra.
Qed.

Section progress.
Context `{Digest} (ep : RiskEpisode) (events : list RiskEpisodeEvent) (positions : pydict dec) (check : RiskCheckInput)
  (pv : RiskEpisodeProvenance) (src : option string) (sev : RiskSeverity) (gen : Z).

(** What a progress event reports about a target. *)
Definition reports (t : RiskTarget) (e : RiskEpisodeEvent) : Prop :=
  re_target_symbol e = Some (rt_symbol t) ∧ re_observed_quantity e = Some (held_quantity positions (rt_symbol t)) ∧
  re_residual_quantity e = Some (dmax d0 (held_quantity positions (rt_symbol t) - rt_target_quantity t)%dec) ∧
  re_event_type e = (if (dmax d0 (held_quantity positions (rt_symbol t) - rt_target_quantity t) =? d0)%dec then TARGET_REACHED else TARGET_PROGRESS).

(** The quantity last observed for a symbol is the held one. *)
Definition up_to_date (evs : list RiskEpisodeEvent) (symbol : string) : bool :=
  match dget symbol (_latest_observed_quantities evs) with
  | Some q => (q =? held_quantity positions symbol)%dec
  | None => false
  end.

Definition progress_inv (targets pre : list RiskTarget) (out : list RiskEpisodeEvent) : Prop :=
  stream_state ep (events ++ out) = Ok (false, sev, gen) ∧
  (_validate_episode_event_stream ep (events ++ out) = Ok () ∨ colliding (events ++ out)) ∧
  by_sequence (events ++ out) = by_sequence events ++ out ∧
  Forall (λ e, ∃ t, t ∈ targets ∧ up_to_date events (rt_symbol t) = false ∧ reports t e) out ∧
  Forall (λ t, up_to_date (events ++ out) (rt_symbol t) = true) pre ∧
  (∀ s, up_to_date events s = true → up_to_date (events ++ out) s = true).

Lemma up_to_date_snoc evs t e s :
  by_sequence (evs ++ [e]) = by_sequence evs ++ [e] → reports t e →
  up_to_date (evs ++ [e]) s = (String.eqb s (rt_symbol t) || up_to_date evs s).
Proof.
  intros Hb (H1 & H2 & _). unfold up_to_date, _latest_observed_quantities. rewrite Hb, fold_left_app. cbn. rewrite H1, H2.
  rewrite dget_dset. destruct (String.eqb_spec s (rt_symbol t)) as [->|]; [by rewrite deqb_refl|done].
Qed.

Lemma progress_inv_step targets pre t out out' :
  live_episode ep events sev gen → t ∈ targets → progress_inv targets pre out →
  (if up_to_date events (rt_symbol t) then Ok out
   else event ← progress_event ep events check pv src positions out t; Ok (out ++ [event])) = Ok out' →
  progress_inv targets (pre ++ [t]) out'.
Proof.
  intros Hl Ht (I1 & I2 & I3 & I4 & I5 & I6) Hs. destruct (up_to_date events (rt_symbol t)) eqn:Eu.
  { injection Hs as <-. split_and!; try done. apply Forall_app. split; [done|]. repeat constructor. by apply I6. }
  apply bind_Ok_inv in Hs as (e & He & [= <-]). unfold progress_event in He. cbv zeta in He.
  pose proof (live_episode_severity _ _ _ _ Hl) as (Hsev & _). rewrite Hsev in He.
  pose proof (episode_event_fields _ _ _ _ _ _ _ _ _ _ He) as (Hv & F1 & F2 & F3 & F4 & F5 & F6 & F7 & F8 & F9).
  assert (reports t e) as Hr by done.
  assert (live_episode ep (events ++ out) sev gen) as Hl' by done.
  destruct (event_keeps_stream _ _ _ _ _ _ _ _ _ _ _ _ Hl' He) as (st & Hst & Est & Hval); [by destruct (deqb _ _)|].
  assert (st = (false, sev, gen)) as -> by (by destruct (deqb _ _)).
  destruct (by_sequence_snoc _ _ _ Hv F5) as [Hb _]. unfold progress_inv. rewrite !app_assoc.
  split_and!; try done.
  - by rewrite Hb, I3.
  - apply Forall_app. split; [done|]. repeat constructor. eauto.
  - apply Forall_app. split; [|repeat constructor; by rewrite (up_to_date_snoc _ _ _ _ Hb Hr), String.eqb_refl].
    eapply Forall_impl; [exact I5|]. cbn. intros t' Ht'. by rewrite (up_to_date_snoc _ _ _ _ Hb Hr), Ht', orb_true_r.
  - intros s Hs. rewrite (up_to_date_snoc _ _ _ _ Hb Hr), I6 by done. by rewrite orb_true_r.
Qed.

Lemma progress_run out :
  live_episode ep events sev gen → target_progress_events ep events positions check pv src = Ok out →
  ∃ targets, _episode_targets ep events = Ok targets ∧ progress_inv targets targets out.
Proof.
  intros Hl Hp. unfold target_progress_events in Hp. apply bind_Ok_inv in Hp as ([] & _ & Hp).
  apply bind_Ok_inv in Hp as (targets & Ht & Hp). exists targets. split; [done|].
  eapply (foldM_prefix_invariant (progress_inv targets)); [..|exact Hp].
  - destruct Hl as [Hv Hs]. unfold progress_inv. rewrite !app_nil_r. split_and!; try done. by left.
  - intros pre t acc acc' Hpre Hinv Hstep. eapply progress_inv_step; [done|by eapply prefix_of_snoc_elem|done|]. exact Hstep.
Qed.

(** progress events report the truth, once.  Each event names a target whose last observation had changed, with the held
    quantity, and is TARGET_REACHED exactly when the held quantity is down to the target; the extended stream keeps
    the episode live (unless identifiers collide); and repeating the call with the same positions adds nothing. *)
Theorem target_progress_correct out :
  live_episode ep events sev gen → target_progress_events ep events positions check pv src = Ok out →
  (∀ e, e ∈ out → ∃ t targets, _episode_targets ep events = Ok targets ∧ t ∈ targets ∧ up_to_date events (rt_symbol t) = false ∧
     re_observed_quantity e = Some (held_quantity positions (rt_symbol t)) ∧
     (re_event_type e = TARGET_REACHED ↔ (dval (held_quantity positions (rt_symbol t)) <= dval (rt_target_quantity t))%Q)) ∧
  (live_episode ep (events ++ out) sev gen ∨ colliding (events ++ out)) ∧
  (live_episode ep (events ++ out) sev gen → target_progress_events ep (events ++ out) positions check pv src = Ok []).
Proof.
  intros Hl Hp. destruct (progress_run _ Hl Hp) as (targets & Ht & I1 & I2 & I3 & I4 & I5 & I6). split_and!.
  - intros e He. rewrite Forall_forall in I4. destruct (I4 _ He) as (t & Hin & Hu & _ & R2 & _ & R4).
    exists t, targets. split_and!; try done. rewrite R4, <- residual_zero_iff. by destruct (deqb _ _).
  - destruct I2 as [I2|]; [left; done|by right].
  - intros [Hv _]. unfold target_progress_events. rewrite Hv. cbn [mbind res_bind].
    assert (_episode_targets ep (events ++ out) = Ok targets) as ->.
    { rewrite <- Ht. unfold _episode_targets. rewrite I3, fold_left_app.
      assert (∀ acc, fold_left (λ ts e, match re_event_type e with ACTIVATE | ESCALATE => re_targets e | _ => ts end) out acc = acc) as ->; [|done].
      clear - I4. induction I4 as [|e l (t & _ & _ & _ & _ & _ & R) _ IH]; intros acc; cbn; [done|]. rewrite R. destruct (deqb _ _); apply IH. }
    cbn [mbind res_bind].
    assert (∀ l, Forall (λ t, up_to_date (events ++ out) (rt_symbol t) = true) l →
      foldM (λ result t, if up_to_date (events ++ out) (rt_symbol t) then Ok result
        else event ← progress_event ep (events ++ out) check pv src positions result t; Ok (result ++ [event])) [] l = Ok []) as Hz.
    { induction 1 as [|t l Hu _ IH]; cbn; [done|]. rewrite Hu. cbn. done. }
    exact (Hz _ I5).
Qed.
End progress.

(** ** A critical exit is never blocked *)

Ltac pass_check :=
  match goal with
  | |- mbind _ (invalid ?b ?m) = _ => assert (b = false) as ->; [|change (invalid false m) with (Ok ()); cbn [mbind res_bind]]
  | |- mbind _ (aware ?t) = _ => assert (aware t = Ok ()) as ->; [|cbn [mbind res_bind]]
  | |- mbind _ (validate_versioned ?t) = _ => assert (validate_versioned t = Ok ()) as ->; [|cbn [mbind res_bind]]
  end.

Section critical.
Context `{Digest}.
Context (check : RiskCheckInput) (config : RiskEngineConfig) (pv : RiskEpisodeProvenance) (src : option string) (m : RiskMetrics).
Let P := positive_positions (ck_positions check).

(** Inputs as the runtime builds them: validated records, valid symbols, quotes and provenance lengths. *)
Record critical_inputs : Prop := {
  ci_check : validate_RiskCheckInput check = Ok check;
  ci_config : validate_RiskEngineConfig config = Ok config;
  ci_provenance : validate_RiskEpisodeProvenance pv = Ok pv;
  ci_versioned : validate_versioned (risk_versioned pv) = Ok ();
  ci_quotes : Forall (λ kv, validate_RiskQuote kv.2 = Ok kv.2) (ck_quotes check);
  ci_symbols : Forall (λ kv, symbol_pattern kv.1 = true) (ck_positions check);
  ci_distinct : NoDup (ck_positions check).*1;
}.

Hypothesis Hwf : critical_inputs.
Hypothesis Hev : evaluate_risk_check check config = Ok m.

Lemma critical_quote s q : (s, q) ∈ P → ∃ quote, dget s (ck_quotes check) = Some quote ∧ (0 < dval (qt_midpoint quote))%Q.
Proof.
  intros Hin. unfold evaluate_risk_check in Hev. apply bind_Ok_inv in Hev as (? & Hq & _). apply raise_if_Ok_inv in Hq.
  destruct (dget s (ck_quotes check)) as [quote|] eqn:E.
  - exists quote. split; [done|]. apply dget_Some_elem in E. pose proof (ci_quotes Hwf) as Hv. rewrite Forall_forall in Hv.
    specialize (Hv _ E). cbn in Hv. unfold validate_RiskQuote in Hv. inv_ok. dec_to_Q. done.
  - exfalso. apply not_true_iff_false in Hq. apply Hq. apply existsb_exists. exists (s, q).
    split; [by apply list_elem_of_In|]. unfold dmem. cbn. by rewrite E.
Qed.

Lemma critical_times :
  tz_aware (ck_scheduled_at check) = true ∧ tz_aware (ck_decision_created_at check) = true ∧
  dt_lt (ck_decision_created_at check) (ck_scheduled_at check) = false.
Proof.
  pose proof (ci_check Hwf) as Hc. unfold validate_RiskCheckInput in Hc. apply bind_Ok_inv in Hc as (? & H1 & Hc).
  apply bind_Ok_inv in Hc as (? & H2 & Hc). inv_ok. unfold require_aware_utc in *.
  destruct (tz_aware (ck_scheduled_at check)), (tz_aware (ck_decision_created_at check)); done.
Qed.

Lemma critical_nav : (0 < dval (mx_current_nav_usd m))%Q.
Proof. by apply evaluate_inv in Hev as (? & ? & ? & Hn & _). Qed.

Lemma critical_target s q gen :
  (s, q) ∈ P → 1 <= gen → ∃ t, build_target check m P gen (s, d0) = Ok t.
Proof.
  intros Hin Hg. destruct (critical_quote s q Hin) as (quote & Hq & Hmid). destruct critical_times as (Hs & _ & _).
  unfold build_target. rewrite Hq.
  destruct (stable_id_ok "q1-risk-target" [provenance_free_target_identity (ck_arm_id check) s d0 (qt_quote_id quote) (ck_scheduled_at check) gen])
    as [tid ->]; [cbn; by rewrite Hs|]. cbn [mbind res_bind].
  assert (dget s P = Some q) as Hd by (apply dget_elem; [apply NoDup_filter_fst, (ci_distinct Hwf)|done]).
  unfold dindex. rewrite Hd. cbn [mbind res_bind]. pose proof critical_nav as Hnav.
  assert (0 <= dval (d0 * qt_midpoint quote)%dec)%Q as H0 by (apply dmul_nonneg; [by rewrite dval_d0|lra]).
  assert (dval (d0 * qt_midpoint quote)%dec <= dval d0)%Q as H1
    by (eapply rounded_le; [apply dmul_rounds, prec_pos|apply drepr_d0|rewrite dval_d0; lra]).
  rewrite dval_d0 in H1. destruct (ddiv_fraction (d0 * qt_midpoint quote)%dec (mx_current_nav_usd m)) as (w & -> & [W0 W1] & _); [lra..|].
  cbn [mbind res_bind]. eexists. unfold validate_RiskTarget. cbn -[mbind].
  assert (symbol_pattern s = true) as Hsym.
  { pose proof (ci_symbols Hwf) as Hc. rewrite Forall_forall in Hc. apply elem_of_filterb in Hin as [_ Hin]. exact (Hc _ Hin). }
  assert (d0 <? q = true)%dec as Hpos by (by apply elem_of_filterb in Hin as [? _]).
  rewrite Hsym. dec_to_Q.
  pass_check; [done|]. pass_check; [by dec_to_Q|]. pass_check; [apply Z.ltb_ge; lia|].
  pass_check; [apply negb_false_iff; dec_to_Q; lra|]. pass_check; [apply negb_false_iff; dec_to_Q; lra|].
  pass_check; [apply negb_false_iff, andb_true_iff; split; dec_to_Q; lra|]. reflexivity.
Qed.

Lemma critical_targets gen :
  1 <= gen → P ≠ [] → ∃ ts, _build_targets check m CRITICAL_EXIT config gen = Ok ts ∧ ts ≠ [] ∧
    Forall (λ t, rt_target_generation t = gen) ts ∧ Forall (λ t, rt_target_quantity t = d0) ts ∧ map rt_symbol ts ≡ₚ P.*1.
Proof.
  intros Hg Hne. assert (∃ ts, _build_targets check m CRITICAL_EXIT config gen = Ok ts) as [ts Hts].
  { unfold _build_targets. cbv zeta. fold P. rewrite bool_decide_eq_false_2 by done. cbn [mbind res_bind].
    apply is_ok_ex. rewrite mapM_res_ok. apply forallb_forall. intros [s d] Hin%list_elem_of_In.
    unfold sorted_items in Hin. rewrite elem_of_sorted in Hin. apply list_elem_of_fmap in Hin as ([s' q] & [= -> ->] & Hin).
    apply is_ok_ex. by apply (critical_target s' q). }
  exists ts. split; [done|]. pose proof (build_targets_inv _ _ _ _ _ _ Hts) as Hinv.
  destruct (build_targets_quantities _ _ _ _ _ _ Hts) as [[E _]|(qs & Eqs & Eq)]; [done|].
  assert (map (λ t, (rt_symbol t, rt_target_quantity t)) ts ≡ₚ map (λ kv, (kv.1, d0)) P) as Hperm
    by (rewrite Eqs, sorted_items_perm; by destruct (ck_arm_id check); subst qs).
  assert (map rt_symbol ts ≡ₚ P.*1) as Hsym.
  { pose proof (Permutation_map fst Hperm) as Hp. rewrite !map_map in Hp. done. }
  split_and!; [| | |done].
  - intros ->. apply Permutation_nil in Hsym. by destruct P.
  - eapply Forall_impl; [exact Hinv|]. naive_solver.
  - apply (Forall_map (λ t, (rt_symbol t, rt_target_quantity t)) (λ x, x.2 = d0)). rewrite Hperm, Forall_map. by apply Forall_forall.
Qed.

Lemma targets_val_ok ts : val_ok (targets_data ts) = true.
Proof.
  unfold targets_data. cbn. apply forallb_forall. intros x [t [<- _]]%in_map_iff. unfold target_data. cbn.
  by destruct (rt_target_id t), (rt_trigger_quantity t), (rt_trigger_price t), (rt_target_weight t).
Qed.

Lemma critical_metrics :
  (0 <= dval (mx_daily_loss m))%Q ∧ (0 <= dval (mx_run_drawdown m))%Q ∧
  (0 <= dval (mx_soft_daily_threshold m))%Q ∧ (0 <= dval (mx_hard_daily_threshold m))%Q.
Proof.
  pose proof (ci_config Hwf) as Hcfg.
  pose proof (evaluate_inv _ _ _ Hev) as (day & fall & sg & _ & _ & Ld & _ & Lf & Ts & Th & _). rewrite Ld, Lf, Ts, Th.
  assert (Hmax : ∀ x, (0 <= dval (dmax d0 x))%Q).
  { intros x. pose proof (dmax_spec d0 x) as Hm. rewrite dval_d0 in Hm. intuition lra. }
  assert (Hclip : ∀ v lo hi, lo ∈ rc_fractions config → hi ∈ rc_fractions config → (0 <= dval (_clip v lo hi))%Q).
  { intros v lo hi [Hlo _]%(config_fraction _ _ Hcfg) [Hhi _]%(config_fraction _ _ Hcfg). unfold _clip.
    pose proof (dmin_spec hi (dmax lo v)). pose proof (dmax_spec lo v). intuition lra. }
  split_and!; [apply Hmax..| |]; apply Hclip; unfold rc_fractions; set_solver.
Qed.

Lemma critical_episode ts :
  ts ≠ [] → Forall (λ t, rt_target_generation t = 1) ts → map rt_symbol ts ≡ₚ P.*1 →
  ∃ ep, _create_episode check m CRITICAL_EXIT ts pv = Ok ep ∧ ep_severity ep = CRITICAL_EXIT ∧ ep_targets ep = ts ∧
    ep_calendar_session_id ep = ck_calendar_session_id check.
Proof.
  intros Hne Hgen Hsym. destruct critical_times as (Ts & Td & Hlt). destruct (check_positive _ (ci_check Hwf)) as [Po Pp].
  unfold _create_episode. rewrite bool_decide_eq_false_2 by done. cbn [raise_if mbind res_bind].
  destruct (canonical_hash_ok (targets_data ts) (targets_val_ok ts)) as [h ->]. cbn [mbind res_bind]. cbv zeta.
  edestruct (stable_id_ok "q1-risk-episode") as [eid ->]; [cbn; by rewrite Ts|]. cbn [mbind res_bind].
  edestruct canonical_hash_ok as [eh ->]; [cbn; by rewrite Ts|]. cbn [mbind res_bind].
  pose proof critical_nav as Hnav. destruct critical_metrics as (M1 & M2 & M3 & M4).
  eexists. split; [|split; [|split]].
  { unfold validate_RiskEpisode. cbn -[mbind].
  do 5 (pass_check; [dec_to_Q; lra|]). pass_check.
  { apply negb_false_iff. pose proof (ci_check Hwf) as Hc. unfold validate_RiskCheckInput in Hc. inv_ok. split_bool.
    destruct (ck_portfolio_annualized_vol check) as [v|]; [|done]. cbn in *. split_bool. dec_to_Q. done. }
  do 2 (pass_check; [dec_to_Q; lra|]).
  pass_check; [by apply bool_decide_eq_false_2|]. pass_check; [apply (ci_versioned Hwf)|].
  pass_check; [unfold aware; by rewrite Ts|]. pass_check; [unfold aware; by rewrite Td|].
  pass_check; [apply has_dup_false; rewrite Hsym; apply NoDup_filter_fst, (ci_distinct Hwf)|].
  pass_check; [|pass_check; [done|reflexivity]].
  clear - Hgen. induction Hgen as [|t l Ht _ IH]; cbn; [done|]. by rewrite Ht, IH. }
  all: reflexivity.
Qed.

Lemma critical_event ep events ty ts gen :
  ts ≠ [] → Forall (λ t, rt_target_generation t = gen) ts → 1 <= gen → _validate_episode_event_stream ep events = Ok () →
  ty = ACTIVATE ∨ ty = ESCALATE →
  ∃ e, _episode_event ep events ty CRITICAL_EXIT ts check pv src no_detail = Ok e.
Proof.
  intros Hne Hgen Hg Hv Hty. destruct critical_times as (Ts & Td & Hlt). unfold _episode_event. rewrite Hv. cbn [mbind res_bind]. cbv zeta.
  destruct ts as [|t ts]; [done|]. apply Forall_cons in Hgen as [Ht Hgen].
  assert (existsb (λ t0, negb (rt_target_generation t0 =? rt_target_generation t)) (t :: ts) = false) as ->.
  { cbn. rewrite Z.eqb_refl, Ht. clear - Hgen. induction Hgen as [|t' l Ht _ IH]; cbn in *; [done|]. by rewrite Ht, Z.eqb_refl, IH. }
  cbn [raise_if mbind res_bind].
  edestruct (stable_id_ok "q1-risk-episode-event") as [eid ->].
  { cbn -[targets_data]. rewrite targets_val_ok, Ts. by destruct src. }
  cbn [mbind res_bind]. edestruct (stable_id_ok "q1-risk-event-idem") as [key ->]; [done|]. cbn [mbind res_bind].
  edestruct canonical_hash_ok as [eh ->].
  { cbn -[targets_data]. rewrite targets_val_ok, Ts. by destruct src. }
  cbn [mbind res_bind]. eexists. unfold validate_RiskEpisodeEvent. cbn -[mbind].
  pass_check; [apply Z.ltb_ge; lia|]. pass_check; [apply Z.ltb_ge; lia|].
  pass_check. { pose proof (ci_provenance Hwf) as Hp. unfold validate_RiskEpisodeProvenance in Hp. inv_ok. apply Z.ltb_ge. apply Z.leb_gt in E0. lia. }
  pass_check; [apply (ci_versioned Hwf)|]. pass_check; [unfold aware; by rewrite Ts|]. pass_check; [unfold aware; by rewrite Td|].
  pass_check; [done|]. pass_check; [by destruct Hty as [->| ->]|].
  pass_check; [by destruct Hty as [->| ->]|]. reflexivity.
Qed.

(** A standing exit: the targets of the episode are zero and cover every held symbol. *)
Definition standing_exit (ep : RiskEpisode) (events : list RiskEpisodeEvent) : Prop :=
  ∃ ts, _episode_targets ep events = Ok ts ∧ NoDup (map rt_symbol ts) ∧ Forall (λ t, rt_target_quantity t = d0) ts ∧
    (positive_positions (ck_positions check)).*1 ⊆ map rt_symbol ts.

(** What a critical exit starts from, and the events it plans: no episode, a live HARD_REDUCE episode, or a live CRITICAL_EXIT episode
    whose targets still cover the holdings.  A live episode needs a release drawdown not above the soft one, as shipped. *)
Inductive exit_case : option RiskEpisode → list RiskEpisodeEvent → list RiskEpisodeEventType → Prop :=
  | exit_activates : exit_case None [] [ACTIVATE]
  | exit_escalates ep events gen :
      ordered_release config → live_episode ep events HARD_REDUCE gen → exit_case (Some ep) events [ESCALATE]
  | exit_stands ep events gen :
      ordered_release config → live_episode ep events CRITICAL_EXIT gen → standing_exit ep events → exit_case (Some ep) events [].

Lemma held_symbol x : x ∈ P.*1 ↔ (d0 <? held_quantity (ck_positions check) x)%dec = true.
Proof.
  unfold held_quantity. split.
  - intros ([s q] & -> & [Hq Hin]%elem_of_filterb)%list_elem_of_fmap. cbn in *. by rewrite (dget_elem _ _ _ (ci_distinct Hwf) Hin).
  - destruct (dget x (ck_positions check)) as [q|] eqn:E; [|done]. intros Hq. apply dget_Some_elem in E.
    apply list_elem_of_fmap. exists (x, q). split; [done|]. by apply elem_of_filterb.
Qed.

(** Zero targets that cover the holdings leave exactly the held symbols to sell. *)
Lemma standing_residuals ts :
  NoDup (map rt_symbol ts) → Forall (λ t, rt_target_quantity t = d0) ts → P.*1 ⊆ map rt_symbol ts →
  map rt_symbol (residual_targets ts (ck_positions check)) ≡ₚ P.*1 ∧
  Forall (λ t, rt_target_quantity t = d0) (residual_targets ts (ck_positions check)) ∧
  required_residual_quote_symbols ts (ck_positions check) = list_to_set P.*1.
Proof.
  intros Hnd Hz Hcov. rewrite Forall_forall in Hz.
  assert (map rt_symbol (residual_targets ts (ck_positions check)) ≡ₚ P.*1) as Hp.
  { apply NoDup_Permutation; [by apply NoDup_map_filter|apply NoDup_filter_fst, (ci_distinct Hwf)|]. intros x.
    unfold residual_targets. rewrite held_symbol, list_elem_of_fmap. split.
    - intros (t & -> & [Hr Ht]%elem_of_filterb). unfold is_residual in Hr. by rewrite (Hz t Ht) in Hr.
    - intros Hx. destruct (proj1 (list_elem_of_fmap _ _ _) (Hcov x (proj2 (held_symbol x) Hx))) as (t & -> & Ht). exists t.
      split; [done|]. apply elem_of_filterb. unfold is_residual. by rewrite (Hz t Ht). }
  split; [done|]. split.
  - apply Forall_forall. intros t [_ Ht]%elem_of_filterb. by apply Hz.
  - unfold required_residual_quote_symbols. fold (residual_targets ts (ck_positions check)). apply set_eq. intros x.
    rewrite !elem_of_list_to_set. by rewrite Hp.
Qed.

(** A critical check releases nothing. *)
Lemma critical_not_released ep nxt n :
  ordered_release config → mx_indicated_severity m = CRITICAL_EXIT → _can_release check m config ep nxt n = false.
Proof.
  intros Hord Hsev. destruct (_can_release check m config ep nxt n) eqn:Hr; [|done]. exfalso.
  apply can_release_true in Hr as (_ & _ & _ & Hcc & _ & _ & Hdd). pose proof (ci_config Hwf) as Hcfg.
  unfold validate_RiskEngineConfig in Hcfg. inv_ok. split_bool. dec_to_Q. unfold ordered_release in Hord.
  apply evaluate_inv in Hev as (day & fall & sg & _ & _ & _ & _ & _ & _ & _ & Sev). rewrite Sev, Hcc in Hsev. cbn [orb] in Hsev.
  destruct (dleb (rc_critical_drawdown_threshold config) (mx_run_drawdown m)) eqn:Ed; [dec_to_Q; lra|].
  repeat case_match; done.
Qed.

(** An appended activation or escalation sets the targets. *)
Lemma appended_targets ep events e ts :
  _validate_episode_event_stream ep events = Ok () → re_event_sequence e = Z.of_nat (length events) + 1 →
  re_event_type e = ACTIVATE ∨ re_event_type e = ESCALATE → re_targets e = ts → ts ≠ [] → _episode_targets ep (events ++ [e]) = Ok ts.
Proof.
  intros Hv Hs Hty Ht Hne. unfold _episode_targets. destruct (by_sequence_snoc _ _ _ Hv Hs) as [-> _]. rewrite fold_left_app. cbn.
  destruct Hty as [-> | ->]; by rewrite Ht, bool_decide_eq_false_2.
Qed.

(** What the planning of the events gives in each case. *)
Lemma exit_activation active events tys :
  mx_indicated_severity m = CRITICAL_EXIT → P ≠ [] → exit_case active events tys →
  match active with Some ep => _validate_episode_event_stream ep events | None => Ok () end = Ok () ∧
  ∃ ep newep nev, plan_activation check m config pv active events src = Ok (CRITICAL_EXIT, Some ep, newep, nev) ∧
    match active with None => newep = Some ep | Some ep' => ep = ep' ∧ newep = None end ∧
    map re_event_type nev = tys ∧ standing_exit ep (events ++ nev) ∧ ∀ nxt n, _can_release check m config ep nxt n = false.
Proof.
  intros Hsev Hne Hcase.
  assert (Hbuilt : ∀ ep events e ts, _validate_episode_event_stream ep events = Ok () → re_event_sequence e = Z.of_nat (length events) + 1 →
    re_event_type e = ACTIVATE ∨ re_event_type e = ESCALATE → re_targets e = ts → ts ≠ [] → Forall (λ t, rt_target_quantity t = d0) ts →
    map rt_symbol ts ≡ₚ P.*1 → standing_exit ep (events ++ [e])).
  { intros ep' events' e' ts' Hv Hs Hty Ht Hnil Hz Hsym. exists ts'. split; [by apply appended_targets|].
    rewrite Hsym. split; [apply NoDup_filter_fst, (ci_distinct Hwf)|]. done. }
  destruct Hcase as [|ep events gen Hord Hl|ep events gen Hord Hl Hstand].
  - destruct (critical_targets 1 ltac:(lia) Hne) as (ts & Hts & Hnil & Hg & Hz & Hsym).
    destruct (critical_episode ts Hnil Hg Hsym) as (ep & Hep & E1 & E2 & E3).
    destruct (critical_event ep [] ACTIVATE ts 1 Hnil Hg ltac:(lia) eq_refl ltac:(by left)) as [e He].
    pose proof (episode_event_fields _ _ _ _ _ _ _ _ _ _ He) as (Fv & F1 & _ & F3 & _ & F5 & _).
    split; [done|]. exists ep, (Some ep), [e]. unfold plan_activation. cbv zeta. cbn [_episode_severity]. rewrite Hsev, Hts. cbn [mbind res_bind].
    rewrite bool_decide_eq_false_2, Hep by done. cbn [mbind res_bind]. rewrite He. cbn [mbind res_bind map]. rewrite F1.
    do 3 (split; [done|]). split; [by eapply Hbuilt; eauto|]. intros nxt n. unfold _can_release. by rewrite E3, String.eqb_refl.
  - destruct (live_episode_severity _ _ _ _ Hl) as (Es & Eg & _ & Hgen). destruct Hl as [Hv _].
    destruct (critical_targets (gen + 1) ltac:(lia) Hne) as (ts & Hts & Hnil & Hg & Hz & Hsym).
    destruct (critical_event ep events ESCALATE ts (gen + 1) Hnil Hg ltac:(lia) Hv ltac:(by right)) as [e He].
    pose proof (episode_event_fields _ _ _ _ _ _ _ _ _ _ He) as (_ & F1 & _ & F3 & _ & F5 & _).
    split; [done|]. exists ep, None, [e]. unfold plan_activation. cbv zeta. rewrite Es, Eg, Hsev, Hts. cbn [mbind res_bind].
    rewrite bool_decide_eq_false_2, He by done. cbn [mbind res_bind map]. rewrite F1.
    do 3 (split; [done|]). split; [by eapply Hbuilt; eauto|]. intros nxt n. by apply critical_not_released.
  - destruct (live_episode_severity _ _ _ _ Hl) as (Es & _). destruct Hl as [Hv _]. split; [done|]. exists ep, None, [].
    unfold plan_activation. cbv zeta. rewrite Es, Hsev, app_nil_r. do 4 (split; [done|]). intros nxt n. by apply critical_not_released.
Qed.

(** C29: a critical exit is always planned.  From validated inputs with something held, a CRITICAL_EXIT check never raises, whether it
    activates an episode, escalates a live HARD_REDUCE episode, or finds a live CRITICAL_EXIT episode whose targets are zero and still
    cover the holdings.  It plans exactly the ACTIVATE event of a new episode, the ESCALATE event of the live one, or no event; nothing
    is released, buys are blocked and cancelled, the executable targets sell exactly the held symbols to zero, a quote is required for
    each of them, and the episode's targets are from then on zero and cover the holdings. *)
Theorem critical_exit_is_planned active events tys nxt n :
  mx_indicated_severity m = CRITICAL_EXIT → positive_positions (ck_positions check) ≠ [] → exit_case active events tys →
  ∃ tr ep, plan_risk_transition check m config pv active events nxt n src = Ok tr ∧ tr_active_episode tr = Some ep ∧
    match active with None => tr_new_episode tr = Some ep | Some ep' => ep = ep' ∧ tr_new_episode tr = None end ∧
    map re_event_type (tr_new_events tr) = tys ∧ tr_effective_severity tr = CRITICAL_EXIT ∧
    tr_block_new_buys tr = true ∧ tr_cancel_pending_buys tr = true ∧
    map rt_symbol (tr_executable_residual_targets tr) ≡ₚ (positive_positions (ck_positions check)).*1 ∧
    Forall (λ t, rt_target_quantity t = d0) (tr_executable_residual_targets tr) ∧
    tr_required_quote_symbols tr = list_to_set (positive_positions (ck_positions check)).*1 ∧
    standing_exit ep (events ++ tr_new_events tr).
Proof.
  intros Hsev Hne Hcase. destruct (exit_activation _ _ _ Hsev Hne Hcase) as (Hv & ep & newep & nev & Hp & Hnew & Hty & Hstand & Hrel).
  pose proof Hstand as (ts & Hts & Hnd & Hz & Hcov). destruct (standing_residuals ts Hnd Hz Hcov) as (R1 & R2 & R3).
  eexists _, ep. unfold plan_risk_transition. cbv zeta. rewrite Hv, Hp. cbn [mbind res_bind]. rewrite Hts, Hrel. cbn [mbind res_bind].
  split; [reflexivity|]. cbn. by rewrite Hty.
Qed.
End critical.

(** ** Concrete checks with the shipped thresholds *)

#[local] Existing Instance rolling_digest.

Definition shipped_config : RiskEngineConfig := {|
  rc_version := "q1"; rc_annualization_sessions := Dec 252 0;
  rc_soft_sigma_multiple := Dec 20 (-1); rc_hard_sigma_multiple := Dec 30 (-1);
  rc_soft_daily_floor := Dec 15 (-3); rc_soft_daily_ceiling := Dec 30 (-3);
  rc_hard_daily_floor := Dec 25 (-3); rc_hard_daily_ceiling := Dec 50 (-3);
  rc_soft_drawdown_threshold := Dec 8 (-2); rc_hard_drawdown_threshold := Dec 12 (-2);
  rc_critical_drawdown_threshold := Dec 18 (-2);
  rc_q1_hard_gross_cap := Dec 50 (-2); rc_q1_hard_soxx_weight_cap := Dec 20 (-2);
  rc_live_mirror_semiconductor_weight_cap := Dec 30 (-2);
  rc_release_daily_loss_soft_fraction := Dec 75 (-2); rc_release_drawdown_threshold := Dec 6 (-2);
  rc_release_consecutive_valid_checks := 2; rc_quantity_precision := Dec 1 (-6);
  rc_leveraged_symbols := ["SOXL"]; rc_semiconductor_symbols := ["NVDA"; "TSM"; "KLAC"; "LRCX"; "MU"; "SOXL"; "SOXX"] |}.

Definition ex_risk_prov : RiskEpisodeProvenance := {|
  rp_run_id := "run"; rp_config_manifest_hash := "cfg"; rp_code_version := "code"; rp_model_version := "model";
  rp_source_manifest_hash := "src"; rp_worker_fence_token := "fence"; rp_cycle_attempt_count := 1 |}.

(** 100 QQQ and 50 SOXX with 10,000 USD settled, marked at the given mid prices (in cents) against a peak of 100,000. *)
Definition ex_check (session : string) (at_ qqq soxx : Z) : RiskCheckInput := {|
  ck_arm_id := Q1_DET; ck_calendar_session_id := session; ck_scheduled_at := utc at_; ck_decision_created_at := utc (at_ + 5);
  ck_positions := [("SOXX", Dec 50000000 (-6)); ("QQQ", Dec 100000000 (-6))];
  ck_settled_cash_usd := Dec 1000000 (-2); ck_unsettled_receivables_usd := Dec 0 (-2);
  ck_quotes := [("QQQ", {| qt_symbol := "QQQ"; qt_quote_id := "q-1"; qt_midpoint := Dec qqq (-2) |});
                ("SOXX", {| qt_symbol := "SOXX"; qt_quote_id := "q-2"; qt_midpoint := Dec soxx (-2) |})];
  ck_session_open_nav_usd := Dec 10000000 (-2); ck_running_peak_nav_usd := Dec 10000000 (-2);
  ck_portfolio_annualized_vol := Some (Dec 20 (-2)); ck_reconciliation_ok := true;
  ck_critical_reconciliation_condition := false; ck_reconciliation_status := "OK" |}.

Definition no_metrics : RiskMetrics := {|
  mx_current_nav_usd := d0; mx_daily_loss := d0; mx_run_drawdown := d0; mx_daily_sigma := None;
  mx_soft_daily_threshold := d0; mx_hard_daily_threshold := d0; mx_indicated_severity := NORMAL |}.
Definition metrics_of (c : RiskCheckInput) : RiskMetrics :=
  match evaluate_risk_check c shipped_config with Ok m => m | Raise _ => no_metrics end.

(** A 13% fall, a 20% fall, and a recovered market. *)
Definition ex_hard : RiskCheckInput := ex_check "2025-01-02" 1000 60000 34000.
Definition ex_crit : RiskCheckInput := ex_check "2025-01-02" 2000 55000 30000.
Definition ex_calm : RiskCheckInput := ex_check "2025-01-03" 3000 69000 40000.
Definition hard_metrics : RiskMetrics := Eval vm_compute in metrics_of ex_hard.
Definition crit_metrics : RiskMetrics := Eval vm_compute in metrics_of ex_crit.
Definition calm_metrics : RiskMetrics := Eval vm_compute in metrics_of ex_calm.

Definition no_transition : RiskTransition := {|
  tr_effective_severity := NORMAL; tr_block_new_buys := false; tr_cancel_pending_buys := false; tr_active_episode := None;
  tr_new_episode := None; tr_new_events := []; tr_executable_residual_targets := []; tr_required_quote_symbols := ∅;
  tr_release_allows_automatic_buys := false |}.
Definition transition_of (r : res RiskTransition) : RiskTransition := match r with Ok t => t | Raise _ => no_transition end.

Definition ex_activated : RiskTransition :=
  Eval vm_compute in transition_of (plan_risk_transition ex_hard hard_metrics shipped_config ex_risk_prov None [] false 0 (Some "c1")).
Definition ex_events : list RiskEpisodeEvent := Eval vm_compute in tr_new_events ex_activated.
Definition no_episode : RiskEpisode := {|
  ep_risk_episode_id := ""; ep_run_id := ""; ep_arm_id := HOLD; ep_severity := NORMAL; ep_calendar_session_id := "";
  ep_triggered_at := utc 0; ep_trigger_nav_usd := d0; ep_session_open_nav_usd := d0; ep_running_peak_nav_usd := d0;
  ep_daily_loss := d0; ep_run_drawdown := d0; ep_portfolio_annualized_vol := None; ep_soft_daily_threshold := d0;
  ep_hard_daily_threshold := d0; ep_reconciliation_status := ""; ep_targets := []; ep_target_manifest_hash := "";
  ep_episode_hash := ""; ep_created_at := utc 0; ep_versioned := risk_versioned ex_risk_prov |}.
Definition ex_episode : RiskEpisode :=
  Eval vm_compute in match tr_new_episode ex_activated with Some e => e | None => no_episode end.
(** The planned escalation, release and progress of this episode. *)
Definition ex_escalation : RiskTransition :=
  Eval vm_compute in transition_of
    (plan_risk_transition ex_crit crit_metrics shipped_config ex_risk_prov (Some ex_episode) ex_events false 0 (Some "c2")).
Definition ex_release : RiskTransition :=
  Eval vm_compute in transition_of
    (plan_risk_transition ex_calm calm_metrics shipped_config ex_risk_prov (Some ex_episode) ex_events true 2 (Some "c3")).
Definition ex_progress : list RiskEpisodeEvent :=
  Eval vm_compute in match target_progress_events ex_episode ex_events (ck_positions ex_hard) ex_hard ex_risk_prov None with
                     | Ok l => l | Raise _ => [] end.
Definition ex_targets : list RiskTarget :=
  Eval vm_compute in match _build_targets ex_hard hard_metrics HARD_REDUCE shipped_config 1 with Ok l => l | Raise _ => [] end.

Lemma ex_escalated :
  plan_risk_transition ex_crit crit_metrics shipped_config ex_risk_prov (Some ex_episode) ex_events false 0 (Some "c2") = Ok ex_escalation.
Proof. vm_compute. reflexivity. Qed.
Lemma ex_released :
  plan_risk_transition ex_calm calm_metrics shipped_config ex_risk_prov (Some ex_episode) ex_events true 2 (Some "c3") = Ok ex_release.
Proof. vm_compute. reflexivity. Qed.
Lemma ex_progressed :
  target_progress_events ex_episode ex_events (ck_positions ex_hard) ex_hard ex_risk_prov None = Ok ex_progress.
Proof. vm_compute. reflexivity. Qed.
Lemma ex_targeted : _build_targets ex_hard hard_metrics HARD_REDUCE shipped_config 1 = Ok ex_targets.
Proof. vm_compute. reflexivity. Qed.

Lemma ex_live : live_episode ex_episode ex_events HARD_REDUCE 1.
Proof. split; vm_compute; reflexivity. Qed.

Lemma ex_marks : marks_ok (positive_positions (ck_positions ex_hard)) (ck_quotes ex_hard).
Proof.
  split; [apply (bool_decide_eq_true_1 _); vm_compute; reflexivity|].
  repeat apply Forall_cons_2; [| |apply Forall_nil_2]; (split; [by vm_compute|]); cbn; intros quote [= <-];
    (split; [by vm_compute|]); (split; [by vm_compute|]); exists 6, 2; by vm_compute.
Qed.

Lemma no_missed_loss_trigger_witness : 2 <= _severity_rank (mx_indicated_severity hard_metrics).
Proof.
  refine (proj1 (proj2 (proj2 (no_missed_loss_trigger 8 ex_hard shipped_config hard_metrics _ _ _ _ _ _))) _).
  - vm_compute. reflexivity.
  - vm_compute. reflexivity.
  - repeat constructor.
  - split; vm_compute; [discriminate|split; [discriminate|reflexivity]].
  - split; vm_compute; [discriminate|split; [discriminate|reflexivity]].
  - split; vm_compute; [discriminate|split; [discriminate|reflexivity]].
  - vm_compute. discriminate.
Defined.

Lemma plan_keeps_episode_history_witness :
  length (tr_new_events ex_escalation) = 1%nat ∧
  ∃ s g, stream_state ex_episode (ex_events ++ tr_new_events ex_escalation) = Ok (false, s, g).
Proof.
  split; [reflexivity|].
  destruct (plan_keeps_episode_history _ _ _ _ _ _ _ _ _ _ _ ex_escalation ex_live ex_escalated) as [_ (s & g & H1 & _)].
  exists s, g. exact H1.
Defined.

Lemma severity_only_lowered_by_release_witness : 3 <= _severity_rank (tr_effective_severity ex_escalation).
Proof.
  destruct (severity_only_lowered_by_release _ _ _ _ ex_episode _ _ _ _ _ _ ex_escalation
    ltac:(vm_compute; reflexivity) ex_live ex_escalated) as [(_ & _ & _ & H)|(H & _)]; [|discriminate H].
  rewrite H. apply Z.le_max_r.
Defined.

Lemma release_implies_normal_witness : mx_indicated_severity calm_metrics = NORMAL.
Proof.
  apply (release_implies_normal ex_calm calm_metrics shipped_config ex_risk_prov ex_episode ex_events true 2 (Some "c3") HARD_REDUCE 1 ex_release);
    [vm_compute; reflexivity|vm_compute; discriminate|repeat constructor|vm_compute; reflexivity|vm_compute; discriminate|exact ex_live|exact ex_released|reflexivity].
Defined.

Lemma activation_starts_live_episode_witness : live_episode ex_episode ex_events HARD_REDUCE 1.
Proof.
  apply (activation_starts_live_episode ex_hard hard_metrics shipped_config ex_risk_prov false 0 (Some "c1") ex_activated ex_episode);
    vm_compute; reflexivity.
Defined.

Lemma risk_targets_reduce_only_witness :
  map rt_symbol ex_targets = ["QQQ"; "SOXX"] ∧
  Forall (λ t, ∃ q, dget (rt_symbol t) (positive_positions (ck_positions ex_hard)) = Some q ∧
    rt_trigger_quantity t = Some q ∧ (0 <= dval (rt_target_quantity t) <= dval q)%Q) ex_targets.
Proof.
  split; [reflexivity|].
  apply (risk_targets_reduce_only ex_hard hard_metrics HARD_REDUCE shipped_config 1 ex_targets eq_refl eq_refl ex_marks);
    [repeat constructor|exact ex_targeted].
Defined.

Lemma target_progress_correct_witness :
  map re_event_type ex_progress = [TARGET_PROGRESS; TARGET_PROGRESS] ∧
  (live_episode ex_episode (ex_events ++ ex_progress) HARD_REDUCE 1 ∨ colliding (ex_events ++ ex_progress)).
Proof. split; [reflexivity|]. apply (target_progress_correct _ _ _ _ _ _ _ _ ex_progress ex_live ex_progressed). Defined.

Lemma ex_critical_inputs : critical_inputs ex_crit shipped_config ex_risk_prov.
Proof.
  constructor; try (vm_compute; reflexivity); [repeat constructor..|].
  apply (bool_decide_eq_true_1 _). vm_compute. reflexivity.
Qed.

(** The stream after the escalation. *)
Definition ex_critical_events : list RiskEpisodeEvent := Eval vm_compute in ex_events ++ tr_new_events ex_escalation.

Lemma ex_exit_cases :
  exit_case ex_crit shipped_config None [] [ACTIVATE] ∧
  exit_case ex_crit shipped_config (Some ex_episode) ex_events [ESCALATE] ∧
  exit_case ex_crit shipped_config (Some ex_episode) ex_critical_events [].
Proof.
  assert (ordered_release shipped_config) as Hord by (vm_compute; discriminate).
  split; [constructor|]. split; [econstructor; [done|exact ex_live]|]. apply (exit_stands _ _ _ _ 2); [done|split; vm_compute; reflexivity|].
  eexists. split; [vm_compute; reflexivity|].
  split; [apply (bool_decide_eq_true_1 _); vm_compute; reflexivity|]. split; [repeat constructor|].
  intros x Hx. vm_compute in Hx. vm_compute. set_solver.
Qed.

(** One check in the three cases: it activates, it escalates, and it keeps the exit standing. *)
Definition exits_to (tys : list RiskEpisodeEventType) (r : res RiskTransition) : Prop :=
  ∃ tr, r = Ok tr ∧ map re_event_type (tr_new_events tr) = tys ∧ map rt_symbol (tr_executable_residual_targets tr) ≡ₚ ["SOXX"; "QQQ"].

Lemma critical_exit_is_planned_witness :
  exits_to [ACTIVATE] (plan_risk_transition ex_crit crit_metrics shipped_config ex_risk_prov None [] false 0 None) ∧
  exits_to [ESCALATE] (plan_risk_transition ex_crit crit_metrics shipped_config ex_risk_prov (Some ex_episode) ex_events false 0 None) ∧
  exits_to [] (plan_risk_transition ex_crit crit_metrics shipped_config ex_risk_prov (Some ex_episode) ex_critical_events false 0 None).
Proof.
  assert (∀ active events tys, exit_case ex_crit shipped_config active events tys →
    exits_to tys (plan_risk_transition ex_crit crit_metrics shipped_config ex_risk_prov active events false 0 None)) as Hall.
  { intros active events tys Hcase.
    destruct (critical_exit_is_planned ex_crit shipped_config ex_risk_prov None crit_metrics ex_critical_inputs
      ltac:(vm_compute; reflexivity) active events tys false 0 ltac:(vm_compute; reflexivity) ltac:(vm_compute; discriminate) Hcase)
      as (tr & ep & H1 & _ & _ & H2 & _ & _ & _ & H3 & _).
    exists tr. exact (conj H1 (conj H2 H3)). }
  destruct ex_exit_cases as (C1 & C2 & C3). exact (conj (Hall _ _ _ C1) (conj (Hall _ _ _ C2) (Hall _ _ _ C3))).
Defined.
