(* ===== verification/ArmState.v ===== *)
(** * Arm state ([runtime/q1_state.py])

    The in-memory portfolio of one arm: settled cash, unsettled receivables and positions,
    changed only by fills and settlements. *)
From Stdlib Require Import ZArith Lia Ascii String QArith Lqa.
From stdpp Require Import base list strings numbers sets.
From S2P Require Import Prelude PyDecimal Hashing Domain.
Set Default Goal Selector "!".
Open Scope Z_scope.

Record UnsettledReceivable := {
  ur_receivable_id : string;
  ur_source_fill_id : string;
  ur_amount_usd : dec;
  ur_settlement_date : date;
  ur_created_at : datetime;
}.

Definition validate_UnsettledReceivable (r : UnsettledReceivable) : res UnsettledReceivable :=
  raise_if (ur_amount_usd r <=? d0)%dec ValueError "Unsettled receivable amount must be positive";;
  raise_if (negb (tz_aware (ur_created_at r))) ValueError "Unsettled receivable created_at must be timezone-aware";;
  Ok r.

Record Q1ArmState := {
  as_arm_id : string;
  as_initial_nav_usd : dec;
  as_settled_cash_usd : dec;
  as_unsettled_receivables : list UnsettledReceivable;
  as_positions : pydict dec;
  as_sequence : Z;
  as_evaluation_anchor_id : option string;
  as_algorithm_version : string;
}.

Definition validate_Q1ArmState (s : Q1ArmState) : res Q1ArmState :=
  raise_if (negb (String.eqb (as_algorithm_version s) Q1_ALGORITHM_VERSION)) ValueError "Q1 arm state algorithm version mismatch";;
  raise_if ((as_initial_nav_usd s <? d0)%dec || (as_settled_cash_usd s <? d0)%dec)
    ValueError "Q1 arm cash balances cannot be negative";;
  raise_if (as_sequence s <? 0) ValueError "Q1 arm state sequence cannot be negative";;
  raise_if (existsb (λ kv, (kv.2 <? d0)%dec) (as_positions s)) ValueError "Q1 arm state cannot contain short positions";;
  raise_if (has_dup (map ur_receivable_id (as_unsettled_receivables s)))
    ValueError "Q1 arm state has duplicate receivable IDs";;
  Ok s.

Definition unsettled_cash_usd (s : Q1ArmState) : dec := dsum (map ur_amount_usd (as_unsettled_receivables s)).
Definition arm_total_cash_usd (s : Q1ArmState) : dec := (as_settled_cash_usd s + unsettled_cash_usd s)%dec.

(** [quantity > 0] *)
Definition is_held (kv : string * dec) : bool := (d0 <? kv.2)%dec.

(** [quantity * prices[symbol]] *)
Definition position_value (prices : pydict dec) (kv : string * dec) : res dec :=
  price ← dindex kv.1 prices; Ok (kv.2 * price)%dec.

Definition nav (s : Q1ArmState) (prices : pydict dec) : res dec :=
  raise_if (existsb (λ kv, is_held kv && negb (dmem kv.1 prices)) (as_positions s)) ValueError "Missing NAV prices for: ";;
  values ← mapM_res (position_value prices) (List.filter is_held (as_positions s));
  Ok (arm_total_cash_usd s + dsum values)%dec.

Definition weights (s : Q1ArmState) (prices : pydict dec) : res (pydict dec) :=
  n ← nav s prices;
  raise_if (n <=? d0)%dec ValueError "Q1 arm NAV must be positive to compute weights";;
  ws ← mapM_res (λ kv, v ← position_value prices kv; w ← ddiv v n; Ok (kv.1, w))
         (List.filter is_held (sorted_items (as_positions s)));
  cash ← ddiv (arm_total_cash_usd s) n;
  Ok (dset "USD_CASH" cash ws).

(** [if positions.get(symbol) == 0: positions.pop(symbol, None)] *)
Definition drop_zero (symbol : string) (positions : pydict dec) : pydict dec :=
  match dget symbol positions with
  | Some q => if (q =? d0)%dec then dpop symbol positions else positions
  | None => positions
  end.

Definition apply_fill (s : Q1ArmState) (fill : Fill) (sell_receivable : option UnsettledReceivable) : res Q1ArmState :=
  raise_if (negb (String.eqb (fl_arm_id fill) (as_arm_id s))) ValueError "Fill cannot mutate another arm";;
  let current := match dget (fl_symbol fill) (as_positions s) with Some q => q | None => d0 end in
  let notional := (fl_quantity fill * fl_price fill)%dec in
  changed ← (match fl_side fill with
    | BUY =>
        raise_if (bool_decide (is_Some sell_receivable)) ValueError "BUY fill cannot create a settlement receivable";;
        let required_cash := (notional + fl_commission_usd fill)%dec in
        raise_if (as_settled_cash_usd s <? required_cash)%dec ValueError "BUY fill exceeds settled cash";;
        Ok (as_settled_cash_usd s - required_cash, dset (fl_symbol fill) (current + fl_quantity fill) (as_positions s),
            as_unsettled_receivables s)%dec
    | SELL =>
        raise_if (current <? fl_quantity fill)%dec ValueError "SELL fill would create a short position";;
        let expected_receivable := (notional - fl_commission_usd fill)%dec in
        raise_if (expected_receivable <=? d0)%dec ValueError "SELL fill must create a positive net receivable";;
        match sell_receivable with
        | None => raise ValueError "SELL fill requires a typed settlement receivable"
        | Some r =>
            raise_if (negb (String.eqb (ur_source_fill_id r) (fl_fill_id fill)) || negb (ur_amount_usd r =? expected_receivable)%dec)
              ValueError "SELL receivable does not match fill economics";;
            Ok (as_settled_cash_usd s, dset (fl_symbol fill) (current - fl_quantity fill)%dec (as_positions s),
                as_unsettled_receivables s ++ [r])
        end
    end);
  let '(settled_cash, positions, receivables) := changed in
  validate_Q1ArmState {|
    as_arm_id := as_arm_id s;
    as_initial_nav_usd := as_initial_nav_usd s;
    as_settled_cash_usd := settled_cash;
    as_unsettled_receivables := receivables;
    as_positions := drop_zero (fl_symbol fill) positions;
    as_sequence := as_sequence s + 1;
    as_evaluation_anchor_id := as_evaluation_anchor_id s;
    as_algorithm_version := Q1_ALGORITHM_VERSION |}.

Definition settle (s : Q1ArmState) (receivable_id : string) : res Q1ArmState :=
  match List.filter (λ r, String.eqb (ur_receivable_id r) receivable_id) (as_unsettled_receivables s) with
  | [] => Ok s
  | receivable :: _ =>
      validate_Q1ArmState {|
        as_arm_id := as_arm_id s;
        as_initial_nav_usd := as_initial_nav_usd s;
        as_settled_cash_usd := (as_settled_cash_usd s + ur_amount_usd receivable)%dec;
        as_unsettled_receivables :=
          List.filter (λ r, negb (String.eqb (ur_receivable_id r) receivable_id)) (as_unsettled_receivables s);
        as_positions := as_positions s;
        as_sequence := as_sequence s + 1;
        as_evaluation_anchor_id := as_evaluation_anchor_id s;
        as_algorithm_version := Q1_ALGORITHM_VERSION |}
  end.

(** A history of the arm: fills with their typed receivable, and settlements. *)
Inductive arm_op := OpFill (f : Fill) (r : option UnsettledReceivable) | OpSettle (receivable_id : string).

Definition run_op (s : Q1ArmState) (op : arm_op) : res Q1ArmState :=
  match op with OpFill f r => apply_fill s f r | OpSettle rid => settle s rid end.
Definition run_ops (s : Q1ArmState) (ops : list arm_op) : res Q1ArmState := foldM run_op s ops.

Definition op_fills (ops : list arm_op) : list Fill := omap (λ op, match op with OpFill f _ => Some f | OpSettle _ => None end) ops.

(** ** Facts about valid states *)

Lemma validate_arm_inv s s' :
  validate_Q1ArmState s = Ok s' →
  s' = s ∧ as_algorithm_version s = Q1_ALGORITHM_VERSION ∧ (0 <= dval (as_initial_nav_usd s))%Q ∧ (0 <= dval (as_settled_cash_usd s))%Q ∧
  0 <= as_sequence s ∧ Forall (λ kv, (0 <= dval kv.2)%Q) (as_positions s) ∧ NoDup (map ur_receivable_id (as_unsettled_receivables s)).
Proof.
  unfold validate_Q1ArmState. intros H. apply bind_Ok_inv in H as (? & H1 & H). apply bind_Ok_inv in H as (? & H2 & H).
  apply bind_Ok_inv in H as (? & H3 & H). apply bind_Ok_inv in H as (? & H4 & H). apply bind_Ok_inv in H as (? & H5 & [= <-]).
  apply raise_if_Ok_inv in H1, H2, H3, H4, H5. split_bool. apply String.eqb_eq in H1. apply Z.ltb_ge in H3.
  apply has_dup_false in H5. dec_to_Q. split_and!; try done. apply Forall_forall. intros kv Hkv.
  apply Qnot_lt_le. intros Hlt. apply not_true_iff_false in H4. apply H4. apply existsb_exists. exists kv.
  split; [by apply list_elem_of_In|]. dec_to_Q. done.
Qed.

(** ** Exact accounting

    Quantities on a grid of [10^-j] shares and prices on a grid of [10^-k] dollars; cash on the product grid. *)
Section accounting.
Context (j k : Z).
Hypothesis Hj : 0 <= j.
Hypothesis Hk : 0 <= k.

Definition cash_units (s : Q1ArmState) : Z :=
  units (j + k) (as_settled_cash_usd s) + zsum (map (λ r, units (j + k) (ur_amount_usd r)) (as_unsettled_receivables s)).

Definition price_units (prices : pydict dec) (symbol : string) : Z :=
  match dget symbol prices with Some p => units k p | None => 0 end.

Definition market_units (prices : pydict dec) (positions : pydict dec) : Z :=
  zsum (map (λ kv, units j kv.2 * price_units prices kv.1) positions).

Definition prices_on_grid (prices : pydict dec) : Prop := Forall (λ kv, on_grid k kv.2 ∧ 0 < units k kv.2) prices.

Record arm_on_grid (s : Q1ArmState) : Prop := {
  ag_cash : on_grid (j + k) (as_settled_cash_usd s) ∧ 0 <= units (j + k) (as_settled_cash_usd s);
  ag_receivables : Forall (λ r, on_grid (j + k) (ur_amount_usd r) ∧ 0 < units (j + k) (ur_amount_usd r)) (as_unsettled_receivables s);
  ag_positions : Forall (λ kv, on_grid j kv.2 ∧ 0 <= units j kv.2) (as_positions s);
  ag_distinct : NoDup (as_positions s).*1;
  ag_receivable_ids : NoDup (map ur_receivable_id (as_unsettled_receivables s));
}.

Lemma nonneg_sum {A} (f : A → Z) l : Forall (λ x, 0 <= f x) l → 0 <= zsum (map f l) ∧ zsum (map Z.abs (map f l)) = zsum (map f l).
Proof. induction 1 as [|x l Hx _ [IH1 IH2]]; cbn [map]; [done|]. rewrite !zsum_cons, IH2. lia. Qed.

Lemma arm_cash_exact s :
  arm_on_grid s → cash_units s < LIMIT →
  on_grid (j + k) (arm_total_cash_usd s) ∧ units (j + k) (arm_total_cash_usd s) = cash_units s ∧
  0 <= zsum (map (λ r, units (j + k) (ur_amount_usd r)) (as_unsettled_receivables s)).
Proof.
  intros [[G1 U1] G2 _ _ _] Hb. unfold cash_units in *.
  destruct (nonneg_sum (λ r, units (j + k) (ur_amount_usd r)) (as_unsettled_receivables s)) as [N1 N2].
  { eapply Forall_impl; [exact G2|]. cbn. lia. }
  destruct (dsum_units (j + k) (map ur_amount_usd (as_unsettled_receivables s))) as [D1 D2]; [lia| | |].
  - rewrite Forall_map. eapply Forall_impl; [exact G2|]. naive_solver.
  - rewrite (map_map ur_amount_usd). lia.
  - rewrite map_map in D2. destruct (dadd_units (j + k) (as_settled_cash_usd s) (unsettled_cash_usd s) G1 D1) as [T1 T2].
    { unfold unsettled_cash_usd. lia. }
    split; [done|]. unfold arm_total_cash_usd. rewrite T2. unfold unsettled_cash_usd. lia.
Qed.

Lemma market_filter prices positions :
  Forall (λ kv, on_grid j kv.2 ∧ 0 <= units j kv.2) positions →
  market_units prices (List.filter is_held positions) = market_units prices positions.
Proof.
  induction 1 as [|[s q] l [G U] _ IH]; [done|]. cbn [List.filter]. unfold market_units in *. cbn [map]. rewrite zsum_cons, <- IH.
  cbn [fst snd] in *. destruct (is_held (s, q)) eqn:E; [done|].
  unfold is_held in E. cbn in E. rewrite (dltb_units j), units_d0 in E by (done || by apply on_grid_d0).
  apply Z.ltb_ge in E. assert (units j q = 0) as -> by lia. lia.
Qed.

Lemma market_nonneg prices positions :
  prices_on_grid prices → Forall (λ kv, on_grid j kv.2 ∧ 0 <= units j kv.2) positions → 0 <= market_units prices positions.
Proof.
  intros Hp. induction 1 as [|[x q] l [_ Hq] _ IH]; [done|]. unfold market_units in *. cbn [map]. rewrite zsum_cons. cbn [fst snd] in *.
  assert (0 <= price_units prices x); [|nia]. unfold price_units. destruct (dget x prices) eqn:E; [|lia].
  apply dget_Some_elem in E. unfold prices_on_grid in Hp. rewrite Forall_forall in Hp. destruct (Hp _ E). cbn in *. lia.
Qed.

(** The NAV is exact: cash plus the marked positions. *)
Lemma nav_exact s prices n :
  arm_on_grid s → prices_on_grid prices → cash_units s + market_units prices (as_positions s) < LIMIT →
  nav s prices = Ok n →
  on_grid (j + k) n ∧ units (j + k) n = cash_units s + market_units prices (as_positions s).
Proof.
  intros Hs Hp Hb Hn. unfold nav in Hn. apply bind_Ok_inv in Hn as ([] & _ & Hn). apply bind_Ok_inv in Hn as (vs & Hv & [= <-]).
  pose proof Hs as [[_ _] _ Gp _ _]. rewrite <- (market_filter prices _ Gp) in *.
  assert (Forall (λ kv, on_grid j kv.2 ∧ 0 <= units j kv.2) (List.filter is_held (as_positions s))) as Gf.
  { rewrite Forall_forall in *. intros x [_ Hx]%elem_of_filterb. auto. }
  set (l := List.filter is_held (as_positions s)) in *. clearbody l. clear Gp.
  assert (cash_units s < LIMIT) as Hc by (pose proof (market_nonneg prices l Hp Gf); lia).
  destruct (arm_cash_exact s Hs Hc) as (T1 & T2 & T3).
  assert (0 <= cash_units s) as Hc0 by (destruct Hs as [[_ ?] _ _ _ _]; unfold cash_units; lia).
  assert (Forall (λ d, on_grid (j + k) d ∧ 0 <= units (j + k) d) vs ∧ zsum (map (units (j + k)) vs) = market_units prices l) as [V1 V2].
  { apply mapM_res_Forall2 in Hv. assert (market_units prices l < LIMIT) as Hl by lia. clear Hb.
    induction Hv as [|[x q] v l' vs Hx _ IH]; [done|]. apply Forall_cons in Gf as [[G1 G2] Gf]. cbn [fst snd] in *.
    pose proof (market_nonneg prices l' Hp Gf) as Hl'. unfold market_units in Hl. cbn [map] in Hl. rewrite zsum_cons in Hl. cbn [fst snd] in Hl.
    unfold position_value, dindex in Hx. cbn in Hx. destruct (dget x prices) as [p|] eqn:E; [|done]. injection Hx as <-.
    apply dget_Some_elem in E as E'. unfold prices_on_grid in Hp. rewrite Forall_forall in Hp. destruct (Hp _ E') as [P1 P2]. cbn in P1, P2.
    unfold price_units in Hl at 1. rewrite E in Hl. fold (market_units prices l') in Hl.
    destruct (dmul_units j k q p G1 P1) as [M1 M2]; [nia|]. destruct IH as [I1 I2]; [done|nia|].
    split; [constructor; [|done]; split; [done|nia]|]. unfold market_units. cbn [map]. rewrite !zsum_cons. cbn [fst snd].
    unfold price_units at 1. rewrite E, M2. unfold market_units in I2. lia. }
  destruct (nonneg_sum (units (j + k)) vs) as [N1 N2]; [eapply Forall_impl; [exact V1|naive_solver]|].
  destruct (dsum_units (j + k) vs) as [D1 D2]; [lia|eapply Forall_impl; [exact V1|naive_solver]|lia|].
  destruct (dadd_units (j + k) (arm_total_cash_usd s) (dsum vs) T1 D1) as [A1 A2]; [lia|]. split; [done|]. lia.
Qed.

Record fill_on_grid (f : Fill) : Prop := {
  fg_quantity : on_grid j (fl_quantity f) ∧ 0 < units j (fl_quantity f);
  fg_price : on_grid k (fl_price f) ∧ 0 < units k (fl_price f);
  fg_commission : on_grid (j + k) (fl_commission_usd f) ∧ 0 <= units (j + k) (fl_commission_usd f);
}.

Definition notional_units (f : Fill) : Z := units j (fl_quantity f) * units k (fl_price f).

(** The signed change a fill makes to cash (before commission) and to its position. *)
Definition side_sign (f : Fill) : Z := match fl_side f with BUY => 1 | SELL => -1 end.

(** The market value split into one position and the others. *)
Lemma market_split prices positions symbol q :
  dget symbol positions = Some q →
  market_units prices positions = units j q * price_units prices symbol + market_units prices (dpop symbol positions).
Proof. intros Hq. unfold market_units. by rewrite (dpop_split _ _ _ Hq) at 1. Qed.

(** Setting a position and dropping it when zero. *)
Lemma market_update prices positions symbol q :
  on_grid j q → NoDup positions.*1 →
  market_units prices (drop_zero symbol (dset symbol q positions)) =
  market_units prices positions - match dget symbol positions with Some q0 => units j q0 | None => 0 end * price_units prices symbol
    + units j q * price_units prices symbol.
Proof.
  intros Hq Hn. unfold drop_zero. rewrite dget_dset_eq.
  assert (market_units prices (dset symbol q positions) = market_units prices positions
    - match dget symbol positions with Some q0 => units j q0 | None => 0 end * price_units prices symbol + units j q * price_units prices symbol) as E.
  { unfold market_units. rewrite zsum_dset. cbn [fst snd]. destruct (dget symbol positions); lia. }
  destruct (deqb q d0) eqn:Ez; [|done].
  rewrite (deqb_units j), units_d0, Z.eqb_eq in Ez by (done || by apply on_grid_d0).
  rewrite <- E, (market_split prices (dset symbol q positions) symbol q (dget_dset_eq _ _ _)), Ez. lia.
Qed.

Lemma drop_zero_Forall P symbol positions : Forall P positions → Forall P (drop_zero symbol positions).
Proof. intros. unfold drop_zero. destruct (dget symbol positions) as [q|]; [|done]. destruct (deqb q d0); [by apply Forall_dpop|done]. Qed.

Lemma drop_zero_NoDup symbol (positions : pydict dec) : NoDup positions.*1 → NoDup (drop_zero symbol positions).*1.
Proof. intros. unfold drop_zero. destruct (dget symbol positions) as [q|]; [|done]. destruct (deqb q d0); [by apply dpop_NoDup|done]. Qed.

(** The held units of a symbol. *)
Definition position_units (positions : pydict dec) (symbol : string) : Z :=
  match dget symbol positions with Some q => units j q | None => 0 end.

(** One fill, exactly: cash moves by the notional against the side and by the commission, the
    position by the quantity, everything else is kept. *)
Lemma apply_fill_units s f r s' :
  arm_on_grid s → fill_on_grid f →
  match r with Some x => on_grid (j + k) (ur_amount_usd x) | None => True end →
  cash_units s + notional_units f + units (j + k) (fl_commission_usd f) < LIMIT →
  position_units (as_positions s) (fl_symbol f) + units j (fl_quantity f) < LIMIT →
  apply_fill s f r = Ok s' →
  arm_on_grid s' ∧ cash_units s' = cash_units s - side_sign f * notional_units f - units (j + k) (fl_commission_usd f) ∧
  ∃ q, on_grid j q ∧ units j q = position_units (as_positions s) (fl_symbol f) + side_sign f * units j (fl_quantity f) ∧ 0 <= units j q ∧
    as_positions s' = drop_zero (fl_symbol f) (dset (fl_symbol f) q (as_positions s)).
Proof.
  intros Hs [[Gq Uq] [Gp Up] [Gc Uc]] Hr Hb Hb' Hf. pose proof Hs as [[Gs Us] Grs Gpos Hnd Hids].
  unfold apply_fill in Hf. apply bind_Ok_inv in Hf as ([] & _ & Hf). cbv zeta in Hf. apply bind_Ok_inv in Hf as ([[sc ps] rs] & Hc & Hf).
  pose proof (validate_arm_inv _ _ Hf) as (-> & _ & _ & V1 & _ & V2 & V3). clear Hf. cbn in V1, V2, V3. unfold notional_units in *.
  destruct (nonneg_sum (λ r, units (j + k) (ur_amount_usd r)) (as_unsettled_receivables s)) as [N1 _];
    [eapply Forall_impl; [exact Grs|cbn; lia]|]. unfold cash_units in Hb |- *. cbn [as_settled_cash_usd as_unsettled_receivables as_positions].
  set (cur := match dget (fl_symbol f) (as_positions s) with Some q => q | None => d0 end) in *.
  assert (on_grid j cur ∧ 0 <= units j cur ∧ units j cur = position_units (as_positions s) (fl_symbol f)) as (Gcur & Ucur & Ecur).
  { unfold cur, position_units. destruct (dget (fl_symbol f) (as_positions s)) as [q|] eqn:E.
    - apply dget_Some_elem in E. rewrite Forall_forall in Gpos. destruct (Gpos _ E). cbn in *. done.
    - rewrite units_d0. split_and!; try done. by apply on_grid_d0. }
  assert (Hpos' : ∀ q, on_grid j q → 0 <= units j q → Forall (λ kv, on_grid j kv.2 ∧ 0 <= units j kv.2) (drop_zero (fl_symbol f) (dset (fl_symbol f) q (as_positions s))))
    by (intros; by apply drop_zero_Forall, Forall_dset).
  assert (Hnd' : ∀ q, NoDup (drop_zero (fl_symbol f) (dset (fl_symbol f) q (as_positions s))).*1) by (intros; by apply drop_zero_NoDup, dset_NoDup).
  destruct (dmul_units j k (fl_quantity f) (fl_price f) Gq Gp) as [Gn Un]; [nia|].
  unfold side_sign. destruct (fl_side f).
  - apply bind_Ok_inv in Hc as ([] & _ & Hc). apply bind_Ok_inv in Hc as ([] & Hge & [= <- <- <-]). apply raise_if_Ok_inv in Hge.
    destruct (dadd_units (j + k) (fl_quantity f * fl_price f)%dec (fl_commission_usd f) Gn Gc) as [Ga Ua]; [nia|].
    rewrite (dltb_units (j + k)) in Hge by done. apply Z.ltb_ge in Hge.
    destruct (dsub_units (j + k) (as_settled_cash_usd s) (fl_quantity f * fl_price f + fl_commission_usd f)%dec Gs Ga) as [Gd Ud]; [nia|].
    destruct (dadd_units j cur (fl_quantity f) Gcur Gq) as [Gx Ux]; [nia|].
    split; [constructor; cbn; [split; [done|lia]|done|apply Hpos'; [done|lia]|done|done]|].
    split; [lia|]. exists (cur + fl_quantity f)%dec. split_and!; try done; lia.
  - apply bind_Ok_inv in Hc as ([] & Hge & Hc). apply bind_Ok_inv in Hc as ([] & Hpos & Hc). apply raise_if_Ok_inv in Hge, Hpos.
    destruct r as [x|]; [|done]. apply bind_Ok_inv in Hc as ([] & Hx & [= <- <- <-]). apply raise_if_Ok_inv in Hx. split_bool.
    rewrite (dltb_units j) in Hge by done. apply Z.ltb_ge in Hge.
    destruct (dsub_units (j + k) (fl_quantity f * fl_price f)%dec (fl_commission_usd f) Gn Gc) as [Gd Ud]; [nia|].
    destruct (dsub_units j cur (fl_quantity f) Gcur Gq) as [Gx Ux]; [nia|].
    match goal with X : deqb (ur_amount_usd x) _ = true |- _ => rewrite (deqb_units (j + k)), Z.eqb_eq in X by done; rename X into Hamt end.
    rewrite (dleb_units (j + k)), units_d0 in Hpos by (done || apply on_grid_d0; lia). apply Z.leb_gt in Hpos.
    split; [constructor; cbn; [done| |apply Hpos'; [done|lia]|done|done]|].
    { apply Forall_app. split; [done|]. repeat constructor; [done|lia]. }
    split; [rewrite map_app, zsum_app; cbn [map]; rewrite zsum_cons; change (zsum []) with 0; lia|].
    exists (cur - fl_quantity f)%dec. split_and!; try done; lia.
Qed.

Lemma apply_fill_exact s f r s' prices :
  arm_on_grid s → fill_on_grid f → prices_on_grid prices → dget (fl_symbol f) prices = Some (fl_price f) →
  match r with Some x => on_grid (j + k) (ur_amount_usd x) | None => True end →
  cash_units s + market_units prices (as_positions s) + notional_units f + units (j + k) (fl_commission_usd f) < LIMIT →
  apply_fill s f r = Ok s' →
  arm_on_grid s' ∧ cash_units s' = cash_units s - side_sign f * notional_units f - units (j + k) (fl_commission_usd f) ∧
  market_units prices (as_positions s') = market_units prices (as_positions s) + side_sign f * notional_units f.
Proof.
  intros Hs Hf Hp Hprice Hr Hb Ha. pose proof Hs as [[_ Us] Grs Gpos Hnd _]. pose proof Hf as [[_ Uq] [_ Up] [_ Uc]].
  assert (price_units prices (fl_symbol f) = units k (fl_price f)) as Epu by (unfold price_units; by rewrite Hprice).
  pose proof (market_nonneg prices _ Hp Gpos) as Hm0. unfold notional_units in Hb.
  destruct (nonneg_sum (λ r, units (j + k) (ur_amount_usd r)) (as_unsettled_receivables s)) as [N1 _];
    [eapply Forall_impl; [exact Grs|cbn; lia]|].
  assert (0 <= position_units (as_positions s) (fl_symbol f) ∧
    position_units (as_positions s) (fl_symbol f) * units k (fl_price f) <= market_units prices (as_positions s)) as [U0 M0].
  { unfold position_units. destruct (dget (fl_symbol f) (as_positions s)) as [q|] eqn:E; [|lia].
    pose proof (market_split prices _ _ _ E) as Es. pose proof (market_nonneg prices _ Hp (Forall_dpop _ (fl_symbol f) _ Gpos)).
    apply dget_Some_elem in E. rewrite Forall_forall in Gpos. destruct (Gpos _ E). cbn in *. lia. }
  assert (0 <= cash_units s) by (unfold cash_units; lia).
  destruct (apply_fill_units s f r s') as (Hs' & Ec & q & Gq & Eq & _ & Ep); [done|done|done|unfold notional_units; lia|nia|done|].
  split_and!; try done. rewrite Ep, market_update, Eq, Epu by done. unfold notional_units, position_units. lia.
Qed.

Lemma nav_ok_iff s prices :
  is_ok (nav s prices) = true ↔ ∀ kv, kv ∈ as_positions s → is_held kv = true → dmem kv.1 prices = true.
Proof.
  unfold nav. destruct (existsb (λ kv, is_held kv && negb (dmem kv.1 prices)) (as_positions s)) eqn:E; cbn.
  - split; [done|]. intros Hall. apply existsb_exists in E as (kv & Hin & Hx). split_bool.
    rewrite Hall in *; [done|by apply list_elem_of_In|done].
  - assert (∀ kv, kv ∈ as_positions s → is_held kv = true → dmem kv.1 prices = true) as Hall.
    { intros kv Hin Hh. destruct (dmem kv.1 prices) eqn:Em; [done|]. exfalso. apply not_true_iff_false in E. apply E.
      apply existsb_exists. exists kv. split; [by apply list_elem_of_In|]. by rewrite Hh, Em. }
    split; [done|]. intros _. assert (is_ok (mapM_res (position_value prices) (List.filter is_held (as_positions s))) = true) as Hok.
    { rewrite mapM_res_ok. apply forallb_forall. intros kv Hin%list_elem_of_In. apply elem_of_filterb in Hin as [Hh Hin].
      specialize (Hall _ Hin Hh). unfold position_value, dindex, dmem in *. by destruct (dget kv.1 prices). }
    by destruct (mapM_res _ _).
Qed.

Lemma drop_zero_sub symbol (positions : pydict dec) kv : kv ∈ drop_zero symbol positions → kv ∈ positions.
Proof.
  unfold drop_zero. destruct (dget symbol positions) as [q|]; [|done]. destruct (deqb q d0); [|done]. intros Hin.
  induction positions as [|[k2 v2] d IH]; cbn in *; [done|]. destruct (String.eqb symbol k2); set_solver.
Qed.

Lemma dset_elem {A} key (v : A) d kv : kv ∈ dset key v d → kv.1 = key ∨ kv ∈ d.
Proof.
  induction d as [|[k2 v2] d IH]; cbn; [set_solver|]. destruct (String.eqb_spec key k2) as [->|]; set_solver.
Qed.

Lemma apply_fill_positions s f r s' kv :
  apply_fill s f r = Ok s' → kv ∈ as_positions s' → kv.1 = fl_symbol f ∨ kv ∈ as_positions s.
Proof.
  unfold apply_fill. intros Hf Hin. apply bind_Ok_inv in Hf as ([] & _ & Hf). cbv zeta in Hf.
  apply bind_Ok_inv in Hf as ([[sc ps] rs] & Hc & Hf). apply validate_arm_inv in Hf as (-> & _). cbn in Hin. apply drop_zero_sub in Hin.
  destruct (fl_side f).
  - apply bind_Ok_inv in Hc as ([] & _ & Hc). apply bind_Ok_inv in Hc as ([] & _ & [= <- <- <-]). by apply dset_elem in Hin.
  - apply bind_Ok_inv in Hc as ([] & _ & Hc). apply bind_Ok_inv in Hc as ([] & _ & Hc). destruct r; [|done].
    apply bind_Ok_inv in Hc as ([] & _ & [= <- <- <-]). by apply dset_elem in Hin.
Qed.

(** a fill costs exactly its commission.  Marked at prices that give the filled symbol its fill price, the NAV of the arm
    after a BUY or SELL fill is the NAV before less the commission, and the state stays on the grid. *)
Theorem fill_changes_nav_by_commission s f r s' prices n :
  arm_on_grid s → fill_on_grid f → prices_on_grid prices → dget (fl_symbol f) prices = Some (fl_price f) →
  match r with Some x => on_grid (j + k) (ur_amount_usd x) | None => True end →
  cash_units s + market_units prices (as_positions s) + notional_units f + units (j + k) (fl_commission_usd f) < LIMIT →
  apply_fill s f r = Ok s' → nav s prices = Ok n →
  arm_on_grid s' ∧ ∃ n', nav s' prices = Ok n' ∧ units (j + k) n' = units (j + k) n - units (j + k) (fl_commission_usd f) ∧
    (dval n' == dval n - dval (fl_commission_usd f))%Q.
Proof.
  intros Hs Hf Hp Hprice Hr Hb Ha Hn. destruct (apply_fill_exact s f r s' prices) as (Hs' & Ec & Em); [done..|].
  split; [done|]. assert (is_ok (nav s' prices) = true) as [n' Hn']%is_ok_ex.
  { apply nav_ok_iff. intros kv Hin Hh. destruct (apply_fill_positions _ _ _ _ _ Ha Hin) as [->|Hin'].
    - unfold dmem. by rewrite Hprice.
    - assert (is_ok (nav s prices) = true) as Hok by (by rewrite Hn). rewrite nav_ok_iff in Hok. by apply Hok. }
  pose proof Hf as [[_ Uq] [_ Up] [Gc Uc]]. assert (0 < notional_units f) by (unfold notional_units; nia).
  destruct (nav_exact s prices n Hs Hp ltac:(lia) Hn) as [G1 U1].
  destruct (nav_exact s' prices n' Hs' Hp ltac:(lia) Hn') as [G2 U2].
  assert (units (j + k) n' = units (j + k) n - units (j + k) (fl_commission_usd f)) as E by lia.
  exists n'. split_and!; try done. rewrite (units_dval _ _ G2), (units_dval _ _ G1), (units_dval _ _ Gc), E.
  unfold Z.sub. rewrite inject_Z_plus, inject_Z_opp. ring.
Qed.

Lemma filter_out_one {A} (f : A → string) key (l : list A) x rest :
  NoDup (map f l) → List.filter (λ y, String.eqb (f y) key) l = x :: rest →
  f x = key ∧ l ≡ₚ x :: List.filter (λ y, negb (String.eqb (f y) key)) l.
Proof.
  induction l as [|y l IH]; cbn; [done|]. intros [H1 H2]%NoDup_cons. destruct (String.eqb_spec (f y) key) as [<-|Hne]; cbn.
  - intros [= -> _]. split; [done|]. f_equiv. rewrite filterb_all; [done|]. intros z Hz. apply negb_true_iff, String.eqb_neq.
    intros E. apply H1. rewrite <- E. apply list_elem_of_fmap. eauto.
  - intros Hf. destruct (IH H2 Hf) as [E Hp]. split; [done|]. rewrite Hp at 1. constructor.
Qed.

Lemma settle_units s rid s' :
  arm_on_grid s → cash_units s < LIMIT → settle s rid = Ok s' →
  arm_on_grid s' ∧ cash_units s' = cash_units s ∧ as_positions s' = as_positions s.
Proof.
  intros Hs Hb Hset. pose proof Hs as [[Gs Us] Gr Gp Hnd Hids]. unfold settle in Hset.
  destruct (List.filter (λ r, String.eqb (ur_receivable_id r) rid) (as_unsettled_receivables s)) as [|x rest] eqn:Ef.
  { by injection Hset as <-. }
  destruct (filter_out_one ur_receivable_id rid _ _ _ Hids Ef) as [Ex Hperm].
  pose proof (validate_arm_inv _ _ Hset) as (-> & _).
  set (rem := List.filter (λ r, negb (String.eqb (ur_receivable_id r) rid)) (as_unsettled_receivables s)) in *.
  assert (Forall (λ r, on_grid (j + k) (ur_amount_usd r) ∧ 0 < units (j + k) (ur_amount_usd r)) rem) as Gr'
    by (rewrite Forall_forall in *; intros y [_ Hy]%elem_of_filterb; auto).
  assert (on_grid (j + k) (ur_amount_usd x) ∧ 0 < units (j + k) (ur_amount_usd x)) as [Gx Ux]
    by (rewrite Hperm in Gr; by apply Forall_cons in Gr as [? _]).
  assert (zsum (map (λ r, units (j + k) (ur_amount_usd r)) (as_unsettled_receivables s)) =
    units (j + k) (ur_amount_usd x) + zsum (map (λ r, units (j + k) (ur_amount_usd r)) rem)) as Esum
    by (rewrite (zsum_perm _ _ (Permutation_map _ Hperm)); done).
  destruct (nonneg_sum (λ r, units (j + k) (ur_amount_usd r)) rem) as [N1 _]; [eapply Forall_impl; [exact Gr'|cbn; lia]|].
  unfold cash_units in Hb. destruct (dadd_units (j + k) (as_settled_cash_usd s) (ur_amount_usd x) Gs Gx) as [Ga Ua]; [lia|].
  split_and!.
  - constructor; cbn; [split; [done|lia]|done..|]. rewrite (Permutation_map _ Hperm) in Hids. cbn in Hids. by apply NoDup_cons in Hids as [_ ?].
  - unfold cash_units. cbn [as_settled_cash_usd as_unsettled_receivables]. rewrite Ua, Esum. lia.
  - done.
Qed.

(** settlement moves money, it does not create any.  Settling a receivable moves its amount from
    receivables to settled cash and leaves the exact total cash and the positions unchanged; the receivable is gone
    afterwards, and settling an unknown or already settled receivable changes nothing. *)
Theorem settle_conserves_total_cash s rid s' :
  arm_on_grid s → cash_units s < LIMIT → settle s rid = Ok s' →
  arm_on_grid s' ∧ cash_units s' = cash_units s ∧ as_positions s' = as_positions s ∧
  rid ∉ map ur_receivable_id (as_unsettled_receivables s') ∧ settle s' rid = Ok s' ∧
  (rid ∉ map ur_receivable_id (as_unsettled_receivables s) → s' = s).
Proof.
  intros Hs Hb Hset. destruct (settle_units _ _ _ Hs Hb Hset) as (Hs' & Ec & Ep). pose proof Hs as [_ _ _ _ Hids].
  assert (Hnone : ∀ l : list UnsettledReceivable, rid ∉ map ur_receivable_id l → List.filter (λ r, String.eqb (ur_receivable_id r) rid) l = []).
  { intros l Hl. apply filterb_nil. intros x Hx. apply String.eqb_neq. intros E. apply Hl. rewrite <- E. apply list_elem_of_fmap. eauto. }
  assert (rid ∉ map ur_receivable_id (as_unsettled_receivables s')) as Hni.
  { unfold settle in Hset. destruct (List.filter (λ r, String.eqb (ur_receivable_id r) rid) (as_unsettled_receivables s)) as [|x rest] eqn:Ef.
    - injection Hset as <-. intros (x & E & Hx)%list_elem_of_fmap.
      assert (x ∈ List.filter (λ r, String.eqb (ur_receivable_id r) rid) (as_unsettled_receivables s)) as Hin
        by (apply elem_of_filterb; split; [by apply String.eqb_eq|done]).
      rewrite Ef in Hin. set_solver.
    - pose proof (validate_arm_inv _ _ Hset) as (-> & _). cbn. intros (y & E & [Hy _]%elem_of_filterb)%list_elem_of_fmap.
      split_bool. apply String.eqb_neq in Hy. done. }
  split_and!; try done.
  - unfold settle. by rewrite (Hnone _ Hni).
  - intros Hn. unfold settle in Hset. rewrite (Hnone _ Hn) in Hset. by injection Hset as <-.
Qed.
(** ** Histories *)

Definition op_on_grid (op : arm_op) : Prop :=
  match op with
  | OpFill f r => fill_on_grid f ∧ match r with Some x => on_grid (j + k) (ur_amount_usd x) | None => True end
  | OpSettle _ => True
  end.

(** What a list of fills does to cash and to one symbol. *)
Definition cash_flow (fs : list Fill) : Z :=
  zsum (map (λ f, - side_sign f * notional_units f - units (j + k) (fl_commission_usd f)) fs).
Definition share_flow (symbol : string) (fs : list Fill) : Z :=
  zsum (map (λ f, if String.eqb (fl_symbol f) symbol then side_sign f * units j (fl_quantity f) else 0) fs).

(** Turnover: what bounds every intermediate amount. *)
Definition cash_turnover (fs : list Fill) : Z := zsum (map (λ f, notional_units f + units (j + k) (fl_commission_usd f)) fs).
Definition share_turnover (fs : list Fill) : Z := zsum (map (λ f, units j (fl_quantity f)) fs).

Lemma turnover_nonneg fs : Forall fill_on_grid fs → 0 <= cash_turnover fs ∧ 0 <= share_turnover fs.
Proof.
  induction 1 as [|f fs [[_ ?] [_ ?] [_ ?]] _ [IH1 IH2]]; [done|]. unfold cash_turnover, share_turnover in *. cbn [map]. rewrite !zsum_cons.
  assert (0 < notional_units f) by (unfold notional_units; nia). lia.
Qed.

Lemma op_fills_grid ops : Forall op_on_grid ops → Forall fill_on_grid (op_fills ops).
Proof. induction 1 as [|[f r|rid] ops Hop _ IH]; cbn; [constructor|constructor; [apply Hop|done]|done]. Qed.

Lemma position_units_update positions symbol q s :
  on_grid j q → NoDup positions.*1 →
  position_units (drop_zero symbol (dset symbol q positions)) s = if String.eqb s symbol then units j q else position_units positions s.
Proof.
  intros Gq Hnd. unfold drop_zero. rewrite dget_dset_eq. destruct (deqb q d0) eqn:Ez.
  - unfold position_units. rewrite dget_dpop, dget_dset by (by apply dset_NoDup).
    destruct (String.eqb s symbol); [|done]. rewrite (deqb_units j), units_d0, Z.eqb_eq in Ez by (done || by apply on_grid_d0). done.
  - unfold position_units. rewrite dget_dset. by destruct (String.eqb s symbol).
Qed.

Lemma arm_history_accounting_aux s ops s' :
  arm_on_grid s → Forall op_on_grid ops →
  cash_units s + cash_turnover (op_fills ops) < LIMIT →
  (∀ symbol, position_units (as_positions s) symbol + share_turnover (op_fills ops) < LIMIT) →
  run_ops s ops = Ok s' →
  arm_on_grid s' ∧ cash_units s' = cash_units s + cash_flow (op_fills ops) ∧
  ∀ symbol, position_units (as_positions s') symbol = position_units (as_positions s) symbol + share_flow symbol (op_fills ops).
Proof.
  revert s. induction ops as [|op ops IH]; intros s Hs Hops Hb Hb' Hrun.
  { injection Hrun as <-. split; [done|]. unfold cash_flow, share_flow. cbn. split; [lia|]. intros. lia. }
  cbn in Hrun. apply bind_Ok_inv in Hrun as (s1 & H1 & Hrun). apply Forall_cons in Hops as [Hop Hops].
  destruct (turnover_nonneg _ (op_fills_grid _ Hops)) as [T1 T2]. destruct op as [f r|rid]; cbn [run_op] in H1.
  - destruct Hop as [Hf Hr]. pose proof Hf as [[_ Uq] [_ Up] [_ Uc]]. pose proof Hs as [_ _ _ Hnd _].
    unfold op_fills in Hb, Hb' |- *. cbn [omap list_omap] in Hb, Hb' |- *. fold (op_fills ops) in Hb, Hb' |- *.
    unfold cash_turnover, share_turnover in Hb, Hb'. cbn [map] in Hb, Hb'. rewrite zsum_cons in Hb. setoid_rewrite zsum_cons in Hb'.
    fold (cash_turnover (op_fills ops)) in Hb. fold (share_turnover (op_fills ops)) in Hb'.
    assert (0 < notional_units f) by (unfold notional_units; nia).
    destruct (apply_fill_units s f r s1) as (Hs1 & Ec & q & Gq & Eq & _ & Ep); [done|done|done|lia|specialize (Hb' (fl_symbol f)); lia|done|].
    assert (Hpos : ∀ symbol, position_units (as_positions s1) symbol = position_units (as_positions s) symbol +
      (if String.eqb (fl_symbol f) symbol then side_sign f * units j (fl_quantity f) else 0)).
    { intros symbol. rewrite Ep, position_units_update, String.eqb_sym by done. destruct (String.eqb_spec (fl_symbol f) symbol) as [<-|]; lia. }
    assert (-1 <= side_sign f <= 1) as Hsg by (unfold side_sign; destruct (fl_side f); lia).
    destruct (IH s1 Hs1 Hops) as (Hs' & Ec' & Ep'); [nia| |done|].
    { intros symbol. specialize (Hb' symbol). rewrite Hpos. destruct (String.eqb _ _); nia. }
    split; [done|]. unfold cash_flow, share_flow in *. cbn [map]. split; [rewrite zsum_cons; lia|].
    intros symbol. rewrite Ep', Hpos, zsum_cons. lia.
  - change (op_fills (OpSettle rid :: ops)) with (op_fills ops) in *.
    destruct (settle_units s rid s1 Hs ltac:(lia) H1) as (Hs1 & Ec & Ep). rewrite <- Ec, <- Ep in *. by apply IH.
Qed.

(** C24: the state is the sum of its history.  After any sequence of accepted fills and settlements, total cash is the opening
    cash plus the signed notionals less the commissions, and every position is the opening position plus the signed
    fill quantities, exactly. *)
Theorem arm_history_accounting s ops s' :
  arm_on_grid s → Forall op_on_grid ops →
  cash_units s + cash_turnover (op_fills ops) < LIMIT →
  (∀ symbol, position_units (as_positions s) symbol + share_turnover (op_fills ops) < LIMIT) →
  run_ops s ops = Ok s' →
  arm_on_grid s' ∧ cash_units s' = cash_units s + cash_flow (op_fills ops) ∧
  ∀ symbol, position_units (as_positions s') symbol = position_units (as_positions s) symbol + share_flow symbol (op_fills ops).
Proof. apply arm_history_accounting_aux. Qed.
End accounting.

(** ** A concrete arm *)

Definition ex_arm : Q1ArmState := {|
  as_arm_id := "Q1-DET"; as_initial_nav_usd := Dec 10000000 (-2); as_settled_cash_usd := Dec 5000000 (-2);
  as_unsettled_receivables := [{| ur_receivable_id := "r-1"; ur_source_fill_id := "f-0"; ur_amount_usd := Dec 123450 (-2);
                                  ur_settlement_date := 20090; ur_created_at := utc 10 |}];
  as_positions := [("QQQ", Dec 80500000 (-6))]; as_sequence := 3; as_evaluation_anchor_id := None;
  as_algorithm_version := Q1_ALGORITHM_VERSION |}.
Definition ex_buy : Fill := {|
  fl_fill_id := "f-1"; fl_order_intent_id := "o-1"; fl_arm_id := "Q1-DET"; fl_symbol := "SOXX"; fl_side := BUY;
  fl_quantity := Dec 12500000 (-6); fl_price := Dec 2400500 (-4); fl_commission_usd := Dec 75 (-2);
  fl_execution_scenario_id := "s"; fl_effective_at := utc 20; fl_created_at := utc 20 |}.
Definition ex_prices : pydict dec := [("QQQ", Dec 6000000 (-4)); ("SOXX", Dec 2400500 (-4))].
Definition ex_arm_after : Q1ArmState := Eval vm_compute in match apply_fill ex_arm ex_buy None with Ok s => s | Raise _ => ex_arm end.
Definition ex_nav : dec := Eval vm_compute in match nav ex_arm ex_prices with Ok n => n | Raise _ => d0 end.

Lemma ex_arm_grid : arm_on_grid 6 4 ex_arm.
Proof.
  constructor; try (apply (bool_decide_eq_true_1 _); vm_compute; reflexivity);
    [|repeat apply Forall_cons_2; [|apply Forall_nil_2]|repeat apply Forall_cons_2; [|apply Forall_nil_2]]; split; by vm_compute.
Qed.

Lemma fill_changes_nav_by_commission_witness :
  ∃ n', nav ex_arm_after ex_prices = Ok n' ∧ (dval n' == dval ex_nav - dval (Dec 75 (-2)))%Q.
Proof.
  destruct (fill_changes_nav_by_commission 6 4 ltac:(lia) ltac:(lia) ex_arm ex_buy None ex_arm_after ex_prices ex_nav ex_arm_grid)
    as (_ & n' & H1 & _ & H2); [| | |exact I| | | |exists n'; split; [exact H1|exact H2]].
  - constructor; split; by vm_compute.
  - repeat apply Forall_cons_2; [..|apply Forall_nil_2]; split; by vm_compute.
  - reflexivity.
  - vm_compute. reflexivity.
  - vm_compute. reflexivity.
  - vm_compute. reflexivity.
Defined.

Lemma settle_conserves_total_cash_witness :
  match settle ex_arm "r-1" with
  | Ok s' => cash_units 6 4 s' = cash_units 6 4 ex_arm ∧ as_unsettled_receivables s' = []
  | Raise _ => False
  end.
Proof.
  destruct (settle ex_arm "r-1") as [s'|] eqn:E; [|vm_compute in E; discriminate E].
  split; [|vm_compute in E; injection E as <-; reflexivity].
  apply (settle_conserves_total_cash 6 4 ltac:(lia) ltac:(lia) ex_arm "r-1" s' ex_arm_grid); [vm_compute; reflexivity|exact E].
Defined.

(** The purchase, the settlement of the receivable and a partial sale of QQQ. *)
Definition ex_sale : Fill := {|
  fl_fill_id := "f-2"; fl_order_intent_id := "o-2"; fl_arm_id := "Q1-DET"; fl_symbol := "QQQ"; fl_side := SELL;
  fl_quantity := Dec 500000 (-6); fl_price := Dec 6000000 (-4); fl_commission_usd := Dec 15 (-2);
  fl_execution_scenario_id := "s"; fl_effective_at := utc 30; fl_created_at := utc 30 |}.
Definition ex_ops : list arm_op :=
  [OpFill ex_buy None; OpSettle "r-1";
   OpFill ex_sale (Some {| ur_receivable_id := "r-2"; ur_source_fill_id := "f-2"; ur_amount_usd := Dec 29985 (-2);
                           ur_settlement_date := 20091; ur_created_at := utc 30 |})].
Definition ex_final : Q1ArmState := Eval vm_compute in match run_ops ex_arm ex_ops with Ok s => s | Raise _ => ex_arm end.

Lemma arm_history_accounting_witness :
  position_units 6 (as_positions ex_final) "QQQ" = 80000000 ∧ arm_on_grid 6 4 ex_final.
Proof.
  destruct (arm_history_accounting 6 4 ltac:(lia) ltac:(lia) ex_arm ex_ops ex_final ex_arm_grid) as (H1 & _ & H2).
  - repeat apply Forall_cons_2; [..|apply Forall_nil_2]; try (split; [constructor; split|]); by vm_compute.
  - vm_compute. reflexivity.
  - intros symbol. assert (position_units 6 (as_positions ex_arm) symbol <= 80500000) as Hp.
    { unfold position_units. cbn. destruct (String.eqb symbol "QQQ"); vm_compute; discriminate. }
    assert (share_turnover 6 (op_fills ex_ops) = 13000000) as -> by (vm_compute; reflexivity).
    assert (80500000 + 13000000 < LIMIT) by (vm_compute; reflexivity). lia.
  - vm_compute. reflexivity.
  - rewrite H2. split; [vm_compute; reflexivity|exact H1].
Defined.
