(* ===== verification/Text.v ===== *)
(** * Reading numbers, dates and datetimes back from text

    The constructors [Decimal(str)] and [int(str)] and the classmethods [date.fromisoformat] and [datetime.fromisoformat] of
    the Python standard library, on the forms the program writes: decimals in positional or exponent notation, extended ISO
    dates, and datetimes with seconds, optional microseconds and an optional UTC offset.  Other spellings Python accepts
    (spaces, underscores, NaN and infinities, basic and week dates) are errors here.  Every reader undoes its writer. *)
From Stdlib Require Import ZArith Lia Ascii String QArith Lqa.
From stdpp Require Import base list strings numbers.
From S2P Require Import Prelude PyDecimal Hashing.
Set Default Goal Selector "!".
Open Scope Z_scope.

(** ** Digits *)

Definition digit_value (c : ascii) : option Z :=
  let n := Z.of_N (N_of_ascii c) in if (48 <=? n) && (n <=? 57) then Some (n - 48) else None.

(** The longest run of digits: its value after [v], their number after [k] and the rest. *)
Fixpoint read_digits (s : string) (v k : Z) : Z * Z * string :=
  match s with
  | EmptyString => (v, k, EmptyString)
  | String c s' => match digit_value c with Some d => read_digits s' (10 * v + d) (k + 1) | None => (v, k, s) end
  end.

(** Exactly [w] digits. *)
Fixpoint read_fixed (w : nat) (s : string) (v : Z) : option (Z * string) :=
  match w, s with
  | O, _ => Some (v, s)
  | S w, String c s => d ← digit_value c; read_fixed w s (10 * v + d)
  | S _, EmptyString => None
  end.

Definition expect (c : ascii) (s : string) : option string :=
  match s with String d s => if Ascii.eqb c d then Some s else None | EmptyString => None end.

Definition read_sign (s : string) : bool * string :=
  match s with
  | String c s' => if Ascii.eqb c "-"%char then (true, s') else if Ascii.eqb c "+"%char then (false, s') else (false, s)
  | EmptyString => (false, s)
  end.

Definition signed (neg : bool) (v : Z) : Z := if neg then - v else v.

(** ** [int(s)] and [Decimal(s)] *)

Definition int_of_string (s : string) : res Z :=
  let '(neg, s) := read_sign s in
  match read_digits s 0 0 with
  | (v, k, EmptyString) => if 0 <? k then Ok (signed neg v) else raise ValueError "invalid literal for int()"
  | _ => raise ValueError "invalid literal for int()"
  end.

Definition read_exponent (s : string) : option Z :=
  match s with
  | EmptyString => Some 0
  | String c s =>
      if Ascii.eqb c "E"%char || Ascii.eqb c "e"%char then
        let '(neg, s) := read_sign s in
        match read_digits s 0 0 with (v, k, EmptyString) => if 0 <? k then Some (signed neg v) else None | _ => None end
      else None
  end.

Definition decimal_of_string (s : string) : res dec :=
  let '(neg, s) := read_sign s in
  let '(v, k, s) := read_digits s 0 0 in
  let '(v, f, s) := match expect "."%char s with Some s => read_digits s v 0 | None => (v, 0, s) end in
  match (if 0 <? k + f then read_exponent s else None) with
  | Some e => Ok (Dec (signed neg v) (e - f))
  | None => raise InvalidOperation "ConversionSyntax"
  end.

(** ** Dates *)

Definition is_leap (y : Z) : bool := (y mod 4 =? 0) && (negb (y mod 100 =? 0) || (y mod 400 =? 0)).

Definition days_in_month (y m : Z) : Z :=
  if m =? 2 then (if is_leap y then 29 else 28)
  else if (m =? 4) || (m =? 6) || (m =? 9) || (m =? 11) then 30 else 31.

(** [date(y, m, d)] exists. *)
Definition valid_date (y m d : Z) : bool :=
  (1 <=? y) && (y <=? 9999) && (1 <=? m) && (m <=? 12) && (1 <=? d) && (d <=? days_in_month y m).

Definition days_from_civil (y m d : Z) : Z :=
  let y' := if m <=? 2 then y - 1 else y in
  let mp := if m <=? 2 then m + 9 else m - 3 in
  let yoe := y' mod 400 in
  let doe := yoe * 365 + yoe / 4 - yoe / 100 + ((153 * mp + 2) / 5 + d - 1) in
  y' / 400 * 146097 + doe - 719468.

Definition read_date (s : string) : option (Z * string) :=
  '(y, s) ← read_fixed 4 s 0; s ← expect "-"%char s;
  '(m, s) ← read_fixed 2 s 0; s ← expect "-"%char s;
  '(d, s) ← read_fixed 2 s 0;
  if valid_date y m d then Some (days_from_civil y m d, s) else None.

Definition date_fromisoformat (s : string) : res date :=
  match read_date s with Some (d, EmptyString) => Ok d | _ => raise ValueError "Invalid isoformat string" end.

(** ** Datetimes *)

(** [value.astimezone(UTC).isoformat()]: microseconds are written only when they are not zero. *)
Definition datetime_iso (t : datetime) : string :=
  let day := instant t / 86400000000 in
  let r := instant t mod 86400000000 in
  let s := r / 1000000 in
  let us := r mod 1000000 in
  String.append (date_isoformat day)
    (String "T"%char (digits_pad 2 (s / 3600) (String ":"%char (digits_pad 2 (s / 60 mod 60)
       (String ":"%char (digits_pad 2 (s mod 60)
          (if us =? 0 then "+00:00" else String "."%char (digits_pad 6 us "+00:00")))))))).

(** [HH:MM:SS[.ffffff]] in microseconds. *)
Definition read_time (s : string) : option (Z * string) :=
  '(hh, s) ← read_fixed 2 s 0; s ← expect ":"%char s;
  '(mm, s) ← read_fixed 2 s 0; s ← expect ":"%char s;
  '(ss, s) ← read_fixed 2 s 0;
  '(us, s) ← match expect "."%char s with Some s => read_fixed 6 s 0 | None => Some (0, s) end;
  if (hh <? 24) && (mm <? 60) && (ss <? 60) then Some (((hh * 60 + mm) * 60 + ss) * 1000000 + us, s) else None.

(** [time.fromisoformat(s)]: [HH:MM] or [HH:MM:SS[.ffffff]], in microseconds. *)
Definition time_fromisoformat (s : string) : res Z :=
  match read_time (if Nat.eqb (String.length s) 5 then String.append s ":00" else s) with
  | Some (us, EmptyString) => Ok us
  | _ => raise ValueError "Invalid isoformat string"
  end.

(** The offset in minutes; [None] for a naive datetime. *)
Definition read_offset (s : string) : option (option Z) :=
  match s with
  | EmptyString => Some None
  | "Z" => Some (Some 0)
  | String c s' =>
      if Ascii.eqb c "+"%char || Ascii.eqb c "-"%char then
        '(hh, r) ← read_fixed 2 s' 0; r ← expect ":"%char r; '(mm, r) ← read_fixed 2 r 0;
        match r with
        | EmptyString => if (hh <? 24) && (mm <? 60) then Some (Some (signed (Ascii.eqb c "-"%char) (hh * 60 + mm))) else None
        | _ => None
        end
      else None
  end.

(** Any separator is accepted between the date and the time. *)
Definition datetime_fromisoformat (s : string) : res datetime :=
  match ('(day, s) ← read_date s;
         match s with String _ s => '(us, s) ← read_time s; o ← read_offset s; Some (day, us, o) | EmptyString => Some (day, 0, None) end) with
  | Some (day, us, Some minutes) => Ok (DT (day * 86400000000 + us - minutes * 60000000) true)
  | Some (day, us, None) => Ok (DT (day * 86400000000 + us) false)
  | None => raise ValueError "Invalid isoformat string"
  end.

(** ** Readers undo writers *)

Lemma digit_value_char d : 0 <= d < 10 → digit_value (digit_char d) = Some d.
Proof.
  intros Hd. assert (forallb (λ d, bool_decide (digit_value (digit_char d) = Some d)) (seqZ 0 10) = true) as Hall by (vm_compute; reflexivity).
  rewrite forallb_forall in Hall. apply (bool_decide_eq_true_1 _), Hall, list_elem_of_In, elem_of_seqZ. lia.
Qed.

Lemma digits_step w n v : 0 <= w → 10 * (v * 10 ^ w + n / 10 mod 10 ^ w) + n mod 10 = v * 10 ^ (w + 1) + n mod 10 ^ (w + 1).
Proof.
  intros Hw. rewrite Z.pow_add_r, Z.pow_1_r by lia. rewrite (Z.mul_comm (10 ^ w) 10) at 2.
  rewrite Z.rem_mul_r by lia. ring.
Qed.

Lemma read_digits_pad w n acc v k :
  read_digits (digits_pad w n acc) v k = read_digits acc (v * 10 ^ Z.of_nat w + n mod 10 ^ Z.of_nat w) (k + Z.of_nat w).
Proof.
  revert n acc. induction w as [|w IH]; intros n acc; cbn [digits_pad].
  { cbn. rewrite Z.mod_1_r. f_equal; lia. }
  rewrite IH. cbn [read_digits]. rewrite digit_value_char by (apply Z.mod_pos_bound; lia).
  rewrite digits_step by lia. replace (Z.of_nat (S w)) with (Z.of_nat w + 1) by lia. f_equal. lia.
Qed.

Lemma read_fixed_pad_gen w m n acc v :
  read_fixed (w + m) (digits_pad w n acc) v = read_fixed m acc (v * 10 ^ Z.of_nat w + n mod 10 ^ Z.of_nat w).
Proof.
  revert m n acc. induction w as [|w IH]; intros m n acc; cbn [digits_pad].
  { cbn [Nat.add]. f_equal. cbn. rewrite Z.mod_1_r. lia. }
  replace (S w + m)%nat with (w + S m)%nat by lia. rewrite IH. cbn [read_fixed].
  rewrite digit_value_char by (apply Z.mod_pos_bound; lia). cbn [mbind option_bind].
  rewrite digits_step by lia. by replace (Z.of_nat (S w)) with (Z.of_nat w + 1) by lia.
Qed.

Lemma read_fixed_pad w n acc : 0 <= n < 10 ^ Z.of_nat w → read_fixed w (digits_pad w n acc) 0 = Some (n, acc).
Proof.
  intros Hn. pose proof (read_fixed_pad_gen w 0 n acc 0) as H. rewrite Nat.add_0_r in H. rewrite H. cbn [read_fixed].
  by rewrite Z.mod_small.
Qed.

(** Text that does not go on with a digit. *)
Definition no_digit (s : string) : Prop := match s with EmptyString => True | String c _ => digit_value c = None end.

Lemma read_digits_stop s v k : no_digit s → read_digits s v k = (v, k, s).
Proof. destruct s as [|c s]; cbn; [done|]. by intros ->. Qed.

Lemma read_pad w n acc v k :
  0 <= n < 10 ^ Z.of_nat w → no_digit acc →
  read_digits (digits_pad w n acc) v k = (v * 10 ^ Z.of_nat w + n, k + Z.of_nat w, acc).
Proof. intros Hn Ha. by rewrite read_digits_pad, Z.mod_small, read_digits_stop. Qed.

(** ** Integers and decimals *)

Lemma ndigits_pos n : 0 <= n → 1 <= ndigits n ∧ n < 10 ^ ndigits n.
Proof.
  intros Hn. destruct (Z.eq_dec n 0) as [->|Hne]; [by vm_compute|]. destruct (ndigits_spec n Hne) as [H1 H2]. lia.
Qed.

Lemma digits_pad_append w n acc r : String.append (digits_pad w n acc) r = digits_pad w n (String.append acc r).
Proof. revert n acc. induction w as [|w IH]; intros n acc; cbn; [done|]. by rewrite IH. Qed.

Lemma read_zeros j v k : read_digits (zeros j) v k = (v * 10 ^ Z.of_nat j, k + Z.of_nat j, EmptyString).
Proof.
  revert v k. induction j as [|j IH]; intros v k; [cbn; f_equal; f_equal; lia|]. cbn [zeros read_digits].
  change (digit_value "0"%char) with (Some 0). cbn match. rewrite IH. replace (Z.of_nat (S j)) with (Z.of_nat j + 1) by lia.
  rewrite Z.pow_add_r by lia. do 2 f_equal; lia.
Qed.

(** A positional number starts with a digit, so it is read as unsigned. *)
Lemma read_sign_pad w n acc : (0 < w)%nat → read_sign (digits_pad w n acc) = (false, digits_pad w n acc).
Proof.
  intros Hw. destruct (digits_pad w n acc) as [|c s] eqn:E; [done|].
  pose proof (read_fixed_pad_gen w 0 n acc 0) as Hf. rewrite E, Nat.add_0_r in Hf. destruct w as [|w]; [lia|]. cbn [read_fixed] in Hf.
  unfold read_sign. destruct (Ascii.eqb_spec c "-"%char) as [->|_]; [cbn in Hf; discriminate|].
  destruct (Ascii.eqb_spec c "+"%char) as [->|_]; [cbn in Hf; discriminate|done].
Qed.

Lemma read_sign_signed (neg : bool) w n acc :
  (0 < w)%nat → read_sign (String.append (if neg then "-" else "") (digits_pad w n acc)) = (neg, digits_pad w n acc).
Proof. intros Hw. destruct neg; [done|]. by apply read_sign_pad. Qed.

Lemma int_of_string_Z n : int_of_string (string_of_Z n) = Ok n.
Proof.
  assert (string_of_Z n = String.append (if n <? 0 then "-" else "") (string_of_nonneg (Z.abs n))) as ->.
  { unfold string_of_Z. destruct (Z.ltb_spec n 0); [by rewrite Z.abs_neq by lia|by rewrite Z.abs_eq by lia]. }
  destruct (ndigits_pos (Z.abs n)) as [H1 H2]; [lia|].
  unfold int_of_string, string_of_nonneg. rewrite read_sign_signed by lia.
  rewrite read_pad by (done || (rewrite Z2Nat.id; lia)). rewrite (proj2 (Z.ltb_lt _ _)) by lia.
  f_equal. unfold signed. destruct (Z.ltb_spec n 0); lia.
Qed.

(** The value a decimal has once written out: a positive exponent becomes zeros. *)
Definition written (d : dec) : dec := if 0 <=? dexp d then Dec (dcoef d * 10 ^ dexp d) 0 else d.

Lemma written_value d : (dval (written d) == dval d)%Q.
Proof.
  unfold written. destruct (Z.leb_spec 0 (dexp d)); [|done]. unfold dval. cbn [dcoef dexp].
  rewrite (q10_Z (dexp d)), inject_Z_mult by lia. change (q10 0) with 1%Q. ring.
Qed.

Lemma decimal_of_integer (neg : bool) n j :
  0 <= n → decimal_of_string (String.append (if neg then "-" else "") (digits_pad (Z.to_nat (ndigits n)) n (zeros j)))
           = Ok (Dec (signed neg (n * 10 ^ Z.of_nat j)) 0).
Proof.
  intros Hn. destruct (ndigits_pos n Hn) as [H1 H2]. unfold decimal_of_string. rewrite read_sign_signed by lia.
  rewrite read_digits_pad, read_zeros, Z.mod_small by (rewrite Z2Nat.id; lia). cbn [expect].
  rewrite (proj2 (Z.ltb_lt 0 _)) by lia. cbn [read_exponent]. by rewrite Z.mul_0_l.
Qed.

Lemma decimal_of_fraction (neg : bool) n f m :
  0 <= n → 0 < f → 0 <= m < 10 ^ f →
  decimal_of_string (String.append (if neg then "-" else "")
    (digits_pad (Z.to_nat (ndigits n)) n (String "."%char (digits_pad (Z.to_nat f) m EmptyString))))
  = Ok (Dec (signed neg (n * 10 ^ f + m)) (- f)).
Proof.
  intros Hn Hf Hm. destruct (ndigits_pos n Hn) as [H1 H2]. unfold decimal_of_string. rewrite read_sign_signed by lia.
  rewrite read_pad by (done || (rewrite Z2Nat.id; lia)). cbn [expect]. change (Ascii.eqb "."%char "."%char) with true. cbn match.
  rewrite read_pad by (done || (rewrite Z2Nat.id; lia)). rewrite !Z2Nat.id by lia. rewrite (proj2 (Z.ltb_lt _ _)) by lia. cbn [read_exponent].
  by rewrite Z.mul_0_l, !Z.add_0_l.
Qed.

(** [Decimal(format(d, "f"))] *)
Lemma decimal_of_format d : decimal_of_string (format_f d) = Ok (written d).
Proof.
  unfold format_f, written, string_of_nonneg. destruct d as [c e]. cbn [dcoef dexp].
  assert (Hs : ∀ v, 0 <= v → signed (c <? 0) (Z.abs c * v) = c * v).
  { intros v Hv. unfold signed. destruct (Z.ltb_spec c 0); [rewrite Z.abs_neq by lia; ring|by rewrite Z.abs_eq]. }
  destruct (Z.leb_spec 0 e).
  - destruct (Z.eqb_spec (Z.abs c) 0) as [E|E].
    + assert (c = 0) as -> by lia. done.
    + rewrite digits_pad_append. change (String.append EmptyString ?r) with r. rewrite decimal_of_integer by lia.
      rewrite Z2Nat.id, Hs by lia. done.
  - rewrite digits_pad_append. change (String.append EmptyString ?r) with r.
    assert (0 < 10 ^ (- e)) by (apply Z.pow_pos_nonneg; lia).
    rewrite decimal_of_fraction; [|apply Z.div_pos; lia|lia|by apply Z.mod_pos_bound].
    rewrite (Z.mul_comm (_ / _)), <- Z.div_mod by lia. specialize (Hs 1). rewrite !Z.mul_1_r in Hs. rewrite Hs, Z.opp_involutive by lia. done.
Qed.

(** ** Dates and datetimes *)

(** Year and day of a day of the 400-year era. *)
Lemma year_of_era doe :
  0 <= doe < 146097 →
  let yoe := (doe - doe / 1460 + doe / 36524 - doe / 146096) / 365 in
  let doy := doe - (365 * yoe + yoe / 4 - yoe / 100) in
  0 <= yoe <= 399 ∧ 0 <= doy <= 365 ∧ (doy = 365 → is_leap (yoe + 1) = true).
Proof.
  intros Hd yoe doy.
  assert (0 <= yoe <= 399) as Hy by (unfold yoe; Z.to_euclidean_division_equations; lia).
  assert (0 <= doy <= 365) as Hdoy by (unfold doy, yoe in *; clear doy; Z.to_euclidean_division_equations; lia).
  split_and!; try lia.
  intros E. unfold is_leap. 
  assert ((yoe + 1) mod 4 = 0 ∧ ((yoe + 1) mod 100 ≠ 0 ∨ (yoe + 1) mod 400 = 0)) as [H4 H100].
  { unfold doy, yoe in *; clear doy. Z.to_euclidean_division_equations; lia. }
  rewrite H4. destruct (Z.eqb_spec ((yoe + 1) mod 100) 0), (Z.eqb_spec ((yoe + 1) mod 400) 0); naive_solver.
Qed.

(** Month and day of a day of the year that starts in March. *)
Lemma month_of_year doy :
  0 <= doy <= 365 →
  let mp := (5 * doy + 2) / 153 in
  let d := doy - (153 * mp + 2) / 5 + 1 in
  0 <= mp <= 11 ∧ 1 <= d ∧
  (mp ≠ 11 → d <= if (mp =? 1) || (mp =? 3) || (mp =? 6) || (mp =? 8) then 30 else 31) ∧
  (mp = 11 → d <= 29 ∧ (doy ≠ 365 → d <= 28)).
Proof.
  intros Hd mp d.
  assert (0 <= mp <= 11) as Hm by (unfold mp; Z.to_euclidean_division_equations; lia).
  split_and!; try lia; try (unfold d, mp; Z.to_euclidean_division_equations; lia).
  intros Hne. destruct ((mp =? 1) || (mp =? 3) || (mp =? 6) || (mp =? 8)) eqn:E;
    unfold d, mp in *; clear d mp; Z.to_euclidean_division_equations; lia.
Qed.

Lemma is_leap_period y era : is_leap (y + era * 400) = is_leap y.
Proof.
  unfold is_leap. rewrite Z.mod_add by lia. replace (y + era * 400) with (y + (era * 4) * 100) by ring. rewrite (Z.mod_add y (era * 4) 100) by lia.
  replace (y + era * 4 * 100) with (y + (era * 100) * 4) by ring. by rewrite Z.mod_add by lia.
Qed.

(** The days of the years 1 to 9999. *)
Definition in_calendar (day : Z) : Prop := -719162 <= day <= 2932896.

(** The calendar date of a day exists and determines the day. *)
Lemma civil_round_trip day y m d :
  in_calendar day → civil_from_days day = (y, m, d) → valid_date y m d = true ∧ days_from_civil y m d = day.
Proof.
  unfold in_calendar, civil_from_days. set (z := day + 719468). set (era := z / 146097). set (doe := z mod 146097).
  intros Hc Hciv. assert (0 <= doe < 146097) as Hdoe by (apply Z.mod_pos_bound; lia).
  destruct (year_of_era doe Hdoe) as (Hyoe & Hdoy & Hleap).
  set (yoe := (doe - doe / 1460 + doe / 36524 - doe / 146096) / 365) in *.
  set (doy := doe - (365 * yoe + yoe / 4 - yoe / 100)) in *.
  destruct (month_of_year doy Hdoy) as (Hmp & Hd1 & Hd2 & Hd3). set (mp := (5 * doy + 2) / 153) in *.
  set (dd := doy - (153 * mp + 2) / 5 + 1) in *.
  assert (z = era * 146097 + doe) as Hz by (unfold era, doe; rewrite (Z.div_mod z 146097) at 1; lia).
  injection Hciv as Hy Hm Hd.
  assert (yoe + era * 400 = if m <=? 2 then y - 1 else y) as Hy'.
  { rewrite <- Hy, <- Hm. destruct (Z.ltb_spec mp 10); destruct (Z.leb_spec (mp + 3) 2), (Z.leb_spec (mp - 9) 2); lia. }
  assert (mp = if m <=? 2 then m + 9 else m - 3) as Hmp'.
  { rewrite <- Hm. destruct (Z.ltb_spec mp 10); destruct (Z.leb_spec (mp + 3) 2), (Z.leb_spec (mp - 9) 2); lia. }
  split.
  - assert (1 <= y <= 9999) as Hyr.
    { assert (doe = 365 * yoe + yoe / 4 - yoe / 100 + doy) by (unfold doy; lia). rewrite <- Hy. unfold z in Hz.
      assert (mp < 10 ↔ doy < 306) by (unfold mp; clear; Z.to_euclidean_division_equations; lia).
      clearbody era doe yoe doy mp dd z. destruct (Z.ltb_spec mp 10).
      - destruct (Z.leb_spec (mp + 3) 2); Z.to_euclidean_division_equations; lia.
      - destruct (Z.leb_spec (mp - 9) 2); Z.to_euclidean_division_equations; lia. }
    assert (1 <= m <= 12) as Hmr by (rewrite <- Hm; destruct (Z.ltb_spec mp 10); lia).
    assert (mp = 11 → is_leap y = is_leap (yoe + 1)) as Hly.
    { intros E. rewrite <- (is_leap_period (yoe + 1) era). f_equal. revert Hy' Hmp'. clear Hm. destruct (Z.leb_spec m 2); lia. }
    unfold valid_date, days_in_month. clear Hm. subst d.
    rewrite !andb_true_iff, !Z.leb_le. split_and!; try lia. destruct (Z.eqb_spec m 2) as [->|].
    { cbn in Hmp'. destruct (Hd3 Hmp') as [? Hd4]. rewrite Hly by done. destruct (is_leap (yoe + 1)); [done|]. apply Hd4.
      intros E. by specialize (Hleap E). }
    assert (mp ≠ 11) as Hne by (destruct (Z.leb_spec m 2); lia). specialize (Hd2 Hne). etransitivity; [exact Hd2|].
    destruct (Z.leb_spec m 2); repeat case_match; split_bool; lia.
  - unfold days_from_civil. rewrite <- Hy', <- Hmp', <- Hd.
    rewrite Z.mod_add, Z.mod_small, Z.div_add, Z.div_small by lia. unfold dd, doy. lia.
Qed.

Lemma expect_char c s : expect c (String c s) = Some s.
Proof. cbn. by rewrite Ascii.eqb_refl. Qed.

Lemma date_isoformat_append day r :
  String.append (date_isoformat day) r =
  let '(y, m, d) := civil_from_days day in
  digits_pad 4 y (String "-"%char (digits_pad 2 m (String "-"%char (digits_pad 2 d r)))).
Proof.
  unfold date_isoformat. by destruct (civil_from_days day) as [[y m] d].
Qed.

Lemma days_in_month_le y m : days_in_month y m <= 31.
Proof. unfold days_in_month. repeat case_match; lia. Qed.

Lemma read_date_iso day r : in_calendar day → read_date (String.append (date_isoformat day) r) = Some (day, r).
Proof.
  intros Hc. rewrite date_isoformat_append. destruct (civil_from_days day) as [[y m] d] eqn:E.
  destruct (civil_round_trip day y m d Hc E) as [Hv Hd]. unfold read_date.
  pose proof (days_in_month_le y m). pose proof Hv as Hv'. unfold valid_date in Hv'. rewrite !andb_true_iff, !Z.leb_le in Hv'.
  rewrite read_fixed_pad by (cbn; lia). cbn [mbind option_bind]. rewrite expect_char. cbn [mbind option_bind].
  rewrite read_fixed_pad by (cbn; lia). cbn [mbind option_bind]. rewrite expect_char. cbn [mbind option_bind].
  rewrite read_fixed_pad by (cbn; lia). cbn [mbind option_bind]. by rewrite Hv, Hd.
Qed.

Lemma append_empty s : String.append s EmptyString = s.
Proof. induction s as [|c s IH]; [done|]. change (String c (String.append s "") = String c s). by f_equal. Qed.

(** [date.fromisoformat(d.isoformat())] *)
Lemma date_fromisoformat_iso day : in_calendar day → date_fromisoformat (date_isoformat day) = Ok day.
Proof. intros Hc. unfold date_fromisoformat. by rewrite <- (append_empty (date_isoformat day)), read_date_iso. Qed.

Lemma read_time_iso r tail :
  0 <= r < 86400000000 → expect "."%char tail = None →
  read_time (digits_pad 2 (r / 1000000 / 3600) (String ":"%char (digits_pad 2 (r / 1000000 / 60 mod 60) (String ":"%char
    (digits_pad 2 (r / 1000000 mod 60) (if r mod 1000000 =? 0 then tail else String "."%char (digits_pad 6 (r mod 1000000) tail)))))))
  = Some (r, tail).
Proof.
  intros Hr Ht. unfold read_time. set (s := r / 1000000). set (us := r mod 1000000).
  assert (r = s * 1000000 + us ∧ 0 <= us < 1000000 ∧ 0 <= s < 86400) as (Er & Hus & Hs)
    by (unfold s, us; Z.to_euclidean_division_equations; lia).
  assert (s = (s / 3600 * 60 + s / 60 mod 60) * 60 + s mod 60 ∧ 0 <= s / 3600 < 24 ∧ 0 <= s / 60 mod 60 < 60 ∧ 0 <= s mod 60 < 60)
    as (Es & Hh & Hmn & Hsec) by (clearbody s; clear - Hs; Z.to_euclidean_division_equations; lia).
  clearbody s us. set (hh := s / 3600) in *. set (mm := s / 60 mod 60) in *. set (ss := s mod 60) in *. clearbody hh mm ss.
  rewrite read_fixed_pad by (cbn; lia). cbn [mbind option_bind]. rewrite expect_char. cbn [mbind option_bind].
  rewrite read_fixed_pad by (cbn; lia). cbn [mbind option_bind]. rewrite expect_char. cbn [mbind option_bind].
  rewrite read_fixed_pad by (cbn; lia). cbn [mbind option_bind].
  assert (match expect "."%char (if us =? 0 then tail else String "."%char (digits_pad 6 us tail)) with
          | Some s => read_fixed 6 s 0
          | None => Some (0, if us =? 0 then tail else String "."%char (digits_pad 6 us tail)) end = Some (us, tail)) as ->.
  { destruct (Z.eqb_spec us 0) as [->|]; [by rewrite Ht|]. rewrite expect_char. apply read_fixed_pad. cbn. lia. }
  cbn [mbind option_bind]. rewrite !(proj2 (Z.ltb_lt _ _)) by lia. cbn [andb]. do 2 f_equal. lia.
Qed.

(** [datetime.fromisoformat(value.astimezone(UTC).isoformat())] *)
Lemma datetime_fromisoformat_iso t :
  in_calendar (instant t / 86400000000) → datetime_fromisoformat (datetime_iso t) = Ok (DT (instant t) true).
Proof.
  intros Hc. unfold datetime_fromisoformat, datetime_iso. rewrite read_date_iso by done. cbn [mbind option_bind].
  rewrite read_time_iso; [|apply Z.mod_pos_bound; lia|done]. cbn [mbind option_bind].
  assert (read_offset "+00:00" = Some (Some 0)) as -> by (vm_compute; reflexivity). cbn [mbind option_bind].
  do 2 f_equal. rewrite (Z.div_mod (instant t) 86400000000) at 3 by lia. lia.
Qed.
