(* ===== verification/Payload.v ===== *)
(** * Stored arm states ([runtime/q1_state.py]: [as_payload] and [from_payload])

    The JSON payload an arm state is stored as in its snapshots, and the constructor that reads it back.  Decimals are written
    in positional notation and datetimes in UTC, so the state read back may print differently and lists its positions and
    receivables in key order, but it holds the same amounts. *)
From Stdlib Require Import ZArith Lia Ascii String QArith Lqa.
From stdpp Require Import base list strings numbers sets.
From S2P Require Import Prelude PyDecimal Hashing Domain ArmState Text.
Set Default Goal Selector "!".
Open Scope Z_scope.

(** [_aware(value)] *)
Definition _aware (value : datetime) : datetime := if tz_aware value then value else DT (instant value) true.

Definition receivable_as_payload (r : UnsettledReceivable) : pyval := PDict
  [("receivable_id", PStr (ur_receivable_id r)); ("source_fill_id", PStr (ur_source_fill_id r));
   ("amount_usd", PStr (format_f (ur_amount_usd r))); ("settlement_date", PStr (date_isoformat (ur_settlement_date r)));
   ("created_at", PStr (datetime_iso (_aware (ur_created_at r))))].

(** [str(value)] of a JSON scalar; the text of a container is never read and is an error here. *)
Definition py_str (v : pyval) : res string :=
  match v with
  | PStr s => Ok s
  | PInt z => Ok (string_of_Z z)
  | PBool b => Ok (if b then "True" else "False")
  | PNone => Ok "None"
  | _ => raise ValueError "not a JSON scalar"
  end.

(** [str(payload[k])] *)
Definition str_at (k : string) (payload : pydict pyval) : res string := v ← dindex k payload; py_str v.

Definition receivable_from_payload (payload : pydict pyval) : res UnsettledReceivable :=
  receivable_id ← str_at "receivable_id" payload;
  source_fill_id ← str_at "source_fill_id" payload;
  amount ← str_at "amount_usd" payload; amount_usd ← decimal_of_string amount;
  day ← str_at "settlement_date" payload; settlement_date ← date_fromisoformat day;
  created ← str_at "created_at" payload; created_at ← datetime_fromisoformat created;
  validate_UnsettledReceivable {| ur_receivable_id := receivable_id; ur_source_fill_id := source_fill_id; ur_amount_usd := amount_usd;
    ur_settlement_date := settlement_date; ur_created_at := created_at |}.

(** [sorted(self.unsettled_receivables, key=lambda value: value.receivable_id)] *)
Definition receivables_by_id (s : Q1ArmState) : list UnsettledReceivable :=
  sorted (λ a b, String.leb (ur_receivable_id a) (ur_receivable_id b)) (as_unsettled_receivables s).

Definition as_payload (s : Q1ArmState) : pydict pyval :=
  [("schema_version", PStr "q1_arm_state_v1"); ("algorithm_version", PStr (as_algorithm_version s)); ("arm_id", PStr (as_arm_id s));
   ("initial_nav_usd", PStr (format_f (as_initial_nav_usd s))); ("settled_cash_usd", PStr (format_f (as_settled_cash_usd s)));
   ("unsettled_cash_usd", PStr (format_f (unsettled_cash_usd s)));
   ("unsettled_receivables", PList (map receivable_as_payload (receivables_by_id s)));
   ("positions", PDict (map (λ kv, (kv.1, PStr (format_f kv.2))) (sorted_items (as_positions s))));
   ("sequence", PInt (as_sequence s));
   ("evaluation_anchor_id", match as_evaluation_anchor_id s with Some a => PStr a | None => PNone end)].

(** [for item in receivables if isinstance(item, dict)] *)
Definition dict_items (l : list pyval) : list (pydict pyval) := omap (λ v, match v with PDict d => Some d | _ => None end) l.

(** [str(symbol): Decimal(str(quantity))] *)
Definition read_position (kv : string * pyval) : res (string * dec) := q ← py_str kv.2; d ← decimal_of_string q; Ok (kv.1, d).

Definition read_anchor (payload : pydict pyval) : res (option string) :=
  match dget "evaluation_anchor_id" payload with
  | None | Some PNone => Ok None
  | Some v => s ← py_str v; Ok (Some s)
  end.

Definition from_payload (payload : pydict pyval) : res Q1ArmState :=
  raise_if (match dget "schema_version" payload with Some (PStr v) => negb (String.eqb v "q1_arm_state_v1") | _ => true end)
    ValueError "Not a q1_arm_state_v1 payload";;
  match dget "positions" payload, dget "unsettled_receivables" payload with
  | Some (PDict positions), Some (PList receivables) =>
      arm_id ← str_at "arm_id" payload;
      nav ← str_at "initial_nav_usd" payload; initial_nav_usd ← decimal_of_string nav;
      cash ← str_at "settled_cash_usd" payload; settled_cash_usd ← decimal_of_string cash;
      unsettled_receivables ← mapM_res receivable_from_payload (dict_items receivables);
      pairs ← mapM_res read_position positions;
      seq ← str_at "sequence" payload; sequence ← int_of_string seq;
      evaluation_anchor_id ← read_anchor payload;
      algorithm_version ← str_at "algorithm_version" payload;
      validate_Q1ArmState {| as_arm_id := arm_id; as_initial_nav_usd := initial_nav_usd; as_settled_cash_usd := settled_cash_usd;
        as_unsettled_receivables := unsettled_receivables; as_positions := dict_of_pairs pairs; as_sequence := sequence;
        as_evaluation_anchor_id := evaluation_anchor_id; as_algorithm_version := algorithm_version |}
  | _, _ => raise ValueError "Malformed Q1 arm state payload"
  end.

(** ** Round trip *)

(** The state that is read back. *)
Definition stored_receivable (r : UnsettledReceivable) : UnsettledReceivable :=
  {| ur_receivable_id := ur_receivable_id r; ur_source_fill_id := ur_source_fill_id r; ur_amount_usd := written (ur_amount_usd r);
     ur_settlement_date := ur_settlement_date r; ur_created_at := _aware (ur_created_at r) |}.

Definition stored (s : Q1ArmState) : Q1ArmState :=
  {| as_arm_id := as_arm_id s; as_initial_nav_usd := written (as_initial_nav_usd s); as_settled_cash_usd := written (as_settled_cash_usd s);
     as_unsettled_receivables := map stored_receivable (receivables_by_id s);
     as_positions := map (λ kv, (kv.1, written kv.2)) (sorted_items (as_positions s)); as_sequence := as_sequence s;
     as_evaluation_anchor_id := as_evaluation_anchor_id s; as_algorithm_version := as_algorithm_version s |}.

(** A constructed state whose dates lie in the calendar of the years 1 to 9999. *)
Record storable_state (s : Q1ArmState) : Prop := {
  ss_valid : validate_Q1ArmState s = Ok s;
  ss_positions : NoDup (as_positions s).*1;
  ss_receivables : Forall (λ r, validate_UnsettledReceivable r = Ok r) (as_unsettled_receivables s);
  ss_dates : Forall (λ r, in_calendar (ur_settlement_date r) ∧ in_calendar (instant (ur_created_at r) / 86400000000)) (as_unsettled_receivables s);
}.

(** Same amounts: equality of states up to the spelling of decimals and the order of positions and receivables. *)
Definition receivable_equiv (a b : UnsettledReceivable) : Prop :=
  ur_receivable_id a = ur_receivable_id b ∧ ur_source_fill_id a = ur_source_fill_id b ∧ (dval (ur_amount_usd a) == dval (ur_amount_usd b))%Q ∧
  ur_settlement_date a = ur_settlement_date b ∧ instant (ur_created_at a) = instant (ur_created_at b).

Record state_equiv (a b : Q1ArmState) : Prop := {
  se_arm : as_arm_id a = as_arm_id b;
  se_nav : (dval (as_initial_nav_usd a) == dval (as_initial_nav_usd b))%Q;
  se_cash : (dval (as_settled_cash_usd a) == dval (as_settled_cash_usd b))%Q;
  se_receivables : ∃ l, l ≡ₚ as_unsettled_receivables a ∧ Forall2 receivable_equiv l (as_unsettled_receivables b);
  se_positions : ∀ s, match dget s (as_positions a), dget s (as_positions b) with
                      | Some p, Some q => (dval p == dval q)%Q | None, None => True | _, _ => False end;
  se_sequence : as_sequence a = as_sequence b;
  se_anchor : as_evaluation_anchor_id a = as_evaluation_anchor_id b;
  se_version : as_algorithm_version a = as_algorithm_version b;
}.

Lemma written_compare d : (written d <? d0)%dec = (d <? d0)%dec ∧ (written d <=? d0)%dec = (d <=? d0)%dec.
Proof.
  pose proof (written_value d) as E. split; apply eq_true_iff_eq; [rewrite !dltb_lt|rewrite !dleb_le]; by rewrite E.
Qed.

Lemma receivable_round_trip r :
  validate_UnsettledReceivable r = Ok r → in_calendar (ur_settlement_date r) → in_calendar (instant (ur_created_at r) / 86400000000) →
  ∃ d, receivable_as_payload r = PDict d ∧ receivable_from_payload d = Ok (stored_receivable r).
Proof.
  intros Hv H1 H2. eexists. split; [reflexivity|]. unfold receivable_from_payload, str_at. cbn -[decimal_of_string date_fromisoformat datetime_fromisoformat format_f date_isoformat datetime_iso].
  rewrite decimal_of_format, date_fromisoformat_iso by done. cbn [mbind res_bind].
  rewrite datetime_fromisoformat_iso by (unfold _aware; by destruct (tz_aware (ur_created_at r))). cbn [mbind res_bind].
  unfold validate_UnsettledReceivable in Hv |- *. cbn [ur_amount_usd ur_created_at tz_aware negb].
  rewrite (proj2 (written_compare _)). apply bind_Ok_inv in Hv as (u & -> & Hv). cbn [mbind res_bind raise_if].
  apply bind_Ok_inv in Hv as (u' & Ha & _). apply raise_if_Ok_inv, negb_false_iff in Ha.
  unfold stored_receivable, _aware. rewrite Ha. by destruct (ur_created_at r) as [i []].
Qed.

Lemma receivables_round_trip l :
  Forall (λ r, validate_UnsettledReceivable r = Ok r) l →
  Forall (λ r, in_calendar (ur_settlement_date r) ∧ in_calendar (instant (ur_created_at r) / 86400000000)) l →
  mapM_res receivable_from_payload (dict_items (map receivable_as_payload l)) = Ok (map stored_receivable l).
Proof.
  induction l as [|r l IH]; intros [Hv Hl]%Forall_cons_1 [[H1 H2] Hc]%Forall_cons_1 || intros _ _; [done|].
  destruct (receivable_round_trip r Hv H1 H2) as (d & E & Hd). cbn [map]. rewrite E. cbn. rewrite Hd. cbn.
  unfold dict_items in IH. by rewrite IH.
Qed.

Lemma positions_round_trip l :
  mapM_res read_position (map (λ kv : string * dec, (kv.1, PStr (format_f kv.2))) l) = Ok (map (λ kv, (kv.1, written kv.2)) l).
Proof.
  induction l as [|[k q] l IH]; [done|]. cbn [map mapM_res fst snd].
  assert (read_position (k, PStr (format_f q)) = Ok (k, written q)) as ->
    by (unfold read_position; cbn [fst snd py_str mbind res_bind]; by rewrite decimal_of_format).
  cbn [mbind res_bind]. by rewrite IH.
Qed.

Lemma stored_keys (l : pydict dec) : (map (λ kv, (kv.1, written kv.2)) l).*1 = l.*1.
Proof. induction l as [|[k q] l IH]; cbn; [done|]. by rewrite IH. Qed.

Lemma stored_receivable_ids s : map ur_receivable_id (map stored_receivable (receivables_by_id s)) ≡ₚ map ur_receivable_id (as_unsettled_receivables s).
Proof. rewrite map_map. cbn. apply Permutation_map. apply sorted_perm. Qed.

Lemma no_shorts (l : pydict dec) :
  existsb (λ kv, (kv.2 <? d0)%dec) (map (λ kv, (kv.1, written kv.2)) (sorted_items l)) = existsb (λ kv, (kv.2 <? d0)%dec) l.
Proof.
  apply eq_true_iff_eq. rewrite !existsb_exists. setoid_rewrite <- list_elem_of_In. split.
  - intros (kv & (kv' & -> & Hin)%list_elem_of_fmap & Hs). rewrite sorted_items_perm in Hin. exists kv'. split; [done|].
    by rewrite <- (proj1 (written_compare _)).
  - intros (kv & Hin & Hs). exists (kv.1, written kv.2). split; [|by rewrite <- Hs; apply written_compare].
    apply list_elem_of_fmap. exists kv. by rewrite sorted_items_perm.
Qed.

Lemma stored_valid s : validate_Q1ArmState s = Ok s → validate_Q1ArmState (stored s) = Ok (stored s).
Proof.
  assert (has_dup (map ur_receivable_id (as_unsettled_receivables (stored s))) = has_dup (map ur_receivable_id (as_unsettled_receivables s))) as Hd.
  { unfold has_dup. f_equal. apply bool_decide_ext. cbn [stored as_unsettled_receivables]. by rewrite stored_receivable_ids. }
  unfold validate_Q1ArmState. rewrite Hd. cbn [stored as_algorithm_version as_initial_nav_usd as_settled_cash_usd as_sequence as_positions].
  rewrite no_shorts, !(proj1 (written_compare _)). intros Hv. inv_ok. by rewrite E, E0, E1, E2, E3.
Qed.

Lemma stored_equiv s : NoDup (as_positions s).*1 → state_equiv s (stored s).
Proof.
  intros Hn. split; cbn [stored as_arm_id as_initial_nav_usd as_settled_cash_usd as_unsettled_receivables as_positions as_sequence
    as_evaluation_anchor_id as_algorithm_version]; try done.
  - symmetry. apply written_value.
  - symmetry. apply written_value.
  - exists (receivables_by_id s). split; [apply sorted_perm|]. induction (receivables_by_id s) as [|r l IH]; constructor; [|done].
    split_and!; try done; [symmetry; apply written_value|]. cbn. unfold _aware. by destruct (tz_aware (ur_created_at r)).
  - intros k. pose proof (sorted_items_perm (as_positions s)) as Hp.
    destruct (dget k (as_positions s)) as [q|] eqn:E.
    + rewrite (dget_elem k (written q)); [symmetry; apply written_value|by rewrite stored_keys, Hp|].
      apply list_elem_of_fmap. exists (k, q). split; [done|]. rewrite Hp. by apply dget_Some_elem.
    + rewrite (proj2 (dget_None_not_key k _)); [done|]. rewrite stored_keys, Hp. by apply dget_None_not_key.
Qed.

Lemma read_anchor_payload s : read_anchor (as_payload s) = Ok (as_evaluation_anchor_id s).
Proof. unfold read_anchor. cbn. by destruct (as_evaluation_anchor_id s). Qed.

(** C39: a stored arm state is read back.  Every constructed state whose dates lie in the calendar, written with [as_payload]
    and read with [from_payload], is accepted and holds the same identity, sequence, cash, positions and receivables:
    the amounts are equal as numbers and the dates as instants. *)
Theorem payload_round_trip s :
  storable_state s → from_payload (as_payload s) = Ok (stored s) ∧ state_equiv s (stored s).
Proof.
  intros [Hv Hn Hr Hd]. split; [|by apply stored_equiv]. unfold from_payload, str_at.
  cbn -[decimal_of_string int_of_string mapM_res format_f string_of_Z read_anchor].
  rewrite !decimal_of_format. cbn [mbind res_bind]. unfold receivables_by_id.
  rewrite receivables_round_trip by (by rewrite sorted_perm). cbn [mbind res_bind].
  rewrite positions_round_trip, int_of_string_Z. cbn [mbind res_bind].
  rewrite dict_of_pairs_id by (by rewrite stored_keys, sorted_items_perm).
  rewrite read_anchor_payload.
  cbn [mbind res_bind]. by apply stored_valid.
Qed.

(** A state with a receivable, a position written with an exponent, and the payload it is stored as. *)
Definition ex_receivable : UnsettledReceivable :=
  {| ur_receivable_id := "r-1"; ur_source_fill_id := "f-1"; ur_amount_usd := Dec 125050 (-2); ur_settlement_date := 20300;
     ur_created_at := utc 1753822800000000 |}.
Definition ex_arm : Q1ArmState :=
  {| as_arm_id := "Q1-DET"; as_initial_nav_usd := Dec 1 5; as_settled_cash_usd := Dec 9800075 (-2); as_unsettled_receivables := [ex_receivable];
     as_positions := [("QQQ", Dec 1250000 (-6)); ("IWM", Dec 3 0)]; as_sequence := 4; as_evaluation_anchor_id := None;
     as_algorithm_version := Q1_ALGORITHM_VERSION |}.

Lemma payload_round_trip_witness :
  ∃ s, from_payload (as_payload ex_arm) = Ok s ∧ as_initial_nav_usd s = Dec 100000 0 ∧ as_positions s = [("IWM", Dec 3 0); ("QQQ", Dec 1250000 (-6))].
Proof.
  exists (stored ex_arm). split; [|split; vm_compute; reflexivity]. apply payload_round_trip. constructor.
  - vm_compute. reflexivity.
  - apply (bool_decide_eq_true_1 _). vm_compute. reflexivity.
  - constructor; [vm_compute; reflexivity|constructor].
  - constructor; [split; split; vm_compute; discriminate|constructor].
Defined.
