(* ===== verification/Journal.v ===== *)
(** * Double-entry journal and NAV ([ledger/journal.py], [ledger/nav.py])

    Every economic event is a balanced transaction; holdings are rebuilt from the postings alone. *)
From Stdlib Require Import ZArith Lia Ascii String QArith Lqa.
From stdpp Require Import base list strings numbers sets.
From S2P Require Import Prelude PyDecimal Hashing Domain ArmState.
Set Default Goal Selector "!".
Open Scope Z_scope.

Definition BALANCE_TOLERANCE : dec := Dec 1 (-6).

Section journal.
Context `{Digest}.

Definition capital_entry (arm_id : string) (amount : dec) (effective_at : datetime) : res LedgerEntry :=
  transaction_id ← stable_id "ltx" [PStr arm_id; PStr "INITIAL_CAPITAL"; PStr (dec_str amount)];
  source_id ← stable_id "capital" [PStr arm_id];
  transaction ← validate_LedgerTransaction {|
    lt_ledger_transaction_id := transaction_id; lt_arm_id := arm_id; lt_transaction_type := "INITIAL_CAPITAL";
    lt_source_id := source_id; lt_effective_at := effective_at; lt_created_at := effective_at |};
  cash_id ← stable_id "post" [PStr transaction_id; PStr "cash"];
  equity_id ← stable_id "post" [PStr transaction_id; PStr "equity"];
  validate_LedgerEntry {|
    le_transaction := transaction;
    le_postings :=
      [{| lp_posting_id := cash_id; lp_ledger_transaction_id := transaction_id; lp_account_code := "CASH";
          lp_asset_code := "USD_CASH"; lp_quantity_delta := amount; lp_usd_value_delta := amount; lp_metadata := [] |};
       {| lp_posting_id := equity_id; lp_ledger_transaction_id := transaction_id;
          lp_account_code := "EQUITY:CONTRIBUTED_CAPITAL"; lp_asset_code := "USD_CASH"; lp_quantity_delta := d0;
          lp_usd_value_delta := (- amount)%dec; lp_metadata := [] |}] |}.

(** [seen_transactions] and [seen_postings] of [validate_entries]. *)
Definition validate_step (seen : list string * list string) (entry : LedgerEntry) : res (list string * list string) :=
  let transaction_id := lt_ledger_transaction_id (le_transaction entry) in
  raise_if (bool_decide (transaction_id ∈ seen.1)) ValueError "Duplicate ledger transaction";;
  let balance := dsum (map lp_usd_value_delta (le_postings entry)) in
  raise_if (BALANCE_TOLERANCE <? dabs balance)%dec ValueError "Unbalanced ledger transaction";;
  postings ← foldM (λ seen_postings posting,
    raise_if (bool_decide (lp_posting_id posting ∈ seen_postings)) ValueError "Duplicate ledger posting";;
    Ok (lp_posting_id posting :: seen_postings)) seen.2 (le_postings entry);
  Ok (transaction_id :: seen.1, postings).

Definition validate_entries (entries : list LedgerEntry) : res () :=
  _ ← foldM validate_step ([], []) entries; Ok ().

(** The loop over [sorted(positions)] of [portfolio_opening_entry]; the state is [(postings, total_value)]. *)
Definition opening_step (source_id transaction_id : string) (positions prices : pydict dec)
    (st : list LedgerPosting * dec) (symbol : string) : res (list LedgerPosting * dec) :=
  quantity ← dindex symbol positions;
  price ← dindex symbol prices;
  let value := (quantity * price)%dec in
  posting_id ← stable_id "post" [PStr transaction_id; PStr "asset"; PStr symbol];
  Ok (st.1 ++ [{| lp_posting_id := posting_id; lp_ledger_transaction_id := transaction_id;
                  lp_account_code := "ASSET:SECURITY"; lp_asset_code := symbol; lp_quantity_delta := quantity;
                  lp_usd_value_delta := value;
                  lp_metadata := [("source_id", source_id); ("opening_mark", format_f price)] |}],
      (st.2 + value)%dec).

Definition portfolio_opening_entry (arm_id source_id : string) (cash_usd : dec) (positions prices : pydict dec)
    (effective_at : datetime) : res LedgerEntry :=
  raise_if (existsb (λ kv, negb (dmem kv.1 prices)) positions) ValueError "Missing opening prices for: ";;
  raise_if ((cash_usd <? d0)%dec || existsb (λ kv, (kv.2 <=? d0)%dec) positions)
    ValueError "Opening paper holdings must be non-negative";;
  transaction_id ← stable_id "ltx" [PStr source_id; PStr arm_id; PStr "PAPER_OPENING_BALANCE"];
  transaction ← validate_LedgerTransaction {|
    lt_ledger_transaction_id := transaction_id; lt_arm_id := arm_id; lt_transaction_type := "PAPER_OPENING_BALANCE";
    lt_source_id := source_id; lt_effective_at := effective_at; lt_created_at := effective_at |};
  cash_id ← stable_id "post" [PStr transaction_id; PStr "cash"];
  let cash_posting := {| lp_posting_id := cash_id; lp_ledger_transaction_id := transaction_id; lp_account_code := "CASH";
    lp_asset_code := "USD_CASH"; lp_quantity_delta := cash_usd; lp_usd_value_delta := cash_usd;
    lp_metadata := [("source_id", source_id)] |} in
  st ← foldM (opening_step source_id transaction_id positions prices) ([cash_posting], cash_usd)
         (sorted String.leb positions.*1);
  equity_id ← stable_id "post" [PStr transaction_id; PStr "equity"];
  entry ← validate_LedgerEntry {|
    le_transaction := transaction;
    le_postings := st.1 ++
      [{| lp_posting_id := equity_id; lp_ledger_transaction_id := transaction_id;
          lp_account_code := "EQUITY:OPENING_BALANCE"; lp_asset_code := "USD_CASH"; lp_quantity_delta := d0;
          lp_usd_value_delta := (- st.2)%dec; lp_metadata := [("source_id", source_id)] |}] |};
  validate_entries [entry];;
  Ok entry.

(** [(asset_quantity, asset_value, cash_quantity)] of [fill_entry]. *)
Definition fill_deltas (fill : Fill) : dec * dec * dec :=
  let notional := (fl_quantity fill * fl_price fill)%dec in
  match fl_side fill with
  | BUY => (fl_quantity fill, notional, - (notional + fl_commission_usd fill))%dec
  | SELL => (- fl_quantity fill, - notional, notional - fl_commission_usd fill)%dec
  end.

Definition fill_entry (fill : Fill) : res LedgerEntry :=
  transaction_id ← stable_id "ltx" [PStr (fl_arm_id fill); PStr (fl_fill_id fill)];
  transaction ← validate_LedgerTransaction {|
    lt_ledger_transaction_id := transaction_id; lt_arm_id := fl_arm_id fill; lt_transaction_type := "FILL";
    lt_source_id := fl_fill_id fill; lt_effective_at := fl_effective_at fill; lt_created_at := fl_created_at fill |};
  let '(asset_quantity, asset_value, cash_quantity) := fill_deltas fill in
  asset_id ← stable_id "post" [PStr transaction_id; PStr "asset"];
  cash_id ← stable_id "post" [PStr transaction_id; PStr "cash"];
  fee_id ← stable_id "post" [PStr transaction_id; PStr "fee"];
  let metadata := [("fill_id", fl_fill_id fill)] in
  validate_LedgerEntry {|
    le_transaction := transaction;
    le_postings :=
      [{| lp_posting_id := asset_id; lp_ledger_transaction_id := transaction_id; lp_account_code := "ASSET:SECURITY";
          lp_asset_code := fl_symbol fill; lp_quantity_delta := asset_quantity; lp_usd_value_delta := asset_value;
          lp_metadata := metadata |};
       {| lp_posting_id := cash_id; lp_ledger_transaction_id := transaction_id; lp_account_code := "CASH";
          lp_asset_code := "USD_CASH"; lp_quantity_delta := cash_quantity; lp_usd_value_delta := cash_quantity;
          lp_metadata := metadata |};
       {| lp_posting_id := fee_id; lp_ledger_transaction_id := transaction_id; lp_account_code := "EXPENSE:COMMISSION";
          lp_asset_code := "USD_CASH"; lp_quantity_delta := d0; lp_usd_value_delta := fl_commission_usd fill;
          lp_metadata := metadata |}] |}.

(** Sort key [(effective_at, ledger_transaction_id)]. *)
Definition entry_le (a b : LedgerEntry) : bool :=
  let ta := instant (lt_effective_at (le_transaction a)) in
  let tb := instant (lt_effective_at (le_transaction b)) in
  (ta <? tb) || ((ta =? tb) && String.leb (lt_ledger_transaction_id (le_transaction a)) (lt_ledger_transaction_id (le_transaction b))).

(** One posting of the loop of [rebuild_holdings]. *)
Definition post_step (st : dec * pydict dec) (posting : LedgerPosting) : dec * pydict dec :=
  if String.eqb (lp_account_code posting) "CASH" then ((st.1 + lp_quantity_delta posting)%dec, st.2)
  else if String.eqb (lp_account_code posting) "ASSET:SECURITY" then
    (st.1, dset (lp_asset_code posting)
             (match dget (lp_asset_code posting) st.2 with Some q => q | None => d0 end + lp_quantity_delta posting)%dec st.2)
  else st.

Definition rebuild_holdings (entries : list LedgerEntry) : res (dec * pydict dec) :=
  validate_entries entries;;
  Ok (fold_left post_step (concat (map le_postings (sorted entry_le entries))) (d0, [])).

Definition CENT : dec := Dec 1 (-2).

Definition calculate_nav (arm_id : string) (as_of : datetime) (cash_usd : dec) (positions prices : pydict dec) : res NavSnapshot :=
  raise_if (existsb (λ kv, negb (dmem kv.1 prices)) positions) ValueError "Missing NAV prices for: ";;
  values ← mapM_res (position_value prices) positions;
  market_value ← dquantize (dsum values) CENT ROUND_HALF_EVEN;
  rounded_cash ← dquantize cash_usd CENT ROUND_HALF_EVEN;
  let nav := (rounded_cash + market_value)%dec in
  price_hash ← canonical_hash (PDict (map (λ kv, (kv.1, PStr (dec_str kv.2))) prices));
  nav_id ← stable_id "nav" [PStr arm_id; PDatetime as_of; PStr price_hash];
  validate_NavSnapshot {|
    nv_nav_snapshot_id := nav_id; nv_arm_id := arm_id; nv_as_of := as_of; nv_cash_usd := rounded_cash;
    nv_positions_market_value_usd := market_value; nv_nav_usd := nav; nv_price_manifest_hash := price_hash;
    nv_created_at := as_of |}.
End journal.

(** ** Rebuilding is exact summation *)

Section rebuild.
Context (j k : Z).
Hypothesis Hj : 0 <= j.
Hypothesis Hk : 0 <= k.

Definition is_cash (p : LedgerPosting) : bool := String.eqb (lp_account_code p) "CASH".
Definition is_asset (p : LedgerPosting) : bool := negb (is_cash p) && String.eqb (lp_account_code p) "ASSET:SECURITY".

(** What a posting adds to cash and to one symbol. *)
Definition cash_part (p : LedgerPosting) : Z := if is_cash p then units (j + k) (lp_quantity_delta p) else 0.
Definition share_part (symbol : string) (p : LedgerPosting) : Z :=
  if is_asset p && String.eqb (lp_asset_code p) symbol then units j (lp_quantity_delta p) else 0.

Definition posting_on_grid (p : LedgerPosting) : Prop :=
  (is_cash p = true → on_grid (j + k) (lp_quantity_delta p)) ∧ (is_asset p = true → on_grid j (lp_quantity_delta p)).

Lemma position_units_dset positions symbol q s :
  position_units j (dset symbol q positions) s = if String.eqb s symbol then units j q else position_units j positions s.
Proof. unfold position_units. rewrite dget_dset. by destruct (String.eqb s symbol). Qed.

Lemma post_fold_units ps c pos :
  on_grid (j + k) c → Forall (λ kv, on_grid j kv.2) pos → Forall posting_on_grid ps →
  Z.abs (units (j + k) c) + zsum (map Z.abs (map cash_part ps)) < LIMIT →
  (∀ s, Z.abs (position_units j pos s) + zsum (map Z.abs (map (share_part s) ps)) < LIMIT) →
  let r := fold_left post_step ps (c, pos) in
  on_grid (j + k) r.1 ∧ units (j + k) r.1 = units (j + k) c + zsum (map cash_part ps) ∧
  ∀ s, position_units j r.2 s = position_units j pos s + zsum (map (share_part s) ps).
Proof.
  revert c pos. induction ps as [|p ps IH]; intros c pos Gc Gpos Hps Hb Hb'.
  { cbn. split_and!; [done|lia|intros; unfold zsum; cbn; lia]. }
  apply Forall_cons in Hps as [[Hp1 Hp2] Hps]. cbn [map] in Hb, Hb'. rewrite zsum_cons in Hb. setoid_rewrite zsum_cons in Hb'.
  pose proof (zsum_abs_nonneg (map cash_part ps)) as Z1. assert (∀ s, 0 <= zsum (map Z.abs (map (share_part s) ps))) as Z2 by (intros; apply zsum_abs_nonneg).
  cbn [fold_left map]. unfold cash_part at 1 in Hb. unfold share_part at 1 in Hb'. unfold is_asset in *.
  destruct (is_cash p) eqn:Ec; cbn [negb andb fst snd] in *.
  - assert (post_step (c, pos) p = ((c + lp_quantity_delta p)%dec, pos)) as -> by (unfold post_step; fold (is_cash p); by rewrite Ec).
    specialize (Hp1 eq_refl). destruct (dadd_units (j + k) c (lp_quantity_delta p) Gc Hp1) as [Ga Ua]; [lia|].
    destruct (IH (c + lp_quantity_delta p)%dec pos Ga Gpos Hps) as (I1 & I2 & I3); [lia|intros s; specialize (Hb' s); lia|].
    cbv zeta. split_and!; [done| |].
    + rewrite I2, Ua, zsum_cons. unfold cash_part at 2. rewrite Ec. lia.
    + intros s. rewrite I3, zsum_cons. unfold share_part at 2, is_asset. rewrite Ec. cbn. lia.
  - destruct (String.eqb (lp_account_code p) "ASSET:SECURITY") eqn:Ea; cbn [andb] in Hb'.
    + specialize (Hp2 eq_refl). set (cur := match dget (lp_asset_code p) pos with Some q => q | None => d0 end).
      assert (post_step (c, pos) p = (c, dset (lp_asset_code p) (cur + lp_quantity_delta p)%dec pos)) as ->
        by (unfold post_step; fold (is_cash p); by rewrite Ec, Ea).
      assert (on_grid j cur ∧ units j cur = position_units j pos (lp_asset_code p)) as [Gcur Ucur].
      { unfold cur, position_units. destruct (dget (lp_asset_code p) pos) eqn:E; [|split; [by apply on_grid_d0|apply units_d0]].
        apply dget_Some_elem in E. rewrite Forall_forall in Gpos. split; [exact (Gpos _ E)|done]. }
      pose proof (Hb' (lp_asset_code p)) as Hbp. rewrite String.eqb_refl in Hbp. specialize (Z2 (lp_asset_code p)) as Z2p.
      destruct (dadd_units j cur (lp_quantity_delta p) Gcur Hp2) as [Gq Uq]; [lia|].
      destruct (IH c (dset (lp_asset_code p) (cur + lp_quantity_delta p)%dec pos) Gc) as (I1 & I2 & I3);
        [by apply Forall_dset|done|lia| |].
      { intros s. rewrite position_units_dset. specialize (Hb' s). destruct (String.eqb_spec s (lp_asset_code p)) as [->|]; [lia|].
        destruct (String.eqb_spec (lp_asset_code p) s); [congruence|lia]. }
      cbv zeta. split_and!; [done| |].
      * rewrite I2, zsum_cons. unfold cash_part at 2. rewrite Ec. lia.
      * intros s. rewrite I3, zsum_cons, position_units_dset. unfold share_part at 2, is_asset. rewrite Ec, Ea. cbn [negb andb].
        rewrite (String.eqb_sym s). destruct (String.eqb_spec (lp_asset_code p) s) as [<-|]; lia.
    + assert (post_step (c, pos) p = (c, pos)) as -> by (unfold post_step; fold (is_cash p); by rewrite Ec, Ea).
      destruct (IH c pos Gc Gpos Hps) as (I1 & I2 & I3); [lia|intros s; specialize (Hb' s); lia|].
      cbv zeta. split_and!; [done| |].
      * rewrite I2, zsum_cons. unfold cash_part at 2. rewrite Ec. lia.
      * intros s. rewrite I3, zsum_cons. unfold share_part at 2, is_asset. rewrite Ec, Ea. cbn. lia.
Qed.

(** ** When validation passes *)

Definition all_postings (entries : list LedgerEntry) : list LedgerPosting := concat (map le_postings entries).

Lemma all_postings_perm l1 l2 : l1 ≡ₚ l2 → all_postings l1 ≡ₚ all_postings l2.
Proof.
  unfold all_postings. induction 1 as [|e l l' _ IH|e1 e2 l|? ? ? _ IH1 _ IH2]; cbn; [done|by apply Permutation_app_head| |by etrans].
  rewrite !app_assoc. apply Permutation_app_tail, Permutation_app_comm.
Qed.

Lemma posting_loop_ok l seen :
  NoDup (map lp_posting_id l) → (∀ p, p ∈ l → lp_posting_id p ∉ seen) →
  foldM (λ seen_postings posting,
    raise_if (bool_decide (lp_posting_id posting ∈ seen_postings)) ValueError "Duplicate ledger posting";;
    Ok (lp_posting_id posting :: seen_postings)) seen l = Ok (rev (map lp_posting_id l) ++ seen).
Proof.
  revert seen. induction l as [|p l IH]; intros seen Hn Hd; cbn; [done|]. apply NoDup_cons in Hn as [Hn1 Hn2].
  rewrite bool_decide_eq_false_2 by (apply Hd; left). cbn. rewrite IH; [by rewrite <- app_assoc|done|].
  intros q Hq. apply not_elem_of_cons. split; [|apply Hd; by right]. intros E. apply Hn1. rewrite <- E. apply list_elem_of_fmap. eauto.
Qed.

Lemma validate_entries_ok entries :
  Forall (λ e, validate_LedgerEntry e = Ok e) entries →
  NoDup (map (λ e, lt_ledger_transaction_id (le_transaction e)) entries) → NoDup (map lp_posting_id (all_postings entries)) →
  validate_entries entries = Ok ().
Proof.
  intros Hv Hn Hp. unfold validate_entries.
  assert (Hgen : ∀ seen, (∀ e, e ∈ entries → lt_ledger_transaction_id (le_transaction e) ∉ seen.1) →
    (∀ p, p ∈ all_postings entries → lp_posting_id p ∉ seen.2) → is_ok (foldM validate_step seen entries) = true).
  { induction entries as [|e l IH]; intros seen H1 H2; cbn [foldM]; [done|].
    apply Forall_cons in Hv as [Hve Hv]. apply NoDup_cons in Hn as [Hn1 Hn2]. unfold all_postings in Hp, H2. cbn in Hp, H2.
    rewrite map_app in Hp. apply NoDup_app in Hp as (Hp1 & Hp2 & Hp3). unfold validate_step at 2.
    rewrite bool_decide_eq_false_2 by (apply H1; left). cbn [raise_if mbind res_bind]. cbv zeta.
    assert ((BALANCE_TOLERANCE <? dabs (dsum (map lp_usd_value_delta (le_postings e))))%dec = false) as ->
      by (unfold validate_LedgerEntry in Hve; unfold_validator; done).
    cbn [raise_if mbind res_bind]. rewrite posting_loop_ok by (done || (intros p Hpp; apply H2; set_solver)). cbn [mbind res_bind].
    apply IH; try done; cbn [fst snd].
    - intros e' He'. apply not_elem_of_cons. split; [|apply H1; by right]. intros E. apply Hn1. rewrite <- E. apply list_elem_of_fmap. eauto.
    - intros p Hpp. rewrite elem_of_app, list_elem_of_In, <- in_rev, <- list_elem_of_In. intros [Hin|Hin].
      + apply (Hp2 _ Hin). apply list_elem_of_fmap. eauto.
      + apply (H2 p); [|done]. set_solver. }
  specialize (Hgen ([], [])). destruct (foldM validate_step ([], []) entries); [done|].
  exfalso. assert (false = true); [|done]. apply Hgen; intros; cbn; set_solver.
Qed.

(** Validated, on-grid entries with distinct identifiers are rebuilt into the exact sums of their postings, in whatever order
    they are stored. *)
Lemma rebuild_exact entries :
  Forall (λ e, validate_LedgerEntry e = Ok e) entries →
  NoDup (map (λ e, lt_ledger_transaction_id (le_transaction e)) entries) → NoDup (map lp_posting_id (all_postings entries)) →
  Forall posting_on_grid (all_postings entries) →
  zsum (map Z.abs (map cash_part (all_postings entries))) < LIMIT →
  (∀ s, zsum (map Z.abs (map (share_part s) (all_postings entries))) < LIMIT) →
  ∃ cash positions, rebuild_holdings entries = Ok (cash, positions) ∧ on_grid (j + k) cash ∧
    units (j + k) cash = zsum (map cash_part (all_postings entries)) ∧
    ∀ s, position_units j positions s = zsum (map (share_part s) (all_postings entries)).
Proof.
  intros Hv Hn Hp Hg Hb Hb'. unfold rebuild_holdings. rewrite validate_entries_ok by done. cbn [mbind res_bind].
  assert (concat (map le_postings (sorted entry_le entries)) ≡ₚ all_postings entries) as Hperm.
  { apply (all_postings_perm (sorted entry_le entries)), sorted_perm. }
  destruct (fold_left post_step (concat (map le_postings (sorted entry_le entries))) (d0, [])) as [cash positions] eqn:Ef.
  exists cash, positions. split; [done|].
  assert (∀ g : LedgerPosting → Z, zsum (map Z.abs (map g (concat (map le_postings (sorted entry_le entries))))) = zsum (map Z.abs (map g (all_postings entries)))) as E1
    by (intros g; apply zsum_perm; by do 2 apply Permutation_map).
  assert (∀ g : LedgerPosting → Z, zsum (map g (concat (map le_postings (sorted entry_le entries)))) = zsum (map g (all_postings entries))) as E2
    by (intros g; apply zsum_perm; by apply Permutation_map).
  destruct (post_fold_units (concat (map le_postings (sorted entry_le entries))) d0 []) as (R1 & R2 & R3).
  - apply on_grid_d0. lia.
  - constructor.
  - by rewrite Hperm.
  - rewrite units_d0, E1. cbn. lia.
  - intros s. rewrite E1. unfold position_units. cbn. specialize (Hb' s). lia.
  - rewrite Ef in R1, R2, R3. cbn [fst snd] in *. split; [done|]. split; [rewrite R2, units_d0, E2; lia|].
    intros s. rewrite R3, E2. unfold position_units. cbn. lia.
Qed.

(** ** Fill entries *)

Lemma fill_deltas_units f :
  fill_on_grid j k f → notional_units j k f + units (j + k) (fl_commission_usd f) < LIMIT → units j (fl_quantity f) < LIMIT →
  let '(aq, av, cq) := fill_deltas f in
  on_grid j aq ∧ on_grid (j + k) av ∧ on_grid (j + k) cq ∧
  units j aq = side_sign f * units j (fl_quantity f) ∧ units (j + k) av = side_sign f * notional_units j k f ∧
  units (j + k) cq = - side_sign f * notional_units j k f - units (j + k) (fl_commission_usd f).
Proof.
  intros [[Gq Uq] [Gp Up] [Gc Uc]] Hb Hq. unfold fill_deltas, notional_units, side_sign in *.
  destruct (dmul_units j k (fl_quantity f) (fl_price f) Gq Gp) as [Gn Un]; [nia|]. destruct (fl_side f).
  - destruct (dadd_units (j + k) (fl_quantity f * fl_price f)%dec (fl_commission_usd f) Gn Gc) as [Ga Ua]; [nia|].
    destruct (dneg_units (j + k) (fl_quantity f * fl_price f + fl_commission_usd f)%dec Ga) as [Gm Um]; [nia|]. split_and!; try done; lia.
  - destruct (dneg_units j (fl_quantity f) Gq) as [Gm Um]; [lia|].
    destruct (dneg_units (j + k) (fl_quantity f * fl_price f)%dec Gn) as [Gv Uv]; [nia|].
    destruct (dsub_units (j + k) (fl_quantity f * fl_price f)%dec (fl_commission_usd f) Gn Gc) as [Gs Us]; [nia|]. split_and!; try done; lia.
Qed.

Lemma zero_within_tolerance x : on_grid (j + k) x → units (j + k) x = 0 → (BALANCE_TOLERANCE <? dabs x)%dec = false.
Proof.
  intros G U. assert (dcoef x = 0) as E.
  { unfold units, at_exp in U. unfold on_grid in G. assert (0 < 10 ^ (dexp x - - (j + k))) by (apply Z.pow_pos_nonneg; lia). nia. }
  unfold dabs, dabs_p. rewrite E. rewrite dround_exact by done. apply dltb_ge.
  assert (0 < dval BALANCE_TOLERANCE)%Q by (by apply dval_pow_pos).
  assert (dval (Dec (Z.abs 0) (dexp x)) == 0)%Q as -> by (unfold dval; cbn [dcoef dexp Z.abs]; apply Qmult_0_l). lra.
Qed.

Section fills.
Context `{Digest}.

Lemma fill_entry_balanced_aux f :
  fill_on_grid j k f → notional_units j k f + units (j + k) (fl_commission_usd f) < LIMIT → units j (fl_quantity f) < LIMIT →
  tz_aware (fl_effective_at f) = true → tz_aware (fl_created_at f) = true →
  ∃ e, fill_entry f = Ok e ∧ validate_LedgerEntry e = Ok e ∧
    zsum (map (λ p, units (j + k) (lp_usd_value_delta p)) (le_postings e)) = 0 ∧ Forall posting_on_grid (le_postings e) ∧
    map cash_part (le_postings e) = [0; - side_sign f * notional_units j k f - units (j + k) (fl_commission_usd f); 0] ∧
    ∀ s, map (share_part s) (le_postings e) = [if String.eqb (fl_symbol f) s then side_sign f * units j (fl_quantity f) else 0; 0; 0].
Proof.
  intros Hf Hb Hq T1 T2. pose proof (fill_deltas_units f Hf Hb Hq) as Hd. destruct Hf as [[Gq Uq] [Gp Up] [Gc Uc]].
  unfold fill_entry. destruct (stable_id_ok "ltx" [PStr (fl_arm_id f); PStr (fl_fill_id f)]) as [tid ->]; [done|]. cbn [mbind res_bind].
  unfold validate_LedgerTransaction, aware. cbn [lt_effective_at lt_created_at]. rewrite T1, T2. cbn [negb invalid raise_if mbind res_bind].
  destruct (fill_deltas f) as [[aq av] cq] eqn:Ed. destruct Hd as (G1 & G2 & G3 & U1 & U2 & U3).
  destruct (stable_id_ok "post" [PStr tid; PStr "asset"]) as [aid ->]; [done|]. destruct (stable_id_ok "post" [PStr tid; PStr "cash"]) as [cid ->]; [done|].
  destruct (stable_id_ok "post" [PStr tid; PStr "fee"]) as [fid ->]; [done|]. cbn [mbind res_bind]. cbv zeta.
  assert (0 < notional_units j k f) as Hn by (unfold notional_units; nia).
  assert (side_sign f = 1 ∨ side_sign f = -1) as Hsg by (unfold side_sign; destruct (fl_side f); auto).
  match goal with |- ∃ e, validate_LedgerEntry ?E = Ok e ∧ _ => assert (validate_LedgerEntry E = Ok E) as HE; [|exists E; split; [exact HE|split; [exact HE|]]] end.
  - unfold validate_LedgerEntry. cbn [le_postings le_transaction map lp_usd_value_delta length existsb lp_ledger_transaction_id lt_ledger_transaction_id].
    rewrite !String.eqb_refl. cbn [negb orb].
    destruct (dadd_units (j + k) d0 av (on_grid_d0 (j + k) ltac:(lia)) G2) as [S1 V1]; [rewrite units_d0; destruct Hsg as [Es|Es]; rewrite Es in *; lia|]. rewrite units_d0 in V1.
    destruct (dadd_units (j + k) (d0 + av)%dec cq S1 G3) as [S2 V2]; [lia|].
    destruct (dadd_units (j + k) (d0 + av + cq)%dec (fl_commission_usd f) S2 Gc) as [S3 V3]; [lia|].
    fold BALANCE_TOLERANCE. unfold dsum. cbn [fold_left]. rewrite zero_within_tolerance; [done|done|lia].
  - cbn [le_postings map lp_usd_value_delta]. split; [rewrite !zsum_cons; change (zsum []) with 0; lia|]. split.
    { repeat constructor; cbn; done. }
    unfold cash_part, share_part, is_asset, is_cash. cbn -[units on_grid Z.mul Z.sub Z.opp]. split; [by rewrite U3|].
    intros s. by rewrite U1.
Qed.

(** every fill is booked in balance.  The journal entry of an on-grid fill with aware times is always accepted (no
    balance or reference check rejects it); its postings balance to exactly zero; they move cash by the signed notional and
    the commission, the symbol by the signed quantity, and no other holding. *)
Theorem fill_entry_balanced f :
  fill_on_grid j k f → notional_units j k f + units (j + k) (fl_commission_usd f) < LIMIT → units j (fl_quantity f) < LIMIT →
  tz_aware (fl_effective_at f) = true → tz_aware (fl_created_at f) = true →
  ∃ e, fill_entry f = Ok e ∧ validate_LedgerEntry e = Ok e ∧
    zsum (map (λ p, units (j + k) (lp_usd_value_delta p)) (le_postings e)) = 0 ∧ Forall posting_on_grid (le_postings e) ∧
    map cash_part (le_postings e) = [0; - side_sign f * notional_units j k f - units (j + k) (fl_commission_usd f); 0] ∧
    ∀ s, map (share_part s) (le_postings e) = [if String.eqb (fl_symbol f) s then side_sign f * units j (fl_quantity f) else 0; 0; 0].
Proof. apply fill_entry_balanced_aux. Qed.

Lemma fill_entry_parts f e :
  fill_on_grid j k f → notional_units j k f + units (j + k) (fl_commission_usd f) < LIMIT → units j (fl_quantity f) < LIMIT →
  fill_entry f = Ok e →
  validate_LedgerEntry e = Ok e ∧ Forall posting_on_grid (le_postings e) ∧
  map cash_part (le_postings e) = [0; - side_sign f * notional_units j k f - units (j + k) (fl_commission_usd f); 0] ∧
  ∀ s, map (share_part s) (le_postings e) = [if String.eqb (fl_symbol f) s then side_sign f * units j (fl_quantity f) else 0; 0; 0].
Proof.
  intros Hf Hb Hq He. assert (tz_aware (fl_effective_at f) = true ∧ tz_aware (fl_created_at f) = true) as [T1 T2].
  { unfold fill_entry, validate_LedgerTransaction, aware, invalid in He. cbn [lt_effective_at lt_created_at] in He. inv_ok. split_bool. done. }
  destruct (fill_entry_balanced_aux f Hf Hb Hq T1 T2) as (e' & He' & H1 & _ & H2 & H3 & H4). rewrite He in He'. injection He' as <-. done.
Qed.

(** ** The opening entry *)

Definition opening_inv (cash : dec) (positions : pydict dec) (pre : list string) (st : list LedgerPosting * dec) : Prop :=
  Forall posting_on_grid st.1 ∧ Forall (λ p, 0 <= cash_part p) st.1 ∧ zsum (map cash_part st.1) = units (j + k) cash ∧
  (∀ s, Forall (λ p, 0 <= share_part s p) st.1) ∧
  (∀ s, zsum (map (share_part s) st.1) = if decide (s ∈ pre) then position_units j positions s else 0).

Lemma opening_entry_parts arm src cash positions prices t e :
  on_grid (j + k) cash → 0 <= units (j + k) cash → Forall (λ kv, on_grid j kv.2 ∧ 0 <= units j kv.2) positions → NoDup positions.*1 →
  portfolio_opening_entry arm src cash positions prices t = Ok e →
  validate_LedgerEntry e = Ok e ∧ Forall posting_on_grid (le_postings e) ∧ Forall (λ p, 0 <= cash_part p) (le_postings e) ∧
  (∀ s, Forall (λ p, 0 <= share_part s p) (le_postings e)) ∧
  zsum (map cash_part (le_postings e)) = units (j + k) cash ∧ ∀ s, zsum (map (share_part s) (le_postings e)) = position_units j positions s.
Proof.
  intros Gc Uc Gp Hnd He. unfold portfolio_opening_entry in He. do 2 apply bind_Ok_inv in He as ([] & _ & He).
  apply bind_Ok_inv in He as (tid & _ & He). apply bind_Ok_inv in He as (tx & _ & He). apply bind_Ok_inv in He as (cid & _ & He). cbv zeta in He.
  apply bind_Ok_inv in He as (st & Hst & He). apply bind_Ok_inv in He as (eid & _ & He). apply bind_Ok_inv in He as (e' & Hv & He).
  apply bind_Ok_inv in He as ([] & _ & [= ->]). pose proof (validate_LedgerEntry_id _ _ Hv) as E. split; [by rewrite E in Hv |- *|].
  assert (opening_inv cash positions (sorted String.leb positions.*1) st) as (I1 & I2 & I3 & I4 & I5).
  { eapply (foldM_prefix_invariant (opening_inv cash positions)); [..|exact Hst].
    - unfold opening_inv. cbn [fst]. split_and!.
      + apply Forall_singleton. by split.
      + apply Forall_singleton. done.
      + cbn. unfold zsum; cbn. lia.
      + intros s. apply Forall_singleton. done.
      + intros s. rewrite decide_False by set_solver. done.
    - intros pre symbol [ps tv] st' Hpre (J1 & J2 & J3 & J4 & J5) Hstep. unfold opening_step in Hstep. cbn [fst snd] in *.
      apply bind_Ok_inv in Hstep as (q & Hq & Hstep). apply bind_Ok_inv in Hstep as (p & _ & Hstep). cbv zeta in Hstep.
      apply bind_Ok_inv in Hstep as (pid & _ & [= <-]). unfold dindex in Hq. destruct (dget symbol positions) as [q'|] eqn:Eq; [|done]. injection Hq as ->.
      pose proof (dget_Some_elem _ _ _ Eq) as Hin. rewrite Forall_forall in Gp. destruct (Gp _ Hin) as [Gq Uq]. cbn [snd] in Gq, Uq.
      assert (symbol ∉ pre) as Hni.
      { assert (NoDup (sorted String.leb positions.*1)) as Hns by (by rewrite sorted_perm). destruct Hpre as [post Epre]. rewrite Epre in Hns.
        rewrite <- app_assoc in Hns. apply NoDup_app in Hns as (_ & Hdis & _). intros Hin'. apply (Hdis _ Hin'). set_solver. }
      unfold opening_inv. cbn [fst]. split_and!.
      + apply Forall_app. split; [done|]. apply Forall_singleton. by split.
      + apply Forall_app. split; [done|]. by apply Forall_singleton.
      + rewrite map_app, zsum_app, J3. cbn. unfold zsum; cbn. lia.
      + intros s. apply Forall_app. split; [done|]. apply Forall_singleton. unfold share_part, is_asset, is_cash; cbn -[units]. by destruct (String.eqb symbol s).
      + intros s. rewrite map_app, zsum_app, J5. cbn [map]. rewrite zsum_cons. change (zsum []) with 0. unfold share_part, is_asset, is_cash. cbn -[units].
        destruct (String.eqb_spec symbol s) as [<-|Hne].
        * rewrite decide_False, decide_True by set_solver. unfold position_units. rewrite Eq. lia.
        * destruct (decide (s ∈ pre)); [rewrite decide_True by set_solver|rewrite decide_False by set_solver]; lia. }
  rewrite E. cbn [le_postings]. split_and!.
  - apply Forall_app. split; [done|]. apply Forall_singleton. by split.
  - apply Forall_app. split; [done|]. by apply Forall_singleton.
  - intros s. apply Forall_app. split; [done|]. by apply Forall_singleton.
  - rewrite map_app, zsum_app, I3. cbn. unfold zsum; cbn. lia.
  - intros s. rewrite map_app, zsum_app, I5. cbn. unfold zsum; cbn. destruct (decide (s ∈ sorted String.leb positions.*1)) as [|Hni]; [lia|].
    rewrite elem_of_sorted in Hni. apply dget_None_not_key in Hni. unfold position_units. rewrite Hni. lia.
Qed.

Lemma fill_entries_parts fs es :
  Forall (fill_on_grid j k) fs → cash_turnover j k fs < LIMIT → share_turnover j fs < LIMIT → mapM_res fill_entry fs = Ok es →
  Forall (λ e, validate_LedgerEntry e = Ok e) es ∧ Forall posting_on_grid (all_postings es) ∧
  zsum (map cash_part (all_postings es)) = cash_flow j k fs ∧ zsum (map Z.abs (map cash_part (all_postings es))) <= cash_turnover j k fs ∧
  ∀ s, zsum (map (share_part s) (all_postings es)) = share_flow j s fs ∧
       zsum (map Z.abs (map (share_part s) (all_postings es))) <= share_turnover j fs.
Proof.
  intros Hfs Hb Hb' Hm. apply mapM_res_Forall2 in Hm. induction Hm as [|f e fs es He _ IH].
  { unfold all_postings, cash_flow, share_flow, cash_turnover, share_turnover. cbn. split_and!; try constructor; done. }
  apply Forall_cons in Hfs as [Hf Hfs]. destruct (turnover_nonneg j k _ Hfs) as [T1 T2]. pose proof Hf as [[_ Uq] [_ Up] [_ Uc]].
  assert (0 < notional_units j k f) as Hn by (unfold notional_units; nia).
  unfold cash_turnover, share_turnover in Hb, Hb'. cbn [map] in Hb, Hb'. rewrite zsum_cons in Hb, Hb'.
  fold (cash_turnover j k fs) in Hb. fold (share_turnover j fs) in Hb'.
  destruct IH as (I1 & I2 & I3 & I4 & I5); [done|lia|lia|].
  destruct (fill_entry_parts f e Hf) as (P1 & P2 & P3 & P4); [lia|lia|done|].
  assert (side_sign f = 1 ∨ side_sign f = -1) as Hsg by (unfold side_sign; destruct (fl_side f); auto).
  unfold all_postings, cash_flow, share_flow, cash_turnover, share_turnover in *. cbn [map concat]. rewrite !map_app, !zsum_app, P3.
  cbn [map]. rewrite !zsum_cons. change (zsum []) with 0. split_and!.
  - by constructor.
  - by apply Forall_app.
  - lia.
  - destruct Hsg as [Es|Es]; rewrite Es in *; lia.
  - intros s. specialize (I5 s) as [I5 I6]. rewrite !map_app, !zsum_app, P4. cbn [map]. rewrite !zsum_cons. change (zsum []) with 0.
    destruct (String.eqb _ _), Hsg as [Es|Es]; rewrite ?Es in *; lia.
Qed.

(** C25: the ledger agrees with the arm state.  Booking the opening holdings of an arm and every fill of a history of fills and
    settlements, the holdings rebuilt from the journal are exactly the total cash and the positions of the arm state that
    history leads to, whatever order the entries are read in, unless identifiers collide. *)
Theorem ledger_agrees_with_arm_state s ops s' src prices t e0 es :
  arm_on_grid j k s → Forall (op_on_grid j k) ops →
  cash_units j k s + cash_turnover j k (op_fills ops) < LIMIT →
  (∀ symbol, position_units j (as_positions s) symbol + share_turnover j (op_fills ops) < LIMIT) →
  run_ops s ops = Ok s' →
  portfolio_opening_entry (as_arm_id s) src (arm_total_cash_usd s) (as_positions s) prices t = Ok e0 →
  mapM_res fill_entry (op_fills ops) = Ok es →
  NoDup (map (λ e, lt_ledger_transaction_id (le_transaction e)) (e0 :: es)) → NoDup (map lp_posting_id (all_postings (e0 :: es))) →
  ∃ cash positions, rebuild_holdings (e0 :: es) = Ok (cash, positions) ∧ (dval cash == dval (arm_total_cash_usd s'))%Q ∧
    ∀ symbol, position_units j positions symbol = position_units j (as_positions s') symbol.
Proof.
  intros Hs Hops Hb Hb' Hrun Ho Hes Hn Hp. pose proof (op_fills_grid j k ops Hops) as Hfs.
  destruct (turnover_nonneg j k _ Hfs) as [T1 T2]. pose proof Hs as [[Gs Us] Gr Gpos Hnd _].
  destruct (arm_cash_exact j k Hj Hk s Hs) as (C1 & C2 & C3); [lia|].
  assert (0 <= cash_units j k s) as C0 by (unfold cash_units; lia).
  destruct (opening_entry_parts _ _ _ _ _ _ _ C1 ltac:(lia) Gpos Hnd Ho) as (O1 & O2 & O3 & O4 & O5 & O6).
  destruct (nonneg_sum cash_part (le_postings e0) O3) as [_ O7]. assert (∀ x, _) as O8 by (intros x; exact (proj2 (nonneg_sum (share_part x) (le_postings e0) (O4 x)))).
  assert (0 <= position_units j (as_positions s) "") as P0.
  { unfold position_units. destruct (dget "" (as_positions s)) eqn:E; [|lia]. apply dget_Some_elem in E. rewrite Forall_forall in Gpos. by destruct (Gpos _ E). }
  destruct (fill_entries_parts _ _ Hfs ltac:(lia) ltac:(specialize (Hb' ""); lia) Hes) as (F1 & F2 & F3 & F4 & F5).
  assert (all_postings (e0 :: es) = le_postings e0 ++ all_postings es) as Ea by done.
  destruct (rebuild_exact (e0 :: es)) as (cash & positions & R1 & R2 & R3 & R4); [by constructor|done|done| | | |].
  - rewrite Ea. by apply Forall_app.
  - rewrite Ea, !map_app, zsum_app. lia.
  - intros x. rewrite Ea, !map_app, zsum_app, O8, O6. specialize (Hb' x). destruct (F5 x). lia.
  - destruct (arm_history_accounting_aux j k Hj Hk s ops s' Hs Hops Hb Hb' Hrun) as (Hs' & A1 & A2).
    rewrite Ea in R3, R4. rewrite map_app, zsum_app in R3. setoid_rewrite map_app in R4. setoid_rewrite zsum_app in R4.
    exists cash, positions. split; [done|]. split.
    + destruct (arm_cash_exact j k Hj Hk s' Hs') as (D1 & D2 & _).
      { assert (cash_flow j k (op_fills ops) <= cash_turnover j k (op_fills ops)); [|lia].
        rewrite <- F3. pose proof (zsum_abs_le (map cash_part (all_postings es))). lia. }
      rewrite (units_dval _ _ R2), (units_dval _ _ D1), D2, R3. f_equiv. f_equiv. lia.
    + intros x. rewrite R4, A2, O6. destruct (F5 x) as [-> _]. done.
Qed.
End fills.
End rebuild.

(** ** The journal of the concrete arm *)

#[local] Existing Instance rolling_digest.

Definition entry_or (r : res LedgerEntry) : LedgerEntry :=
  match r with
  | Ok e => e
  | Raise _ => {| le_transaction := {| lt_ledger_transaction_id := ""; lt_arm_id := ""; lt_transaction_type := ""; lt_source_id := "";
                                       lt_effective_at := utc 0; lt_created_at := utc 0 |}; le_postings := [] |}
  end.
Definition ex_opening : LedgerEntry :=
  Eval vm_compute in entry_or (portfolio_opening_entry "Q1-DET" "anchor" (arm_total_cash_usd ex_arm) (as_positions ex_arm) ex_prices (utc 5)).
Definition ex_fill_entries : list LedgerEntry :=
  Eval vm_compute in match mapM_res fill_entry (op_fills ex_ops) with Ok l => l | Raise _ => [] end.

Lemma fill_entry_balanced_witness :
  ∃ e, fill_entry ex_buy = Ok e ∧ zsum (map (λ p, units 10 (lp_usd_value_delta p)) (le_postings e)) = 0.
Proof.
  destruct (fill_entry_balanced 6 4 ltac:(lia) ltac:(lia) ex_buy) as (e & H1 & _ & H2 & _);
    [constructor; split; by vm_compute|vm_compute; reflexivity|vm_compute; reflexivity|reflexivity|reflexivity|].
  exists e. split; [exact H1|exact H2].
Defined.

Lemma ledger_agrees_with_arm_state_witness :
  ∃ cash positions, rebuild_holdings (ex_opening :: ex_fill_entries) = Ok (cash, positions) ∧
    (dval cash == dval (arm_total_cash_usd ex_final))%Q ∧ position_units 6 positions "SOXX" = position_units 6 (as_positions ex_final) "SOXX".
Proof.
  destruct (ledger_agrees_with_arm_state 6 4 ltac:(lia) ltac:(lia) ex_arm ex_ops ex_final "anchor" ex_prices (utc 5) ex_opening ex_fill_entries
    ex_arm_grid) as (cash & positions & H1 & H2 & H3).
  - repeat apply Forall_cons_2; [..|apply Forall_nil_2]; try (split; [constructor; split|]); by vm_compute.
  - vm_compute. reflexivity.
  - intros symbol. assert (position_units 6 (as_positions ex_arm) symbol <= 80500000) as Hp.
    { unfold position_units. cbn. destruct (String.eqb symbol "QQQ"); vm_compute; discriminate. }
    assert (share_turnover 6 (op_fills ex_ops) = 13000000) as -> by (vm_compute; reflexivity).
    assert (80500000 + 13000000 < LIMIT) by (vm_compute; reflexivity). lia.
  - vm_compute. reflexivity.
  - vm_compute. reflexivity.
  - vm_compute. reflexivity.
  - apply (bool_decide_eq_true_1 _). vm_compute. reflexivity.
  - apply (bool_decide_eq_true_1 _). vm_compute. reflexivity.
  - exists cash, positions. split; [exact H1|]. split; [exact H2|exact (H3 "SOXX"%string)].
Defined.
