(* ===== verification/Execution.v ===== *)
(** * Paper execution economics ([execution/q1_paper.py])

    The quantity, price, commission and cost of one paper fill against a displayed quote. *)
From Stdlib Require Import ZArith Lia Ascii String QArith Lqa.
From stdpp Require Import base list strings numbers.
From S2P Require Import Prelude PyDecimal Hashing Domain.
Set Default Goal Selector "!".
Open Scope Z_scope.

Record Q1ExecutionConfig := {
  xc_displayed_participation : dec;
  xc_adv_participation : dec;
  xc_delay_penalty_bps : dec;
  xc_guard_min_bps : dec;
  xc_guard_max_bps : dec;
  xc_guard_spread_multiplier : dec;
  xc_quantity_precision : dec;
  xc_price_precision : dec;
  xc_commission_rate : dec;
  xc_commission_waiver_threshold_usd : dec;
  xc_commission_precision : dec;
  xc_sensitivity_bps : list dec;
}.

Definition validate_Q1ExecutionConfig (c : Q1ExecutionConfig) : res Q1ExecutionConfig :=
  raise_if (negb ((d0 <? xc_displayed_participation c)%dec && (xc_displayed_participation c <=? d1)%dec))
    ValueError "Displayed participation must be within (0, 1]";;
  raise_if (negb ((d0 <? xc_adv_participation c)%dec && (xc_adv_participation c <=? d1)%dec))
    ValueError "ADV participation must be within (0, 1]";;
  raise_if ((xc_delay_penalty_bps c <? d0)%dec || (xc_guard_min_bps c <=? d0)%dec
            || (xc_guard_max_bps c <? xc_guard_min_bps c)%dec || (xc_guard_spread_multiplier c <=? d0)%dec)
    ValueError "Invalid Q1 execution penalty or guard parameters";;
  raise_if ((xc_quantity_precision c <=? d0)%dec || (xc_price_precision c <=? d0)%dec)
    ValueError "Q1 execution precision must be positive";;
  raise_if ((xc_commission_rate c <? d0)%dec || (xc_commission_waiver_threshold_usd c <? d0)%dec
            || (xc_commission_precision c <=? d0)%dec)
    ValueError "Q1 commission parameters cannot be negative";;
  raise_if (existsb (λ v, (v <? d0)%dec) (xc_sensitivity_bps c)) ValueError "Q1 sensitivity values cannot be negative";;
  Ok c.

Record Q1FillEconomics := {
  fe_quantity : dec;
  fe_price : dec;
  fe_commission_usd : dec;
  fe_cumulative_notional_usd : dec;
  fe_cumulative_commission_usd : dec;
  fe_base_execution_cost_usd : dec;
  fe_sensitivity_costs_usd : pydict dec;
  fe_guard_bps : dec;
  fe_adverse_move_bps : dec;
}.

Definition dynamic_guard_bps (decision_spread_bps : dec) (config : Q1ExecutionConfig) : res dec :=
  raise_if (decision_spread_bps <? d0)%dec ValueError "Decision spread cannot be negative";;
  Ok (dmin (xc_guard_max_bps config) (dmax (xc_guard_min_bps config) (xc_guard_spread_multiplier config * decision_spread_bps)%dec)).

Definition TEN_THOUSAND : dec := Dec 10000 0.

(** The keyword arguments of [build_q1_fill_economics]. *)
Record FillInputs := {
  fi_side : OrderSide;
  fi_remaining_quantity : dec;
  fi_bid_price : dec;
  fi_ask_price : dec;
  fi_executable_side_quantity : dec;
  fi_remaining_adv_capacity : dec;
  fi_decision_reference_price : dec;
  fi_decision_spread_bps : dec;
  fi_cumulative_notional_before : dec;
  fi_cumulative_commission_before : dec;
}.

Definition fill_reference (i : FillInputs) : dec := match fi_side i with BUY => fi_ask_price i | SELL => fi_bid_price i end.

(** The input guards. *)
Definition check_inputs (i : FillInputs) : res () :=
  raise_if (fi_remaining_quantity i <=? d0)%dec ValueError "Remaining order quantity must be positive";;
  raise_if ((fi_bid_price i <=? d0)%dec || (fi_ask_price i <=? d0)%dec || (fi_ask_price i <? fi_bid_price i)%dec
            || (fi_executable_side_quantity i <=? d0)%dec || (fi_remaining_adv_capacity i <=? d0)%dec
            || (fi_decision_reference_price i <=? d0)%dec)
    ValueError "Q1 fill inputs must describe an executable quote";;
  raise_if ((fi_cumulative_notional_before i <? d0)%dec || (fi_cumulative_commission_before i <? d0)%dec)
    ValueError "Q1 cumulative order economics cannot be negative".

(** The price guard: [(guard_bps, adverse_move_bps)]. *)
Definition price_guard (i : FillInputs) (config : Q1ExecutionConfig) : res (dec * dec) :=
  adverse_move ← (match fi_side i with
    | BUY => ddiv (fill_reference i - fi_decision_reference_price i)%dec (fi_decision_reference_price i)
    | SELL => ddiv (fi_decision_reference_price i - fill_reference i)%dec (fi_decision_reference_price i)
    end);
  let adverse_move_bps := dmax d0 (adverse_move * TEN_THOUSAND)%dec in
  guard_bps ← dynamic_guard_bps (fi_decision_spread_bps i) config;
  raise_if (guard_bps <? adverse_move_bps)%dec Q1PriceGuardViolation "Decision price guard exceeded";;
  Ok (guard_bps, adverse_move_bps).

(** The capped quantity. *)
Definition fill_quantity (i : FillInputs) (config : Q1ExecutionConfig) : res dec :=
  let displayed_cap := (fi_executable_side_quantity i * xc_displayed_participation config)%dec in
  quantity ← dquantize (dmin (dmin (fi_remaining_quantity i) displayed_cap) (fi_remaining_adv_capacity i))
               (xc_quantity_precision config) ROUND_DOWN;
  raise_if (quantity <=? d0)%dec ValueError "Q1 execution caps produced a zero-quantity fill";;
  Ok quantity.

(** The penalised price. *)
Definition fill_price (i : FillInputs) (config : Q1ExecutionConfig) : res dec :=
  delay ← ddiv (xc_delay_penalty_bps config) TEN_THOUSAND;
  let raw_price := match fi_side i with
                   | BUY => (fill_reference i * (d1 + delay))%dec
                   | SELL => (fill_reference i * (d1 - delay))%dec
                   end in
  dquantize raw_price (xc_price_precision config) ROUND_HALF_EVEN.

(** The commission due on the cumulative notional. *)
Definition total_commission_due (cumulative_notional : dec) (config : Q1ExecutionConfig) : res dec :=
  if (cumulative_notional <=? xc_commission_waiver_threshold_usd config)%dec then Ok d0
  else dquantize (cumulative_notional * xc_commission_rate config)%dec (xc_commission_precision config) ROUND_HALF_EVEN.

Definition build_q1_fill_economics (i : FillInputs) (config : Q1ExecutionConfig) : res Q1FillEconomics :=
  check_inputs i;;
  guard ← price_guard i config;
  quantity ← fill_quantity i config;
  price ← fill_price i config;
  let fill_notional := (quantity * price)%dec in
  let cumulative_notional := (fi_cumulative_notional_before i + fill_notional)%dec in
  total_commission ← total_commission_due cumulative_notional config;
  let commission := (total_commission - fi_cumulative_commission_before i)%dec in
  raise_if (commission <? d0)%dec ValueError "Cumulative commission exceeds configured order commission";;
  midpoint ← ddiv (fi_bid_price i + fi_ask_price i)%dec (Dec 2 0);
  let price_cost := match fi_side i with
                    | BUY => ((price - midpoint) * quantity)%dec
                    | SELL => ((midpoint - price) * quantity)%dec
                    end in
  let base_cost := (dmax d0 price_cost + commission)%dec in
  sensitivity ← mapM_res (λ value,
    extra ← ddiv (fill_notional * value)%dec TEN_THOUSAND;
    Ok (String.append "plus_" (String.append (format_f value) "_bps"), (base_cost + extra)%dec)) (xc_sensitivity_bps config);
  Ok {| fe_quantity := quantity; fe_price := price; fe_commission_usd := commission;
        fe_cumulative_notional_usd := cumulative_notional; fe_cumulative_commission_usd := total_commission;
        fe_base_execution_cost_usd := base_cost; fe_sensitivity_costs_usd := dict_of_pairs sensitivity;
        fe_guard_bps := guard.1; fe_adverse_move_bps := guard.2 |}.

(** ** Quantizing never crosses a point of the target grid *)

Lemma quantize_between d q r a :
  dquantize d q r = Ok a → (0 <= dval d)%Q →
  dexp a = dexp q ∧
  (∀ y, on_grid (- dexp q) y → (dval y <= dval d)%Q → (dval y <= dval a)%Q) ∧
  (∀ y, on_grid (- dexp q) y → (dval d <= dval y)%Q → (dval a <= dval y)%Q).
Proof.
  unfold dquantize, dquantize_p. cbv zeta. destruct (Z.ltb_spec PREC (ndigits (dcoef (rescale r d (dexp q))))) as [|_]; [done|].
  intros [= <-] H0. apply dval_nonneg_coef in H0. unfold rescale. destruct (Z.leb_spec (dexp q) (dexp d)) as [He|He]; cbn [dexp].
  { split; [done|]. assert (dval (Dec (at_exp (dexp q) d) (dexp q)) == dval d)%Q as E by (symmetry; by apply dval_at).
    split; intros y _ Hy; rewrite E; done. }
  split; [done|]. set (p := dexp q - dexp d). assert (0 < 10 ^ p) as Hp by (apply Z.pow_pos_nonneg; lia).
  assert (quot_near (dcoef d) (10 ^ p) (round_coef r (dcoef d) p)) as Hq.
  { unfold round_coef. rewrite (Z.abs_eq (dcoef d)) by lia.
    pose proof (round_mag_near r (dcoef d) p H0 ltac:(lia)) as Hn. pose proof (quot_near_bound _ _ _ H0 Hp Hn) as [? ?].
    destruct (Z.eq_dec (dcoef d) 0) as [Ez|Ez].
    - rewrite Ez in *. destruct Hn as [->|[_ Hm]]; [left; rewrite Z.div_0_l by lia; cbn; done|by rewrite Z.mod_0_l in Hm by lia].
    - rewrite Z.sgn_pos, Z.mul_1_l by lia. done. }
  assert (Hval : ∀ y, on_grid (- dexp q) y → (dval y == inject_Z (units (- dexp q) y * 10 ^ p) * q10 (dexp d))%Q).
  { intros y Gy. rewrite (units_dval _ _ Gy). rewrite Z.opp_involutive. apply qv_at. lia. }
  assert (Ha : (dval (Dec (round_coef r (dcoef d) p) (dexp q)) == inject_Z (round_coef r (dcoef d) p) * q10 (dexp q))%Q) by done.
  pose proof (q10_pos (dexp d)) as Hd. pose proof (q10_pos (dexp q)) as Hqq. pose proof (Z.div_mod (dcoef d) (10 ^ p) ltac:(lia)) as Hdm.
  pose proof (Z.mod_pos_bound (dcoef d) (10 ^ p) Hp) as Hmb.
  split; intros y Gy Hy; rewrite (Hval y Gy) in Hy; unfold dval in Hy at 1; rewrite Ha, (units_dval _ _ Gy), Z.opp_involutive.
  - apply Qmult_le_r in Hy; [|done]. rewrite <- Zle_Qle in Hy. apply Qmult_le_compat_r; [|lra]. rewrite <- Zle_Qle.
    destruct Hq as [->|[-> _]]; nia.
  - apply Qmult_le_r in Hy; [|done]. rewrite <- Zle_Qle in Hy. apply Qmult_le_compat_r; [|lra]. rewrite <- Zle_Qle.
    destruct Hq as [->|[-> Hne]]; nia.
Qed.

(** ** What a fill guarantees *)

Section economics.
Context (i : FillInputs) (config : Q1ExecutionConfig) (fe : Q1FillEconomics).
Hypothesis Hcfg : validate_Q1ExecutionConfig config = Ok config.
Hypothesis Hfe : build_q1_fill_economics i config = Ok fe.

(** The parts of a successful computation. *)
Lemma economics_parts :
  check_inputs i = Ok () ∧ price_guard i config = Ok (fe_guard_bps fe, fe_adverse_move_bps fe) ∧
  fill_quantity i config = Ok (fe_quantity fe) ∧ fill_price i config = Ok (fe_price fe) ∧
  fe_cumulative_notional_usd fe = (fi_cumulative_notional_before i + fe_quantity fe * fe_price fe)%dec ∧
  total_commission_due (fe_cumulative_notional_usd fe) config = Ok (fe_cumulative_commission_usd fe) ∧
  fe_commission_usd fe = (fe_cumulative_commission_usd fe - fi_cumulative_commission_before i)%dec ∧ (0 <= dval (fe_commission_usd fe))%Q ∧
  (dval (fe_commission_usd fe) <= dval (fe_base_execution_cost_usd fe))%Q.
Proof.
  pose proof Hfe as H. unfold build_q1_fill_economics in H. apply bind_Ok_inv in H as ([] & H1 & H). apply bind_Ok_inv in H as ([g a] & H2 & H).
  apply bind_Ok_inv in H as (q & H3 & H). apply bind_Ok_inv in H as (p & H4 & H). cbv zeta in H. apply bind_Ok_inv in H as (tc & H5 & H).
  apply bind_Ok_inv in H as ([] & H6 & H). apply bind_Ok_inv in H as (mid & _ & H). apply bind_Ok_inv in H as (se & _ & [= <-]).
  apply raise_if_Ok_inv in H6. cbn. dec_to_Q. split_and!; try done.
  set (x := match fi_side i with BUY => _ | SELL => _ end). pose proof (dmax_spec d0 x) as Hm. rewrite dval_d0 in Hm.
  eapply rounded_ge; [apply dadd_rounds, prec_pos|apply dsub_rounds, prec_pos|]. intuition lra.
Qed.

Lemma inputs_positive :
  (0 < dval (fi_remaining_quantity i))%Q ∧ (0 < dval (fi_bid_price i))%Q ∧ (0 < dval (fi_ask_price i))%Q ∧
  (dval (fi_bid_price i) <= dval (fi_ask_price i))%Q ∧ (0 < dval (fi_executable_side_quantity i))%Q ∧
  (0 < dval (fi_remaining_adv_capacity i))%Q ∧ (0 < dval (fi_decision_reference_price i))%Q.
Proof. destruct economics_parts as (H & _). unfold check_inputs in H. inv_ok. split_bool. dec_to_Q. done. Qed.

Lemma config_positive :
  (0 < dval (xc_displayed_participation config) <= 1)%Q ∧ (0 <= dval (xc_delay_penalty_bps config))%Q ∧
  (0 < dval (xc_guard_min_bps config) <= dval (xc_guard_max_bps config))%Q.
Proof. pose proof Hcfg as H. unfold validate_Q1ExecutionConfig in H. inv_ok. split_bool. dec_to_Q. done. Qed.

End economics.

(** C33: a paper fill respects every cap.  Its quantity is positive, a multiple of the quantity precision, and at most
    the remaining order quantity, the configured participation in the displayed size (the product as the decimal context rounds it,
    so at most the displayed size itself) and the remaining ADV capacity; and it is the largest such quantity.  The adverse move is
    within the guard, which lies between its configured bounds; commission and cost are non-negative. *)
Theorem fill_respects_caps i config fe :
  validate_Q1ExecutionConfig config = Ok config → build_q1_fill_economics i config = Ok fe →
  drepr (fi_executable_side_quantity i) →
  (0 < dval (fe_quantity fe))%Q ∧ dexp (fe_quantity fe) = dexp (xc_quantity_precision config) ∧
  (dval (fe_quantity fe) <= dval (fi_remaining_quantity i))%Q ∧
  (dval (fe_quantity fe) <= dval (fi_executable_side_quantity i * xc_displayed_participation config)%dec)%Q ∧
  (dval (fe_quantity fe) <= dval (fi_executable_side_quantity i))%Q ∧
  (dval (fe_quantity fe) <= dval (fi_remaining_adv_capacity i))%Q ∧
  (∀ y, on_grid (- dexp (xc_quantity_precision config)) y → (dval y <= dval (fi_remaining_quantity i))%Q →
    (dval y <= dval (fi_executable_side_quantity i * xc_displayed_participation config)%dec)%Q →
    (dval y <= dval (fi_remaining_adv_capacity i))%Q → (dval y <= dval (fe_quantity fe))%Q) ∧
  (dval (fe_adverse_move_bps fe) <= dval (fe_guard_bps fe))%Q ∧
  (dval (xc_guard_min_bps config) <= dval (fe_guard_bps fe) <= dval (xc_guard_max_bps config))%Q ∧
  (0 <= dval (fe_commission_usd fe) <= dval (fe_base_execution_cost_usd fe))%Q.
Proof.
  intros Hcfg Hfe Hrep. destruct (economics_parts i config fe Hfe) as (_ & Hg & Hq & _ & _ & _ & _ & Hc0 & Hc1).
  destruct (config_positive config Hcfg) as (Hd & _ & Hgb). destruct (inputs_positive i config fe Hfe) as (P1 & _ & _ & _ & P2 & P3 & _).
  unfold fill_quantity in Hq. cbv zeta in Hq. apply bind_Ok_inv in Hq as (q & Hq & Hq'). apply bind_Ok_inv in Hq' as ([] & Hpos & [= E]). subst q.
  apply raise_if_Ok_inv in Hpos. dec_to_Q.
  set (cap := (fi_executable_side_quantity i * xc_displayed_participation config)%dec) in *.
  assert (0 <= dval cap)%Q by (apply dmul_nonneg; lra).
  assert (dval cap <= dval (fi_executable_side_quantity i))%Q by (apply dmul_le_self; [done|lra|lra]).
  pose proof (dmin_spec (fi_remaining_quantity i) cap) as M1.
  pose proof (dmin_spec (dmin (fi_remaining_quantity i) cap) (fi_remaining_adv_capacity i)) as M2.
  destruct (dquantize_down _ _ _ Hq) as (D1 & _ & D2 & D3); [intuition lra|].
  destruct (quantize_between _ _ _ _ Hq) as (_ & Q1 & _); [intuition lra|].
  unfold price_guard in Hg. apply bind_Ok_inv in Hg as (am & _ & Hg). cbv zeta in Hg. apply bind_Ok_inv in Hg as (g & Hg & Hg').
  apply bind_Ok_inv in Hg' as ([] & Hle & [= E1 E2]). apply raise_if_Ok_inv in Hle. rewrite <- E1, <- E2. dec_to_Q.
  unfold dynamic_guard_bps in Hg. apply bind_Ok_inv in Hg as ([] & _ & [= <-]).
  pose proof (dmin_spec (xc_guard_max_bps config) (dmax (xc_guard_min_bps config) (xc_guard_spread_multiplier config * fi_decision_spread_bps i)%dec)) as G1.
  pose proof (dmax_spec (xc_guard_min_bps config) (xc_guard_spread_multiplier config * fi_decision_spread_bps i)%dec) as G2.
  split_and!; try done; try (intuition lra). intros y Gy Y1 Y2 Y3. apply Q1; [done|]. intuition lra.
Qed.

(** paper fills never improve on the quote.  When bid and ask are quoted on the price grid, a BUY fill is priced at or above
    the ask and a SELL fill (with a delay penalty of at most 100%) at or below the bid and never negative. *)
Theorem no_price_improvement i config fe :
  validate_Q1ExecutionConfig config = Ok config → build_q1_fill_economics i config = Ok fe →
  drepr (fi_bid_price i) → drepr (fi_ask_price i) →
  on_grid (- dexp (xc_price_precision config)) (fi_bid_price i) → on_grid (- dexp (xc_price_precision config)) (fi_ask_price i) →
  (dval (xc_delay_penalty_bps config) <= 10000)%Q →
  match fi_side i with
  | BUY => (dval (fi_ask_price i) <= dval (fe_price fe))%Q
  | SELL => (0 <= dval (fe_price fe) <= dval (fi_bid_price i))%Q
  end.
Proof.
  intros Hcfg Hfe Rb Ra Gb Ga Hdelay. destruct (economics_parts i config fe Hfe) as (_ & _ & _ & Hp & _).
  destruct (config_positive config Hcfg) as (_ & Hd0 & _). destruct (inputs_positive i config fe Hfe) as (_ & P1 & P2 & _). unfold fill_price in Hp. apply bind_Ok_inv in Hp as (delay & Hdl & Hp). cbv zeta in Hp.
  assert (dval TEN_THOUSAND == 10000)%Q as Et by reflexivity.
  destruct (ddiv_fraction (xc_delay_penalty_bps config) TEN_THOUSAND) as (d & Ed & [D0 D1] & _); [lra..|].
  rewrite Hdl in Ed. injection Ed as <-. unfold fill_reference in Hp. destruct (fi_side i).
  - assert (1 <= dval (d1 + delay)%dec)%Q as H1.
    { rewrite <- dval_d1 at 1. eapply rounded_ge; [apply dadd_rounds, prec_pos|apply drepr_d1|]. rewrite dval_d1. lra. }
    assert (dval (fi_ask_price i) <= dval (fi_ask_price i * (d1 + delay))%dec)%Q as H2.
    { eapply rounded_ge; [apply dmul_rounds, prec_pos|done|]. nra. }
    destruct (quantize_between _ _ _ _ Hp) as (_ & Q1 & _); [lra|]. by apply Q1.
  - assert (0 <= dval (d1 - delay)%dec)%Q as H0 by (apply dsub_nonneg; rewrite dval_d1; lra).
    assert (dval (d1 - delay)%dec <= 1)%Q as H1.
    { rewrite <- dval_d1. eapply rounded_le; [apply dsub_rounds, prec_pos|apply drepr_d1|]. rewrite dval_d1. lra. }
    assert (0 <= dval (fi_bid_price i * (d1 - delay))%dec)%Q as H2 by (apply dmul_nonneg; lra).
    assert (dval (fi_bid_price i * (d1 - delay))%dec <= dval (fi_bid_price i))%Q as H3 by (apply dmul_le_self; [done|lra|done]).
    destruct (quantize_between _ _ _ _ Hp H2) as (_ & Q1 & Q2). split; [|by apply Q2].
    assert (dval (Dec 0 (dexp (xc_price_precision config))) == 0)%Q as E0 by (unfold dval; cbn [dcoef]; apply Qmult_0_l).
    rewrite <- E0. apply Q1; [unfold on_grid; cbn; lia|by rewrite E0].
Qed.
(** ** Partial fills of one order *)

(** Consecutive fills of an order, each computed from the cumulative totals the previous one left. *)
Inductive fill_chain (config : Q1ExecutionConfig) : dec → dec → list Q1FillEconomics → dec → dec → Prop :=
  | chain_nil n c : fill_chain config n c [] n c
  | chain_cons i fe n c fes n' c' :
      fi_cumulative_notional_before i = n → fi_cumulative_commission_before i = c →
      build_q1_fill_economics i config = Ok fe →
      fill_chain config (fe_cumulative_notional_usd fe) (fe_cumulative_commission_usd fe) fes n' c' →
      fill_chain config n c (fe :: fes) n' c'.

(** partial fills pay one commission.  However an order is split into fills, the commissions add up exactly to the commission
    due on its final cumulative notional (with commissions on a grid within the context precision), and each is non-negative. *)
Theorem commissions_telescope config k n fes n' c' :
  fill_chain config n d0 fes n' c' → fes ≠ [] → 0 <= k →
  Forall (λ fe, on_grid k (fe_cumulative_commission_usd fe) ∧ 0 <= units k (fe_cumulative_commission_usd fe) < LIMIT) fes →
  total_commission_due n' config = Ok c' ∧ zsum (map (λ fe, units k (fe_commission_usd fe)) fes) = units k c' ∧
  Forall (λ fe, (0 <= dval (fe_commission_usd fe))%Q) fes.
Proof.
  intros Hch Hne Hk Hg.
  assert (Hgen : ∀ n c fes n' c', fill_chain config n c fes n' c' → on_grid k c ∧ 0 <= units k c < LIMIT →
    Forall (λ fe, on_grid k (fe_cumulative_commission_usd fe) ∧ 0 <= units k (fe_cumulative_commission_usd fe) < LIMIT) fes →
    zsum (map (λ fe, units k (fe_commission_usd fe)) fes) = units k c' - units k c ∧ Forall (λ fe, (0 <= dval (fe_commission_usd fe))%Q) fes ∧
    (fes ≠ [] → total_commission_due n' config = Ok c')).
  { clear. induction 1 as [n c|i fe n c fes n' c' E1 E2 Hb Hch IH]; intros [Gc Uc] Hg.
    - split_and!; [unfold zsum; cbn; lia|constructor|done].
    - pose proof (Forall_inv Hg) as [G1 U1]. pose proof (Forall_inv_tail Hg) as Hg'. destruct (IH ltac:(done) Hg') as (I1 & I2 & I3).
      destruct (economics_parts i config fe Hb) as (_ & _ & _ & _ & _ & Htc & Hcm & H0 & _).
      destruct (dsub_units k (fe_cumulative_commission_usd fe) (fi_cumulative_commission_before i)) as [_ U2]; [done|by rewrite E2|rewrite E2; lia|].
      cbn [map]. rewrite zsum_cons, I1, Hcm, U2, E2. split_and!; [lia|by constructor|]. intros _.
      destruct fes as [|fe' fes]; [|by apply I3]. inversion Hch; subst. done. }
  destruct (Hgen n d0 fes n' c' Hch) as (H1 & H2 & H3); [|done|].
  { rewrite units_d0. split; [by apply on_grid_d0|]. split; [lia|reflexivity]. }
  rewrite units_d0 in H1. split_and!; [by apply H3|lia|done].
Qed.

(** ** A concrete fill *)

Definition ex_exec_config : Q1ExecutionConfig := {|
  xc_displayed_participation := Dec 25 (-2); xc_adv_participation := Dec 1 (-2); xc_delay_penalty_bps := Dec 20 (-1);
  xc_guard_min_bps := Dec 25 0; xc_guard_max_bps := Dec 75 0; xc_guard_spread_multiplier := Dec 30 (-1);
  xc_quantity_precision := Dec 1 (-6); xc_price_precision := Dec 1 (-4); xc_commission_rate := Dec 25 (-4);
  xc_commission_waiver_threshold_usd := Dec 10 0; xc_commission_precision := Dec 1 (-2); xc_sensitivity_bps := [Dec 5 0; Dec 10 0] |}.
Definition ex_inputs (remaining notional commission : dec) : FillInputs := {|
  fi_side := BUY; fi_remaining_quantity := remaining; fi_bid_price := Dec 6001000 (-4); fi_ask_price := Dec 6002000 (-4);
  fi_executable_side_quantity := Dec 300 0; fi_remaining_adv_capacity := Dec 100000 0; fi_decision_reference_price := Dec 6000000 (-4);
  fi_decision_spread_bps := Dec 167 (-2); fi_cumulative_notional_before := notional; fi_cumulative_commission_before := commission |}.
Definition no_fill : Q1FillEconomics := {|
  fe_quantity := d0; fe_price := d0; fe_commission_usd := d0; fe_cumulative_notional_usd := d0; fe_cumulative_commission_usd := d0;
  fe_base_execution_cost_usd := d0; fe_sensitivity_costs_usd := []; fe_guard_bps := d0; fe_adverse_move_bps := d0 |}.
Definition economics_of (i : FillInputs) : Q1FillEconomics :=
  match build_q1_fill_economics i ex_exec_config with Ok fe => fe | Raise _ => no_fill end.
Definition ex_fill1 : Q1FillEconomics := Eval vm_compute in economics_of (ex_inputs (Dec 100500000 (-6)) d0 d0).
Definition ex_input2 : FillInputs :=
  Eval vm_compute in ex_inputs (Dec 25500000 (-6)) (fe_cumulative_notional_usd ex_fill1) (fe_cumulative_commission_usd ex_fill1).
Definition ex_fill2 : Q1FillEconomics := Eval vm_compute in economics_of ex_input2.

Lemma fill_respects_caps_witness :
  (dval (fe_quantity ex_fill1)
   <= dval (fi_executable_side_quantity (ex_inputs (Dec 100500000 (-6)) d0 d0) * xc_displayed_participation ex_exec_config)%dec)%Q.
Proof.
  apply (fill_respects_caps (ex_inputs (Dec 100500000 (-6)) d0 d0) ex_exec_config ex_fill1); vm_compute; reflexivity.
Defined.

Lemma no_price_improvement_witness : (dval (Dec 6002000 (-4)) <= dval (fe_price ex_fill1))%Q.
Proof.
  apply (no_price_improvement (ex_inputs (Dec 100500000 (-6)) d0 d0) ex_exec_config ex_fill1); vm_compute; (reflexivity || discriminate).
Defined.

Lemma commissions_telescope_witness :
  zsum (map (λ fe, units 2 (fe_commission_usd fe)) [ex_fill1; ex_fill2]) = units 2 (fe_cumulative_commission_usd ex_fill2).
Proof.
  refine (proj1 (proj2 (commissions_telescope ex_exec_config 2 d0 [ex_fill1; ex_fill2] (fe_cumulative_notional_usd ex_fill2) _ _ _ _ _))).
  - apply (chain_cons _ (ex_inputs (Dec 100500000 (-6)) d0 d0)); [reflexivity|reflexivity|vm_compute; reflexivity|].
    apply (chain_cons _ ex_input2); [reflexivity|reflexivity|vm_compute; reflexivity|]. apply chain_nil.
  - discriminate.
  - lia.
  - repeat apply Forall_cons_2; [..|apply Forall_nil_2]; split; vm_compute; first [discriminate | split; [discriminate|reflexivity]].
Defined.
