(* ===== verification/Reconciliation.v ===== *)
(** * Reconciliation of an arm with its immutable ledgers ([risk/reconciliation.py])

    The service rebuilds positions, settled cash and receivables from the opening snapshot, the fills and the cash
    events, and compares them with the live arm state.  The database is a value: the rows of the four tables,
    a snapshot with its payload, a fill or event with the result of decoding its payload; the queries are the filters and orders of the [select] statements. *)
From Stdlib Require Import ZArith Lia Ascii String QArith Lqa.
From stdpp Require Import base list strings numbers sets.
From S2P Require Import Prelude PyDecimal Hashing Domain ArmState Payload.
Set Default Goal Selector "!".
Open Scope Z_scope.

(** ** [domain/q1_runtime.py] *)

Record Q1Fill := {
  qf_fill_id : string;
  qf_order_intent_id : string;
  qf_run_id : string;
  qf_arm_id : Q1ArmId;
  qf_source_cycle_id : string;
  qf_quote_id : string;
  qf_quote_event_time : datetime;
  qf_quote_available_at : datetime;
  qf_symbol : string;
  qf_side : OrderSide;
  qf_quantity : dec;
  qf_price : dec;
  qf_commission_usd : dec;
  qf_cumulative_order_commission_usd : dec;
  qf_execution_scenario_id : string;
  qf_base_fill_cost_usd : dec;
  qf_sensitivity_5bp_cost_usd : dec;
  qf_sensitivity_10bp_cost_usd : dec;
  qf_effective_at : datetime;
  qf_created_at : datetime;
  qf_algorithm_version : string;
  qf_config_manifest_hash : string;
  qf_code_version : string;
  qf_model_version : string;
  qf_source_manifest_hash : string;
  qf_fill_hash : string;
}.

Definition validate_Q1Fill (f : Q1Fill) : res Q1Fill :=
  invalid (qf_quantity f <=? d0)%dec "quantity";;
  invalid (qf_price f <=? d0)%dec "price";;
  invalid (qf_commission_usd f <? d0)%dec "commission_usd";;
  invalid (qf_cumulative_order_commission_usd f <? d0)%dec "cumulative_order_commission_usd";;
  invalid (qf_base_fill_cost_usd f <? d0)%dec "base_fill_cost_usd";;
  invalid (qf_sensitivity_5bp_cost_usd f <? d0)%dec "sensitivity_5bp_cost_usd";;
  invalid (qf_sensitivity_10bp_cost_usd f <? d0)%dec "sensitivity_10bp_cost_usd";;
  aware (qf_quote_event_time f);; aware (qf_quote_available_at f);; aware (qf_effective_at f);; aware (qf_created_at f);;
  invalid (dt_lt (qf_effective_at f) (qf_quote_available_at f)) "Fill cannot precede quote availability";;
  invalid (dt_lt (qf_created_at f) (qf_effective_at f)) "Fill creation cannot predate effective time";;
  Ok f.

Record Q1OrderIntent := {
  qi_order_intent_id : string;
  qi_run_id : string;
  qi_arm_id : Q1ArmId;
  qi_portfolio_decision_id : string;
  qi_risk_decision_id : string;
  qi_source_cycle_id : string;
  qi_input_state_sequence : Z;
  qi_symbol : string;
  qi_side : OrderSide;
  qi_order_class : string;
  qi_quantity : dec;
  qi_decision_quote_id : string;
  qi_decision_reference_price : dec;
  qi_decision_spread_bps : dec;
  qi_created_at : datetime;
  qi_valid_until : datetime;
  qi_idempotency_key : string;
  qi_algorithm_version : string;
  qi_config_manifest_hash : string;
  qi_code_version : string;
  qi_model_version : string;
  qi_source_manifest_hash : string;
  qi_intent_hash : string;
}.

(** pattern ["^[A-Z][A-Z0-9.-]{0,29}$"] *)
Definition intent_symbol_pattern (s : string) : bool :=
  match s with
  | EmptyString => false
  | String c s => is_upper c
      && all_chars (λ c, is_upper c || ascii_in 48 57 c || Ascii.eqb c "."%char || Ascii.eqb c "-"%char) s
      && (Z.of_nat (String.length s) <=? 29)
  end.

Definition sell_only_class (c : string) : bool :=
  String.eqb c "EMERGENCY_REDUCTION" || String.eqb c "LLM_REDUCTION" || String.eqb c "LIVE_MIRROR_TRANSITION".

Definition validate_Q1OrderIntent (o : Q1OrderIntent) : res Q1OrderIntent :=
  invalid (qi_input_state_sequence o <? 0) "input_state_sequence";;
  invalid (negb (intent_symbol_pattern (qi_symbol o))) "symbol";;
  invalid (qi_quantity o <=? d0)%dec "quantity";;
  invalid (qi_decision_reference_price o <=? d0)%dec "decision_reference_price";;
  invalid (qi_decision_spread_bps o <? d0)%dec "decision_spread_bps";;
  aware (qi_created_at o);; aware (qi_valid_until o);;
  invalid (dt_le (qi_valid_until o) (qi_created_at o)) "Q1 order must have a positive validity window";;
  invalid (sell_only_class (qi_order_class o) && negb (bool_decide (qi_side o = SELL))) "orders must be sell-only";;
  Ok o.

(** ** Results *)

Inductive ReconciliationCondition :=
  | RC_OK | LEDGER_UNAVAILABLE | POSITION_OR_CASH_MISMATCH | NEGATIVE_BALANCE | UNKNOWN_FILL.
#[global] Instance ReconciliationCondition_eq_dec : EqDecision ReconciliationCondition.
Proof. solve_decision. Defined.

Definition ReconciliationCondition_value (c : ReconciliationCondition) : string :=
  match c with
  | RC_OK => "OK" | LEDGER_UNAVAILABLE => "LEDGER_UNAVAILABLE" | POSITION_OR_CASH_MISMATCH => "POSITION_OR_CASH_MISMATCH"
  | NEGATIVE_BALANCE => "NEGATIVE_BALANCE" | UNKNOWN_FILL => "UNKNOWN_FILL"
  end.

Record Q1ReconciliationResult := {
  rr_conditions : list ReconciliationCondition;
  rr_expected_positions : pydict dec;
  rr_expected_settled_cash_usd : dec;
  rr_expected_unsettled_receivables : pydict dec;
  rr_checked_fill_ids : list string;
  rr_checked_cash_event_ids : list string;
  rr_result_hash : string;
}.

(** [self.conditions[0]]: an empty tuple raises [IndexError]. *)
Definition primary_condition (r : Q1ReconciliationResult) : option ReconciliationCondition := head (rr_conditions r).

Definition rr_ok (r : Q1ReconciliationResult) : bool := bool_decide (rr_conditions r = [RC_OK]).

Definition is_critical (r : Q1ReconciliationResult) (configured_conditions : list string) : bool :=
  existsb (λ c, existsb (String.eqb (ReconciliationCondition_value c)) configured_conditions) (rr_conditions r).

(** ** The tables and the queries *)

Record ArmStateSnapshotRow := {
  sr_snapshot_id : string; sr_run_id : string; sr_arm_id : string; sr_sequence : Z; sr_created_at : datetime;
  sr_payload_json : pydict pyval;
}.
Record FillRow := {
  fr_fill_id : string; fr_run_id : string; fr_arm_id : string; fr_algorithm_version : string; fr_fill_hash : string;
  fr_effective_at : datetime; fr_fill : res Q1Fill;
}.
Record CashSettlementEventRow := {
  cr_event_id : string; cr_run_id : string; cr_arm_id : string; cr_algorithm_version : string; cr_event_hash : string;
  cr_effective_at : datetime; cr_created_at : datetime; cr_event : res CashSettlementEvent;
}.
Record OrderEventRow := {
  or_order_event_id : string; or_run_id : string; or_arm_id : string; or_algorithm_version : string; or_event_type : string;
  or_available_at : datetime; or_event : res OrderEvent;
}.
Record Database := {
  db_snapshots : list ArmStateSnapshotRow;
  db_fills : list FillRow;
  db_cash_events : list CashSettlementEventRow;
  db_order_events : list OrderEventRow;
}.

(** [ORDER BY time, id] *)
Definition time_id_le {A} (t : A → datetime) (id : A → string) (a b : A) : bool :=
  (instant (t a) <? instant (t b)) || ((instant (t a) =? instant (t b)) && String.leb (id a) (id b)).

Section queries.
Context (db : Database) (run_id arm_id : string) (as_of : datetime).

Definition opening_row : option ArmStateSnapshotRow :=
  head (sorted (λ a b, (sr_sequence a <? sr_sequence b)
                       || ((sr_sequence a =? sr_sequence b) && time_id_le sr_created_at sr_snapshot_id a b))
    (List.filter (λ r, String.eqb (sr_run_id r) run_id && String.eqb (sr_arm_id r) arm_id && dt_le (sr_created_at r) as_of)
       (db_snapshots db))).

Definition fill_rows : list FillRow :=
  sorted (time_id_le fr_effective_at fr_fill_id)
    (List.filter (λ r, String.eqb (fr_run_id r) run_id && String.eqb (fr_arm_id r) arm_id
                       && String.eqb (fr_algorithm_version r) Q1_ALGORITHM_VERSION && dt_le (fr_effective_at r) as_of) (db_fills db)).

Definition cash_rows : list CashSettlementEventRow :=
  sorted (time_id_le cr_effective_at cr_event_id)
    (List.filter (λ r, String.eqb (cr_run_id r) run_id && String.eqb (cr_arm_id r) arm_id
                       && String.eqb (cr_algorithm_version r) Q1_ALGORITHM_VERSION
                       && dt_le (cr_effective_at r) as_of && dt_le (cr_created_at r) as_of) (db_cash_events db)).

Definition order_event_rows : list OrderEventRow :=
  sorted (time_id_le or_available_at or_order_event_id)
    (List.filter (λ r, String.eqb (or_run_id r) run_id && String.eqb (or_arm_id r) arm_id
                       && String.eqb (or_algorithm_version r) Q1_ALGORITHM_VERSION && dt_le (or_available_at r) as_of)
       (db_order_events db)).

(** ** Decoding the rows: the accepted values and the conditions the others raise *)

Definition when (b : bool) (c : ReconciliationCondition) : list ReconciliationCondition := if b then [c] else [].

Definition decode_opening (state : Q1ArmState) : Q1ArmState * list ReconciliationCondition :=
  let '(opening_state, conditions) :=
    match opening_row with
    | None => (state, [LEDGER_UNAVAILABLE])
    | Some row => match from_payload (sr_payload_json row) with Ok s => (s, []) | Raise _ => (state, [LEDGER_UNAVAILABLE]) end
    end in
  (opening_state, conditions ++ when (negb (as_sequence opening_state =? 0)) LEDGER_UNAVAILABLE).

Definition accept_fill (row : FillRow) : option Q1Fill :=
  match fr_fill row with
  | Raise _ => None
  | Ok fill =>
      if negb (String.eqb (qf_fill_id fill) (fr_fill_id row)) || negb (String.eqb (qf_fill_hash fill) (fr_fill_hash row))
         || negb (String.eqb (qf_run_id fill) run_id) || negb (String.eqb (Q1ArmId_value (qf_arm_id fill)) arm_id)
         || dt_lt as_of (qf_created_at fill)
      then None else Some fill
  end.

Definition accept_order_event (row : OrderEventRow) : option OrderEvent :=
  match or_event row with Ok e => Some e | Raise _ => None end.
Definition is_fill_row (row : OrderEventRow) : bool :=
  String.eqb (or_event_type row) "PARTIALLY_FILLED" || String.eqb (or_event_type row) "FILLED".

Definition accept_cash_event (row : CashSettlementEventRow) : option CashSettlementEvent :=
  match cr_event row with
  | Raise _ => None
  | Ok e =>
      if negb (String.eqb (cs_cash_settlement_event_id e) (cr_event_id row)) || negb (String.eqb (cs_event_hash e) (cr_event_hash row))
      then None else Some e
  end.

(** Some row was rejected. *)
Definition rejected {A B} (f : A → option B) (l : list A) : bool := existsb (λ x, match f x with Some _ => false | None => true end) l.

Definition accepted_fills : list Q1Fill := omap accept_fill fill_rows.
Definition accepted_fill_events : list OrderEvent := omap accept_order_event (List.filter is_fill_row order_event_rows).
Definition accepted_cash_events : list CashSettlementEvent := omap accept_cash_event cash_rows.
End queries.

(** ** Rebuilding *)

Definition fill_matches (fill : Q1Fill) (event : OrderEvent) : bool :=
  bool_decide (oe_source_id event = Some (qf_fill_id fill))
  && String.eqb (oe_order_intent_id event) (qf_order_intent_id fill)
  && (oe_quantity_delta event =? qf_quantity fill)%dec
  && (oe_commission_delta_usd event =? qf_commission_usd fill)%dec.

Definition signed_quantity (fill : Q1Fill) : dec :=
  match qf_side fill with BUY => qf_quantity fill | SELL => (- qf_quantity fill)%dec end.

Definition _positive_positions (positions : pydict dec) : pydict dec :=
  List.filter (λ kv, negb (kv.2 =? d0)%dec) (sorted_items positions).

Definition expected_positions_of (opening : pydict dec) (fills : list Q1Fill) : pydict dec :=
  _positive_positions (fold_left (λ positions fill,
    dset (qf_symbol fill)
      (match dget (qf_symbol fill) positions with Some q => q | None => d0 end + signed_quantity fill)%dec positions) fills opening).

Definition expected_receivables_of (cash_events : list CashSettlementEvent) : pydict dec :=
  List.filter (λ kv, negb (kv.2 =? d0)%dec)
    (fold_left (λ receivables event,
      match cs_receivable_id event with
      | Some r => dset r (match dget r receivables with Some a => a | None => d0 end
                          + cs_unsettled_receivable_delta_usd event)%dec receivables
      | None => receivables
      end) cash_events []).

(** [cash_events_by_fill.get(fill_id, ())] *)
Definition cash_events_of_fill (cash_events : list CashSettlementEvent) (fill_id : string) : list CashSettlementEvent :=
  List.filter (λ e, bool_decide (cs_source_fill_id e = Some fill_id)) cash_events.

Definition valid_cash_events (cash_events : list CashSettlementEvent) (fill : Q1Fill) : bool :=
  let event_types := map cs_event_type (cash_events_of_fill cash_events (qf_fill_id fill)) in
  match qf_side fill with
  | BUY => bool_decide (event_types = [BUY_SETTLED_CASH_DEBIT])
  | SELL => bool_decide (event_types = [SELL_RECEIVABLE_CREATED])
            || bool_decide (event_types = [SELL_RECEIVABLE_CREATED; RECEIVABLE_SETTLED])
  end.

(** Equality of dictionaries of decimals: the same keys with equal values. *)
Definition dict_eqb (a b : pydict dec) : bool :=
  (Z.of_nat (length a) =? Z.of_nat (length b))
  && forallb (λ kv, match dget kv.1 b with Some v => (kv.2 =? v)%dec | None => false end) a.

(** [set(cash_events_by_fill) != fill_ids] *)
Definition same_ids (a b : list string) : bool :=
  forallb (λ x, existsb (String.eqb x) b) a && forallb (λ x, existsb (String.eqb x) a) b.

Definition conditions_order : list ReconciliationCondition :=
  [LEDGER_UNAVAILABLE; POSITION_OR_CASH_MISMATCH; NEGATIVE_BALANCE; UNKNOWN_FILL].

Definition ordered_conditions (conditions : list ReconciliationCondition) : list ReconciliationCondition :=
  match List.filter (λ c, existsb (λ d, bool_decide (c = d)) conditions) conditions_order with
  | [] => [RC_OK]
  | l => l
  end.

(** The conditions the comparison raises. *)
Definition fill_conditions (fills : list Q1Fill) (fill_events : list OrderEvent) : list ReconciliationCondition :=
  when (existsb (λ fill, negb (Z.of_nat (length (List.filter (fill_matches fill) fill_events)) =? 1)) fills) UNKNOWN_FILL
  ++ when (existsb (λ e, match oe_source_id e with
                         | None => true
                         | Some s => negb (existsb (String.eqb s) (map qf_fill_id fills))
                         end) fill_events) UNKNOWN_FILL.

Definition cash_conditions (fills : list Q1Fill) (cash_events : list CashSettlementEvent) : list ReconciliationCondition :=
  when (negb (Z.of_nat (length (List.filter (λ e, bool_decide (cs_event_type e = OPENING_SETTLED_CASH)) cash_events)) =? 1))
    LEDGER_UNAVAILABLE
  ++ when (negb (same_ids (omap cs_source_fill_id cash_events) (map qf_fill_id fills))) UNKNOWN_FILL
  ++ when (existsb (λ fill, negb (valid_cash_events cash_events fill)) fills) UNKNOWN_FILL.

Definition settlement_count (cash_events : list CashSettlementEvent) : Z :=
  Z.of_nat (length (List.filter (λ e, bool_decide (cs_event_type e = RECEIVABLE_SETTLED)) cash_events)).

(** [{item.receivable_id: item.amount_usd for item in state.unsettled_receivables}] *)
Definition actual_receivables (state : Q1ArmState) : pydict dec :=
  dict_of_pairs (map (λ r, (ur_receivable_id r, ur_amount_usd r)) (as_unsettled_receivables state)).

Definition state_conditions (state : Q1ArmState) (n_fills : Z) (cash_events : list CashSettlementEvent)
    (expected_positions : pydict dec) (expected_settled : dec) (expected_receivables : pydict dec) : list ReconciliationCondition :=
  when (negb (as_sequence state =? n_fills + settlement_count cash_events)) POSITION_OR_CASH_MISMATCH
  ++ when (negb (dict_eqb expected_positions (_positive_positions (as_positions state)))
           || negb (expected_settled =? as_settled_cash_usd state)%dec
           || negb (dict_eqb expected_receivables (actual_receivables state))) POSITION_OR_CASH_MISMATCH
  ++ when ((as_settled_cash_usd state <? d0)%dec || (expected_settled <? d0)%dec
           || existsb (λ kv, (kv.2 <? d0)%dec) expected_positions
           || existsb (λ kv, (kv.2 <? d0)%dec) expected_receivables) NEGATIVE_BALANCE.

Definition dict_data (d : pydict dec) : pyval := PDict (map (λ kv, (kv.1, PDecimal kv.2)) d).

Definition check `{Digest} (db : Database) (run_id arm_id : string) (state : Q1ArmState) (as_of : datetime)
  : res Q1ReconciliationResult :=
  as_of ← require_aware_utc as_of;
  let '(opening_state, opening_conditions) := decode_opening db run_id arm_id as_of state in
  let fills := accepted_fills db run_id arm_id as_of in
  let fill_events := accepted_fill_events db run_id arm_id as_of in
  let cash_events := accepted_cash_events db run_id arm_id as_of in
  let expected_positions := expected_positions_of (as_positions opening_state) fills in
  let expected_settled := dsum (map cs_settled_cash_delta_usd cash_events) in
  let expected_receivables := expected_receivables_of cash_events in
  let conditions := ordered_conditions (
    opening_conditions
    ++ when (rejected (accept_fill run_id arm_id as_of) (fill_rows db run_id arm_id as_of)) UNKNOWN_FILL
    ++ when (rejected accept_order_event (List.filter is_fill_row (order_event_rows db run_id arm_id as_of))) UNKNOWN_FILL
    ++ fill_conditions fills fill_events
    ++ when (rejected accept_cash_event (cash_rows db run_id arm_id as_of)) POSITION_OR_CASH_MISMATCH
    ++ cash_conditions fills cash_events
    ++ state_conditions state (Z.of_nat (length fills)) cash_events expected_positions expected_settled expected_receivables) in
  let fill_ids := map qf_fill_id fills in
  let cash_ids := map cs_cash_settlement_event_id cash_events in
  result_hash ← canonical_hash (PDict
    [("run_id", PStr run_id); ("arm_id", PStr arm_id); ("as_of", PDatetime as_of); ("state_sequence", PInt (as_sequence state));
     ("conditions", PList (map (λ c, PStr (ReconciliationCondition_value c)) conditions));
     ("expected_positions", dict_data expected_positions); ("expected_settled_cash_usd", PDecimal expected_settled);
     ("expected_unsettled_receivables", dict_data expected_receivables);
     ("checked_fill_ids", PList (map PStr fill_ids)); ("checked_cash_event_ids", PList (map PStr cash_ids))]);
  Ok {| rr_conditions := conditions; rr_expected_positions := expected_positions;
        rr_expected_settled_cash_usd := expected_settled; rr_expected_unsettled_receivables := expected_receivables;
        rr_checked_fill_ids := fill_ids; rr_checked_cash_event_ids := cash_ids; rr_result_hash := result_hash |}.

(** ** Accumulating deltas per key *)

Definition accumulate (l : list (string * dec)) (d : pydict dec) : pydict dec :=
  fold_left (λ d kv, dset kv.1 (match dget kv.1 d with Some q => q | None => d0 end + kv.2)%dec d) l d.

Definition key_part (j : Z) (s : string) (kv : string * dec) : Z := if String.eqb kv.1 s then units j kv.2 else 0.

Section accumulation.
Context (j : Z).
Hypothesis Hj : 0 <= j.

Lemma accumulate_units l d :
  Forall (λ kv, on_grid j kv.2) l → Forall (λ kv, on_grid j kv.2) d → NoDup d.*1 →
  (∀ s, Z.abs (position_units j d s) + zsum (map Z.abs (map (key_part j s) l)) < LIMIT) →
  NoDup (accumulate l d).*1 ∧ Forall (λ kv, on_grid j kv.2) (accumulate l d) ∧
  ∀ s, position_units j (accumulate l d) s = position_units j d s + zsum (map (key_part j s) l).
Proof.
  revert d. induction l as [|[k x] l IH]; intros d Gl Gd Hn Hb; cbn [accumulate fold_left].
  { split_and!; [done..|]. intros. unfold zsum; cbn. lia. }
  apply Forall_cons in Gl as [Gx Gl]. cbn [fst snd] in *. cbn [map] in Hb. setoid_rewrite zsum_cons in Hb.
  set (cur := match dget k d with Some q => q | None => d0 end).
  assert (on_grid j cur ∧ units j cur = position_units j d k) as [Gc Uc].
  { unfold cur, position_units. destruct (dget k d) eqn:E; [|split; [by apply on_grid_d0|apply units_d0]].
    apply dget_Some_elem in E. rewrite Forall_forall in Gd. split; [exact (Gd _ E)|done]. }
  pose proof (Hb k) as Hbk. unfold key_part in Hbk at 1. cbn in Hbk. rewrite String.eqb_refl in Hbk.
  pose proof (zsum_abs_nonneg (map (key_part j k) l)).
  destruct (dadd_units j cur x Gc Gx) as [Ga Ua]; [lia|].
  assert (Hpu : ∀ s, position_units j (dset k (cur + x)%dec d) s = position_units j d s + key_part j s (k, x)).
  { intros s. unfold position_units at 1. rewrite dget_dset. unfold key_part. cbn. rewrite (String.eqb_sym s).
    destruct (String.eqb_spec k s) as [<-|]; [lia|]. unfold position_units. lia. }
  destruct (IH (dset k (cur + x)%dec d)) as (I1 & I2 & I3); [done|by apply Forall_dset|by apply dset_NoDup| |].
  { intros s. rewrite Hpu. specialize (Hb s). lia. }
  split_and!; [done..|]. intros s. change (fold_left _ l _) with (accumulate l (dset k (cur + x)%dec d)).
  rewrite I3, Hpu. cbn [map]. rewrite zsum_cons. lia.
Qed.

Lemma dget_perm {A} (d1 d2 : pydict A) k : NoDup d1.*1 → d1 ≡ₚ d2 → dget k d1 = dget k d2.
Proof.
  intros Hn Hp. assert (NoDup d2.*1) as Hn2 by (by rewrite <- Hp). destruct (dget k d1) as [v|] eqn:E1.
  - symmetry. apply dget_elem; [done|]. rewrite <- Hp. by apply dget_Some_elem.
  - symmetry. apply dget_None_not_key. apply dget_None_not_key in E1. by rewrite <- Hp.
Qed.

Lemma dget_filter {A} (f : string * A → bool) (d : pydict A) k :
  NoDup d.*1 → dget k (List.filter f d) = match dget k d with Some v => if f (k, v) then Some v else None | None => None end.
Proof.
  induction d as [|[k2 v2] d IH]; cbn; intros Hn; [done|]. apply NoDup_cons in Hn as [H1 H2].
  destruct (String.eqb_spec k k2) as [->|Hne].
  - destruct (f (k2, v2)); cbn; [by rewrite String.eqb_refl|]. rewrite IH by done.
    apply dget_None_not_key in H1. by rewrite H1.
  - destruct (f (k2, v2)); cbn; [|by apply IH]. destruct (String.eqb_spec k k2); [done|]. by apply IH.
Qed.

Lemma nonzero_units d s :
  NoDup d.*1 → Forall (λ kv, on_grid j kv.2) d →
  position_units j (List.filter (λ kv, negb (kv.2 =? d0)%dec) d) s = position_units j d s.
Proof.
  intros Hn Hg. unfold position_units. rewrite dget_filter by done. destruct (dget s d) as [v|] eqn:E; [|done]. cbn.
  apply dget_Some_elem in E. rewrite Forall_forall in Hg. specialize (Hg _ E). cbn in Hg.
  destruct (deqb v d0) eqn:Ez; [|done]. rewrite (deqb_units j), units_d0, Z.eqb_eq in Ez by (done || by apply on_grid_d0). done.
Qed.

Lemma positive_units p s :
  NoDup p.*1 → Forall (λ kv, on_grid j kv.2) p → position_units j (_positive_positions p) s = position_units j p s.
Proof.
  intros Hn Hg. unfold _positive_positions. rewrite nonzero_units; [|by rewrite sorted_items_perm|by rewrite sorted_items_perm].
  unfold position_units. rewrite (dget_perm (sorted_items p) p); [done| |apply sorted_items_perm]. by rewrite sorted_items_perm.
Qed.

(** Equal dictionaries hold the same units for every key. *)
Lemma dict_eqb_units a b s :
  NoDup a.*1 → NoDup b.*1 → Forall (λ kv, on_grid j kv.2) a → Forall (λ kv, on_grid j kv.2) b →
  dict_eqb a b = true → position_units j a s = position_units j b s.
Proof.
  intros Na Nb Ga Gb He. unfold dict_eqb in He. split_bool. apply Z.eqb_eq in H. rewrite forallb_forall in H0.
  assert (Hsub : ∀ k, k ∈ a.*1 → k ∈ b.*1).
  { intros k ([k' v] & -> & Hin)%list_elem_of_fmap. apply list_elem_of_In in Hin. specialize (H0 _ Hin). cbn in H0.
    destruct (dget k' b) eqn:E; [|done]. apply dget_Some_elem in E. apply list_elem_of_fmap. by exists (k', d). }
  assert (a.*1 ≡ₚ b.*1) as Hperm.
  { apply submseteq_length_Permutation; [by apply NoDup_submseteq|rewrite !length_fmap; lia]. }
  unfold position_units. destruct (dget s a) as [v|] eqn:E.
  - apply dget_Some_elem in E. pose proof E as Hin. apply list_elem_of_In in Hin. specialize (H0 _ Hin). cbn in H0.
    destruct (dget s b) as [w|] eqn:E'; [|done]. apply dget_Some_elem in E'. rewrite Forall_forall in Ga, Gb.
    specialize (Ga _ E). specialize (Gb _ E'). cbn in Ga, Gb. by rewrite (deqb_units j), Z.eqb_eq in H0 by done.
  - apply dget_None_not_key in E. rewrite Hperm in E. apply dget_None_not_key in E. by rewrite E.
Qed.
End accumulation.

(** ** Conditions *)

Lemma ordered_ok conditions c :
  ordered_conditions conditions = [RC_OK] → c ≠ RC_OK → c ∉ conditions.
Proof.
  unfold ordered_conditions. intros Ho Hc Hin.
  assert (c ∈ List.filter (λ c, existsb (λ d, bool_decide (c = d)) conditions) conditions_order) as Hf.
  { apply elem_of_filterb. split.
    - apply existsb_exists. exists c. split; [by apply list_elem_of_In|by apply bool_decide_eq_true].
    - unfold conditions_order. destruct c; [done|set_solver..]. }
  destruct (List.filter _ conditions_order) as [|x l] eqn:E; [set_solver|].
  assert (RC_OK ∈ List.filter (λ c, existsb (λ d, bool_decide (c = d)) conditions) conditions_order) as [_ Hok]%elem_of_filterb
    by (rewrite E, Ho; left).
  unfold conditions_order in Hok. set_solver.
Qed.

Lemma ordered_false conditions b c :
  ordered_conditions conditions = [RC_OK] → c ≠ RC_OK → (b = true → c ∈ conditions) → b = false.
Proof. intros Ho Hc Hb. destruct b; [|done]. exfalso. exact (ordered_ok _ c Ho Hc (Hb eq_refl)). Qed.

Lemma elem_of_when b c : c ∈ when b c ↔ b = true.
Proof. unfold when. destruct b; set_solver. Qed.

Lemma not_rejected {A B} (f : A → option B) l : rejected f l = false → length (omap f l) = length l.
Proof.
  induction l as [|x l IH]; cbn; [done|]. intros Hr. apply orb_false_iff in Hr as [H1 H2].
  destruct (f x); [|done]. cbn. by rewrite IH.
Qed.

(** The deltas of the fills and of the receivable events. *)
Definition fill_delta (f : Q1Fill) : string * dec := (qf_symbol f, signed_quantity f).
Definition receivable_deltas (cash_events : list CashSettlementEvent) : list (string * dec) :=
  omap (λ e, match cs_receivable_id e with Some r => Some (r, cs_unsettled_receivable_delta_usd e) | None => None end) cash_events.

Lemma expected_positions_accumulate opening fills :
  expected_positions_of opening fills = _positive_positions (accumulate (map fill_delta fills) opening).
Proof.
  unfold expected_positions_of, accumulate. f_equal. revert opening. induction fills as [|f fs IH]; intros opening; cbn; [done|]. apply IH.
Qed.

Lemma expected_receivables_accumulate cash_events :
  expected_receivables_of cash_events = List.filter (λ kv, negb (kv.2 =? d0)%dec) (accumulate (receivable_deltas cash_events) []).
Proof.
  unfold expected_receivables_of, accumulate. f_equal. generalize (@nil (string * dec)).
  induction cash_events as [|e l IH]; intros d; cbn; [done|]. destruct (cs_receivable_id e); cbn; apply IH.
Qed.

(** Quantities on a grid of [10^-j] shares, cash on a grid of [10^-m] dollars, turnovers within the context precision. *)
Record recon_on_grid (j m : Z) (opening state : Q1ArmState) (fills : list Q1Fill) (cash_events : list CashSettlementEvent) : Prop := {
  rg_j : 0 <= j;
  rg_m : 0 <= m;
  rg_opening : NoDup (as_positions opening).*1 ∧ Forall (λ kv, on_grid j kv.2) (as_positions opening);
  rg_state : NoDup (as_positions state).*1 ∧ Forall (λ kv, on_grid j kv.2) (as_positions state) ∧
    on_grid m (as_settled_cash_usd state) ∧ Forall (λ r, on_grid m (ur_amount_usd r)) (as_unsettled_receivables state);
  rg_fills : Forall (λ f, on_grid j (signed_quantity f)) fills;
  rg_cash : Forall (λ e, on_grid m (cs_settled_cash_delta_usd e) ∧ on_grid m (cs_unsettled_receivable_delta_usd e)) cash_events;
  rg_shares_bound : ∀ s, Z.abs (position_units j (as_positions opening) s) + zsum (map Z.abs (map (key_part j s) (map fill_delta fills))) < LIMIT;
  rg_cash_bound : zsum (map Z.abs (map (units m) (map cs_settled_cash_delta_usd cash_events))) < LIMIT;
  rg_receivable_bound : ∀ s, zsum (map Z.abs (map (key_part m s) (receivable_deltas cash_events))) < LIMIT;
}.

Lemma actual_receivables_grid m state :
  Forall (λ r, on_grid m (ur_amount_usd r)) (as_unsettled_receivables state) → Forall (λ kv, on_grid m kv.2) (actual_receivables state).
Proof.
  intros Hg. unfold actual_receivables. induction (as_unsettled_receivables state) as [|r l IH] using rev_ind; [constructor|].
  apply Forall_app in Hg as [Hl Hr]. rewrite map_app. cbn. rewrite dict_of_pairs_snoc. apply Forall_dset; [by apply IH|].
  exact (Forall_inv Hr).
Qed.

(** The rows and the tests an OK result vouches for. *)
Ltac ok_excludes H c := apply (H _ c); [done|]; rewrite <- (elem_of_when _ c); tauto.

Lemma existsb_false_Forall {A} (f : A → bool) l : existsb f l = false → Forall (λ x, f x = false) l.
Proof.
  induction l as [|x l IH]; cbn; [constructor|]. intros [H1 H2]%orb_false_iff. constructor; auto.
Qed.

Lemma decode_opening_ok db run_id arm_id as_of state opening oc :
  decode_opening db run_id arm_id as_of state = (opening, oc) → LEDGER_UNAVAILABLE ∉ oc →
  as_sequence opening = 0 ∧ ∃ row, opening_row db run_id arm_id as_of = Some row ∧ from_payload (sr_payload_json row) = Ok opening.
Proof.
  unfold decode_opening. intros Eo Hn. destruct (opening_row db run_id arm_id as_of) as [row|].
  2:{ injection Eo as <- <-. set_solver. }
  destruct (from_payload (sr_payload_json row)) as [s|e] eqn:Er; injection Eo as <- <-; [|set_solver].
  split; [|eauto]. destruct (as_sequence s =? 0) eqn:E; [by apply Z.eqb_eq|]. cbn in Hn. set_solver.
Qed.

(** What an OK result says of every test of the check. *)
Lemma check_ok_parts `{Digest} db run_id arm_id state as_of r :
  check db run_id arm_id state as_of = Ok r → rr_ok r = true →
  let opening := (decode_opening db run_id arm_id as_of state).1 in
  let fills := accepted_fills db run_id arm_id as_of in
  let cash_events := accepted_cash_events db run_id arm_id as_of in
  (as_sequence opening = 0 ∧ ∃ row, opening_row db run_id arm_id as_of = Some row ∧ from_payload (sr_payload_json row) = Ok opening) ∧
  rejected (accept_fill run_id arm_id as_of) (fill_rows db run_id arm_id as_of) = false ∧
  rejected accept_cash_event (cash_rows db run_id arm_id as_of) = false ∧
  Forall (λ f, length (List.filter (fill_matches f) (accepted_fill_events db run_id arm_id as_of)) = 1%nat ∧ valid_cash_events cash_events f = true) fills ∧
  as_sequence state = Z.of_nat (length fills) + settlement_count cash_events ∧
  dict_eqb (expected_positions_of (as_positions opening) fills) (_positive_positions (as_positions state)) = true ∧
  (dsum (map cs_settled_cash_delta_usd cash_events) =? as_settled_cash_usd state)%dec = true ∧
  dict_eqb (expected_receivables_of cash_events) (actual_receivables state) = true.
Proof.
  intros Hc Hok opening fills cash_events. unfold check in Hc. apply bind_Ok_inv in Hc as (t & Ht & Hc).
  assert (t = as_of) as -> by (unfold require_aware_utc in Ht; destruct (tz_aware as_of); [by injection Ht as <-|done]).
  unfold opening in *. clear opening.
  destruct (decode_opening db run_id arm_id as_of state) as [opening oc] eqn:Eo. cbn [fst] in *. cbv zeta in Hc.
  fold fills in Hc. fold cash_events in Hc. apply bind_Ok_inv in Hc as (h & _ & [= <-]).
  unfold rr_ok in Hok. apply bool_decide_eq_true in Hok. cbn [rr_conditions] in Hok.
  assert (LEDGER_UNAVAILABLE ∉ oc) as Hoc by (intros ?; apply (ordered_ok _ LEDGER_UNAVAILABLE Hok); [done|apply elem_of_app; by left]).
  pose proof (λ b c, ordered_false _ b c Hok) as Hfalse. clear Hok.
  unfold fill_conditions, cash_conditions, state_conditions in Hfalse. repeat setoid_rewrite elem_of_app in Hfalse.
  assert (existsb (λ fill, negb (Z.of_nat (length (List.filter (fill_matches fill) (accepted_fill_events db run_id arm_id as_of))) =? 1)) fills = false)
    as R3%existsb_false_Forall by ok_excludes Hfalse UNKNOWN_FILL.
  assert (existsb (λ fill, negb (valid_cash_events cash_events fill)) fills = false)
    as R4%existsb_false_Forall by ok_excludes Hfalse UNKNOWN_FILL.
  assert (negb (as_sequence state =? Z.of_nat (length fills) + settlement_count cash_events) = false) as R5
    by ok_excludes Hfalse POSITION_OR_CASH_MISMATCH.
  assert (negb (dict_eqb (expected_positions_of (as_positions opening) fills) (_positive_positions (as_positions state)))
           || negb (dsum (map cs_settled_cash_delta_usd cash_events) =? as_settled_cash_usd state)%dec
           || negb (dict_eqb (expected_receivables_of cash_events) (actual_receivables state)) = false) as R6
    by ok_excludes Hfalse POSITION_OR_CASH_MISMATCH.
  apply orb_false_iff in R6 as [[R6 R7]%orb_false_iff R8]. rewrite negb_false_iff in R5, R6, R7, R8. apply Z.eqb_eq in R5.
  split_and!; try done.
  - by eapply decode_opening_ok.
  - by eapply decode_opening_ok.
  - ok_excludes Hfalse UNKNOWN_FILL.
  - ok_excludes Hfalse POSITION_OR_CASH_MISMATCH.
  - rewrite Forall_forall in R3, R4 |- *. intros f Hf. specialize (R3 f Hf). specialize (R4 f Hf).
    rewrite negb_false_iff in R3, R4. apply Z.eqb_eq in R3. split; [lia|done].
Qed.

(** C28: an OK reconciliation is a proof of the balances.  When the check reports OK, no row was rejected, the opening
    state was decoded from the first snapshot row, every fill has exactly one matching order event and admissible cash events,
    and the live state is exactly the sum of its ledgers: each position is the opening position plus the signed fills, settled cash is the sum of the settled deltas, each receivable the
    sum of its deltas, and the sequence counts the fills and settlements. *)
Theorem reconciliation_ok_sound `{Digest} j m db run_id arm_id state as_of r :
  check db run_id arm_id state as_of = Ok r → rr_ok r = true →
  let opening := (decode_opening db run_id arm_id as_of state).1 in
  let fills := accepted_fills db run_id arm_id as_of in
  let cash_events := accepted_cash_events db run_id arm_id as_of in
  recon_on_grid j m opening state fills cash_events →
  length fills = length (fill_rows db run_id arm_id as_of) ∧ length cash_events = length (cash_rows db run_id arm_id as_of) ∧
  (as_sequence opening = 0 ∧ ∃ row, opening_row db run_id arm_id as_of = Some row ∧ from_payload (sr_payload_json row) = Ok opening) ∧
  Forall (λ f, length (List.filter (fill_matches f) (accepted_fill_events db run_id arm_id as_of)) = 1%nat ∧ valid_cash_events cash_events f = true) fills ∧
  (∀ s, position_units j (as_positions state) s = position_units j (as_positions opening) s + zsum (map (key_part j s) (map fill_delta fills))) ∧
  units m (as_settled_cash_usd state) = zsum (map (units m) (map cs_settled_cash_delta_usd cash_events)) ∧
  (∀ s, position_units m (actual_receivables state) s = zsum (map (key_part m s) (receivable_deltas cash_events))) ∧
  as_sequence state = Z.of_nat (length fills) + settlement_count cash_events.
Proof.
  intros Hc Hok opening fills cash_events Hg.
  destruct (check_ok_parts _ _ _ _ _ _ Hc Hok) as (Hseq & R1 & R2 & R3 & R5 & R6 & R7 & R8).
  fold opening fills cash_events in Hseq, R3, R5, R6, R7, R8.
  destruct Hg as [Hj Hm [On Og] (Sn & Sg & Sc & Sr) Gf Gc Bs Bc Br].
  assert (Forall (λ kv, on_grid j kv.2) (map fill_delta fills)) as Gfd by (by rewrite Forall_map).
  destruct (accumulate_units j Hj _ _ Gfd Og On Bs) as (A1 & A2 & A3).
  assert (Forall (λ kv, on_grid m kv.2) (receivable_deltas cash_events)) as Grd.
  { apply Forall_forall. intros kv (e & He & Hk)%list_elem_of_omap. destruct (cs_receivable_id e); [|done]. injection Hk as <-.
    rewrite Forall_forall in Gc. by destruct (Gc _ He). }
  destruct (accumulate_units m Hm (receivable_deltas cash_events) []) as (B1 & B2 & B3); [done|constructor|constructor| |].
  { intros s. unfold position_units. cbn. specialize (Br s). lia. }
  split_and!.
  - by apply not_rejected.
  - by apply not_rejected.
  - apply Hseq.
  - apply Hseq.
  - done.
  - intros s. rewrite <- (positive_units j Hj (as_positions state)) by done.
    rewrite <- (dict_eqb_units j (expected_positions_of (as_positions opening) fills)); [| | | | |exact R6].
    + by rewrite expected_positions_accumulate, positive_units, A3.
    + rewrite expected_positions_accumulate. unfold _positive_positions. apply NoDup_filter_fst. by rewrite sorted_items_perm.
    + unfold _positive_positions. apply NoDup_filter_fst. by rewrite sorted_items_perm.
    + rewrite expected_positions_accumulate. unfold _positive_positions. rewrite Forall_forall in A2 |- *.
      intros kv [_ Hin]%elem_of_filterb. rewrite sorted_items_perm in Hin. by apply A2.
    + unfold _positive_positions. rewrite Forall_forall in Sg |- *. intros kv [_ Hin]%elem_of_filterb. rewrite sorted_items_perm in Hin. by apply Sg.
  - destruct (dsum_units m (map cs_settled_cash_delta_usd cash_events)) as [D1 D2]; [done| |done|].
    { rewrite Forall_map. eapply Forall_impl; [exact Gc|]. naive_solver. }
    rewrite (deqb_units m), Z.eqb_eq in R7 by done. lia.
  - intros s. rewrite <- (dict_eqb_units m (expected_receivables_of cash_events)); [| | | | |exact R8].
    + rewrite expected_receivables_accumulate, nonzero_units, B3 by done. unfold position_units. cbn. lia.
    + rewrite expected_receivables_accumulate. by apply NoDup_filter_fst.
    + apply dict_of_pairs_NoDup.
    + rewrite expected_receivables_accumulate. rewrite Forall_forall in B2 |- *. intros kv [_ Hin]%elem_of_filterb. by apply B2.
    + by apply actual_receivables_grid.
  - done.
Qed.

(** ** A concrete database that reconciles *)

#[local] Existing Instance rolling_digest.

Definition ex_versioned : VersionedQ1Record :=
  {| algorithm_version := Q1_ALGORITHM_VERSION; config_manifest_hash := "cfg"; code_version := "code"; model_version := "m"; source_manifest_hash := "src" |}.
Definition ex_state (sequence : Z) (cash : dec) (positions : pydict dec) : Q1ArmState := {|
  as_arm_id := "Q1-DET"; as_initial_nav_usd := Dec 10000000 (-2); as_settled_cash_usd := cash; as_unsettled_receivables := [];
  as_positions := positions; as_sequence := sequence; as_evaluation_anchor_id := None; as_algorithm_version := Q1_ALGORITHM_VERSION |}.
Definition ex_q1_fill : Q1Fill := {|
  qf_fill_id := "f-1"; qf_order_intent_id := "o-1"; qf_run_id := "run"; qf_arm_id := Q1_DET; qf_source_cycle_id := "c-1"; qf_quote_id := "q-1";
  qf_quote_event_time := utc 10; qf_quote_available_at := utc 10; qf_symbol := "QQQ"; qf_side := BUY; qf_quantity := Dec 10000000 (-6);
  qf_price := Dec 6000000 (-4); qf_commission_usd := Dec 150 (-2); qf_cumulative_order_commission_usd := Dec 150 (-2);
  qf_execution_scenario_id := "s"; qf_base_fill_cost_usd := Dec 150 (-2); qf_sensitivity_5bp_cost_usd := Dec 450 (-2);
  qf_sensitivity_10bp_cost_usd := Dec 750 (-2); qf_effective_at := utc 20; qf_created_at := utc 20; qf_algorithm_version := Q1_ALGORITHM_VERSION;
  qf_config_manifest_hash := "cfg"; qf_code_version := "code"; qf_model_version := "m"; qf_source_manifest_hash := "src"; qf_fill_hash := "h-1" |}.
Definition ex_order_event : OrderEvent := {|
  oe_event_id := "e-1"; oe_order_intent_id := "o-1"; oe_event_type := FILLED; oe_event_sequence := 3; oe_quantity_delta := Dec 10000000 (-6);
  oe_commission_delta_usd := Dec 150 (-2); oe_remaining_quantity := d0; oe_cumulative_filled_quantity := Dec 10000000 (-6);
  oe_cumulative_commission_usd := Dec 150 (-2); oe_occurred_at := utc 20; oe_available_at := utc 20; oe_idempotency_key := "k-1"; oe_reason := None;
  oe_source_id := Some "f-1"; oe_quote_id := Some "q-1"; oe_source_cycle_id := Some "c-1"; oe_worker_fence_token := "w"; oe_cycle_attempt_count := 1;
  oe_event_hash := "eh-1"; oe_versioned := ex_versioned |}.
Definition ex_cash_event (id : string) (t : CashSettlementEventType) (fill : option string) (delta gross commission : dec) (at_ : Z) : CashSettlementEvent := {|
  cs_cash_settlement_event_id := id; cs_run_id := "run"; cs_arm_id := Q1_DET; cs_event_type := t; cs_receivable_id := None; cs_source_fill_id := fill;
  cs_settlement_policy_version := "p"; cs_currency := "USD"; cs_settled_cash_delta_usd := delta; cs_unsettled_receivable_delta_usd := d0;
  cs_gross_amount_usd := gross; cs_commission_usd := commission; cs_trade_at := None; cs_settlement_date := None; cs_effective_at := utc at_;
  cs_calendar_session_id := "s"; cs_source_cycle_id := "c-1"; cs_worker_fence_token := "w"; cs_cycle_attempt_count := 1; cs_idempotency_key := id;
  cs_event_hash := id; cs_created_at := utc at_; cs_versioned := ex_versioned |}.
Definition ex_cash_row (e : CashSettlementEvent) : CashSettlementEventRow := {|
  cr_event_id := cs_cash_settlement_event_id e; cr_run_id := cs_run_id e; cr_arm_id := Q1ArmId_value (cs_arm_id e);
  cr_algorithm_version := Q1_ALGORITHM_VERSION; cr_event_hash := cs_event_hash e; cr_effective_at := cs_effective_at e;
  cr_created_at := cs_created_at e; cr_event := Ok e |}.
Definition ex_db : Database := {|
  db_snapshots := [{| sr_snapshot_id := "s-0"; sr_run_id := "run"; sr_arm_id := "Q1-DET"; sr_sequence := 0; sr_created_at := utc 1;
                      sr_payload_json := as_payload (ex_state 0 (Dec 10000000 (-2)) []) |}];
  db_fills := [{| fr_fill_id := "f-1"; fr_run_id := "run"; fr_arm_id := "Q1-DET"; fr_algorithm_version := Q1_ALGORITHM_VERSION; fr_fill_hash := "h-1";
                  fr_effective_at := utc 20; fr_fill := Ok ex_q1_fill |}];
  db_cash_events := [ex_cash_row (ex_cash_event "x-2" BUY_SETTLED_CASH_DEBIT (Some "f-1") (Dec (-600150) (-2)) (Dec 600000 (-2)) (Dec 150 (-2)) 20);
                     ex_cash_row (ex_cash_event "x-1" OPENING_SETTLED_CASH None (Dec 10000000 (-2)) (Dec 10000000 (-2)) d0 1)];
  db_order_events := [{| or_order_event_id := "e-1"; or_run_id := "run"; or_arm_id := "Q1-DET"; or_algorithm_version := Q1_ALGORITHM_VERSION;
                         or_event_type := "FILLED"; or_available_at := utc 20; or_event := Ok ex_order_event |}] |}.
Definition ex_live : Q1ArmState := ex_state 1 (Dec 9399850 (-2)) [("QQQ", Dec 10000000 (-6))].
Definition ex_result : Q1ReconciliationResult :=
  Eval vm_compute in match check ex_db "run" "Q1-DET" ex_live (utc 30) with
  | Ok r => r
  | Raise _ => {| rr_conditions := []; rr_expected_positions := []; rr_expected_settled_cash_usd := d0; rr_expected_unsettled_receivables := [];
                  rr_checked_fill_ids := []; rr_checked_cash_event_ids := []; rr_result_hash := "" |}
  end.

Lemma reconciliation_ok_sound_witness :
  units 2 (as_settled_cash_usd ex_live) =
  zsum (map (units 2) (map cs_settled_cash_delta_usd (accepted_cash_events ex_db "run" "Q1-DET" (utc 30)))).
Proof.
  assert (check ex_db "run" "Q1-DET" ex_live (utc 30) = Ok ex_result) as Hc by (vm_compute; reflexivity).
  apply (reconciliation_ok_sound 6 2 ex_db "run" "Q1-DET" ex_live (utc 30) ex_result Hc); [reflexivity|].
  constructor.
  - lia.
  - lia.
  - split; [apply (bool_decide_eq_true_1 _); vm_compute; reflexivity|constructor].
  - split_and!; [apply (bool_decide_eq_true_1 _); vm_compute; reflexivity|apply Forall_singleton; by vm_compute|by vm_compute|constructor].
  - repeat apply Forall_cons_2; [|apply Forall_nil_2]. by vm_compute.
  - repeat apply Forall_cons_2; [..|apply Forall_nil_2]; split; by vm_compute.
  - intros s. assert (∀ b : bool, Z.abs 0 + (Z.abs (if b then 10000000 else 0) + 0) < LIMIT) as Hb by (intros []; vm_compute; reflexivity).
    exact (Hb (String.eqb "QQQ" s)).
  - vm_compute. reflexivity.
  - intros s. vm_compute. reflexivity.
Defined.
