(* ===== verification/QuantConfig.v ===== *)
(** * Configuration of the Q1 mathematics ([quant/config.py])

    The parameter records and the parser of the versioned YAML document.  A document is what a YAML reader returns: a
    mapping to scalars, lists of scalars and mappings.  The parser uses a float only through [str], so a float is its
    text. *)
From Stdlib Require Import ZArith Lia Ascii String QArith.
From stdpp Require Import base list strings numbers.
From S2P Require Import Prelude PyDecimal Hashing Domain Text.
Set Default Goal Selector "!".
Open Scope Z_scope.

Record CovarianceParameters := {
  cp_half_life_sessions : Z;
  cp_lambda_base : dec;
  cp_annualization_sessions : Z;
  cp_full_weight : dec;
  cp_diagonal_weight : dec;
  cp_initialization : string;
  cp_variance_epsilon : dec;
  cp_psd_tolerance : dec;
  cp_decimal_precision : Z;
}.

Record SignalParameters := {
  sp_minimum_completed_sessions : Z;
  sp_horizons_sessions : list Z;
  sp_relative_strength_horizon_sessions : Z;
  sp_z_score_clip : dec;
  sp_relative_strength_coefficient : dec;
  sp_market_gate_offset : dec;
  sp_market_gate_width : dec;
  sp_market_gate_min : dec;
  sp_market_gate_max : dec;
  sp_confidence_denominator : dec;
  sp_confidence_min : dec;
  sp_confidence_max : dec;
  sp_return_quantum : dec;
  sp_numeric_rounding : string;
}.

Record AllocationParameters := {
  ap_b0_vol_target : dec;
  ap_q1_target_vol : dec;
  ap_max_gross_risky_weight : dec;
  ap_qqq_max_weight : dec;
  ap_soxx_max_weight : dec;
  ap_soxx_max_variance_contribution : dec;
  ap_allow_volatility_scale_up : bool;
  ap_risk_contribution_bisection_iterations : Z;
  ap_risk_contribution_tolerance : dec;
  ap_weight_sum_tolerance : dec;
}.

Record TurnoverParameters := {
  tp_normal_daily_one_way_cap : dec;
  tp_no_trade_one_way_threshold : dec;
  tp_minimum_order_notional_usd : dec;
  tp_minimum_order_nav_fraction : dec;
  tp_emergency_bypasses_turnover_cap : bool;
  tp_emergency_bypasses_minimum_order : bool;
}.

Record EvaluationParameters := {
  ep_minimum_common_out_of_sample_sessions : Z;
  ep_decimal_precision : Z;
  ep_result_quantum : dec;
  ep_risk_free_daily_return : dec;
  ep_downside_target_daily_return : dec;
  ep_newey_west_lag_sessions : Z;
  ep_stationary_bootstrap_expected_block_sessions : Z;
  ep_stationary_bootstrap_samples : Z;
  ep_bootstrap_confidence : dec;
  ep_deterministic_bootstrap_seed : Z;
  ep_annualization_sessions : Z;
}.

Record Q1MathConfig := {
  mc_version : string;
  mc_algorithm_version : string;
  mc_signal_model_version : string;
  mc_risky_symbols : string * string;
  mc_cash_symbol : string;
  mc_disabled_symbols : list string;
  mc_inherited_sell_only_symbols : list string;
  mc_covariance : CovarianceParameters;
  mc_signal : SignalParameters;
  mc_allocation : AllocationParameters;
  mc_turnover : TurnoverParameters;
  mc_evaluation : EvaluationParameters;
}.

(** The two risky symbols as the code iterates over them. *)
Definition risky_symbols (c : Q1MathConfig) : list string := [(mc_risky_symbols c).1; (mc_risky_symbols c).2].
(** The risky symbols followed by the cash symbol. *)
Definition all_symbols (c : Q1MathConfig) : list string := risky_symbols c ++ [mc_cash_symbol c].

(** ** Documents *)

Inductive scalar := SNone | SBool (b : bool) | SInt (z : Z) | SFloat (text : string) | SStr (s : string).
Inductive yval := YScalar (s : scalar) | YList (l : list scalar) | YMap (m : list (string * yval)).
Notation document := (pydict yval).

(** [str(value)] *)
Definition str_scalar (s : scalar) : string :=
  match s with
  | SNone => "None" | SBool true => "True" | SBool false => "False"
  | SInt z => string_of_Z z | SFloat t => t | SStr s => s
  end.

Definition config_error {A} (m : string) : res A := raise Q1ConfigError m.

Definition _section (d : document) (name : string) : res document :=
  match dget name d with Some (YMap m) => Ok m | _ => config_error "must be an object" end.

Definition _list (d : document) (name : string) : res (list scalar) :=
  match dget name d with Some (YList l) => Ok l | _ => config_error "must be a list" end.

Definition _symbols (d : document) (name : string) : res (list string) :=
  values ← _list d name;
  let symbols := map (λ item, upper (strip (str_scalar item))) values in
  raise_if (bool_decide (symbols = []) || existsb str_empty symbols || negb (bool_decide (NoDup symbols)))
    Q1ConfigError "must contain unique non-empty symbols";;
  Ok symbols.

Definition _string (d : document) (name : string) : res string :=
  match dget name d with
  | Some (YScalar (SStr s)) => if str_empty (strip s) then config_error "must be a non-empty string" else Ok (strip s)
  | _ => config_error "must be a non-empty string"
  end.

Definition _boolean (d : document) (name : string) : res bool :=
  match dget name d with Some (YScalar (SBool b)) => Ok b | _ => config_error "must be a boolean" end.

Definition _decimal (d : document) (name : string) : res dec :=
  match dget name d with
  | Some (YScalar s) =>
      match s with
      | SBool _ | SNone => config_error "must be numeric"
      | _ => match decimal_of_string (str_scalar s) with Ok v => Ok v | Raise _ => config_error "must be numeric" end
      end
  | _ => config_error "must be numeric"
  end.

Definition _positive_decimal (d : document) (name : string) : res dec :=
  value ← _decimal d name; raise_if (value <=? d0)%dec Q1ConfigError "must be positive";; Ok value.

Definition _non_negative_decimal (d : document) (name : string) : res dec :=
  value ← _decimal d name; raise_if (value <? d0)%dec Q1ConfigError "must be non-negative";; Ok value.

Definition _unit_interval_decimal (d : document) (name : string) (strict : bool) : res dec :=
  value ← _decimal d name;
  let lower_valid := if strict then (d0 <? value)%dec else (d0 <=? value)%dec in
  let upper_valid := if strict then (value <? d1)%dec else (value <=? d1)%dec in
  raise_if (negb lower_valid || negb upper_valid) Q1ConfigError "must be inside [0, 1]";;
  Ok value.

Definition _positive_int (value : option yval) : res Z :=
  match value with
  | Some (YScalar (SInt z)) => if z <=? 0 then config_error "must be a positive integer" else Ok z
  | _ => config_error "must be a positive integer"
  end.

Definition _non_negative_int (value : option yval) : res Z :=
  match value with
  | Some (YScalar (SInt z)) => if z <? 0 then config_error "must be a non-negative integer" else Ok z
  | _ => config_error "must be a non-negative integer"
  end.

(** ** [parse_q1_math_config] *)

Definition parse_universe (d : document) : res (list string * string * list string * list string) :=
  universe ← _section d "active_universe";
  strategy_symbols ← _symbols universe "strategy_symbols";
  risky ← _symbols universe "risky_symbols";
  cash_symbol ← _string universe "cash_symbol";
  disabled_symbols ← _symbols universe "disabled_symbols";
  inherited ← _symbols universe "inherited_sell_only_symbols";
  raise_if (negb (bool_decide (strategy_symbols = ["QQQ"; "SOXX"; "USD_CASH"]))) Q1ConfigError "strategy universe";;
  raise_if (negb (bool_decide (risky = ["QQQ"; "SOXX"]))) Q1ConfigError "risky universe";;
  raise_if (negb (String.eqb cash_symbol "USD_CASH")) Q1ConfigError "cash symbol";;
  raise_if (negb (bool_decide (disabled_symbols = ["SOXS"]))) Q1ConfigError "disabled symbol";;
  raise_if (existsb (λ s, bool_decide (s ∈ strategy_symbols)) inherited) Q1ConfigError "inherited sell-only symbols";;
  raise_if (negb (bool_decide ("SOXL" ∈ inherited))) Q1ConfigError "SOXL must remain inherited sell-only";;
  Ok (risky, cash_symbol, disabled_symbols, inherited).

Definition parse_signal (signal : document) : res SignalParameters :=
  items ← _list signal "horizons_sessions";
  horizons ← mapM_res (λ item, _positive_int (Some (YScalar item))) items;
  minimum_completed_sessions ← _positive_int (dget "minimum_completed_sessions" signal);
  relative_strength_horizon ← _positive_int (dget "relative_strength_horizon_sessions" signal);
  z_score_clip ← _positive_decimal signal "z_score_clip";
  relative_strength_coefficient ← _non_negative_decimal signal "relative_strength_coefficient";
  market_gate_offset ← _decimal signal "market_gate_offset";
  market_gate_width ← _positive_decimal signal "market_gate_width";
  market_gate_min ← _decimal signal "market_gate_min";
  market_gate_max ← _decimal signal "market_gate_max";
  confidence_denominator ← _positive_decimal signal "confidence_denominator";
  confidence_min ← _decimal signal "confidence_min";
  confidence_max ← _decimal signal "confidence_max";
  return_quantum ← _positive_decimal signal "return_quantum";
  numeric_rounding ← _string signal "numeric_rounding";
  raise_if (negb (bool_decide (horizons = [20; 60; 120]))) Q1ConfigError "horizons";;
  raise_if (negb (bool_decide (relative_strength_horizon ∈ horizons))) Q1ConfigError "relative-strength horizon";;
  raise_if (minimum_completed_sessions <=? foldr Z.max 0 horizons) Q1ConfigError "minimum completed sessions";;
  raise_if (market_gate_max <=? market_gate_min)%dec Q1ConfigError "market-gate bounds are invalid";;
  raise_if (confidence_max <=? confidence_min)%dec Q1ConfigError "confidence bounds are invalid";;
  raise_if (negb (String.eqb numeric_rounding "HALF_EVEN")) Q1ConfigError "numeric rounding must be HALF_EVEN";;
  Ok {| sp_minimum_completed_sessions := minimum_completed_sessions; sp_horizons_sessions := horizons;
        sp_relative_strength_horizon_sessions := relative_strength_horizon; sp_z_score_clip := z_score_clip;
        sp_relative_strength_coefficient := relative_strength_coefficient; sp_market_gate_offset := market_gate_offset;
        sp_market_gate_width := market_gate_width; sp_market_gate_min := market_gate_min; sp_market_gate_max := market_gate_max;
        sp_confidence_denominator := confidence_denominator; sp_confidence_min := confidence_min;
        sp_confidence_max := confidence_max; sp_return_quantum := return_quantum; sp_numeric_rounding := numeric_rounding |}.

Definition parse_covariance (signal : document) : res CovarianceParameters :=
  half_life_sessions ← _positive_int (dget "covariance_half_life_sessions" signal);
  lambda_base ← _unit_interval_decimal signal "covariance_lambda_base" true;
  annualization_sessions ← _positive_int (dget "annualization_sessions" signal);
  full_weight ← _unit_interval_decimal signal "covariance_full_weight" false;
  diagonal_weight ← _unit_interval_decimal signal "covariance_diagonal_weight" false;
  initialization ← _string signal "covariance_initialization";
  variance_epsilon ← _positive_decimal signal "variance_epsilon";
  psd_tolerance ← _non_negative_decimal signal "psd_tolerance";
  decimal_precision ← _positive_int (dget "decimal_precision" signal);
  raise_if (negb (full_weight + diagonal_weight =? d1)%dec) Q1ConfigError "covariance weights must sum to one";;
  raise_if (negb (String.eqb initialization "ZERO")) Q1ConfigError "covariance initialization must be ZERO";;
  Ok {| cp_half_life_sessions := half_life_sessions; cp_lambda_base := lambda_base;
        cp_annualization_sessions := annualization_sessions; cp_full_weight := full_weight;
        cp_diagonal_weight := diagonal_weight; cp_initialization := initialization; cp_variance_epsilon := variance_epsilon;
        cp_psd_tolerance := psd_tolerance; cp_decimal_precision := decimal_precision |}.

Definition parse_allocation (allocation : document) : res AllocationParameters :=
  b0_vol_target ← _positive_decimal allocation "b0_vol_target_annualized_volatility";
  q1_target_vol ← _positive_decimal allocation "q1_target_annualized_volatility";
  max_gross_risky_weight ← _unit_interval_decimal allocation "max_gross_risky_weight" false;
  qqq_max_weight ← _unit_interval_decimal allocation "qqq_max_weight" false;
  soxx_max_weight ← _unit_interval_decimal allocation "soxx_max_weight" false;
  soxx_max_variance_contribution ← _unit_interval_decimal allocation "soxx_max_variance_contribution" false;
  allow_volatility_scale_up ← _boolean allocation "allow_volatility_scale_up";
  iterations ← _positive_int (dget "risk_contribution_bisection_iterations" allocation);
  risk_contribution_tolerance ← _positive_decimal allocation "risk_contribution_tolerance";
  weight_sum_tolerance ← _positive_decimal allocation "weight_sum_tolerance";
  raise_if allow_volatility_scale_up Q1ConfigError "may not scale exposure upward for volatility";;
  Ok {| ap_b0_vol_target := b0_vol_target; ap_q1_target_vol := q1_target_vol;
        ap_max_gross_risky_weight := max_gross_risky_weight; ap_qqq_max_weight := qqq_max_weight;
        ap_soxx_max_weight := soxx_max_weight; ap_soxx_max_variance_contribution := soxx_max_variance_contribution;
        ap_allow_volatility_scale_up := allow_volatility_scale_up; ap_risk_contribution_bisection_iterations := iterations;
        ap_risk_contribution_tolerance := risk_contribution_tolerance; ap_weight_sum_tolerance := weight_sum_tolerance |}.

Definition parse_turnover (turnover : document) : res TurnoverParameters :=
  normal_daily_one_way_cap ← _unit_interval_decimal turnover "normal_daily_one_way_cap" true;
  no_trade_one_way_threshold ← _unit_interval_decimal turnover "no_trade_one_way_threshold" true;
  minimum_order_notional_usd ← _positive_decimal turnover "minimum_order_notional_usd";
  minimum_order_nav_fraction ← _unit_interval_decimal turnover "minimum_order_nav_fraction" true;
  emergency_bypasses_turnover_cap ← _boolean turnover "emergency_bypasses_turnover_cap";
  emergency_bypasses_minimum_order ← _boolean turnover "emergency_bypasses_minimum_order";
  raise_if (normal_daily_one_way_cap <=? no_trade_one_way_threshold)%dec
    Q1ConfigError "no-trade threshold must be below the daily turnover cap";;
  Ok {| tp_normal_daily_one_way_cap := normal_daily_one_way_cap; tp_no_trade_one_way_threshold := no_trade_one_way_threshold;
        tp_minimum_order_notional_usd := minimum_order_notional_usd;
        tp_minimum_order_nav_fraction := minimum_order_nav_fraction;
        tp_emergency_bypasses_turnover_cap := emergency_bypasses_turnover_cap;
        tp_emergency_bypasses_minimum_order := emergency_bypasses_minimum_order |}.

Definition parse_evaluation (evaluation : document) (covariance : CovarianceParameters) : res EvaluationParameters :=
  minimum_common ← _positive_int (dget "minimum_common_out_of_sample_sessions" evaluation);
  decimal_precision ← _positive_int (dget "decimal_precision" evaluation);
  result_quantum ← _positive_decimal evaluation "result_quantum";
  risk_free_daily_return ← _decimal evaluation "risk_free_daily_return";
  downside_target_daily_return ← _decimal evaluation "downside_target_daily_return";
  newey_west_lag_sessions ← _positive_int (dget "newey_west_lag_sessions" evaluation);
  expected_block_sessions ← _positive_int (dget "stationary_bootstrap_expected_block_sessions" evaluation);
  bootstrap_samples ← _positive_int (dget "stationary_bootstrap_samples" evaluation);
  bootstrap_confidence ← _unit_interval_decimal evaluation "bootstrap_confidence" true;
  seed ← _non_negative_int (dget "deterministic_bootstrap_seed" evaluation);
  annualization_sessions ← _positive_int (dget "annualization_sessions" evaluation);
  raise_if (minimum_common <? 126) Q1ConfigError "promotion review requires at least 126 common out-of-sample sessions";;
  raise_if (negb (annualization_sessions =? cp_annualization_sessions covariance))
    Q1ConfigError "signal and evaluation annualization sessions must match";;
  Ok {| ep_minimum_common_out_of_sample_sessions := minimum_common; ep_decimal_precision := decimal_precision;
        ep_result_quantum := result_quantum; ep_risk_free_daily_return := risk_free_daily_return;
        ep_downside_target_daily_return := downside_target_daily_return; ep_newey_west_lag_sessions := newey_west_lag_sessions;
        ep_stationary_bootstrap_expected_block_sessions := expected_block_sessions;
        ep_stationary_bootstrap_samples := bootstrap_samples; ep_bootstrap_confidence := bootstrap_confidence;
        ep_deterministic_bootstrap_seed := seed; ep_annualization_sessions := annualization_sessions |}.

Definition is_text (v : option yval) (s : string) : bool :=
  match v with Some (YScalar (SStr t)) => String.eqb t s | _ => false end.
Definition is_false (v : option yval) : bool := match v with Some (YScalar (SBool false)) => true | _ => false end.

Definition parse_q1_math_config (d : document) : res Q1MathConfig :=
  raise_if (negb (is_text (dget "version" d) "q1_math_core_v1")) Q1ConfigError "config version";;
  raise_if (negb (is_text (dget "algorithm_version" d) "q1_math_core_v1")) Q1ConfigError "algorithm_version";;
  raise_if (negb (is_false (dget "real_order_routing" d))) Q1ConfigError "real_order_routing must be false";;
  '(risky, cash_symbol, disabled_symbols, inherited) ← parse_universe d;
  signal ← _section d "signal"; allocation ← _section d "allocation";
  turnover ← _section d "turnover"; evaluation ← _section d "evaluation";
  long_only ← _boolean allocation "long_only";
  raise_if (negb long_only) Q1ConfigError "must remain long-only";;
  short_selling ← _boolean allocation "allow_short_selling";
  raise_if short_selling Q1ConfigError "short selling must remain disabled";;
  leverage ← _boolean allocation "allow_leverage";
  raise_if leverage Q1ConfigError "leverage must remain disabled";;
  signal_parameters ← parse_signal signal;
  covariance ← parse_covariance signal;
  allocation_parameters ← parse_allocation allocation;
  turnover_parameters ← parse_turnover turnover;
  evaluation_parameters ← parse_evaluation evaluation covariance;
  signal_model_version ← _string d "signal_model_version";
  match risky with
  | r0 :: r1 :: _ =>
      Ok {| mc_version := "q1_math_core_v1"; mc_algorithm_version := "q1_math_core_v1";
            mc_signal_model_version := signal_model_version; mc_risky_symbols := (r0, r1); mc_cash_symbol := cash_symbol;
            mc_disabled_symbols := disabled_symbols; mc_inherited_sell_only_symbols := inherited;
            mc_covariance := covariance; mc_signal := signal_parameters; mc_allocation := allocation_parameters;
            mc_turnover := turnover_parameters; mc_evaluation := evaluation_parameters |}
  | _ => raise ValueError "tuple index out of range"
  end.

(** ** What a parsed configuration guarantees *)

Record valid_covariance (c : CovarianceParameters) : Prop := {
  vc_half_life : 0 < cp_half_life_sessions c;
  vc_base : (0 < dval (cp_lambda_base c) < 1)%Q;
  vc_annualization : 0 < cp_annualization_sessions c;
  vc_weights : (cp_full_weight c + cp_diagonal_weight c =? d1)%dec = true;
  vc_initialization : cp_initialization c = "ZERO";
  vc_epsilon : (0 < dval (cp_variance_epsilon c))%Q;
  vc_tolerance : (0 <= dval (cp_psd_tolerance c))%Q;
  vc_precision : 0 < cp_decimal_precision c;
}.

Record valid_signal (s : SignalParameters) : Prop := {
  vs_horizons : sp_horizons_sessions s = [20; 60; 120];
  vs_minimum : 120 < sp_minimum_completed_sessions s;
  vs_relative : sp_relative_strength_horizon_sessions s ∈ sp_horizons_sessions s;
  vs_clip : (0 < dval (sp_z_score_clip s))%Q;
  vs_coefficient : (0 <= dval (sp_relative_strength_coefficient s))%Q;
  vs_gate : (dval (sp_market_gate_min s) < dval (sp_market_gate_max s))%Q;
  vs_confidence : (dval (sp_confidence_min s) < dval (sp_confidence_max s))%Q;
  vs_rounding : sp_numeric_rounding s = "HALF_EVEN";
}.

Definition in_unit (d : dec) : Prop := (0 <= dval d <= 1)%Q.

Record valid_allocation (a : AllocationParameters) : Prop := {
  va_b0_target : (0 < dval (ap_b0_vol_target a))%Q;
  va_q1_target : (0 < dval (ap_q1_target_vol a))%Q;
  va_gross : in_unit (ap_max_gross_risky_weight a);
  va_qqq : in_unit (ap_qqq_max_weight a);
  va_soxx : in_unit (ap_soxx_max_weight a);
  va_contribution : in_unit (ap_soxx_max_variance_contribution a);
  va_scale_up : ap_allow_volatility_scale_up a = false;
  va_iterations : 0 < ap_risk_contribution_bisection_iterations a;
  va_contribution_tolerance : (0 < dval (ap_risk_contribution_tolerance a))%Q;
  va_sum_tolerance : (0 < dval (ap_weight_sum_tolerance a))%Q;
}.

Record valid_turnover (t : TurnoverParameters) : Prop := {
  vt_band : (0 < dval (tp_no_trade_one_way_threshold t) < dval (tp_normal_daily_one_way_cap t))%Q;
  vt_cap : (dval (tp_normal_daily_one_way_cap t) < 1)%Q;
  vt_notional : (0 < dval (tp_minimum_order_notional_usd t))%Q;
  vt_fraction : (0 < dval (tp_minimum_order_nav_fraction t) < 1)%Q;
}.

Record valid_config (c : Q1MathConfig) : Prop := {
  vm_risky : mc_risky_symbols c = ("QQQ", "SOXX");
  vm_cash : mc_cash_symbol c = "USD_CASH";
  vm_disabled : mc_disabled_symbols c = ["SOXS"];
  vm_inherited : "SOXL" ∈ mc_inherited_sell_only_symbols c ∧ "QQQ" ∉ mc_inherited_sell_only_symbols c
                 ∧ "SOXX" ∉ mc_inherited_sell_only_symbols c;
  vm_covariance : valid_covariance (mc_covariance c);
  vm_signal : valid_signal (mc_signal c);
  vm_allocation : valid_allocation (mc_allocation c);
  vm_turnover : valid_turnover (mc_turnover c);
  vm_evaluation : 126 <= ep_minimum_common_out_of_sample_sessions (mc_evaluation c)
                  ∧ ep_annualization_sessions (mc_evaluation c) = cp_annualization_sessions (mc_covariance c);
}.

(** The readers of constrained numbers. *)
Lemma positive_decimal_ok d name v : _positive_decimal d name = Ok v → (0 < dval v)%Q.
Proof. unfold _positive_decimal. intros. inv_ok. by dec_to_Q. Qed.

Lemma non_negative_decimal_ok d name v : _non_negative_decimal d name = Ok v → (0 <= dval v)%Q.
Proof. unfold _non_negative_decimal. intros. inv_ok. by dec_to_Q. Qed.

Lemma unit_interval_ok d name v : _unit_interval_decimal d name false = Ok v → in_unit v.
Proof. unfold _unit_interval_decimal. intros. inv_ok. split_bool. split; by dec_to_Q. Qed.

Lemma strict_interval_ok d name v : _unit_interval_decimal d name true = Ok v → (0 < dval v < 1)%Q.
Proof. unfold _unit_interval_decimal. intros. inv_ok. split_bool. split; by dec_to_Q. Qed.

Lemma positive_int_ok v z : _positive_int v = Ok z → 0 < z.
Proof. destruct v as [[[]| |]|]; cbn; try done. destruct (Z.leb_spec z0 0); [done|]. intros [= <-]. done. Qed.

#[local] Hint Resolve positive_decimal_ok non_negative_decimal_ok unit_interval_ok strict_interval_ok positive_int_ok : config.

Lemma parse_covariance_ok s c : parse_covariance s = Ok c → valid_covariance c.
Proof.
  unfold parse_covariance. intros. inv_ok. split_bool.
  split; cbn [cp_half_life_sessions cp_lambda_base cp_annualization_sessions cp_full_weight cp_diagonal_weight
    cp_initialization cp_variance_epsilon cp_psd_tolerance cp_decimal_precision]; eauto with config.
  by apply String.eqb_eq.
Qed.

Lemma parse_signal_ok s c : parse_signal s = Ok c → valid_signal c.
Proof.
  unfold parse_signal. intros. inv_ok. split_bool. subst.
  match goal with H : (_ <=? foldr _ _ _)%Z = false |- _ => apply Z.leb_gt in H; cbn in H end.
  split; cbn [sp_horizons_sessions sp_minimum_completed_sessions sp_relative_strength_horizon_sessions sp_z_score_clip
    sp_relative_strength_coefficient sp_market_gate_min sp_market_gate_max sp_confidence_min sp_confidence_max
    sp_numeric_rounding]; eauto with config; try (by dec_to_Q).
  by apply String.eqb_eq.
Qed.

Lemma parse_allocation_ok s a : parse_allocation s = Ok a → valid_allocation a.
Proof.
  unfold parse_allocation. intros. inv_ok.
  split; cbn [ap_b0_vol_target ap_q1_target_vol ap_max_gross_risky_weight ap_qqq_max_weight ap_soxx_max_weight
    ap_soxx_max_variance_contribution ap_allow_volatility_scale_up ap_risk_contribution_bisection_iterations
    ap_risk_contribution_tolerance ap_weight_sum_tolerance]; eauto with config.
Qed.

Lemma parse_turnover_ok s t : parse_turnover s = Ok t → valid_turnover t.
Proof.
  unfold parse_turnover. intros. inv_ok. dec_to_Q.
  split; cbn [tp_normal_daily_one_way_cap tp_no_trade_one_way_threshold tp_minimum_order_notional_usd
    tp_minimum_order_nav_fraction]; eauto with config.
  - split; [|done]. by eapply strict_interval_ok.
  - by eapply strict_interval_ok.
Qed.

Lemma parse_universe_ok d risky cash disabled inherited :
  parse_universe d = Ok (risky, cash, disabled, inherited) →
  risky = ["QQQ"; "SOXX"] ∧ cash = "USD_CASH" ∧ disabled = ["SOXS"]
  ∧ "SOXL" ∈ inherited ∧ "QQQ" ∉ inherited ∧ "SOXX" ∉ inherited.
Proof.
  unfold parse_universe. intros. inv_ok. simplify_eq. split_bool. subst.
  match goal with H : existsb _ _ = false |- _ => rename H into Hex end.
  match goal with H : String.eqb _ _ = true |- _ => apply String.eqb_eq in H end.
  assert (∀ s, s ∈ ["QQQ"; "SOXX"; "USD_CASH"] → s ∉ inherited) as Hout.
  { intros s Hs Hin. apply not_true_iff_false in Hex. apply Hex. apply existsb_exists. exists s.
    split; [by apply list_elem_of_In|]. by apply bool_decide_eq_true. }
  do 4 (split; [done|]). split; apply Hout; apply list_elem_of_In; cbn; auto.
Qed.

(** A configuration that parses is the two-asset long-only one, its fractions lie in the unit interval, its bounds are
    ordered and its tolerances positive. *)
Theorem parsed_config_valid d c : parse_q1_math_config d = Ok c → valid_config c.
Proof.
  unfold parse_q1_math_config. intros H. inv_ok.
  match goal with E : parse_universe _ = Ok ?u |- _ => destruct u as [[[risky cash] disabled] inherited]; rename E into Eu end.
  apply parse_universe_ok in Eu as (-> & -> & -> & Hs & Hq & Hx). inv_ok.
  split; cbn [mc_risky_symbols mc_cash_symbol mc_disabled_symbols mc_inherited_sell_only_symbols mc_covariance mc_signal
    mc_allocation mc_turnover mc_evaluation]; try done; eauto using parse_covariance_ok, parse_signal_ok, parse_allocation_ok, parse_turnover_ok.
  match goal with E : parse_evaluation _ _ = Ok _ |- _ => unfold parse_evaluation in E; inv_ok end.
  cbn. split_bool. split; lia.
Qed.

(** The document of the repository, config/q1-math-core.yaml, without the sections that this parser does not read. *)
Definition core_document : document :=
  let txt s := YScalar (SStr s) in let num t := YScalar (SFloat t) in let int z := YScalar (SInt z) in
  let bool b := YScalar (SBool b) in let syms l := YList (map SStr l) in
  [("version", txt "q1_math_core_v1"); ("algorithm_version", txt "q1_math_core_v1");
   ("signal_model_version", txt "q1_math_signal_v1"); ("real_order_routing", bool false);
   ("active_universe", YMap
      [("strategy_symbols", syms ["QQQ"; "SOXX"; "USD_CASH"]); ("risky_symbols", syms ["QQQ"; "SOXX"]);
       ("cash_symbol", txt "USD_CASH"); ("disabled_symbols", syms ["SOXS"]);
       ("inherited_sell_only_symbols", syms ["NVDA"; "TSM"; "KLAC"; "LRCX"; "MU"; "SOXL"; "SGOV"])]);
   ("signal", YMap
      [("minimum_completed_sessions", int 121); ("horizons_sessions", YList [SInt 20; SInt 60; SInt 120]);
       ("relative_strength_horizon_sessions", int 60); ("z_score_clip", num "3.0"); ("annualization_sessions", int 252);
       ("covariance_half_life_sessions", int 20); ("covariance_lambda_base", num "0.5"); ("covariance_full_weight", num "0.75");
       ("covariance_diagonal_weight", num "0.25"); ("covariance_initialization", txt "ZERO"); ("variance_epsilon", num "1e-12");
       ("psd_tolerance", num "1e-24"); ("decimal_precision", int 40); ("return_quantum", num "1e-18");
       ("numeric_rounding", txt "HALF_EVEN"); ("relative_strength_coefficient", num "0.5"); ("market_gate_offset", num "0.5");
       ("market_gate_width", num "1.0"); ("market_gate_min", num "0.0"); ("market_gate_max", num "1.0");
       ("confidence_denominator", num "1.5"); ("confidence_min", num "0.0"); ("confidence_max", num "1.0")]);
   ("allocation", YMap
      [("long_only", bool true); ("allow_short_selling", bool false); ("allow_leverage", bool false);
       ("b0_vol_target_annualized_volatility", num "0.12"); ("q1_target_annualized_volatility", num "0.15");
       ("max_gross_risky_weight", num "1.0"); ("qqq_max_weight", num "0.8"); ("soxx_max_weight", num "0.45");
       ("soxx_max_variance_contribution", num "0.55"); ("allow_volatility_scale_up", bool false);
       ("risk_contribution_bisection_iterations", int 96); ("risk_contribution_tolerance", num "1e-18");
       ("weight_sum_tolerance", num "1e-18")]);
   ("turnover", YMap
      [("normal_daily_one_way_cap", num "0.2"); ("no_trade_one_way_threshold", num "0.02");
       ("minimum_order_notional_usd", num "25.0"); ("minimum_order_nav_fraction", num "0.0025");
       ("emergency_bypasses_turnover_cap", bool true); ("emergency_bypasses_minimum_order", bool true)]);
   ("evaluation", YMap
      [("minimum_common_out_of_sample_sessions", int 126); ("decimal_precision", int 40); ("result_quantum", num "1e-14");
       ("risk_free_daily_return", num "0.0"); ("downside_target_daily_return", num "0.0"); ("newey_west_lag_sessions", int 5);
       ("stationary_bootstrap_expected_block_sessions", int 10); ("stationary_bootstrap_samples", int 10000);
       ("bootstrap_confidence", num "0.95"); ("deterministic_bootstrap_seed", int 7077); ("annualization_sessions", int 252)])].

Definition core_config : Q1MathConfig :=
  {| mc_version := "q1_math_core_v1"; mc_algorithm_version := "q1_math_core_v1"; mc_signal_model_version := "q1_math_signal_v1";
     mc_risky_symbols := ("QQQ", "SOXX"); mc_cash_symbol := "USD_CASH"; mc_disabled_symbols := ["SOXS"];
     mc_inherited_sell_only_symbols := ["NVDA"; "TSM"; "KLAC"; "LRCX"; "MU"; "SOXL"; "SGOV"];
     mc_covariance := {| cp_half_life_sessions := 20; cp_lambda_base := Dec 5 (-1); cp_annualization_sessions := 252;
       cp_full_weight := Dec 75 (-2); cp_diagonal_weight := Dec 25 (-2); cp_initialization := "ZERO";
       cp_variance_epsilon := Dec 1 (-12); cp_psd_tolerance := Dec 1 (-24); cp_decimal_precision := 40 |};
     mc_signal := {| sp_minimum_completed_sessions := 121; sp_horizons_sessions := [20; 60; 120];
       sp_relative_strength_horizon_sessions := 60; sp_z_score_clip := Dec 30 (-1); sp_relative_strength_coefficient := Dec 5 (-1);
       sp_market_gate_offset := Dec 5 (-1); sp_market_gate_width := Dec 10 (-1); sp_market_gate_min := Dec 0 (-1);
       sp_market_gate_max := Dec 10 (-1); sp_confidence_denominator := Dec 15 (-1); sp_confidence_min := Dec 0 (-1);
       sp_confidence_max := Dec 10 (-1); sp_return_quantum := Dec 1 (-18); sp_numeric_rounding := "HALF_EVEN" |};
     mc_allocation := {| ap_b0_vol_target := Dec 12 (-2); ap_q1_target_vol := Dec 15 (-2); ap_max_gross_risky_weight := Dec 10 (-1);
       ap_qqq_max_weight := Dec 8 (-1); ap_soxx_max_weight := Dec 45 (-2); ap_soxx_max_variance_contribution := Dec 55 (-2);
       ap_allow_volatility_scale_up := false; ap_risk_contribution_bisection_iterations := 96;
       ap_risk_contribution_tolerance := Dec 1 (-18); ap_weight_sum_tolerance := Dec 1 (-18) |};
     mc_turnover := {| tp_normal_daily_one_way_cap := Dec 2 (-1); tp_no_trade_one_way_threshold := Dec 2 (-2);
       tp_minimum_order_notional_usd := Dec 250 (-1); tp_minimum_order_nav_fraction := Dec 25 (-4);
       tp_emergency_bypasses_turnover_cap := true; tp_emergency_bypasses_minimum_order := true |};
     mc_evaluation := {| ep_minimum_common_out_of_sample_sessions := 126; ep_decimal_precision := 40; ep_result_quantum := Dec 1 (-14);
       ep_risk_free_daily_return := Dec 0 (-1); ep_downside_target_daily_return := Dec 0 (-1); ep_newey_west_lag_sessions := 5;
       ep_stationary_bootstrap_expected_block_sessions := 10; ep_stationary_bootstrap_samples := 10000;
       ep_bootstrap_confidence := Dec 95 (-2); ep_deterministic_bootstrap_seed := 7077; ep_annualization_sessions := 252 |} |}.

Lemma core_document_parses : parse_q1_math_config core_document = Ok core_config.
Proof. vm_compute. reflexivity. Qed.

Lemma core_config_valid : valid_config core_config.
Proof. exact (parsed_config_valid _ _ core_document_parses). Qed.
