(* ===== verification/Covariance.v ===== *)
(** * Covariance of the risky pair ([quant/covariance.py])

    The exponentially weighted, shrunk and annualised covariance of two return series, the scalar variance of one series,
    and the variance of a portfolio.  A function that the code calls inside [localcontext] takes the precision of that
    context; [portfolio_variance] takes the one of its caller. *)
From Stdlib Require Import ZArith Lia Ascii String QArith Lqa.
From stdpp Require Import base list strings numbers.
From S2P Require Import Prelude PyDecimal Hashing DecimalMath QuantConfig.
Set Default Goal Selector "!".
Open Scope Z_scope.

Record CovarianceEstimate := {
  ce_symbols : list string;
  ce_matrix : list (list dec);
  ce_ewma_unannualized : list (list dec);
  ce_decay_lambda : dec;
  ce_return_observations : Z;
}.

Definition math_error {A} (m : string) : res A := raise Q1MathError m.

(** [tuple.index] *)
Fixpoint index_of (s : string) (l : list string) : option nat :=
  match l with
  | [] => None
  | x :: l => if String.eqb x s then Some O else S <$> index_of s l
  end.

(** [matrix[i][j]] *)
Definition entry (m : list (list dec)) (i j : nat) : res dec :=
  match m !! i ≫= λ row, row !! j with Some v => Ok v | None => raise IndexError "list index out of range" end.

Definition value (c : CovarianceEstimate) (left_symbol right_symbol : string) : res dec :=
  match index_of left_symbol (ce_symbols c), index_of right_symbol (ce_symbols c) with
  | Some i, Some j => entry (ce_matrix c) i j
  | _, _ => math_error "symbol is absent from covariance estimate"
  end.

Definition variance (c : CovarianceEstimate) (symbol : string) : res dec := value c symbol symbol.

(** [as_mapping] *)
Definition as_mapping (c : CovarianceEstimate) : res (pydict (pydict dec)) :=
  mapM_res (λ il : nat * string,
    row ← mapM_res (λ jr : nat * string, v ← entry (ce_matrix c) il.1 jr.1; Ok (jr.2, v)) (imap pair (ce_symbols c));
    Ok (il.2, row)) (imap pair (ce_symbols c)).

(** A square matrix by its entries. *)
Definition build (n : nat) (f : nat → nat → dec) : list (list dec) :=
  map (λ i, map (λ j, f i j) (seq 0 n)) (seq 0 n).
Definition at_ (m : list (list dec)) (i j : nat) : dec := default d0 (m !! i ≫= λ row, row !! j).

Section context.
Context (prec : Z).
Local Infix "+" := (dadd_p prec) : dec_scope.
Local Infix "-" := (dsub_p prec) : dec_scope.
Local Infix "*" := (dmul_p prec) : dec_scope.

Definition _validate_symmetric_psd (matrix : list (list dec)) (tolerance : dec) : res () :=
  match matrix with
  | [[a; b]; [c; d]] =>
      raise_if (tolerance <? dabs_p prec (b - c))%dec Q1MathError "covariance matrix is not symmetric";;
      raise_if ((a <? dneg_p prec tolerance)%dec || (d <? dneg_p prec tolerance)%dec) Q1MathError "covariance diagonal is negative";;
      let determinant := (a * d - b * c)%dec in
      raise_if (determinant <? dneg_p prec tolerance)%dec Q1MathError "covariance matrix is not positive semidefinite"
  | _ => math_error "q1_math_core_v1 covariance must be 2x2"
  end.

Definition is_symmetric_positive_semidefinite (c : CovarianceEstimate) (tolerance : dec) : bool :=
  is_ok (_validate_symmetric_psd (ce_matrix c) tolerance).

Definition portfolio_variance (weights : pydict dec) (c : CovarianceEstimate) : res dec :=
  let weight s := default d0 (dget s weights) in
  total ← foldM (λ acc left, foldM (λ acc right,
            v ← value c left right; Ok (acc + weight left * weight right * v)%dec) acc (ce_symbols c)) d0 (ce_symbols c);
  raise_if (total <? d0)%dec Q1MathError "portfolio variance is negative";;
  Ok total.

(** One step of the recurrence: [decay_lambda * e + innovation_weight * x * y]. *)
Definition ewma_step (decay innovation : dec) (e x y : dec) : dec := (decay * e + innovation * x * y)%dec.

(** [updated]: the entries on and above the diagonal, mirrored. *)
Definition ewma_update (decay innovation : dec) (dim : nat) (ewma : list (list dec)) (vector : list dec) : list (list dec) :=
  let v i := default d0 (vector !! i) in
  build dim (λ i j, let l := Nat.min i j in let r := Nat.max i j in ewma_step decay innovation (at_ ewma l r) (v l) (v r)).

Definition decay_of `{DecimalMath} (c : CovarianceParameters) : res dec :=
  l ← dln_p prec (cp_lambda_base c);
  x ← ddiv_p prec l (Dec (cp_half_life_sessions c) 0);
  dexp_p prec x.

(** Annualisation and shrinkage of one entry, and the variance floor on the diagonal. *)
Definition shrink (c : CovarianceParameters) (diagonal : bool) (e : dec) : dec :=
  let annualized := (e * Dec (cp_annualization_sessions c) 0)%dec in
  let shrunk := (cp_full_weight c * annualized + (if diagonal then cp_diagonal_weight c * annualized else d0))%dec in
  if diagonal then dmax shrunk (cp_variance_epsilon c) else shrunk.
End context.

(** ** [ewma_covariance] *)

Definition observation_vector (rows : list (list dec)) (index : nat) : list dec := map (λ row, default d0 (row !! index)) rows.

Definition ewma_covariance `{DecimalMath} (aligned_returns : pydict (list dec)) (parameters : CovarianceParameters)
    : res CovarianceEstimate :=
  let symbols := sorted String.leb aligned_returns.*1 in
  raise_if (negb (length symbols =? 2)%nat) Q1MathError "requires exactly two aligned return series";;
  rows ← mapM_res (λ s, dindex s aligned_returns) symbols;
  let observation_count := length (default [] (head rows)) in
  raise_if (negb (forallb (λ row : list dec, (length row =? observation_count)%nat) rows) || (observation_count =? 0)%nat)
    Q1MathError "covariance returns must be non-empty and aligned";;
  raise_if (negb (String.eqb (cp_initialization parameters) "ZERO")) Q1MathError "unsupported covariance initialization";;
  let prec := cp_decimal_precision parameters in
  decay_lambda ← decay_of prec parameters;
  let innovation_weight := dsub_p prec d1 decay_lambda in
  let dimension := length symbols in
  let ewma := fold_left (λ ewma index, ewma_update prec decay_lambda innovation_weight dimension ewma (observation_vector rows index))
                (seq 0 observation_count) (build dimension (λ _ _, d0)) in
  let matrix := build dimension (λ i j, shrink prec parameters (i =? j)%nat (at_ ewma i j)) in
  _validate_symmetric_psd prec matrix (cp_psd_tolerance parameters);;
  Ok {| ce_symbols := symbols; ce_matrix := matrix; ce_ewma_unannualized := ewma; ce_decay_lambda := dround prec decay_lambda;
        ce_return_observations := Z.of_nat observation_count |}.

(** ** [ewma_annualized_variance] *)

Definition ewma_annualized_variance `{DecimalMath} (completed_returns : list dec) (parameters : CovarianceParameters) : res dec :=
  raise_if (bool_decide (completed_returns = [])) Q1MathError "variance returns must be non-empty";;
  raise_if (negb (String.eqb (cp_initialization parameters) "ZERO")) Q1MathError "unsupported covariance initialization";;
  let prec := cp_decimal_precision parameters in
  decay_lambda ← decay_of prec parameters;
  let innovation_weight := dsub_p prec d1 decay_lambda in
  let ewma := fold_left (λ ewma v, ewma_step prec decay_lambda innovation_weight ewma v v) completed_returns d0 in
  Ok (dround prec (shrink prec parameters true ewma)).

(** ** Properties *)

Lemma at_build n f i j : (i < n)%nat → (j < n)%nat → at_ (build n f) i j = f i j.
Proof.
  intros Hi Hj. unfold at_, build.
  rewrite list_lookup_fmap, lookup_seq_lt by done. cbn. rewrite list_lookup_fmap, lookup_seq_lt by done. done.
Qed.

Lemma build_square n f i j : (i < n)%nat → (j < n)%nat → entry (build n f) i j = Ok (f i j).
Proof.
  intros Hi Hj. unfold entry, build. rewrite list_lookup_fmap, lookup_seq_lt by done. cbn.
  by rewrite list_lookup_fmap, lookup_seq_lt by done.
Qed.

(** The matrix recurrence at a diagonal entry is the scalar recurrence. *)
Lemma ewma_diagonal prec decay innovation dim rows i row n m0 :
  (i < dim)%nat → rows !! i = Some row → (n ≤ length row)%nat →
  at_ (fold_left (λ ewma index, ewma_update prec decay innovation dim ewma (observation_vector rows index)) (seq 0 n) m0) i i
  = fold_left (λ e v, ewma_step prec decay innovation e v v) (take n row) (at_ m0 i i).
Proof.
  intros Hi Hrow. induction n as [|n IH]; intros Hn; [by rewrite take_0|].
  rewrite seq_S, fold_left_app. cbn [fold_left]. unfold ewma_update at 1. rewrite at_build, Nat.min_id, Nat.max_id by done.
  rewrite IH by lia. destruct (lookup_lt_is_Some_2 row n) as [v Hv]; [lia|].
  rewrite (take_S_r _ _ v), fold_left_app by done. cbn [fold_left]. do 2 f_equal.
  all: unfold observation_vector; rewrite list_lookup_fmap, Hrow; cbn; by rewrite Hv.
Qed.

Lemma ewma_symmetric prec decay innovation dim rows n i j :
  (i < dim)%nat → (j < dim)%nat →
  let m := fold_left (λ ewma index, ewma_update prec decay innovation dim ewma (observation_vector rows index)) (seq 0 n)
             (build dim (λ _ _, d0)) in
  at_ m i j = at_ m j i.
Proof.
  intros Hi Hj. cbv zeta. destruct n as [|n]; [by cbn; rewrite !at_build|].
  rewrite seq_S, fold_left_app. cbn [fold_left]. unfold ewma_update at 1 3. rewrite !at_build by done.
  by rewrite (Nat.min_comm i j), (Nat.max_comm i j).
Qed.

Lemma index_of_Some s l i : index_of s l = Some i → l !! i = Some s.
Proof.
  revert i. induction l as [|x l IH]; intros i; cbn; [done|]. destruct (String.eqb_spec x s) as [->|_].
  { by intros [= <-]. }
  destruct (index_of s l) as [j|]; cbn; [|done]. intros [= <-]. cbn. by apply IH.
Qed.

Lemma index_of_is_Some s l : s ∈ l → ∃ i, index_of s l = Some i.
Proof.
  induction l as [|x l IH]; [by intros ?%not_elem_of_nil|]. intros [->|H]%elem_of_cons; cbn.
  { rewrite String.eqb_refl. eauto. }
  destruct (String.eqb x s); [eauto|]. destruct (IH H) as [i ->]. cbn. eauto.
Qed.

(** What a successful [ewma_covariance] returns, by its parts. *)
Record estimate_of `{DecimalMath} (r : pydict (list dec)) (p : CovarianceParameters) (c : CovarianceEstimate)
    (rows : list (list dec)) (decay : dec) (count : nat) : Prop := {
  eo_symbols : ce_symbols c = sorted String.leb r.*1;
  eo_two : length (ce_symbols c) = 2%nat;
  eo_rows_eq : mapM_res (λ s, dindex s r) (ce_symbols c) = Ok rows;
  eo_aligned : Forall (λ row : list dec, length row = count) rows;
  eo_nonempty : count ≠ 0%nat;
  eo_zero : cp_initialization p = "ZERO";
  eo_decay_eq : decay_of (cp_decimal_precision p) p = Ok decay;
  eo_ewma : ce_ewma_unannualized c =
    fold_left (λ ewma index, ewma_update (cp_decimal_precision p) decay (dsub_p (cp_decimal_precision p) d1 decay) 2 ewma
                               (observation_vector rows index)) (seq 0 count) (build 2 (λ _ _, d0));
  eo_matrix : ce_matrix c =
    build 2 (λ i j, shrink (cp_decimal_precision p) p (i =? j)%nat (at_ (ce_ewma_unannualized c) i j));
  eo_psd : _validate_symmetric_psd (cp_decimal_precision p) (ce_matrix c) (cp_psd_tolerance p) = Ok ();
}.

Lemma ewma_covariance_parts `{DecimalMath} r p c : ewma_covariance r p = Ok c → ∃ rows decay count, estimate_of r p c rows decay count.
Proof.
  unfold ewma_covariance. intros E. inv_ok. split_bool.
  match goal with H : (length _ =? 2)%nat = true |- _ => apply Nat.eqb_eq in H; rename H into Hlen end.
  match goal with H : String.eqb _ _ = true |- _ => apply String.eqb_eq in H end.
  match goal with H : forallb _ _ = true |- _ => rename H into Hall end.
  match goal with H : (_ =? 0)%nat = false |- _ => apply Nat.eqb_neq in H end.
  match goal with Er : mapM_res _ _ = Ok ?rows, Ed : decay_of _ _ = Ok ?decay |- _ =>
    exists rows, decay, (length (default [] (head rows))); rename Er into Hrows; rename Ed into Hdecay end.
  split; cbn; try done.
  - rewrite forallb_forall in Hall. apply Forall_forall. intros row Hr.
    apply Nat.eqb_eq, Hall. done.
  - by rewrite Hlen.
  - by rewrite Hlen.
Qed.

Section estimates.
Context `{DecimalMath} (r : pydict (list dec)) (p : CovarianceParameters) (c : CovarianceEstimate).
Context (rows : list (list dec)) (decay : dec) (count : nat) (Hc : estimate_of r p c rows decay count).
Notation prec := (cp_decimal_precision p).

Lemma estimate_value s t i j :
  index_of s (ce_symbols c) = Some i → index_of t (ce_symbols c) = Some j →
  value c s t = Ok (shrink prec p (i =? j)%nat (at_ (ce_ewma_unannualized c) i j)).
Proof.
  intros Hi Hj. unfold value. rewrite Hi, Hj, (eo_matrix _ _ _ _ _ _ Hc).
  pose proof (lookup_lt_Some _ _ _ (index_of_Some _ _ _ Hi)). pose proof (lookup_lt_Some _ _ _ (index_of_Some _ _ _ Hj)).
  rewrite (eo_two _ _ _ _ _ _ Hc) in *. by apply build_square.
Qed.

Lemma estimate_symbol s : s ∈ r.*1 ↔ s ∈ ce_symbols c.
Proof. rewrite (eo_symbols _ _ _ _ _ _ Hc). symmetry. apply elem_of_sorted. Qed.
End estimates.

(** The shrunk variance is at least the floor, and representable when the floor is. *)
Lemma shrink_floor prec p e : (dval (cp_variance_epsilon p) <= dval (shrink prec p true e))%Q.
Proof. unfold shrink. cbv zeta. edestruct dmax_spec as [[-> ?]|[-> ?]]; [done|apply Qle_refl]. Qed.

Lemma shrink_repr prec p e : 0 < prec → repr prec (cp_variance_epsilon p) → repr prec (shrink prec p true e).
Proof.
  intros Hp He. unfold shrink, dmax. cbv zeta. destruct (dltb _ _); [done|]. by apply dadd_rounds.
Qed.

(** An estimate is symmetric, its variances respect the configured floor, and its determinant, as the code computes it,
    is not below the configured tolerance. *)
Theorem covariance_well_formed `{DecimalMath} r p c :
  ewma_covariance r p = Ok c →
  ce_symbols c = sorted String.leb r.*1 ∧ length (ce_symbols c) = 2%nat
  ∧ (∀ s t, s ∈ r.*1 → t ∈ r.*1 → ∃ v, value c s t = Ok v ∧ value c t s = Ok v)
  ∧ (∀ s, s ∈ r.*1 → ∃ v, variance c s = Ok v ∧ (dval (cp_variance_epsilon p) <= dval v)%Q)
  ∧ is_symmetric_positive_semidefinite (cp_decimal_precision p) c (cp_psd_tolerance p) = true.
Proof.
  intros (rows & decay & count & Hc)%ewma_covariance_parts.
  assert (∀ s, s ∈ r.*1 → ∃ i, index_of s (ce_symbols c) = Some i ∧ (i < 2)%nat) as Hidx.
  { intros s Hs. rewrite (estimate_symbol _ _ _ _ _ _ Hc) in Hs. apply index_of_is_Some in Hs as [i Hi]. exists i. split; [done|].
    rewrite <- (eo_two _ _ _ _ _ _ Hc). by eapply lookup_lt_Some, index_of_Some. }
  split; [apply Hc|]. split; [apply Hc|]. split; [|split].
  - intros s t (i & Hi & Li)%Hidx (j & Hj & Lj)%Hidx. rewrite !(estimate_value _ _ _ _ _ _ Hc _ _ _ _ Hi Hj), !(estimate_value _ _ _ _ _ _ Hc _ _ _ _ Hj Hi).
    eexists. split; [done|]. do 2 f_equal; [apply Nat.eqb_sym|]. rewrite (eo_ewma _ _ _ _ _ _ Hc). by apply ewma_symmetric.
  - intros s (i & Hi & Li)%Hidx. unfold variance. rewrite (estimate_value _ _ _ _ _ _ Hc _ _ _ _ Hi Hi), Nat.eqb_refl.
    eexists. split; [done|]. apply shrink_floor.
  - unfold is_symmetric_positive_semidefinite. by rewrite (eo_psd _ _ _ _ _ _ Hc).
Qed.

(** The variance that the QQQ-only benchmark estimates from one series is the diagonal entry of that series in the
    two-asset estimate. *)
Theorem scalar_variance_is_diagonal `{DecimalMath} r p c s returns :
  ewma_covariance r p = Ok c → 0 < cp_decimal_precision p → repr (cp_decimal_precision p) (cp_variance_epsilon p) →
  dget s r = Some returns → ewma_annualized_variance returns p = variance c s.
Proof.
  intros (rows & decay & count & Hc)%ewma_covariance_parts Hp He Hs.
  assert (s ∈ ce_symbols c) as Hin.
  { apply (estimate_symbol _ _ _ _ _ _ Hc). apply dget_Some_elem in Hs. by apply (list_elem_of_fmap_2 fst) in Hs. }
  apply index_of_is_Some in Hin as [i Hi]. unfold variance. rewrite (estimate_value _ _ _ _ _ _ Hc _ _ _ _ Hi Hi), Nat.eqb_refl.
  apply index_of_Some in Hi as Hsym. pose proof (lookup_lt_Some _ _ _ Hsym) as Hlt.
  assert (rows !! i = Some returns) as Hrow.
  { pose proof (eo_rows_eq _ _ _ _ _ _ Hc) as HF. apply mapM_res_Forall2 in HF.
    destruct (Forall2_lookup_l _ _ _ _ _ HF Hsym) as (row & Hrow & Hd). unfold dindex in Hd. rewrite Hs in Hd. by injection Hd as <-. }
  pose proof (eo_aligned _ _ _ _ _ _ Hc) as Hal. rewrite Forall_lookup in Hal. specialize (Hal _ _ Hrow). cbn in Hal.
  unfold ewma_annualized_variance. rewrite bool_decide_false by (intros ->; by apply (eo_nonempty _ _ _ _ _ _ Hc)).
  rewrite (eo_zero _ _ _ _ _ _ Hc), (eo_decay_eq _ _ _ _ _ _ Hc). cbn -[fold_left]. f_equal.
  rewrite dround_exact by (done || by apply shrink_repr). f_equal.
  rewrite (eo_two _ _ _ _ _ _ Hc) in Hlt.
  rewrite (eo_ewma _ _ _ _ _ _ Hc), (ewma_diagonal _ _ _ _ _ _ returns), at_build, <- Hal, firstn_all by (done || lia). done.
Qed.

(** ** Instances *)

Definition small_parameters : CovarianceParameters :=
  {| cp_half_life_sessions := 2; cp_lambda_base := Dec 5 (-1); cp_annualization_sessions := 252; cp_full_weight := Dec 75 (-2);
     cp_diagonal_weight := Dec 25 (-2); cp_initialization := "ZERO"; cp_variance_epsilon := Dec 1 (-12);
     cp_psd_tolerance := Dec 1 (-24); cp_decimal_precision := 8 |}.

Definition pair_returns : pydict (list dec) :=
  [("SOXX", [Dec 2 (-2); Dec (-3) (-2); Dec 1 (-2)]); ("QQQ", [Dec 1 (-2); Dec (-2) (-2); Dec 15 (-3)])].

Definition pair_estimate : CovarianceEstimate := Eval vm_compute in
  match ewma_covariance pair_returns small_parameters with
  | Ok c => c
  | Raise _ => {| ce_symbols := []; ce_matrix := []; ce_ewma_unannualized := []; ce_decay_lambda := d0; ce_return_observations := 0 |}
  end.

Lemma pair_estimate_ok : ewma_covariance pair_returns small_parameters = Ok pair_estimate.
Proof. vm_compute. reflexivity. Qed.

Lemma covariance_well_formed_witness :
  (∃ v, value pair_estimate "QQQ" "SOXX" = Ok v ∧ value pair_estimate "SOXX" "QQQ" = Ok v).
Proof.
  destruct (covariance_well_formed _ _ _ pair_estimate_ok) as (_ & _ & H & _).
  apply (H "QQQ" "SOXX"); apply list_elem_of_In; cbn; auto.
Defined.

Lemma scalar_variance_is_diagonal_witness :
  ewma_annualized_variance [Dec 1 (-2); Dec (-2) (-2); Dec 15 (-3)] small_parameters = variance pair_estimate "QQQ".
Proof.
  apply (scalar_variance_is_diagonal pair_returns small_parameters pair_estimate "QQQ"); [exact pair_estimate_ok|reflexivity|reflexivity|reflexivity].
Defined.
