(* ===== verification/Signals.v ===== *)
(** * The Q1 trend signal ([quant/signals.py])

    The point-in-time selection of adjusted closes, the trends of the risky pair and the signal built from them. *)
From Stdlib Require Import ZArith Lia Ascii String QArith Lqa.
From stdpp Require Import base list strings numbers.
From S2P Require Import Prelude PyDecimal Hashing DecimalMath Domain QuantConfig Covariance.
Set Default Goal Selector "!".
Open Scope Z_scope.

Record AdjustedCloseObservation := {
  ob_bar_id : string;
  ob_symbol : string;
  ob_session_id : string;
  ob_session_close_at : datetime;
  ob_adjusted_close : dec;
  ob_available_at : datetime;
}.

Record AssetTrend := {
  at_symbol : string;
  at_log_returns_by_horizon : list (Z * dec);
  at_z_scores_by_horizon : list (Z * dec);
  at_trend_score : dec;
  at_annualized_sigma : dec;
}.

Record Q1Signal := {
  sg_calendar_session_id : string;
  sg_latest_completed_session_id : string;
  sg_scheduled_at : datetime;
  sg_signal_data_cutoff : datetime;
  sg_completed_session_ids : list string;
  sg_source_bar_ids : list string;
  sg_covariance : CovarianceEstimate;
  sg_trends : list AssetTrend;
  sg_relative_strength : dec;
  sg_spread_return : dec;
  sg_spread_variance : dec;
  sg_market_gate : dec;
  sg_raw_scores : list (string * dec);
  sg_confidence : dec;
  sg_config_manifest_hash : string;
  sg_signal_model_version : string;
  sg_signal_hash : string;
}.

(** [_lookup]: the first item under the key. *)
Fixpoint _lookup {K} `{EqDecision K} (items : list (K * dec)) (key : K) : res dec :=
  match items with
  | [] => math_error "missing diagnostic value"
  | (k, v) :: items => if decide (k = key) then Ok v else _lookup items key
  end.

Definition return_for (t : AssetTrend) (horizon_sessions : Z) : res dec := _lookup (at_log_returns_by_horizon t) horizon_sessions.
Definition z_score_for (t : AssetTrend) (horizon_sessions : Z) : res dec := _lookup (at_z_scores_by_horizon t) horizon_sessions.

Definition trend_for (s : Q1Signal) (symbol : string) : res AssetTrend :=
  match List.find (λ t, String.eqb (at_symbol t) symbol) (sg_trends s) with
  | Some t => Ok t
  | None => math_error "missing trend"
  end.
Definition score_for (s : Q1Signal) (symbol : string) : res dec := _lookup (sg_raw_scores s) symbol.

Definition _require_aware (t : datetime) : res () := raise_if (negb (tz_aware t)) Q1MathError "must be timezone-aware".

(** ** Point-in-time prices *)

Section selection.
Context (symbols completed_session_ids : list string) (current_session_open_at cutoff : datetime).

Definition normalized (o : AdjustedCloseObservation) : string := upper (strip (ob_symbol o)).

(** One iteration of the loop that groups the observations; the groups are kept as one list in arrival order. *)
Definition accept (grouped : list AdjustedCloseObservation) (o : AdjustedCloseObservation) : res (list AdjustedCloseObservation) :=
  if negb (bool_decide (normalized o ∈ symbols)) || negb (bool_decide (ob_session_id o ∈ completed_session_ids)) then Ok grouped
  else
    _require_aware (ob_available_at o);;
    _require_aware (ob_session_close_at o);;
    if dt_lt cutoff (ob_available_at o) then Ok grouped
    else
      raise_if (dt_le current_session_open_at (ob_session_close_at o)) Q1MathError "current-session or future daily bar";;
      raise_if (dt_lt (ob_available_at o) (ob_session_close_at o)) Q1MathError "available before its session close";;
      raise_if (ob_adjusted_close o <=? d0)%dec Q1MathError "adjusted closes must be positive and finite";;
      raise_if (str_empty (ob_bar_id o)) Q1MathError "source bar ID is required";;
      Ok (grouped ++ [o]).

(** [grouped.get((symbol, session_id), [])] *)
Definition candidates (grouped : list AdjustedCloseObservation) (symbol session_id : string) : list AdjustedCloseObservation :=
  List.filter (λ o, String.eqb (normalized o) symbol && String.eqb (ob_session_id o) session_id) grouped.

(** The set of the values under [key] has one element. *)
Definition single {B} (key : AdjustedCloseObservation → B) (eqb : B → B → bool) (l : list AdjustedCloseObservation) : bool :=
  match l with [] => false | o :: l => forallb (λ o', eqb (key o) (key o')) l end.

Definition same_instant (a b : datetime) : bool := instant a =? instant b.

Definition check_candidates (grouped : list AdjustedCloseObservation) (session_id : string) (closes : list datetime) (symbol : string)
    : res (list datetime) :=
  match candidates grouped symbol session_id with
  | [] => math_error "missing point-in-time adjusted close"
  | (o :: _) as l =>
      raise_if (negb (single ob_adjusted_close deqb l) || negb (single ob_session_close_at same_instant l))
        Q1MathError "inconsistent duplicate adjusted close";;
      Ok (closes ++ [ob_session_close_at o])
  end.

Definition check_session (grouped : list AdjustedCloseObservation) (previous_close_at : option datetime) (session_id : string)
    : res (option datetime) :=
  closes ← foldM (check_candidates grouped session_id) [] symbols;
  match closes with
  | [] => math_error "aligned symbols disagree on session close"
  | close_at :: rest =>
      raise_if (negb (forallb (same_instant close_at) rest)) Q1MathError "aligned symbols disagree on session close";;
      raise_if (match previous_close_at with Some p => dt_le close_at p | None => false end)
        Q1MathError "completed sessions must be strictly chronological";;
      Ok (Some close_at)
  end.

(** [min(candidates, key=lambda item: (item.bar_id, item.available_at))] *)
Definition bar_lt (a b : AdjustedCloseObservation) : bool :=
  lex_lt [String.compare (ob_bar_id a) (ob_bar_id b); instant (ob_available_at a) ?= instant (ob_available_at b)].
Definition canonical_bar (l : list AdjustedCloseObservation) : res AdjustedCloseObservation :=
  match l with
  | [] => raise ValueError "min() arg is an empty sequence"
  | o :: l => Ok (max_by (λ m o', bar_lt o' m) o l)
  end.

Definition collect_symbol (grouped : list AdjustedCloseObservation) (acc : pydict (list dec) * list string) (symbol : string)
    : res (pydict (list dec) * list string) :=
  r ← foldM (λ acc session_id,
        let l := candidates grouped symbol session_id in
        canonical ← canonical_bar l;
        Ok (acc.1 ++ [ob_adjusted_close canonical], acc.2 ++ sorted String.leb (map ob_bar_id l)))
      ([], acc.2) completed_session_ids;
  Ok (dset symbol r.1 acc.1, r.2).

Definition _select_point_in_time_prices (observations : list AdjustedCloseObservation) : res (pydict (list dec) * list string) :=
  grouped ← foldM accept [] observations;
  foldM (check_session grouped) None completed_session_ids;;
  foldM (collect_symbol grouped) ([], []) symbols.
End selection.

(** ** Trends *)

Definition _clip (value lower upper : dec) : dec := dmax lower (dmin upper value).

(** [prices[-1 - k]] *)
Definition from_end (prices : list dec) (k : Z) : res dec :=
  match (if k <? Z.of_nat (length prices) then prices !! (length prices - 1 - Z.to_nat k)%nat else None) with
  | Some v => Ok v
  | None => raise IndexError "tuple index out of range"
  end.

Section context.
Context `{DecimalMath} (config : Q1MathConfig).
Notation prec := (cp_decimal_precision (mc_covariance config)).
Notation signal := (mc_signal config).

Definition _quantize_return (v : dec) : res dec :=
  raise_if (negb (String.eqb (sp_numeric_rounding signal) "HALF_EVEN")) Q1MathError "unsupported numeric rounding mode";;
  dquantize_p prec v (sp_return_quantum signal) ROUND_HALF_EVEN.

(** [(later / earlier).ln()], quantized *)
Definition log_return (later earlier : dec) : res dec :=
  q ← ddiv_p prec later earlier; l ← dln_p prec q; _quantize_return l.

(** [(Decimal(horizon) / Decimal(annualization_sessions) * variance).sqrt()] *)
Definition horizon_sigma (horizon : Z) (v : dec) : res dec :=
  y ← ddiv_p prec (Dec horizon 0) (Dec (cp_annualization_sessions (mc_covariance config)) 0);
  dsqrt_p prec (dmul_p prec y v).

Definition z_score (ret sigma : dec) : res dec :=
  z ← ddiv_p prec ret sigma;
  Ok (_clip z (dneg_p prec (sp_z_score_clip signal)) (sp_z_score_clip signal)).

(** One iteration over the horizons. *)
Definition horizon_step (prices : list dec) (v : dec) (acc : list (Z * dec) * list (Z * dec)) (horizon : Z)
    : res (list (Z * dec) * list (Z * dec)) :=
  later ← from_end prices 0; earlier ← from_end prices horizon;
  horizon_return ← log_return later earlier;
  denominator ← horizon_sigma horizon v;
  z ← z_score horizon_return denominator;
  Ok (acc.1 ++ [(horizon, dround prec horizon_return)], acc.2 ++ [(horizon, dround prec z)]).

Definition median (l : list dec) : res dec :=
  match sorted dleb l !! (length l / 2)%nat with Some v => Ok v | None => raise IndexError "list index out of range" end.

Definition _asset_trend (symbol : string) (prices : list dec) (covariance : CovarianceEstimate) : res AssetTrend :=
  v ← variance covariance symbol;
  annualized_sigma ← dsqrt_p prec v;
  '(log_returns, z_scores) ← foldM (horizon_step prices v) ([], []) (sp_horizons_sessions signal);
  trend_score ← median z_scores.*2;
  Ok {| at_symbol := symbol; at_log_returns_by_horizon := log_returns; at_z_scores_by_horizon := z_scores;
        at_trend_score := dround prec trend_score; at_annualized_sigma := dround prec annualized_sigma |}.

(** Successive log returns of a price series. *)
Fixpoint log_returns (prices : list dec) : res (list dec) :=
  match prices with
  | earlier :: ((later :: _) as rest) => r ← log_return later earlier; rs ← log_returns rest; Ok (r :: rs)
  | _ => Ok []
  end.
End context.

(** ** [compute_q1_signal] *)

Definition strs (l : list string) : pyval := PList (map PStr l).
Definition decs (l : list dec) : pyval := PList (map PDecimal l).
Definition horizon_items (l : list (Z * dec)) : pyval := PList (map (λ kv, PList [PInt kv.1; PDecimal kv.2]) l).
Definition named_items (l : list (string * dec)) : pyval := PList (map (λ kv, PList [PStr kv.1; PDecimal kv.2]) l).
Definition dec_dict (l : pydict dec) : pyval := PDict (map (λ kv, (kv.1, PDecimal kv.2)) l).
Definition mapping_val (m : pydict (pydict dec)) : pyval := PDict (map (λ kv, (kv.1, dec_dict kv.2)) m).

Definition trend_val (t : AssetTrend) : pyval :=
  PDict [("symbol", PStr (at_symbol t)); ("returns", horizon_items (at_log_returns_by_horizon t));
         ("z_scores", horizon_items (at_z_scores_by_horizon t)); ("trend", PDecimal (at_trend_score t));
         ("annualized_sigma", PDecimal (at_annualized_sigma t))].

(** The keyword arguments of [compute_q1_signal] other than the configuration. *)
Record SignalInputs := {
  si_completed_session_ids : list string;
  si_calendar_session_id : string;
  si_expected_latest_completed_session_id : string;
  si_current_session_open_at : datetime;
  si_scheduled_at : datetime;
  si_signal_data_cutoff : datetime;
  si_config_manifest_hash : string;
}.

(** The checks before any observation is read. *)
Definition check_signal_inputs (i : SignalInputs) (config : Q1MathConfig) : res () :=
  _require_aware (si_current_session_open_at i);;
  _require_aware (si_scheduled_at i);;
  _require_aware (si_signal_data_cutoff i);;
  raise_if (dt_lt (si_scheduled_at i) (si_signal_data_cutoff i)) Q1MathError "signal_data_cutoff must not exceed scheduled_at";;
  let sessions := si_completed_session_ids i in
  raise_if (Z.of_nat (length sessions) <? sp_minimum_completed_sessions (mc_signal config)) Q1MathError "insufficient completed sessions";;
  raise_if (negb (bool_decide (NoDup sessions)) || existsb str_empty sessions) Q1MathError "completed session IDs must be unique";;
  raise_if (str_empty (si_calendar_session_id i)) Q1MathError "calendar_session_id is required";;
  raise_if (str_empty (si_expected_latest_completed_session_id i)) Q1MathError "completed daily data is stale";;
  match list.last sessions with
  | None => raise IndexError "tuple index out of range"
  | Some latest => raise_if (negb (String.eqb latest (si_expected_latest_completed_session_id i))) Q1MathError "completed daily data is stale"
  end;;
  raise_if (str_empty (si_config_manifest_hash i)) Q1MathError "config_manifest_hash is required".

(** [next(item for item in trends if item.symbol == symbol)] *)
Definition next_trend (trends : list AssetTrend) (symbol : string) : res AssetTrend :=
  match List.find (λ t, String.eqb (at_symbol t) symbol) trends with Some t => Ok t | None => raise StopIteration "" end.

(** The numbers of the signal, from the trends of the pair and their covariance. *)
Record SignalCore := {
  sc_relative_strength : dec;
  sc_spread_return : dec;
  sc_spread_variance : dec;
  sc_market_gate : dec;
  sc_qqq_score : dec;
  sc_soxx_score : dec;
  sc_confidence : dec;
}.

Definition signal_core (config : Q1MathConfig) (covariance : CovarianceEstimate) (qqq soxx : AssetTrend) : res SignalCore :=
  let prec := cp_decimal_precision (mc_covariance config) in
  let signal := mc_signal config in
  let relative_horizon := sp_relative_strength_horizon_sessions signal in
  soxx_return ← return_for soxx relative_horizon; qqq_return ← return_for qqq relative_horizon;
  let spread_return := dsub_p prec soxx_return qqq_return in
  v_qqq ← variance covariance "QQQ"; v_soxx ← variance covariance "SOXX"; cov ← value covariance "QQQ" "SOXX";
  let spread_variance := dsub_p prec (dadd_p prec v_qqq v_soxx) (dmul_p prec (Dec 2 0) cov) in
  raise_if (spread_variance <=? d0)%dec Q1MathError "relative-strength spread variance must be positive";;
  spread_denominator ← horizon_sigma config relative_horizon spread_variance;
  relative_strength ← z_score config spread_return spread_denominator;
  gate ← ddiv_p prec (dadd_p prec (at_trend_score qqq) (sp_market_gate_offset signal)) (sp_market_gate_width signal);
  let market_gate := _clip gate (sp_market_gate_min signal) (sp_market_gate_max signal) in
  let qqq_score := dmax d0 (at_trend_score qqq) in
  let soxx_score :=
    dmul_p prec (dmax d0 (dadd_p prec (at_trend_score soxx) (dmul_p prec (sp_relative_strength_coefficient signal) relative_strength)))
      market_gate in
  ratio ← ddiv_p prec (dadd_p prec qqq_score soxx_score) (sp_confidence_denominator signal);
  let confidence := _clip ratio (sp_confidence_min signal) (sp_confidence_max signal) in
  Ok {| sc_relative_strength := relative_strength; sc_spread_return := spread_return; sc_spread_variance := spread_variance;
        sc_market_gate := market_gate; sc_qqq_score := qqq_score; sc_soxx_score := soxx_score; sc_confidence := confidence |}.

Definition compute_q1_signal `{Digest} `{DecimalMath} (observations : list AdjustedCloseObservation) (i : SignalInputs)
    (config : Q1MathConfig) : res Q1Signal :=
  check_signal_inputs i config;;
  let sessions := si_completed_session_ids i in
  '(selected, source_ids) ← _select_point_in_time_prices (risky_symbols config) sessions (si_current_session_open_at i)
                              (si_signal_data_cutoff i) observations;
  let prec := cp_decimal_precision (mc_covariance config) in
  returns ← mapM_res (λ kv : string * list dec, rs ← log_returns config kv.2; Ok (kv.1, rs)) selected;
  covariance ← ewma_covariance returns (mc_covariance config);
  trends ← mapM_res (λ symbol, prices ← dindex symbol selected; _asset_trend config symbol prices covariance) (risky_symbols config);
  qqq ← next_trend trends "QQQ";
  soxx ← next_trend trends "SOXX";
  core ← signal_core config covariance qqq soxx;
  let raw_scores := [("QQQ", sc_qqq_score core); ("SOXX", sc_soxx_score core)] in
  closes ← mapM_res (λ symbol, prices ← dindex symbol selected; Ok (symbol, decs prices)) (risky_symbols config);
  cov_mapping ← as_mapping covariance;
  signal_hash ← canonical_hash (PDict
    [("algorithm_version", PStr (mc_algorithm_version config)); ("signal_model_version", PStr (mc_signal_model_version config));
     ("config_manifest_hash", PStr (si_config_manifest_hash i)); ("calendar_session_id", PStr (si_calendar_session_id i));
     ("latest_completed_session_id", PStr (si_expected_latest_completed_session_id i));
     ("scheduled_at", PDatetime (si_scheduled_at i)); ("signal_data_cutoff", PDatetime (si_signal_data_cutoff i));
     ("completed_session_ids", strs sessions); ("source_bar_ids", strs source_ids); ("selected_adjusted_closes", PDict closes);
     ("covariance", mapping_val cov_mapping); ("trends", PList (map trend_val trends));
     ("spread_return", PDecimal (sc_spread_return core)); ("spread_variance", PDecimal (sc_spread_variance core));
     ("relative_strength", PDecimal (sc_relative_strength core)); ("market_gate", PDecimal (sc_market_gate core));
     ("raw_scores", named_items raw_scores); ("confidence", PDecimal (sc_confidence core))]);
  Ok {| sg_calendar_session_id := si_calendar_session_id i;
        sg_latest_completed_session_id := si_expected_latest_completed_session_id i;
        sg_scheduled_at := si_scheduled_at i; sg_signal_data_cutoff := si_signal_data_cutoff i;
        sg_completed_session_ids := sessions; sg_source_bar_ids := source_ids; sg_covariance := covariance; sg_trends := trends;
        sg_relative_strength := dround prec (sc_relative_strength core); sg_spread_return := dround prec (sc_spread_return core);
        sg_spread_variance := dround prec (sc_spread_variance core); sg_market_gate := dround prec (sc_market_gate core);
        sg_raw_scores := map (λ kv, (kv.1, dround prec kv.2)) raw_scores; sg_confidence := dround prec (sc_confidence core);
        sg_config_manifest_hash := si_config_manifest_hash i; sg_signal_model_version := mc_signal_model_version config;
        sg_signal_hash := signal_hash |}.

(** ** Selection: what it accepts and what it ignores *)

Section selection_facts.
Context (symbols sessions : list string) (open cutoff : datetime).
Notation accept := (accept symbols sessions open cutoff).

Definition tracked (o : AdjustedCloseObservation) : bool :=
  bool_decide (normalized o ∈ symbols) && bool_decide (ob_session_id o ∈ sessions).
Definition visible (o : AdjustedCloseObservation) : bool := dt_le (ob_available_at o) cutoff.
Definition times_aware (o : AdjustedCloseObservation) : bool := tz_aware (ob_available_at o) && tz_aware (ob_session_close_at o).
(** A visible observation of a tracked session is a completed daily bar. *)
Definition completed_bar (o : AdjustedCloseObservation) : bool :=
  dt_lt (ob_session_close_at o) open && dt_le (ob_session_close_at o) (ob_available_at o) && (d0 <? ob_adjusted_close o)%dec
  && negb (str_empty (ob_bar_id o)).
Definition acceptable (o : AdjustedCloseObservation) : bool :=
  negb (tracked o) || times_aware o && (negb (visible o) || completed_bar o).
Definition kept (o : AdjustedCloseObservation) : bool := tracked o && visible o.

Lemma accept_spec g o : accept g o = Ok (if kept o then g ++ [o] else g) ∧ acceptable o = true ∨ is_ok (accept g o) = false ∧ acceptable o = false.
Proof.
  unfold accept, acceptable, kept, tracked, times_aware, completed_bar, visible, _require_aware, dt_lt, dt_le.
  destruct (bool_decide (normalized o ∈ symbols)); cbn; [|by left]. destruct (bool_decide (ob_session_id o ∈ sessions)); cbn; [|by left].
  destruct (tz_aware (ob_available_at o)); cbn; [|by right]. destruct (tz_aware (ob_session_close_at o)); cbn; [|by right].
  rewrite Z.ltb_antisym. destruct (instant (ob_available_at o) <=? instant cutoff); cbn; [|by left].
  rewrite (Z.leb_antisym _ (instant open)). destruct (instant (ob_session_close_at o) <? instant open); cbn; [|by right].
  rewrite Z.ltb_antisym. destruct (instant (ob_session_close_at o) <=? instant (ob_available_at o)); cbn; [|by right].
  unfold dltb. destruct (dleb (ob_adjusted_close o) d0); cbn; [by right|].
  destruct (str_empty (ob_bar_id o)); cbn; [by right|by left].
Qed.

Lemma accept_loop g l r : foldM accept g l = Ok r ↔ forallb acceptable l = true ∧ r = g ++ List.filter kept l.
Proof.
  revert g. induction l as [|o l IH]; intros g; cbn [foldM forallb List.filter].
  { rewrite app_nil_r. split; [by intros [= <-]|by intros [_ ->]]. }
  destruct (accept_spec g o) as [[-> ->]|[Hn ->]]; cbn.
  - rewrite IH. destruct (kept o); [by rewrite <- app_assoc|done].
  - destruct (accept g o); [done|]. cbn. split; [done|by intros [? _]].
Qed.

(** The times of the observations that are asked for name their zone; the code rejects those that do not. *)
Definition tracked_aware (l : list AdjustedCloseObservation) : bool := forallb (λ o, negb (tracked o) || times_aware o) l.

(** Observations that are not available by the cutoff, or of a session or a symbol that is not asked for, are ignored. *)
Lemma accept_ignores g l : tracked_aware l = true → foldM accept g l = foldM accept g (List.filter kept l).
Proof.
  unfold tracked_aware. revert g. induction l as [|o l IH]; intros g; cbn [foldM forallb List.filter]; [done|]. intros [Ho Hl]%andb_true_iff.
  destruct (kept o) eqn:Ek; cbn; [by destruct (accept g o); cbn; [apply IH|]|].
  assert (accept g o = Ok g) as ->; [|by apply IH].
  destruct (accept_spec g o) as [[-> _]|[_ Ha]]; [by rewrite Ek|].
  unfold acceptable in Ha. unfold kept in Ek. by destruct (tracked o), (times_aware o), (visible o).
Qed.

Lemma candidates_perm g1 g2 symbol session : g1 ≡ₚ g2 → candidates g1 symbol session ≡ₚ candidates g2 symbol session.
Proof. apply filterb_perm. Qed.

Lemma single_iff {B} (key : AdjustedCloseObservation → B) eqb l :
  (∀ a, eqb a a = true) → (∀ a b, eqb a b = true → eqb b a = true) → (∀ a b c, eqb a b = true → eqb b c = true → eqb a c = true) →
  single key eqb l = true ↔ l ≠ [] ∧ ∀ a b, a ∈ l → b ∈ l → eqb (key a) (key b) = true.
Proof.
  intros Hr Hs Ht. destruct l as [|o l]; cbn; [split; [done|by intros []]|].
  rewrite forallb_forall. split.
  - intros H. split; [done|].
    assert (∀ a, a ∈ o :: l → eqb (key o) (key a) = true) as Ho.
    { intros a [->|Ha]%elem_of_cons; [done|]. apply H. by apply list_elem_of_In. }
    intros a b Ha Hb. eapply Ht; [apply Hs|]; by apply Ho.
  - intros [_ H] x Hx. apply H; [left|]. right. by apply list_elem_of_In.
Qed.

Lemma single_perm {B} (key : AdjustedCloseObservation → B) eqb l1 l2 :
  (∀ a, eqb a a = true) → (∀ a b, eqb a b = true → eqb b a = true) → (∀ a b c, eqb a b = true → eqb b c = true → eqb a c = true) →
  l1 ≡ₚ l2 → single key eqb l1 = true → single key eqb l2 = true.
Proof.
  intros Hr Hs Ht Hp. rewrite !single_iff by done. intros [Hn H]. split.
  - intros ->. by apply Permutation_sym, Permutation_nil in Hp.
  - intros a b. rewrite <- Hp. apply H.
Qed.

Lemma deqb_sym a b : deqb a b = true → deqb b a = true.
Proof. rewrite !deqb_eq. by intros ->. Qed.
Lemma deqb_trans a b c : deqb a b = true → deqb b c = true → deqb a c = true.
Proof. rewrite !deqb_eq. by intros -> ->. Qed.
Lemma same_instant_refl a : same_instant a a = true.
Proof. apply Z.eqb_refl. Qed.
Lemma same_instant_sym a b : same_instant a b = true → same_instant b a = true.
Proof. unfold same_instant. rewrite !Z.eqb_eq. by intros ->. Qed.
Lemma same_instant_trans a b c : same_instant a b = true → same_instant b c = true → same_instant a c = true.
Proof. unfold same_instant. rewrite !Z.eqb_eq. by intros -> ->. Qed.

Lemma candidates_elem g symbol session o :
  o ∈ candidates g symbol session ↔ o ∈ g ∧ normalized o = symbol ∧ ob_session_id o = session.
Proof. unfold candidates. rewrite elem_of_filterb, andb_true_iff, !String.eqb_eq. naive_solver. Qed.

(** The checks of a session do not depend on the order of the observations. *)
Lemma check_candidates_perm g1 g2 session closes symbol r :
  g1 ≡ₚ g2 → (∀ o, o ∈ g1 → times_aware o = true) →
  check_candidates g1 session closes symbol = Ok r → check_candidates g2 session closes symbol = Ok r.
Proof.
  intros Hp Ha. pose proof (candidates_perm _ _ symbol session Hp) as Hc. unfold check_candidates.
  destruct (candidates g1 symbol session) as [|o1 l1] eqn:E1; [done|].
  destruct (candidates g2 symbol session) as [|o2 l2] eqn:E2; [by apply Permutation_sym, Permutation_nil in Hc|].
  intros H. inv_ok. split_bool.
  match goal with H : single ob_adjusted_close _ _ = true |- _ => rename H into Hpr end.
  match goal with H : single ob_session_close_at _ _ = true |- _ => rename H into Hcl end.
  rewrite (single_perm _ _ _ _ deqb_refl deqb_sym deqb_trans Hc Hpr).
  rewrite (single_perm _ _ _ _ same_instant_refl same_instant_sym same_instant_trans Hc Hcl). cbn. do 3 f_equal.
  apply single_iff in Hcl as [_ Hcl]; [|apply same_instant_refl|apply same_instant_sym|apply same_instant_trans].
  assert (o2 ∈ o1 :: l1) as Hin by (rewrite Hc; left).
  specialize (Hcl o2 o1 Hin ltac:(left)). apply Z.eqb_eq in Hcl.
  assert (∀ o, o ∈ o1 :: l1 → tz_aware (ob_session_close_at o) = true) as Haw.
  { intros o Ho. rewrite <- E1 in Ho. apply candidates_elem in Ho as [Ho _]. apply Ha in Ho. by apply andb_true_iff in Ho as [_ ?]. }
  pose proof (Haw o1 ltac:(left)). pose proof (Haw o2 Hin).
  destruct (ob_session_close_at o1), (ob_session_close_at o2). cbn in *. congruence.
Qed.

Lemma check_session_perm g1 g2 previous session r :
  g1 ≡ₚ g2 → (∀ o, o ∈ g1 → times_aware o = true) →
  check_session symbols g1 previous session = Ok r → check_session symbols g2 previous session = Ok r.
Proof.
  intros Hp Ha. unfold check_session. intros (closes & Hcl & Hr)%bind_Ok_inv.
  rewrite (foldM_mono _ (check_candidates g2 session) _ _ _ (λ acc x r' _, check_candidates_perm g1 g2 session acc x r' Hp Ha) Hcl). exact Hr.
Qed.
End selection_facts.

(** ** Collecting the canonical bars does not depend on the order either *)

Lemma sorted_ids_perm l1 l2 : l1 ≡ₚ l2 → sorted String.leb l1 = sorted String.leb l2.
Proof.
  apply sorted_perm_unique; [apply string_leb_total|apply string_leb_trans|]. intros x y _ _. apply string_leb_antisym.
Qed.

Lemma canonical_bar_least l o :
  canonical_bar l = Ok o → o ∈ l ∧ ∀ o', o' ∈ l → String.leb (ob_bar_id o) (ob_bar_id o') = true.
Proof.
  destruct l as [|x l]; cbn; [done|]. intros [= <-]. split; [apply max_by_elem|].
  apply (max_by_greatest (λ a b, String.leb (ob_bar_id a) (ob_bar_id b) = true)).
  - intros a. apply string_leb_refl.
  - intros a b c. apply string_leb_trans.
  - intros a b. unfold bar_lt, lex_lt, String.leb. rewrite (String.compare_antisym (ob_bar_id b) (ob_bar_id a)).
    destruct (String.compare (ob_bar_id a) (ob_bar_id b)); cbn; try done. by destruct (_ ?= _)%Z.
Qed.

(** A bar identifier names one observation. *)
Definition bars_identified (l : list AdjustedCloseObservation) : Prop :=
  ∀ a b, a ∈ l → b ∈ l → ob_bar_id a = ob_bar_id b → a = b.

Lemma canonical_bar_perm l1 l2 o : bars_identified l1 → l1 ≡ₚ l2 → canonical_bar l1 = Ok o → canonical_bar l2 = Ok o.
Proof.
  intros Hid Hp H1. apply canonical_bar_least in H1 as [Ho Hl].
  destruct l2 as [|x l2]; [apply Permutation_sym, Permutation_nil in Hp as ->; by apply not_elem_of_nil in Ho|].
  destruct (canonical_bar (x :: l2)) as [o2|] eqn:E2; [|done].
  apply canonical_bar_least in E2 as [Ho2 Hl2]. f_equal. rewrite <- Hp in Ho2. symmetry. apply Hid; [done..|].
  apply string_leb_antisym; [by apply Hl|apply Hl2]. by rewrite <- Hp.
Qed.

Lemma collect_symbol_perm sessions g1 g2 acc symbol r :
  bars_identified g1 → g1 ≡ₚ g2 → collect_symbol sessions g1 acc symbol = Ok r → collect_symbol sessions g2 acc symbol = Ok r.
Proof.
  intros Hid Hp. unfold collect_symbol. intros (x & Hx & Hr)%bind_Ok_inv. erewrite foldM_mono; [exact Hr| |exact Hx].
  intros [ps ids] session r' _. cbv zeta beta. intros (o & Ho & H')%bind_Ok_inv.
  pose proof (candidates_perm _ _ symbol session Hp) as Hc.
  rewrite (canonical_bar_perm (candidates g1 symbol session) _ o); [|intros a b Ha Hb; apply Hid; by eapply candidates_elem|done..].
  cbn in *. rewrite <- H'. do 3 f_equal. apply sorted_ids_perm. by rewrite Hc.
Qed.

Section select.
Context (symbols sessions : list string) (open cutoff : datetime).
Notation select := (_select_point_in_time_prices symbols sessions open cutoff).

Lemma kept_aware l o : forallb (acceptable symbols sessions open cutoff) l = true → o ∈ List.filter (kept symbols sessions cutoff) l →
  times_aware o = true ∧ visible cutoff o = true ∧ completed_bar open o = true ∧ normalized o ∈ symbols ∧ ob_session_id o ∈ sessions.
Proof.
  rewrite forallb_forall. intros Hall [Hk Ho]%elem_of_filterb. apply list_elem_of_In in Ho. specialize (Hall _ Ho).
  unfold acceptable in Hall. unfold kept in Hk. apply andb_true_iff in Hk as [Ht Hv]. rewrite Ht, Hv in Hall. cbn in Hall.
  unfold tracked in Ht. apply andb_true_iff in Ht as [?%bool_decide_eq_true ?%bool_decide_eq_true].
  apply andb_true_iff in Hall as [??]. done.
Qed.

Lemma select_ignores l : tracked_aware symbols sessions l = true → select l = select (List.filter (kept symbols sessions cutoff) l).
Proof. intros Ha. unfold _select_point_in_time_prices. by rewrite accept_ignores. Qed.

Lemma select_perm l1 l2 r : l1 ≡ₚ l2 → bars_identified l1 → select l1 = Ok r → select l2 = Ok r.
Proof.
  intros Hp Hid. unfold _select_point_in_time_prices. intros (g1 & Hg & Hr)%bind_Ok_inv.
  apply accept_loop in Hg as [Hacc ->]. cbn [app] in *. set (g1 := List.filter (kept symbols sessions cutoff) l1) in *.
  set (g2 := List.filter (kept symbols sessions cutoff) l2).
  assert (g1 ≡ₚ g2) as Hg by (by apply filterb_perm).
  assert (foldM (accept symbols sessions open cutoff) [] l2 = Ok g2) as ->.
  { apply accept_loop. split; [|done]. rewrite forallb_forall in *. intros x Hx. apply Hacc.
    apply list_elem_of_In in Hx. apply list_elem_of_In. by rewrite Hp. }
  cbn. apply bind_Ok_inv in Hr as (u & Hu & Hr).
  rewrite (foldM_mono _ (check_session symbols g2) _ _ _
    (λ acc x r' _, check_session_perm symbols g1 g2 acc x r' Hg (λ o Ho, proj1 (kept_aware _ _ Hacc Ho))) Hu). cbn.
  eapply foldM_mono; [|exact Hr]. intros acc x r' _. apply collect_symbol_perm; [|done].
  intros a b [_ Ha]%elem_of_filterb [_ Hb]%elem_of_filterb. by apply Hid.
Qed.

(** Every source bar was visible, of a completed session, and closed before the current session opened. *)
Lemma select_sources l prices ids : select l = Ok (prices, ids) → ∀ id, id ∈ ids → ∃ o, o ∈ l ∧ ob_bar_id o = id
  ∧ visible cutoff o = true ∧ completed_bar open o = true ∧ normalized o ∈ symbols ∧ ob_session_id o ∈ sessions.
Proof.
  unfold _select_point_in_time_prices. intros (g & Hg & Hr)%bind_Ok_inv. apply bind_Ok_inv in Hr as (u & _ & Hr).
  apply accept_loop in Hg as [Hacc ->]. cbn [app] in *. set (g := List.filter (kept symbols sessions cutoff) l) in *.
  assert (∀ id, id ∈ ids → ∃ o, o ∈ g ∧ ob_bar_id o = id) as Hin.
  { assert (∀ id, id ∈ (prices, ids).2 → ∃ o, o ∈ g ∧ ob_bar_id o = id) as H; [|exact H].
    revert Hr. apply (foldM_invariant (λ r : pydict (list dec) * list string, ∀ id, id ∈ r.2 → ∃ o, o ∈ g ∧ ob_bar_id o = id));
      [|by intros ? ?%not_elem_of_nil].
    intros acc symbol acc' _ Hinv. unfold collect_symbol. intros (x & Hx & [= <-])%bind_Ok_inv. cbn [snd].
    revert Hx. apply (foldM_invariant (λ r : list dec * list string, ∀ id, id ∈ r.2 → ∃ o, o ∈ g ∧ ob_bar_id o = id)); [|exact Hinv].
    intros a session a' _ Ha. cbv zeta. intros (c & _ & [= <-])%bind_Ok_inv. cbn [snd]. intros id [Hid|Hid]%elem_of_app; [by apply Ha|].
    rewrite elem_of_sorted in Hid. apply list_elem_of_fmap in Hid as (o & -> & Ho). exists o. split; [|done]. by eapply candidates_elem. }
  intros id Hid. destruct (Hin id Hid) as (o & Ho & <-). exists o. destruct (kept_aware _ _ Hacc Ho) as (_ & ? & ? & ? & ?).
  apply elem_of_filterb in Ho as [_ ?]. done.
Qed.
End select.

(** ** What the signal may depend on *)

Section signals.
Context `{Digest} `{DecimalMath}.

(** C38: The signal depends only on the bars that are asked for and available at its data cutoff.  Two sets of observations that agree on
    the bars of the risky symbols and of the completed sessions that are available by then give the same signal, its hash included, or
    the same error, whatever the other observations are, well-formed or not.  (The times of the bars asked for must name their zone:
    the code rejects one that does not even when it is not available yet.) *)
Theorem signal_no_lookahead l1 l2 i config :
  tracked_aware (risky_symbols config) (si_completed_session_ids i) l1 = true →
  tracked_aware (risky_symbols config) (si_completed_session_ids i) l2 = true →
  List.filter (kept (risky_symbols config) (si_completed_session_ids i) (si_signal_data_cutoff i)) l1
  = List.filter (kept (risky_symbols config) (si_completed_session_ids i) (si_signal_data_cutoff i)) l2 →
  compute_q1_signal l1 i config = compute_q1_signal l2 i config.
Proof.
  intros H1 H2 Hk. unfold compute_q1_signal. destruct (check_signal_inputs i config); cbn; [|done].
  by rewrite (select_ignores _ _ _ _ l1), (select_ignores _ _ _ _ l2), Hk by done.
Qed.

(** The order in which the observations arrive does not matter, when a bar identifier names one bar. *)
Theorem signal_order_irrelevant l1 l2 i config s :
  l1 ≡ₚ l2 → bars_identified l1 → compute_q1_signal l1 i config = Ok s → compute_q1_signal l2 i config = Ok s.
Proof.
  intros Hp Hid. unfold compute_q1_signal. destruct (check_signal_inputs i config); cbn; [|done].
  intros (r & Hr & Hs)%bind_Ok_inv. by rewrite (select_perm _ _ _ _ l1 l2 r).
Qed.

(** Every bar that a signal names as its source was available by the data cutoff, which is not after the scheduled time,
    and is the completed bar of a listed session that closed before the current session opened. *)
Theorem signal_sources_point_in_time l i config s id :
  compute_q1_signal l i config = Ok s → id ∈ sg_source_bar_ids s →
  instant (sg_signal_data_cutoff s) <= instant (sg_scheduled_at s)
  ∧ ∃ o, o ∈ l ∧ ob_bar_id o = id ∧ instant (ob_available_at o) <= instant (sg_signal_data_cutoff s)
      ∧ instant (ob_session_close_at o) < instant (si_current_session_open_at i)
      ∧ instant (ob_session_close_at o) <= instant (ob_available_at o)
      ∧ normalized o ∈ risky_symbols config ∧ ob_session_id o ∈ sg_completed_session_ids s.
Proof.
  unfold compute_q1_signal. intros (u & Hc & H1)%bind_Ok_inv. apply bind_Ok_inv in H1 as ([selected ids] & Hsel & H1).
  inv_ok. cbn. intros Hid. split.
  { unfold check_signal_inputs in Hc. inv_ok. unfold dt_lt in *. lia. }
  destruct (select_sources _ _ _ _ _ _ _ Hsel id Hid) as (o & Ho & Hi & Hv & Hb & Hs & Hx). exists o.
  unfold visible, completed_bar, dt_le, dt_lt in *. split_bool. repeat split; try done; lia.
Qed.
End signals.

(** ** Bounds of the signal *)

Lemma clip_between v lo hi :
  (dval lo <= dval hi)%Q → (dval lo <= dval (_clip v lo hi) <= dval hi)%Q.
Proof.
  intros Hb. unfold _clip. destruct (dmin_spec hi v) as [[E Hm]|[E Hm]], (dmax_spec lo (dmin hi v)) as [[-> Hx]|[-> Hx]];
    rewrite E in *; split; lra.
Qed.

Lemma clip_digits p v lo hi : repr p v → repr p lo → repr p hi → repr p (_clip v lo hi).
Proof. intros. by apply repr_max; [|apply repr_min]. Qed.

(** The configured bounds are ordered and have no more digits than the context. *)
Record signal_bounds (config : Q1MathConfig) : Prop := {
  sb_precision : 0 < cp_decimal_precision (mc_covariance config);
  sb_clip_positive : (0 < dval (sp_z_score_clip (mc_signal config)))%Q;
  sb_gate : (dval (sp_market_gate_min (mc_signal config)) < dval (sp_market_gate_max (mc_signal config)))%Q;
  sb_confidence : (dval (sp_confidence_min (mc_signal config)) < dval (sp_confidence_max (mc_signal config)))%Q;
  sb_clip : repr (cp_decimal_precision (mc_covariance config)) (sp_z_score_clip (mc_signal config));
  sb_gate_min : repr (cp_decimal_precision (mc_covariance config)) (sp_market_gate_min (mc_signal config));
  sb_gate_max : repr (cp_decimal_precision (mc_covariance config)) (sp_market_gate_max (mc_signal config));
  sb_confidence_min : repr (cp_decimal_precision (mc_covariance config)) (sp_confidence_min (mc_signal config));
  sb_confidence_max : repr (cp_decimal_precision (mc_covariance config)) (sp_confidence_max (mc_signal config));
}.

(** They are, in the configuration of the repository; a parsed configuration only lacks the digits. *)
Lemma core_signal_bounds : signal_bounds core_config.
Proof. destruct core_config_valid as [_ _ _ _ [] [] _ _ _]. split; done || reflexivity. Qed.

Definition within (bound : dec) (d : dec) : Prop := (- dval bound <= dval d <= dval bound)%Q.

Section bounds.
Context `{DecimalMath} (config : Q1MathConfig).
Hypothesis (Hrep : signal_bounds config).
Notation prec := (cp_decimal_precision (mc_covariance config)).
Notation clip := (sp_z_score_clip (mc_signal config)).

Lemma prec_positive : 0 < prec.
Proof. apply Hrep. Qed.

Lemma z_score_within ret sigma z : z_score config ret sigma = Ok z → within clip z ∧ repr prec z.
Proof.
  unfold z_score. intros (d & Hd & [= <-])%bind_Ok_inv. pose proof prec_positive as Hp.
  pose proof (sb_clip_positive _ Hrep) as Hclip.
  rewrite (dneg_exact _ _ Hp (sb_clip _ Hrep)). split.
  - unfold within. rewrite <- dval_dopp. apply clip_between. rewrite dval_dopp. lra.
  - apply clip_digits; [by eapply ddiv_repr|apply repr_dopp, Hrep|apply Hrep].
Qed.

Lemma horizons_within prices v l r :
  foldM (horizon_step config prices v) ([], []) l = Ok r → Forall (λ kv : Z * dec, within clip kv.2 ∧ repr prec kv.2) r.2 ∧ length r.2 = length l.
Proof.
  apply (foldM_prefix_invariant (λ pre r, Forall (λ kv : Z * dec, within clip kv.2 ∧ repr prec kv.2) r.2 ∧ length r.2 = length pre));
    [by split; [constructor|]|].
  intros pre h acc acc' _ [Ha Hlen]. unfold horizon_step. intros Hs. inv_ok. cbn [snd].
  match goal with E : z_score _ _ _ = Ok _ |- _ => apply z_score_within in E as [Hw Hr] end.
  rewrite dround_exact by (done || apply prec_positive). split; [|by rewrite !length_app, Hlen].
  apply Forall_app. split; [done|]. by constructor.
Qed.

Lemma median_elem l m : median l = Ok m → m ∈ l.
Proof.
  unfold median. destruct (sorted dleb l !! _) as [v|] eqn:E; [|done]. intros [= <-].
  apply list_elem_of_lookup_2 in E. by rewrite elem_of_sorted in E.
Qed.

Lemma asset_trend_within symbol prices cov t :
  _asset_trend config symbol prices cov = Ok t →
  at_symbol t = symbol ∧ Forall (λ kv : Z * dec, within clip kv.2) (at_z_scores_by_horizon t)
  ∧ at_trend_score t ∈ (at_z_scores_by_horizon t).*2 ∧ within clip (at_trend_score t) ∧ repr prec (at_trend_score t).
Proof.
  unfold _asset_trend. intros Ht. inv_ok.
  match goal with x : list _ * list _ |- _ => destruct x as [rs zs] end. inv_ok. cbn.
  match goal with E : foldM _ _ _ = Ok _ |- _ => apply horizons_within in E as [Hz _]; cbn in Hz end.
  match goal with E : median _ = Ok _ |- _ => apply median_elem in E; rename E into Hm end.
  apply list_elem_of_fmap in Hm as Hm'. destruct Hm' as ([h z] & -> & Hin). rewrite Forall_forall in Hz.
  destruct (Hz (h, z) (proj1 (list_elem_of_In _ _) Hin)) as [Hw Hr]. cbn in *. rewrite dround_exact by (done || apply prec_positive).
  split; [done|]. split; [|done]. apply Forall_forall. intros kv Hkv. by apply Hz.
Qed.

Lemma signal_core_bounds cov qqq soxx core :
  (0 <= dval (sp_market_gate_min (mc_signal config)))%Q → repr prec (at_trend_score qqq) → signal_core config cov qqq soxx = Ok core →
  within clip (sc_relative_strength core) ∧ repr prec (sc_relative_strength core)
  ∧ (dval (sp_market_gate_min (mc_signal config)) <= dval (sc_market_gate core) <= dval (sp_market_gate_max (mc_signal config)))%Q
  ∧ repr prec (sc_market_gate core)
  ∧ (dval (sp_confidence_min (mc_signal config)) <= dval (sc_confidence core) <= dval (sp_confidence_max (mc_signal config)))%Q
  ∧ repr prec (sc_confidence core)
  ∧ (0 <= dval (sc_qqq_score core))%Q ∧ repr prec (sc_qqq_score core) ∧ (0 <= dval (sc_soxx_score core))%Q ∧ repr prec (sc_soxx_score core).
Proof.
  intros Hg Hq. unfold signal_core. cbv zeta. intros Hs. inv_ok. cbn.
  pose proof prec_positive as Hp. pose proof (sb_gate _ Hrep). pose proof (sb_confidence _ Hrep).
  match goal with E : z_score _ _ _ = Ok _ |- _ => apply z_score_within in E as [Hw Hr] end.
  repeat match goal with E : ddiv_p _ _ _ = Ok _ |- _ => apply ddiv_repr in E; [|done] end.
  assert (∀ v lo hi, (dval lo < dval hi)%Q → (dval lo <= dval (_clip v lo hi) <= dval hi)%Q) as Hclip
    by (intros; apply clip_between; lra).
  do 2 (split; [done|]). split; [by apply Hclip|]. split; [by apply clip_digits; [|apply Hrep..]|].
  split; [by apply Hclip|]. split; [by apply clip_digits; [|apply Hrep..]|].
  assert (∀ v, 0 <= dval (dmax d0 v))%Q as Hmax0.
  { intros v. destruct (dmax_spec d0 v) as [[-> ?]|[-> ?]]; rewrite dval_d0 in *; [apply Qle_refl|done]. }
  split; [apply Hmax0|]. split; [by apply repr_max; [apply repr_zero|]|]. split.
  - eapply rounds_nonneg; [done|by apply dmul_rounds|]. apply Qmult_le_0_compat; [apply Hmax0|].
    eapply Qle_trans; [exact Hg|]. by apply Hclip.
  - by apply dmul_rounds.
Qed.
End bounds.

(** The numbers of a signal stay within the configured bounds: the z-scores and the trend scores, each of which is one of
    its asset's z-scores, and the relative strength within the clip, the gate and the confidence between their limits, and
    the raw scores at least zero. *)
Theorem signal_bounded `{Digest} `{DecimalMath} l i config s :
  signal_bounds config → (0 <= dval (sp_market_gate_min (mc_signal config)))%Q →
  compute_q1_signal l i config = Ok s →
  Forall (λ t, Forall (λ kv : Z * dec, within (sp_z_score_clip (mc_signal config)) kv.2) (at_z_scores_by_horizon t)
               ∧ at_trend_score t ∈ (at_z_scores_by_horizon t).*2
               ∧ within (sp_z_score_clip (mc_signal config)) (at_trend_score t)) (sg_trends s)
  ∧ within (sp_z_score_clip (mc_signal config)) (sg_relative_strength s)
  ∧ (dval (sp_market_gate_min (mc_signal config)) <= dval (sg_market_gate s) <= dval (sp_market_gate_max (mc_signal config)))%Q
  ∧ (dval (sp_confidence_min (mc_signal config)) <= dval (sg_confidence s) <= dval (sp_confidence_max (mc_signal config)))%Q
  ∧ (sg_raw_scores s).*1 = ["QQQ"; "SOXX"] ∧ Forall (λ kv : string * dec, (0 <= dval kv.2)%Q) (sg_raw_scores s).
Proof.
  intros Hr Hg. pose proof (prec_positive _ Hr) as Hp. unfold compute_q1_signal. intros (u & _ & H1)%bind_Ok_inv.
  apply bind_Ok_inv in H1 as ([selected ids] & _ & H1). inv_ok.
  match goal with E : mapM_res _ (risky_symbols config) = Ok ?ts, E' : next_trend ?ts _ = Ok ?q |- _ =>
    assert (Forall (λ t, Forall (λ kv : Z * dec, within (sp_z_score_clip (mc_signal config)) kv.2) (at_z_scores_by_horizon t)
      ∧ at_trend_score t ∈ (at_z_scores_by_horizon t).*2 ∧ within (sp_z_score_clip (mc_signal config)) (at_trend_score t)
      ∧ repr (cp_decimal_precision (mc_covariance config)) (at_trend_score t)) ts) as Ht; [clear -Hr E|] end.
  { match goal with E : mapM_res _ _ = Ok _ |- _ => apply mapM_res_Forall2 in E;
      induction E as [|sym t syms ts Hst _ IH]; constructor; [|done] end.
    apply bind_Ok_inv in Hst as (prices & _ & Ht). apply asset_trend_within in Ht as (_ & ?); done. }
  match goal with E : next_trend _ "QQQ" = Ok ?q, E' : signal_core _ _ ?q _ = Ok _ |- _ =>
    apply signal_core_bounds in E' as (? & ? & ? & ? & ? & ? & ? & ? & ? & ?); [|done..|] end.
  - cbn. rewrite !dround_exact by done. split; [eapply List.Forall_impl; [|exact Ht]; cbn; naive_solver|].
    do 3 (split; [done|]). split; [done|]. by repeat constructor.
  - match goal with E : next_trend _ "QQQ" = Ok _ |- _ => unfold next_trend in E; revert E; destruct (List.find _ _) as [t|] eqn:Ef; [|done] end.
    intros [= <-]. apply find_some in Ef as [Hin _]. rewrite List.Forall_forall in Ht. by apply Ht.
Qed.

(** ** A small instance: three sessions and eight digits *)

Definition small_config : Q1MathConfig :=
  {| mc_version := mc_version core_config; mc_algorithm_version := mc_algorithm_version core_config;
     mc_signal_model_version := mc_signal_model_version core_config; mc_risky_symbols := ("QQQ", "SOXX"); mc_cash_symbol := "USD_CASH";
     mc_disabled_symbols := ["SOXS"]; mc_inherited_sell_only_symbols := ["SOXL"]; mc_covariance := small_parameters;
     mc_signal := {| sp_minimum_completed_sessions := 3; sp_horizons_sessions := [1; 2]; sp_relative_strength_horizon_sessions := 1;
       sp_z_score_clip := Dec 3 0; sp_relative_strength_coefficient := Dec 5 (-1); sp_market_gate_offset := Dec 5 (-1);
       sp_market_gate_width := d1; sp_market_gate_min := d0; sp_market_gate_max := d1; sp_confidence_denominator := Dec 15 (-1);
       sp_confidence_min := d0; sp_confidence_max := d1; sp_return_quantum := Dec 1 (-6); sp_numeric_rounding := "HALF_EVEN" |};
     mc_allocation := mc_allocation core_config; mc_turnover := mc_turnover core_config; mc_evaluation := mc_evaluation core_config |}.

Definition bar (id symbol session : string) (close : Z) (price : dec) : AdjustedCloseObservation :=
  {| ob_bar_id := id; ob_symbol := symbol; ob_session_id := session; ob_session_close_at := utc close; ob_adjusted_close := price;
     ob_available_at := utc (close + 5) |}.
Definition small_bars : list AdjustedCloseObservation :=
  [bar "q1" "QQQ" "s1" 100 (Dec 400 0); bar "x1" "soxx" "s1" 100 (Dec 200 0); bar "q2" "QQQ" "s2" 200 (Dec 404 0);
   bar "x2" "SOXX" "s2" 200 (Dec 205 0); bar "q3" "QQQ" "s3" 300 (Dec 410 0); bar "x3" "SOXX " "s3" 300 (Dec 203 0)].
(** A bar that the cutoff hides, one of another session, and one of another symbol with no price and no zone. *)
Definition late_bar : AdjustedCloseObservation := bar "q4" "QQQ" "s3" 900 (Dec 999 0).
Definition other_session_bar : AdjustedCloseObservation := bar "q0" "QQQ" "s0" 50 (Dec 390 0).
Definition other_symbol_bar : AdjustedCloseObservation :=
  {| ob_bar_id := ""; ob_symbol := "TSM"; ob_session_id := "s3"; ob_session_close_at := DT 300 false; ob_adjusted_close := d0;
     ob_available_at := DT 305 false |}.
Definition ignored_bars : list AdjustedCloseObservation := [late_bar; other_session_bar; other_symbol_bar].
Definition small_inputs : SignalInputs :=
  {| si_completed_session_ids := ["s1"; "s2"; "s3"]; si_calendar_session_id := "s4"; si_expected_latest_completed_session_id := "s3";
     si_current_session_open_at := utc 400; si_scheduled_at := utc 500; si_signal_data_cutoff := utc 450; si_config_manifest_hash := "m" |}.

#[local] Notation signal_of l := (compute_q1_signal (H := rolling_digest) l small_inputs small_config).

Lemma small_signal_ok : is_ok (signal_of small_bars) = true.
Proof. vm_compute. reflexivity. Qed.

Lemma small_signal_ex : ∃ s, compute_q1_signal (H := rolling_digest) small_bars small_inputs small_config = Ok s.
Proof. apply is_ok_ex, small_signal_ok. Qed.

Lemma small_signal_bounds : signal_bounds small_config.
Proof. split; done || reflexivity. Qed.

Lemma signal_no_lookahead_witness :
  tracked_aware (risky_symbols small_config) (si_completed_session_ids small_inputs) (ignored_bars ++ small_bars) = true
  ∧ compute_q1_signal (H := rolling_digest) (ignored_bars ++ small_bars) small_inputs small_config
    = compute_q1_signal (H := rolling_digest) small_bars small_inputs small_config.
Proof. split; [vm_compute; reflexivity|]. apply signal_no_lookahead; vm_compute; reflexivity. Defined.

Lemma signal_order_irrelevant_witness :
  ∃ s, compute_q1_signal (H := rolling_digest) (rev small_bars) small_inputs small_config = Ok s.
Proof.
  destruct small_signal_ex as [s Hs]. exists s.
  apply (signal_order_irrelevant (H := rolling_digest) small_bars (rev small_bars)); [apply Permutation_rev| |exact Hs].
  intros a b Ha Hb. apply list_elem_of_In in Ha, Hb. cbn in Ha, Hb.
  repeat destruct Ha as [<-|Ha]; try destruct Ha; repeat destruct Hb as [<-|Hb]; try destruct Hb; done.
Defined.

Lemma small_signal_sources s :
  compute_q1_signal (H := rolling_digest) small_bars small_inputs small_config = Ok s →
  sg_source_bar_ids s = ["q1"; "q2"; "q3"; "x1"; "x2"; "x3"].
Proof.
  intros Hs. assert (sg_source_bar_ids <$> signal_of small_bars = Ok ["q1"; "q2"; "q3"; "x1"; "x2"; "x3"]) as E by (vm_compute; reflexivity).
  rewrite Hs in E. by injection E.
Qed.

Lemma signal_sources_point_in_time_witness :
  ∃ o, o ∈ small_bars ∧ ob_bar_id o = "x2" ∧ instant (ob_session_close_at o) < 400.
Proof.
  destruct small_signal_ex as [s Hs].
  assert ("x2" ∈ sg_source_bar_ids s) as Hin by (rewrite (small_signal_sources s Hs); apply list_elem_of_In; cbn; tauto).
  destruct (signal_sources_point_in_time (H := rolling_digest) _ _ _ s "x2" Hs Hin) as (_ & o & Ho & Hi & _ & Hc & _).
  exists o. exact (conj Ho (conj Hi Hc)).
Defined.

Lemma signal_bounded_witness : ∃ s, signal_of small_bars = Ok s ∧ (0 <= dval (sg_confidence s) <= 1)%Q.
Proof.
  destruct small_signal_ex as [s Hs]. exists s. split; [exact Hs|].
  destruct (signal_bounded (H := rolling_digest) _ _ _ s small_signal_bounds ltac:(reflexivity || discriminate) Hs) as (_ & _ & _ & Hc & _).
  cbn in Hc. rewrite dval_d0, dval_d1 in Hc. exact Hc.
Defined.
