(* ===== verification/Allocation.v ===== *)
(** * Allocation and turnover control ([quant/allocator.py])

    The target weights of the Q1 arm under its caps, the volatility-targeted benchmark, the weights that an arm holds, and
    the turnover control that turns a target into proposed trades.  [allocate_q1] works in the configured context, the
    other functions in the default one of 28 digits; helpers that both call take the precision. *)
From Stdlib Require Import ZArith Lia Ascii String QArith Lqa.
From stdpp Require Import base list strings numbers.
From S2P Require Import Prelude PyDecimal Hashing DecimalMath Domain QuantConfig Covariance Signals.
Set Default Goal Selector "!".
Open Scope Z_scope.

Record AllocationResult := {
  ar_arm_kind : string;
  ar_target_weights : list (string * dec);
  ar_unconstrained_weights : list (string * dec);
  ar_volatility_scale : dec;
  ar_raw_portfolio_annualized_volatility : dec;
  ar_expected_annualized_volatility : dec;
  ar_soxx_variance_contribution : dec;
  ar_diagnostics : pyval;
  ar_allocation_hash : string;
}.

Record CurrentPortfolioWeights := {
  cw_nav_usd : dec;
  cw_settled_cash_usd : dec;
  cw_unsettled_receivables_usd : dec;
  cw_weights : list (string * dec);
}.

Record ProposedTrade := {
  pt_symbol : string;
  pt_side : string;
  pt_weight_delta : dec;
  pt_notional_usd : dec;
}.

Record OmittedOrderDiagnostic := {
  om_symbol : string;
  om_side : string;
  om_proposed_notional_usd : dec;
  om_minimum_notional_usd : dec;
  om_reason : string;
}.

Record TurnoverResult := {
  tr_decision_kind : string;
  tr_proposed_one_way_turnover : dec;
  tr_remaining_daily_capacity : dec;
  tr_interpolation_alpha : dec;
  tr_adjusted_target_weights : list (string * dec);
  tr_executable_target_weights : list (string * dec);
  tr_executable_one_way_turnover : dec;
  tr_proposed_trades : list ProposedTrade;
  tr_omitted_orders : list OmittedOrderDiagnostic;
  tr_turnover_hash : string;
}.

(** [_lookup_weight], and the methods that use it. *)
Definition _lookup_weight (items : list (string * dec)) (symbol : string) : res dec :=
  match List.find (λ kv, String.eqb kv.1 symbol) items with Some kv => Ok kv.2 | None => math_error "missing weight" end.
Definition AllocationResult_weight (r : AllocationResult) (symbol : string) : res dec := _lookup_weight (ar_target_weights r) symbol.
Definition weights_mapping (r : AllocationResult) : pydict dec := dict_of_pairs (ar_target_weights r).
Definition CurrentPortfolioWeights_weight (r : CurrentPortfolioWeights) (symbol : string) : res dec := _lookup_weight (cw_weights r) symbol.

Definition _positive (value : dec) : res dec := raise_if (value <=? d0)%dec Q1MathError "must be a positive finite Decimal";; Ok value.
Definition _non_negative (value : dec) : res dec := raise_if (value <? d0)%dec Q1MathError "must be a non-negative finite Decimal";; Ok value.

(** ** Checks and helpers shared by both contexts *)

Section context.
Context (prec : Z) (config : Q1MathConfig).
Local Infix "+" := (dadd_p prec) : dec_scope.
Local Infix "-" := (dsub_p prec) : dec_scope.
Local Infix "*" := (dmul_p prec) : dec_scope.

(** [sum(values, Decimal("0"))] *)
Definition sum_p (l : list dec) : dec := fold_left (dadd_p prec) l d0.

Definition _validate_basic_weights (weights : pydict dec) : res () :=
  raise_if (existsb (λ v, (v <? d0)%dec) weights.*2) Q1MathError "portfolio weights must be non-negative and finite";;
  let total := sum_p weights.*2 in
  raise_if (ap_weight_sum_tolerance (mc_allocation config) <? dabs_p prec (total - d1))%dec Q1MathError "portfolio weights must sum to one".

Definition weight_of (weights : pydict dec) (symbol : string) : dec := default d0 (dget symbol weights).

Definition _validate_q1_weights (weights : pydict dec) : res () :=
  _validate_basic_weights weights;;
  let risky_sum := sum_p (map (weight_of weights) (risky_symbols config)) in
  raise_if (ap_max_gross_risky_weight (mc_allocation config) <? risky_sum)%dec Q1MathError "portfolio exceeds gross risky-weight cap";;
  raise_if (ap_qqq_max_weight (mc_allocation config) <? weight_of weights "QQQ")%dec Q1MathError "portfolio exceeds QQQ cap";;
  raise_if (ap_soxx_max_weight (mc_allocation config) <? weight_of weights "SOXX")%dec Q1MathError "portfolio exceeds SOXX cap".

(** ** The SOXX share of the portfolio variance *)

Definition _soxx_risk_contribution (qqq_weight soxx_weight : dec) (covariance : CovarianceEstimate) : res dec :=
  variance ← portfolio_variance prec [("QQQ", qqq_weight); ("SOXX", soxx_weight)] covariance;
  if (variance =? d0)%dec || (soxx_weight =? d0)%dec then Ok d0
  else
    sq ← value covariance "SOXX" "QQQ"; ss ← value covariance "SOXX" "SOXX";
    let sigma_w_soxx := (sq * qqq_weight + ss * soxx_weight)%dec in
    ddiv_p prec (soxx_weight * sigma_w_soxx)%dec variance.

(** One bisection step on [(low, high)]. *)
Definition bisect_step (qqq_weight : dec) (covariance : CovarianceEstimate) (bounds : dec * dec) (_ : Z) : res (dec * dec) :=
  let '(low, high) := bounds in
  midpoint ← ddiv_p prec (low + high)%dec (Dec 2 0);
  contribution ← _soxx_risk_contribution qqq_weight midpoint covariance;
  if (contribution <=? ap_soxx_max_variance_contribution (mc_allocation config))%dec then Ok (midpoint, high) else Ok (low, midpoint).

Definition _cap_soxx_risk_contribution (qqq_weight soxx_weight : dec) (covariance : CovarianceEstimate) : res dec :=
  if (soxx_weight =? d0)%dec then Ok d0
  else
    let cap := ap_soxx_max_variance_contribution (mc_allocation config) in
    let limit := (cap + ap_risk_contribution_tolerance (mc_allocation config))%dec in
    current ← _soxx_risk_contribution qqq_weight soxx_weight covariance;
    if (current <=? limit)%dec then Ok soxx_weight
    else
      '(low, high) ← foldM (bisect_step qqq_weight covariance) (d0, soxx_weight)
                       (seqZ 0 (ap_risk_contribution_bisection_iterations (mc_allocation config)));
      final ← _soxx_risk_contribution qqq_weight low covariance;
      raise_if (limit <? final)%dec Q1MathError "SOXX risk-contribution cap did not converge";;
      Ok low.
End context.

(** ** [allocate_q1] *)

(** The weights before any constraint. *)
Definition raw_weights (config : Q1MathConfig) (s : Q1Signal) : res (dec * dec) :=
  let prec := cp_decimal_precision (mc_covariance config) in
  qqq_score ← score_for s "QQQ"; soxx_score ← score_for s "SOXX";
  if (qqq_score =? d0)%dec && (soxx_score =? d0)%dec then Ok (d0, d0)
  else
    v_qqq ← variance (sg_covariance s) "QQQ"; sigma_qqq ← dsqrt_p prec v_qqq; inverse_qqq ← ddiv_p prec qqq_score sigma_qqq;
    v_soxx ← variance (sg_covariance s) "SOXX"; sigma_soxx ← dsqrt_p prec v_soxx; inverse_soxx ← ddiv_p prec soxx_score sigma_soxx;
    let score_sum := sum_p prec [inverse_qqq; inverse_soxx] in
    raise_if (score_sum <=? d0)%dec Q1MathError "positive Q1 scores produced no inverse-volatility budget";;
    raw ← mapM_res (λ symbol,
             inverse ← dindex symbol [("QQQ", inverse_qqq); ("SOXX", inverse_soxx)];
             w ← ddiv_p prec (dmul_p prec (sg_confidence s) inverse) score_sum; Ok (symbol, w)) (risky_symbols config);
    raw_qqq ← dindex "QQQ" raw; raw_soxx ← dindex "SOXX" raw;
    Ok (raw_qqq, raw_soxx).

(** Volatility target, single caps and gross cap, in this order: the scale, the raw volatility and the weights. *)
Definition constrain (config : Q1MathConfig) (raw_qqq raw_soxx : dec) (covariance : CovarianceEstimate) : res (dec * dec * dec * dec) :=
  let prec := cp_decimal_precision (mc_covariance config) in
  let a := mc_allocation config in
  raw_variance ← portfolio_variance prec [("QQQ", raw_qqq); ("SOXX", raw_soxx)] covariance;
  raw_volatility ← dsqrt_p prec raw_variance;
  volatility_scale ← (if (ap_q1_target_vol a <? raw_volatility)%dec then ddiv_p prec (ap_q1_target_vol a) raw_volatility else Ok d1);
  let qqq := dmin (dmul_p prec raw_qqq volatility_scale) (ap_qqq_max_weight a) in
  let soxx := dmin (dmul_p prec raw_soxx volatility_scale) (ap_soxx_max_weight a) in
  let gross := sum_p prec [qqq; soxx] in
  if (ap_max_gross_risky_weight a <? gross)%dec then
    gross_scale ← ddiv_p prec (ap_max_gross_risky_weight a) gross;
    Ok (volatility_scale, raw_volatility, dmul_p prec qqq gross_scale, dmul_p prec soxx gross_scale)
  else Ok (volatility_scale, raw_volatility, qqq, soxx).

Definition horizon_dict (l : list (Z * dec)) : pyval := PDict (dict_of_pairs (map (λ kv, (string_of_Z kv.1, PDecimal kv.2)) l)).

Definition allocate_q1 `{Digest} (s : Q1Signal) (config : Q1MathConfig) : res AllocationResult :=
  let covariance := sg_covariance s in
  let prec := cp_decimal_precision (mc_covariance config) in
  '(raw_qqq, raw_soxx) ← raw_weights config s;
  '(volatility_scale, raw_volatility, qqq, soxx) ← constrain config raw_qqq raw_soxx covariance;
  soxx ← _cap_soxx_risk_contribution prec config qqq soxx covariance;
  final_variance ← portfolio_variance prec [("QQQ", qqq); ("SOXX", soxx)] covariance;
  expected_volatility ← dsqrt_p prec final_variance;
  soxx_contribution ← _soxx_risk_contribution prec qqq soxx covariance;
  let risky_sum := sum_p prec [qqq; soxx] in
  let cash_weight := dsub_p prec d1 risky_sum in
  let final := dset (mc_cash_symbol config) cash_weight [("QQQ", qqq); ("SOXX", soxx)] in
  _validate_q1_weights prec config final;;
  let unconstrained := [("QQQ", raw_qqq); ("SOXX", raw_soxx)] in
  let unconstrained_cash := dsub_p prec d1 (sum_p prec [raw_qqq; raw_soxx]) in
  covariance_matrix ← as_mapping covariance;
  t_qqq ← trend_for s "QQQ"; t_soxx ← trend_for s "SOXX";
  let diagnostics := PDict
    [("covariance_matrix", mapping_val covariance_matrix);
     ("trend_z_scores", PDict (dict_of_pairs (map (λ t, (at_symbol t, horizon_dict (at_z_scores_by_horizon t))) (sg_trends s))));
     ("T_QQQ", PDecimal (at_trend_score t_qqq)); ("T_SOXX", PDecimal (at_trend_score t_soxx));
     ("RS", PDecimal (sg_relative_strength s)); ("spread_return_60", PDecimal (sg_spread_return s));
     ("spread_variance", PDecimal (sg_spread_variance s)); ("market_gate", PDecimal (sg_market_gate s));
     ("raw_scores", dec_dict (dict_of_pairs (sg_raw_scores s))); ("confidence", PDecimal (sg_confidence s));
     ("raw_weights", dec_dict (dset (mc_cash_symbol config) unconstrained_cash unconstrained));
     ("constrained_weights", dec_dict final); ("volatility_scale", PDecimal volatility_scale);
     ("raw_portfolio_annualized_volatility", PDecimal raw_volatility);
     ("expected_annualized_volatility", PDecimal expected_volatility);
     ("soxx_risk_contribution", PDecimal soxx_contribution); ("final_cash_weight", PDecimal cash_weight)] in
  let plus := dround prec in
  targets ← mapM_res (λ symbol, w ← dindex symbol final; Ok (symbol, plus w)) (all_symbols config);
  hash ← canonical_hash (PDict
    [("algorithm_version", PStr (mc_algorithm_version config)); ("config_manifest_hash", PStr (sg_config_manifest_hash s));
     ("signal_hash", PStr (sg_signal_hash s)); ("arm_kind", PStr "Q1"); ("diagnostics", diagnostics)]);
  Ok {| ar_arm_kind := "Q1"; ar_target_weights := targets;
        ar_unconstrained_weights := map (λ symbol, (symbol, plus (default unconstrained_cash (dget symbol unconstrained)))) (all_symbols config);
        ar_volatility_scale := plus volatility_scale; ar_raw_portfolio_annualized_volatility := plus raw_volatility;
        ar_expected_annualized_volatility := plus expected_volatility; ar_soxx_variance_contribution := plus soxx_contribution;
        ar_diagnostics := diagnostics; ar_allocation_hash := hash |}.

(** ** [allocate_b0_vol] *)

Definition allocate_b0_vol `{Digest} (qqq_annualized_variance : dec) (config : Q1MathConfig) (config_manifest_hash : string)
    : res AllocationResult :=
  qqq_variance ← _positive qqq_annualized_variance;
  raise_if (qqq_variance <? cp_variance_epsilon (mc_covariance config))%dec Q1MathError "must respect the configured variance floor";;
  qqq_sigma ← dsqrt qqq_variance;
  ratio ← ddiv (ap_b0_vol_target (mc_allocation config)) qqq_sigma;
  let qqq_weight := dmin d1 ratio in
  let cash_weight := (d1 - qqq_weight)%dec in
  let weights := [("QQQ", qqq_weight); ("SOXX", d0); (mc_cash_symbol config, cash_weight)] in
  let expected_volatility := (qqq_weight * qqq_sigma)%dec in
  let diagnostics := PDict
    [("qqq_annualized_variance", PDecimal qqq_variance); ("qqq_annualized_volatility", PDecimal qqq_sigma);
     ("target_annualized_volatility", PDecimal (ap_b0_vol_target (mc_allocation config)));
     ("qqq_weight", PDecimal qqq_weight); ("cash_weight", PDecimal cash_weight)] in
  hash ← canonical_hash (PDict
    [("algorithm_version", PStr (mc_algorithm_version config)); ("config_manifest_hash", PStr config_manifest_hash);
     ("arm_kind", PStr "B0-VOL"); ("diagnostics", diagnostics)]);
  Ok {| ar_arm_kind := "B0-VOL"; ar_target_weights := weights; ar_unconstrained_weights := weights; ar_volatility_scale := d1;
        ar_raw_portfolio_annualized_volatility := dround PREC expected_volatility;
        ar_expected_annualized_volatility := dround PREC expected_volatility; ar_soxx_variance_contribution := d0;
        ar_diagnostics := diagnostics; ar_allocation_hash := hash |}.

(** ** [compute_current_weights] *)

Definition compute_current_weights (positions : pydict dec) (settled_cash_usd : dec) (unsettled_receivables midpoint_quotes : pydict dec)
    (config : Q1MathConfig) : res CurrentPortfolioWeights :=
  settled ← _non_negative settled_cash_usd;
  receivables ← mapM_res (λ kv : string * dec, _non_negative kv.2) unsettled_receivables;
  let unsettled := dsum receivables in
  values ← mapM_res (λ symbol,
             quantity ← _non_negative (weight_of positions symbol);
             if (quantity =? d0)%dec then Ok (symbol, d0)
             else match dget symbol midpoint_quotes with
                  | None => math_error "missing midpoint quote for held symbol"
                  | Some q => midpoint ← _positive q; Ok (symbol, quantity * midpoint)%dec
                  end) (risky_symbols config);
  raise_if (existsb (λ kv : string * dec, negb (kv.2 =? d0)%dec && negb (bool_decide (kv.1 ∈ risky_symbols config))) positions)
    Q1MathError "strategy arm contains symbols outside Q1 universe";;
  let nav := (settled + unsettled + dsum values.*2)%dec in
  raise_if (nav <=? d0)%dec Q1MathError "current NAV must be positive";;
  risky ← mapM_res (λ kv : string * dec, w ← ddiv kv.2 nav; Ok (kv.1, w)) values;
  cash ← ddiv (settled + unsettled)%dec nav;
  Ok {| cw_nav_usd := nav; cw_settled_cash_usd := settled; cw_unsettled_receivables_usd := unsettled;
        cw_weights := risky ++ [(mc_cash_symbol config, cash)] |}.

(** ** [apply_turnover_control] *)

Definition HALF : dec := Dec 5 (-1).

(** [Decimal("0.5") * sum(abs(right[symbol] - left[symbol]) for symbol in left)] *)
Definition _one_way_turnover (left right : pydict dec) : res dec :=
  moves ← mapM_res (λ kv : string * dec, r ← dindex kv.1 right; Ok (dabs (r - kv.2)%dec)) left;
  Ok (HALF * dsum moves)%dec.

Definition _normalized_weight_mapping (values : pydict dec) (symbols : list string) (config : Q1MathConfig) : res (pydict dec) :=
  raise_if (existsb (λ kv : string * dec, negb (bool_decide (kv.1 ∈ symbols)) && negb (kv.2 =? d0)%dec) values)
    Q1MathError "weights contain symbols outside Q1 universe";;
  normalized ← mapM_res (λ symbol, v ← _non_negative (weight_of values symbol); Ok (symbol, v)) symbols;
  let normalized := dict_of_pairs normalized in
  _validate_basic_weights PREC config normalized;;
  Ok normalized.

Definition trade_val (t : ProposedTrade) : pyval :=
  PDict [("symbol", PStr (pt_symbol t)); ("side", PStr (pt_side t)); ("weight_delta", PDecimal (pt_weight_delta t));
         ("notional_usd", PDecimal (pt_notional_usd t))].
Definition omitted_val (o : OmittedOrderDiagnostic) : pyval :=
  PDict [("symbol", PStr (om_symbol o)); ("side", PStr (om_side o)); ("proposed_notional_usd", PDecimal (om_proposed_notional_usd o));
         ("minimum_notional_usd", PDecimal (om_minimum_notional_usd o)); ("reason", PStr (om_reason o))].

Definition plus_items (symbols : list string) (weights : pydict dec) : res (list (string * dec)) :=
  mapM_res (λ symbol, w ← dindex symbol weights; Ok (symbol, dround PREC w)) symbols.

Definition _turnover_result `{Digest} (decision_kind : string) (proposed_turnover remaining alpha : dec)
    (current adjusted executable : pydict dec) (trades : list ProposedTrade) (omitted : list OmittedOrderDiagnostic)
    (config : Q1MathConfig) : res TurnoverResult :=
  let symbols := all_symbols config in
  adjusted_tuple ← plus_items symbols adjusted;
  executable_tuple ← plus_items symbols executable;
  executable_turnover ← _one_way_turnover current executable;
  hash ← canonical_hash (PDict
    [("algorithm_version", PStr (mc_algorithm_version config)); ("decision_kind", PStr decision_kind);
     ("proposed_one_way_turnover", PDecimal proposed_turnover); ("remaining_daily_capacity", PDecimal remaining);
     ("interpolation_alpha", PDecimal alpha); ("adjusted_target_weights", named_items adjusted_tuple);
     ("executable_target_weights", named_items executable_tuple); ("proposed_trades", PList (map trade_val trades));
     ("omitted_orders", PList (map omitted_val omitted))]);
  Ok {| tr_decision_kind := decision_kind; tr_proposed_one_way_turnover := dround PREC proposed_turnover;
        tr_remaining_daily_capacity := dround PREC remaining; tr_interpolation_alpha := dround PREC alpha;
        tr_adjusted_target_weights := adjusted_tuple; tr_executable_target_weights := executable_tuple;
        tr_executable_one_way_turnover := dround PREC executable_turnover; tr_proposed_trades := trades;
        tr_omitted_orders := omitted; tr_turnover_hash := hash |}.

(** The keyword arguments of [apply_turnover_control] other than the configuration. *)
Record TurnoverInputs := {
  ti_current_weights : pydict dec;
  ti_proposed_target_weights : pydict dec;
  ti_current_nav_usd : dec;
  ti_used_normal_turnover : dec;
  ti_emergency_reduction : bool;
  ti_bypass_normal_turnover_cap : bool;
}.

Definition interpolation (i : TurnoverInputs) (proposed_turnover remaining : dec) (config : Q1MathConfig) : res dec :=
  if ti_emergency_reduction i then
    raise_if (negb (tp_emergency_bypasses_turnover_cap (mc_turnover config))) Q1MathError "emergency turnover bypass is disabled";; Ok d1
  else if ti_bypass_normal_turnover_cap i then Ok (if (d0 <? proposed_turnover)%dec then d1 else d0)
  else if (proposed_turnover =? d0)%dec then Ok d0
  else if (remaining <? proposed_turnover)%dec then ddiv remaining proposed_turnover
  else Ok d1.

(** One iteration over the risky symbols: the executable weights, the trades and the omitted orders so far. *)
Definition trade_step (bypass_minimum : bool) (nav threshold : dec) (current adjusted : pydict dec)
    (acc : pydict dec * list ProposedTrade * list OmittedOrderDiagnostic) (symbol : string)
    : res (pydict dec * list ProposedTrade * list OmittedOrderDiagnostic) :=
  let '(executable, trades, omitted) := acc in
  a ← dindex symbol adjusted; c ← dindex symbol current;
  let delta := (a - c)%dec in
  if (delta =? d0)%dec then Ok acc
  else
    let side := if (d0 <? delta)%dec then "BUY" else "SELL" in
    let notional := (dabs delta * nav)%dec in
    if negb bypass_minimum && (notional <? threshold)%dec then
      Ok (executable, trades,
          omitted ++ [{| om_symbol := symbol; om_side := side; om_proposed_notional_usd := dround PREC notional;
                         om_minimum_notional_usd := dround PREC threshold; om_reason := "BELOW_MINIMUM_ORDER_NOTIONAL" |}])
    else
      Ok (dset symbol a executable,
          trades ++ [{| pt_symbol := symbol; pt_side := side; pt_weight_delta := dround PREC delta; pt_notional_usd := dround PREC notional |}],
          omitted).

Definition interpolate (symbols : list string) (alpha : dec) (current proposed : pydict dec) : res (pydict dec) :=
  l ← mapM_res (λ symbol, c ← dindex symbol current; p ← dindex symbol proposed; Ok (symbol, c + alpha * (p - c))%dec) symbols;
  Ok (dict_of_pairs l).

Definition apply_turnover_control `{Digest} (i : TurnoverInputs) (config : Q1MathConfig) : res TurnoverResult :=
  nav ← _positive (ti_current_nav_usd i);
  used ← _non_negative (ti_used_normal_turnover i);
  let symbols := all_symbols config in
  let t := mc_turnover config in
  current ← _normalized_weight_mapping (ti_current_weights i) symbols config;
  proposed ← _normalized_weight_mapping (ti_proposed_target_weights i) symbols config;
  increases ← mapM_res (λ symbol, p ← dindex symbol proposed; c ← dindex symbol current; Ok (c <? p)%dec) (risky_symbols config);
  raise_if (ti_emergency_reduction i && existsb id increases) Q1MathError "emergency turnover control accepts sell-only risky targets";;
  proposed_turnover ← _one_way_turnover current proposed;
  let remaining := dmax d0 (tp_normal_daily_one_way_cap t - used)%dec in
  if negb (ti_emergency_reduction i) && negb (ti_bypass_normal_turnover_cap i)
     && (proposed_turnover <? tp_no_trade_one_way_threshold t)%dec
  then _turnover_result "NO_TRADE_BELOW_BAND" proposed_turnover remaining d0 current current current [] [] config
  else
    alpha ← interpolation i proposed_turnover remaining config;
    adjusted ← interpolate symbols alpha current proposed;
    let threshold := dmax (tp_minimum_order_notional_usd t) (tp_minimum_order_nav_fraction t * nav)%dec in
    let bypass_minimum := ti_emergency_reduction i && tp_emergency_bypasses_minimum_order t in
    '(executable, trades, omitted) ← foldM (trade_step bypass_minimum nav threshold current adjusted) (current, [], []) (risky_symbols config);
    risky ← mapM_res (λ symbol, dindex symbol executable) (risky_symbols config);
    let executable := dset (mc_cash_symbol config) (d1 - dsum risky)%dec executable in
    _validate_basic_weights PREC config executable;;
    let decision_kind :=
      if ti_emergency_reduction i then "EMERGENCY_REDUCTION"
      else match trades with [] => "NO_EXECUTABLE_ORDERS" | _ => "NORMAL_REBALANCE" end in
    _turnover_result decision_kind proposed_turnover remaining alpha current adjusted executable trades omitted config.

(** ** Allocation: facts about the steps *)

#[local] Opaque ddiv_p dmul_p dadd_p dsub_p dsqrt_p dround.

(** What the allocator relies on: a valid configuration whose caps have no more digits than the context. *)
Record allocation_bounds (config : Q1MathConfig) : Prop := {
  ab_precision : 0 < cp_decimal_precision (mc_covariance config);
  ab_risky : mc_risky_symbols config = ("QQQ", "SOXX");
  ab_cash : mc_cash_symbol config = "USD_CASH";
  ab_allocation : valid_allocation (mc_allocation config);
  ab_qqq : repr (cp_decimal_precision (mc_covariance config)) (ap_qqq_max_weight (mc_allocation config));
  ab_soxx : repr (cp_decimal_precision (mc_covariance config)) (ap_soxx_max_weight (mc_allocation config));
}.

Lemma core_allocation_bounds : allocation_bounds core_config.
Proof. destruct core_config_valid as [_ _ _ _ [] _ ? _ _]. split; done || reflexivity. Qed.

Lemma dround_unit p d : 0 < p → (0 <= dval d <= 1)%Q → (0 <= dval (dround p d) <= 1)%Q.
Proof.
  intros Hp [H0 H1]. pose proof (dround_rounds p d Hp) as Hr. split; [by eapply rounds_nonneg|].
  rewrite <- dval_d1 in *. eapply rounds_le; [exact Hr|by apply repr_one, pow10_gt1|done].
Qed.

Section q1.
Context (config : Q1MathConfig).
Notation prec := (cp_decimal_precision (mc_covariance config)).
Notation caps := (mc_allocation config).
Hypothesis (Hb : allocation_bounds config).

Lemma q1_prec : 0 < prec.
Proof. apply Hb. Qed.
#[local] Hint Resolve q1_prec : core.

Lemma basic_weights_ok p weights :
  _validate_basic_weights p config weights = Ok () →
  Forall (λ v, 0 <= dval v)%Q weights.*2
  ∧ (dval (dabs_p p (dsub_p p (sum_p p weights.*2) d1)) <= dval (ap_weight_sum_tolerance caps))%Q.
Proof.
  unfold _validate_basic_weights. intros H. inv_ok. split; [|by dec_to_Q].
  match goal with H : existsb _ _ = false |- _ => rename H into He end.
  apply Forall_forall. intros v Hv. destruct (dltb v d0) eqn:E; [|by dec_to_Q].
  apply not_true_iff_false in He. destruct He. apply existsb_exists. by exists v.
Qed.

Lemma unit_scale (a b : dec) r :
  (0 <= dval a)%Q → (if (a <? b)%dec then ddiv_p prec a b else Ok d1) = Ok r → (0 <= dval r <= 1)%Q.
Proof.
  intros Ha. destruct (a <? b)%dec eqn:E; dec_to_Q.
  - intros Hr. by apply (ddiv_unit prec _ _ _ q1_prec Hr Ha), Qlt_le_weak.
  - intros [= <-]. rewrite dval_d1. lra.
Qed.

(** A weight under a cap: no more than the weight, and no more than the cap. *)
Lemma capped_weight raw scale cap :
  repr prec raw → repr prec cap → (0 <= dval raw)%Q → (0 <= dval scale <= 1)%Q → (0 <= dval cap)%Q →
  let w := dmin (dmul_p prec raw scale) cap in
  repr prec w ∧ (0 <= dval w)%Q ∧ (dval w <= dval raw)%Q ∧ (dval w <= dval cap)%Q.
Proof.
  intros Hr Hc H0 [Hs0 Hs1] Hcap. cbv zeta. split; [apply repr_min; [by apply dmul_rounds|done]|].
  pose proof (dmul_le_factor prec raw scale q1_prec Hr H0 Hs1). pose proof (dmul_p_nonneg prec raw scale q1_prec H0 Hs0).
  destruct (dmin_spec (dmul_p prec raw scale) cap) as [[-> ?]|[-> ?]]; lra.
Qed.

(** What the constraints make of a weight: representable, not negative, within its cap and not above the raw weight. *)
Definition reduced (raw cap w : dec) : Prop :=
  repr prec w ∧ (0 <= dval w)%Q ∧ (dval w <= dval raw)%Q ∧ (dval w <= dval cap)%Q.

Lemma reduced_scale raw cap w s : reduced raw cap w → (0 <= dval s <= 1)%Q → reduced raw cap (dmul_p prec w s).
Proof.
  intros (Hr & H0 & H1 & H2) [Hs0 Hs1]. pose proof (dmul_le_factor prec w s q1_prec Hr H0 Hs1).
  split; [by apply dmul_rounds|]. split; [by apply dmul_p_nonneg|]. lra.
Qed.

Lemma constrain_reduces raw_qqq raw_soxx cov scale vol qqq soxx :
  repr prec raw_qqq → repr prec raw_soxx → (0 <= dval raw_qqq)%Q → (0 <= dval raw_soxx)%Q →
  constrain config raw_qqq raw_soxx cov = Ok (scale, vol, qqq, soxx) →
  (0 <= dval scale <= 1)%Q ∧ reduced raw_qqq (ap_qqq_max_weight caps) qqq ∧ reduced raw_soxx (ap_soxx_max_weight caps) soxx.
Proof.
  intros Hrq Hrs H0q H0s. unfold constrain. cbv zeta. intros (rv & _ & H)%bind_Ok_inv. apply bind_Ok_inv in H as (v & _ & H).
  apply bind_Ok_inv in H as (sc & Hsc & H). destruct (ab_allocation _ Hb) as [_ Ht [Hg _] [Hq _] [Hs _] _ _ _ _ _].
  apply unit_scale in Hsc; [|by apply Qlt_le_weak].
  pose proof (capped_weight raw_qqq sc (ap_qqq_max_weight caps) Hrq (ab_qqq _ Hb) H0q Hsc Hq) as Cq.
  pose proof (capped_weight raw_soxx sc (ap_soxx_max_weight caps) Hrs (ab_soxx _ Hb) H0s Hsc Hs) as Cs. cbv zeta in Cq, Cs.
  destruct (ap_max_gross_risky_weight caps <? _)%dec eqn:Eg.
  - apply bind_Ok_inv in H as (gs & Hgs & H). injection H as <- <- <- <-.
    assert (0 <= dval gs <= 1)%Q as Hgs1 by (apply dltb_lt in Eg; apply (ddiv_unit prec _ _ _ q1_prec Hgs Hg), Qlt_le_weak, Eg).
    split; [done|]. split; by apply reduced_scale.
  - injection H as <- <- <- <-. done.
Qed.

Lemma raw_weights_ok s rq rs :
  Forall (λ kv : string * dec, 0 <= dval kv.2)%Q (sg_raw_scores s) → (0 <= dval (sg_confidence s))%Q →
  raw_weights config s = Ok (rq, rs) → (repr prec rq ∧ 0 <= dval rq)%Q ∧ (repr prec rs ∧ 0 <= dval rs)%Q.
Proof.
  intros Hsc Hconf. unfold raw_weights. intros (q & Hq & H)%bind_Ok_inv. apply bind_Ok_inv in H as (x & Hx & H).
  assert (∀ sym v, score_for s sym = Ok v → 0 <= dval v)%Q as Hpos.
  { intros sym v. unfold score_for. clear -Hsc. induction Hsc as [|[k w] l Hw _ IH]; cbn; [done|].
    destruct (decide _); [|done]. by intros [= <-]. }
  destruct (_ && _).
  { injection H as <- <-. rewrite dval_d0. split; split; lra || by apply repr_zero. }
  inv_ok.
  match goal with H : (sum_p _ _ <=? d0)%dec = false |- _ => dec_to_Q; rename H into Hsum end.
  repeat match goal with E : dsqrt_p _ _ = Ok _ |- _ => apply dsqrt_nonneg in E; [|done] end.
  repeat match goal with E : ddiv_p _ _ _ = Ok _ |- _ => apply ddiv_nonneg in E; [|done|by eapply Hpos|done] end.
  match goal with E : mapM_res _ _ = Ok _ |- _ => unfold risky_symbols in E; rewrite (ab_risky _ Hb) in E; cbn [fst snd mapM_res] in E end.
  inv_ok. repeat match goal with E : dindex _ _ = Ok _ |- _ => cbn in E; injection E as <- end.
  assert (∀ w q', (0 <= dval w)%Q → ddiv_p prec (dmul_p prec (sg_confidence s) w) (sum_p prec [x2; x5]) = Ok q' → repr prec q' ∧ 0 <= dval q')%Q as Hdiv.
  { intros w q' Hw Hq'. split; [by apply (ddiv_repr prec _ _ _ q1_prec Hq')|].
    apply (ddiv_nonneg prec _ _ _ q1_prec Hq'); [by apply dmul_p_nonneg|by apply Qlt_le_weak]. }
  split; match goal with E : ddiv_p _ _ _ = Ok ?w |- repr prec ?w ∧ _ => eapply Hdiv; [|exact E]; assumption end.
Qed.

(** The share of SOXX in the variance, after its cap, is within the cap and its tolerance. *)
Lemma contribution_repr qqq soxx cov k : _soxx_risk_contribution prec qqq soxx cov = Ok k → repr prec k.
Proof.
  unfold _soxx_risk_contribution. intros (v & _ & H)%bind_Ok_inv. destruct (_ || _).
  - injection H as <-. by apply repr_zero.
  - apply bind_Ok_inv in H as (sq & _ & H). apply bind_Ok_inv in H as (ss & _ & H). by apply (ddiv_repr prec _ _ _ q1_prec H).
Qed.

Definition contribution_limit : dec :=
  dadd_p prec (ap_soxx_max_variance_contribution caps) (ap_risk_contribution_tolerance caps).

Lemma contribution_limit_nonneg : (0 <= dval contribution_limit)%Q.
Proof.
  destruct (ab_allocation _ Hb) as [_ _ _ _ _ [H0 _] _ _ Ht _]. apply dadd_p_nonneg; [done..|]. by apply Qlt_le_weak.
Qed.

Lemma bisect_repr qqq cov l bounds r :
  foldM (bisect_step prec config qqq cov) bounds l = Ok r → repr prec bounds.1 → repr prec r.1.
Proof.
  intros Hf H0. revert H0 Hf. apply (foldM_invariant (λ b : dec * dec, repr prec b.1)).
  intros [low high] i acc' _ Hl. unfold bisect_step. intros (m & Hm & H)%bind_Ok_inv. apply bind_Ok_inv in H as (k & _ & H).
  destruct (_ <=? _)%dec; injection H as <-; [|done]. by apply (ddiv_repr prec _ _ _ q1_prec Hm).
Qed.

Lemma cap_soxx_ok qqq soxx cov w :
  repr prec soxx → _cap_soxx_risk_contribution prec config qqq soxx cov = Ok w →
  repr prec w ∧ ∀ k, _soxx_risk_contribution prec qqq w cov = Ok k → (dval k <= dval contribution_limit)%Q.
Proof.
  intros Hr. unfold _cap_soxx_risk_contribution. destruct (soxx =? d0)%dec eqn:E0.
  { intros [= <-]. split; [by apply repr_zero|]. intros k. unfold _soxx_risk_contribution. intros (v & _ & H)%bind_Ok_inv.
    rewrite deqb_refl, orb_true_r in H. injection H as <-. rewrite dval_d0. apply contribution_limit_nonneg. }
  cbv zeta. fold contribution_limit. intros (current & Hc & H)%bind_Ok_inv.
  destruct (current <=? contribution_limit)%dec eqn:El.
  - injection H as <-. split; [done|]. intros k Hk. rewrite Hc in Hk. injection Hk as <-. by apply dleb_le.
  - apply bind_Ok_inv in H as ([low high] & Hlow & H). apply bind_Ok_inv in H as (final & Hf & H).
    apply bind_Ok_inv in H as (u & Hu & H). injection H as <-. apply raise_if_Ok_inv, dltb_ge in Hu.
    split; [apply (bisect_repr _ _ _ _ _ Hlow); by apply repr_zero|].
    intros k Hk. rewrite Hf in Hk. injection Hk as <-. done.
Qed.
End q1.

(** C18: From a computed signal the allocator never goes short, never exceeds the single caps or the gross cap, sums to one
    within the configured tolerance, keeps the SOXX share of the variance within its cap and tolerance, and scales for
    volatility only downwards: the QQQ weight is never above the unconstrained one. *)
Theorem q1_allocation_safe `{Digest} `{DecimalMath} l i config s r :
  signal_bounds config → allocation_bounds config →
  (0 <= dval (sp_market_gate_min (mc_signal config)))%Q → (0 <= dval (sp_confidence_min (mc_signal config)))%Q →
  compute_q1_signal l i config = Ok s → allocate_q1 s config = Ok r →
  let prec := cp_decimal_precision (mc_covariance config) in
  let caps := mc_allocation config in
  ∃ q x c u, ar_target_weights r = [("QQQ", q); ("SOXX", x); ("USD_CASH", c)]
    ∧ _lookup_weight (ar_unconstrained_weights r) "QQQ" = Ok u ∧ (0 <= dval q <= dval u)%Q
    ∧ (dval q <= dval (ap_qqq_max_weight caps))%Q ∧ (0 <= dval x <= dval (ap_soxx_max_weight caps))%Q ∧ (0 <= dval c)%Q
    ∧ (dval (sum_p prec [q; x]) <= dval (ap_max_gross_risky_weight caps))%Q
    ∧ (dval (dabs_p prec (dsub_p prec (sum_p prec [q; x; c]) d1)) <= dval (ap_weight_sum_tolerance caps))%Q
    ∧ (dval (ar_soxx_variance_contribution r) <= dval (contribution_limit config))%Q
    ∧ (0 <= dval (ar_volatility_scale r) <= 1)%Q.
Proof.
  intros Hsb Hab Hg Hcm Hs. apply (signal_bounded _ _ _ _ Hsb Hg) in Hs as (_ & _ & _ & [Hconf _] & _ & Hscores).
  assert (0 <= dval (sg_confidence s))%Q as Hc0 by (eapply Qle_trans; eassumption). clear Hconf Hcm Hg Hsb.
  pose proof (ab_precision _ Hab) as Hp. unfold allocate_q1. cbv zeta.
  intros ([rq rs] & Hraw & H1)%bind_Ok_inv. destruct (raw_weights_ok _ Hab _ _ _ Hscores Hc0 Hraw) as [[Rq Pq] [Rs Ps]].
  apply bind_Ok_inv in H1 as ([[[scale vol] qqq] soxx] & Hcon & H1).
  destruct (constrain_reduces _ Hab _ _ _ _ _ _ _ Rq Rs Pq Ps Hcon) as (Hscale & (Rqqq & Pqqq & Hle & Hcap) & (Rsoxx & _)).
  apply bind_Ok_inv in H1 as (x & Hx & H1). destruct (cap_soxx_ok _ Hab _ _ _ _ Rsoxx Hx) as [Rx Hk].
  apply bind_Ok_inv in H1 as (fv & _ & H1). apply bind_Ok_inv in H1 as (ev & _ & H1).
  apply bind_Ok_inv in H1 as (k & Hkk & H1). specialize (Hk _ Hkk). pose proof (contribution_repr _ Hab _ _ _ _ Hkk) as Rk.
  apply bind_Ok_inv in H1 as (u & Hval & H1). destruct u.
  unfold all_symbols, risky_symbols in *. rewrite (ab_risky _ Hab), (ab_cash _ Hab) in *. cbn [dset fst snd app] in Hval.
  unfold _validate_q1_weights in Hval. apply bind_Ok_inv in Hval as (u & Hbasic & Hval). destruct u.
  apply basic_weights_ok in Hbasic as [Hpos Htot].
  unfold risky_symbols in Hval. rewrite (ab_risky _ Hab) in Hval. cbn in Hval. inv_ok.
  match goal with E : mapM_res _ _ = Ok _ |- _ => cbn in E; injection E as <- end.
  eexists _, _, _, _. cbn [ar_target_weights ar_unconstrained_weights ar_soxx_variance_contribution ar_volatility_scale].
  rewrite (dround_exact _ qqq), (dround_exact _ x), (dround_exact _ (dsub_p _ _ _)), (dround_exact _ rq), (dround_exact _ k) by (done || by apply dsub_rounds).
  split; [reflexivity|]. split; [reflexivity|].
  cbn in Hpos, Htot. rewrite !List.Forall_cons_iff in Hpos. destruct Hpos as (H0q & H0x & H0c & _).
  match goal with H : (ap_max_gross_risky_weight _ <? _)%dec = false |- _ => apply dltb_ge in H; rename H into Hgross end.
  match goal with H : (ap_soxx_max_weight _ <? _)%dec = false |- _ => apply dltb_ge in H; rename H into Hsoxx end.
  split; [exact (conj H0q Hle)|]. split; [exact Hcap|]. split; [exact (conj H0x Hsoxx)|]. split; [exact H0c|].
  split; [exact Hgross|]. split; [exact Htot|]. split; [exact Hk|]. by apply dround_unit.
Qed.

(** ** A concrete allocation *)

#[local] Notation small_signal := (compute_q1_signal (H := rolling_digest) small_bars small_inputs small_config).
#[local] Notation small_allocation := (s ← small_signal; allocate_q1 (H := rolling_digest) s small_config).

Lemma small_allocation_bounds : allocation_bounds small_config.
Proof. destruct core_config_valid as [_ _ _ _ [] _ ? _ _]. split; done || reflexivity. Qed.

Lemma small_allocation_runs :
  (λ r, ar_target_weights r) <$> small_allocation
  = Ok [("QQQ", Dec 8 (-1)); ("SOXX", Dec 11640951 (-9)); ("USD_CASH", Dec 18835905 (-8))].
Proof. vm_compute. reflexivity. Qed.

Lemma q1_allocation_safe_witness :
  ∃ s r, small_signal = Ok s ∧ allocate_q1 (H := rolling_digest) s small_config = Ok r
    ∧ (dval (ar_soxx_variance_contribution r) <= dval (contribution_limit small_config))%Q.
Proof.
  assert (∃ r, small_allocation = Ok r) as [r Hr] by (apply is_ok_ex; vm_compute; reflexivity).
  apply bind_Ok_inv in Hr as (s & Hs & Hr). exists s, r. refine (conj Hs (conj Hr _)).
  destruct (q1_allocation_safe (H := rolling_digest) small_bars small_inputs small_config s r small_signal_bounds
              small_allocation_bounds ltac:(discriminate) ltac:(discriminate) Hs Hr) as (q & x & c & u & _ & _ & _ & _ & _ & _ & _ & _ & Hk & _).
  exact Hk.
Defined.
