(* ===== verification/Turnover.v ===== *)
(** * Turnover control: what it guarantees ([quant/allocator.py], [apply_turnover_control])

    The trades and omissions of a run, the emergency case, and the daily turnover cap with an explicit bound on what
    rounding and the tolerance on the sum of weights can add. *)
From Stdlib Require Import ZArith Lia Ascii String QArith Qabs Lqa.
From stdpp Require Import base list strings numbers.
From S2P Require Import Prelude PyDecimal Hashing DecimalMath Domain QuantConfig Covariance Signals Allocation.
Set Default Goal Selector "!".
Open Scope Z_scope.

#[local] Opaque ddiv_p dmul_p dadd_p dsub_p dabs_p dround.

(** ** Rounding errors of the default context on numbers up to ten *)

Definition ulp : Q := q10 (-26).
Definition near (x : Q) (d : dec) : Prop := (x - ulp <= dval d <= x + ulp)%Q.

Lemma ulp_pos : (0 < ulp)%Q.
Proof. apply q10_pos. Qed.

Lemma ulp_small : (100 * ulp <= 1)%Q.
Proof. vm_compute. discriminate. Qed.

Lemma round_near x d : rounds_to PREC x d → (-10 <= x <= 10)%Q → near x d.
Proof.
  intros Hr Hx. assert (Qabs (dval d - x) <= ulp)%Q as H.
  { apply (rounds_error PREC); [done|done|]. apply Qabs_Qle_condition.
    assert (inject_Z (10 ^ (PREC - 1)) * q10 (-26) == 10)%Q as -> by reflexivity. done. }
  apply Qabs_Qle_condition in H. unfold near. lra.
Qed.

Lemma add_near a b : (-10 <= dval a + dval b <= 10)%Q → near (dval a + dval b) (a + b)%dec.
Proof. apply round_near. by apply dadd_rounds. Qed.
Lemma add0_near a : (-10 <= dval a <= 10)%Q → near (dval a) (d0 + a)%dec.
Proof.
  apply round_near. eapply rounds_to_proper; [|reflexivity|by apply dadd_rounds]. pose proof dval_d0 as E. lra.
Qed.
Lemma sub_near a b : (-10 <= dval a - dval b <= 10)%Q → near (dval a - dval b) (a - b)%dec.
Proof. apply round_near. by apply dsub_rounds. Qed.
Lemma sub1_near a : (-10 <= dval a - 1 <= 10)%Q → near (dval a - 1) (a - d1)%dec.
Proof.
  apply round_near. eapply rounds_to_proper; [|reflexivity|by apply dsub_rounds]. pose proof dval_d1 as E. lra.
Qed.
Lemma half_near a : (-10 <= dval a <= 10)%Q → near ((1 # 2) * dval a) (HALF * a)%dec.
Proof.
  intros H. apply round_near; [|lra]. eapply rounds_to_proper; [|reflexivity|by apply dmul_rounds].
  assert (dval HALF == 1 # 2)%Q as E by reflexivity. by rewrite E.
Qed.
Lemma one_sub_near a : (-10 <= 1 - dval a <= 10)%Q → near (1 - dval a) (d1 - a)%dec.
Proof.
  apply round_near. eapply rounds_to_proper; [|reflexivity|by apply dsub_rounds]. pose proof dval_d1 as E. lra.
Qed.
Lemma mul_near a b : (-10 <= dval a * dval b <= 10)%Q → near (dval a * dval b) (a * b)%dec.
Proof. apply round_near. by apply dmul_rounds. Qed.

Lemma abs_near a : (-10 <= dval a <= 10)%Q → near (Qabs (dval a)) (dabs a).
Proof.
  intros H. apply round_near; [by apply dabs_rounds|]. split; [|by apply Qabs_Qle_condition].
  pose proof (Qabs_nonneg (dval a)). lra.
Qed.

(** ** The shape of a run *)

Section control.
Context (config : Q1MathConfig).
Notation tolerance := (dval (ap_weight_sum_tolerance (mc_allocation config))).

(** What turnover control relies on. *)
Record control_bounds : Prop := {
  tb_risky : mc_risky_symbols config = ("QQQ", "SOXX");
  tb_cash : mc_cash_symbol config = "USD_CASH";
  tb_turnover : valid_turnover (mc_turnover config);
  tb_tolerance : (0 <= tolerance <= 1)%Q;
}.
Hypothesis (Hc : control_bounds).

Definition weights3 (q x c : dec) : pydict dec := [("QQQ", q); ("SOXX", x); ("USD_CASH", c)].

Lemma control_symbols : all_symbols config = ["QQQ"; "SOXX"; "USD_CASH"].
Proof. unfold all_symbols, risky_symbols. by rewrite (tb_risky Hc), (tb_cash Hc). Qed.
Lemma control_risky : risky_symbols config = ["QQQ"; "SOXX"].
Proof. unfold risky_symbols. by rewrite (tb_risky Hc). Qed.

(** Three non-negative weights whose sum, as the code computes it, is close to one. *)
Record accepted (q x c : dec) : Prop := {
  ac_q : (0 <= dval q)%Q;
  ac_x : (0 <= dval x)%Q;
  ac_c : (0 <= dval c)%Q;
  ac_sum : (dval (dabs (sum_p PREC [q; x; c] - d1)%dec) <= tolerance)%Q;
}.

Lemma validated_accepted q x c : _validate_basic_weights PREC config (weights3 q x c) = Ok () → accepted q x c.
Proof.
  intros [Hpos Hs]%basic_weights_ok. cbn in Hpos. rewrite !List.Forall_cons_iff in Hpos. destruct Hpos as (? & ? & ? & _). by split.
Qed.

Lemma normalized_shape values n :
  _normalized_weight_mapping values (all_symbols config) config = Ok n →
  ∃ q x c, n = weights3 q x c ∧ accepted q x c
    ∧ q = weight_of values "QQQ" ∧ x = weight_of values "SOXX" ∧ c = weight_of values "USD_CASH".
Proof.
  unfold _normalized_weight_mapping. rewrite control_symbols. intros (u & _ & H)%bind_Ok_inv.
  apply bind_Ok_inv in H as (l & Hl & H). cbv zeta in H. apply bind_Ok_inv in H as (u' & Hv & H). injection H as <-. destruct u'.
  cbn [mapM_res] in Hl. unfold _non_negative in Hl. inv_ok.
  eexists _, _, _. split; [reflexivity|]. split; [|done]. by apply validated_accepted.
Qed.

(** What one iteration makes of a symbol with current weight [c] and adjusted weight [a]: nothing, an omitted order, or a
    trade that moves the symbol to its adjusted weight. *)
Inductive outcome (bypass : bool) (nav threshold : dec) (symbol : string) (c a : dec)
    : dec → list ProposedTrade → list OmittedOrderDiagnostic → Prop :=
  | outcome_none : (a - c =? d0)%dec = true → outcome bypass nav threshold symbol c a c [] []
  | outcome_omitted side :
      (a - c =? d0)%dec = false → side = (if (d0 <? a - c)%dec then "BUY" else "SELL") →
      bypass = false → (dabs (a - c) * nav <? threshold)%dec = true →
      outcome bypass nav threshold symbol c a c []
        [{| om_symbol := symbol; om_side := side; om_proposed_notional_usd := dround PREC (dabs (a - c) * nav)%dec;
            om_minimum_notional_usd := dround PREC threshold; om_reason := "BELOW_MINIMUM_ORDER_NOTIONAL" |}]
  | outcome_trade side :
      (a - c =? d0)%dec = false → side = (if (d0 <? a - c)%dec then "BUY" else "SELL") →
      bypass = true ∨ (dabs (a - c) * nav <? threshold)%dec = false →
      outcome bypass nav threshold symbol c a a
        [{| pt_symbol := symbol; pt_side := side; pt_weight_delta := dround PREC (a - c)%dec;
            pt_notional_usd := dround PREC (dabs (a - c) * nav)%dec |}] [].

Lemma trade_step_outcome bypass nav threshold current adjusted executable trades omitted symbol c a acc' :
  dget symbol adjusted = Some a → dget symbol current = Some c → dget symbol executable = Some c →
  trade_step bypass nav threshold current adjusted (executable, trades, omitted) symbol = Ok acc' →
  ∃ e t o, outcome bypass nav threshold symbol c a e t o
    ∧ (acc' = (executable, trades ++ t, omitted ++ o) ∧ e = c ∨ acc' = (dset symbol e executable, trades ++ t, omitted ++ o)).
Proof.
  intros Ha Hcur Hex. unfold trade_step, dindex. rewrite Ha, Hcur. cbn [mbind res_bind]. cbv zeta.
  destruct (a - c =? d0)%dec eqn:Ez.
  { intros [= <-]. exists c, [], []. rewrite !app_nil_r. split; [by apply outcome_none|by left]. }
  destruct (negb bypass && _) eqn:Eb; intros [= <-].
  - apply andb_true_iff in Eb as [Eb Et]. apply negb_true_iff in Eb.
    eexists c, [], [_]. rewrite app_nil_r. split; [by eapply outcome_omitted|by left].
  - eexists a, [_], []. rewrite app_nil_r. split; [|by right]. eapply outcome_trade; [done|done|].
    destruct bypass; [by left|right]. by cbn in Eb.
Qed.

Lemma trades_shape bypass nav threshold cq cx cc aq ax ac executable trades omitted :
  foldM (trade_step bypass nav threshold (weights3 cq cx cc) (weights3 aq ax ac)) (weights3 cq cx cc, [], []) ["QQQ"; "SOXX"]
  = Ok (executable, trades, omitted) →
  ∃ eq ex tq tx oq ox, executable = weights3 eq ex cc ∧ trades = tq ++ tx ∧ omitted = oq ++ ox
    ∧ outcome bypass nav threshold "QQQ" cq aq eq tq oq ∧ outcome bypass nav threshold "SOXX" cx ax ex tx ox.
Proof.
  cbn [foldM]. intros (acc1 & H1 & H)%bind_Ok_inv. apply bind_Ok_inv in H as (acc2 & H2 & [= ->]).
  apply (trade_step_outcome _ _ _ _ _ _ _ _ _ cq aq) in H1 as (eq & tq & oq & Oq & Hacc); [|done..].
  assert (acc1 = (weights3 eq cx cc, tq, oq)) as ->.
  { destruct Hacc as [[-> ->]| ->]; done. }
  apply (trade_step_outcome _ _ _ _ _ _ _ _ _ cx ax) in H2 as (ex & tx & ox & Ox & Hacc2); [|done..].
  exists eq, ex, tq, tx, oq, ox. destruct Hacc2 as [[E ->]|E]; injection E as -> -> ->; done.
Qed.

Definition decision_kind_of (emergency : bool) (trades : list ProposedTrade) : string :=
  if emergency then "EMERGENCY_REDUCTION" else match trades with [] => "NO_EXECUTABLE_ORDERS" | _ => "NORMAL_REBALANCE" end.

(** A run that gets past the checks: the band, or the interpolation and the trades. *)
Lemma control_inv `{Digest} i r :
  apply_turnover_control i config = Ok r →
  ∃ cq cx cc pq px pc T,
    let current := weights3 cq cx cc in
    let remaining := dmax d0 (tp_normal_daily_one_way_cap (mc_turnover config) - ti_used_normal_turnover i)%dec in
    let banded := negb (ti_emergency_reduction i) && negb (ti_bypass_normal_turnover_cap i)
                  && (T <? tp_no_trade_one_way_threshold (mc_turnover config))%dec in
    let threshold := dmax (tp_minimum_order_notional_usd (mc_turnover config))
                       (tp_minimum_order_nav_fraction (mc_turnover config) * ti_current_nav_usd i)%dec in
    let bypass := ti_emergency_reduction i && tp_emergency_bypasses_minimum_order (mc_turnover config) in
    accepted cq cx cc ∧ accepted pq px pc
    ∧ cq = weight_of (ti_current_weights i) "QQQ" ∧ cx = weight_of (ti_current_weights i) "SOXX"
    ∧ (0 < dval (ti_current_nav_usd i))%Q
    ∧ (ti_emergency_reduction i = true → (dval pq <= dval cq)%Q ∧ (dval px <= dval cx)%Q)
    ∧ _one_way_turnover current (weights3 pq px pc) = Ok T
    ∧ ((banded = true ∧ _turnover_result "NO_TRADE_BELOW_BAND" T remaining d0 current current current [] [] config = Ok r)
       ∨ (banded = false ∧ ∃ alpha eq ex tq tx oq ox,
            let aq := (cq + alpha * (pq - cq))%dec in
            let ax := (cx + alpha * (px - cx))%dec in
            interpolation i T remaining config = Ok alpha
            ∧ outcome bypass (ti_current_nav_usd i) threshold "QQQ" cq aq eq tq oq
            ∧ outcome bypass (ti_current_nav_usd i) threshold "SOXX" cx ax ex tx ox
            ∧ accepted eq ex (d1 - dsum [eq; ex])%dec
            ∧ _turnover_result (decision_kind_of (ti_emergency_reduction i) (tq ++ tx)) T remaining alpha current
                (weights3 aq ax (cc + alpha * (pc - cc))%dec) (weights3 eq ex (d1 - dsum [eq; ex])%dec) (tq ++ tx) (oq ++ ox) config
              = Ok r)).
Proof.
  unfold apply_turnover_control. cbv zeta. rewrite control_risky. intros (nav & Hnav & H1)%bind_Ok_inv.
  apply bind_Ok_inv in H1 as (used & Hused & H1). unfold _positive in Hnav. unfold _non_negative in Hused.
  apply bind_Ok_inv in Hnav as (u & Hpos & [= <-]). apply bind_Ok_inv in Hused as (u' & _ & [= <-]).
  apply raise_if_Ok_inv, dleb_gt in Hpos. rewrite dval_d0 in Hpos.
  apply bind_Ok_inv in H1 as (current & Hcur & H1). apply normalized_shape in Hcur as (cq & cx & cc & -> & Ac & Ecq & Ecx & _).
  apply bind_Ok_inv in H1 as (proposed & Hprop & H1). apply normalized_shape in Hprop as (pq & px & pc & -> & Ap & _).
  apply bind_Ok_inv in H1 as (incs & Hincs & H1). apply bind_Ok_inv in H1 as (u2 & Hem & H1). apply raise_if_Ok_inv in Hem.
  cbn in Hincs. injection Hincs as <-. apply bind_Ok_inv in H1 as (T & HT & H1).
  exists cq, cx, cc, pq, px, pc, T. do 5 (split; [done|]). split.
  { intros E. rewrite E in Hem. cbn in Hem. apply orb_false_iff in Hem as [Hq [Hx _]%orb_false_iff]. split; by apply dltb_ge. }
  split; [exact HT|]. destruct (negb _ && negb _ && _) eqn:Eband; [left; done|right]. split; [done|].
  apply bind_Ok_inv in H1 as (alpha & Ha & H1). apply bind_Ok_inv in H1 as (adjusted & Hadj & H1).
  unfold interpolate in Hadj. rewrite control_symbols in Hadj. cbn in Hadj. injection Hadj as <-.
  apply bind_Ok_inv in H1 as ([[executable trades] omitted] & Hf & H1).
  apply trades_shape in Hf as (eq & ex & tq & tx & oq & ox & -> & -> & -> & Oq & Ox).
  apply bind_Ok_inv in H1 as (risky & Hrisky & H1). cbn in Hrisky. injection Hrisky as <-. rewrite (tb_cash Hc) in H1.
  apply bind_Ok_inv in H1 as (u3 & Hv & H1). destruct u3. apply validated_accepted in Hv.
  exists alpha, eq, ex, tq, tx, oq, ox. do 4 (split; [done|]). exact H1.
Qed.

(** ** Weights in numbers *)

Lemma sum3 a b c : sum_p PREC [a; b; c] = (d0 + a + b + c)%dec.
Proof. done. Qed.

(** Each accepted weight is below three. *)
Lemma sum_exceeds a b M : repr PREC M → (0 <= dval M)%Q → (0 <= dval a)%Q → (0 <= dval b)%Q →
  (dval M <= dval a)%Q ∨ (dval M <= dval b)%Q → (dval M <= dval (a + b)%dec)%Q.
Proof. intros HM H0 Ha Hb H. eapply rounds_ge; [by apply dadd_rounds|done|]. destruct H; lra. Qed.

Definition THREE : dec := Dec 3 0.
Lemma dval_three : (dval THREE == 3)%Q.
Proof. reflexivity. Qed.

Lemma accepted_total q x c : accepted q x c → (dval (sum_p PREC [q; x; c]) < 3)%Q.
Proof.
  intros [Hq Hx Hcc Hs]. destruct (Qlt_le_dec (dval (sum_p PREC [q; x; c])) 3) as [?|H3]; [done|]. exfalso.
  assert (dval (Dec 2 0) <= dval (sum_p PREC [q; x; c] - d1)%dec)%Q as H2.
  { eapply rounds_ge; [by apply dsub_rounds|done|]. rewrite dval_d1. change (dval (Dec 2 0)) with (2 # 1)%Q. lra. }
  change (dval (Dec 2 0)) with (2 # 1)%Q in H2.
  assert (dval (Dec 2 0) <= dval (dabs (sum_p PREC [q; x; c] - d1)%dec))%Q as H4.
  { eapply rounds_ge; [by apply dabs_rounds|done|]. change (dval (Dec 2 0)) with (2 # 1)%Q. rewrite Qabs_pos by lra. done. }
  change (dval (Dec 2 0)) with (2 # 1)%Q in H4. pose proof (tb_tolerance Hc). lra.
Qed.

Lemma accepted_small q x c : accepted q x c → (0 <= dval q <= 3)%Q ∧ (0 <= dval x <= 3)%Q ∧ (0 <= dval c <= 3)%Q.
Proof.
  intros Ha. pose proof (accepted_total _ _ _ Ha) as Ht. destruct Ha as [Hq Hx Hcc _]. rewrite sum3 in Ht.
  assert (0 <= dval d0)%Q as H0 by (rewrite dval_d0; apply Qle_refl).
  assert (0 <= dval THREE)%Q as H03 by done.
  pose proof (dadd_p_nonneg PREC d0 q prec_pos H0 Hq) as N1. fold (d0 + q)%dec in N1.
  pose proof (dadd_p_nonneg PREC _ x prec_pos N1 Hx) as N2. fold (d0 + q + x)%dec in N2.
  assert (∀ v, (dval THREE <= dval v → dval THREE <= dval (d0 + q + x + c)%dec) → dval v <= 3)%Q as Hle.
  { intros v H. destruct (Qlt_le_dec 3 (dval v)) as [H'|]; [|done]. apply Qlt_le_weak in H'. rewrite <- dval_three in H'.
    specialize (H H'). rewrite dval_three in H. exfalso. lra. }
  repeat split; try done; apply Hle; intros H.
  - apply sum_exceeds; [done..|left]. apply sum_exceeds; [done..|left]. apply sum_exceeds; [done..|by right].
  - apply sum_exceeds; [done..|left]. apply sum_exceeds; [done..|by right].
  - apply sum_exceeds; [done..|by right].
Qed.

(** The exact sum of accepted weights is one up to the tolerance and five units. *)
Lemma accepted_sum q x c : accepted q x c → (- (tolerance + 5 * ulp) <= dval q + dval x + dval c - 1 <= tolerance + 5 * ulp)%Q.
Proof.
  intros Ha. destruct (accepted_small _ _ _ Ha) as (Sq & Sx & Sc). destruct Ha as [_ _ _ Hs]. rewrite sum3 in Hs.
  pose proof ulp_pos as Hu. pose proof ulp_small as Hu1.
  pose proof (add0_near q) as N1. unfold near in N1. destruct N1 as [L1 U1]; [lra|].
  pose proof (add_near (d0 + q)%dec x) as N2. unfold near in N2. destruct N2 as [L2 U2]; [lra|].
  pose proof (add_near (d0 + q + x)%dec c) as N3. unfold near in N3. destruct N3 as [L3 U3]; [lra|].
  pose proof (sub1_near (d0 + q + x + c)%dec) as N4. unfold near in N4. destruct N4 as [L4 U4]; [lra|].
  pose proof (abs_near (d0 + q + x + c - d1)%dec) as N5. unfold near in N5. destruct N5 as [L5 _]; [lra|].
  pose proof (Qle_Qabs (dval (d0 + q + x + c - d1)%dec)) as B1.
  pose proof (Qle_Qabs (- dval (d0 + q + x + c - d1)%dec)) as B2. rewrite Qabs_opp in B2. lra.
Qed.

(** The exact one-way turnover between two allocations. *)
Definition one_way (a1 b1 a2 b2 a3 b3 : Q) : Q := ((1 # 2) * (Qabs (b1 - a1) + Qabs (b2 - a2) + Qabs (b3 - a3)))%Q.

Lemma one_way_same a b c : (one_way a a b b c c == 0)%Q.
Proof. unfold one_way. assert (∀ z, z - z == 0)%Q as E by (intros; ring). by rewrite !E. Qed.
Lemma one_way_bounds a1 b1 a2 b2 a3 b3 :
  (0 <= a1 <= 3)%Q → (0 <= b1 <= 3)%Q → (0 <= a2 <= 3)%Q → (0 <= b2 <= 3)%Q → (0 <= a3 <= 3)%Q → (0 <= b3 <= 3)%Q →
  (0 <= one_way a1 b1 a2 b2 a3 b3 <= 9 # 2)%Q.
Proof.
  intros. unfold one_way. assert (∀ a b, 0 <= a <= 3 → 0 <= b <= 3 → Qabs (b - a) <= 3)%Q as Hle by (intros; apply Qabs_Qle_condition; lra).
  pose proof (Hle a1 b1). pose proof (Hle a2 b2). pose proof (Hle a3 b3).
  pose proof (Qabs_nonneg (b1 - a1)). pose proof (Qabs_nonneg (b2 - a2)). pose proof (Qabs_nonneg (b3 - a3)). split; lra.
Qed.

Lemma move_near a b : (-3 <= dval a <= 3)%Q → (-3 <= dval b <= 3)%Q → (0 <= dval a)%Q → (0 <= dval b)%Q →
  (Qabs (dval b - dval a) - 2 * ulp <= dval (dabs (b - a)%dec) <= Qabs (dval b - dval a) + 2 * ulp)%Q ∧ (Qabs (dval b - dval a) <= 3)%Q.
Proof.
  intros Ha Hb Ha0 Hb0. pose proof ulp_pos. pose proof ulp_small.
  assert (Qabs (dval b - dval a) <= 3)%Q as H3 by (apply Qabs_Qle_condition; lra).
  pose proof (sub_near b a) as N1. unfold near in N1. destruct N1 as [L1 U1]; [lra|].
  pose proof (abs_near (b - a)%dec) as N2. unfold near in N2. destruct N2 as [L2 U2]; [lra|]. split; [|done].
  pose proof (Qabs_triangle_reverse (dval (b - a)%dec) (dval b - dval a)) as T1.
  pose proof (Qabs_triangle_reverse (dval b - dval a) (dval (b - a)%dec)) as T2.
  assert (Qabs (dval (b - a)%dec - (dval b - dval a)) <= ulp)%Q as E1 by (apply Qabs_Qle_condition; lra).
  assert (Qabs (dval b - dval a - dval (b - a)%dec) <= ulp)%Q as E2 by (apply Qabs_Qle_condition; lra).
  split; lra.
Qed.

(** The computed turnover is the exact one up to six units. *)
Lemma turnover_near cq cx cc rq rx rc T :
  accepted cq cx cc → accepted rq rx rc → _one_way_turnover (weights3 cq cx cc) (weights3 rq rx rc) = Ok T →
  (one_way (dval cq) (dval rq) (dval cx) (dval rx) (dval cc) (dval rc) - 6 * ulp <= dval T
   <= one_way (dval cq) (dval rq) (dval cx) (dval rx) (dval cc) (dval rc) + 6 * ulp)%Q.
Proof.
  intros (Sq & Sx & Sc)%accepted_small (Tq & Tx & Tc)%accepted_small.
  unfold _one_way_turnover. cbn [weights3 mapM_res fst snd dindex dget String.eqb Ascii.eqb Bool.eqb mbind res_bind]. intros [= <-].
  destruct (move_near cq rq) as [[Lq Uq] Bq]; [lra..|]. destruct (move_near cx rx) as [[Lx Ux] Bx]; [lra..|].
  destruct (move_near cc rc) as [[Lc Uc] Bc]; [lra..|]. unfold one_way. revert Lq Uq Bq Lx Ux Bx Lc Uc Bc.
  generalize (dabs (rq - cq)%dec) (dabs (rx - cx)%dec) (dabs (rc - cc)%dec)
    (Qabs (dval rq - dval cq)) (Qabs (dval rx - dval cx)) (Qabs (dval rc - dval cc)) (Qabs_nonneg (dval rq - dval cq))
    (Qabs_nonneg (dval rx - dval cx)) (Qabs_nonneg (dval rc - dval cc)).
  intros mq mx mc aq ax ac Nq Nx Nc ? ? ? ? ? ? ? ? ?. pose proof ulp_pos. pose proof ulp_small.
  change (dsum [mq; mx; mc]) with (d0 + mq + mx + mc)%dec.
  pose proof (add0_near mq) as N1. unfold near in N1. destruct N1 as [L1 U1]; [lra|].
  pose proof (add_near (d0 + mq)%dec mx) as N2. unfold near in N2. destruct N2 as [L2 U2]; [lra|].
  pose proof (add_near (d0 + mq + mx)%dec mc) as N3. unfold near in N3. destruct N3 as [L3 U3]; [lra|].
  pose proof (half_near (d0 + mq + mx + mc)%dec) as N4. unfold near in N4. destruct N4 as [L4 U4]; [lra|]. split; lra.
Qed.

(** One interpolated weight. *)
Lemma interpolated_near c p alpha :
  (0 <= dval c <= 3)%Q → (0 <= dval p <= 3)%Q → (0 <= dval alpha <= 1)%Q →
  let a := (c + alpha * (p - c))%dec in
  (dval c + dval alpha * (dval p - dval c) - 3 * ulp <= dval a <= dval c + dval alpha * (dval p - dval c) + 3 * ulp)%Q.
Proof.
  intros Sc Sp Sa. cbv zeta. pose proof ulp_pos. pose proof ulp_small.
  pose proof (sub_near p c) as N1. unfold near in N1. destruct N1 as [L1 U1]; [lra|].
  assert (dval alpha * (dval p - dval c) - ulp <= dval alpha * dval (p - c)%dec <= dval alpha * (dval p - dval c) + ulp)%Q as [B1 B2] by nra.
  assert (-3 <= dval alpha * (dval p - dval c) <= 3)%Q as [B3 B4] by nra.
  pose proof (mul_near alpha (p - c)%dec) as N2. unfold near in N2. destruct N2 as [L2 U2]; [lra|].
  pose proof (add_near c (alpha * (p - c))%dec) as N3. unfold near in N3. destruct N3 as [L3 U3]; [lra|]. split; lra.
Qed.

(** The cash that is left after two weights. *)
Lemma cash_near a b :
  (0 <= dval a <= 3)%Q → (0 <= dval b <= 3)%Q →
  (1 - dval a - dval b - 3 * ulp <= dval (d1 - dsum [a; b])%dec <= 1 - dval a - dval b + 3 * ulp)%Q.
Proof.
  intros Sa Sb. pose proof ulp_pos. pose proof ulp_small. change (dsum [a; b]) with (d0 + a + b)%dec.
  pose proof (add0_near a) as N1. unfold near in N1. destruct N1 as [L1 U1]; [lra|].
  pose proof (add_near (d0 + a)%dec b) as N2. unfold near in N2. destruct N2 as [L2 U2]; [lra|].
  pose proof (one_sub_near (d0 + a + b)%dec) as N3. unfold near in N3. destruct N3 as [L3 U3]; [lra|]. split; lra.
Qed.

(** The interpolation factor never takes the turnover above what remains of the daily capacity. *)
Lemma alpha_capped i T remaining alpha :
  ti_emergency_reduction i = false → ti_bypass_normal_turnover_cap i = false →
  (dval T <= 10)%Q → (0 <= dval remaining)%Q → interpolation i T remaining config = Ok alpha →
  (0 <= dval alpha <= 1)%Q ∧ (dval alpha * dval T <= dval remaining + 10 * ulp)%Q.
Proof.
  intros E1 E2 HT Hr. unfold interpolation. rewrite E1, E2. pose proof ulp_pos. destruct (T =? d0)%dec eqn:E0.
  { intros [= <-]. rewrite dval_d0. split; lra. }
  destruct (remaining <? T)%dec eqn:El.
  - intros Hd. apply dltb_lt in El. pose proof (ddiv_unit PREC _ _ _ prec_pos Hd Hr (Qlt_le_weak _ _ El)) as Ha. split; [done|].
    destruct (ddiv_Ok_rounds PREC _ _ _ prec_pos Hd) as [Hnz Hrd].
    assert (0 <= dval remaining / dval T <= 1)%Q as Hq.
    { split; [apply Qle_shift_div_l|apply Qle_shift_div_r]; lra. }
    apply round_near in Hrd as [_ U]; [|lra].
    assert (dval remaining / dval T * dval T == dval remaining)%Q as E by (field; done). nra.
  - intros [= <-]. apply dltb_ge in El. rewrite dval_d1. split; lra.
Qed.

Lemma Qabs_scaled a x : (0 <= a)%Q → (Qabs (a * x) == a * Qabs x)%Q.
Proof. intros H. by rewrite Qabs_Qmult, (Qabs_pos a). Qed.
Lemma scaled_between a x e : (0 <= a <= 1)%Q → (- e <= x <= e)%Q → (- e <= a * x <= e)%Q.
Proof. intros Ha Hx. split; nra. Qed.
Lemma scaled_le a x y e : (0 <= a <= 1)%Q → (0 <= e)%Q → (x <= y + e)%Q → (a * x <= a * y + e)%Q.
Proof. intros Ha He Hx. nra. Qed.
Lemma Qle_minus_iff_plus x y e : (x - e <= y)%Q → (x <= y + e)%Q.
Proof. lra. Qed.
Lemma Qabs_move a b e : (- e <= a - b <= e)%Q → (Qabs a <= Qabs b + e)%Q.
Proof. intros H%Qabs_Qle_condition. pose proof (Qabs_triangle_reverse a b). lra. Qed.

(** Moving only some of the risky symbols turns over no more than moving all of them. *)
Lemma partial_turnover x y x' y' :
  (x' == 0 ∨ x' == x)%Q → (y' == 0 ∨ y' == y)%Q → (Qabs x' + Qabs y' + Qabs (x' + y') <= Qabs x + Qabs y + Qabs (x + y))%Q.
Proof.
  intros Hx Hy. assert (Qabs x' <= Qabs x)%Q as H1 by (destruct Hx as [->| ->]; [apply Qabs_nonneg|lra]).
  assert (Qabs y' <= Qabs y)%Q as H2 by (destruct Hy as [->| ->]; [apply Qabs_nonneg|lra]).
  pose proof (Qabs_triangle (x + y) (- x)) as T1. pose proof (Qabs_triangle (x + y) (- y)) as T2. rewrite Qabs_opp in T1, T2.
  assert (x + y + - x == y)%Q as E1 by ring. assert (x + y + - y == x)%Q as E2 by ring. rewrite E1 in T1. rewrite E2 in T2.
  pose proof (Qabs_nonneg (x + y)) as N. destruct Hx as [Hx|Hx], Hy as [Hy|Hy]; rewrite Hx, Hy.
  - change (Qabs 0) with 0%Q. change (Qabs (0 + 0)) with 0%Q. pose proof (Qabs_nonneg x). pose proof (Qabs_nonneg y). lra.
  - assert (0 + y == y)%Q as -> by ring. change (Qabs 0) with 0%Q. lra.
  - assert (x + 0 == x)%Q as -> by ring. change (Qabs 0) with 0%Q. lra.
  - apply Qle_refl.
Qed.

(** A symbol ends at its current weight, or at its interpolated one. *)
Lemma outcome_moves bypass nav threshold symbol c p alpha e t o :
  (0 <= dval c <= 3)%Q → (0 <= dval p <= 3)%Q → (0 <= dval alpha <= 1)%Q →
  outcome bypass nav threshold symbol c (c + alpha * (p - c))%dec e t o →
  ∃ m, (m == 0 ∨ m == dval alpha * (dval p - dval c))%Q ∧ (dval c + m - 3 * ulp <= dval e <= dval c + m + 3 * ulp)%Q.
Proof.
  intros Sc Sp Sa Ho. pose proof ulp_pos as Hu. destruct Ho.
  - exists 0%Q. split; [by left|]. lra.
  - exists 0%Q. split; [by left|]. lra.
  - eexists. split; [right; reflexivity|]. by apply interpolated_near.
Qed.

(** The turnover of the executable weights, from the moves of the two risky symbols. *)
Lemma executed_turnover cq cx cc pq px pc alpha x y e f g :
  accepted cq cx cc → accepted pq px pc → (0 <= alpha <= 1)%Q →
  (x == 0 ∨ x == alpha * (dval pq - dval cq))%Q → (y == 0 ∨ y == alpha * (dval px - dval cx))%Q →
  (dval cq + x - 3 * ulp <= e <= dval cq + x + 3 * ulp)%Q → (dval cx + y - 3 * ulp <= f <= dval cx + y + 3 * ulp)%Q →
  (1 - e - f - 3 * ulp <= g <= 1 - e - f + 3 * ulp)%Q →
  (one_way (dval cq) e (dval cx) f (dval cc) g
   <= alpha * one_way (dval cq) (dval pq) (dval cx) (dval px) (dval cc) (dval pc) + (3 # 2) * tolerance + 16 * ulp)%Q.
Proof.
  intros [Lc Uc]%accepted_sum [Lp Up]%accepted_sum Sa Hx Hy He Hf Hg. unfold one_way. pose proof ulp_pos as Hu.
  pose proof (partial_turnover _ _ _ _ Hx Hy) as Hpart.
  pose proof (Qabs_scaled alpha (dval pq - dval cq)) as S1. pose proof (Qabs_scaled alpha (dval px - dval cx)) as S2.
  pose proof (Qabs_scaled alpha (dval pc - dval cc)) as S3. destruct Sa as [Sa0 Sa1]. specialize (S1 Sa0). specialize (S2 Sa0). specialize (S3 Sa0).
  rewrite S1, S2 in Hpart.
  assert (Qabs (alpha * (dval pq - dval cq) + alpha * (dval px - dval cx))
          <= alpha * Qabs (dval pc - dval cc) + 2 * tolerance + 10 * ulp)%Q as Hz.
  { pose proof (Qabs_move (alpha * (dval pq - dval cq) + alpha * (dval px - dval cx)) (- (alpha * (dval pc - dval cc))) (2 * tolerance + 10 * ulp)) as M.
    rewrite Qabs_opp, S3 in M. rewrite <- Qplus_assoc. apply M.
    destruct (scaled_between alpha ((dval pq + dval px + dval pc - 1) - (dval cq + dval cx + dval cc - 1)) (2 * tolerance + 10 * ulp)) as [B1 B2];
      [done|lra|]. split; lra. }
  pose proof (Qabs_move (e - dval cq) x (3 * ulp)) as M1. pose proof (Qabs_move (f - dval cx) y (3 * ulp)) as M2.
  pose proof (Qabs_move (g - dval cc) (- (x + y)) (tolerance + 14 * ulp)) as M3. rewrite Qabs_opp in M3. lra.
Qed.

(** The last steps of every decision. *)
Lemma result_inv `{Digest} kind T remaining alpha cq cx cc adjusted e f g trades omitted r :
  _turnover_result kind T remaining alpha (weights3 cq cx cc) adjusted (weights3 e f g) trades omitted config = Ok r →
  ∃ X, _one_way_turnover (weights3 cq cx cc) (weights3 e f g) = Ok X
    ∧ tr_executable_one_way_turnover r = dround PREC X ∧ tr_remaining_daily_capacity r = dround PREC remaining
    ∧ tr_executable_target_weights r = [("QQQ", dround PREC e); ("SOXX", dround PREC f); ("USD_CASH", dround PREC g)]
    ∧ tr_decision_kind r = kind ∧ tr_proposed_trades r = trades ∧ tr_omitted_orders r = omitted.
Proof.
  unfold _turnover_result. cbv zeta. rewrite control_symbols. intros (adj & _ & H1)%bind_Ok_inv.
  apply bind_Ok_inv in H1 as (ex & Hex & H1). apply bind_Ok_inv in H1 as (X & HX & H1). apply bind_Ok_inv in H1 as (h & _ & H1).
  injection H1 as <-. exists X. cbn in Hex. injection Hex as <-. done.
Qed.

Lemma remaining_repr cap used : repr PREC (dmax d0 (cap - used)%dec).
Proof. apply repr_max; [by apply repr_zero|by apply dsub_rounds]. Qed.
Lemma remaining_nonneg a : (0 <= dval (dmax d0 a))%Q.
Proof. pose proof dval_d0 as E. destruct (dmax_spec d0 a) as [[-> ?]|[-> ?]]; lra. Qed.
End control.

#[local] Opaque ulp.

(** C32: When the input is neither an emergency reduction nor asks to bypass the normal daily cap (as the B0_QQQ arm does), the
    turnover of the orders that are let through never exceeds what remains of the daily cap by more than the allowance for rounding
    and for weights that only nearly sum to one. *)
Theorem turnover_cap_respected `{Digest} config i r :
  control_bounds config → ti_emergency_reduction i = false → ti_bypass_normal_turnover_cap i = false →
  apply_turnover_control i config = Ok r →
  tr_remaining_daily_capacity r = dmax d0 (tp_normal_daily_one_way_cap (mc_turnover config) - ti_used_normal_turnover i)%dec
  ∧ (dval (tr_executable_one_way_turnover r)
     <= dval (tr_remaining_daily_capacity r) + (3 # 2) * dval (ap_weight_sum_tolerance (mc_allocation config)) + q10 (-24))%Q.
Proof.
  intros Hc E1 E2 Hr. apply (control_inv _ Hc) in Hr as (cq & cx & cc & pq & px & pc & T & Ac & Ap & _ & _ & _ & _ & HT & Hr). cbv zeta in Hr.
  pose proof (remaining_nonneg (tp_normal_daily_one_way_cap (mc_turnover config) - ti_used_normal_turnover i)%dec) as Hrem.
  pose proof (tb_tolerance _ Hc) as Htol. pose proof ulp_pos as Hu. pose proof ulp_small as Hus. assert (100 * ulp == q10 (-24))%Q as H24 by reflexivity.
  pose proof (turnover_near _ Hc _ _ _ _ _ _ _ Ac Ap HT) as [LT UT].
  destruct Hr as [[_ Hr]|[_ (alpha & e & f & tq & tx & oq & ox & Ha & Oq & Ox & Ae & Hr)]];
    apply (result_inv _ Hc) in Hr as (X & HX & -> & -> & _); rewrite (dround_exact PREC (dmax _ _)) by (done || apply remaining_repr);
    (split; [done|]).
  - pose proof (turnover_near _ Hc _ _ _ _ _ _ _ Ac Ac HX) as HXn. rewrite one_way_same in HXn.
    destruct (round_near (dval X) (dround PREC X)) as [_ U]; [by apply dround_rounds|lra|]. lra.
  - destruct (accepted_small _ Hc _ _ _ Ac) as (Sq & Sx & Sc). destruct (accepted_small _ Hc _ _ _ Ap) as (Tq & Tx & Tc).
    destruct (accepted_small _ Hc _ _ _ Ae) as (Eq & Ex & Eg).
    pose proof (one_way_bounds _ _ _ _ _ _ Sq Tq Sx Tx Sc Tc) as HO.
    destruct (alpha_capped config i T _ alpha E1 E2 ltac:(lra) Hrem Ha) as [Sa HaT].
    apply Qle_minus_iff_plus in LT. pose proof (scaled_le _ _ _ (6 * ulp) Sa ltac:(lra) LT) as HaO.
    destruct (outcome_moves _ _ _ _ _ _ _ _ _ _ Sq Tq Sa Oq) as (x & Hx & Bx).
    destruct (outcome_moves _ _ _ _ _ _ _ _ _ _ Sx Tx Sa Ox) as (y & Hy & By).
    pose proof (cash_near e f Eq Ex) as Bc.
    pose proof (executed_turnover _ Hc _ _ _ _ _ _ _ _ _ _ _ _ Ac Ap Sa Hx Hy Bx By Bc) as HX1.
    pose proof (one_way_bounds _ _ _ _ _ _ Sq Eq Sx Ex Sc Eg) as HO2.
    pose proof (turnover_near _ Hc _ _ _ _ _ _ _ Ac Ae HX) as [LX UX].
    destruct (round_near (dval X) (dround PREC X)) as [_ U]; [by apply dround_rounds|lra|]. lra.
Qed.

(** A move towards a smaller weight never ends above the weight it starts from. *)
Lemma reduce_le c p : repr PREC c → (dval p <= dval c)%Q → (dval (c + d1 * (p - c))%dec <= dval c)%Q.
Proof.
  intros Hc H. eapply rounds_le; [by apply dadd_rounds|done|].
  assert (dval (d1 * (p - c))%dec <= 0)%Q as Hm; [|lra].
  eapply (rounds_nonpos PREC prec_pos); [by apply dmul_rounds|].
  assert (dval (p - c)%dec <= 0)%Q as Hs; [|rewrite dval_d1; lra].
  eapply (rounds_nonpos PREC prec_pos); [by apply dsub_rounds|]. lra.
Qed.

(** A trade that does not raise its weight is a sale. *)
Definition sale (t : ProposedTrade) : Prop := pt_side t = "SELL" ∧ (dval (pt_weight_delta t) <= 0)%Q.

Lemma outcome_sale bypass nav threshold symbol c a e t o :
  (dval a <= dval c)%Q → outcome bypass nav threshold symbol c a e t o → Forall sale t ∧ (dval e <= dval c)%Q.
Proof.
  intros H Ho. assert (dval (a - c)%dec <= 0)%Q as Hs.
  { eapply (rounds_nonpos PREC prec_pos); [by apply dsub_rounds|]. lra. }
  destruct Ho as [|side|side ? -> ?]; [split; [done|lra]..|]. split; [|done]. apply List.Forall_cons; [|done]. split; cbn.
  - destruct (d0 <? a - c)%dec eqn:E; [|done]. apply dltb_lt in E. rewrite dval_d0 in E. lra.
  - eapply (rounds_nonpos PREC prec_pos); [by apply dround_rounds|done].
Qed.

(** An emergency reduction only ever sells: none of its trades raises a weight, and both risky weights it lets through
    are at most the current ones. *)
Theorem emergency_never_buys `{Digest} config i r :
  control_bounds config → ti_emergency_reduction i = true →
  repr PREC (weight_of (ti_current_weights i) "QQQ") → repr PREC (weight_of (ti_current_weights i) "SOXX") →
  apply_turnover_control i config = Ok r →
  Forall sale (tr_proposed_trades r)
  ∧ ∃ q x c, tr_executable_target_weights r = [("QQQ", q); ("SOXX", x); ("USD_CASH", c)]
    ∧ (dval q <= dval (weight_of (ti_current_weights i) "QQQ"))%Q ∧ (dval x <= dval (weight_of (ti_current_weights i) "SOXX"))%Q.
Proof.
  intros Hc E Rq Rx Hr. apply (control_inv _ Hc) in Hr as (cq & cx & cc & pq & px & pc & T & Ac & Ap & Eq & Ex & _ & Hle & _ & Hr).
  cbv zeta in Hr. rewrite E in Hr. rewrite <- Eq, <- Ex in *. destruct (Hle E) as [Lq Lx].
  destruct Hr as [[Hn _]|[_ (alpha & e & f & tq & tx & oq & ox & Ha & Oq & Ox & _ & Hr)]]; [done|].
  unfold interpolation in Ha. rewrite E in Ha. apply bind_Ok_inv in Ha as (u & _ & [= <-]).
  apply outcome_sale in Oq as [Sq Bq]; [|by apply reduce_le]. apply outcome_sale in Ox as [Sx Bx]; [|by apply reduce_le].
  apply (result_inv _ Hc) in Hr as (X & _ & _ & _ & Hw & _ & -> & _). split; [by apply Forall_app|].
  eexists _, _, _. split; [exact Hw|]. split; (eapply rounds_le; [by apply dround_rounds|done|done]).
Qed.

(** A trade's notional is at least the threshold, an omitted order's is below it. *)
Lemma outcome_minimum bypass nav threshold symbol c a e t o :
  outcome bypass nav threshold symbol c a e t o →
  (bypass = false → Forall (λ t, dval threshold <= dval (pt_notional_usd t))%Q t)
  ∧ Forall (λ o, om_symbol o = symbol ∧ dval (om_proposed_notional_usd o) < dval threshold)%Q o ∧ (o = [] ∨ e = c).
Proof.
  intros Ho. assert (∀ d, dround PREC (dabs d * nav)%dec = (dabs d * nav)%dec) as Hx by (intros; apply dround_exact; [done|by apply dmul_rounds]).
  destruct Ho as [|side ? -> -> Hlt|side ? -> Hge].
  - split; [done|]. split; [done|by left].
  - split; [done|]. split; [|by right]. apply List.Forall_cons; [|done]. cbn. rewrite Hx. split; [done|]. by apply dltb_lt.
  - split; [|split; [done|by left]]. intros ->. apply List.Forall_cons; [|done]. cbn. rewrite Hx. destruct Hge as [?|Hge]; [done|].
    by apply dltb_ge.
Qed.

(** Small orders are left out, and reported: unless an emergency waives it, every trade is worth at least the minimum order,
    the larger of the fixed amount and the fraction of the net asset value; every omitted order is worth less. *)
Theorem minimum_order_enforced `{Digest} config i r :
  control_bounds config → apply_turnover_control i config = Ok r →
  let t := mc_turnover config in
  let minimum := dmax (tp_minimum_order_notional_usd t) (tp_minimum_order_nav_fraction t * ti_current_nav_usd i)%dec in
  (ti_emergency_reduction i && tp_emergency_bypasses_minimum_order t = false →
   Forall (λ tr, dval minimum <= dval (pt_notional_usd tr))%Q (tr_proposed_trades r))
  ∧ Forall (λ o, dval (om_proposed_notional_usd o) < dval minimum)%Q (tr_omitted_orders r)
  ∧ (tr_decision_kind r = "NORMAL_REBALANCE" → tr_proposed_trades r ≠ []).
Proof.
  intros Hc Hr. cbv zeta. apply (control_inv _ Hc) in Hr as (cq & cx & cc & pq & px & pc & T & _ & _ & _ & _ & _ & _ & _ & Hr).
  cbv zeta in Hr. destruct Hr as [[_ Hr]|[_ (alpha & e & f & tq & tx & oq & ox & _ & Oq & Ox & _ & Hr)]];
    apply (result_inv _ Hc) in Hr as (X & _ & _ & _ & _ & -> & -> & ->); [done|].
  apply outcome_minimum in Oq as (Tq & Mq & _), Ox as (Tx & Mx & _). split; [|split].
  - intros E. apply Forall_app. exact (conj (Tq E) (Tx E)).
  - apply Forall_app. split; (eapply List.Forall_impl; [|eassumption]); by intros ? [].
  - unfold decision_kind_of. by destruct (ti_emergency_reduction i), (tq ++ tx).
Qed.

(** ** Concrete runs *)

Lemma core_control_bounds : control_bounds core_config.
Proof. destruct core_config_valid. split; [done|done|done|]. vm_compute. split; discriminate. Qed.

(** A rebalancing that wants more than the daily cap, and a reduction. *)
Definition rebalance_inputs : TurnoverInputs :=
  {| ti_current_weights := weights3 (Dec 3 (-1)) (Dec 1 (-1)) (Dec 6 (-1));
     ti_proposed_target_weights := weights3 (Dec 6 (-1)) (Dec 1001 (-4)) (Dec 2999 (-4)); ti_current_nav_usd := Dec 1 5;
     ti_used_normal_turnover := Dec 5 (-2); ti_emergency_reduction := false; ti_bypass_normal_turnover_cap := false |}.
Definition reduction_inputs : TurnoverInputs :=
  {| ti_current_weights := weights3 (Dec 3 (-1)) (Dec 1 (-1)) (Dec 6 (-1));
     ti_proposed_target_weights := weights3 (Dec 1 (-1)) (Dec 0 0) (Dec 9 (-1)); ti_current_nav_usd := Dec 1 5;
     ti_used_normal_turnover := Dec 2 (-1); ti_emergency_reduction := true; ti_bypass_normal_turnover_cap := false |}.
#[local] Notation controlled i := (apply_turnover_control (H := rolling_digest) i core_config).

Lemma rebalance_runs :
  (λ r, (tr_decision_kind r, map pt_symbol (tr_proposed_trades r), map om_symbol (tr_omitted_orders r))) <$> controlled rebalance_inputs
  = Ok ("NORMAL_REBALANCE", ["QQQ"], ["SOXX"]).
Proof. vm_compute. reflexivity. Qed.
Lemma rebalance_ok : ∃ r, controlled rebalance_inputs = Ok r.
Proof. apply is_ok_ex. vm_compute. reflexivity. Qed.
Lemma reduction_ok : ∃ r, controlled reduction_inputs = Ok r ∧ length (tr_proposed_trades r) = 2%nat.
Proof.
  assert ((λ r, length (tr_proposed_trades r)) <$> controlled reduction_inputs = Ok 2%nat) as E by (vm_compute; reflexivity).
  destruct (controlled reduction_inputs) as [r|]; [|done]. exists r. split; [done|]. by injection E.
Qed.

Lemma turnover_cap_respected_witness :
  ∃ r, controlled rebalance_inputs = Ok r
    ∧ tr_remaining_daily_capacity r = dmax d0 (tp_normal_daily_one_way_cap (mc_turnover core_config) - Dec 5 (-2))%dec.
Proof.
  destruct rebalance_ok as [r Hr]. exists r. split; [exact Hr|].
  exact (proj1 (turnover_cap_respected (H := rolling_digest) core_config rebalance_inputs r core_control_bounds eq_refl eq_refl Hr)).
Defined.

Lemma emergency_never_buys_witness :
  ∃ r, controlled reduction_inputs = Ok r ∧ length (tr_proposed_trades r) = 2%nat ∧ Forall sale (tr_proposed_trades r).
Proof.
  destruct reduction_ok as (r & Hr & Hn). exists r. refine (conj Hr (conj Hn _)).
  exact (proj1 (emergency_never_buys (H := rolling_digest) core_config reduction_inputs r core_control_bounds eq_refl
                  ltac:(vm_compute; reflexivity) ltac:(vm_compute; reflexivity) Hr)).
Defined.

Lemma minimum_order_enforced_witness :
  ∃ r, controlled rebalance_inputs = Ok r
    ∧ Forall (λ o, dval (om_proposed_notional_usd o) < dval (dmax (Dec 250 (-1)) (Dec 25 (-4) * Dec 1 5)%dec))%Q (tr_omitted_orders r).
Proof.
  destruct rebalance_ok as [r Hr]. exists r. split; [exact Hr|].
  exact (proj1 (proj2 (minimum_order_enforced (H := rolling_digest) core_config rebalance_inputs r core_control_bounds Hr))).
Defined.
