(* ===== verification/Planning.v ===== *)
(** * Order planning ([runtime/q1_planning.py], and the decision records of [domain/q1.py])

    A strategy decision is hashed from its economic inputs; its trades become order intents, sells first, under the
    positions held and the settled cash. *)
From Stdlib Require Import ZArith Lia Ascii String QArith Qabs Lqa.
From stdpp Require Import base list strings numbers.
From S2P Require Import Prelude PyDecimal Hashing DecimalMath Domain OrderState QuantConfig Allocation Turnover Reconciliation.
Set Default Goal Selector "!".
Open Scope Z_scope.

(** ** The decision records *)

Record PointInTimeSourceReference := {
  pr_record_id : string;
  pr_available_at : datetime;
}.
Definition validate_PointInTimeSourceReference (r : PointInTimeSourceReference) : res PointInTimeSourceReference :=
  aware (pr_available_at r);; Ok r.
Definition source_reference_val (r : PointInTimeSourceReference) : pyval :=
  PDict [("record_id", PStr (pr_record_id r)); ("available_at", PDatetime (pr_available_at r))].

Record Q1DecisionInputManifest := {
  im_versioned : VersionedQ1Record;
  im_calendar_session_id : string;
  im_source_bars : list PointInTimeSourceReference;
  im_quotes : list PointInTimeSourceReference;
  im_manifest_hash : string;
}.

(** The validators of the manifest and of the references in it. *)
Definition validate_Q1DecisionInputManifest (m : Q1DecisionInputManifest) : res Q1DecisionInputManifest :=
  validate_versioned (im_versioned m);;
  _ ← mapM_res validate_PointInTimeSourceReference (im_source_bars m);
  _ ← mapM_res validate_PointInTimeSourceReference (im_quotes m);
  invalid (negb (bool_decide (NoDup (map pr_record_id (im_source_bars m))))) "Decision source bar IDs must be unique";;
  invalid (negb (bool_decide (NoDup (map pr_record_id (im_quotes m))))) "Decision quote IDs must be unique";;
  Ok m.

(** [model_dump(mode="python")] *)
Definition versioned_items (v : VersionedQ1Record) : list (string * pyval) :=
  [("algorithm_version", PStr (algorithm_version v)); ("config_manifest_hash", PStr (config_manifest_hash v));
   ("code_version", PStr (code_version v)); ("model_version", PStr (model_version v));
   ("source_manifest_hash", PStr (source_manifest_hash v))].
Definition input_manifest_val (m : Q1DecisionInputManifest) : pyval :=
  PDict (versioned_items (im_versioned m) ++
    [("calendar_session_id", PStr (im_calendar_session_id m)); ("source_bars", PList (map source_reference_val (im_source_bars m)));
     ("quotes", PList (map source_reference_val (im_quotes m))); ("manifest_hash", PStr (im_manifest_hash m))]).

Record Q1StrategyDecision := {
  sd_versioned : VersionedQ1Record;
  sd_portfolio_decision_id : string;
  sd_run_id : string;
  sd_arm_id : Q1ArmId;
  sd_source_cycle_id : string;
  sd_input_state_sequence : Z;
  sd_decision_kind : string;
  sd_scheduled_at : datetime;
  sd_signal_data_cutoff : datetime;
  sd_portfolio_state_as_of : datetime;
  sd_quote_as_of : datetime;
  sd_decision_created_at : datetime;
  sd_valid_until : datetime;
  sd_input_manifest : Q1DecisionInputManifest;
  sd_target_weights : pydict dec;
  sd_diagnostics : cval;
  sd_worker_fence_token : string;
  sd_cycle_attempt_count : Z;
  sd_decision_hash : string;
}.

Definition WEIGHT_SUM_TOLERANCE : dec := Dec 1 (-10).

Definition validate_point_in_time_contract (d : Q1StrategyDecision) : res () :=
  let m := sd_input_manifest d in
  invalid (dt_lt (sd_scheduled_at d) (sd_signal_data_cutoff d)) "signal_data_cutoff cannot exceed scheduled_at";;
  invalid (dt_lt (sd_decision_created_at d) (sd_portfolio_state_as_of d)) "portfolio_state_as_of cannot exceed decision_created_at";;
  invalid (dt_lt (sd_decision_created_at d) (sd_quote_as_of d)) "quote_as_of cannot exceed decision_created_at";;
  invalid (dt_le (sd_valid_until d) (sd_decision_created_at d)) "valid_until must be after decision_created_at";;
  invalid (str_empty (im_calendar_session_id m)) "Decision input manifest requires a calendar session";;
  invalid (negb (String.eqb (config_manifest_hash (sd_versioned d)) (config_manifest_hash (im_versioned m)))
           || negb (String.eqb (code_version (sd_versioned d)) (code_version (im_versioned m)))
           || negb (String.eqb (model_version (sd_versioned d)) (model_version (im_versioned m)))
           || negb (String.eqb (source_manifest_hash (sd_versioned d)) (source_manifest_hash (im_versioned m))))
    "Decision and input-manifest versions must match";;
  invalid (existsb (λ r, dt_lt (sd_signal_data_cutoff d) (pr_available_at r)) (im_source_bars m))
    "Decision contains a bar unavailable at signal cutoff";;
  invalid (existsb (λ r, dt_lt (sd_quote_as_of d) (pr_available_at r)) (im_quotes m))
    "Decision contains a quote unavailable at quote_as_of";;
  invalid (existsb (λ kv : string * dec, kv.2 <? d0)%dec (sd_target_weights d)) "Q1 target weights must be long-only";;
  invalid (WEIGHT_SUM_TOLERANCE <? dabs (dsum (sd_target_weights d).*2 - d1))%dec
    "Q1 target weights must sum to one including USD_CASH".

Definition validate_Q1StrategyDecision (d : Q1StrategyDecision) : res Q1StrategyDecision :=
  validate_versioned (sd_versioned d);;
  invalid (sd_input_state_sequence d <? 0) "input_state_sequence";;
  aware (sd_scheduled_at d);; aware (sd_signal_data_cutoff d);; aware (sd_portfolio_state_as_of d);;
  aware (sd_quote_as_of d);; aware (sd_decision_created_at d);; aware (sd_valid_until d);;
  invalid (sd_cycle_attempt_count d <? 1) "cycle_attempt_count";;
  validate_point_in_time_contract d;;
  Ok d.

(** ** [DecisionQuote], [OrderPlanningConfig] *)

Record DecisionQuote := {
  dq_symbol : string;
  dq_quote_id : string;
  dq_bid : dec;
  dq_ask : dec;
  dq_available_at : datetime;
}.

Definition validate_DecisionQuote (q : DecisionQuote) : res DecisionQuote :=
  raise_if (negb (tz_aware (dq_available_at q))) ValueError "datetime must be timezone-aware";;
  raise_if (str_empty (dq_symbol q) || str_empty (dq_quote_id q)) Q1PlanningError "Decision quote identity is required";;
  raise_if ((dq_bid q <=? d0) || (dq_ask q <=? d0) || (dq_ask q <? dq_bid q))%dec Q1PlanningError "Decision quote is not executable";;
  Ok q.

Definition midpoint (q : DecisionQuote) : res dec := ddiv (dq_bid q + dq_ask q)%dec (Dec 2 0).
Definition spread_bps (q : DecisionQuote) : res dec :=
  m ← midpoint q; r ← ddiv (dq_ask q - dq_bid q)%dec m; Ok (r * Dec 10000 0)%dec.

Record OrderPlanningConfig := {
  oc_quantity_increment : dec;
  oc_commission_rate : dec;
  oc_commission_waiver_notional_usd : dec;
  oc_delay_penalty_bps : dec;
  oc_commission_precision : dec;
}.

Definition validate_OrderPlanningConfig (c : OrderPlanningConfig) : res OrderPlanningConfig :=
  raise_if (oc_quantity_increment c <=? d0)%dec Q1PlanningError "Quantity increment must be positive";;
  raise_if ((oc_commission_rate c <? d0) || (oc_commission_waiver_notional_usd c <? d0) || (oc_delay_penalty_bps c <? d0)
            || (oc_commission_precision c <=? d0))%dec
    Q1PlanningError "Planning cost parameters must be non-negative with positive precision";;
  Ok c.

Record PlannedOrders := {
  po_intents : list Q1OrderIntent;
  po_omitted : list (pydict string);
  po_intent_manifest_hash : string;
}.

Definition OrderSide_value (s : OrderSide) : string := match s with BUY => "BUY" | SELL => "SELL" end.
(** [OrderSide(text)] *)
Definition OrderSide_of (s : string) : res OrderSide :=
  if String.eqb s "BUY" then Ok BUY else if String.eqb s "SELL" then Ok SELL else raise ValueError "is not a valid OrderSide".
Definition Q1OrderClass_value (c : Q1OrderClass) : string :=
  match c with
  | NORMAL_ORDER => "NORMAL" | EMERGENCY_REDUCTION => "EMERGENCY_REDUCTION" | LLM_REDUCTION => "LLM_REDUCTION"
  | LIVE_MIRROR_TRANSITION => "LIVE_MIRROR_TRANSITION"
  end.

Definition weights_val (w : pydict dec) : pyval := PDict (map (λ kv, (kv.1, PDecimal kv.2)) w).
Definition optional_str (o : option string) : pyval := match o with Some s => PStr s | None => PNone end.

(** [{**d, k: v, ...}] *)
Definition dict_with {A} (d : pydict A) (items : list (string * A)) : pydict A := fold_left (λ d kv, dset kv.1 kv.2 d) items d.

Section planning.
Context `{Digest}.

(** ** [build_portfolio_decision] *)

Record DecisionInputs := {
  di_run_id : string;
  di_arm_id : Q1ArmId;
  di_source_cycle_id : string;
  di_input_state_sequence : Z;
  di_decision_kind : string;
  di_scheduled_at : datetime;
  di_signal_data_cutoff : datetime;
  di_portfolio_state_as_of : datetime;
  di_quote_as_of : datetime;
  di_decision_created_at : datetime;
  di_valid_until : datetime;
  di_current_weights : pydict dec;
  di_deterministic_target_weights : pydict dec;
  di_final_target_weights : pydict dec;
  di_expected_annualized_volatility : dec;
  di_expected_one_way_turnover : dec;
  di_used_daily_turnover_before : dec;
  di_signal_hash : option string;
  di_allocation_hash : option string;
  di_llm_overlay_state : string;
  di_llm_policy_id : option string;
  di_diagnostics : pydict pyval;
  di_input_manifest : Q1DecisionInputManifest;
}.

Definition complete_diagnostics (i : DecisionInputs) : pyval :=
  PDict (dict_with (di_diagnostics i)
    [("current_weights", weights_val (di_current_weights i));
     ("deterministic_target_weights", weights_val (di_deterministic_target_weights i));
     ("final_target_weights", weights_val (di_final_target_weights i));
     ("expected_annualized_volatility", PDecimal (di_expected_annualized_volatility i));
     ("expected_one_way_turnover", PDecimal (di_expected_one_way_turnover i));
     ("used_daily_turnover_before", PDecimal (di_used_daily_turnover_before i));
     ("signal_hash", optional_str (di_signal_hash i)); ("allocation_hash", optional_str (di_allocation_hash i));
     ("llm_overlay_state", PStr (di_llm_overlay_state i)); ("llm_policy_id", optional_str (di_llm_policy_id i))]).

Definition decision_content (i : DecisionInputs) : pyval :=
  PDict
    [("run_id", PStr (di_run_id i)); ("arm_id", PStr (Q1ArmId_value (di_arm_id i))); ("algorithm_version", PStr "q1_math_core_v1");
     ("source_cycle_id", PStr (di_source_cycle_id i)); ("input_state_sequence", PInt (di_input_state_sequence i));
     ("decision_kind", PStr (di_decision_kind i)); ("scheduled_at", PDatetime (di_scheduled_at i));
     ("signal_data_cutoff", PDatetime (di_signal_data_cutoff i)); ("portfolio_state_as_of", PDatetime (di_portfolio_state_as_of i));
     ("quote_as_of", PDatetime (di_quote_as_of i)); ("decision_created_at", PDatetime (di_decision_created_at i));
     ("valid_until", PDatetime (di_valid_until i)); ("target_weights", weights_val (di_final_target_weights i));
     ("diagnostics", complete_diagnostics i); ("input_manifest", input_manifest_val (di_input_manifest i))].

Definition build_portfolio_decision (i : DecisionInputs) (worker_fence_token : string) (cycle_attempt_count : Z)
    : res Q1StrategyDecision :=
  decision_hash ← canonical_hash (decision_content i);
  portfolio_decision_id ← stable_id "q1-portfolio-decision"
    [PStr (di_run_id i); PStr (Q1ArmId_value (di_arm_id i)); PDatetime (di_scheduled_at i); PStr decision_hash];
  diagnostics ← canonical_data (complete_diagnostics i);
  validate_Q1StrategyDecision {|
    sd_versioned := {| algorithm_version := "q1_math_core_v1";
                       config_manifest_hash := config_manifest_hash (im_versioned (di_input_manifest i));
                       code_version := code_version (im_versioned (di_input_manifest i));
                       model_version := model_version (im_versioned (di_input_manifest i));
                       source_manifest_hash := source_manifest_hash (im_versioned (di_input_manifest i)) |};
    sd_portfolio_decision_id := portfolio_decision_id; sd_run_id := di_run_id i; sd_arm_id := di_arm_id i;
    sd_source_cycle_id := di_source_cycle_id i; sd_input_state_sequence := di_input_state_sequence i;
    sd_decision_kind := di_decision_kind i; sd_scheduled_at := di_scheduled_at i; sd_signal_data_cutoff := di_signal_data_cutoff i;
    sd_portfolio_state_as_of := di_portfolio_state_as_of i; sd_quote_as_of := di_quote_as_of i;
    sd_decision_created_at := di_decision_created_at i; sd_valid_until := di_valid_until i;
    sd_input_manifest := di_input_manifest i; sd_target_weights := di_final_target_weights i; sd_diagnostics := diagnostics;
    sd_worker_fence_token := worker_fence_token; sd_cycle_attempt_count := cycle_attempt_count; sd_decision_hash := decision_hash |}.

Definition risk_approval_id (decision : Q1StrategyDecision) : res string :=
  stable_id "q1-risk-approval" [PStr (sd_portfolio_decision_id decision); weights_val (sd_target_weights decision)].

(** ** Intents *)

Definition order_intent_val (o : Q1OrderIntent) : pyval :=
  PDict
    [("order_intent_id", PStr (qi_order_intent_id o)); ("run_id", PStr (qi_run_id o)); ("arm_id", PStr (Q1ArmId_value (qi_arm_id o)));
     ("portfolio_decision_id", PStr (qi_portfolio_decision_id o)); ("risk_decision_id", PStr (qi_risk_decision_id o));
     ("source_cycle_id", PStr (qi_source_cycle_id o)); ("input_state_sequence", PInt (qi_input_state_sequence o));
     ("symbol", PStr (qi_symbol o)); ("side", PStr (OrderSide_value (qi_side o))); ("order_class", PStr (qi_order_class o));
     ("quantity", PDecimal (qi_quantity o)); ("decision_quote_id", PStr (qi_decision_quote_id o));
     ("decision_reference_price", PDecimal (qi_decision_reference_price o)); ("decision_spread_bps", PDecimal (qi_decision_spread_bps o));
     ("created_at", PDatetime (qi_created_at o)); ("valid_until", PDatetime (qi_valid_until o));
     ("idempotency_key", PStr (qi_idempotency_key o)); ("algorithm_version", PStr (qi_algorithm_version o));
     ("config_manifest_hash", PStr (qi_config_manifest_hash o)); ("code_version", PStr (qi_code_version o));
     ("model_version", PStr (qi_model_version o)); ("source_manifest_hash", PStr (qi_source_manifest_hash o));
     ("intent_hash", PStr (qi_intent_hash o))].

Definition strings_val (d : pydict string) : pyval := PDict (map (λ kv, (kv.1, PStr kv.2)) d).

Definition omitted_entry (symbol side reason : string) (proposed_notional_usd : dec) : pydict string :=
  [("symbol", symbol); ("side", side); ("reason", reason); ("proposed_notional_usd", dec_str proposed_notional_usd)].
Definition carried_omission (o : OmittedOrderDiagnostic) : pydict string :=
  omitted_entry (om_symbol o) (om_side o) (om_reason o) (om_proposed_notional_usd o).

Definition intents_manifest (decision : Q1StrategyDecision) (intents omitted : list pyval) : res string :=
  canonical_hash (PDict [("decision_id", PStr (sd_portfolio_decision_id decision)); ("intents", PList intents); ("omitted", PList omitted)]).

(** ** [plan_normal_orders] *)

(** [positions.get(symbol, Decimal("0"))] *)
Definition position_of (positions : pydict dec) (symbol : string) : dec :=
  match dget symbol positions with Some p => p | None => d0 end.

Record NormalPlanInputs := {
  ni_decision : Q1StrategyDecision;
  ni_turnover : TurnoverResult;
  ni_positions : pydict dec;
  ni_settled_cash_usd : dec;
  ni_quotes : pydict DecisionQuote;
  ni_source_cycle_id : string;
  ni_input_state_sequence : Z;
  ni_valid_until : datetime;
}.

(** The quantity of a trade: what its notional buys at the midpoint, at most the position for a sale, at most what the
    remaining cash affords at a conservative price for a purchase. *)
Definition sell_quantity (config : OrderPlanningConfig) (quantity position : dec) : res dec :=
  dquantize (dmin quantity position) (oc_quantity_increment config) ROUND_DOWN.

Definition affordable_quantity (config : OrderPlanningConfig) (remaining_settled ask : dec) : res dec :=
  delay ← ddiv (oc_delay_penalty_bps config) (Dec 10000 0);
  let delayed_ask := (ask * (d1 + delay))%dec in
  let conservative_unit_cost := (delayed_ask * (d1 + oc_commission_rate config))%dec in
  let available_cash := dmax d0 (remaining_settled - oc_commission_precision config)%dec in
  q ← ddiv available_cash conservative_unit_cost;
  dquantize q (oc_quantity_increment config) ROUND_DOWN.

Definition trade_quantity (config : OrderPlanningConfig) (positions : pydict dec) (remaining_settled : dec) (quote : DecisionQuote)
    (trade : ProposedTrade) : res dec :=
  m ← midpoint quote;
  q ← ddiv (pt_notional_usd trade) m;
  quantity ← dquantize q (oc_quantity_increment config) ROUND_DOWN;
  if String.eqb (pt_side trade) "SELL" then
    sell_quantity config quantity (position_of positions (pt_symbol trade))
  else
    affordable ← affordable_quantity config remaining_settled (dq_ask quote);
    Ok (dmin quantity affordable).

(** [estimated_notional + estimated_commission] of a purchase *)
Definition estimated_cost (config : OrderPlanningConfig) (quantity ask : dec) : dec :=
  let estimated_notional := (quantity * ask)%dec in
  let estimated_commission :=
    if (estimated_notional <=? oc_commission_waiver_notional_usd config)%dec then d0 else (estimated_notional * oc_commission_rate config)%dec in
  (estimated_notional + estimated_commission)%dec.

Definition normal_intent (i : NormalPlanInputs) (risk_decision_id : string) (quote : DecisionQuote) (symbol : string)
    (side : OrderSide) (quantity : dec) : res Q1OrderIntent :=
  let decision := ni_decision i in
  let versions := im_versioned (sd_input_manifest decision) in
  m ← midpoint quote;
  s ← spread_bps quote;
  intent_hash ← canonical_hash (PDict
    [("run_id", PStr (sd_run_id decision)); ("arm_id", PStr (Q1ArmId_value (sd_arm_id decision)));
     ("portfolio_decision_id", PStr (sd_portfolio_decision_id decision)); ("source_cycle_id", PStr (ni_source_cycle_id i));
     ("symbol", PStr symbol); ("side", PStr (OrderSide_value side)); ("quantity", PDecimal quantity);
     ("decision_quote_id", PStr (dq_quote_id quote)); ("created_at", PDatetime (sd_decision_created_at decision));
     ("valid_until", PDatetime (ni_valid_until i)); ("risk_decision_id", PStr risk_decision_id);
     ("decision_reference_price", PDecimal m); ("decision_spread_bps", PDecimal s);
     ("input_state_sequence", PInt (ni_input_state_sequence i)); ("config_manifest_hash", PStr (config_manifest_hash versions));
     ("code_version", PStr (code_version versions)); ("model_version", PStr (model_version versions));
     ("source_manifest_hash", PStr (source_manifest_hash versions))]);
  order_intent_id ← stable_id "q1-order-intent" [PStr intent_hash];
  idempotency_key ← stable_id "q1-order-intent-idem" [PStr intent_hash];
  validate_Q1OrderIntent {|
    qi_order_intent_id := order_intent_id; qi_run_id := sd_run_id decision; qi_arm_id := sd_arm_id decision;
    qi_portfolio_decision_id := sd_portfolio_decision_id decision; qi_risk_decision_id := risk_decision_id;
    qi_source_cycle_id := ni_source_cycle_id i; qi_input_state_sequence := ni_input_state_sequence i; qi_symbol := symbol;
    qi_side := side; qi_order_class := Q1OrderClass_value NORMAL_ORDER; qi_quantity := quantity;
    qi_decision_quote_id := dq_quote_id quote; qi_decision_reference_price := m; qi_decision_spread_bps := s;
    qi_created_at := sd_decision_created_at decision; qi_valid_until := ni_valid_until i; qi_idempotency_key := idempotency_key;
    qi_algorithm_version := "q1_math_core_v1"; qi_config_manifest_hash := config_manifest_hash versions;
    qi_code_version := code_version versions; qi_model_version := model_version versions;
    qi_source_manifest_hash := source_manifest_hash versions; qi_intent_hash := intent_hash |}.

(** Sells first, then by symbol: the key [(item.side != "SELL", item.symbol)]. *)
Definition trade_le (a b : ProposedTrade) : bool :=
  match String.eqb (pt_side a) "SELL", String.eqb (pt_side b) "SELL" with
  | true, false => true
  | false, true => false
  | _, _ => String.leb (pt_symbol a) (pt_symbol b)
  end.

(** The locals of the loop: the cash that is left, the intents and the omissions so far. *)
Definition plan_state : Type := dec * list Q1OrderIntent * list (pydict string).

Definition plan_trade (i : NormalPlanInputs) (config : OrderPlanningConfig) (risk_decision_id : string) (st : plan_state)
    (trade : ProposedTrade) : res plan_state :=
  let '(remaining_settled, intents, omitted) := st in
  match dget (pt_symbol trade) (ni_quotes i) with
  | None => raise Q1PlanningError "Missing decision quote"
  | Some quote =>
      quantity ← trade_quantity config (ni_positions i) remaining_settled quote trade;
      if (quantity <=? d0)%dec then
        Ok (remaining_settled, intents,
            omitted ++ [omitted_entry (pt_symbol trade) (pt_side trade)
                          (if String.eqb (pt_side trade) "BUY" then "INSUFFICIENT_SETTLED_CASH" else "NO_SELLABLE_QUANTITY")
                          (pt_notional_usd trade)])
      else
        side ← OrderSide_of (pt_side trade);
        intent ← normal_intent i risk_decision_id quote (pt_symbol trade) side quantity;
        let remaining_settled :=
          match side with BUY => (remaining_settled - estimated_cost config quantity (dq_ask quote))%dec | SELL => remaining_settled end in
        Ok (remaining_settled, intents ++ [intent], omitted)
  end.

Definition plan_normal_orders (i : NormalPlanInputs) (config : OrderPlanningConfig) : res PlannedOrders :=
  let decision := ni_decision i in
  let carried := map carried_omission (tr_omitted_orders (ni_turnover i)) in
  require_aware_utc (ni_valid_until i);;
  raise_if (negb (instant (ni_valid_until i) =? instant (sd_valid_until decision))) Q1PlanningError "Order expiry must match decision valid_until";;
  raise_if (ni_settled_cash_usd i <? d0)%dec Q1PlanningError "Settled cash cannot be negative";;
  if String.prefix "NO_" (tr_decision_kind (ni_turnover i)) then
    h ← intents_manifest decision [] (map (λ _, PObject "OmittedOrderDiagnostic") (tr_omitted_orders (ni_turnover i)));
    Ok {| po_intents := []; po_omitted := carried; po_intent_manifest_hash := h |}
  else
    risk_decision_id ← risk_approval_id decision;
    '(_, intents, omitted) ← foldM (plan_trade i config risk_decision_id) (ni_settled_cash_usd i, [], carried)
                               (sorted trade_le (tr_proposed_trades (ni_turnover i)));
    h ← intents_manifest decision (map order_intent_val intents) (map strings_val omitted);
    Ok {| po_intents := intents; po_omitted := omitted; po_intent_manifest_hash := h |}.

(** ** [plan_target_quantity_sell_orders] *)

Record TargetPlanInputs := {
  ri_decision : Q1StrategyDecision;
  ri_current_positions : pydict dec;
  ri_target_quantities : pydict dec;
  ri_quotes : pydict DecisionQuote;
  ri_source_cycle_id : string;
  ri_input_state_sequence : Z;
  ri_order_class : Q1OrderClass;
}.

Definition reduction_intent (i : TargetPlanInputs) (risk_decision_id : string) (quote : DecisionQuote) (symbol : string)
    (target quantity : dec) : res Q1OrderIntent :=
  let decision := ri_decision i in
  let versions := sd_versioned decision in
  m ← midpoint quote;
  s ← spread_bps quote;
  intent_hash ← canonical_hash (PDict
    [("run_id", PStr (sd_run_id decision)); ("arm_id", PStr (Q1ArmId_value (sd_arm_id decision)));
     ("portfolio_decision_id", PStr (sd_portfolio_decision_id decision)); ("source_cycle_id", PStr (ri_source_cycle_id i));
     ("symbol", PStr symbol); ("side", PStr (OrderSide_value SELL)); ("quantity", PDecimal quantity); ("target_quantity", PDecimal target);
     ("decision_quote_id", PStr (dq_quote_id quote)); ("created_at", PDatetime (sd_decision_created_at decision));
     ("valid_until", PDatetime (sd_valid_until decision)); ("order_class", PStr (Q1OrderClass_value (ri_order_class i)));
     ("risk_decision_id", PStr risk_decision_id); ("decision_reference_price", PDecimal m); ("decision_spread_bps", PDecimal s);
     ("input_state_sequence", PInt (ri_input_state_sequence i)); ("config_manifest_hash", PStr (config_manifest_hash versions));
     ("code_version", PStr (code_version versions)); ("model_version", PStr (model_version versions));
     ("source_manifest_hash", PStr (source_manifest_hash versions))]);
  order_intent_id ← stable_id "q1-order-intent" [PStr intent_hash];
  idempotency_key ← stable_id "q1-order-intent-idem" [PStr intent_hash];
  validate_Q1OrderIntent {|
    qi_order_intent_id := order_intent_id; qi_run_id := sd_run_id decision; qi_arm_id := sd_arm_id decision;
    qi_portfolio_decision_id := sd_portfolio_decision_id decision; qi_risk_decision_id := risk_decision_id;
    qi_source_cycle_id := ri_source_cycle_id i; qi_input_state_sequence := ri_input_state_sequence i; qi_symbol := symbol;
    qi_side := SELL; qi_order_class := Q1OrderClass_value (ri_order_class i); qi_quantity := quantity;
    qi_decision_quote_id := dq_quote_id quote; qi_decision_reference_price := m; qi_decision_spread_bps := s;
    qi_created_at := sd_decision_created_at decision; qi_valid_until := sd_valid_until decision; qi_idempotency_key := idempotency_key;
    qi_algorithm_version := algorithm_version versions; qi_config_manifest_hash := config_manifest_hash versions;
    qi_code_version := code_version versions; qi_model_version := model_version versions;
    qi_source_manifest_hash := source_manifest_hash versions; qi_intent_hash := intent_hash |}.

Definition plan_reduction (i : TargetPlanInputs) (config : OrderPlanningConfig) (risk_decision_id : string)
    (intents : list Q1OrderIntent) (entry : string * dec) : res (list Q1OrderIntent) :=
  let '(symbol, target) := entry in
  let current := position_of (ri_current_positions i) symbol in
  raise_if ((target <? d0) || (current <? target))%dec Q1PlanningError "Sell target must be within current position";;
  quantity ← dquantize (current - target)%dec (oc_quantity_increment config) ROUND_DOWN;
  if (quantity <=? d0)%dec then Ok intents
  else
    match dget symbol (ri_quotes i) with
    | None => raise Q1PlanningError "Missing residual-target quote"
    | Some quote => intent ← reduction_intent i risk_decision_id quote symbol target quantity; Ok (intents ++ [intent])
    end.

Definition plan_target_quantity_sell_orders (i : TargetPlanInputs) (config : OrderPlanningConfig) : res PlannedOrders :=
  raise_if (bool_decide (ri_order_class i = NORMAL_ORDER)) Q1PlanningError "Target-quantity planner is sell-only";;
  risk_decision_id ← risk_approval_id (ri_decision i);
  intents ← foldM (plan_reduction i config risk_decision_id) [] (sorted_items (ri_target_quantities i));
  h ← intents_manifest (ri_decision i) (map order_intent_val intents) [];
  Ok {| po_intents := intents; po_omitted := []; po_intent_manifest_hash := h |}.
End planning.

(** ** Costs in numbers *)

#[local] Opaque ddiv_p dmul_p dadd_p dsub_p dabs_p dround.

#[local] Ltac Qreplace a b := let E := fresh in assert (a == b)%Q as E by ring; rewrite E; clear E.

(** The relative error of one operation. *)
Definition eps : Q := q10 (-25).
Lemma eps_pos : (0 < eps)%Q.
Proof. apply q10_pos. Qed.
Lemma eps_small : (1000000 * eps <= 1)%Q.
Proof. vm_compute. discriminate. Qed.

Lemma rounds_near x d : rounds_to PREC x d → (0 <= x)%Q → (x * (1 - eps) <= dval d <= x * (1 + eps))%Q.
Proof.
  intros Hr Hx. pose proof (rounds_relative PREC x d prec_pos Hr) as H. rewrite (Qabs_pos x Hx) in H.
  change (q10 (3 - PREC)) with eps in H. apply Qabs_Qle_condition in H. lra.
Qed.

Lemma rounds_pos x d : rounds_to PREC x d → (0 < x)%Q → (0 < dval d)%Q.
Proof. intros Hr Hx. destruct (rounds_near x d Hr (Qlt_le_weak _ _ Hx)) as [H _]. pose proof eps_small. nra. Qed.

#[local] Opaque eps.

Record valid_planning (c : OrderPlanningConfig) : Prop := {
  vp_increment : (0 < dval (oc_quantity_increment c))%Q;
  vp_rate : (0 <= dval (oc_commission_rate c))%Q;
  vp_waiver : (0 <= dval (oc_commission_waiver_notional_usd c))%Q;
  vp_delay : (0 <= dval (oc_delay_penalty_bps c))%Q;
  vp_precision : (0 < dval (oc_commission_precision c))%Q;
}.

Lemma validated_planning c c' : validate_OrderPlanningConfig c = Ok c' → c' = c ∧ valid_planning c.
Proof.
  unfold validate_OrderPlanningConfig. intros (u & Hu & H)%bind_Ok_inv. apply bind_Ok_inv in H as (u' & Hu' & [= <-]).
  apply raise_if_Ok_inv in Hu, Hu'. split_bool. split; [done|].
  repeat match goal with H : (_ <=? _)%dec = false |- _ => apply dleb_gt in H | H : (_ <? _)%dec = false |- _ => apply dltb_ge in H end.
  pose proof dval_d0 as E. split; lra.
Qed.

(** A quote the planner accepts, with no more digits than the context. *)
Record executable_quote (q : DecisionQuote) : Prop := {
  eq_valid : validate_DecisionQuote q = Ok q;
  eq_digits : repr PREC (dq_ask q);
}.

Lemma executable_ask q : executable_quote q → (0 < dval (dq_ask q))%Q.
Proof.
  intros [H _]. unfold validate_DecisionQuote in H. apply bind_Ok_inv in H as (u & _ & H). apply bind_Ok_inv in H as (u1 & _ & H).
  apply bind_Ok_inv in H as (u2 & H & _). apply raise_if_Ok_inv in H. split_bool.
  match goal with H : (dq_ask q <=? d0)%dec = false |- _ => apply dleb_gt in H; rewrite dval_d0 in H; exact H end.
Qed.

Section costs.
Context (config : OrderPlanningConfig) (Hc : valid_planning config).
Notation rate := (dval (oc_commission_rate config)).

Lemma estimated_cost_bound quantity ask :
  (0 <= dval quantity)%Q → (0 <= dval ask)%Q →
  let cost := dval (estimated_cost config quantity ask) in
  (0 <= cost)%Q ∧ (cost <= dval quantity * dval ask * (1 + rate) * (1 + eps) * (1 + eps) * (1 + eps))%Q.
Proof.
  intros Hq Ha. cbv zeta. unfold estimated_cost. cbv zeta. pose proof (vp_rate _ Hc) as Hr. pose proof eps_pos as He.
  assert (0 <= dval quantity * dval ask)%Q as Hqa by (apply Qmult_le_0_compat; assumption).
  destruct (rounds_near _ _ (dmul_rounds PREC quantity ask prec_pos) Hqa) as [NL NU]. fold (quantity * ask)%dec in NL, NU.
  assert (0 <= dval (quantity * ask)%dec)%Q as HN by (by eapply (rounds_nonneg PREC prec_pos); [by apply dmul_rounds|]).
  generalize dependent (quantity * ask)%dec. intros n NL NU HN. clear NL.
  set (X := (dval quantity * dval ask)%Q) in *. clearbody X.
  set (c := if (n <=? _)%dec then d0 else _).
  assert (0 <= dval c <= dval n * rate * (1 + eps))%Q as [C0 C1].
  { assert (0 <= dval n * rate)%Q as Hnr by (apply Qmult_le_0_compat; assumption). unfold c. destruct (_ <=? _)%dec.
    - rewrite dval_d0. split; [apply Qle_refl|]. apply Qmult_le_0_compat; lra.
    - destruct (rounds_near _ _ (dmul_rounds PREC n (oc_commission_rate config) prec_pos) Hnr) as [_ U].
      split; [|exact U]. by eapply (rounds_nonneg PREC prec_pos); [by apply dmul_rounds|]. }
  clearbody c.
  assert (0 <= dval n + dval c)%Q as Hnc by lra.
  destruct (rounds_near _ _ (dadd_rounds PREC n c prec_pos) Hnc) as [_ U]. fold (n + c)%dec in U.
  split; [by eapply (rounds_nonneg PREC prec_pos); [by apply dadd_rounds|]|].
  eapply Qle_trans; [exact U|]. apply Qmult_le_compat_r; [|lra].
  assert (dval n + dval c <= dval n * ((1 + rate) * (1 + eps)))%Q as H1 by nra.
  eapply Qle_trans; [exact H1|]. apply Qle_trans with (X * (1 + eps) * ((1 + rate) * (1 + eps)))%Q; [|nra].
  apply Qmult_le_compat_r; [exact NU|]. apply Qmult_le_0_compat; lra.
Qed.

(** What the affordable quantity costs before rounding, from the cash it was computed from. *)
Lemma affordable_bound remaining ask a :
  repr PREC ask → (0 < dval ask)%Q → affordable_quantity config remaining ask = Ok a →
  let A := dval (dmax d0 (remaining - oc_commission_precision config)%dec) in
  (0 <= dval a)%Q ∧ (dval a * (dval ask * (1 + rate) * (1 - eps) * (1 - eps)) <= A * (1 + eps))%Q.
Proof.
  intros Ra Ha. unfold affordable_quantity. intros (delay & Hd & H1)%bind_Ok_inv. cbv zeta in H1 |- *.
  apply bind_Ok_inv in H1 as (w & Hw & H1). pose proof (vp_rate _ Hc) as Hr. pose proof eps_pos as He. pose proof eps_small as Hes.
  assert (0 <= dval delay)%Q as Hd0 by (by apply (ddiv_nonneg PREC _ _ _ prec_pos Hd); [apply Hc|]).
  assert (1 <= dval (d1 + delay)%dec)%Q as Hk.
  { rewrite <- dval_d1. eapply rounds_ge; [by apply dadd_rounds|done|]. rewrite dval_d1. lra. }
  assert (dval ask <= dval (ask * (d1 + delay))%dec)%Q as HD by (eapply rounds_ge; [by apply dmul_rounds|done|nra]).
  assert (0 <= dval d1 + rate)%Q as Hr0 by (rewrite dval_d1; lra).
  destruct (rounds_near _ _ (dadd_rounds PREC d1 (oc_commission_rate config) prec_pos) Hr0) as [HR _]. fold (d1 + oc_commission_rate config)%dec in HR.
  rewrite dval_d1 in HR.
  assert (0 <= dval (ask * (d1 + delay))%dec * dval (d1 + oc_commission_rate config)%dec)%Q as Hu0 by (apply Qmult_le_0_compat; nra).
  destruct (rounds_near _ _ (dmul_rounds PREC _ _ prec_pos) Hu0) as [HU _].
  fold (ask * (d1 + delay) * (d1 + oc_commission_rate config))%dec in HU.
  assert (dval ask * (1 + rate) * (1 - eps) * (1 - eps) <= dval (ask * (d1 + delay) * (d1 + oc_commission_rate config))%dec)%Q as HUU.
  { eapply Qle_trans; [|exact HU]. apply Qmult_le_compat_r; [|lra]. rewrite <- Qmult_assoc.
    apply Qmult_le_compat_nonneg; [split; [lra|exact HD]|split; [apply Qmult_le_0_compat; lra|exact HR]]. }
  clear HU Hu0. generalize dependent (ask * (d1 + delay) * (d1 + oc_commission_rate config))%dec. intros U HwU HU.
  set (A := dmax d0 _) in *. assert (0 <= dval A)%Q as HA by (apply remaining_nonneg). clearbody A.
  destruct (ddiv_Ok_rounds PREC _ _ _ prec_pos HwU) as [Hnz Hrd].
  assert (0 < dval U)%Q as HU0 by (eapply Qlt_le_trans; [|exact HU]; repeat (apply Qmult_lt_0_compat; [|lra]); exact Ha).
  assert (0 <= dval A / dval U)%Q as HAU by (apply Qle_shift_div_l; lra).
  destruct (rounds_near _ _ Hrd HAU) as [_ Wu].
  assert (0 <= dval w)%Q as Hw0 by (by eapply (rounds_nonneg PREC prec_pos)).
  apply dquantize_down in H1 as (_ & _ & Ha0 & Haw); [|done]. split; [done|].
  apply Qle_trans with (dval w * dval U)%Q; [apply Qmult_le_compat_nonneg; [done|split; [repeat (apply Qmult_le_0_compat; [|lra]); by apply Qlt_le_weak|exact HU]]|].
  apply Qle_trans with (dval A / dval U * (1 + eps) * dval U)%Q; [by apply Qmult_le_compat_r, Qlt_le_weak|].
  assert (dval A / dval U * (1 + eps) * dval U == dval A * (1 + eps))%Q as -> by (field; done). apply Qle_refl.
Qed.

(** The accumulated relative errors. *)
Lemma errors_absorbed X A cost e :
  (0 <= e <= 1 # 100)%Q → (0 <= X)%Q → (0 <= A)%Q → (X * ((1 - e) * (1 - e)) <= A * (1 + e))%Q →
  (cost <= X * (1 + e) * (1 + e) * (1 + e))%Q → (cost <= A * (1 + 7 * e))%Q.
Proof.
  intros He HX HA H1 H2. assert (0 < (1 - e) * (1 - e))%Q as Hp by nra.
  apply (Qmult_le_r _ _ _ Hp). eapply Qle_trans; [apply Qmult_le_compat_r; [exact H2|by apply Qlt_le_weak]|].
  Qreplace (X * (1 + e) * (1 + e) * (1 + e) * ((1 - e) * (1 - e)))%Q (X * ((1 - e) * (1 - e)) * ((1 + e) * (1 + e) * (1 + e)))%Q.
  eapply Qle_trans; [apply Qmult_le_compat_r; [exact H1|nra]|].
  assert (0 <= (1 + 7 * e) * ((1 - e) * (1 - e)) - (1 + e) * ((1 + e) * (1 + e) * (1 + e)))%Q as Hpoly.
  { Qreplace ((1 + 7 * e) * ((1 - e) * (1 - e)) - (1 + e) * ((1 + e) * (1 + e) * (1 + e)))%Q (e * (1 - 19 * e + 3 * (e * e) - e * e * e))%Q.
    apply Qmult_le_0_compat; [lra|nra]. }
  nra.
Qed.

(** A purchase costs, with its estimated commission, no more than the remaining cash less the margin, up to rounding. *)
Lemma purchase_funded remaining ask a quantity :
  repr PREC ask → (0 < dval ask)%Q → affordable_quantity config remaining ask = Ok a →
  (0 < dval quantity <= dval a)%Q →
  (0 <= dval (estimated_cost config quantity ask)
   <= dval remaining - dval (oc_commission_precision config) + 9 * eps * dval remaining)%Q.
Proof.
  intros Ra Ha Haff [Hq Hqa]. pose proof (vp_rate _ Hc) as Hr. pose proof eps_pos as He. pose proof eps_small as Hes.
  pose proof (vp_precision _ Hc) as Hp.
  destruct (affordable_bound _ _ _ Ra Ha Haff) as [Ha0 Hbound].
  destruct (estimated_cost_bound quantity ask (Qlt_le_weak _ _ Hq) (Qlt_le_weak _ _ Ha)) as [Hcost0 Hcost].
  split; [exact Hcost0|].
  pose proof (remaining_nonneg (remaining - oc_commission_precision config)%dec) as HA.
  assert (0 <= dval ask * (1 + rate))%Q as HV by (apply Qmult_le_0_compat; lra).
  set (V := (dval ask * (1 + rate))%Q) in *. assert (0 < V)%Q as HV0 by (apply Qmult_lt_0_compat; lra).
  assert (dval quantity * V * ((1 - eps) * (1 - eps)) <= dval (dmax d0 (remaining - oc_commission_precision config)%dec) * (1 + eps))%Q as H1.
  { eapply Qle_trans; [|exact Hbound]. Qreplace (dval quantity * V * ((1 - eps) * (1 - eps)))%Q (dval quantity * (V * (1 - eps) * (1 - eps)))%Q.
    apply Qmult_le_compat_r; [exact Hqa|]. apply Qmult_le_0_compat; [|lra]. apply Qmult_le_0_compat; [exact HV|lra]. }
  assert (dval (estimated_cost config quantity ask) <= dval quantity * V * (1 + eps) * (1 + eps) * (1 + eps))%Q as H2.
  { eapply Qle_trans; [exact Hcost|]. unfold V. rewrite Qmult_assoc. apply Qle_refl. }
  assert (0 < dval quantity * V)%Q as HX by (by apply Qmult_lt_0_compat).
  pose proof (errors_absorbed _ _ _ eps ltac:(lra) (Qlt_le_weak _ _ HX) HA H1 H2) as H3.
  assert (0 < dval quantity * V * ((1 - eps) * (1 - eps)))%Q as HX' by (apply Qmult_lt_0_compat; [exact HX|apply Qmult_lt_0_compat; lra]).
  destruct (Qlt_le_dec 0 (dval remaining - dval (oc_commission_precision config))) as [Hpos|Hneg].
  - destruct (rounds_near _ _ (dsub_rounds PREC remaining (oc_commission_precision config) prec_pos) (Qlt_le_weak _ _ Hpos)) as [_ U].
    fold (remaining - oc_commission_precision config)%dec in U.
    assert (dval (dmax d0 (remaining - oc_commission_precision config)%dec)
            <= (dval remaining - dval (oc_commission_precision config)) * (1 + eps))%Q as HAU.
    { pose proof dval_d0. assert (0 <= (dval remaining - dval (oc_commission_precision config)) * (1 + eps))%Q by (apply Qmult_le_0_compat; lra).
      destruct (dmax_spec d0 (remaining - oc_commission_precision config)%dec) as [[-> ?]|[-> ?]]; lra. }
    clear - H3 HAU He Hes Hpos Hp HA. revert H3 HAU HA. generalize (dval (dmax d0 (remaining - oc_commission_precision config)%dec)).
    generalize (dval (estimated_cost config quantity ask)). intros cost A H3 HAU HA.
    set (y := (dval remaining - dval (oc_commission_precision config))%Q) in *.
    assert (A * (1 + 7 * eps) <= y * (1 + eps) * (1 + 7 * eps))%Q as H4 by (apply Qmult_le_compat_r; lra).
    assert (0 <= y * (eps * (1 - 7 * eps)))%Q as H5 by (apply Qmult_le_0_compat; [by apply Qlt_le_weak|apply Qmult_le_0_compat; lra]).
    assert (9 * eps * y <= 9 * eps * dval remaining)%Q as H6; [|lra].
    apply Qmult_le_l; [lra|unfold y; lra].
  - exfalso. assert (dval (remaining - oc_commission_precision config)%dec <= 0)%Q as Hs.
    { by eapply (rounds_nonpos PREC prec_pos); [by apply dsub_rounds|]. }
    assert (dval (dmax d0 (remaining - oc_commission_precision config)%dec) <= 0)%Q as HA0.
    { pose proof dval_d0. destruct (dmax_spec d0 (remaining - oc_commission_precision config)%dec) as [[-> ?]|[-> ?]]; lra. }
    nra.
Qed.
End costs.

(** ** Facts about the planner *)

Section planner.
Context `{Digest}.

Lemma dquantize_source d q a : dquantize d q ROUND_DOWN = Ok a → (0 < dval a)%Q → (0 <= dval d)%Q.
Proof.
  unfold dquantize, dquantize_p. cbv zeta. destruct (Z.ltb_spec PREC (ndigits (dcoef (rescale ROUND_DOWN d (dexp q))))) as [|_]; [done|].
  intros [= <-] Hpos. apply dval_nonneg_coef. destruct (Z.le_gt_cases 0 (dcoef d)) as [|Hneg]; [done|exfalso].
  apply Qlt_not_le in Hpos. apply Hpos. clear Hpos. unfold rescale. destruct (Z.leb_spec (dexp q) (dexp d)) as [He|He].
  - assert (dval (Dec (at_exp (dexp q) d) (dexp q)) == dval d)%Q as -> by (symmetry; by apply dval_at).
    destruct (Qlt_le_dec 0 (dval d)) as [Hd|]; [|done]. apply Qlt_le_weak, dval_nonneg_coef in Hd. lia.
  - unfold round_coef, round_mag. cbv zeta. rewrite Z.sgn_neg by done.
    assert (0 <= Z.abs (dcoef d) / 10 ^ (dexp q - dexp d)) as Hdiv by (apply Z.div_pos; [lia|apply Z.pow_pos_nonneg; lia]).
    pose proof (q10_pos (dexp q)) as Hq. unfold dval; cbn [dcoef dexp].
    apply Qle_trans with (0 * q10 (dexp q))%Q; [|rewrite Qmult_0_l; apply Qle_refl]. apply Qmult_le_compat_r; [|lra].
    change 0%Q with (inject_Z 0). rewrite <- Zle_Qle. lia.
Qed.

Lemma sell_quantity_covered config quantity position q :
  sell_quantity config quantity position = Ok q → (0 < dval q)%Q → (dval q <= dval quantity)%Q ∧ (dval q <= dval position)%Q.
Proof.
  unfold sell_quantity. intros Hq Hpos. pose proof (dquantize_source _ _ _ Hq Hpos) as H0.
  apply dquantize_down in Hq as (_ & _ & _ & Hle); [|done].
  destruct (dmin_spec quantity position) as [[E ?]|[E ?]]; rewrite E in Hle; split; lra.
Qed.

Lemma side_text s side : OrderSide_of s = Ok side → s = OrderSide_value side.
Proof. unfold OrderSide_of. destruct (String.eqb_spec s "BUY") as [->|_]; [by intros [= <-]|]. destruct (String.eqb_spec s "SELL") as [->|_]; [by intros [= <-]|done]. Qed.

(** The fields of a validated intent that the theorems speak of. *)
Lemma normal_intent_fields i rid quote symbol side quantity o :
  normal_intent i rid quote symbol side quantity = Ok o →
  qi_symbol o = symbol ∧ qi_side o = side ∧ qi_quantity o = quantity ∧ qi_order_class o = "NORMAL".
Proof.
  unfold normal_intent. cbv zeta. intros (m & _ & H1)%bind_Ok_inv. apply bind_Ok_inv in H1 as (s & _ & H1).
  apply bind_Ok_inv in H1 as (h & _ & H1). apply bind_Ok_inv in H1 as (id & _ & H1). apply bind_Ok_inv in H1 as (key & _ & H1).
  unfold validate_Q1OrderIntent in H1. repeat apply bind_Ok_inv in H1 as (? & _ & H1). by injection H1 as <-.
Qed.

Lemma reduction_intent_fields i rid quote symbol target quantity o :
  reduction_intent i rid quote symbol target quantity = Ok o →
  qi_symbol o = symbol ∧ qi_side o = SELL ∧ qi_quantity o = quantity ∧ qi_order_class o = Q1OrderClass_value (ri_order_class i).
Proof.
  unfold reduction_intent. cbv zeta. intros (m & _ & H1)%bind_Ok_inv. apply bind_Ok_inv in H1 as (s & _ & H1).
  apply bind_Ok_inv in H1 as (h & _ & H1). apply bind_Ok_inv in H1 as (id & _ & H1). apply bind_Ok_inv in H1 as (key & _ & H1).
  unfold validate_Q1OrderIntent in H1. repeat apply bind_Ok_inv in H1 as (? & _ & H1). by injection H1 as <-.
Qed.

(** One trade: an omission, or an intent for a positive quantity. *)
Lemma plan_trade_inv i config rid rem intents omitted t st :
  plan_trade i config rid (rem, intents, omitted) t = Ok st →
  (∃ e, st = (rem, intents, omitted ++ [e]))
  ∨ ∃ quote q side o, dget (pt_symbol t) (ni_quotes i) = Some quote
    ∧ trade_quantity config (ni_positions i) rem quote t = Ok q ∧ (0 < dval q)%Q
    ∧ pt_side t = OrderSide_value side
    ∧ qi_symbol o = pt_symbol t ∧ qi_side o = side ∧ qi_quantity o = q ∧ qi_order_class o = "NORMAL"
    ∧ st = (match side with BUY => (rem - estimated_cost config q (dq_ask quote))%dec | SELL => rem end, intents ++ [o], omitted).
Proof.
  unfold plan_trade. destruct (dget _ _) as [quote|] eqn:Eq; [|done]. intros (q & Hq & H1)%bind_Ok_inv.
  destruct (q <=? d0)%dec eqn:E0; [injection H1 as <-; left; by eexists|right].
  apply bind_Ok_inv in H1 as (side & Hs & H1). apply bind_Ok_inv in H1 as (o & Ho & H1). injection H1 as <-.
  apply normal_intent_fields in Ho as (? & ? & ? & ?). apply dleb_gt in E0. rewrite dval_d0 in E0.
  exists quote, q, side, o. by rewrite <- (side_text _ _ Hs).
Qed.

(** A plan is empty, or the outcome of the loop. *)
Lemma plan_normal_inv i config r :
  plan_normal_orders i config = Ok r →
  (0 <= dval (ni_settled_cash_usd i))%Q
  ∧ (po_intents r = []
     ∨ ∃ rid rem, foldM (plan_trade i config rid) (ni_settled_cash_usd i, [], map carried_omission (tr_omitted_orders (ni_turnover i)))
         (sorted trade_le (tr_proposed_trades (ni_turnover i))) = Ok (rem, po_intents r, po_omitted r)).
Proof.
  unfold plan_normal_orders. cbv zeta. intros (u & _ & H1)%bind_Ok_inv. apply bind_Ok_inv in H1 as (u1 & _ & H1).
  apply bind_Ok_inv in H1 as (u2 & Hs & H1). apply raise_if_Ok_inv, dltb_ge in Hs. rewrite dval_d0 in Hs. split; [done|].
  destruct (String.prefix _ _).
  - apply bind_Ok_inv in H1 as (h & _ & [= <-]). by left.
  - apply bind_Ok_inv in H1 as (rid & _ & H1). apply bind_Ok_inv in H1 as ([[rem intents] omitted] & Hf & H1).
    apply bind_Ok_inv in H1 as (h & _ & [= <-]). right. by exists rid, rem.
Qed.
End planner.

(** Planned orders never sell what is not held: every intent is for a positive quantity, and a sale for at most the
    position in its symbol. *)
Theorem planned_sells_covered `{Digest} i config r o :
  plan_normal_orders i config = Ok r → o ∈ po_intents r →
  (0 < dval (qi_quantity o))%Q ∧ qi_order_class o = "NORMAL"
  ∧ (qi_side o = SELL → dval (qi_quantity o) <= dval (position_of (ni_positions i) (qi_symbol o)))%Q.
Proof.
  intros (_ & [He|(rid & rem & Hf)])%plan_normal_inv Ho; [by rewrite He in Ho; inversion Ho|].
  set (P := λ o, (0 < dval (qi_quantity o))%Q ∧ qi_order_class o = "NORMAL"
    ∧ (qi_side o = SELL → dval (qi_quantity o) <= dval (position_of (ni_positions i) (qi_symbol o)))%Q).
  assert (∀ o, o ∈ po_intents r → P o) as HP; [|by apply HP].
  revert Hf. generalize (po_omitted r). intros om. intros Hf o' Ho'.
  assert (∀ x, x ∈ ((rem, po_intents r, om) : plan_state).1.2 → P x) as Hall; [|by apply Hall].
  revert Hf. apply (foldM_invariant (λ st : plan_state, ∀ x, x ∈ st.1.2 → P x)); [|cbn; intros x Hx; inversion Hx].
  intros [[rem0 ints] oms] t st _ IH [(e & ->)|(quote & q & side & o1 & _ & Hq & Hpos & Hside & Esym & Eside & Eq & Ec & ->)]%plan_trade_inv; [done|].
  cbn in IH |- *. intros x [Hx|Hx%list_elem_of_singleton]%elem_of_app; [by apply IH|]. rewrite Hx. unfold P. rewrite Eq, Eside, Esym.
  split; [done|]. split; [done|]. intros ->. unfold trade_quantity in Hq. rewrite Hside in Hq. cbn in Hq.
  apply bind_Ok_inv in Hq as (m & _ & Hq). apply bind_Ok_inv in Hq as (w & _ & Hq). apply bind_Ok_inv in Hq as (z & _ & Hq).
  by apply (sell_quantity_covered _ _ _ _ Hq).
Qed.

(** ** The purchases against the settled cash *)

(** What an intent is estimated to cost: the code's own estimate, at the ask of its quote. *)
Definition planned_cost (config : OrderPlanningConfig) (quotes : pydict DecisionQuote) (o : Q1OrderIntent) : Q :=
  match qi_side o, dget (qi_symbol o) quotes with
  | BUY, Some quote => dval (estimated_cost config (qi_quantity o) (dq_ask quote))
  | _, _ => 0%Q
  end.
Fixpoint total_cost (config : OrderPlanningConfig) (quotes : pydict DecisionQuote) (l : list Q1OrderIntent) : Q :=
  match l with [] => 0%Q | o :: l => (planned_cost config quotes o + total_cost config quotes l)%Q end.

Lemma total_cost_app config quotes l1 l2 :
  (total_cost config quotes (l1 ++ l2) == total_cost config quotes l1 + total_cost config quotes l2)%Q.
Proof. induction l1 as [|o l1 IH]; cbn; [ring|]. rewrite IH. ring. Qed.

Section budget.
Context `{Digest} (i : NormalPlanInputs) (config : OrderPlanningConfig) (Hc : valid_planning config).
Notation settled := (dval (ni_settled_cash_usd i)).
Notation margin := (dval (oc_commission_precision config)).
Hypothesis (Hquotes : ∀ symbol quote, dget symbol (ni_quotes i) = Some quote → executable_quote quote).
Hypothesis (Hsettled : repr PREC (ni_settled_cash_usd i)) (Hmargin : (settled * (2000 * eps) <= margin)%Q).

(** What the loop keeps after [n] trades. *)
Definition funded (n : nat) (st : plan_state) : Prop :=
  let '(rem, intents, _) := st in
  let spent := total_cost config (ni_quotes i) intents in
  repr PREC rem ∧ (0 <= dval rem <= settled)%Q ∧ (spent <= settled)%Q ∧ (spent + dval rem <= settled + inject_Z (Z.of_nat n) * eps * settled)%Q.

Lemma funded_weaken n st : (0 <= settled)%Q → funded n st → funded (S n) st.
Proof.
  destruct st as [[rem ints] om]. intros HS (R & B & T & L). split; [done|]. split; [done|]. split; [done|].
  eapply Qle_trans; [exact L|]. pose proof eps_pos as He. rewrite Nat2Z.inj_succ, <- Z.add_1_l, inject_Z_plus.
  assert (0 <= eps * settled)%Q by (apply Qmult_le_0_compat; lra). change (inject_Z 1) with 1%Q. lra.
Qed.

Lemma purchase_rem rem ints om quote q a o n :
  (Z.of_nat n < 1000) → (0 <= settled)%Q → executable_quote quote → funded n (rem, ints, om) →
  affordable_quantity config rem (dq_ask quote) = Ok a → (0 < dval q <= dval a)%Q →
  planned_cost config (ni_quotes i) o = dval (estimated_cost config q (dq_ask quote)) →
  funded (S n) ((rem - estimated_cost config q (dq_ask quote))%dec, ints ++ [o], om).
Proof.
  intros Hn HS Hq (R & [B1 B2] & T & L) Ha Hqa Hcost.
  destruct (purchase_funded config Hc rem (dq_ask quote) a q (eq_digits _ Hq) (executable_ask _ Hq) Ha Hqa) as [C0 C1].
  pose proof eps_pos as He. pose proof eps_small as Hes. set (cost := estimated_cost config q (dq_ask quote)) in *. clearbody cost.
  assert (0 <= eps * settled)%Q as HeS by (apply Qmult_le_0_compat; lra).
  assert (eps * dval rem <= eps * settled)%Q as Hrem by (rewrite (Qmult_comm eps), (Qmult_comm eps); apply Qmult_le_compat_r; lra).
  assert (0 <= dval rem - dval cost)%Q as Hd by lra.
  assert (inject_Z (Z.of_nat n) * (eps * settled) <= 1000 * (eps * settled))%Q as Hk.
  { apply Qmult_le_compat_r; [|exact HeS]. change 1000%Q with (inject_Z 1000). rewrite <- Zle_Qle. lia. }
  pose proof (dsub_rounds PREC rem cost prec_pos) as Hr. fold (rem - cost)%dec in Hr.
  destruct (rounds_near _ _ Hr Hd) as [_ U].
  assert (dval (rem - cost)%dec <= dval rem)%Q as Hle by (eapply rounds_le; [exact Hr|exact R|lra]).
  assert (eps * (dval rem - dval cost) <= eps * settled)%Q as He2 by (rewrite (Qmult_comm eps), (Qmult_comm eps); apply Qmult_le_compat_r; lra).
  unfold funded. rewrite total_cost_app. cbn [total_cost]. rewrite Hcost.
  split; [apply Hr|]. split; [split; [by apply (rounds_nonneg PREC prec_pos _ _ Hr)|lra]|].
  rewrite Nat2Z.inj_succ, <- Z.add_1_l, inject_Z_plus. change (inject_Z 1) with 1%Q. split; lra.
Qed.

Lemma plan_trade_funded rid n st t st' :
  (Z.of_nat n < 1000) → (0 <= settled)%Q → funded n st → plan_trade i config rid st t = Ok st' → funded (S n) st'.
Proof.
  intros Hn HS Hf. destruct st as [[rem ints] om].
  intros [(e & ->)|(quote & q & side & o & Hq & Htq & Hpos & Hside & Esym & Eside & Eq & _ & ->)]%plan_trade_inv.
  { exact (funded_weaken n (rem, ints, om) HS Hf). }
  destruct side.
  - unfold trade_quantity in Htq. rewrite Hside in Htq. cbn in Htq. apply bind_Ok_inv in Htq as (m & _ & Htq).
    apply bind_Ok_inv in Htq as (w & _ & Htq). apply bind_Ok_inv in Htq as (z & _ & Htq). apply bind_Ok_inv in Htq as (a & Ha & [= <-]).
    apply (purchase_rem rem ints om quote _ a o n Hn HS (Hquotes _ _ Hq) Hf Ha).
    + destruct (dmin_spec z a) as [[E ?]|[E ?]]; rewrite E in Hpos |- *; split; lra.
    + unfold planned_cost. by rewrite Eside, Esym, Hq, Eq.
  - apply funded_weaken; [done|]. destruct Hf as (R & B & T & L). unfold funded. rewrite total_cost_app. cbn [total_cost].
    assert (planned_cost config (ni_quotes i) o = 0)%Q as -> by (unfold planned_cost; by rewrite Eside).
    split; [done|]. split; [done|]. split; lra.
Qed.
End budget.

(** C31: The purchases of a plan are funded by settled cash: their estimated costs, each the notional at the ask with its
    commission, add up to at most the settled cash. Sales of the same plan do not count towards it. *)
Theorem planned_purchases_funded `{Digest} i config r :
  valid_planning config → (∀ symbol quote, dget symbol (ni_quotes i) = Some quote → executable_quote quote) →
  repr PREC (ni_settled_cash_usd i) →
  (dval (ni_settled_cash_usd i) * (2000 * q10 (-25)) <= dval (oc_commission_precision config))%Q →
  (length (tr_proposed_trades (ni_turnover i)) <= 1000)%nat →
  plan_normal_orders i config = Ok r →
  (total_cost config (ni_quotes i) (po_intents r) <= dval (ni_settled_cash_usd i))%Q.
Proof.
  intros Hc Hquotes Hs Hm Hlen (HS & [->|(rid & rem & Hf)])%plan_normal_inv; [exact HS|].
  revert Hf. generalize (po_omitted r). intros om Hf.
  assert (funded i config (length (sorted trade_le (tr_proposed_trades (ni_turnover i)))) (rem, po_intents r, om)) as (_ & _ & Hspent & _); [|exact Hspent].
  revert Hf. apply (foldM_prefix_invariant (λ pre st, funded i config (length pre) st)).
  { unfold funded. cbn [total_cost length]. change (inject_Z (Z.of_nat 0)) with 0%Q. split; [done|]. split; [split; [done|apply Qle_refl]|].
    split; [done|]. lra. }
  intros pre t st st' Hpre Hfun Hstep. apply prefix_length in Hpre.
  rewrite length_sorted in Hpre. rewrite length_app in Hpre |- *. cbn in Hpre |- *. rewrite Nat.add_1_r. by apply (plan_trade_funded i config Hc Hquotes Hm rid _ st t); [lia|..].
Qed.

(** On a grid and within range, differences are exact. *)
Lemma dsub_exact k a b :
  on_grid k a → on_grid k b → Z.abs (units k a - units k b) < LIMIT → (dval (a - b)%dec == dval a - dval b)%Q.
Proof.
  intros Ha Hb Hl. destruct (dsub_units k a b Ha Hb Hl) as [G U]. rewrite (units_dval _ _ G), (units_dval _ _ Ha), (units_dval _ _ Hb), U.
  unfold Z.sub. rewrite inject_Z_plus, inject_Z_opp. ring.
Qed.

Section reductions.
Context `{Digest} (i : TargetPlanInputs) (config : OrderPlanningConfig) (k : Z).
Notation current symbol := (position_of (ri_current_positions i) symbol).
(** Positions and targets are whole multiples of one quantity, within the range of the context. *)
Definition common_grid : Prop :=
  ∀ symbol target, (symbol, target) ∈ ri_target_quantities i →
  on_grid k (current symbol) ∧ on_grid k target ∧ Z.abs (units k (current symbol) - units k target) < LIMIT.
Hypothesis Hgrid : common_grid.

Definition residual (o : Q1OrderIntent) : Prop :=
  ∃ target, (qi_symbol o, target) ∈ ri_target_quantities i ∧ qi_side o = SELL ∧ qi_order_class o = Q1OrderClass_value (ri_order_class i)
    ∧ (0 < dval (qi_quantity o))%Q ∧ (0 <= dval target)%Q
    ∧ (dval target + dval (qi_quantity o) <= dval (current (qi_symbol o)))%Q.

Lemma plan_reduction_residual rid intents entry intents' :
  entry ∈ ri_target_quantities i → plan_reduction i config rid intents entry = Ok intents' →
  intents' = intents ∨ ∃ o, intents' = intents ++ [o] ∧ residual o.
Proof.
  destruct entry as [symbol target]. intros Hin. unfold plan_reduction. cbv zeta. intros (u & Hu & H1)%bind_Ok_inv.
  apply raise_if_Ok_inv, orb_false_iff in Hu as [H0 _]. apply dltb_ge in H0. rewrite dval_d0 in H0.
  apply bind_Ok_inv in H1 as (q & Hq & H1). destruct (q <=? d0)%dec eqn:Eq; [injection H1 as <-; by left|right].
  apply dleb_gt in Eq. rewrite dval_d0 in Eq. destruct (dget symbol (ri_quotes i)) as [quote|]; [|done].
  apply bind_Ok_inv in H1 as (o & Ho & [= <-]). exists o. split; [done|].
  apply reduction_intent_fields in Ho as (Esym & Eside & Equ & Ec). exists target. rewrite Esym, Eside, Equ, Ec.
  do 5 (split; [done|]). destruct (Hgrid _ _ Hin) as (G1 & G2 & L). pose proof (dsub_exact k _ _ G1 G2 L) as Hx.
  pose proof (dquantize_source _ _ _ Hq Eq) as Hs. apply dquantize_down in Hq as (_ & _ & _ & Hle); [|done]. lra.
Qed.

Lemma reductions_residual r o : plan_target_quantity_sell_orders i config = Ok r → o ∈ po_intents r → residual o.
Proof.
  unfold plan_target_quantity_sell_orders. intros (u & _ & H1)%bind_Ok_inv. apply bind_Ok_inv in H1 as (rid & _ & H1).
  apply bind_Ok_inv in H1 as (intents & Hf & H1). apply bind_Ok_inv in H1 as (h & _ & [= <-]). cbn. revert o.
  revert Hf. apply (foldM_invariant (λ l, ∀ o, o ∈ l → residual o)); [|intros o Ho; inversion Ho].
  intros l entry l' Hin IH Hstep. apply elem_of_sorted in Hin.
  destruct (plan_reduction_residual _ _ _ _ Hin Hstep) as [->|(o1 & -> & Ho1)]; [done|].
  intros o [Ho|Ho%list_elem_of_singleton]%elem_of_app; [by apply IH|]. by rewrite Ho.
Qed.
End reductions.

(** Reductions only sell, and leave the target: with positions and targets on a common grid, each intent sells a positive
    quantity, at most the excess of the position over its target. *)
Theorem reductions_leave_target `{Digest} i config r o k target :
  common_grid i k → NoDup (ri_target_quantities i).*1 →
  plan_target_quantity_sell_orders i config = Ok r → o ∈ po_intents r → dget (qi_symbol o) (ri_target_quantities i) = Some target →
  qi_side o = SELL ∧ sell_only_class (qi_order_class o) = true ∧ (0 < dval (qi_quantity o))%Q ∧ (0 <= dval target)%Q
  ∧ (dval target + dval (qi_quantity o) <= dval (position_of (ri_current_positions i) (qi_symbol o)))%Q.
Proof.
  intros Hg Hnd Hr Ho Ht. destruct (reductions_residual i config k Hg r o Hr Ho) as (t & Hin & Hside & Hclass & Hq & H0 & Hle).
  apply (dget_elem _ _ _ Hnd) in Hin. rewrite Hin in Ht. injection Ht as ->. rewrite Hclass.
  unfold plan_target_quantity_sell_orders in Hr. apply bind_Ok_inv in Hr as (u & Hc & _). apply raise_if_Ok_inv in Hc. split_bool.
  split; [done|]. split; [by destruct (ri_order_class i)|]. done.
Qed.

(** ** Decisions *)

Section decisions.
Context `{Digest}.

(** What a validated decision promises about time. *)
Record point_in_time (d : Q1StrategyDecision) : Prop := {
  pit_cutoff : instant (sd_signal_data_cutoff d) <= instant (sd_scheduled_at d);
  pit_bars : ∀ r, r ∈ im_source_bars (sd_input_manifest d) → instant (pr_available_at r) <= instant (sd_signal_data_cutoff d);
  pit_quotes : ∀ r, r ∈ im_quotes (sd_input_manifest d) → instant (pr_available_at r) <= instant (sd_quote_as_of d);
  pit_known : instant (sd_quote_as_of d) <= instant (sd_decision_created_at d)
    ∧ instant (sd_portfolio_state_as_of d) <= instant (sd_decision_created_at d);
  pit_window : instant (sd_decision_created_at d) < instant (sd_valid_until d);
}.

Lemma existsb_late (t : datetime) l r :
  existsb (λ r, dt_lt t (pr_available_at r)) l = false → r ∈ l → instant (pr_available_at r) <= instant t.
Proof.
  intros He Hr. destruct (Z.le_gt_cases (instant (pr_available_at r)) (instant t)) as [|Hlt]; [done|]. exfalso.
  apply not_true_iff_false in He. apply He, existsb_exists. exists r. split; [by apply list_elem_of_In|].
  unfold dt_lt. by apply Z.ltb_lt.
Qed.

Lemma contract_point_in_time d : validate_point_in_time_contract d = Ok () → point_in_time d.
Proof.
  unfold validate_point_in_time_contract, invalid. cbv zeta. intros (u1 & H1 & Hr)%bind_Ok_inv. apply bind_Ok_inv in Hr as (u2 & H2 & Hr).
  apply bind_Ok_inv in Hr as (u3 & H3 & Hr). apply bind_Ok_inv in Hr as (u4 & H4 & Hr). apply bind_Ok_inv in Hr as (u5 & _ & Hr).
  apply bind_Ok_inv in Hr as (u6 & _ & Hr). apply bind_Ok_inv in Hr as (u7 & H7 & Hr). apply bind_Ok_inv in Hr as (u8 & H8 & _).
  apply raise_if_Ok_inv in H1, H2, H3, H4, H7, H8. unfold dt_lt, dt_le in H1, H2, H3, H4.
  split; [lia|by intros; eapply existsb_late|by intros; eapply existsb_late|lia|lia].
Qed.

(** The decision a build makes, before it is validated. *)
Lemma build_decision_inv i token attempt d :
  build_portfolio_decision i token attempt = Ok d →
  validate_Q1StrategyDecision d = Ok d ∧ sd_worker_fence_token d = token ∧ sd_cycle_attempt_count d = attempt
  ∧ sd_input_manifest d = di_input_manifest i ∧ canonical_hash (decision_content i) = Ok (sd_decision_hash d).
Proof.
  unfold build_portfolio_decision. intros (h & Hh & H1)%bind_Ok_inv. apply bind_Ok_inv in H1 as (id & Hid & H1).
  apply bind_Ok_inv in H1 as (c & Hcd & H1). set (d0 := Build_Q1StrategyDecision _ _ _ _ _ _ _ _ _ _ _ _ _ _ _ _ _ _ _) in H1.
  assert (d = d0) as ->; [|done].
  unfold validate_Q1StrategyDecision in H1. repeat apply bind_Ok_inv in H1 as (? & _ & H1). by injection H1.
Qed.

(** The same build by another worker, on another attempt. *)
Definition with_owner (token : string) (attempt : Z) (d : Q1StrategyDecision) : Q1StrategyDecision :=
  {| sd_versioned := sd_versioned d; sd_portfolio_decision_id := sd_portfolio_decision_id d; sd_run_id := sd_run_id d;
     sd_arm_id := sd_arm_id d; sd_source_cycle_id := sd_source_cycle_id d; sd_input_state_sequence := sd_input_state_sequence d;
     sd_decision_kind := sd_decision_kind d; sd_scheduled_at := sd_scheduled_at d; sd_signal_data_cutoff := sd_signal_data_cutoff d;
     sd_portfolio_state_as_of := sd_portfolio_state_as_of d; sd_quote_as_of := sd_quote_as_of d;
     sd_decision_created_at := sd_decision_created_at d; sd_valid_until := sd_valid_until d; sd_input_manifest := sd_input_manifest d;
     sd_target_weights := sd_target_weights d; sd_diagnostics := sd_diagnostics d; sd_worker_fence_token := token;
     sd_cycle_attempt_count := attempt; sd_decision_hash := sd_decision_hash d |}.

Lemma validate_with_owner token attempt d :
  1 <= attempt → validate_Q1StrategyDecision d = Ok d →
  validate_Q1StrategyDecision (with_owner token attempt d) = Ok (with_owner token attempt d).
Proof.
  intros Ha. unfold validate_Q1StrategyDecision. cbn [with_owner sd_versioned sd_input_state_sequence sd_scheduled_at
    sd_signal_data_cutoff sd_portfolio_state_as_of sd_quote_as_of sd_decision_created_at sd_valid_until sd_cycle_attempt_count].
  change (validate_point_in_time_contract (with_owner token attempt d)) with (validate_point_in_time_contract d).
  intros Hv. repeat (apply bind_Ok_inv in Hv as (? & ?E & Hv)).
  repeat match goal with E : ?m = Ok _ |- context [?m] => rewrite E; clear E; cbn [mbind res_bind] end.
  assert (attempt <? 1 = false) as -> by lia. cbn [invalid raise_if mbind res_bind].
  repeat match goal with E : ?m = Ok _ |- context [?m] => rewrite E; clear E; cbn [mbind res_bind] end. done.
Qed.

Lemma build_other_owner i token attempt d token' attempt' :
  1 <= attempt' → build_portfolio_decision i token attempt = Ok d →
  build_portfolio_decision i token' attempt' = Ok (with_owner token' attempt' d).
Proof.
  intros Ha Hb. destruct (build_decision_inv _ _ _ _ Hb) as (Hv & _). revert Hb. unfold build_portfolio_decision.
  intros (h & Hh & H1)%bind_Ok_inv. apply bind_Ok_inv in H1 as (id & Hid & H1). apply bind_Ok_inv in H1 as (c & Hcd & H1).
  rewrite Hh. cbn [mbind res_bind]. rewrite Hid. cbn [mbind res_bind]. rewrite Hcd. cbn [mbind res_bind].
  set (d0 := Build_Q1StrategyDecision _ _ _ _ _ _ _ _ _ _ _ _ _ _ _ _ _ _ _) in H1.
  assert (d = d0) as ->. { unfold validate_Q1StrategyDecision in H1. repeat apply bind_Ok_inv in H1 as (? & _ & H1). by injection H1. }
  by apply (validate_with_owner token' attempt' d0 Ha).
Qed.

(** Neither planner looks at the owner of a decision. *)
Definition normal_inputs_with (i : NormalPlanInputs) (d : Q1StrategyDecision) : NormalPlanInputs :=
  {| ni_decision := d; ni_turnover := ni_turnover i; ni_positions := ni_positions i; ni_settled_cash_usd := ni_settled_cash_usd i;
     ni_quotes := ni_quotes i; ni_source_cycle_id := ni_source_cycle_id i; ni_input_state_sequence := ni_input_state_sequence i;
     ni_valid_until := ni_valid_until i |}.

Lemma plan_normal_owner i config d token attempt :
  plan_normal_orders (normal_inputs_with i (with_owner token attempt d)) config = plan_normal_orders (normal_inputs_with i d) config.
Proof. reflexivity. Qed.
End decisions.

(** A reclaimed cycle repeats itself: another worker, on a later attempt, builds a decision with the same identity and content
    hash and plans the same orders, since the lease and the retry count are not among the hashed inputs. *)
Theorem reclaimed_cycle_same_orders `{Digest} i token attempt d token' attempt' n config :
  build_portfolio_decision i token attempt = Ok d → 1 <= attempt' →
  ∃ d', build_portfolio_decision i token' attempt' = Ok d'
    ∧ sd_worker_fence_token d' = token' ∧ sd_cycle_attempt_count d' = attempt'
    ∧ sd_portfolio_decision_id d' = sd_portfolio_decision_id d ∧ sd_decision_hash d' = sd_decision_hash d
    ∧ risk_approval_id d' = risk_approval_id d
    ∧ plan_normal_orders (normal_inputs_with n d') config = plan_normal_orders (normal_inputs_with n d) config.
Proof. intros Hb Ha. exists (with_owner token' attempt' d). split; [by apply (build_other_owner i token attempt)|]. done. Qed.

(** A decision is built from the past: its bars were available at the signal cutoff, its quotes when they were taken, the
    portfolio state and the quotes precede the decision, and the decision precedes its expiry. *)
Theorem decision_point_in_time `{Digest} i token attempt d :
  build_portfolio_decision i token attempt = Ok d → point_in_time d ∧ canonical_hash (decision_content i) = Ok (sd_decision_hash d).
Proof.
  intros (Hv & _ & _ & _ & Hh)%build_decision_inv. split; [|exact Hh]. apply contract_point_in_time.
  unfold validate_Q1StrategyDecision in Hv. repeat apply bind_Ok_inv in Hv as ([] & ?H & Hv). assumption.
Qed.

(** A rebalancing whose orders are all below the minimum cannot be planned: the hash of the plan is taken over the omitted
    orders themselves, which have no canonical form, and the planner raises. *)
Theorem omitted_rebalance_unplannable `{Digest} i config :
  tz_aware (ni_valid_until i) = true → instant (ni_valid_until i) = instant (sd_valid_until (ni_decision i)) →
  (0 <= dval (ni_settled_cash_usd i))%Q →
  tr_decision_kind (ni_turnover i) = "NO_EXECUTABLE_ORDERS" → tr_omitted_orders (ni_turnover i) ≠ [] →
  plan_normal_orders i config = raise CanonicalizationError "Unsupported canonical type".
Proof.
  intros Hz Ht Hs Hk Ho. unfold plan_normal_orders, require_aware_utc. rewrite Hz, Ht, Z.eqb_refl, Hk. cbn [raise_if negb mbind res_bind].
  assert ((ni_settled_cash_usd i <? d0)%dec = false) as -> by (apply dltb_ge; by rewrite dval_d0).
  cbn [raise_if mbind res_bind String.prefix Ascii.ascii_dec]. destruct (tr_omitted_orders (ni_turnover i)) as [|o l]; [done|]. reflexivity.
Qed.

(** ** Concrete plans *)

Definition ex_versions : VersionedQ1Record :=
  {| algorithm_version := "q1_math_core_v1"; config_manifest_hash := "cfg"; code_version := "code"; model_version := "model";
     source_manifest_hash := "src" |}.
Definition ex_manifest : Q1DecisionInputManifest :=
  {| im_versioned := ex_versions; im_calendar_session_id := "s4"; im_source_bars := [{| pr_record_id := "q3"; pr_available_at := utc 305 |}];
     im_quotes := [{| pr_record_id := "quote-QQQ"; pr_available_at := utc 490 |}]; im_manifest_hash := "manifest" |}.
Definition ex_decision_inputs : DecisionInputs :=
  {| di_run_id := "run"; di_arm_id := Q1_DET; di_source_cycle_id := "cycle"; di_input_state_sequence := 7; di_decision_kind := "REBALANCE";
     di_scheduled_at := utc 500; di_signal_data_cutoff := utc 450; di_portfolio_state_as_of := utc 480; di_quote_as_of := utc 495;
     di_decision_created_at := utc 500; di_valid_until := utc 900;
     di_current_weights := weights3 (Dec 3 (-1)) (Dec 1 (-1)) (Dec 6 (-1));
     di_deterministic_target_weights := weights3 (Dec 1 (-1)) (Dec 4 (-1)) (Dec 5 (-1));
     di_final_target_weights := weights3 (Dec 1 (-1)) (Dec 4 (-1)) (Dec 5 (-1)); di_expected_annualized_volatility := Dec 2 (-1);
     di_expected_one_way_turnover := Dec 3 (-1); di_used_daily_turnover_before := d0; di_signal_hash := Some "signal";
     di_allocation_hash := Some "allocation"; di_llm_overlay_state := "NONE"; di_llm_policy_id := None;
     di_diagnostics := [("note", PStr "example")]; di_input_manifest := ex_manifest |}.
#[local] Notation ex_build token attempt := (build_portfolio_decision (H := rolling_digest) ex_decision_inputs token attempt).

Definition ex_turnover : TurnoverResult :=
  {| tr_decision_kind := "NORMAL_REBALANCE"; tr_proposed_one_way_turnover := Dec 3 (-1); tr_remaining_daily_capacity := Dec 3 (-1);
     tr_interpolation_alpha := d1; tr_adjusted_target_weights := []; tr_executable_target_weights := [];
     tr_executable_one_way_turnover := Dec 3 (-1);
     tr_proposed_trades :=
       [{| pt_symbol := "SOXX"; pt_side := "BUY"; pt_weight_delta := Dec 3 (-1); pt_notional_usd := Dec 30000 0 |};
        {| pt_symbol := "QQQ"; pt_side := "SELL"; pt_weight_delta := Dec (-2) (-1); pt_notional_usd := Dec 20000 0 |}];
     tr_omitted_orders := []; tr_turnover_hash := "turnover" |}.
Definition ex_quote (symbol : string) (bid ask : Z) : DecisionQuote :=
  {| dq_symbol := symbol; dq_quote_id := String.append "quote-" symbol; dq_bid := Dec bid 0; dq_ask := Dec ask 0; dq_available_at := utc 490 |}.
Definition ex_quotes : pydict DecisionQuote := [("QQQ", ex_quote "QQQ" 400 401); ("SOXX", ex_quote "SOXX" 200 201)].
Definition ex_planning : OrderPlanningConfig :=
  {| oc_quantity_increment := Dec 1 (-4); oc_commission_rate := Dec 1 (-3); oc_commission_waiver_notional_usd := Dec 10 0;
     oc_delay_penalty_bps := Dec 5 0; oc_commission_precision := Dec 1 (-2) |}.
(** Less settled cash than the purchase wants, and fewer shares than the sale wants. *)
Definition ex_plan_inputs (d : Q1StrategyDecision) : NormalPlanInputs :=
  {| ni_decision := d; ni_turnover := ex_turnover; ni_positions := [("QQQ", Dec 40 0)]; ni_settled_cash_usd := Dec 20000 0;
     ni_quotes := ex_quotes; ni_source_cycle_id := "cycle"; ni_input_state_sequence := 7; ni_valid_until := utc 900 |}.
#[local] Notation ex_plan d := (plan_normal_orders (H := rolling_digest) (ex_plan_inputs d) ex_planning).

Lemma ex_plan_runs :
  (λ r, map (λ o, (qi_symbol o, qi_side o, qi_quantity o)) (po_intents r)) <$> (d ← ex_build "worker" 1; ex_plan d)
  = Ok [("QQQ", SELL, Dec 400000 (-4)); ("SOXX", BUY, Dec 993533 (-4))].
Proof. vm_compute. reflexivity. Qed.

Lemma ex_plan_ok : ∃ d r, ex_build "worker" 1 = Ok d ∧ ex_plan d = Ok r
  ∧ ∃ o1 o2, po_intents r = [o1; o2] ∧ qi_symbol o1 = "QQQ" ∧ qi_side o1 = SELL.
Proof.
  pose proof ex_plan_runs as E. destruct (ex_build "worker" 1) as [d|]; [|done]. cbn [mbind res_bind] in E.
  destruct (ex_plan d) as [r|] eqn:Er; [|done]. exists d, r. split; [reflexivity|]. split; [exact Er|]. cbn [fmap res_fmap] in E.
  destruct (po_intents r) as [|o1 [|o2 [|]]]; try discriminate E. cbn [map] in E. exists o1, o2. injection E as -> -> _ _ _ _.
  exact (conj eq_refl (conj eq_refl eq_refl)).
Qed.

Lemma ex_planning_valid : valid_planning ex_planning.
Proof. split; vm_compute; (reflexivity || discriminate). Qed.
Lemma ex_quotes_executable symbol quote : dget symbol ex_quotes = Some quote → executable_quote quote.
Proof.
  cbn. destruct (String.eqb symbol "QQQ"); [intros [= <-]; by split|]. destruct (String.eqb symbol "SOXX"); [intros [= <-]; by split|done].
Qed.

Lemma planned_sells_covered_witness :
  ∃ d r o, ex_plan d = Ok r ∧ o ∈ po_intents r ∧ qi_side o = SELL ∧ (dval (qi_quantity o) <= dval (position_of [("QQQ", Dec 40%Z 0%Z)] (qi_symbol o)))%Q.
Proof.
  destruct ex_plan_ok as (d & r & _ & Hr & o1 & o2 & Eo & _ & Hs). assert (o1 ∈ po_intents r) as Ho by (rewrite Eo; left).
  exists d, r, o1. refine (conj Hr (conj Ho (conj Hs _))).
  exact (proj2 (proj2 (planned_sells_covered (H := rolling_digest) (ex_plan_inputs d) ex_planning r o1 Hr Ho)) Hs).
Defined.

Lemma planned_purchases_funded_witness :
  ∃ d r, ex_plan d = Ok r ∧ (total_cost ex_planning ex_quotes (po_intents r) <= 20000)%Q.
Proof.
  destruct ex_plan_ok as (d & r & _ & Hr & _). exists d, r. refine (conj Hr _).
  exact (planned_purchases_funded (H := rolling_digest) (ex_plan_inputs d) ex_planning r ex_planning_valid ex_quotes_executable
    ltac:(vm_compute; reflexivity) ltac:(vm_compute; discriminate) ltac:(cbn; lia) Hr).
Defined.

Lemma reclaimed_cycle_same_orders_witness :
  ∃ d d', ex_build "worker" 1 = Ok d ∧ ex_build "other" 2 = Ok d' ∧ sd_worker_fence_token d' = "other" ∧ ex_plan d' = ex_plan d.
Proof.
  destruct ex_plan_ok as (d & r & Hd & _).
  destruct (reclaimed_cycle_same_orders (H := rolling_digest) ex_decision_inputs "worker" 1 d "other" 2 (ex_plan_inputs d) ex_planning Hd
    ltac:(lia)) as (d' & Hd' & Ht & _ & _ & _ & _ & Hp). exists d, d'. exact (conj Hd (conj Hd' (conj Ht Hp))).
Defined.

Lemma decision_point_in_time_witness : ∃ d, ex_build "worker" 1 = Ok d ∧ point_in_time d.
Proof.
  destruct ex_plan_ok as (d & r & Hd & _). exists d. split; [exact Hd|].
  exact (proj1 (decision_point_in_time (H := rolling_digest) ex_decision_inputs "worker" 1 d Hd)).
Defined.

(** A day whose turnover is nearly used up: the orders that the rest of the cap allows are all below the minimum. *)
Definition exhausted_inputs : TurnoverInputs :=
  {| ti_current_weights := weights3 (Dec 3 (-1)) (Dec 1 (-1)) (Dec 6 (-1));
     ti_proposed_target_weights := weights3 (Dec 5 (-1)) (Dec 2 (-1)) (Dec 3 (-1)); ti_current_nav_usd := Dec 1 5;
     ti_used_normal_turnover := Dec 199 (-3); ti_emergency_reduction := false; ti_bypass_normal_turnover_cap := false |}.

Lemma exhausted_runs :
  ∃ t, apply_turnover_control (H := rolling_digest) exhausted_inputs core_config = Ok t
    ∧ tr_decision_kind t = "NO_EXECUTABLE_ORDERS" ∧ map om_symbol (tr_omitted_orders t) = ["QQQ"; "SOXX"].
Proof.
  assert ((λ t, (tr_decision_kind t, map om_symbol (tr_omitted_orders t))) <$> apply_turnover_control (H := rolling_digest) exhausted_inputs core_config
    = Ok ("NO_EXECUTABLE_ORDERS", ["QQQ"; "SOXX"])) as E by (vm_compute; reflexivity).
  destruct (apply_turnover_control _ _) as [t|]; [|done]. exists t. injection E as -> ->. done.
Qed.

Lemma omitted_rebalance_unplannable_witness :
  ∃ d t, ex_build "worker" 1 = Ok d ∧ apply_turnover_control (H := rolling_digest) exhausted_inputs core_config = Ok t
    ∧ plan_normal_orders (H := rolling_digest)
        {| ni_decision := d; ni_turnover := t; ni_positions := []; ni_settled_cash_usd := Dec 20000 0; ni_quotes := ex_quotes;
           ni_source_cycle_id := "cycle"; ni_input_state_sequence := 7; ni_valid_until := sd_valid_until d |} ex_planning
      = raise CanonicalizationError "Unsupported canonical type".
Proof.
  assert (∃ d, ex_build "worker" 1 = Ok d ∧ tz_aware (sd_valid_until d) = true) as (d & Hd & Hz).
  { assert (tz_aware ∘ sd_valid_until <$> ex_build "worker" 1 = Ok true) as E by (vm_compute; reflexivity).
    destruct (ex_build "worker" 1) as [d|]; [|done]. exists d. injection E as E. done. }
  destruct exhausted_runs as (t & Ht & Hk & Ho). exists d, t. refine (conj Hd (conj Ht _)).
  apply (omitted_rebalance_unplannable (H := rolling_digest)).
  - exact Hz.
  - reflexivity.
  - discriminate.
  - exact Hk.
  - intros E. cbn [ni_turnover] in E. rewrite E in Ho. discriminate Ho.
Defined.

Definition ex_reduction (d : Q1StrategyDecision) : TargetPlanInputs :=
  {| ri_decision := d; ri_current_positions := [("QQQ", Dec 40 0); ("SOXX", Dec 105 (-1))];
     ri_target_quantities := [("SOXX", Dec 0 0); ("QQQ", Dec 255 (-1))]; ri_quotes := ex_quotes; ri_source_cycle_id := "cycle";
     ri_input_state_sequence := 7; ri_order_class := EMERGENCY_REDUCTION |}.

Lemma ex_reduction_grid d : common_grid (ex_reduction d) 4.
Proof.
  intros symbol target Hin. cbn in Hin. unfold on_grid.
  apply elem_of_cons in Hin as [[= -> ->]|Hin]; [vm_compute; repeat split; discriminate || reflexivity|].
  apply list_elem_of_singleton in Hin as [= -> ->]. vm_compute. repeat split; discriminate || reflexivity.
Qed.

Lemma reductions_leave_target_witness :
  ∃ d r o, plan_target_quantity_sell_orders (H := rolling_digest) (ex_reduction d) ex_planning = Ok r ∧ o ∈ po_intents r
    ∧ (dval (Dec 255 (-1)) + dval (qi_quantity o) <= dval (Dec 40 0))%Q.
Proof.
  assert ((λ r, map qi_symbol (po_intents r)) <$> (d ← ex_build "worker" 1; plan_target_quantity_sell_orders (H := rolling_digest) (ex_reduction d) ex_planning)
    = Ok ["QQQ"; "SOXX"]) as E by (vm_compute; reflexivity).
  destruct (ex_build "worker" 1) as [d|]; [|discriminate E]. cbn [mbind res_bind] in E.
  destruct (plan_target_quantity_sell_orders _ _) as [r|] eqn:Er; [|discriminate E]. cbn [fmap res_fmap] in E. injection E as E.
  destruct (po_intents r) as [|o l] eqn:Eo; [discriminate E|]. cbn [map] in E. injection E as Es _. exists d, r, o.
  assert (o ∈ po_intents r) as Ho by (rewrite Eo; left). split; [exact Er|]. split; [rewrite Eo; left|].
  assert (NoDup (ri_target_quantities (ex_reduction d)).*1) as Hnd by (apply (bool_decide_unpack _); vm_compute; exact I).
  assert (dget (qi_symbol o) (ri_target_quantities (ex_reduction d)) = Some (Dec 255 (-1))) as Ht by (rewrite Es; reflexivity).
  destruct (reductions_leave_target (H := rolling_digest) (ex_reduction d) ex_planning r o 4 _ (ex_reduction_grid d) Hnd Er Ho Ht) as (_ & _ & _ & _ & Hle).
  rewrite Es in Hle. exact Hle.
Defined.
