(* ===== verification/Falsification.v ===== *)
(** * The falsification gate of the research plane

    [research/falsification.py] builds the report of the mandatory falsification tests, [research/falsification_runner.py]
    runs the host's evaluators and feeds it, and [persistence/research.py] checks that every result of a report is bound to
    the same candidate, contract, data and replay.  An evaluator is a parameter: a function that returns an observation or
    raises.  The hash patterns rest on [HexDigest], the promise that [hexdigest] prints 64 lowercase hexadecimal digits,
    which the SHA-256 of [Hashing.v] keeps. *)
From Stdlib Require Import ZArith Lia Ascii String.
From stdpp Require Import base list strings numbers sets.
From S2P Require Import Prelude PyDecimal Hashing Domain.
Set Default Goal Selector "!".
Open Scope Z_scope.

(** ** Patterns of [research/contracts.py] *)

Definition is_lower_hex (c : ascii) : bool := ascii_in 48 57 c || ascii_in 97 102 c.
Definition is_alnum (c : ascii) : bool := is_upper c || ascii_in 97 122 c || ascii_in 48 57 c.
Definition one_of (l : string) (c : ascii) : bool := negb (all_chars (λ d, negb (Ascii.eqb c d)) l).

(** [[A-Za-z0-9][A-Za-z0-9...]{0,n}] *)
Definition name_pattern (extra : string) (n : Z) (s : string) : bool :=
  match s with
  | EmptyString => false
  | String c s => is_alnum c && all_chars (λ c, is_alnum c || one_of extra c) s && (Z.of_nat (String.length s) <=? n)
  end.

Definition hash_pattern (s : string) : bool := all_chars is_lower_hex s && (Z.of_nat (String.length s) =? 64).
Definition version_pattern : string → bool := name_pattern "._+-" 79.
Definition identifier_pattern : string → bool := name_pattern "._:-" 159.

(** ** Contracts *)

Inductive FalsificationStatus := PASS | FAIL | BLOCKED.
#[global] Instance FalsificationStatus_eq_dec : EqDecision FalsificationStatus.
Proof. solve_decision. Defined.

Definition FalsificationStatus_value (s : FalsificationStatus) : string :=
  match s with PASS => "PASS" | FAIL => "FAIL" | BLOCKED => "BLOCKED" end.

(** [JsonValue] *)
Fixpoint is_json (v : pyval) : bool :=
  match v with
  | PNone | PBool _ | PInt _ | PStr _ | PFloat _ => true
  | PDecimal _ | PDatetime _ | PDate _ => false
  | PList l => forallb is_json l
  | PDict l => forallb (λ kv, is_json kv.2) l
  | PObject _ => false
  end.

Record FalsificationTestResultV1 := {
  tr_test_id : string;
  tr_mandatory : bool;
  tr_status : FalsificationStatus;
  tr_reason_code : string;
  tr_metrics : pydict pyval;
  tr_result_hash : string;
}.

(** The fields a result's hash covers. *)
Definition test_result_fields (r : FalsificationTestResultV1) : list (string * pyval) :=
  [("test_id", PStr (tr_test_id r)); ("mandatory", PBool (tr_mandatory r)); ("status", PStr (FalsificationStatus_value (tr_status r)));
   ("reason_code", PStr (tr_reason_code r)); ("metrics", PDict (tr_metrics r))].

(** [result.model_dump(mode="json")] *)
Definition test_result_dump (r : FalsificationTestResultV1) : pyval :=
  PDict (test_result_fields r ++ [("result_hash", PStr (tr_result_hash r))]).

Record FalsificationReportV1 := {
  rp_schema_version : string;
  rp_challenger_id : string;
  rp_results : list FalsificationTestResultV1;
  rp_mandatory_passed : bool;
  rp_created_at : datetime;
  rp_report_hash : string;
}.

(** [model_dump(mode="python", exclude={"report_hash"})] *)
Definition report_payload (r : FalsificationReportV1) : pyval := PDict
  [("schema_version", PStr (rp_schema_version r)); ("challenger_id", PStr (rp_challenger_id r));
   ("results", PList (map test_result_dump (rp_results r))); ("mandatory_passed", PBool (rp_mandatory_passed r));
   ("created_at", PDatetime (rp_created_at r))].

(** [(not result.mandatory) or result.status is FalsificationStatus.PASS] *)
Definition result_passes (r : FalsificationTestResultV1) : bool := negb (tr_mandatory r) || bool_decide (tr_status r = PASS).

Section contracts.
Context `{Digest}.

Definition validate_FalsificationTestResultV1 (r : FalsificationTestResultV1) : res FalsificationTestResultV1 :=
  invalid (negb (identifier_pattern (tr_test_id r))) "test_id";;
  invalid (negb (identifier_pattern (tr_reason_code r))) "reason_code";;
  invalid (negb (forallb (λ kv, is_json kv.2) (tr_metrics r))) "metrics";;
  invalid (negb (hash_pattern (tr_result_hash r))) "result_hash";;
  h ← canonical_hash (PDict (test_result_fields r));
  invalid (negb (String.eqb h (tr_result_hash r))) "falsification result hash mismatch";;
  Ok r.

Definition validate_FalsificationReportV1 (r : FalsificationReportV1) : res FalsificationReportV1 :=
  invalid (negb (identifier_pattern (rp_challenger_id r))) "challenger_id";;
  invalid (bool_decide (rp_results r = [])) "results";;
  mapM_res validate_FalsificationTestResultV1 (rp_results r);;
  aware (rp_created_at r);;
  invalid (negb (hash_pattern (rp_report_hash r))) "report_hash";;
  invalid (negb (eqb (rp_mandatory_passed r) (forallb result_passes (rp_results r)))) "mandatory_passed does not match result set";;
  invalid (has_dup (map tr_test_id (rp_results r))) "falsification test IDs must be unique";;
  h ← canonical_hash (report_payload r);
  invalid (negb (String.eqb h (rp_report_hash r))) "falsification report hash mismatch";;
  Ok r.
End contracts.

(** ** [research/falsification.py] *)

Definition MANDATORY_FALSIFICATION_TESTS : list string :=
  ["future_data_leakage"; "pit_constituent_leakage"; "revised_data_backfill_leakage"; "survivor_bias"; "lookahead_bias";
   "parameter_instability"; "date_shift_placebo"; "signal_direction_inversion_placebo"; "symbol_label_shuffle";
   "single_symbol_or_month_dependence"; "top_five_trades_removed"; "cost_stress_1x_2x_3x"; "execution_delay_stress";
   "spread_widening_stress"; "liquidity_capacity_stress"; "market_beta_neutralization"; "sector_beta_neutralization";
   "known_factor_neutralization"; "regime_split"; "parameter_neighborhood_stability"; "partial_data_removal_sensitivity";
   "experiment_budget"].

Definition is_mandatory_test (t : string) : bool := existsb (String.eqb t) MANDATORY_FALSIFICATION_TESTS.

Record ExperimentBudget := {
  eb_experiment_family : string;
  eb_submission_count : Z;
  eb_maximum_submissions : Z;
  eb_oos_budget_used : Z;
  eb_maximum_oos_budget : Z;
}.

Definition available (b : ExperimentBudget) : bool :=
  (eb_submission_count b <? eb_maximum_submissions b) && (eb_oos_budget_used b <? eb_maximum_oos_budget b).

Definition expected_budget_status (b : ExperimentBudget) : FalsificationStatus := if available b then PASS else FAIL.

(** The truth value of a list. *)
Definition nonempty {A} (l : list A) : bool := match l with [] => false | _ => true end.

Section falsification.
Context `{Digest}.

Definition build_falsification_report (challenger_id : string) (results : list FalsificationTestResultV1)
    (budget : ExperimentBudget) (created_at : datetime) : res FalsificationReportV1 :=
  timestamp ← require_aware_utc created_at;
  let result_by_id := dict_of_pairs (map (λ r, (tr_test_id r, r)) results) in
  raise_if (negb (Z.of_nat (length result_by_id) =? Z.of_nat (length results))) FalsificationGateError "duplicate falsification result";;
  let missing := List.filter (λ t, negb (dmem t result_by_id)) MANDATORY_FALSIFICATION_TESTS in
  let extra_mandatory := List.filter (λ r, tr_mandatory r && negb (is_mandatory_test (tr_test_id r))) result_by_id.*2 in
  raise_if (nonempty missing) FalsificationGateError "missing mandatory tests";;
  raise_if (nonempty extra_mandatory) FalsificationGateError "unknown mandatory tests";;
  budget_result ← dindex "experiment_budget" result_by_id;
  raise_if (negb (bool_decide (tr_status budget_result = expected_budget_status budget)))
    FalsificationGateError "experiment budget result disagrees with ledger";;
  ordered ← mapM_res (λ t, dindex t result_by_id) MANDATORY_FALSIFICATION_TESTS;
  let optional := sorted (λ a b, String.leb (tr_test_id a) (tr_test_id b))
    (map snd (List.filter (λ kv, negb (is_mandatory_test kv.1)) result_by_id)) in
  let finalized := ordered ++ optional in
  let report h := {| rp_schema_version := "falsification_report_v1"; rp_challenger_id := challenger_id; rp_results := finalized;
    rp_mandatory_passed := forallb result_passes finalized; rp_created_at := timestamp; rp_report_hash := h |} in
  h ← canonical_hash (report_payload (report ""));
  validate_FalsificationReportV1 (report h).

Definition make_test_result (test_id : string) (status : FalsificationStatus) (reason_code : string) (metrics : pydict pyval)
    (mandatory : bool) : res FalsificationTestResultV1 :=
  let result h := {| tr_test_id := test_id; tr_mandatory := mandatory; tr_status := status; tr_reason_code := reason_code;
    tr_metrics := metrics; tr_result_hash := h |} in
  h ← canonical_hash (PDict (test_result_fields (result "")));
  validate_FalsificationTestResultV1 (result h).
End falsification.

(** ** [research/falsification_runner.py] *)

Record FalsificationRunContext := {
  fc_challenger_id : string;
  fc_candidate_artifact_hash : string;
  fc_evaluation_contract_hash : string;
  fc_data_manifest_hash : string;
  fc_replay_hash : string;
  fc_deterministic_seed : Z;
}.

Record FalsificationObservation := {
  fo_status : FalsificationStatus;
  fo_reason_code : string;
  fo_metrics : pydict pyval;
}.

(** [evaluator.evaluate(test_id=..., context=...)] *)
Definition FalsificationEvaluator : Type := string → FalsificationRunContext → res FalsificationObservation.

Definition _BUDGET_TEST_ID : string := "experiment_budget".
Definition _EVALUATOR_TEST_IDS : list string := List.filter (λ t, negb (String.eqb t _BUDGET_TEST_ID)) MANDATORY_FALSIFICATION_TESTS.

Definition runner_init (evaluators : pydict FalsificationEvaluator) : res (pydict FalsificationEvaluator) :=
  raise_if (existsb (λ kv, negb (existsb (String.eqb kv.1) _EVALUATOR_TEST_IDS)) evaluators)
    ValueError "unknown falsification evaluators";;
  Ok evaluators.

Definition binding_metrics (c : FalsificationRunContext) : pydict pyval :=
  [("candidate_artifact_hash", PStr (fc_candidate_artifact_hash c)); ("evaluation_contract_hash", PStr (fc_evaluation_contract_hash c));
   ("data_manifest_hash", PStr (fc_data_manifest_hash c)); ("replay_hash", PStr (fc_replay_hash c));
   ("deterministic_seed", PInt (fc_deterministic_seed c))].

Definition blocked (reason : string) : FalsificationObservation := {| fo_status := BLOCKED; fo_reason_code := reason; fo_metrics := [] |}.

(** The observation of one test: a missing or failing evaluator blocks it. *)
Definition observe (evaluators : pydict FalsificationEvaluator) (context : FalsificationRunContext) (test_id : string)
  : FalsificationObservation :=
  match dget test_id evaluators with
  | None => blocked "TRUSTED_EVALUATOR_MISSING"
  | Some evaluate => match evaluate test_id context with Ok o => o | Raise _ => blocked "TRUSTED_EVALUATOR_ERROR" end
  end.

Definition budget_metrics (b : ExperimentBudget) : pydict pyval :=
  [("submission_count", PInt (eb_submission_count b)); ("maximum_submissions", PInt (eb_maximum_submissions b));
   ("oos_budget_used", PInt (eb_oos_budget_used b)); ("maximum_oos_budget", PInt (eb_maximum_oos_budget b))].

Section runner.
Context `{Digest}.

(** The loop body: the result of one mandatory test. *)
Definition run_test (evaluators : pydict FalsificationEvaluator) (context : FalsificationRunContext) (budget : ExperimentBudget)
    (test_id : string) : res FalsificationTestResultV1 :=
  if String.eqb test_id _BUDGET_TEST_ID then
    make_test_result test_id (if available budget then PASS else FAIL)
      (if available budget then "EXPERIMENT_BUDGET_AVAILABLE" else "EXPERIMENT_BUDGET_EXHAUSTED")
      (dict_of_pairs (binding_metrics context ++ budget_metrics budget)) true
  else
    let observation := observe evaluators context test_id in
    make_test_result test_id (fo_status observation) (fo_reason_code observation)
      (dict_of_pairs (binding_metrics context ++ fo_metrics observation)) true.

Definition run (evaluators : pydict FalsificationEvaluator) (context : FalsificationRunContext) (budget : ExperimentBudget)
    (created_at : datetime) : res FalsificationReportV1 :=
  results ← mapM_res (run_test evaluators context budget) MANDATORY_FALSIFICATION_TESTS;
  build_falsification_report (fc_challenger_id context) results budget created_at.
End runner.

(** ** [persistence/research.py]: the bindings of a report *)

Definition required_hashes : list string :=
  ["candidate_artifact_hash"; "evaluation_contract_hash"; "data_manifest_hash"; "replay_hash"].

Record bindings := { bd_hashes : pydict string; bd_deterministic_seed : Z }.
#[global] Instance bindings_eq_dec : EqDecision bindings.
Proof. solve_decision. Defined.

Definition hash_binding (metrics : pydict pyval) (field_name : string) : res (string * string) :=
  match dget field_name metrics with
  | Some (PStr value) =>
      if negb (Z.of_nat (String.length value) =? 64) || negb (all_chars is_lower_hex value)
      then raise ResearchPersistenceError "falsification result is missing a valid binding"
      else Ok (field_name, value)
  | _ => raise ResearchPersistenceError "falsification result is missing a valid binding"
  end.

Definition result_bindings (r : FalsificationTestResultV1) : res bindings :=
  values ← mapM_res (hash_binding (tr_metrics r)) required_hashes;
  match dget "deterministic_seed" (tr_metrics r) with
  | Some (PInt seed) =>
      raise_if (seed <? 0) ResearchPersistenceError "falsification result is missing a valid deterministic_seed";;
      Ok {| bd_hashes := values; bd_deterministic_seed := seed |}
  | _ => raise ResearchPersistenceError "falsification result is missing a valid deterministic_seed"
  end.

Definition bindings_step (expected : option bindings) (r : FalsificationTestResultV1) : res (option bindings) :=
  values ← result_bindings r;
  match expected with
  | None => Ok (Some values)
  | Some e =>
      raise_if (negb (bool_decide (values = e))) ResearchPersistenceError "falsification result bindings are inconsistent";;
      Ok (Some e)
  end.

Definition _falsification_bindings (report : FalsificationReportV1) : res bindings :=
  expected ← foldM bindings_step None (rp_results report);
  match expected with
  | None => raise ResearchPersistenceError "falsification report has no binding-bearing results"
  | Some e => Ok e
  end.

Definition _require_falsification_bindings (report : FalsificationReportV1)
    (candidate_artifact_hash data_manifest_hash replay_hash : string) (evaluation_contract_hash : option string) : res () :=
  bound ← _falsification_bindings report;
  let expected := [("candidate_artifact_hash", candidate_artifact_hash); ("data_manifest_hash", data_manifest_hash);
                   ("replay_hash", replay_hash)]
    ++ match evaluation_contract_hash with Some h => [("evaluation_contract_hash", h)] | None => [] end in
  values ← mapM_res (λ kv, v ← dindex kv.1 (bd_hashes bound); Ok (v, kv.2)) expected;
  raise_if (existsb (λ p, negb (String.eqb p.1 p.2)) values) ResearchPersistenceError "falsification binding mismatch".

(** ** Digests print as hashes *)

(** What [hashlib.sha256(...).hexdigest()] promises to the contracts. *)
Class HexDigest `{Digest} := hexdigest_hash : ∀ s, hash_pattern (hexdigest s) = true.

Lemma hex_digit_lower n : 0 <= n < 16 → is_lower_hex (hex_digit n) = true.
Proof.
  intros Hn. assert (forallb (λ n, is_lower_hex (hex_digit n)) (seqZ 0 16) = true) as Hall by (vm_compute; reflexivity).
  rewrite forallb_forall in Hall. apply Hall. apply list_elem_of_In, elem_of_seqZ. lia.
Qed.

Lemma be_bytes_spec n x acc :
  Forall (λ b, 0 <= b < 256) acc →
  length (Sha256.be_bytes n x acc) = (n + length acc)%nat ∧ Forall (λ b, 0 <= b < 256) (Sha256.be_bytes n x acc).
Proof.
  revert x acc. induction n as [|n IH]; intros x acc Ha; cbn; [done|].
  destruct (IH (x / 256) (x mod 256 :: acc)) as [E F]; [constructor; [apply Z.mod_pos_bound; lia|done]|].
  rewrite E. cbn. split; [lia|done].
Qed.

Lemma hex_of_spec l :
  Forall (λ b, 0 <= b < 256) l → all_chars is_lower_hex (Sha256.hex_of l) = true ∧ String.length (Sha256.hex_of l) = (2 * length l)%nat.
Proof.
  induction 1 as [|b l Hb _ [I1 I2]]; cbn [Sha256.hex_of all_chars String.length length]; [done|].
  rewrite I1, I2, !hex_digit_lower; [split; [done|lia]|..]; [apply Z.mod_pos_bound; lia|].
  split; [apply Z.div_pos; lia|apply Z.div_lt_upper_bound; lia].
Qed.

Lemma rounds_length kws s : length s = 8%nat → length (fold_left Sha256.round kws s) = 8%nat.
Proof.
  revert s. induction kws as [|kw kws IH]; intros s Hs; cbn [fold_left]; [done|]. apply IH.
  do 9 (destruct s as [|? s]; [done|]). done.
Qed.

Lemma blocks_length n ws hs : length hs = 8%nat → length (Sha256.blocks n ws hs) = 8%nat.
Proof.
  revert ws hs. induction n as [|n IH]; intros ws hs Hh; cbn [Sha256.blocks]; [done|]. apply IH.
  unfold Sha256.compress. rewrite length_zip_with, rounds_length by done. lia.
Qed.

#[export] Instance sha256_hex : HexDigest (H := sha256_digest).
Proof.
  intros s. unfold hexdigest, sha256_digest, Sha256.digest, hash_pattern. set (hs := Sha256.blocks _ _ _).
  assert (length hs = 8%nat) as Hl by (by apply blocks_length).
  assert (Forall (λ b, 0 <= b < 256) (concat (map (λ w, Sha256.be_bytes 4 w []) hs))
          ∧ length (concat (map (λ w, Sha256.be_bytes 4 w []) hs)) = (4 * length hs)%nat) as [Hb Hn].
  { clear Hl. induction hs as [|w hs [I1 I2]]; cbn [map concat length]; [split; [constructor|lia]|].
    destruct (be_bytes_spec 4 w []) as [E F]; [constructor|]. rewrite length_app, E, I2. cbn [length]. split; [by apply Forall_app|lia]. }
  destruct (hex_of_spec _ Hb) as [E1 E2]. rewrite E1, E2, Hn, Hl. done.
Qed.

(** ** Validated results *)

Lemma json_val_ok v : is_json v = true → val_ok v = true.
Proof.
  induction v as [| | | | | | | | |l IH|l IH] using pyval_ind'; cbn; try done; rewrite !forallb_forall; intros Hj x Hx;
    rewrite Forall_forall in IH; apply IH; try (by apply list_elem_of_In); by apply Hj.
Qed.

(** A validated test result: what the constructor of the contract guarantees. *)
Record valid_result `{Digest} (r : FalsificationTestResultV1) : Prop := {
  vr_test_id : identifier_pattern (tr_test_id r) = true;
  vr_reason_code : identifier_pattern (tr_reason_code r) = true;
  vr_metrics : forallb (λ kv, is_json kv.2) (tr_metrics r) = true;
  vr_result_hash : hash_pattern (tr_result_hash r) = true;
  vr_hash : canonical_hash (PDict (test_result_fields r)) = Ok (tr_result_hash r);
}.

Section gate.
Context `{HexDigest}.

Lemma hash_pattern_hash v h : canonical_hash v = Ok h → hash_pattern h = true.
Proof. unfold canonical_hash. intros Hh. inv_ok. apply hexdigest_hash. Qed.

Lemma validate_result_Ok r r' : validate_FalsificationTestResultV1 r = Ok r' ↔ r' = r ∧ valid_result r.
Proof.
  unfold validate_FalsificationTestResultV1, invalid. split.
  - intros Hv. inv_ok. split_bool. apply String.eqb_eq in E4. subst. done.
  - intros [-> [H1 H2 H3 H4 H5]]. rewrite H1, H2, H3, H4, H5. cbn. by rewrite String.eqb_refl.
Qed.

Lemma result_fields_json r : forallb (λ kv, is_json kv.2) (tr_metrics r) = true → is_json (PDict (test_result_fields r)) = true.
Proof. intros Hj. cbn. by rewrite Hj. Qed.

Lemma make_test_result_Ok test_id status reason metrics mandatory :
  identifier_pattern test_id = true → identifier_pattern reason = true → forallb (λ kv, is_json kv.2) metrics = true →
  ∃ h, let r := {| tr_test_id := test_id; tr_mandatory := mandatory; tr_status := status; tr_reason_code := reason; tr_metrics := metrics;
                   tr_result_hash := h |} in
  make_test_result test_id status reason metrics mandatory = Ok r ∧ valid_result r.
Proof.
  intros H1 H2 H3. unfold make_test_result.
  pose (result := λ h, {| tr_test_id := test_id; tr_mandatory := mandatory; tr_status := status; tr_reason_code := reason;
                          tr_metrics := metrics; tr_result_hash := h |}).
  destruct (canonical_hash_ok (PDict (test_result_fields (result "")))) as [h Hh]; [by apply json_val_ok, result_fields_json|].
  exists h. assert (valid_result (result h)) as Hv by (split; [done..|by eapply hash_pattern_hash|done]).
  split; [|done]. unfold result in Hh. rewrite Hh. cbn [mbind res_bind]. by apply validate_result_Ok.
Qed.

Lemma make_test_result_inv test_id status reason metrics mandatory r :
  make_test_result test_id status reason metrics mandatory = Ok r →
  tr_test_id r = test_id ∧ tr_mandatory r = mandatory ∧ tr_status r = status ∧ tr_reason_code r = reason ∧ tr_metrics r = metrics ∧ valid_result r.
Proof. unfold make_test_result. intros Hm. inv_ok. by apply validate_result_Ok in Hm as [-> Hv]. Qed.

(** ** The report *)

#[local] Arguments is_mandatory_test : simpl never.

Lemma is_mandatory_elem t : is_mandatory_test t = true ↔ t ∈ MANDATORY_FALSIFICATION_TESTS.
Proof.
  unfold is_mandatory_test. rewrite existsb_exists. split.
  - intros (x & Hx & ->%String.eqb_eq). by apply list_elem_of_In.
  - intros Hx. exists t. split; [by apply list_elem_of_In|apply String.eqb_refl].
Qed.

Lemma mandatory_tests_NoDup : NoDup MANDATORY_FALSIFICATION_TESTS.
Proof. apply (bool_decide_eq_true_1 _). vm_compute. reflexivity. Qed.

Definition by_id (results : list FalsificationTestResultV1) : pydict FalsificationTestResultV1 := map (λ r, (tr_test_id r, r)) results.

Lemma by_id_keys results : (by_id results).*1 = map tr_test_id results.
Proof. unfold by_id. induction results as [|r l IH]; cbn; [done|]. by rewrite IH. Qed.

Lemma by_id_values results : (by_id results).*2 = results.
Proof. unfold by_id. induction results as [|r l IH]; cbn; [done|]. by rewrite IH. Qed.

Lemma by_id_lookup results t r :
  NoDup (map tr_test_id results) → dget t (by_id results) = Some r ↔ r ∈ results ∧ tr_test_id r = t.
Proof.
  intros Hn. rewrite <- by_id_keys in Hn. split.
  - intros (r' & [= -> ->] & Hr)%dget_Some_elem%list_elem_of_fmap. done.
  - intros [Hr <-]. apply dget_elem; [done|]. apply list_elem_of_fmap. eauto.
Qed.

Lemma by_id_filter results :
  map snd (List.filter (λ kv : string * FalsificationTestResultV1, negb (is_mandatory_test kv.1)) (by_id results))
  = List.filter (λ r, negb (is_mandatory_test (tr_test_id r))) results.
Proof. unfold by_id. induction results as [|r l IH]; cbn; [done|]. destruct (is_mandatory_test (tr_test_id r)); cbn; by rewrite IH. Qed.

Lemma NoDup_of_ids (l : list FalsificationTestResultV1) : NoDup (map tr_test_id l) → NoDup l.
Proof. apply NoDup_fmap_1. Qed.

(** The mandatory results in catalogue order. *)
Lemma ordered_results results ordered :
  NoDup (map tr_test_id results) → mapM_res (λ t, dindex t (by_id results)) MANDATORY_FALSIFICATION_TESTS = Ok ordered →
  map tr_test_id ordered = MANDATORY_FALSIFICATION_TESTS ∧
  ordered ≡ₚ List.filter (λ r, is_mandatory_test (tr_test_id r)) results.
Proof.
  intros Hn Ho. apply mapM_res_Forall2 in Ho.
  assert (Forall2 (λ t r, r ∈ results ∧ tr_test_id r = t) MANDATORY_FALSIFICATION_TESTS ordered) as HF.
  { eapply Forall2_impl; [exact Ho|]. intros t r Ht. unfold dindex in Ht. destruct (dget t (by_id results)) eqn:E; [|done].
    injection Ht as ->. by apply by_id_lookup in E. }
  assert (map tr_test_id ordered = MANDATORY_FALSIFICATION_TESTS) as Hids.
  { clear Ho. induction HF as [|t r ts rs [_ Ht] _ IH]; cbn; [done|]. by rewrite Ht, IH. }
  split; [done|]. apply NoDup_Permutation.
  - apply NoDup_of_ids. rewrite Hids. apply mandatory_tests_NoDup.
  - apply NoDup_ListNoDup, List.NoDup_filter, NoDup_ListNoDup. by apply NoDup_of_ids.
  - intros r. rewrite elem_of_filterb, is_mandatory_elem. split.
    + intros Hr. apply list_elem_of_lookup in Hr as [i Hi]. destruct (Forall2_lookup_r _ _ _ _ _ HF Hi) as (t & Ht & Hr & <-).
      split; [by eapply list_elem_of_lookup_2|done].
    + intros [Ht Hr]. apply list_elem_of_lookup in Ht as [i Hi]. destruct (Forall2_lookup_l _ _ _ _ _ HF Hi) as (r' & Hr' & Hin & Hid).
      apply list_elem_of_lookup_2 in Hr'. replace r with r'; [done|].
      assert (dget (tr_test_id r) (by_id results) = Some r) as E1 by (by apply by_id_lookup).
      assert (dget (tr_test_id r) (by_id results) = Some r') as E2 by (apply by_id_lookup; [done|split; [done|by rewrite Hid]]).
      rewrite E1 in E2. by injection E2.
Qed.

Lemma filter_split_perm {A} (f : A → bool) l : List.filter f l ++ List.filter (λ x, negb (f x)) l ≡ₚ l.
Proof.
  induction l as [|x l IH]; cbn; [done|]. destruct (f x); cbn; [by rewrite IH|]. by rewrite <- Permutation_middle, IH.
Qed.

(** What a report can be built from. *)
Record gate_accepts (challenger_id : string) (results : list FalsificationTestResultV1) (budget : ExperimentBudget)
    (created_at : datetime) : Prop := {
  ga_challenger : identifier_pattern challenger_id = true;
  ga_created : tz_aware created_at = true;
  ga_unique : NoDup (map tr_test_id results);
  ga_complete : ∀ t, t ∈ MANDATORY_FALSIFICATION_TESTS → t ∈ map tr_test_id results;
  ga_known : ∀ r, r ∈ results → tr_mandatory r = true → tr_test_id r ∈ MANDATORY_FALSIFICATION_TESTS;
  ga_budget : ∀ r, r ∈ results → tr_test_id r = "experiment_budget" → tr_status r = expected_budget_status budget;
}.

(** What a report says. *)
Record report_of (challenger_id : string) (results : list FalsificationTestResultV1) (created_at : datetime)
    (report : FalsificationReportV1) : Prop := {
  ro_challenger : rp_challenger_id report = challenger_id;
  ro_created : rp_created_at report = created_at;
  ro_results : rp_results report ≡ₚ results;
  ro_mandatory_first : map tr_test_id (take 22 (rp_results report)) = MANDATORY_FALSIFICATION_TESTS;
  ro_passed : rp_mandatory_passed report = true ↔ ∀ r, r ∈ results → tr_mandatory r = true → tr_status r = PASS;
  ro_hash : canonical_hash (report_payload report) = Ok (rp_report_hash report);
}.

(** The checks of [build_falsification_report] before the report is put together. *)
Lemma duplicate_check results :
  negb (Z.of_nat (length (dict_of_pairs (by_id results))) =? Z.of_nat (length results)) = false ↔ NoDup (map tr_test_id results).
Proof.
  rewrite negb_false_iff, Z.eqb_eq, <- by_id_keys. split.
  - intros Hl. apply dict_of_pairs_length. unfold by_id at 2. rewrite length_map. lia.
  - intros Hn. rewrite dict_of_pairs_id by done. unfold by_id. rewrite length_map. lia.
Qed.

Lemma empty_check {A} (f : A → bool) l : nonempty (List.filter f l) = false ↔ ∀ x, x ∈ l → f x = false.
Proof.
  split.
  - intros Hl x Hx. destruct (f x) eqn:E; [|done].
    assert (x ∈ List.filter f l) as Hin by (by apply elem_of_filterb). destruct (List.filter f l); [set_solver|done].
  - intros Hf. by rewrite filterb_nil.
Qed.

Lemma missing_check results :
  NoDup (map tr_test_id results) →
  nonempty (List.filter (λ t, negb (dmem t (by_id results))) MANDATORY_FALSIFICATION_TESTS) = false
  ↔ ∀ t, t ∈ MANDATORY_FALSIFICATION_TESTS → t ∈ map tr_test_id results.
Proof.
  intros Hn. rewrite empty_check. apply forall_proper. intros t. unfold dmem. rewrite <- by_id_keys.
  destruct (dget t (by_id results)) eqn:E.
  - apply dget_Some_elem in E. split; [|done]. intros _ _. apply list_elem_of_fmap. by exists (t, f).
  - apply dget_None_not_key in E. cbn. naive_solver.
Qed.

Lemma unknown_check results :
  nonempty (List.filter (λ r, tr_mandatory r && negb (is_mandatory_test (tr_test_id r))) (by_id results).*2) = false
  ↔ ∀ r, r ∈ results → tr_mandatory r = true → tr_test_id r ∈ MANDATORY_FALSIFICATION_TESTS.
Proof.
  rewrite by_id_values, empty_check. apply forall_proper. intros r. rewrite <- is_mandatory_elem.
  destruct (tr_mandatory r), (is_mandatory_test (tr_test_id r)); cbn; naive_solver.
Qed.

Lemma passes_all results results' :
  results' ≡ₚ results → forallb result_passes results' = true ↔ ∀ r, r ∈ results → tr_mandatory r = true → tr_status r = PASS.
Proof.
  intros Hp. rewrite forallb_forall. setoid_rewrite <- list_elem_of_In. setoid_rewrite Hp. apply forall_proper. intros r.
  unfold result_passes. rewrite orb_true_iff, negb_true_iff, bool_decide_eq_true. destruct (tr_mandatory r); naive_solver.
Qed.

Lemma finalized_perm results ordered :
  NoDup (map tr_test_id results) → mapM_res (λ t, dindex t (by_id results)) MANDATORY_FALSIFICATION_TESTS = Ok ordered →
  ordered ++ sorted (λ a b, String.leb (tr_test_id a) (tr_test_id b))
    (map snd (List.filter (λ kv : string * FalsificationTestResultV1, negb (is_mandatory_test kv.1)) (by_id results))) ≡ₚ results.
Proof.
  intros Hn Ho. destruct (ordered_results _ _ Hn Ho) as [_ Hp]. rewrite by_id_filter, sorted_perm, Hp. apply filter_split_perm.
Qed.

Lemma aware_time created_at t : require_aware_utc created_at = Ok t ↔ tz_aware created_at = true ∧ t = created_at.
Proof. unfold require_aware_utc. destruct (tz_aware created_at); split; [intros [= <-]; done|by intros [_ ->]|done|by intros [? _]]. Qed.

(** A validated report. *)
Record valid_report (r : FalsificationReportV1) : Prop := {
  vp_challenger : identifier_pattern (rp_challenger_id r) = true;
  vp_nonempty : rp_results r ≠ [];
  vp_results : Forall valid_result (rp_results r);
  vp_created : tz_aware (rp_created_at r) = true;
  vp_report_hash : hash_pattern (rp_report_hash r) = true;
  vp_passed : rp_mandatory_passed r = forallb result_passes (rp_results r);
  vp_unique : NoDup (map tr_test_id (rp_results r));
  vp_hash : canonical_hash (report_payload r) = Ok (rp_report_hash r);
}.

Lemma validate_results_Ok l l' : mapM_res validate_FalsificationTestResultV1 l = Ok l' ↔ l' = l ∧ Forall valid_result l.
Proof.
  rewrite mapM_res_Forall2. split.
  - induction 1 as [|r r' l l' [-> Hv]%validate_result_Ok _ [-> IH]]; [done|]. split; [done|by constructor].
  - intros [-> Hv]. induction Hv; constructor; [by apply validate_result_Ok|done].
Qed.

Lemma validate_report_Ok r r' : validate_FalsificationReportV1 r = Ok r' ↔ r' = r ∧ valid_report r.
Proof.
  unfold validate_FalsificationReportV1, aware, invalid. split.
  - intros Hv. inv_ok. split_bool.
    repeat match goal with
    | E : mapM_res _ _ = Ok _ |- _ => apply validate_results_Ok in E as [_ ?]
    | E : String.eqb _ _ = true |- _ => apply String.eqb_eq in E
    | E : eqb _ _ = true |- _ => apply eqb_prop in E
    | E : has_dup _ = false |- _ => apply has_dup_false in E
    end. subst. split; [done|]. by split.
  - intros [-> [H1 H2 H3 H4 H5 H6 H7 H8]].
    rewrite H1, bool_decide_eq_false_2, (proj2 (validate_results_Ok _ _) (conj eq_refl H3)), H4, H5, H6, eqb_reflx by done.
    apply has_dup_false in H7. rewrite H7. cbn [negb raise_if mbind res_bind]. rewrite H8. cbn. by rewrite String.eqb_refl.
Qed.

Lemma build_inv challenger_id results budget created_at report :
  build_falsification_report challenger_id results budget created_at = Ok report →
  gate_accepts challenger_id results budget created_at ∧ report_of challenger_id results created_at report ∧
  Forall valid_result results.
Proof.
  intros Hb. unfold build_falsification_report in Hb. fold (by_id results) in Hb. inv_ok.
  apply aware_time in E as [Ha ->]. apply duplicate_check in E0 as Hn. rewrite dict_of_pairs_id in * by (by rewrite by_id_keys).
  rewrite (missing_check results Hn) in E1. rewrite (unknown_check results) in E2. split_bool.
  assert (Hperm := finalized_perm _ _ Hn E5). destruct (ordered_results _ _ Hn E5) as [Hids _].
  apply validate_report_Ok in Hb as [-> [V1 V2 V3 V4 V5 V6 V7 V8]]. cbn [rp_results rp_challenger_id rp_report_hash] in *. split_and!.
  - split; try done. intros r Hr Hid.
    assert (dget "experiment_budget" (by_id results) = Some r) as E' by (by apply by_id_lookup).
    unfold dindex in E3. rewrite E' in E3. by injection E3 as ->.
  - assert (length x5 = 22%nat) as Hlen by (by rewrite <- (length_map tr_test_id), Hids).
    split; cbn; try done.
    + rewrite take_app_le, firstn_all2 by lia. done.
    + by apply passes_all.
  - by rewrite <- Hperm.
Qed.

Lemma build_total challenger_id results budget created_at :
  Forall valid_result results → gate_accepts challenger_id results budget created_at →
  ∃ report, build_falsification_report challenger_id results budget created_at = Ok report.
Proof.
  intros Hv [H1 H2 H3 H4 H5 H6]. unfold build_falsification_report. fold (by_id results).
  rewrite (proj2 (aware_time created_at created_at)) by done. cbn [mbind res_bind].
  rewrite (proj2 (duplicate_check results)) by done. rewrite dict_of_pairs_id by (by rewrite by_id_keys).
  rewrite (proj2 (missing_check results H3)), (proj2 (unknown_check results)) by done. cbn [raise_if mbind res_bind].
  assert (∀ t, t ∈ MANDATORY_FALSIFICATION_TESTS → ∃ r, dindex t (by_id results) = Ok r ∧ r ∈ results ∧ tr_test_id r = t) as Hget.
  { intros t (r & -> & Hr)%H4%list_elem_of_fmap. exists r. unfold dindex.
    by rewrite (proj2 (by_id_lookup results (tr_test_id r) r H3)). }
  destruct (Hget "experiment_budget") as (b & -> & Hb & Hbid); [apply is_mandatory_elem; by vm_compute|].
  cbn [mbind res_bind]. rewrite bool_decide_eq_true_2 by (by apply H6). cbn [negb raise_if mbind res_bind].
  destruct (mapM_res (λ t, dindex t (by_id results)) MANDATORY_FALSIFICATION_TESTS) as [ordered|] eqn:Eo; cycle 1.
  { exfalso. assert (is_ok (mapM_res (λ t, dindex t (by_id results)) MANDATORY_FALSIFICATION_TESTS) = true) as Hok; [|by rewrite Eo in Hok].
    rewrite mapM_res_ok. apply forallb_forall. intros t Ht%list_elem_of_In. by destruct (Hget t Ht) as (r & -> & _). }
  assert (Hperm := finalized_perm _ _ H3 Eo). cbn [mbind res_bind]. set (finalized := ordered ++ _) in *. clearbody finalized.
  pose (rep h := {| rp_schema_version := "falsification_report_v1"; rp_challenger_id := challenger_id; rp_results := finalized;
    rp_mandatory_passed := forallb result_passes finalized; rp_created_at := created_at; rp_report_hash := h |}).
  fold (rep ""). destruct (canonical_hash_ok (report_payload (rep ""))) as [h Hh].
  { cbn. rewrite H2, andb_true_r. apply forallb_forall. intros v (r & <- & Hr%list_elem_of_In)%in_map_iff. cbn. rewrite andb_true_r.
    apply (json_val_ok (PDict (tr_metrics r))). rewrite Hperm in Hr. rewrite Forall_forall in Hv. by destruct (Hv r Hr). }
  exists (rep h). rewrite Hh. cbn [mbind res_bind]. apply validate_report_Ok. split; [done|]. split; cbn; try done.
  - intros ->. apply Permutation_nil_l in Hperm. subst. by apply not_elem_of_nil in Hb.
  - by rewrite Hperm.
  - by eapply hash_pattern_hash.
  - by rewrite Hperm.
Qed.

(** the gate is exact.  From validated results a report is produced exactly when the challenger id and the time are
    well-formed, no test is reported twice, every mandatory test is reported, nothing else is flagged mandatory and the budget
    result agrees with the ledger; the report then holds exactly the given results, the mandatory tests first and in catalogue
    order, and it says passed exactly when every result flagged mandatory has status PASS. *)
Theorem falsification_gate_exact challenger_id results budget created_at :
  Forall valid_result results →
  ((∃ report, build_falsification_report challenger_id results budget created_at = Ok report)
     ↔ gate_accepts challenger_id results budget created_at) ∧
  (∀ report, build_falsification_report challenger_id results budget created_at = Ok report →
     report_of challenger_id results created_at report).
Proof.
  intros Hv. split; [split|].
  - intros [report Hb]. by apply build_inv in Hb as [? _].
  - by apply build_total.
  - intros report Hb. by apply build_inv in Hb as (_ & ? & _).
Qed.

(** ** The runner *)

Definition test_status (evaluators : pydict FalsificationEvaluator) (context : FalsificationRunContext) (budget : ExperimentBudget)
    (t : string) : FalsificationStatus :=
  if String.eqb t _BUDGET_TEST_ID then expected_budget_status budget else fo_status (observe evaluators context t).

Lemma run_test_inv evaluators context budget t r :
  run_test evaluators context budget t = Ok r →
  tr_test_id r = t ∧ tr_mandatory r = true ∧ tr_status r = test_status evaluators context budget t ∧ valid_result r.
Proof.
  unfold run_test, test_status. intros Hr.
  destruct (String.eqb t _BUDGET_TEST_ID); apply make_test_result_inv in Hr; naive_solver.
Qed.

(** Observations a test result can hold, merged over the binding metrics of the run. *)
Definition storable (context : FalsificationRunContext) (o : FalsificationObservation) : Prop :=
  identifier_pattern (fo_reason_code o) = true ∧ forallb (λ kv, is_json kv.2) (dict_of_pairs (binding_metrics context ++ fo_metrics o)) = true.

Lemma dict_of_pairs_json l : forallb (λ kv : string * pyval, is_json kv.2) l = true → forallb (λ kv, is_json kv.2) (dict_of_pairs l) = true.
Proof.
  intros Hl. rewrite forallb_forall in *. intros [k v] Hin%list_elem_of_In. apply (dget_elem k) in Hin; [|apply dict_of_pairs_NoDup].
  apply dict_of_pairs_elem, list_elem_of_In in Hin. by apply (Hl (k, v)).
Qed.

(** JSON metrics and a well-formed reason are enough. *)
Lemma json_storable context o :
  identifier_pattern (fo_reason_code o) = true → forallb (λ kv, is_json kv.2) (fo_metrics o) = true → storable context o.
Proof. intros Hr Hm. split; [done|]. apply dict_of_pairs_json. by rewrite forallb_app, Hm. Qed.

Lemma blocked_storable context reason : identifier_pattern reason = true → storable context (blocked reason).
Proof. intros Hr. by apply json_storable. Qed.

Lemma mandatory_ids_ok t : t ∈ MANDATORY_FALSIFICATION_TESTS → identifier_pattern t = true.
Proof.
  assert (forallb identifier_pattern MANDATORY_FALSIFICATION_TESTS = true) as Hall by (vm_compute; reflexivity).
  rewrite forallb_forall in Hall. intros Ht. by apply Hall, list_elem_of_In.
Qed.

(** A test gives a result exactly when it is the budget test or its observation can be stored. *)
Lemma run_test_Ok evaluators context budget t :
  t ∈ MANDATORY_FALSIFICATION_TESTS →
  is_ok (run_test evaluators context budget t) = true ↔ (t ≠ _BUDGET_TEST_ID → storable context (observe evaluators context t)).
Proof.
  intros Ht%mandatory_ids_ok. unfold run_test. destruct (String.eqb_spec t _BUDGET_TEST_ID) as [->|Hne]; split; try done.
  - intros _. edestruct (make_test_result_Ok _BUDGET_TEST_ID) as (h & -> & _); [done| |apply dict_of_pairs_json; by rewrite forallb_app|done].
    by destruct (available budget).
  - intros Hok _. destruct (make_test_result _ _ _ _ _) as [r|] eqn:Er; [|done].
    apply make_test_result_inv in Er as (_ & _ & _ & Hr & Hm & Hv). split; [rewrite <- Hr; apply Hv|rewrite <- Hm; apply Hv].
  - intros Hs. destruct (Hs Hne) as [Hr Hm]. by edestruct (make_test_result_Ok t) as (h & -> & _).
Qed.

Lemma evaluator_tests t : t ∈ _EVALUATOR_TEST_IDS ↔ t ∈ MANDATORY_FALSIFICATION_TESTS ∧ t ≠ _BUDGET_TEST_ID.
Proof. unfold _EVALUATOR_TEST_IDS. rewrite elem_of_filterb, negb_true_iff, String.eqb_neq. tauto. Qed.

Lemma run_tests_Ok evaluators context budget :
  is_ok (mapM_res (run_test evaluators context budget) MANDATORY_FALSIFICATION_TESTS) = true ↔
  ∀ t, t ∈ _EVALUATOR_TEST_IDS → storable context (observe evaluators context t).
Proof.
  rewrite mapM_res_ok, forallb_forall. split.
  - intros Hall t [Ht Hne]%evaluator_tests. apply (run_test_Ok _ _ budget t Ht); [|done]. by apply Hall, list_elem_of_In.
  - intros Hall t Ht%list_elem_of_In. apply run_test_Ok; [done|]. intros Hne. apply Hall. by apply evaluator_tests.
Qed.

Lemma run_results evaluators context budget results :
  mapM_res (run_test evaluators context budget) MANDATORY_FALSIFICATION_TESTS = Ok results →
  map tr_test_id results = MANDATORY_FALSIFICATION_TESTS ∧
  Forall (λ r, tr_mandatory r = true ∧ tr_status r = test_status evaluators context budget (tr_test_id r) ∧ valid_result r) results.
Proof.
  intros Hr%mapM_res_Forall2. split.
  - induction Hr as [|t r ts rs Ht _ IH]; cbn; [done|]. apply run_test_inv in Ht as (<- & _). by rewrite IH.
  - induction Hr as [|t r ts rs Ht _ IH]; constructor; [|done]. apply run_test_inv in Ht. naive_solver.
Qed.

Lemma run_gate_accepts evaluators context budget created_at results :
  mapM_res (run_test evaluators context budget) MANDATORY_FALSIFICATION_TESTS = Ok results →
  identifier_pattern (fc_challenger_id context) = true → tz_aware created_at = true →
  gate_accepts (fc_challenger_id context) results budget created_at.
Proof.
  intros [Hids Hall]%run_results Hc Ha. split; try done.
  - rewrite Hids. apply mandatory_tests_NoDup.
  - intros t. by rewrite Hids.
  - intros r Hr _. rewrite <- Hids. apply list_elem_of_fmap. eauto.
  - intros r Hr Hid. rewrite Forall_forall in Hall. destruct (Hall r Hr) as (_ & -> & _). unfold test_status. by rewrite Hid.
Qed.

(** A mandatory test is passed by the budget ledger or by an evaluator that is present, does not raise and reports PASS. *)
Definition test_passed (evaluators : pydict FalsificationEvaluator) (context : FalsificationRunContext) (budget : ExperimentBudget)
    (t : string) : Prop :=
  if String.eqb t _BUDGET_TEST_ID then available budget = true
  else ∃ evaluate o, dget t evaluators = Some evaluate ∧ evaluate t context = Ok o ∧ fo_status o = PASS.

Lemma test_status_pass evaluators context budget t :
  test_status evaluators context budget t = PASS ↔ test_passed evaluators context budget t.
Proof.
  unfold test_status, test_passed, expected_budget_status, observe. destruct (String.eqb t _BUDGET_TEST_ID); [by destruct (available budget)|].
  destruct (dget t evaluators) as [e|]; cbn; [|by split; [|intros (? & ? & ? & _)]]. split.
  - intros Hp. destruct (e t context) as [o|] eqn:E; [|done]. eauto.
  - intros (e' & o & [= <-] & -> & Hp). done.
Qed.

(** What every report of the runner says. *)
Lemma run_report evaluators context budget created_at report :
  run evaluators context budget created_at = Ok report →
  map tr_test_id (rp_results report) = MANDATORY_FALSIFICATION_TESTS ∧ Forall (λ r, tr_mandatory r = true) (rp_results report) ∧
  (rp_mandatory_passed report = true ↔ ∀ t, t ∈ MANDATORY_FALSIFICATION_TESTS → test_passed evaluators context budget t).
Proof.
  unfold run. intros Hr. apply bind_Ok_inv in Hr as (results & [Hids Hall]%run_results & Hb).
  apply build_inv in Hb as (_ & [_ _ Hp Hf Hpass _] & _). split_and!.
  - rewrite <- Hf. rewrite firstn_all2; [done|]. rewrite Hp, <- (length_map tr_test_id), Hids. done.
  - rewrite Hp. eapply Forall_impl; [exact Hall|]. naive_solver.
  - rewrite Hpass, <- Hids. rewrite Forall_forall in Hall. split.
    + intros Hr t (r & -> & Hin)%list_elem_of_fmap. destruct (Hall r Hin) as (Hm & Hst & _).
      apply test_status_pass. rewrite <- Hst. by apply Hr.
    + intros Ht r Hin Hm. destruct (Hall r Hin) as (_ & -> & _). apply test_status_pass, Ht. apply list_elem_of_fmap. eauto.
Qed.

(** A missing evaluator and one that raises both block their test. *)
Lemma observe_blocked (evaluators : pydict FalsificationEvaluator) context t :
  (∀ evaluate, dget t evaluators = Some evaluate → is_ok (evaluate t context) = false) →
  fo_status (observe evaluators context t) = BLOCKED ∧ storable context (observe evaluators context t).
Proof.
  intros Hf. assert (∃ reason, identifier_pattern reason = true ∧ observe evaluators context t = blocked reason) as (reason & Hr & ->).
  { unfold observe. destruct (dget t evaluators) as [e|].
    - specialize (Hf e eq_refl). destruct (e t context); [done|]. exists "TRUSTED_EVALUATOR_ERROR". by split; [vm_compute|].
    - exists "TRUSTED_EVALUATOR_MISSING". by split; [vm_compute|]. }
  split; [done|]. by apply blocked_storable.
Qed.

(** C36: the runner fails closed.  It returns a report exactly when the challenger id and the time are well-formed and the observation
    of every test but the budget test can be stored in a test result; otherwise it raises and there is no report.  An evaluator that
    is missing or raises does not stop the run: its observation is a storable BLOCKED one, but an evaluator that returns a malformed
    reason code does.  Every report it returns has exactly the mandatory tests, all flagged mandatory, and passes exactly when the
    experiment budget is available and every other mandatory test has an evaluator that returns PASS. *)
Theorem runner_fails_closed (evaluators : pydict FalsificationEvaluator) context budget created_at :
  ((∃ report, run evaluators context budget created_at = Ok report) ↔
     identifier_pattern (fc_challenger_id context) = true ∧ tz_aware created_at = true ∧
     ∀ t, t ∈ _EVALUATOR_TEST_IDS → storable context (observe evaluators context t)) ∧
  (∀ t, (∀ evaluate, dget t evaluators = Some evaluate → is_ok (evaluate t context) = false) →
     fo_status (observe evaluators context t) = BLOCKED ∧ storable context (observe evaluators context t)) ∧
  ∀ report, run evaluators context budget created_at = Ok report →
    map tr_test_id (rp_results report) = MANDATORY_FALSIFICATION_TESTS ∧ Forall (λ r, tr_mandatory r = true) (rp_results report) ∧
    (rp_mandatory_passed report = true ↔
       ∀ t, t ∈ MANDATORY_FALSIFICATION_TESTS → test_passed evaluators context budget t).
Proof.
  split; [|split; [exact (observe_blocked evaluators context)|exact (run_report evaluators context budget created_at)]].
  rewrite <- (run_tests_Ok _ _ budget). unfold run.
  destruct (mapM_res (run_test evaluators context budget) MANDATORY_FALSIFICATION_TESTS) as [results|] eqn:Er; cycle 1.
  { split; [by intros [? ?]|by intros (_ & _ & ?)]. }
  split.
  - intros [report Hb]. apply build_inv in Hb as ([G1 G2 _ _ _ _] & _). done.
  - intros (Hc & Ha & _). apply build_total; [|by eapply run_gate_accepts].
    apply run_results in Er as [_ Hall]. eapply Forall_impl; [exact Hall|]. naive_solver.
Qed.
End gate.

(** ** Bindings *)

Definition valid_hash (value : string) : bool := (Z.of_nat (String.length value) =? 64) && all_chars is_lower_hex value.

Lemma hash_binding_Ok metrics f kv :
  hash_binding metrics f = Ok kv ↔ kv.1 = f ∧ dget f metrics = Some (PStr kv.2) ∧ valid_hash kv.2 = true.
Proof.
  unfold hash_binding, valid_hash. destruct kv as [k v]. cbn. destruct (dget f metrics) as [[]|]; try (split; [done|by intros (_ & ? & _)]).
  destruct (Z.of_nat (String.length s) =? 64) eqn:E1, (all_chars is_lower_hex s) eqn:E2; cbn; split; try done.
  1: intros [= <- <-]; by rewrite E1, E2.
  1: by intros (-> & [= ->] & _).
  all: intros (_ & [= ->] & Hb); rewrite E1, E2 in Hb; done.
Qed.

(** The result carries these bindings. *)
Definition bound_to (candidate contract data replay : string) (seed : Z) (r : FalsificationTestResultV1) : Prop :=
  dget "candidate_artifact_hash" (tr_metrics r) = Some (PStr candidate) ∧
  dget "evaluation_contract_hash" (tr_metrics r) = Some (PStr contract) ∧
  dget "data_manifest_hash" (tr_metrics r) = Some (PStr data) ∧
  dget "replay_hash" (tr_metrics r) = Some (PStr replay) ∧
  dget "deterministic_seed" (tr_metrics r) = Some (PInt seed).

Definition mk_bindings (candidate contract data replay : string) (seed : Z) : bindings :=
  {| bd_hashes := [("candidate_artifact_hash", candidate); ("evaluation_contract_hash", contract); ("data_manifest_hash", data);
                   ("replay_hash", replay)]; bd_deterministic_seed := seed |}.

Lemma result_bindings_Ok r b :
  result_bindings r = Ok b ↔ ∃ candidate contract data replay seed,
    b = mk_bindings candidate contract data replay seed ∧ bound_to candidate contract data replay seed r ∧
    forallb valid_hash [candidate; contract; data; replay] = true ∧ 0 <= seed.
Proof.
  unfold result_bindings, bound_to. split.
  - intros Hb. apply bind_Ok_inv in Hb as (values & Hv & Hb). apply mapM_res_Forall2 in Hv.
    repeat match goal with
    | Hv : Forall2 _ (_ :: _) _ |- _ => inversion Hv as [|? [? ?] ? ? [? [? ?]]%hash_binding_Ok ?]; clear Hv; cbn in *; subst
    | Hv : Forall2 _ [] _ |- _ => inversion Hv; clear Hv; subst
    | Hv : Forall2 _ required_hashes _ |- _ => unfold required_hashes in Hv
    end.
    destruct (dget "deterministic_seed" (tr_metrics r)) as [[]|]; try done. inv_ok. apply Z.ltb_ge in E.
    do 5 eexists. split; [reflexivity|]. split_and!; try done. cbn. rewrite !andb_true_iff. done.
  - intros (c & e & d & p & seed & -> & (H1 & H2 & H3 & H4 & H5) & Hh & Hs). cbn in Hh. rewrite !andb_true_iff in Hh.
    destruct Hh as (V1 & V2 & V3 & V4 & _).
    assert (mapM_res (hash_binding (tr_metrics r)) required_hashes = Ok (bd_hashes (mk_bindings c e d p seed))) as ->.
    { apply mapM_res_Forall2. repeat constructor; by apply hash_binding_Ok. }
    cbn [mbind res_bind]. rewrite H5. rewrite (proj2 (Z.ltb_ge _ _)) by done. done.
Qed.

Lemma bindings_fold results b0 b :
  foldM bindings_step (Some b0) results = Ok b ↔ b = Some b0 ∧ Forall (λ r, result_bindings r = Ok b0) results.
Proof.
  induction results as [|r l IH]; cbn [foldM].
  { split; [intros [= <-]; done|by intros [-> _]]. }
  rewrite bind_Ok_inv, Forall_cons. unfold bindings_step. split.
  - intros (x & Hx & Hl). inv_ok. split_bool. subst. apply IH in Hl. naive_solver.
  - intros (-> & Hr & Hl). exists (Some b0). rewrite Hr. cbn. rewrite bool_decide_eq_true_2 by done. cbn. split; [done|]. by apply IH.
Qed.

Lemma report_bindings_Ok report b :
  _falsification_bindings report = Ok b ↔ rp_results report ≠ [] ∧ Forall (λ r, result_bindings r = Ok b) (rp_results report).
Proof.
  unfold _falsification_bindings. destruct (rp_results report) as [|r l]; cbn [foldM mbind res_bind]; [naive_solver|].
  change (bindings_step None r) with (v ← result_bindings r; Ok (Some v)).
  destruct (result_bindings r) as [b0|] eqn:Eb; cbn [mbind res_bind].
  2:{ split; [done|]. intros [_ [Hr _]%Forall_cons]. congruence. }
  rewrite bind_Ok_inv, Forall_cons. split.
  - intros (e & [-> Hl]%bindings_fold & [= <-]). done.
  - intros [_ [Hr Hl]]. rewrite Eb in Hr. injection Hr as ->. exists (Some b). split; [by apply bindings_fold|done].
Qed.

(** the binding check is exact.  A report is accepted for a candidate, contract, data set and replay exactly when it has
    results and every one of them carries these four hashes, all well-formed, and one common non-negative seed. *)
Theorem falsification_bindings_exact report candidate data replay contract :
  _require_falsification_bindings report candidate data replay (Some contract) = Ok () ↔
  rp_results report ≠ [] ∧ forallb valid_hash [candidate; contract; data; replay] = true ∧
  ∃ seed, 0 <= seed ∧ Forall (bound_to candidate contract data replay seed) (rp_results report).
Proof.
  unfold _require_falsification_bindings. rewrite bind_Ok_inv. setoid_rewrite report_bindings_Ok. split.
  - intros (b & [Hne Hall] & Hc). destruct (rp_results report) as [|r l] eqn:El; [done|]. split; [done|].
    destruct (proj1 (result_bindings_Ok _ _) (Forall_inv Hall)) as (c & e & d & p & seed & -> & _ & Hh & Hs).
    cbn in Hc. apply raise_if_Ok_inv in Hc. cbn in Hc. split_bool.
    repeat match goal with E : String.eqb _ _ = true |- _ => apply String.eqb_eq in E; subst end.
    split; [done|]. exists seed. split; [done|]. eapply Forall_impl; [exact Hall|].
    intros r' Hr'. destruct (proj1 (result_bindings_Ok _ _) Hr') as (c' & e' & d' & p' & s' & Heq & Hb & _). by injection Heq as <- <- <- <- <-.
  - intros (Hne & Hh & seed & Hs & Hall). exists (mk_bindings candidate contract data replay seed). split.
    + split; [done|]. eapply Forall_impl; [exact Hall|]. intros r Hr. apply result_bindings_Ok. by do 5 eexists.
    + cbn. by rewrite !String.eqb_refl.
Qed.

(** ** Concrete runs, with SHA-256 *)

Definition ex_budget : ExperimentBudget :=
  {| eb_experiment_family := "momentum"; eb_submission_count := 1; eb_maximum_submissions := 5; eb_oos_budget_used := 0; eb_maximum_oos_budget := 3 |}.
Definition ex_context : FalsificationRunContext :=
  {| fc_challenger_id := "challenger-1"; fc_candidate_artifact_hash := "aa"; fc_evaluation_contract_hash := "bb"; fc_data_manifest_hash := "cc";
     fc_replay_hash := "dd"; fc_deterministic_seed := 7 |}.
Definition ex_pass : FalsificationEvaluator := λ _ _, Ok {| fo_status := PASS; fo_reason_code := "OK"; fo_metrics := [] |}.
Definition ex_raise : FalsificationEvaluator := λ _ _, raise ValueError "evaluator".
Definition ex_evaluators : pydict FalsificationEvaluator := map (λ t, (t, ex_pass)) _EVALUATOR_TEST_IDS.

(** Results with given statuses and flags, one per mandatory test. *)
Lemma results_exist `{HexDigest} (status : string → FalsificationStatus) (mandatory : string → bool) :
  ∃ results, map tr_test_id results = MANDATORY_FALSIFICATION_TESTS ∧ Forall valid_result results ∧
    Forall (λ r, tr_status r = status (tr_test_id r) ∧ tr_mandatory r = mandatory (tr_test_id r)) results.
Proof.
  pose proof mandatory_ids_ok as Hid. induction MANDATORY_FALSIFICATION_TESTS as [|t ts IH]; [by exists []|].
  destruct IH as (results & E & Hv & Hs); [intros t' Ht'; apply Hid; by right|].
  destruct (make_test_result_Ok t (status t) "OK" [] (mandatory t)) as (h & _ & Hr); [apply Hid; left|done..|].
  eexists (_ :: results). split_and!; [|constructor; [exact Hr|exact Hv]|by constructor]. cbn. by rewrite E.
Qed.

Lemma results_accepted results :
  map tr_test_id results = MANDATORY_FALSIFICATION_TESTS →
  (∀ r, r ∈ results → tr_test_id r = "experiment_budget" → tr_status r = expected_budget_status ex_budget) →
  gate_accepts "challenger-1" results ex_budget (utc 0).
Proof.
  intros Hids Hb. split; try done.
  - rewrite Hids. apply mandatory_tests_NoDup.
  - by rewrite Hids.
  - intros r Hr _. rewrite <- Hids. apply list_elem_of_fmap. eauto.
Qed.

Lemma passing_results :
  ∃ results, results ≠ [] ∧ Forall valid_result results ∧ gate_accepts "challenger-1" results ex_budget (utc 0).
Proof.
  destruct (results_exist (λ _, PASS) (λ _, true)) as (results & Hids & Hv & Hs). exists results. split_and!; [by intros ->|done|].
  apply results_accepted; [done|]. intros r Hr _. rewrite Forall_forall in Hs. by destruct (Hs r Hr) as [-> _].
Qed.

Lemma falsification_gate_exact_witness :
  ∃ results report, results ≠ [] ∧ build_falsification_report "challenger-1" results ex_budget (utc 0) = Ok report.
Proof.
  destruct passing_results as (results & Hne & Hv & Ha).
  destruct (falsification_gate_exact "challenger-1" results ex_budget (utc 0) Hv) as [[_ Hb] _].
  destruct (Hb Ha) as [report Hr]. exists results, report. split; assumption.
Defined.

Lemma ex_evaluators_pass t : t ∈ MANDATORY_FALSIFICATION_TESTS → test_passed ex_evaluators ex_context ex_budget t.
Proof.
  assert (Forall (test_passed ex_evaluators ex_context ex_budget) MANDATORY_FALSIFICATION_TESTS) as Hall; [|by apply Forall_forall].
  unfold MANDATORY_FALSIFICATION_TESTS. repeat apply Forall_cons_2; try apply Forall_nil_2; unfold test_passed; cbn; eauto.
Qed.

Lemma dget_const {A} (v : A) l k e : dget k (map (λ t, (t, v)) l) = Some e → e = v.
Proof. induction l as [|t l IH]; cbn; [done|]. destruct (String.eqb k t); [by intros [= <-]|done]. Qed.

Lemma ex_evaluators_const t e : dget t ex_evaluators = Some e → e = ex_pass.
Proof. exact (dget_const ex_pass _EVALUATOR_TEST_IDS t e). Qed.

(** One evaluator replaced: by one that raises, and by one that returns a malformed reason code. *)
Definition ex_malformed : FalsificationEvaluator := λ _ _, Ok {| fo_status := PASS; fo_reason_code := "not a code"; fo_metrics := [] |}.
Definition ex_with (e : FalsificationEvaluator) : pydict FalsificationEvaluator := dset "lookahead_bias" e ex_evaluators.

Lemma ex_with_storable e t :
  (∀ o, e "lookahead_bias" ex_context = Ok o → storable ex_context o) → storable ex_context (observe (ex_with e) ex_context t).
Proof.
  intros He. unfold observe, ex_with. rewrite dget_dset. destruct (String.eqb_spec t "lookahead_bias") as [->|].
  - destruct (e "lookahead_bias" ex_context) as [o|] eqn:E; [by apply He|by apply blocked_storable].
  - destruct (dget t ex_evaluators) as [e'|] eqn:E; [|by apply blocked_storable].
    apply ex_evaluators_const in E as ->. split; vm_compute; reflexivity.
Qed.

Lemma ex_raising_fails : ¬ test_passed (ex_with ex_raise) ex_context ex_budget "lookahead_bias".
Proof. unfold test_passed, ex_with. cbn. intros (e & o & [= <-] & Ho & _). discriminate Ho. Qed.

Lemma lookahead_mandatory : "lookahead_bias" ∈ MANDATORY_FALSIFICATION_TESTS.
Proof. apply is_mandatory_elem. by vm_compute. Qed.

(** All evaluators pass; one raises, and the report fails; one returns a malformed reason code, and there is no report. *)
Lemma runner_fails_closed_witness :
  (∃ report, run ex_evaluators ex_context ex_budget (utc 0) = Ok report ∧ rp_mandatory_passed report = true) ∧
  (∃ report, run (ex_with ex_raise) ex_context ex_budget (utc 0) = Ok report ∧ rp_mandatory_passed report = false) ∧
  is_ok (run (ex_with ex_malformed) ex_context ex_budget (utc 0)) = false.
Proof.
  split; [|split].
  - destruct (runner_fails_closed ex_evaluators ex_context ex_budget (utc 0)) as ((_ & Hrun) & _ & Hp).
    destruct Hrun as [report Hr].
    { split; [reflexivity|]. split; [reflexivity|]. intros t _. unfold observe. destruct (dget t ex_evaluators) as [e|] eqn:E; [|by apply blocked_storable].
      apply ex_evaluators_const in E as ->. split; vm_compute; reflexivity. }
    exists report. split; [exact Hr|]. apply (Hp report Hr). apply ex_evaluators_pass.
  - destruct (runner_fails_closed (ex_with ex_raise) ex_context ex_budget (utc 0)) as ((_ & Hrun) & _ & Hp).
    destruct Hrun as [report Hr].
    { split; [reflexivity|]. split; [reflexivity|]. intros t _. by apply ex_with_storable. }
    exists report. split; [exact Hr|]. destruct (Hp report Hr) as (_ & _ & Hpass). destruct (rp_mandatory_passed report); [|reflexivity]. exfalso.
    exact (ex_raising_fails (proj1 Hpass eq_refl _ lookahead_mandatory)).
  - destruct (runner_fails_closed (ex_with ex_malformed) ex_context ex_budget (utc 0)) as ((Hrun & _) & _ & _).
    destruct (run (ex_with ex_malformed) ex_context ex_budget (utc 0)) as [report|]; [|reflexivity]. exfalso.
    destruct (Hrun (ex_intro _ report eq_refl)) as (_ & _ & Hs).
    destruct (Hs "lookahead_bias") as [Hbad _]; [apply evaluator_tests; split; [exact lookahead_mandatory|discriminate]|].
    vm_compute in Hbad. discriminate Hbad.
Defined.

(** The gate looks at the flag of a result, not at the catalogue: a mandatory test reported with [mandatory=False] may fail
    while the report says passed.  The runner never reports so ([runner_fails_closed]). *)
Lemma unflagged_mandatory_failure_passes :
  ∃ results report, build_falsification_report "challenger-1" results ex_budget (utc 0) = Ok report ∧
    rp_mandatory_passed report = true ∧ ∃ r, r ∈ rp_results report ∧ tr_test_id r = "lookahead_bias" ∧ tr_status r = FAIL.
Proof.
  destruct (results_exist (λ t, if String.eqb t "lookahead_bias" then FAIL else PASS) (λ t, negb (String.eqb t "lookahead_bias")))
    as (results & Hids & Hv & Hs). rewrite Forall_forall in Hs.
  destruct (build_total "challenger-1" results ex_budget (utc 0) Hv) as [report Hb].
  { apply results_accepted; [done|]. intros r Hr Hid. destruct (Hs r Hr) as [-> _]. by rewrite Hid. }
  exists results, report. split; [done|]. apply build_inv in Hb as (_ & [_ _ Hp _ Hpass _] & _). split.
  - apply Hpass. intros r Hr Hm. destruct (Hs r Hr) as [-> Hf]. rewrite Hf in Hm. by destruct (String.eqb (tr_test_id r) "lookahead_bias").
  - assert ("lookahead_bias" ∈ map tr_test_id results) as (r & Hid & Hr)%list_elem_of_fmap
      by (rewrite Hids; apply is_mandatory_elem; by vm_compute).
    exists r. rewrite Hp. destruct (Hs r Hr) as [E _]. rewrite <- Hid in E. by split_and!.
Qed.
