(* ===== verification/Promotion.v ===== *)
(** * Promotion eligibility, deterministic replay and matched shadow arms

    [research/promotion.py] turns the promotion criteria into a decision, [research/replay.py] is the record of a
    deterministic replay and [research/shadow.py] compares the execution contracts of two shadow arms (its floating-point
    attribution is not modelled).  A decision can make a challenger eligible; only a person can approve it. *)
From Stdlib Require Import ZArith Lia Ascii String.
From stdpp Require Import base list strings numbers sets.
From S2P Require Import Prelude PyDecimal Hashing Domain Falsification.
Set Default Goal Selector "!".
Open Scope Z_scope.

(** ** Promotion decisions *)

Inductive PromotionVerdict := INELIGIBLE | ELIGIBLE_REQUIRES_MANUAL_APPROVAL | MANUALLY_APPROVED | PROMOTION_REJECTED.
#[global] Instance PromotionVerdict_eq_dec : EqDecision PromotionVerdict.
Proof. solve_decision. Defined.

Definition PromotionVerdict_value (v : PromotionVerdict) : string :=
  match v with
  | INELIGIBLE => "INELIGIBLE" | ELIGIBLE_REQUIRES_MANUAL_APPROVAL => "ELIGIBLE_REQUIRES_MANUAL_APPROVAL"
  | MANUALLY_APPROVED => "MANUALLY_APPROVED" | PROMOTION_REJECTED => "REJECTED"
  end.

Record PromotionDecisionV1 := {
  pd_schema_version : string;
  pd_promotion_decision_id : string;
  pd_challenger_id : string;
  pd_current_champion_version : string;
  pd_candidate_version : string;
  pd_verdict : PromotionVerdict;
  pd_criteria : pydict bool;
  pd_failed_reason_codes : list string;
  pd_replay_hash : string;
  pd_automatic_promotion_enabled : bool;
  pd_approved_by : option string;
  pd_created_at : datetime;
  pd_decision_hash : string;
}.

(** [model_dump(mode="python", exclude={"decision_hash"})] *)
Definition decision_payload (d : PromotionDecisionV1) : pyval := PDict
  [("schema_version", PStr (pd_schema_version d)); ("promotion_decision_id", PStr (pd_promotion_decision_id d));
   ("challenger_id", PStr (pd_challenger_id d)); ("current_champion_version", PStr (pd_current_champion_version d));
   ("candidate_version", PStr (pd_candidate_version d)); ("verdict", PStr (PromotionVerdict_value (pd_verdict d)));
   ("criteria", PDict (map (λ kv, (kv.1, PBool kv.2)) (pd_criteria d)));
   ("failed_reason_codes", PList (map PStr (pd_failed_reason_codes d))); ("replay_hash", PStr (pd_replay_hash d));
   ("automatic_promotion_enabled", PBool (pd_automatic_promotion_enabled d));
   ("approved_by", match pd_approved_by d with Some s => PStr s | None => PNone end); ("created_at", PDatetime (pd_created_at d))].

(** [all(self.criteria.values())] *)
Definition eligible (d : PromotionDecisionV1) : bool := forallb snd (pd_criteria d).

(** [not self.approved_by] *)
Definition unapproved (d : PromotionDecisionV1) : bool := match pd_approved_by d with Some s => str_empty s | None => true end.

Definition validate_PromotionDecisionV1 `{Digest} (d : PromotionDecisionV1) : res PromotionDecisionV1 :=
  invalid (negb (identifier_pattern (pd_promotion_decision_id d))) "promotion_decision_id";;
  invalid (negb (identifier_pattern (pd_challenger_id d))) "challenger_id";;
  invalid (negb (version_pattern (pd_current_champion_version d))) "current_champion_version";;
  invalid (negb (version_pattern (pd_candidate_version d))) "candidate_version";;
  invalid (negb (hash_pattern (pd_replay_hash d))) "replay_hash";;
  invalid (negb (opt_holds (λ s, pylen s <=? 120) (pd_approved_by d))) "approved_by";;
  aware (pd_created_at d);;
  invalid (negb (hash_pattern (pd_decision_hash d))) "decision_hash";;
  invalid (pd_automatic_promotion_enabled d) "automatic Champion promotion is unavailable";;
  invalid (bool_decide (pd_verdict d = ELIGIBLE_REQUIRES_MANUAL_APPROVAL) && (negb (eligible d) || nonempty (pd_failed_reason_codes d)))
    "eligible promotion has unmet criteria";;
  invalid (bool_decide (pd_verdict d = MANUALLY_APPROVED) && (negb (eligible d) || unapproved d))
    "manual promotion requires approver and all criteria";;
  invalid (bool_decide (pd_verdict d = INELIGIBLE) && eligible d) "ineligible verdict requires a failed criterion";;
  h ← canonical_hash (decision_payload d);
  invalid (negb (String.eqb h (pd_decision_hash d))) "promotion decision hash mismatch";;
  Ok d.

Definition REQUIRED_PROMOTION_CRITERIA : list string :=
  ["minimum_independent_trades"; "minimum_forward_period"; "net_excess_return_after_cost"; "matched_baseline_improvement";
   "minimum_economic_effect"; "maximum_drawdown"; "tail_risk"; "turnover"; "capacity"; "regime_robustness"; "error_rate";
   "replay_reproducible"; "mandatory_tests"].

Definition evaluate_promotion_eligibility `{Digest} (promotion_decision_id challenger_id current_champion_version candidate_version : string)
    (criteria : pydict bool) (replay_hash : string) (created_at : datetime) (required_criteria : list string) : res PromotionDecisionV1 :=
  let missing := List.filter (λ name, negb (dmem name criteria)) required_criteria in
  let unknown := List.filter (λ name, negb (existsb (String.eqb name) required_criteria)) criteria.*1 in
  raise_if (nonempty missing || nonempty unknown) ValueError "promotion criteria mismatch";;
  met ← mapM_res (λ name, v ← dindex name criteria; Ok (name, v)) required_criteria;
  let failed := map (λ kv, upper kv.1) (List.filter (λ kv, negb kv.2) met) in
  let verdict := if nonempty failed then INELIGIBLE else ELIGIBLE_REQUIRES_MANUAL_APPROVAL in
  timestamp ← require_aware_utc created_at;
  let decision h := {| pd_schema_version := "promotion_decision_v1"; pd_promotion_decision_id := promotion_decision_id;
    pd_challenger_id := challenger_id; pd_current_champion_version := current_champion_version; pd_candidate_version := candidate_version;
    pd_verdict := verdict; pd_criteria := criteria; pd_failed_reason_codes := failed; pd_replay_hash := replay_hash;
    pd_automatic_promotion_enabled := false; pd_approved_by := None; pd_created_at := timestamp; pd_decision_hash := h |} in
  h ← canonical_hash (decision_payload (decision ""));
  validate_PromotionDecisionV1 (decision h).

(** ** Deterministic replay *)

Record DeterministicReplayArtifactV1 := {
  ra_challenger_id : string;
  ra_candidate_artifact_hash : string;
  ra_config_hash : string;
  ra_code_hash : string;
  ra_data_manifest_hash : string;
  ra_first_replay_hash : string;
  ra_second_replay_hash : string;
  ra_created_at : datetime;
}.

Definition validate_DeterministicReplayArtifactV1 (a : DeterministicReplayArtifactV1) : res DeterministicReplayArtifactV1 :=
  require_aware_utc (ra_created_at a);;
  raise_if (str_empty (ra_challenger_id a)) ValueError "challenger_id is required";;
  raise_if (existsb (λ h, negb (hash_pattern h))
    [ra_candidate_artifact_hash a; ra_config_hash a; ra_code_hash a; ra_data_manifest_hash a; ra_first_replay_hash a; ra_second_replay_hash a])
    ValueError "must be a lowercase SHA-256 hash";;
  Ok a.

Definition deterministic_match (a : DeterministicReplayArtifactV1) : bool := String.eqb (ra_first_replay_hash a) (ra_second_replay_hash a).

Definition replay_fields (a : DeterministicReplayArtifactV1) : list (string * pyval) :=
  [("schema_version", PStr "deterministic_replay_artifact_v1"); ("challenger_id", PStr (ra_challenger_id a));
   ("candidate_artifact_hash", PStr (ra_candidate_artifact_hash a)); ("config_hash", PStr (ra_config_hash a));
   ("code_hash", PStr (ra_code_hash a)); ("data_manifest_hash", PStr (ra_data_manifest_hash a));
   ("first_replay_hash", PStr (ra_first_replay_hash a)); ("second_replay_hash", PStr (ra_second_replay_hash a));
   ("deterministic_match", PBool (deterministic_match a)); ("created_at", PDatetime (ra_created_at a))].

Definition payload `{Digest} (a : DeterministicReplayArtifactV1) : res (pydict pyval) :=
  h ← canonical_hash (PDict (replay_fields a));
  Ok (replay_fields a ++ [("artifact_hash", PStr h)]).

Definition artifact_hash `{Digest} (a : DeterministicReplayArtifactV1) : res string :=
  p ← payload a;
  v ← dindex "artifact_hash" p;
  match v with PStr s => Ok s | _ => raise ValueError "str" end.

(** ** Matched shadow arms *)

Record ShadowExecutionContract := {
  sc_market_input_manifest_hash : string;
  sc_decision_schedule_version : string;
  sc_execution_scenario_version : string;
  sc_cost_model_version : string;
  sc_starting_capital_usd : string;
  sc_liquidity_policy_version : string;
}.
#[global] Instance ShadowExecutionContract_eq_dec : EqDecision ShadowExecutionContract.
Proof. solve_decision. Defined.

Record ShadowArmIdentity := {
  sa_arm_id : string;
  sa_strategy_id : string;
  sa_strategy_version : string;
  sa_contract : ShadowExecutionContract;
}.

Definition require_matched_shadow_contract (champion challenger : ShadowArmIdentity) : res () :=
  raise_if (String.eqb (sa_arm_id champion) (sa_arm_id challenger)) ValueError "Champion and Challenger need independent shadow arms";;
  raise_if (String.eqb (sa_strategy_version champion) (sa_strategy_version challenger)) ValueError
    "Challenger cannot reuse Champion strategy version";;
  raise_if (negb (bool_decide (sa_contract champion = sa_contract challenger))) ValueError
    "matched shadow arms must share execution conditions".

(** ** Eligibility is exact *)

(** The keys of the criteria are exactly the required ones. *)
Definition same_criteria (criteria : pydict bool) (required : list string) : Prop := ∀ name, name ∈ criteria.*1 ↔ name ∈ required.

Lemma criteria_check criteria required :
  nonempty (List.filter (λ name, negb (dmem name criteria)) required)
  || nonempty (List.filter (λ name, negb (existsb (String.eqb name) required)) criteria.*1) = false ↔ same_criteria criteria required.
Proof.
  rewrite orb_false_iff, !empty_check. unfold same_criteria.
  assert (∀ name, dmem name criteria = true ↔ name ∈ criteria.*1) as Hm.
  { intros name. unfold dmem. destruct (dget name criteria) eqn:E.
    - split; [|done]. intros _. apply dget_Some_elem in E. apply list_elem_of_fmap. by exists (name, b).
    - apply dget_None_not_key in E. naive_solver. }
  assert (∀ name, existsb (String.eqb name) required = true ↔ name ∈ required) as He.
  { intros name. rewrite existsb_exists. split; [intros (x & Hx & ->%String.eqb_eq); by apply list_elem_of_In|].
    intros Hx. exists name. split; [by apply list_elem_of_In|apply String.eqb_refl]. }
  setoid_rewrite negb_false_iff. setoid_rewrite Hm. setoid_rewrite He. naive_solver.
Qed.

Definition criterion (criteria : pydict bool) (name : string) : bool := match dget name criteria with Some b => b | None => false end.

Lemma criteria_values criteria required :
  same_criteria criteria required →
  mapM_res (λ name, v ← dindex name criteria; Ok (name, v)) required = Ok (map (λ name, (name, criterion criteria name)) required).
Proof.
  intros Hs. assert (∀ name, name ∈ required → name ∈ criteria.*1) as Hin by (intros; by apply Hs). clear Hs.
  induction required as [|n l IH]; cbn [mapM_res map]; [done|].
  assert (dindex n criteria = Ok (criterion criteria n)) as ->.
  { unfold dindex, criterion. destruct (dget n criteria) eqn:E; [done|]. apply dget_None_not_key in E. exfalso. apply E, Hin. by left. }
  cbn [mbind res_bind]. rewrite IH; [done|]. intros; apply Hin; by right.
Qed.

Lemma failed_codes criteria required :
  map (λ kv : string * bool, upper kv.1) (List.filter (λ kv : string * bool, negb kv.2) (map (λ name, (name, criterion criteria name)) required))
  = map upper (List.filter (λ name, negb (criterion criteria name)) required).
Proof. induction required as [|n l IH]; cbn; [done|]. destruct (criterion criteria n); cbn; by rewrite IH. Qed.

Lemma nonempty_map {A B} (f : A → B) l : nonempty (map f l) = nonempty l.
Proof. by destruct l. Qed.

Lemma eligible_criteria criteria required :
  NoDup criteria.*1 → same_criteria criteria required →
  forallb snd criteria = negb (nonempty (List.filter (λ name, negb (criterion criteria name)) required)).
Proof.
  intros Hn Hs. apply eq_true_iff_eq. rewrite forallb_forall, negb_true_iff, empty_check. setoid_rewrite negb_false_iff.
  unfold criterion. split.
  - intros Hall name Hname. apply Hs, list_elem_of_fmap in Hname as ([k v] & -> & Hin). cbn.
    rewrite (dget_elem k v) by done. apply list_elem_of_In in Hin. exact (Hall _ Hin).
  - intros Hall [k v] Hin%list_elem_of_In. cbn. specialize (Hall k). rewrite (dget_elem k v) in Hall by done.
    apply Hall. apply Hs. apply list_elem_of_fmap. by exists (k, v).
Qed.

(** Identifiers, versions and time the contract accepts. *)
Record promotion_inputs_ok (promotion_decision_id challenger_id current_champion_version candidate_version replay_hash : string)
    (created_at : datetime) : Prop := {
  pi_decision : identifier_pattern promotion_decision_id = true;
  pi_challenger : identifier_pattern challenger_id = true;
  pi_champion : version_pattern current_champion_version = true;
  pi_candidate : version_pattern candidate_version = true;
  pi_replay : hash_pattern replay_hash = true;
  pi_created : tz_aware created_at = true;
}.

(** What a decision on these criteria says. *)
Record decision_of (criteria : pydict bool) (required : list string) (d : PromotionDecisionV1) : Prop := {
  do_verdict : pd_verdict d = if nonempty (List.filter (λ name, negb (criterion criteria name)) required)
                              then INELIGIBLE else ELIGIBLE_REQUIRES_MANUAL_APPROVAL;
  do_criteria : pd_criteria d = criteria;
  do_failed : pd_failed_reason_codes d = map upper (List.filter (λ name, negb (criterion criteria name)) required);
  do_manual : pd_automatic_promotion_enabled d = false ∧ pd_approved_by d = None;
}.

Section promotion.
Context `{HexDigest}.

Lemma decision_val_ok d : tz_aware (pd_created_at d) = true → val_ok (decision_payload d) = true.
Proof.
  intros Ha. cbn. rewrite Ha, !andb_true_r. apply andb_true_iff. split.
  - apply forallb_forall. by intros x (kv & <- & _)%in_map_iff.
  - apply andb_true_iff. split; [apply forallb_forall; by intros x (s & <- & _)%in_map_iff|by destruct (pd_approved_by d)].
Qed.

Lemma promotion_inv decision_id challenger_id champion candidate criteria replay_hash created_at required d :
  evaluate_promotion_eligibility decision_id challenger_id champion candidate criteria replay_hash created_at required = Ok d →
  promotion_inputs_ok decision_id challenger_id champion candidate replay_hash created_at ∧ same_criteria criteria required ∧
  decision_of criteria required d.
Proof.
  unfold evaluate_promotion_eligibility. intros He. inv_ok. apply aware_time in E1 as [Ha ->].
  rewrite (criteria_check criteria required) in E. rewrite (criteria_values _ _ E) in E0. injection E0 as <-.
  rewrite failed_codes, nonempty_map in He. unfold validate_PromotionDecisionV1, invalid in He. inv_ok. split_bool.
  split_and!; [by split|done|by split].
Qed.

Lemma validate_decision_Ok d :
  identifier_pattern (pd_promotion_decision_id d) = true → identifier_pattern (pd_challenger_id d) = true →
  version_pattern (pd_current_champion_version d) = true → version_pattern (pd_candidate_version d) = true →
  hash_pattern (pd_replay_hash d) = true → tz_aware (pd_created_at d) = true → hash_pattern (pd_decision_hash d) = true →
  pd_automatic_promotion_enabled d = false → pd_approved_by d = None →
  (pd_verdict d = if eligible d then ELIGIBLE_REQUIRES_MANUAL_APPROVAL else INELIGIBLE) ∧ nonempty (pd_failed_reason_codes d) = negb (eligible d) →
  canonical_hash (decision_payload d) = Ok (pd_decision_hash d) → validate_PromotionDecisionV1 d = Ok d.
Proof.
  intros H1 H2 H3 H4 H5 H6 H7 H8 H9 [Hv Hf] Hh. unfold validate_PromotionDecisionV1, aware, invalid.
  rewrite H1, H2, H3, H4, H5, H6, H7, H8, H9, Hf, Hv, Hh. destruct (eligible d); cbn; by rewrite String.eqb_refl.
Qed.

Lemma promotion_total decision_id challenger_id champion candidate criteria replay_hash created_at required :
  NoDup criteria.*1 → promotion_inputs_ok decision_id challenger_id champion candidate replay_hash created_at →
  same_criteria criteria required →
  ∃ d, evaluate_promotion_eligibility decision_id challenger_id champion candidate criteria replay_hash created_at required = Ok d.
Proof.
  intros Hn [H1 H2 H3 H4 H5 H6] Hs. unfold evaluate_promotion_eligibility.
  rewrite (proj2 (criteria_check criteria required) Hs), (criteria_values _ _ Hs).
  cbn [raise_if mbind res_bind]. rewrite failed_codes, nonempty_map, (proj2 (aware_time created_at created_at)) by done. cbn [mbind res_bind].
  pose proof (eligible_criteria _ _ Hn Hs) as Hel. set (unmet := List.filter _ required) in *. clearbody unmet.
  match goal with |- context [decision_payload ?x] => destruct (canonical_hash_ok (decision_payload x)) as [h Hh]; [by apply decision_val_ok|] end.
  rewrite Hh. cbn [mbind res_bind]. eexists. apply validate_decision_Ok; cbn [pd_verdict pd_failed_reason_codes pd_approved_by]; try done.
  - by eapply hash_pattern_hash.
  - unfold eligible. cbn. rewrite Hel. by destruct unmet.
Qed.

Lemma verdict_eligible criteria required d :
  same_criteria criteria required → decision_of criteria required d →
  pd_verdict d = ELIGIBLE_REQUIRES_MANUAL_APPROVAL ↔ ∀ name, name ∈ required → dget name criteria = Some true.
Proof.
  intros Hs [-> _ _ _].
  assert (nonempty (List.filter (λ name, negb (criterion criteria name)) required) = false
          ↔ ∀ name, name ∈ required → dget name criteria = Some true) as <-.
  { rewrite empty_check. apply forall_proper. intros name. unfold criterion. destruct (dget name criteria) as [[]|]; cbn; naive_solver. }
  by destruct (nonempty _).
Qed.

(** promotion eligibility is exact and never automatic.  A decision is made exactly when the identifiers are well-formed
    and the criteria are exactly the required ones; the challenger is then eligible exactly when every required criterion is
    met, the failed codes are exactly the unmet criteria, and the decision carries neither an automatic promotion nor an
    approval. *)
Theorem promotion_eligibility_exact decision_id challenger_id champion candidate criteria replay_hash created_at required :
  NoDup criteria.*1 →
  ((∃ d, evaluate_promotion_eligibility decision_id challenger_id champion candidate criteria replay_hash created_at required = Ok d)
     ↔ promotion_inputs_ok decision_id challenger_id champion candidate replay_hash created_at ∧ same_criteria criteria required) ∧
  (∀ d, evaluate_promotion_eligibility decision_id challenger_id champion candidate criteria replay_hash created_at required = Ok d →
     decision_of criteria required d ∧
     (pd_verdict d = ELIGIBLE_REQUIRES_MANUAL_APPROVAL ↔ ∀ name, name ∈ required → dget name criteria = Some true)).
Proof.
  intros Hn. split; [split|].
  - intros [d Hd]. apply promotion_inv in Hd. naive_solver.
  - intros [Hi Hs]. by apply promotion_total.
  - intros d Hd. apply promotion_inv in Hd as (_ & Hs & Hd). split; [done|]. by apply verdict_eligible.
Qed.
End promotion.

(** ** Replay artifacts and shadow pairs *)

(** A validated artifact has a hash, the one its payload carries. *)
Lemma artifact_hash_Ok `{HexDigest} a a' :
  validate_DeterministicReplayArtifactV1 a = Ok a' →
  ∃ h, canonical_hash (PDict (replay_fields a)) = Ok h ∧ artifact_hash a = Ok h ∧ hash_pattern h = true.
Proof.
  intros Hv. unfold validate_DeterministicReplayArtifactV1 in Hv. apply bind_Ok_inv in Hv as (t & [Ha _]%aware_time & _).
  destruct (canonical_hash_ok (PDict (replay_fields a))) as [h Hh]; [cbn; by rewrite Ha|].
  exists h. split; [done|]. split; [|by eapply hash_pattern_hash]. unfold artifact_hash, payload. rewrite Hh. cbn. done.
Qed.

Lemma matched_shadow_Ok champion challenger :
  require_matched_shadow_contract champion challenger = Ok () ↔
  sa_arm_id champion ≠ sa_arm_id challenger ∧ sa_strategy_version champion ≠ sa_strategy_version challenger ∧
  sa_contract champion = sa_contract challenger.
Proof.
  unfold require_matched_shadow_contract. split.
  - intros Hm. inv_ok. split_bool. by apply String.eqb_neq in E, E0.
  - intros (H1%String.eqb_neq & H2%String.eqb_neq & H3). rewrite H1, H2. cbn. by rewrite bool_decide_eq_true_2.
Qed.

(** ** A concrete decision *)

Definition ex_criteria : pydict bool := map (λ name, (name, true)) REQUIRED_PROMOTION_CRITERIA.
Definition ex_replay_hash : string := Eval vm_compute in hexdigest "replay".

Lemma promotion_eligibility_exact_witness :
  ∃ d, evaluate_promotion_eligibility "decision-1" "challenger-1" "1.0.0" "1.1.0" ex_criteria ex_replay_hash (utc 0) REQUIRED_PROMOTION_CRITERIA = Ok d
       ∧ pd_verdict d = ELIGIBLE_REQUIRES_MANUAL_APPROVAL.
Proof.
  assert (NoDup ex_criteria.*1) as Hn by (apply (bool_decide_eq_true_1 _); vm_compute; reflexivity).
  destruct (promotion_eligibility_exact "decision-1" "challenger-1" "1.0.0" "1.1.0" ex_criteria ex_replay_hash (utc 0)
    REQUIRED_PROMOTION_CRITERIA Hn) as [[_ Htotal] Hd].
  destruct Htotal as [d E].
  - split; [split; vm_compute; reflexivity|]. apply criteria_check. vm_compute. reflexivity.
  - exists d. split; [exact E|]. apply (Hd d E). intros name Hin.
    assert (Forall (λ name, dget name ex_criteria = Some true) REQUIRED_PROMOTION_CRITERIA) as Hall
      by (unfold REQUIRED_PROMOTION_CRITERIA; repeat constructor).
    rewrite Forall_forall in Hall. exact (Hall name Hin).
Defined.
