(* ===== verification/Schedule.v ===== *)
(** * Research schedule: plans, leases and receipts ([research/scheduler.py])

    The contracts of the research work queue and the planner that turns market sessions and evidence into due work items.
    [ZoneInfo] is a parameter: what the planner uses of a time zone.  pydantic's JSON text of a datetime is a parameter too;
    it only enters the hash of a work payload. *)
From Stdlib Require Import ZArith Lia Ascii String.
From stdpp Require Import base list strings numbers sets gmap list_numbers.
From S2P Require Import Prelude PyDecimal Hashing Domain Text Falsification.
Set Default Goal Selector "!".
Open Scope Z_scope.

(** What is used of [ZoneInfo(name)]: the instant of a local date and time of day (microseconds), and the local date of an
    instant.  An unknown zone raises. *)
Record zone := { combine : date → Z → Z; local_date : Z → date }.
Class ZoneInfo := zoneinfo : string → res zone.

(** pydantic's JSON text of a datetime. *)
Class JsonDatetime := json_datetime : datetime → string.

(** ** Enumerations *)

Inductive ResearchScheduleWorkKind :=
  | WK_DAILY_AGGREGATION | WK_OUTCOME_MATURATION | WK_RESEARCH_MEMORY_MATERIALIZATION | WK_OPERATOR_DEEP_RESEARCH
  | WK_WEEKLY_DEEP_RESEARCH | WK_EVIDENCE_TRIGGERED_RESEARCH.
#[global] Instance ResearchScheduleWorkKind_eq_dec : EqDecision ResearchScheduleWorkKind.
Proof. solve_decision. Defined.

Definition ResearchScheduleWorkKind_value (k : ResearchScheduleWorkKind) : string :=
  match k with
  | WK_DAILY_AGGREGATION => "DAILY_AGGREGATION" | WK_OUTCOME_MATURATION => "OUTCOME_MATURATION"
  | WK_RESEARCH_MEMORY_MATERIALIZATION => "RESEARCH_MEMORY_MATERIALIZATION"
  | WK_OPERATOR_DEEP_RESEARCH => "OPERATOR_DEEP_RESEARCH" | WK_WEEKLY_DEEP_RESEARCH => "WEEKLY_DEEP_RESEARCH"
  | WK_EVIDENCE_TRIGGERED_RESEARCH => "EVIDENCE_TRIGGERED_RESEARCH"
  end.

Inductive ResearchScheduleEventType :=
  | PLANNED | LEASE_ACQUIRED | LEASE_RECLAIMED | DISPATCHED | EXECUTION_LEASE_ACQUIRED | EXECUTION_LEASE_RECLAIMED
  | EXECUTION_LEASE_RENEWED | SUCCEEDED | FAILED.
#[global] Instance ResearchScheduleEventType_eq_dec : EqDecision ResearchScheduleEventType.
Proof. solve_decision. Defined.

Definition ResearchScheduleEventType_value (t : ResearchScheduleEventType) : string :=
  match t with
  | PLANNED => "PLANNED" | LEASE_ACQUIRED => "LEASE_ACQUIRED" | LEASE_RECLAIMED => "LEASE_RECLAIMED" | DISPATCHED => "DISPATCHED"
  | EXECUTION_LEASE_ACQUIRED => "EXECUTION_LEASE_ACQUIRED" | EXECUTION_LEASE_RECLAIMED => "EXECUTION_LEASE_RECLAIMED"
  | EXECUTION_LEASE_RENEWED => "EXECUTION_LEASE_RENEWED" | SUCCEEDED => "SUCCEEDED" | FAILED => "FAILED"
  end.

Inductive ResearchDispatchTarget :=
  | DAILY_AGGREGATION_V1 | OUTCOME_MATURATION_V1 | RESEARCH_MEMORY_MATERIALIZATION_V1 | DEEP_RESEARCH_CYCLE_V1.
#[global] Instance ResearchDispatchTarget_eq_dec : EqDecision ResearchDispatchTarget.
Proof. solve_decision. Defined.

Definition ResearchDispatchTarget_value (t : ResearchDispatchTarget) : string :=
  match t with
  | DAILY_AGGREGATION_V1 => "RESEARCH_DAILY_AGGREGATION_V1" | OUTCOME_MATURATION_V1 => "RESEARCH_OUTCOME_MATURATION_V1"
  | RESEARCH_MEMORY_MATERIALIZATION_V1 => "RESEARCH_MEMORY_MATERIALIZATION_V1" | DEEP_RESEARCH_CYCLE_V1 => "RESEARCH_DEEP_CYCLE_V1"
  end.

(** ** Market sessions and evidence *)

Record VersionedResearchMarketSession := {
  ms_calendar_session_id : string;
  ms_calendar_version : string;
  ms_session_date : date;
  ms_open_at : datetime;
  ms_close_at : datetime;
  ms_available_at : datetime;
  ms_session_hash : string;
}.

Definition validate_VersionedResearchMarketSession (s : VersionedResearchMarketSession) : res VersionedResearchMarketSession :=
  invalid (any_empty [ms_calendar_session_id s; ms_calendar_version s; ms_session_hash s]) "min_length";;
  aware (ms_open_at s);; aware (ms_close_at s);; aware (ms_available_at s);;
  invalid (dt_le (ms_close_at s) (ms_open_at s)) "market session close must follow open";;
  Ok s.

Record ResearchEvidenceMarker := {
  em_source_id : string;
  em_content_hash : string;
  em_first_available_at : datetime;
  em_captured_at : datetime;
}.

Definition validate_ResearchEvidenceMarker (m : ResearchEvidenceMarker) : res ResearchEvidenceMarker :=
  invalid (any_empty [em_source_id m; em_content_hash m]) "min_length";;
  aware (em_first_available_at m);; aware (em_captured_at m);;
  invalid (dt_lt (em_captured_at m) (em_first_available_at m)) "evidence cannot be captured before first availability";;
  Ok m.

(** ** Plans *)

Record ResearchSchedulePlanV1 := {
  pl_schema_version : string;
  pl_work_item_id : string;
  pl_work_kind : ResearchScheduleWorkKind;
  pl_idempotency_key : string;
  pl_schedule_version : string;
  pl_scheduled_for : datetime;
  pl_data_available_cutoff : datetime;
  pl_calendar_session_id : option string;
  pl_calendar_session_hash : option string;
  pl_calendar_version : option string;
  pl_trigger_source_ids : list string;
  pl_trigger_content_hashes : list string;
  pl_trigger_manifest_hash : string;
  pl_operator_trigger_id : option string;
  pl_operator_reason_code : option string;
  pl_config_manifest_hash : string;
  pl_plan_hash : string;
  pl_real_order_routing : bool;
}.
#[global] Instance ResearchSchedulePlanV1_eq_dec : EqDecision ResearchSchedulePlanV1.
Proof. solve_decision. Defined.

Definition opt_str (o : option string) : pyval := match o with Some s => PStr s | None => PNone end.
Definition str_list (l : list string) : pyval := PList (map PStr l).

(** The fields of a plan, with its times written by [time]; the operator fields only when they are set. *)
Definition plan_fields (time : datetime → pyval) (p : ResearchSchedulePlanV1) : list (string * pyval) :=
  [("schema_version", PStr (pl_schema_version p)); ("work_item_id", PStr (pl_work_item_id p));
   ("work_kind", PStr (ResearchScheduleWorkKind_value (pl_work_kind p))); ("idempotency_key", PStr (pl_idempotency_key p));
   ("schedule_version", PStr (pl_schedule_version p)); ("scheduled_for", time (pl_scheduled_for p));
   ("data_available_cutoff", time (pl_data_available_cutoff p)); ("calendar_session_id", opt_str (pl_calendar_session_id p));
   ("calendar_session_hash", opt_str (pl_calendar_session_hash p)); ("calendar_version", opt_str (pl_calendar_version p));
   ("trigger_source_ids", str_list (pl_trigger_source_ids p)); ("trigger_content_hashes", str_list (pl_trigger_content_hashes p));
   ("trigger_manifest_hash", PStr (pl_trigger_manifest_hash p)); ("config_manifest_hash", PStr (pl_config_manifest_hash p));
   ("real_order_routing", PBool (pl_real_order_routing p))]
  ++ match pl_operator_trigger_id p with Some s => [("operator_trigger_id", PStr s)] | None => [] end
  ++ match pl_operator_reason_code p with Some s => [("operator_reason_code", PStr s)] | None => [] end.

Definition _plan_hash_payload (p : ResearchSchedulePlanV1) : pyval := PDict (plan_fields PDatetime p).

Definition schedule_plan_json_payload `{JsonDatetime} (p : ResearchSchedulePlanV1) : pyval :=
  PDict (plan_fields (λ t, PStr (json_datetime t)) p ++ [("plan_hash", PStr (pl_plan_hash p))]).

Definition schedule_plan_payload_hash `{Digest} `{JsonDatetime} (p : ResearchSchedulePlanV1) : res string :=
  canonical_hash (schedule_plan_json_payload p).

(** The hash of a plan's triggers. *)
Definition trigger_hash `{Digest} (source_ids content_hashes : list string) : res string :=
  canonical_hash (PDict [("source_ids", str_list source_ids); ("content_hashes", str_list content_hashes)]).

(** [s.upper()] on ASCII letters. *)
Definition upper_char (c : ascii) : ascii := if ascii_in 97 122 c then ascii_of_N (N_of_ascii c - 32) else c.
Fixpoint upper (s : string) : string := match s with EmptyString => EmptyString | String c s => String (upper_char c) (upper s) end.

(** Pattern ["^[A-Z][A-Z0-9_]{1,79}$"]. *)
Definition reason_code_pattern (s : string) : bool :=
  match s with
  | EmptyString => false
  | String c s => is_upper c && all_chars (λ c, is_upper c || ascii_in 48 57 c || Ascii.eqb c "_"%char) s
                  && (1 <=? Z.of_nat (String.length s)) && (Z.of_nat (String.length s) <=? 79)
  end.

Definition calendar_backed (k : ResearchScheduleWorkKind) : bool := negb (bool_decide (k = WK_EVIDENCE_TRIGGERED_RESEARCH)).
Definition is_None_b {A} (o : option A) : bool := match o with None => true | Some _ => false end.
Definition is_nil {A} (l : list A) : bool := match l with [] => true | _ => false end.

Definition validate_ResearchSchedulePlanV1 `{Digest} (p : ResearchSchedulePlanV1) : res ResearchSchedulePlanV1 :=
  invalid (negb (String.eqb (pl_schema_version p) "research_schedule_plan_v1")) "schema_version";;
  invalid (any_empty [pl_work_item_id p; pl_idempotency_key p; pl_schedule_version p; pl_trigger_manifest_hash p;
                      pl_config_manifest_hash p; pl_plan_hash p]) "min_length";;
  invalid (negb (opt_holds identifier_pattern (pl_operator_trigger_id p))) "operator_trigger_id";;
  invalid (negb (opt_holds reason_code_pattern (pl_operator_reason_code p))) "operator_reason_code";;
  invalid (pl_real_order_routing p) "real_order_routing";;
  aware (pl_scheduled_for p);; aware (pl_data_available_cutoff p);;
  invalid (dt_lt (pl_scheduled_for p) (pl_data_available_cutoff p)) "schedule data cutoff cannot follow scheduled_for";;
  invalid (calendar_backed (pl_work_kind p)
           && (is_None_b (pl_calendar_session_id p) || is_None_b (pl_calendar_session_hash p) || is_None_b (pl_calendar_version p)))
    "calendar-backed work requires a versioned session";;
  (if bool_decide (pl_work_kind p = WK_EVIDENCE_TRIGGERED_RESEARCH)
   then invalid (is_nil (pl_trigger_source_ids p) || is_nil (pl_trigger_content_hashes p)) "evidence-triggered work requires bounded evidence"
   else invalid (negb (is_nil (pl_trigger_source_ids p)) || negb (is_nil (pl_trigger_content_hashes p)))
          "calendar cadence work cannot carry evidence triggers");;
  (if bool_decide (pl_work_kind p = WK_OPERATOR_DEEP_RESEARCH)
   then invalid (is_None_b (pl_operator_trigger_id p) || is_None_b (pl_operator_reason_code p))
          "operator deep research requires trigger ID and reason code"
   else invalid (negb (is_None_b (pl_operator_trigger_id p)) || negb (is_None_b (pl_operator_reason_code p)))
          "only operator deep research may carry operator trigger fields");;
  invalid (negb (bool_decide (sorted String.leb (pl_trigger_source_ids p) = pl_trigger_source_ids p))) "trigger source IDs must be sorted";;
  invalid (negb (bool_decide (sorted String.leb (pl_trigger_content_hashes p) = pl_trigger_content_hashes p)))
    "trigger content hashes must be sorted";;
  th ← trigger_hash (pl_trigger_source_ids p) (pl_trigger_content_hashes p);
  invalid (negb (String.eqb (pl_trigger_manifest_hash p) th)) "trigger manifest hash mismatch";;
  ph ← canonical_hash (_plan_hash_payload p);
  invalid (negb (String.eqb (pl_plan_hash p) ph)) "research schedule plan hash mismatch";;
  Ok p.

(** ** Leases and receipts *)

Record ResearchWorkLeaseV1 := {
  wl_work_item_id : string;
  wl_work_kind : ResearchScheduleWorkKind;
  wl_lease_owner : string;
  wl_lease_token : string;
  wl_attempt_number : Z;
  wl_acquired_at : datetime;
  wl_lease_expires_at : datetime;
  wl_config_manifest_hash : string;
  wl_plan_hash : string;
  wl_real_order_routing : bool;
}.

Definition validate_ResearchWorkLeaseV1 (l : ResearchWorkLeaseV1) : res ResearchWorkLeaseV1 :=
  invalid (wl_attempt_number l <=? 0) "attempt_number";;
  invalid (wl_real_order_routing l) "real_order_routing";;
  aware (wl_acquired_at l);; aware (wl_lease_expires_at l);;
  invalid (dt_le (wl_lease_expires_at l) (wl_acquired_at l)) "research work lease must have positive duration";;
  Ok l.

Record ResearchWorkDispatchReceiptV1 := {
  rc_schema_version : string;
  rc_receipt_id : string;
  rc_work_item_id : string;
  rc_work_kind : ResearchScheduleWorkKind;
  rc_attempt_number : Z;
  rc_lease_token : string;
  rc_dispatch_target : ResearchDispatchTarget;
  rc_work_payload_hash : string;
  rc_config_manifest_hash : string;
  rc_created_at : datetime;
  rc_receipt_hash : string;
  rc_real_order_routing : bool;
}.

(** The fields of a receipt but its hash, with its time written by [time]. *)
Definition receipt_fields (time : datetime → pyval) (r : ResearchWorkDispatchReceiptV1) : list (string * pyval) :=
  [("schema_version", PStr (rc_schema_version r)); ("receipt_id", PStr (rc_receipt_id r)); ("work_item_id", PStr (rc_work_item_id r));
   ("work_kind", PStr (ResearchScheduleWorkKind_value (rc_work_kind r))); ("attempt_number", PInt (rc_attempt_number r));
   ("lease_token", PStr (rc_lease_token r)); ("dispatch_target", PStr (ResearchDispatchTarget_value (rc_dispatch_target r)));
   ("work_payload_hash", PStr (rc_work_payload_hash r)); ("config_manifest_hash", PStr (rc_config_manifest_hash r));
   ("created_at", time (rc_created_at r)); ("real_order_routing", PBool (rc_real_order_routing r))].

Definition _receipt_hash_payload (r : ResearchWorkDispatchReceiptV1) : pyval := PDict (receipt_fields PDatetime r).

Definition validate_ResearchWorkDispatchReceiptV1 `{Digest} (r : ResearchWorkDispatchReceiptV1) : res ResearchWorkDispatchReceiptV1 :=
  invalid (negb (String.eqb (rc_schema_version r) "research_work_dispatch_receipt_v1")) "schema_version";;
  invalid (rc_attempt_number r <=? 0) "attempt_number";;
  invalid (rc_real_order_routing r) "real_order_routing";;
  aware (rc_created_at r);;
  h ← canonical_hash (_receipt_hash_payload r);
  invalid (negb (String.eqb (rc_receipt_hash r) h)) "research dispatch receipt hash mismatch";;
  Ok r.

Record ResearchWorkExecutionLeaseV1 := {
  xl_execution_id : string;
  xl_receipt_id : string;
  xl_receipt_hash : string;
  xl_work_item_id : string;
  xl_work_kind : ResearchScheduleWorkKind;
  xl_consumer_id : string;
  xl_execution_token : string;
  xl_dispatch_attempt_number : Z;
  xl_acquired_at : datetime;
  xl_lease_expires_at : datetime;
  xl_config_manifest_hash : string;
  xl_real_order_routing : bool;
}.

Definition validate_ResearchWorkExecutionLeaseV1 (l : ResearchWorkExecutionLeaseV1) : res ResearchWorkExecutionLeaseV1 :=
  invalid (any_empty [xl_execution_id l; xl_receipt_id l; xl_receipt_hash l; xl_work_item_id l; xl_consumer_id l; xl_execution_token l;
                      xl_config_manifest_hash l]) "min_length";;
  invalid (xl_dispatch_attempt_number l <=? 0) "dispatch_attempt_number";;
  invalid (xl_real_order_routing l) "real_order_routing";;
  aware (xl_acquired_at l);; aware (xl_lease_expires_at l);;
  invalid (dt_le (xl_lease_expires_at l) (xl_acquired_at l)) "research execution lease must have positive duration";;
  Ok l.

Definition dispatch_target_for (work_kind : ResearchScheduleWorkKind) : ResearchDispatchTarget :=
  match work_kind with
  | WK_DAILY_AGGREGATION => DAILY_AGGREGATION_V1
  | WK_OUTCOME_MATURATION => OUTCOME_MATURATION_V1
  | WK_RESEARCH_MEMORY_MATERIALIZATION => RESEARCH_MEMORY_MATERIALIZATION_V1
  | _ => DEEP_RESEARCH_CYCLE_V1
  end.

Definition build_dispatch_receipt `{Digest} `{JsonDatetime} (plan : ResearchSchedulePlanV1) (lease : ResearchWorkLeaseV1) (created_at : datetime)
    : res ResearchWorkDispatchReceiptV1 :=
  created ← require_aware_utc created_at;
  raise_if (negb (String.eqb (pl_work_item_id plan) (wl_work_item_id lease)) || negb (String.eqb (pl_plan_hash plan) (wl_plan_hash lease)))
    ValueError "dispatch lease does not match its planned work";;
  receipt_id ← stable_id "research-dispatch" [PStr (pl_work_item_id plan); PInt (wl_attempt_number lease)];
  work_payload_hash ← schedule_plan_payload_hash plan;
  let receipt h := {|
    rc_schema_version := "research_work_dispatch_receipt_v1";
    rc_receipt_id := receipt_id;
    rc_work_item_id := pl_work_item_id plan;
    rc_work_kind := pl_work_kind plan;
    rc_attempt_number := wl_attempt_number lease;
    rc_lease_token := wl_lease_token lease;
    rc_dispatch_target := dispatch_target_for (pl_work_kind plan);
    rc_work_payload_hash := work_payload_hash;
    rc_config_manifest_hash := pl_config_manifest_hash plan;
    rc_created_at := created;
    rc_receipt_hash := h;
    rc_real_order_routing := false;
  |} in
  h ← canonical_hash (_receipt_hash_payload (receipt EmptyString));
  validate_ResearchWorkDispatchReceiptV1 (receipt h).

(** ** [ResearchScheduleConfig] ([research/config.py]) *)

Record ResearchScheduleConfig := {
  sc_schedule_version : string;
  sc_timezone : string;
  sc_market_calendar_version : string;
  sc_daily_aggregation_time : string;
  sc_daily_post_close_delay_minutes : Z;
  sc_weekly_research_day : string;
  sc_weekly_research_time : string;
  sc_evidence_trigger_minimum_new_sources : Z;
  sc_planning_lookback_days : Z;
  sc_dispatch_lease_seconds : Z;
  sc_maximum_dispatch_attempts : Z;
  sc_worker_poll_seconds : Z;
  sc_status_history_limit : Z;
}.

Definition weekday_numbers : pydict Z :=
  [("MONDAY", 0); ("TUESDAY", 1); ("WEDNESDAY", 2); ("THURSDAY", 3); ("FRIDAY", 4); ("SATURDAY", 5); ("SUNDAY", 6)].

Definition _weekday_number (value : string) : res Z := dindex value weekday_numbers.

(** A configured time of day has minute precision. *)
Definition validate_schedule_time (value : string) : res () :=
  parsed ← time_fromisoformat value;
  invalid (negb (parsed mod 60000000 =? 0)) "research schedule times must have minute precision".

Definition with_weekly_research_day (day : string) (c : ResearchScheduleConfig) : ResearchScheduleConfig := {|
  sc_schedule_version := sc_schedule_version c; sc_timezone := sc_timezone c; sc_market_calendar_version := sc_market_calendar_version c;
  sc_daily_aggregation_time := sc_daily_aggregation_time c; sc_daily_post_close_delay_minutes := sc_daily_post_close_delay_minutes c;
  sc_weekly_research_day := day; sc_weekly_research_time := sc_weekly_research_time c;
  sc_evidence_trigger_minimum_new_sources := sc_evidence_trigger_minimum_new_sources c;
  sc_planning_lookback_days := sc_planning_lookback_days c; sc_dispatch_lease_seconds := sc_dispatch_lease_seconds c;
  sc_maximum_dispatch_attempts := sc_maximum_dispatch_attempts c; sc_worker_poll_seconds := sc_worker_poll_seconds c;
  sc_status_history_limit := sc_status_history_limit c;
|}.

Definition validate_ResearchScheduleConfig `{ZoneInfo} (c : ResearchScheduleConfig) : res ResearchScheduleConfig :=
  invalid (any_empty [sc_schedule_version c; sc_market_calendar_version c]) "min_length";;
  zoneinfo (sc_timezone c);;
  validate_schedule_time (sc_daily_aggregation_time c);;
  validate_schedule_time (sc_weekly_research_time c);;
  invalid (sc_daily_post_close_delay_minutes c <? 0) "daily_post_close_delay_minutes";;
  let normalized := upper (sc_weekly_research_day c) in
  invalid (negb (is_ok (_weekday_number normalized))) "weekly_research_day must be an English weekday";;
  invalid (existsb (λ n, n <=? 0) [sc_evidence_trigger_minimum_new_sources c; sc_planning_lookback_days c; sc_dispatch_lease_seconds c;
                                   sc_maximum_dispatch_attempts c; sc_worker_poll_seconds c; sc_status_history_limit c]) "greater than 0";;
  Ok (with_weekly_research_day normalized c).

(** ** The planner *)

Section planner.
Context `{Digest} `{ZoneInfo}.
Variables (schedule : ResearchScheduleConfig) (config_manifest_hash : string).

Definition _make_plan (work_kind : ResearchScheduleWorkKind) (identity : string) (scheduled_for data_available_cutoff : datetime)
    (calendar_session_id calendar_session_hash calendar_version : option string) (trigger_source_ids trigger_content_hashes : list string)
    (trigger_manifest_hash : string) (operator_trigger_id operator_reason_code : option string) : res ResearchSchedulePlanV1 :=
  let parts := [PStr (sc_schedule_version schedule); PStr (ResearchScheduleWorkKind_value work_kind); PStr identity] in
  work_item_id ← stable_id "research-work" parts;
  idempotency_key ← stable_id "research-work-idempotency" parts;
  scheduled ← require_aware_utc scheduled_for;
  cutoff ← require_aware_utc data_available_cutoff;
  let plan h := {|
    pl_schema_version := "research_schedule_plan_v1";
    pl_work_item_id := work_item_id;
    pl_work_kind := work_kind;
    pl_idempotency_key := idempotency_key;
    pl_schedule_version := sc_schedule_version schedule;
    pl_scheduled_for := scheduled;
    pl_data_available_cutoff := cutoff;
    pl_calendar_session_id := calendar_session_id;
    pl_calendar_session_hash := calendar_session_hash;
    pl_calendar_version := calendar_version;
    pl_trigger_source_ids := trigger_source_ids;
    pl_trigger_content_hashes := trigger_content_hashes;
    pl_trigger_manifest_hash := trigger_manifest_hash;
    pl_operator_trigger_id := operator_trigger_id;
    pl_operator_reason_code := operator_reason_code;
    pl_config_manifest_hash := config_manifest_hash;
    pl_plan_hash := h;
    pl_real_order_routing := false;
  |} in
  h ← canonical_hash (_plan_hash_payload (plan EmptyString));
  validate_ResearchSchedulePlanV1 (plan h).

Definition _calendar_plan (work_kind : ResearchScheduleWorkKind) (identity : string) (scheduled_for : datetime)
    (session : VersionedResearchMarketSession) : res ResearchSchedulePlanV1 :=
  empty_trigger_hash ← trigger_hash [] [];
  _make_plan work_kind identity scheduled_for scheduled_for (Some (ms_calendar_session_id session)) (Some (ms_session_hash session))
    (Some (ms_calendar_version session)) [] [] empty_trigger_hash None None.

Definition build_operator_deep_research_plan (operator_trigger_id operator_reason_code : string)
    (scheduled_for data_available_cutoff : datetime) (session : VersionedResearchMarketSession) : res ResearchSchedulePlanV1 :=
  scheduled ← require_aware_utc scheduled_for;
  cutoff ← require_aware_utc data_available_cutoff;
  raise_if (negb (String.eqb (ms_calendar_version session) (sc_market_calendar_version schedule)))
    ValueError "operator deep research session calendar version mismatch";;
  raise_if (dt_lt cutoff (ms_available_at session)) ValueError "operator deep research session was unavailable at its cutoff";;
  raise_if (dt_lt cutoff (ms_close_at session)) ValueError "operator deep research requires a completed market session";;
  empty_trigger_hash ← trigger_hash [] [];
  _make_plan WK_OPERATOR_DEEP_RESEARCH operator_trigger_id scheduled cutoff (Some (ms_calendar_session_id session))
    (Some (ms_session_hash session)) (Some (ms_calendar_version session)) [] [] empty_trigger_hash
    (Some operator_trigger_id) (Some operator_reason_code).

(** *** Sessions known as of an instant: the latest version of each date *)

Definition session_newer (session current : VersionedResearchMarketSession) : bool :=
  lex_lt [instant (ms_available_at session) ?= instant (ms_available_at current);
          String.compare (ms_calendar_session_id session) (ms_calendar_session_id current)].

Definition keep_latest (calendar_version : string) (as_of : datetime) (latest : gmap Z VersionedResearchMarketSession)
    (session : VersionedResearchMarketSession) : gmap Z VersionedResearchMarketSession :=
  if negb (String.eqb (ms_calendar_version session) calendar_version) || dt_lt as_of (ms_available_at session) then latest
  else match latest !! ms_session_date session with
       | None => <[ms_session_date session := session]> latest
       | Some current => if session_newer session current then <[ms_session_date session := session]> latest else latest
       end.

Definition _latest_sessions_as_of (sessions : list VersionedResearchMarketSession) (calendar_version : string) (as_of : datetime)
    : list VersionedResearchMarketSession :=
  map snd (sorted (λ a b, a.1 <=? b.1) (map_to_list (fold_left (keep_latest calendar_version as_of) sessions ∅))).

(** *** Daily, weekly and evidence plans *)

Definition maintenance_kinds (include_outcome_maintenance : bool) : list ResearchScheduleWorkKind :=
  if include_outcome_maintenance then [WK_OUTCOME_MATURATION; WK_RESEARCH_MEMORY_MATERIALIZATION] else [].

Section clock.
Variables (as_of earliest : datetime).

Definition daily_scheduled_for (timezone : zone) (configured_clock : Z) (session : VersionedResearchMarketSession) : datetime :=
  let configured_at := combine timezone (ms_session_date session) configured_clock in
  let after_actual_close := instant (ms_close_at session) + sc_daily_post_close_delay_minutes schedule * 60000000 in
  utc (configured_at `max` after_actual_close).

Definition daily_session_plans (timezone : zone) (configured_clock : Z) (include_outcome_maintenance : bool)
    (session : VersionedResearchMarketSession) : res (list ResearchSchedulePlanV1) :=
  let scheduled_for := daily_scheduled_for timezone configured_clock session in
  if dt_lt scheduled_for earliest || dt_lt as_of scheduled_for then Ok []
  else mapM_res (λ k, _calendar_plan k (date_isoformat (ms_session_date session)) scheduled_for session)
         (WK_DAILY_AGGREGATION :: maintenance_kinds include_outcome_maintenance).

Definition _daily_plans (timezone : zone) (sessions : list VersionedResearchMarketSession) (include_outcome_maintenance : bool)
    : res (list ResearchSchedulePlanV1) :=
  configured_clock ← time_fromisoformat (sc_daily_aggregation_time schedule);
  foldM (λ plans s, ps ← daily_session_plans timezone configured_clock include_outcome_maintenance s; Ok (plans ++ ps)) [] sessions.

(** [date.weekday()]: 1970-01-01 was a Thursday. *)
Definition weekday (day : date) : Z := (day + 3) mod 7.

Definition anchor_lt (a b : VersionedResearchMarketSession) : bool :=
  lex_lt [ms_session_date a ?= ms_session_date b; instant (ms_available_at a) ?= instant (ms_available_at b);
          String.compare (ms_calendar_session_id a) (ms_calendar_session_id b)].

Definition weekly_day_plans (timezone : zone) (day_number configured_clock : Z) (sessions : list VersionedResearchMarketSession) (cursor : date)
    : res (list ResearchSchedulePlanV1) :=
  if weekday cursor =? day_number then
    let scheduled_for := utc (combine timezone cursor configured_clock) in
    if dt_le earliest scheduled_for && dt_le scheduled_for as_of then
      match List.filter (λ s, dt_le (ms_close_at s) scheduled_for) sessions with
      | [] => Ok []
      | first :: completed =>
          p ← _calendar_plan WK_WEEKLY_DEEP_RESEARCH (date_isoformat cursor) scheduled_for (max_by anchor_lt first completed);
          Ok [p]
      end
    else Ok []
  else Ok [].

(** The loop over the days from [start_date] to [end_date]. *)
Definition _weekly_plans (timezone : zone) (sessions : list VersionedResearchMarketSession) : res (list ResearchSchedulePlanV1) :=
  day_number ← _weekday_number (sc_weekly_research_day schedule);
  configured_clock ← time_fromisoformat (sc_weekly_research_time schedule);
  let start_date := local_date timezone (instant earliest) in
  let end_date := local_date timezone (instant as_of) in
  foldM (λ plans d, ps ← weekly_day_plans timezone day_number configured_clock sessions d; Ok (plans ++ ps)) []
    (seqZ start_date (end_date - start_date + 1)).

Definition marker_le (a b : ResearchEvidenceMarker) : bool :=
  negb (lex_lt [instant (em_captured_at b) ?= instant (em_captured_at a);
                instant (em_first_available_at b) ?= instant (em_first_available_at a);
                String.compare (em_content_hash b) (em_content_hash a); String.compare (em_source_id b) (em_source_id a)]).

Definition stale_marker (consumed : list string) (m : ResearchEvidenceMarker) : bool :=
  dt_lt as_of (em_captured_at m) || dt_lt as_of (em_first_available_at m) || existsb (String.eqb (em_content_hash m)) consumed.

(** The fresh markers, the first of each content hash in capture order. *)
Definition collect_unique (consumed : list string) (unique : pydict ResearchEvidenceMarker) (m : ResearchEvidenceMarker) : pydict ResearchEvidenceMarker :=
  if stale_marker consumed m || dmem (em_content_hash m) unique then unique else dset (em_content_hash m) m unique.

Definition fresh_evidence (evidence : list ResearchEvidenceMarker) (consumed : list string) : list ResearchEvidenceMarker :=
  map snd (fold_left (collect_unique consumed) (sorted marker_le evidence) []).

Definition later_captured (a b : ResearchEvidenceMarker) : bool := dt_lt (em_captured_at a) (em_captured_at b).

Definition evidence_plan (batch : list ResearchEvidenceMarker) : res ResearchSchedulePlanV1 :=
  match batch with
  | [] => raise ValueError "max() arg is an empty sequence"
  | first :: rest =>
      let source_ids := sorted String.leb (map em_source_id batch) in
      let content_hashes := sorted String.leb (map em_content_hash batch) in
      let scheduled_for := em_captured_at (max_by later_captured first rest) in
      manifest ← trigger_hash source_ids content_hashes;
      identity ← canonical_hash (str_list content_hashes);
      _make_plan WK_EVIDENCE_TRIGGERED_RESEARCH identity scheduled_for scheduled_for None None None source_ids content_hashes manifest None None
  end.

Definition _evidence_plans (evidence : list ResearchEvidenceMarker) (consumed : list string) : res (list ResearchSchedulePlanV1) :=
  let ordered := fresh_evidence evidence consumed in
  mapM_res evidence_plan
    (full_batches (length ordered) (Z.to_nat (sc_evidence_trigger_minimum_new_sources schedule)) ordered).
End clock.

Definition _work_kind_order (value : ResearchScheduleWorkKind) : Z :=
  match value with
  | WK_DAILY_AGGREGATION => 0 | WK_OUTCOME_MATURATION => 1 | WK_RESEARCH_MEMORY_MATERIALIZATION => 2
  | WK_OPERATOR_DEEP_RESEARCH => 3 | WK_WEEKLY_DEEP_RESEARCH => 4 | WK_EVIDENCE_TRIGGERED_RESEARCH => 5
  end.

Definition plan_le (a b : ResearchSchedulePlanV1) : bool :=
  negb (lex_lt [instant (pl_scheduled_for b) ?= instant (pl_scheduled_for a);
                _work_kind_order (pl_work_kind b) ?= _work_kind_order (pl_work_kind a);
                String.compare (pl_work_item_id b) (pl_work_item_id a)]).

Definition build_due_schedule_plans (as_of : datetime) (market_sessions : list VersionedResearchMarketSession)
    (evidence : list ResearchEvidenceMarker) (consumed_evidence_hashes : list string) (include_outcome_maintenance : bool)
    : res (list ResearchSchedulePlanV1) :=
  cutoff ← require_aware_utc as_of;
  timezone ← zoneinfo (sc_timezone schedule);
  let earliest := utc (instant cutoff - sc_planning_lookback_days schedule * 86400000000) in
  let latest_sessions := _latest_sessions_as_of market_sessions (sc_market_calendar_version schedule) cutoff in
  daily ← _daily_plans cutoff earliest timezone latest_sessions include_outcome_maintenance;
  weekly ← _weekly_plans cutoff earliest timezone latest_sessions;
  evid ← _evidence_plans cutoff evidence consumed_evidence_hashes;
  Ok (sorted plan_le (daily ++ weekly ++ evid)).
End planner.

(** ** Facts about the planner *)

Lemma validate_ResearchSchedulePlanV1_id `{Digest} p p' : validate_ResearchSchedulePlanV1 p = Ok p' → p' = p.
Proof. unfold validate_ResearchSchedulePlanV1. intros Hv. by inv_ok. Qed.

Lemma validate_ResearchWorkDispatchReceiptV1_id `{Digest} r r' : validate_ResearchWorkDispatchReceiptV1 r = Ok r' → r' = r.
Proof. unfold validate_ResearchWorkDispatchReceiptV1. intros Hv. by inv_ok. Qed.

(** Loops that append the list each element gives. *)
Lemma foldM_append_elem {A B} (f : A → res (list B)) r0 l r y :
  foldM (λ r x, ys ← f x; Ok (r ++ ys)) r0 l = Ok r → y ∈ r → y ∈ r0 ∨ ∃ x ys, x ∈ l ∧ f x = Ok ys ∧ y ∈ ys.
Proof.
  revert r0. induction l as [|x l IH]; intros r0 Hr Hy; cbn in Hr; [injection Hr as ->; auto|].
  apply bind_Ok_inv in Hr as (r1 & Hx & Hr). apply bind_Ok_inv in Hx as (ys & Hx & [= <-]).
  destruct (IH _ Hr Hy) as [[?|?]%elem_of_app|(x' & ys' & ? & ? & ?)]; [by left|right..].
  - exists x, ys. split; [left|done].
  - exists x', ys'. split; [by right|done].
Qed.

Lemma foldM_append_ok {A B} (f : A → res (list B)) r0 l :
  (∀ x, x ∈ l → ∃ ys, f x = Ok ys) → ∃ r, foldM (λ r x, ys ← f x; Ok (r ++ ys)) r0 l = Ok r.
Proof.
  revert r0. induction l as [|x l IH]; intros r0 Hf; cbn; [eauto|].
  destruct (Hf x) as [ys ->]; [by left|]. cbn. apply IH. intros y Hy. apply Hf. by right.
Qed.

Lemma mapM_res_all {A B} (f : A → res B) l : (∀ x, x ∈ l → ∃ y, f x = Ok y) → ∃ ys, mapM_res f l = Ok ys.
Proof.
  induction l as [|x l IH]; intros Hf; cbn; [eauto|]. destruct (Hf x) as [y ->]; [by left|]. cbn.
  destruct IH as [ys ->]; [intros z Hz; apply Hf; by right|]. cbn. eauto.
Qed.

Lemma mapM_res_elem {A B} (f : A → res B) l ys y : mapM_res f l = Ok ys → y ∈ ys → ∃ x, x ∈ l ∧ f x = Ok y.
Proof.
  intros Hm%mapM_res_Forall2 Hy. induction Hm as [|x z l ys Hx _ IH]; [set_solver|].
  apply elem_of_cons in Hy as [->|Hy]; [exists x; split; [left|done]|].
  destruct (IH Hy) as (x' & ? & ?). exists x'. split; [by right|done].
Qed.

Lemma mapM_res_elem_l {A B} (f : A → res B) l ys x : mapM_res f l = Ok ys → x ∈ l → ∃ y, f x = Ok y.
Proof.
  intros Hm%mapM_res_Forall2 Hx. induction Hm as [|z y l ys Hz _ IH]; [set_solver|].
  apply elem_of_cons in Hx as [->|Hx]; eauto.
Qed.

Section planner_facts.
Context `{Digest} `{ZoneInfo}.
Variables (schedule : ResearchScheduleConfig) (config_hash : string).

(** What a plan built from given fields is. *)
Record plan_made (k : ResearchScheduleWorkKind) (identity : string) (scheduled cutoff : datetime) (sid shash sver : option string)
    (sources hashes : list string) (p : ResearchSchedulePlanV1) : Prop := {
  pm_valid : validate_ResearchSchedulePlanV1 p = Ok p;
  pm_kind : pl_work_kind p = k;
  pm_id : stable_id "research-work" [PStr (sc_schedule_version schedule); PStr (ResearchScheduleWorkKind_value k); PStr identity]
          = Ok (pl_work_item_id p);
  pm_scheduled : pl_scheduled_for p = scheduled;
  pm_cutoff : pl_data_available_cutoff p = cutoff;
  pm_sid : pl_calendar_session_id p = sid;
  pm_shash : pl_calendar_session_hash p = shash;
  pm_sver : pl_calendar_version p = sver;
  pm_sources : pl_trigger_source_ids p = sources;
  pm_hashes : pl_trigger_content_hashes p = hashes;
  pm_config : pl_config_manifest_hash p = config_hash;
  pm_paper : pl_real_order_routing p = false;
}.

Lemma make_plan_inv k identity sched cut sid shash sver sources hashes th oid orc p :
  _make_plan schedule config_hash k identity sched cut sid shash sver sources hashes th oid orc = Ok p →
  plan_made k identity sched cut sid shash sver sources hashes p.
Proof.
  unfold _make_plan, require_aware_utc. intros Hm. inv_ok. destruct (tz_aware sched); [|done]. destruct (tz_aware cut); [|done]. inv_ok.
  pose proof (validate_ResearchSchedulePlanV1_id _ _ Hm) as Ep. rewrite <- Ep in Hm. by subst p.
Qed.

Lemma calendar_plan_inv k identity sched s p :
  _calendar_plan schedule config_hash k identity sched s = Ok p →
  plan_made k identity sched sched (Some (ms_calendar_session_id s)) (Some (ms_session_hash s)) (Some (ms_calendar_version s)) [] [] p.
Proof. unfold _calendar_plan. intros Hm. inv_ok. by eapply make_plan_inv. Qed.

(** *** Sessions *)

Lemma keep_latest_cases version as_of latest s :
  keep_latest version as_of latest s = latest
  ∨ (keep_latest version as_of latest s = <[ms_session_date s := s]> latest
     ∧ ms_calendar_version s = version ∧ instant (ms_available_at s) <= instant as_of).
Proof.
  unfold keep_latest. destruct (String.eqb_spec (ms_calendar_version s) version) as [Ev|]; [|by left].
  unfold dt_lt. destruct (Z.ltb_spec (instant as_of) (instant (ms_available_at s))); [by left|]. cbn [negb orb].
  destruct (latest !! ms_session_date s) as [current|]; [destruct (session_newer s current)|]; auto.
Qed.

Lemma keep_latest_elem version as_of sessions d s :
  fold_left (keep_latest version as_of) sessions ∅ !! d = Some s →
  s ∈ sessions ∧ ms_session_date s = d ∧ ms_calendar_version s = version ∧ instant (ms_available_at s) <= instant as_of.
Proof.
  revert d s. induction sessions as [|s' sessions IH] using rev_ind; intros d s; [cbn [fold_left]; by rewrite lookup_empty|].
  rewrite fold_left_app. cbn [fold_left]. set (m := fold_left _ sessions ∅) in *. clearbody m. rewrite elem_of_app.
  destruct (keep_latest_cases version as_of m s') as [->|(-> & ? & ?)]; [naive_solver|].
  intros [(<- & <-)|(? & Hs)]%lookup_insert_Some; [split; [right; by left|done]|]. apply IH in Hs. naive_solver.
Qed.

Lemma latest_sessions_elem sessions version as_of s :
  s ∈ _latest_sessions_as_of sessions version as_of →
  s ∈ sessions ∧ ms_calendar_version s = version ∧ instant (ms_available_at s) <= instant as_of.
Proof.
  unfold _latest_sessions_as_of. intros ([d s'] & -> & Hs)%list_elem_of_fmap. rewrite elem_of_sorted in Hs.
  apply elem_of_map_to_list in Hs. cbn in *. apply keep_latest_elem in Hs. naive_solver.
Qed.

(** *** Evidence *)

Definition fresh_hash (as_of : datetime) (evidence : list ResearchEvidenceMarker) (consumed : list string) (h : string) : Prop :=
  ∃ m, m ∈ evidence ∧ em_content_hash m = h ∧ stale_marker as_of consumed m = false.

Lemma collect_unique_spec as_of consumed l :
  let u := fold_left (collect_unique as_of consumed) l [] in
  NoDup u.*1 ∧ (∀ k m, (k, m) ∈ u → k = em_content_hash m ∧ m ∈ l ∧ stale_marker as_of consumed m = false) ∧
  (∀ m, m ∈ l → stale_marker as_of consumed m = false → em_content_hash m ∈ u.*1).
Proof.
  induction l as [|m l IH] using rev_ind; [repeat split; [constructor|set_solver..]|].
  rewrite fold_left_app. cbn [fold_left]. set (u := fold_left _ l []) in *. cbn zeta in IH. destruct IH as (I1 & I2 & I3).
  unfold collect_unique. destruct (stale_marker as_of consumed m) eqn:Es; cbn [orb].
  { split; [done|]. split; [set_solver|]. intros m' [?|Hm'%list_elem_of_singleton]%elem_of_app ?; [auto|congruence]. }
  destruct (dmem (em_content_hash m) u) eqn:Em.
  - split; [done|]. split; [set_solver|]. intros m' [?|Hm'%list_elem_of_singleton]%elem_of_app ?; [auto|subst m'].
    unfold dmem in Em. destruct (dget _ u) eqn:Ed; [|done]. apply dget_Some_elem in Ed. apply list_elem_of_fmap. by eexists (_, _).
  - unfold dmem in Em. destruct (dget (em_content_hash m) u) eqn:Ed; [done|]. split; [by apply dset_NoDup|].
    rewrite dset_fresh by done. split; [|intros m' [?|Hm'%list_elem_of_singleton]%elem_of_app ?; rewrite fmap_app; set_solver].
    intros k m' [?|Hm'%list_elem_of_singleton]%elem_of_app; [|injection Hm' as -> ->; split; [done|split; [set_solver|done]]].
    destruct (I2 k m') as (? & ? & ?); [done|]. split; [done|split; [set_solver|done]].
Qed.

Lemma fresh_evidence_spec as_of evidence consumed :
  let f := fresh_evidence as_of evidence consumed in
  NoDup (map em_content_hash f) ∧ (∀ m, m ∈ f → m ∈ evidence ∧ stale_marker as_of consumed m = false) ∧
  (∀ h, h ∈ map em_content_hash f ↔ fresh_hash as_of evidence consumed h).
Proof.
  cbn zeta. unfold fresh_evidence. pose proof (collect_unique_spec as_of consumed (sorted marker_le evidence)) as (I1 & I2 & I3).
  set (u := fold_left _ _ []) in *. cbn zeta in *.
  assert (map em_content_hash (map snd u) = u.*1) as Eu.
  { clear I1 I3. induction u as [|[k m] u IH]; cbn; [done|]. rewrite IH by set_solver. f_equal. symmetry. apply (I2 k m). left. }
  rewrite Eu. split; [done|]. split.
  - intros m ([k m'] & -> & Hm)%list_elem_of_fmap. apply I2 in Hm as (_ & Hm & ?). by rewrite elem_of_sorted in Hm.
  - intros h. split.
    + intros ([k m] & -> & Hm)%list_elem_of_fmap. apply I2 in Hm as (E & Hm & ?). rewrite elem_of_sorted in Hm. by exists m.
    + intros (m & Hm & <- & Hs). apply I3; [by rewrite elem_of_sorted|done].
Qed.

Lemma evidence_plan_inv batch p :
  evidence_plan schedule config_hash batch = Ok p →
  ∃ first rest identity, batch = first :: rest ∧
  plan_made WK_EVIDENCE_TRIGGERED_RESEARCH identity (em_captured_at (max_by later_captured first rest))
    (em_captured_at (max_by later_captured first rest)) None None None
    (sorted String.leb (map em_source_id batch)) (sorted String.leb (map em_content_hash batch)) p.
Proof.
  unfold evidence_plan. destruct batch as [|first rest]; [done|]. intros Hp. inv_ok. exists first, rest, x0. split; [done|].
  by eapply make_plan_inv.
Qed.

Lemma config_facts :
  validate_ResearchScheduleConfig schedule = Ok schedule →
  any_empty [sc_schedule_version schedule; sc_market_calendar_version schedule] = false ∧
  (∃ z, zoneinfo (sc_timezone schedule) = Ok z) ∧
  (∃ t, time_fromisoformat (sc_daily_aggregation_time schedule) = Ok t) ∧
  (∃ t, time_fromisoformat (sc_weekly_research_time schedule) = Ok t) ∧
  (∃ n, _weekday_number (sc_weekly_research_day schedule) = Ok n) ∧
  0 <= sc_daily_post_close_delay_minutes schedule ∧ 0 < sc_evidence_trigger_minimum_new_sources schedule.
Proof.
  unfold validate_ResearchScheduleConfig, validate_schedule_time, invalid. intros Hv. inv_ok.
  assert (upper (sc_weekly_research_day schedule) = sc_weekly_research_day schedule) as Eu
    by (apply (f_equal sc_weekly_research_day) in Hv; exact Hv).
  rewrite Eu in *. clear Hv. cbn [existsb] in *. split_bool. destruct (_weekday_number _) eqn:Ew; [|done].
  repeat match goal with |- _ ∧ _ => split end; eauto; lia.
Qed.

(** A daily plan is scheduled after its session's close. *)
Lemma daily_plans_elem as_of earliest tz sessions maint plans p :
  0 <= sc_daily_post_close_delay_minutes schedule →
  _daily_plans schedule config_hash as_of earliest tz sessions maint = Ok plans → p ∈ plans →
  ∃ s k identity sched, s ∈ sessions ∧
    k ∈ WK_DAILY_AGGREGATION :: maintenance_kinds maint ∧
    instant (ms_close_at s) <= instant sched ∧ instant earliest <= instant sched <= instant as_of ∧
    plan_made k identity sched sched (Some (ms_calendar_session_id s)) (Some (ms_session_hash s)) (Some (ms_calendar_version s)) [] [] p.
Proof.
  unfold _daily_plans. intros Hd Hp Hin. inv_ok.
  destruct (foldM_append_elem _ _ _ _ _ Hp Hin) as [Hno|(s & ys & Hs & Hys & Hy)]; [by apply not_elem_of_nil in Hno|].
  unfold daily_session_plans in Hys. destruct (dt_lt _ earliest || _) eqn:Eb; [injection Hys as <-; by apply not_elem_of_nil in Hy|].
  split_bool. unfold dt_lt in *. apply Z.ltb_ge in H1, H2.
  eapply mapM_res_elem in Hys as (k & Hk & Hm); [|exact Hy]. apply calendar_plan_inv in Hm.
  exists s, k, (date_isoformat (ms_session_date s)), (daily_scheduled_for schedule tz x s). split; [done|]. split; [done|].
  split; [cbn; lia|]. by split.
Qed.

Lemma weekly_plans_elem as_of earliest tz sessions plans p :
  _weekly_plans schedule config_hash as_of earliest tz sessions = Ok plans → p ∈ plans →
  ∃ s identity sched, s ∈ sessions ∧
    instant (ms_close_at s) <= instant sched ∧ instant earliest <= instant sched <= instant as_of ∧
    plan_made WK_WEEKLY_DEEP_RESEARCH identity sched sched (Some (ms_calendar_session_id s)) (Some (ms_session_hash s))
      (Some (ms_calendar_version s)) [] [] p.
Proof.
  unfold _weekly_plans. intros Hp Hin. inv_ok.
  destruct (foldM_append_elem _ _ _ _ _ Hp Hin) as [Hno|(d & ys & Hs & Hys & Hy)]; [by apply not_elem_of_nil in Hno|].
  unfold weekly_day_plans in Hys. destruct (weekday d =? x); [|injection Hys as <-; by apply not_elem_of_nil in Hy].
  destruct (dt_le earliest _ && _) eqn:Eb; [|injection Hys as <-; by apply not_elem_of_nil in Hy]. split_bool. unfold dt_le in H1, H2.
  apply Z.leb_le in H1, H2. destruct (List.filter _ sessions) as [|first rest] eqn:Ef; [injection Hys as <-; by apply not_elem_of_nil in Hy|].
  inv_ok. apply list_elem_of_singleton in Hy as ->. apply calendar_plan_inv in E1.
  assert (max_by anchor_lt first rest ∈ first :: rest) as Hm by apply max_by_elem.
  rewrite <- Ef in Hm. apply elem_of_filterb in Hm as [Hc Hm]. apply Z.leb_le in Hc. by eexists _, _, _.
Qed.

Lemma evidence_plans_spec as_of evidence consumed plans :
  0 < sc_evidence_trigger_minimum_new_sources schedule →
  _evidence_plans schedule config_hash as_of evidence consumed = Ok plans →
  let n := Z.to_nat (sc_evidence_trigger_minimum_new_sources schedule) in
  ∃ batches rest, fresh_evidence as_of evidence consumed = concat batches ++ rest ∧ (length rest < n)%nat ∧
    Forall (λ b, length b = n) batches ∧ Forall2 (λ b p, evidence_plan schedule config_hash b = Ok p) batches plans.
Proof.
  intros Hn Hp n. unfold _evidence_plans in Hp. fold n in Hp.
  destruct (full_batches_split (length (fresh_evidence as_of evidence consumed)) n (fresh_evidence as_of evidence consumed))
    as (rest & E & Hr); [unfold n; lia|done|]. eexists _, rest. split; [exact E|]. split; [done|].
  split; [|by apply mapM_res_Forall2]. apply Forall_forall. intros b Hb. by eapply full_batches_length.
Qed.

(** What a due plan is: a valid paper plan of this configuration, due at the planning instant, whose data cutoff is its
    scheduled time, resting on a completed session known then, or on evidence captured by its scheduled time. *)
Definition due_plan (as_of : datetime) (sessions : list VersionedResearchMarketSession) (evidence : list ResearchEvidenceMarker)
    (consumed : list string) (p : ResearchSchedulePlanV1) : Prop :=
  validate_ResearchSchedulePlanV1 p = Ok p ∧ pl_config_manifest_hash p = config_hash ∧ pl_real_order_routing p = false ∧
  pl_data_available_cutoff p = pl_scheduled_for p ∧ instant (pl_scheduled_for p) <= instant as_of ∧
  if bool_decide (pl_work_kind p = WK_EVIDENCE_TRIGGERED_RESEARCH) then
    ∀ h, h ∈ pl_trigger_content_hashes p →
      ∃ m, m ∈ evidence ∧ em_content_hash m = h ∧ h ∉ consumed ∧ instant (em_captured_at m) <= instant (pl_scheduled_for p)
  else
    instant as_of - sc_planning_lookback_days schedule * 86400000000 <= instant (pl_scheduled_for p) ∧
    ∃ s, s ∈ sessions ∧ ms_calendar_version s = sc_market_calendar_version schedule ∧ instant (ms_available_at s) <= instant as_of ∧
      instant (ms_close_at s) <= instant (pl_scheduled_for p) ∧ pl_calendar_session_id p = Some (ms_calendar_session_id s) ∧
      pl_calendar_session_hash p = Some (ms_session_hash s).

Lemma stale_marker_false as_of consumed m :
  stale_marker as_of consumed m = false ↔ instant (em_captured_at m) <= instant as_of ∧ instant (em_first_available_at m) <= instant as_of
    ∧ em_content_hash m ∉ consumed.
Proof.
  unfold stale_marker, dt_lt.
  assert (existsb (String.eqb (em_content_hash m)) consumed = false ↔ em_content_hash m ∉ consumed) as Hc.
  { rewrite <- not_true_iff_false, existsb_exists. split; intros Hn Hx; apply Hn.
    - exists (em_content_hash m). split; [by apply list_elem_of_In|]. by apply String.eqb_eq.
    - destruct Hx as (x & ? & <-%String.eqb_eq). by apply list_elem_of_In. }
  rewrite !orb_false_iff, !Z.ltb_ge. tauto.
Qed.

Lemma evidence_due as_of sessions evidence consumed plans p :
  0 < sc_evidence_trigger_minimum_new_sources schedule →
  _evidence_plans schedule config_hash as_of evidence consumed = Ok plans → p ∈ plans → due_plan as_of sessions evidence consumed p.
Proof.
  intros Hn Hp Hin. destruct (evidence_plans_spec _ _ _ _ Hn Hp) as (batches & rest & Ef & _ & _ & Hf).
  destruct (mapM_res_elem _ _ _ _ (proj2 (mapM_res_Forall2 _ _ _) Hf) Hin) as (b & Hb & Hpb).
  apply evidence_plan_inv in Hpb as (first & rst & identity & -> & Hm). destruct Hm.
  assert (∀ m, m ∈ first :: rst → m ∈ evidence ∧ stale_marker as_of consumed m = false) as Hall.
  { intros m Hmb. apply (fresh_evidence_spec as_of evidence consumed). rewrite Ef. apply elem_of_app. left.
    apply list_elem_of_In, in_concat. exists (first :: rst). by rewrite <- !list_elem_of_In. }
  assert (∀ m, m ∈ first :: rst → instant (em_captured_at m) <= instant (em_captured_at (max_by later_captured first rst))) as Hmax.
  { apply (max_by_key (λ m, instant (em_captured_at m))). intros a b. unfold later_captured, dt_lt. destruct (Z.ltb_spec (instant (em_captured_at a)) (instant (em_captured_at b))); lia. }
  split; [done|]. split; [done|]. split; [done|]. split; [congruence|]. rewrite pm_scheduled0.
  split; [apply (stale_marker_false as_of consumed), Hall, max_by_elem|].
  rewrite pm_kind0, bool_decide_eq_true_2 by done. rewrite pm_hashes0. intros h Hh.
  rewrite elem_of_sorted in Hh. apply list_elem_of_fmap in Hh as (m & -> & Hmb). exists m.
  destruct (Hall m Hmb) as [? Hs%stale_marker_false]. naive_solver.
Qed.

Lemma batch_hashes batches plans :
  Forall2 (λ b p, evidence_plan schedule config_hash b = Ok p) batches plans →
  map pl_trigger_content_hashes plans = map (λ b, sorted String.leb (map em_content_hash b)) batches ∧
  Forall (λ p, pl_work_kind p = WK_EVIDENCE_TRIGGERED_RESEARCH) plans.
Proof.
  induction 1 as [|b p batches plans Hb _ [IH1 IH2]]; [by repeat constructor|].
  apply evidence_plan_inv in Hb as (first & rest & identity & -> & []). cbn [map].
  split; [by rewrite IH1, pm_hashes0|by constructor].
Qed.

(** *** Plans that cannot be refused *)

Lemma sorted_leb_id l : sorted String.leb (sorted String.leb l) = sorted String.leb l.
Proof.
  apply sorted_id. apply sorted_StronglySorted; [apply string_leb_total|apply string_leb_trans].
Qed.

Lemma str_list_ok l : val_ok (str_list l) = true.
Proof. unfold str_list. cbn. induction l; cbn; auto. Qed.

Lemma stable_id_nonempty prefix parts h : str_empty prefix = false → stable_id prefix parts = Ok h → str_empty h = false.
Proof. unfold stable_id. intros Hp Hh. inv_ok. subst. by destruct prefix. Qed.

Lemma plan_payload_ok p : tz_aware (pl_scheduled_for p) = true → tz_aware (pl_data_available_cutoff p) = true →
  val_ok (_plan_hash_payload p) = true.
Proof.
  intros E1 E2. unfold _plan_hash_payload, plan_fields. cbn [val_ok]. rewrite !forallb_app. cbn [forallb snd val_ok].
  rewrite E1, E2, !str_list_ok. destruct (pl_calendar_session_id p), (pl_calendar_session_hash p), (pl_calendar_version p),
    (pl_operator_trigger_id p), (pl_operator_reason_code p); done.
Qed.

Lemma trigger_hash_ok sources hashes : ∃ h, trigger_hash sources hashes = Ok h.
Proof. apply canonical_hash_ok. cbn [val_ok forallb snd]. by rewrite !str_list_ok. Qed.

Context `{!HexDigest}.

Lemma canonical_hash_nonempty v h : canonical_hash v = Ok h → str_empty h = false.
Proof. intros Hh%hash_pattern_hash. by destruct h. Qed.

Hypotheses (Hversion : str_empty (sc_schedule_version schedule) = false) (Hconfig : str_empty config_hash = false).

Lemma make_plan_ok k identity sched cut sid shash sver sources hashes th :
  tz_aware sched = true → tz_aware cut = true → instant cut <= instant sched →
  k ≠ WK_OPERATOR_DEEP_RESEARCH →
  (if bool_decide (k = WK_EVIDENCE_TRIGGERED_RESEARCH) then sources ≠ [] ∧ hashes ≠ []
   else is_Some sid ∧ is_Some shash ∧ is_Some sver ∧ sources = [] ∧ hashes = []) →
  sorted String.leb sources = sources → sorted String.leb hashes = hashes → trigger_hash sources hashes = Ok th →
  ∃ p, _make_plan schedule config_hash k identity sched cut sid shash sver sources hashes th None None = Ok p.
Proof.
  intros Hs Hc Hle Hop Hk Hso Hha Hth. unfold _make_plan.
  set (parts := [PStr _; PStr _; PStr identity]).
  destruct (stable_id_ok "research-work" parts) as [id Hid]; [done|].
  destruct (stable_id_ok "research-work-idempotency" parts) as [key Hkey]; [done|].
  rewrite Hid, Hkey. cbn [mbind res_bind]. unfold require_aware_utc. rewrite Hs, Hc. cbn [mbind res_bind].
  match goal with |- ∃ p, (canonical_hash (_plan_hash_payload ?q) ≫= _) = _ => destruct (canonical_hash_ok (_plan_hash_payload q)) as [h Hh] end;
    [by apply plan_payload_ok|].
  rewrite Hh. cbn [mbind res_bind]. eexists. unfold validate_ResearchSchedulePlanV1, aware. cbn [pl_schema_version pl_work_item_id pl_work_kind
    pl_idempotency_key pl_schedule_version pl_scheduled_for pl_data_available_cutoff pl_calendar_session_id pl_calendar_session_hash
    pl_calendar_version pl_trigger_source_ids pl_trigger_content_hashes pl_trigger_manifest_hash pl_operator_trigger_id
    pl_operator_reason_code pl_config_manifest_hash pl_plan_hash pl_real_order_routing].
  apply stable_id_nonempty in Hid, Hkey; [|done..]. pose proof (canonical_hash_nonempty _ _ Hth). pose proof (canonical_hash_nonempty _ _ Hh).
  assert (any_empty [id; key; sc_schedule_version schedule; th; config_hash; h] = false) as ->
    by (cbn [any_empty existsb]; by repeat match goal with E : str_empty _ = false |- _ => rewrite E; clear E end).
  rewrite Hs, Hc. unfold dt_lt. rewrite (proj2 (Z.ltb_ge _ _)) by done. rewrite Hth, Hso, Hha, !bool_decide_eq_true_2 by done.
  unfold calendar_backed. rewrite bool_decide_eq_false_2 with (P := k = WK_OPERATOR_DEEP_RESEARCH) by done.
  cbn [negb invalid raise_if opt_holds mbind res_bind is_None_b orb andb] in *.
  assert (∀ b msg (m : res ResearchSchedulePlanV1), b = false → (invalid b msg ≫= λ _, m) = m) as Hskip by (by intros ? ? ? ->).
  rewrite !Hskip with (b := negb (_ =? _)%string) by (by rewrite String.eqb_refl).
  match goal with |- context [canonical_hash ?v] => replace (canonical_hash v) with (Ok h) by (symmetry; exact Hh) end.
  cbn [mbind res_bind]. rewrite String.eqb_refl. destruct (bool_decide (k = _)).
  - destruct Hk as [? ?]. by destruct sources, hashes.
  - by destruct Hk as ([? ->] & [? ->] & [? ->] & -> & ->).
Qed.

Lemma calendar_plan_ok k identity sched s :
  tz_aware sched = true → k ≠ WK_OPERATOR_DEEP_RESEARCH → k ≠ WK_EVIDENCE_TRIGGERED_RESEARCH →
  ∃ p, _calendar_plan schedule config_hash k identity sched s = Ok p.
Proof.
  intros Hs Hop Hev. unfold _calendar_plan. destruct (trigger_hash_ok [] []) as [th Hth]. rewrite Hth. cbn [mbind res_bind].
  apply make_plan_ok; try done. rewrite bool_decide_eq_false_2 by done. repeat split; eauto.
Qed.

Lemma evidence_plan_ok batch :
  batch ≠ [] → Forall (λ m, tz_aware (em_captured_at m) = true) batch → ∃ p, evidence_plan schedule config_hash batch = Ok p.
Proof.
  destruct batch as [|first rest]; [done|]. intros _ Ha. unfold evidence_plan.
  set (sources := sorted String.leb _). set (hashes := sorted String.leb (map em_content_hash _)).
  destruct (trigger_hash_ok sources hashes) as [th Hth]. rewrite Hth. cbn [mbind res_bind].
  destruct (canonical_hash_ok (str_list hashes)) as [identity ->]; [apply str_list_ok|]. cbn [mbind res_bind].
  rewrite Forall_forall in Ha. pose proof (Ha _ (max_by_elem later_captured first rest)).
  apply make_plan_ok; try done; try apply sorted_leb_id. rewrite bool_decide_eq_true_2 by done.
  assert (∀ l : list string, l ≠ [] → sorted String.leb l ≠ []) as Hne.
  { intros l Hl E. apply Hl, length_zero_iff_nil. by rewrite <- (length_sorted String.leb), E. }
  split; by apply Hne.
Qed.
End planner_facts.

(** ** The planner's properties *)

Definition evidence_triggered (p : ResearchSchedulePlanV1) : bool := bool_decide (pl_work_kind p = WK_EVIDENCE_TRIGGERED_RESEARCH).

Lemma due_plan_of_session `{Digest} schedule config_hash as_of sessions evidence consumed k identity sched s p :
  k ≠ WK_EVIDENCE_TRIGGERED_RESEARCH →
  instant (ms_close_at s) <= instant sched → instant as_of - sc_planning_lookback_days schedule * 86400000000 <= instant sched <= instant as_of →
  s ∈ _latest_sessions_as_of sessions (sc_market_calendar_version schedule) as_of →
  plan_made schedule config_hash k identity sched sched (Some (ms_calendar_session_id s)) (Some (ms_session_hash s))
    (Some (ms_calendar_version s)) [] [] p →
  due_plan schedule config_hash as_of sessions evidence consumed p.
Proof.
  intros Hk Hclose Hwin (Hs & Hv & Ha)%latest_sessions_elem []. unfold due_plan.
  rewrite pm_kind0, bool_decide_eq_false_2, pm_scheduled0, pm_cutoff0 by done.
  do 4 (split; [done|]). split; [lia|]. split; [lia|]. by exists s.
Qed.

(** C37: Planning never looks ahead: every plan built is valid and paper-only, is due at the planning instant with its data cutoff at its
    scheduled time, and rests on a session already known and closed by then, or on unconsumed evidence captured by then. *)
Theorem due_plans_no_lookahead `{Digest} `{ZoneInfo} schedule config_hash as_of sessions evidence consumed maint plans p :
  validate_ResearchScheduleConfig schedule = Ok schedule →
  build_due_schedule_plans schedule config_hash as_of sessions evidence consumed maint = Ok plans → p ∈ plans →
  due_plan schedule config_hash as_of sessions evidence consumed p.
Proof.
  intros (_ & _ & _ & _ & _ & Hdelay & Hn)%config_facts Hb Hp. unfold build_due_schedule_plans in Hb. inv_ok.
  apply aware_time in E as [_ ->]. rewrite elem_of_sorted, !elem_of_app in Hp. destruct Hp as [Hp|[Hp|Hp]].
  - destruct (daily_plans_elem _ _ _ _ _ _ _ _ _ Hdelay E1 Hp) as (s & k & identity & sched & Hs & Hk & Hc & Hw & Hm).
    eapply due_plan_of_session; [|exact Hc|exact Hw|exact Hs|exact Hm]. intros ->. revert Hk. destruct maint; cbn; rewrite ?elem_of_cons, elem_of_nil; naive_solver.
  - destruct (weekly_plans_elem _ _ _ _ _ _ _ _ E2 Hp) as (s & identity & sched & Hs & Hc & Hw & Hm).
    eapply due_plan_of_session; [|exact Hc|exact Hw|exact Hs|exact Hm]; done.
  - by eapply evidence_due.
Qed.

(** Evidence is batched exactly: each evidence-triggered plan takes as many new content hashes as the configured threshold, no
    hash is taken twice or had been consumed, and fewer hashes than a batch are left waiting. *)
Theorem evidence_batches_exact `{Digest} `{ZoneInfo} schedule config_hash as_of sessions evidence consumed maint plans :
  validate_ResearchScheduleConfig schedule = Ok schedule →
  build_due_schedule_plans schedule config_hash as_of sessions evidence consumed maint = Ok plans →
  let triggered := List.filter evidence_triggered plans in
  let taken := concat (map pl_trigger_content_hashes triggered) in
  let n := Z.to_nat (sc_evidence_trigger_minimum_new_sources schedule) in
  Forall (λ p, length (pl_trigger_content_hashes p) = n) triggered ∧
  ∃ left, (length left < n)%nat ∧ NoDup (taken ++ left) ∧
    ∀ h, h ∈ taken ++ left ↔
      ∃ m, m ∈ evidence ∧ em_content_hash m = h ∧
        instant (em_captured_at m) <= instant as_of ∧ instant (em_first_available_at m) <= instant as_of ∧ h ∉ consumed.
Proof.
  intros (_ & _ & _ & _ & _ & Hdelay & Hn)%config_facts Hb. unfold build_due_schedule_plans in Hb. inv_ok.
  apply aware_time in E as [_ ->]. destruct (evidence_plans_spec _ _ _ _ _ _ Hn E3) as (batches & rest & Ef & Hrest & Hlen & Hf).
  apply batch_hashes in Hf as [Hh Hkind]. cbn zeta. set (n := Z.to_nat _) in *.
  assert (List.filter evidence_triggered (sorted plan_le (x1 ++ x2 ++ x3)) ≡ₚ x3) as Hp.
  { rewrite (filterb_perm _ _ _ (sorted_perm plan_le _)), !List.filter_app.
    rewrite (filterb_nil _ x1), (filterb_nil _ x2), (filterb_all _ x3); [done|..]; unfold evidence_triggered.
    - intros p Hp. rewrite Forall_forall in Hkind. by rewrite bool_decide_eq_true_2 by auto.
    - intros p Hp. destruct (weekly_plans_elem _ _ _ _ _ _ _ _ E2 Hp) as (? & ? & ? & _ & _ & _ & []). by rewrite pm_kind0.
    - intros p Hp. destruct (daily_plans_elem _ _ _ _ _ _ _ _ _ Hdelay E1 Hp) as (? & k & ? & ? & _ & Hk & _ & _ & []).
      rewrite pm_kind0. apply bool_decide_eq_false_2. intros ->. revert Hk.
      destruct maint; cbn; rewrite ?elem_of_cons, elem_of_nil; naive_solver. }
  split.
  { rewrite Hp. rewrite Forall_forall in Hlen. rewrite Forall_forall. intros p Hin.
    assert (pl_trigger_content_hashes p ∈ map pl_trigger_content_hashes x3) as Hin2 by (apply list_elem_of_fmap; eauto).
    rewrite Hh in Hin2. apply list_elem_of_fmap in Hin2 as (b & -> & Hb).
    rewrite length_sorted, length_map. by apply Hlen. }
  exists (map em_content_hash rest). rewrite length_map. split; [done|].
  destruct (fresh_evidence_spec as_of evidence consumed) as (Hnd & _ & Hfresh).
  assert (concat (map pl_trigger_content_hashes (List.filter evidence_triggered (sorted plan_le (x1 ++ x2 ++ x3)))) ++ map em_content_hash rest
          ≡ₚ map em_content_hash (fresh_evidence as_of evidence consumed)) as Hperm.
  { rewrite Ef, map_app. apply Permutation_app; [|done]. rewrite <- !flat_map_concat_map. etrans; [by apply Permutation_flat_map|].
    rewrite flat_map_concat_map, Hh, concat_map. clear. induction batches as [|b l IH]; cbn; [done|].
    apply Permutation_app; [apply sorted_perm|exact IH]. }
  split; [by rewrite Hperm|]. intros h. rewrite Hperm, Hfresh. unfold fresh_hash. apply exist_proper. intros m.
  rewrite stale_marker_false. naive_solver.
Qed.

(** Planning always succeeds: with a validated configuration, a manifest hash and validated evidence, an aware planning instant gives
    plans and never raises. *)
Theorem planner_total `{HexDigest} `{ZoneInfo} schedule config_hash as_of sessions evidence consumed maint :
  validate_ResearchScheduleConfig schedule = Ok schedule → str_empty config_hash = false → tz_aware as_of = true →
  Forall (λ m, validate_ResearchEvidenceMarker m = Ok m) evidence →
  ∃ plans, build_due_schedule_plans schedule config_hash as_of sessions evidence consumed maint = Ok plans.
Proof.
  intros ((Hv & _)%orb_false_iff & [z Hz] & [t1 Ht1] & [t2 Ht2] & [d Hd] & _ & Hn)%config_facts Hc Ha He.
  unfold build_due_schedule_plans, require_aware_utc. rewrite Ha, Hz. cbn [mbind res_bind].
  unfold _daily_plans. rewrite Ht1. cbn [mbind res_bind].
  match goal with |- ∃ _, foldM ?f [] ?l ≫= _ = _ => destruct (foldM_append_ok (daily_session_plans schedule config_hash as_of
    (utc (instant as_of - sc_planning_lookback_days schedule * 86400000000)) z t1 maint) [] l) as [daily Hdaily] end.
  { intros s _. unfold daily_session_plans. destruct (_ || _); [eauto|]. apply mapM_res_all. intros k Hk. apply calendar_plan_ok; try done.
    all: intros ->; revert Hk; destruct maint; cbn; rewrite ?elem_of_cons, elem_of_nil; naive_solver. }
  rewrite Hdaily. cbn [mbind res_bind]. unfold _weekly_plans. rewrite Hd, Ht2. cbn [mbind res_bind].
  match goal with |- ∃ _, foldM (λ _ _, weekly_day_plans _ _ _ _ _ _ _ ?ss _ ≫= _) [] ?l ≫= _ = _ =>
    destruct (foldM_append_ok (weekly_day_plans schedule config_hash as_of
      (utc (instant as_of - sc_planning_lookback_days schedule * 86400000000)) z d t2 ss) [] l) as [weekly Hweekly] end.
  { intros day _. unfold weekly_day_plans. destruct (weekday day =? d); [|eauto]. destruct (_ && _); [|eauto].
    destruct (List.filter _ _) as [|first rest]; [eauto|].
    destruct (calendar_plan_ok schedule config_hash Hv Hc WK_WEEKLY_DEEP_RESEARCH (date_isoformat day) (utc (combine z day t2))
      (max_by anchor_lt first rest)) as [p Hp]; [done..|]. rewrite Hp. cbn. eauto. }
  rewrite Hweekly. cbn [mbind res_bind]. unfold _evidence_plans.
  match goal with |- ∃ _, mapM_res _ ?l ≫= _ = _ => destruct (mapM_res_all (evidence_plan schedule config_hash) l) as [ev Hev] end.
  { intros b Hb. apply evidence_plan_ok; try done.
    - intros ->. apply full_batches_length in Hb. cbn in Hb. lia.
    - assert (b ⊆ fresh_evidence as_of evidence consumed) as Hsub.
      { destruct (full_batches_split (length (fresh_evidence as_of evidence consumed)) (Z.to_nat (sc_evidence_trigger_minimum_new_sources schedule))
          (fresh_evidence as_of evidence consumed)) as (rest & E & _); [lia|done|]. intros m Hm. rewrite E. apply elem_of_app. left.
        apply list_elem_of_In, in_concat. exists b. by rewrite <- !list_elem_of_In. }
      rewrite Forall_forall in He |- *. intros m Hm%Hsub. apply fresh_evidence_spec in Hm as [Hm _]. specialize (He m Hm).
      unfold validate_ResearchEvidenceMarker, aware, invalid in He. inv_ok. by split_bool. }
  rewrite Hev. cbn [mbind res_bind]. eauto.
Qed.

(** ** Witnesses: a Friday with one session, a revised session row, three evidence markers of which one is consumed *)

Definition ex_zone : zone := {| combine d us := d * 86400000000 + us; local_date t := t / 86400000000 |}.
Definition ex_zoneinfo : ZoneInfo := λ _, Ok ex_zone.

Definition ex_config : ResearchScheduleConfig := {|
  sc_schedule_version := "s1"; sc_timezone := "UTC"; sc_market_calendar_version := "c1"; sc_daily_aggregation_time := "21:30";
  sc_daily_post_close_delay_minutes := 60; sc_weekly_research_day := "FRIDAY"; sc_weekly_research_time := "23:00";
  sc_evidence_trigger_minimum_new_sources := 2; sc_planning_lookback_days := 7; sc_dispatch_lease_seconds := 60;
  sc_maximum_dispatch_attempts := 3; sc_worker_poll_seconds := 5; sc_status_history_limit := 10;
|}.

Definition ex_instant (hours : Z) : datetime := utc (20000 * 86400000000 + hours * 3600000000).

Definition ex_session (id : string) (available : Z) : VersionedResearchMarketSession := {|
  ms_calendar_session_id := id; ms_calendar_version := "c1"; ms_session_date := 20000; ms_open_at := ex_instant 14;
  ms_close_at := ex_instant 21; ms_available_at := ex_instant available; ms_session_hash := "h";
|}.

Definition ex_marker (id : string) (captured : Z) : ResearchEvidenceMarker := {|
  em_source_id := id; em_content_hash := id; em_first_available_at := ex_instant 1; em_captured_at := ex_instant captured;
|}.

Definition ex_sessions := [ex_session "a" 1; ex_session "b" 2; ex_session "later" 30].
Definition ex_evidence := [ex_marker "m3" 4; ex_marker "m1" 3; ex_marker "m2" 2; ex_marker "m2" 5; ex_marker "m4" 40; ex_marker "m5" 6].

Definition ex_build `{Digest} := build_due_schedule_plans (H0 := ex_zoneinfo) ex_config "config" (ex_instant 23) ex_sessions ex_evidence ["m1"] true.

Lemma due_plans_no_lookahead_witness :
  ∃ plans, ex_build (H := rolling_digest) = Ok plans ∧ length plans = 5%nat ∧
    Forall (due_plan ex_config "config" (ex_instant 23) ex_sessions ex_evidence ["m1"] (H := rolling_digest)) plans.
Proof.
  eexists. split; [vm_compute; reflexivity|]. split; [reflexivity|]. apply Forall_forall. intros p Hp.
  refine (due_plans_no_lookahead (H := rolling_digest) (H0 := ex_zoneinfo) ex_config "config" (ex_instant 23) ex_sessions ex_evidence ["m1"] true
    _ p _ _ Hp); vm_compute; reflexivity.
Defined.

Lemma evidence_batches_exact_witness :
  ∃ plans, ex_build (H := rolling_digest) = Ok plans ∧
    concat (map pl_trigger_content_hashes (List.filter evidence_triggered plans)) = ["m2"; "m3"] ∧
    Forall (λ p, length (pl_trigger_content_hashes p) = 2%nat) (List.filter evidence_triggered plans).
Proof.
  eexists. split; [vm_compute; reflexivity|]. split; [vm_compute; reflexivity|].
  refine (proj1 (evidence_batches_exact (H := rolling_digest) (H0 := ex_zoneinfo) ex_config "config" (ex_instant 23) ex_sessions ex_evidence
    ["m1"] true _ _ _)); vm_compute; reflexivity.
Defined.

Lemma planner_total_witness : ∃ plans, ex_build (H := sha256_digest) = Ok plans.
Proof.
  refine (planner_total (H0 := sha256_hex) (H1 := ex_zoneinfo) ex_config "config" (ex_instant 23) ex_sessions ex_evidence ["m1"] true _ _ _ _);
    [vm_compute; reflexivity..|]. repeat constructor.
Defined.
