(* ===== verification/DispatchExecution.v ===== *)
(** * Execution contracts of the research work queue ([research/dispatch_execution.py])

    The request handed to a worker that holds an execution lease, and the typed result it returns: the bindings between plan,
    receipt, lease, request and result, and what a deep-research result must attest. *)
From Stdlib Require Import ZArith Lia Ascii String.
From stdpp Require Import base list strings numbers sets.
From S2P Require Import Prelude PyDecimal Hashing Domain Text Falsification Schedule.
Set Default Goal Selector "!".
Open Scope Z_scope.

(** ** [research/contracts.py] *)

Inductive ResearchCommanderKind := CODEX_SOL_MAX | WEBGPT_SOL_PRO.
#[global] Instance ResearchCommanderKind_eq_dec : EqDecision ResearchCommanderKind.
Proof. solve_decision. Defined.

Definition ResearchCommanderKind_value (k : ResearchCommanderKind) : string :=
  match k with CODEX_SOL_MAX => "CODEX_SOL_MAX" | WEBGPT_SOL_PRO => "WEBGPT_SOL_PRO" end.

Inductive ResearchDecisionKind :=
  | NO_RESEARCH_CHANGE | PROPOSE_NEW_STRATEGY | PROPOSE_STRATEGY_REVISION | PROPOSE_FEATURE_REVISION | PROPOSE_CALIBRATION_REVISION
  | RETIRE_STRATEGY | REQUEST_MORE_EVIDENCE.
#[global] Instance ResearchDecisionKind_eq_dec : EqDecision ResearchDecisionKind.
Proof. solve_decision. Defined.

Definition ResearchDecisionKind_value (k : ResearchDecisionKind) : string :=
  match k with
  | NO_RESEARCH_CHANGE => "NO_RESEARCH_CHANGE" | PROPOSE_NEW_STRATEGY => "PROPOSE_NEW_STRATEGY"
  | PROPOSE_STRATEGY_REVISION => "PROPOSE_STRATEGY_REVISION" | PROPOSE_FEATURE_REVISION => "PROPOSE_FEATURE_REVISION"
  | PROPOSE_CALIBRATION_REVISION => "PROPOSE_CALIBRATION_REVISION" | RETIRE_STRATEGY => "RETIRE_STRATEGY"
  | REQUEST_MORE_EVIDENCE => "REQUEST_MORE_EVIDENCE"
  end.

(** The set [proposal_kinds]. *)
Definition is_proposal (k : ResearchDecisionKind) : bool :=
  match k with
  | PROPOSE_NEW_STRATEGY | PROPOSE_STRATEGY_REVISION | PROPOSE_FEATURE_REVISION | PROPOSE_CALIBRATION_REVISION => true
  | _ => false
  end.

Record CommanderSelectionV1 := {
  cs_schema_version : string;
  cs_selection_id : string;
  cs_version : Z;
  cs_selected_commander : ResearchCommanderKind;
  cs_effective_at : datetime;
  cs_created_at : datetime;
  cs_config_hash : string;
}.

Definition validate_CommanderSelectionV1 (c : CommanderSelectionV1) : res CommanderSelectionV1 :=
  invalid (negb (identifier_pattern (cs_selection_id c))) "selection_id";;
  invalid (cs_version c <? 1) "version";;
  aware (cs_effective_at c);; aware (cs_created_at c);;
  invalid (negb (hash_pattern (cs_config_hash c))) "config_hash";;
  Ok c.

(** ** Artifacts and invocations *)

Inductive ResearchExecutionArtifactKind :=
  | AK_DAILY_AGGREGATION | AK_OUTCOME_MATURATION | AK_RESEARCH_MEMORY_SNAPSHOT | AK_WEB_RESEARCH_EVIDENCE | AK_RESEARCH_DECISION
  | AK_ALGORITHM_PROPOSAL | AK_CANDIDATE_MANIFEST.
#[global] Instance ResearchExecutionArtifactKind_eq_dec : EqDecision ResearchExecutionArtifactKind.
Proof. solve_decision. Defined.

Definition ResearchExecutionArtifactKind_value (k : ResearchExecutionArtifactKind) : string :=
  match k with
  | AK_DAILY_AGGREGATION => "DAILY_AGGREGATION" | AK_OUTCOME_MATURATION => "OUTCOME_MATURATION"
  | AK_RESEARCH_MEMORY_SNAPSHOT => "RESEARCH_MEMORY_SNAPSHOT" | AK_WEB_RESEARCH_EVIDENCE => "WEB_RESEARCH_EVIDENCE"
  | AK_RESEARCH_DECISION => "RESEARCH_DECISION" | AK_ALGORITHM_PROPOSAL => "ALGORITHM_PROPOSAL"
  | AK_CANDIDATE_MANIFEST => "CANDIDATE_MANIFEST"
  end.

Inductive ResearchExecutionRole := WEB_SCOUT | RESEARCH_COMMANDER | CANDIDATE_BUILDER.
#[global] Instance ResearchExecutionRole_eq_dec : EqDecision ResearchExecutionRole.
Proof. solve_decision. Defined.

Definition ResearchExecutionRole_value (r : ResearchExecutionRole) : string :=
  match r with WEB_SCOUT => "WEB_SCOUT" | RESEARCH_COMMANDER => "RESEARCH_COMMANDER" | CANDIDATE_BUILDER => "CANDIDATE_BUILDER" end.

Inductive ResearchExecutionAccessPath := CHATGPT_WEB_AGBROWSE | CODEX_EPHEMERAL.
#[global] Instance ResearchExecutionAccessPath_eq_dec : EqDecision ResearchExecutionAccessPath.
Proof. solve_decision. Defined.

Definition ResearchExecutionAccessPath_value (p : ResearchExecutionAccessPath) : string :=
  match p with CHATGPT_WEB_AGBROWSE => "CHATGPT_WEB_AGBROWSE" | CODEX_EPHEMERAL => "CODEX_EPHEMERAL" end.

Record ResearchExecutionArtifactV1 := { ra_artifact_kind : ResearchExecutionArtifactKind; ra_content_hash : string; ra_record_count : Z }.

Definition validate_ResearchExecutionArtifactV1 (a : ResearchExecutionArtifactV1) : res ResearchExecutionArtifactV1 :=
  invalid (negb (hash_pattern (ra_content_hash a))) "content_hash";;
  invalid (ra_record_count a <? 0) "record_count";;
  Ok a.

Record ResearchInvocationAttestationV1 := {
  ri_role : ResearchExecutionRole;
  ri_access_path : ResearchExecutionAccessPath;
  ri_model_family : string;
  ri_reasoning_profile : string;
  ri_invocation_context_hash : string;
  ri_request_hash : string;
  ri_output_hash : string;
  ri_fresh_process : bool;
  ri_fresh_context : bool;
  ri_completed : bool;
  ri_api_fallback_used : bool;
}.

(** The routes the contracts name: access path, model family, reasoning profile. *)
Definition web_route : ResearchExecutionAccessPath * string * string := (CHATGPT_WEB_AGBROWSE, "GPT-5.6 Sol Pro", "xhigh").
Definition codex_route : ResearchExecutionAccessPath * string * string := (CODEX_EPHEMERAL, "gpt-5.6-sol", "max").
Definition route_of (i : ResearchInvocationAttestationV1) : ResearchExecutionAccessPath * string * string :=
  (ri_access_path i, ri_model_family i, ri_reasoning_profile i).

Definition validate_ResearchInvocationAttestationV1 (i : ResearchInvocationAttestationV1) : res ResearchInvocationAttestationV1 :=
  invalid (negb (len_between 1 80 (ri_model_family i))) "model_family";;
  invalid (negb (len_between 1 20 (ri_reasoning_profile i))) "reasoning_profile";;
  invalid (negb (forallb hash_pattern [ri_invocation_context_hash i; ri_request_hash i; ri_output_hash i])) "hash pattern";;
  invalid (negb (ri_fresh_process i && ri_fresh_context i && ri_completed i && negb (ri_api_fallback_used i))) "literal";;
  match ri_role i with
  | WEB_SCOUT => invalid (negb (bool_decide (route_of i = web_route))) "WEB_SCOUT model route mismatch"
  | CANDIDATE_BUILDER => invalid (negb (bool_decide (route_of i = codex_route))) "CANDIDATE_BUILDER model route mismatch"
  | RESEARCH_COMMANDER => Ok ()
  end;;
  Ok i.

(** ** Requests *)

Record ResearchWorkExecutionRequestV1 := {
  er_schema_version : string;
  er_execution_id : string;
  er_research_cycle_id : string;
  er_plan : ResearchSchedulePlanV1;
  er_receipt : ResearchWorkDispatchReceiptV1;
  er_commander_selection : option CommanderSelectionV1;
  er_config_manifest_hash : string;
  er_request_hash : string;
  er_automatic_promotion_enabled : bool;
  er_real_order_routing : bool;
}.

(** [plan.model_dump(mode="python")], [receipt.model_dump(mode="python")], [selection.model_dump(mode="python")] *)
Definition plan_dump (p : ResearchSchedulePlanV1) : pyval := PDict
  ([("plan_hash", PStr (pl_plan_hash p))] ++ plan_fields PDatetime p
   ++ match pl_operator_trigger_id p with Some _ => [] | None => [("operator_trigger_id", PNone)] end
   ++ match pl_operator_reason_code p with Some _ => [] | None => [("operator_reason_code", PNone)] end).
Definition receipt_dump (r : ResearchWorkDispatchReceiptV1) : pyval :=
  PDict (receipt_fields PDatetime r ++ [("receipt_hash", PStr (rc_receipt_hash r))]).
Definition selection_dump (c : CommanderSelectionV1) : pyval := PDict
  [("schema_version", PStr (cs_schema_version c)); ("selection_id", PStr (cs_selection_id c)); ("version", PInt (cs_version c));
   ("selected_commander", PStr (ResearchCommanderKind_value (cs_selected_commander c))); ("effective_at", PDatetime (cs_effective_at c));
   ("created_at", PDatetime (cs_created_at c)); ("config_hash", PStr (cs_config_hash c))].
Definition opt_val {A} (f : A → pyval) (o : option A) : pyval := match o with Some a => f a | None => PNone end.

(** [request.model_dump(mode="python", exclude={"request_hash"})] *)
Definition request_payload (r : ResearchWorkExecutionRequestV1) : pyval := PDict
  [("schema_version", PStr (er_schema_version r)); ("execution_id", PStr (er_execution_id r));
   ("research_cycle_id", PStr (er_research_cycle_id r)); ("plan", plan_dump (er_plan r)); ("receipt", receipt_dump (er_receipt r));
   ("commander_selection", opt_val selection_dump (er_commander_selection r));
   ("config_manifest_hash", PStr (er_config_manifest_hash r));
   ("automatic_promotion_enabled", PBool (er_automatic_promotion_enabled r)); ("real_order_routing", PBool (er_real_order_routing r))].

Definition is_deep_target (t : ResearchDispatchTarget) : bool := bool_decide (t = DEEP_RESEARCH_CYCLE_V1).

Section contracts.
Context `{Digest} `{JsonDatetime}.

Definition validate_ResearchWorkExecutionRequestV1 (r : ResearchWorkExecutionRequestV1) : res ResearchWorkExecutionRequestV1 :=
  let plan := er_plan r in
  let receipt := er_receipt r in
  invalid (negb (String.eqb (er_schema_version r) "research_work_execution_request_v1")) "schema_version";;
  invalid (negb (forallb (len_between 1 100) [er_execution_id r; er_research_cycle_id r])) "length";;
  invalid (negb (forallb hash_pattern [er_config_manifest_hash r; er_request_hash r])) "hash pattern";;
  invalid (er_automatic_promotion_enabled r || er_real_order_routing r) "literal";;
  expected_execution_id ← stable_id "research-work-execution" [PStr (rc_receipt_id receipt)];
  payload_hash ← schedule_plan_payload_hash plan;
  invalid (negb (String.eqb (er_execution_id r) expected_execution_id)
           || negb (String.eqb (pl_work_item_id plan) (rc_work_item_id receipt))
           || negb (bool_decide (pl_work_kind plan = rc_work_kind receipt))
           || negb (String.eqb (rc_work_payload_hash receipt) payload_hash)
           || negb (String.eqb (er_config_manifest_hash r) (pl_config_manifest_hash plan))
           || negb (String.eqb (er_config_manifest_hash r) (rc_config_manifest_hash receipt)))
    "research execution request binding mismatch";;
  expected_cycle ← stable_id "scheduled-research-cycle" [PStr (er_execution_id r)];
  invalid (negb (String.eqb (er_research_cycle_id r) expected_cycle)) "research execution cycle identity mismatch";;
  invalid (negb (Bool.eqb (is_deep_target (rc_dispatch_target receipt)) (negb (is_None_b (er_commander_selection r)))))
    "deep research execution requires one Commander selection";;
  h ← canonical_hash (request_payload r);
  invalid (negb (String.eqb h (er_request_hash r))) "research execution request hash mismatch";;
  Ok r.

Definition build_execution_request (lease : ResearchWorkExecutionLeaseV1) (plan : ResearchSchedulePlanV1)
    (receipt : ResearchWorkDispatchReceiptV1) (selection : option CommanderSelectionV1) : res ResearchWorkExecutionRequestV1 :=
  raise_if (negb (String.eqb (xl_work_item_id lease) (pl_work_item_id plan))
            || negb (String.eqb (xl_work_item_id lease) (rc_work_item_id receipt))
            || negb (String.eqb (xl_receipt_id lease) (rc_receipt_id receipt))
            || negb (String.eqb (xl_receipt_hash lease) (rc_receipt_hash receipt))
            || negb (bool_decide (xl_work_kind lease = pl_work_kind plan))
            || negb (xl_dispatch_attempt_number lease =? rc_attempt_number receipt)
            || negb (String.eqb (xl_config_manifest_hash lease) (pl_config_manifest_hash plan)))
    ValueError "research execution lease input binding mismatch";;
  research_cycle_id ← stable_id "scheduled-research-cycle" [PStr (xl_execution_id lease)];
  let request h := {|
    er_schema_version := "research_work_execution_request_v1";
    er_execution_id := xl_execution_id lease;
    er_research_cycle_id := research_cycle_id;
    er_plan := plan;
    er_receipt := receipt;
    er_commander_selection := selection;
    er_config_manifest_hash := pl_config_manifest_hash plan;
    er_request_hash := h;
    er_automatic_promotion_enabled := false;
    er_real_order_routing := false;
  |} in
  h ← canonical_hash (request_payload (request EmptyString));
  validate_ResearchWorkExecutionRequestV1 (request h).
End contracts.

(** ** Results *)

Record ResearchWorkExecutionResultV1 := {
  xr_schema_version : string;
  xr_execution_id : string;
  xr_request_hash : string;
  xr_receipt_id : string;
  xr_work_item_id : string;
  xr_work_kind : ResearchScheduleWorkKind;
  xr_dispatch_target : ResearchDispatchTarget;
  xr_research_cycle_id : option string;
  xr_commander_selection_id : option string;
  xr_commander_selection_version : option Z;
  xr_selected_commander : option ResearchCommanderKind;
  xr_decision_kind : option ResearchDecisionKind;
  xr_artifacts : list ResearchExecutionArtifactV1;
  xr_invocations : list ResearchInvocationAttestationV1;
  xr_completed_at : datetime;
  xr_result_hash : string;
  xr_automatic_promotion_enabled : bool;
  xr_real_order_routing : bool;
}.

Definition artifact_dump (a : ResearchExecutionArtifactV1) : pyval := PDict
  [("artifact_kind", PStr (ResearchExecutionArtifactKind_value (ra_artifact_kind a))); ("content_hash", PStr (ra_content_hash a));
   ("record_count", PInt (ra_record_count a))].

Definition invocation_dump (i : ResearchInvocationAttestationV1) : pyval := PDict
  [("role", PStr (ResearchExecutionRole_value (ri_role i))); ("access_path", PStr (ResearchExecutionAccessPath_value (ri_access_path i)));
   ("model_family", PStr (ri_model_family i)); ("reasoning_profile", PStr (ri_reasoning_profile i));
   ("invocation_context_hash", PStr (ri_invocation_context_hash i)); ("request_hash", PStr (ri_request_hash i));
   ("output_hash", PStr (ri_output_hash i)); ("fresh_process", PBool (ri_fresh_process i)); ("fresh_context", PBool (ri_fresh_context i));
   ("completed", PBool (ri_completed i)); ("api_fallback_used", PBool (ri_api_fallback_used i))].

(** The fields of a result but its hash, with its time written by [time]. *)
Definition result_fields (time : datetime → pyval) (r : ResearchWorkExecutionResultV1) : list (string * pyval) :=
  [("schema_version", PStr (xr_schema_version r)); ("execution_id", PStr (xr_execution_id r)); ("request_hash", PStr (xr_request_hash r));
   ("receipt_id", PStr (xr_receipt_id r)); ("work_item_id", PStr (xr_work_item_id r));
   ("work_kind", PStr (ResearchScheduleWorkKind_value (xr_work_kind r)));
   ("dispatch_target", PStr (ResearchDispatchTarget_value (xr_dispatch_target r)));
   ("research_cycle_id", opt_str (xr_research_cycle_id r)); ("commander_selection_id", opt_str (xr_commander_selection_id r));
   ("commander_selection_version", opt_val PInt (xr_commander_selection_version r));
   ("selected_commander", opt_val (λ k, PStr (ResearchCommanderKind_value k)) (xr_selected_commander r));
   ("decision_kind", opt_val (λ k, PStr (ResearchDecisionKind_value k)) (xr_decision_kind r));
   ("artifacts", PList (map artifact_dump (xr_artifacts r))); ("invocations", PList (map invocation_dump (xr_invocations r)));
   ("completed_at", time (xr_completed_at r)); ("automatic_promotion_enabled", PBool (xr_automatic_promotion_enabled r));
   ("real_order_routing", PBool (xr_real_order_routing r))].

(** [result.model_dump(mode="json")] *)
Definition result_json `{JsonDatetime} (r : ResearchWorkExecutionResultV1) : pyval :=
  PDict (result_fields (λ t, PStr (json_datetime t)) r ++ [("result_hash", PStr (xr_result_hash r))]).

(** [{item.role: item for item in invocations}[role]] *)
Definition by_role (role : ResearchExecutionRole) (l : list ResearchInvocationAttestationV1) : option ResearchInvocationAttestationV1 :=
  List.find (λ i, bool_decide (ri_role i = role)) (rev l).

Definition has_kind (k : ResearchExecutionArtifactKind) (l : list ResearchExecutionArtifactV1) : bool :=
  existsb (λ a, bool_decide (ra_artifact_kind a = k)) l.

(** [self.decision_kind in proposal_kinds] *)
Definition proposes (r : ResearchWorkExecutionResultV1) : bool :=
  match xr_decision_kind r with Some k => is_proposal k | None => false end.

Definition _validate_deep_invocations (r : ResearchWorkExecutionResultV1) : res () :=
  match by_role WEB_SCOUT (xr_invocations r), by_role RESEARCH_COMMANDER (xr_invocations r) with
  | Some _, Some commander =>
      let expected := if bool_decide (xr_selected_commander r = Some CODEX_SOL_MAX) then codex_route else web_route in
      invalid (negb (bool_decide (route_of commander = expected))) "Research Commander model route mismatch";;
      let builder_present := negb (is_None_b (by_role CANDIDATE_BUILDER (xr_invocations r))) in
      invalid (negb (Bool.eqb (proposes r) builder_present)) "Candidate Builder invocation must match proposal presence"
  | _, _ => raise ValidationError "deep research result requires fresh Scout and Commander invocations"
  end.

Definition _validate_deep_artifacts (r : ResearchWorkExecutionResultV1) : res () :=
  let arts := xr_artifacts r in
  invalid (negb (has_kind AK_WEB_RESEARCH_EVIDENCE arts && has_kind AK_RESEARCH_DECISION arts))
    "deep research result requires evidence and decision artifacts";;
  if proposes r
  then invalid (negb (has_kind AK_ALGORITHM_PROPOSAL arts && has_kind AK_CANDIDATE_MANIFEST arts))
         "proposal result requires proposal and Candidate artifacts"
  else invalid (has_kind AK_ALGORITHM_PROPOSAL arts || has_kind AK_CANDIDATE_MANIFEST arts)
         "non-proposal result cannot contain proposal artifacts".

(** [expected_artifact] of a maintenance target. *)
Definition expected_artifact (t : ResearchDispatchTarget) : option ResearchExecutionArtifactKind :=
  match t with
  | DAILY_AGGREGATION_V1 => Some AK_DAILY_AGGREGATION
  | OUTCOME_MATURATION_V1 => Some AK_OUTCOME_MATURATION
  | RESEARCH_MEMORY_MATERIALIZATION_V1 => Some AK_RESEARCH_MEMORY_SNAPSHOT
  | DEEP_RESEARCH_CYCLE_V1 => None
  end.

Definition distinct {A} `{EqDecision A} (l : list A) : bool := bool_decide (NoDup l).

Section results.
Context `{Digest}.

Definition selection_fields_none (r : ResearchWorkExecutionResultV1) : list bool :=
  [is_None_b (xr_commander_selection_id r); is_None_b (xr_commander_selection_version r); is_None_b (xr_selected_commander r)].

Definition validate_ResearchWorkExecutionResultV1 (r : ResearchWorkExecutionResultV1) : res ResearchWorkExecutionResultV1 :=
  invalid (negb (String.eqb (xr_schema_version r) "research_work_execution_result_v1")) "schema_version";;
  invalid (negb (forallb (len_between 1 100) [xr_execution_id r; xr_receipt_id r; xr_work_item_id r])) "length";;
  invalid (negb (forallb hash_pattern [xr_request_hash r; xr_result_hash r])) "hash pattern";;
  invalid (negb (opt_holds (λ v, 1 <=? v) (xr_commander_selection_version r))) "commander_selection_version";;
  invalid (is_nil (xr_artifacts r) || (20 <? Z.of_nat (length (xr_artifacts r)))) "artifacts";;
  mapM_res validate_ResearchExecutionArtifactV1 (xr_artifacts r);;
  invalid (3 <? Z.of_nat (length (xr_invocations r))) "invocations";;
  mapM_res validate_ResearchInvocationAttestationV1 (xr_invocations r);;
  invalid (xr_automatic_promotion_enabled r || xr_real_order_routing r) "literal";;
  aware (xr_completed_at r);;
  invalid (negb (distinct (map ra_artifact_kind (xr_artifacts r)))) "research execution artifact kinds must be unique";;
  invalid (negb (distinct (map ri_role (xr_invocations r)))) "research execution invocation roles must be unique";;
  invalid (negb (distinct (map ri_invocation_context_hash (xr_invocations r)))) "research execution invocation contexts must be unique";;
  (if is_deep_target (xr_dispatch_target r) then
     invalid (is_None_b (xr_research_cycle_id r) || existsb id (selection_fields_none r))
       "deep research result requires cycle and Commander binding";;
     invalid (is_None_b (xr_decision_kind r)) "deep research result requires a decision kind";;
     _validate_deep_invocations r;;
     _validate_deep_artifacts r
   else
     invalid (negb (is_None_b (xr_research_cycle_id r)) || negb (forallb id (selection_fields_none r))
              || negb (is_None_b (xr_decision_kind r)) || negb (is_nil (xr_invocations r)))
       "maintenance result cannot contain model-cycle fields";;
     invalid (negb (bool_decide (map (λ a, Some (ra_artifact_kind a)) (xr_artifacts r) = [expected_artifact (xr_dispatch_target r)])))
       "maintenance result artifact does not match dispatch target");;
  h ← canonical_hash (PDict (result_fields PDatetime r));
  invalid (negb (String.eqb h (xr_result_hash r))) "research execution result hash mismatch";;
  Ok r.

Definition assert_bound_to (r : ResearchWorkExecutionResultV1) (request : ResearchWorkExecutionRequestV1) : res () :=
  raise_if (negb (String.eqb (xr_execution_id r) (er_execution_id request))
            || negb (String.eqb (xr_request_hash r) (er_request_hash request))
            || negb (String.eqb (xr_receipt_id r) (rc_receipt_id (er_receipt request)))
            || negb (String.eqb (xr_work_item_id r) (pl_work_item_id (er_plan request)))
            || negb (bool_decide (xr_work_kind r = pl_work_kind (er_plan request)))
            || negb (bool_decide (xr_dispatch_target r = rc_dispatch_target (er_receipt request))))
    ValueError "research execution result binding mismatch";;
  match er_commander_selection request with
  | None => raise_if (negb (forallb id (selection_fields_none r))) ValueError "unexpected Commander result binding"
  | Some selection =>
      raise_if (negb (bool_decide (xr_research_cycle_id r = Some (er_research_cycle_id request)))
                || negb (bool_decide (xr_commander_selection_id r = Some (cs_selection_id selection)))
                || negb (bool_decide (xr_commander_selection_version r = Some (cs_version selection)))
                || negb (bool_decide (xr_selected_commander r = Some (cs_selected_commander selection))))
        ValueError "stale Commander selection in execution result"
  end.

Definition build_execution_result (request : ResearchWorkExecutionRequestV1) (artifacts : list ResearchExecutionArtifactV1)
    (invocations : list ResearchInvocationAttestationV1) (decision_kind : option ResearchDecisionKind) (completed_at : datetime)
    : res ResearchWorkExecutionResultV1 :=
  let selection := er_commander_selection request in
  completed ← require_aware_utc completed_at;
  let result h := {|
    xr_schema_version := "research_work_execution_result_v1";
    xr_execution_id := er_execution_id request;
    xr_request_hash := er_request_hash request;
    xr_receipt_id := rc_receipt_id (er_receipt request);
    xr_work_item_id := pl_work_item_id (er_plan request);
    xr_work_kind := pl_work_kind (er_plan request);
    xr_dispatch_target := rc_dispatch_target (er_receipt request);
    xr_research_cycle_id := (λ _, er_research_cycle_id request) <$> selection;
    xr_commander_selection_id := cs_selection_id <$> selection;
    xr_commander_selection_version := cs_version <$> selection;
    xr_selected_commander := cs_selected_commander <$> selection;
    xr_decision_kind := decision_kind;
    xr_artifacts := artifacts;
    xr_invocations := invocations;
    xr_completed_at := completed;
    xr_result_hash := h;
    xr_automatic_promotion_enabled := false;
    xr_real_order_routing := false;
  |} in
  h ← canonical_hash (PDict (result_fields PDatetime (result EmptyString)));
  result ← validate_ResearchWorkExecutionResultV1 (result h);
  assert_bound_to result request;;
  Ok result.
End results.

(** ** What an accepted result attests *)

(** The route that a role's model call must take; the commander's depends on the selection. *)
Definition role_route (commander : option ResearchCommanderKind) (role : ResearchExecutionRole)
    : option (ResearchExecutionAccessPath * string * string) :=
  match role with
  | WEB_SCOUT => Some web_route
  | CANDIDATE_BUILDER => Some codex_route
  | RESEARCH_COMMANDER => match commander with Some CODEX_SOL_MAX => Some codex_route | Some WEBGPT_SOL_PRO => Some web_route | None => None end
  end.

(** A call in a fresh process and a fresh context, completed, without API fallback, and identified by hashes. *)
Record attested_invocation (i : ResearchInvocationAttestationV1) : Prop := {
  ai_fresh : ri_fresh_process i = true ∧ ri_fresh_context i = true;
  ai_completed : ri_completed i = true ∧ ri_api_fallback_used i = false;
  ai_hashes : Forall (λ h, hash_pattern h = true) [ri_invocation_context_hash i; ri_request_hash i; ri_output_hash i];
}.

Definition has_artifact (r : ResearchWorkExecutionResultV1) (k : ResearchExecutionArtifactKind) : Prop :=
  ∃ a, a ∈ xr_artifacts r ∧ ra_artifact_kind a = k.

Definition has_role (r : ResearchWorkExecutionResultV1) (role : ResearchExecutionRole) : Prop :=
  ∃ i, i ∈ xr_invocations r ∧ ri_role i = role.

(** What the result of a deep research cycle attests. *)
Record deep_result (r : ResearchWorkExecutionResultV1) : Prop := {
  dr_bound : is_Some (xr_research_cycle_id r) ∧ is_Some (xr_commander_selection_id r) ∧ is_Some (xr_commander_selection_version r) ∧
    is_Some (xr_selected_commander r);
  dr_decided : is_Some (xr_decision_kind r);
  dr_routes : ∀ i, i ∈ xr_invocations r → role_route (xr_selected_commander r) (ri_role i) = Some (route_of i);
  dr_scout : has_role r WEB_SCOUT;
  dr_commander : has_role r RESEARCH_COMMANDER;
  dr_builder : has_role r CANDIDATE_BUILDER ↔ proposes r = true;
  dr_evidence : has_artifact r AK_WEB_RESEARCH_EVIDENCE;
  dr_decision : has_artifact r AK_RESEARCH_DECISION;
  dr_proposal : has_artifact r AK_ALGORITHM_PROPOSAL ↔ proposes r = true;
  dr_candidate : has_artifact r AK_CANDIDATE_MANIFEST ↔ proposes r = true;
}.

(** What the result of maintenance attests: no model call, and the one artifact of its target. *)
Record maintenance_result (r : ResearchWorkExecutionResultV1) : Prop := {
  mt_unbound : xr_research_cycle_id r = None ∧ xr_commander_selection_id r = None ∧ xr_commander_selection_version r = None ∧
    xr_selected_commander r = None ∧ xr_decision_kind r = None;
  mt_no_calls : xr_invocations r = [];
  mt_artifact : ∃ a, xr_artifacts r = [a] ∧ expected_artifact (xr_dispatch_target r) = Some (ra_artifact_kind a);
}.

(** The well-formedness a validated result promises. *)
Record well_formed_result `{Digest} (r : ResearchWorkExecutionResultV1) : Prop := {
  wf_paper : xr_automatic_promotion_enabled r = false ∧ xr_real_order_routing r = false;
  wf_hash : canonical_hash (PDict (result_fields PDatetime r)) = Ok (xr_result_hash r);
  wf_artifacts : xr_artifacts r ≠ [] ∧ NoDup (map ra_artifact_kind (xr_artifacts r)) ∧
    ∀ a, a ∈ xr_artifacts r → hash_pattern (ra_content_hash a) = true ∧ 0 <= ra_record_count a;
  wf_invocations : ∀ i, i ∈ xr_invocations r → attested_invocation i;
  wf_roles : NoDup (map ri_role (xr_invocations r));
  wf_contexts : NoDup (map ri_invocation_context_hash (xr_invocations r));
  wf_deep : xr_dispatch_target r = DEEP_RESEARCH_CYCLE_V1 → deep_result r;
  wf_maintenance : xr_dispatch_target r ≠ DEEP_RESEARCH_CYCLE_V1 → maintenance_result r;
}.

(** The result names the work of the request, and its commander selection if there is one. *)
Record bound_result (request : ResearchWorkExecutionRequestV1) (r : ResearchWorkExecutionResultV1) : Prop := {
  br_execution : xr_execution_id r = er_execution_id request;
  br_request : xr_request_hash r = er_request_hash request;
  br_receipt : xr_receipt_id r = rc_receipt_id (er_receipt request);
  br_work : xr_work_item_id r = pl_work_item_id (er_plan request) ∧ xr_work_kind r = pl_work_kind (er_plan request);
  br_target : xr_dispatch_target r = rc_dispatch_target (er_receipt request);
  br_cycle : ∀ s, er_commander_selection request = Some s → xr_research_cycle_id r = Some (er_research_cycle_id request);
  br_selection : xr_commander_selection_id r = cs_selection_id <$> er_commander_selection request ∧
    xr_commander_selection_version r = cs_version <$> er_commander_selection request ∧
    xr_selected_commander r = cs_selected_commander <$> er_commander_selection request;
}.

Section facts.
Context `{Digest}.

Lemma validate_ResearchWorkExecutionResultV1_id r r' : validate_ResearchWorkExecutionResultV1 r = Ok r' → r' = r.
Proof. unfold validate_ResearchWorkExecutionResultV1. intros Hv. by inv_ok. Qed.

Lemma by_role_elem role l i : by_role role l = Some i → i ∈ l ∧ ri_role i = role.
Proof.
  unfold by_role. intros [Hi Hr]%find_some. apply in_rev, list_elem_of_In in Hi. by apply bool_decide_eq_true in Hr.
Qed.

Lemma by_role_present role l : is_None_b (by_role role l) = false ↔ ∃ i, i ∈ l ∧ ri_role i = role.
Proof.
  destruct (by_role role l) as [i|] eqn:E; split; try done.
  - intros _. exists i. by apply by_role_elem.
  - intros (i & Hi & Hr). unfold by_role in E. eapply find_none in E; [|apply in_rev; rewrite rev_involutive; by apply list_elem_of_In].
    by apply bool_decide_eq_false in E.
Qed.

Lemma has_kind_elem k l : has_kind k l = true ↔ ∃ a, a ∈ l ∧ ra_artifact_kind a = k.
Proof.
  unfold has_kind. rewrite existsb_exists. apply exist_proper. intros a. rewrite list_elem_of_In, bool_decide_eq_true. tauto.
Qed.

Lemma has_kind_iff r k b : has_kind k (xr_artifacts r) = b → has_artifact r k ↔ b = true.
Proof. intros <-. symmetry. apply has_kind_elem. Qed.

Lemma validate_invocation_inv i i' :
  validate_ResearchInvocationAttestationV1 i = Ok i' →
  attested_invocation i ∧ (ri_role i ≠ RESEARCH_COMMANDER → ∀ commander, role_route commander (ri_role i) = Some (route_of i)).
Proof.
  unfold validate_ResearchInvocationAttestationV1, invalid. intros Hv. inv_ok. split_bool.
  match goal with E : forallb hash_pattern _ = true |- _ => rename E into Hh end.
  split; [split; [done..|]|].
  - apply Forall_forall. intros h Hin%list_elem_of_In. rewrite forallb_forall in Hh. by apply Hh.
  - intros Hne commander. unfold role_route.
    match goal with |- context [ri_role ?x] => destruct (ri_role x) end; [|done|]; inv_ok; split_bool; by f_equal.
Qed.

Lemma validate_artifact_inv a a' :
  validate_ResearchExecutionArtifactV1 a = Ok a' → hash_pattern (ra_content_hash a) = true ∧ 0 <= ra_record_count a.
Proof. unfold validate_ResearchExecutionArtifactV1, invalid. intros Hv. inv_ok. split_bool. split; [done|lia]. Qed.

(** Roles are distinct, so the commander found by role is the only one. *)
Lemma by_role_unique role l i j : NoDup (map ri_role l) → by_role role l = Some i → j ∈ l → ri_role j = role → j = i.
Proof.
  intros Hnd [Hi Hr]%by_role_elem Hj Hr'. induction l as [|x l IH]; [by apply not_elem_of_nil in Hi|]. cbn in Hnd.
  apply NoDup_cons in Hnd as [Hx Hnd]. apply elem_of_cons in Hi as [->|Hi], Hj as [->|Hj]; [done|..|by apply IH];
    exfalso; apply Hx; apply list_elem_of_fmap; eexists; (split; [|eassumption]); congruence.
Qed.

Lemma deep_invocations_inv r :
  NoDup (map ri_role (xr_invocations r)) → is_Some (xr_selected_commander r) → _validate_deep_invocations r = Ok () →
  has_role r WEB_SCOUT ∧ has_role r RESEARCH_COMMANDER ∧ (has_role r CANDIDATE_BUILDER ↔ proposes r = true) ∧
  ∀ i, i ∈ xr_invocations r → ri_role i = RESEARCH_COMMANDER → role_route (xr_selected_commander r) (ri_role i) = Some (route_of i).
Proof.
  intros Hnd [k Hk]. unfold _validate_deep_invocations, invalid. destruct (by_role WEB_SCOUT _) as [s|] eqn:Es; [|done].
  destruct (by_role RESEARCH_COMMANDER _) as [c|] eqn:Ec; [|done]. intros Hv. inv_ok. split_bool.
  match goal with E : Bool.eqb _ _ = true |- _ => apply eqb_prop in E as Eb end.
  match goal with E : route_of c = _ |- _ => rename E into Er end.
  split; [exists s; by apply by_role_elem|]. split; [exists c; by apply by_role_elem|].
  split; [rewrite Eb, negb_true_iff; symmetry; apply by_role_present|].
  intros i Hi Hr. assert (i = c) as -> by (by eapply by_role_unique). rewrite Er, Hk, Hr. by destruct k.
Qed.

Lemma deep_artifacts_inv r :
  _validate_deep_artifacts r = Ok () →
  has_artifact r AK_WEB_RESEARCH_EVIDENCE ∧ has_artifact r AK_RESEARCH_DECISION ∧
  (has_artifact r AK_ALGORITHM_PROPOSAL ↔ proposes r = true) ∧ (has_artifact r AK_CANDIDATE_MANIFEST ↔ proposes r = true).
Proof.
  unfold _validate_deep_artifacts, invalid. intros Hv. inv_ok. split_bool.
  split; [by apply has_kind_elem|]. split; [by apply has_kind_elem|]. destruct (proposes r); inv_ok; split_bool; split; by apply has_kind_iff.
Qed.

Lemma validated_result_well_formed r r' : validate_ResearchWorkExecutionResultV1 r = Ok r' → well_formed_result r.
Proof.
  intros Hv. assert (r' = r) as -> by (by apply validate_ResearchWorkExecutionResultV1_id).
  unfold validate_ResearchWorkExecutionResultV1, invalid in Hv. inv_ok.
  assert (∀ i, i ∈ xr_invocations r → is_ok (validate_ResearchInvocationAttestationV1 i) = true) as Hinv.
  { intros i Hi. match goal with E : mapM_res validate_ResearchInvocationAttestationV1 _ = Ok _ |- _ => rename E into Hm end.
    by destruct (mapM_res_elem_l _ _ _ _ Hm Hi) as [i' ->]. }
  assert (∀ a, a ∈ xr_artifacts r → hash_pattern (ra_content_hash a) = true ∧ 0 <= ra_record_count a) as Harts.
  { intros a Ha. match goal with E : mapM_res validate_ResearchExecutionArtifactV1 _ = Ok _ |- _ => rename E into Hm end.
    destruct (mapM_res_elem_l _ _ _ _ Hm Ha) as [a' Ha']. by eapply validate_artifact_inv. }
  split_bool.
  repeat match goal with E : distinct _ = true |- _ => apply bool_decide_eq_true in E end.
  assert (∀ i, i ∈ xr_invocations r → attested_invocation i ∧
    (ri_role i ≠ RESEARCH_COMMANDER → role_route (xr_selected_commander r) (ri_role i) = Some (route_of i))) as Hcalls.
  { intros i Hi. apply Hinv in Hi. destruct (validate_ResearchInvocationAttestationV1 i) as [i'|] eqn:Ei; [|done].
    apply validate_invocation_inv in Ei as [? Hr]. split; [done|]. intros Hne. by apply Hr. }
  split; try done.
  - match goal with E : canonical_hash _ = Ok ?h, E' : String.eqb ?h _ = true |- _ => apply String.eqb_eq in E'; by rewrite E, E' end.
  - split; [by destruct (xr_artifacts r)|done].
  - intros i Hi. by apply Hcalls.
  - intros Hd. unfold is_deep_target in *. rewrite bool_decide_eq_true_2 in * by done.
    match goal with E : (raise_if _ _ _ ≫= _) = Ok _ |- _ => rename E into Hdeep end. inv_ok. split_bool.
    match goal with E : existsb _ (selection_fields_none r) = false |- _ => cbn in E end. split_bool.
    assert (is_Some (xr_selected_commander r)) as Hsel by (by destruct (xr_selected_commander r)).
    match goal with E : _validate_deep_invocations r = Ok _ |- _ => apply deep_invocations_inv in E as (Hs & Hc & Hb & Hroute); [|done..] end.
    match goal with E : _validate_deep_artifacts r = Ok _ |- _ => apply deep_artifacts_inv in E as (A1 & A2 & A3 & A4) end.
    split; try done.
    + by destruct (xr_research_cycle_id r), (xr_commander_selection_id r), (xr_commander_selection_version r).
    + by destruct (xr_decision_kind r).
    + intros i Hi. destruct (decide (ri_role i = RESEARCH_COMMANDER)); [by apply Hroute|by apply Hcalls].
  - intros Hd. unfold is_deep_target in *. rewrite bool_decide_eq_false_2 in * by done. inv_ok. split_bool.
    match goal with E : forallb _ (selection_fields_none r) = true |- _ => cbn in E end. split_bool.
    match goal with E : map _ (xr_artifacts r) = _ |- _ => rename E into Hkinds end. split.
    + by destruct (xr_research_cycle_id r), (xr_commander_selection_id r), (xr_commander_selection_version r), (xr_selected_commander r),
        (xr_decision_kind r).
    + by destruct (xr_invocations r).
    + destruct (xr_artifacts r) as [|a [|]]; [done| |done]. exists a. split; [done|]. by injection Hkinds as <-.
Qed.

Lemma build_execution_result_inv request artifacts invocations dk completed r :
  build_execution_result request artifacts invocations dk completed = Ok r →
  validate_ResearchWorkExecutionResultV1 r = Ok r ∧ assert_bound_to r request = Ok () ∧ xr_artifacts r = artifacts ∧
  xr_invocations r = invocations ∧ xr_decision_kind r = dk ∧ xr_completed_at r = completed.
Proof.
  unfold build_execution_result. intros Hb. inv_ok.
  match goal with E : validate_ResearchWorkExecutionResultV1 _ = Ok _ |- _ => pose proof (validate_ResearchWorkExecutionResultV1_id _ _ E) as Er end.
  match goal with E : require_aware_utc _ = Ok _ |- _ => apply aware_time in E as [_ ->] end. by subst r.
Qed.

Lemma pylen_le_length s : 0 <= pylen s <= Z.of_nat (String.length s).
Proof. induction s as [|c s IH]; cbn [pylen String.length]; [lia|]. destruct (_ && _); lia. Qed.

Lemma substring_length n s : (String.length (substring 0 n s) <= n)%nat.
Proof. revert s. induction n as [|n IH]; intros [|c s]; cbn; try lia. specialize (IH s). lia. Qed.

Lemma append_length a b : String.length (String.append a b) = (String.length a + String.length b)%nat.
Proof. induction a as [|c a IH]; [done|]. change (S (String.length (String.append a b)) = S (String.length a + String.length b)). by rewrite IH. Qed.

(** A stable identifier is as long as its prefix and at most 25 characters more. *)
Lemma stable_id_len prefix parts h c s :
  prefix = String c s → ascii_in 128 191 c = false → Z.of_nat (String.length prefix) <= 75 →
  stable_id prefix parts = Ok h → len_between 1 100 h = true.
Proof.
  intros Ep Hc Hlen Hh. unfold stable_id in Hh. apply bind_Ok_inv in Hh as (d & _ & [= <-]). unfold len_between.
  set (tail := String "_"%char (String.substring 0 24 d)).
  assert (String.length (String.append prefix tail) <= String.length prefix + 25)%nat as H2.
  { rewrite append_length. pose proof (substring_length 24 d). unfold tail. cbn [String.length]. lia. }
  pose proof (pylen_le_length (String.append prefix tail)) as Hle.
  assert (1 <= pylen (String.append prefix tail)) as H1.
  { rewrite Ep. change (String.append (String c s) tail) with (String c (String.append s tail)). cbn [pylen]. cbv zeta. pose proof (pylen_le_length (String.append s tail)).
    unfold ascii_in in Hc. destruct (N.leb_spec 128 (N_of_ascii c)); cbn [andb] in *; [|lia].
    destruct (N.leb_spec (N_of_ascii c) 191); [done|]. destruct (N.ltb_spec (N_of_ascii c) 192); lia. }
  apply andb_true_iff; split; apply Z.leb_le; lia.
Qed.

Lemma plan_dump_ok p : tz_aware (pl_scheduled_for p) = true → tz_aware (pl_data_available_cutoff p) = true → val_ok (plan_dump p) = true.
Proof.
  intros E1 E2. pose proof (plan_payload_ok p E1 E2) as Hp. unfold plan_dump, _plan_hash_payload in *. cbn [val_ok] in *.
  rewrite !forallb_app, Hp. by destruct (pl_operator_trigger_id p), (pl_operator_reason_code p).
Qed.

Lemma validated_plan_aware p : validate_ResearchSchedulePlanV1 p = Ok p →
  tz_aware (pl_scheduled_for p) = true ∧ tz_aware (pl_data_available_cutoff p) = true.
Proof. unfold validate_ResearchSchedulePlanV1, aware, invalid. intros Hv. inv_ok. by split_bool. Qed.

Lemma validated_receipt_aware r : validate_ResearchWorkDispatchReceiptV1 r = Ok r → tz_aware (rc_created_at r) = true.
Proof. unfold validate_ResearchWorkDispatchReceiptV1, aware, invalid. intros Hv. inv_ok. by split_bool. Qed.

Lemma build_execution_request_inv `{JsonDatetime} lease plan receipt selection request :
  build_execution_request lease plan receipt selection = Ok request →
  er_plan request = plan ∧ er_receipt request = receipt ∧ er_commander_selection request = selection ∧
  er_execution_id request = xl_execution_id lease ∧ er_real_order_routing request = false.
Proof.
  unfold build_execution_request, validate_ResearchWorkExecutionRequestV1. intros Hb. by inv_ok.
Qed.

(** A lease, its plan and its receipt that agree give a request. *)
Lemma build_execution_request_ok `{!HexDigest} `{JsonDatetime} lease plan receipt selection :
  xl_work_item_id lease = pl_work_item_id plan → rc_work_item_id receipt = pl_work_item_id plan →
  xl_receipt_id lease = rc_receipt_id receipt → xl_receipt_hash lease = rc_receipt_hash receipt →
  xl_work_kind lease = pl_work_kind plan → rc_work_kind receipt = pl_work_kind plan →
  xl_dispatch_attempt_number lease = rc_attempt_number receipt →
  xl_config_manifest_hash lease = pl_config_manifest_hash plan → rc_config_manifest_hash receipt = pl_config_manifest_hash plan →
  stable_id "research-work-execution" [PStr (rc_receipt_id receipt)] = Ok (xl_execution_id lease) →
  schedule_plan_payload_hash plan = Ok (rc_work_payload_hash receipt) →
  validate_ResearchSchedulePlanV1 plan = Ok plan → validate_ResearchWorkDispatchReceiptV1 receipt = Ok receipt →
  hash_pattern (pl_config_manifest_hash plan) = true →
  (is_deep_target (rc_dispatch_target receipt) = true ↔ is_Some selection) →
  (∀ s, selection = Some s → validate_CommanderSelectionV1 s = Ok s) →
  ∃ request, build_execution_request lease plan receipt selection = Ok request.
Proof.
  intros E1 E2 E3 E4 E5 E6 E7 E8 E9 Hid Hph Hp Hr Hc Hsel Hs. unfold build_execution_request.
  rewrite E2, E1, E3, E4, E5, E7, E8, !String.eqb_refl, Z.eqb_refl, bool_decide_eq_true_2 by done. cbn [negb orb raise_if mbind res_bind].
  destruct (stable_id_ok "scheduled-research-cycle" [PStr (xl_execution_id lease)]) as [cycle Hcycle]; [done|].
  rewrite Hcycle. cbn [mbind res_bind].
  match goal with |- ∃ q, (canonical_hash (request_payload ?q0) ≫= _) = _ => destruct (canonical_hash_ok (request_payload q0)) as [h Hh] end.
  { unfold request_payload. cbn [val_ok forallb snd er_plan er_receipt er_commander_selection].
    destruct (validated_plan_aware _ Hp) as [A1 A2]. rewrite (plan_dump_ok _ A1 A2). unfold receipt_dump, receipt_fields.
    cbn [val_ok forallb snd app]. rewrite (validated_receipt_aware _ Hr). destruct selection as [s|]; [|done]. cbn.
    specialize (Hs s eq_refl). unfold validate_CommanderSelectionV1, aware, invalid in Hs. inv_ok. split_bool.
    by repeat match goal with E : tz_aware _ = true |- _ => rewrite E; clear E end. }
  rewrite Hh. cbn [mbind res_bind]. eexists.
  unfold validate_ResearchWorkExecutionRequestV1. cbn [er_schema_version er_execution_id er_research_cycle_id er_plan er_receipt
    er_commander_selection er_config_manifest_hash er_request_hash er_automatic_promotion_enabled er_real_order_routing].
  rewrite Hid, Hph. cbn [mbind res_bind].
  assert (∀ b msg (m : res ResearchWorkExecutionRequestV1), b = false → (invalid b msg ≫= λ _, m) = m) as Hskip by (by intros ? ? ? ->).
  rewrite !Hskip; [|..].
  - rewrite Hcycle. cbn [mbind res_bind]. rewrite String.eqb_refl.
    match goal with |- context [canonical_hash ?v] => replace (canonical_hash v) with (Ok h) by (symmetry; exact Hh) end.
    cbn [mbind res_bind negb]. by rewrite String.eqb_refl.
  - destruct Hsel as [Hs1 Hs2]. destruct selection, (is_deep_target (rc_dispatch_target receipt)); try done; exfalso.
    + specialize (Hs2 ltac:(eauto)). done.
    + by destruct (Hs1 eq_refl).
  - by rewrite E2, E6, E9, !String.eqb_refl, bool_decide_eq_true_2.
  - done.
  - cbn. by rewrite Hc, (hash_pattern_hash _ _ Hh).
  - pose proof (stable_id_len "research-work-execution" _ _ _ _ eq_refl eq_refl ltac:(vm_compute; discriminate) Hid) as L1.
    pose proof (stable_id_len "scheduled-research-cycle" _ _ _ _ eq_refl eq_refl ltac:(vm_compute; discriminate) Hcycle) as L2.
    cbn [forallb]. by rewrite L1, L2.
  - done.
Qed.
End facts.

(** C40: An execution result is attested and bound: whatever [build_execution_result] accepts has the given artifacts, invocations,
    decision and time, names exactly the work and the commander selection of its request, promotes and routes nothing, and carries the
    hash of its own fields.  Its artifacts are of distinct kinds, hashed and counted; its model calls have distinct roles and contexts,
    each fresh, completed, hashed and without API fallback.  A deep cycle has its web scout and its selected commander, a builder exactly
    when it proposes, every call on the route of its role, the evidence and decision artifacts, and the proposal and candidate artifacts
    exactly when it proposes; maintenance has no model call, no cycle or selection, and the one artifact of its target. *)
Theorem execution_result_attested `{Digest} request artifacts invocations dk completed r :
  build_execution_result request artifacts invocations dk completed = Ok r →
  well_formed_result r ∧ bound_result request r ∧
  xr_artifacts r = artifacts ∧ xr_invocations r = invocations ∧ xr_decision_kind r = dk ∧ xr_completed_at r = completed.
Proof.
  intros (Hv & Hb & Hparts)%build_execution_result_inv. apply validated_result_well_formed in Hv.
  split; [done|]. split; [|done]. unfold assert_bound_to in Hb. inv_ok. split_bool.
  repeat match goal with E : (_ =? _)%string = true |- _ => apply String.eqb_eq in E end.
  destruct (er_commander_selection request) as [s|] eqn:Es; inv_ok; split_bool; split; try done; rewrite Es; try done.
  match goal with E : forallb _ (selection_fields_none r) = true |- _ => cbn in E end. split_bool.
  by destruct (xr_commander_selection_id r), (xr_commander_selection_version r), (xr_selected_commander r).
Qed.

(** A deep cycle that proposes a strategy: the web scout, the Codex commander and the builder. *)
Definition ex_hash (n : Z) : string := digits_pad 64 n EmptyString.

Definition ex_time : datetime := utc 1728000000000000.

Definition ex_plan : ResearchSchedulePlanV1 := {|
  pl_schema_version := "research_schedule_plan_v1"; pl_work_item_id := "w"; pl_work_kind := WK_WEEKLY_DEEP_RESEARCH; pl_idempotency_key := "k";
  pl_schedule_version := "s1"; pl_scheduled_for := ex_time; pl_data_available_cutoff := ex_time; pl_calendar_session_id := Some "a";
  pl_calendar_session_hash := Some "h"; pl_calendar_version := Some "c1"; pl_trigger_source_ids := []; pl_trigger_content_hashes := [];
  pl_trigger_manifest_hash := "t"; pl_operator_trigger_id := None; pl_operator_reason_code := None; pl_config_manifest_hash := ex_hash 1;
  pl_plan_hash := "p"; pl_real_order_routing := false;
|}.

Definition ex_request : ResearchWorkExecutionRequestV1 := {|
  er_schema_version := "research_work_execution_request_v1"; er_execution_id := "e"; er_research_cycle_id := "cycle"; er_plan := ex_plan;
  er_receipt := {|
    rc_schema_version := "research_work_dispatch_receipt_v1"; rc_receipt_id := "r"; rc_work_item_id := "w";
    rc_work_kind := WK_WEEKLY_DEEP_RESEARCH; rc_attempt_number := 1; rc_lease_token := "t"; rc_dispatch_target := DEEP_RESEARCH_CYCLE_V1;
    rc_work_payload_hash := "x"; rc_config_manifest_hash := ex_hash 1; rc_created_at := ex_time; rc_receipt_hash := "y";
    rc_real_order_routing := false |};
  er_commander_selection := Some {|
    cs_schema_version := "research_commander_selection_v1"; cs_selection_id := "sel"; cs_version := 2; cs_selected_commander := CODEX_SOL_MAX;
    cs_effective_at := ex_time; cs_created_at := ex_time; cs_config_hash := ex_hash 2 |};
  er_config_manifest_hash := ex_hash 1; er_request_hash := ex_hash 3; er_automatic_promotion_enabled := false; er_real_order_routing := false;
|}.

Definition ex_invocation (role : ResearchExecutionRole) (route : ResearchExecutionAccessPath * string * string) (n : Z) : ResearchInvocationAttestationV1 := {|
  ri_role := role; ri_access_path := route.1.1; ri_model_family := route.1.2; ri_reasoning_profile := route.2;
  ri_invocation_context_hash := ex_hash n; ri_request_hash := ex_hash 8; ri_output_hash := ex_hash 9; ri_fresh_process := true;
  ri_fresh_context := true; ri_completed := true; ri_api_fallback_used := false;
|}.

Definition ex_artifacts : list ResearchExecutionArtifactV1 :=
  map (λ k, {| ra_artifact_kind := k; ra_content_hash := ex_hash 10; ra_record_count := 1 |})
    [AK_WEB_RESEARCH_EVIDENCE; AK_RESEARCH_DECISION; AK_ALGORITHM_PROPOSAL; AK_CANDIDATE_MANIFEST].

Definition ex_invocations : list ResearchInvocationAttestationV1 :=
  [ex_invocation WEB_SCOUT web_route 4; ex_invocation RESEARCH_COMMANDER codex_route 5; ex_invocation CANDIDATE_BUILDER codex_route 6].

Lemma execution_result_attested_witness :
  ∃ r, build_execution_result (H := sha256_digest) ex_request ex_artifacts ex_invocations (Some PROPOSE_NEW_STRATEGY) ex_time = Ok r ∧
    deep_result r ∧ bound_result ex_request r.
Proof.
  assert (is_ok (build_execution_result (H := sha256_digest) ex_request ex_artifacts ex_invocations (Some PROPOSE_NEW_STRATEGY) ex_time) = true)
    as Hok by (vm_compute; reflexivity).
  destruct (build_execution_result (H := sha256_digest) ex_request ex_artifacts ex_invocations (Some PROPOSE_NEW_STRATEGY) ex_time)
    as [r|] eqn:E; [|discriminate Hok].
  destruct (execution_result_attested (H := sha256_digest) ex_request ex_artifacts ex_invocations (Some PROPOSE_NEW_STRATEGY) ex_time r E)
    as (Hwf & Hbound & _).
  exists r. exact (conj eq_refl (conj (wf_deep _ Hwf (br_target _ _ Hbound)) Hbound)).
Defined.
