(* ===== verification/WorkLedger.v ===== *)
(** * The research work ledger ([persistence/research_scheduler.py])

    The three append-only tables of the work queue and the transactions of [ResearchSchedulerRepository] on them.  A transaction is
    atomic: it gives the ledger it commits, or raises and leaves the ledger as it was.  The database clock is an argument of each
    transaction.  A statement reads a snapshot; the two claims and the recording of an outcome take the snapshot of the
    statement that selects work, or that collects the results of all items, and the current ledger apart, because the row they lock is
    not one of the rows they test.  A JSON column that holds a contract is kept as that contract, and
    reading it validates it again. *)
From Stdlib Require Import ZArith Lia Ascii String.
From stdpp Require Import base list strings numbers sets.
From S2P Require Import Prelude PyDecimal Hashing Domain Text Falsification Schedule DispatchExecution.
Set Default Goal Selector "!".
Open Scope Z_scope.

(** ** Rows *)

Record ResearchScheduleWorkItemRow := {
  wi_work_item_id : string;
  wi_schema_version : string;
  wi_work_kind : ResearchScheduleWorkKind;
  wi_idempotency_key : string;
  wi_schedule_version : string;
  wi_scheduled_for : datetime;
  wi_data_available_cutoff : datetime;
  wi_calendar_session_id : option string;
  wi_trigger_manifest_hash : string;
  wi_config_manifest_hash : string;
  wi_plan_hash : string;
  wi_real_order_routing : bool;
  wi_payload : ResearchSchedulePlanV1;
  wi_created_at : datetime;
}.

Record ResearchScheduleEventRow := {
  ev_event_id : string;
  ev_work_item_id : string;
  ev_sequence : Z;
  ev_event_type : ResearchScheduleEventType;
  ev_attempt_number : Z;
  ev_retryable : bool;
  ev_lease_owner : option string;
  ev_lease_token : option string;
  ev_lease_expires_at : option datetime;
  ev_receipt_id : option string;
  ev_idempotency_key : string;
  ev_event_hash : string;
  ev_config_manifest_hash : string;
  ev_real_order_routing : bool;
  ev_payload_json : pydict pyval;
  ev_execution_result : option ResearchWorkExecutionResultV1;  (* [payload_json["execution_result"]] *)
  ev_created_at : datetime;
}.

Record ResearchWorkDispatchReceiptRow := {
  rr_receipt_id : string;
  rr_work_item_id : string;
  rr_attempt_number : Z;
  rr_lease_token : string;
  rr_dispatch_target : ResearchDispatchTarget;
  rr_work_payload_hash : string;
  rr_config_manifest_hash : string;
  rr_idempotency_key : string;
  rr_receipt_hash : string;
  rr_real_order_routing : bool;
  rr_payload : ResearchWorkDispatchReceiptV1;
  rr_created_at : datetime;
}.

(** The tables, with the identifiers of the market calendar sessions that work items refer to. *)
Record ledger := {
  sessions : list string;
  items : list ResearchScheduleWorkItemRow;
  events : list ResearchScheduleEventRow;
  receipts : list ResearchWorkDispatchReceiptRow;
}.

Definition empty_ledger : ledger := {| sessions := []; items := []; events := []; receipts := [] |}.

(** ** Inserts, with the tables' constraints *)

Definition integrity (b : bool) (constraint : string) : res () := raise_if b IntegrityError constraint.

Definition has_item (l : ledger) (id : string) : bool := existsb (λ i, String.eqb (wi_work_item_id i) id) (items l).
Definition has_receipt (l : ledger) (id : string) : bool := existsb (λ r, String.eqb (rr_receipt_id r) id) (receipts l).

Definition add_item (l : ledger) (row : ResearchScheduleWorkItemRow) : res ledger :=
  integrity (has_item l (wi_work_item_id row)) "primary key";;
  integrity (existsb (λ i, String.eqb (wi_idempotency_key i) (wi_idempotency_key row)) (items l)) "idempotency_key";;
  integrity (existsb (λ i, String.eqb (wi_plan_hash i) (wi_plan_hash row)) (items l)) "plan_hash";;
  integrity (match wi_calendar_session_id row with Some s => negb (existsb (String.eqb s) (sessions l)) | None => false end)
    "calendar_session_id";;
  integrity (wi_real_order_routing row) "ck_research_schedule_work_paper_only";;
  Ok {| sessions := sessions l; items := items l ++ [row]; events := events l; receipts := receipts l |}.

Definition add_event (l : ledger) (row : ResearchScheduleEventRow) : res ledger :=
  integrity (existsb (λ e, String.eqb (ev_event_id e) (ev_event_id row)) (events l)) "primary key";;
  integrity (existsb (λ e, String.eqb (ev_work_item_id e) (ev_work_item_id row) && (ev_sequence e =? ev_sequence row)) (events l))
    "uq_research_schedule_event_sequence";;
  integrity (existsb (λ e, String.eqb (ev_work_item_id e) (ev_work_item_id row)
                           && String.eqb (ev_idempotency_key e) (ev_idempotency_key row)) (events l))
    "uq_research_schedule_event_idempotency";;
  integrity (existsb (λ e, String.eqb (ev_event_hash e) (ev_event_hash row)) (events l)) "event_hash";;
  integrity (negb (has_item l (ev_work_item_id row))) "work_item_id";;
  integrity (match ev_receipt_id row with Some r => negb (has_receipt l r) | None => false end) "receipt_id";;
  integrity (ev_sequence row <? 1) "ck_research_schedule_event_sequence";;
  integrity (ev_attempt_number row <? 0) "ck_research_schedule_event_attempt";;
  integrity (ev_real_order_routing row) "ck_research_schedule_event_paper_only";;
  Ok {| sessions := sessions l; items := items l; events := events l ++ [row]; receipts := receipts l |}.

Definition add_receipt (l : ledger) (row : ResearchWorkDispatchReceiptRow) : res ledger :=
  integrity (has_receipt l (rr_receipt_id row)) "primary key";;
  integrity (existsb (λ r, String.eqb (rr_work_item_id r) (rr_work_item_id row) && (rr_attempt_number r =? rr_attempt_number row)) (receipts l))
    "uq_research_dispatch_work_attempt";;
  integrity (existsb (λ r, String.eqb (rr_idempotency_key r) (rr_idempotency_key row)) (receipts l)) "idempotency_key";;
  integrity (existsb (λ r, String.eqb (rr_receipt_hash r) (rr_receipt_hash row)) (receipts l)) "receipt_hash";;
  integrity (negb (has_item l (rr_work_item_id row))) "work_item_id";;
  integrity (rr_attempt_number row <? 1) "ck_research_dispatch_attempt";;
  integrity (rr_real_order_routing row) "ck_research_dispatch_paper_only";;
  Ok {| sessions := sessions l; items := items l; events := events l; receipts := receipts l ++ [row] |}.

(** ** Reads *)

(** [order_by(sequence.desc(), event_id.desc())] *)
Definition event_lt (a b : ResearchScheduleEventRow) : bool :=
  lex_lt [ev_sequence a ?= ev_sequence b; String.compare (ev_event_id a) (ev_event_id b)].

Definition events_of (l : ledger) (work_item_id : string) : list ResearchScheduleEventRow :=
  List.filter (λ e, String.eqb (ev_work_item_id e) work_item_id) (events l).

Definition _latest_event (l : ledger) (work_item_id : string) : option ResearchScheduleEventRow :=
  match events_of l work_item_id with [] => None | e :: es => Some (max_by event_lt e es) end.

Definition get_item (l : ledger) (work_item_id : string) : option ResearchScheduleWorkItemRow :=
  List.find (λ i, String.eqb (wi_work_item_id i) work_item_id) (items l).
Definition get_receipt (l : ledger) (receipt_id : string) : option ResearchWorkDispatchReceiptRow :=
  List.find (λ r, String.eqb (rr_receipt_id r) receipt_id) (receipts l).

Definition event_le (a b : ResearchScheduleEventRow) : bool := negb (event_lt b a).
Definition event_history (l : ledger) (work_item_id : string) : list ResearchScheduleEventRow :=
  sorted event_le (events_of l work_item_id).

Definition _locked_work : ledger → string → option ResearchScheduleWorkItemRow := get_item.

(** [x or raise ResearchSchedulerPersistenceError(...)] *)
Definition found {A} (o : option A) (msg : string) : res A :=
  match o with Some a => Ok a | None => raise ResearchSchedulerPersistenceError msg end.

Definition _aware (t : datetime) : datetime := DT (instant t) true.

(** [value.isoformat()] of a UTC datetime with [+00:00] written [Z]. *)
Definition _iso (t : datetime) : string :=
  let s := datetime_iso (_aware t) in String.append (String.substring 0 (String.length s - 6) s) "Z".

Definition _json_payload (value : pydict pyval) : pydict pyval :=
  map (λ kv, (kv.1, match kv.2 with PDatetime t => PStr (_iso t) | v => v end)) value.

(** [s.strip("_")] *)
Fixpoint lstrip_underscores (s : string) : string :=
  match s with String c s' => if Ascii.eqb c "_"%char then lstrip_underscores s' else s | EmptyString => EmptyString end.
Fixpoint rstrip_underscores (s : string) : string :=
  match s with
  | EmptyString => EmptyString
  | String c s' => match rstrip_underscores s' with
                   | EmptyString => if Ascii.eqb c "_"%char then EmptyString else String c EmptyString
                   | r => String c r
                   end
  end.

Fixpoint map_chars (f : ascii → ascii) (s : string) : string :=
  match s with EmptyString => EmptyString | String c s => String (f c) (map_chars f s) end.

Definition _safe_reason_code (value : string) : string :=
  let normalized := rstrip_underscores (lstrip_underscores
    (map_chars (λ c, if is_alnum c || Ascii.eqb c "_"%char then c else "_"%char) (upper value))) in
  String.substring 0 80 (if str_empty normalized then "UNSPECIFIED_FAILURE" else normalized).

Definition is_lease_event (t : ResearchScheduleEventType) : bool :=
  match t with LEASE_ACQUIRED | LEASE_RECLAIMED => true | _ => false end.
Definition is_execution_lease_event (t : ResearchScheduleEventType) : bool :=
  match t with EXECUTION_LEASE_ACQUIRED | EXECUTION_LEASE_RECLAIMED | EXECUTION_LEASE_RENEWED => true | _ => false end.

(** [lease_expires_at <= now]; SQL gives no row for a missing expiry. *)
Definition expired (e : ResearchScheduleEventRow) (now : datetime) : bool :=
  match ev_lease_expires_at e with Some t => dt_le (_aware t) now | None => false end.

Definition after_seconds (now : datetime) (seconds : Z) : datetime := DT (instant now + seconds * 1000000) (tz_aware now).

Section repository.
Context `{Digest} `{JsonDatetime}.

Definition _plan_from_row (row : ResearchScheduleWorkItemRow) : res ResearchSchedulePlanV1 :=
  plan ← validate_ResearchSchedulePlanV1 (wi_payload row);
  raise_if (negb (String.eqb (pl_work_item_id plan) (wi_work_item_id row))
            || negb (String.eqb (pl_plan_hash plan) (wi_plan_hash row))
            || negb (String.eqb (pl_config_manifest_hash plan) (wi_config_manifest_hash row))
            || pl_real_order_routing plan || wi_real_order_routing row)
    ResearchSchedulerPersistenceError "stored research work binding is invalid";;
  Ok plan.

Definition _receipt_from_row (row : ResearchWorkDispatchReceiptRow) : res ResearchWorkDispatchReceiptV1 :=
  receipt ← validate_ResearchWorkDispatchReceiptV1 (rr_payload row);
  raise_if (negb (String.eqb (rc_receipt_id receipt) (rr_receipt_id row))
            || negb (String.eqb (rc_receipt_hash receipt) (rr_receipt_hash row))
            || rc_real_order_routing receipt || rr_real_order_routing row)
    ResearchSchedulerPersistenceError "stored dispatch receipt binding is invalid";;
  Ok receipt.

(** The arguments of [_append_event] besides the plan. *)
Record event_args := {
  ea_sequence : Z;
  ea_event_type : ResearchScheduleEventType;
  ea_attempt_number : Z;
  ea_retryable : bool;
  ea_lease_owner : option string;
  ea_lease_token : option string;
  ea_lease_expires_at : option datetime;
  ea_receipt_id : option string;
  ea_idempotency_key : string;
  ea_created_at : datetime;
  ea_extra_payload : pydict pyval;
  ea_execution_result : option ResearchWorkExecutionResultV1;
}.

Definition _append_event (l : ledger) (plan : ResearchSchedulePlanV1) (a : event_args) : res ledger :=
  let created_at := _aware (ea_created_at a) in
  let lease_expires_at := _aware <$> ea_lease_expires_at a in
  event_id ← stable_id "research-schedule-event"
    [PStr (pl_work_item_id plan); PInt (ea_sequence a); PStr (ResearchScheduleEventType_value (ea_event_type a)); PInt (ea_attempt_number a)];
  let payload :=
    [("event_id", PStr event_id); ("work_item_id", PStr (pl_work_item_id plan)); ("sequence", PInt (ea_sequence a));
     ("event_type", PStr (ResearchScheduleEventType_value (ea_event_type a))); ("attempt_number", PInt (ea_attempt_number a));
     ("retryable", PBool (ea_retryable a)); ("lease_owner", opt_str (ea_lease_owner a)); ("lease_token", opt_str (ea_lease_token a));
     ("lease_expires_at", opt_val PDatetime lease_expires_at); ("receipt_id", opt_str (ea_receipt_id a));
     ("idempotency_key", PStr (ea_idempotency_key a)); ("config_manifest_hash", PStr (pl_config_manifest_hash plan));
     ("real_order_routing", PBool false); ("created_at", PDatetime created_at)] ++ ea_extra_payload a in
  event_hash ← canonical_hash (PDict payload);
  add_event l {|
    ev_event_id := event_id;
    ev_work_item_id := pl_work_item_id plan;
    ev_sequence := ea_sequence a;
    ev_event_type := ea_event_type a;
    ev_attempt_number := ea_attempt_number a;
    ev_retryable := ea_retryable a;
    ev_lease_owner := ea_lease_owner a;
    ev_lease_token := ea_lease_token a;
    ev_lease_expires_at := lease_expires_at;
    ev_receipt_id := ea_receipt_id a;
    ev_idempotency_key := ea_idempotency_key a;
    ev_event_hash := event_hash;
    ev_config_manifest_hash := pl_config_manifest_hash plan;
    ev_real_order_routing := false;
    ev_payload_json := _json_payload payload;
    ev_execution_result := ea_execution_result a;
    ev_created_at := created_at;
  |}.

(** *** [store_plans]: one transaction per plan *)

Definition store_plan (l : ledger) (instant : datetime) (plan : ResearchSchedulePlanV1) : res (ledger * bool) :=
  match get_item l (pl_work_item_id plan) with
  | Some existing =>
      raise_if (negb (String.eqb (wi_plan_hash existing) (pl_plan_hash plan)) || negb (bool_decide (wi_payload existing = plan)))
        ResearchSchedulerPersistenceError "schedule work identity has different immutable content";;
      Ok (l, false)
  | None =>
      l1 ← add_item l {|
        wi_work_item_id := pl_work_item_id plan;
        wi_schema_version := pl_schema_version plan;
        wi_work_kind := pl_work_kind plan;
        wi_idempotency_key := pl_idempotency_key plan;
        wi_schedule_version := pl_schedule_version plan;
        wi_scheduled_for := pl_scheduled_for plan;
        wi_data_available_cutoff := pl_data_available_cutoff plan;
        wi_calendar_session_id := pl_calendar_session_id plan;
        wi_trigger_manifest_hash := pl_trigger_manifest_hash plan;
        wi_config_manifest_hash := pl_config_manifest_hash plan;
        wi_plan_hash := pl_plan_hash plan;
        wi_real_order_routing := false;
        wi_payload := plan;
        wi_created_at := instant;
      |};
      l2 ← _append_event l1 plan {|
        ea_sequence := 1;
        ea_event_type := PLANNED;
        ea_attempt_number := 0;
        ea_retryable := true;
        ea_lease_owner := None;
        ea_lease_token := None;
        ea_lease_expires_at := None;
        ea_receipt_id := None;
        ea_idempotency_key := String.append (pl_idempotency_key plan) ":planned";
        ea_created_at := instant;
        ea_extra_payload := [("plan_hash", PStr (pl_plan_hash plan))];
        ea_execution_result := None;
      |};
      Ok (l2, true)
  end.

(** The plans stored before the one that raises stay stored. *)
Fixpoint store_loop (l : ledger) (instant : datetime) (plans : list ResearchSchedulePlanV1) (created : Z) : ledger * res Z :=
  match plans with
  | [] => (l, Ok created)
  | plan :: plans =>
      match store_plan l instant plan with
      | Ok (l', stored) => store_loop l' instant plans (created + if stored then 1 else 0)
      | Raise e => (l, Raise e)
      end
  end.

Definition store_plans (l : ledger) (plans : list ResearchSchedulePlanV1) (created_at : datetime) : ledger * res Z :=
  match require_aware_utc created_at with
  | Ok instant => store_loop l instant plans 0
  | Raise e => (l, Raise e)
  end.

(** *** [claim_next] *)

Definition dependent_kind (k : ResearchScheduleWorkKind) : option ResearchScheduleWorkKind :=
  match k with
  | WK_OUTCOME_MATURATION => Some WK_DAILY_AGGREGATION
  | WK_RESEARCH_MEMORY_MATERIALIZATION => Some WK_OUTCOME_MATURATION
  | WK_OPERATOR_DEEP_RESEARCH => Some WK_DAILY_AGGREGATION
  | _ => None
  end.

(** SQL equality of nullable columns: NULL equals nothing. *)
Definition sql_eq (a b : option string) : bool :=
  match a, b with Some a, Some b => String.eqb a b | _, _ => false end.

Definition predecessor_succeeded (snap : ledger) (row : ResearchScheduleWorkItemRow) (kind : ResearchScheduleWorkKind) : bool :=
  existsb (λ p,
    bool_decide (wi_work_kind p = kind)
    && String.eqb (wi_schedule_version p) (wi_schedule_version row)
    && sql_eq (wi_calendar_session_id p) (wi_calendar_session_id row)
    && String.eqb (wi_config_manifest_hash p) (wi_config_manifest_hash row)
    && match _latest_event snap (wi_work_item_id p) with
       | Some e => bool_decide (ev_event_type e = SUCCEEDED)
       | None => false
       end) (items snap).

Definition _schedule_prerequisite_predicate (snap : ledger) (row : ResearchScheduleWorkItemRow) : bool :=
  match dependent_kind (wi_work_kind row) with
  | None => true
  | Some kind => predecessor_succeeded snap row kind
  end.

(** The [where] clause of the claim. *)
Definition claimable (snap : ledger) (now : datetime) (row : ResearchScheduleWorkItemRow) : bool :=
  match _latest_event snap (wi_work_item_id row) with
  | None => false
  | Some e =>
      dt_le (wi_scheduled_for row) now
      && ev_retryable e
      && (match ev_event_type e with PLANNED | FAILED => true | t => is_lease_event t && expired e now end)
      && _schedule_prerequisite_predicate snap row
  end.

(** [order_by(scheduled_for, work_kind, work_item_id)] *)
Definition item_le (a b : ResearchScheduleWorkItemRow) : bool :=
  negb (lex_lt [instant (wi_scheduled_for b) ?= instant (wi_scheduled_for a);
                String.compare (ResearchScheduleWorkKind_value (wi_work_kind b)) (ResearchScheduleWorkKind_value (wi_work_kind a));
                String.compare (wi_work_item_id b) (wi_work_item_id a)]).

(** [.limit(1)] *)
Definition first_item (p : ResearchScheduleWorkItemRow → bool) (snap : ledger) : option ResearchScheduleWorkItemRow :=
  List.hd_error (sorted item_le (List.filter p (items snap))).

Inductive claim_outcome :=
  | NothingDue
  | Exhausted
  | Claimed (lease : ResearchWorkLeaseV1).

(** One iteration of the loop, on the current ledger [l], with the selection made on [snap]. *)
Definition claim_once (snap l : ledger) (now : datetime) (lease_owner : string) (lease_seconds maximum_attempts : Z)
    : res (ledger * claim_outcome) :=
  match first_item (claimable snap now) snap with
  | None => Ok (l, NothingDue)
  | Some row =>
      selected ← found (_latest_event snap (wi_work_item_id row)) "selected work has no event";
      let next_attempt := ev_attempt_number selected + 1 in
      plan ← _plan_from_row row;
      latest_event ← found (_latest_event l (wi_work_item_id row)) "planned research work has no event";
      if maximum_attempts <? next_attempt then
        l' ← _append_event l plan {|
          ea_sequence := ev_sequence latest_event + 1;
          ea_event_type := FAILED;
          ea_attempt_number := ev_attempt_number selected;
          ea_retryable := false;
          ea_lease_owner := None;
          ea_lease_token := None;
          ea_lease_expires_at := None;
          ea_receipt_id := None;
          ea_idempotency_key := String.append (wi_idempotency_key row) ":attempts-exhausted";
          ea_created_at := now;
          ea_extra_payload := [("reason_code", PStr "MAXIMUM_ATTEMPTS_EXHAUSTED"); ("previous_event_hash", PStr (ev_event_hash latest_event))];
          ea_execution_result := None;
        |};
        Ok (l', Exhausted)
      else
        let lease_expires_at := after_seconds now lease_seconds in
        lease_token ← stable_id "research-lease"
          [PStr (wi_work_item_id row); PInt next_attempt; PStr lease_owner; PDatetime now];
        l' ← _append_event l plan {|
          ea_sequence := ev_sequence latest_event + 1;
          ea_event_type := if is_lease_event (ev_event_type selected) then LEASE_RECLAIMED else LEASE_ACQUIRED;
          ea_attempt_number := next_attempt;
          ea_retryable := true;
          ea_lease_owner := Some lease_owner;
          ea_lease_token := Some lease_token;
          ea_lease_expires_at := Some lease_expires_at;
          ea_receipt_id := None;
          ea_idempotency_key := String.append (wi_idempotency_key row) (String.append ":lease:" (string_of_Z next_attempt));
          ea_created_at := now;
          ea_extra_payload := [("previous_event_hash", PStr (ev_event_hash latest_event))];
          ea_execution_result := None;
        |};
        lease ← validate_ResearchWorkLeaseV1 {|
          wl_work_item_id := wi_work_item_id row;
          wl_work_kind := pl_work_kind plan;
          wl_lease_owner := lease_owner;
          wl_lease_token := lease_token;
          wl_attempt_number := next_attempt;
          wl_acquired_at := now;
          wl_lease_expires_at := lease_expires_at;
          wl_config_manifest_hash := pl_config_manifest_hash plan;
          wl_plan_hash := pl_plan_hash plan;
          wl_real_order_routing := false;
        |};
        Ok (l', Claimed lease)
  end.

(** [while True]: each iteration is a transaction that reads the database clock; [None] when the fuel runs out. *)
Fixpoint claim_loop (fuel : nat) (clock : nat → datetime) (l : ledger) (lease_owner : string) (lease_seconds maximum_attempts : Z)
    : option (ledger * res (option ResearchWorkLeaseV1)) :=
  match fuel with
  | O => None
  | S fuel =>
      match claim_once l l (clock fuel) lease_owner lease_seconds maximum_attempts with
      | Raise e => Some (l, Raise e)
      | Ok (l', NothingDue) => Some (l', Ok None)
      | Ok (l', Claimed lease) => Some (l', Ok (Some lease))
      | Ok (l', Exhausted) => claim_loop fuel clock l' lease_owner lease_seconds maximum_attempts
      end
  end.

Definition claim_next (fuel : nat) (clock : nat → datetime) (l : ledger) (lease_owner : string) (lease_seconds maximum_attempts : Z)
    : option (ledger * res (option ResearchWorkLeaseV1)) :=
  if str_empty lease_owner then Some (l, raise ValueError "lease_owner is required")
  else if (lease_seconds <=? 0) || (maximum_attempts <=? 0) then Some (l, raise ValueError "lease and attempt limits must be positive")
  else claim_loop fuel clock l lease_owner lease_seconds maximum_attempts.

(** *** Dispatch *)

Definition plan_for_lease (l : ledger) (lease : ResearchWorkLeaseV1) : res ResearchSchedulePlanV1 :=
  row ← found (get_item l (wl_work_item_id lease)) "unknown research work";
  plan ← _plan_from_row row;
  raise_if (negb (String.eqb (pl_plan_hash plan) (wl_plan_hash lease))
            || negb (String.eqb (pl_config_manifest_hash plan) (wl_config_manifest_hash lease)))
    ResearchScheduleFenceError "research lease is not bound to the immutable work plan";;
  Ok plan.

Definition active_lease (e : ResearchScheduleEventRow) (lease : ResearchWorkLeaseV1) (now : datetime) : bool :=
  is_lease_event (ev_event_type e)
  && bool_decide (ev_lease_owner e = Some (wl_lease_owner lease))
  && bool_decide (ev_lease_token e = Some (wl_lease_token lease))
  && (ev_attempt_number e =? wl_attempt_number lease)
  && negb (is_None_b (ev_lease_expires_at e))
  && negb (expired e now).

Definition _require_active_lease (l : ledger) (lease : ResearchWorkLeaseV1) (now : datetime) : res ResearchScheduleEventRow :=
  match _latest_event l (wl_work_item_id lease) with
  | Some e => if active_lease e lease now then Ok e else raise ResearchScheduleFenceError "research work lease is stale, expired, or reclaimed"
  | None => raise ResearchScheduleFenceError "research work lease is stale, expired, or reclaimed"
  end.

Definition receipt_of_attempt (l : ledger) (work_item_id : string) (attempt_number : Z) : option ResearchWorkDispatchReceiptRow :=
  List.find (λ r, String.eqb (rr_work_item_id r) work_item_id && (rr_attempt_number r =? attempt_number)) (receipts l).

Definition commit_dispatch (l : ledger) (now : datetime) (lease : ResearchWorkLeaseV1) : res (ledger * ResearchWorkDispatchReceiptV1) :=
  match receipt_of_attempt l (wl_work_item_id lease) (wl_attempt_number lease) with
  | Some existing =>
      receipt ← _receipt_from_row existing;
      raise_if (negb (String.eqb (rc_lease_token receipt) (wl_lease_token lease)))
        ResearchScheduleFenceError "dispatch attempt belongs to another lease token";;
      Ok (l, receipt)
  | None =>
      row ← found (_locked_work l (wl_work_item_id lease)) "unknown research work";
      plan ← _plan_from_row row;
      latest ← _require_active_lease l lease now;
      receipt ← build_dispatch_receipt plan lease now;
      l1 ← add_receipt l {|
        rr_receipt_id := rc_receipt_id receipt;
        rr_work_item_id := rc_work_item_id receipt;
        rr_attempt_number := rc_attempt_number receipt;
        rr_lease_token := rc_lease_token receipt;
        rr_dispatch_target := rc_dispatch_target receipt;
        rr_work_payload_hash := rc_work_payload_hash receipt;
        rr_config_manifest_hash := rc_config_manifest_hash receipt;
        rr_idempotency_key := String.append (wi_idempotency_key row) (String.append ":dispatch:" (string_of_Z (rc_attempt_number receipt)));
        rr_receipt_hash := rc_receipt_hash receipt;
        rr_real_order_routing := false;
        rr_payload := receipt;
        rr_created_at := now;
      |};
      l2 ← _append_event l1 plan {|
        ea_sequence := ev_sequence latest + 1;
        ea_event_type := DISPATCHED;
        ea_attempt_number := wl_attempt_number lease;
        ea_retryable := false;
        ea_lease_owner := Some (wl_lease_owner lease);
        ea_lease_token := Some (wl_lease_token lease);
        ea_lease_expires_at := Some (wl_lease_expires_at lease);
        ea_receipt_id := Some (rc_receipt_id receipt);
        ea_idempotency_key := String.append (wi_idempotency_key row) (String.append ":dispatched:" (string_of_Z (rc_attempt_number receipt)));
        ea_created_at := now;
        ea_extra_payload := [("receipt_hash", PStr (rc_receipt_hash receipt));
                             ("dispatch_target", PStr (ResearchDispatchTarget_value (rc_dispatch_target receipt)));
                             ("previous_event_hash", PStr (ev_event_hash latest))];
        ea_execution_result := None;
      |};
      Ok (l2, receipt)
  end.

Definition event_with_key (l : ledger) (key : string) : option ResearchScheduleEventRow :=
  List.find (λ e, String.eqb (ev_idempotency_key e) key) (events l).

Definition fail_dispatch (l : ledger) (now : datetime) (lease : ResearchWorkLeaseV1) (reason_code : string) (maximum_attempts : Z)
    : res (ledger * bool) :=
  let safe_code := _safe_reason_code reason_code in
  let idempotency_key := String.append (wl_work_item_id lease) (String.append ":dispatch-failed:"
    (String.append (string_of_Z (wl_attempt_number lease)) (String.append ":" safe_code))) in
  match event_with_key l idempotency_key with
  | Some _ => Ok (l, false)
  | None =>
      row ← found (_locked_work l (wl_work_item_id lease)) "unknown research work";
      latest ← _require_active_lease l lease now;
      plan ← _plan_from_row row;
      l' ← _append_event l plan {|
        ea_sequence := ev_sequence latest + 1;
        ea_event_type := FAILED;
        ea_attempt_number := wl_attempt_number lease;
        ea_retryable := wl_attempt_number lease <? maximum_attempts;
        ea_lease_owner := Some (wl_lease_owner lease);
        ea_lease_token := Some (wl_lease_token lease);
        ea_lease_expires_at := Some (wl_lease_expires_at lease);
        ea_receipt_id := None;
        ea_idempotency_key := idempotency_key;
        ea_created_at := now;
        ea_extra_payload := [("failure_stage", PStr "DISPATCH_PREPARATION"); ("reason_code", PStr safe_code);
                             ("previous_event_hash", PStr (ev_event_hash latest))];
        ea_execution_result := None;
      |};
      Ok (l', true)
  end.

(** *** Execution *)

(** The [where] clauses of the execution claim. *)
Definition executable (snap : ledger) (now work_not_before : datetime) (row : ResearchScheduleWorkItemRow) : bool :=
  match _latest_event snap (wi_work_item_id row) with
  | None => false
  | Some e =>
      match ev_receipt_id e with Some r => has_receipt snap r | None => false end
      && (bool_decide (ev_event_type e = DISPATCHED) || (is_execution_lease_event (ev_event_type e) && expired e now))
      && dt_le work_not_before (wi_scheduled_for row)
  end.

Definition claim_execution_from (snap l : ledger) (now : datetime) (consumer_id : string) (lease_seconds : Z) (work_not_before : datetime)
    : res (ledger * option ResearchWorkExecutionLeaseV1) :=
  raise_if (str_empty consumer_id) ValueError "consumer_id is required";;
  raise_if (lease_seconds <=? 0) ValueError "execution lease must be positive";;
  not_before ← require_aware_utc work_not_before;
  match first_item (executable snap now not_before) snap with
  | None => Ok (l, None)
  | Some work =>
      selected ← found (_latest_event snap (wi_work_item_id work)) "selected work has no event";
      receipt_row ← found (ev_receipt_id selected ≫= get_receipt snap) "selected work has no receipt";
      plan ← _plan_from_row work;
      receipt ← _receipt_from_row receipt_row;
      latest_event ← match _latest_event l (wi_work_item_id work) with
        | Some e => if bool_decide (ev_receipt_id e = Some (rc_receipt_id receipt)) then Ok e
                    else raise ResearchScheduleFenceError "research execution receipt is stale"
        | None => raise ResearchScheduleFenceError "research execution receipt is stale"
        end;
      execution_id ← stable_id "research-work-execution" [PStr (rc_receipt_id receipt)];
      let sequence := ev_sequence latest_event + 1 in
      execution_token ← stable_id "research-execution-lease" [PStr execution_id; PInt sequence; PStr consumer_id; PDatetime now];
      let lease_expires_at := after_seconds now lease_seconds in
      l' ← _append_event l plan {|
        ea_sequence := sequence;
        ea_event_type := if is_execution_lease_event (ev_event_type latest_event) then EXECUTION_LEASE_RECLAIMED else EXECUTION_LEASE_ACQUIRED;
        ea_attempt_number := rc_attempt_number receipt;
        ea_retryable := true;
        ea_lease_owner := Some consumer_id;
        ea_lease_token := Some execution_token;
        ea_lease_expires_at := Some lease_expires_at;
        ea_receipt_id := Some (rc_receipt_id receipt);
        ea_idempotency_key := String.append (wi_idempotency_key work) (String.append ":execution-lease:"
          (String.append (string_of_Z (rc_attempt_number receipt)) (String.append ":" (string_of_Z sequence))));
        ea_created_at := now;
        ea_extra_payload := [("execution_id", PStr execution_id); ("receipt_hash", PStr (rc_receipt_hash receipt));
                             ("work_not_before", PStr (datetime_iso not_before));
                             ("previous_event_hash", PStr (ev_event_hash latest_event))];
        ea_execution_result := None;
      |};
      lease ← validate_ResearchWorkExecutionLeaseV1 {|
        xl_execution_id := execution_id;
        xl_receipt_id := rc_receipt_id receipt;
        xl_receipt_hash := rc_receipt_hash receipt;
        xl_work_item_id := wi_work_item_id work;
        xl_work_kind := pl_work_kind plan;
        xl_consumer_id := consumer_id;
        xl_execution_token := execution_token;
        xl_dispatch_attempt_number := rc_attempt_number receipt;
        xl_acquired_at := now;
        xl_lease_expires_at := lease_expires_at;
        xl_config_manifest_hash := pl_config_manifest_hash plan;
        xl_real_order_routing := false;
      |};
      Ok (l', Some lease)
  end.

(** Selection and append on the same ledger. *)
Definition claim_execution (l : ledger) := claim_execution_from l l.

Definition active_execution_lease (e : ResearchScheduleEventRow) (lease : ResearchWorkExecutionLeaseV1) (now : datetime) : bool :=
  is_execution_lease_event (ev_event_type e)
  && bool_decide (ev_lease_owner e = Some (xl_consumer_id lease))
  && bool_decide (ev_lease_token e = Some (xl_execution_token lease))
  && (ev_attempt_number e =? xl_dispatch_attempt_number lease)
  && bool_decide (ev_receipt_id e = Some (xl_receipt_id lease))
  && negb (is_None_b (ev_lease_expires_at e))
  && negb (expired e now).

Definition _require_active_execution_lease (l : ledger) (lease : ResearchWorkExecutionLeaseV1) (now : datetime) : res ResearchScheduleEventRow :=
  match _latest_event l (xl_work_item_id lease) with
  | Some e => if active_execution_lease e lease now then Ok e
              else raise ResearchScheduleFenceError "research execution lease is stale, expired, or reclaimed"
  | None => raise ResearchScheduleFenceError "research execution lease is stale, expired, or reclaimed"
  end.

Definition _require_execution_binding (lease : ResearchWorkExecutionLeaseV1) (plan : ResearchSchedulePlanV1)
    (receipt : ResearchWorkDispatchReceiptV1) : res () :=
  raise_if (negb (String.eqb (xl_work_item_id lease) (pl_work_item_id plan))
            || negb (String.eqb (xl_work_item_id lease) (rc_work_item_id receipt))
            || negb (bool_decide (xl_work_kind lease = pl_work_kind plan))
            || negb (bool_decide (xl_work_kind lease = rc_work_kind receipt))
            || negb (String.eqb (xl_receipt_id lease) (rc_receipt_id receipt))
            || negb (String.eqb (xl_receipt_hash lease) (rc_receipt_hash receipt))
            || negb (xl_dispatch_attempt_number lease =? rc_attempt_number receipt)
            || negb (String.eqb (xl_config_manifest_hash lease) (pl_config_manifest_hash plan))
            || negb (String.eqb (xl_config_manifest_hash lease) (rc_config_manifest_hash receipt))
            || xl_real_order_routing lease)
    ResearchScheduleFenceError "research execution lease binding is invalid".

(** The reads shared by the operations on an execution lease. *)
Definition execution_rows (l : ledger) (lease : ResearchWorkExecutionLeaseV1) (work_item_id : ResearchWorkDispatchReceiptRow → string)
    : res (ResearchWorkDispatchReceiptRow * ResearchScheduleWorkItemRow * ResearchSchedulePlanV1 * ResearchWorkDispatchReceiptV1) :=
  receipt_row ← found (get_receipt l (xl_receipt_id lease)) "unknown dispatch receipt";
  work ← found (_locked_work l (work_item_id receipt_row)) "unknown research work";
  plan ← _plan_from_row work;
  receipt ← _receipt_from_row receipt_row;
  _require_execution_binding lease plan receipt;;
  Ok (receipt_row, work, plan, receipt).

Definition execution_input (l : ledger) (now : datetime) (lease : ResearchWorkExecutionLeaseV1)
    : res (ResearchSchedulePlanV1 * ResearchWorkDispatchReceiptV1) :=
  '(_, _, plan, receipt) ← execution_rows l lease (λ _, xl_work_item_id lease);
  _require_active_execution_lease l lease now;;
  Ok (plan, receipt).

(** [lease.model_copy(update={"lease_expires_at": t})] *)
Definition with_lease_expires_at (t : datetime) (x : ResearchWorkExecutionLeaseV1) : ResearchWorkExecutionLeaseV1 := {|
  xl_execution_id := xl_execution_id x; xl_receipt_id := xl_receipt_id x; xl_receipt_hash := xl_receipt_hash x;
  xl_work_item_id := xl_work_item_id x; xl_work_kind := xl_work_kind x; xl_consumer_id := xl_consumer_id x;
  xl_execution_token := xl_execution_token x; xl_dispatch_attempt_number := xl_dispatch_attempt_number x;
  xl_acquired_at := xl_acquired_at x; xl_lease_expires_at := t; xl_config_manifest_hash := xl_config_manifest_hash x;
  xl_real_order_routing := xl_real_order_routing x;
|}.

Definition renew_execution_lease (l : ledger) (now : datetime) (lease : ResearchWorkExecutionLeaseV1) (lease_seconds : Z)
    : res (ledger * ResearchWorkExecutionLeaseV1) :=
  raise_if (lease_seconds <=? 0) ValueError "execution lease must be positive";;
  '(_, work, plan, receipt) ← execution_rows l lease (λ _, xl_work_item_id lease);
  latest ← _require_active_execution_lease l lease now;
  let lease_expires_at := after_seconds now lease_seconds in
  l' ← _append_event l plan {|
    ea_sequence := ev_sequence latest + 1;
    ea_event_type := EXECUTION_LEASE_RENEWED;
    ea_attempt_number := rc_attempt_number receipt;
    ea_retryable := true;
    ea_lease_owner := Some (xl_consumer_id lease);
    ea_lease_token := Some (xl_execution_token lease);
    ea_lease_expires_at := Some lease_expires_at;
    ea_receipt_id := Some (rc_receipt_id receipt);
    ea_idempotency_key := String.append (wi_idempotency_key work) (String.append ":execution-renewal:"
      (String.append (string_of_Z (rc_attempt_number receipt)) (String.append ":" (string_of_Z (ev_sequence latest + 1)))));
    ea_created_at := now;
    ea_extra_payload := [("execution_id", PStr (xl_execution_id lease)); ("receipt_hash", PStr (rc_receipt_hash receipt));
                         ("previous_event_hash", PStr (ev_event_hash latest))];
    ea_execution_result := None;
  |};
  Ok (l', with_lease_expires_at lease_expires_at lease).

Definition contexts (r : ResearchWorkExecutionResultV1) : list string := map ri_invocation_context_hash (xr_invocations r).

(** The results stored with SUCCEEDED events. *)
Definition succeeded_results (l : ledger) : list ResearchWorkExecutionResultV1 :=
  omap ev_execution_result (List.filter (λ e, bool_decide (ev_event_type e = SUCCEEDED)) (events l)).

Definition _require_unused_invocation_contexts (l : ledger) (result : ResearchWorkExecutionResultV1) : res () :=
  let incoming := contexts result in
  if is_nil incoming then Ok ()
  else
    used ← foldM (λ used stored,
      match validate_ResearchWorkExecutionResultV1 stored with
      | Ok existing => Ok (used ++ contexts existing)
      | Raise _ => raise ResearchSchedulerPersistenceError "stored research execution result is invalid"
      end) [] (succeeded_results l);
    raise_if (existsb (λ c, existsb (String.eqb c) used) incoming)
      ResearchScheduleFenceError "research execution reused an earlier model context".

Definition result_bound (lease : ResearchWorkExecutionLeaseV1) (plan : ResearchSchedulePlanV1) (receipt : ResearchWorkDispatchReceiptV1)
    (result : ResearchWorkExecutionResultV1) : bool :=
  String.eqb (xr_execution_id result) (xl_execution_id lease)
  && String.eqb (xr_receipt_id result) (rc_receipt_id receipt)
  && String.eqb (xr_work_item_id result) (pl_work_item_id plan)
  && bool_decide (xr_work_kind result = pl_work_kind plan)
  && bool_decide (xr_dispatch_target result = rc_dispatch_target receipt)
  && negb (xr_real_order_routing result) && negb (xr_automatic_promotion_enabled result).

(** The stored results are those of every item, and the lock is on one: they are read on [snap]. *)
Definition record_execution_outcome_from (snap l : ledger) (now : datetime) (lease : ResearchWorkExecutionLeaseV1) (succeeded : bool)
    (reason_code : option string) (maximum_attempts : Z) (result : option ResearchWorkExecutionResultV1) : res (ledger * bool) :=
  raise_if (maximum_attempts <=? 0) ValueError "maximum_attempts must be positive";;
  raise_if (negb (Bool.eqb succeeded (negb (is_None_b result)))) ValueError "successful execution requires exactly one typed result";;
  '(receipt_row, work, plan, receipt) ← execution_rows l lease rr_work_item_id;
  raise_if (match result with Some r => negb (result_bound lease plan receipt r) | None => false end)
    ResearchScheduleFenceError "research execution result binding is invalid";;
  found (_latest_event l (wi_work_item_id work)) "research work has no event history";;
  let event_type := if succeeded then SUCCEEDED else FAILED in
  let safe_code :=
    if succeeded then None
    else Some (_safe_reason_code (match reason_code with Some (String c s) => String c s | _ => "EXECUTION_FAILED" end)) in
  let idempotency_key := String.append (wi_idempotency_key work) (String.append ":execution:"
    (String.append (string_of_Z (rr_attempt_number receipt_row)) (String.append ":"
      (String.append (ResearchScheduleEventType_value event_type) (String.append ":" (default "OK" safe_code)))))) in
  match event_with_key l idempotency_key with
  | Some existing =>
      raise_if (negb (bool_decide (ev_lease_token existing = Some (xl_execution_token lease))))
        ResearchScheduleFenceError "research execution outcome belongs to a stale worker";;
      Ok (l, false)
  | None =>
      latest ← _require_active_execution_lease l lease now;
      match result with Some r => _require_unused_invocation_contexts snap r | None => Ok () end;;
      l' ← _append_event l plan {|
        ea_sequence := ev_sequence latest + 1;
        ea_event_type := event_type;
        ea_attempt_number := rr_attempt_number receipt_row;
        ea_retryable := negb succeeded && (rr_attempt_number receipt_row <? maximum_attempts);
        ea_lease_owner := Some (xl_consumer_id lease);
        ea_lease_token := Some (xl_execution_token lease);
        ea_lease_expires_at := Some (xl_lease_expires_at lease);
        ea_receipt_id := Some (xl_receipt_id lease);
        ea_idempotency_key := idempotency_key;
        ea_created_at := now;
        ea_extra_payload := [("execution_id", PStr (xl_execution_id lease));
                             ("failure_stage", if succeeded then PNone else PStr "WORK_EXECUTION");
                             ("reason_code", opt_str safe_code); ("receipt_hash", PStr (rr_receipt_hash receipt_row));
                             ("result_hash", opt_val (λ r, PStr (xr_result_hash r)) result);
                             ("execution_result", opt_val result_json result);
                             ("previous_event_hash", PStr (ev_event_hash latest))];
        ea_execution_result := result;
      |};
      Ok (l', true)
  end.

(** The check and the append on the same ledger. *)
Definition record_execution_outcome (l : ledger) := record_execution_outcome_from l l.

(** *** Status *)

Definition _projected_status (e : ResearchScheduleEventRow) (now : datetime) : string :=
  match ev_event_type e with
  | PLANNED => "PENDING"
  | LEASE_ACQUIRED | LEASE_RECLAIMED => if expired e now then "LEASE_EXPIRED" else "LEASED"
  | DISPATCHED => "DISPATCHED"
  | EXECUTION_LEASE_ACQUIRED | EXECUTION_LEASE_RECLAIMED | EXECUTION_LEASE_RENEWED =>
      if expired e now then "EXECUTION_LEASE_EXPIRED" else "EXECUTING"
  | SUCCEEDED => "SUCCEEDED"
  | FAILED => if ev_retryable e then "RETRY_PENDING" else "FAILED_TERMINAL"
  end.

Definition status_of (l : ledger) (now : datetime) (row : ResearchScheduleWorkItemRow) : string :=
  match _latest_event l (wi_work_item_id row) with None => "CORRUPT_MISSING_EVENT" | Some e => _projected_status e now end.

(** [order_by(scheduled_for.desc(), work_item_id.desc())] *)
Definition recent_le (a b : ResearchScheduleWorkItemRow) : bool :=
  negb (lex_lt [instant (wi_scheduled_for a) ?= instant (wi_scheduled_for b); String.compare (wi_work_item_id a) (wi_work_item_id b)]).

(** The counts and the listed items: [recent_status_counts], [recent_work]. *)
Definition status (l : ledger) (now : datetime) (history_limit : Z) : res (pydict Z * list (string * string * Z)) :=
  raise_if (history_limit <=? 0) ValueError "history_limit must be positive";;
  let rows := take (Z.to_nat history_limit) (sorted recent_le (items l)) in
  let counts := fold_left (λ counts row,
    let s := status_of l now row in dset s (match dget s counts with Some n => n | None => 0 end + 1) counts) rows [] in
  Ok (counts, map (λ row, (wi_work_item_id row, status_of l now row,
                           match _latest_event l (wi_work_item_id row) with Some e => ev_attempt_number e | None => 0 end)) rows).
End repository.
