(* ===== verification/WorkLifecycle.v ===== *)
(** * The life of a research work item

    The abstract lifecycle that the work ledger of [WorkLedger.v] promises, and the proof that every transaction makes at most one
    lifecycle step from the ledger it decided on: leases exclude others until they expire, only the holder of an unexpired lease moves
    the work on, and success or a final failure is final.  Transactions may overlap: the selection of a claim reads an earlier ledger
    than the one it commits on, and the last sections show what then goes wrong.  Then the termination of the claim loop, the bound on
    attempts, the prerequisites, the uniqueness of model contexts, and the composition of a claim with the execution contracts. *)
From Stdlib Require Import ZArith Lia Ascii String.
From stdpp Require Import base list strings numbers sets.
From S2P Require Import Prelude PyDecimal Hashing Domain Text Falsification Schedule DispatchExecution WorkLedger.
Set Default Goal Selector "!".
Open Scope Z_scope.

(** ** The abstract lifecycle of a work item *)

(** A holder of a lease: its owner and its token. *)
Definition holder : Type := option string * option string.

Inductive work_state :=
  | Pending (attempt : Z)
  | Leased (attempt : Z) (h : holder) (expires : option Z)
  | Dispatched (attempt : Z) (receipt_id : option string)
  | Executing (attempt : Z) (receipt_id : option string) (h : holder) (expires : option Z)
  | Succeeded
  | Dead.

Definition state_of (e : ResearchScheduleEventRow) : work_state :=
  let h := (ev_lease_owner e, ev_lease_token e) in
  match ev_event_type e with
  | PLANNED => Pending (ev_attempt_number e)
  | LEASE_ACQUIRED | LEASE_RECLAIMED => Leased (ev_attempt_number e) h (instant <$> ev_lease_expires_at e)
  | DISPATCHED => Dispatched (ev_attempt_number e) (ev_receipt_id e)
  | EXECUTION_LEASE_ACQUIRED | EXECUTION_LEASE_RECLAIMED | EXECUTION_LEASE_RENEWED =>
      Executing (ev_attempt_number e) (ev_receipt_id e) h (instant <$> ev_lease_expires_at e)
  | SUCCEEDED => Succeeded
  | FAILED => if ev_retryable e then Pending (ev_attempt_number e) else Dead
  end.

(** The state of an item: that of its latest event. *)
Definition state (l : ledger) (id : string) : option work_state := state_of <$> _latest_event l id.

(** What may happen to an item at an instant.  A lease excludes others until it expires; only its holder, before it expires, moves
    the work on; nothing follows success or a final failure. *)
Inductive lifecycle (now : Z) : option work_state → work_state → Prop :=
  | L_plan : lifecycle now None (Pending 0)
  | L_lease n h exp : lifecycle now (Some (Pending n)) (Leased (n + 1) h exp)
  | L_relet n h t h' exp : t <= now → lifecycle now (Some (Leased n h (Some t))) (Leased (n + 1) h' exp)
  | L_exhaust n : lifecycle now (Some (Pending n)) Dead
  | L_exhaust_lease n h t : t <= now → lifecycle now (Some (Leased n h (Some t))) Dead
  | L_dispatch n h t r : now < t → lifecycle now (Some (Leased n h (Some t))) (Dispatched n (Some r))
  | L_dispatch_failed n h t s : now < t → s = Pending n ∨ s = Dead → lifecycle now (Some (Leased n h (Some t))) s
  | L_execute n r h exp : lifecycle now (Some (Dispatched n r)) (Executing n r h exp)
  | L_take_over n r h t h' exp : t <= now → lifecycle now (Some (Executing n r h (Some t))) (Executing n r h' exp)
  | L_renew n r h t exp : now < t → lifecycle now (Some (Executing n r h (Some t))) (Executing n r h exp)
  | L_succeed n r h t : now < t → lifecycle now (Some (Executing n r h (Some t))) Succeeded
  | L_fail n r h t s : now < t → s = Pending n ∨ s = Dead → lifecycle now (Some (Executing n r h (Some t))) s.

(** Item [id] made one lifecycle step from its state in the ledger [seen], and the others none. *)
Definition stepped (now : datetime) (seen l l' : ledger) (id : string) : Prop :=
  (∃ s, state l' id = Some s ∧ lifecycle (instant now) (state seen id) s) ∧ ∀ id', id' ≠ id → state l' id' = state l id'.

(** Item [id] made one lifecycle step and the others none. *)
Definition moved (now : datetime) (l : ledger) : ledger → string → Prop := stepped now l l.

Definition unmoved (l l' : ledger) : Prop := ∀ id, state l' id = state l id.

(** ** Facts about events *)

Lemma event_lt_key a b : if event_lt a b then ev_sequence a <= ev_sequence b else ev_sequence b <= ev_sequence a.
Proof.
  unfold event_lt. cbn [lex_lt]. destruct (Z.compare_spec (ev_sequence a) (ev_sequence b)); try lia.
  destruct (String.compare (ev_event_id a) (ev_event_id b)); lia.
Qed.

Lemma latest_event_spec l id e :
  _latest_event l id = Some e →
  e ∈ events l ∧ ev_work_item_id e = id ∧ ∀ e', e' ∈ events l → ev_work_item_id e' = id → ev_sequence e' <= ev_sequence e.
Proof.
  unfold _latest_event. destruct (events_of l id) as [|e0 es] eqn:E; [done|]. intros [= <-].
  assert (max_by event_lt e0 es ∈ events_of l id) as Hm by (rewrite E; apply max_by_elem).
  apply elem_of_filterb in Hm as [Hid%String.eqb_eq Hm]. split; [done|]. split; [done|].
  intros e' He' Hid'. apply (max_by_key ev_sequence); [apply event_lt_key|]. rewrite <- E. apply elem_of_filterb.
  split; [by apply String.eqb_eq|done].
Qed.

Lemma latest_event_None l id : _latest_event l id = None ↔ ∀ e, e ∈ events l → ev_work_item_id e ≠ id.
Proof.
  unfold _latest_event. destruct (events_of l id) as [|e0 es] eqn:E.
  - split; [|done]. intros _ e He Hid. assert (e ∈ events_of l id) as Hin by (apply elem_of_filterb; split; [by apply String.eqb_eq|done]).
    rewrite E in Hin. by apply not_elem_of_nil in Hin.
  - split; [done|]. intros Hno. assert (e0 ∈ events_of l id) as Hin by (rewrite E; left).
    apply elem_of_filterb in Hin as [?%String.eqb_eq ?]. by destruct (Hno e0).
Qed.

(** Only the events decide the latest event. *)
Lemma latest_event_events l l' id : events l' = events l → _latest_event l' id = _latest_event l id.
Proof. unfold _latest_event, events_of. by intros ->. Qed.

Lemma latest_event_snoc l l' row id :
  events l' = events l ++ [row] →
  (∀ e, _latest_event l (ev_work_item_id row) = Some e → ev_sequence e < ev_sequence row) →
  _latest_event l' id = if String.eqb (ev_work_item_id row) id then Some row else _latest_event l id.
Proof.
  intros Ev Hlast. unfold _latest_event, events_of in *. rewrite Ev, List.filter_app. cbn [List.filter].
  destruct (String.eqb_spec (ev_work_item_id row) id) as [<-|]; [|by rewrite app_nil_r].
  destruct (List.filter _ (events l)) as [|e0 es]; cbn [app]; [done|]. rewrite max_by_snoc.
  specialize (Hlast _ eq_refl). unfold event_lt at 1. cbn [lex_lt].
  by rewrite (proj2 (Z.compare_lt_iff _ _) Hlast).
Qed.

Lemma integrity_Ok b c u : integrity b c = Ok u ↔ b = false.
Proof. apply raise_if_Ok_inv. Qed.

Section facts.
Context `{Digest} `{JsonDatetime}.

(** The row [_append_event] adds. *)
Record appended (l : ledger) (plan : ResearchSchedulePlanV1) (a : event_args) (l' : ledger) (row : ResearchScheduleEventRow) : Prop := {
  ap_ledger : l' = {| sessions := sessions l; items := items l; events := events l ++ [row]; receipts := receipts l |};
  ap_work : ev_work_item_id row = pl_work_item_id plan;
  ap_sequence : ev_sequence row = ea_sequence a;
  ap_type : ev_event_type row = ea_event_type a;
  ap_attempt : ev_attempt_number row = ea_attempt_number a;
  ap_retryable : ev_retryable row = ea_retryable a;
  ap_owner : ev_lease_owner row = ea_lease_owner a;
  ap_token : ev_lease_token row = ea_lease_token a;
  ap_expires : ev_lease_expires_at row = _aware <$> ea_lease_expires_at a;
  ap_receipt : ev_receipt_id row = ea_receipt_id a;
  ap_key : ev_idempotency_key row = ea_idempotency_key a;
  ap_result : ev_execution_result row = ea_execution_result a;
  ap_fresh_key : ∀ e, e ∈ events l → ev_work_item_id e = pl_work_item_id plan → ev_idempotency_key e ≠ ea_idempotency_key a;
  ap_fresh_sequence : ∀ e, e ∈ events l → ev_work_item_id e = pl_work_item_id plan → ev_sequence e ≠ ea_sequence a;
  ap_item : has_item l (pl_work_item_id plan) = true;
  ap_has_receipt : ∀ r, ea_receipt_id a = Some r → has_receipt l r = true;
  ap_attempt_nonneg : 0 <= ea_attempt_number a;
}.

Lemma existsb_false {A} (f : A → bool) l : existsb f l = false ↔ ∀ x, x ∈ l → f x = false.
Proof.
  rewrite <- not_true_iff_false, existsb_exists. split.
  - intros Hn x Hx. apply not_true_iff_false. intros Hf. apply Hn. exists x. split; [by apply list_elem_of_In|done].
  - intros Hf (x & Hx & Hfx). rewrite Hf in Hfx; [done|by apply list_elem_of_In].
Qed.

(** [appended] looks at no other argument. *)
Lemma appended_ext l plan a a' l' row :
  appended l plan a l' row → ea_sequence a' = ea_sequence a → ea_event_type a' = ea_event_type a → ea_attempt_number a' = ea_attempt_number a →
  ea_retryable a' = ea_retryable a → ea_lease_owner a' = ea_lease_owner a → ea_lease_token a' = ea_lease_token a →
  ea_lease_expires_at a' = ea_lease_expires_at a → ea_receipt_id a' = ea_receipt_id a → ea_idempotency_key a' = ea_idempotency_key a →
  ea_execution_result a' = ea_execution_result a → appended l plan a' l' row.
Proof. intros [] E1 E2 E3 E4 E5 E6 E7 E8 E9 E10. split; rewrite ?E1, ?E2, ?E3, ?E4, ?E5, ?E6, ?E7, ?E8, ?E9, ?E10; done. Qed.

Lemma append_event_inv l plan a l' : _append_event l plan a = Ok l' → ∃ row, appended l plan a l' row.
Proof.
  unfold _append_event. intros Ha. apply bind_Ok_inv in Ha as (event_id & _ & Ha). apply bind_Ok_inv in Ha as (event_hash & _ & Ha).
  unfold add_event in Ha.
  repeat (apply bind_Ok_inv in Ha as ([] & ?%integrity_Ok & Ha)). injection Ha as <-. eexists. split; try reflexivity; cbn in *.
  - intros e He Hid Hkey. match goal with E : existsb _ _ = false |- _ => idtac end.
    match goal with E : existsb (λ e, _ && String.eqb (ev_idempotency_key e) _) _ = false |- _ => rewrite existsb_false in E; specialize (E e He) end.
    rewrite Hid, Hkey, !String.eqb_refl in *. done.
  - intros e He Hid Hkey.
    match goal with E : existsb (λ e, _ && (ev_sequence e =? _)) _ = false |- _ => rewrite existsb_false in E; specialize (E e He) end.
    rewrite Hid, Hkey, String.eqb_refl, Z.eqb_refl in *. done.
  - by split_bool.
  - intros r Hr. rewrite Hr in *. by split_bool.
  - lia.
Qed.

(** Appending with the next sequence number makes the row the latest of its item. *)
Lemma append_latest l plan a l' e :
  _append_event l plan a = Ok l' → _latest_event l (pl_work_item_id plan) = Some e → ea_sequence a = ev_sequence e + 1 →
  ∃ row, appended l plan a l' row ∧ ∀ id, _latest_event l' id = if String.eqb (pl_work_item_id plan) id then Some row else _latest_event l id.
Proof.
  intros (row & Ha)%append_event_inv He Hs. exists row. split; [done|]. intros id. destruct Ha. rewrite <- ap_work0.
  apply latest_event_snoc; [by subst l'|]. rewrite ap_work0, He. intros e' [= <-]. lia.
Qed.

Lemma state_append l plan a l' e :
  _append_event l plan a = Ok l' → _latest_event l (pl_work_item_id plan) = Some e → ea_sequence a = ev_sequence e + 1 →
  ∃ row, appended l plan a l' row ∧ state l' (pl_work_item_id plan) = Some (state_of row) ∧
    ∀ id, id ≠ pl_work_item_id plan → state l' id = state l id.
Proof.
  intros Ha He Hs. destruct (append_latest _ _ _ _ _ Ha He Hs) as (row & Hrow & Hl). exists row. split; [done|]. unfold state. split.
  - by rewrite Hl, String.eqb_refl.
  - intros id Hid. rewrite Hl. by destruct (String.eqb_spec (pl_work_item_id plan) id); [subst|].
Qed.

Lemma plan_from_row_inv row plan : _plan_from_row row = Ok plan → plan = wi_payload row ∧ pl_work_item_id plan = wi_work_item_id row ∧
  validate_ResearchSchedulePlanV1 plan = Ok plan ∧ pl_plan_hash plan = wi_plan_hash row ∧ pl_config_manifest_hash plan = wi_config_manifest_hash row.
Proof.
  unfold _plan_from_row. intros Hp. apply bind_Ok_inv in Hp as (p & Hv & Hp). pose proof (validate_ResearchSchedulePlanV1_id _ _ Hv). subst p.
  inv_ok. split_bool. by repeat match goal with E : (_ =? _)%string = true |- _ => apply String.eqb_eq in E end.
Qed.

Lemma receipt_from_row_inv row receipt : _receipt_from_row row = Ok receipt → receipt = rr_payload row ∧ rc_receipt_id receipt = rr_receipt_id row ∧
  validate_ResearchWorkDispatchReceiptV1 receipt = Ok receipt ∧ rc_receipt_hash receipt = rr_receipt_hash row.
Proof.
  unfold _receipt_from_row. intros Hp. apply bind_Ok_inv in Hp as (p & Hv & Hp). pose proof (validate_ResearchWorkDispatchReceiptV1_id _ _ Hv). subst p.
  inv_ok. split_bool. by repeat match goal with E : (_ =? _)%string = true |- _ => apply String.eqb_eq in E end.
Qed.

Lemma found_Ok {A} (o : option A) msg a : found o msg = Ok a ↔ o = Some a.
Proof. destruct o; cbn; [split; by intros [= ->]|by split]. Qed.

Lemma get_item_Some l id row : get_item l id = Some row → row ∈ items l ∧ wi_work_item_id row = id.
Proof. intros [Hi Hid%String.eqb_eq]%find_some. by apply list_elem_of_In in Hi. Qed.

Lemma get_receipt_Some l id row : get_receipt l id = Some row → row ∈ receipts l ∧ rr_receipt_id row = id.
Proof. intros [Hi Hid%String.eqb_eq]%find_some. by apply list_elem_of_In in Hi. Qed.

Lemma first_item_Some p l row : first_item p l = Some row →
  row ∈ items l ∧ p row = true ∧ ∀ row', row' ∈ items l → p row' = true → item_le row row' = true.
Proof.
  unfold first_item. intros Hf.
  apply (sorted_lex_head [λ a b, instant (wi_scheduled_for a) ?= instant (wi_scheduled_for b);
    λ a b, String.compare (ResearchScheduleWorkKind_value (wi_work_kind a)) (ResearchScheduleWorkKind_value (wi_work_kind b));
    λ a b, String.compare (wi_work_item_id a) (wi_work_item_id b)]) in Hf as [Hr Hall]; [| |done].
  - apply elem_of_filterb in Hr as [Hp Hr]. do 2 (split; [done|]). intros row' Hr' Hp'. apply Hall. by apply elem_of_filterb.
  - repeat constructor; try apply (Zcompare_ordering (λ a, instant (wi_scheduled_for a)));
      try apply (string_ordering (λ a, ResearchScheduleWorkKind_value (wi_work_kind a))); apply (string_ordering wi_work_item_id).
Qed.

Lemma first_item_None p l : first_item p l = None ↔ ∀ row, row ∈ items l → p row = false.
Proof.
  unfold first_item. rewrite sorted_hd_None. split; [|apply filterb_nil]. intros E row Hr. destruct (p row) eqn:Ep; [|done].
  assert (row ∈ List.filter p (items l)) as Hin by (by apply elem_of_filterb). rewrite E in Hin. by apply not_elem_of_nil in Hin.
Qed.

(** *** Each operation on the state of its item *)

(** The event of an active lease. *)
Lemma require_active_lease_inv l lease now e : _require_active_lease l lease now = Ok e →
  _latest_event l (wl_work_item_id lease) = Some e ∧
  ∃ t, instant now < t ∧ state l (wl_work_item_id lease) =
       Some (Leased (wl_attempt_number lease) (Some (wl_lease_owner lease), Some (wl_lease_token lease)) (Some t)).
Proof.
  unfold _require_active_lease, state. destruct (_latest_event l _) as [e'|]; [|done]. destruct (active_lease e' lease now) eqn:Ea; [|done].
  intros [= ->]. split; [done|]. unfold active_lease, expired, dt_le in Ea. split_bool. cbn.
  destruct (ev_lease_expires_at e) as [t|] eqn:Et; [|done]. exists (instant t). cbn in *. split_bool. split; [lia|].
  unfold state_of. rewrite Et. replace (ev_attempt_number e) with (wl_attempt_number lease) by lia.
  repeat match goal with E : _ = Some _ |- _ => rewrite E; clear E end. by destruct (ev_event_type e).
Qed.

Lemma require_active_execution_lease_inv l lease now e : _require_active_execution_lease l lease now = Ok e →
  _latest_event l (xl_work_item_id lease) = Some e ∧
  ∃ t, instant now < t ∧ state l (xl_work_item_id lease) =
       Some (Executing (xl_dispatch_attempt_number lease) (Some (xl_receipt_id lease))
               (Some (xl_consumer_id lease), Some (xl_execution_token lease)) (Some t)).
Proof.
  unfold _require_active_execution_lease, state. destruct (_latest_event l _) as [e'|]; [|done].
  destruct (active_execution_lease e' lease now) eqn:Ea; [|done].
  intros [= ->]. split; [done|]. unfold active_execution_lease, expired, dt_le in Ea. split_bool. cbn.
  destruct (ev_lease_expires_at e) as [t|] eqn:Et; [|done]. exists (instant t). cbn in *. split_bool. split; [lia|].
  unfold state_of. rewrite Et. replace (ev_attempt_number e) with (xl_dispatch_attempt_number lease) by lia.
  repeat match goal with E : _ = Some _ |- _ => rewrite E; clear E end. by destruct (ev_event_type e).
Qed.

Lemma claimable_state snap now row e :
  _latest_event snap (wi_work_item_id row) = Some e → claimable snap now row = true →
  instant (wi_scheduled_for row) <= instant now ∧ _schedule_prerequisite_predicate snap row = true ∧
  ((is_lease_event (ev_event_type e) = false ∧ state_of e = Pending (ev_attempt_number e))
   ∨ (is_lease_event (ev_event_type e) = true ∧ ∃ h t, state_of e = Leased (ev_attempt_number e) h (Some t) ∧ t <= instant now)).
Proof.
  unfold claimable. intros -> Hc. split_bool. unfold dt_le in *. split; [lia|]. split; [done|].
  unfold state_of, expired, dt_le in *. destruct (ev_event_type e); cbn in *; try done.
  - by left.
  - right. split; [done|]. destruct (ev_lease_expires_at e) as [t|]; [|done]. cbn in *. eexists _, _. split; [done|lia].
  - right. split; [done|]. destruct (ev_lease_expires_at e) as [t|]; [|done]. cbn in *. eexists _, _. split; [done|lia].
  - left. split; [done|]. by match goal with E : ev_retryable e = true |- _ => rewrite E end.
Qed.

Lemma claim_once_Claimed snap l now owner secs max l' lease :
  claim_once snap l now owner secs max = Ok (l', Claimed lease) →
  ∃ row e, first_item (claimable snap now) snap = Some row ∧ _latest_event snap (wi_work_item_id row) = Some e ∧
    wl_work_item_id lease = wi_work_item_id row ∧ wl_attempt_number lease = ev_attempt_number e + 1 ∧ ev_attempt_number e + 1 <= max ∧
    wl_plan_hash lease = wi_plan_hash row ∧ wl_lease_owner lease = owner ∧ wl_lease_expires_at lease = after_seconds now secs ∧
    items l' = items l ∧ receipts l' = receipts l ∧
    state l' (wi_work_item_id row)
      = Some (Leased (ev_attempt_number e + 1) (Some owner, Some (wl_lease_token lease)) (Some (instant now + secs * 1000000))) ∧
    ∀ id, id ≠ wi_work_item_id row → state l' id = state l id.
Proof.
  unfold claim_once. destruct (first_item _ snap) as [row|] eqn:Ef; [|by intros [= <-]]. intros Hc.
  apply bind_Ok_inv in Hc as (e & He%found_Ok & Hc). apply bind_Ok_inv in Hc as (plan & Hp%plan_from_row_inv & Hc).
  destruct Hp as (_ & Hid & _ & Hph & _). apply bind_Ok_inv in Hc as (e' & He'%found_Ok & Hc).
  destruct (Z.ltb_spec max (ev_attempt_number e + 1)); [apply bind_Ok_inv in Hc as (? & _ & [=])|].
  apply bind_Ok_inv in Hc as (token & _ & Hc). apply bind_Ok_inv in Hc as (l1 & Ha & Hc).
  apply bind_Ok_inv in Hc as (lease' & Hv & [= <- <-]).
  eapply state_append in Ha as (row' & Hrow & Hs & Hframe); [|by rewrite Hid|done].
  unfold validate_ResearchWorkLeaseV1 in Hv. inv_ok.
  exists row, e. cbn [wl_work_item_id wl_attempt_number wl_plan_hash wl_lease_owner wl_lease_expires_at wl_lease_token].
  rewrite Hid in *. do 8 (split; [done|]). destruct Hrow. subst l1. do 2 (split; [done|]). split; [|done].
  rewrite Hs. unfold state_of. rewrite ap_type0, ap_attempt0, ap_owner0, ap_token0, ap_expires0. cbn.
  by destruct (is_lease_event (ev_event_type e)).
Qed.

Lemma claim_once_Exhausted snap l now owner secs max l' :
  claim_once snap l now owner secs max = Ok (l', Exhausted) →
  ∃ row e, first_item (claimable snap now) snap = Some row ∧ _latest_event snap (wi_work_item_id row) = Some e ∧ max < ev_attempt_number e + 1 ∧
    items l' = items l ∧ receipts l' = receipts l ∧ (∃ e', _latest_event l' (wi_work_item_id row) = Some e' ∧ ev_retryable e' = false) ∧
    state l' (wi_work_item_id row) = Some Dead ∧ ∀ id, id ≠ wi_work_item_id row → _latest_event l' id = _latest_event l id.
Proof.
  unfold claim_once. destruct (first_item _ snap) as [row|] eqn:Ef; [|by intros [= <-]]. intros Hc.
  apply bind_Ok_inv in Hc as (e & He%found_Ok & Hc). apply bind_Ok_inv in Hc as (plan & Hp%plan_from_row_inv & Hc).
  destruct Hp as (_ & Hid & _ & _). apply bind_Ok_inv in Hc as (e' & He'%found_Ok & Hc).
  destruct (Z.ltb_spec max (ev_attempt_number e + 1)).
  2: { apply bind_Ok_inv in Hc as (token & _ & Hc). apply bind_Ok_inv in Hc as (l1 & Ha & Hc). by apply bind_Ok_inv in Hc as (? & _ & [=]). }
  apply bind_Ok_inv in Hc as (l1 & Ha & [= <-]).
  eapply append_latest in Ha as (row' & Hrow & Hl); [|by rewrite Hid|done]. rewrite Hid in *. destruct Hrow. subst l1.
  exists row, e. do 5 (split; [done|]). specialize (Hl (wi_work_item_id row)) as Hl1. rewrite String.eqb_refl in Hl1. split; [by exists row'|].
  split. { unfold state, state_of. rewrite Hl1. cbn. by rewrite ap_type0, ap_retryable0. }
  intros id Hne. rewrite Hl. by destruct (String.eqb_spec (wi_work_item_id row) id); [subst|].
Qed.

Lemma claim_once_NothingDue snap l now owner secs max l' :
  claim_once snap l now owner secs max = Ok (l', NothingDue) → l' = l ∧ ∀ row, row ∈ items snap → claimable snap now row = false.
Proof.
  unfold claim_once. destruct (first_item _ snap) as [row|] eqn:Ef.
  - intros Hc. apply bind_Ok_inv in Hc as (e & _ & Hc). apply bind_Ok_inv in Hc as (plan & _ & Hc). apply bind_Ok_inv in Hc as (e' & _ & Hc).
    destruct (_ <? _); [by apply bind_Ok_inv in Hc as (? & _ & [=])|].
    apply bind_Ok_inv in Hc as (token & _ & Hc). apply bind_Ok_inv in Hc as (l1 & Ha & Hc). by apply bind_Ok_inv in Hc as (? & _ & [=]).
  - intros [= <-]. split; [done|]. by apply first_item_None.
Qed.

Lemma build_dispatch_receipt_inv plan lease now r :
  build_dispatch_receipt plan lease now = Ok r →
  pl_work_item_id plan = wl_work_item_id lease ∧ pl_plan_hash plan = wl_plan_hash lease ∧
  validate_ResearchWorkDispatchReceiptV1 r = Ok r ∧ rc_work_item_id r = pl_work_item_id plan ∧ rc_work_kind r = pl_work_kind plan ∧
  rc_attempt_number r = wl_attempt_number lease ∧ rc_lease_token r = wl_lease_token lease ∧
  rc_dispatch_target r = dispatch_target_for (pl_work_kind plan) ∧ schedule_plan_payload_hash plan = Ok (rc_work_payload_hash r) ∧
  rc_config_manifest_hash r = pl_config_manifest_hash plan.
Proof.
  unfold build_dispatch_receipt. intros Hb. apply bind_Ok_inv in Hb as (t & _ & Hb). apply bind_Ok_inv in Hb as ([] & Hf%raise_if_Ok_inv & Hb).
  split_bool. apply String.eqb_eq in H1, H2. apply bind_Ok_inv in Hb as (rid & _ & Hb). apply bind_Ok_inv in Hb as (ph & Hph & Hb).
  apply bind_Ok_inv in Hb as (h & _ & Hb). pose proof (validate_ResearchWorkDispatchReceiptV1_id _ _ Hb) as Er.
  rewrite <- Er in Hb. by subst r.
Qed.

Lemma commit_dispatch_inv l now lease l' receipt :
  commit_dispatch l now lease = Ok (l', receipt) →
  (l' = l ∧ rc_lease_token receipt = wl_lease_token lease ∧
     ∃ row, receipt_of_attempt l (wl_work_item_id lease) (wl_attempt_number lease) = Some row ∧ rr_payload row = receipt) ∨
  (∃ e t, _require_active_lease l lease now = Ok e ∧ instant now < t ∧ rc_lease_token receipt = wl_lease_token lease ∧
     state l (wl_work_item_id lease)
       = Some (Leased (wl_attempt_number lease) (Some (wl_lease_owner lease), Some (wl_lease_token lease)) (Some t)) ∧
     items l' = items l ∧ (∃ row, receipts l' = receipts l ++ [row] ∧ rr_payload row = receipt ∧ rr_receipt_id row = rc_receipt_id receipt ∧
        rr_attempt_number row = wl_attempt_number lease ∧ rr_work_item_id row = wl_work_item_id lease) ∧
     state l' (wl_work_item_id lease) = Some (Dispatched (wl_attempt_number lease) (Some (rc_receipt_id receipt))) ∧
     ∀ id, id ≠ wl_work_item_id lease → state l' id = state l id).
Proof.
  unfold commit_dispatch. destruct (receipt_of_attempt l _ _) as [row|] eqn:Er; intros Hc.
  - left. apply bind_Ok_inv in Hc as (r & Hr%receipt_from_row_inv & Hc). apply bind_Ok_inv in Hc as ([] & Hf%raise_if_Ok_inv & [= <- <-]).
    split_bool. apply String.eqb_eq in Hf. split; [done|]. split; [done|]. destruct Hr as (? & _). by exists row.
  - right. apply bind_Ok_inv in Hc as (row & Hrow%found_Ok & Hc). apply bind_Ok_inv in Hc as (plan & Hp%plan_from_row_inv & Hc).
    apply bind_Ok_inv in Hc as (e & He & Hc). apply bind_Ok_inv in Hc as (r & Hr%build_dispatch_receipt_inv & Hc).
    apply bind_Ok_inv in Hc as (l1 & H1 & Hc). apply bind_Ok_inv in Hc as (l2 & H2 & [= <- <-]).
    destruct (require_active_lease_inv _ _ _ _ He) as (Hlast & t & Ht & Hst).
    unfold add_receipt in H1. repeat (apply bind_Ok_inv in H1 as ([] & _ & H1)). injection H1 as <-.
    destruct Hr as (Eid & _ & _ & Erid & _ & Eatt & Etok & _).
    eapply state_append in H2 as (ev & Hev & Hs & Hframe); [|rewrite Eid; exact Hlast|done].
    rewrite Eid in *. destruct Hev. subst l2. exists e, t. do 4 (split; [done|]). split; [done|].
    split; [eexists; split; [done|]; by rewrite Erid|]. split; [|exact Hframe].
    rewrite Hs. unfold state_of. by rewrite ap_type0, ap_attempt0, ap_receipt0.
Qed.

Lemma fail_dispatch_inv l now lease reason max l' b :
  fail_dispatch l now lease reason max = Ok (l', b) →
  (l' = l ∧ b = false) ∨
  (b = true ∧ ∃ t, instant now < t ∧
     state l (wl_work_item_id lease)
       = Some (Leased (wl_attempt_number lease) (Some (wl_lease_owner lease), Some (wl_lease_token lease)) (Some t)) ∧
     items l' = items l ∧ receipts l' = receipts l ∧
     state l' (wl_work_item_id lease) = Some (if wl_attempt_number lease <? max then Pending (wl_attempt_number lease) else Dead) ∧
     ∀ id, id ≠ wl_work_item_id lease → state l' id = state l id).
Proof.
  unfold fail_dispatch. destruct (event_with_key l _); intros Hc; [injection Hc as <- <-; by left|right].
  apply bind_Ok_inv in Hc as (row & [_ Hid]%found_Ok%get_item_Some & Hc). apply bind_Ok_inv in Hc as (e & He & Hc).
  apply bind_Ok_inv in Hc as (plan & (_ & Hp & _)%plan_from_row_inv & Hc). apply bind_Ok_inv in Hc as (l1 & Ha & [= <- <-]).
  destruct (require_active_lease_inv _ _ _ _ He) as (Hlast & t & Ht & Hst). rewrite <- Hp in Hid.
  eapply state_append in Ha as (ev & Hev & Hs & Hframe); [|rewrite Hid; exact Hlast|done].
  rewrite Hid in *. destruct Hev. subst l1. split; [done|]. exists t. do 4 (split; [done|]). split; [|exact Hframe].
  rewrite Hs. unfold state_of. rewrite ap_type0, ap_attempt0, ap_retryable0. cbn. by destruct (_ <? _).
Qed.

Lemma execution_rows_inv l lease f receipt_row work plan receipt :
  execution_rows l lease f = Ok (receipt_row, work, plan, receipt) →
  get_receipt l (xl_receipt_id lease) = Some receipt_row ∧ get_item l (f receipt_row) = Some work ∧
  _plan_from_row work = Ok plan ∧ _receipt_from_row receipt_row = Ok receipt ∧
  pl_work_item_id plan = xl_work_item_id lease ∧ wi_work_item_id work = xl_work_item_id lease ∧
  rc_work_item_id receipt = xl_work_item_id lease ∧ rc_receipt_id receipt = xl_receipt_id lease ∧
  rc_attempt_number receipt = xl_dispatch_attempt_number lease.
Proof.
  unfold execution_rows. intros Hc. apply bind_Ok_inv in Hc as (r & Hr%found_Ok & Hc). apply bind_Ok_inv in Hc as (w & Hw%found_Ok & Hc).
  apply bind_Ok_inv in Hc as (p & Hp & Hc). apply bind_Ok_inv in Hc as (r' & Hr' & Hc). apply bind_Ok_inv in Hc as ([] & Hb & [= <- <- <- <-]).
  unfold _require_execution_binding in Hb. inv_ok. split_bool.
  repeat match goal with E : (_ =? _)%string = true |- _ => apply String.eqb_eq in E end.
  do 4 (split; [done|]). destruct (plan_from_row_inv _ _ Hp) as (_ & Hid & _). repeat split; try congruence; lia.
Qed.

Lemma executable_state snap now nb row e :
  _latest_event snap (wi_work_item_id row) = Some e → executable snap now nb row = true →
  instant nb <= instant (wi_scheduled_for row) ∧ ∃ r, ev_receipt_id e = Some r ∧ has_receipt snap r = true ∧
  ((is_execution_lease_event (ev_event_type e) = false ∧ state_of e = Dispatched (ev_attempt_number e) (Some r))
   ∨ (is_execution_lease_event (ev_event_type e) = true ∧ ∃ h t, state_of e = Executing (ev_attempt_number e) (Some r) h (Some t) ∧ t <= instant now)).
Proof.
  unfold executable. intros -> Hc. split_bool. unfold dt_le in *. split; [lia|]. destruct (ev_receipt_id e) as [r|] eqn:Er; [|done].
  exists r. do 2 (split; [done|]). unfold state_of, expired, dt_le in *. rewrite Er.
  match goal with E : _ || _ = true |- _ => apply orb_true_iff in E as [Ed%bool_decide_eq_true|Ex] end; [rewrite Ed; by left|].
  split_bool. right. split; [done|]. destruct (ev_lease_expires_at e) as [t|]; [|done]. exists (ev_lease_owner e, ev_lease_token e), (instant t).
  cbn in *. split; [by destruct (ev_event_type e)|lia].
Qed.

(** The receipt of the latest event carries the event's attempt number. *)
Definition receipts_match (l : ledger) : Prop :=
  ∀ e r row, e ∈ events l → ev_receipt_id e = Some r → get_receipt l r = Some row →
    rr_attempt_number row = ev_attempt_number e ∧ rr_work_item_id row = ev_work_item_id e ∧
    rc_attempt_number (rr_payload row) = rr_attempt_number row ∧ rc_work_item_id (rr_payload row) = rr_work_item_id row.

(** The only re-check of the current ledger: the latest event still carries the receipt. *)
Lemma fresh_receipt (o : option ResearchScheduleEventRow) r e :
  match o with
  | Some e => if bool_decide (ev_receipt_id e = Some r) then Ok e else raise ResearchScheduleFenceError "research execution receipt is stale"
  | None => raise ResearchScheduleFenceError "research execution receipt is stale"
  end = Ok e → o = Some e ∧ ev_receipt_id e = Some r.
Proof. destruct o as [e'|]; [|done]. destruct (bool_decide _) eqn:Eb; [|done]. intros [= <-]. by apply bool_decide_eq_true in Eb. Qed.

Lemma claim_execution_inv snap l now consumer secs nb l' lease :
  claim_execution_from snap l now consumer secs nb = Ok (l', Some lease) → receipts_match snap →
  ∃ row e plan receipt, first_item (executable snap now nb) snap = Some row ∧ _latest_event snap (wi_work_item_id row) = Some e ∧
    ev_receipt_id e = Some (xl_receipt_id lease) ∧ _plan_from_row row = Ok plan ∧ get_receipt snap (xl_receipt_id lease) = Some receipt ∧ _receipt_from_row receipt = Ok (rr_payload receipt) ∧
    0 < secs ∧
    lease = {| xl_execution_id := xl_execution_id lease; xl_receipt_id := rc_receipt_id (rr_payload receipt);
               xl_receipt_hash := rc_receipt_hash (rr_payload receipt); xl_work_item_id := wi_work_item_id row; xl_work_kind := pl_work_kind plan;
               xl_consumer_id := consumer; xl_execution_token := xl_execution_token lease; xl_dispatch_attempt_number := ev_attempt_number e;
               xl_acquired_at := now; xl_lease_expires_at := after_seconds now secs; xl_config_manifest_hash := pl_config_manifest_hash plan;
               xl_real_order_routing := false |} ∧
    stable_id "research-work-execution" [PStr (xl_receipt_id lease)] = Ok (xl_execution_id lease) ∧
    items l' = items l ∧ receipts l' = receipts l ∧
    state l' (wi_work_item_id row) = Some (Executing (ev_attempt_number e) (Some (xl_receipt_id lease)) (Some consumer, Some (xl_execution_token lease))
                                             (Some (instant now + secs * 1000000))) ∧
    (∃ row', appended l plan {|
        ea_sequence := ev_sequence row'; ea_event_type := ev_event_type row'; ea_attempt_number := ev_attempt_number e; ea_retryable := true;
        ea_lease_owner := Some consumer; ea_lease_token := Some (xl_execution_token lease); ea_lease_expires_at := Some (after_seconds now secs);
        ea_receipt_id := Some (xl_receipt_id lease); ea_idempotency_key := ev_idempotency_key row'; ea_created_at := now;
        ea_extra_payload := []; ea_execution_result := None |} l' row' ∧
      is_execution_lease_event (ev_event_type row') = true ∧ _latest_event l' (wi_work_item_id row) = Some row') ∧
    ∀ id, id ≠ wi_work_item_id row → state l' id = state l id.
Proof.
  unfold claim_execution_from. intros Hc Hmatch.
  apply bind_Ok_inv in Hc as ([] & _ & Hc). apply bind_Ok_inv in Hc as ([] & Hsecs%raise_if_Ok_inv & Hc).
  apply bind_Ok_inv in Hc as (nb' & (_ & ->)%aware_time & Hc). destruct (first_item _ snap) as [row|] eqn:Ef; [|done].
  apply bind_Ok_inv in Hc as (e & He%found_Ok & Hc). apply bind_Ok_inv in Hc as (rrow & Hr%found_Ok & Hc).
  apply bind_Ok_inv in Hc as (plan & Hp & Hc). apply bind_Ok_inv in Hc as (receipt & Hrec & Hc).
  destruct (ev_receipt_id e) as [r|] eqn:Er; [|done]. cbn in Hr.
  apply bind_Ok_inv in Hc as (e' & [He' _]%fresh_receipt & Hc).
  apply bind_Ok_inv in Hc as (xid & Hx & Hc). apply bind_Ok_inv in Hc as (token & Ht & Hc). apply bind_Ok_inv in Hc as (l1 & Ha & Hc).
  apply bind_Ok_inv in Hc as (lease' & Hv & [= <- <-]).
  destruct (plan_from_row_inv _ _ Hp) as (_ & Hid & _). destruct (receipt_from_row_inv _ _ Hrec) as (-> & Hrid & _).
  assert (r = rc_receipt_id (rr_payload rrow)) as -> by (rewrite Hrid; by apply get_receipt_Some in Hr as []).
  destruct (latest_event_spec _ _ _ He) as (Hin & Hwork & _). destruct (Hmatch _ _ _ Hin Er Hr) as (Hatt & _ & Hatt' & _).
  eapply append_latest in Ha as (ev & Hev & Hl); [|by rewrite Hid|done]. rewrite Hid in *.
  unfold validate_ResearchWorkExecutionLeaseV1 in Hv. inv_ok. rewrite Hatt', Hatt in *. pose proof Hev as Hev'. destruct Hev. subst l1.
  exists row, e, plan, rrow. cbn [xl_execution_id xl_receipt_id xl_receipt_hash xl_work_item_id xl_work_kind xl_consumer_id xl_execution_token].
  do 6 (split; [done|]). split; [lia|]. do 4 (split; [done|]). specialize (Hl (wi_work_item_id row)) as Hl1. rewrite String.eqb_refl in Hl1.
  split.
  { unfold state. rewrite Hl1. cbn. unfold state_of. rewrite ap_type0, ap_attempt0, ap_owner0, ap_token0, ap_expires0, ap_receipt0. cbn.
    by destruct (is_execution_lease_event (ev_event_type e')). }
  split.
  - exists ev. split; [|split; [rewrite ap_type0; cbn; by destruct (is_execution_lease_event (ev_event_type e'))|done]].
    eapply appended_ext; [exact Hev'|..]; first [done|exact ap_sequence0|exact ap_type0|exact ap_key0].
  - intros id Hne. unfold state. rewrite Hl. by destruct (String.eqb_spec (wi_work_item_id row) id); [subst|].
Qed.

Lemma claim_execution_None snap l now consumer secs nb l' : claim_execution_from snap l now consumer secs nb = Ok (l', None) → l' = l.
Proof.
  unfold claim_execution_from. intros Hc. apply bind_Ok_inv in Hc as ([] & _ & Hc).
  apply bind_Ok_inv in Hc as ([] & _ & Hc). apply bind_Ok_inv in Hc as (nb' & _ & Hc). destruct (first_item _ snap) as [row|]; [|by injection Hc as <-].
  apply bind_Ok_inv in Hc as (e & _ & Hc). apply bind_Ok_inv in Hc as (rrow & _ & Hc). apply bind_Ok_inv in Hc as (plan & _ & Hc).
  apply bind_Ok_inv in Hc as (receipt & _ & Hc). apply bind_Ok_inv in Hc as (e' & _ & Hc). apply bind_Ok_inv in Hc as (xid & _ & Hc).
  apply bind_Ok_inv in Hc as (token & _ & Hc). apply bind_Ok_inv in Hc as (l1 & _ & Hc). by apply bind_Ok_inv in Hc as (? & _ & [=]).
Qed.

Lemma renew_inv l now lease secs l' lease' :
  renew_execution_lease l now lease secs = Ok (l', lease') →
  lease' = with_lease_expires_at (after_seconds now secs) lease ∧ 0 < secs ∧
  ∃ t, instant now < t ∧
     state l (xl_work_item_id lease) = Some (Executing (xl_dispatch_attempt_number lease) (Some (xl_receipt_id lease))
               (Some (xl_consumer_id lease), Some (xl_execution_token lease)) (Some t)) ∧
     items l' = items l ∧ receipts l' = receipts l ∧
     state l' (xl_work_item_id lease) = Some (Executing (xl_dispatch_attempt_number lease) (Some (xl_receipt_id lease))
               (Some (xl_consumer_id lease), Some (xl_execution_token lease)) (Some (instant now + secs * 1000000))) ∧
     ∀ id, id ≠ xl_work_item_id lease → state l' id = state l id.
Proof.
  unfold renew_execution_lease. intros Hc. apply bind_Ok_inv in Hc as ([] & Hs%raise_if_Ok_inv & Hc).
  apply bind_Ok_inv in Hc as ([[[rrow work] plan] receipt] & Hrows%execution_rows_inv & Hc).
  destruct Hrows as (_ & _ & _ & _ & Hpid & _ & _ & Hrid & Hatt). apply bind_Ok_inv in Hc as (e & He & Hc).
  apply bind_Ok_inv in Hc as (l1 & Ha & [= <- <-]). destruct (require_active_execution_lease_inv _ _ _ _ He) as (Hlast & t & Ht & Hst).
  eapply state_append in Ha as (ev & Hev & Hs' & Hframe); [|rewrite Hpid; exact Hlast|done]. rewrite Hpid in *. destruct Hev. subst l1.
  split; [done|]. split; [lia|]. exists t. do 4 (split; [done|]). split; [|exact Hframe].
  rewrite Hs'. unfold state_of. rewrite ap_type0, ap_attempt0, ap_owner0, ap_token0, ap_expires0, ap_receipt0. cbn. by rewrite Hrid, Hatt.
Qed.

Lemma record_inv snap l now lease ok reason max result l' b :
  record_execution_outcome_from snap l now lease ok reason max result = Ok (l', b) → receipts_match l →
  (l' = l ∧ b = false) ∨
  (b = true ∧ 0 < max ∧ ok = negb (is_None_b result) ∧
   (∀ r, result = Some r → _require_unused_invocation_contexts snap r = Ok ()) ∧
   ∃ t row plan, instant now < t ∧
     state l (xl_work_item_id lease) = Some (Executing (xl_dispatch_attempt_number lease) (Some (xl_receipt_id lease))
               (Some (xl_consumer_id lease), Some (xl_execution_token lease)) (Some t)) ∧
     appended l plan {|
        ea_sequence := ev_sequence row; ea_event_type := if ok then SUCCEEDED else FAILED;
        ea_attempt_number := xl_dispatch_attempt_number lease; ea_retryable := negb ok && (xl_dispatch_attempt_number lease <? max);
        ea_lease_owner := Some (xl_consumer_id lease); ea_lease_token := Some (xl_execution_token lease);
        ea_lease_expires_at := Some (xl_lease_expires_at lease); ea_receipt_id := Some (xl_receipt_id lease);
        ea_idempotency_key := ev_idempotency_key row; ea_created_at := now; ea_extra_payload := []; ea_execution_result := result |} l' row ∧
     pl_work_item_id plan = xl_work_item_id lease ∧
     state l' (xl_work_item_id lease) = Some (if ok then Succeeded else if xl_dispatch_attempt_number lease <? max
                                              then Pending (xl_dispatch_attempt_number lease) else Dead) ∧
     ∀ id, id ≠ xl_work_item_id lease → state l' id = state l id).
Proof.
  unfold record_execution_outcome_from. intros Hc Hmatch. apply bind_Ok_inv in Hc as ([] & Hmax%raise_if_Ok_inv & Hc).
  apply bind_Ok_inv in Hc as ([] & Hok%raise_if_Ok_inv & Hc).
  apply bind_Ok_inv in Hc as ([[[rrow work] plan] receipt] & Hrows%execution_rows_inv & Hc).
  destruct Hrows as (Hget & _ & _ & Hrec & Hpid & _ & _ & Hrid & Hatt).
  apply bind_Ok_inv in Hc as ([] & _ & Hc). apply bind_Ok_inv in Hc as (e0 & _ & Hc).
  destruct (event_with_key l _) as [existing|]; [left|right].
  { apply bind_Ok_inv in Hc as ([] & _ & [= <- <-]). done. }
  apply bind_Ok_inv in Hc as (e & He & Hc). apply bind_Ok_inv in Hc as ([] & Hunused & Hc).
  apply bind_Ok_inv in Hc as (l1 & Ha & [= <- <-]). destruct (require_active_execution_lease_inv _ _ _ _ He) as (Hlast & t & Ht & Hst).
  destruct (latest_event_spec _ _ _ Hlast) as (Hin & Hwork & _).
  assert (rr_attempt_number rrow = xl_dispatch_attempt_number lease) as Eatt.
  { destruct (receipt_from_row_inv _ _ Hrec) as (E & _). unfold state in Hst. rewrite Hlast in Hst. cbn in Hst. injection Hst as Hst.
    assert (ev_receipt_id e = Some (xl_receipt_id lease)) as Er.
    { unfold state_of in Hst. destruct (ev_event_type e); try discriminate Hst; [..|by destruct (ev_retryable e)]; congruence. }
    destruct (Hmatch _ _ _ Hin Er Hget) as (_ & _ & E' & _). congruence. }
  eapply state_append in Ha as (ev & Hev & Hs' & Hframe); [|rewrite Hpid; exact Hlast|done]. rewrite Hpid, Eatt in *.
  split; [done|]. split; [lia|]. apply negb_false_iff, eqb_prop in Hok. split; [done|].
  split; [by intros r ->|]. exists t, ev, plan. do 2 (split; [done|]). split.
  { pose proof Hev as Hev'. destruct Hev'. eapply appended_ext; [exact Hev|..]; first [done|exact ap_sequence0|exact ap_key0]. }
  split; [done|]. split; [|exact Hframe]. destruct Hev. rewrite Hs'. unfold state_of. rewrite ap_type0, ap_attempt0, ap_retryable0. cbn.
  destruct ok; [done|]. cbn. by destruct (_ <? _).
Qed.

(** *** The tables are append-only *)

(** Every row of [l] is still in [l'], before the new ones. *)
Record grows (l l' : ledger) : Prop := {
  gr_items : items l `prefix_of` items l';
  gr_events : events l `prefix_of` events l';
  gr_receipts : receipts l `prefix_of` receipts l';
}.

#[export] Instance grows_preorder : PreOrder grows.
Proof. split; [by split|]. intros l1 l2 l3 [] []. split; by etrans. Qed.

Lemma grows_receipt l l' r row : grows l l' → get_receipt l r = Some row → get_receipt l' r = Some row.
Proof. intros [_ _ [rs E]] Hg. unfold get_receipt. rewrite E. by apply find_app_Some. Qed.

Lemma grows_add_item l row l' : add_item l row = Ok l' → grows l l'.
Proof.
  unfold add_item. intros Ha. repeat (apply bind_Ok_inv in Ha as ([] & _ & Ha)). injection Ha as <-.
  split; cbn; [by apply prefix_app_r|done|done].
Qed.

Lemma grows_append l plan a l' : _append_event l plan a = Ok l' → grows l l'.
Proof. intros (row & [])%append_event_inv. subst l'. split; cbn; [done|by apply prefix_app_r|done]. Qed.

Lemma grows_add_receipt l row l' : add_receipt l row = Ok l' → grows l l'.
Proof.
  unfold add_receipt. intros Ha. repeat (apply bind_Ok_inv in Ha as ([] & _ & Ha)). injection Ha as <-.
  split; cbn; [done|done|by apply prefix_app_r].
Qed.

Lemma store_plan_inv l t plan l' :
  store_plan l t plan = Ok (l', true) → (∀ e, e ∈ events l → has_item l (ev_work_item_id e) = true) →
  get_item l (pl_work_item_id plan) = None ∧ state l (pl_work_item_id plan) = None ∧
  state l' (pl_work_item_id plan) = Some (Pending 0) ∧ ∀ id, id ≠ pl_work_item_id plan → state l' id = state l id.
Proof.
  unfold store_plan. destruct (get_item l _) as [row|] eqn:Eg; intros Hc Hfk.
  { by apply bind_Ok_inv in Hc as ([] & _ & [=]). }
  apply bind_Ok_inv in Hc as (l1 & H1 & Hc). apply bind_Ok_inv in Hc as (l2 & H2 & [= <-]).
  unfold add_item in H1. apply bind_Ok_inv in H1 as ([] & Hno%integrity_Ok & H1). repeat (apply bind_Ok_inv in H1 as ([] & _ & H1)).
  injection H1 as <-. apply append_event_inv in H2 as (row & Hrow). destruct Hrow. cbn in *.
  assert (_latest_event l (pl_work_item_id plan) = None) as Hnone.
  { apply latest_event_None. intros e He Hid. specialize (Hfk e He). rewrite Hid in Hfk. congruence. }
  assert (∀ id, _latest_event l2 id = if String.eqb (ev_work_item_id row) id then Some row else _latest_event l id) as Hl.
  { intros id. apply latest_event_snoc; [by subst l2|]. rewrite ap_work0. intros e He. congruence. }
  split; [done|]. unfold state. split; [by rewrite Hnone|]. rewrite ap_work0 in Hl. split.
  - rewrite Hl, String.eqb_refl. cbn. unfold state_of. by rewrite ap_type0, ap_attempt0.
  - intros id Hne. rewrite Hl. by destruct (String.eqb_spec (pl_work_item_id plan) id); [subst|].
Qed.

(** ** Well-formed ledgers *)

(** The receipt [r] is that of attempt [n] of [work]. *)
Definition receipt_for (l : ledger) (r : string) (n : Z) (work : string) : Prop :=
  ∃ row, get_receipt l r = Some row ∧ rr_attempt_number row = n ∧ rr_work_item_id row = work.

(** The receipt was built for the plan. *)
Definition built_for (plan : ResearchSchedulePlanV1) (r : ResearchWorkDispatchReceiptV1) : Prop :=
  rc_work_kind r = pl_work_kind plan ∧ rc_dispatch_target r = dispatch_target_for (pl_work_kind plan) ∧
  schedule_plan_payload_hash plan = Ok (rc_work_payload_hash r) ∧ rc_config_manifest_hash r = pl_config_manifest_hash plan.

Record ledger_ok (l : ledger) : Prop := {
  lo_item : ∀ e, e ∈ events l → has_item l (ev_work_item_id e) = true;
  lo_receipt : ∀ e r, e ∈ events l → ev_receipt_id e = Some r → receipt_for l r (ev_attempt_number e) (ev_work_item_id e);
  lo_rows : ∀ row, row ∈ receipts l →
    rc_attempt_number (rr_payload row) = rr_attempt_number row ∧ rc_work_item_id (rr_payload row) = rr_work_item_id row;
  lo_unique : NoDup (map wi_work_item_id (items l));
  lo_built : ∀ row, row ∈ receipts l → ∃ item, get_item l (rr_work_item_id row) = Some item ∧ built_for (wi_payload item) (rr_payload row);
}.

Lemma ledger_ok_empty : ledger_ok empty_ledger.
Proof. split; [..|constructor|]; intros; by match goal with E : _ ∈ _ |- _ => apply not_elem_of_nil in E end. Qed.

Lemma ledger_ok_match l : ledger_ok l → receipts_match l.
Proof.
  intros [_ Hr Hrows _ _] e r row He Er Hg. destruct (Hr e r He Er) as (row' & Hg' & Ha & Hw). rewrite Hg in Hg'. injection Hg' as <-.
  apply get_receipt_Some in Hg as [Hin _]. destruct (Hrows _ Hin) as [? ?]. done.
Qed.

Lemma find_new {A} (f : A → bool) l x : List.find f l = None → f x = true → List.find f (l ++ [x]) = Some x.
Proof. intros Hn Hx. by rewrite find_snoc, Hn, Hx. Qed.

Lemma succeeded_results_snoc ss its es rs row :
  succeeded_results {| sessions := ss; items := its; events := es ++ [row]; receipts := rs |}
  = succeeded_results {| sessions := ss; items := its; events := es; receipts := rs |}
    ++ (if bool_decide (ev_event_type row = SUCCEEDED) then option_list (ev_execution_result row) else []).
Proof.
  unfold succeeded_results. cbn. rewrite List.filter_app. cbn. rewrite omap_app. f_equal.
  destruct (bool_decide _); [|done]. cbn. by destruct (ev_execution_result row).
Qed.

Lemma ok_append l plan a l' :
  ledger_ok l → _append_event l plan a = Ok l' →
  (∀ r, ea_receipt_id a = Some r → receipt_for l r (ea_attempt_number a) (pl_work_item_id plan)) → ledger_ok l'.
Proof.
  intros [H1 H2 H3 H4 H5] (row & [])%append_event_inv Hr. subst l'. split; [..|done|done]; cbn.
  - intros e [He|Ee%list_elem_of_singleton]%elem_of_app; [by apply H1|]. subst e. by rewrite ap_work0.
  - intros e r [He|Ee%list_elem_of_singleton]%elem_of_app Er; [by apply H2|]. subst e. rewrite ap_attempt0, ap_work0.
    apply Hr. congruence.
  - done.
Qed.

Lemma ok_add_item l row l' : ledger_ok l → add_item l row = Ok l' → ledger_ok l'.
Proof.
  intros [H1 H2 H3 H4 H5] Ha. unfold add_item in Ha. apply bind_Ok_inv in Ha as ([] & Hno%integrity_Ok & Ha).
  repeat (apply bind_Ok_inv in Ha as ([] & _ & Ha)). injection Ha as <-. split; cbn; [|done|done| |].
  - intros e He. specialize (H1 e He). unfold has_item in *. cbn. by rewrite existsb_app, H1.
  - rewrite map_app. apply NoDup_app. split; [done|]. split; [|apply NoDup_singleton]. cbn.
    intros id (i & -> & Hi)%list_elem_of_fmap Hin%list_elem_of_singleton. unfold has_item in Hno. rewrite existsb_false in Hno.
    specialize (Hno i Hi). rewrite Hin, String.eqb_refl in Hno. done.
  - intros r Hr. destruct (H5 r Hr) as (item & Hg & Hb). exists item. split; [by apply find_app_Some|done].
Qed.

Lemma ok_add_receipt l row l' :
  ledger_ok l → add_receipt l row = Ok l' →
  rc_attempt_number (rr_payload row) = rr_attempt_number row → rc_work_item_id (rr_payload row) = rr_work_item_id row →
  (∃ item, get_item l (rr_work_item_id row) = Some item ∧ built_for (wi_payload item) (rr_payload row)) →
  ledger_ok l' ∧ receipt_for l' (rr_receipt_id row) (rr_attempt_number row) (rr_work_item_id row).
Proof.
  intros [H1 H2 H3 H4 H5] Ha E1 E2 Hbuilt. unfold add_receipt in Ha. apply bind_Ok_inv in Ha as ([] & Hno%integrity_Ok & Ha).
  repeat (apply bind_Ok_inv in Ha as ([] & _ & Ha)). injection Ha as <-. split; [split|]; cbn.
  - done.
  - intros e r He Er. destruct (H2 e r He Er) as (row' & Hg & ? & ?). exists row'. split; [by apply find_app_Some|done].
  - intros row' [?|Er%list_elem_of_singleton]%elem_of_app; [by apply H3|by subst].
  - done.
  - intros row' [?|Er%list_elem_of_singleton]%elem_of_app; [by apply H5|by subst].
  - exists row. split; [|done]. unfold get_receipt. cbn. unfold has_receipt in Hno. rewrite existsb_false in Hno.
    revert Hno. generalize (receipts l). intros rs Hno. induction rs as [|x rs IH]; cbn; [by rewrite String.eqb_refl|].
    rewrite (Hno x); [|left]. apply IH. intros y Hy. apply Hno. by right.
Qed.

Lemma ok_store l t plan l' b : ledger_ok l → store_plan l t plan = Ok (l', b) → ledger_ok l'.
Proof.
  intros Hok Hc. unfold store_plan in Hc. destruct (get_item l _).
  { by apply bind_Ok_inv in Hc as ([] & _ & [= <- <-]). }
  apply bind_Ok_inv in Hc as (l1 & H1 & Hc). apply bind_Ok_inv in Hc as (l2 & H2 & [= <- <-]).
  eapply ok_append; [by eapply ok_add_item|exact H2|done].
Qed.

Lemma ok_claim_once snap l now owner secs max l' o : ledger_ok l → claim_once snap l now owner secs max = Ok (l', o) → ledger_ok l'.
Proof.
  intros Hok Hc. unfold claim_once in Hc. destruct (first_item _ snap); [|by injection Hc as <- <-].
  apply bind_Ok_inv in Hc as (e & _ & Hc). apply bind_Ok_inv in Hc as (plan & _ & Hc). apply bind_Ok_inv in Hc as (e' & _ & Hc).
  destruct (_ <? _).
  - apply bind_Ok_inv in Hc as (l1 & Ha & [= <- <-]). by eapply ok_append.
  - apply bind_Ok_inv in Hc as (token & _ & Hc). apply bind_Ok_inv in Hc as (l1 & Ha & Hc). apply bind_Ok_inv in Hc as (? & _ & [= <- <-]).
    by eapply ok_append.
Qed.

Lemma ok_commit l now lease l' r : ledger_ok l → commit_dispatch l now lease = Ok (l', r) → ledger_ok l'.
Proof.
  intros Hok Hc. unfold commit_dispatch in Hc. destruct (receipt_of_attempt l _ _).
  { apply bind_Ok_inv in Hc as (? & _ & Hc). by apply bind_Ok_inv in Hc as ([] & _ & [= <- <-]). }
  apply bind_Ok_inv in Hc as (row & Hg%found_Ok & Hc). apply bind_Ok_inv in Hc as (plan & (Epl & _)%plan_from_row_inv & Hc).
  apply bind_Ok_inv in Hc as (e & _ & Hc). apply bind_Ok_inv in Hc as (r' & Hr%build_dispatch_receipt_inv & Hc).
  destruct Hr as (Epid & _ & _ & Ew & Ek & En & _ & Et & Eph & Ec).
  apply bind_Ok_inv in Hc as (l1 & H1 & Hc). apply bind_Ok_inv in Hc as (l2 & H2 & [= <- <-]).
  apply ok_add_receipt in H1 as [Hok1 Hrf]; [|done..|exists row; cbn; rewrite Ew, Epid, <- Epl; done]. cbn in Hrf. eapply ok_append; [exact Hok1|exact H2|]. intros r [= <-]. cbn. congruence.
Qed.

Lemma ok_fail l now lease reason max l' b : ledger_ok l → fail_dispatch l now lease reason max = Ok (l', b) → ledger_ok l'.
Proof.
  intros Hok Hc. unfold fail_dispatch in Hc. destruct (event_with_key l _); [by injection Hc as <- <-|].
  apply bind_Ok_inv in Hc as (row & _ & Hc). apply bind_Ok_inv in Hc as (e & _ & Hc). apply bind_Ok_inv in Hc as (plan & _ & Hc).
  apply bind_Ok_inv in Hc as (l1 & Ha & [= <- <-]). by eapply ok_append.
Qed.

Lemma execution_rows_receipt l lease f rrow work plan receipt :
  ledger_ok l → execution_rows l lease f = Ok (rrow, work, plan, receipt) →
  receipt_for l (xl_receipt_id lease) (xl_dispatch_attempt_number lease) (pl_work_item_id plan) ∧
  rr_attempt_number rrow = xl_dispatch_attempt_number lease ∧ rc_receipt_id receipt = xl_receipt_id lease ∧
  rc_attempt_number receipt = xl_dispatch_attempt_number lease.
Proof.
  intros Hok (Hg & _ & _ & Hr & Hpid & _ & Hrw & Hrid & Hratt)%execution_rows_inv. destruct (receipt_from_row_inv _ _ Hr) as (-> & _).
  destruct (lo_rows _ Hok rrow) as [E1 E2]; [by apply get_receipt_Some in Hg as []|]. split; [|by split; [congruence|]].
  exists rrow. split; [done|]. split; congruence.
Qed.

(** A claim grants the receipt that the current ledger holds, whatever ledger its selection read. *)
Lemma ok_claim_execution snap l now consumer secs nb l' o :
  grows snap l → ledger_ok l → claim_execution_from snap l now consumer secs nb = Ok (l', o) → ledger_ok l'.
Proof.
  intros Hgrows Hok Hc. unfold claim_execution_from in Hc. apply bind_Ok_inv in Hc as ([] & _ & Hc).
  apply bind_Ok_inv in Hc as ([] & _ & Hc). apply bind_Ok_inv in Hc as (nb' & _ & Hc). destruct (first_item _ snap) as [row|]; [|by injection Hc as <- <-].
  apply bind_Ok_inv in Hc as (e & _ & Hc). apply bind_Ok_inv in Hc as (rrow & Hr%found_Ok & Hc).
  apply bind_Ok_inv in Hc as (plan & (_ & Hid & _)%plan_from_row_inv & Hc). apply bind_Ok_inv in Hc as (receipt & Hrec & Hc).
  apply bind_Ok_inv in Hc as (e' & [He' Er]%fresh_receipt & Hc).
  apply bind_Ok_inv in Hc as (xid & Hx & Hc). apply bind_Ok_inv in Hc as (token & Ht & Hc). apply bind_Ok_inv in Hc as (l1 & Ha & Hc).
  apply bind_Ok_inv in Hc as (lease' & Hv & [= <- <-]). eapply ok_append; [exact Hok|exact Ha|]. intros r [= <-]. cbn.
  destruct (receipt_from_row_inv _ _ Hrec) as (-> & Hrid & _). destruct (ev_receipt_id e) as [r|]; [|done]. cbn in Hr.
  apply (grows_receipt _ _ _ _ Hgrows) in Hr as Hg. apply get_receipt_Some in Hg as Hg'. destruct Hg' as [Hin Hrr].
  destruct (lo_rows _ Hok _ Hin) as [E1 _]. destruct (latest_event_spec _ _ _ He') as (Hin' & Hw & _).
  destruct (lo_receipt _ Hok _ _ Hin' Er) as (row' & Hg' & _ & Ew). rewrite Hrid, Hrr, Hg in Hg'. injection Hg' as <-.
  rewrite E1, Hrid, Hrr. exists rrow. by rewrite Hid, <- Hw.
Qed.

Lemma ok_renew l now lease secs l' x : ledger_ok l → renew_execution_lease l now lease secs = Ok (l', x) → ledger_ok l'.
Proof.
  intros Hok Hc. unfold renew_execution_lease in Hc. apply bind_Ok_inv in Hc as ([] & _ & Hc).
  apply bind_Ok_inv in Hc as ([[[rrow work] plan] receipt] & Hrows & Hc). destruct (execution_rows_receipt _ _ _ _ _ _ _ Hok Hrows) as (Hrf & _ & Hrid & Hatt).
  apply bind_Ok_inv in Hc as (e & _ & Hc). apply bind_Ok_inv in Hc as (l1 & Ha & [= <- <-]).
  eapply ok_append; [exact Hok|exact Ha|]. intros r [= <-]. cbn. congruence.
Qed.

(** The check passes only on contexts no stored result has. *)
Lemma unused_contexts l r : _require_unused_invocation_contexts l r = Ok () → ∀ c, c ∈ contexts r → c ∉ concat (map contexts (succeeded_results l)).
Proof.
  unfold _require_unused_invocation_contexts. destruct (contexts r) as [|c0 cs] eqn:Ec; [intros _ c Hc; by apply not_elem_of_nil in Hc|].
  cbn [is_nil]. rewrite <- Ec. intros Hc. apply bind_Ok_inv in Hc as (used & Hu & Hno%raise_if_Ok_inv).
  assert (∀ u0 rs, foldM (λ used stored, match validate_ResearchWorkExecutionResultV1 stored with
      | Ok existing => Ok (used ++ contexts existing)
      | Raise _ => raise ResearchSchedulerPersistenceError "stored research execution result is invalid" end) u0 rs = Ok used →
      used = u0 ++ concat (map contexts rs)) as Hfold.
  { intros u0 rs. revert u0. induction rs as [|x rs IH]; intros u0 Hf; cbn in Hf; [injection Hf as <-; by rewrite app_nil_r|].
    destruct (validate_ResearchWorkExecutionResultV1 x) as [x'|] eqn:Ev; [|done]. apply validate_ResearchWorkExecutionResultV1_id in Ev as ->.
    apply IH in Hf as ->. cbn. by rewrite <- app_assoc. }
  apply Hfold in Hu as ->. cbn in *. intros c Hc Hin. rewrite existsb_false in Hno. specialize (Hno c Hc). rewrite existsb_false in Hno.
  specialize (Hno c Hin). by rewrite String.eqb_refl in Hno.
Qed.

Lemma ok_record snap l now lease ok reason max result l' b :
  ledger_ok l → record_execution_outcome_from snap l now lease ok reason max result = Ok (l', b) → ledger_ok l'.
Proof.
  intros Hok Hc. unfold record_execution_outcome_from in Hc. apply bind_Ok_inv in Hc as ([] & _ & Hc). apply bind_Ok_inv in Hc as ([] & _ & Hc).
  apply bind_Ok_inv in Hc as ([[[rrow work] plan] receipt] & Hrows & Hc). destruct (execution_rows_receipt _ _ _ _ _ _ _ Hok Hrows) as (Hrf & Hatt & _).
  apply bind_Ok_inv in Hc as ([] & _ & Hc). apply bind_Ok_inv in Hc as (e0 & _ & Hc).
  destruct (event_with_key l _); [by apply bind_Ok_inv in Hc as ([] & _ & [= <- <-])|].
  apply bind_Ok_inv in Hc as (e & _ & Hc). apply bind_Ok_inv in Hc as ([] & _ & Hc). apply bind_Ok_inv in Hc as (l1 & Ha & [= <- <-]).
  eapply ok_append; [exact Hok|exact Ha|intros r [= <-]; cbn; congruence].
Qed.

(** The results that an append leaves: with a SUCCEEDED event, one more. *)
Lemma append_results l plan a l' row :
  appended l plan a l' row → succeeded_results l'
    = succeeded_results l ++ (if bool_decide (ea_event_type a = SUCCEEDED) then option_list (ea_execution_result a) else []).
Proof. intros []. subst l'. by rewrite succeeded_results_snoc, ap_type0, ap_result0. Qed.

(** A result whose contexts are unused keeps all contexts distinct. *)
Lemma contexts_append l l' plan a row :
  appended l plan a l' row → NoDup (concat (map contexts (succeeded_results l))) →
  (∀ r, ea_execution_result a = Some r → NoDup (contexts r) ∧ ∀ c, c ∈ contexts r → c ∉ concat (map contexts (succeeded_results l))) →
  NoDup (concat (map contexts (succeeded_results l'))).
Proof.
  intros Ha Hnd Hctx. rewrite (append_results _ _ _ _ _ Ha). destruct (bool_decide _); [|by rewrite app_nil_r].
  destruct (ea_execution_result a) as [r|]; cbn; [|by rewrite app_nil_r]. destruct (Hctx r eq_refl) as [Hr Hfresh].
  rewrite map_app, concat_app. cbn. rewrite app_nil_r. apply NoDup_app. split; [done|]. split; [|done]. intros c Hc Hin. by apply (Hfresh c).
Qed.
End facts.

(** ** Runs *)

Section runs.
Context `{Digest} `{JsonDatetime}.

(** A transaction with its arguments; the instant is the database clock's (the caller's, for a plan).  [StoreSession] stands for the
    market data store, which writes the calendar sessions that the work items refer to. *)
Inductive command :=
  | StoreSession (now : datetime) (session_id : string)
  | Store (now : datetime) (plan : ResearchSchedulePlanV1)
  | ClaimWork (now : datetime) (owner : string) (lease_seconds maximum_attempts : Z)
  | CommitDispatch (now : datetime) (lease : ResearchWorkLeaseV1)
  | FailDispatch (now : datetime) (lease : ResearchWorkLeaseV1) (reason : string) (maximum_attempts : Z)
  | ClaimExecution (now : datetime) (consumer : string) (lease_seconds : Z) (work_not_before : datetime)
  | RenewExecution (now : datetime) (lease : ResearchWorkExecutionLeaseV1) (lease_seconds : Z)
  | RecordOutcome (now : datetime) (lease : ResearchWorkExecutionLeaseV1) (succeeded : bool) (reason : option string)
      (maximum_attempts : Z) (result : option ResearchWorkExecutionResultV1).

Definition command_time (c : command) : datetime :=
  match c with
  | StoreSession t _ | Store t _ | ClaimWork t _ _ _ | CommitDispatch t _ | FailDispatch t _ _ _ | ClaimExecution t _ _ _
  | RenewExecution t _ _ | RecordOutcome t _ _ _ _ _ => t
  end.

(** A transaction commits, or raises and is rolled back.  A result is a constructed contract: an invalid one raises before. *)
Definition committed {A} (l : ledger) (r : res (ledger * A)) : ledger := match r with Ok (l', _) => l' | Raise _ => l end.

Definition with_session (id : string) (l : ledger) : ledger :=
  {| sessions := sessions l ++ [id]; items := items l; events := events l; receipts := receipts l |}.

(** A transaction commits on the ledger [l].  The selections of the two claims, and the check of an outcome against the results of all
    items, read [snap], the ledger as it was when the statement began: other transactions may have committed in between (READ
    COMMITTED), and locking the item's row does not test it again.  The other reads concern the locked item or the inserted key: a stale
    one ends in the same ledger, because the insertion violates a unique key. *)
Definition run_on (snap l : ledger) (c : command) : ledger :=
  match c with
  | StoreSession _ id => with_session id l
  | Store t plan => committed l (store_plan l t plan)
  | ClaimWork t owner secs max => committed l (claim_once snap l t owner secs max)
  | CommitDispatch t lease => committed l (commit_dispatch l t lease)
  | FailDispatch t lease reason max => committed l (fail_dispatch l t lease reason max)
  | ClaimExecution t consumer secs nb => committed l (claim_execution_from snap l t consumer secs nb)
  | RenewExecution t lease secs => committed l (renew_execution_lease l t lease secs)
  | RecordOutcome t lease ok reason max result =>
      match result with
      | Some r => if is_ok (validate_ResearchWorkExecutionResultV1 r)
                  then committed l (record_execution_outcome_from snap l t lease ok reason max result) else l
      | None => committed l (record_execution_outcome_from snap l t lease ok reason max None)
      end
  end.

(** The ledger on which the step of a transaction is decided. *)
Definition seen (snap l : ledger) (c : command) : ledger :=
  match c with ClaimWork _ _ _ _ | ClaimExecution _ _ _ _ => snap | _ => l end.

(** A transaction that runs alone. *)
Definition run_command (l : ledger) : command → ledger := run_on l l.

Definition run_commands (l : ledger) (cmds : list command) : ledger := fold_left run_command cmds l.

(** Concurrent transactions: the committed ledgers, newest first.  A transaction comes with its lag, the number of transactions that
    commit after its selection, or its check of the recorded results, has read. *)
Definition snapshot (h : list ledger) (lag : nat) : ledger := List.nth lag h empty_ledger.

Definition commit_transaction (h : list ledger) (tx : nat * command) : list ledger :=
  run_on (snapshot h tx.1) (snapshot h 0) tx.2 :: h.

Definition run_history (txs : list (nat * command)) : list ledger := fold_left commit_transaction txs [empty_ledger].

(** Without lag, a history is a serial run. *)
Lemma serial_history cmds : snapshot (run_history (map (pair 0%nat) cmds)) 0 = run_commands empty_ledger cmds.
Proof.
  unfold run_history, run_commands. change empty_ledger with (snapshot [empty_ledger] 0) at 2. generalize [empty_ledger].
  induction cmds as [|c cmds IH]; intros h; [done|]. cbn [map fold_left]. by rewrite IH.
Qed.

(** [store_plans] and [claim_next] are runs of these transactions. *)
Lemma store_plans_run l plans t : ∃ cmds, (store_plans l plans t).1 = run_commands l cmds.
Proof.
  unfold store_plans. destruct (require_aware_utc t) as [t'|e]; [|by exists []]. cut (∀ n, ∃ cmds, (store_loop l t' plans n).1 = run_commands l cmds); [auto|].
  revert l. induction plans as [|p plans IH]; intros l n; cbn; [by exists []|].
  destruct (store_plan l t' p) as [[l' b]|e] eqn:Es; [|by exists []]. destruct (IH l' (n + if b then 1 else 0)) as [cmds Hc].
  exists (Store t' p :: cmds). rewrite Hc. cbn. by rewrite Es.
Qed.

Lemma claim_next_run fuel clock l owner secs max l' r :
  claim_next fuel clock l owner secs max = Some (l', r) → ∃ cmds, l' = run_commands l cmds.
Proof.
  unfold claim_next. destruct (str_empty owner); [intros [= <- <-]; by exists []|]. destruct (_ || _); [intros [= <- <-]; by exists []|].
  revert l. induction fuel as [|fuel IH]; intros l; cbn; [done|].
  destruct (claim_once l l (clock fuel) owner secs max) as [[l1 []]|e] eqn:Ec; intros Hc.
  - injection Hc as <- <-. exists [ClaimWork (clock fuel) owner secs max]. cbn. by rewrite Ec.
  - destruct (IH _ Hc) as [cmds ->]. exists (ClaimWork (clock fuel) owner secs max :: cmds). cbn. by rewrite Ec.
  - injection Hc as <- <-. exists [ClaimWork (clock fuel) owner secs max]. cbn. by rewrite Ec.
  - injection Hc as <- <-. by exists [].
Qed.

Lemma ok_with_session l id : ledger_ok l → ledger_ok (with_session id l).
Proof. by intros []. Qed.

Lemma record_committed (P : ledger → Prop) snap l t lease ok reason max result :
  P l → P (committed l (record_execution_outcome_from snap l t lease ok reason max result)) → P (run_on snap l (RecordOutcome t lease ok reason max result)).
Proof. intros Hl Hc. cbn. destruct result; [|done]. by destruct (is_ok _). Qed.

Lemma run_on_ok snap l c : grows snap l → ledger_ok l → ledger_ok (run_on snap l c).
Proof.
  intros Hgrows Hok. destruct c; cbn; unfold committed.
  - by apply ok_with_session.
  - destruct (store_plan _ _ _) as [[]|] eqn:E; [by eapply ok_store|done].
  - destruct (claim_once _ _ _ _ _ _) as [[]|] eqn:E; [by eapply ok_claim_once|done].
  - destruct (commit_dispatch _ _ _) as [[]|] eqn:E; [by eapply ok_commit|done].
  - destruct (fail_dispatch _ _ _ _ _) as [[]|] eqn:E; [by eapply ok_fail|done].
  - destruct (claim_execution_from _ _ _ _ _ _) as [[]|] eqn:E; [by eapply ok_claim_execution|done].
  - destruct (renew_execution_lease _ _ _ _) as [[]|] eqn:E; [by eapply ok_renew|done].
  - apply (record_committed ledger_ok snap l); [done|]. unfold committed.
    destruct (record_execution_outcome_from _ _ _ _ _ _ _ _) as [[]|] eqn:E; [by eapply ok_record|done].
Qed.

Lemma run_command_ok l c : ledger_ok l → ledger_ok (run_command l c).
Proof. by apply run_on_ok. Qed.

Lemma run_ok l cmds : ledger_ok l → ledger_ok (run_commands l cmds).
Proof. revert l. induction cmds as [|c cmds IH]; intros l Hl; [done|]. by apply IH, run_command_ok. Qed.

Lemma run_app l c1 c2 : run_commands l (c1 ++ c2) = run_commands (run_commands l c1) c2.
Proof. apply fold_left_app. Qed.

(** No transaction removes or changes a row. *)
Lemma run_on_grows snap l c : grows l (run_on snap l c).
Proof.
  assert (∀ A (r : res (ledger * A)), (∀ l' a, r = Ok (l', a) → grows l l') → grows l (committed l r)) as Hcom.
  { intros A [[l' a]|] Hr; [by eapply Hr|done]. }
  destruct c; [by split|..|apply (record_committed (grows l) snap l); [done|]]; apply Hcom; intros l' a E;
    unfold store_plan, claim_once, commit_dispatch, fail_dispatch, claim_execution_from, renew_execution_lease, record_execution_outcome_from in E.
  all: repeat lazymatch goal with
    | E : mbind _ _ = Ok _ |- _ => apply bind_Ok_inv in E as (? & ? & ?)
    | E : (match ?x with _ => _ end) = Ok _ |- _ => destruct x eqn:?
    | E : Ok _ = Ok _ |- _ => injection E as <- <-
    end; try done.
  all: repeat lazymatch goal with
    | E : _append_event _ _ _ = Ok _ |- _ => apply grows_append in E
    | E : add_item _ _ = Ok _ |- _ => apply grows_add_item in E
    | E : add_receipt _ _ = Ok _ |- _ => apply grows_add_receipt in E
    end; first [done|by etrans].
Qed.

(** *** Histories *)

(** Every committed ledger is well-formed and is a part of the newest. *)
Definition history_ok (h : list ledger) : Prop := Forall (λ l, ledger_ok l ∧ grows l (snapshot h 0)) h.

Lemma snapshot_ok h lag : history_ok h → ledger_ok (snapshot h lag) ∧ grows (snapshot h lag) (snapshot h 0).
Proof.
  intros Hh. unfold snapshot at 1 2. destruct (nth_in_or_default lag h empty_ledger) as [Hin| ->].
  - by eapply Forall_forall in Hh; [|apply list_elem_of_In].
  - split; [apply ledger_ok_empty|]. split; apply prefix_nil.
Qed.

Lemma commit_transaction_ok h tx : history_ok h → history_ok (commit_transaction h tx).
Proof.
  intros Hh. destruct tx as [lag c]. pose proof (run_on_grows (snapshot h lag) (snapshot h 0) c) as Hg. constructor.
  - split; [|done]. cbn. apply run_on_ok; [by apply snapshot_ok|by apply snapshot_ok].
  - eapply Forall_impl; [exact Hh|]. intros l [? ?]. split; [done|]. by etrans.
Qed.

Lemma run_history_ok txs : history_ok (run_history txs).
Proof.
  unfold run_history. assert (history_ok [empty_ledger]) as Hh by (constructor; [split; [apply ledger_ok_empty|done]|constructor]). revert Hh. generalize [empty_ledger].
  induction txs as [|tx txs IH]; intros h Hh; [done|]. by apply IH, commit_transaction_ok.
Qed.

(** *** Refinement, transaction by transaction *)

Lemma claim_once_stepped snap l now owner secs max l' o :
  claim_once snap l now owner secs max = Ok (l', o) → unmoved l l' ∨ ∃ id, stepped now snap l l' id.
Proof.
  intros Hc. destruct o as [| |lease].
  - apply claim_once_NothingDue in Hc as [-> _]. by left.
  - right. apply claim_once_Exhausted in Hc as (row & e & Hf & He & _ & _ & _ & _ & Hs & Hframe). exists (wi_work_item_id row). split.
    + exists Dead. split; [done|]. apply first_item_Some in Hf as (_ & Hcl & _).
      destruct (claimable_state _ _ _ _ He Hcl) as (_ & _ & [[_ Est]|(_ & h & t & Est & Ht)]); unfold state; rewrite He; cbn; rewrite Est; by constructor.
    + intros id Hne. unfold state. by rewrite Hframe.
  - right. apply claim_once_Claimed in Hc as (row & e & Hf & He & _ & _ & _ & _ & _ & _ & _ & _ & Hs & Hframe).
    exists (wi_work_item_id row). split; [|done]. eexists. split; [done|]. apply first_item_Some in Hf as (_ & Hcl & _).
    destruct (claimable_state _ _ _ _ He Hcl) as (_ & _ & [[_ Est]|(_ & h & t & Est & Ht)]); unfold state; rewrite He; cbn; rewrite Est; by constructor.
Qed.

Lemma claim_execution_stepped snap l now consumer secs nb l' o :
  ledger_ok snap → claim_execution_from snap l now consumer secs nb = Ok (l', o) → unmoved l l' ∨ ∃ id, stepped now snap l l' id.
Proof.
  intros Hok E. destruct o as [x|]; [right|apply claim_execution_None in E as ->; by left].
  destruct (claim_execution_inv _ _ _ _ _ _ _ _ E (ledger_ok_match _ Hok)) as (row & e & plan & receipt & Hfi & He & Ereq & _ & _ & _ & _ & _ & _ & _ & _ & Hs & _ & Hf).
  exists (wi_work_item_id row). split; [|done]. eexists. split; [done|]. apply first_item_Some in Hfi as (_ & Hx & _).
  destruct (executable_state _ _ _ _ _ He Hx) as (_ & r & Er & _ & Hst). unfold state. rewrite He. cbn.
  rewrite Ereq in Er. injection Er as <-. destruct Hst as [[_ ->]|(_ & h & t & -> & Ht)]; by constructor.
Qed.

Lemma run_on_stepped snap l c :
  ledger_ok snap → ledger_ok l → unmoved l (run_on snap l c) ∨ ∃ id, stepped (command_time c) (seen snap l c) l (run_on snap l c) id.
Proof.
  intros Hsnap Hok. destruct c; cbn; unfold committed.
  - by left.
  - destruct (store_plan _ _ _) as [[l' []]|] eqn:E; [right|left|by left].
    + destruct (store_plan_inv _ _ _ _ E (lo_item _ Hok)) as (_ & Hn & Hs & Hf). exists (pl_work_item_id plan). split; [|done].
      exists (Pending 0). split; [done|]. rewrite Hn. constructor.
    + unfold store_plan in E. destruct (get_item l _).
      { by apply bind_Ok_inv in E as ([] & _ & [= <-]). }
      apply bind_Ok_inv in E as (? & _ & E). by apply bind_Ok_inv in E as (? & _ & [=]).
  - destruct (claim_once _ _ _ _ _ _) as [[]|] eqn:E; [by eapply claim_once_stepped|by left].
  - destruct (commit_dispatch _ _ _) as [[]|] eqn:E; [|by left]. apply commit_dispatch_inv in E as [[-> _]|(e & t & _ & Ht & _ & Hst & _ & _ & Hs & Hf)]; [by left|].
    right. exists (wl_work_item_id lease). split; [|done]. eexists. split; [done|]. rewrite Hst. by constructor.
  - destruct (fail_dispatch _ _ _ _ _) as [[]|] eqn:E; [|by left]. apply fail_dispatch_inv in E as [[-> _]|(_ & t & Ht & Hst & _ & _ & Hs & Hf)]; [by left|].
    right. exists (wl_work_item_id lease). split; [|done]. eexists. split; [done|]. rewrite Hst. constructor; [done|]. destruct (_ <? _); auto.
  - destruct (claim_execution_from _ _ _ _ _ _) as [[]|] eqn:E; [by eapply claim_execution_stepped|by left].
  - destruct (renew_execution_lease _ _ _ _) as [[]|] eqn:E; [|by left]. apply renew_inv in E as (_ & _ & t & Ht & Hst & _ & _ & Hs & Hf).
    right. exists (xl_work_item_id lease). split; [|done]. eexists. split; [done|]. rewrite Hst. by constructor.
  - apply (record_committed (λ l', unmoved l l' ∨ ∃ id, stepped now l l l' id) snap l); [by left|]. unfold committed.
    destruct (record_execution_outcome_from _ _ _ _ _ _ _ _) as [[]|] eqn:E; [|by left].
    destruct (record_inv _ _ _ _ _ _ _ _ _ _ E (ledger_ok_match _ Hok)) as [[-> _]|(_ & _ & _ & _ & t & row & plan & Ht & Hst & _ & _ & Hs & Hf)]; [by left|].
    right. exists (xl_work_item_id lease). split; [|done]. eexists. split; [done|]. rewrite Hst. destruct succeeded; [by constructor|].
    constructor; [done|]. destruct (_ <? _); auto.
Qed.

Lemma run_command_moved l c : ledger_ok l → unmoved l (run_command l c) ∨ ∃ id, moved (command_time c) l (run_command l c) id.
Proof. intros Hok. destruct (run_on_stepped l l c Hok Hok) as [?|Hs]; [by left|]. right. by destruct c. Qed.

(** *** Model contexts in a serial run *)

Definition same_results (l l' : ledger) : Prop := succeeded_results l' = succeeded_results l.

Lemma same_results_append l plan a l' : _append_event l plan a = Ok l' → ea_execution_result a = None → same_results l l'.
Proof.
  intros (row & Ha)%append_event_inv Hr. unfold same_results. rewrite (append_results _ _ _ _ _ Ha), Hr.
  destruct (bool_decide _); apply app_nil_r.
Qed.

Lemma same_results_add_item l row l' : add_item l row = Ok l' → same_results l l'.
Proof. unfold add_item. intros Ha. repeat (apply bind_Ok_inv in Ha as ([] & _ & Ha)). by injection Ha as <-. Qed.

Lemma same_results_add_receipt l row l' : add_receipt l row = Ok l' → same_results l l'.
Proof. unfold add_receipt. intros Ha. repeat (apply bind_Ok_inv in Ha as ([] & _ & Ha)). by injection Ha as <-. Qed.

(** Only a recorded outcome adds a result. *)
Lemma results_kept snap l c :
  same_results l (run_on snap l c) ∨ ∃ t lease ok reason max result, c = RecordOutcome t lease ok reason max result.
Proof.
  assert (∀ A (r : res (ledger * A)), (∀ l' a, r = Ok (l', a) → same_results l l') → same_results l (committed l r)) as Hcom.
  { intros A [[l' a]|] Hr; [by eapply Hr|done]. }
  destruct c; [by left|..|right; by do 6 eexists]; left; apply Hcom; intros l' a E;
    unfold store_plan, claim_once, commit_dispatch, fail_dispatch, claim_execution_from, renew_execution_lease in E.
  all: repeat lazymatch goal with
    | E : mbind _ _ = Ok _ |- _ => apply bind_Ok_inv in E as (? & ? & ?)
    | E : (match ?x with _ => _ end) = Ok _ |- _ => destruct x eqn:?
    | E : Ok _ = Ok _ |- _ => injection E as <- <-
    end; try done.
  all: repeat lazymatch goal with
    | E : _append_event _ _ _ = Ok _ |- _ => apply same_results_append in E; [|done]
    | E : add_item _ _ = Ok _ |- _ => apply same_results_add_item in E
    | E : add_receipt _ _ = Ok _ |- _ => apply same_results_add_receipt in E
    end; unfold same_results in *; congruence.
Qed.

Lemma run_command_contexts l c :
  ledger_ok l → NoDup (concat (map contexts (succeeded_results l))) → NoDup (concat (map contexts (succeeded_results (run_command l c)))).
Proof.
  intros Hok Hnd. destruct (results_kept l l c) as [E|(t & lease & ok & reason & max & result & ->)].
  { unfold run_command. by rewrite E. }
  cbn. assert (∀ result', (∀ r, result' = Some r → validate_ResearchWorkExecutionResultV1 r = Ok r) →
    NoDup (concat (map contexts (succeeded_results (committed l (record_execution_outcome_from l l t lease ok reason max result')))))) as Hrec.
  { intros result' Hv. unfold committed. destruct (record_execution_outcome_from _ _ _ _ _ _ _ _) as [[l' b]|] eqn:E; [|done].
    destruct (record_inv _ _ _ _ _ _ _ _ _ _ E (ledger_ok_match _ Hok)) as [[-> _]|(_ & _ & _ & Hun & _ & row & plan & _ & _ & Ha & _)]; [done|].
    eapply contexts_append; [exact Ha|done|]. cbn. intros r ->.
    split; [by apply (wf_contexts _ (validated_result_well_formed _ _ (Hv r eq_refl)))|]. by apply unused_contexts, Hun. }
  destruct result as [r|]; [|by apply Hrec]. destruct (validate_ResearchWorkExecutionResultV1 r) as [r'|] eqn:Ev; [|done].
  pose proof (validate_ResearchWorkExecutionResultV1_id _ _ Ev) as ->. apply Hrec. by intros ? [= <-].
Qed.

(** The lease a transaction presents is the one that holds the work, and has not expired. *)
Definition presented (l : ledger) (c : command) : Prop :=
  match c with
  | CommitDispatch t lease | FailDispatch t lease _ _ => ∃ exp, instant t < exp ∧
      state l (wl_work_item_id lease)
      = Some (Leased (wl_attempt_number lease) (Some (wl_lease_owner lease), Some (wl_lease_token lease)) (Some exp))
  | RenewExecution t lease _ | RecordOutcome t lease _ _ _ _ => ∃ exp, instant t < exp ∧
      state l (xl_work_item_id lease)
      = Some (Executing (xl_dispatch_attempt_number lease) (Some (xl_receipt_id lease))
                (Some (xl_consumer_id lease), Some (xl_execution_token lease)) (Some exp))
  | StoreSession _ _ | Store _ _ | ClaimWork _ _ _ _ | ClaimExecution _ _ _ _ => True
  end.

Lemma fenced snap l c : ledger_ok l → presented l c ∨ unmoved l (run_on snap l c).
Proof.
  intros Hok. destruct c; cbn; unfold committed; [by left|by left|by left| | |by left|..].
  - destruct (commit_dispatch _ _ _) as [[]|] eqn:E; [|by right]. apply commit_dispatch_inv in E as [[-> _]|(e & t & _ & Ht & _ & Hst & _)]; [by right|].
    left. by exists t.
  - destruct (fail_dispatch _ _ _ _ _) as [[]|] eqn:E; [|by right]. apply fail_dispatch_inv in E as [[-> _]|(_ & t & Ht & Hst & _)]; [by right|].
    left. by exists t.
  - destruct (renew_execution_lease _ _ _ _) as [[]|] eqn:E; [|by right]. apply renew_inv in E as (_ & _ & t & Ht & Hst & _). left. by exists t.
  - apply (record_committed (λ l', _ ∨ unmoved l l') snap l); [by right|]. unfold committed.
    destruct (record_execution_outcome_from _ _ _ _ _ _ _ _) as [[]|] eqn:E; [|by right].
    destruct (record_inv _ _ _ _ _ _ _ _ _ _ E (ledger_ok_match _ Hok)) as [[-> _]|(_ & _ & _ & _ & t & row & plan & Ht & Hst & _)]; [by right|].
    left. by exists t.
Qed.

(** *** The claim loop *)

Definition retry_open (l : ledger) (row : ResearchScheduleWorkItemRow) : bool :=
  match _latest_event l (wi_work_item_id row) with Some e => ev_retryable e | None => false end.

(** Giving up an item closes it, and opens none. *)
Lemma exhausted_decreases l now owner secs max l' :
  claim_once l l now owner secs max = Ok (l', Exhausted) →
  items l' = items l ∧ (length (List.filter (retry_open l') (items l')) < length (List.filter (retry_open l) (items l)))%nat.
Proof.
  intros (row & e & Hf & He & _ & Hi & _ & (e' & He' & Hr') & _ & Hframe)%claim_once_Exhausted. split; [done|]. rewrite Hi.
  apply first_item_Some in Hf as (Hin & Hcl & _). apply (length_filter_lt _ _ _ row); [|done|..].
  - intros r. unfold retry_open. destruct (decide (wi_work_item_id r = wi_work_item_id row)) as [->|Hne]; [by rewrite He', Hr'|by rewrite Hframe].
  - unfold retry_open. unfold claimable in Hcl. rewrite He in *. by split_bool.
  - unfold retry_open. by rewrite He'.
Qed.

Lemma claim_loop_terminates fuel clock l owner secs max :
  (length (List.filter (retry_open l) (items l)) < fuel)%nat → ∃ r, claim_loop fuel clock l owner secs max = Some r.
Proof.
  revert l. induction fuel as [|fuel IH]; intros l Hl; [lia|]. cbn.
  destruct (claim_once l l (clock fuel) owner secs max) as [[l1 []]|e] eqn:Ec; [eauto| |eauto..].
  apply exhausted_decreases in Ec as [_ Hlt]. apply IH. lia.
Qed.

(** The items given up on the way to a ledger. *)
Definition gave_up (max : Z) (l l1 : ledger) : Prop :=
  items l1 = items l ∧ ∀ id, state l1 id = state l id ∨
    (state l1 id = Some Dead ∧ ∃ n, max < n + 1 ∧ (state l id = Some (Pending n) ∨ ∃ h t, state l id = Some (Leased n h (Some t)))).

Lemma gave_up_refl max l : gave_up max l l.
Proof. split; [done|]. by left. Qed.

Lemma claim_loop_claimed fuel clock l owner secs max l' lease :
  claim_loop fuel clock l owner secs max = Some (l', Ok (Some lease)) →
  ∃ l1 k, gave_up max l l1 ∧ claim_once l1 l1 (clock k) owner secs max = Ok (l', Claimed lease).
Proof.
  revert l. induction fuel as [|fuel IH]; intros l; cbn; [done|].
  destruct (claim_once l l (clock fuel) owner secs max) as [[l1 []]|e] eqn:Ec; intros Hc; try done.
  - destruct (IH _ Hc) as (l2 & k & [Hi Hst] & Hcl). exists l2, k. split; [|done].
    apply claim_once_Exhausted in Ec as (row & e & Hf & He & Hmax & Hi1 & _ & _ & Hdead & Hframe). split; [by rewrite Hi|].
    intros id. destruct (Hst id) as [->|[-> Hn]].
    + destruct (decide (id = wi_work_item_id row)) as [->|Hne]; [right|left; unfold state; by rewrite Hframe]. split; [done|].
      apply first_item_Some in Hf as (_ & Hcl1 & _). exists (ev_attempt_number e). split; [done|]. unfold state. rewrite He.
      destruct (claimable_state _ _ _ _ He Hcl1) as (_ & _ & [[_ Est]|(_ & h & t & Est & _)]); cbn; rewrite Est; [by left|right; eauto].
    + right. split; [done|]. destruct (decide (id = wi_work_item_id row)) as [->|Hne].
      * exfalso. rewrite Hdead in Hn. destruct Hn as (? & _ & [?|(? & ? & ?)]); done.
      * unfold state in *. by rewrite Hframe in Hn.
  - injection Hc as <- <-. exists l, fuel. split; [apply gave_up_refl|done].
Qed.

(** Work that must have succeeded before an item is claimed. *)
Definition prerequisites_done (l : ledger) (row : ResearchScheduleWorkItemRow) : Prop :=
  match dependent_kind (wi_work_kind row) with
  | None => True
  | Some kind => ∃ p, p ∈ items l ∧ wi_work_kind p = kind ∧ wi_schedule_version p = wi_schedule_version row ∧
      wi_calendar_session_id p = wi_calendar_session_id row ∧ wi_config_manifest_hash p = wi_config_manifest_hash row ∧
      state l (wi_work_item_id p) = Some Succeeded
  end.

Lemma prerequisite_predicate_done l row : _schedule_prerequisite_predicate l row = true → prerequisites_done l row.
Proof.
  unfold _schedule_prerequisite_predicate, prerequisites_done, predecessor_succeeded. destruct (dependent_kind _) as [kind|]; [|done].
  rewrite existsb_exists. intros (p & Hp%list_elem_of_In & Hc). exists p. split_bool.
  repeat match goal with E : (_ =? _)%string = true |- _ => apply String.eqb_eq in E end. do 3 (split; [done|]).
  split. { unfold sql_eq in *. destruct (wi_calendar_session_id p), (wi_calendar_session_id row); try done. f_equal. by apply String.eqb_eq. }
  split; [done|]. unfold state. destruct (_latest_event l _) as [e|]; [|done]. cbn. split_bool. unfold state_of.
  by match goal with E : ev_event_type e = SUCCEEDED |- _ => rewrite E end.
Qed.

(** *** Racing claims *)

Lemma get_item_unique l row : NoDup (map wi_work_item_id (items l)) → row ∈ items l → get_item l (wi_work_item_id row) = Some row.
Proof.
  unfold get_item. induction (items l) as [|x is' IH]; cbn; intros Hnd Hin; [by apply not_elem_of_nil in Hin|].
  apply NoDup_cons in Hnd as [Hx Hnd]. apply elem_of_cons in Hin as [->|Hin]; [by rewrite String.eqb_refl|].
  destruct (String.eqb_spec (wi_work_item_id x) (wi_work_item_id row)) as [E|]; [|by apply IH].
  exfalso. apply Hx. rewrite E. apply list_elem_of_fmap. eauto.
Qed.

Lemma claim_once_key snap l now owner secs max l' lease :
  claim_once snap l now owner secs max = Ok (l', Claimed lease) →
  ∃ row selected plan a ev, row ∈ items snap ∧ _latest_event snap (wi_work_item_id row) = Some selected ∧ wl_work_item_id lease = wi_work_item_id row ∧
    pl_work_item_id plan = wi_work_item_id row ∧ appended l plan a l' ev ∧
    ea_idempotency_key a = String.append (wi_idempotency_key row) (String.append ":lease:" (string_of_Z (ev_attempt_number selected + 1))).
Proof.
  unfold claim_once. destruct (first_item _ snap) as [row|] eqn:Ef; [|by intros [= <-]]. intros Hc.
  apply bind_Ok_inv in Hc as (e & He%found_Ok & Hc). apply bind_Ok_inv in Hc as (plan & Hp%plan_from_row_inv & Hc).
  destruct Hp as (_ & Hid & _). apply bind_Ok_inv in Hc as (e' & _ & Hc).
  destruct (Z.ltb_spec max (ev_attempt_number e + 1)); [apply bind_Ok_inv in Hc as (? & _ & [=])|].
  apply bind_Ok_inv in Hc as (token & _ & Hc). apply bind_Ok_inv in Hc as (l1 & Ha & Hc).
  apply bind_Ok_inv in Hc as (lease' & Hv & [= <- <-]). apply append_event_inv in Ha as (ev & Hev).
  unfold validate_ResearchWorkLeaseV1 in Hv. inv_ok. apply first_item_Some in Ef as (Hin & _).
  exists row, e, plan. eexists _, ev. do 4 (split; [done|]). split; [exact Hev|done].
Qed.

Lemma racing_claims snap l now1 o1 s1 m1 now2 o2 s2 m2 l2 lease1 lease2 :
  ledger_ok snap → claim_once snap snap now1 o1 s1 m1 = Ok (l, Claimed lease1) →
  claim_once snap l now2 o2 s2 m2 = Ok (l2, Claimed lease2) → wl_work_item_id lease2 ≠ wl_work_item_id lease1.
Proof.
  intros Hok (r1 & e1 & p1 & a1 & ev1 & Hr1 & He1 & -> & Hp1 & Ha1 & Hk1)%claim_once_key
    (r2 & e2 & p2 & a2 & ev2 & Hr2 & He2 & -> & Hp2 & Ha2 & Hk2)%claim_once_key E.
  assert (r2 = r1) as ->.
  { pose proof (get_item_unique _ _ (lo_unique _ Hok) Hr1) as G1. pose proof (get_item_unique _ _ (lo_unique _ Hok) Hr2) as G2. rewrite E in G2. congruence. }
  rewrite He1 in He2. injection He2 as <-. apply (ap_fresh_key _ _ _ _ _ Ha2 ev1).
  - rewrite (ap_ledger _ _ _ _ _ Ha1). cbn. set_solver.
  - by rewrite (ap_work _ _ _ _ _ Ha1), Hp1, Hp2.
  - by rewrite (ap_key _ _ _ _ _ Ha1), Hk1, Hk2.
Qed.

(** *** Stored plans *)

Definition stored (l : ledger) (p : ResearchSchedulePlanV1) : Prop :=
  ∃ row, get_item l (pl_work_item_id p) = Some row ∧ wi_plan_hash row = pl_plan_hash p ∧ wi_payload row = p.

Lemma store_plan_stored l t p l' b : store_plan l t p = Ok (l', b) → stored l' p ∧ ∀ q, stored l q → stored l' q.
Proof.
  unfold store_plan. destruct (get_item l _) as [row|] eqn:Eg; intros Hc.
  - apply bind_Ok_inv in Hc as ([] & Hf%raise_if_Ok_inv & [= <- <-]). split_bool. split; [|done]. exists row.
    split; [done|]. split; [by apply String.eqb_eq|done].
  - apply bind_Ok_inv in Hc as (l1 & H1 & Hc). apply bind_Ok_inv in Hc as (l2 & H2 & [= <- <-]).
    unfold add_item in H1. repeat (apply bind_Ok_inv in H1 as ([] & _ & H1)). injection H1 as <-.
    apply append_event_inv in H2 as (ev & []). subst l2. split.
    + eexists. split; [unfold get_item; cbn; apply find_new; [exact Eg|apply String.eqb_refl]|done].
    + intros q (row & Hg & ?). exists row. split; [by apply find_app_Some|done].
Qed.

Lemma store_loop_stored l t plans n l' m : store_loop l t plans n = (l', Ok m) → (∀ q, q ∈ plans → stored l' q) ∧ ∀ q, stored l q → stored l' q.
Proof.
  revert l n. induction plans as [|p plans IH]; intros l n; cbn.
  { intros [= <- <-]. split; [|done]. intros q Hq. by apply not_elem_of_nil in Hq. }
  destruct (store_plan l t p) as [[l1 b]|] eqn:Es; [|done]. intros Hl. destruct (IH _ _ Hl) as [H1 H2].
  destruct (store_plan_stored _ _ _ _ _ Es) as [H3 H4]. split; [|auto]. intros q [->|Hq]%elem_of_cons; auto.
Qed.

Lemma store_loop_again l t plans n : (∀ q, q ∈ plans → stored l q) → store_loop l t plans n = (l, Ok n).
Proof.
  revert n. induction plans as [|p plans IH]; intros n Hs; cbn; [done|]. destruct (Hs p) as (row & Hg & E1 & E2); [left|].
  unfold store_plan. rewrite Hg, E1, E2, String.eqb_refl, bool_decide_eq_true_2 by done. cbn. rewrite Z.add_0_r. apply IH. intros. apply Hs. by right.
Qed.

(** *** From a claim to the worker's request *)

Lemma claimed_input `{!HexDigest} l now consumer secs nb l' lease :
  ledger_ok l → claim_execution l now consumer secs nb = Ok (l', Some lease) →
  ∀ now', instant now' < instant (xl_lease_expires_at lease) →
  ∃ plan receipt, execution_input l' now' lease = Ok (plan, receipt) ∧
    ∀ selection, hash_pattern (pl_config_manifest_hash plan) = true →
      (dispatch_target_for (pl_work_kind plan) = DEEP_RESEARCH_CYCLE_V1 ↔ is_Some selection) →
      (∀ s, selection = Some s → validate_CommanderSelectionV1 s = Ok s) →
      ∃ request, build_execution_request lease plan receipt selection = Ok request.
Proof.
  intros Hok Hc now' Hnow.
  destruct (claim_execution_inv _ _ _ _ _ _ _ _ Hc (ledger_ok_match _ Hok)) as
    (row & e & plan & rrow & Hfi & He & Er & Hp & Hg & Hr & _ & El & Hxid & Hi & Hrs & _ & (ev & Hev & Hty & Hlast) & _).
  apply first_item_Some in Hfi as (Hin & _ & _). destruct (latest_event_spec _ _ _ He) as (Hein & Hew & _).
  destruct (ledger_ok_match _ Hok e _ rrow Hein Er Hg) as (Hra & Hrw & Hpa & Hpw).
  pose proof (get_item_unique _ _ (lo_unique _ Hok) Hin) as Hget.
  destruct (lo_built _ Hok rrow) as (item & Hit & Hbk & Hbt & Hbp & Hbc); [by apply get_receipt_Some in Hg as []|].
  rewrite Hrw, Hew, Hget in Hit. injection Hit as <-. destruct (plan_from_row_inv _ _ Hp) as (Epl & Hpid & Hpv & _). rewrite <- Epl in *.
  destruct (receipt_from_row_inv _ _ Hr) as (_ & Hrid & Hrv & _). apply get_receipt_Some in Hg as Hgid. destruct Hgid as [_ Hgid].
  exists plan, (rr_payload rrow). split.
  - unfold execution_input, execution_rows, _locked_work, get_item, get_receipt. rewrite Hi, Hrs. fold (get_receipt l (xl_receipt_id lease)).
    rewrite Hg. cbn [found mbind res_bind]. fold (get_item l (xl_work_item_id lease)). rewrite El at 1. cbn [xl_work_item_id]. rewrite Hget.
    cbn [found mbind res_bind]. rewrite Hp, Hr. cbn [mbind res_bind]. rewrite El at 1. unfold _require_execution_binding.
    cbn [xl_work_item_id xl_work_kind xl_receipt_id xl_receipt_hash xl_dispatch_attempt_number xl_config_manifest_hash xl_real_order_routing].
    rewrite Hpid, Hpw, Hrw, Hew, Hbk, Hbc, Hpa, Hra, !String.eqb_refl, Z.eqb_refl, !bool_decide_eq_true_2 by done. cbn [negb orb raise_if mbind res_bind].
    unfold _require_active_execution_lease. rewrite El at 1. cbn [xl_work_item_id]. rewrite Hlast. destruct Hev. cbn in *.
    assert (active_execution_lease ev lease now' = true) as ->; [|done]. unfold active_execution_lease, expired, dt_le.
    rewrite Hty, ap_owner0, ap_token0, ap_attempt0, ap_receipt0, ap_expires0, El. cbn. rewrite !bool_decide_eq_true_2, Z.eqb_refl by done. cbn.
    rewrite El in Hnow. cbn in Hnow. apply negb_true_iff, Z.leb_gt. exact Hnow.
  - pose proof (f_equal xl_work_item_id El) as L1. pose proof (f_equal xl_receipt_id El) as L2. pose proof (f_equal xl_receipt_hash El) as L3.
    pose proof (f_equal xl_work_kind El) as L4. pose proof (f_equal xl_dispatch_attempt_number El) as L5.
    pose proof (f_equal xl_config_manifest_hash El) as L6. cbn in L1, L2, L3, L4, L5, L6. clear El.
    intros selection Hc' Hsel Hs. apply build_execution_request_ok; try congruence; try done.
    rewrite Hbt. unfold is_deep_target. by rewrite bool_decide_eq_true.
Qed.
End runs.

(** ** Properties *)

(** C20: The work ledger refines the lifecycle, under concurrent transactions.  After any history of its transactions from the empty
    tables, in which the selection of a claim and the check of an outcome against the recorded results may read any earlier committed
    ledger, a further transaction removes and changes no row, and either leaves the state of every work item as it was or moves exactly
    one item, at the transaction's clock, by one lifecycle step from the state that the item has in the ledger the step was decided on:
    the current ledger, and for a claim the one its selection read.  A transaction that runs alone, all its statements reading the
    current ledger, therefore makes an ordinary lifecycle step. *)
Theorem ledger_refines_lifecycle `{Digest} `{JsonDatetime} txs lag c :
  let h := run_history txs in let l := snapshot h 0 in let snap := snapshot h lag in let l' := run_on snap l c in
  grows l l' ∧ (unmoved l l' ∨ ∃ id, stepped (command_time c) (seen snap l c) l l' id) ∧
  (unmoved l (run_command l c) ∨ ∃ id, moved (command_time c) l (run_command l c) id).
Proof.
  cbv zeta. pose proof (run_history_ok txs) as Hh. pose proof (proj1 (snapshot_ok _ lag Hh)) as Hsnap. pose proof (proj1 (snapshot_ok _ 0 Hh)) as Hok.
  split; [apply run_on_grows|]. split; [by apply run_on_stepped|by apply run_command_moved].
Qed.

(** Fencing: in any reachable ledger, a commit, failure, renewal or outcome has an effect only if the lease it presents is the one
    holding the work, with the same owner, token, attempt and receipt, and that lease has not expired. *)
Theorem stale_leases_fenced `{Digest} `{JsonDatetime} txs snap c :
  let l := snapshot (run_history txs) 0 in presented l c ∨ unmoved l (run_on snap l c).
Proof. by apply fenced, snapshot_ok, run_history_ok. Qed.

(** Finished work is final in a serial run: once an item has succeeded or has failed for good, no later transaction changes its state.
    (A claim on a stale snapshot can: see the end of the file.) *)
Theorem finished_work_is_final `{Digest} `{JsonDatetime} cmds later id s :
  s = Succeeded ∨ s = Dead → state (run_commands empty_ledger cmds) id = Some s → state (run_commands empty_ledger (cmds ++ later)) id = Some s.
Proof.
  intros Hs Hst. rewrite run_app. pose proof (run_ok _ cmds ledger_ok_empty) as Hok. revert Hok Hst. generalize (run_commands empty_ledger cmds).
  induction later as [|c later IH]; intros l Hok Hst; [done|]. apply IH; [by apply run_command_ok|].
  destruct (run_command_moved l c Hok) as [Hu|(id' & (s' & Hs' & Hstep) & Hframe)]; [by rewrite Hu|].
  destruct (decide (id = id')) as [<-|Hne]; [|by rewrite Hframe]. rewrite Hst in Hstep. exfalso.
  destruct Hs as [-> | ->]; inversion Hstep.
Qed.

(** The claim loop terminates: with one iteration more than there are work items, [claim_next] returns, whatever the clock reads. *)
Theorem claim_next_terminates `{Digest} `{JsonDatetime} fuel clock l owner secs max :
  (length (items l) < fuel)%nat → ∃ l' r, claim_next fuel clock l owner secs max = Some (l', r).
Proof.
  intros Hf. unfold claim_next. destruct (str_empty owner); [eauto|]. destruct (_ || _); [eauto|].
  destruct (claim_loop_terminates fuel clock l owner secs max) as [[l' r] ->]; [|eauto].
  pose proof (length_filterb_le (retry_open l) (items l)). lia.
Qed.

(** A claimed lease is the right one: the loop gives up only items out of attempts, then leases the first claimable item in schedule
    order, which is due, has its prerequisites done and is pending or has an expired lease, under the next attempt number within the limit. *)
Theorem claim_next_grants `{Digest} `{JsonDatetime} fuel clock l owner secs max l' lease :
  claim_next fuel clock l owner secs max = Some (l', Ok (Some lease)) →
  ∃ l1 now row n, gave_up max l l1 ∧ row ∈ items l ∧ wl_work_item_id lease = wi_work_item_id row ∧
    instant (wi_scheduled_for row) <= instant now ∧ prerequisites_done l1 row ∧
    (∀ row', row' ∈ items l → claimable l1 now row' = true → item_le row row' = true) ∧
    (state l1 (wi_work_item_id row) = Some (Pending n)
     ∨ ∃ h t, state l1 (wi_work_item_id row) = Some (Leased n h (Some t)) ∧ t <= instant now) ∧
    wl_attempt_number lease = n + 1 ∧ n + 1 <= max ∧ wl_lease_owner lease = owner ∧
    state l' (wi_work_item_id row)
      = Some (Leased (n + 1) (Some owner, Some (wl_lease_token lease)) (Some (instant (wl_lease_expires_at lease)))) ∧
    instant (wl_lease_expires_at lease) = instant now + secs * 1000000 ∧
    ∀ id, id ≠ wi_work_item_id row → state l' id = state l1 id.
Proof.
  unfold claim_next. destruct (str_empty owner); [done|]. destruct (_ || _); [done|]. intros (l1 & k & Hg & Hc)%claim_loop_claimed.
  apply claim_once_Claimed in Hc as (row & e & Hf & He & Hid & Hatt & Hmax & _ & Hown & Hexp & _ & _ & Hs & Hframe).
  apply first_item_Some in Hf as (Hin & Hcl & Hleast). destruct (claimable_state _ _ _ _ He Hcl) as (Hdue & Hpre%prerequisite_predicate_done & Hst).
  destruct Hg as [Hi Hg]. rewrite Hi in Hin, Hleast. exists l1, (clock k), row, (ev_attempt_number e).
  do 6 (split; [done|]). split; [|rewrite Hexp; done]. unfold state. rewrite He. cbn.
  destruct Hst as [[_ ->]|(_ & h & t & -> & Ht)]; [by left|right; eauto].
Qed.

(** No model context is reused in a serial run: the invocation contexts of all recorded successful results are distinct.  (Two results
    that are recorded at the same time can share one: see the end of the file.) *)
Theorem model_contexts_never_reused `{Digest} `{JsonDatetime} cmds :
  NoDup (concat (map contexts (succeeded_results (run_commands empty_ledger cmds)))).
Proof.
  unfold run_commands. assert (NoDup (concat (map contexts (succeeded_results empty_ledger)))) as Hnd by constructor.
  pose proof ledger_ok_empty as Hok. revert Hok Hnd. generalize empty_ledger.
  induction cmds as [|c cmds IH]; intros l Hok Hnd; [done|]. by apply IH; [apply run_command_ok|apply run_command_contexts].
Qed.

(** Racing claims are exclusive: two claims that select on the same snapshot never both lease the same item, whatever their clocks. *)
Theorem racing_claims_exclusive `{Digest} `{JsonDatetime} cmds now1 o1 s1 m1 now2 o2 s2 m2 l l2 lease1 lease2 :
  let snap := run_commands empty_ledger cmds in
  claim_once snap snap now1 o1 s1 m1 = Ok (l, Claimed lease1) → claim_once snap l now2 o2 s2 m2 = Ok (l2, Claimed lease2) →
  wl_work_item_id lease2 ≠ wl_work_item_id lease1.
Proof. apply racing_claims, run_ok, ledger_ok_empty. Qed.

(** Storing plans again stores nothing: after [store_plans] succeeds, storing the same plans leaves the ledger as it is. *)
Theorem replanning_is_idempotent `{Digest} `{JsonDatetime} l plans t l' n t' :
  store_plans l plans t = (l', Ok n) → tz_aware t' = true → store_plans l' plans t' = (l', Ok 0).
Proof.
  unfold store_plans, require_aware_utc. intros Hs ->. destruct (tz_aware t); [|done]. apply store_loop_again.
  by apply (store_loop_stored _ _ _ _ _ _ Hs).
Qed.

(** A granted execution lease is usable: until it expires, [execution_input] gives the plan and the receipt it was granted for, and
    they make a valid request for the worker. *)
Theorem granted_execution_is_usable `{HexDigest} `{JsonDatetime} cmds now consumer secs nb l' lease :
  claim_execution (run_commands empty_ledger cmds) now consumer secs nb = Ok (l', Some lease) →
  ∀ now', instant now' < instant (xl_lease_expires_at lease) →
  ∃ plan receipt, execution_input l' now' lease = Ok (plan, receipt) ∧
    ∀ selection, hash_pattern (pl_config_manifest_hash plan) = true →
      (dispatch_target_for (pl_work_kind plan) = DEEP_RESEARCH_CYCLE_V1 ↔ is_Some selection) →
      (∀ s, selection = Some s → validate_CommanderSelectionV1 s = Ok s) →
      ∃ request, build_execution_request lease plan receipt selection = Ok request.
Proof. apply claimed_input, run_ok, ledger_ok_empty. Qed.

(** ** Witnesses: one planned item, claimed by a worker, dispatched, and claimed for execution *)

Definition ex_json : JsonDatetime := datetime_iso.

Section example.
Context `{Digest}.
#[local] Existing Instance ex_json.

Definition ex_plans : list ResearchSchedulePlanV1 :=
  match _calendar_plan ex_config (ex_hash 1) WK_DAILY_AGGREGATION "2024-10-04" (ex_instant 22) (ex_session "a" 1) with Ok p => [p] | Raise _ => [] end.

Definition ex_planned : list command := StoreSession (ex_instant 21) "a" :: map (Store (ex_instant 22)) ex_plans.

Definition ex_claim (l : ledger) (hours : Z) (max : Z) : res (ledger * claim_outcome) := claim_once l l (ex_instant hours) "worker" 600 max.

Definition ex_work_lease : list ResearchWorkLeaseV1 :=
  match ex_claim (run_commands empty_ledger ex_planned) 23 3 with Ok (_, Claimed x) => [x] | _ => [] end.

Definition ex_dispatched : list command :=
  ex_planned ++ [ClaimWork (ex_instant 23) "worker" 600 3] ++ map (CommitDispatch (ex_instant 23)) ex_work_lease.

(** The same lease failing with no attempt left. *)
Definition ex_failed : list command :=
  ex_planned ++ [ClaimWork (ex_instant 23) "worker" 600 3] ++ map (λ x, FailDispatch (ex_instant 23) x "boom" 1) ex_work_lease.

Definition ex_id : string := match ex_plans with p :: _ => pl_work_item_id p | [] => EmptyString end.
End example.

Lemma finished_work_is_final_witness :
  state (run_commands (H := rolling_digest) (H0 := ex_json) empty_ledger
           (ex_failed (H := rolling_digest) ++ [ClaimWork (ex_instant 25) "other" 600 9])) (ex_id (H := rolling_digest)) = Some Dead.
Proof.
  apply (finished_work_is_final (H := rolling_digest) (H0 := ex_json)); [by right|]. vm_compute. reflexivity.
Defined.

Lemma claim_next_terminates_witness :
  ∃ l' r, claim_next (H := rolling_digest) 2 (λ _, ex_instant 23) (run_commands (H := rolling_digest) (H0 := ex_json) empty_ledger
            (ex_planned (H := rolling_digest))) "worker" 600 3 = Some (l', r).
Proof. apply (claim_next_terminates (H := rolling_digest) (H0 := ex_json)). vm_compute. lia. Defined.

(** Was an item claimed by the loop? *)
Definition loop_claimed (r : option (ledger * res (option ResearchWorkLeaseV1))) : bool :=
  match r with Some (_, Ok (Some _)) => true | _ => false end.

Lemma claim_next_grants_witness :
  ∃ l' lease now row, claim_next (H := rolling_digest) 2 (λ _, ex_instant 23) (run_commands (H := rolling_digest) (H0 := ex_json) empty_ledger
      (ex_planned (H := rolling_digest))) "worker" 600 3 = Some (l', Ok (Some lease)) ∧
    wl_work_item_id lease = wi_work_item_id row ∧ instant (wi_scheduled_for row) <= instant now.
Proof.
  set (r := claim_next 2 _ _ _ _ _). assert (loop_claimed r = true) as Hc by (vm_compute; reflexivity).
  destruct r as [[l' [[lease|]|]]|] eqn:E; try discriminate Hc.
  destruct (claim_next_grants (H := rolling_digest) (H0 := ex_json) _ _ _ _ _ _ _ _ E) as (l1 & now & row & n & _ & _ & Hid & Hdue & _).
  exists l', lease, now, row. exact (conj eq_refl (conj Hid Hdue)).
Defined.

(** Two items, the first leased until 22:10; one claim at 23:00 takes it over, and one at 22:00 on the same snapshot takes the second. *)
Definition ex_two : list command :=
  let plan n h := match _calendar_plan (H := rolling_digest) ex_config (ex_hash 1) WK_DAILY_AGGREGATION n (ex_instant h) (ex_session "a" 1) with
                  | Ok p => [Store (ex_instant h) p] | Raise _ => [] end in
  [StoreSession (ex_instant 21) "a"] ++ plan "2024-10-03" 21 ++ plan "2024-10-04" 22 ++ [ClaimWork (ex_instant 21) "worker" 4200 3].

#[local] Notation ex_snap := (run_commands (H := rolling_digest) (H0 := ex_json) empty_ledger ex_two) (only parsing).

Definition claimed (r : res (ledger * claim_outcome)) : bool := match r with Ok (_, Claimed _) => true | _ => false end.

Lemma ex_both_claim :
  match claim_once (H := rolling_digest) ex_snap ex_snap (ex_instant 23) "a" 600 3 with
  | Ok (l, Claimed _) => claimed (claim_once (H := rolling_digest) ex_snap l (ex_instant 22) "b" 600 3)
  | _ => false
  end = true.
Proof. vm_compute. reflexivity. Qed.

Lemma both_claims_split (r : res (ledger * claim_outcome)) (f : ledger → res (ledger * claim_outcome)) :
  match r with Ok (l, Claimed _) => claimed (f l) | _ => false end = true →
  ∃ l lease1 l2 lease2, r = Ok (l, Claimed lease1) ∧ f l = Ok (l2, Claimed lease2).
Proof.
  destruct r as [[l [| |lease1]]|]; try discriminate. destruct (f l) as [[l2 [| |lease2]]|] eqn:E; try discriminate.
  intros _. by exists l, lease1, l2, lease2.
Qed.

Lemma racing_claims_exclusive_witness :
  ∃ l l2 lease1 lease2,
    claim_once (H := rolling_digest) ex_snap ex_snap (ex_instant 23) "a" 600 3 = Ok (l, Claimed lease1) ∧
    claim_once (H := rolling_digest) ex_snap l (ex_instant 22) "b" 600 3 = Ok (l2, Claimed lease2) ∧
    wl_work_item_id lease2 ≠ wl_work_item_id lease1.
Proof.
  destruct (both_claims_split (claim_once (H := rolling_digest) ex_snap ex_snap (ex_instant 23) "a" 600 3)
    (λ l, claim_once (H := rolling_digest) ex_snap l (ex_instant 22) "b" 600 3) ex_both_claim) as (l & lease1 & l2 & lease2 & E1 & E2).
  cbv beta in E2.
  exists l, l2, lease1, lease2.
  pose proof (racing_claims_exclusive (H := rolling_digest) (H0 := ex_json) ex_two (ex_instant 23) "a" 600 3 (ex_instant 22) "b" 600 3
    l l2 lease1 lease2) as Hx. cbv zeta in Hx. exact (conj E1 (conj E2 (Hx E1 E2))).
Defined.

(** ** What a claim on a stale snapshot can do *)

(** Two claims select the dispatched item on the snapshot [snap], and the second commits after the first: is the first worker fenced
    off although its lease has not expired? *)
Definition takes_over (snap : ledger) : bool :=
  match claim_execution (H := rolling_digest) snap (ex_instant 23) "first" 600 (ex_instant 0) with
  | Ok (l, Some lease1) =>
      match claim_execution_from (H := rolling_digest) snap l (ex_instant 23) "second" 600 (ex_instant 0) with
      | Ok (l2, Some lease2) =>
          String.eqb (xl_work_item_id lease1) (xl_work_item_id lease2)
          && dt_lt (ex_instant 23) (xl_lease_expires_at lease1)
          && is_ok (execution_input (H := rolling_digest) l2 (ex_instant 23) lease2)
          && negb (is_ok (execution_input (H := rolling_digest) l2 (ex_instant 23) lease1))
      | _ => false
      end
  | _ => false
  end.

(** Unlike racing dispatch claims, racing execution claims are not exclusive: the second takes the item over although the first lease has
    not expired, and the first worker is fenced off. *)
Lemma stale_snapshot_takes_over_execution :
  ∃ cmds, takes_over (run_commands (H := rolling_digest) (H0 := ex_json) empty_ledger cmds) = true.
Proof. exists (ex_dispatched (H := rolling_digest)). vm_compute. reflexivity. Qed.

(** A digest of the shape the contracts ask for that is quick to evaluate. *)
Definition ex_digest : Digest := λ s,
  let d := rolling_digest s in String.append d (String.concat "" (replicate (64 - String.length d) "0")).

(** The item executed by a worker that reports success. *)
Definition ex_report (l : ledger) : list command :=
  match claim_execution (H := ex_digest) l (ex_instant 23) "first" 600 (ex_instant 0) with
  | Ok (l', Some lease) =>
      match ('(plan, receipt) ← execution_input (H := ex_digest) l' (ex_instant 23) lease;
             request ← build_execution_request (H := ex_digest) (H0 := ex_json) lease plan receipt None;
             build_execution_result (H := ex_digest) request
               [{| ra_artifact_kind := AK_DAILY_AGGREGATION; ra_content_hash := ex_hash 7; ra_record_count := 1 |}] [] None (ex_instant 23)) with
      | Ok result => [RecordOutcome (ex_instant 23) lease true None 3 (Some result)]
      | Raise _ => []
      end
  | _ => []
  end.

(** The item was claimed while its first lease ran out, dispatched just before, executed, and reported as a success. *)
Definition ex_succeeded : list command :=
  let dispatched := ex_dispatched (H := ex_digest) in
  dispatched ++ [ClaimExecution (ex_instant 23) "first" 600 (ex_instant 0)]
  ++ ex_report (run_commands (H := ex_digest) (H0 := ex_json) empty_ledger dispatched).

(** The state of the item in the last ledger of a serial run, and after a further transaction whose selection has a lag. *)
Definition before_and_after (cmds : list command) (lag : nat) (c : command) : option work_state * option work_state :=
  let h := run_history (H := ex_digest) (H0 := ex_json) (map (pair 0%nat) cmds) in
  let id := ex_id (H := ex_digest) in
  (state (snapshot h 0) id, state (run_on (H := ex_digest) (H0 := ex_json) (snapshot h lag) (snapshot h 0) c) id).

(** Finished work starts again. *)
Definition restarts (s : option work_state * option work_state) : bool :=
  match s with (Some Succeeded, Some (Executing _ _ _ _)) => true | _ => false end.

(** Dispatched work is leased for a further attempt. *)
Definition takes_back (s : option work_state * option work_state) : bool :=
  match s with (Some (Dispatched n _), Some (Leased m _ _)) => m =? n + 1 | _ => false end.

(** A claim that selected before the execution was claimed and commits after it succeeded starts the finished work again: the success
    carries the same receipt. *)
Lemma stale_snapshot_restarts_succeeded_work :
  restarts (before_and_after ex_succeeded 2 (ClaimExecution (ex_instant 24) "second" 600 (ex_instant 0))) = true.
Proof. vm_compute. reflexivity. Qed.

(** A dispatch claim that selected when the lease had run out, and commits after the dispatch, takes the dispatched item back. *)
Lemma stale_snapshot_takes_back_dispatched_work :
  takes_back (before_and_after (ex_dispatched (H := ex_digest)) 1 (ClaimWork (ex_instant 24) "second" 600 3)) = true.
Proof. vm_compute. reflexivity. Qed.

(** ** Two results recorded at the same time can share a model context *)

(** Two weekly deep cycles, planned, dispatched and claimed by two workers. *)
Definition ex_deep_plans : list command :=
  let plan n h := match _calendar_plan (H := ex_digest) ex_config (ex_hash 1) WK_WEEKLY_DEEP_RESEARCH n (ex_instant h) (ex_session "a" 1) with
                  | Ok p => [Store (ex_instant h) p] | Raise _ => [] end in
  [StoreSession (ex_instant 21) "a"] ++ plan "2024-10-03" 21 ++ plan "2024-10-04" 22.

(** Claim the next item and dispatch it. *)
Definition ex_dispatch (l : ledger) : ledger :=
  match claim_once (H := ex_digest) l l (ex_instant 23) "worker" 600 3 with
  | Ok (l', Claimed lease) => committed l' (commit_dispatch (H := ex_digest) (H0 := ex_json) l' (ex_instant 23) lease)
  | _ => l
  end.

(** Claim the next dispatched item, and the outcome its worker reports: the same model calls for both. *)
Definition ex_execute (st : ledger * list command) (consumer : string) : ledger * list command :=
  match claim_execution (H := ex_digest) st.1 (ex_instant 23) consumer 600 (ex_instant 0) with
  | Ok (l', Some lease) =>
      match ('(plan, receipt) ← execution_input (H := ex_digest) l' (ex_instant 23) lease;
             request ← build_execution_request (H := ex_digest) (H0 := ex_json) lease plan receipt (er_commander_selection ex_request);
             build_execution_result (H := ex_digest) request ex_artifacts ex_invocations (Some PROPOSE_NEW_STRATEGY) (ex_instant 23)) with
      | Ok result => (l', st.2 ++ [RecordOutcome (ex_instant 23) lease true None 3 (Some result)])
      | Raise _ => st
      end
  | _ => st
  end.

(** Both items under execution, and the two outcomes. *)
Definition ex_outcomes : ledger * list command :=
  let l := run_commands (H := ex_digest) (H0 := ex_json) empty_ledger ex_deep_plans in
  ex_execute (ex_execute (ex_dispatch (ex_dispatch l), []) "first") "second".

(** The contexts on record after both outcomes, when the check of the second reads [lag] transactions back. *)
Definition recorded_contexts (lag : nat) : list string :=
  let h := fold_left (commit_transaction (H := ex_digest) (H0 := ex_json)) (List.combine [0%nat; lag] ex_outcomes.2) [ex_outcomes.1] in
  concat (map contexts (succeeded_results (snapshot h 0))).

(** Alone, the second outcome is refused; with a check that read before the first committed, it is recorded with the same contexts. *)
Lemma concurrent_outcomes_share_contexts :
  (length (recorded_contexts 0), bool_decide (NoDup (recorded_contexts 0))) = (3%nat, true) ∧
  (length (recorded_contexts 1), bool_decide (NoDup (recorded_contexts 1))) = (6%nat, false).
Proof. split; vm_compute; reflexivity. Qed.

(** ** More witnesses *)

Lemma replanning_is_idempotent_witness :
  ∃ l', store_plans (H := rolling_digest) (with_session "a" empty_ledger) (ex_plans (H := rolling_digest)) (ex_instant 22) = (l', Ok 1) ∧
    store_plans (H := rolling_digest) l' (ex_plans (H := rolling_digest)) (ex_instant 23) = (l', Ok 0).
Proof.
  destruct (store_plans (H := rolling_digest) (with_session "a" empty_ledger) ex_plans (ex_instant 22)) as [l' r] eqn:E.
  assert (r = Ok 1) as -> by (change r with (snd (l', r)); rewrite <- E; vm_compute; reflexivity).
  exists l'. split; [reflexivity|]. exact (replanning_is_idempotent (H := rolling_digest) (H0 := ex_json) _ _ _ _ _ (ex_instant 23) E eq_refl).
Defined.

Definition granted (r : res (ledger * option ResearchWorkExecutionLeaseV1)) (now : Z) : bool :=
  match r with Ok (_, Some x) => now <? instant (xl_lease_expires_at x) | _ => false end.

Lemma granted_split r now : granted r now = true → ∃ l' lease, r = Ok (l', Some lease) ∧ now < instant (xl_lease_expires_at lease).
Proof. destruct r as [[l' [lease|]]|]; try discriminate. intros ?%Z.ltb_lt. by exists l', lease. Qed.

Lemma granted_execution_is_usable_witness :
  ∃ l' lease plan receipt,
    claim_execution (H := sha256_digest) (run_commands (H := sha256_digest) (H0 := ex_json) empty_ledger (ex_dispatched (H := sha256_digest)))
      (ex_instant 23) "consumer" 600 (ex_instant 0) = Ok (l', Some lease) ∧
    execution_input (H := sha256_digest) l' (ex_instant 23) lease = Ok (plan, receipt).
Proof.
  assert (granted (claim_execution (H := sha256_digest) (run_commands (H := sha256_digest) (H0 := ex_json) empty_ledger (ex_dispatched (H := sha256_digest)))
      (ex_instant 23) "consumer" 600 (ex_instant 0)) (instant (ex_instant 23)) = true) as Hg by (vm_compute; reflexivity).
  apply granted_split in Hg as (l' & lease & E & Hexp).
  destruct (granted_execution_is_usable (H0 := sha256_hex) (H1 := ex_json) _ _ _ _ _ _ _ E (ex_instant 23) Hexp) as (plan & receipt & Hin & _).
  exists l', lease, plan, receipt. exact (conj E Hin).
Defined.
