(* ===== verification/Challenger.v ===== *)
(** * Contracts of the challenger lifecycle

    From [research/contracts.py]: the status of a challenger, its manifest, the record of a failed candidate test run, the result of
    an out-of-sample submission and the reservation that pays for it.  From [research/candidate_artifact.py]: the bundle that the
    Builder hands to the host.  Every contract carries the hash of its other fields. *)
From Stdlib Require Import ZArith Lia Ascii String.
From stdpp Require Import base list strings numbers sets.
From S2P Require Import Prelude PyDecimal Hashing Domain Falsification Promotion Schedule DispatchExecution.
Set Default Goal Selector "!".
Open Scope Z_scope.

(** ** Status *)

Inductive ChallengerStatus :=
  | PROPOSED | BUILD_FAILED | TEST_FAILED | REPLAY_FAILED | OOS_REJECTED | SHADOW_PENDING | SHADOW_RUNNING | PROMOTION_ELIGIBLE
  | PROMOTED | CHALLENGER_REJECTED | RETIRED.
#[global] Instance ChallengerStatus_eq_dec : EqDecision ChallengerStatus.
Proof. solve_decision. Defined.

Definition ChallengerStatus_value (s : ChallengerStatus) : string :=
  match s with
  | PROPOSED => "PROPOSED" | BUILD_FAILED => "BUILD_FAILED" | TEST_FAILED => "TEST_FAILED" | REPLAY_FAILED => "REPLAY_FAILED"
  | OOS_REJECTED => "OOS_REJECTED" | SHADOW_PENDING => "SHADOW_PENDING" | SHADOW_RUNNING => "SHADOW_RUNNING"
  | PROMOTION_ELIGIBLE => "PROMOTION_ELIGIBLE" | PROMOTED => "PROMOTED" | CHALLENGER_REJECTED => "REJECTED" | RETIRED => "RETIRED"
  end.

Definition ALLOWED_TRANSITIONS (s : ChallengerStatus) : list ChallengerStatus :=
  match s with
  | PROPOSED => [BUILD_FAILED; TEST_FAILED; REPLAY_FAILED; OOS_REJECTED; SHADOW_PENDING; CHALLENGER_REJECTED]
  | SHADOW_PENDING => [SHADOW_RUNNING; CHALLENGER_REJECTED; RETIRED]
  | SHADOW_RUNNING => [PROMOTION_ELIGIBLE; CHALLENGER_REJECTED; RETIRED]
  | PROMOTION_ELIGIBLE => [PROMOTED; CHALLENGER_REJECTED; RETIRED]
  | PROMOTED => [RETIRED]
  | BUILD_FAILED | TEST_FAILED | REPLAY_FAILED | OOS_REJECTED | CHALLENGER_REJECTED | RETIRED => []
  end.

Definition LIFECYCLE_GATED_TRANSITIONS : list ChallengerStatus :=
  [TEST_FAILED; REPLAY_FAILED; OOS_REJECTED; SHADOW_PENDING; SHADOW_RUNNING; PROMOTION_ELIGIBLE; PROMOTED].

Definition in_statuses (s : ChallengerStatus) (l : list ChallengerStatus) : bool := bool_decide (s ∈ l).

(** ** Shared validators *)

Definition json_dict (d : pydict pyval) : bool := forallb (λ kv, is_json kv.2) d.
Definition str_list (l : list string) : pyval := PList (map PStr l).
Definition count_between {A} (lo hi : Z) (l : list A) : bool := (lo <=? Z.of_nat (length l)) && (Z.of_nat (length l) <=? hi).

(** [^[a-f0-9]{40,64}$] *)
Definition commit_pattern (s : string) : bool :=
  all_chars is_lower_hex s && (40 <=? Z.of_nat (String.length s)) && (Z.of_nat (String.length s) <=? 64).

(** [SYMBOL_PATTERN] *)
Definition research_symbol_pattern (s : string) : bool :=
  match s with
  | EmptyString => false
  | String c s => let first := is_upper c || ascii_in 48 57 c in
      first && all_chars (λ c, is_upper c || ascii_in 48 57 c || one_of "._-" c) s && (Z.of_nat (String.length s) <=? 15)
  end.

Definition normalize_universe (value : list string) : res (list string) :=
  let normalized := map (λ symbol, upper (strip symbol)) value in
  raise_if (existsb (λ symbol, negb (research_symbol_pattern symbol)) normalized) ValidationError "universe contains an invalid symbol";;
  raise_if (has_dup normalized) ValidationError "universe symbols must be unique";;
  Ok normalized.

(** ** The manifest of a challenger *)

Record ChallengerManifestV1 := {
  cm_schema_version : string;
  cm_challenger_id : string;
  cm_strategy_id : string;
  cm_strategy_version : string;
  cm_parent_version : string;
  cm_hypothesis_id : string;
  cm_experiment_family : string;
  cm_source_commit : string;
  cm_patch_hash : string;
  cm_proposal_hash : string;
  cm_code_hash : string;
  cm_config_hash : string;
  cm_test_manifest_hash : string;
  cm_created_by_commander : ResearchCommanderKind;
  cm_implemented_by_builder : string;
  cm_evidence_source_ids : list string;
  cm_required_data : list string;
  cm_decision_horizon : string;
  cm_execution_universe : list string;
  cm_estimated_turnover : pydict pyval;
  cm_estimated_capacity : pydict pyval;
  cm_status : ChallengerStatus;
  cm_created_at : datetime;
  cm_manifest_hash : string;
}.

(** [model_copy(update={"execution_universe": u})] *)
Definition with_execution_universe (u : list string) (m : ChallengerManifestV1) : ChallengerManifestV1 := {|
  cm_schema_version := cm_schema_version m; cm_challenger_id := cm_challenger_id m; cm_strategy_id := cm_strategy_id m;
  cm_strategy_version := cm_strategy_version m; cm_parent_version := cm_parent_version m; cm_hypothesis_id := cm_hypothesis_id m;
  cm_experiment_family := cm_experiment_family m; cm_source_commit := cm_source_commit m; cm_patch_hash := cm_patch_hash m;
  cm_proposal_hash := cm_proposal_hash m; cm_code_hash := cm_code_hash m; cm_config_hash := cm_config_hash m;
  cm_test_manifest_hash := cm_test_manifest_hash m; cm_created_by_commander := cm_created_by_commander m;
  cm_implemented_by_builder := cm_implemented_by_builder m; cm_evidence_source_ids := cm_evidence_source_ids m;
  cm_required_data := cm_required_data m; cm_decision_horizon := cm_decision_horizon m; cm_execution_universe := u;
  cm_estimated_turnover := cm_estimated_turnover m; cm_estimated_capacity := cm_estimated_capacity m; cm_status := cm_status m;
  cm_created_at := cm_created_at m; cm_manifest_hash := cm_manifest_hash m;
|}.

(** [model_dump(mode="python", exclude={"manifest_hash"})] *)
Definition challenger_manifest_payload (m : ChallengerManifestV1) : pyval := PDict
  [("schema_version", PStr (cm_schema_version m)); ("challenger_id", PStr (cm_challenger_id m)); ("strategy_id", PStr (cm_strategy_id m));
   ("strategy_version", PStr (cm_strategy_version m)); ("parent_version", PStr (cm_parent_version m));
   ("hypothesis_id", PStr (cm_hypothesis_id m)); ("experiment_family", PStr (cm_experiment_family m));
   ("source_commit", PStr (cm_source_commit m)); ("patch_hash", PStr (cm_patch_hash m)); ("proposal_hash", PStr (cm_proposal_hash m));
   ("code_hash", PStr (cm_code_hash m)); ("config_hash", PStr (cm_config_hash m)); ("test_manifest_hash", PStr (cm_test_manifest_hash m));
   ("created_by_commander", PStr (ResearchCommanderKind_value (cm_created_by_commander m)));
   ("implemented_by_builder", PStr (cm_implemented_by_builder m)); ("evidence_source_ids", str_list (cm_evidence_source_ids m));
   ("required_data", str_list (cm_required_data m)); ("decision_horizon", PStr (cm_decision_horizon m));
   ("execution_universe", str_list (cm_execution_universe m)); ("estimated_turnover", PDict (cm_estimated_turnover m));
   ("estimated_capacity", PDict (cm_estimated_capacity m)); ("status", PStr (ChallengerStatus_value (cm_status m)));
   ("created_at", PDatetime (cm_created_at m))].

(** ** The Builder's bundle *)

Record CandidateRequestBindingV1 := {
  crb_request_id : string;
  crb_research_cycle_id : string;
  crb_context_manifest_hash : string;
  crb_source_snapshot_commit : string;
  crb_champion_version : string;
  crb_experiment_family : string;
  crb_selected_commander : ResearchCommanderKind;
  crb_commander_selection_id : string;
  crb_commander_selection_version : Z;
}.

Record CandidateRuntimeV1 := {
  crt_implementation : string;
  crt_version : string;
  crt_abi_tag : string;
  crt_executable_sha256 : string;
}.

Record CandidateAbiV1 := {
  abi_request_schema_version : string;
  abi_response_schema_version : string;
  abi_entrypoint_input : string;
  abi_entrypoint_output : string;
  abi_orders_permitted : bool;
  abi_fills_permitted : bool;
  abi_returns_or_pnl_permitted : bool;
}.

Record CandidateArtifactBundleV1 := {
  cb_schema_version : string;
  cb_bundle_id : string;
  cb_challenger_id : string;
  cb_request_binding : CandidateRequestBindingV1;
  cb_source_snapshot_hash : string;
  cb_candidate_tree_hash : string;
  cb_code_hash : string;
  cb_config_hash : string;
  cb_patch_hash : string;
  cb_proposal_hash : string;
  cb_builder_result_hash : string;
  cb_test_manifest_hash : string;
  cb_challenger_manifest_hash : string;
  cb_validation_request_hash : string;
  cb_runtime : CandidateRuntimeV1;
  cb_declared_entrypoint : string;
  cb_candidate_abi : CandidateAbiV1;
  cb_broker_access_permitted : bool;
  cb_credential_access_permitted : bool;
  cb_network_access_permitted : bool;
  cb_filesystem_write_permitted : bool;
  cb_real_order_routing : bool;
  cb_bundle_hash : string;
}.

Definition request_binding_dump (b : CandidateRequestBindingV1) : pyval := PDict
  [("request_id", PStr (crb_request_id b)); ("research_cycle_id", PStr (crb_research_cycle_id b));
   ("context_manifest_hash", PStr (crb_context_manifest_hash b)); ("source_snapshot_commit", PStr (crb_source_snapshot_commit b));
   ("champion_version", PStr (crb_champion_version b)); ("experiment_family", PStr (crb_experiment_family b));
   ("selected_commander", PStr (ResearchCommanderKind_value (crb_selected_commander b)));
   ("commander_selection_id", PStr (crb_commander_selection_id b)); ("commander_selection_version", PInt (crb_commander_selection_version b))].

Definition runtime_dump (r : CandidateRuntimeV1) : pyval := PDict
  [("implementation", PStr (crt_implementation r)); ("version", PStr (crt_version r)); ("abi_tag", PStr (crt_abi_tag r));
   ("executable_sha256", PStr (crt_executable_sha256 r))].

Definition abi_dump (a : CandidateAbiV1) : pyval := PDict
  [("request_schema_version", PStr (abi_request_schema_version a)); ("response_schema_version", PStr (abi_response_schema_version a));
   ("entrypoint_input", PStr (abi_entrypoint_input a)); ("entrypoint_output", PStr (abi_entrypoint_output a));
   ("orders_permitted", PBool (abi_orders_permitted a)); ("fills_permitted", PBool (abi_fills_permitted a));
   ("returns_or_pnl_permitted", PBool (abi_returns_or_pnl_permitted a))].

(** [model_dump(mode="python", exclude={"bundle_hash"})] *)
Definition bundle_payload (b : CandidateArtifactBundleV1) : pyval := PDict
  [("schema_version", PStr (cb_schema_version b)); ("bundle_id", PStr (cb_bundle_id b)); ("challenger_id", PStr (cb_challenger_id b));
   ("request_binding", request_binding_dump (cb_request_binding b)); ("source_snapshot_hash", PStr (cb_source_snapshot_hash b));
   ("candidate_tree_hash", PStr (cb_candidate_tree_hash b)); ("code_hash", PStr (cb_code_hash b)); ("config_hash", PStr (cb_config_hash b));
   ("patch_hash", PStr (cb_patch_hash b)); ("proposal_hash", PStr (cb_proposal_hash b));
   ("builder_result_hash", PStr (cb_builder_result_hash b)); ("test_manifest_hash", PStr (cb_test_manifest_hash b));
   ("challenger_manifest_hash", PStr (cb_challenger_manifest_hash b)); ("validation_request_hash", PStr (cb_validation_request_hash b));
   ("runtime", runtime_dump (cb_runtime b)); ("declared_entrypoint", PStr (cb_declared_entrypoint b));
   ("candidate_abi", abi_dump (cb_candidate_abi b)); ("broker_access_permitted", PBool (cb_broker_access_permitted b));
   ("credential_access_permitted", PBool (cb_credential_access_permitted b)); ("network_access_permitted", PBool (cb_network_access_permitted b));
   ("filesystem_write_permitted", PBool (cb_filesystem_write_permitted b)); ("real_order_routing", PBool (cb_real_order_routing b))].

(** [^[A-Za-z_][A-Za-z0-9_.]*:[A-Za-z_][A-Za-z0-9_]*$] *)
Definition is_name_start (c : ascii) : bool := is_upper c || ascii_in 97 122 c || Ascii.eqb c "_"%char.
Definition function_name (s : string) : bool :=
  match s with EmptyString => false | String c s => is_name_start c && all_chars (λ c, is_alnum c || Ascii.eqb c "_"%char) s end.
Fixpoint module_then_function (s : string) : bool :=
  match s with
  | EmptyString => false
  | String c s => if Ascii.eqb c ":"%char then function_name s else (is_alnum c || one_of "_." c) && module_then_function s
  end.
Definition entrypoint_pattern (s : string) : bool :=
  match s with EmptyString => false | String c s => is_name_start c && module_then_function s end.

Definition validate_CandidateRequestBindingV1 (b : CandidateRequestBindingV1) : res CandidateRequestBindingV1 :=
  invalid (negb (forallb identifier_pattern [crb_request_id b; crb_research_cycle_id b; crb_experiment_family b; crb_commander_selection_id b]))
    "identifier pattern";;
  invalid (negb (hash_pattern (crb_context_manifest_hash b))) "context_manifest_hash";;
  invalid (negb (commit_pattern (crb_source_snapshot_commit b))) "source_snapshot_commit";;
  invalid (negb (version_pattern (crb_champion_version b))) "champion_version";;
  invalid (crb_commander_selection_version b <? 1) "commander_selection_version";;
  Ok b.

Definition validate_CandidateRuntimeV1 (r : CandidateRuntimeV1) : res CandidateRuntimeV1 :=
  invalid (negb (len_between 1 80 (crt_implementation r))) "implementation";;
  invalid (negb (len_between 1 80 (crt_version r))) "version";;
  invalid (negb (len_between 1 120 (crt_abi_tag r))) "abi_tag";;
  invalid (negb (hash_pattern (crt_executable_sha256 r))) "executable_sha256";;
  Ok r.

Definition validate_CandidateAbiV1 (a : CandidateAbiV1) : res CandidateAbiV1 :=
  invalid (negb (String.eqb (abi_request_schema_version a) "candidate_decision_request_v1")) "request_schema_version";;
  invalid (negb (String.eqb (abi_response_schema_version a) "candidate_decision_response_v1")) "response_schema_version";;
  invalid (negb (String.eqb (abi_entrypoint_input a) "RAW_JSON_OBJECT")) "entrypoint_input";;
  invalid (negb (String.eqb (abi_entrypoint_output a) "RAW_JSON_OBJECT")) "entrypoint_output";;
  invalid (abi_orders_permitted a || abi_fills_permitted a || abi_returns_or_pnl_permitted a) "literal";;
  Ok a.

(** ** A failed candidate test run *)

Record CandidateTestCountsV1 := {
  tc_collected : Z;
  tc_passed : Z;
  tc_failed : Z;
  tc_skipped : Z;
  tc_errors : Z;
  tc_xfailed : Z;
  tc_xpassed : Z;
  tc_deselected : Z;
}.

Definition test_counts_dump (c : CandidateTestCountsV1) : pyval := PDict
  [("collected", PInt (tc_collected c)); ("passed", PInt (tc_passed c)); ("failed", PInt (tc_failed c)); ("skipped", PInt (tc_skipped c));
   ("errors", PInt (tc_errors c)); ("xfailed", PInt (tc_xfailed c)); ("xpassed", PInt (tc_xpassed c)); ("deselected", PInt (tc_deselected c))].

Definition validate_CandidateTestCountsV1 (c : CandidateTestCountsV1) : res CandidateTestCountsV1 :=
  invalid (existsb (λ n, n <? 0)
    [tc_collected c; tc_passed c; tc_failed c; tc_skipped c; tc_errors c; tc_xfailed c; tc_xpassed c; tc_deselected c]) "negative count";;
  invalid (tc_failed c + tc_errors c <? 1) "a failed Candidate test record requires a failure or error";;
  Ok c.

Record CandidateTestFailureV1 := {
  tf_schema_version : string;
  tf_challenger_id : string;
  tf_candidate_manifest_hash : string;
  tf_proposal_hash : string;
  tf_patch_hash : string;
  tf_test_manifest_hash : string;
  tf_runner_code_hash : string;
  tf_execution_contract_version : string;
  tf_status : string;
  tf_exit_code : Z;
  tf_test_count : CandidateTestCountsV1;
  tf_failure_reason_code : string;
  tf_candidate_tree_unchanged : bool;
  tf_candidate_source_projection_unchanged : bool;
  tf_candidate_test_projection_unchanged : bool;
  tf_host_abi_test_unchanged : bool;
  tf_output_limit_exceeded : bool;
  tf_raw_output_persisted : bool;
  tf_network_access_permitted : bool;
  tf_credential_access_permitted : bool;
  tf_broker_access_permitted : bool;
  tf_host_principal_persisted : bool;
  tf_real_order_routing : bool;
  tf_created_at : datetime;
  tf_failure_hash : string;
}.

Definition test_failure_fields (f : CandidateTestFailureV1) : list (string * pyval) :=
  [("schema_version", PStr (tf_schema_version f)); ("challenger_id", PStr (tf_challenger_id f));
   ("candidate_manifest_hash", PStr (tf_candidate_manifest_hash f)); ("proposal_hash", PStr (tf_proposal_hash f));
   ("patch_hash", PStr (tf_patch_hash f)); ("test_manifest_hash", PStr (tf_test_manifest_hash f));
   ("runner_code_hash", PStr (tf_runner_code_hash f)); ("execution_contract_version", PStr (tf_execution_contract_version f));
   ("status", PStr (tf_status f)); ("exit_code", PInt (tf_exit_code f)); ("test_count", test_counts_dump (tf_test_count f));
   ("failure_reason_code", PStr (tf_failure_reason_code f)); ("candidate_tree_unchanged", PBool (tf_candidate_tree_unchanged f));
   ("candidate_source_projection_unchanged", PBool (tf_candidate_source_projection_unchanged f));
   ("candidate_test_projection_unchanged", PBool (tf_candidate_test_projection_unchanged f));
   ("host_abi_test_unchanged", PBool (tf_host_abi_test_unchanged f)); ("output_limit_exceeded", PBool (tf_output_limit_exceeded f));
   ("raw_output_persisted", PBool (tf_raw_output_persisted f)); ("network_access_permitted", PBool (tf_network_access_permitted f));
   ("credential_access_permitted", PBool (tf_credential_access_permitted f)); ("broker_access_permitted", PBool (tf_broker_access_permitted f));
   ("host_principal_persisted", PBool (tf_host_principal_persisted f)); ("real_order_routing", PBool (tf_real_order_routing f))].

(** [model_dump(mode="python", exclude={"failure_hash"})] *)
Definition test_failure_payload (f : CandidateTestFailureV1) : pyval :=
  PDict (test_failure_fields f ++ [("created_at", PDatetime (tf_created_at f))]).

(** [model_payload(failure)] *)
Definition test_failure_json `{JsonDatetime} (f : CandidateTestFailureV1) : pyval :=
  PDict (test_failure_fields f ++ [("created_at", PStr (json_datetime (tf_created_at f))); ("failure_hash", PStr (tf_failure_hash f))]).

(** ** Out-of-sample results and reservations *)

Inductive OosVerdict := OOS_PASS | OOS_FAIL.
#[global] Instance OosVerdict_eq_dec : EqDecision OosVerdict.
Proof. solve_decision. Defined.

Definition OosVerdict_value (v : OosVerdict) : string := match v with OOS_PASS => "PASS" | OOS_FAIL => "FAIL" end.

Definition OOS_REASON_CODES : list string :=
  ["PREDECLARED_OOS_CRITERIA_PASSED"; "INSUFFICIENT_COMMON_SESSIONS"; "MINIMUM_ECONOMIC_EFFECT_NOT_MET"; "COST_ADJUSTED_EFFECT_NOT_MET";
   "LOCKBOX_DATA_UNAVAILABLE"; "LOCKBOX_DATA_HASH_MISMATCH"; "LOCKBOX_DATA_INVALID"; "LOCKBOX_DATA_INCOMPLETE"; "LOCKBOX_DATA_DUPLICATE";
   "LOCKBOX_DATA_PIT_INVALID"].

Definition allowed_aggregate_keys : list string :=
  ["mean_daily_difference"; "annualized_difference"; "newey_west_standard_error"; "bootstrap_ci_lower"; "bootstrap_ci_upper";
   "cost_sensitivity_0_bps_annualized_difference"; "cost_sensitivity_5_bps_annualized_difference";
   "cost_sensitivity_10_bps_annualized_difference"].

Definition string_in (s : string) (l : list string) : bool := existsb (String.eqb s) l.
Definition passed_code : string := "PREDECLARED_OOS_CRITERIA_PASSED".

(** An aggregate statistic that is not a finite number makes the hash fail; the values here are finite. *)
Record OosLockboxResultV1 := {
  ol_schema_version : string;
  ol_challenger_id : string;
  ol_experiment_family : string;
  ol_submission_number : Z;
  ol_candidate_artifact_hash : string;
  ol_evaluation_contract_hash : string;
  ol_verdict : OosVerdict;
  ol_reason_codes : list string;
  ol_aggregate_statistics : pydict pyfloat;
  ol_common_sessions : Z;
  ol_budget_consumed : Z;
  ol_evaluated_at : datetime;
  ol_result_hash : string;
}.

(** [model_dump(mode="python", exclude={"result_hash"})] *)
Definition oos_result_payload (r : OosLockboxResultV1) : pyval := PDict
  [("schema_version", PStr (ol_schema_version r)); ("challenger_id", PStr (ol_challenger_id r));
   ("experiment_family", PStr (ol_experiment_family r)); ("submission_number", PInt (ol_submission_number r));
   ("candidate_artifact_hash", PStr (ol_candidate_artifact_hash r)); ("evaluation_contract_hash", PStr (ol_evaluation_contract_hash r));
   ("verdict", PStr (OosVerdict_value (ol_verdict r))); ("reason_codes", str_list (ol_reason_codes r));
   ("aggregate_statistics", PDict (map (λ kv, (kv.1, PFloat kv.2)) (ol_aggregate_statistics r)));
   ("common_sessions", PInt (ol_common_sessions r)); ("budget_consumed", PInt (ol_budget_consumed r));
   ("evaluated_at", PDatetime (ol_evaluated_at r))].

Record OosEvaluationRequest := {
  oq_challenger_id : string;
  oq_experiment_family : string;
  oq_submission_number : Z;
  oq_candidate_artifact_hash : string;
  oq_evaluation_contract_hash : string;
}.

Record OosBudgetReservationV1 := {
  ob_schema_version : string;
  ob_reservation_id : string;
  ob_challenger_id : string;
  ob_experiment_family : string;
  ob_submission_number : Z;
  ob_submission_ordinal : Z;
  ob_oos_budget_ordinal : Z;
  ob_candidate_artifact_hash : string;
  ob_evaluation_contract_hash : string;
  ob_idempotency_key : string;
  ob_created_at : datetime;
  ob_expires_at : datetime;
  ob_reservation_hash : string;
}.
#[global] Instance OosBudgetReservationV1_eq_dec : EqDecision OosBudgetReservationV1.
Proof. solve_decision. Defined.

(** [model_dump(mode="python", exclude={"reservation_hash"})] *)
Definition reservation_payload (r : OosBudgetReservationV1) : pyval := PDict
  [("schema_version", PStr (ob_schema_version r)); ("reservation_id", PStr (ob_reservation_id r)); ("challenger_id", PStr (ob_challenger_id r));
   ("experiment_family", PStr (ob_experiment_family r)); ("submission_number", PInt (ob_submission_number r));
   ("submission_ordinal", PInt (ob_submission_ordinal r)); ("oos_budget_ordinal", PInt (ob_oos_budget_ordinal r));
   ("candidate_artifact_hash", PStr (ob_candidate_artifact_hash r)); ("evaluation_contract_hash", PStr (ob_evaluation_contract_hash r));
   ("idempotency_key", PStr (ob_idempotency_key r)); ("created_at", PDatetime (ob_created_at r)); ("expires_at", PDatetime (ob_expires_at r))].

(** ** Validation *)

Section contracts.
Context `{Digest}.

Definition validate_ChallengerManifestV1 (m : ChallengerManifestV1) : res ChallengerManifestV1 :=
  invalid (negb (forallb identifier_pattern [cm_challenger_id m; cm_strategy_id m; cm_hypothesis_id m; cm_experiment_family m])) "identifier";;
  invalid (negb (forallb version_pattern [cm_strategy_version m; cm_parent_version m])) "version";;
  invalid (negb (commit_pattern (cm_source_commit m))) "source_commit";;
  invalid (negb (forallb hash_pattern [cm_patch_hash m; cm_proposal_hash m; cm_code_hash m; cm_config_hash m; cm_test_manifest_hash m;
                                       cm_manifest_hash m])) "hash";;
  invalid (negb (len_between 1 120 (cm_implemented_by_builder m))) "implemented_by_builder";;
  invalid (is_nil (cm_evidence_source_ids m)) "evidence_source_ids";;
  invalid (is_nil (cm_required_data m)) "required_data";;
  invalid (negb (len_between 1 120 (cm_decision_horizon m))) "decision_horizon";;
  invalid (negb (count_between 1 2000 (cm_execution_universe m))) "execution_universe";;
  invalid (negb (json_dict (cm_estimated_turnover m) && json_dict (cm_estimated_capacity m))) "json";;
  aware (cm_created_at m);;
  universe ← normalize_universe (cm_execution_universe m);
  let m := with_execution_universe universe m in
  h ← canonical_hash (challenger_manifest_payload m);
  invalid (negb (String.eqb h (cm_manifest_hash m))) "manifest_hash mismatch";;
  invalid (String.eqb (cm_strategy_version m) (cm_parent_version m)) "a Challenger cannot overwrite its parent version";;
  Ok m.

Definition validate_CandidateArtifactBundleV1 (b : CandidateArtifactBundleV1) : res CandidateArtifactBundleV1 :=
  invalid (negb (String.eqb (cb_schema_version b) "candidate_artifact_bundle_v1")) "schema_version";;
  invalid (negb (forallb identifier_pattern [cb_bundle_id b; cb_challenger_id b])) "identifier";;
  validate_CandidateRequestBindingV1 (cb_request_binding b);;
  invalid (negb (forallb hash_pattern
    [cb_source_snapshot_hash b; cb_candidate_tree_hash b; cb_code_hash b; cb_config_hash b; cb_patch_hash b; cb_proposal_hash b;
     cb_builder_result_hash b; cb_test_manifest_hash b; cb_challenger_manifest_hash b; cb_validation_request_hash b; cb_bundle_hash b])) "hash";;
  validate_CandidateRuntimeV1 (cb_runtime b);;
  invalid (negb (entrypoint_pattern (cb_declared_entrypoint b))) "declared_entrypoint";;
  validate_CandidateAbiV1 (cb_candidate_abi b);;
  invalid (cb_broker_access_permitted b || cb_credential_access_permitted b || cb_network_access_permitted b
           || cb_filesystem_write_permitted b || cb_real_order_routing b) "literal";;
  h ← canonical_hash (bundle_payload b);
  invalid (negb (String.eqb h (cb_bundle_hash b))) "Candidate artifact bundle hash mismatch";;
  Ok b.

Definition validate_CandidateTestFailureV1 (f : CandidateTestFailureV1) : res CandidateTestFailureV1 :=
  invalid (negb (String.eqb (tf_schema_version f) "candidate_test_failure_v1")) "schema_version";;
  invalid (negb (identifier_pattern (tf_challenger_id f))) "challenger_id";;
  invalid (negb (forallb hash_pattern [tf_candidate_manifest_hash f; tf_proposal_hash f; tf_patch_hash f; tf_test_manifest_hash f;
                                       tf_runner_code_hash f; tf_failure_hash f])) "hash";;
  invalid (negb (len_between 1 160 (tf_execution_contract_version f))) "execution_contract_version";;
  invalid (negb (String.eqb (tf_status f) "FAILED")) "status";;
  validate_CandidateTestCountsV1 (tf_test_count f);;
  invalid (negb (String.eqb (tf_failure_reason_code f) "CANDIDATE_TEST_SUITE_FAILED")) "failure_reason_code";;
  invalid (negb (tf_candidate_tree_unchanged f && tf_candidate_source_projection_unchanged f && tf_candidate_test_projection_unchanged f
                 && tf_host_abi_test_unchanged f)) "literal";;
  invalid (tf_output_limit_exceeded f || tf_raw_output_persisted f || tf_network_access_permitted f || tf_credential_access_permitted f
           || tf_broker_access_permitted f || tf_host_principal_persisted f || tf_real_order_routing f) "literal";;
  aware (tf_created_at f);;
  invalid (tf_exit_code f =? 0) "a failed Candidate test record requires a nonzero exit code";;
  h ← canonical_hash (test_failure_payload f);
  invalid (negb (String.eqb h (tf_failure_hash f))) "failure_hash mismatch";;
  Ok f.

Definition validate_OosLockboxResultV1 (r : OosLockboxResultV1) : res OosLockboxResultV1 :=
  invalid (negb (forallb identifier_pattern [ol_challenger_id r; ol_experiment_family r])) "identifier";;
  invalid (ol_submission_number r <? 1) "submission_number";;
  invalid (negb (forallb hash_pattern [ol_candidate_artifact_hash r; ol_evaluation_contract_hash r; ol_result_hash r])) "hash";;
  invalid (negb (count_between 1 20 (ol_reason_codes r))) "reason_codes";;
  invalid (negb (count_between 0 20 (ol_aggregate_statistics r))) "aggregate_statistics";;
  invalid (ol_common_sessions r <? 0) "common_sessions";;
  invalid (ol_budget_consumed r <? 1) "budget_consumed";;
  aware (ol_evaluated_at r);;
  invalid (has_dup (ol_reason_codes r)) "OOS reason codes must be unique";;
  invalid (negb (forallb (λ c, string_in c OOS_REASON_CODES) (ol_reason_codes r))) "OOS result contains a non-approved reason code";;
  invalid (negb (forallb (λ kv, string_in kv.1 allowed_aggregate_keys) (ol_aggregate_statistics r)))
    "OOS result contains a non-approved aggregate";;
  invalid (bool_decide (ol_verdict r = OOS_PASS) && negb (bool_decide (ol_reason_codes r = [passed_code])))
    "passed OOS result has invalid reason codes";;
  invalid (bool_decide (ol_verdict r = OOS_FAIL) && string_in passed_code (ol_reason_codes r))
    "failed OOS result cannot contain the pass reason";;
  h ← canonical_hash (oos_result_payload r);
  invalid (negb (String.eqb h (ol_result_hash r))) "OOS result hash mismatch";;
  Ok r.

Definition validate_OosBudgetReservationV1 (r : OosBudgetReservationV1) : res OosBudgetReservationV1 :=
  invalid (negb (forallb identifier_pattern [ob_reservation_id r; ob_challenger_id r; ob_experiment_family r; ob_idempotency_key r]))
    "identifier";;
  invalid ((ob_submission_number r <? 1) || (ob_submission_ordinal r <? 1) || (ob_oos_budget_ordinal r <? 1)) "ordinal";;
  invalid (negb (forallb hash_pattern [ob_candidate_artifact_hash r; ob_evaluation_contract_hash r; ob_reservation_hash r])) "hash";;
  aware (ob_created_at r);; aware (ob_expires_at r);;
  invalid (dt_le (ob_expires_at r) (ob_created_at r)) "OOS budget reservation must expire after creation";;
  invalid (negb (ob_submission_number r =? ob_submission_ordinal r)) "OOS submission number must equal its reserved ordinal";;
  h ← canonical_hash (reservation_payload r);
  invalid (negb (String.eqb h (ob_reservation_hash r))) "OOS budget reservation hash mismatch";;
  Ok r.
End contracts.
