(* ===== verification/ChallengerLedger.v ===== *)
(** * The challenger ledger ([persistence/research.py])

    The append-only tables of the challenger lifecycle and the transactions of [ResearchRepository] on them: the gates that move a
    challenger from PROPOSED to promotion eligibility, and the budget that out-of-sample submissions draw on.  A transaction gives
    the ledger it commits, or raises and leaves the ledger as it was.  Rows are locked by the database only on PostgreSQL; the two
    budget transactions, which run without a row lock, take the ledger they read and the ledger they write apart.  A JSON column
    that holds a contract is kept as that contract, and reading it validates it again; another JSON column is kept as the payload
    whose canonical data the code stores. *)
From Stdlib Require Import ZArith Lia Ascii String.
From stdpp Require Import base list strings numbers sets.
From S2P Require Import Prelude PyDecimal Hashing Domain Text Falsification Promotion Schedule DispatchExecution Challenger.
Set Default Goal Selector "!".
Open Scope Z_scope.

(** ** Rows *)

Record AlgorithmProposalRow := {
  apr_proposal_id : string;
  apr_parent_strategy_id : string;
  apr_parent_strategy_version : string;
  apr_proposal_hash : string;
}.

Record ChallengerManifestRow := {
  cmr_challenger_id : string;
  cmr_proposal_id : string;
  cmr_strategy_id : string;
  cmr_strategy_version : string;
  cmr_parent_version : string;
  cmr_experiment_family : string;
  cmr_source_commit : string;
  cmr_patch_hash : string;
  cmr_code_hash : string;
  cmr_config_hash : string;
  cmr_test_manifest_hash : string;
  cmr_initial_status : ChallengerStatus;
  cmr_manifest_hash : string;
  cmr_payload : ChallengerManifestV1;
  cmr_created_at : datetime;
}.

Record ResearchCandidateArtifactRow := {
  car_bundle_id : string;
  car_challenger_id : string;
  car_proposal_id : string;
  car_research_cycle_id : string;
  car_candidate_tree_hash : string;
  car_code_hash : string;
  car_config_hash : string;
  car_test_manifest_hash : string;
  car_declared_entrypoint : string;
  car_bundle_hash : string;
  car_real_order_routing : bool;
  car_payload : CandidateArtifactBundleV1;
  car_created_at : datetime;
}.

Record ResearchReplayArtifactRow := {
  rar_replay_artifact_id : string;
  rar_challenger_id : string;
  rar_candidate_artifact_hash : string;
  rar_config_hash : string;
  rar_code_hash : string;
  rar_data_manifest_hash : string;
  rar_first_replay_hash : string;
  rar_second_replay_hash : string;
  rar_deterministic_match : bool;
  rar_artifact_hash : string;
  rar_payload_json : pydict pyval;
  rar_created_at : datetime;
}.

Record FalsificationReportRow := {
  far_falsification_report_id : string;
  far_challenger_id : string;
  far_mandatory_passed : bool;
  far_report_hash : string;
  far_payload : FalsificationReportV1;
  far_created_at : datetime;
}.

Record OosLockboxResultRow := {
  oor_oos_result_id : string;
  oor_challenger_id : string;
  oor_experiment_family : string;
  oor_submission_number : Z;
  oor_candidate_artifact_hash : string;
  oor_evaluation_contract_hash : string;
  oor_verdict : OosVerdict;
  oor_common_sessions : Z;
  oor_result_hash : string;
  oor_payload : OosLockboxResultV1;
  oor_evaluated_at : datetime;
  oor_created_at : datetime;
}.

Inductive ShadowRole := CHAMPION | CHALLENGER.
#[global] Instance ShadowRole_eq_dec : EqDecision ShadowRole.
Proof. solve_decision. Defined.
Definition ShadowRole_value (r : ShadowRole) : string := match r with CHAMPION => "CHAMPION" | CHALLENGER => "CHALLENGER" end.

Record ResearchShadowArmRegistrationRow := {
  shr_shadow_registration_id : string;
  shr_shadow_pair_id : string;
  shr_challenger_id : string;
  shr_oos_result_id : string;
  shr_arm_role : ShadowRole;
  shr_arm_id : string;
  shr_strategy_id : string;
  shr_strategy_version : string;
  shr_execution_contract_hash : string;
  shr_real_order_routing : bool;
  shr_payload_json : pydict pyval;
  shr_created_at : datetime;
}.

Record ChallengerEventRow := {
  cev_challenger_event_id : string;
  cev_challenger_id : string;
  cev_sequence : Z;
  cev_from_status : ChallengerStatus;
  cev_to_status : ChallengerStatus;
  cev_reason_code : string;
  cev_artifact_hash : option string;
  cev_idempotency_key : string;
  cev_event_hash : string;
  cev_payload_json : pydict pyval;
  cev_created_at : datetime;
}.

Record ExperimentBudgetEventRow := {
  bev_budget_event_id : string;
  bev_experiment_family : string;
  bev_event_type : string;
  bev_submission_delta : Z;
  bev_oos_budget_delta : Z;
  bev_hypothesis_delta : Z;
  bev_failure_delta : Z;
  bev_idempotency_key : string;
  bev_event_hash : string;
  bev_payload_json : pydict pyval;
  bev_created_at : datetime;
}.

Record OosBudgetReservationRow := {
  rsv_reservation_id : string;
  rsv_challenger_id : string;
  rsv_experiment_family : string;
  rsv_submission_number : Z;
  rsv_submission_ordinal : Z;
  rsv_oos_budget_ordinal : Z;
  rsv_candidate_artifact_hash : string;
  rsv_evaluation_contract_hash : string;
  rsv_idempotency_key : string;
  rsv_reservation_hash : string;
  rsv_payload : OosBudgetReservationV1;
  rsv_created_at : datetime;
  rsv_expires_at : datetime;
}.

Record ResearchPromotionDecisionRow := {
  pdr_promotion_decision_id : string;
  pdr_challenger_id : string;
  pdr_verdict : PromotionVerdict;
  pdr_automatic_promotion_enabled : bool;
  pdr_replay_hash : string;
  pdr_decision_hash : string;
  pdr_payload : PromotionDecisionV1;
  pdr_created_at : datetime;
}.

(** ** The ledger *)

Record challenger_ledger := {
  proposals : list AlgorithmProposalRow;
  manifests : list ChallengerManifestRow;
  candidates : list ResearchCandidateArtifactRow;
  replays : list ResearchReplayArtifactRow;
  reports : list FalsificationReportRow;
  oos_results : list OosLockboxResultRow;
  shadow_arms : list ResearchShadowArmRegistrationRow;
  challenger_events : list ChallengerEventRow;
  budget_events : list ExperimentBudgetEventRow;
  reservations : list OosBudgetReservationRow;
  decisions : list ResearchPromotionDecisionRow;
}.

Definition empty_challengers : challenger_ledger := {|
  proposals := []; manifests := []; candidates := []; replays := []; reports := []; oos_results := []; shadow_arms := [];
  challenger_events := []; budget_events := []; reservations := []; decisions := [];
|}.

(** One row of one of the tables. *)
Inductive table_row :=
  | RProposal (r : AlgorithmProposalRow)
  | RManifest (r : ChallengerManifestRow)
  | RCandidate (r : ResearchCandidateArtifactRow)
  | RReplay (r : ResearchReplayArtifactRow)
  | RReport (r : FalsificationReportRow)
  | ROos (r : OosLockboxResultRow)
  | RShadow (r : ResearchShadowArmRegistrationRow)
  | REvent (r : ChallengerEventRow)
  | RBudget (r : ExperimentBudgetEventRow)
  | RReservation (r : OosBudgetReservationRow)
  | RDecision (r : ResearchPromotionDecisionRow).

(** The row at the end of its table. *)
Definition put (l : challenger_ledger) (row : table_row) : challenger_ledger := {|
  proposals := proposals l ++ match row with RProposal r => [r] | _ => [] end;
  manifests := manifests l ++ match row with RManifest r => [r] | _ => [] end;
  candidates := candidates l ++ match row with RCandidate r => [r] | _ => [] end;
  replays := replays l ++ match row with RReplay r => [r] | _ => [] end;
  reports := reports l ++ match row with RReport r => [r] | _ => [] end;
  oos_results := oos_results l ++ match row with ROos r => [r] | _ => [] end;
  shadow_arms := shadow_arms l ++ match row with RShadow r => [r] | _ => [] end;
  challenger_events := challenger_events l ++ match row with REvent r => [r] | _ => [] end;
  budget_events := budget_events l ++ match row with RBudget r => [r] | _ => [] end;
  reservations := reservations l ++ match row with RReservation r => [r] | _ => [] end;
  decisions := decisions l ++ match row with RDecision r => [r] | _ => [] end;
|}.

(** ** The tables' constraints *)

Notation "a =s b" := (String.eqb a b) (at level 70, only parsing).

Definition has_proposal (l : challenger_ledger) (id : string) : bool := existsb (λ r, apr_proposal_id r =s id) (proposals l).
Definition has_manifest (l : challenger_ledger) (id : string) : bool := existsb (λ r, cmr_challenger_id r =s id) (manifests l).
Definition has_oos_result (l : challenger_ledger) (id : string) : bool := existsb (λ r, oor_oos_result_id r =s id) (oos_results l).

(** A constraint of each table that the ledger violates with the row. *)
Definition proposal_conflict (l : challenger_ledger) (n : AlgorithmProposalRow) : bool :=
  existsb (λ r, (apr_proposal_id r =s apr_proposal_id n) || (apr_proposal_hash r =s apr_proposal_hash n)) (proposals l).

Definition manifest_conflict (l : challenger_ledger) (n : ChallengerManifestRow) : bool :=
  existsb (λ r, (cmr_challenger_id r =s cmr_challenger_id n) || (cmr_manifest_hash r =s cmr_manifest_hash n)
                || ((cmr_strategy_id r =s cmr_strategy_id n) && (cmr_strategy_version r =s cmr_strategy_version n))) (manifests l)
  || negb (has_proposal l (cmr_proposal_id n)).

Definition candidate_conflict (l : challenger_ledger) (n : ResearchCandidateArtifactRow) : bool :=
  existsb (λ r, (car_bundle_id r =s car_bundle_id n) || (car_challenger_id r =s car_challenger_id n)
                || (car_bundle_hash r =s car_bundle_hash n)) (candidates l)
  || negb (has_manifest l (car_challenger_id n)) || negb (has_proposal l (car_proposal_id n)) || car_real_order_routing n.

Definition replay_conflict (l : challenger_ledger) (n : ResearchReplayArtifactRow) : bool :=
  existsb (λ r, (rar_replay_artifact_id r =s rar_replay_artifact_id n) || (rar_challenger_id r =s rar_challenger_id n)
                || (rar_artifact_hash r =s rar_artifact_hash n)) (replays l)
  || negb (has_manifest l (rar_challenger_id n)).

Definition report_conflict (l : challenger_ledger) (n : FalsificationReportRow) : bool :=
  existsb (λ r, (far_falsification_report_id r =s far_falsification_report_id n) || (far_challenger_id r =s far_challenger_id n)
                || (far_report_hash r =s far_report_hash n)) (reports l)
  || negb (has_manifest l (far_challenger_id n)).

Definition oos_conflict (l : challenger_ledger) (n : OosLockboxResultRow) : bool :=
  existsb (λ r, (oor_oos_result_id r =s oor_oos_result_id n) || (oor_result_hash r =s oor_result_hash n)
                || ((oor_challenger_id r =s oor_challenger_id n) && (oor_submission_number r =? oor_submission_number n))) (oos_results l)
  || negb (has_manifest l (oor_challenger_id n)).

Definition shadow_conflict (l : challenger_ledger) (n : ResearchShadowArmRegistrationRow) : bool :=
  existsb (λ r, (shr_shadow_registration_id r =s shr_shadow_registration_id n) || (shr_arm_id r =s shr_arm_id n)
                || ((shr_shadow_pair_id r =s shr_shadow_pair_id n) && bool_decide (shr_arm_role r = shr_arm_role n))
                || ((shr_challenger_id r =s shr_challenger_id n) && bool_decide (shr_arm_role r = shr_arm_role n))) (shadow_arms l)
  || negb (has_manifest l (shr_challenger_id n)) || negb (has_oos_result l (shr_oos_result_id n)).

Definition event_conflict (l : challenger_ledger) (n : ChallengerEventRow) : bool :=
  existsb (λ r, (cev_challenger_event_id r =s cev_challenger_event_id n) || (cev_event_hash r =s cev_event_hash n)
                || ((cev_challenger_id r =s cev_challenger_id n)
                    && ((cev_idempotency_key r =s cev_idempotency_key n) || (cev_sequence r =? cev_sequence n)))) (challenger_events l)
  || negb (has_manifest l (cev_challenger_id n)).

Definition budget_conflict (l : challenger_ledger) (n : ExperimentBudgetEventRow) : bool :=
  existsb (λ r, (bev_budget_event_id r =s bev_budget_event_id n) || (bev_event_hash r =s bev_event_hash n)
                || ((bev_experiment_family r =s bev_experiment_family n) && (bev_idempotency_key r =s bev_idempotency_key n)))
    (budget_events l).

Definition reservation_conflict (l : challenger_ledger) (n : OosBudgetReservationRow) : bool :=
  existsb (λ r, (rsv_reservation_id r =s rsv_reservation_id n) || (rsv_reservation_hash r =s rsv_reservation_hash n)
                || ((rsv_experiment_family r =s rsv_experiment_family n)
                    && ((rsv_idempotency_key r =s rsv_idempotency_key n) || (rsv_submission_number r =? rsv_submission_number n)
                        || (rsv_submission_ordinal r =? rsv_submission_ordinal n)
                        || (rsv_oos_budget_ordinal r =? rsv_oos_budget_ordinal n)))) (reservations l)
  || negb (has_manifest l (rsv_challenger_id n)).

Definition decision_conflict (l : challenger_ledger) (n : ResearchPromotionDecisionRow) : bool :=
  existsb (λ r, (pdr_promotion_decision_id r =s pdr_promotion_decision_id n) || (pdr_decision_hash r =s pdr_decision_hash n)) (decisions l)
  || negb (has_manifest l (pdr_challenger_id n)).

Definition violates (l : challenger_ledger) (row : table_row) : bool :=
  match row with
  | RProposal n => proposal_conflict l n
  | RManifest n => manifest_conflict l n
  | RCandidate n => candidate_conflict l n
  | RReplay n => replay_conflict l n
  | RReport n => report_conflict l n
  | ROos n => oos_conflict l n
  | RShadow n => shadow_conflict l n
  | REvent n => event_conflict l n
  | RBudget n => budget_conflict l n
  | RReservation n => reservation_conflict l n
  | RDecision n => decision_conflict l n
  end.

(** [session.add(row)] and the flush that follows it. *)
Definition add (l : challenger_ledger) (row : table_row) : res challenger_ledger :=
  raise_if (violates l row) IntegrityError "constraint";; Ok (put l row).

(** ** Reads *)

Definition required {A} (o : option A) (msg : string) : res A :=
  match o with Some a => Ok a | None => raise ResearchPersistenceError msg end.

(** [except ValueError as exc: raise ResearchPersistenceError(msg) from exc] *)
Definition reraised {A} (r : res A) (msg : string) : res A :=
  match r with Ok a => Ok a | Raise _ => raise ResearchPersistenceError msg end.

Definition get_proposal_row (l : challenger_ledger) (id : string) : option AlgorithmProposalRow :=
  List.find (λ r, apr_proposal_id r =s id) (proposals l).
Definition get_manifest_row (l : challenger_ledger) (id : string) : option ChallengerManifestRow :=
  List.find (λ r, cmr_challenger_id r =s id) (manifests l).
Definition events_of_challenger (l : challenger_ledger) (id : string) : list ChallengerEventRow :=
  List.filter (λ e, cev_challenger_id e =s id) (challenger_events l).
Definition event_with_idempotency_key (l : challenger_ledger) (id key : string) : option ChallengerEventRow :=
  List.find (λ e, (cev_challenger_id e =s id) && (cev_idempotency_key e =s key)) (challenger_events l).
Definition replay_of (l : challenger_ledger) (id : string) : option ResearchReplayArtifactRow :=
  List.find (λ r, rar_challenger_id r =s id) (replays l).
Definition report_of (l : challenger_ledger) (id : string) : option FalsificationReportRow :=
  List.find (λ r, far_challenger_id r =s id) (reports l).
Definition candidate_of (l : challenger_ledger) (id : string) : option ResearchCandidateArtifactRow :=
  List.find (λ r, car_challenger_id r =s id) (candidates l).

(** The deterministic replay of a candidate artifact. *)
Definition passed_replay_of (l : challenger_ledger) (id candidate_artifact_hash : string) : option ResearchReplayArtifactRow :=
  List.find (λ r, (rar_challenger_id r =s id) && (rar_candidate_artifact_hash r =s candidate_artifact_hash) && rar_deterministic_match r)
    (replays l).
Definition passed_report_of (l : challenger_ledger) (id : string) : option FalsificationReportRow :=
  List.find (λ r, (far_challenger_id r =s id) && far_mandatory_passed r) (reports l).

Definition oos_submission (l : challenger_ledger) (id : string) (submission_number : Z) : option OosLockboxResultRow :=
  List.find (λ r, (oor_challenger_id r =s id) && (oor_submission_number r =? submission_number)) (oos_results l).

Definition shadow_registrations (l : challenger_ledger) (id : string) : list ResearchShadowArmRegistrationRow :=
  List.filter (λ r, shr_challenger_id r =s id) (shadow_arms l).

(** [order_by(desc(sequence)).limit(1)] *)
Definition sequence_lt (a b : ChallengerEventRow) : bool := cev_sequence a <? cev_sequence b.
Definition latest_challenger_event (l : challenger_ledger) (id : string) : option ChallengerEventRow :=
  match events_of_challenger l id with [] => None | e :: es => Some (max_by sequence_lt e es) end.

Definition _current_challenger_status (l : challenger_ledger) (manifest : ChallengerManifestRow) : ChallengerStatus :=
  match latest_challenger_event l (cmr_challenger_id manifest) with
  | None => cmr_initial_status manifest
  | Some e => cev_to_status e
  end.

Definition _challenger_for_update (l : challenger_ledger) (challenger_id : string) : res ChallengerManifestRow :=
  required (get_manifest_row l challenger_id) "unknown Challenger".

Definition challenger_status (l : challenger_ledger) (challenger_id : string) : res ChallengerStatus :=
  manifest ← required (get_manifest_row l challenger_id) "unknown Challenger";
  Ok (_current_challenger_status l manifest).

(** The set has exactly one element. *)
Definition one_value (l : list string) : bool :=
  match l with [] => false | x :: l => forallb (String.eqb x) l end.

(** [len(registrations) != 2 or roles != {...} or ... or any(row.real_order_routing ...)], negated. *)
Definition matched_paper_pair (registrations : list ResearchShadowArmRegistrationRow) : bool :=
  (length registrations =? 2)%nat
  && existsb (λ r, bool_decide (shr_arm_role r = CHAMPION)) registrations
  && existsb (λ r, bool_decide (shr_arm_role r = CHALLENGER)) registrations
  && one_value (map shr_shadow_pair_id registrations)
  && one_value (map shr_execution_contract_hash registrations)
  && negb (existsb shr_real_order_routing registrations).

Definition _validate_stored_candidate_artifact (bundle : CandidateArtifactBundleV1) (row : ResearchCandidateArtifactRow) : res () :=
  raise_if (existsb (λ p, negb (p.1 =s p.2))
    [(cb_bundle_id bundle, car_bundle_id row); (cb_challenger_id bundle, car_challenger_id row);
     (crb_research_cycle_id (cb_request_binding bundle), car_research_cycle_id row);
     (cb_candidate_tree_hash bundle, car_candidate_tree_hash row); (cb_code_hash bundle, car_code_hash row);
     (cb_config_hash bundle, car_config_hash row); (cb_test_manifest_hash bundle, car_test_manifest_hash row);
     (cb_declared_entrypoint bundle, car_declared_entrypoint row); (cb_bundle_hash bundle, car_bundle_hash row)])
    ResearchPersistenceError "stored candidate artifact binding mismatch".

Definition _validate_shadow_pair (l : challenger_ledger) (manifest : ChallengerManifestRow) (champion challenger : ShadowArmIdentity)
    : res () :=
  reraised (require_matched_shadow_contract champion challenger) "matched shadow arms";;
  raise_if (negb (sa_strategy_id challenger =s cmr_strategy_id manifest) || negb (sa_strategy_version challenger =s cmr_strategy_version manifest))
    ResearchPersistenceError "Challenger shadow identity does not match manifest";;
  proposal ← required (get_proposal_row l (cmr_proposal_id manifest)) "Challenger proposal is missing";
  raise_if (negb (sa_strategy_id champion =s apr_parent_strategy_id proposal)
            || negb (sa_strategy_version champion =s apr_parent_strategy_version proposal))
    ResearchPersistenceError "Champion shadow identity does not match parent strategy".

(** [asdict(contract)] *)
Definition contract_payload (c : ShadowExecutionContract) : pyval := PDict
  [("market_input_manifest_hash", PStr (sc_market_input_manifest_hash c)); ("decision_schedule_version", PStr (sc_decision_schedule_version c));
   ("execution_scenario_version", PStr (sc_execution_scenario_version c)); ("cost_model_version", PStr (sc_cost_model_version c));
   ("starting_capital_usd", PStr (sc_starting_capital_usd c)); ("liquidity_policy_version", PStr (sc_liquidity_policy_version c))].

Definition validate_shadow_pair (l : challenger_ledger) (challenger_id : string) (champion challenger : ShadowArmIdentity) : res () :=
  manifest ← required (get_manifest_row l challenger_id) "unknown Challenger";
  _validate_shadow_pair l manifest champion challenger.

Section repository.
Context `{Digest} `{JsonDatetime}.

Definition _require_registered_candidate_artifact (l : challenger_ledger) (challenger_id : string) (candidate_artifact_hash : option string)
    : res CandidateArtifactBundleV1 :=
  row ← required (List.find (λ r, (car_challenger_id r =s challenger_id)
                               && match candidate_artifact_hash with Some h => car_bundle_hash r =s h | None => true end) (candidates l))
    "registered candidate artifact is required";
  bundle ← reraised (validate_CandidateArtifactBundleV1 (car_payload row)) "stored candidate artifact payload is invalid";
  _validate_stored_candidate_artifact bundle row;;
  Ok bundle.

(** *** Transitions *)

(** The arguments of [_append_challenger_transition] besides the manifest. *)
Record transition_args := {
  ta_to_status : ChallengerStatus;
  ta_reason_code : string;
  ta_artifact_hash : option string;
  ta_idempotency_key : string;
  ta_created_at : datetime;
  ta_artifact_payload : option pyval;
}.

Definition _append_challenger_transition (l : challenger_ledger) (manifest : ChallengerManifestRow) (a : transition_args)
    : res (challenger_ledger * bool) :=
  match event_with_idempotency_key l (cmr_challenger_id manifest) (ta_idempotency_key a) with
  | Some existing =>
      raise_if (negb (bool_decide (cev_to_status existing = ta_to_status a))) ResearchPersistenceError "idempotency key status conflict";;
      Ok (l, false)
  | None =>
      let current := _current_challenger_status l manifest in
      raise_if (negb (in_statuses (ta_to_status a) (ALLOWED_TRANSITIONS current))) ResearchPersistenceError "invalid Challenger transition";;
      let sequence := match latest_challenger_event l (cmr_challenger_id manifest) with None => 1 | Some e => cev_sequence e + 1 end in
      let payload :=
        [("challenger_id", PStr (cmr_challenger_id manifest)); ("sequence", PInt sequence);
         ("from_status", PStr (ChallengerStatus_value current)); ("to_status", PStr (ChallengerStatus_value (ta_to_status a)));
         ("reason_code", PStr (ta_reason_code a)); ("artifact_hash", opt_str (ta_artifact_hash a));
         ("idempotency_key", PStr (ta_idempotency_key a)); ("created_at", PDatetime (ta_created_at a))]
        ++ match ta_artifact_payload a with Some p => [("artifact_payload", p)] | None => [] end in
      event_id ← stable_id "challenger-event" [PStr (cmr_challenger_id manifest); PStr (ta_idempotency_key a)];
      event_hash ← canonical_hash (PDict payload);
      l' ← add l (REvent {|
        cev_challenger_event_id := event_id;
        cev_challenger_id := cmr_challenger_id manifest;
        cev_sequence := sequence;
        cev_from_status := current;
        cev_to_status := ta_to_status a;
        cev_reason_code := ta_reason_code a;
        cev_artifact_hash := ta_artifact_hash a;
        cev_idempotency_key := ta_idempotency_key a;
        cev_event_hash := event_hash;
        cev_payload_json := payload;
        cev_created_at := ta_created_at a;
      |});
      Ok (l', true)
  end.

Definition transition_challenger (l : challenger_ledger) (challenger_id : string) (to_status : ChallengerStatus) (reason_code : string)
    (artifact_hash : option string) (idempotency_key : string) (created_at : datetime) : res (challenger_ledger * bool) :=
  raise_if (in_statuses to_status LIFECYCLE_GATED_TRANSITIONS) ResearchPersistenceError "requires the trusted Research Lifecycle gate";;
  timestamp ← require_aware_utc created_at;
  manifest ← required (get_manifest_row l challenger_id) "unknown Challenger";
  _append_challenger_transition l manifest {|
    ta_to_status := to_status; ta_reason_code := reason_code; ta_artifact_hash := artifact_hash; ta_idempotency_key := idempotency_key;
    ta_created_at := timestamp; ta_artifact_payload := None;
  |}.

(** *** Candidate tests, replay and falsification *)

Definition record_candidate_test_failure (l : challenger_ledger) (failure : CandidateTestFailureV1) : res (challenger_ledger * bool) :=
  manifest_row ← _challenger_for_update l (tf_challenger_id failure);
  manifest ← reraised (validate_ChallengerManifestV1 (cmr_payload manifest_row)) "stored Challenger manifest payload is invalid";
  raise_if (negb (cm_challenger_id manifest =s cmr_challenger_id manifest_row) || negb (cm_manifest_hash manifest =s cmr_manifest_hash manifest_row))
    ResearchPersistenceError "stored Candidate test failure bindings are invalid";;
  proposal_row ← required (get_proposal_row l (cmr_proposal_id manifest_row)) "Candidate test failure proposal is missing";
  raise_if (negb (cm_proposal_hash manifest =s apr_proposal_hash proposal_row))
    ResearchPersistenceError "stored Candidate test failure bindings are invalid";;
  raise_if (dt_lt (tf_created_at failure) (cm_created_at manifest))
    ResearchPersistenceError "Candidate test failure predates its Challenger manifest";;
  raise_if (existsb (λ p, negb (p.1 =s p.2))
    [(tf_challenger_id failure, cm_challenger_id manifest); (tf_candidate_manifest_hash failure, cm_manifest_hash manifest);
     (tf_proposal_hash failure, cm_proposal_hash manifest); (tf_proposal_hash failure, apr_proposal_hash proposal_row);
     (tf_patch_hash failure, cm_patch_hash manifest); (tf_test_manifest_hash failure, cm_test_manifest_hash manifest)])
    ResearchPersistenceError "Candidate test failure binding mismatch";;
  raise_if (negb (is_None_b (candidate_of l (tf_challenger_id failure))))
    ResearchPersistenceError "pre-artifact Candidate test failure cannot follow candidate artifact registration";;
  let key := String.append "candidate-test-failure:" (tf_failure_hash failure) in
  raise_if (is_None_b (event_with_idempotency_key l (tf_challenger_id failure) key)
            && negb (bool_decide (_current_challenger_status l manifest_row = PROPOSED)))
    ResearchPersistenceError "Candidate test failure requires PROPOSED";;
  _append_challenger_transition l manifest_row {|
    ta_to_status := TEST_FAILED; ta_reason_code := tf_failure_reason_code failure; ta_artifact_hash := Some (tf_failure_hash failure);
    ta_idempotency_key := key; ta_created_at := tf_created_at failure; ta_artifact_payload := Some (test_failure_json failure);
  |}.

Definition record_replay_artifact (l : challenger_ledger) (artifact : DeterministicReplayArtifactV1) : res (challenger_ledger * bool) :=
  manifest ← _challenger_for_update l (ra_challenger_id artifact);
  candidate ← _require_registered_candidate_artifact l (ra_challenger_id artifact) (Some (ra_candidate_artifact_hash artifact));
  hash ← artifact_hash artifact;
  match replay_of l (ra_challenger_id artifact) with
  | Some existing =>
      raise_if (negb (rar_artifact_hash existing =s hash)) ResearchPersistenceError "Challenger already has a different replay artifact";;
      Ok (l, false)
  | None =>
      raise_if (negb (ra_config_hash artifact =s cmr_config_hash manifest) || negb (ra_code_hash artifact =s cmr_code_hash manifest)
                || negb (ra_config_hash artifact =s cb_config_hash candidate) || negb (ra_code_hash artifact =s cb_code_hash candidate))
        ResearchPersistenceError "replay artifact code/config binding mismatch";;
      raise_if (negb (bool_decide (_current_challenger_status l manifest = PROPOSED)))
        ResearchPersistenceError "replay verification requires PROPOSED";;
      payload ← payload artifact;
      replay_id ← stable_id "research-replay-artifact" [PStr (ra_challenger_id artifact); PStr hash];
      l ← add l (RReplay {|
        rar_replay_artifact_id := replay_id;
        rar_challenger_id := ra_challenger_id artifact;
        rar_candidate_artifact_hash := ra_candidate_artifact_hash artifact;
        rar_config_hash := ra_config_hash artifact;
        rar_code_hash := ra_code_hash artifact;
        rar_data_manifest_hash := ra_data_manifest_hash artifact;
        rar_first_replay_hash := ra_first_replay_hash artifact;
        rar_second_replay_hash := ra_second_replay_hash artifact;
        rar_deterministic_match := deterministic_match artifact;
        rar_artifact_hash := hash;
        rar_payload_json := payload;
        rar_created_at := ra_created_at artifact;
      |});
      if deterministic_match artifact then Ok (l, true)
      else
        '(l, _) ← _append_challenger_transition l manifest {|
          ta_to_status := REPLAY_FAILED; ta_reason_code := "DETERMINISTIC_REPLAY_HASH_MISMATCH"; ta_artifact_hash := Some hash;
          ta_idempotency_key := String.append "replay:" hash; ta_created_at := ra_created_at artifact; ta_artifact_payload := None;
        |};
        Ok (l, true)
  end.

Definition has_passed_replay (l : challenger_ledger) (challenger_id candidate_artifact_hash : string) : bool :=
  existsb (λ r, (car_challenger_id r =s challenger_id) && (car_bundle_hash r =s candidate_artifact_hash)) (candidates l)
  && negb (is_None_b (passed_replay_of l challenger_id candidate_artifact_hash)).

Definition record_falsification_report (l : challenger_ledger) (report : FalsificationReportV1) : res (challenger_ledger * bool) :=
  manifest ← _challenger_for_update l (rp_challenger_id report);
  candidate ← _require_registered_candidate_artifact l (rp_challenger_id report) None;
  replay ← required (passed_replay_of l (rp_challenger_id report) (cb_bundle_hash candidate))
    "falsification requires a matching deterministic replay";
  _require_falsification_bindings report (cb_bundle_hash candidate) (rar_data_manifest_hash replay) (rar_artifact_hash replay) None;;
  match report_of l (rp_challenger_id report) with
  | Some existing =>
      raise_if (negb (far_report_hash existing =s rp_report_hash report))
        ResearchPersistenceError "Challenger already has a different falsification report";;
      Ok (l, false)
  | None =>
      raise_if (negb (bool_decide (_current_challenger_status l manifest = PROPOSED))) ResearchPersistenceError "falsification requires PROPOSED";;
      report_id ← stable_id "falsification-report" [PStr (rp_challenger_id report); PStr (rp_report_hash report)];
      l ← add l (RReport {|
        far_falsification_report_id := report_id;
        far_challenger_id := rp_challenger_id report;
        far_mandatory_passed := rp_mandatory_passed report;
        far_report_hash := rp_report_hash report;
        far_payload := report;
        far_created_at := rp_created_at report;
      |});
      if rp_mandatory_passed report then Ok (l, true)
      else
        '(l, _) ← _append_challenger_transition l manifest {|
          ta_to_status := TEST_FAILED; ta_reason_code := "MANDATORY_FALSIFICATION_FAILED"; ta_artifact_hash := Some (rp_report_hash report);
          ta_idempotency_key := String.append "falsification:" (rp_report_hash report); ta_created_at := rp_created_at report;
          ta_artifact_payload := None;
        |};
        Ok (l, true)
  end.

Definition has_passed_falsification (l : challenger_ledger) (challenger_id candidate_artifact_hash evaluation_contract_hash : string) : bool :=
  match report_of l challenger_id with
  | None => false
  | Some report =>
      far_mandatory_passed report &&
      match (parsed ← validate_FalsificationReportV1 (far_payload report); _falsification_bindings parsed) with
      | Raise _ => false
      | Ok bound =>
          bool_decide (dget "candidate_artifact_hash" (bd_hashes bound) = Some candidate_artifact_hash)
          && bool_decide (dget "evaluation_contract_hash" (bd_hashes bound) = Some evaluation_contract_hash)
      end
  end.
(** *** The experiment budget *)

Definition budget_event_with_key (l : challenger_ledger) (experiment_family key : string) : option ExperimentBudgetEventRow :=
  List.find (λ r, (bev_experiment_family r =s experiment_family) && (bev_idempotency_key r =s key)) (budget_events l).

(** The deltas of a budget event. *)
Record budget_args := {
  ba_experiment_family : string;
  ba_event_type : string;
  ba_submission_delta : Z;
  ba_oos_budget_delta : Z;
  ba_hypothesis_delta : Z;
  ba_failure_delta : Z;
  ba_idempotency_key : string;
  ba_created_at : datetime;
}.

Definition budget_payload (a : budget_args) : list (string * pyval) :=
  [("experiment_family", PStr (ba_experiment_family a)); ("event_type", PStr (ba_event_type a));
   ("submission_delta", PInt (ba_submission_delta a)); ("oos_budget_delta", PInt (ba_oos_budget_delta a));
   ("hypothesis_delta", PInt (ba_hypothesis_delta a)); ("failure_delta", PInt (ba_failure_delta a));
   ("idempotency_key", PStr (ba_idempotency_key a)); ("created_at", PDatetime (ba_created_at a))].

Definition budget_row (a : budget_args) : res ExperimentBudgetEventRow :=
  id ← stable_id "experiment-budget" [PStr (ba_experiment_family a); PStr (ba_idempotency_key a)];
  event_hash ← canonical_hash (PDict (budget_payload a));
  Ok {|
    bev_budget_event_id := id; bev_experiment_family := ba_experiment_family a; bev_event_type := ba_event_type a;
    bev_submission_delta := ba_submission_delta a; bev_oos_budget_delta := ba_oos_budget_delta a;
    bev_hypothesis_delta := ba_hypothesis_delta a; bev_failure_delta := ba_failure_delta a;
    bev_idempotency_key := ba_idempotency_key a; bev_event_hash := event_hash; bev_payload_json := budget_payload a;
    bev_created_at := ba_created_at a;
  |}.

(** The key is looked up in [snap]; the row is written to [l], and a refused row is looked up in [l] again. *)
Definition append_budget_event_from (snap l : challenger_ledger) (a : budget_args) : res (challenger_ledger * bool) :=
  raise_if (existsb (λ v, v <? 0) [ba_submission_delta a; ba_oos_budget_delta a; ba_hypothesis_delta a; ba_failure_delta a])
    ResearchPersistenceError "experiment budget deltas cannot be negative";;
  require_aware_utc (ba_created_at a);;
  row ← budget_row a;
  match budget_event_with_key snap (ba_experiment_family a) (ba_idempotency_key a) with
  | Some existing =>
      raise_if (negb (bev_event_hash existing =s bev_event_hash row)) ResearchPersistenceError "experiment budget idempotency conflict";;
      Ok (l, false)
  | None =>
      match add l (RBudget row) with
      | Ok l' => Ok (l', true)
      | Raise _ =>
          raise_if (match budget_event_with_key l (ba_experiment_family a) (ba_idempotency_key a) with
                    | None => true
                    | Some existing => negb (bev_event_hash existing =s bev_event_hash row)
                    end) ResearchPersistenceError "experiment budget idempotency conflict";;
          Ok (l, false)
      end
  end.

Definition append_budget_event (l : challenger_ledger) := append_budget_event_from l l.

Definition budget_sum (delta : ExperimentBudgetEventRow → Z) (l : challenger_ledger) (experiment_family : string) : Z :=
  fold_left Z.add (map delta (List.filter (λ r, bev_experiment_family r =s experiment_family) (budget_events l))) 0.

Definition budget_totals (l : challenger_ledger) (experiment_family : string) : pydict Z :=
  [("submissions", budget_sum bev_submission_delta l experiment_family); ("oos_budget_used", budget_sum bev_oos_budget_delta l experiment_family);
   ("hypotheses", budget_sum bev_hypothesis_delta l experiment_family); ("failures", budget_sum bev_failure_delta l experiment_family)].

(** *** Reservations of out-of-sample budget *)

Definition reservation_with_key (l : challenger_ledger) (experiment_family key : string) : option OosBudgetReservationRow :=
  List.find (λ r, (rsv_experiment_family r =s experiment_family) && (rsv_idempotency_key r =s key)) (reservations l).
Definition reservation_of_submission (l : challenger_ledger) (experiment_family : string) (number : Z) : option OosBudgetReservationRow :=
  List.find (λ r, (rsv_experiment_family r =s experiment_family) && (rsv_submission_number r =? number)) (reservations l).

Definition _require_oos_reservation_binding (reservation : OosBudgetReservationV1) (request : OosEvaluationRequest) : res () :=
  raise_if (negb (ob_challenger_id reservation =s oq_challenger_id request)
            || negb (ob_experiment_family reservation =s oq_experiment_family request)
            || negb (ob_submission_number reservation =? oq_submission_number request)
            || negb (ob_candidate_artifact_hash reservation =s oq_candidate_artifact_hash request)
            || negb (ob_evaluation_contract_hash reservation =s oq_evaluation_contract_hash request))
    ResearchPersistenceError "OOS budget reservation idempotency conflict".

(** The limits and times of a reservation. *)
Record reservation_args := {
  rg_maximum_submissions : Z;
  rg_maximum_oos_uses : Z;
  rg_idempotency_key : string;
  rg_created_at : datetime;
  rg_expires_at : datetime;
}.

(** The reservation of a request at the given ordinals. *)
Definition build_reservation (request : OosEvaluationRequest) (a : reservation_args) (submission_ordinal oos_budget_ordinal : Z)
    : res OosBudgetReservationV1 :=
  reservation_id ← stable_id "oos-budget-reservation"
    [PStr (oq_experiment_family request); PInt (oq_submission_number request); PStr (oq_challenger_id request);
     PStr (oq_candidate_artifact_hash request); PStr (oq_evaluation_contract_hash request)];
  let reservation h := {|
    ob_schema_version := "oos_budget_reservation_v1"; ob_reservation_id := reservation_id; ob_challenger_id := oq_challenger_id request;
    ob_experiment_family := oq_experiment_family request; ob_submission_number := oq_submission_number request;
    ob_submission_ordinal := submission_ordinal; ob_oos_budget_ordinal := oos_budget_ordinal;
    ob_candidate_artifact_hash := oq_candidate_artifact_hash request; ob_evaluation_contract_hash := oq_evaluation_contract_hash request;
    ob_idempotency_key := rg_idempotency_key a; ob_created_at := rg_created_at a; ob_expires_at := rg_expires_at a;
    ob_reservation_hash := h |} in
  h ← canonical_hash (reservation_payload (reservation ""));
  validate_OosBudgetReservationV1 (reservation h).

Definition reservation_row (r : OosBudgetReservationV1) : OosBudgetReservationRow := {|
  rsv_reservation_id := ob_reservation_id r; rsv_challenger_id := ob_challenger_id r; rsv_experiment_family := ob_experiment_family r;
  rsv_submission_number := ob_submission_number r; rsv_submission_ordinal := ob_submission_ordinal r;
  rsv_oos_budget_ordinal := ob_oos_budget_ordinal r; rsv_candidate_artifact_hash := ob_candidate_artifact_hash r;
  rsv_evaluation_contract_hash := ob_evaluation_contract_hash r; rsv_idempotency_key := ob_idempotency_key r;
  rsv_reservation_hash := ob_reservation_hash r; rsv_payload := r; rsv_created_at := ob_created_at r; rsv_expires_at := ob_expires_at r;
|}.

(** The reads are made on [snap], the rows are written to [l]. *)
Definition _reserve_oos_budget_once (snap l : challenger_ledger) (request : OosEvaluationRequest) (a : reservation_args)
    : res (challenger_ledger * OosBudgetReservationV1) :=
  let family := oq_experiment_family request in
  match reservation_with_key snap family (rg_idempotency_key a) with
  | Some existing =>
      reservation ← validate_OosBudgetReservationV1 (rsv_payload existing);
      raise_if (negb (rsv_reservation_id existing =s ob_reservation_id reservation)
                || negb (rsv_reservation_hash existing =s ob_reservation_hash reservation)
                || negb (rsv_challenger_id existing =s ob_challenger_id reservation)
                || negb (rsv_submission_ordinal existing =? ob_submission_ordinal reservation)
                || negb (rsv_oos_budget_ordinal existing =? ob_oos_budget_ordinal reservation))
        ResearchPersistenceError "stored OOS budget reservation binding mismatch";;
      _require_oos_reservation_binding reservation request;;
      Ok (l, reservation)
  | None =>
      raise_if (negb (is_None_b (reservation_of_submission snap family (oq_submission_number request))))
        ResearchPersistenceError "OOS submission number already has a different reservation";;
      let submission_ordinal := budget_sum bev_submission_delta snap family + 1 in
      let oos_budget_ordinal := budget_sum bev_oos_budget_delta snap family + 1 in
      raise_if (negb (oq_submission_number request =? submission_ordinal))
        ResearchPersistenceError "OOS submission number is not the next family submission";;
      raise_if (rg_maximum_submissions a <? submission_ordinal) ResearchPersistenceError "experiment-family submission budget exhausted";;
      raise_if (rg_maximum_oos_uses a <? oos_budget_ordinal) ResearchPersistenceError "experiment-family OOS budget exhausted";;
      reservation ← build_reservation request a submission_ordinal oos_budget_ordinal;
      row ← budget_row {|
        ba_experiment_family := family; ba_event_type := "OOS_CONSUMED"; ba_submission_delta := 1; ba_oos_budget_delta := 1;
        ba_hypothesis_delta := 0; ba_failure_delta := 0; ba_idempotency_key := rg_idempotency_key a; ba_created_at := rg_created_at a;
      |};
      l ← add l (RReservation (reservation_row reservation));
      l ← add l (RBudget row);
      Ok (l, reservation)
  end.

(** Attempt [i] reads [(views i).1] and writes [(views i).2]; an integrity error starts the next of three attempts. *)
Fixpoint reserve_attempts (attempts : nat) (views : nat → challenger_ledger * challenger_ledger) (request : OosEvaluationRequest)
    (a : reservation_args) : res (challenger_ledger * OosBudgetReservationV1) :=
  match attempts with
  | O => raise ResearchPersistenceError "concurrent OOS budget reservation conflict"
  | S attempts =>
      match _reserve_oos_budget_once (views attempts).1 (views attempts).2 request a with
      | Raise e => if bool_decide (exn_kind e = IntegrityError) then reserve_attempts attempts views request a else Raise e
      | r => r
      end
  end.

Definition reserve_oos_budget (views : nat → challenger_ledger * challenger_ledger) (request : OosEvaluationRequest) (a : reservation_args)
    : res (challenger_ledger * OosBudgetReservationV1) :=
  raise_if ((rg_maximum_submissions a <=? 0) || (rg_maximum_oos_uses a <=? 0)) ResearchPersistenceError "OOS budget limits must be positive";;
  require_aware_utc (rg_created_at a);;
  require_aware_utc (rg_expires_at a);;
  raise_if (dt_le (rg_expires_at a) (rg_created_at a)) ResearchPersistenceError "OOS budget reservation expiry must follow creation";;
  reserve_attempts 3 views request a.

(** *** The out-of-sample gate *)

(** The registration of one arm of a shadow pair. *)
Definition shadow_row (manifest : ChallengerManifestRow) (shadow_pair_id oos_result_id contract_hash : string) (contract : ShadowExecutionContract)
    (created_at : datetime) (arm_role : ShadowRole) (identity : ShadowArmIdentity) : res ResearchShadowArmRegistrationRow :=
  id ← stable_id "research-shadow-arm" [PStr shadow_pair_id; PStr (ShadowRole_value arm_role)];
  Ok {|
    shr_shadow_registration_id := id;
    shr_shadow_pair_id := shadow_pair_id;
    shr_challenger_id := cmr_challenger_id manifest;
    shr_oos_result_id := oos_result_id;
    shr_arm_role := arm_role;
    shr_arm_id := sa_arm_id identity;
    shr_strategy_id := sa_strategy_id identity;
    shr_strategy_version := sa_strategy_version identity;
    shr_execution_contract_hash := contract_hash;
    shr_real_order_routing := false;
    shr_payload_json :=
      [("schema_version", PStr "research_shadow_arm_registration_v1"); ("shadow_pair_id", PStr shadow_pair_id);
       ("challenger_id", PStr (cmr_challenger_id manifest)); ("oos_result_id", PStr oos_result_id);
       ("arm_role", PStr (ShadowRole_value arm_role)); ("arm_id", PStr (sa_arm_id identity)); ("strategy_id", PStr (sa_strategy_id identity));
       ("strategy_version", PStr (sa_strategy_version identity)); ("execution_contract", contract_payload contract);
       ("execution_contract_hash", PStr contract_hash); ("real_order_routing", PBool false); ("created_at", PDatetime created_at)];
    shr_created_at := created_at;
  |}.

Definition _register_shadow_pair (l : challenger_ledger) (manifest : ChallengerManifestRow) (oos_result_id result_hash : string)
    (champion challenger : ShadowArmIdentity) (created_at : datetime) : res challenger_ledger :=
  let contract := sa_contract champion in
  contract_hash ← canonical_hash (contract_payload contract);
  shadow_pair_id ← stable_id "research-shadow-pair" [PStr (cmr_challenger_id manifest); PStr result_hash; PStr contract_hash];
  champion_row ← shadow_row manifest shadow_pair_id oos_result_id contract_hash contract created_at CHAMPION champion;
  l ← add l (RShadow champion_row);
  challenger_row ← shadow_row manifest shadow_pair_id oos_result_id contract_hash contract created_at CHALLENGER challenger;
  add l (RShadow challenger_row).

(** The first part of [store_oos_result]: the evidence an out-of-sample result must be bound to. *)
Definition oos_evidence (l : challenger_ledger) (result : OosLockboxResultV1) (candidate_artifact_hash : string) : res ChallengerManifestRow :=
  manifest ← _challenger_for_update l (ol_challenger_id result);
  candidate ← _require_registered_candidate_artifact l (ol_challenger_id result) (Some candidate_artifact_hash);
  passed_report ← required (passed_report_of l (ol_challenger_id result)) "OOS requires a passed mandatory falsification report";
  passed_replay ← required (passed_replay_of l (ol_challenger_id result) candidate_artifact_hash)
    "OOS requires a matching deterministic replay artifact";
  parsed_report ← validate_FalsificationReportV1 (far_payload passed_report);
  _require_falsification_bindings parsed_report (cb_bundle_hash candidate) (rar_data_manifest_hash passed_replay)
    (rar_artifact_hash passed_replay) (Some (ol_evaluation_contract_hash result));;
  raise_if (negb (ol_experiment_family result =s cmr_experiment_family manifest))
    ResearchPersistenceError "OOS experiment family does not match Challenger";;
  Ok manifest.

(** The shadow arms that go with a verdict: both for a pass, none for a failure. *)
Definition oos_shadow_arms (l : challenger_ledger) (manifest : ChallengerManifestRow) (verdict : OosVerdict)
    (champion_shadow challenger_shadow : option ShadowArmIdentity) : res (option (ShadowArmIdentity * ShadowArmIdentity)) :=
  match verdict, champion_shadow, challenger_shadow with
  | OOS_PASS, Some champion, Some challenger =>
      _validate_shadow_pair l manifest champion challenger;; Ok (Some (champion, challenger))
  | OOS_PASS, _, _ => raise ResearchPersistenceError "passed OOS requires matched Champion and Challenger shadow arms"
  | OOS_FAIL, None, None => Ok None
  | OOS_FAIL, _, _ => raise ResearchPersistenceError "failed OOS cannot register shadow arms"
  end.

Definition store_oos_result (l : challenger_ledger) (result : OosLockboxResultV1) (created_at : datetime) (candidate_artifact_hash : string)
    (champion_shadow challenger_shadow : option ShadowArmIdentity) : res (challenger_ledger * bool) :=
  timestamp ← require_aware_utc created_at;
  raise_if (negb (ol_candidate_artifact_hash result =s candidate_artifact_hash))
    ResearchPersistenceError "OOS result candidate artifact binding mismatch";;
  manifest ← oos_evidence l result candidate_artifact_hash;
  match oos_submission l (ol_challenger_id result) (ol_submission_number result) with
  | Some existing =>
      raise_if (negb (oor_result_hash existing =s ol_result_hash result)) ResearchPersistenceError "OOS submission hash conflict";;
      Ok (l, false)
  | None =>
      raise_if (negb (bool_decide (_current_challenger_status l manifest = PROPOSED))) ResearchPersistenceError "OOS requires PROPOSED";;
      arms ← oos_shadow_arms l manifest (ol_verdict result) champion_shadow challenger_shadow;
      oos_result_id ← stable_id "oos-result" [PStr (ol_challenger_id result); PInt (ol_submission_number result)];
      l ← add l (ROos {|
        oor_oos_result_id := oos_result_id;
        oor_challenger_id := ol_challenger_id result;
        oor_experiment_family := ol_experiment_family result;
        oor_submission_number := ol_submission_number result;
        oor_candidate_artifact_hash := ol_candidate_artifact_hash result;
        oor_evaluation_contract_hash := ol_evaluation_contract_hash result;
        oor_verdict := ol_verdict result;
        oor_common_sessions := ol_common_sessions result;
        oor_result_hash := ol_result_hash result;
        oor_payload := result;
        oor_evaluated_at := ol_evaluated_at result;
        oor_created_at := timestamp;
      |});
      match arms with
      | None =>
          '(l, _) ← _append_challenger_transition l manifest {|
            ta_to_status := OOS_REJECTED; ta_reason_code := "OOS_LOCKBOX_REJECTED"; ta_artifact_hash := Some (ol_result_hash result);
            ta_idempotency_key := String.append "oos-rejected:" (ol_result_hash result); ta_created_at := timestamp; ta_artifact_payload := None;
          |};
          Ok (l, true)
      | Some (champion, challenger) =>
          l ← _register_shadow_pair l manifest oos_result_id (ol_result_hash result) champion challenger timestamp;
          '(l, _) ← _append_challenger_transition l manifest {|
            ta_to_status := SHADOW_PENDING; ta_reason_code := "OOS_LOCKBOX_PASSED"; ta_artifact_hash := Some (ol_result_hash result);
            ta_idempotency_key := String.append "shadow-pending:" (ol_result_hash result); ta_created_at := timestamp; ta_artifact_payload := None;
          |};
          Ok (l, true)
      end
  end.

Definition oos_result (l : challenger_ledger) (challenger_id : string) (submission_number : Z) : res (option OosLockboxResultV1) :=
  match oos_submission l challenger_id submission_number with
  | None => Ok None
  | Some row => result ← validate_OosLockboxResultV1 (oor_payload row); Ok (Some result)
  end.

Definition start_shadow_evaluation (l : challenger_ledger) (challenger_id idempotency_key : string) (created_at : datetime)
    : res (challenger_ledger * bool) :=
  timestamp ← require_aware_utc created_at;
  manifest ← _challenger_for_update l challenger_id;
  let registrations := shadow_registrations l challenger_id in
  raise_if (negb (matched_paper_pair registrations)) ResearchPersistenceError "shadow start requires one matched paper-only arm pair";;
  pair ← required (List.hd_error registrations) "empty";
  pair_hash ← canonical_hash (PStr (shr_shadow_pair_id pair));
  _append_challenger_transition l manifest {|
    ta_to_status := SHADOW_RUNNING; ta_reason_code := "EXPLICIT_SHADOW_START"; ta_artifact_hash := Some pair_hash;
    ta_idempotency_key := idempotency_key; ta_created_at := timestamp; ta_artifact_payload := None;
  |}.

(** *** Promotion decisions *)

(** [{name.upper() for name in REQUIRED_PROMOTION_CRITERIA if not decision.criteria[name]}] *)
Definition expected_failures (criteria : pydict bool) : list string :=
  map upper (List.filter (λ name, negb (criterion criteria name)) REQUIRED_PROMOTION_CRITERIA).

(** Equality of sets of strings. *)
Definition same_strings (a b : list string) : bool := forallb (λ s, string_in s b) a && forallb (λ s, string_in s a) b.

(** The replay whose two runs have the decision's hash. *)
Definition promotion_replay (l : challenger_ledger) (decision : PromotionDecisionV1) : option ResearchReplayArtifactRow :=
  List.find (λ r, (rar_challenger_id r =s pd_challenger_id decision) && rar_deterministic_match r
               && (rar_first_replay_hash r =s pd_replay_hash decision) && (rar_second_replay_hash r =s pd_replay_hash decision)) (replays l).

Definition passed_oos_of (l : challenger_ledger) (challenger_id candidate_artifact_hash : string) : option OosLockboxResultRow :=
  List.find (λ r, (oor_challenger_id r =s challenger_id) && bool_decide (oor_verdict r = OOS_PASS)
               && (oor_candidate_artifact_hash r =s candidate_artifact_hash)) (oos_results l).

Definition arm_version (registrations : list ResearchShadowArmRegistrationRow) (role : ShadowRole) : option string :=
  shr_strategy_version <$> List.find (λ r, bool_decide (shr_arm_role r = role)) registrations.

Definition _validate_promotion_binding (l : challenger_ledger) (manifest : ChallengerManifestRow) (decision : PromotionDecisionV1)
    (expected_status : ChallengerStatus) : res () :=
  raise_if (negb (bool_decide (_current_challenger_status l manifest = expected_status)))
    ResearchPersistenceError "promotion decision requires another status";;
  raise_if (negb (same_strings (pd_criteria decision).*1 REQUIRED_PROMOTION_CRITERIA)) ResearchPersistenceError "promotion criteria mismatch";;
  let failures := expected_failures (pd_criteria decision) in
  raise_if (negb (same_strings (pd_failed_reason_codes decision) failures))
    ResearchPersistenceError "promotion failed_reason_codes do not match criteria";;
  raise_if (negb (pd_candidate_version decision =s cmr_strategy_version manifest))
    ResearchPersistenceError "promotion candidate version does not match Challenger";;
  raise_if (negb (pd_current_champion_version decision =s cmr_parent_version manifest))
    ResearchPersistenceError "promotion Champion version does not match Challenger parent";;
  replay ← required (promotion_replay l decision) "promotion replay hash does not match deterministic replay";
  required (passed_report_of l (pd_challenger_id decision)) "promotion requires passed mandatory falsification";;
  required (passed_oos_of l (pd_challenger_id decision) (rar_candidate_artifact_hash replay)) "promotion requires candidate-bound passed OOS";;
  let registrations := shadow_registrations l (pd_challenger_id decision) in
  raise_if (negb (matched_paper_pair registrations)) ResearchPersistenceError "promotion requires a matched paper-only shadow pair";;
  raise_if (negb (bool_decide (arm_version registrations CHAMPION = Some (pd_current_champion_version decision)))
            || negb (bool_decide (arm_version registrations CHALLENGER = Some (pd_candidate_version decision))))
    ResearchPersistenceError "promotion versions do not match shadow registrations";;
  if bool_decide (pd_verdict decision = MANUALLY_APPROVED)
  then raise_if (unapproved decision || nonempty failures) ResearchPersistenceError "manual approval requires approver and all criteria"
  else raise_if (negb (is_None_b (pd_approved_by decision))) ResearchPersistenceError "eligibility decisions cannot contain an approver".

Definition _add_promotion_decision (l : challenger_ledger) (decision : PromotionDecisionV1) : res challenger_ledger :=
  add l (RDecision {|
    pdr_promotion_decision_id := pd_promotion_decision_id decision;
    pdr_challenger_id := pd_challenger_id decision;
    pdr_verdict := pd_verdict decision;
    pdr_automatic_promotion_enabled := pd_automatic_promotion_enabled decision;
    pdr_replay_hash := pd_replay_hash decision;
    pdr_decision_hash := pd_decision_hash decision;
    pdr_payload := decision;
    pdr_created_at := pd_created_at decision;
  |}).

Definition get_decision_row (l : challenger_ledger) (id : string) : option ResearchPromotionDecisionRow :=
  List.find (λ r, pdr_promotion_decision_id r =s id) (decisions l).

Definition store_promotion_decision (l : challenger_ledger) (decision : PromotionDecisionV1) : res (challenger_ledger * bool) :=
  raise ResearchPersistenceError "promotion decisions require the trusted Research Lifecycle gate".

Definition record_promotion_eligibility (l : challenger_ledger) (decision : PromotionDecisionV1) : res (challenger_ledger * bool) :=
  raise_if (negb (bool_decide (pd_verdict decision ∈ [INELIGIBLE; ELIGIBLE_REQUIRES_MANUAL_APPROVAL])))
    ResearchPersistenceError "eligibility gate accepts only INELIGIBLE or ELIGIBLE_REQUIRES_MANUAL_APPROVAL";;
  manifest ← _challenger_for_update l (pd_challenger_id decision);
  match get_decision_row l (pd_promotion_decision_id decision) with
  | Some existing =>
      raise_if (negb (pdr_decision_hash existing =s pd_decision_hash decision)) ResearchPersistenceError "promotion decision hash conflict";;
      Ok (l, false)
  | None =>
      _validate_promotion_binding l manifest decision SHADOW_RUNNING;;
      l ← _add_promotion_decision l decision;
      if bool_decide (pd_verdict decision = ELIGIBLE_REQUIRES_MANUAL_APPROVAL) then
        '(l, _) ← _append_challenger_transition l manifest {|
          ta_to_status := PROMOTION_ELIGIBLE; ta_reason_code := "PROMOTION_CRITERIA_SATISFIED"; ta_artifact_hash := Some (pd_decision_hash decision);
          ta_idempotency_key := String.append "promotion-eligible:" (pd_decision_hash decision); ta_created_at := pd_created_at decision;
          ta_artifact_payload := None;
        |};
        Ok (l, true)
      else Ok (l, true)
  end.

(** [order_by(desc(created_at)).limit(1)] *)
Definition latest_eligible (l : challenger_ledger) (challenger_id : string) : option ResearchPromotionDecisionRow :=
  match List.filter (λ r, (pdr_challenger_id r =s challenger_id) && bool_decide (pdr_verdict r = ELIGIBLE_REQUIRES_MANUAL_APPROVAL)) (decisions l) with
  | [] => None
  | d :: ds => Some (max_by (λ a b, dt_lt (pdr_created_at a) (pdr_created_at b)) d ds)
  end.

(** Equality of dictionaries. *)
Definition same_criteria_values (a b : pydict bool) : bool :=
  (length a =? length b)%nat && forallb (λ kv, bool_decide (dget kv.1 b = Some kv.2)) a.

Definition record_manual_promotion_approval (l : challenger_ledger) (decision : PromotionDecisionV1) : res (challenger_ledger * bool) :=
  raise_if (negb (bool_decide (pd_verdict decision = MANUALLY_APPROVED)))
    ResearchPersistenceError "manual approval path requires MANUALLY_APPROVED";;
  manifest ← _challenger_for_update l (pd_challenger_id decision);
  match get_decision_row l (pd_promotion_decision_id decision) with
  | Some existing =>
      raise_if (negb (pdr_decision_hash existing =s pd_decision_hash decision)) ResearchPersistenceError "promotion decision hash conflict";;
      Ok (l, false)
  | None =>
      raise_if (existsb (λ r, (pdr_challenger_id r =s pd_challenger_id decision) && bool_decide (pdr_verdict r = MANUALLY_APPROVED)) (decisions l))
        ResearchPersistenceError "Challenger already has a manual promotion approval";;
      _validate_promotion_binding l manifest decision PROMOTION_ELIGIBLE;;
      eligible ← required (latest_eligible l (pd_challenger_id decision)) "manual approval requires a persisted eligibility decision";
      eligible_decision ← validate_PromotionDecisionV1 (pdr_payload eligible);
      raise_if (negb (pd_current_champion_version eligible_decision =s pd_current_champion_version decision)
                || negb (pd_candidate_version eligible_decision =s pd_candidate_version decision)
                || negb (same_criteria_values (pd_criteria eligible_decision) (pd_criteria decision))
                || negb (pd_replay_hash eligible_decision =s pd_replay_hash decision))
        ResearchPersistenceError "manual approval does not match eligibility decision";;
      l ← _add_promotion_decision l decision;
      Ok (l, true)
  end.
End repository.

(** ** [research/lifecycle.py] *)

Record LifecycleResult := {
  lr_challenger_id : string;
  lr_created : bool;
  lr_status : ChallengerStatus;
  lr_artifact_hash : string;
}.

Record OosLifecycleResult := {
  olr_result : OosLockboxResultV1;
  olr_created : bool;
  olr_status : ChallengerStatus;
}.

(** [except ResearchPersistenceError as exc: raise ResearchLifecycleError(str(exc)) from exc] *)
Definition as_lifecycle_error {A} (r : res A) : res A :=
  match r with
  | Raise e => if bool_decide (exn_kind e = ResearchPersistenceError) then raise ResearchLifecycleError (exn_msg e) else Raise e
  | Ok a => Ok a
  end.

(** A repository transaction, which commits, and the status it must leave; the check comes after the commit. *)
Definition gated (l : challenger_ledger) (transaction : res (challenger_ledger * bool)) (challenger_id : string) (expected : ChallengerStatus)
    (hash : res string) : challenger_ledger * res LifecycleResult :=
  match transaction with
  | Raise e => (l, as_lifecycle_error (Raise e))
  | Ok (l', created) =>
      (l', status ← as_lifecycle_error (challenger_status l' challenger_id);
           raise_if (negb (bool_decide (status = expected))) ResearchLifecycleError "unexpected status";;
           h ← hash;
           Ok {| lr_challenger_id := challenger_id; lr_created := created; lr_status := status; lr_artifact_hash := h |})
  end.

Section service.
Context `{Digest} `{JsonDatetime}.

Definition record_falsification (l : challenger_ledger) (report : FalsificationReportV1) : challenger_ledger * res LifecycleResult :=
  gated l (record_falsification_report l report) (rp_challenger_id report) (if rp_mandatory_passed report then PROPOSED else TEST_FAILED)
    (Ok (rp_report_hash report)).

Definition service_candidate_test_failure (l : challenger_ledger) (failure : CandidateTestFailureV1) : challenger_ledger * res LifecycleResult :=
  gated l (record_candidate_test_failure l failure) (tf_challenger_id failure) TEST_FAILED (Ok (tf_failure_hash failure)).

Definition record_deterministic_replay (l : challenger_ledger) (artifact : DeterministicReplayArtifactV1) : challenger_ledger * res LifecycleResult :=
  gated l (record_replay_artifact l artifact) (ra_challenger_id artifact) (if deterministic_match artifact then PROPOSED else REPLAY_FAILED)
    (artifact_hash artifact).

Definition service_promotion_eligibility (l : challenger_ledger) (decision : PromotionDecisionV1) : challenger_ledger * res LifecycleResult :=
  if bool_decide (pd_verdict decision = MANUALLY_APPROVED)
  then (l, raise ResearchLifecycleError "MANUALLY_APPROVED requires the explicit manual approval path")
  else gated l (record_promotion_eligibility l decision) (pd_challenger_id decision)
         (if bool_decide (pd_verdict decision = ELIGIBLE_REQUIRES_MANUAL_APPROVAL) then PROMOTION_ELIGIBLE else SHADOW_RUNNING)
         (Ok (pd_decision_hash decision)).

Definition service_manual_promotion_approval (l : challenger_ledger) (decision : PromotionDecisionV1) : challenger_ledger * res LifecycleResult :=
  if bool_decide (pd_verdict decision = MANUALLY_APPROVED)
  then gated l (record_manual_promotion_approval l decision) (pd_challenger_id decision) PROMOTION_ELIGIBLE (Ok (pd_decision_hash decision))
  else (l, raise ResearchLifecycleError "manual approval path requires MANUALLY_APPROVED").

Definition start_shadow (l : challenger_ledger) (challenger_id idempotency_key : string) (created_at : datetime)
    : challenger_ledger * res LifecycleResult :=
  gated l (start_shadow_evaluation l challenger_id idempotency_key created_at) challenger_id SHADOW_RUNNING
    (canonical_hash (PStr idempotency_key)).

(** The lockbox the service is built with: it may spend budget, and evaluates the request. *)
Definition lockbox : Type := challenger_ledger → OosEvaluationRequest → datetime → challenger_ledger * res OosLockboxResultV1.

Definition oos_request_bound (result : OosLockboxResultV1) (request : OosEvaluationRequest) : bool :=
  (ol_challenger_id result =s oq_challenger_id request) && (ol_experiment_family result =s oq_experiment_family request)
  && (ol_submission_number result =? oq_submission_number request)
  && (ol_candidate_artifact_hash result =s oq_candidate_artifact_hash request)
  && (ol_evaluation_contract_hash result =s oq_evaluation_contract_hash request).

(** The checks before the lockbox is opened. *)
Definition oos_preconditions (l : challenger_ledger) (request : OosEvaluationRequest) (champion_shadow challenger_shadow : ShadowArmIdentity) : res () :=
  raise_if (negb (has_passed_falsification l (oq_challenger_id request) (oq_candidate_artifact_hash request) (oq_evaluation_contract_hash request)))
    ResearchLifecycleError "OOS cannot run before mandatory falsification passes";;
  raise_if (negb (has_passed_replay l (oq_challenger_id request) (oq_candidate_artifact_hash request)))
    ResearchLifecycleError "OOS cannot run before deterministic replay passes";;
  status ← challenger_status l (oq_challenger_id request);
  raise_if (negb (bool_decide (status = PROPOSED))) ResearchLifecycleError "OOS requires a PROPOSED Challenger";;
  match (require_matched_shadow_contract champion_shadow challenger_shadow;;
         validate_shadow_pair l (oq_challenger_id request) champion_shadow challenger_shadow) with
  | Ok u => Ok u
  | Raise e => raise ResearchLifecycleError (exn_msg e)
  end.

Definition evaluate_oos_and_register_shadow (oos_lockbox : option lockbox) (l : challenger_ledger) (request : OosEvaluationRequest)
    (champion_shadow challenger_shadow : ShadowArmIdentity) (evaluated_at persisted_at : datetime)
    : challenger_ledger * res OosLifecycleResult :=
  match oos_result l (oq_challenger_id request) (oq_submission_number request) with
  | Raise e => (l, Raise e)
  | Ok (Some existing) =>
      (l, raise_if (negb (ol_experiment_family existing =s oq_experiment_family request)
                    || negb (ol_candidate_artifact_hash existing =s oq_candidate_artifact_hash request)
                    || negb (ol_evaluation_contract_hash existing =s oq_evaluation_contract_hash request))
            ResearchLifecycleError "OOS idempotency binding mismatch";;
          status ← challenger_status l (oq_challenger_id request);
          Ok {| olr_result := existing; olr_created := false; olr_status := status |})
  | Ok None =>
      match oos_preconditions l request champion_shadow challenger_shadow with
      | Raise e => (l, Raise e)
      | Ok _ =>
          match oos_lockbox with
          | None => (l, raise ResearchLifecycleError "OOS lockbox is not configured")
          | Some evaluate =>
              match evaluate l request evaluated_at with
              | (l, Raise e) => (l, Raise e)
              | (l, Ok result) =>
                  if negb (oos_request_bound result request) then (l, raise ResearchLifecycleError "OOS result is not bound to its request")
                  else
                    let passed := bool_decide (ol_verdict result = OOS_PASS) in
                    match store_oos_result l result persisted_at (oq_candidate_artifact_hash request)
                            (if passed then Some champion_shadow else None) (if passed then Some challenger_shadow else None) with
                    | Raise e => (l, as_lifecycle_error (Raise e))
                    | Ok (l, created) =>
                        (l, status ← as_lifecycle_error (challenger_status l (oq_challenger_id request));
                            raise_if (negb (bool_decide (status = if passed then SHADOW_PENDING else OOS_REJECTED)))
                              ResearchLifecycleError "unexpected post-OOS status";;
                            Ok {| olr_result := result; olr_created := created; olr_status := status |})
                    end
              end
          end
      end
  end.
End service.
