(* ===== verification/ChallengerLifecycle.v ===== *)
(** * The lifecycle of a challenger

    What the transactions of [ChallengerLedger.v] promise together: the events of a challenger are a walk through the allowed
    transitions, every gated status is backed by the evidence its gate demands, terminal statuses are final, and the
    out-of-sample budget is neither overspent nor spent twice. *)
From Stdlib Require Import ZArith Lia Ascii String.
From stdpp Require Import base list strings numbers sets.
From S2P Require Import Prelude PyDecimal Hashing Domain Text Falsification Promotion Schedule DispatchExecution Challenger ChallengerLedger.
Set Default Goal Selector "!".
Open Scope Z_scope.

(** ** Transactions as commands *)

Section commands.
Context `{Digest} `{JsonDatetime}.

(** The transactions of the repository; a registration is the insert that ends it. *)
Inductive command :=
  | CRegisterProposal (row : AlgorithmProposalRow)
  | CRegisterManifest (row : ChallengerManifestRow)
  | CRegisterCandidate (row : ResearchCandidateArtifactRow)
  | CTransition (challenger_id : string) (to_status : ChallengerStatus) (reason_code : string) (artifact_hash : option string)
      (idempotency_key : string) (created_at : datetime)
  | CTestFailure (failure : CandidateTestFailureV1)
  | CReplay (artifact : DeterministicReplayArtifactV1)
  | CFalsification (report : FalsificationReportV1)
  | CBudget (a : budget_args)
  | CReserve (request : OosEvaluationRequest) (a : reservation_args)
  | COos (result : OosLockboxResultV1) (created_at : datetime) (candidate_artifact_hash : string)
      (champion challenger : option ShadowArmIdentity)
  | CStart (challenger_id idempotency_key : string) (created_at : datetime)
  | CEligibility (decision : PromotionDecisionV1)
  | CApproval (decision : PromotionDecisionV1).

(** [new Challenger must start PROPOSED] *)
Definition register_manifest (l : challenger_ledger) (row : ChallengerManifestRow) : res challenger_ledger :=
  raise_if (negb (bool_decide (cmr_initial_status row = PROPOSED))) ResearchPersistenceError "new Challenger must start PROPOSED";;
  add l (RManifest row).

Definition run_command (l : challenger_ledger) (c : command) : res challenger_ledger :=
  match c with
  | CRegisterProposal row => add l (RProposal row)
  | CRegisterManifest row => register_manifest l row
  | CRegisterCandidate row => add l (RCandidate row)
  | CTransition id to reason hash key at_ => fst <$> transition_challenger l id to reason hash key at_
  | CTestFailure f => fst <$> record_candidate_test_failure l f
  | CReplay a => fst <$> record_replay_artifact l a
  | CFalsification r => fst <$> record_falsification_report l r
  | CBudget a => fst <$> append_budget_event l a
  | CReserve q a => fst <$> reserve_oos_budget (λ _, (l, l)) q a
  | COos r at_ h champion challenger => fst <$> store_oos_result l r at_ h champion challenger
  | CStart id key at_ => fst <$> start_shadow_evaluation l id key at_
  | CEligibility d => fst <$> record_promotion_eligibility l d
  | CApproval d => fst <$> record_manual_promotion_approval l d
  end.

(** The contracts a command carries were validated when they were built. *)
Definition valid_command (c : command) : Prop :=
  match c with
  | CTestFailure f => validate_CandidateTestFailureV1 f = Ok f
  | CReplay a => validate_DeterministicReplayArtifactV1 a = Ok a
  | CFalsification r => validate_FalsificationReportV1 r = Ok r
  | COos r _ _ _ _ => validate_OosLockboxResultV1 r = Ok r
  | CEligibility d | CApproval d => validate_PromotionDecisionV1 d = Ok d
  | _ => True
  end.

(** A command that raises leaves the ledger as it was. *)
Definition commit (l : challenger_ledger) (c : command) : challenger_ledger :=
  match run_command l c with Ok l' => l' | Raise _ => l end.

Inductive reachable : challenger_ledger → Prop :=
  | reach_empty : reachable empty_challengers
  | reach_step l c : reachable l → valid_command c → reachable (commit l c).
End commands.

(** ** The ledger only grows *)

Record extends (l l' : challenger_ledger) : Prop := {
  ex_proposals : proposals l `prefix_of` proposals l';
  ex_manifests : manifests l `prefix_of` manifests l';
  ex_candidates : candidates l `prefix_of` candidates l';
  ex_replays : replays l `prefix_of` replays l';
  ex_reports : reports l `prefix_of` reports l';
  ex_oos_results : oos_results l `prefix_of` oos_results l';
  ex_shadow_arms : shadow_arms l `prefix_of` shadow_arms l';
  ex_events : challenger_events l `prefix_of` challenger_events l';
  ex_budget : budget_events l `prefix_of` budget_events l';
  ex_reservations : reservations l `prefix_of` reservations l';
  ex_decisions : decisions l `prefix_of` decisions l';
}.

#[export] Instance extends_preorder : PreOrder extends.
Proof. split; [intros l; by split|]. intros l1 l2 l3 [] []. split; by etrans. Qed.

Lemma put_extends l row : extends l (put l row).
Proof. split; cbn; by apply prefix_app_r. Qed.

Lemma add_inv l row l' : add l row = Ok l' ↔ violates l row = false ∧ l' = put l row.
Proof.
  unfold add. rewrite bind_Ok_inv. setoid_rewrite raise_if_Ok_inv. split.
  - intros ([] & Hv & [= <-]). done.
  - intros [Hv ->]. by exists ().
Qed.

Lemma add_extends l row l' : add l row = Ok l' → extends l l'.
Proof. intros [_ ->]%add_inv. apply put_extends. Qed.

Lemma required_Ok {A} (o : option A) msg a : required o msg = Ok a ↔ o = Some a.
Proof. destruct o; cbn; [split; by intros [= ->]|by split]. Qed.

Lemma reraised_Ok {A} (r : res A) msg a : reraised r msg = Ok a ↔ r = Ok a.
Proof. by destruct r. Qed.

(** ** Transitions *)

(** Registrations and events untouched. *)
Record quiet (l l' : challenger_ledger) : Prop := {
  qu_manifests : manifests l' = manifests l;
  qu_events : challenger_events l' = challenger_events l;
}.

Definition quiet_row (row : table_row) : bool := match row with RManifest _ | REvent _ => false | _ => true end.

Lemma add_quiet l row l' : quiet_row row = true → add l row = Ok l' → quiet l l'.
Proof. intros Hq [_ ->]%add_inv. split; destruct row; cbn in *; rewrite ?app_nil_r; done. Qed.

#[export] Instance quiet_preorder : PreOrder quiet.
Proof. split; [done|]. intros l1 l2 l3 [] []. split; congruence. Qed.

Lemma latest_quiet l l' id : quiet l l' → latest_challenger_event l' id = latest_challenger_event l id.
Proof. intros [_ E]. unfold latest_challenger_event, events_of_challenger. by rewrite E. Qed.

Lemma current_quiet l l' m : quiet l l' → _current_challenger_status l' m = _current_challenger_status l m.
Proof. intros Hq. unfold _current_challenger_status. by rewrite (latest_quiet l l'). Qed.

(** [e] follows the last event of [m]'s challenger. *)
Record next_event (l : challenger_ledger) (m : ChallengerManifestRow) (e : ChallengerEventRow) : Prop := {
  ne_challenger : cev_challenger_id e = cmr_challenger_id m;
  ne_from : cev_from_status e = _current_challenger_status l m;
  ne_allowed : cev_to_status e ∈ ALLOWED_TRANSITIONS (cev_from_status e);
  ne_sequence : cev_sequence e = match latest_challenger_event l (cmr_challenger_id m) with None => 1 | Some e' => cev_sequence e' + 1 end;
}.

Lemma next_event_quiet l l' m e : quiet l l' → next_event l' m e → next_event l m e.
Proof.
  intros Hq [H1 H2 H3 H4]. split; [done| |done|].
  - by rewrite H2, (current_quiet l l').
  - by rewrite H4, (latest_quiet l l').
Qed.

Section transitions.
Context `{Digest} `{JsonDatetime}.

Lemma append_transition_inv l m a l' b :
  _append_challenger_transition l m a = Ok (l', b) →
  (l' = l ∧ b = false ∧ ∃ e, event_with_idempotency_key l (cmr_challenger_id m) (ta_idempotency_key a) = Some e ∧ cev_to_status e = ta_to_status a)
  ∨ (b = true ∧ ∃ e, l' = put l (REvent e) ∧ next_event l m e ∧ cev_to_status e = ta_to_status a ∧
       cev_reason_code e = ta_reason_code a ∧ cev_artifact_hash e = ta_artifact_hash a ∧ cev_idempotency_key e = ta_idempotency_key a).
Proof.
  unfold _append_challenger_transition. destruct (event_with_idempotency_key l _ _) as [e|] eqn:Ek; intros Hc.
  - left. apply bind_Ok_inv in Hc as ([] & Hf%raise_if_Ok_inv & [= <- <-]). split_bool. eauto.
  - right. apply bind_Ok_inv in Hc as ([] & Hf%raise_if_Ok_inv & Hc). apply bind_Ok_inv in Hc as (id & _ & Hc).
    apply bind_Ok_inv in Hc as (h & _ & Hc). apply bind_Ok_inv in Hc as (l1 & [_ ->]%add_inv & [= <- <-]).
    unfold in_statuses in Hf. split_bool. split; [done|]. eexists. split; [reflexivity|]. by repeat split.
Qed.
End transitions.

(** ** Evidence *)

Definition replay_ok (r : ResearchReplayArtifactRow) : Prop :=
  rar_deterministic_match r = String.eqb (rar_first_replay_hash r) (rar_second_replay_hash r).

Section evidence.
Context `{Digest} `{JsonDatetime}.

Definition report_ok (r : FalsificationReportRow) : Prop :=
  far_mandatory_passed r = rp_mandatory_passed (far_payload r) ∧ validate_FalsificationReportV1 (far_payload r) = Ok (far_payload r).

Definition mandatory_tests_pass (r : FalsificationReportV1) : Prop :=
  ∀ t, t ∈ rp_results r → tr_mandatory t = true → tr_status t = PASS.

(** What a challenger must have shown to leave PROPOSED for the shadow stage: a registered candidate artifact, a deterministic
    replay of it, a report whose mandatory tests all pass and which is bound to that artifact, that replay and the contract of a
    passed out-of-sample submission, and two independent paper-only shadow arms, its own and its parent's, on one contract. *)
Record gate_evidence (l : challenger_ledger) (m : ChallengerManifestRow) (candidate : ResearchCandidateArtifactRow)
    (replay : ResearchReplayArtifactRow) (report : FalsificationReportRow) (oos : OosLockboxResultRow)
    (champion challenger : ResearchShadowArmRegistrationRow) : Prop := {
  ge_candidate : candidate ∈ candidates l ∧ car_challenger_id candidate = cmr_challenger_id m;
  ge_replay : replay ∈ replays l ∧ rar_challenger_id replay = cmr_challenger_id m ∧
              rar_candidate_artifact_hash replay = car_bundle_hash candidate ∧ rar_first_replay_hash replay = rar_second_replay_hash replay;
  ge_report : report ∈ reports l ∧ far_challenger_id report = cmr_challenger_id m ∧ mandatory_tests_pass (far_payload report);
  ge_bindings : _require_falsification_bindings (far_payload report) (car_bundle_hash candidate) (rar_data_manifest_hash replay)
                  (rar_artifact_hash replay) (Some (oor_evaluation_contract_hash oos)) = Ok ();
  ge_oos : oos ∈ oos_results l ∧ oor_challenger_id oos = cmr_challenger_id m ∧ oor_verdict oos = OOS_PASS ∧
           oor_candidate_artifact_hash oos = car_bundle_hash candidate ∧ oor_experiment_family oos = cmr_experiment_family m;
  ge_arms : champion ∈ shadow_arms l ∧ challenger ∈ shadow_arms l ∧ shr_challenger_id champion = cmr_challenger_id m ∧
            shr_challenger_id challenger = cmr_challenger_id m ∧ shr_arm_role champion = CHAMPION ∧ shr_arm_role challenger = CHALLENGER;
  ge_matched : shr_shadow_pair_id champion = shr_shadow_pair_id challenger ∧
               shr_execution_contract_hash champion = shr_execution_contract_hash challenger ∧ shr_arm_id champion ≠ shr_arm_id challenger;
  ge_paper_only : shr_real_order_routing champion = false ∧ shr_real_order_routing challenger = false;
  ge_identity : shr_strategy_id challenger = cmr_strategy_id m ∧ shr_strategy_version challenger = cmr_strategy_version m ∧
                shr_strategy_version champion ≠ shr_strategy_version challenger;
}.

Definition oos_gate_passed (l : challenger_ledger) (m : ChallengerManifestRow) : Prop :=
  ∃ candidate replay report oos champion challenger, gate_evidence l m candidate replay report oos champion challenger.

(** A mandatory test failed in the report, or the candidate's own tests failed and the failure names the registered manifest. *)
Definition tests_failed (l : challenger_ledger) (m : ChallengerManifestRow) : Prop :=
  (∃ r t, r ∈ reports l ∧ far_challenger_id r = cmr_challenger_id m ∧ t ∈ rp_results (far_payload r) ∧ tr_mandatory t = true ∧ tr_status t ≠ PASS) ∨
  (∃ f e, validate_CandidateTestFailureV1 f = Ok f ∧ tf_challenger_id f = cmr_challenger_id m ∧ tf_candidate_manifest_hash f = cmr_manifest_hash m ∧
     e ∈ challenger_events l ∧ cev_challenger_id e = cmr_challenger_id m ∧ cev_artifact_hash e = Some (tf_failure_hash f)).

Definition replay_failed (l : challenger_ledger) (m : ChallengerManifestRow) : Prop :=
  ∃ r, r ∈ replays l ∧ rar_challenger_id r = cmr_challenger_id m ∧ rar_first_replay_hash r ≠ rar_second_replay_hash r.

Definition oos_rejected (l : challenger_ledger) (m : ChallengerManifestRow) : Prop :=
  ∃ r, r ∈ oos_results l ∧ oor_challenger_id r = cmr_challenger_id m ∧ oor_verdict r = OOS_FAIL.

(** A recorded decision under which every required criterion is met. *)
Definition criteria_met (l : challenger_ledger) (m : ChallengerManifestRow) : Prop :=
  ∃ d, d ∈ decisions l ∧ pdr_challenger_id d = cmr_challenger_id m ∧ pdr_verdict d = ELIGIBLE_REQUIRES_MANUAL_APPROVAL ∧
    pdr_automatic_promotion_enabled d = false ∧
    ∀ name, name ∈ REQUIRED_PROMOTION_CRITERIA → dget name (pd_criteria (pdr_payload d)) = Some true.

(** The evidence behind a status.  The transactions of this model do not promote: PROMOTED takes a champion designation. *)
Definition backed (l : challenger_ledger) (m : ChallengerManifestRow) (s : ChallengerStatus) : Prop :=
  match s with
  | TEST_FAILED => tests_failed l m
  | REPLAY_FAILED => replay_failed l m
  | OOS_REJECTED => oos_rejected l m
  | SHADOW_PENDING | SHADOW_RUNNING => oos_gate_passed l m
  | PROMOTION_ELIGIBLE => oos_gate_passed l m ∧ criteria_met l m
  | PROMOTED => False
  | PROPOSED | BUILD_FAILED | CHALLENGER_REJECTED | RETIRED => True
  end.

Lemma gate_mono l l' m : extends l l' → oos_gate_passed l m → oos_gate_passed l' m.
Proof.
  intros [] (candidate & replay & report & oos & champion & challenger & []). exists candidate, replay, report, oos, champion, challenger.
  split; destruct_and?; split_and?; eauto using prefix_elem.
Qed.

Lemma backed_mono l l' m s : extends l l' → backed l m s → backed l' m s.
Proof.
  intros Hx. pose proof (gate_mono _ _ m Hx) as Hg. destruct Hx.
  destruct s; cbn; unfold tests_failed, replay_failed, oos_rejected, criteria_met; try done.
  - intros [(r & t & ? & Hr)|(f & e & ? & ? & ? & ? & He)]; [left|right].
    + exists r, t. split; [by eapply prefix_elem|done].
    + exists f, e. do 3 (split; [done|]). split; [by eapply prefix_elem|done].
  - intros (r & ? & Hr). exists r. split; [by eapply prefix_elem|done].
  - intros (r & ? & Hr). exists r. split; [by eapply prefix_elem|done].
  - intros [? (d & ? & Hd)]. split; [auto|]. exists d. split; [by eapply prefix_elem|done].
Qed.

(** ** Steps *)

(** The reservations of a family, and the out-of-sample uses it has spent. *)
Definition family_reservations (l : challenger_ledger) (family : string) : list OosBudgetReservationRow :=
  List.filter (λ r, rsv_experiment_family r =s family) (reservations l).
Definition oos_reserved (l : challenger_ledger) (family : string) : Z := Z.of_nat (length (family_reservations l family)).
Definition oos_spent (l : challenger_ledger) (family : string) : Z := budget_sum bev_oos_budget_delta l family.

(** Rows are only added, the replays and reports added are consistent, and no reservation is added without its budget. *)
Record grows (l l' : challenger_ledger) : Prop := {
  gr_extends : extends l l';
  gr_budget : ∀ family, oos_reserved l' family - oos_reserved l family <= oos_spent l' family - oos_spent l family;
  gr_replays : ∀ r, r ∈ replays l' → r ∈ replays l ∨ replay_ok r;
  gr_reports : ∀ r, r ∈ reports l' → r ∈ reports l ∨ report_ok r;
}.

#[export] Instance grows_preorder : PreOrder grows.
Proof.
  split; [intros l; split; [done|lia|tauto..]|]. intros l1 l2 l3 [] []. split; [by etrans| | |].
  - intros family. specialize (gr_budget0 family). specialize (gr_budget1 family). lia.
  - intros r Hr%gr_replays1. naive_solver.
  - intros r Hr%gr_reports1. naive_solver.
Qed.

Definition row_ok (row : table_row) : Prop :=
  match row with
  | RReplay r => replay_ok r
  | RReport r => report_ok r
  | RBudget r => 0 <= bev_oos_budget_delta r
  | RReservation _ => False
  | _ => True
  end.

Lemma sum_snoc l x y : fold_left Z.add (l ++ [x]) y = fold_left Z.add l y + x.
Proof. by rewrite fold_left_app. Qed.

Lemma budget_sum_put delta l row family : budget_sum delta (put l row) family
  = budget_sum delta l family + match row with RBudget r => if bev_experiment_family r =s family then delta r else 0 | _ => 0 end.
Proof.
  unfold budget_sum. destruct row; cbn; rewrite ?app_nil_r, ?Z.add_0_r; try done. rewrite List.filter_app, map_app. cbn.
  destruct (_ =? _)%string; cbn; [apply sum_snoc|by rewrite app_nil_r, Z.add_0_r].
Qed.

Lemma oos_reserved_put l row family : oos_reserved (put l row) family
  = oos_reserved l family + match row with RReservation r => if rsv_experiment_family r =s family then 1 else 0 | _ => 0 end.
Proof.
  unfold oos_reserved, family_reservations. destruct row; cbn; rewrite ?app_nil_r, ?Z.add_0_r; try done.
  rewrite List.filter_app, length_app. cbn. destruct (_ =? _)%string; cbn; lia.
Qed.

Lemma add_grows l row l' : row_ok row → add l row = Ok l' → grows l l'.
Proof.
  intros Hr [_ ->]%add_inv. split; [apply put_extends| |intros r; destruct row..].
  { intros family. unfold oos_spent. rewrite oos_reserved_put, budget_sum_put. destruct row; cbn in *; try lia.
    destruct (_ =? _)%string; lia. }
  all: cbn in *; rewrite ?app_nil_r; try tauto; rewrite elem_of_app, list_elem_of_singleton; intros [?| ->]; auto.
Qed.

(** A reservation and its budget event. *)
Lemma add_reservation_grows l r row l1 l2 :
  add l (RReservation r) = Ok l1 → add l1 (RBudget row) = Ok l2 → bev_experiment_family row = rsv_experiment_family r →
  bev_oos_budget_delta row = 1 → grows l l2.
Proof.
  intros [_ ->]%add_inv [_ ->]%add_inv Ef Ed. split; [etrans; apply put_extends| |cbn; intros ?; rewrite !app_nil_r; tauto..].
  intros family. unfold oos_spent. rewrite !oos_reserved_put, !budget_sum_put, Ef, Ed. cbn. destruct (_ =? _)%string; lia.
Qed.

(** What a transaction does to the lifecycle: nothing, a registration, or one backed event. *)
Inductive step (l l' : challenger_ledger) : Prop :=
  | step_quiet : grows l l' → quiet l l' → step l l'
  | step_register row : grows l l' → cmr_initial_status row = PROPOSED → violates l (RManifest row) = false → l' = put l (RManifest row) → step l l'
  | step_event m e : grows l l' → get_manifest_row l (cmr_challenger_id m) = Some m → manifests l' = manifests l →
      challenger_events l' = challenger_events l ++ [e] → next_event l m e →
      (backed l m (cev_from_status e) → backed l' m (cev_to_status e)) → step l l'.

Lemma step_grows l l' : step l l' → grows l l'.
Proof. by intros []. Qed.

Lemma get_manifest_id l id m : get_manifest_row l id = Some m → cmr_challenger_id m = id ∧ get_manifest_row l (cmr_challenger_id m) = Some m.
Proof. intros Hm. pose proof (find_elem _ _ _ Hm) as [_ ->%String.eqb_eq]. done. Qed.

(** A transition at the end of a transaction. *)
Lemma transition_step l l1 m a l2 b :
  get_manifest_row l (cmr_challenger_id m) = Some m → grows l l1 → quiet l l1 →
  _append_challenger_transition l1 m a = Ok (l2, b) →
  (∀ e, grows l1 l2 → e ∈ challenger_events l2 → cev_challenger_id e = cmr_challenger_id m → cev_artifact_hash e = ta_artifact_hash a →
     cev_to_status e ∈ ALLOWED_TRANSITIONS (cev_from_status e) → cev_to_status e = ta_to_status a →
     backed l m (cev_from_status e) → backed l2 m (ta_to_status a)) →
  step l l2.
Proof.
  intros Hm Hg Hq Ha Hb. apply append_transition_inv in Ha as [(E & _ & _)|(_ & e & E & Hn & Ht & _ & Hh & _)]; subst l2; [by apply step_quiet|].
  assert (grows l1 (put l1 (REvent e))) as Hg1.
  { split; [apply put_extends| |cbn; intros r; rewrite app_nil_r; auto..]. intros family. unfold oos_spent.
    rewrite oos_reserved_put, budget_sum_put. lia. }
  destruct Hq as [Em Ee]. apply (step_event _ _ m e).
  - by etrans.
  - done.
  - cbn. by rewrite app_nil_r.
  - cbn. by rewrite Ee.
  - by apply (next_event_quiet l l1).
  - rewrite Ht. intros Hbe. destruct Hn. apply (Hb e); try done. cbn. apply elem_of_app. right. by left.
Qed.
End evidence.

(** ** Every transaction is a step *)

Section steps.
Context `{Digest} `{JsonDatetime}.

Lemma validate_bundle_id b b' : validate_CandidateArtifactBundleV1 b = Ok b' → b' = b.
Proof. unfold validate_CandidateArtifactBundleV1. intros Hv. inv_ok. done. Qed.

Lemma validate_report_id r r' : validate_FalsificationReportV1 r = Ok r' → r' = r.
Proof. unfold validate_FalsificationReportV1. intros Hv. inv_ok. done. Qed.

Lemma report_mandatory r : validate_FalsificationReportV1 r = Ok r → rp_mandatory_passed r = forallb result_passes (rp_results r).
Proof. unfold validate_FalsificationReportV1, invalid. intros Hv. inv_ok. split_bool. by apply eqb_prop. Qed.

Lemma mandatory_passed_tests r : validate_FalsificationReportV1 r = Ok r → rp_mandatory_passed r = true → mandatory_tests_pass r.
Proof.
  intros Hv Hp. rewrite (report_mandatory r Hv) in Hp. rewrite forallb_forall in Hp. intros t Ht Hm.
  apply list_elem_of_In, Hp in Ht. unfold result_passes in Ht. rewrite Hm in Ht. by apply bool_decide_eq_true in Ht.
Qed.

Lemma mandatory_failed_test r : validate_FalsificationReportV1 r = Ok r → rp_mandatory_passed r = false →
  ∃ t, t ∈ rp_results r ∧ tr_mandatory t = true ∧ tr_status t ≠ PASS.
Proof.
  intros Hv Hp. rewrite (report_mandatory r Hv) in Hp. apply not_true_iff_false in Hp. rewrite forallb_forall in Hp.
  destruct (decide (Exists (λ t, result_passes t = false) (rp_results r))) as [He|Hn].
  - apply Exists_exists in He as (t & Ht & Hf). exists t. unfold result_passes in Hf. split_bool. done.
  - exfalso. apply Hp. intros t Ht%list_elem_of_In. apply not_false_iff_true. intros Hf. apply Hn, Exists_exists. eauto.
Qed.

Lemma registered_candidate_inv l id h bundle : _require_registered_candidate_artifact l id h = Ok bundle →
  ∃ row, row ∈ candidates l ∧ car_challenger_id row = id ∧ cb_bundle_hash bundle = car_bundle_hash row ∧
    match h with Some h => car_bundle_hash row = h | None => True end.
Proof.
  unfold _require_registered_candidate_artifact, _validate_stored_candidate_artifact. intros Hr.
  apply bind_Ok_inv in Hr as (row & [Hin Hf]%required_Ok%find_elem & Hr). apply bind_Ok_inv in Hr as (b & _ & Hr).
  apply bind_Ok_inv in Hr as ([] & Hb%raise_if_Ok_inv & [= <-]). split_bool. exists row.
  repeat match goal with E : (_ =? _)%string = true |- _ => apply String.eqb_eq in E end.
  cbn [existsb fst snd] in Hb. split_bool. repeat match goal with E : (_ =? _)%string = true |- _ => apply String.eqb_eq in E end.
  split_and!; try done. destruct h; [|done]. by apply String.eqb_eq.
Qed.

Lemma passed_replay_inv l id h r : passed_replay_of l id h = Some r →
  r ∈ replays l ∧ rar_challenger_id r = id ∧ rar_candidate_artifact_hash r = h ∧ rar_deterministic_match r = true.
Proof.
  intros [Hin Hf]%find_elem. split_bool. repeat match goal with E : (_ =? _)%string = true |- _ => apply String.eqb_eq in E end. done.
Qed.

Lemma passed_report_inv l id r : passed_report_of l id = Some r → r ∈ reports l ∧ far_challenger_id r = id ∧ far_mandatory_passed r = true.
Proof. intros [Hin Hf]%find_elem. split_bool. by apply String.eqb_eq in H1. Qed.

Lemma transition_challenger_step l id to reason hash key at_ l' b :
  transition_challenger l id to reason hash key at_ = Ok (l', b) → step l l'.
Proof.
  unfold transition_challenger. intros Hc. apply bind_Ok_inv in Hc as ([] & Hg%raise_if_Ok_inv & Hc).
  apply bind_Ok_inv in Hc as (t & _ & Hc). apply bind_Ok_inv in Hc as (m & [_ Hm]%required_Ok%get_manifest_id & Hc).
  eapply transition_step in Hc; [done..|]. cbn. intros _ _ _ _ _ _ _ _. unfold in_statuses in Hg. apply bool_decide_eq_false in Hg.
  destruct to; try done; exfalso; apply Hg; unfold LIFECYCLE_GATED_TRANSITIONS; set_solver.
Qed.

Lemma candidate_test_failure_step l f l' b :
  validate_CandidateTestFailureV1 f = Ok f → record_candidate_test_failure l f = Ok (l', b) → step l l'.
Proof.
  intros Hv. unfold record_candidate_test_failure. intros Hc. apply bind_Ok_inv in Hc as (m & [Eid Hm]%required_Ok%get_manifest_id & Hc).
  apply bind_Ok_inv in Hc as (cm & _ & Hc). apply bind_Ok_inv in Hc as ([] & H1%raise_if_Ok_inv & Hc).
  apply bind_Ok_inv in Hc as (p & _ & Hc). do 2 (apply bind_Ok_inv in Hc as ([] & _ & Hc)).
  apply bind_Ok_inv in Hc as ([] & H2%raise_if_Ok_inv & Hc). do 2 (apply bind_Ok_inv in Hc as ([] & _ & Hc)).
  eapply transition_step in Hc; [done..|]. cbn. intros e _ He Hid Hh _ _ _. right. cbn [existsb fst snd] in H2. split_bool.
  repeat match goal with E : (_ =? _)%string = true |- _ => apply String.eqb_eq in E end.
  exists f, e. split_and!; congruence.
Qed.
Lemma replay_step l a l' b : record_replay_artifact l a = Ok (l', b) → step l l'.
Proof.
  unfold record_replay_artifact. intros Hc. apply bind_Ok_inv in Hc as (m & [Eid Hm]%required_Ok%get_manifest_id & Hc).
  apply bind_Ok_inv in Hc as (bundle & _ & Hc). apply bind_Ok_inv in Hc as (hash & _ & Hc).
  destruct (replay_of l _); [apply bind_Ok_inv in Hc as ([] & _ & [= <- <-]); by apply step_quiet|].
  do 2 (apply bind_Ok_inv in Hc as ([] & _ & Hc)). apply bind_Ok_inv in Hc as (p & _ & Hc). apply bind_Ok_inv in Hc as (rid & _ & Hc).
  apply bind_Ok_inv in Hc as (l1 & Ha & Hc). assert (grows l l1) as Hg by (eapply add_grows; [|exact Ha]; done).
  assert (quiet l l1) as Hq by (by eapply add_quiet; [|exact Ha]).
  destruct (deterministic_match a) eqn:Ed; [injection Hc as <- <-; by apply step_quiet|].
  apply bind_Ok_inv in Hc as ([l2 b2] & Ht & [= <- <-]). eapply transition_step in Ht; [exact Ht|done..|].
  cbn. intros e Hg2 _ _ _ _ _ _. apply add_inv in Ha as [_ ->]. eexists. split.
  { eapply prefix_elem; [apply Hg2|]. cbn. apply elem_of_app. right. by left. }
  cbn. split; [done|]. unfold deterministic_match in Ed. by apply String.eqb_neq in Ed.
Qed.

Lemma falsification_step l r l' b : validate_FalsificationReportV1 r = Ok r → record_falsification_report l r = Ok (l', b) → step l l'.
Proof.
  intros Hv. unfold record_falsification_report. intros Hc. apply bind_Ok_inv in Hc as (m & [Eid Hm]%required_Ok%get_manifest_id & Hc).
  apply bind_Ok_inv in Hc as (bundle & _ & Hc). apply bind_Ok_inv in Hc as (replay & _ & Hc). apply bind_Ok_inv in Hc as ([] & _ & Hc).
  destruct (report_of l _); [apply bind_Ok_inv in Hc as ([] & _ & [= <- <-]); by apply step_quiet|].
  apply bind_Ok_inv in Hc as ([] & _ & Hc). apply bind_Ok_inv in Hc as (rid & _ & Hc). apply bind_Ok_inv in Hc as (l1 & Ha & Hc).
  assert (grows l l1) as Hg by (eapply add_grows; [|exact Ha]; done). assert (quiet l l1) as Hq by (by eapply add_quiet; [|exact Ha]).
  destruct (rp_mandatory_passed r) eqn:Ep; [injection Hc as <- <-; by apply step_quiet|].
  apply bind_Ok_inv in Hc as ([l2 b2] & Ht & [= <- <-]). eapply transition_step in Ht; [exact Ht|done..|].
  cbn. intros e Hg2 _ _ _ _ _ _. apply add_inv in Ha as [_ ->]. destruct (mandatory_failed_test r Hv Ep) as (t & Ht1 & Ht2).
  left. eexists _, t. split.
  { eapply prefix_elem; [apply Hg2|]. cbn. apply elem_of_app. right. by left. }
  by cbn.
Qed.

Lemma budget_quiet l a l' b : append_budget_event l a = Ok (l', b) → grows l l' ∧ quiet l l'.
Proof.
  unfold append_budget_event, append_budget_event_from. intros Hc. apply bind_Ok_inv in Hc as ([] & Hn%raise_if_Ok_inv & Hc). apply bind_Ok_inv in Hc as (t & _ & Hc).
  apply bind_Ok_inv in Hc as (row & Hr & Hc). destruct (budget_event_with_key l _ _).
  - by apply bind_Ok_inv in Hc as ([] & _ & [= <- <-]).
  - destruct (add l (RBudget row)) as [l1|] eqn:Ea.
    + injection Hc as <- <-. split; [eapply add_grows; [|exact Ea]|by eapply add_quiet; [|exact Ea]].
      unfold budget_row in Hr. apply bind_Ok_inv in Hr as (? & _ & Hr). apply bind_Ok_inv in Hr as (? & _ & [= <-]).
      cbn in *. split_bool. lia.
    + by apply bind_Ok_inv in Hc as ([] & _ & [= <- <-]).
Qed.

Lemma validate_reservation_id r r' : validate_OosBudgetReservationV1 r = Ok r' → r' = r.
Proof. unfold validate_OosBudgetReservationV1. intros Hv. inv_ok. done. Qed.

Lemma build_reservation_inv q a submission oos r : build_reservation q a submission oos = Ok r →
  ob_experiment_family r = oq_experiment_family q ∧ ob_idempotency_key r = rg_idempotency_key a ∧ ob_submission_ordinal r = submission ∧
  ob_oos_budget_ordinal r = oos ∧ ob_submission_number r = oq_submission_number q ∧
  validate_OosBudgetReservationV1 r = Ok r ∧ _require_oos_reservation_binding r q = Ok ().
Proof.
  unfold build_reservation. intros Hb. apply bind_Ok_inv in Hb as (id & _ & Hb). apply bind_Ok_inv in Hb as (h & _ & Hv).
  pose proof (validate_reservation_id _ _ Hv) as E. rewrite E. do 5 (split; [done|]). split; [by rewrite <- E in Hv |- *|].
  unfold _require_oos_reservation_binding. cbn. by rewrite !String.eqb_refl, Z.eqb_refl.
Qed.

(** A reservation is the stored one, or a new row with its budget event. *)
Lemma reserve_once_inv snap l q a l' r :
  _reserve_oos_budget_once snap l q a = Ok (l', r) →
  (l' = l ∧ ∃ row, reservation_with_key snap (oq_experiment_family q) (rg_idempotency_key a) = Some row ∧ rsv_payload row = r ∧
     validate_OosBudgetReservationV1 r = Ok r ∧ _require_oos_reservation_binding r q = Ok ()) ∨
  (∃ row l1, reservation_with_key snap (oq_experiment_family q) (rg_idempotency_key a) = None ∧
     add l (RReservation (reservation_row r)) = Ok l1 ∧ add l1 (RBudget row) = Ok l' ∧
     build_reservation q a (budget_sum bev_submission_delta snap (oq_experiment_family q) + 1)
       (budget_sum bev_oos_budget_delta snap (oq_experiment_family q) + 1) = Ok r ∧
     bev_experiment_family row = oq_experiment_family q ∧ bev_submission_delta row = 1 ∧ bev_oos_budget_delta row = 1 ∧
     oq_submission_number q = budget_sum bev_submission_delta snap (oq_experiment_family q) + 1 ∧
     oq_submission_number q <= rg_maximum_submissions a ∧
     budget_sum bev_oos_budget_delta snap (oq_experiment_family q) + 1 <= rg_maximum_oos_uses a).
Proof.
  unfold _reserve_oos_budget_once. destruct (reservation_with_key snap _ _) as [row|] eqn:Ek; intros Hc.
  - left. apply bind_Ok_inv in Hc as (r' & Hv & Hc). apply bind_Ok_inv in Hc as ([] & _ & Hc). apply bind_Ok_inv in Hc as ([] & Hb & [= <- <-]).
    assert (r' = rsv_payload row) as E by (unfold validate_OosBudgetReservationV1 in Hv; inv_ok; done). subst r'. split; [done|]. by exists row.
  - right. apply bind_Ok_inv in Hc as ([] & _ & Hc). apply bind_Ok_inv in Hc as ([] & H1%raise_if_Ok_inv & Hc).
    apply bind_Ok_inv in Hc as ([] & H2%raise_if_Ok_inv & Hc). apply bind_Ok_inv in Hc as ([] & H3%raise_if_Ok_inv & Hc).
    apply bind_Ok_inv in Hc as (r' & Hb & Hc). apply bind_Ok_inv in Hc as (row & Hr & Hc). apply bind_Ok_inv in Hc as (l1 & Ha1 & Hc).
    apply bind_Ok_inv in Hc as (l2 & Ha2 & [= <- <-]). unfold budget_row in Hr. apply bind_Ok_inv in Hr as (id & _ & Hr).
    apply bind_Ok_inv in Hr as (h & _ & [= <-]). split_bool. eexists _, l1. split_and!; try done; try lia.
Qed.

Lemma reserve_attempts_inv n views q a l' r :
  reserve_attempts n views q a = Ok (l', r) → ∃ i, (i < n)%nat ∧ _reserve_oos_budget_once (views i).1 (views i).2 q a = Ok (l', r).
Proof.
  induction n as [|n IH]; cbn; [done|]. destruct (_reserve_oos_budget_once _ _ _ _) as [x|e] eqn:E.
  - intros [= ->]. exists n. split; [lia|done].
  - destruct (bool_decide _); [|done]. intros (i & ? & ?)%IH. exists i. split; [lia|done].
Qed.

Lemma reserve_inv views q a l' r : reserve_oos_budget views q a = Ok (l', r) →
  0 < rg_maximum_submissions a ∧ 0 < rg_maximum_oos_uses a ∧ reserve_attempts 3 views q a = Ok (l', r).
Proof.
  unfold reserve_oos_budget. intros Hc. apply bind_Ok_inv in Hc as ([] & Hl%raise_if_Ok_inv & Hc).
  do 2 (apply bind_Ok_inv in Hc as (? & _ & Hc)). apply bind_Ok_inv in Hc as ([] & _ & Hc). split_bool. split; [lia|]. split; [lia|done].
Qed.

Lemma reserve_quiet l q a l' r : reserve_oos_budget (λ _, (l, l)) q a = Ok (l', r) → grows l l' ∧ quiet l l'.
Proof.
  intros (_ & _ & (i & _ & Hc)%reserve_attempts_inv)%reserve_inv. cbn in Hc.
  apply reserve_once_inv in Hc as [[E _]|(row & l1 & _ & H1 & H2 & Hb & Ef & _ & Ed & _)]; [by subst|]. split.
  - eapply add_reservation_grows; [exact H1|exact H2| |exact Ed]. rewrite Ef. symmetry. by eapply build_reservation_inv.
  - transitivity l1; [by eapply add_quiet; [|exact H1]|by eapply add_quiet; [|exact H2]].
Qed.

Record rows_ok (l : challenger_ledger) : Prop := {
  ro_replays : ∀ r, r ∈ replays l → replay_ok r;
  ro_reports : ∀ r, r ∈ reports l → report_ok r;
}.

Lemma shadow_row_inv m pair oos hash c at_ role identity row : shadow_row m pair oos hash c at_ role identity = Ok row →
  shr_challenger_id row = cmr_challenger_id m ∧ shr_shadow_pair_id row = pair ∧ shr_arm_role row = role ∧ shr_arm_id row = sa_arm_id identity ∧
  shr_strategy_id row = sa_strategy_id identity ∧ shr_strategy_version row = sa_strategy_version identity ∧
  shr_execution_contract_hash row = hash ∧ shr_real_order_routing row = false.
Proof. unfold shadow_row. intros Hr. apply bind_Ok_inv in Hr as (id & _ & [= <-]). done. Qed.

(** The pair that a registration adds. *)
Lemma register_pair_inv l m oos hash champion challenger at_ l' :
  _register_shadow_pair l m oos hash champion challenger at_ = Ok l' →
  grows l l' ∧ quiet l l' ∧ ∃ a b pair contract,
    a ∈ shadow_arms l' ∧ b ∈ shadow_arms l' ∧ shadow_row m pair oos contract (sa_contract champion) at_ CHAMPION champion = Ok a ∧
    shadow_row m pair oos contract (sa_contract champion) at_ CHALLENGER challenger = Ok b.
Proof.
  unfold _register_shadow_pair. intros Hc. apply bind_Ok_inv in Hc as (contract & _ & Hc). apply bind_Ok_inv in Hc as (pair & _ & Hc).
  apply bind_Ok_inv in Hc as (a & Ha & Hc). apply bind_Ok_inv in Hc as (l1 & H1 & Hc). apply bind_Ok_inv in Hc as (b & Hb & H2).
  split; [etrans; [by eapply add_grows; [|exact H1]|by eapply add_grows; [|exact H2]]|]. split; [etrans; [by eapply add_quiet; [|exact H1]|by eapply add_quiet; [|exact H2]]|].
  exists a, b, pair, contract. apply add_inv in H1 as [_ ->], H2 as [_ ->]. cbn. rewrite !elem_of_app, !list_elem_of_singleton. tauto.
Qed.

Lemma oos_evidence_inv l r h m : oos_evidence l r h = Ok m → rows_ok l →
  cmr_challenger_id m = ol_challenger_id r ∧ get_manifest_row l (cmr_challenger_id m) = Some m ∧ ol_experiment_family r = cmr_experiment_family m ∧
  ∃ candidate replay report,
    (candidate ∈ candidates l ∧ car_challenger_id candidate = cmr_challenger_id m ∧ car_bundle_hash candidate = h) ∧
    (replay ∈ replays l ∧ rar_challenger_id replay = cmr_challenger_id m ∧ rar_candidate_artifact_hash replay = car_bundle_hash candidate ∧
       rar_first_replay_hash replay = rar_second_replay_hash replay) ∧
    (report ∈ reports l ∧ far_challenger_id report = cmr_challenger_id m ∧ mandatory_tests_pass (far_payload report)) ∧
    _require_falsification_bindings (far_payload report) (car_bundle_hash candidate) (rar_data_manifest_hash replay)
      (rar_artifact_hash replay) (Some (ol_evaluation_contract_hash r)) = Ok ().
Proof.
  unfold oos_evidence. intros Hc [Hro Hre]. apply bind_Ok_inv in Hc as (m' & [Eid Hm]%required_Ok%get_manifest_id & Hc).
  apply bind_Ok_inv in Hc as (bundle & (candidate & Hcin & Hcid & Hcb & Hch)%registered_candidate_inv & Hc).
  apply bind_Ok_inv in Hc as (report & (Hrin & Hrid & Hrp)%required_Ok%passed_report_inv & Hc).
  apply bind_Ok_inv in Hc as (replay & (Hpin & Hpid & Hph & Hpd)%required_Ok%passed_replay_inv & Hc).
  apply bind_Ok_inv in Hc as (parsed & Hv & Hc). pose proof (validate_report_id _ _ Hv) as E. subst parsed.
  apply bind_Ok_inv in Hc as ([] & Hb & Hc). apply bind_Ok_inv in Hc as ([] & Hf%raise_if_Ok_inv & [= <-]). split_bool.
  apply String.eqb_eq in Hf. split; [done|]. split; [done|]. split; [done|]. exists candidate, replay, report.
  pose proof (Hro _ Hpin) as Hok. unfold replay_ok in Hok. rewrite Hpd in Hok. symmetry in Hok. apply String.eqb_eq in Hok.
  pose proof (Hre _ Hrin) as [Hfl _]. rewrite Hrp in Hfl. rewrite Hcb in Hb.
  split_and!; try congruence; try done. by apply mandatory_passed_tests.
Qed.

Lemma matched_contract_Ok champion challenger : require_matched_shadow_contract champion challenger = Ok () →
  sa_arm_id champion ≠ sa_arm_id challenger ∧ sa_strategy_version champion ≠ sa_strategy_version challenger ∧
  sa_contract champion = sa_contract challenger.
Proof. apply matched_shadow_Ok. Qed.

Lemma shadow_arms_inv l m v champion challenger arms : oos_shadow_arms l m v champion challenger = Ok arms →
  match arms with
  | None => v = OOS_FAIL
  | Some (a, b) => v = OOS_PASS ∧ sa_arm_id a ≠ sa_arm_id b ∧ sa_strategy_version a ≠ sa_strategy_version b ∧
                   sa_strategy_id b = cmr_strategy_id m ∧ sa_strategy_version b = cmr_strategy_version m
  end.
Proof.
  unfold oos_shadow_arms. destruct v, champion as [a|], challenger as [b|]; try done; [|by intros [= <-]].
  intros Hc. apply bind_Ok_inv in Hc as ([] & Hs & [= <-]). unfold _validate_shadow_pair in Hs.
  apply bind_Ok_inv in Hs as ([] & (? & ? & _)%reraised_Ok%matched_contract_Ok & Hs). apply bind_Ok_inv in Hs as ([] & Hf%raise_if_Ok_inv & _).
  split_bool. repeat match goal with E : (_ =? _)%string = true |- _ => apply String.eqb_eq in E end. done.
Qed.

Lemma oos_step l r at_ h champion challenger l' b :
  rows_ok l → store_oos_result l r at_ h champion challenger = Ok (l', b) → step l l'.
Proof.
  intros Hok. unfold store_oos_result. intros Hc. apply bind_Ok_inv in Hc as (t & _ & Hc). apply bind_Ok_inv in Hc as ([] & Hh%raise_if_Ok_inv & Hc).
  apply bind_Ok_inv in Hc as (m & (Eid & Hm & Hfam & candidate & replay & report & Hcand & Hrep & Hfal & Hbind)%oos_evidence_inv & Hc); [|done].
  destruct (oos_submission l _ _); [apply bind_Ok_inv in Hc as ([] & _ & [= <- <-]); by apply step_quiet|].
  apply bind_Ok_inv in Hc as ([] & _ & Hc). apply bind_Ok_inv in Hc as (arms & Harms%shadow_arms_inv & Hc). apply bind_Ok_inv in Hc as (oid & _ & Hc).
  apply bind_Ok_inv in Hc as (l1 & Ha & Hc). match type of Ha with add l (ROos ?x) = _ => set (row := x) in Ha end.
  assert (grows l l1) as Hg by (by eapply add_grows; [|exact Ha]). assert (quiet l l1) as Hq by (by eapply add_quiet; [|exact Ha]).
  assert (row ∈ oos_results l1) as Hrow.
  { apply add_inv in Ha as [_ ->]. cbn. apply elem_of_app. right. by left. }
  split_bool. apply String.eqb_eq in Hh. destruct arms as [[a a']|].
  - destruct Harms as (Hv & Harm & Hver & Hsid & Hsver). apply bind_Ok_inv in Hc as (l2 & (Hg2 & Hq2 & x & y & pair & contract & Hx & Hy & Hxr & Hyr)%register_pair_inv & Hc).
    apply bind_Ok_inv in Hc as ([l3 b3] & Ht & [= <- <-]). eapply transition_step in Ht; [exact Ht|done|by etrans|by etrans|].
    cbn. intros e Hg3 _ _ _ _ _ _. apply shadow_row_inv in Hxr, Hyr. destruct Hg3 as [Hx3 _ _]. assert (extends l1 l3) as Hx13 by (etrans; [apply Hg2|done]).
    assert (extends l l3) as Hx03 by (etrans; [apply Hg|done]). destruct Hx13, Hx03, Hx3. repeat match goal with E : _ ∧ _ |- _ => destruct E end.
    exists candidate, replay, report, row, x, y. split; cbn; repeat apply conj; try congruence; eauto using prefix_elem.
  - apply bind_Ok_inv in Hc as ([l3 b3] & Ht & [= <- <-]). eapply transition_step in Ht; [exact Ht|done..|].
    cbn. intros e Hg3 _ _ _ _ _ _. exists row. split; [eapply prefix_elem; [apply Hg3|done]|]. by cbn.
Qed.

Lemma start_step l id key at_ l' b : start_shadow_evaluation l id key at_ = Ok (l', b) → step l l'.
Proof.
  unfold start_shadow_evaluation. intros Hc. apply bind_Ok_inv in Hc as (t & _ & Hc).
  apply bind_Ok_inv in Hc as (m & [Eid Hm]%required_Ok%get_manifest_id & Hc). apply bind_Ok_inv in Hc as ([] & _ & Hc).
  apply bind_Ok_inv in Hc as (pair & _ & Hc). apply bind_Ok_inv in Hc as (ph & _ & Hc).
  eapply transition_step in Hc; [done..|]. cbn. intros e Hg _ _ _ Hal Hto Hb. rewrite Hto in Hal.
  assert (cev_from_status e = SHADOW_PENDING) as Hf by (by destruct (cev_from_status e); cbn in Hal; set_solver).
  rewrite Hf in Hb. by eapply gate_mono; [apply Hg|].
Qed.

Lemma promotion_criteria_met l m d s : validate_PromotionDecisionV1 d = Ok d → _validate_promotion_binding l m d s = Ok () →
  pd_verdict d = ELIGIBLE_REQUIRES_MANUAL_APPROVAL → ∀ name, name ∈ REQUIRED_PROMOTION_CRITERIA → dget name (pd_criteria d) = Some true.
Proof.
  intros Hv Hb He name Hname. unfold validate_PromotionDecisionV1, invalid in Hv. inv_ok. rewrite He in *. split_bool.
  unfold _validate_promotion_binding in Hb. apply bind_Ok_inv in Hb as ([] & _ & Hb). apply bind_Ok_inv in Hb as ([] & Hs%raise_if_Ok_inv & _).
  split_bool. unfold same_strings in *. split_bool.
  match goal with E : forallb _ REQUIRED_PROMOTION_CRITERIA = true |- _ => rewrite forallb_forall in E; apply list_elem_of_In, E in Hname end.
  apply existsb_exists in Hname as (k & Hk%list_elem_of_In & ->%String.eqb_eq).
  apply list_elem_of_fmap in Hk as ([k' v] & -> & Hkv). cbn. destruct (dget k' (pd_criteria d)) as [b|] eqn:Eg.
  - apply dget_Some_elem, list_elem_of_In in Eg. f_equal.
    destruct (eligible d) eqn:Hel; [unfold eligible in Hel; rewrite forallb_forall in Hel; exact (Hel _ Eg)|]. by rewrite bool_decide_true in E8.
  - exfalso. apply dget_None_not_key in Eg. apply Eg, list_elem_of_fmap. by exists (k', v).
Qed.

Lemma eligibility_step l d l' b : validate_PromotionDecisionV1 d = Ok d → record_promotion_eligibility l d = Ok (l', b) → step l l'.
Proof.
  intros Hv. unfold record_promotion_eligibility. intros Hc. apply bind_Ok_inv in Hc as ([] & _ & Hc).
  apply bind_Ok_inv in Hc as (m & [Eid Hm]%required_Ok%get_manifest_id & Hc).
  destruct (get_decision_row l _); [apply bind_Ok_inv in Hc as ([] & _ & [= <- <-]); by apply step_quiet|].
  apply bind_Ok_inv in Hc as ([] & Hbind & Hc). apply bind_Ok_inv in Hc as (l1 & Ha & Hc). unfold _add_promotion_decision in Ha.
  assert (grows l l1) as Hg by (by eapply add_grows; [|exact Ha]). assert (quiet l l1) as Hq by (by eapply add_quiet; [|exact Ha]).
  case_bool_decide as Hel; [|injection Hc as <- <-; by apply step_quiet].
  apply bind_Ok_inv in Hc as ([l2 b2] & Ht & [= <- <-]). eapply transition_step in Ht; [exact Ht|done..|].
  cbn. intros e Hg2 _ _ _ Hal Hto Hb. rewrite Hto in Hal.
  assert (cev_from_status e = SHADOW_RUNNING) as Hf by (by destruct (cev_from_status e); cbn in Hal; set_solver).
  rewrite Hf in Hb. split; [eapply gate_mono; [|done]; etrans; [apply Hg|apply Hg2]|]. apply add_inv in Ha as [_ ->].
  eexists. split; [eapply prefix_elem; [apply Hg2|]; cbn; apply elem_of_app; right; by left|]. cbn. split; [done|]. split; [done|].
  split; [|by eapply promotion_criteria_met]. unfold validate_PromotionDecisionV1, invalid in Hv. inv_ok. done.
Qed.

Lemma approval_step l d l' b : record_manual_promotion_approval l d = Ok (l', b) → step l l'.
Proof.
  unfold record_manual_promotion_approval. intros Hc. apply bind_Ok_inv in Hc as ([] & _ & Hc). apply bind_Ok_inv in Hc as (m & _ & Hc).
  destruct (get_decision_row l _); [apply bind_Ok_inv in Hc as ([] & _ & [= <- <-]); by apply step_quiet|].
  do 2 (apply bind_Ok_inv in Hc as ([] & _ & Hc)). do 2 (apply bind_Ok_inv in Hc as (? & _ & Hc)). apply bind_Ok_inv in Hc as ([] & _ & Hc).
  apply bind_Ok_inv in Hc as (l1 & Ha & [= <- <-]). unfold _add_promotion_decision in Ha.
  apply step_quiet; [by eapply add_grows; [|exact Ha]|by eapply add_quiet; [|exact Ha]].
Qed.

Lemma fmap_fst_Ok {A B} (r : res (A * B)) a : fst <$> r = Ok a → ∃ b, r = Ok (a, b).
Proof. destruct r as [[a' b]|]; cbn; [|done]. intros [= <-]. eauto. Qed.

Lemma run_command_step l c l' : rows_ok l → valid_command c → run_command l c = Ok l' → step l l'.
Proof.
  intros Hok Hv Hr. destruct c; cbn in *; try (apply fmap_fst_Ok in Hr as (b & Hr)).
  - apply step_quiet; [by eapply add_grows; [|exact Hr]|by eapply add_quiet; [|exact Hr]].
  - unfold register_manifest in Hr. apply bind_Ok_inv in Hr as ([] & Hs%raise_if_Ok_inv & Hr). split_bool.
    pose proof Hr as [Hvi Ep]%add_inv. eapply step_register; [|done..]. by eapply add_grows; [|exact Hr].
  - apply step_quiet; [by eapply add_grows; [|exact Hr]|by eapply add_quiet; [|exact Hr]].
  - by eapply transition_challenger_step.
  - by eapply candidate_test_failure_step.
  - by eapply replay_step.
  - by eapply falsification_step.
  - apply budget_quiet in Hr as [? ?]. by apply step_quiet.
  - apply reserve_quiet in Hr as [? ?]. by apply step_quiet.
  - by eapply oos_step.
  - by eapply start_step.
  - by eapply eligibility_step.
  - by eapply approval_step.
Qed.
End steps.

(** ** Histories *)

(** A walk through the allowed transitions, its events numbered from one. *)
Inductive walk (s : ChallengerStatus) : list ChallengerEventRow → ChallengerStatus → Prop :=
  | walk_nil : walk s [] s
  | walk_snoc es e : walk s es (cev_from_status e) → cev_to_status e ∈ ALLOWED_TRANSITIONS (cev_from_status e) →
      cev_sequence e = Z.of_nat (length es) + 1 → walk s (es ++ [e]) (cev_to_status e).

Definition last_event (es : list ChallengerEventRow) : option ChallengerEventRow :=
  match es with [] => None | e :: es => Some (max_by sequence_lt e es) end.

Lemma walk_last s es t : walk s es t →
  match last_event es with
  | None => es = [] ∧ t = s
  | Some e => cev_to_status e = t ∧ cev_sequence e = Z.of_nat (length es)
  end.
Proof.
  induction 1 as [|es e Hw IH Ha Hs]; [done|]. destruct es as [|e0 es]; [done|]. cbn [last_event app] in *.
  destruct IH as [_ IH]. rewrite max_by_snoc. cbn [length] in *.
  assert (sequence_lt (max_by sequence_lt e0 es) e = true) as -> by (apply Z.ltb_lt; lia).
  split; [done|]. rewrite length_app. cbn [length]. lia.
Qed.

Lemma walk_sequences s es t : walk s es t → map cev_sequence es = seqZ 1 (Z.of_nat (length es)).
Proof.
  induction 1 as [|es e _ IH _ Hs]; [done|]. rewrite map_app, IH, length_app, Nat.add_1_r, seqZ_S. cbn [map]. rewrite Hs. do 2 f_equal. lia.
Qed.

Lemma events_snoc l l' e id :
  challenger_events l' = challenger_events l ++ [e] →
  events_of_challenger l' id = events_of_challenger l id ++ if String.eqb (cev_challenger_id e) id then [e] else [].
Proof. intros Ee. unfold events_of_challenger. rewrite Ee, List.filter_app. cbn. by destruct (_ =? _)%string. Qed.

Section invariant.
Context `{Digest} `{JsonDatetime}.

(** The invariant of a challenger. *)
Record challenger_inv (l : challenger_ledger) (m : ChallengerManifestRow) : Prop := {
  ci_walk : walk PROPOSED (events_of_challenger l (cmr_challenger_id m)) (_current_challenger_status l m);
  ci_backed : backed l m (_current_challenger_status l m);
  ci_initial : cmr_initial_status m = PROPOSED;
}.

Record ledger_inv (l : challenger_ledger) : Prop := {
  li_rows : rows_ok l;
  li_events : ∀ e, e ∈ challenger_events l → has_manifest l (cev_challenger_id e) = true;
  li_challengers : ∀ id m, get_manifest_row l id = Some m → challenger_inv l m;
}.

Lemma has_manifest_get l id : has_manifest l id = true ↔ ∃ m, get_manifest_row l id = Some m.
Proof.
  unfold has_manifest, get_manifest_row. destruct (List.find _ (manifests l)) as [m|] eqn:E.
  - split; [by eauto|]. intros _. apply find_elem in E as [Hin Hf]. apply existsb_exists. exists m. split; [by apply list_elem_of_In|done].
  - split; [|by intros []]. intros (m & Hin%list_elem_of_In & Hf)%existsb_exists. by rewrite (find_absent _ _ _ E Hin) in Hf.
Qed.

Lemma has_manifest_mono l l' id : extends l l' → has_manifest l id = true → has_manifest l' id = true.
Proof. intros [] [m Hm]%has_manifest_get. apply has_manifest_get. exists m. by eapply find_prefix. Qed.

Lemma current_walk l m t : cmr_initial_status m = PROPOSED → walk PROPOSED (events_of_challenger l (cmr_challenger_id m)) t →
  _current_challenger_status l m = t.
Proof.
  intros Hi Hw%walk_last. unfold _current_challenger_status, latest_challenger_event. unfold last_event in Hw.
  destruct (events_of_challenger l _); [by destruct Hw as [_ ->]|by destruct Hw as [-> _]].
Qed.

Lemma inv_extend l l' m :
  extends l l' → events_of_challenger l' (cmr_challenger_id m) = events_of_challenger l (cmr_challenger_id m) →
  challenger_inv l m → challenger_inv l' m.
Proof.
  intros Hx Ee [Hw Hb Hi]. assert (_current_challenger_status l' m = _current_challenger_status l m) as Ec.
  { apply current_walk; [done|]. by rewrite Ee. }
  split; [by rewrite Ec, Ee| |done]. rewrite Ec. by eapply backed_mono.
Qed.

Lemma inv_event l l' m e :
  extends l l' → challenger_events l' = challenger_events l ++ [e] → next_event l m e →
  (backed l m (cev_from_status e) → backed l' m (cev_to_status e)) → challenger_inv l m → challenger_inv l' m.
Proof.
  intros Hx Ee [Hid Hf Ha Hs] Hbk [Hw Hb Hi].
  assert (walk PROPOSED (events_of_challenger l' (cmr_challenger_id m)) (cev_to_status e)) as Hw'.
  { rewrite (events_snoc _ _ _ _ Ee), Hid, String.eqb_refl. apply walk_snoc; [by rewrite Hf|done|].
    rewrite Hs. apply walk_last in Hw. unfold latest_challenger_event. unfold last_event in Hw.
    destruct (events_of_challenger l _); [done|]. by destruct Hw as [_ ->]. }
  pose proof (current_walk _ _ _ Hi Hw') as Ec. split; [by rewrite Ec| |done]. rewrite Ec. apply Hbk. by rewrite Hf.
Qed.

Lemma step_manifests l l' id m : step l l' → get_manifest_row l' id = Some m →
  get_manifest_row l id = Some m ∨ (cmr_initial_status m = PROPOSED ∧ has_manifest l id = false ∧ challenger_events l' = challenger_events l).
Proof.
  intros [_ [Em _]|row _ Hi Hv ->|m' e _ _ Em _ _ _] Hm; [left; by rewrite <- Hm; unfold get_manifest_row; rewrite Em| |
    left; by rewrite <- Hm; unfold get_manifest_row; rewrite Em].
  destruct (get_manifest_row l id) as [m'|] eqn:E.
  - left. rewrite <- Hm. symmetry. unfold get_manifest_row in *. cbn. by apply find_app_Some.
  - right. apply find_elem in Hm as [Hin Hid%String.eqb_eq]. cbn in Hin. apply elem_of_app in Hin as [Hin|Hin].
    + apply (find_absent _ _ _ E) in Hin. by rewrite Hid, String.eqb_refl in Hin.
    + apply list_elem_of_singleton in Hin as ->. split; [done|]. split; [|cbn; by rewrite app_nil_r].
      apply not_true_iff_false. rewrite has_manifest_get, E. by intros [].
Qed.

Lemma step_inv l l' : step l l' → ledger_inv l → ledger_inv l'.
Proof.
  intros Hs [Hr He Hc]. pose proof (step_grows _ _ Hs) as [Hx _ Hgr Hgp]. split.
  - destruct Hr as [H1 H2]. split; [intros r [|]%Hgr|intros r [|]%Hgp]; auto.
  - intros e Hin. destruct Hs as [_ [_ Ee]|row _ _ _ ->|m e' _ Hm Em Ee [Hid _ _ _] _].
    + rewrite Ee in Hin. eapply has_manifest_mono; eauto.
    + cbn in Hin. rewrite app_nil_r in Hin. eapply has_manifest_mono; eauto.
    + rewrite Ee in Hin. eapply has_manifest_mono; [done|]. apply elem_of_app in Hin as [Hin|Hin]; [auto|].
      apply list_elem_of_singleton in Hin as ->. rewrite Hid. apply has_manifest_get. eauto.
  - intros id m Hm. destruct (step_manifests _ _ _ _ Hs Hm) as [Hm0|(Hi & Hno & Ee)].
    + pose proof (Hc _ _ Hm0) as Hinv. destruct Hs as [_ [_ Ee]|row _ _ _ ->|m' e' _ Hm' Em Ee Hn Hb].
      * eapply inv_extend; [done| |done]. unfold events_of_challenger. by rewrite Ee.
      * eapply inv_extend; [done| |done]. unfold events_of_challenger. cbn. by rewrite app_nil_r.
      * destruct (decide (cmr_challenger_id m' = cmr_challenger_id m)) as [Eid|Hne].
        -- pose proof (get_manifest_id _ _ _ Hm0) as [_ Hm1]. rewrite Eid, Hm1 in Hm'. injection Hm' as <-. by eapply inv_event.
        -- eapply inv_extend; [done| |done]. rewrite (events_snoc _ _ _ _ Ee). destruct Hn as [-> _ _ _].
           apply String.eqb_neq in Hne. by rewrite Hne, app_nil_r.
    + assert (events_of_challenger l' (cmr_challenger_id m) = []) as En.
      { unfold events_of_challenger. rewrite Ee. apply filterb_nil. intros e Hin. apply not_true_iff_false. intros Hid%String.eqb_eq.
        apply He in Hin. pose proof (get_manifest_id _ _ _ Hm) as [Eid _]. rewrite Hid, Eid in Hin. congruence. }
      assert (_current_challenger_status l' m = PROPOSED) as Ec by (apply current_walk; [done|]; rewrite En; constructor).
      split; [rewrite En, Ec; constructor|by rewrite Ec|done].
Qed.

Lemma commit_step l c : ledger_inv l → valid_command c → commit l c = l ∨ step l (commit l c).
Proof.
  intros [Hr _ _] Hv. unfold commit. destruct (run_command l c) as [l'|] eqn:E; [right|by left]. by eapply run_command_step.
Qed.

Lemma reachable_inv l : reachable l → ledger_inv l.
Proof.
  induction 1 as [|l c _ IH Hv].
  - split; [split|..]; cbn; try (by intros ? ?%not_elem_of_nil). by intros id m [=].
  - destruct (commit_step l c IH Hv) as [->|Hs]; [done|]. by eapply step_inv.
Qed.

Lemma commit_extends l c : ledger_inv l → valid_command c → extends l (commit l c).
Proof. intros Hi Hv. destruct (commit_step l c Hi Hv) as [->|Hs]; [done|]. apply step_grows in Hs as []. done. Qed.

Lemma status_Ok l id s : challenger_status l id = Ok s ↔ ∃ m, get_manifest_row l id = Some m ∧ _current_challenger_status l m = s.
Proof.
  unfold challenger_status. rewrite bind_Ok_inv. setoid_rewrite required_Ok. split.
  - intros (m & Hm & [= <-]). eauto.
  - intros (m & Hm & <-). eauto.
Qed.
End invariant.

(** ** The abstract lifecycle and its refinement *)

(** The status of every challenger; [None] before its registration. *)
Definition statuses (l : challenger_ledger) (id : string) : option ChallengerStatus :=
  _current_challenger_status l <$> get_manifest_row l id.

(** What one transaction may do: nothing, a registration, or one allowed transition of one challenger. *)
Inductive lifecycle (σ σ' : string → option ChallengerStatus) : Prop :=
  | L_none : (∀ id, σ' id = σ id) → lifecycle σ σ'
  | L_register id : σ id = None → σ' id = Some PROPOSED → (∀ id', id' ≠ id → σ' id' = σ id') → lifecycle σ σ'
  | L_move id s s' : σ id = Some s → s' ∈ ALLOWED_TRANSITIONS s → σ' id = Some s' → (∀ id', id' ≠ id → σ' id' = σ id') → lifecycle σ σ'.

Section theorems.
Context `{Digest} `{JsonDatetime}.

Lemma statuses_status l id s : statuses l id = Some s ↔ challenger_status l id = Ok s.
Proof.
  rewrite status_Ok. unfold statuses. split.
  - intros (m & Es & Hm)%fmap_Some. by exists m.
  - intros (m & Hm & <-). by rewrite Hm.
Qed.

Lemma statuses_ext l l' id :
  get_manifest_row l' id = get_manifest_row l id → events_of_challenger l' id = events_of_challenger l id → statuses l' id = statuses l id.
Proof.
  intros Em Ee. unfold statuses. rewrite Em. destruct (get_manifest_row l id) as [m|] eqn:E; [|done].
  apply get_manifest_id in E as [<- _]. cbn. unfold _current_challenger_status, latest_challenger_event. by rewrite Ee.
Qed.

Lemma step_lifecycle l l' : ledger_inv l → step l l' → lifecycle (statuses l) (statuses l').
Proof.
  intros Hi Hs. pose proof (step_inv _ _ Hs Hi) as Hi'. destruct Hs as [_ [Em Ee]|row _ Hp Hv ->|m e Hg Hm Em Ee Hn _].
  - apply L_none. intros id. apply statuses_ext; [unfold get_manifest_row; by rewrite Em|unfold events_of_challenger; by rewrite Ee].
  - assert (has_manifest l (cmr_challenger_id row) = false) as Hno.
    { cbn in Hv. apply orb_false_iff in Hv as [Hv _]. unfold has_manifest. apply not_true_iff_false. intros (r & Hr & Hid)%existsb_exists.
      apply not_true_iff_false in Hv. apply Hv, existsb_exists. exists r. by rewrite Hid. }
    assert (get_manifest_row l (cmr_challenger_id row) = None) as Hnone.
    { destruct (get_manifest_row l _) eqn:E; [|done]. apply not_true_iff_false in Hno. exfalso. apply Hno, has_manifest_get. eauto. }
    apply (L_register _ _ (cmr_challenger_id row)).
    + unfold statuses. by rewrite Hnone.
    + assert (get_manifest_row (put l (RManifest row)) (cmr_challenger_id row) = Some row) as Hrow.
      { unfold get_manifest_row in *. cbn. by rewrite find_snoc, Hnone, String.eqb_refl. }
      unfold statuses. rewrite Hrow. cbn. f_equal. unfold _current_challenger_status, latest_challenger_event, events_of_challenger. cbn.
      rewrite app_nil_r, filterb_nil; [done|]. intros e He. apply not_true_iff_false. intros Hid%String.eqb_eq.
      apply (li_events _ Hi) in He. rewrite Hid in He. congruence.
    + intros id Hne. apply statuses_ext; [|unfold events_of_challenger; cbn; by rewrite app_nil_r].
      unfold get_manifest_row. cbn. rewrite find_snoc. apply not_eq_sym, String.eqb_neq in Hne. rewrite Hne. by destruct (List.find _ _).
  - assert (get_manifest_row l' (cmr_challenger_id m) = Some m) as Hm' by (unfold get_manifest_row in *; by rewrite Em).
    pose proof (li_challengers _ Hi' _ _ Hm') as [Hw' _ Hini]. destruct Hn as [Hid Hf Ha Hseq].
    rewrite (events_snoc _ _ _ _ Ee), Hid, String.eqb_refl in Hw'.
    apply (L_move _ _ (cmr_challenger_id m) (cev_from_status e) (cev_to_status e)); [|done|..].
    + unfold statuses. by rewrite Hm, Hf.
    + unfold statuses. rewrite Hm'. cbn. f_equal. apply current_walk; [done|]. rewrite (events_snoc _ _ _ _ Ee), Hid, String.eqb_refl.
      inversion Hw' as [|es' e' Hw1 Ha1 Hs1 Ex]; [by destruct (events_of_challenger l _)|].
      apply app_inj_tail in Ex as [-> ->]. by apply walk_snoc.
    + intros id Hne. apply statuses_ext; [unfold get_manifest_row; by rewrite Em|]. rewrite (events_snoc _ _ _ _ Ee), Hid.
      apply not_eq_sym, String.eqb_neq in Hne. by rewrite Hne, app_nil_r.
Qed.

Lemma commit_lifecycle l c : ledger_inv l → valid_command c → lifecycle (statuses l) (statuses (commit l c)).
Proof. intros Hi Hv. destruct (commit_step l c Hi Hv) as [->|Hs]; [by apply L_none|by apply step_lifecycle]. Qed.

(** Commands one after the other. *)
Definition run_commands (l : challenger_ledger) (cs : list command) : challenger_ledger := fold_left commit cs l.

Lemma run_reachable l cs : reachable l → Forall valid_command cs → reachable (run_commands l cs).
Proof.
  intros Hr Hv. revert l Hr. induction Hv as [|c cs Hc _ IH]; intros l Hr; cbn; [done|]. apply IH. by constructor.
Qed.

Lemma run_extends l cs : reachable l → Forall valid_command cs → extends l (run_commands l cs).
Proof.
  intros Hr Hv. revert l Hr. induction Hv as [|c cs Hc _ IH]; intros l Hr; cbn; [done|].
  etrans; [apply (commit_extends _ c); [by apply reachable_inv|done]|]. apply IH. by constructor.
Qed.

(** C22: every transaction refines the lifecycle.  On a reachable ledger a command either changes no challenger's status, or registers one
    challenger as PROPOSED, or moves one challenger along one allowed transition and leaves every other where it was. *)
Theorem ledger_refines_challenger_lifecycle l c :
  reachable l → valid_command c → lifecycle (statuses l) (statuses (commit l c)).
Proof. intros Hr. apply commit_lifecycle. by apply reachable_inv. Qed.

(** the stored history of a challenger is its lifecycle.  On a reachable ledger the events of a registered challenger, in the order
    they were stored, walk from PROPOSED to its current status through allowed transitions, each event starting where the one before
    ended, and they are numbered from one without a gap. *)
Theorem challenger_history_is_walk l id s :
  reachable l → challenger_status l id = Ok s →
  walk PROPOSED (events_of_challenger l id) s ∧
  map cev_sequence (events_of_challenger l id) = seqZ 1 (Z.of_nat (length (events_of_challenger l id))).
Proof.
  intros Hr (m & Hm & Es)%status_Ok. apply reachable_inv in Hr. destruct (li_challengers _ Hr _ _ Hm) as [Hw _ _].
  apply get_manifest_id in Hm as [Eid _]. rewrite Eid, Es in Hw. split; [done|by eapply walk_sequences].
Qed.

(** C21: every gated status is backed by its evidence.  On a reachable ledger a challenger in SHADOW_PENDING or SHADOW_RUNNING has a
    registered artifact, a deterministic replay of it, a falsification report whose mandatory tests all pass, bound to that artifact,
    that replay and the contract of a passed out-of-sample result, and a matched pair of paper-only shadow arms; PROMOTION_ELIGIBLE has
    besides a decision under which every required criterion is met; a failed status has the failure it names on record. *)
Theorem gated_status_backed l id s :
  reachable l → challenger_status l id = Ok s → ∃ m, get_manifest_row l id = Some m ∧ backed l m s.
Proof.
  intros Hr (m & Hm & Es)%status_Ok. apply reachable_inv in Hr. destruct (li_challengers _ Hr _ _ Hm) as [_ Hb _].
  exists m. by rewrite <- Es.
Qed.

(** terminal statuses are final.  Once a challenger has a status without allowed transitions no sequence of commands changes it. *)
Theorem terminal_status_final l id s cs :
  reachable l → challenger_status l id = Ok s → ALLOWED_TRANSITIONS s = [] → Forall valid_command cs →
  challenger_status (run_commands l cs) id = Ok s.
Proof.
  intros Hr Hs Ht Hv. rewrite <- statuses_status in *. revert l Hr Hs. induction Hv as [|c cs Hc _ IH]; intros l Hr Hs; cbn; [done|].
  apply IH; [by constructor|]. destruct (commit_lifecycle l c (reachable_inv _ Hr) Hc) as [E|id' E _ Ef|id' s1 s2 E Ha _ Ef].
  - by rewrite E.
  - rewrite Ef; [done|]. intros ->. congruence.
  - rewrite Ef; [done|]. intros ->. rewrite Hs in E. injection E as <-. rewrite Ht in Ha. by apply not_elem_of_nil in Ha.
Qed.
End theorems.

(** ** A challenger that becomes eligible *)

(** A digest with the shape of a hash, for evaluation. *)
Definition padded_digest : Digest := λ s, String.append (digits_pad 13 (fold_left (λ h c, Z.land (Z.shiftl h 5 + h + c) 1099511627775) (Sha256.bytes_of s) 7) EmptyString) (zeros 51).
Definition ex_clock (hours : Z) : datetime := utc (20000 * 86400000000 + hours * 3600000000).
Definition ex_json_datetime : JsonDatetime := datetime_isoformat.

Section example.
#[local] Existing Instance padded_digest.
#[local] Existing Instance ex_json_datetime.

Definition ex_hash (s : string) : string := hexdigest s.
Definition ex_hash_of (r : res string) : string := match r with Ok h => h | Raise _ => EmptyString end.

Definition ex_bundle_with (h : string) : CandidateArtifactBundleV1 := {|
  cb_schema_version := "candidate_artifact_bundle_v1"; cb_bundle_id := "bundle"; cb_challenger_id := "challenger";
  cb_request_binding := {| crb_request_id := "request"; crb_research_cycle_id := "cycle"; crb_context_manifest_hash := ex_hash "context";
    crb_source_snapshot_commit := ex_hash "commit"; crb_champion_version := "1.0"; crb_experiment_family := "family";
    crb_selected_commander := CODEX_SOL_MAX; crb_commander_selection_id := "selection"; crb_commander_selection_version := 1 |};
  cb_source_snapshot_hash := ex_hash "snapshot"; cb_candidate_tree_hash := ex_hash "tree"; cb_code_hash := ex_hash "code";
  cb_config_hash := ex_hash "config"; cb_patch_hash := ex_hash "patch"; cb_proposal_hash := ex_hash "proposal";
  cb_builder_result_hash := ex_hash "builder"; cb_test_manifest_hash := ex_hash "tests"; cb_challenger_manifest_hash := ex_hash "manifest";
  cb_validation_request_hash := ex_hash "validation";
  cb_runtime := {| crt_implementation := "cpython"; crt_version := "3.12"; crt_abi_tag := "cp312"; crt_executable_sha256 := ex_hash "python" |};
  cb_declared_entrypoint := "candidate.main:decide";
  cb_candidate_abi := {| abi_request_schema_version := "candidate_decision_request_v1"; abi_response_schema_version := "candidate_decision_response_v1";
    abi_entrypoint_input := "RAW_JSON_OBJECT"; abi_entrypoint_output := "RAW_JSON_OBJECT"; abi_orders_permitted := false;
    abi_fills_permitted := false; abi_returns_or_pnl_permitted := false |};
  cb_broker_access_permitted := false; cb_credential_access_permitted := false; cb_network_access_permitted := false;
  cb_filesystem_write_permitted := false; cb_real_order_routing := false; cb_bundle_hash := h;
|}.
Definition ex_bundle_hash : string := Eval vm_compute in ex_hash_of (canonical_hash (bundle_payload (ex_bundle_with ""))).
Definition ex_bundle : CandidateArtifactBundleV1 := Eval vm_compute in ex_bundle_with ex_bundle_hash.

Definition ex_manifest_with (universe : list string) (h : string) : ChallengerManifestV1 := {|
  cm_schema_version := "challenger_manifest_v1"; cm_challenger_id := "challenger"; cm_strategy_id := "momentum"; cm_strategy_version := "2.0";
  cm_parent_version := "1.0"; cm_hypothesis_id := "hypothesis"; cm_experiment_family := "family"; cm_source_commit := ex_hash "commit";
  cm_patch_hash := ex_hash "patch"; cm_proposal_hash := ex_hash "proposal"; cm_code_hash := ex_hash "code"; cm_config_hash := ex_hash "config";
  cm_test_manifest_hash := ex_hash "tests"; cm_created_by_commander := CODEX_SOL_MAX; cm_implemented_by_builder := "builder";
  cm_evidence_source_ids := ["source"]; cm_required_data := ["bars"]; cm_decision_horizon := "1d"; cm_execution_universe := universe;
  cm_estimated_turnover := [("daily", PFloat {| fneg := false; fmant := 1; fexp := -3 |})]; cm_estimated_capacity := [];
  cm_status := PROPOSED; cm_created_at := ex_clock 0; cm_manifest_hash := h;
|}.
Definition ex_manifest_hash : string := Eval vm_compute in ex_hash_of (canonical_hash (challenger_manifest_payload (ex_manifest_with ["SPY"; "QQQ"] ""))).
Definition ex_manifest : ChallengerManifestV1 := Eval vm_compute in ex_manifest_with [" spy "; "QQQ"] ex_manifest_hash.

Definition ex_proposal_row : AlgorithmProposalRow := Eval vm_compute in {|
  apr_proposal_id := "proposal"; apr_parent_strategy_id := "momentum"; apr_parent_strategy_version := "1.0"; apr_proposal_hash := ex_hash "proposal" |}.

Definition ex_manifest_row : ChallengerManifestRow := Eval vm_compute in {|
  cmr_challenger_id := "challenger"; cmr_proposal_id := "proposal"; cmr_strategy_id := "momentum"; cmr_strategy_version := "2.0";
  cmr_parent_version := "1.0"; cmr_experiment_family := "family"; cmr_source_commit := ex_hash "commit"; cmr_patch_hash := ex_hash "patch";
  cmr_code_hash := ex_hash "code"; cmr_config_hash := ex_hash "config"; cmr_test_manifest_hash := ex_hash "tests";
  cmr_initial_status := PROPOSED; cmr_manifest_hash := ex_manifest_hash; cmr_payload := ex_manifest; cmr_created_at := ex_clock 0 |}.

Definition ex_candidate_row : ResearchCandidateArtifactRow := Eval vm_compute in {|
  car_bundle_id := "bundle"; car_challenger_id := "challenger"; car_proposal_id := "proposal"; car_research_cycle_id := "cycle";
  car_candidate_tree_hash := ex_hash "tree"; car_code_hash := ex_hash "code"; car_config_hash := ex_hash "config";
  car_test_manifest_hash := ex_hash "tests"; car_declared_entrypoint := "candidate.main:decide"; car_bundle_hash := ex_bundle_hash;
  car_real_order_routing := false; car_payload := ex_bundle; car_created_at := ex_clock 1 |}.

Definition ex_replay : DeterministicReplayArtifactV1 := Eval vm_compute in {|
  ra_challenger_id := "challenger"; ra_candidate_artifact_hash := ex_bundle_hash; ra_config_hash := ex_hash "config"; ra_code_hash := ex_hash "code";
  ra_data_manifest_hash := ex_hash "data"; ra_first_replay_hash := ex_hash "run"; ra_second_replay_hash := ex_hash "run"; ra_created_at := ex_clock 2 |}.

(** A test result bound to the candidate, the contract, the data and the replay. *)
Definition ex_result_with (h : string) : FalsificationTestResultV1 := {|
  tr_test_id := "lookahead_bias"; tr_mandatory := true; tr_status := PASS; tr_reason_code := "OK";
  tr_metrics := [("candidate_artifact_hash", PStr ex_bundle_hash); ("evaluation_contract_hash", PStr (ex_hash "contract"));
                 ("data_manifest_hash", PStr (ex_hash "data")); ("replay_hash", PStr (ex_hash_of (artifact_hash ex_replay)));
                 ("deterministic_seed", PInt 7)];
  tr_result_hash := h |}.
Definition ex_result : FalsificationTestResultV1 := Eval vm_compute in ex_result_with (ex_hash_of (canonical_hash (PDict (test_result_fields (ex_result_with ""))))).
Definition ex_report_with (h : string) : FalsificationReportV1 := {|
  rp_schema_version := "falsification_report_v1"; rp_challenger_id := "challenger"; rp_results := [ex_result]; rp_mandatory_passed := true;
  rp_created_at := ex_clock 3; rp_report_hash := h |}.
Definition ex_report : FalsificationReportV1 := Eval vm_compute in ex_report_with (ex_hash_of (canonical_hash (report_payload (ex_report_with "")))).

Definition ex_oos_with (v : OosVerdict) (reasons : list string) (h : string) : OosLockboxResultV1 := {|
  ol_schema_version := "oos_lockbox_result_v1"; ol_challenger_id := "challenger"; ol_experiment_family := "family"; ol_submission_number := 1;
  ol_candidate_artifact_hash := ex_bundle_hash; ol_evaluation_contract_hash := ex_hash "contract"; ol_verdict := v; ol_reason_codes := reasons;
  ol_aggregate_statistics := [("mean_daily_difference", {| fneg := false; fmant := 3; fexp := -12 |})]; ol_common_sessions := 130;
  ol_budget_consumed := 1; ol_evaluated_at := ex_clock 5; ol_result_hash := h |}.
Definition ex_oos_of (v : OosVerdict) (reasons : list string) : OosLockboxResultV1 :=
  ex_oos_with v reasons (ex_hash_of (canonical_hash (oos_result_payload (ex_oos_with v reasons "")))).
Definition ex_oos : OosLockboxResultV1 := Eval vm_compute in ex_oos_of OOS_PASS [passed_code].
Definition ex_oos_failed : OosLockboxResultV1 := Eval vm_compute in ex_oos_of OOS_FAIL ["INSUFFICIENT_COMMON_SESSIONS"].

Definition ex_contract : ShadowExecutionContract := {|
  sc_market_input_manifest_hash := "m"; sc_decision_schedule_version := "d"; sc_execution_scenario_version := "e"; sc_cost_model_version := "c";
  sc_starting_capital_usd := "1000"; sc_liquidity_policy_version := "l" |}.
Definition ex_champion : ShadowArmIdentity := {|
  sa_arm_id := "champion-arm"; sa_strategy_id := "momentum"; sa_strategy_version := "1.0"; sa_contract := ex_contract |}.
Definition ex_challenger : ShadowArmIdentity := {|
  sa_arm_id := "challenger-arm"; sa_strategy_id := "momentum"; sa_strategy_version := "2.0"; sa_contract := ex_contract |}.

Definition ex_decision : list PromotionDecisionV1 := Eval vm_compute in
  match evaluate_promotion_eligibility "decision" "challenger" "1.0" "2.0" ex_criteria (ex_hash "run") (ex_clock 8) REQUIRED_PROMOTION_CRITERIA with
  | Ok d => [d] | Raise _ => []
  end.

Definition ex_registered : list command :=
  [CRegisterProposal ex_proposal_row; CRegisterManifest ex_manifest_row; CRegisterCandidate ex_candidate_row].
Definition ex_tested : list command := ex_registered ++ [CReplay ex_replay; CFalsification ex_report].
Definition ex_eligible : list command :=
  ex_tested ++ [COos ex_oos (ex_clock 6) ex_bundle_hash (Some ex_champion) (Some ex_challenger);
                CStart "challenger" "start" (ex_clock 7)] ++ map CEligibility ex_decision.
Definition ex_rejected : list command := ex_tested ++ [COos ex_oos_failed (ex_clock 6) ex_bundle_hash None None].
End example.

(** ** Witnesses *)

#[local] Notation ex_valid := (valid_command (H := padded_digest)) (only parsing).
#[local] Notation ex_run := (run_commands (H := padded_digest) (H0 := ex_json_datetime) empty_challengers) (only parsing).

Ltac valid_commands := repeat first [apply Forall_nil_2 | apply Forall_cons_2; [vm_compute; first [exact I | reflexivity]|]].

Lemma ex_registered_valid : Forall ex_valid ex_registered. Proof. valid_commands. Qed.
Lemma ex_eligible_valid : Forall ex_valid ex_eligible. Proof. valid_commands. Qed.
Lemma ex_rejected_valid : Forall ex_valid ex_rejected. Proof. valid_commands. Qed.
Lemma ex_replay_valid : ex_valid (CReplay ex_replay). Proof. vm_compute. reflexivity. Qed.

Lemma ex_reachable cs : Forall ex_valid cs → reachable (H := padded_digest) (H0 := ex_json_datetime) (ex_run cs).
Proof. intros Hv. apply run_reachable; [constructor|done]. Qed.

Lemma ex_eligible_status : challenger_status (ex_run ex_eligible) "challenger" = Ok PROMOTION_ELIGIBLE.
Proof. vm_compute. reflexivity. Qed.
Lemma ex_rejected_status : challenger_status (ex_run ex_rejected) "challenger" = Ok OOS_REJECTED.
Proof. vm_compute. reflexivity. Qed.

Lemma ledger_refines_challenger_lifecycle_witness :
  lifecycle (statuses (ex_run ex_registered)) (statuses (commit (H := padded_digest) (H0 := ex_json_datetime) (ex_run ex_registered) (CReplay ex_replay))).
Proof.
  exact (ledger_refines_challenger_lifecycle (H := padded_digest) (H0 := ex_json_datetime) _ _ (ex_reachable _ ex_registered_valid) ex_replay_valid).
Defined.

Lemma challenger_history_is_walk_witness :
  walk PROPOSED (events_of_challenger (ex_run ex_eligible) "challenger") PROMOTION_ELIGIBLE ∧
  map cev_sequence (events_of_challenger (ex_run ex_eligible) "challenger")
  = seqZ 1 (Z.of_nat (length (events_of_challenger (ex_run ex_eligible) "challenger"))).
Proof.
  exact (challenger_history_is_walk (H := padded_digest) (H0 := ex_json_datetime) _ _ _ (ex_reachable _ ex_eligible_valid) ex_eligible_status).
Defined.

Lemma gated_status_backed_witness :
  ∃ m, get_manifest_row (ex_run ex_eligible) "challenger" = Some m ∧ backed (H := padded_digest) (ex_run ex_eligible) m PROMOTION_ELIGIBLE.
Proof.
  exact (gated_status_backed (H := padded_digest) (H0 := ex_json_datetime) _ _ _ (ex_reachable _ ex_eligible_valid) ex_eligible_status).
Defined.

Lemma terminal_status_final_witness :
  challenger_status (run_commands (H := padded_digest) (H0 := ex_json_datetime) (ex_run ex_rejected)
    [CStart "challenger" "start" (ex_clock 9); CReplay ex_replay]) "challenger" = Ok OOS_REJECTED.
Proof.
  apply (terminal_status_final (H := padded_digest) (H0 := ex_json_datetime));
    [exact (ex_reachable _ ex_rejected_valid)|exact ex_rejected_status|reflexivity|].
  apply Forall_cons_2; [exact I|]. apply Forall_cons_2; [exact ex_replay_valid|apply Forall_nil_2].
Defined.
