(* ===== verification/ChallengerOos.v ===== *)
(** * Out-of-sample budget and evaluation

    What the reservations of [ChallengerLedger.v] promise: the budget of an experiment family is never overspent, a reservation is
    granted once, and two submitters that race get what some serial order gives.  Then the composition in [research/lifecycle.py]: an
    out-of-sample request is evaluated once, behind its gate. *)
From Stdlib Require Import ZArith Lia Ascii String.
From stdpp Require Import base list strings numbers sets.
From S2P Require Import Prelude PyDecimal Hashing Domain Text Falsification Promotion Schedule DispatchExecution Challenger ChallengerLedger ChallengerLifecycle.
Set Default Goal Selector "!".
Open Scope Z_scope.

Section theorems.
Context `{Digest} `{JsonDatetime}.

(** *** Reservations *)

Lemma reserve_new l q a l' r :
  reserve_oos_budget (λ _, (l, l)) q a = Ok (l', r) → reservation_with_key l (oq_experiment_family q) (rg_idempotency_key a) = None →
  ∃ row l1, add l (RReservation (reservation_row r)) = Ok l1 ∧ add l1 (RBudget row) = Ok l' ∧
    build_reservation q a (budget_sum bev_submission_delta l (oq_experiment_family q) + 1) (oos_spent l (oq_experiment_family q) + 1) = Ok r ∧
    bev_experiment_family row = oq_experiment_family q ∧ bev_submission_delta row = 1 ∧ bev_oos_budget_delta row = 1 ∧
    oq_submission_number q <= rg_maximum_submissions a ∧ oq_submission_number q = budget_sum bev_submission_delta l (oq_experiment_family q) + 1 ∧
    oos_spent l (oq_experiment_family q) + 1 <= rg_maximum_oos_uses a.
Proof.
  intros (_ & _ & (i & _ & Hc)%reserve_attempts_inv)%reserve_inv Hk. cbn in Hc.
  apply reserve_once_inv in Hc as [(_ & row & Hk' & _)|(row & l1 & _ & H1 & H2 & H3 & H4 & H5 & H6 & H7 & H8 & H9)]; [congruence|].
  exists row, l1. by split_and!.
Qed.

(** No family has more reservations than spent uses. *)
Lemma reserved_within_spent l : reachable l → ∀ family, oos_reserved l family <= oos_spent l family.
Proof.
  induction 1 as [|l c Hr IH Hv]; intros family; [done|]. specialize (IH family).
  destruct (commit_step l c (reachable_inv _ Hr) Hv) as [->|Hs]; [done|]. apply step_grows in Hs as [_ Hg _ _]. specialize (Hg family). lia.
Qed.

(** Limits and times under which a reservation may be asked for. *)
Definition reservation_limits_ok (a : reservation_args) : Prop :=
  0 < rg_maximum_submissions a ∧ 0 < rg_maximum_oos_uses a ∧ tz_aware (rg_created_at a) = true ∧ tz_aware (rg_expires_at a) = true ∧
  instant (rg_created_at a) < instant (rg_expires_at a).

Lemma reserve_limits views q a : reservation_limits_ok a → reserve_oos_budget views q a = reserve_attempts 3 views q a.
Proof.
  intros (H1 & H2 & H3 & H4 & H5). unfold reserve_oos_budget, require_aware_utc, dt_le. rewrite H3, H4.
  destruct (Z.leb_spec (rg_maximum_submissions a) 0), (Z.leb_spec (rg_maximum_oos_uses a) 0),
    (Z.leb_spec (instant (rg_expires_at a)) (instant (rg_created_at a))); try lia. done.
Qed.

(** The branch of a stored reservation. *)
Definition stored_reservation (l : challenger_ledger) (existing : OosBudgetReservationRow) (q : OosEvaluationRequest)
    : res (challenger_ledger * OosBudgetReservationV1) :=
  reservation ← validate_OosBudgetReservationV1 (rsv_payload existing);
  raise_if (negb (rsv_reservation_id existing =s ob_reservation_id reservation)
            || negb (rsv_reservation_hash existing =s ob_reservation_hash reservation)
            || negb (rsv_challenger_id existing =s ob_challenger_id reservation)
            || negb (rsv_submission_ordinal existing =? ob_submission_ordinal reservation)
            || negb (rsv_oos_budget_ordinal existing =? ob_oos_budget_ordinal reservation))
    ResearchPersistenceError "stored OOS budget reservation binding mismatch";;
  _require_oos_reservation_binding reservation q;;
  Ok (l, reservation).

Lemma stored_reservation_frame l l2 row q r : stored_reservation l row q = Ok (l, r) → stored_reservation l2 row q = Ok (l2, r).
Proof.
  unfold stored_reservation. intros Hs. apply bind_Ok_inv in Hs as (r' & -> & Hs). cbn [mbind res_bind].
  apply bind_Ok_inv in Hs as ([] & -> & Hs). cbn [mbind res_bind]. apply bind_Ok_inv in Hs as ([] & -> & [= <-]). done.
Qed.

(** After a grant the row is stored and reads back. *)
Lemma granted_again l q a l' r : reserve_oos_budget (λ _, (l, l)) q a = Ok (l', r) →
  ∃ row, reservation_with_key l' (oq_experiment_family q) (rg_idempotency_key a) = Some row ∧
    ∀ l2, stored_reservation l2 row q = Ok (l2, r).
Proof.
  intros Hr. destruct (reservation_with_key l (oq_experiment_family q) (rg_idempotency_key a)) as [row|] eqn:Hk.
  - apply reserve_inv in Hr as (_ & _ & (i & _ & Hc)%reserve_attempts_inv). cbn in Hc. unfold _reserve_oos_budget_once in Hc. rewrite Hk in Hc.
    change (stored_reservation l row q = Ok (l', r)) in Hc. assert (l' = l) as ->.
    { unfold stored_reservation in Hc. apply bind_Ok_inv in Hc as (? & _ & Hc). by do 2 (apply bind_Ok_inv in Hc as (? & _ & Hc); try injection Hc as <- <-). }
    exists row. split; [done|]. intros l2. by eapply stored_reservation_frame.
  - destruct (reserve_new _ _ _ _ _ Hr Hk) as (row & l1 & [_ ->]%add_inv & [_ ->]%add_inv & Hb & _). exists (reservation_row r).
    apply build_reservation_inv in Hb as (Ef & Ek & _ & _ & _ & Hv & Hb). split.
    + unfold reservation_with_key in *. cbn. by rewrite app_nil_r, find_snoc, Hk; cbn; rewrite Ef, Ek, !String.eqb_refl.
    + intros l2. unfold stored_reservation. cbn. rewrite Hv. cbn. by rewrite !String.eqb_refl, !Z.eqb_refl, Hb.
Qed.

(** C34: the out-of-sample budget is respected.  A reservation that is granted anew takes the next submission and the next use of its
    family's budget, within the limits it was asked under; the totals then stand at its ordinals, the family never has more
    reservations than the limit, and no other family's budget changes. *)
Theorem oos_budget_respected l q a l' r :
  reachable l → reserve_oos_budget (λ _, (l, l)) q a = Ok (l', r) →
  reservation_with_key l (oq_experiment_family q) (rg_idempotency_key a) = None →
  let family := oq_experiment_family q in
  budget_sum bev_submission_delta l' family = ob_submission_ordinal r ∧ ob_submission_ordinal r = budget_sum bev_submission_delta l family + 1 ∧
  ob_submission_ordinal r <= rg_maximum_submissions a ∧
  oos_spent l' family = ob_oos_budget_ordinal r ∧ ob_oos_budget_ordinal r = oos_spent l family + 1 ∧
  ob_oos_budget_ordinal r <= rg_maximum_oos_uses a ∧ oos_reserved l' family <= rg_maximum_oos_uses a ∧
  ∀ other, other ≠ family → oos_spent l' other = oos_spent l other ∧ oos_reserved l' other = oos_reserved l other.
Proof.
  intros Hr Hc Hk family. pose proof (reserved_within_spent l Hr (oq_experiment_family q)) as Hin.
  pose proof (reserve_quiet _ _ _ _ _ Hc) as [[_ Hg _ _] _]. specialize (Hg (oq_experiment_family q)).
  destruct (reserve_new _ _ _ _ _ Hc Hk) as (row & l1 & [_ ->]%add_inv & [_ ->]%add_inv & Hb & Ef & Es & Eo & Hs1 & Hs2 & Ho).
  apply build_reservation_inv in Hb as (Erf & _ & Esub & Eoos & _). subst family. set (family := oq_experiment_family q) in *. unfold oos_spent in *.
  assert (∀ delta, budget_sum delta (put (put l (RReservation (reservation_row r))) (RBudget row)) family = budget_sum delta l family + delta row) as Hput.
  { intros delta. rewrite !budget_sum_put, Ef, String.eqb_refl. lia. }
  rewrite !Hput, Es, Eo in *. split_and!; try lia.
  intros other Hne. rewrite !budget_sum_put, !oos_reserved_put, Ef. cbn. rewrite Erf. apply not_eq_sym, String.eqb_neq in Hne.
  rewrite Hne. lia.
Qed.

(** a reservation is granted once.  After a reservation has been granted, asking again with its key, at any later time and under any
    limits, gives the same reservation and changes nothing. *)
Theorem reservation_granted_once l q a l' r cs a' :
  reachable l → reserve_oos_budget (λ _, (l, l)) q a = Ok (l', r) → Forall valid_command cs →
  rg_idempotency_key a' = rg_idempotency_key a → reservation_limits_ok a' →
  reserve_oos_budget (λ _, (run_commands l' cs, run_commands l' cs)) q a' = Ok (run_commands l' cs, r).
Proof.
  intros Hr Hc Hv Hk Ha'. assert (reachable l') as Hr'.
  { assert (commit l (CReserve q a) = l') as <- by (unfold commit, run_command; by rewrite Hc). by constructor. }
  pose proof (run_extends _ _ Hr' Hv) as Hx. set (l2 := run_commands l' cs) in *. clearbody l2.
  rewrite (reserve_limits _ _ _ Ha'). assert (_reserve_oos_budget_once l2 l2 q a' = Ok (l2, r)) as E.
  { pose proof (granted_again _ _ _ _ _ Hc) as (row & Hrow & Hf). unfold _reserve_oos_budget_once. rewrite Hk.
    unfold reservation_with_key. rewrite (find_prefix _ _ _ _ (ex_reservations _ _ Hx) Hrow). exact (Hf l2). }
  cbn. by rewrite E.
Qed.
(** *** Racing reservations *)

Lemma attempts_constant n l q a x :
  reserve_attempts (S n) (λ _, (l, l)) q a = Ok x ↔ _reserve_oos_budget_once l l q a = Ok x.
Proof.
  split; [|intros E; cbn; by rewrite E]. destruct x as [l' r]. by intros (i & _ & E)%reserve_attempts_inv.
Qed.

(** A reservation of another family is not seen. *)
Lemma once_other_family snap row b l1 l q a :
  l1 = put (put snap (RReservation row)) (RBudget b) → rsv_experiment_family row ≠ oq_experiment_family q →
  bev_experiment_family b ≠ oq_experiment_family q →
  _reserve_oos_budget_once snap l q a = _reserve_oos_budget_once l1 l q a.
Proof.
  intros -> Hr%String.eqb_neq Hb%String.eqb_neq. unfold _reserve_oos_budget_once, reservation_with_key, reservation_of_submission.
  rewrite !budget_sum_put. cbn. rewrite app_nil_r, !find_snoc, Hr, Hb, !Z.add_0_r. cbn. destruct (List.find _ (reservations snap)); [done|].
  by destruct (List.find _ (reservations snap)).
Qed.

(** An attempt that read before a reservation committed and writes after it. *)
Lemma stale_attempt snap q1 a1 l1 r1 q2 a2 x :
  reserve_oos_budget (λ _, (snap, snap)) q1 a1 = Ok (l1, r1) →
  _reserve_oos_budget_once snap l1 q2 a2 = Ok x → _reserve_oos_budget_once l1 l1 q2 a2 = Ok x.
Proof.
  intros Hr1 Hr2. destruct (reservation_with_key snap (oq_experiment_family q1) (rg_idempotency_key a1)) as [row1|] eqn:Hk1.
  { pose proof Hr1 as (_ & _ & (i & _ & Hc)%reserve_attempts_inv)%reserve_inv. cbn in Hc.
    apply reserve_once_inv in Hc as [[-> _]|(? & ? & Hk' & _)]; [done|congruence]. }
  destruct (reserve_new _ _ _ _ _ Hr1 Hk1) as (b1 & l0 & [_ ->]%add_inv & [_ ->]%add_inv & Hb1 & Hf1 & _ & _ & _ & Hn1 & _).
  apply build_reservation_inv in Hb1 as (Ef1 & _ & Es1 & _). destruct (decide (oq_experiment_family q2 = oq_experiment_family q1)) as [Eq|Hne].
  2: { erewrite <- (once_other_family snap (reservation_row r1) b1); [exact Hr2|done|cbn; congruence|congruence]. }
  set (l1 := put _ (RBudget b1)) in *. destruct (reservation_with_key snap (oq_experiment_family q2) (rg_idempotency_key a2)) as [row2|] eqn:Hk2.
  - assert (reservation_with_key l1 (oq_experiment_family q2) (rg_idempotency_key a2) = Some row2) as Hk2'.
    { unfold reservation_with_key in *. eapply find_prefix; [|exact Hk2]. subst l1. cbn. rewrite app_nil_r. by apply prefix_app_r. }
    revert Hr2. unfold _reserve_oos_budget_once. by rewrite Hk2, Hk2'.
  - exfalso. destruct x as [l2 r2]. apply reserve_once_inv in Hr2 as [(_ & row & Hk' & _)|(b2 & l3 & _ & [Hv _]%add_inv & _ & Hb2 & _)]; [congruence|].
    apply build_reservation_inv in Hb2 as (Ef2 & _ & Es2 & _). cbn in Hv.
    unfold reservation_conflict in Hv. cbn in Hv. apply orb_false_iff in Hv as [Hv _]. apply not_true_iff_false in Hv.
    apply Hv, existsb_exists. exists (reservation_row r1). split; [apply list_elem_of_In; rewrite app_nil_r; apply elem_of_app; right; by left|].
    cbn. rewrite Ef1, Ef2, Eq, Es1, Es2, Eq, String.eqb_refl, Z.eqb_refl. by rewrite !orb_true_r.
Qed.

(** C35: racing reservations are serializable.  When a submitter reads the budget before another's reservation commits and writes after
    it, the unique constraints refuse its first attempt unless that attempt is what the serial order gives: whatever the three attempts
    return is what the same request returns when it runs after the other reservation. *)
Theorem racing_reservations_serializable snap q1 a1 l1 r1 q2 a2 l2 r2 :
  reserve_oos_budget (λ _, (snap, snap)) q1 a1 = Ok (l1, r1) →
  reserve_oos_budget (λ i, (if (i =? 2)%nat then snap else l1, l1)) q2 a2 = Ok (l2, r2) →
  reserve_oos_budget (λ _, (l1, l1)) q2 a2 = Ok (l2, r2).
Proof.
  intros H1 H2. assert (reserve_attempts 3 (λ _, (l1, l1)) q2 a2 = Ok (l2, r2)) as E.
  { apply attempts_constant. apply reserve_inv in H2 as (_ & _ & H2). change (reserve_attempts 3 _ q2 a2) with
      (match _reserve_oos_budget_once snap l1 q2 a2 with
       | Raise e => if bool_decide (exn_kind e = IntegrityError) then reserve_attempts 2 (λ _, (l1, l1)) q2 a2 else Raise e
       | r => r
       end) in H2.
    destruct (_reserve_oos_budget_once snap l1 q2 a2) as [x|e] eqn:Ex.
    - rewrite <- H2. by eapply stale_attempt.
    - destruct (bool_decide _); [|done]. by apply attempts_constant in H2. }
  revert H2. unfold reserve_oos_budget. intros H2. apply bind_Ok_inv in H2 as ([] & -> & H2). cbn [mbind res_bind].
  apply bind_Ok_inv in H2 as (t & -> & H2). cbn [mbind res_bind]. apply bind_Ok_inv in H2 as (t' & -> & H2). cbn [mbind res_bind].
  apply bind_Ok_inv in H2 as ([] & -> & _). exact E.
Qed.
(** *** The out-of-sample evaluation *)

Lemma append_oos_results l m a l' b : _append_challenger_transition l m a = Ok (l', b) → oos_results l' = oos_results l.
Proof. intros [(E & _)|(_ & e & E & _)]%append_transition_inv; subst l'; [done|]. cbn. by rewrite app_nil_r. Qed.

Lemma register_oos_results l m oos hash champion challenger at_ l' :
  _register_shadow_pair l m oos hash champion challenger at_ = Ok l' → oos_results l' = oos_results l.
Proof.
  unfold _register_shadow_pair. intros Hc. do 3 (apply bind_Ok_inv in Hc as (? & _ & Hc)). apply bind_Ok_inv in Hc as (l1 & [_ ->]%add_inv & Hc).
  apply bind_Ok_inv in Hc as (? & _ & [_ ->]%add_inv). cbn. by rewrite !app_nil_r.
Qed.

(** A result stored anew is the one that reads back. *)
Lemma oos_stored l r at_ h champion challenger l' b :
  store_oos_result l r at_ h champion challenger = Ok (l', b) → oos_submission l (ol_challenger_id r) (ol_submission_number r) = None →
  b = true ∧ ∃ row, oos_submission l' (ol_challenger_id r) (ol_submission_number r) = Some row ∧ oor_payload row = r.
Proof.
  unfold store_oos_result. intros Hc Hn. do 3 (apply bind_Ok_inv in Hc as (? & _ & Hc)). rewrite Hn in Hc.
  apply bind_Ok_inv in Hc as ([] & _ & Hc). apply bind_Ok_inv in Hc as (arms & _ & Hc). apply bind_Ok_inv in Hc as (oid & _ & Hc).
  apply bind_Ok_inv in Hc as (l1 & [_ E1]%add_inv & Hc). match type of E1 with _ = put l (ROos ?x) => set (row := x) in E1 end.
  assert (oos_results l' = oos_results l ++ [row] ∧ b = true) as [Er ->].
  { assert (oos_results l1 = oos_results l ++ [row]) as <- by by rewrite E1. destruct arms as [[a a']|].
    - apply bind_Ok_inv in Hc as (l2 & <-%register_oos_results & Hc). apply bind_Ok_inv in Hc as ([l3 b3] & <-%append_oos_results & Hc).
      by injection Hc as <- <-.
    - apply bind_Ok_inv in Hc as ([l3 b3] & <-%append_oos_results & Hc). by injection Hc as <- <-. }
  split; [done|]. exists row. split; [|done]. unfold oos_submission in *. rewrite Er, find_snoc, Hn. cbn. by rewrite String.eqb_refl, Z.eqb_refl.
Qed.

Lemma validate_oos_id r r' : validate_OosLockboxResultV1 r = Ok r' → r' = r.
Proof. unfold validate_OosLockboxResultV1. intros Hv. inv_ok. done. Qed.

(** A lockbox spends budget, stores no result itself and returns validated results. *)
Definition lockbox_ok (evaluate : lockbox) : Prop := ∀ l q t l' o,
  evaluate l q t = (l', o) → oos_results l' = oos_results l ∧ ∀ r, o = Ok r → validate_OosLockboxResultV1 r = Ok r.

Lemma as_lifecycle_Ok {A} (r : res A) a : as_lifecycle_error r = Ok a ↔ r = Ok a.
Proof. unfold as_lifecycle_error. destruct r as [|e]; [done|]. by destruct (bool_decide (exn_kind e = _)). Qed.

(** What the lockbox is opened under. *)
Record oos_ready (l : challenger_ledger) (q : OosEvaluationRequest) : Prop := {
  od_falsified : has_passed_falsification l (oq_challenger_id q) (oq_candidate_artifact_hash q) (oq_evaluation_contract_hash q) = true;
  od_replayed : has_passed_replay l (oq_challenger_id q) (oq_candidate_artifact_hash q) = true;
  od_proposed : challenger_status l (oq_challenger_id q) = Ok PROPOSED;
}.

Lemma oos_preconditions_inv l q a b : oos_preconditions l q a b = Ok () → oos_ready l q.
Proof.
  unfold oos_preconditions. intros Hc. apply bind_Ok_inv in Hc as ([] & H1%raise_if_Ok_inv & Hc).
  apply bind_Ok_inv in Hc as ([] & H2%raise_if_Ok_inv & Hc). apply bind_Ok_inv in Hc as (s & H3 & Hc).
  apply bind_Ok_inv in Hc as ([] & H4%raise_if_Ok_inv & _). split_bool. by subst s.
Qed.

Lemma oos_result_stored l id n row : oos_submission l id n = Some row → validate_OosLockboxResultV1 (oor_payload row) = Ok (oor_payload row) →
  oos_result l id n = Ok (Some (oor_payload row)).
Proof. unfold oos_result. intros -> Hv. by rewrite Hv. Qed.

(** The answer of a stored result. *)
Lemma evaluate_stored lb l q existing champion challenger t t' s :
  oos_result l (oq_challenger_id q) (oq_submission_number q) = Ok (Some existing) →
  ol_experiment_family existing = oq_experiment_family q → ol_candidate_artifact_hash existing = oq_candidate_artifact_hash q →
  ol_evaluation_contract_hash existing = oq_evaluation_contract_hash q → challenger_status l (oq_challenger_id q) = Ok s →
  evaluate_oos_and_register_shadow lb l q champion challenger t t' = (l, Ok {| olr_result := existing; olr_created := false; olr_status := s |}).
Proof. intros He E1 E2 E3 Hs. unfold evaluate_oos_and_register_shadow. by rewrite He, E1, E2, E3, !String.eqb_refl, Hs. Qed.

(** an out-of-sample submission is evaluated once.  When the evaluation of a request returns, either its result was already on
    record, or the challenger was PROPOSED with a passed falsification and a passed replay for this candidate, and it now is in
    SHADOW_PENDING after a pass and OOS_REJECTED after a failure.  From then on the same request gives the recorded result without
    opening any lockbox and without a change to the ledger. *)
Theorem oos_evaluation_once evaluate l q champion challenger evaluated_at persisted_at l' o :
  lockbox_ok evaluate →
  evaluate_oos_and_register_shadow (Some evaluate) l q champion challenger evaluated_at persisted_at = (l', Ok o) →
  (l' = l ∧ olr_created o = false ∨
   olr_created o = true ∧ oos_ready l q ∧ olr_status o = if bool_decide (ol_verdict (olr_result o) = OOS_PASS) then SHADOW_PENDING else OOS_REJECTED) ∧
  ∀ other champion' challenger' t t',
    evaluate_oos_and_register_shadow other l' q champion' challenger' t t'
    = (l', Ok {| olr_result := olr_result o; olr_created := false; olr_status := olr_status o |}).
Proof.
  intros Hok He. unfold evaluate_oos_and_register_shadow in He.
  destruct (oos_result l (oq_challenger_id q) (oq_submission_number q)) as [[existing|]|] eqn:Er; [| |by injection He].
  - injection He as <- He. apply bind_Ok_inv in He as ([] & Hb%raise_if_Ok_inv & He). apply bind_Ok_inv in He as (s & Hs & [= <-]).
    split; [by left|]. intros. split_bool. repeat match goal with E : (_ =? _)%string = true |- _ => apply String.eqb_eq in E end.
    by apply evaluate_stored.
  - assert (oos_submission l (oq_challenger_id q) (oq_submission_number q) = None) as Hnone.
    { unfold oos_result in Er. destruct (oos_submission l _ _); [|done]. by apply bind_Ok_inv in Er as (? & _ & [=]). }
    destruct (oos_preconditions l q champion challenger) as [[]|] eqn:Hp; [|by injection He]. apply oos_preconditions_inv in Hp.
    destruct (evaluate l q evaluated_at) as [l1 [r|e]] eqn:Ev; [|by injection He]. apply Hok in Ev as [Eo Hv]. specialize (Hv r eq_refl).
    destruct (oos_request_bound r q) eqn:Hb; [cbn [negb] in He|by injection He]. unfold oos_request_bound in Hb. split_bool.
    repeat match goal with E : (_ =? _)%string = true |- _ => apply String.eqb_eq in E | E : (_ =? _) = true |- _ => apply Z.eqb_eq in E end.
    assert (ol_challenger_id r = oq_challenger_id q) as Hbc by done. assert (ol_submission_number r = oq_submission_number q) as Hbn by lia.
    destruct (store_oos_result l1 r _ _ _ _) as [[l2 created]|e] eqn:Est; [|injection He as _ He; by apply (proj1 (as_lifecycle_Ok (Raise e) o)) in He].
    injection He as <- He. apply bind_Ok_inv in He as (s & Hs & He). apply bind_Ok_inv in He as ([] & Hst%raise_if_Ok_inv & [= <-]).
    split_bool. apply oos_stored in Est as (-> & row & Hrow & Epay).
    2: { rewrite Hbc, Hbn. unfold oos_submission in *. by rewrite Eo. }
    rewrite Hbc, Hbn in Hrow.
    assert (challenger_status l2 (oq_challenger_id q) = Ok s) as Hs2.
    { by apply as_lifecycle_Ok. }
    split; [right; cbn; by subst s|]. intros. cbn. apply evaluate_stored; try done. rewrite <- Epay. apply oos_result_stored; [done|].
    by rewrite Epay.
Qed.
End theorems.

(** ** Witnesses *)

#[local] Notation ex_run := (run_commands (H := padded_digest) (H0 := ex_json_datetime) empty_challengers) (only parsing).
#[local] Notation ex_reserve := (reserve_oos_budget (H := padded_digest)) (only parsing).

Definition ex_request : OosEvaluationRequest := {|
  oq_challenger_id := "challenger"; oq_experiment_family := "family"; oq_submission_number := 1; oq_candidate_artifact_hash := ex_bundle_hash;
  oq_evaluation_contract_hash := ex_hash "contract";
|}.
Definition ex_limits (key : string) : reservation_args := {|
  rg_maximum_submissions := 2; rg_maximum_oos_uses := 2; rg_idempotency_key := key; rg_created_at := ex_clock 4; rg_expires_at := ex_clock 5;
|}.

#[local] Notation ex_granted := (ex_reserve (λ _, (ex_run ex_tested, ex_run ex_tested)) ex_request (ex_limits "first")) (only parsing).

Lemma ex_tested_valid : Forall (valid_command (H := padded_digest)) ex_tested. Proof. valid_commands. Qed.

Lemma ex_granted_ok : is_ok ex_granted = true. Proof. vm_compute. reflexivity. Qed.

Lemma reservation_split {A B} (r : res (A * B)) : is_ok r = true → ∃ a b, r = Ok (a, b).
Proof. destruct r as [[a b]|]; [eauto|done]. Qed.

Lemma ex_limits_ok key : reservation_limits_ok (ex_limits key).
Proof. by vm_compute. Qed.

Lemma oos_budget_respected_witness :
  ∃ l' r, ex_granted = Ok (l', r) ∧ oos_spent l' "family" = ob_oos_budget_ordinal r ∧ oos_reserved l' "family" <= 2.
Proof.
  destruct (reservation_split _ ex_granted_ok) as (l' & r & E).
  pose proof (oos_budget_respected (H := padded_digest) (H0 := ex_json_datetime) _ _ _ _ _ (ex_reachable _ ex_tested_valid) E eq_refl) as Hx.
  cbv zeta in Hx. destruct Hx as (_ & _ & _ & H1 & _ & _ & H2 & _). exists l', r. exact (conj E (conj H1 H2)).
Defined.

Lemma reservation_granted_once_witness :
  ∃ l' r, ex_granted = Ok (l', r) ∧
    ex_reserve (λ _, (run_commands (H := padded_digest) (H0 := ex_json_datetime) l' [CStart "challenger" "start" (ex_clock 7)],
                      run_commands (H := padded_digest) (H0 := ex_json_datetime) l' [CStart "challenger" "start" (ex_clock 7)]))
      ex_request (ex_limits "first")
    = Ok (run_commands (H := padded_digest) (H0 := ex_json_datetime) l' [CStart "challenger" "start" (ex_clock 7)], r).
Proof.
  destruct (reservation_split _ ex_granted_ok) as (l' & r & E). exists l', r. split; [exact E|].
  apply (reservation_granted_once (H := padded_digest) (H0 := ex_json_datetime) (ex_run ex_tested) ex_request (ex_limits "first"));
    [exact (ex_reachable _ ex_tested_valid)|exact E| |reflexivity|apply ex_limits_ok].
  apply Forall_cons_2; [exact I|apply Forall_nil_2].
Defined.

(** The same submission from two hosts: the second read the budget before the first one committed. *)
#[local] Notation ex_raced l1 :=
  (ex_reserve (λ i, (if (i =? 2)%nat then ex_run ex_tested else l1, l1)) ex_request (ex_limits "first")) (only parsing).

Lemma ex_raced_ok : is_ok ('(l1, _) ← ex_granted; ex_raced l1) = true.
Proof. vm_compute. reflexivity. Qed.

Lemma raced_split {A B C} (r : res (A * B)) (f : A → res C) :
  is_ok ('(a, _) ← r; f a) = true → ∃ a b c, r = Ok (a, b) ∧ f a = Ok c.
Proof. destruct r as [[a b]|]; cbn; [|done]. intros [c Hc]%is_ok_ex. eauto. Qed.

Lemma racing_reservations_serializable_witness :
  ∃ l1 r1 x, ex_granted = Ok (l1, r1) ∧ ex_raced l1 = Ok x ∧ ex_reserve (λ _, (l1, l1)) ex_request (ex_limits "first") = Ok x.
Proof.
  destruct (raced_split ex_granted (λ l1, ex_raced l1) ex_raced_ok) as (l1 & r1 & [l2 r2] & E1 & E2). cbv beta in E2.
  exists l1, r1, (l2, r2).
  exact (conj E1 (conj E2 (racing_reservations_serializable (H := padded_digest) _ _ _ _ _ _ _ _ _ E1 E2))).
Defined.

Definition ex_lockbox : lockbox := λ l _ _, (l, Ok ex_oos).

Lemma ex_lockbox_ok : lockbox_ok (H := padded_digest) ex_lockbox.
Proof. intros l q t l' o [= <- <-]. split; [done|]. intros r [= <-]. vm_compute. reflexivity. Qed.

#[local] Notation ex_evaluated :=
  (evaluate_oos_and_register_shadow (H := padded_digest) (Some ex_lockbox) (ex_run ex_tested) ex_request ex_champion ex_challenger
     (ex_clock 5) (ex_clock 6)) (only parsing).

Lemma ex_evaluated_ok : is_ok (ex_evaluated.2) = true. Proof. vm_compute. reflexivity. Qed.

Lemma pair_split {A B} (x : A * res B) : is_ok x.2 = true → ∃ b, x = (x.1, Ok b).
Proof. destruct x as [a [b|]]; [eauto|done]. Qed.

Lemma oos_evaluation_once_witness :
  ∃ o, ex_evaluated = (ex_evaluated.1, Ok o) ∧ ∀ other t t',
    evaluate_oos_and_register_shadow (H := padded_digest) other (ex_evaluated.1) ex_request ex_champion ex_challenger t t'
    = (ex_evaluated.1, Ok {| olr_result := olr_result o; olr_created := false; olr_status := olr_status o |}).
Proof.
  destruct (pair_split ex_evaluated ex_evaluated_ok) as [o E]. exists o. split; [exact E|]. intros other t t'.
  exact (proj2 (oos_evaluation_once (H := padded_digest) _ _ _ _ _ _ _ _ _ ex_lockbox_ok E) other ex_champion ex_challenger t t').
Defined.
