(* ===== verification/Cycles.v ===== *)
(** * The cycles of a market session ([runtime/q1_scheduler.py])

    The schedule of a session, read from the configuration document, the slots that one versioned session gives, and the
    windows in which orders may be placed.  The New York time zone is a parameter: the instant of a local date and time. *)
From Stdlib Require Import ZArith Lia Ascii String Sorting.Sorted.
From stdpp Require Import base list strings numbers sets.
From S2P Require Import Prelude PyDecimal Hashing Domain Text QuantConfig Schedule.
Set Default Goal Selector "!".
Open Scope Z_scope.

(** [ZoneInfo("America/New_York")] *)
Class NewYork := new_york : zone.

(** ** Kinds *)

Definition Q1_CYCLE_PRIORITY : list string :=
  ["Q1_SETTLEMENT"; "Q1_BOOTSTRAP"; "Q1_NAV_RISK"; "Q1_STRATEGIC"; "Q1_LLM_REVIEW"; "Q1_EXECUTION"; "Q1_DAILY_RESULT"].
Definition Q1_CYCLE_KINDS : list string :=
  ["Q1_SETTLEMENT"; "Q1_BOOTSTRAP"; "Q1_NAV_RISK"; "Q1_STRATEGIC"; "Q1_LLM_REVIEW"; "Q1_EXECUTION"; "Q1_DAILY_RESULT"].

(** [l.index(x)], or [len(l)] when it raises. *)
Fixpoint index_or_length (x : string) (l : list string) : Z :=
  match l with [] => 0 | y :: l => if String.eqb x y then 0 else 1 + index_or_length x l end.

Definition _cycle_priority (kind : string) : Z := index_or_length kind Q1_CYCLE_PRIORITY.

(** ** The schedule *)

(** Times of day are microseconds after midnight. *)
Record Q1SessionSchedule := {
  qs_first_nav_time_et : Z;
  qs_nav_interval_minutes : Z;
  qs_strategic_time_et : Z;
  qs_llm_review_times_et : list Z;
  qs_normal_execution_start_et : Z;
  qs_normal_execution_end_et : Z;
  qs_execution_interval_minutes : Z;
  qs_no_risk_increase_after_et : Z;
}.

(** [__post_init__] *)
Definition validate_Q1SessionSchedule (s : Q1SessionSchedule) : res Q1SessionSchedule :=
  raise_if ((qs_nav_interval_minutes s <=? 0) || (qs_execution_interval_minutes s <=? 0)) ValueError "Q1 schedule intervals must be positive";;
  raise_if (qs_normal_execution_end_et s <? qs_normal_execution_start_et s) ValueError "Q1 normal execution window is inverted";;
  Ok s.

(** One or two digits at the head of a text: two of them when they are at most [top]. *)
Definition short_number (top : Z) (s : string) : option (Z * string) :=
  match read_fixed 2 s 0 with
  | Some (v, s') => if v <=? top then Some (v, s') else read_fixed 1 s 0
  | None => read_fixed 1 s 0
  end.

(** [datetime.strptime(raw, "%H:%M").time()] *)
Definition _parse_clock (raw : string) : res Z :=
  match ('(h, s) ← short_number 23 raw; s ← expect ":"%char s; short_number 59 s ≫= λ '(m, s), Some (h, m, s)) with
  | Some (h, m, EmptyString) => Ok ((h * 60 + m) * 60000000)
  | _ => raise ValueError "Invalid ET clock"
  end.

(** [str] of a list or of a mapping is never a clock. *)
Definition _clock (doc : document) (key : string) : res Z :=
  value ← dindex key doc;
  match value with YScalar s => _parse_clock (str_scalar s) | _ => raise ValueError "Invalid ET clock" end.

Definition _mapping (doc : document) (key : string) : res document :=
  match dget key doc with Some (YMap m) => Ok m | _ => raise ValueError "must be an object" end.

Definition _sequence (doc : document) (key : string) : res (list scalar) :=
  match dget key doc with Some (YList l) => Ok l | _ => raise ValueError "must be a sequence" end.

(** [int(value)]; a float is its text. *)
Definition int_of_value (v : yval) : res Z :=
  match v with
  | YScalar (SBool b) => Ok (if b then 1 else 0)
  | YScalar (SInt z) => Ok z
  | YScalar (SFloat t) =>
      if String.eqb t "inf" || String.eqb t "-inf" then raise OverflowError "cannot convert float infinity to integer"
      else match decimal_of_string t with
           | Ok d => Ok (if 0 <=? dexp d then dcoef d * 10 ^ dexp d else Z.quot (dcoef d) (10 ^ (- dexp d)))
           | Raise _ => raise ValueError "cannot convert float NaN to integer"
           end
  | YScalar (SStr s) => int_of_string (strip s)
  | _ => raise TypeError "int() argument must be a string, a bytes-like object or a real number"
  end.

Definition _positive_int (doc : document) (key : string) : res Z :=
  raw ← dindex key doc;
  value ← int_of_value raw;
  raise_if (value <=? 0) ValueError "must be positive";;
  Ok value.

(** [Q1SessionSchedule.from_document] *)
Definition schedule_from_document (doc : document) : res Q1SessionSchedule :=
  schedule ← _mapping doc "schedule";
  first_nav_time_et ← _clock schedule "first_nav_time_et";
  nav_interval_minutes ← _positive_int schedule "nav_interval_minutes";
  strategic_time_et ← _clock schedule "strategic_time_et";
  reviews ← _sequence schedule "llm_review_times_et";
  llm_review_times_et ← mapM_res (λ v, _parse_clock (str_scalar v)) reviews;
  normal_execution_start_et ← _clock schedule "normal_execution_start_et";
  normal_execution_end_et ← _clock schedule "normal_execution_end_et";
  execution_interval_minutes ← _positive_int schedule "execution_interval_minutes";
  no_risk_increase_after_et ← _clock schedule "no_risk_increase_after_et";
  validate_Q1SessionSchedule {|
    qs_first_nav_time_et := first_nav_time_et; qs_nav_interval_minutes := nav_interval_minutes;
    qs_strategic_time_et := strategic_time_et; qs_llm_review_times_et := llm_review_times_et;
    qs_normal_execution_start_et := normal_execution_start_et; qs_normal_execution_end_et := normal_execution_end_et;
    qs_execution_interval_minutes := execution_interval_minutes; qs_no_risk_increase_after_et := no_risk_increase_after_et |}.

(** ** Sessions *)

(** What the calendar client returns ([data/alpaca_reference.py]). *)
Record MarketSession := {
  mk_session_date : date;
  mk_open_at : datetime;
  mk_close_at : datetime;
  mk_payload_hash : string;
  mk_available_at : datetime;
  mk_raw_object_uri : string;
}.

Record VersionedMarketSession := {
  vs_calendar_session_id : string;
  vs_calendar_version : string;
  vs_session_date : date;
  vs_open_at : datetime;
  vs_close_at : datetime;
  vs_source_payload_hash : string;
  vs_source_available_at : datetime;
}.

Definition _aware (value : datetime) : datetime := DT (instant value) true.

Definition from_reference `{Digest} (session : MarketSession) (calendar_version : string) : res VersionedMarketSession :=
  calendar_session_id ← stable_id "market-calendar-session"
    [PStr calendar_version; PDate (mk_session_date session); PDatetime (mk_open_at session); PDatetime (mk_close_at session);
     PStr (mk_payload_hash session)];
  Ok {| vs_calendar_session_id := calendar_session_id; vs_calendar_version := calendar_version;
        vs_session_date := mk_session_date session; vs_open_at := _aware (mk_open_at session); vs_close_at := _aware (mk_close_at session);
        vs_source_payload_hash := mk_payload_hash session; vs_source_available_at := _aware (mk_available_at session) |}.

(** ** Slots *)

Record PaperCycleSlot := { cycle_kind : string; scheduled_at : datetime }.
#[global] Instance PaperCycleSlot_eq_dec : EqDecision PaperCycleSlot.
Proof. solve_decision. Defined.

Definition slot_add (slots : list PaperCycleSlot) (s : PaperCycleSlot) : list PaperCycleSlot :=
  if bool_decide (s ∈ slots) then slots else slots ++ [s].

Definition after_minutes (t : datetime) (minutes : Z) : datetime := DT (instant t + minutes * 60000000) (tz_aware t).
(** [max(a, b)] *)
Definition dt_max (a b : datetime) : datetime := if dt_lt a b then b else a.
Definition dt_min (a b : datetime) : datetime := if dt_lt b a then b else a.

(** [while at < close_at: slots.add(PaperCycleSlot(kind, at)); at += interval] *)
Fixpoint add_every (fuel : nat) (kind : string) (at_ close_at : datetime) (minutes : Z) (slots : list PaperCycleSlot) : list PaperCycleSlot :=
  match fuel with
  | O => slots
  | S fuel =>
      if dt_lt at_ close_at then
        add_every fuel kind (after_minutes at_ minutes) close_at minutes (slot_add slots {| cycle_kind := kind; scheduled_at := at_ |})
      else slots
  end.

(** Enough iterations for that loop. *)
Definition loop_fuel (at_ close_at : datetime) (minutes : Z) : nat :=
  Z.to_nat ((instant close_at - instant at_) / (minutes * 60000000) + 2).

(** [sorted(slots, key=(scheduled_at, priority, kind))] *)
Definition slot_le (a b : PaperCycleSlot) : bool :=
  negb (lex_lt [instant (scheduled_at b) ?= instant (scheduled_at a); _cycle_priority (cycle_kind b) ?= _cycle_priority (cycle_kind a);
                String.compare (cycle_kind b) (cycle_kind a)]).

Section slots.
Context `{NewYork}.

Definition _session_clock (session_date : date) (value : Z) : datetime := utc (combine new_york session_date value).

Definition within_session (session : VersionedMarketSession) (t : datetime) : bool :=
  dt_le (vs_open_at session) t && dt_lt t (vs_close_at session).

Definition build_q1_session_slots (session : VersionedMarketSession) (schedule : Q1SessionSchedule) : res (list PaperCycleSlot) :=
  let open_at := vs_open_at session in
  let close_at := vs_close_at session in
  let clock := _session_clock (vs_session_date session) in
  raise_if (dt_le close_at open_at) ValueError "Market session close must follow open";;
  let slots := fold_left slot_add
    [{| cycle_kind := "Q1_SETTLEMENT"; scheduled_at := open_at |}; {| cycle_kind := "Q1_BOOTSTRAP"; scheduled_at := open_at |};
     {| cycle_kind := "Q1_DAILY_RESULT"; scheduled_at := close_at |}] [] in
  let nav_at := dt_max open_at (clock (qs_first_nav_time_et schedule)) in
  let slots := add_every (loop_fuel nav_at close_at (qs_nav_interval_minutes schedule)) "Q1_NAV_RISK" nav_at close_at
                 (qs_nav_interval_minutes schedule) slots in
  let strategic_at := clock (qs_strategic_time_et schedule) in
  let slots := if within_session session strategic_at then slot_add slots {| cycle_kind := "Q1_STRATEGIC"; scheduled_at := strategic_at |} else slots in
  let slots := fold_left (λ slots review_clock,
    let review_at := clock review_clock in
    if negb (review_clock =? qs_strategic_time_et schedule) && within_session session review_at
    then slot_add slots {| cycle_kind := "Q1_LLM_REVIEW"; scheduled_at := review_at |} else slots) (qs_llm_review_times_et schedule) slots in
  let execution_at := after_minutes open_at (qs_execution_interval_minutes schedule) in
  let slots := add_every (loop_fuel execution_at close_at (qs_execution_interval_minutes schedule)) "Q1_EXECUTION" execution_at close_at
                 (qs_execution_interval_minutes schedule) slots in
  Ok (sorted slot_le slots).

(** ** Windows *)

Definition normal_order_window (session : VersionedMarketSession) (schedule : Q1SessionSchedule) : datetime * datetime :=
  let start := dt_max (vs_open_at session) (_session_clock (vs_session_date session) (qs_normal_execution_start_et schedule)) in
  let configured_end := _session_clock (vs_session_date session) (qs_normal_execution_end_et schedule) in
  (start, dt_min configured_end (vs_close_at session)).

Definition normal_order_valid_until (session : VersionedMarketSession) (schedule : Q1SessionSchedule) : datetime :=
  (normal_order_window session schedule).2.

Definition risk_increase_allowed (instant : datetime) (session : VersionedMarketSession) (schedule : Q1SessionSchedule) : bool :=
  let cutoff := _session_clock (vs_session_date session) (qs_no_risk_increase_after_et schedule) in
  let value := _aware instant in
  dt_le (vs_open_at session) value && dt_lt value (dt_min cutoff (vs_close_at session)).

Definition is_regular_session_time (instant : datetime) (session : VersionedMarketSession) : bool :=
  let value := _aware instant in
  dt_le (vs_open_at session) value && dt_lt value (vs_close_at session).

End slots.

(** ** The slots are exactly the ones the schedule names *)

Lemma elem_of_slot_add x l s : x ∈ slot_add l s ↔ x ∈ l ∨ x = s.
Proof.
  unfold slot_add. destruct (bool_decide _) eqn:E; split_bool; [|rewrite elem_of_app, list_elem_of_singleton; done].
  split; [by left|]. by intros [?| ->].
Qed.

Lemma slot_add_NoDup l s : NoDup l → NoDup (slot_add l s).
Proof.
  unfold slot_add. destruct (bool_decide _) eqn:E; split_bool; [done|]. intros Hl. apply NoDup_app. split_and!; [done| |by apply NoDup_singleton].
  by intros x Hx ->%list_elem_of_singleton.
Qed.

Lemma add_every_NoDup fuel kind at_ close_at m l : NoDup l → NoDup (add_every fuel kind at_ close_at m l).
Proof. revert at_ l. induction fuel as [|fuel IH]; intros at_ l Hl; cbn; [done|]. destruct (dt_lt _ _); [|done]. by apply IH, slot_add_NoDup. Qed.

(** The fuel of the loop is enough: it stops only at the close. *)
Lemma elem_of_add_every kind at_ close_at m l x fuel :
  0 < m → instant close_at - instant at_ < Z.of_nat fuel * (m * 60000000) →
  x ∈ add_every fuel kind at_ close_at m l ↔
  x ∈ l ∨ ∃ k, 0 <= k ∧ instant at_ + k * (m * 60000000) < instant close_at
             ∧ x = {| cycle_kind := kind; scheduled_at := after_minutes at_ (k * m) |}.
Proof.
  intros Hm. revert at_ l. induction fuel as [|fuel IH]; intros at_ l Hf; cbn.
  - split; [by left|]. intros [?|(k & Hk & Hlt & _)]; [done|nia].
  - unfold dt_lt. destruct (Z.ltb_spec (instant at_) (instant close_at)) as [Hlt|Hge].
    2: { split; [by left|]. intros [?|(k & Hk & ? & _)]; [done|nia]. }
    rewrite IH by (cbn; lia). rewrite elem_of_slot_add. cbn. split.
    + intros [[?| ->]|(k & Hk & Hlt' & ->)]; [by left| |].
      * right. exists 0. split; [lia|]. split; [lia|]. destruct at_ as [i b]. unfold after_minutes. cbn. do 2 f_equal. lia.
      * right. exists (k + 1). split; [lia|]. split; [lia|]. unfold after_minutes. cbn. do 2 f_equal. lia.
    + intros [?|(k & Hk & Hlt' & ->)]; [by do 2 left|]. destruct (decide (k = 0)) as [->|Hne].
      * left. right. destruct at_ as [i b]. unfold after_minutes. cbn. do 2 f_equal. lia.
      * right. exists (k - 1). split; [lia|]. split; [lia|]. unfold after_minutes. cbn. do 2 f_equal. lia.
Qed.

Lemma loop_fuel_enough at_ close_at m : 0 < m → instant close_at - instant at_ < Z.of_nat (loop_fuel at_ close_at m) * (m * 60000000).
Proof.
  intros Hm. unfold loop_fuel. set (d := instant close_at - instant at_). set (w := m * 60000000). assert (0 < w) as Hw by (subst w; lia).
  pose proof (Z.mod_pos_bound d w Hw) as Hb. pose proof (Z.div_mod d w ltac:(lia)) as E.
  destruct (Z.le_gt_cases 0 (d / w + 2)) as [Hp|Hn]; [rewrite Z2Nat.id by lia; nia|].
  replace (Z.to_nat (d / w + 2)) with 0%nat by lia. nia.
Qed.

(** What the schedule names: a kind and an instant. *)
Inductive named_slot `{NewYork} (session : VersionedMarketSession) (schedule : Q1SessionSchedule) : string → Z → Prop :=
  | named_settlement : named_slot session schedule "Q1_SETTLEMENT" (instant (vs_open_at session))
  | named_bootstrap : named_slot session schedule "Q1_BOOTSTRAP" (instant (vs_open_at session))
  | named_daily_result : named_slot session schedule "Q1_DAILY_RESULT" (instant (vs_close_at session))
  | named_nav_risk k t : 0 <= k →
      t = Z.max (instant (vs_open_at session)) (combine new_york (vs_session_date session) (qs_first_nav_time_et schedule))
          + k * (qs_nav_interval_minutes schedule * 60000000) →
      t < instant (vs_close_at session) → named_slot session schedule "Q1_NAV_RISK" t
  | named_strategic t : t = combine new_york (vs_session_date session) (qs_strategic_time_et schedule) →
      instant (vs_open_at session) <= t < instant (vs_close_at session) → named_slot session schedule "Q1_STRATEGIC" t
  | named_llm_review clock t : clock ∈ qs_llm_review_times_et schedule → clock ≠ qs_strategic_time_et schedule →
      t = combine new_york (vs_session_date session) clock →
      instant (vs_open_at session) <= t < instant (vs_close_at session) → named_slot session schedule "Q1_LLM_REVIEW" t
  | named_execution k t : 1 <= k → t = instant (vs_open_at session) + k * (qs_execution_interval_minutes schedule * 60000000) →
      t < instant (vs_close_at session) → named_slot session schedule "Q1_EXECUTION" t.

Section exact.
Context `{NewYork} (session : VersionedMarketSession) (schedule : Q1SessionSchedule).

(** The loop over the review times. *)
Lemma elem_of_reviews x clocks l :
  x ∈ fold_left (λ slots review_clock,
        let review_at := _session_clock (vs_session_date session) review_clock in
        if negb (review_clock =? qs_strategic_time_et schedule) && within_session session review_at
        then slot_add slots {| cycle_kind := "Q1_LLM_REVIEW"; scheduled_at := review_at |} else slots) clocks l
  ↔ x ∈ l ∨ ∃ c, c ∈ clocks ∧ c ≠ qs_strategic_time_et schedule ∧ within_session session (_session_clock (vs_session_date session) c) = true
              ∧ x = {| cycle_kind := "Q1_LLM_REVIEW"; scheduled_at := _session_clock (vs_session_date session) c |}.
Proof.
  revert l. induction clocks as [|c cs IH]; intros l; cbn [fold_left].
  { split; [by left|]. by intros [?|(? & ?%elem_of_nil & _)]. }
  rewrite IH. destruct (_ && _) eqn:E.
  - apply andb_true_iff in E as [Hc%negb_true_iff%Z.eqb_neq Hw]. rewrite elem_of_slot_add. set_solver.
  - assert (¬ (c ≠ qs_strategic_time_et schedule ∧ within_session session (_session_clock (vs_session_date session) c) = true)) as Hn.
    { intros [Hc%Z.eqb_neq Hw]. by rewrite Hc, Hw in E. }
    split; [intros [?|(d & ? & ?)]; [by left|right; exists d; split; [by right|done]]|].
    intros [?|(d & [->|Hd]%elem_of_cons & ? & ? & ?)]; [by left|naive_solver|right; by exists d].
Qed.

Lemma reviews_NoDup clocks l :
  NoDup l → NoDup (fold_left (λ slots review_clock,
        let review_at := _session_clock (vs_session_date session) review_clock in
        if negb (review_clock =? qs_strategic_time_et schedule) && within_session session review_at
        then slot_add slots {| cycle_kind := "Q1_LLM_REVIEW"; scheduled_at := review_at |} else slots) clocks l).
Proof.
  revert l. induction clocks as [|c cs IH]; intros l Hl; cbn [fold_left]; [done|]. apply IH. destruct (_ && _); [by apply slot_add_NoDup|done].
Qed.

(** Slots compare as their keys. *)
Definition slot_key : list (PaperCycleSlot → PaperCycleSlot → comparison) :=
  [(λ a b, instant (scheduled_at a) ?= instant (scheduled_at b)); (λ a b, _cycle_priority (cycle_kind a) ?= _cycle_priority (cycle_kind b));
   (λ a b, String.compare (cycle_kind a) (cycle_kind b))].

Lemma slot_key_ordering : Forall ordering slot_key.
Proof. repeat constructor; first [apply Zcompare_ordering|apply (Zcompare_ordering (λ a, instant (scheduled_at a)))|apply string_ordering|apply (Zcompare_ordering (λ a, _cycle_priority (cycle_kind a)))]. Qed.

(** An aware datetime is its instant. *)
Lemma aware_utc t : tz_aware t = true → t = utc (instant t).
Proof. destruct t as [i b]. cbn. by intros ->. Qed.

Lemma dt_max_instant a b : instant (dt_max a b) = Z.max (instant a) (instant b).
Proof. unfold dt_max, dt_lt. destruct (Z.ltb_spec (instant a) (instant b)); lia. Qed.

Lemma dt_max_aware a b : tz_aware a = true → tz_aware b = true → tz_aware (dt_max a b) = true.
Proof. unfold dt_max. by destruct (dt_lt a b). Qed.

Lemma within_session_iff t : within_session session t = true ↔ instant (vs_open_at session) <= instant t < instant (vs_close_at session).
Proof. unfold within_session, dt_le, dt_lt. rewrite andb_true_iff, Z.leb_le, Z.ltb_lt. done. Qed.

Lemma schedule_intervals : is_ok (validate_Q1SessionSchedule schedule) = true → 0 < qs_nav_interval_minutes schedule ∧ 0 < qs_execution_interval_minutes schedule.
Proof.
  unfold validate_Q1SessionSchedule. destruct (_ || _) eqn:E; [done|]. apply orb_false_iff in E as [?%Z.leb_gt ?%Z.leb_gt]. done.
Qed.

End exact.

(** What the builder returns. *)
Definition session_slots `{NewYork} (session : VersionedMarketSession) (schedule : Q1SessionSchedule) : list PaperCycleSlot :=
  match build_q1_session_slots session schedule with Ok slots => slots | Raise _ => [] end.

Lemma session_slots_built `{NewYork} session schedule :
  instant (vs_open_at session) < instant (vs_close_at session) → build_q1_session_slots session schedule = Ok (session_slots session schedule).
Proof.
  intros Hlt. unfold session_slots, build_q1_session_slots.
  replace (dt_le (vs_close_at session) (vs_open_at session)) with false by (symmetry; apply Z.leb_gt; lia). done.
Qed.

Lemma elem_of_session_slots `{NewYork} session schedule kind t :
  is_ok (validate_Q1SessionSchedule schedule) = true → tz_aware (vs_open_at session) = true → tz_aware (vs_close_at session) = true →
  instant (vs_open_at session) < instant (vs_close_at session) →
  {| cycle_kind := kind; scheduled_at := t |} ∈ session_slots session schedule ↔ tz_aware t = true ∧ named_slot session schedule kind (instant t).
Proof.
  intros [Hnav Hex]%schedule_intervals Hao Hac Hlt. unfold session_slots, build_q1_session_slots.
  replace (dt_le (vs_close_at session) (vs_open_at session)) with false by (symmetry; apply Z.leb_gt; lia). cbn [raise_if raise mbind res_bind].
  rewrite elem_of_sorted, elem_of_add_every by (try done; by apply loop_fuel_enough). rewrite elem_of_reviews.
  set (nav_at := dt_max _ _). set (strategic_at := _session_clock _ (qs_strategic_time_et schedule)).
  assert (tz_aware nav_at = true) as Hna by (by apply dt_max_aware).
  assert (∀ l, {| cycle_kind := kind; scheduled_at := t |} ∈ (if within_session session strategic_at
      then slot_add l {| cycle_kind := "Q1_STRATEGIC"; scheduled_at := strategic_at |} else l)
      ↔ {| cycle_kind := kind; scheduled_at := t |} ∈ l ∨ within_session session strategic_at = true ∧ kind = "Q1_STRATEGIC"%string ∧ t = strategic_at) as Hst.
  { intros l. destruct (within_session session strategic_at); [rewrite elem_of_slot_add; naive_solver|naive_solver]. }
  rewrite Hst, elem_of_add_every by (try done; by apply loop_fuel_enough). cbn [fold_left]. rewrite !elem_of_slot_add, elem_of_nil, within_session_iff.
  split.
  - intros [[[[[[[?|E]|E]|E]|(k & Hk & Hl & E)]|(Hw & -> & ->)]|(c & Hc & Hne & Hw & E)]|(k & Hk & Hl & E)]; try done; try (injection E as -> ->); cbn;
      try (split; [done|by constructor]).
    + split; [done|]. apply (named_nav_risk _ _ k); [done| |cbn in *; lia].
      assert (instant nav_at = Z.max (instant (vs_open_at session))
        (combine new_york (vs_session_date session) (qs_first_nav_time_et schedule))) as <- by (subst nav_at; by rewrite dt_max_instant).
      cbn. lia.
    + split; [done|]. apply (named_llm_review _ _ c); try done. by apply within_session_iff in Hw.
    + split; [done|]. apply (named_execution _ _ (k + 1)); cbn in *; lia.
  - intros [Ha Hn]. apply aware_utc in Ha. set (i := instant t) in *. clearbody i. subst t.
    inversion Hn as [E|E|E|k t' Hk E Hl|t' E Hw|c t' Hc Hne E Hw|k t' Hk E Hl]; subst.
    + do 6 left. right. by rewrite <- aware_utc.
    + do 5 left. right. by rewrite <- aware_utc.
    + do 4 left. right. by rewrite <- aware_utc.
    + left. left. left. right. exists k. split; [done|]. assert (instant nav_at = Z.max (instant (vs_open_at session))
        (combine new_york (vs_session_date session) (qs_first_nav_time_et schedule))) as En by (subst nav_at; by rewrite dt_max_instant).
      rewrite En. split; [done|]. unfold after_minutes. rewrite En, Hna. do 2 f_equal. unfold utc. f_equal. lia.
    + left. left. right. done.
    + left. right. exists c. split_and!; [done|done|by apply within_session_iff|done].
    + right. exists (k - 1). cbn. split; [lia|]. split; [lia|]. unfold after_minutes. cbn. rewrite Hao. do 2 f_equal. unfold utc. f_equal. lia.
Qed.

Lemma named_slot_inside `{NewYork} session schedule kind t :
  is_ok (validate_Q1SessionSchedule schedule) = true → instant (vs_open_at session) < instant (vs_close_at session) →
  named_slot session schedule kind t → instant (vs_open_at session) <= t <= instant (vs_close_at session).
Proof. intros [Hnav Hex]%schedule_intervals Hlt Hn. inversion Hn; subst; nia. Qed.

Lemma session_slots_NoDup `{NewYork} session schedule : NoDup (session_slots session schedule).
Proof.
  unfold session_slots, build_q1_session_slots. destruct (dt_le _ _); cbn [raise_if raise mbind res_bind]; [apply NoDup_nil_2|]. rewrite sorted_perm.
  repeat first [apply add_every_NoDup|apply reviews_NoDup|apply slot_add_NoDup|destruct (within_session session _)|apply NoDup_nil_2].
Qed.

Lemma session_slots_sorted `{NewYork} session schedule : StronglySorted (λ a b, slot_le a b = true) (session_slots session schedule).
Proof.
  unfold session_slots, build_q1_session_slots. destruct (dt_le _ _); cbn [raise_if raise mbind res_bind]; [constructor|].
  apply (sorted_lex slot_key slot_le); [apply slot_key_ordering|done].
Qed.

(** a session's cycles are exactly the scheduled ones.  For a validated schedule and a session that closes after it opens the
    builder returns, its loops having run to the close, and the slots are: settlement and bootstrap at the open, the daily result at
    the close, a risk check at every interval from the later of the open and the first time, the strategic decision and the other
    reviews when they fall inside the session, and an execution at every interval after the open; each once, in claim order, and none
    outside the session. *)
Theorem q1_session_slots_exact `{NewYork} session schedule :
  is_ok (validate_Q1SessionSchedule schedule) = true → tz_aware (vs_open_at session) = true → tz_aware (vs_close_at session) = true →
  instant (vs_open_at session) < instant (vs_close_at session) →
  ∃ slots, build_q1_session_slots session schedule = Ok slots ∧
    (∀ kind t, {| cycle_kind := kind; scheduled_at := t |} ∈ slots ↔ tz_aware t = true ∧ named_slot session schedule kind (instant t)) ∧
    (∀ kind t, named_slot session schedule kind t → instant (vs_open_at session) <= t <= instant (vs_close_at session)) ∧
    NoDup slots ∧ StronglySorted (λ a b, slot_le a b = true) slots.
Proof.
  intros Hv Hao Hac Hlt. exists (session_slots session schedule). split; [by apply session_slots_built|].
  split; [intros; by apply elem_of_session_slots|]. split; [intros kind t; by apply named_slot_inside|].
  split; [apply session_slots_NoDup|apply session_slots_sorted].
Qed.

(** ** A concrete session *)

(** A New York that is always five hours behind. *)
Definition ex_new_york : NewYork :=
  {| combine := λ d t, d * 86400000000 + t + 5 * 3600000000; local_date := λ t, (t - 5 * 3600000000) / 86400000000 |}.
#[local] Existing Instance ex_new_york.

Definition ex_at (hours : Z) : datetime := utc (20000 * 86400000000 + hours * 3600000000).
Definition ex_schedule : Q1SessionSchedule := {|
  qs_first_nav_time_et := 10 * 3600000000; qs_nav_interval_minutes := 90; qs_strategic_time_et := 11 * 3600000000;
  qs_llm_review_times_et := [11 * 3600000000; 12 * 3600000000]; qs_normal_execution_start_et := 11 * 3600000000;
  qs_normal_execution_end_et := 12 * 3600000000; qs_execution_interval_minutes := 120; qs_no_risk_increase_after_et := 13 * 3600000000 |}.
Definition ex_session : VersionedMarketSession := {|
  vs_calendar_session_id := "session"; vs_calendar_version := "v1"; vs_session_date := 20000; vs_open_at := ex_at 15;
  vs_close_at := ex_at 18; vs_source_payload_hash := "p"; vs_source_available_at := ex_at 0 |}.

Lemma q1_session_slots_exact_witness :
  ∃ slots, build_q1_session_slots ex_session ex_schedule = Ok slots ∧ {| cycle_kind := "Q1_LLM_REVIEW"; scheduled_at := ex_at 17 |} ∈ slots.
Proof.
  destruct (q1_session_slots_exact ex_session ex_schedule eq_refl eq_refl eq_refl ltac:(cbn; lia)) as (slots & Hb & Hm & _).
  exists slots. split; [exact Hb|]. apply Hm. split; [reflexivity|].
  apply (named_llm_review _ _ (12 * 3600000000)); cbn; [right; left|lia|reflexivity|lia].
Defined.
