(* ===== verification/CycleStore.v ===== *)
(** * The cycle store ([runtime/scheduler.py], the fences of [persistence/q1_runtime.py])

    The tables [paper_cycles] and [paper_runtime_status] and the transactions of [PaperCycleStore] on them.  Unlike the research
    ledger these rows are updated in place: a worker holds a cycle while the row names it as the owner of the running attempt and
    the lease has not expired.  A transaction is atomic: it gives the tables it commits, or raises and leaves them as they were.
    Every clock is an argument: [database] is the database's clock where the dialect has one ([None] on SQLite), the others are the
    caller's.  Rows that other transactions hold locked are an argument of the claim, which skips them. *)
From Stdlib Require Import ZArith Lia Ascii String.
From stdpp Require Import base list strings numbers sets.
From S2P Require Import Prelude PyDecimal Hashing Domain Text Schedule Cycles.
Set Default Goal Selector "!".
Open Scope Z_scope.

(** ** Constants *)

Definition CYCLE_PRIORITY : pydict Z :=
  [("BOOTSTRAP", 0); ("Q1_SETTLEMENT", 0); ("Q1_BOOTSTRAP", 1); ("NAV", 1); ("Q1_NAV_RISK", 2); ("NEWS", 2); ("DECISION", 3);
   ("Q1_STRATEGIC", 3); ("Q1_LLM_REVIEW", 4); ("EXECUTION", 4); ("Q1_EXECUTION", 5); ("DAILY_REPORT", 5); ("Q1_DAILY_RESULT", 6);
   ("RECONCILIATION", 6)].
Definition RETRYABLE_KINDS : list string := ["BOOTSTRAP"; "Q1_BOOTSTRAP"; "Q1_DAILY_RESULT"].
(** [timedelta]s are microseconds. *)
Definition minutes (n : Z) : Z := n * 60000000.
Definition KIND_GRACE : pydict Z :=
  [("NAV", minutes 20); ("NEWS", minutes 90); ("DECISION", minutes 90); ("EXECUTION", minutes 5); ("DAILY_REPORT", minutes 240);
   ("RECONCILIATION", minutes 240)].

(** [case(CYCLE_PRIORITY, value=kind, else_=99)] *)
Definition claim_priority (kind : string) : Z := match dget kind CYCLE_PRIORITY with Some p => p | None => 99 end.

(** ** Rows *)

Record PaperCycleRow := {
  pc_cycle_id : string;
  pc_run_id : string;
  pc_cycle_kind : string;
  pc_scheduled_at : datetime;
  pc_data_available_cutoff : option datetime;
  pc_status : string;
  pc_idempotency_key : string;
  pc_lease_owner : option string;
  pc_lease_expires_at : option datetime;
  pc_attempt_count : Z;
  pc_input_manifest_hash : option string;
  pc_output_manifest_hash : option string;
  pc_started_at : option datetime;
  pc_completed_at : option datetime;
  pc_last_error_code : option string;
  pc_last_error_detail : option string;
  pc_created_at : datetime;
  pc_updated_at : datetime;
}.

Record PaperRuntimeStatusRow := {
  ps_run_id : string;
  ps_state : string;
  ps_current_cycle_id : option string;
  ps_heartbeat_at : option datetime;
  ps_last_completed_cycle_at : option datetime;
  ps_last_error_code : option string;
  ps_last_error_detail : option string;
  ps_process_id : option Z;
  ps_updated_at : datetime;
}.

(** [runs]: the identifiers in the table [runs], which the foreign keys refer to. *)
Record cycle_store := {
  runs : list string;
  cycles : list PaperCycleRow;
  runtime_statuses : list PaperRuntimeStatusRow;
}.

Definition with_cycles (s : cycle_store) (l : list PaperCycleRow) : cycle_store :=
  {| runs := runs s; cycles := l; runtime_statuses := runtime_statuses s |}.
Definition with_statuses (s : cycle_store) (l : list PaperRuntimeStatusRow) : cycle_store :=
  {| runs := runs s; cycles := cycles s; runtime_statuses := l |}.

Definition get_cycle (s : cycle_store) (cycle_id : string) : option PaperCycleRow :=
  List.find (λ c, String.eqb (pc_cycle_id c) cycle_id) (cycles s).

(** The row in the place of the one with its key. *)
Definition update_cycle (s : cycle_store) (row : PaperCycleRow) : cycle_store :=
  with_cycles s (map (λ c, if String.eqb (pc_cycle_id c) (pc_cycle_id row) then row else c) (cycles s)).

(** The constraints of [paper_cycles]. *)
Definition cycle_conflict (s : cycle_store) (n : PaperCycleRow) : bool :=
  existsb (λ c, String.eqb (pc_cycle_id c) (pc_cycle_id n) || String.eqb (pc_idempotency_key c) (pc_idempotency_key n)
                || (String.eqb (pc_run_id c) (pc_run_id n) && String.eqb (pc_cycle_kind c) (pc_cycle_kind n)
                    && (instant (pc_scheduled_at c) =? instant (pc_scheduled_at n)))) (cycles s)
  || negb (existsb (String.eqb (pc_run_id n)) (runs s)).

Definition add_cycle (s : cycle_store) (row : PaperCycleRow) : res cycle_store :=
  raise_if (cycle_conflict s row) IntegrityError "paper_cycles";; Ok (with_cycles s (cycles s ++ [row])).

(** [value[:n]] in code points. *)
Fixpoint pytake (n : Z) (s : string) : string :=
  match s with
  | EmptyString => EmptyString
  | String c s =>
      let b := N_of_ascii c in
      if (128 <=? b)%N && (b <? 192)%N then String c (pytake n s) else if n <=? 0 then EmptyString else String c (pytake (n - 1) s)
  end.

(** The database's clock, or the caller's where the dialect has none. *)
Definition _lease_check_now (database : option datetime) (fallback : datetime) : datetime :=
  match database with Some t => _aware t | None => fallback end.

Definition after (t : datetime) (delta : Z) : datetime := DT (instant t + delta) (tz_aware t).

Section store.
Context `{Digest}.

(** ** [ensure_slots]: one transaction *)

Definition new_cycle (run_id cycle_id : string) (slot : PaperCycleSlot) (scheduled_at instant : datetime) : PaperCycleRow := {|
  pc_cycle_id := cycle_id; pc_run_id := run_id; pc_cycle_kind := cycle_kind slot; pc_scheduled_at := scheduled_at;
  pc_data_available_cutoff := None; pc_status := "PENDING";
  pc_idempotency_key := String.append run_id (String ":"%char (String.append (cycle_kind slot) (String ":"%char (datetime_iso scheduled_at))));
  pc_lease_owner := None; pc_lease_expires_at := None; pc_attempt_count := 0; pc_input_manifest_hash := None;
  pc_output_manifest_hash := None; pc_started_at := None; pc_completed_at := None; pc_last_error_code := None;
  pc_last_error_detail := None; pc_created_at := instant; pc_updated_at := instant |}.

Definition ensure_slot (run_id : string) (instant : datetime) (st : cycle_store * Z) (slot : PaperCycleSlot) : res (cycle_store * Z) :=
  let '(s, created) := st in
  scheduled_at ← require_aware_utc (scheduled_at slot);
  cycle_id ← stable_id "paper-cycle" [PStr run_id; PStr (cycle_kind slot); PDatetime scheduled_at];
  match get_cycle s cycle_id with
  | Some _ => Ok (s, created)
  | None => s' ← add_cycle s (new_cycle run_id cycle_id slot scheduled_at instant); Ok (s', created + 1)
  end.

Definition ensure_slots (s : cycle_store) (run_id : string) (slots : list PaperCycleSlot) (now : datetime) : res (cycle_store * Z) :=
  instant ← require_aware_utc now;
  foldM (ensure_slot run_id instant) (s, 0) slots.

(** ** [claim_next] *)

(** The [where] clause, and the rows that [skip_locked] leaves out. *)
Definition claimable_cycle (run_id : string) (kinds : option (list string)) (locked : string → bool) (now : datetime) (c : PaperCycleRow) : bool :=
  String.eqb (pc_run_id c) run_id
  && dt_le (pc_scheduled_at c) now
  && (String.eqb (pc_status c) "PENDING"
      || (String.eqb (pc_status c) "RUNNING" && match pc_lease_expires_at c with Some t => dt_le t now | None => false end))
  && match kinds with Some ks => existsb (String.eqb (pc_cycle_kind c)) ks | None => true end
  && negb (locked (pc_cycle_id c)).

(** [order_by(scheduled_at, case(CYCLE_PRIORITY, ...), cycle_kind)] *)
Definition claim_le (a b : PaperCycleRow) : bool :=
  negb (lex_lt [instant (pc_scheduled_at b) ?= instant (pc_scheduled_at a);
                claim_priority (pc_cycle_kind b) ?= claim_priority (pc_cycle_kind a);
                String.compare (pc_cycle_kind b) (pc_cycle_kind a)]).

Definition grace_of (kind : string) (grace : Z) : Z :=
  Z.max grace match dget kind KIND_GRACE with Some g => g | None => grace end.

Definition missed_window (c : PaperCycleRow) (grace : Z) (now : datetime) : bool :=
  negb (existsb (String.eqb (pc_cycle_kind c)) RETRYABLE_KINDS)
  && dt_lt (after (_aware (pc_scheduled_at c)) (grace_of (pc_cycle_kind c) grace)) now.

Definition skipped (c : PaperCycleRow) (now : datetime) : PaperCycleRow := {|
  pc_cycle_id := pc_cycle_id c; pc_run_id := pc_run_id c; pc_cycle_kind := pc_cycle_kind c; pc_scheduled_at := pc_scheduled_at c;
  pc_data_available_cutoff := pc_data_available_cutoff c; pc_status := "SKIPPED_MISSED_WINDOW";
  pc_idempotency_key := pc_idempotency_key c; pc_lease_owner := pc_lease_owner c; pc_lease_expires_at := pc_lease_expires_at c;
  pc_attempt_count := pc_attempt_count c; pc_input_manifest_hash := pc_input_manifest_hash c;
  pc_output_manifest_hash := pc_output_manifest_hash c; pc_started_at := pc_started_at c; pc_completed_at := Some now;
  pc_last_error_code := Some "MISSED_WINDOW"; pc_last_error_detail := Some "Cycle was not claimed within its grace window";
  pc_created_at := pc_created_at c; pc_updated_at := now |}.

Definition claimed (c : PaperCycleRow) (owner : string) (lease : Z) (now : datetime) : PaperCycleRow := {|
  pc_cycle_id := pc_cycle_id c; pc_run_id := pc_run_id c; pc_cycle_kind := pc_cycle_kind c; pc_scheduled_at := pc_scheduled_at c;
  pc_data_available_cutoff := pc_data_available_cutoff c; pc_status := "RUNNING"; pc_idempotency_key := pc_idempotency_key c;
  pc_lease_owner := Some owner; pc_lease_expires_at := Some (after now lease); pc_attempt_count := pc_attempt_count c + 1;
  pc_input_manifest_hash := pc_input_manifest_hash c; pc_output_manifest_hash := pc_output_manifest_hash c;
  pc_started_at := match pc_started_at c with Some t => Some t | None => Some now end; pc_completed_at := pc_completed_at c;
  pc_last_error_code := pc_last_error_code c; pc_last_error_detail := pc_last_error_detail c; pc_created_at := pc_created_at c;
  pc_updated_at := now |}.

Inductive claim_outcome :=
  | NothingDue
  | MissedWindow
  | ClaimedCycle (row : PaperCycleRow).

(** What a claim asks for. *)
Record claim_args := {
  ca_run_id : string;
  ca_grace : Z;
  ca_lease : Z;
  ca_owner : string;
  ca_kinds : option (list string);
}.

(** One iteration of the loop: a transaction that reads the clock. *)
Definition claim_cycle (s : cycle_store) (a : claim_args) (locked : string → bool) (instant : datetime) : cycle_store * claim_outcome :=
  match List.hd_error (sorted claim_le (List.filter (claimable_cycle (ca_run_id a) (ca_kinds a) locked instant) (cycles s))) with
  | None => (s, NothingDue)
  | Some row =>
      if missed_window row (ca_grace a) instant then (update_cycle s (skipped row instant), MissedWindow)
      else let row' := claimed row (ca_owner a) (ca_lease a) instant in (update_cycle s row', ClaimedCycle row')
  end.

(** [while True]; [None] when the fuel runs out. *)
Fixpoint claim_cycle_loop (fuel : nat) (s : cycle_store) (a : claim_args) (locked : nat → string → bool) (clock : nat → datetime)
    : option (cycle_store * option PaperCycleRow) :=
  match fuel with
  | O => None
  | S fuel =>
      match claim_cycle s a (locked fuel) (clock fuel) with
      | (s', NothingDue) => Some (s', None)
      | (s', ClaimedCycle row) => Some (s', Some row)
      | (s', MissedWindow) => claim_cycle_loop fuel s' a locked clock
      end
  end.

(** [owner or _lease_owner()]: [process] is this process's name. *)
Definition lease_owner_of (owner : option string) (process : string) : string :=
  match owner with Some o => if str_empty o then process else o | None => process end.

Definition claim_next (fuel : nat) (s : cycle_store) (run_id : string) (now : datetime) (grace lease : Z) (owner : option string)
    (process : string) (kinds : option (list string)) (locked : nat → string → bool) (database : nat → option datetime)
    : res (option (cycle_store * option PaperCycleRow)) :=
  requested_now ← require_aware_utc now;
  Ok (claim_cycle_loop fuel s {| ca_run_id := run_id; ca_grace := grace; ca_lease := lease; ca_owner := lease_owner_of owner process;
                           ca_kinds := kinds |} locked (λ i, _lease_check_now (database i) requested_now)).

(** ** Transactions of the holder *)

Definition held_by (row : PaperCycleRow) (owner : string) (attempt_count : Z) (now : datetime) : bool :=
  String.eqb (pc_status row) "RUNNING" && bool_decide (pc_lease_owner row = Some owner) && (pc_attempt_count row =? attempt_count)
  && match pc_lease_expires_at row with Some t => negb (dt_le (_aware t) now) | None => false end.

Definition _require_cycle_lease (row : PaperCycleRow) (owner : string) (attempt_count : Z) (now : datetime) : res () :=
  raise_if (negb (held_by row owner attempt_count now)) PaperCycleFenceError "Cycle lease is no longer owned".

Definition _locked_cycle : cycle_store → string → option PaperCycleRow := get_cycle.

Definition known_cycle (s : cycle_store) (cycle_id : string) : res PaperCycleRow :=
  match _locked_cycle s cycle_id with Some row => Ok row | None => raise ValueError "Unknown paper cycle" end.

Definition completed (c : PaperCycleRow) (cutoff : datetime) (input_hash output_hash : string) (instant : datetime) : PaperCycleRow := {|
  pc_cycle_id := pc_cycle_id c; pc_run_id := pc_run_id c; pc_cycle_kind := pc_cycle_kind c; pc_scheduled_at := pc_scheduled_at c;
  pc_data_available_cutoff := Some cutoff; pc_status := "COMPLETED"; pc_idempotency_key := pc_idempotency_key c;
  pc_lease_owner := None; pc_lease_expires_at := None; pc_attempt_count := pc_attempt_count c;
  pc_input_manifest_hash := Some input_hash; pc_output_manifest_hash := Some output_hash; pc_started_at := pc_started_at c;
  pc_completed_at := Some instant; pc_last_error_code := None; pc_last_error_detail := None; pc_created_at := pc_created_at c;
  pc_updated_at := instant |}.

Definition complete (s : cycle_store) (cycle_id lease_owner : string) (attempt_count : Z) (cutoff : datetime)
    (input_manifest output_manifest : pyval) (now : datetime) (database : option datetime) : res cycle_store :=
  instant ← require_aware_utc now;
  input_hash ← canonical_hash input_manifest;
  output_hash ← canonical_hash output_manifest;
  row ← known_cycle s cycle_id;
  if String.eqb (pc_status row) "COMPLETED" then
    raise_if (negb (bool_decide (pc_input_manifest_hash row = Some input_hash))
              || negb (bool_decide (pc_output_manifest_hash row = Some output_hash)))
      PaperCycleFenceError "Completed cycle was replayed with different manifests";;
    Ok s
  else
    _require_cycle_lease row lease_owner attempt_count (_lease_check_now database instant);;
    cutoff ← require_aware_utc cutoff;
    Ok (update_cycle s (completed row cutoff input_hash output_hash instant)).

(** The row that [defer] and [fail] leave: the lease is gone and the error recorded. *)
Definition released (c : PaperCycleRow) (status : string) (completed_at : option datetime) (code detail : string) (instant : datetime)
    : PaperCycleRow := {|
  pc_cycle_id := pc_cycle_id c; pc_run_id := pc_run_id c; pc_cycle_kind := pc_cycle_kind c; pc_scheduled_at := pc_scheduled_at c;
  pc_data_available_cutoff := pc_data_available_cutoff c; pc_status := status; pc_idempotency_key := pc_idempotency_key c;
  pc_lease_owner := None; pc_lease_expires_at := None; pc_attempt_count := pc_attempt_count c;
  pc_input_manifest_hash := pc_input_manifest_hash c; pc_output_manifest_hash := pc_output_manifest_hash c;
  pc_started_at := pc_started_at c; pc_completed_at := completed_at; pc_last_error_code := Some (pytake 80 code);
  pc_last_error_detail := Some (pytake 500 detail); pc_created_at := pc_created_at c; pc_updated_at := instant |}.

Definition defer (s : cycle_store) (cycle_id lease_owner : string) (attempt_count : Z) (code detail : string) (now : datetime)
    (database : option datetime) : res cycle_store :=
  instant ← require_aware_utc now;
  row ← known_cycle s cycle_id;
  _require_cycle_lease row lease_owner attempt_count (_lease_check_now database instant);;
  Ok (update_cycle s (released row "PENDING" (pc_completed_at row) code detail instant)).

Definition fail (s : cycle_store) (cycle_id lease_owner : string) (attempt_count : Z) (code detail : string) (now : datetime)
    (database : option datetime) : res cycle_store :=
  instant ← require_aware_utc now;
  row ← known_cycle s cycle_id;
  _require_cycle_lease row lease_owner attempt_count (_lease_check_now database instant);;
  Ok (update_cycle s (released row "FAILED" (Some instant) code detail instant)).

(** ** Fences of the trading repositories *)

(** [persistence/q1_runtime.py] *)
Definition _database_now (database : option datetime) (fallback : datetime) : res datetime :=
  instant ← require_aware_utc fallback; Ok (match database with Some t => _aware t | None => instant end).

Definition require_cycle_fence (s : cycle_store) (cycle_id lease_owner : string) (attempt_count : Z) (fallback_now : datetime)
    (database : option datetime) : res PaperCycleRow :=
  match get_cycle s cycle_id with
  | None => raise Q1StaleWorkerError "Unknown Q1 cycle"
  | Some cycle =>
      database_now ← _database_now database fallback_now;
      raise_if (negb (held_by cycle lease_owner attempt_count database_now)) Q1StaleWorkerError "Q1 cycle lease was lost or reclaimed";;
      Ok cycle
  end.

Definition complete_fenced_cycle (s : cycle_store) (cycle : PaperCycleRow) (cutoff : datetime) (input_manifest output_manifest : pyval)
    (completed_at : datetime) : res cycle_store :=
  instant ← require_aware_utc completed_at;
  cutoff ← require_aware_utc cutoff;
  input_hash ← canonical_hash input_manifest;
  output_hash ← canonical_hash output_manifest;
  Ok (update_cycle s (completed cycle cutoff input_hash output_hash instant)).

(** [persistence/q1.py] *)
Definition _require_cycle_fence (s : cycle_store) (cycle_id lease_owner : string) (attempt_count : Z) (fallback_now : datetime)
    (database : option datetime) : res PaperCycleRow :=
  match get_cycle s cycle_id with
  | None => raise Q1CycleFenceError "Unknown source cycle"
  | Some row =>
      raise_if (negb (held_by row lease_owner attempt_count (_lease_check_now database (_aware fallback_now))))
        Q1CycleFenceError "Cycle lease is not owned";;
      Ok row
  end.

(** ** [heartbeat] *)

Definition heartbeat (s : cycle_store) (run_id state : string) (now : datetime) (current_cycle_id error_code error_detail : option string)
    (process_id : Z) : res cycle_store :=
  instant ← require_aware_utc now;
  let detail := pytake 500 <$> error_detail in
  raise_if (match current_cycle_id with Some c => is_None_b (get_cycle s c) | None => false end
            || negb (existsb (String.eqb run_id) (runs s))) IntegrityError "paper_runtime_status";;
  match List.find (λ r, String.eqb (ps_run_id r) run_id) (runtime_statuses s) with
  | None =>
      Ok (with_statuses s (runtime_statuses s ++ [{|
        ps_run_id := run_id; ps_state := state; ps_current_cycle_id := current_cycle_id; ps_heartbeat_at := Some instant;
        ps_last_completed_cycle_at := None; ps_last_error_code := error_code; ps_last_error_detail := detail;
        ps_process_id := Some process_id; ps_updated_at := instant |}]))
  | Some row =>
      let row' := {|
        ps_run_id := run_id; ps_state := state; ps_current_cycle_id := current_cycle_id; ps_heartbeat_at := Some instant;
        ps_last_completed_cycle_at := match current_cycle_id with None => Some instant | Some _ => ps_last_completed_cycle_at row end;
        ps_last_error_code := error_code; ps_last_error_detail := detail; ps_process_id := Some process_id; ps_updated_at := instant |} in
      Ok (with_statuses s (map (λ r, if String.eqb (ps_run_id r) run_id then row' else r) (runtime_statuses s)))
  end.

End store.
