(* ===== verification/CycleLifecycle.v ===== *)
(** * Runs of the cycle store

    The lifecycle that the transactions of [CycleStore] refine, and what it means for the workers: leases exclude, stale workers can
    do nothing, finished cycles stay finished, the claim loop ends with the first due cycle. *)
From Stdlib Require Import ZArith Lia Ascii String Sorting.Sorted.
From stdpp Require Import base list strings numbers sets.
From S2P Require Import Prelude PyDecimal Hashing Domain Text Schedule Cycles CycleStore.
Set Default Goal Selector "!".
Open Scope Z_scope.

(** ** Commands: the committed transactions, one claim being one iteration of its loop *)

Inductive command :=
  | KEnsure (run_id : string) (slots : list PaperCycleSlot) (now : datetime)
  | KClaim (a : claim_args) (locked : string → bool) (now : datetime)
  | KComplete (id owner : string) (attempt : Z) (cutoff : datetime) (input output : pyval) (now : datetime) (database : option datetime)
  | KDefer (id owner : string) (attempt : Z) (code detail : string) (now : datetime) (database : option datetime)
  | KFail (id owner : string) (attempt : Z) (code detail : string) (now : datetime) (database : option datetime)
  | KFenced (id owner : string) (attempt : Z) (fallback : datetime) (database : option datetime) (cutoff : datetime) (input output : pyval)
            (completed_at : datetime)
  | KHeartbeat (run_id state : string) (now : datetime) (current error_code error_detail : option string) (process_id : Z).

Section runs.
Context `{Digest}.

Definition run_command (s : cycle_store) (c : command) : res cycle_store :=
  match c with
  | KEnsure run_id slots now => '(s', _) ← ensure_slots s run_id slots now; Ok s'
  | KClaim a locked now => Ok (claim_cycle s a locked now).1
  | KComplete id owner attempt cutoff input output now database => complete s id owner attempt cutoff input output now database
  | KDefer id owner attempt code detail now database => defer s id owner attempt code detail now database
  | KFail id owner attempt code detail now database => fail s id owner attempt code detail now database
  | KFenced id owner attempt fallback database cutoff input output completed_at =>
      cycle ← require_cycle_fence s id owner attempt fallback database;
      complete_fenced_cycle s cycle cutoff input output completed_at
  | KHeartbeat run_id state now current error_code error_detail process_id =>
      heartbeat s run_id state now current error_code error_detail process_id
  end.

(** A transaction that raises is rolled back. *)
Definition commit (s : cycle_store) (c : command) : cycle_store := match run_command s c with Ok s' => s' | Raise _ => s end.
Definition run_commands (s : cycle_store) (cs : list command) : cycle_store := fold_left commit cs s.

(** The lease that a command acts under, and the clock that it compares leases with. *)
Definition acts_for (c : command) : option (string * string * Z) :=
  match c with
  | KComplete id owner attempt _ _ _ _ _ | KDefer id owner attempt _ _ _ _ | KFail id owner attempt _ _ _ _
  | KFenced id owner attempt _ _ _ _ _ _ => Some (id, owner, attempt)
  | _ => None
  end.

Definition clock_of (c : command) : Z :=
  match c with
  | KClaim _ _ now => instant now
  | KComplete _ _ _ _ _ _ now database | KDefer _ _ _ _ _ now database | KFail _ _ _ _ _ now database => instant (_lease_check_now database now)
  | KFenced _ _ _ fallback database _ _ _ _ => instant (_lease_check_now database fallback)
  | KEnsure _ _ now | KHeartbeat _ _ now _ _ _ _ => instant now
  end.

(** ** The lifecycle of a cycle *)

Inductive cycle_state :=
  | Waiting (attempts : Z)
  | Held (owner : string) (attempt : Z) (expiry : Z)
  | Completed (input_hash output_hash : string)
  | Failed
  | Missed.

Definition state_of (c : PaperCycleRow) : option cycle_state :=
  if String.eqb (pc_status c) "PENDING" then Some (Waiting (pc_attempt_count c))
  else if String.eqb (pc_status c) "RUNNING" then
    match pc_lease_owner c, pc_lease_expires_at c with Some o, Some t => Some (Held o (pc_attempt_count c) (instant t)) | _, _ => None end
  else if String.eqb (pc_status c) "COMPLETED" then
    match pc_input_manifest_hash c, pc_output_manifest_hash c with Some i, Some o => Some (Completed i o) | _, _ => None end
  else if String.eqb (pc_status c) "FAILED" then Some Failed
  else if String.eqb (pc_status c) "SKIPPED_MISSED_WINDOW" then Some Missed
  else None.

Definition state (s : cycle_store) (id : string) : option cycle_state := get_cycle s id ≫= state_of.

(** The moves of one cycle at a reading of the clock. *)
Inductive move (now : Z) : cycle_state → cycle_state → Prop :=
  | move_claim n owner expiry : move now (Waiting n) (Held owner (n + 1) expiry)
  | move_reclaim old n expiry owner expiry' : expiry <= now → move now (Held old n expiry) (Held owner (n + 1) expiry')
  | move_miss n : move now (Waiting n) Missed
  | move_abandon old n expiry : expiry <= now → move now (Held old n expiry) Missed
  | move_complete owner n expiry input output : now < expiry → move now (Held owner n expiry) (Completed input output)
  | move_fail owner n expiry : now < expiry → move now (Held owner n expiry) Failed
  | move_defer owner n expiry : now < expiry → move now (Held owner n expiry) (Waiting n).

(** A transaction schedules new cycles, moves one cycle, or changes none. *)
Inductive lifecycle (now : Z) (σ σ' : string → option cycle_state) : Prop :=
  | life_schedule : (∀ id, σ' id = σ id ∨ σ id = None ∧ σ' id = Some (Waiting 0)) → lifecycle now σ σ'
  | life_move id x y : σ id = Some x → move now x y → σ' id = Some y → (∀ id', id' ≠ id → σ' id' = σ id') → lifecycle now σ σ'.

(** ** Updates *)

Lemma get_update s row id :
  get_cycle (update_cycle s row) id
  = match get_cycle s id with Some c => Some (if String.eqb id (pc_cycle_id row) then row else c) | None => None end.
Proof.
  unfold get_cycle, update_cycle. cbn. induction (cycles s) as [|c l IH]; cbn; [done|].
  destruct (String.eqb_spec (pc_cycle_id c) (pc_cycle_id row)) as [E|N]; cbn.
  - rewrite E, String.eqb_sym. destruct (String.eqb id (pc_cycle_id row)); [done|exact IH].
  - destruct (String.eqb_spec (pc_cycle_id c) id) as [<-|N']; [|exact IH]. by apply String.eqb_neq in N as ->.
Qed.

Lemma get_cycle_id s id row : get_cycle s id = Some row → pc_cycle_id row = id.
Proof. by intros [_ ?%String.eqb_eq]%find_elem. Qed.

Lemma state_update s row id x :
  get_cycle s (pc_cycle_id row) = Some x → state (update_cycle s row) id = if String.eqb id (pc_cycle_id row) then state_of row else state s id.
Proof.
  intros Hg. unfold state. rewrite get_update. destruct (String.eqb_spec id (pc_cycle_id row)) as [->|N]; [by rewrite Hg|].
  by destruct (get_cycle s id).
Qed.

Lemma get_add s row s' id :
  add_cycle s row = Ok s' → get_cycle s (pc_cycle_id row) = None ∧
  get_cycle s' id = match get_cycle s id with Some c => Some c | None => if String.eqb (pc_cycle_id row) id then Some row else None end.
Proof.
  unfold add_cycle. intros Ha. apply bind_Ok_inv in Ha as ([] & Hc%raise_if_Ok_inv & [= <-]). unfold cycle_conflict in Hc. split.
  - apply orb_false_iff in Hc as [Hc _]. unfold get_cycle. destruct (List.find _ _) as [c|] eqn:E; [|done].
    apply find_elem in E as [Hin E]. exfalso. apply not_true_iff_false in Hc. apply Hc, existsb_exists. exists c. split; [by apply list_elem_of_In|].
    by rewrite E.
  - unfold get_cycle. cbn. by rewrite find_snoc.
Qed.

(** ** What a committed transaction changes *)

(** The row a transaction updates, and its new value. *)
Inductive row_change (c : command) (row row' : PaperCycleRow) : Prop :=
  | change_claim a locked now : c = KClaim a locked now → claimable_cycle (ca_run_id a) (ca_kinds a) locked now row = true →
      row' = claimed row (ca_owner a) (ca_lease a) now → row_change c row row'
  | change_skip a locked now : c = KClaim a locked now → claimable_cycle (ca_run_id a) (ca_kinds a) locked now row = true →
      row' = skipped row now → row_change c row row'
  | change_held owner attempt now : acts_for c = Some (pc_cycle_id row, owner, attempt) → held_by row owner attempt now = true →
      instant now = clock_of c →
      (∃ cutoff i o t, row' = completed row cutoff i o t) ∨ (∃ code detail t, row' = released row "PENDING" (pc_completed_at row) code detail t)
      ∨ (∃ t0 code detail t, row' = released row "FAILED" t0 code detail t) → row_change c row row'.

Inductive change (c : command) (s s' : cycle_store) : Prop :=
  | change_none : cycles s' = cycles s → change c s s'
  | change_new : acts_for c = None → (NoDup (map pc_cycle_id (cycles s)) → NoDup (map pc_cycle_id (cycles s'))) →
      (∀ id row, get_cycle s id = Some row → get_cycle s' id = Some row) →
      (∀ id row, get_cycle s id = None → get_cycle s' id = Some row → pc_status row = "PENDING"%string ∧ pc_attempt_count row = 0) → change c s s'
  | change_row row row' : get_cycle s (pc_cycle_id row) = Some row → pc_cycle_id row' = pc_cycle_id row → row_change c row row' →
      s' = update_cycle s row' → change c s s'.

Lemma ensure_slot_spec run_id now st slot st' :
  ensure_slot run_id now st slot = Ok st' →
  (NoDup (map pc_cycle_id (cycles st.1)) → NoDup (map pc_cycle_id (cycles st'.1))) ∧
  (∀ id row, get_cycle st.1 id = Some row → get_cycle st'.1 id = Some row) ∧
  (∀ id row, get_cycle st.1 id = None → get_cycle st'.1 id = Some row → pc_status row = "PENDING"%string ∧ pc_attempt_count row = 0).
Proof.
  destruct st as [s n]. unfold ensure_slot. intros Hs. apply bind_Ok_inv in Hs as (at_ & _ & Hs). apply bind_Ok_inv in Hs as (cid & _ & Hs).
  destruct (get_cycle s cid) as [c|]; [injection Hs as <-; split_and!; [done|done|congruence]|].
  apply bind_Ok_inv in Hs as (s' & Ha & [= <-]). cbn. split.
  { intros Hn. destruct (get_add _ _ _ EmptyString Ha) as [Hnone _]. unfold add_cycle in Ha. apply bind_Ok_inv in Ha as (? & _ & [= <-]). cbn.
    rewrite map_app. apply NoDup_app. split_and!; [done| |by apply NoDup_singleton]. intros y Hy ->%list_elem_of_singleton.
    apply list_elem_of_fmap in Hy as (c & E & Hc). pose proof (find_absent _ _ _ Hnone Hc) as E'. cbn in E'. by rewrite <- E, String.eqb_refl in E'. }
  split; intros id row Hg; destruct (get_add _ _ _ id Ha) as [_ ->]; rewrite Hg; [done|].
  destruct (String.eqb _ _); [|done]. by intros [= <-].
Qed.

Lemma ensure_spec run_id now slots st st' :
  foldM (ensure_slot run_id now) st slots = Ok st' →
  (NoDup (map pc_cycle_id (cycles st.1)) → NoDup (map pc_cycle_id (cycles st'.1))) ∧
  (∀ id row, get_cycle st.1 id = Some row → get_cycle st'.1 id = Some row) ∧
  (∀ id row, get_cycle st.1 id = None → get_cycle st'.1 id = Some row → pc_status row = "PENDING"%string ∧ pc_attempt_count row = 0).
Proof.
  revert st. induction slots as [|slot slots IH]; intros st Hf; cbn in Hf.
  { injection Hf as <-. split_and!; [done|done|congruence]. }
  apply bind_Ok_inv in Hf as (st1 & (H0 & H1 & H2)%ensure_slot_spec & (H5 & H3 & H4)%IH). split; [eauto|]. split; [eauto|].
  intros id row Hn Hs. destruct (get_cycle st1.1 id) as [c|] eqn:E; [|eauto]. rewrite (H3 _ _ E) in Hs. injection Hs as <-. eauto.
Qed.

Lemma claim_cycle_spec s a locked now s' o :
  claim_cycle s a locked now = (s', o) →
  match o with
  | NothingDue => s' = s ∧ ∀ c, c ∈ cycles s → claimable_cycle (ca_run_id a) (ca_kinds a) locked now c = false
  | MissedWindow => ∃ row, row ∈ cycles s ∧ claimable_cycle (ca_run_id a) (ca_kinds a) locked now row = true ∧ missed_window row (ca_grace a) now = true
      ∧ s' = update_cycle s (skipped row now)
  | ClaimedCycle row' => ∃ row, row ∈ cycles s ∧ claimable_cycle (ca_run_id a) (ca_kinds a) locked now row = true
      ∧ missed_window row (ca_grace a) now = false ∧ row' = claimed row (ca_owner a) (ca_lease a) now ∧ s' = update_cycle s row'
      ∧ ∀ c, c ∈ cycles s → claimable_cycle (ca_run_id a) (ca_kinds a) locked now c = true → claim_le row c = true
  end.
Proof.
  unfold claim_cycle. destruct (List.hd_error _) as [row|] eqn:E.
  - apply (sorted_lex_head
      [(λ a b, instant (pc_scheduled_at a) ?= instant (pc_scheduled_at b)); (λ a b, claim_priority (pc_cycle_kind a) ?= claim_priority (pc_cycle_kind b));
       (λ a b, String.compare (pc_cycle_kind a) (pc_cycle_kind b))]) in E as [Hin Hleast]; [| |done].
    2: { repeat constructor; first [apply (Zcompare_ordering (λ c, instant (pc_scheduled_at c)))
           |apply (Zcompare_ordering (λ c, claim_priority (pc_cycle_kind c)))|apply string_ordering]. }
    apply list_elem_of_In, filter_In in Hin as [Hin%list_elem_of_In Hcl].
    destruct (missed_window _ _ _) eqn:Em; intros [= <- <-]; exists row; [done|]. do 5 (split; [done|]).
    intros c Hc Hcc. apply Hleast, list_elem_of_In, filter_In. by rewrite <- list_elem_of_In.
  - intros [= <- <-]. split; [done|]. apply sorted_hd_None in E. intros c Hc. destruct (claimable_cycle _ _ _ _ c) eqn:Ec; [|done].
    assert (c ∈ List.filter (claimable_cycle (ca_run_id a) (ca_kinds a) locked now) (cycles s)) as Hf by (apply list_elem_of_In, filter_In; by rewrite <- list_elem_of_In).
    rewrite E in Hf. by apply not_elem_of_nil in Hf.
Qed.

(** Identifiers are unique, and every row is in a state of the lifecycle. *)
Record cycles_ok (s : cycle_store) : Prop := {
  ok_ids : NoDup (map pc_cycle_id (cycles s));
  ok_states : ∀ id row, get_cycle s id = Some row → ∃ x, state_of row = Some x;
}.

Lemma get_unique s row : NoDup (map pc_cycle_id (cycles s)) → row ∈ cycles s → get_cycle s (pc_cycle_id row) = Some row.
Proof.
  intros Hn Hin. unfold get_cycle. induction (cycles s) as [|c l IH]; [by apply not_elem_of_nil in Hin|]. cbn in *.
  apply NoDup_cons in Hn as [Hc Hn]. apply elem_of_cons in Hin as [->|Hin]; [by rewrite String.eqb_refl|].
  destruct (String.eqb_spec (pc_cycle_id c) (pc_cycle_id row)) as [E|_]; [|by apply IH]. exfalso. apply Hc. rewrite E. by apply list_elem_of_fmap_2.
Qed.

Lemma held_status row owner attempt now : held_by row owner attempt now = true →
  pc_status row = "RUNNING"%string ∧ pc_lease_owner row = Some owner ∧ pc_attempt_count row = attempt ∧
  ∃ t, pc_lease_expires_at row = Some t ∧ instant now < instant t.
Proof.
  unfold held_by. destruct (pc_lease_expires_at row) as [t|]; [|by rewrite andb_false_r]. intros Hh. split_bool.
  match goal with E : (_ =? _)%string = true |- _ => apply String.eqb_eq in E end.
  match goal with E : (_ =? _) = true |- _ => apply Z.eqb_eq in E end. split_and!; [done..|]. exists t. split; [done|].
  unfold dt_le in *. cbn in *. lia.
Qed.

(** The transactions of a holder are guarded by its lease. *)
Lemma holder_change c s id owner attempt now row row' :
  acts_for c = Some (id, owner, attempt) → get_cycle s id = Some row → held_by row owner attempt now = true → instant now = clock_of c →
  (∃ cutoff i o t, row' = completed row cutoff i o t) ∨ (∃ code detail t, row' = released row "PENDING" (pc_completed_at row) code detail t)
  ∨ (∃ t0 code detail t, row' = released row "FAILED" t0 code detail t) →
  change c s (update_cycle s row').
Proof.
  intros Ha Hg Hh Hc Hrow. pose proof (get_cycle_id _ _ _ Hg) as Hid. apply (change_row _ _ _ row row'); [by rewrite Hid| | |done].
  - destruct Hrow as [(?&?&?&?& ->)|[(?&?&?& ->)|(?&?&?&?& ->)]]; done.
  - eapply (change_held _ _ _ owner attempt now); [by rewrite Hid|done|done|exact Hrow].
Qed.

Lemma command_change s c s' : cycles_ok s → run_command s c = Ok s' → change c s s'.
Proof.
  intros [Hids _]. destruct c; cbn [run_command].
  - intros Hr. apply bind_Ok_inv in Hr as ([s1 n] & He & [= <-]). unfold ensure_slots in He. apply bind_Ok_inv in He as (t & _ & (H0 & H1 & H2)%ensure_spec).
    by apply change_new.
  - destruct (claim_cycle s a locked now) as [s1 o] eqn:E. apply claim_cycle_spec in E. intros [= <-]. cbn. destruct o as [| |row'].
    + destruct E as [-> _]. by apply change_none.
    + destruct E as (row & Hin & Hcl & _ & ->). apply (change_row _ _ _ row (skipped row now)); [by apply get_unique|done| |done]. by eapply change_skip.
    + destruct E as (row & Hin & Hcl & _ & -> & -> & _). apply (change_row _ _ _ row (claimed row (ca_owner a) (ca_lease a) now)); [by apply get_unique|done| |done]. by eapply change_claim.
  - unfold complete, _require_cycle_lease, known_cycle, _locked_cycle. intros Hr. apply bind_Ok_inv in Hr as (t & ->%aware_ok & Hr).
    apply bind_Ok_inv in Hr as (i & _ & Hr). apply bind_Ok_inv in Hr as (o & _ & Hr). destruct (get_cycle s id) as [row|] eqn:Hg; [|done].
    cbn [mbind res_bind] in Hr. destruct (String.eqb _ _).
    + apply bind_Ok_inv in Hr as (? & _ & [= <-]). by apply change_none.
    + apply bind_Ok_inv in Hr as ([] & Hh%raise_if_Ok_inv%negb_false_iff & Hr). apply bind_Ok_inv in Hr as (c & _ & [= <-]).
      eapply holder_change; eauto 7.
  - unfold defer, _require_cycle_lease, known_cycle, _locked_cycle. intros Hr. apply bind_Ok_inv in Hr as (t & ->%aware_ok & Hr).
    destruct (get_cycle s id) as [row|] eqn:Hg; [|done]. cbn [mbind res_bind] in Hr. apply bind_Ok_inv in Hr as ([] & Hh%raise_if_Ok_inv%negb_false_iff & [= <-]).
    eapply holder_change; eauto 7.
  - unfold fail, _require_cycle_lease, known_cycle, _locked_cycle. intros Hr. apply bind_Ok_inv in Hr as (t & ->%aware_ok & Hr).
    destruct (get_cycle s id) as [row|] eqn:Hg; [|done]. cbn [mbind res_bind] in Hr. apply bind_Ok_inv in Hr as ([] & Hh%raise_if_Ok_inv%negb_false_iff & [= <-]).
    eapply holder_change; eauto 8.
  - unfold require_cycle_fence, _database_now. destruct (get_cycle s id) as [row|] eqn:Hg; [|done]. intros Hr. apply bind_Ok_inv in Hr as (r & Hf & Hr).
    apply bind_Ok_inv in Hf as (d & Hd & Hf). apply bind_Ok_inv in Hf as ([] & Hh%raise_if_Ok_inv%negb_false_iff & [= <-]).
    apply bind_Ok_inv in Hd as (t & ->%aware_ok & [= <-]). unfold complete_fenced_cycle in Hr. inv_ok. eapply holder_change; eauto 7.
  - unfold heartbeat. intros Hr. apply change_none. apply bind_Ok_inv in Hr as (t & _ & Hr). apply bind_Ok_inv in Hr as ([] & _ & Hr).
    by destruct (List.find _ _); injection Hr as <-.
Qed.

(** A row change is a move of its state. *)
Lemma row_change_move c row row' x : state_of row = Some x → row_change c row row' → ∃ y, state_of row' = Some y ∧ move (clock_of c) x y.
Proof.
  intros Hx Hc. assert (∀ a locked now, claimable_cycle (ca_run_id a) (ca_kinds a) locked now row = true →
    x = Waiting (pc_attempt_count row) ∨ ∃ o t, x = Held o (pc_attempt_count row) t ∧ t <= instant now) as Hcl.
  { intros a locked now Hcl. unfold claimable_cycle in Hcl. apply andb_true_iff in Hcl as [[[[_ _]%andb_true_iff Hst]%andb_true_iff _]%andb_true_iff _].
    unfold state_of in Hx. apply orb_true_iff in Hst as [Hst|Hst]; [rewrite Hst in Hx; injection Hx as <-; by left|].
    apply andb_true_iff in Hst as [Hs Hexp]. apply String.eqb_eq in Hs. rewrite Hs in Hx. cbn in Hx.
    destruct (pc_lease_owner row) as [o|]; [|done]. destruct (pc_lease_expires_at row) as [t|]; [|done]. injection Hx as <-. right.
    exists o, (instant t). split; [done|]. unfold dt_le in Hexp. lia. }
  destruct Hc as [a locked now -> Hc ->|a locked now -> Hc ->|owner attempt now Ha Hh Hn Hrow].
  - destruct (Hcl _ _ _ Hc) as [->|(o & t & -> & Ht)]; eexists; (split; [reflexivity|]); by constructor.
  - destruct (Hcl _ _ _ Hc) as [->|(o & t & -> & Ht)]; eexists; (split; [reflexivity|]); by econstructor.
  - apply held_status in Hh as (Hs & Ho & Hat & t & Ht & Hlt). unfold state_of in Hx. rewrite Hs, Ho, Ht in Hx. cbn in Hx. injection Hx as <-.
    rewrite <- Hn. destruct Hrow as [(?&?&?&?& ->)|[(?&?&?& ->)|(?&?&?&?& ->)]]; eexists; (split; [reflexivity|]); by constructor.
Qed.

(** ** Runs *)

Lemma command_ok s c s' : cycles_ok s → run_command s c = Ok s' → cycles_ok s'.
Proof.
  intros Hok Hr. pose proof (command_change _ _ _ Hok Hr) as Hc. destruct Hok as [Hids Hst].
  destruct Hc as [E|_ Hn Hold Hnew|row row' Hg Hid Hrow ->]; split.
  - by rewrite E.
  - intros id row. unfold get_cycle. rewrite E. apply Hst.
  - by apply Hn.
  - intros id row Hg. destruct (get_cycle s id) as [c'|] eqn:E.
    + rewrite (Hold _ _ E) in Hg. injection Hg as <-. eauto.
    + destruct (Hnew _ _ E Hg) as [Hs _]. unfold state_of. rewrite Hs. cbn. eauto.
  - unfold update_cycle. cbn. rewrite map_map. erewrite map_ext; [exact Hids|]. intros x. cbn.
    destruct (String.eqb_spec (pc_cycle_id x) (pc_cycle_id row')) as [->|]; [|done]. done.
  - intros id r. rewrite get_update. destruct (get_cycle s id) as [c'|] eqn:E; [|done]. destruct (String.eqb _ _); intros [= <-]; [|eauto].
    destruct (Hst _ _ Hg) as [x Hx]. destruct (row_change_move _ _ _ _ Hx Hrow) as (y & Hy & _). eauto.
Qed.

Lemma commit_ok s c : cycles_ok s → cycles_ok (commit s c).
Proof. intros Hok. unfold commit. destruct (run_command s c) eqn:E; [by eapply command_ok|done]. Qed.

Lemma cycles_run_ok s cs : cycles_ok s → cycles_ok (run_commands s cs).
Proof. revert s. induction cs as [|c cs IH]; intros s Hs; cbn; [done|]. by apply IH, commit_ok. Qed.

(** A store before any transaction. *)
Definition empty_store (rs : list string) : cycle_store := {| runs := rs; cycles := []; runtime_statuses := [] |}.

Lemma empty_ok rs : cycles_ok (empty_store rs).
Proof. split; [constructor|done]. Qed.

(** What a commit does to one cycle's state. *)
Lemma cycle_commit_lifecycle s c : cycles_ok s → lifecycle (clock_of c) (state s) (state (commit s c)).
Proof.
  intros Hok. unfold commit. destruct (run_command s c) as [s'|] eqn:E; [|by apply life_schedule; left].
  destruct (command_change _ _ _ Hok E) as [Ec|_ _ Hold Hnew|row row' Hg Hid Hrow ->].
  - apply life_schedule. left. unfold state, get_cycle. by rewrite Ec.
  - apply life_schedule. intros id. unfold state. destruct (get_cycle s id) as [r|] eqn:Eg; [left; by rewrite (Hold _ _ Eg)|].
    destruct (get_cycle s' id) as [r|] eqn:Eg'; [|by left]. right. split; [done|]. destruct (Hnew _ _ Eg Eg') as [Hs Ha]. cbn. unfold state_of.
    by rewrite Hs, Ha.
  - destruct (ok_states _ Hok _ _ Hg) as [x Hx]. destruct (row_change_move _ _ _ _ Hx Hrow) as (y & Hy & Hm).
    rewrite <- Hid in Hg. apply (life_move _ _ _ (pc_cycle_id row') x y); [unfold state; by rewrite Hg|done| |].
    + by rewrite (state_update _ _ _ _ Hg), String.eqb_refl.
    + intros id' Hne. rewrite (state_update _ _ _ _ Hg). by apply String.eqb_neq in Hne as ->.
Qed.

(** *** Leases *)

(** A holder's transaction that changes a row acts on the state that its lease names. *)
Lemma commit_state s c id x :
  cycles_ok s → state s id = Some x →
  state (commit s c) id = Some x
  ∨ ∃ y, state (commit s c) id = Some y ∧ move (clock_of c) x y ∧
      ((y = Missed ∨ ∃ owner n expiry, y = Held owner n expiry) ∨ ∃ owner n expiry, x = Held owner n expiry ∧ acts_for c = Some (id, owner, n)).
Proof.
  intros Hok Hx. unfold commit. destruct (run_command s c) as [s'|] eqn:E; [|by left].
  destruct (command_change _ _ _ Hok E) as [Ec|_ _ Hold _|row row' Hg Hid Hrow ->].
  - left. unfold state, get_cycle. by rewrite Ec.
  - left. unfold state in *. destruct (get_cycle s id) as [r|] eqn:Eg; [|done]. by rewrite (Hold _ _ Eg).
  - pose proof Hg as Hg'. rewrite <- Hid in Hg'. rewrite (state_update _ _ _ _ Hg'). destruct (String.eqb_spec id (pc_cycle_id row')) as [->|]; [|by left].
    right. rewrite Hid in Hx. unfold state in Hx. rewrite Hg in Hx. cbn in Hx. destruct (row_change_move _ _ _ _ Hx Hrow) as (y & Hy & Hm).
    exists y. split; [done|]. split; [done|]. destruct Hrow as [a locked now _ _ ->|a locked now _ _ ->|owner n now Ha Hh _ _].
    { left. right. cbn in Hy. injection Hy as <-. eauto. }
    { left. left. cbn in Hy. by injection Hy as <-. }
    right. apply held_status in Hh as (Hs & Ho & Hn & t & Ht & _). unfold state_of in Hx. rewrite Hs, Ho, Ht in Hx. cbn in Hx. injection Hx as <-.
    exists owner, (pc_attempt_count row), (instant t). split; [done|]. rewrite Hid, Ha. by rewrite Hn.
Qed.

(** The lease of an attempt is over once the cycle is finished, waits after that attempt, or runs a later one. *)
Definition superseded (n : Z) (x : cycle_state) : Prop :=
  match x with Waiting m => n <= m | Held _ m _ => n < m | _ => True end.

Lemma commit_superseded s c id n x :
  cycles_ok s → state s id = Some x → superseded n x → ∃ y, state (commit s c) id = Some y ∧ superseded n y.
Proof.
  intros Hok Hx Hs. destruct (commit_state s c id x Hok Hx) as [?|(y & Hy & Hm & _)]; [by exists x|]. exists y. split; [done|].
  inversion Hm; subst; cbn in *; try done; lia.
Qed.

Lemma run_superseded s cs id n x :
  cycles_ok s → state s id = Some x → superseded n x → ∃ y, state (run_commands s cs) id = Some y ∧ superseded n y.
Proof.
  revert s x. induction cs as [|c cs IH]; intros s x Hok Hx Hs; cbn; [eauto|].
  destruct (commit_superseded s c id n x Hok Hx Hs) as (y & Hy & Hs'). eapply IH; [by apply commit_ok|done|done].
Qed.

(** Whoever acts under a lease that is over changes no cycle. *)
Lemma superseded_no_effect s c id owner n x :
  cycles_ok s → state s id = Some x → superseded n x → acts_for c = Some (id, owner, n) → cycles (commit s c) = cycles s.
Proof.
  intros Hok Hx Hs Ha. unfold commit. destruct (run_command s c) as [s'|] eqn:E; [|done].
  destruct (command_change _ _ _ Hok E) as [Ec|Hn _ _ _|row row' Hg Hid Hrow ->]; [done|congruence|].
  exfalso. destruct Hrow as [a locked now -> _ _|a locked now -> _ _|owner' n' now Ha' Hh _ _]; [done..|]. rewrite Ha in Ha'. injection Ha' as -> <- <-.
  unfold state in Hx. rewrite Hg in Hx. cbn in Hx. apply held_status in Hh as (Hst & Ho & Hn & t & Ht & _). unfold state_of in Hx.
  rewrite Hst, Ho, Ht in Hx. cbn in Hx. injection Hx as <-. cbn in Hs. lia.
Qed.

Lemma superseded_not_held s id n x row owner now :
  state s id = Some x → superseded n x → get_cycle s id = Some row → held_by row owner n now = false.
Proof.
  intros Hx Hs Hg. destruct (held_by row owner n now) eqn:Hh; [|done]. exfalso. apply held_status in Hh as (Hst & Ho & Hn & t & Ht & _).
  unfold state in Hx. rewrite Hg in Hx. cbn in Hx. unfold state_of in Hx. rewrite Hst, Ho, Ht in Hx. cbn in Hx. injection Hx as <-. cbn in Hs. lia.
Qed.

Lemma superseded_fences s id n x owner fallback database :
  state s id = Some x → superseded n x →
  is_ok (require_cycle_fence s id owner n fallback database) = false ∧ is_ok (_require_cycle_fence s id owner n fallback database) = false.
Proof.
  intros Hx Hs. unfold require_cycle_fence, _require_cycle_fence, _database_now. destruct (get_cycle s id) as [row|] eqn:Hg; [|done].
  pose proof (λ now, superseded_not_held s id n x row owner now Hx Hs Hg) as Hh. rewrite Hh. split; [|done].
  destruct (require_aware_utc fallback); [|done]. cbn. by rewrite Hh.
Qed.

(** *** The claim loop *)

Definition open_cycle (c : PaperCycleRow) : bool := String.eqb (pc_status c) "PENDING" || String.eqb (pc_status c) "RUNNING".

Lemma claimable_open run_id kinds locked now c : claimable_cycle run_id kinds locked now c = true → open_cycle c = true.
Proof.
  unfold claimable_cycle. intros [[[[_ _]%andb_true_iff Hst]%andb_true_iff _]%andb_true_iff _]%andb_true_iff.
  unfold open_cycle. apply orb_true_iff in Hst as [->|[-> _]%andb_true_iff]; [done|]. by rewrite orb_true_r.
Qed.

Lemma skip_decreases s row now :
  row ∈ cycles s → open_cycle row = true →
  (length (List.filter open_cycle (cycles (update_cycle s (skipped row now)))) < length (List.filter open_cycle (cycles s)))%nat.
Proof.
  unfold update_cycle. cbn. intros Hin Ho.
  assert (∀ l, (length (List.filter open_cycle (map (λ c, if String.eqb (pc_cycle_id c) (pc_cycle_id row) then skipped row now else c) l))
                <= length (List.filter open_cycle l))%nat) as Hle.
  { induction l as [|c l IH]; cbn; [lia|]. destruct (String.eqb _ _); cbn; destruct (open_cycle c); cbn; lia. }
  induction (cycles s) as [|c l IH]; [by apply not_elem_of_nil in Hin|]. specialize (Hle l). cbn. apply elem_of_cons in Hin as [<-|Hin].
  - rewrite String.eqb_refl, Ho. cbn. lia.
  - specialize (IH Hin). destruct (String.eqb _ _); cbn; destruct (open_cycle c); cbn; lia.
Qed.

(** Only cycles whose window was missed were given up. *)
Definition only_missed (s s' : cycle_store) : Prop :=
  cycles_ok s' ∧ ∀ id, get_cycle s' id = get_cycle s id
    ∨ state s' id = Some Missed ∧ ∃ row, get_cycle s id = Some row ∧ open_cycle row = true ∧ ¬ (pc_cycle_kind row ∈ RETRYABLE_KINDS).

Lemma only_missed_refl s : cycles_ok s → only_missed s s.
Proof. split; [done|by left]. Qed.

Lemma missed_kind row grace now : missed_window row grace now = true → ¬ (pc_cycle_kind row ∈ RETRYABLE_KINDS).
Proof.
  unfold missed_window. intros [Hk%negb_true_iff _]%andb_true_iff Hin. apply not_true_iff_false in Hk. apply Hk, existsb_exists.
  exists (pc_cycle_kind row). split; [by apply list_elem_of_In|apply String.eqb_refl].
Qed.

Lemma only_missed_step s s1 a locked now s2 :
  only_missed s s1 → claim_cycle s1 a locked now = (s2, MissedWindow) → only_missed s s2.
Proof.
  intros [Hok Hm] Hc. pose proof (claim_cycle_spec _ _ _ _ _ _ Hc) as (row & Hin & Hcl & Hw & ->). split.
  { apply (command_ok s1 (KClaim a locked now)); [done|]. cbn [run_command]. by rewrite Hc. }
  intros id. rewrite get_update. cbn [pc_cycle_id skipped]. pose proof (get_unique _ _ (ok_ids _ Hok) Hin) as Hg.
  destruct (String.eqb_spec id (pc_cycle_id row)) as [->|Hne].
  - right. split; [unfold state; by rewrite get_update; cbn; rewrite Hg, String.eqb_refl|].
    destruct (Hm (pc_cycle_id row)) as [<-|(Hs & _)]; [exists row; split; [done|]; split; [by eapply claimable_open|by eapply missed_kind]|].
    exfalso. unfold state in Hs. rewrite Hg in Hs. cbn in Hs. apply claimable_open in Hcl. unfold open_cycle in Hcl. unfold state_of in Hs.
    apply orb_true_iff in Hcl as [E|E]; rewrite E in Hs; [done|]. apply String.eqb_eq in E. rewrite E in Hs. cbn in Hs.
    by destruct (pc_lease_owner row), (pc_lease_expires_at row).
  - destruct (Hm id) as [E|(Hs & r)]; [left; by destruct (get_cycle s1 id)|right]. split; [|done]. unfold state in *. rewrite get_update. cbn.
    destruct (get_cycle s1 id); [|done]. by apply String.eqb_neq in Hne as ->.
Qed.

Lemma claim_loop_spec fuel s0 s a locked clock :
  only_missed s0 s → (length (List.filter open_cycle (cycles s)) < fuel)%nat →
  ∃ s1 i s' o, only_missed s0 s1 ∧ claim_cycle_loop fuel s a locked clock = Some (s', o) ∧
    claim_cycle s1 a (locked i) (clock i) = (s', match o with None => NothingDue | Some row => ClaimedCycle row end).
Proof.
  revert s. induction fuel as [|fuel IH]; intros s Hm Hf; [lia|]. cbn. destruct (claim_cycle s a (locked fuel) (clock fuel)) as [s2 [| |row]] eqn:E.
  - exists s, fuel, s2, None. done.
  - apply IH; [by eapply only_missed_step|]. apply claim_cycle_spec in E as (row & Hin & Hcl & _ & ->).
    pose proof (skip_decreases s row (clock fuel) Hin (claimable_open _ _ _ _ _ Hcl)). lia.
  - exists s, fuel, s2, (Some row). done.
Qed.

(** *** Draining a schedule *)

(** The slot that a row stands for. *)
Definition slot_of (c : PaperCycleRow) : PaperCycleSlot := {| cycle_kind := pc_cycle_kind c; scheduled_at := pc_scheduled_at c |}.

(** [n] claims one after the other. *)
Fixpoint claims (n : nat) (s : cycle_store) (a : claim_args) (now : datetime) : list PaperCycleSlot :=
  match n with
  | O => []
  | S n => match claim_cycle s a (λ _, false) now with
           | (s', ClaimedCycle row) => slot_of row :: claims n s' a now
           | _ => []
           end
  end.

Definition all_slots_new (run_id : string) (now : datetime) (slots : list PaperCycleSlot) (rows : list PaperCycleRow) : Prop :=
  Forall2 (λ slot row, ∃ cid, row = new_cycle run_id cid slot (scheduled_at slot) now) slots rows.

Lemma ensure_all_new run_id now slots s n s' m :
  foldM (ensure_slot run_id now) (s, n) slots = Ok (s', m) →
  m <= n + Z.of_nat (length slots) ∧
  (m = n + Z.of_nat (length slots) → ∃ rows, cycles s' = cycles s ++ rows ∧ all_slots_new run_id now slots rows).
Proof.
  revert s n. induction slots as [|slot slots IH]; intros s n Hf; cbn in Hf.
  { injection Hf as <- <-. split; [cbn; lia|]. intros _. exists []. rewrite app_nil_r. split; [done|constructor]. }
  apply bind_Ok_inv in Hf as ([s1 n1] & He & Hf). apply IH in Hf as [Hle Hrows]. unfold ensure_slot in He.
  apply bind_Ok_inv in He as (at_ & ->%aware_ok & He). apply bind_Ok_inv in He as (cid & _ & He).
  destruct (get_cycle s cid) as [c|]; [injection He as <- <-; split; [cbn; lia|]; intros; exfalso; cbn in *; lia|].
  apply bind_Ok_inv in He as (s2 & Ha & [= <- <-]). split; [cbn in *; lia|]. intros Hm. destruct Hrows as (rows & E & Hr); [cbn in *; lia|].
  unfold add_cycle in Ha. apply bind_Ok_inv in Ha as (? & _ & [= <-]). cbn in E. eexists (_ :: rows). rewrite E, <- app_assoc. split; [done|].
  constructor; [by exists cid|exact Hr].
Qed.

(** Among Q1 kinds the priority of a claim is the priority of a slot. *)
Lemma priorities_agree kind : kind ∈ Q1_CYCLE_KINDS → claim_priority kind = _cycle_priority kind.
Proof. intros Hk. repeat (apply elem_of_cons in Hk as [->|Hk]; [reflexivity|]). by apply not_elem_of_nil in Hk. Qed.

Lemma claim_le_slot_le a b :
  pc_cycle_kind a ∈ Q1_CYCLE_KINDS → pc_cycle_kind b ∈ Q1_CYCLE_KINDS → claim_le a b = slot_le (slot_of a) (slot_of b).
Proof. intros Ha Hb. unfold claim_le, slot_le. cbn [slot_of cycle_kind scheduled_at]. by rewrite !priorities_agree. Qed.

Definition due_pending (a : claim_args) (now : datetime) (c : PaperCycleRow) : Prop :=
  claimable_cycle (ca_run_id a) (ca_kinds a) (λ _, false) now c = true ∧ missed_window c (ca_grace a) now = false.

Lemma claims_in_order a now rest : 0 < ca_lease a → ∀ s done_,
  NoDup (map pc_cycle_id (cycles s)) → cycles s = done_ ++ rest →
  Forall (λ c, claimable_cycle (ca_run_id a) (ca_kinds a) (λ _, false) now c = false) done_ → Forall (due_pending a now) rest →
  StronglySorted (λ x y, claim_le x y = true) rest → claims (length rest) s a now = map slot_of rest.
Proof.
  intros Hl. induction rest as [|c rest IH]; intros s done_ Hn E Hd Hr Hs; [done|]. cbn [length claims map].
  rewrite Forall_forall in Hd. pose proof Hr as Hr'. rewrite Forall_forall in Hr'. inversion Hs as [|?? Hs' Hc]; subst.
  assert (List.filter (claimable_cycle (ca_run_id a) (ca_kinds a) (λ _, false) now) (cycles s) = c :: rest) as Ef.
  { rewrite E, List.filter_app, filterb_nil, filterb_all; [done| |done]. intros x Hx. by apply Hr'. }
  unfold claim_cycle. rewrite Ef, (sorted_id claim_le) by (by apply SSorted_cons). cbn [List.hd_error].
  destruct (Hr' c (list_elem_of_here _ _)) as [_ ->]. set (c' := claimed _ _ _ _). f_equal.
  assert (cycles (update_cycle s c') = done_ ++ c' :: rest) as E'.
  { unfold update_cycle. cbn [cycles with_cycles]. rewrite E in *. rewrite map_app. cbn [map]. rewrite !map_app in Hn. cbn [map] in Hn.
    apply NoDup_app in Hn as (_ & Hdis & [Hnc _]%NoDup_cons). cbn [pc_cycle_id c' claimed]. rewrite String.eqb_refl.
    assert (∀ l, pc_cycle_id c ∉ map pc_cycle_id l → map (λ x, if String.eqb (pc_cycle_id x) (pc_cycle_id c) then c' else x) l = l) as Hid.
    { induction l as [|x l IHl]; intros Hx; [done|]. cbn in *. apply not_elem_of_cons in Hx as [Hx ?]. apply not_eq_sym, String.eqb_neq in Hx.
      rewrite Hx. by f_equal; apply IHl. }
    rewrite !Hid; [done|done|]. intros Hin. apply (Hdis _ Hin). left. }
  apply (IH _ (done_ ++ [c'])).
  - rewrite E'. by rewrite E, !map_app in *.
  - by rewrite E', <- app_assoc.
  - apply Forall_app. split; [by apply Forall_forall|]. constructor; [|done]. unfold claimable_cycle, dt_le. cbn.
    replace (instant now + ca_lease a <=? instant now) with false by (symmetry; apply Z.leb_gt; lia). by rewrite !andb_false_r.
  - by apply Forall_inv_tail in Hr.
  - done.
Qed.

End runs.

(** ** Theorems *)

(** C5: every transaction of the cycle store refines the lifecycle of a cycle.  After any run, a further transaction schedules new cycles
    as waiting, or changes no cycle, or moves exactly one: a claim takes a waiting cycle or one whose lease has expired into its next
    attempt or gives it up as missed, and only an unexpired holder completes, fails or defers. *)
Theorem cycle_store_refines_lifecycle `{Digest} rs cs c :
  let s := run_commands (empty_store rs) cs in lifecycle (clock_of c) (state s) (state (commit s c)).
Proof. apply cycle_commit_lifecycle, cycles_run_ok, empty_ok. Qed.

(** a lease excludes.  While a cycle is held and no clock has reached the expiry of its lease, nothing but a transaction of its holder
    under that attempt changes the cycle. *)
Theorem lease_excludes_others `{Digest} rs cs0 cs id owner n expiry :
  let s := run_commands (empty_store rs) cs0 in
  state s id = Some (Held owner n expiry) → Forall (λ c, clock_of c < expiry ∧ acts_for c ≠ Some (id, owner, n)) cs →
  state (run_commands s cs) id = Some (Held owner n expiry).
Proof.
  intros s Hs Hc. pose proof (cycles_run_ok _ cs0 (empty_ok rs)) as Hok. fold s in Hok. clearbody s. revert s Hs Hok.
  induction Hc as [|c cs [Hlt Hne] _ IH]; intros s Hs Hok; cbn; [done|]. apply IH; [|by apply commit_ok].
  destruct (commit_state s c id _ Hok Hs) as [?|(y & Hy & Hm & [Hk|(o & m & e & [= <- <- <-] & Ha)])]; [done| |done].
  exfalso. destruct Hk as [->|(o & m & e & ->)]; inversion Hm; subst; lia.
Qed.

(** workers whose lease is over can do nothing.  Once a cycle is finished, waits after an attempt or runs a later one, that attempt's
    worker changes no cycle at any later time, and the fences of the trading repositories refuse it. *)
Theorem lost_leases_fenced `{Digest} rs cs0 cs c id owner n x :
  let s := run_commands (empty_store rs) cs0 in let s' := run_commands s cs in
  state s id = Some x → superseded n x → acts_for c = Some (id, owner, n) →
  cycles (commit s' c) = cycles s' ∧
  ∀ fallback database, is_ok (require_cycle_fence s' id owner n fallback database) = false
                     ∧ is_ok (_require_cycle_fence s' id owner n fallback database) = false.
Proof.
  intros s s' Hx Hs Ha. pose proof (cycles_run_ok _ cs0 (empty_ok rs)) as Hok. fold s in Hok.
  destruct (run_superseded s cs id n x Hok Hx Hs) as (y & Hy & Hs'). fold s' in Hy. assert (cycles_ok s') as Hok' by by apply cycles_run_ok.
  split; [by eapply superseded_no_effect|]. intros fallback database. by eapply superseded_fences.
Qed.

(** finished cycles stay finished, and completing again is idempotent.  A completed, failed or missed cycle never changes state;
    completing a completed cycle with the same manifests succeeds without a change, with others it is refused. *)
Theorem finished_cycles_final `{Digest} rs cs0 cs id x :
  let s := run_commands (empty_store rs) cs0 in let s' := run_commands s cs in
  state s id = Some x → match x with Completed _ _ | Failed | Missed => True | _ => False end →
  state s' id = Some x ∧
  ∀ owner n cutoff input output now database i o, canonical_hash input = Ok i → canonical_hash output = Ok o → tz_aware now = true →
    x = Completed i o → complete s' id owner n cutoff input output now database = Ok s'.
Proof.
  intros s s' Hx Hf. pose proof (cycles_run_ok _ cs0 (empty_ok rs)) as Hok. fold s in Hok. assert (state s' id = Some x) as Hx'.
  { subst s'. clearbody s. revert s Hx Hok. induction cs as [|c cs IH]; intros s Hx Hok; cbn; [done|]. apply IH; [|by apply commit_ok].
    destruct (commit_state s c id x Hok Hx) as [?|(y & _ & Hm & _)]; [done|]. by inversion Hm; subst. }
  split; [done|]. intros owner n cutoff input output now database i o Hi Ho Hn ->. unfold complete, require_aware_utc. rewrite Hn, Hi, Ho. cbn.
  unfold known_cycle, _locked_cycle. unfold state in Hx'. destruct (get_cycle s' id) as [row|]; [|done]. cbn in *. unfold state_of in Hx'.
  destruct (String.eqb_spec (pc_status row) "PENDING"); [done|]. destruct (String.eqb_spec (pc_status row) "RUNNING") as [|].
  { by destruct (pc_lease_owner row), (pc_lease_expires_at row). }
  destruct (String.eqb_spec (pc_status row) "COMPLETED") as [|].
  - destruct (pc_input_manifest_hash row), (pc_output_manifest_hash row); try done. injection Hx' as -> ->. by rewrite !bool_decide_true.
  - destruct (String.eqb_spec (pc_status row) "FAILED"); [done|]. by destruct (String.eqb_spec (pc_status row) "SKIPPED_MISSED_WINDOW").
Qed.

(** the claim loop ends, and takes the first due cycle.  With one iteration more than there are cycles it returns, having given up only
    cycles of kinds that are not retried; then nothing is claimable, or it holds the first claimable cycle in the order of schedule,
    priority and kind, inside its grace window, under the next attempt until the lease ends, and no other cycle changed. *)
Theorem claim_takes_first_due `{Digest} rs cs run_id now grace lease owner process kinds locked database fuel :
  let s := run_commands (empty_store rs) cs in
  tz_aware now = true → (length (cycles s) < fuel)%nat →
  ∃ s' o s1 i, claim_next fuel s run_id now grace lease owner process kinds locked database = Ok (Some (s', o)) ∧ only_missed s s1 ∧
    let clock := _lease_check_now (database i) now in
    match o with
    | None => s' = s1 ∧ ∀ c, c ∈ cycles s1 → claimable_cycle run_id kinds (locked i) clock c = false
    | Some row' => ∃ row, row ∈ cycles s1 ∧ claimable_cycle run_id kinds (locked i) clock row = true ∧
        (∀ c, c ∈ cycles s1 → claimable_cycle run_id kinds (locked i) clock c = true → claim_le row c = true) ∧
        missed_window row grace clock = false ∧ get_cycle s' (pc_cycle_id row) = Some row' ∧
        state s' (pc_cycle_id row) = Some (Held (lease_owner_of owner process) (pc_attempt_count row + 1) (instant clock + lease)) ∧
        ∀ id, id ≠ pc_cycle_id row → get_cycle s' id = get_cycle s1 id
    end.
Proof.
  intros s Hn Hf. pose proof (cycles_run_ok _ cs (empty_ok rs)) as Hok. fold s in Hok. unfold claim_next, require_aware_utc. rewrite Hn. cbn.
  set (a := {| ca_run_id := run_id; ca_grace := grace; ca_lease := lease; ca_owner := lease_owner_of owner process; ca_kinds := kinds |}).
  destruct (claim_loop_spec fuel s s a locked (λ i, _lease_check_now (database i) now)) as (s1 & i & s' & o & Hm & -> & Hc).
  { by apply only_missed_refl. }
  { pose proof (length_filterb_le open_cycle (cycles s)). lia. }
  exists s', o, s1, i. split; [done|]. split; [done|]. apply claim_cycle_spec in Hc. destruct o as [row'|]; [|done].
  destruct Hc as (row & Hin & Hcl & Hw & -> & -> & Hleast). exists row. do 4 (split; [done|]).
  pose proof (get_unique _ _ (ok_ids _ (proj1 Hm)) Hin) as Hg. split_and!.
  - rewrite get_update. cbn. by rewrite Hg, String.eqb_refl.
  - unfold state. rewrite get_update. cbn. by rewrite Hg, String.eqb_refl.
  - intros id Hne. rewrite get_update. cbn. destruct (get_cycle s1 id); [|done]. by apply String.eqb_neq in Hne as ->.
Qed.

(** slots are scheduled once.  After [ensure_slots] has committed, scheduling the same slots again, at any later time, creates nothing
    and changes nothing. *)
Theorem slots_scheduled_once `{Digest} rs cs0 cs run_id slots now now' s' n :
  ensure_slots (run_commands (empty_store rs) cs0) run_id slots now = Ok (s', n) → tz_aware now' = true →
  ensure_slots (run_commands s' cs) run_id slots now' = Ok (run_commands s' cs, 0).
Proof.
  intros He Hn. pose proof (cycles_run_ok _ cs0 (empty_ok rs)) as Hok. set (s := run_commands _ cs0) in *.
  assert (run_command s (KEnsure run_id slots now) = Ok s') as Hr by (cbn; by rewrite He). pose proof (command_ok _ _ _ Hok Hr) as Hok'.
  unfold ensure_slots in *. apply bind_Ok_inv in He as (t & _ & He). unfold require_aware_utc. rewrite Hn. cbn.
  assert (∀ id row, get_cycle s' id = Some row → ∃ row', get_cycle (run_commands s' cs) id = Some row') as Hkeep.
  { clear He Hr. revert s' Hok'. induction cs as [|c cs IH]; intros s' Hok' id row Hg; cbn; [eauto|].
    destruct (ok_states _ Hok' _ _ Hg) as [x Hx].
    destruct (commit_state s' c id x Hok') as [Hy|(y & Hy & _)]; [unfold state; by rewrite Hg| |].
    all: unfold state in Hy; destruct (get_cycle (commit s' c) id) as [row2|] eqn:Hg2; [|done]; eapply IH; [by apply commit_ok|exact Hg2]. }
  set (s2 := run_commands s' cs) in *. clearbody s2.
  assert (∀ s0 n0 s1 n1 k, foldM (ensure_slot run_id t) (s0, n0) slots = Ok (s1, n1) →
    (∀ id row, get_cycle s1 id = Some row → ∃ row', get_cycle s2 id = Some row') →
    foldM (ensure_slot run_id now') (s2, k) slots = Ok (s2, k)) as Hall.
  { clear. induction slots as [|slot slots IH]; intros s0 n0 s1 n1 k Hf Hk; cbn in *; [done|].
    apply bind_Ok_inv in Hf as ([s3 n3] & He & Hf). pose proof (ensure_spec _ _ _ _ _ Hf) as (_ & Hold & _). cbn in Hold.
    unfold ensure_slot in *. apply bind_Ok_inv in He as (at_ & -> & He). cbn. apply bind_Ok_inv in He as (cid & -> & He). cbn.
    assert (∃ row, get_cycle s3 cid = Some row) as [row Hg].
    { destruct (get_cycle s0 cid) as [c|] eqn:Eg; [injection He as <- <-; eauto|]. apply bind_Ok_inv in He as (s4 & Ha & [= <- <-]).
      destruct (get_add _ _ _ cid Ha) as [_ E]. cbn in E. rewrite E, Eg, String.eqb_refl. eauto. }
    destruct (Hk _ _ (Hold _ _ Hg)) as [row' ->]. cbn. by eapply IH. }
  by eapply Hall.
Qed.

(** a session runs in schedule order.  When the slots of a session have been scheduled, claims made after its close inside the grace
    window take them one by one in the order in which [build_q1_session_slots] lists them: the priorities of the store are those of the
    schedule. *)
Theorem session_drains_in_schedule_order `{Digest} `{NewYork} rs session schedule slots now0 s a now :
  is_ok (validate_Q1SessionSchedule schedule) = true → tz_aware (vs_open_at session) = true → tz_aware (vs_close_at session) = true →
  build_q1_session_slots session schedule = Ok slots →
  ensure_slots (empty_store rs) (ca_run_id a) slots now0 = Ok (s, Z.of_nat (length slots)) →
  ca_kinds a = Some Q1_CYCLE_KINDS → 0 < ca_lease a →
  instant (vs_close_at session) <= instant now → instant now <= instant (vs_open_at session) + ca_grace a →
  claims (length slots) s a now = slots.
Proof.
  intros Hv Ho Hc Hb He Hk Hl Hclose Hgrace. assert (instant (vs_open_at session) < instant (vs_close_at session)) as Hlt.
  { unfold build_q1_session_slots in Hb. apply bind_Ok_inv in Hb as (? & Hb%raise_if_Ok_inv & _). unfold dt_le in Hb. lia. }
  rewrite (session_slots_built _ _ Hlt) in Hb. injection Hb as <-. set (slots := session_slots session schedule) in *.
  pose proof (session_slots_sorted session schedule) as Hs. fold slots in Hs.
  assert (∀ kind t, {| cycle_kind := kind; scheduled_at := t |} ∈ slots → named_slot session schedule kind (instant t)) as Hmem.
  { intros kind t Hin. by apply (elem_of_session_slots session schedule kind t Hv Ho Hc Hlt) in Hin as [_ ?]. }
  pose proof (command_ok (empty_store rs) (KEnsure (ca_run_id a) slots now0) s (empty_ok rs)) as Hok. cbn [run_command] in Hok. rewrite He in Hok.
  specialize (Hok eq_refl). unfold ensure_slots in He. apply bind_Ok_inv in He as (t & ->%aware_ok & He).
  apply ensure_all_new in He as [_ Hrows]. destruct (Hrows ltac:(lia)) as (rows & E & Hall). cbn in E. clear Hrows.
  assert (∀ row, row ∈ rows → slot_of row ∈ slots ∧ pc_cycle_kind row ∈ Q1_CYCLE_KINDS ∧ due_pending a now row) as Hrow.
  { intros row Hr. apply list_elem_of_lookup in Hr as (i & Hr). destruct (Forall2_lookup_r _ _ _ _ _ Hall Hr) as ([kind at_] & Hi & cid & ->).
    apply list_elem_of_lookup_2 in Hi. split; [exact Hi|]. apply Hmem in Hi as Hnamed. assert (kind ∈ Q1_CYCLE_KINDS) as Hkind.
    { inversion Hnamed; subst; set_solver. }
    split; [done|]. pose proof (named_slot_inside _ _ _ _ Hv Hlt Hnamed) as Hin. split.
    - assert (existsb (String.eqb kind) Q1_CYCLE_KINDS = true) as Hex.
      { apply existsb_exists. exists kind. split; [by apply list_elem_of_In|apply String.eqb_refl]. }
      unfold claimable_cycle, dt_le. rewrite Hk. cbn -[existsb Q1_CYCLE_KINDS]. rewrite String.eqb_refl, Hex.
      replace (instant at_ <=? instant now) with true by (symmetry; apply Z.leb_le; lia). done.
    - unfold missed_window. apply andb_false_iff. right. unfold dt_lt, after, grace_of. cbn. apply Z.ltb_ge. lia. }
  assert (map slot_of rows = slots) as Emap.
  { clear -Hall. induction Hall as [|[kind at_] row slots rows (cid & ->) _ IH]; cbn; [done|]. by f_equal. }
  rewrite <- Emap, length_map. apply (claims_in_order a now rows Hl s []); [apply (ok_ids _ Hok)|done|constructor| |].
  - apply Forall_forall. intros row Hr. by apply Hrow.
  - rewrite <- Emap in Hs. clear -Hs Hrow. induction rows as [|row rows IH]; [constructor|]. cbn in Hs.
    apply StronglySorted_inv in Hs as [Hs Hf]. constructor; [apply IH; [done|intros r Hr; apply Hrow; by right]|].
    apply Forall_forall. intros r Hr. rewrite claim_le_slot_le; [|by apply Hrow; left|by apply Hrow; right].
    rewrite Forall_forall in Hf. apply Hf. by apply list_elem_of_fmap_2.
Qed.

(** A heartbeat without a current cycle is recorded as a completed cycle, even in a store that has never had a cycle. *)
Lemma idle_heartbeat_marks_completion `{Digest} run_id now state process_id :
  tz_aware now = true → let idle := KHeartbeat run_id state now None None None process_id in
  let s := run_commands (empty_store [run_id]) [idle; idle] in
  cycles s = [] ∧ ∃ row, runtime_statuses s = [row] ∧ ps_last_completed_cycle_at row = Some now.
Proof.
  intros Hn idle s. subst s idle. unfold run_commands, commit. cbn [fold_left run_command]. unfold heartbeat, require_aware_utc. rewrite Hn. cbn.
  rewrite !String.eqb_refl. cbn. rewrite !String.eqb_refl. cbn. eauto.
Qed.

(** ** Concrete runs *)

#[local] Existing Instance rolling_digest.
#[local] Existing Instance ex_new_york.

Definition ex_slots : list PaperCycleSlot :=
  [{| cycle_kind := "Q1_SETTLEMENT"; scheduled_at := ex_at 15 |}; {| cycle_kind := "Q1_NAV_RISK"; scheduled_at := ex_at 16 |}].
Definition ex_claim (owner : string) : claim_args :=
  {| ca_run_id := "run"; ca_grace := minutes 30; ca_lease := minutes 45; ca_owner := owner; ca_kinds := Some Q1_CYCLE_KINDS |}.
Definition ex_id : string := Eval vm_compute in
  match stable_id "paper-cycle" [PStr "run"; PStr "Q1_SETTLEMENT"; PDatetime (ex_at 15)] with Ok h => h | Raise _ => EmptyString end.
Definition ex_claimed : list command := [KEnsure "run" ex_slots (ex_at 1); KClaim (ex_claim "a") (λ _, false) (ex_at 15)].
#[local] Notation ex_run cs := (run_commands (empty_store ["run"%string]) cs) (only parsing).

(** The first worker holds the cycle until 15:45. *)
Lemma ex_held : state (ex_run ex_claimed) ex_id = Some (Held "a" 1 (instant (ex_at 15) + minutes 45)).
Proof. vm_compute. reflexivity. Qed.

Lemma lease_excludes_others_witness :
  state (run_commands (ex_run ex_claimed)
    [KClaim (ex_claim "b") (λ _, false) (ex_at 15); KFail ex_id "b" 1 "E" "other worker" (ex_at 15) None]) ex_id
  = Some (Held "a" 1 (instant (ex_at 15) + minutes 45)).
Proof.
  apply (lease_excludes_others ["run"%string] ex_claimed _ ex_id "a" 1); [exact ex_held|]. repeat constructor; cbn; try lia; try done.
Defined.

(** Its lease expires while it works, and another worker takes the cycle. *)
Definition ex_reclaimed : list command := ex_claimed ++ [KClaim {| ca_run_id := "run"; ca_grace := minutes 90; ca_lease := minutes 45;
  ca_owner := "b"; ca_kinds := None |} (λ _, false) (ex_at 16)].
Lemma ex_taken : state (ex_run ex_reclaimed) ex_id = Some (Held "b" 2 (instant (ex_at 16) + minutes 45)).
Proof. vm_compute. reflexivity. Qed.

Lemma lost_leases_fenced_witness :
  let s := run_commands (ex_run ex_reclaimed) [KClaim (ex_claim "c") (λ _, false) (ex_at 16)] in
  cycles (commit s (KFail ex_id "a" 1 "E" "late" (ex_at 16) None)) = cycles s
  ∧ is_ok (require_cycle_fence s ex_id "a" 1 (ex_at 15) None) = false.
Proof.
  destruct (lost_leases_fenced ["run"%string] ex_reclaimed [KClaim (ex_claim "c") (λ _, false) (ex_at 16)]
    (KFail ex_id "a" 1 "E" "late" (ex_at 16) None) ex_id "a" 1 _ ex_taken) as [Hc Hf]; [cbn; lia|reflexivity|].
  exact (conj Hc (proj1 (Hf _ _))).
Defined.

Definition ex_completed : list command :=
  ex_claimed ++ [KComplete ex_id "a" 1 (ex_at 15) (PStr "in") (PStr "out") (ex_at 15) None].
Lemma ex_done : ∃ i o, canonical_hash (PStr "in") = Ok i ∧ canonical_hash (PStr "out") = Ok o ∧ state (ex_run ex_completed) ex_id = Some (Completed i o).
Proof. do 2 eexists. split; [vm_compute; reflexivity|]. split; vm_compute; reflexivity. Qed.

Lemma finished_cycles_final_witness :
  let s := run_commands (ex_run ex_completed) [KClaim (ex_claim "b") (λ _, false) (ex_at 15)] in
  complete s ex_id "a" 1 (ex_at 15) (PStr "in") (PStr "out") (ex_at 15) None = Ok s.
Proof.
  destruct ex_done as (i & o & Hi & Ho & Hs).
  destruct (finished_cycles_final ["run"%string] ex_completed [KClaim (ex_claim "b") (λ _, false) (ex_at 15)] ex_id _ Hs I) as [_ H].
  exact (H "a"%string 1 (ex_at 15) (PStr "in") (PStr "out") (ex_at 15) None i o Hi Ho eq_refl eq_refl).
Defined.

Lemma claim_takes_first_due_witness :
  ∃ s' row, claim_next 3 (ex_run [KEnsure "run" ex_slots (ex_at 1)]) "run" (ex_at 16) (minutes 30) (minutes 45) None "host:1" None
              (λ _ _, false) (λ _, None) = Ok (Some (s', Some row)) ∧ pc_cycle_kind row = "Q1_NAV_RISK"%string.
Proof.
  destruct (claim_takes_first_due ["run"%string] [KEnsure "run" ex_slots (ex_at 1)] "run" (ex_at 16) (minutes 30) (minutes 45) None "host:1" None
              (λ _ _, false) (λ _, None) 3 eq_refl) as (s' & o & s1 & i & E & _); [vm_compute; lia|].
  destruct o as [row|].
  - exists s', row. split; [exact E|]. vm_compute in E. injection E as _ <-. reflexivity.
  - exfalso. vm_compute in E. discriminate E.
Defined.

Lemma ex_ensured : is_ok (ensure_slots (ex_run []) "run" ex_slots (ex_at 1)) = true.
Proof. vm_compute. reflexivity. Qed.

Lemma slots_scheduled_once_witness :
  ∃ s', ensure_slots (ex_run []) "run" ex_slots (ex_at 1) = Ok (s', 2)
      ∧ ensure_slots (run_commands s' [KClaim (ex_claim "a") (λ _, false) (ex_at 15)]) "run" ex_slots (ex_at 9)
        = Ok (run_commands s' [KClaim (ex_claim "a") (λ _, false) (ex_at 15)], 0).
Proof.
  destruct (ensure_slots (ex_run []) "run" ex_slots (ex_at 1)) as [[s' n]|e] eqn:E; [|discriminate (eq_trans (eq_sym (f_equal is_ok E)) ex_ensured)].
  exists s'. split; [|exact (slots_scheduled_once _ _ _ _ _ _ (ex_at 9) _ _ E eq_refl)].
  assert (n = 2) as ->; [|reflexivity]. vm_compute in E. injection E as _ <-. reflexivity.
Defined.

Definition ex_all_slots : list PaperCycleSlot := Eval vm_compute in match build_q1_session_slots ex_session ex_schedule with Ok l => l | Raise _ => [] end.

Lemma session_drains_in_schedule_order_witness :
  ∃ s, ensure_slots (empty_store ["run"%string]) "run" ex_all_slots (ex_at 1) = Ok (s, 8) ∧
    claims 8 s {| ca_run_id := "run"; ca_grace := minutes 240; ca_lease := minutes 45; ca_owner := "a"; ca_kinds := Some Q1_CYCLE_KINDS |} (ex_at 18)
    = ex_all_slots.
Proof.
  destruct (ensure_slots (empty_store ["run"%string]) "run" ex_all_slots (ex_at 1)) as [[s n]|e] eqn:E; [|exfalso; vm_compute in E; discriminate E].
  assert (n = 8) as -> by (vm_compute in E; injection E as _ <-; reflexivity). exists s. split; [reflexivity|].
  apply (session_drains_in_schedule_order ["run"%string] ex_session ex_schedule ex_all_slots (ex_at 1) s
    {| ca_run_id := "run"; ca_grace := minutes 240; ca_lease := minutes 45; ca_owner := "a"; ca_kinds := Some Q1_CYCLE_KINDS |} (ex_at 18));
    [reflexivity|reflexivity|reflexivity|vm_compute; reflexivity|exact E|reflexivity|vm_compute; reflexivity|vm_compute; discriminate|vm_compute; discriminate].
Defined.
