(* ===== verification/Q1Records.v ===== *)
(** * Calendar and evaluation records ([domain/q1.py])

    The versioned records that the trading repositories store next to orders, risk and cash: market calendar sessions, the common
    starting point of an evaluation, daily results and matched comparisons of two arms. *)
From Stdlib Require Import ZArith Lia Ascii String.
From stdpp Require Import base list strings numbers.
From S2P Require Import Prelude PyDecimal Hashing Domain.
Set Default Goal Selector "!".
Open Scope Z_scope.

(** ** [MarketCalendarSession] *)

Record MarketCalendarSession := {
  mcs_calendar_session_id : string;
  mcs_calendar_version : string;
  mcs_session_date : date;
  mcs_open_at : datetime;
  mcs_close_at : datetime;
  mcs_source : string;
  mcs_available_at : datetime;
  mcs_session_hash : string;
  mcs_created_at : datetime;
  mcs_versioned : VersionedQ1Record;
}.
#[global] Instance VersionedQ1Record_eq_dec : EqDecision VersionedQ1Record.
Proof. solve_decision. Defined.
#[global] Instance MarketCalendarSession_eq_dec : EqDecision MarketCalendarSession.
Proof. solve_decision. Defined.

Definition validate_MarketCalendarSession (s : MarketCalendarSession) : res MarketCalendarSession :=
  validate_versioned (mcs_versioned s);;
  aware (mcs_open_at s);; aware (mcs_close_at s);; aware (mcs_available_at s);; aware (mcs_created_at s);;
  invalid (dt_le (mcs_close_at s) (mcs_open_at s)) "Market calendar close_at must be after open_at";;
  invalid (dt_lt (mcs_created_at s) (mcs_available_at s)) "Market calendar row cannot be created before available_at";;
  Ok s.

(** ** [StrategyEvaluationAnchor] *)

Record StrategyEvaluationAnchor := {
  ea_evaluation_anchor_id : string;
  ea_run_id : string;
  ea_calendar_session_id : string;
  ea_common_t0_at : datetime;
  ea_initial_nav_usd : dec;
  ea_quote_manifest_hash : string;
  ea_anchor_hash : string;
  ea_created_at : datetime;
  ea_versioned : VersionedQ1Record;
}.

Definition validate_StrategyEvaluationAnchor (a : StrategyEvaluationAnchor) : res StrategyEvaluationAnchor :=
  validate_versioned (ea_versioned a);;
  invalid (ea_initial_nav_usd a <=? d0)%dec "initial_nav_usd";;
  aware (ea_common_t0_at a);; aware (ea_created_at a);;
  invalid (dt_lt (ea_created_at a) (ea_common_t0_at a)) "Evaluation anchor cannot be created before common T0";;
  Ok a.

(** ** [StrategyDailyResult] *)

Record StrategyDailyResult := {
  dr_strategy_daily_result_id : string;
  dr_evaluation_anchor_id : string;
  dr_run_id : string;
  dr_arm_id : Q1ArmId;
  dr_calendar_session_id : string;
  dr_session_date : date;
  dr_valuation_at : datetime;
  dr_nav_usd : dec;
  dr_net_daily_return : dec;
  dr_cumulative_return : dec;
  dr_daily_turnover : dec;
  dr_cumulative_turnover : dec;
  dr_commissions_usd : dec;
  dr_spread_cost_usd : dec;
  dr_delay_cost_usd : dec;
  dr_sensitivity_5bp_usd : dec;
  dr_sensitivity_10bp_usd : dec;
  dr_cash_weight : dec;
  dr_qqq_weight : dec;
  dr_soxx_weight : dec;
  dr_active_risk_episode_count : Z;
  dr_active_llm_reduction_count : Z;
  dr_result_hash : string;
  dr_created_at : datetime;
  dr_versioned : VersionedQ1Record;
}.

(** [Field(ge=0)] and [Field(ge=0, le=1)] *)
Definition negative (name : string) (d : dec) : res () := invalid (d <? d0)%dec name.
Definition not_a_weight (name : string) (d : dec) : res () := invalid ((d <? d0)%dec || (d1 <? d)%dec) name.

Definition validate_StrategyDailyResult (r : StrategyDailyResult) : res StrategyDailyResult :=
  validate_versioned (dr_versioned r);;
  invalid (dr_nav_usd r <=? d0)%dec "nav_usd";;
  negative "daily_turnover" (dr_daily_turnover r);; negative "cumulative_turnover" (dr_cumulative_turnover r);;
  negative "commissions_usd" (dr_commissions_usd r);; negative "spread_cost_usd" (dr_spread_cost_usd r);;
  negative "delay_cost_usd" (dr_delay_cost_usd r);; negative "sensitivity_5bp_usd" (dr_sensitivity_5bp_usd r);;
  negative "sensitivity_10bp_usd" (dr_sensitivity_10bp_usd r);;
  not_a_weight "cash_weight" (dr_cash_weight r);; not_a_weight "qqq_weight" (dr_qqq_weight r);; not_a_weight "soxx_weight" (dr_soxx_weight r);;
  invalid (dr_active_risk_episode_count r <? 0) "active_risk_episode_count";;
  invalid (dr_active_llm_reduction_count r <? 0) "active_llm_reduction_count";;
  aware (dr_valuation_at r);; aware (dr_created_at r);;
  invalid (Dec 10000000001 (-10) <? dr_cash_weight r + dr_qqq_weight r + dr_soxx_weight r)%dec "Daily result weights cannot imply leverage";;
  invalid (dt_lt (dr_created_at r) (dr_valuation_at r)) "Daily result cannot be created before valuation_at";;
  Ok r.

(** ** [MatchedAttributionResult] *)

Inductive MatchedComparison := Q1_DET_MINUS_B0_VOL | Q1_LLM_MINUS_Q1_DET.
#[global] Instance MatchedComparison_eq_dec : EqDecision MatchedComparison.
Proof. solve_decision. Defined.
Definition MatchedComparison_value (c : MatchedComparison) : string :=
  match c with Q1_DET_MINUS_B0_VOL => "Q1_DET_MINUS_B0_VOL" | Q1_LLM_MINUS_Q1_DET => "Q1_LLM_MINUS_Q1_DET" end.

Record MatchedAttributionResult := {
  mr_matched_attribution_result_id : string;
  mr_evaluation_anchor_id : string;
  mr_run_id : string;
  mr_comparison : MatchedComparison;
  mr_left_arm_id : Q1ArmId;
  mr_right_arm_id : Q1ArmId;
  mr_through_session_date : date;
  mr_common_valid_sessions : Z;
  mr_mean_daily_difference : dec;
  mr_annualized_difference : dec;
  mr_newey_west_lag : Z;
  mr_newey_west_standard_error : dec;
  mr_bootstrap_seed : Z;
  mr_bootstrap_lower : dec;
  mr_bootstrap_upper : dec;
  mr_promotion_ready : bool;
  mr_result_hash : string;
  mr_created_at : datetime;
  mr_versioned : VersionedQ1Record;
}.

(** The arms of a comparison. *)
Definition compared_arms (c : MatchedComparison) : Q1ArmId * Q1ArmId :=
  match c with Q1_DET_MINUS_B0_VOL => (Q1_DET, B0_VOL) | Q1_LLM_MINUS_Q1_DET => (Q1_LLM, Q1_DET) end.

Definition validate_MatchedAttributionResult (r : MatchedAttributionResult) : res MatchedAttributionResult :=
  validate_versioned (mr_versioned r);;
  invalid (mr_common_valid_sessions r <? 0) "common_valid_sessions";; invalid (mr_newey_west_lag r <? 0) "newey_west_lag";;
  negative "newey_west_standard_error" (mr_newey_west_standard_error r);;
  aware (mr_created_at r);;
  invalid (negb (bool_decide ((mr_left_arm_id r, mr_right_arm_id r) = compared_arms (mr_comparison r))))
    "Matched attribution arm pair does not match comparison";;
  invalid (mr_bootstrap_upper r <? mr_bootstrap_lower r)%dec "Bootstrap interval must be ordered";;
  invalid (mr_promotion_ready r && (mr_common_valid_sessions r <? 126)) "Promotion readiness requires at least 126 common sessions";;
  Ok r.
