(* ===== verification/Q1Store.v ===== *)
(** * The trading tables ([persistence/q1.py], [persistence/q1_runtime.py])

    The append-only tables of orders, fills, cash, arm states, risk episodes and evaluation, next to the cycle table of [CycleStore], and
    the repositories that append to them.  An operation takes the tables as the surrounding transaction sees them and gives them with
    its row, or raises; a transaction that raises is rolled back.  The columns of a row are the fields of the record that it stores, so a
    row is that record with the further columns; a JSON column holds the record itself.  Numeric columns keep the amounts they are given.
    The clock of the database is an argument, as in [CycleStore]. *)
From Stdlib Require Import ZArith Lia Ascii String.
From stdpp Require Import base list strings numbers sets.
From S2P Require Import Prelude PyDecimal Hashing Domain Text OrderState RiskMachine ArmState Payload Reconciliation Planning Schedule Cycles CycleStore Q1Records.
Set Default Goal Selector "!".
Open Scope Z_scope.

(** ** Rows *)

Record order_intent_row := { ir_intent : Q1OrderIntent; ir_quantity : option dec }.
Record order_event_row := { er_event : OrderEvent; er_run_id : string; er_arm_id : string }.

Record arm_state_row := {
  ar_arm_state_snapshot_id : string;
  ar_run_id : string;
  ar_arm_id : string;
  ar_sequence : Z;
  ar_source_cycle_id : string;
  ar_state_hash : string;
  ar_payload_json : pydict pyval;
  ar_created_at : datetime;
}.

Record nav_row := {
  nv_nav_snapshot_id : string;
  nv_run_id : string;
  nv_arm_id : string;
  nv_source_cycle_id : string;
  nv_quote_manifest_hash : string;
  nv_versioned : VersionedQ1Record;
  nv_as_of : datetime;
  nv_nav_usd : dec;
  nv_payload_json : pydict pyval;
}.

Record risk_target_row := {
  tr_risk_target_id : string;
  tr_risk_episode_id : string;
  tr_target : RiskTarget;
  tr_config_manifest_hash : string;
  tr_target_hash : string;
  tr_created_at : datetime;
}.

Record risk_event_row := { rr_event : RiskEpisodeEvent; rr_run_id : string; rr_arm_id : string; rr_risk_target_id : option string }.

Record risk_decision_row := {
  rd_risk_decision_id : string;
  rd_portfolio_decision_id : string;
  rd_source_cycle_id : string;
  rd_input_state_sequence : Z;
  rd_approved : bool;
  rd_payload_json : pyval;
}.

(** ** Tables *)

Record order_tables := { order_intents : list order_intent_row; order_events : list order_event_row; fills : list Q1Fill }.
Record cash_tables := { cash_events : list CashSettlementEvent; arm_states : list arm_state_row; navs : list nav_row }.
Record risk_tables := { risk_episodes : list RiskEpisode; risk_targets : list risk_target_row; risk_events : list risk_event_row }.
Record strategy_tables := {
  calendar_sessions : list MarketCalendarSession;
  anchors : list StrategyEvaluationAnchor;
  decisions : list Q1StrategyDecision;
  risk_decisions : list risk_decision_row;
  daily_results : list StrategyDailyResult;
  matched_results : list MatchedAttributionResult;
}.

Record q1_store := {
  cycle_tables : cycle_store;
  orders : order_tables;
  cash : cash_tables;
  risk : risk_tables;
  strategy : strategy_tables;
}.

Definition with_cycle_tables (s : q1_store) (c : cycle_store) : q1_store :=
  {| cycle_tables := c; orders := orders s; cash := cash s; risk := risk s; strategy := strategy s |}.
Definition with_orders (s : q1_store) (o : order_tables) : q1_store :=
  {| cycle_tables := cycle_tables s; orders := o; cash := cash s; risk := risk s; strategy := strategy s |}.
Definition with_cash (s : q1_store) (c : cash_tables) : q1_store :=
  {| cycle_tables := cycle_tables s; orders := orders s; cash := c; risk := risk s; strategy := strategy s |}.
Definition with_risk (s : q1_store) (r : risk_tables) : q1_store :=
  {| cycle_tables := cycle_tables s; orders := orders s; cash := cash s; risk := r; strategy := strategy s |}.
Definition with_strategy (s : q1_store) (t : strategy_tables) : q1_store :=
  {| cycle_tables := cycle_tables s; orders := orders s; cash := cash s; risk := risk s; strategy := t |}.

Notation "a =s b" := (String.eqb a b) (at level 70, only parsing).

(** Columns that may be NULL are unique among the rows where they are not. *)
Definition opt_eqb (a b : option string) : bool := match a, b with Some x, Some y => x =s y | _, _ => false end.

(** ** Keys and constraints *)

Section constraints.
Context (s : q1_store).

Definition has_run (id : string) : bool := existsb (String.eqb id) (runs (cycle_tables s)).
Definition has_cycle (id : string) : bool := negb (is_None_b (get_cycle (cycle_tables s) id)).
Definition get_intent (id : string) : option order_intent_row := List.find (λ r, qi_order_intent_id (ir_intent r) =s id) (order_intents (orders s)).
Definition get_fill (id : string) : option Q1Fill := List.find (λ f, qf_fill_id f =s id) (fills (orders s)).
Definition get_calendar_session (id : string) : option MarketCalendarSession :=
  List.find (λ c, mcs_calendar_session_id c =s id) (calendar_sessions (strategy s)).
Definition get_decision (id : string) : option Q1StrategyDecision := List.find (λ d, sd_portfolio_decision_id d =s id) (decisions (strategy s)).
Definition get_episode (id : string) : option RiskEpisode := List.find (λ e, ep_risk_episode_id e =s id) (risk_episodes (risk s)).
Definition get_anchor (id : string) : option StrategyEvaluationAnchor := List.find (λ a, ea_evaluation_anchor_id a =s id) (anchors (strategy s)).

Definition intent_conflict (n : order_intent_row) : bool :=
  existsb (λ r, (qi_order_intent_id (ir_intent r) =s qi_order_intent_id (ir_intent n))
                || (qi_idempotency_key (ir_intent r) =s qi_idempotency_key (ir_intent n))) (order_intents (orders s))
  || negb (has_run (qi_run_id (ir_intent n))) || negb (has_cycle (qi_source_cycle_id (ir_intent n))).

Definition order_event_conflict (n : order_event_row) : bool :=
  existsb (λ r, (oe_event_id (er_event r) =s oe_event_id (er_event n)) || (oe_idempotency_key (er_event r) =s oe_idempotency_key (er_event n))
                || ((oe_order_intent_id (er_event r) =s oe_order_intent_id (er_event n))
                    && (oe_event_sequence (er_event r) =? oe_event_sequence (er_event n)))) (order_events (orders s))
  || is_None_b (get_intent (oe_order_intent_id (er_event n))) || negb (has_run (er_run_id n))
  || negb (opt_holds has_cycle (oe_source_cycle_id (er_event n))) || (oe_remaining_quantity (er_event n) <? d0)%dec.

Definition fill_conflict (n : Q1Fill) : bool :=
  existsb (λ f, (qf_fill_id f =s qf_fill_id n)
                || ((qf_order_intent_id f =s qf_order_intent_id n) && (qf_quote_id f =s qf_quote_id n)
                    && (qf_execution_scenario_id f =s qf_execution_scenario_id n))) (fills (orders s))
  || is_None_b (get_intent (qf_order_intent_id n)) || negb (has_run (qf_run_id n)) || negb (has_cycle (qf_source_cycle_id n)).

Definition cash_conflict (n : CashSettlementEvent) : bool :=
  existsb (λ e, (cs_cash_settlement_event_id e =s cs_cash_settlement_event_id n) || (cs_idempotency_key e =s cs_idempotency_key n)
                || (bool_decide (cs_event_type e = cs_event_type n)
                    && (opt_eqb (cs_receivable_id e) (cs_receivable_id n) || opt_eqb (cs_source_fill_id e) (cs_source_fill_id n))))
    (cash_events (cash s))
  || negb (has_run (cs_run_id n)) || negb (opt_holds (λ f, negb (is_None_b (get_fill f))) (cs_source_fill_id n))
  || is_None_b (get_calendar_session (cs_calendar_session_id n)) || negb (has_cycle (cs_source_cycle_id n)).

Definition arm_state_conflict (n : arm_state_row) : bool :=
  existsb (λ r, (ar_arm_state_snapshot_id r =s ar_arm_state_snapshot_id n)
                || ((ar_run_id r =s ar_run_id n) && (ar_arm_id r =s ar_arm_id n) && (ar_sequence r =? ar_sequence n))) (arm_states (cash s))
  || negb (has_run (ar_run_id n)) || negb (has_cycle (ar_source_cycle_id n)).

Definition nav_conflict (n : nav_row) : bool :=
  existsb (λ r, nv_nav_snapshot_id r =s nv_nav_snapshot_id n) (navs (cash s))
  || negb (has_run (nv_run_id n)) || negb (has_cycle (nv_source_cycle_id n)).

Definition episode_conflict (n : RiskEpisode) : bool :=
  existsb (λ e, (ep_risk_episode_id e =s ep_risk_episode_id n)
                || ((ep_run_id e =s ep_run_id n) && bool_decide (ep_arm_id e = ep_arm_id n) && (ep_episode_hash e =s ep_episode_hash n)))
    (risk_episodes (risk s))
  || negb (has_run (ep_run_id n)) || is_None_b (get_calendar_session (ep_calendar_session_id n))
  || negb (match ep_severity n with HARD_REDUCE | CRITICAL_EXIT => true | _ => false end) || bool_decide (ep_targets n = []).

Definition target_conflict (n : risk_target_row) : bool :=
  existsb (λ r, (tr_risk_target_id r =s tr_risk_target_id n)
                || ((tr_risk_episode_id r =s tr_risk_episode_id n) && (rt_symbol (tr_target r) =s rt_symbol (tr_target n))
                    && (rt_target_generation (tr_target r) =? rt_target_generation (tr_target n)))) (risk_targets (risk s))
  || is_None_b (get_episode (tr_risk_episode_id n)) || (rt_target_quantity (tr_target n) <? d0)%dec.

Definition risk_event_conflict (n : risk_event_row) : bool :=
  existsb (λ r, (re_risk_episode_event_id (rr_event r) =s re_risk_episode_event_id (rr_event n))
                || (re_idempotency_key (rr_event r) =s re_idempotency_key (rr_event n))
                || ((re_risk_episode_id (rr_event r) =s re_risk_episode_id (rr_event n))
                    && (re_event_sequence (rr_event r) =? re_event_sequence (rr_event n)))) (risk_events (risk s))
  || is_None_b (get_episode (re_risk_episode_id (rr_event n))) || negb (has_run (rr_run_id n))
  || negb (opt_holds has_cycle (re_source_cycle_id (rr_event n)))
  || negb (opt_holds (λ t, existsb (λ r, tr_risk_target_id r =s t) (risk_targets (risk s))) (rr_risk_target_id n)).

Definition calendar_conflict (n : MarketCalendarSession) : bool :=
  existsb (λ c, (mcs_calendar_session_id c =s mcs_calendar_session_id n)
                || ((mcs_calendar_version c =s mcs_calendar_version n) && (mcs_session_date c =? mcs_session_date n)
                    && (mcs_session_hash c =s mcs_session_hash n))) (calendar_sessions (strategy s))
  || dt_le (mcs_close_at n) (mcs_open_at n).

Definition anchor_conflict (n : StrategyEvaluationAnchor) : bool :=
  existsb (λ a, (ea_evaluation_anchor_id a =s ea_evaluation_anchor_id n) || (ea_run_id a =s ea_run_id n) || (ea_anchor_hash a =s ea_anchor_hash n))
    (anchors (strategy s))
  || negb (has_run (ea_run_id n)) || is_None_b (get_calendar_session (ea_calendar_session_id n)).

Definition portfolio_decision_conflict (n : Q1StrategyDecision) : bool :=
  negb (is_None_b (get_decision (sd_portfolio_decision_id n))) || negb (has_run (sd_run_id n)) || negb (has_cycle (sd_source_cycle_id n))
  || is_None_b (get_calendar_session (im_calendar_session_id (sd_input_manifest n))).

Definition risk_decision_conflict (n : risk_decision_row) : bool :=
  existsb (λ r, rd_risk_decision_id r =s rd_risk_decision_id n) (risk_decisions (strategy s))
  || is_None_b (get_decision (rd_portfolio_decision_id n)) || negb (has_cycle (rd_source_cycle_id n)).

Definition daily_conflict (n : StrategyDailyResult) : bool :=
  existsb (λ r, (dr_strategy_daily_result_id r =s dr_strategy_daily_result_id n)
                || ((dr_run_id r =s dr_run_id n) && bool_decide (dr_arm_id r = dr_arm_id n) && (dr_session_date r =? dr_session_date n)))
    (daily_results (strategy s))
  || negb (has_run (dr_run_id n)) || is_None_b (get_anchor (dr_evaluation_anchor_id n))
  || is_None_b (get_calendar_session (dr_calendar_session_id n)).

Definition matched_conflict (n : MatchedAttributionResult) : bool :=
  existsb (λ r, (mr_matched_attribution_result_id r =s mr_matched_attribution_result_id n)
                || ((mr_run_id r =s mr_run_id n) && bool_decide (mr_comparison r = mr_comparison n)
                    && (mr_through_session_date r =? mr_through_session_date n))) (matched_results (strategy s))
  || negb (has_run (mr_run_id n)) || is_None_b (get_anchor (mr_evaluation_anchor_id n)).

(** [session.add(row)] and the flush that checks it. *)
Definition add_intent (n : order_intent_row) : res q1_store :=
  raise_if (intent_conflict n) IntegrityError "order_intents";;
  Ok (with_orders s {| order_intents := order_intents (orders s) ++ [n]; order_events := order_events (orders s); fills := fills (orders s) |}).
Definition add_order_event (n : order_event_row) : res q1_store :=
  raise_if (order_event_conflict n) IntegrityError "order_events";;
  Ok (with_orders s {| order_intents := order_intents (orders s); order_events := order_events (orders s) ++ [n]; fills := fills (orders s) |}).
Definition add_fill (n : Q1Fill) : res q1_store :=
  raise_if (fill_conflict n) IntegrityError "fills";;
  Ok (with_orders s {| order_intents := order_intents (orders s); order_events := order_events (orders s); fills := fills (orders s) ++ [n] |}).
Definition add_cash_event (n : CashSettlementEvent) : res q1_store :=
  raise_if (cash_conflict n) IntegrityError "cash_settlement_events";;
  Ok (with_cash s {| cash_events := cash_events (cash s) ++ [n]; arm_states := arm_states (cash s); navs := navs (cash s) |}).
Definition add_arm_state (n : arm_state_row) : res q1_store :=
  raise_if (arm_state_conflict n) IntegrityError "arm_state_snapshots";;
  Ok (with_cash s {| cash_events := cash_events (cash s); arm_states := arm_states (cash s) ++ [n]; navs := navs (cash s) |}).
Definition add_nav (n : nav_row) : res q1_store :=
  raise_if (nav_conflict n) IntegrityError "nav_snapshots";;
  Ok (with_cash s {| cash_events := cash_events (cash s); arm_states := arm_states (cash s); navs := navs (cash s) ++ [n] |}).
Definition add_episode (n : RiskEpisode) : res q1_store :=
  raise_if (episode_conflict n) IntegrityError "risk_episodes";;
  Ok (with_risk s {| risk_episodes := risk_episodes (risk s) ++ [n]; risk_targets := risk_targets (risk s); risk_events := risk_events (risk s) |}).
Definition add_target (n : risk_target_row) : res q1_store :=
  raise_if (target_conflict n) IntegrityError "risk_episode_targets";;
  Ok (with_risk s {| risk_episodes := risk_episodes (risk s); risk_targets := risk_targets (risk s) ++ [n]; risk_events := risk_events (risk s) |}).
Definition add_risk_event (n : risk_event_row) : res q1_store :=
  raise_if (risk_event_conflict n) IntegrityError "risk_episode_events";;
  Ok (with_risk s {| risk_episodes := risk_episodes (risk s); risk_targets := risk_targets (risk s); risk_events := risk_events (risk s) ++ [n] |}).
Definition add_calendar_session (n : MarketCalendarSession) : res q1_store :=
  raise_if (calendar_conflict n) IntegrityError "market_calendar_sessions";;
  let t := strategy s in
  Ok (with_strategy s {| calendar_sessions := calendar_sessions t ++ [n]; anchors := anchors t; decisions := decisions t;
    risk_decisions := risk_decisions t; daily_results := daily_results t; matched_results := matched_results t |}).
Definition add_anchor (n : StrategyEvaluationAnchor) : res q1_store :=
  raise_if (anchor_conflict n) IntegrityError "strategy_evaluation_anchors";;
  let t := strategy s in
  Ok (with_strategy s {| calendar_sessions := calendar_sessions t; anchors := anchors t ++ [n]; decisions := decisions t;
    risk_decisions := risk_decisions t; daily_results := daily_results t; matched_results := matched_results t |}).
Definition add_decision (n : Q1StrategyDecision) : res q1_store :=
  raise_if (portfolio_decision_conflict n) IntegrityError "portfolio_decisions";;
  let t := strategy s in
  Ok (with_strategy s {| calendar_sessions := calendar_sessions t; anchors := anchors t; decisions := decisions t ++ [n];
    risk_decisions := risk_decisions t; daily_results := daily_results t; matched_results := matched_results t |}).
Definition add_risk_decision (n : risk_decision_row) : res q1_store :=
  raise_if (risk_decision_conflict n) IntegrityError "risk_decisions";;
  let t := strategy s in
  Ok (with_strategy s {| calendar_sessions := calendar_sessions t; anchors := anchors t; decisions := decisions t;
    risk_decisions := risk_decisions t ++ [n]; daily_results := daily_results t; matched_results := matched_results t |}).
Definition add_daily_result (n : StrategyDailyResult) : res q1_store :=
  raise_if (daily_conflict n) IntegrityError "strategy_daily_results";;
  let t := strategy s in
  Ok (with_strategy s {| calendar_sessions := calendar_sessions t; anchors := anchors t; decisions := decisions t;
    risk_decisions := risk_decisions t; daily_results := daily_results t ++ [n]; matched_results := matched_results t |}).
Definition add_matched_result (n : MatchedAttributionResult) : res q1_store :=
  raise_if (matched_conflict n) IntegrityError "matched_attribution_results";;
  let t := strategy s in
  Ok (with_strategy s {| calendar_sessions := calendar_sessions t; anchors := anchors t; decisions := decisions t;
    risk_decisions := risk_decisions t; daily_results := daily_results t; matched_results := matched_results t ++ [n] |}).

End constraints.

(** ** [MarketCalendarSessionRepository] *)

Module CalendarSessions.
Definition same_instant (a b : datetime) : bool := instant a =? instant b.

Definition append (s : q1_store) (item : MarketCalendarSession) : res (q1_store * MarketCalendarSession) :=
  match get_calendar_session s (mcs_calendar_session_id item) with
  | Some existing =>
      raise_if (negb (algorithm_version (mcs_versioned existing) =s algorithm_version (mcs_versioned item))
                || negb (mcs_calendar_version existing =s mcs_calendar_version item) || negb (mcs_session_date existing =? mcs_session_date item)
                || negb (same_instant (mcs_open_at existing) (mcs_open_at item)) || negb (same_instant (mcs_close_at existing) (mcs_close_at item))
                || negb (mcs_source existing =s mcs_source item))
        Q1PersistenceConflict "Calendar session ID has different immutable market hours";;
      Ok (s, existing)
  | None =>
      match List.find (λ c, (mcs_calendar_version c =s mcs_calendar_version item) && (mcs_session_date c =? mcs_session_date item)
                            && (mcs_session_hash c =s mcs_session_hash item)) (calendar_sessions (strategy s)) with
      | Some existing =>
          raise_if (negb (mcs_calendar_session_id existing =s mcs_calendar_session_id item) || negb (bool_decide (existing = item)))
            Q1PersistenceConflict "Calendar revision identity has different immutable content";;
          Ok (s, existing)
      | None => s' ← add_calendar_session s item; Ok (s', item)
      end
  end.

(** [order_by(available_at.desc(), calendar_session_id.desc())] *)
Definition newest_le (a b : MarketCalendarSession) : bool :=
  negb (lex_lt [instant (mcs_available_at a) ?= instant (mcs_available_at b);
                String.compare (mcs_calendar_session_id a) (mcs_calendar_session_id b)]).

Definition for_date_as_of (s : q1_store) (calendar_version : string) (session_date : date) (cutoff : datetime) : option MarketCalendarSession :=
  List.hd_error (sorted newest_le (List.filter (λ c, (mcs_calendar_version c =s calendar_version) && (mcs_session_date c =? session_date)
                                                    && dt_le (mcs_available_at c) cutoff) (calendar_sessions (strategy s)))).

Definition get : q1_store → string → option MarketCalendarSession := get_calendar_session.
End CalendarSessions.

(** ** [StrategyEvaluationAnchorRepository] *)

Module Anchors.
Definition for_run (s : q1_store) (run_id : string) : option StrategyEvaluationAnchor :=
  List.find (λ a, ea_run_id a =s run_id) (anchors (strategy s)).

Definition append (s : q1_store) (item : StrategyEvaluationAnchor) : res (q1_store * StrategyEvaluationAnchor) :=
  match for_run s (ea_run_id item) with
  | Some existing =>
      raise_if (negb (ea_anchor_hash existing =s ea_anchor_hash item)) Q1PersistenceConflict "Run already has a different evaluation anchor";;
      Ok (s, existing)
  | None => s' ← add_anchor s item; Ok (s', item)
  end.
End Anchors.

(** ** [Q1StrategyDecisionRepository] *)

Module Decisions.
Definition append (s : q1_store) (item : Q1StrategyDecision) (database : option datetime) : res (q1_store * Q1StrategyDecision) :=
  match get_decision s (sd_portfolio_decision_id item) with
  | Some existing =>
      raise_if (negb (sd_decision_hash existing =s sd_decision_hash item))
        Q1PersistenceConflict "Strategy decision ID has different immutable content";;
      Ok (s, existing)
  | None =>
      _require_cycle_fence (cycle_tables s) (sd_source_cycle_id item) (sd_worker_fence_token item) (sd_cycle_attempt_count item)
        (sd_decision_created_at item) database;;
      s' ← add_decision s item; Ok (s', item)
  end.

(** [order_by(decision_created_at.desc(), portfolio_decision_id.desc())] *)
Definition newest_le (a b : Q1StrategyDecision) : bool :=
  negb (lex_lt [instant (sd_decision_created_at a) ?= instant (sd_decision_created_at b);
                String.compare (sd_portfolio_decision_id a) (sd_portfolio_decision_id b)]).

Definition latest_as_of (s : q1_store) (run_id arm_id : string) (as_of : datetime) : option Q1StrategyDecision :=
  List.hd_error (sorted newest_le (List.filter (λ d, (sd_run_id d =s run_id) && (Q1ArmId_value (sd_arm_id d) =s arm_id)
    && (algorithm_version (sd_versioned d) =s Q1_ALGORITHM_VERSION) && dt_le (sd_decision_created_at d) as_of) (decisions (strategy s)))).
End Decisions.

(** ** [OrderEventRepository] *)

Module OrderEvents.
(** [order_by(event_sequence.desc(), order_event_id.desc())] *)
Definition newest_le (a b : order_event_row) : bool :=
  negb (lex_lt [oe_event_sequence (er_event a) ?= oe_event_sequence (er_event b);
                String.compare (oe_event_id (er_event a)) (oe_event_id (er_event b))]).

Definition latest_for_order (s : q1_store) (order_intent_id : string) (as_of : option datetime) : option order_event_row :=
  List.hd_error (sorted newest_le (List.filter (λ r, (oe_order_intent_id (er_event r) =s order_intent_id)
    && opt_holds (λ t, dt_le (oe_available_at (er_event r)) t) as_of) (order_events (orders s)))).

Definition _validate_transition (event : OrderEvent) (intent : order_intent_row) (latest : option order_event_row) : res () :=
  match ir_quantity intent with
  | None => raise Q1PersistenceConflict "Q1 order intent requires typed quantity"
  | Some quantity =>
      match latest with
      | None =>
          raise_if (negb (oe_event_sequence event =? 1) || negb (bool_decide (oe_event_type event = CREATED)))
            Q1PersistenceConflict "First order event must be CREATED sequence 1";;
          raise_if (negb (oe_quantity_delta event =? d0)%dec || negb (oe_cumulative_filled_quantity event =? d0)%dec
                    || negb (oe_cumulative_commission_usd event =? d0)%dec || negb (oe_remaining_quantity event =? quantity)%dec)
            Q1PersistenceConflict "CREATED event quantities do not match intent"
      | Some latest =>
          let latest := er_event latest in
          raise_if (is_terminal_order_event (oe_event_type latest)) Q1PersistenceConflict "Terminal order cannot accept another event";;
          raise_if (negb (oe_event_sequence event =? oe_event_sequence latest + 1)) Q1PersistenceConflict "Order event sequence is not contiguous";;
          let is_fill := is_fill_event (oe_event_type event) in
          let expected_fill := if is_fill then (oe_cumulative_filled_quantity latest + oe_quantity_delta event)%dec
                               else oe_cumulative_filled_quantity latest in
          let expected_remaining := if is_fill then (oe_remaining_quantity latest - oe_quantity_delta event)%dec
                                    else oe_remaining_quantity latest in
          raise_if (negb (oe_cumulative_filled_quantity event =? expected_fill)%dec) Q1PersistenceConflict "Order cumulative fill is inconsistent";;
          raise_if (negb (oe_remaining_quantity event =? expected_remaining)%dec) Q1PersistenceConflict "Order remaining quantity is inconsistent";;
          raise_if (negb (oe_cumulative_commission_usd event =? oe_cumulative_commission_usd latest + oe_commission_delta_usd event)%dec)
            Q1PersistenceConflict "Order cumulative commission is inconsistent"
      end
  end.

Definition event_of_key (s : q1_store) (key : string) : option order_event_row :=
  List.find (λ r, oe_idempotency_key (er_event r) =s key) (order_events (orders s)).

Definition append (s : q1_store) (event : OrderEvent) (database : option datetime) : res (q1_store * order_event_row) :=
  match event_of_key s (oe_idempotency_key event) with
  | Some existing =>
      raise_if (negb (oe_event_hash (er_event existing) =s oe_event_hash event))
        Q1PersistenceConflict "Order-event idempotency key has different immutable content";;
      Ok (s, existing)
  | None =>
      match oe_source_cycle_id event with
      | None => raise Q1CycleFenceError "Q1 order events require a source cycle"
      | Some source_cycle_id =>
          _require_cycle_fence (cycle_tables s) source_cycle_id (oe_worker_fence_token event) (oe_cycle_attempt_count event)
            (oe_available_at event) database;;
          match get_intent s (oe_order_intent_id event) with
          | None => raise Q1PersistenceConflict "Unknown order intent"
          | Some intent =>
              _validate_transition event intent (latest_for_order s (oe_order_intent_id event) None);;
              let row := {| er_event := event; er_run_id := qi_run_id (ir_intent intent); er_arm_id := Q1ArmId_value (qi_arm_id (ir_intent intent)) |} in
              s' ← add_order_event s row; Ok (s', row)
          end
      end
  end.

(** The rows that the grouped subquery of [pending] reads. *)
Definition visible_row (run_id : string) (arm_id : option string) (as_of : option datetime) (r : order_event_row) : bool :=
  (er_run_id r =s run_id) && opt_holds (String.eqb (er_arm_id r)) arm_id && opt_holds (λ t, dt_le (oe_available_at (er_event r)) t) as_of.

(** [max(event_sequence)] of the rows of an order. *)
Definition max_sequence (rows : list order_event_row) : option Z :=
  match rows with [] => None | r :: rows => Some (fold_left (λ m r, Z.max m (oe_event_sequence (er_event r))) rows (oe_event_sequence (er_event r))) end.

(** [order_by(created_at, order_intent_id)] *)
Definition intent_le (a b : order_intent_row * order_event_row) : bool :=
  negb (lex_lt [instant (qi_created_at (ir_intent b.1)) ?= instant (qi_created_at (ir_intent a.1));
                String.compare (qi_order_intent_id (ir_intent b.1)) (qi_order_intent_id (ir_intent a.1))]).

Definition pending (s : q1_store) (run_id : string) (arm_id : option string) (as_of : option datetime) : list (order_intent_row * order_event_row) :=
  let visible := List.filter (visible_row run_id arm_id as_of) (order_events (orders s)) in
  let joined := List.flat_map (λ intent,
      let id := qi_order_intent_id (ir_intent intent) in
      match max_sequence (List.filter (λ r, oe_order_intent_id (er_event r) =s id) visible) with
      | None => []
      | Some m => map (λ r, (intent, r)) (List.filter (λ r, (oe_order_intent_id (er_event r) =s id) && (oe_event_sequence (er_event r) =? m))
                                            (order_events (orders s)))
      end) (order_intents (orders s)) in
  sorted intent_le (List.filter (λ p, negb (is_terminal_order_event (oe_event_type (er_event p.2))) && (d0 <? oe_remaining_quantity (er_event p.2))%dec) joined).
End OrderEvents.

(** ** [RiskEpisodeRepository] *)

(** [==] of targets. *)
Definition opt_dec_eqb (a b : option dec) : bool := match a, b with Some x, Some y => (x =? y)%dec | None, None => true | _, _ => false end.
Definition risk_target_eqb (a b : RiskTarget) : bool :=
  (rt_symbol a =s rt_symbol b) && (rt_target_quantity a =? rt_target_quantity b)%dec && (rt_trigger_quote_id a =s rt_trigger_quote_id b)
  && (rt_target_generation a =? rt_target_generation b) && bool_decide (rt_target_id a = rt_target_id b)
  && opt_dec_eqb (rt_trigger_quantity a) (rt_trigger_quantity b) && opt_dec_eqb (rt_trigger_price a) (rt_trigger_price b)
  && opt_dec_eqb (rt_target_weight a) (rt_target_weight b).
Fixpoint risk_targets_eqb (a b : list RiskTarget) : bool :=
  match a, b with [], [] => true | x :: a, y :: b => risk_target_eqb x y && risk_targets_eqb a b | _, _ => false end.

Record active_episode := { ae_episode : RiskEpisode; ae_latest_event : risk_event_row; ae_targets : list risk_target_row }.

Module RiskEpisodes.
Definition newest_event_le (a b : risk_event_row) : bool :=
  negb (lex_lt [re_event_sequence (rr_event a) ?= re_event_sequence (rr_event b);
                String.compare (re_risk_episode_event_id (rr_event a)) (re_risk_episode_event_id (rr_event b))]).

Definition latest_event (s : q1_store) (risk_episode_id : string) : option risk_event_row :=
  List.hd_error (sorted newest_event_le (List.filter (λ r, re_risk_episode_id (rr_event r) =s risk_episode_id) (risk_events (risk s)))).

Definition targets (s : q1_store) (risk_episode_id : string) (generation : Z) : list risk_target_row :=
  sorted (λ a b, String.leb (rt_symbol (tr_target a)) (rt_symbol (tr_target b)))
    (List.filter (λ r, (tr_risk_episode_id r =s risk_episode_id) && (rt_target_generation (tr_target r) =? generation)) (risk_targets (risk s))).

(** [severity_rank[...]] of [active] *)
Definition active_rank (t : RiskSeverity) : res Z :=
  match t with HARD_REDUCE => Ok 1 | CRITICAL_EXIT => Ok 2 | _ => raise KeyError "severity_rank" end.

(** [max(active, key=...)]: the first of the largest. *)
Definition key_lt (a b : Z * active_episode) : bool :=
  lex_lt [a.1 ?= b.1; instant (re_occurred_at (rr_event (ae_latest_event a.2))) ?= instant (re_occurred_at (rr_event (ae_latest_event b.2)));
          String.compare (re_risk_episode_event_id (rr_event (ae_latest_event a.2))) (re_risk_episode_event_id (rr_event (ae_latest_event b.2)))].
Definition max_active (l : list (Z * active_episode)) : option active_episode :=
  match l with [] => None | x :: l => Some (fold_left (λ m y, if key_lt m y then y else m) l x).2 end.

Definition newest_episode_le (a b : RiskEpisode) : bool :=
  negb (lex_lt [instant (ep_triggered_at a) ?= instant (ep_triggered_at b); String.compare (ep_risk_episode_id a) (ep_risk_episode_id b)]).

(** The episodes of an arm, the newest first. *)
Definition episodes_of (s : q1_store) (run_id arm_id : string) : list RiskEpisode :=
  sorted newest_episode_le (List.filter (λ e, (ep_run_id e =s run_id) && (Q1ArmId_value (ep_arm_id e) =s arm_id)) (risk_episodes (risk s))).

(** One iteration of the loop of [active]. *)
Definition active_projection (s : q1_store) (episode : RiskEpisode) : option active_episode :=
  match latest_event s (ep_risk_episode_id episode) with
  | None => None
  | Some latest =>
      if bool_decide (re_event_type (rr_event latest) = RELEASE) then None
      else Some {| ae_episode := episode; ae_latest_event := latest;
                   ae_targets := targets s (ep_risk_episode_id episode) (re_target_generation (rr_event latest)) |}
  end.

Definition active (s : q1_store) (run_id arm_id : string) : res (option active_episode) :=
  ranked ← mapM_res (λ a, rank ← active_rank (re_severity (rr_event (ae_latest_event a))); Ok (rank, a))
    (omap (active_projection s) (episodes_of s run_id arm_id));
  Ok (max_active ranked).

Definition _validate_transition (event : RiskEpisodeEvent) (latest : option risk_event_row) : res () :=
  match latest with
  | None =>
      raise_if (negb (re_event_sequence event =? 1) || negb (bool_decide (re_event_type event = ACTIVATE)) || negb (re_target_generation event =? 1))
        Q1PersistenceConflict "First risk episode event must activate generation 1"
  | Some latest =>
      let latest := rr_event latest in
      raise_if (bool_decide (re_event_type latest = RELEASE)) Q1PersistenceConflict "Released risk episode cannot accept events";;
      raise_if (negb (re_event_sequence event =? re_event_sequence latest + 1)) Q1PersistenceConflict "Risk episode event sequence is not contiguous";;
      (if bool_decide (re_event_type event = ESCALATE) then
         raise_if (negb (bool_decide (re_severity latest = HARD_REDUCE) && bool_decide (re_severity event = CRITICAL_EXIT)
                         && (re_target_generation event =? re_target_generation latest + 1)))
           Q1PersistenceConflict "Only HARD_REDUCE to CRITICAL_EXIT escalation is permitted"
       else
         raise_if (negb (re_target_generation event =? re_target_generation latest))
           Q1PersistenceConflict "Only an escalation may change the target generation");;
      raise_if (negb (bool_decide (re_event_type event = RELEASE)) && (_severity_rank (re_severity event) <? _severity_rank (re_severity latest)))
        Q1PersistenceConflict "Risk episode cannot silently downgrade"
  end.

Section targets.
Context `{Digest}.

(** One iteration of the loop of [_append_targets]. *)
Definition append_target (episode_id config_manifest_hash : string) (created_at : datetime) (s : q1_store) (target : RiskTarget) : res q1_store :=
  target_hash ← canonical_hash (target_data target);
  target_id ← match rt_target_id target with
    | Some id => if str_empty id then stable_id "q1-risk-target" [PStr episode_id; PInt (rt_target_generation target); PStr (rt_symbol target); PStr target_hash]
                 else Ok id
    | None => stable_id "q1-risk-target" [PStr episode_id; PInt (rt_target_generation target); PStr (rt_symbol target); PStr target_hash]
    end;
  add_target s {| tr_risk_target_id := target_id; tr_risk_episode_id := episode_id; tr_target := target;
    tr_config_manifest_hash := config_manifest_hash; tr_target_hash := target_hash; tr_created_at := created_at |}.

Definition _append_targets (s : q1_store) (episode_id : string) (targets : list RiskTarget) (config_manifest_hash : string) (created_at : datetime)
    : res q1_store :=
  raise_if (bool_decide (targets = [])) Q1PersistenceConflict "Empty forced-target sets are forbidden";;
  foldM (append_target episode_id config_manifest_hash created_at) s targets.

(** The target that a progress event refers to. *)
Definition event_target (s : q1_store) (event : RiskEpisodeEvent) : res (option string) :=
  match re_target_symbol event with
  | None => Ok None
  | Some symbol =>
      match List.find (λ r, (tr_risk_episode_id r =s re_risk_episode_id event) && (rt_symbol (tr_target r) =s symbol)
                            && (rt_target_generation (tr_target r) =? re_target_generation event)) (risk_targets (risk s)) with
      | None => raise Q1PersistenceConflict "Risk progress event references an unknown typed target"
      | Some target => Ok (Some (tr_risk_target_id target))
      end
  end.

Definition event_of_key (s : q1_store) (key : string) : option risk_event_row :=
  List.find (λ r, re_idempotency_key (rr_event r) =s key) (risk_events (risk s)).

Definition append_event (s : q1_store) (event : RiskEpisodeEvent) (database : option datetime) : res (q1_store * risk_event_row) :=
  match event_of_key s (re_idempotency_key event) with
  | Some existing =>
      raise_if (negb (re_event_hash (rr_event existing) =s re_event_hash event))
        Q1PersistenceConflict "Risk-event idempotency key has different immutable content";;
      Ok (s, existing)
  | None =>
      match re_source_cycle_id event with
      | None => raise Q1CycleFenceError "Q1 risk events require a source cycle"
      | Some source_cycle_id =>
          _require_cycle_fence (cycle_tables s) source_cycle_id (re_worker_fence_token event) (re_cycle_attempt_count event)
            (re_available_at event) database;;
          match get_episode s (re_risk_episode_id event) with
          | None => raise Q1PersistenceConflict "Unknown risk episode"
          | Some episode =>
              _validate_transition event (latest_event s (re_risk_episode_id event));;
              s1 ← (if bool_decide (re_event_type event = ESCALATE)
                    then _append_targets s (re_risk_episode_id event) (re_targets event) (config_manifest_hash (re_versioned event)) (re_available_at event)
                    else Ok s);
              risk_target_id ← event_target s1 event;
              let row := {| rr_event := event; rr_run_id := ep_run_id episode; rr_arm_id := Q1ArmId_value (ep_arm_id episode);
                            rr_risk_target_id := risk_target_id |} in
              s2 ← add_risk_event s1 row; Ok (s2, row)
          end
      end
  end.

Definition append_episode (s : q1_store) (episode : RiskEpisode) (activation_event : RiskEpisodeEvent) (database : option datetime)
    : res (q1_store * RiskEpisode) :=
  raise_if (negb (re_risk_episode_id activation_event =s ep_risk_episode_id episode)
            || negb (bool_decide (re_event_type activation_event = ACTIVATE)) || negb (bool_decide (re_severity activation_event = ep_severity episode))
            || negb (risk_targets_eqb (re_targets activation_event) (ep_targets episode)))
    Q1PersistenceConflict "Risk activation event must exactly match its typed episode";;
  match get_episode s (ep_risk_episode_id episode) with
  | Some existing =>
      raise_if (negb (ep_episode_hash existing =s ep_episode_hash episode)) Q1PersistenceConflict "Risk episode ID has different immutable content";;
      Ok (s, existing)
  | None =>
      current ← active s (ep_run_id episode) (Q1ArmId_value (ep_arm_id episode));
      raise_if (negb (is_None_b current)) Q1PersistenceConflict "An active typed risk episode must be escalated, not replaced";;
      s1 ← add_episode s episode;
      s2 ← _append_targets s1 (ep_risk_episode_id episode) (ep_targets episode) (config_manifest_hash (ep_versioned episode)) (ep_created_at episode);
      '(s3, _) ← append_event s2 activation_event database;
      Ok (s3, episode)
  end.

End targets.
End RiskEpisodes.

(** ** [CashSettlementRepository] *)

Record cash_projection := { cp_settled_cash_usd : dec; cp_unsettled_receivables_usd : dec }.
Definition cp_total_cash_usd (p : cash_projection) : dec := (cp_settled_cash_usd p + cp_unsettled_receivables_usd p)%dec.

(** [sum] in the database does not round. *)
Definition sql_add (a b : dec) : dec := let e := Z.min (dexp a) (dexp b) in Dec (at_exp e a + at_exp e b) e.
Definition sql_sum (l : list dec) : dec := fold_left sql_add l d0.

Module CashSettlements.
Definition event_of_key (s : q1_store) (key : string) : option CashSettlementEvent :=
  List.find (λ e, cs_idempotency_key e =s key) (cash_events (cash s)).

(** The event of the same type for the same receivable, else for the same fill. *)
Definition identity_match (s : q1_store) (event : CashSettlementEvent) : option CashSettlementEvent :=
  let same_type e := bool_decide (cs_event_type e = cs_event_type event) in
  let by_receivable := match cs_receivable_id event with
    | Some _ => List.find (λ e, opt_eqb (cs_receivable_id e) (cs_receivable_id event) && same_type e) (cash_events (cash s))
    | None => None end in
  match by_receivable with
  | Some e => Some e
  | None => match cs_source_fill_id event with
      | Some _ => List.find (λ e, opt_eqb (cs_source_fill_id e) (cs_source_fill_id event) && same_type e) (cash_events (cash s))
      | None => None end
  end.

Definition append (s : q1_store) (event : CashSettlementEvent) (database : option datetime) : res (q1_store * CashSettlementEvent) :=
  match event_of_key s (cs_idempotency_key event) with
  | Some existing =>
      raise_if (negb (cs_event_hash existing =s cs_event_hash event))
        Q1PersistenceConflict "Settlement idempotency key has different immutable content";;
      Ok (s, existing)
  | None =>
      match identity_match s event with
      | Some existing =>
          raise_if (negb (cs_event_hash existing =s cs_event_hash event))
            Q1PersistenceConflict "Settlement economic identity has different immutable content";;
          Ok (s, existing)
      | None =>
          _require_cycle_fence (cycle_tables s) (cs_source_cycle_id event) (cs_worker_fence_token event) (cs_cycle_attempt_count event)
            (cs_created_at event) database;;
          s' ← add_cash_event s event; Ok (s', event)
      end
  end.

Definition balances (s : q1_store) (run_id arm_id : string) (as_of : datetime) : cash_projection :=
  let visible := List.filter (λ e, (cs_run_id e =s run_id) && (Q1ArmId_value (cs_arm_id e) =s arm_id) && dt_le (cs_effective_at e) as_of
                                   && dt_le (cs_created_at e) as_of) (cash_events (cash s)) in
  {| cp_settled_cash_usd := sql_sum (map cs_settled_cash_delta_usd visible);
     cp_unsettled_receivables_usd := sql_sum (map cs_unsettled_receivable_delta_usd visible) |}.
End CashSettlements.

(** ** [StrategyEvaluationResultRepository] *)

Module EvaluationResults.
Definition append_daily (s : q1_store) (result : StrategyDailyResult) : res (q1_store * StrategyDailyResult) :=
  match List.find (λ r, (dr_run_id r =s dr_run_id result) && bool_decide (dr_arm_id r = dr_arm_id result)
                        && (dr_session_date r =? dr_session_date result)) (daily_results (strategy s)) with
  | Some existing =>
      raise_if (negb (dr_result_hash existing =s dr_result_hash result)) Q1PersistenceConflict "Daily result identity has different immutable content";;
      Ok (s, existing)
  | None => s' ← add_daily_result s result; Ok (s', result)
  end.

Definition append_matched (s : q1_store) (result : MatchedAttributionResult) : res (q1_store * MatchedAttributionResult) :=
  match List.find (λ r, (mr_run_id r =s mr_run_id result) && bool_decide (mr_comparison r = mr_comparison result)
                        && (mr_through_session_date r =? mr_through_session_date result)) (matched_results (strategy s)) with
  | Some existing =>
      raise_if (negb (mr_result_hash existing =s mr_result_hash result)) Q1PersistenceConflict "Matched result identity has different immutable content";;
      Ok (s, existing)
  | None => s' ← add_matched_result s result; Ok (s', result)
  end.

(** Ordered by date; one result per date. *)
Definition daily_results_of (s : q1_store) (run_id arm_id : string) : list StrategyDailyResult :=
  sorted (λ a b, dr_session_date a <=? dr_session_date b)
    (List.filter (λ r, (dr_run_id r =s run_id) && (Q1ArmId_value (dr_arm_id r) =s arm_id)) (daily_results (strategy s))).
End EvaluationResults.

(** ** [persistence/q1_runtime.py] *)

Record Q1OrderBook := { ob_intents : list Q1OrderIntent; ob_descriptors : list OrderDescriptor; ob_events : list OrderEvent }.

(** [Q1OrderClass(value)] *)
Definition order_class_of (value : string) : res Q1OrderClass :=
  if value =s "NORMAL" then Ok NORMAL_ORDER else if value =s "EMERGENCY_REDUCTION" then Ok EMERGENCY_REDUCTION
  else if value =s "LLM_REDUCTION" then Ok LLM_REDUCTION else if value =s "LIVE_MIRROR_TRANSITION" then Ok LIVE_MIRROR_TRANSITION
  else raise ValueError "not a valid Q1OrderClass".

Definition descriptor_of (item : Q1OrderIntent) : res OrderDescriptor :=
  order_class ← order_class_of (qi_order_class item);
  validate_OrderDescriptor {| od_order_intent_id := qi_order_intent_id item; od_arm_id := Q1ArmId_value (qi_arm_id item);
    od_portfolio_decision_id := qi_portfolio_decision_id item; od_symbol := qi_symbol item; od_side := qi_side item;
    od_quantity := qi_quantity item; od_order_class := order_class; od_created_at := qi_created_at item; od_valid_until := qi_valid_until item |}.

(** [order_by(created_at, order_intent_id)] and [order_by(order_intent_id, event_sequence)] *)
Definition book_intent_le (a b : Q1OrderIntent) : bool :=
  negb (lex_lt [instant (qi_created_at b) ?= instant (qi_created_at a); String.compare (qi_order_intent_id b) (qi_order_intent_id a)]).
Definition book_event_le (a b : OrderEvent) : bool :=
  negb (lex_lt [String.compare (oe_order_intent_id b) (oe_order_intent_id a); oe_event_sequence b ?= oe_event_sequence a]).

Definition load_q1_order_book (s : q1_store) (run_id : string) (arm_id : option string) : res Q1OrderBook :=
  let intent_rows := sorted book_intent_le (List.filter (λ o, (qi_run_id o =s run_id) && (qi_algorithm_version o =s Q1_ALGORITHM_VERSION)
      && opt_holds (String.eqb (Q1ArmId_value (qi_arm_id o))) arm_id) (map ir_intent (order_intents (orders s)))) in
  let event_rows := sorted book_event_le (map er_event (List.filter (λ r, (er_run_id r =s run_id)
      && (algorithm_version (oe_versioned (er_event r)) =s Q1_ALGORITHM_VERSION) && opt_holds (String.eqb (er_arm_id r)) arm_id) (order_events (orders s)))) in
  intents ← mapM_res validate_Q1OrderIntent intent_rows;
  descriptors ← mapM_res descriptor_of intents;
  events ← mapM_res validate_OrderEvent event_rows;
  Ok {| ob_intents := intents; ob_descriptors := descriptors; ob_events := events |}.

Definition append_strategy_decision : q1_store → Q1StrategyDecision → option datetime → res (q1_store * Q1StrategyDecision) := Decisions.append.

Definition append_order_intent (s : q1_store) (intent : Q1OrderIntent) : res (q1_store * order_intent_row) :=
  match List.find (λ r, qi_idempotency_key (ir_intent r) =s qi_idempotency_key intent) (order_intents (orders s)) with
  | Some existing =>
      raise_if (negb (qi_intent_hash (ir_intent existing) =s qi_intent_hash intent)) Q1RuntimePersistenceError "Q1 intent idempotency conflict";;
      Ok (s, existing)
  | None =>
      let row := {| ir_intent := intent; ir_quantity := Some (qi_quantity intent) |} in
      s' ← add_intent s row; Ok (s', row)
  end.

Definition append_fill (s : q1_store) (fill : Q1Fill) : res (q1_store * Q1Fill) :=
  match get_fill s (qf_fill_id fill) with
  | Some existing =>
      raise_if (negb (qf_fill_hash existing =s qf_fill_hash fill)) Q1RuntimePersistenceError "Q1 fill identity conflict";; Ok (s, existing)
  | None =>
      match List.find (λ f, (qf_order_intent_id f =s qf_order_intent_id fill) && (qf_quote_id f =s qf_quote_id fill)
                            && (qf_execution_scenario_id f =s qf_execution_scenario_id fill)) (fills (orders s)) with
      | Some duplicate =>
          raise_if (negb (qf_fill_hash duplicate =s qf_fill_hash fill))
            Q1RuntimePersistenceError "Order/quote/scenario already produced a different fill";;
          Ok (s, duplicate)
      | None => s' ← add_fill s fill; Ok (s', fill)
      end
  end.

(** [order_by(sequence.desc(), arm_state_snapshot_id.desc())] *)
Definition newest_state_le (a b : arm_state_row) : bool :=
  negb (lex_lt [ar_sequence a ?= ar_sequence b; String.compare (ar_arm_state_snapshot_id a) (ar_arm_state_snapshot_id b)]).

Definition latest_arm_state_row (s : q1_store) (run_id arm_id : string) : option arm_state_row :=
  List.hd_error (sorted newest_state_le (List.filter (λ r, (ar_run_id r =s run_id) && (ar_arm_id r =s arm_id)) (arm_states (cash s)))).

Definition latest_arm_state (s : q1_store) (run_id arm_id : string) : res (option Q1ArmState) :=
  match latest_arm_state_row s run_id arm_id with None => Ok None | Some row => state ← from_payload (ar_payload_json row); Ok (Some state) end.

Section identified.
Context `{Digest}.

Definition append_arm_state (s : q1_store) (run_id : string) (state : Q1ArmState) (source_cycle_id : string) (created_at : datetime)
    (expected_previous_sequence : option Z) : res (q1_store * arm_state_row) :=
  instant ← require_aware_utc created_at;
  current ← latest_arm_state s run_id (as_arm_id state);
  raise_if (negb (bool_decide (as_sequence <$> current = expected_previous_sequence)))
    Q1RuntimePersistenceError "Arm state changed during Q1 preparation";;
  let expected_sequence := match current with None => 0 | Some c => as_sequence c + 1 end in
  raise_if (negb (as_sequence state =? expected_sequence)) Q1RuntimePersistenceError "Arm sequence must advance";;
  let payload := as_payload state in
  state_hash ← canonical_hash (PDict payload);
  row_id ← stable_id "q1-arm-state" [PStr run_id; PStr (as_arm_id state); PInt (as_sequence state); PStr source_cycle_id; PStr state_hash];
  match List.find (λ r, ar_arm_state_snapshot_id r =s row_id) (arm_states (cash s)) with
  | Some existing =>
      raise_if (negb (ar_state_hash existing =s state_hash)) Q1RuntimePersistenceError "Q1 arm-state identity conflict";; Ok (s, existing)
  | None =>
      let row := {| ar_arm_state_snapshot_id := row_id; ar_run_id := run_id; ar_arm_id := as_arm_id state; ar_sequence := as_sequence state;
        ar_source_cycle_id := source_cycle_id; ar_state_hash := state_hash; ar_payload_json := payload; ar_created_at := instant |} in
      s' ← add_arm_state s row; Ok (s', row)
  end.

Definition approval_payload (risk_decision_id : string) (decision : Q1StrategyDecision) : pyval :=
  PDict [("schema_version", PStr "q1_risk_approval_v1"); ("algorithm_version", PStr (algorithm_version (sd_versioned decision)));
    ("risk_decision_id", PStr risk_decision_id); ("portfolio_decision_id", PStr (sd_portfolio_decision_id decision)); ("approved", PBool true);
    ("approved_target_weights", PDict (map (λ kv, (kv.1, PStr (dec_str kv.2))) (sorted_items (sd_target_weights decision))));
    ("deterministic_risk_precedence", PBool true); ("real_order_routing", PBool false);
    ("config_manifest_hash", PStr (config_manifest_hash (sd_versioned decision)));
    ("source_manifest_hash", PStr (source_manifest_hash (sd_versioned decision)))].

Definition append_risk_approval (s : q1_store) (risk_decision_id : string) (decision : Q1StrategyDecision) : res (q1_store * risk_decision_row) :=
  let payload := approval_payload risk_decision_id decision in
  match List.find (λ r, rd_risk_decision_id r =s risk_decision_id) (risk_decisions (strategy s)) with
  | Some existing =>
      old ← canonical_hash (rd_payload_json existing); new ← canonical_hash payload;
      raise_if (negb (old =s new)) Q1RuntimePersistenceError "Q1 risk approval identity conflict";; Ok (s, existing)
  | None =>
      let row := {| rd_risk_decision_id := risk_decision_id; rd_portfolio_decision_id := sd_portfolio_decision_id decision;
        rd_source_cycle_id := sd_source_cycle_id decision; rd_input_state_sequence := sd_input_state_sequence decision; rd_approved := true;
        rd_payload_json := payload |} in
      s' ← add_risk_decision s row; Ok (s', row)
  end.

(** The arguments of [append_nav_snapshot]. *)
Record nav_args := {
  na_run_id : string;
  na_arm_id : string;
  na_source_cycle_id : string;
  na_as_of : datetime;
  na_nav_usd : dec;
  na_payload : pydict pyval;
  na_quote_manifest_hash : string;
  na_versioned : VersionedQ1Record;
}.

Definition append_nav_snapshot (s : q1_store) (a : nav_args) : res (q1_store * nav_row) :=
  instant ← require_aware_utc (na_as_of a);
  nav_hash ← canonical_hash (PDict (na_payload a));
  row_id ← stable_id "q1-nav" [PStr (na_run_id a); PStr (na_arm_id a); PStr (na_source_cycle_id a); PDatetime instant; PStr nav_hash];
  match List.find (λ r, nv_nav_snapshot_id r =s row_id) (navs (cash s)) with
  | Some existing =>
      raise_if (negb (source_manifest_hash (nv_versioned existing) =s source_manifest_hash (na_versioned a)))
        Q1RuntimePersistenceError "Q1 NAV identity conflict";;
      Ok (s, existing)
  | None =>
      let row := {| nv_nav_snapshot_id := row_id; nv_run_id := na_run_id a; nv_arm_id := na_arm_id a; nv_source_cycle_id := na_source_cycle_id a;
        nv_quote_manifest_hash := na_quote_manifest_hash a; nv_versioned := na_versioned a; nv_as_of := instant; nv_nav_usd := na_nav_usd a;
        nv_payload_json := dset "nav_hash" (PStr nav_hash) (na_payload a) |} in
      s' ← add_nav s row; Ok (s', row)
  end.

End identified.
