(* ===== verification/TradingRuns.v ===== *)
(** * Runs of the trading tables

    The operations of [Q1Store] and [CycleStore] as commands of one system, what each of them adds to the tables, and the fences: a worker
    whose lease is over writes nothing, and the rows of a cycle carry attempts that never decrease. *)
From Stdlib Require Import ZArith Lia Ascii String Sorting.Sorted.
From stdpp Require Import base list strings numbers sets.
From S2P Require Import Prelude PyDecimal Hashing Domain Text OrderState RiskMachine ArmState Payload.
From S2P Require Import Reconciliation Planning Schedule Cycles CycleStore CycleLifecycle Q1Records Q1Store.
Set Default Goal Selector "!".
Open Scope Z_scope.

(** ** Commands *)

Inductive q1_command :=
  | QCycle (c : command)
  | QCalendarSession (item : MarketCalendarSession)
  | QAnchor (item : StrategyEvaluationAnchor)
  | QDecision (item : Q1StrategyDecision) (database : option datetime)
  | QApproval (risk_decision_id : string) (decision : Q1StrategyDecision)
  | QIntent (intent : Q1OrderIntent)
  | QOrderEvent (event : OrderEvent) (database : option datetime)
  | QFill (fill : Q1Fill)
  | QCash (event : CashSettlementEvent) (database : option datetime)
  | QArmState (run_id : string) (state : Q1ArmState) (source_cycle_id : string) (created_at : datetime) (expected : option Z)
  | QNav (a : nav_args)
  | QEpisode (episode : RiskEpisode) (activation : RiskEpisodeEvent) (database : option datetime)
  | QRiskEvent (event : RiskEpisodeEvent) (database : option datetime)
  | QDaily (result : StrategyDailyResult)
  | QMatched (result : MatchedAttributionResult).

(** Opens the steps of an operation that returned. *)
Ltac solve_kept :=
  repeat match goal with
  | Hr : (_ ≫= _) = Ok _ |- _ => apply bind_Ok_inv in Hr as (? & ? & Hr)
  | Hr : Ok _ = Ok _ |- _ => injection Hr as; subst
  | Hr : (let '(_, _) := ?p in _) = Ok _ |- _ => destruct p
  | Hr : match ?o with Some _ => _ | None => _ end = Ok _ |- _ => destruct o eqn:?
  | Hr : raise _ _ = Ok _ |- _ => discriminate Hr
  end.

Section runs.
Context `{Digest}.

Definition run_q1 (s : q1_store) (c : q1_command) : res q1_store :=
  match c with
  | QCycle c => t ← run_command (cycle_tables s) c; Ok (with_cycle_tables s t)
  | QCalendarSession item => '(s', _) ← CalendarSessions.append s item; Ok s'
  | QAnchor item => '(s', _) ← Anchors.append s item; Ok s'
  | QDecision item database => '(s', _) ← append_strategy_decision s item database; Ok s'
  | QApproval id decision => '(s', _) ← append_risk_approval s id decision; Ok s'
  | QIntent intent => '(s', _) ← append_order_intent s intent; Ok s'
  | QOrderEvent event database => '(s', _) ← OrderEvents.append s event database; Ok s'
  | QFill fill => '(s', _) ← append_fill s fill; Ok s'
  | QCash event database => '(s', _) ← CashSettlements.append s event database; Ok s'
  | QArmState run_id state cycle_id created_at expected => '(s', _) ← append_arm_state s run_id state cycle_id created_at expected; Ok s'
  | QNav a => '(s', _) ← append_nav_snapshot s a; Ok s'
  | QEpisode episode activation database => '(s', _) ← RiskEpisodes.append_episode s episode activation database; Ok s'
  | QRiskEvent event database => '(s', _) ← RiskEpisodes.append_event s event database; Ok s'
  | QDaily result => '(s', _) ← EvaluationResults.append_daily s result; Ok s'
  | QMatched result => '(s', _) ← EvaluationResults.append_matched s result; Ok s'
  end.

(** Rolled back when it raises. *)
Definition commit_q1 (s : q1_store) (c : q1_command) : q1_store := match run_q1 s c with Ok s' => s' | Raise _ => s end.
Definition run_q1_commands (s : q1_store) (cs : list q1_command) : q1_store := fold_left commit_q1 cs s.

Definition empty_q1 (rs : list string) : q1_store := {|
  cycle_tables := empty_store rs;
  orders := {| order_intents := []; order_events := []; fills := [] |};
  cash := {| cash_events := []; arm_states := []; navs := [] |};
  risk := {| risk_episodes := []; risk_targets := []; risk_events := [] |};
  strategy := {| calendar_sessions := []; anchors := []; decisions := []; risk_decisions := []; daily_results := []; matched_results := [] |} |}.

(** The lease under which a command writes. *)
Definition fenced_by (c : q1_command) : option (string * string * Z) :=
  match c with
  | QCycle c => acts_for c
  | QDecision d _ => Some (sd_source_cycle_id d, sd_worker_fence_token d, sd_cycle_attempt_count d)
  | QOrderEvent e _ => (λ id, (id, oe_worker_fence_token e, oe_cycle_attempt_count e)) <$> oe_source_cycle_id e
  | QCash e _ => Some (cs_source_cycle_id e, cs_worker_fence_token e, cs_cycle_attempt_count e)
  | QEpisode _ e _ | QRiskEvent e _ => (λ id, (id, re_worker_fence_token e, re_cycle_attempt_count e)) <$> re_source_cycle_id e
  | _ => None
  end.

(** ** What the operations add *)

(** The row of a fence that lets a write pass. *)
Definition fence_open (s : q1_store) (id owner : string) (attempt : Z) : Prop :=
  ∃ row now, get_cycle (cycle_tables s) id = Some row ∧ held_by row owner attempt now = true.

Lemma fence_ok s id owner attempt t database row :
  _require_cycle_fence (cycle_tables s) id owner attempt t database = Ok row → fence_open s id owner attempt.
Proof.
  unfold _require_cycle_fence, fence_open. destruct (get_cycle _ id) as [r|]; [|done]. intros Hf. apply bind_Ok_inv in Hf as ([] & Hh%raise_if_Ok_inv & _).
  apply negb_false_iff in Hh. eauto.
Qed.

Definition orders_with_event (s : q1_store) (r : order_event_row) : q1_store :=
  with_orders s {| order_intents := order_intents (orders s); order_events := order_events (orders s) ++ [r]; fills := fills (orders s) |}.

Lemma order_append_spec s e database s' row :
  OrderEvents.append s e database = Ok (s', row) →
  (s' = s ∧ OrderEvents.event_of_key s (oe_idempotency_key e) = Some row) ∨
  ∃ id intent, OrderEvents.event_of_key s (oe_idempotency_key e) = None ∧ oe_source_cycle_id e = Some id ∧
    fence_open s id (oe_worker_fence_token e) (oe_cycle_attempt_count e) ∧
    get_intent s (oe_order_intent_id e) = Some intent ∧
    OrderEvents._validate_transition e intent (OrderEvents.latest_for_order s (oe_order_intent_id e) None) = Ok () ∧
    row = {| er_event := e; er_run_id := qi_run_id (ir_intent intent); er_arm_id := Q1ArmId_value (qi_arm_id (ir_intent intent)) |} ∧
    order_event_conflict s row = false ∧ s' = orders_with_event s row.
Proof.
  unfold OrderEvents.append. destruct (OrderEvents.event_of_key s (oe_idempotency_key e)) as [r|] eqn:Ek.
  { intros Ha. apply bind_Ok_inv in Ha as (? & _ & [= <- <-]). by left. }
  destruct (oe_source_cycle_id e) as [id|]; [|done]. intros Ha. apply bind_Ok_inv in Ha as (r & Hf%fence_ok & Ha).
  destruct (get_intent s (oe_order_intent_id e)) as [intent|]; [|done]. apply bind_Ok_inv in Ha as ([] & Ht & Ha). apply bind_Ok_inv in Ha as (s1 & Hadd & [= <- <-]).
  unfold add_order_event in Hadd. apply bind_Ok_inv in Hadd as ([] & Hc%raise_if_Ok_inv & [= <-]). right. exists id, intent. done.
Qed.

(** Only the risk tables change, and no episode. *)
Definition risk_only (s s' : q1_store) : Prop :=
  cycle_tables s' = cycle_tables s ∧ orders s' = orders s ∧ cash s' = cash s ∧ strategy s' = strategy s.

Lemma append_targets_spec s id ts cfg t s' :
  RiskEpisodes._append_targets s id ts cfg t = Ok s' →
  risk_only s s' ∧ risk_episodes (risk s') = risk_episodes (risk s) ∧ risk_events (risk s') = risk_events (risk s).
Proof.
  unfold RiskEpisodes._append_targets. intros Ha. apply bind_Ok_inv in Ha as (? & _ & Ha). revert Ha.
  apply (foldM_invariant (λ s', risk_only s s' ∧ risk_episodes (risk s') = risk_episodes (risk s) ∧ risk_events (risk s') = risk_events (risk s))).
  - intros s1 target s2 _ HP Hs. unfold RiskEpisodes.append_target in Hs. apply bind_Ok_inv in Hs as (? & _ & Hs). apply bind_Ok_inv in Hs as (? & _ & Hs).
    unfold add_target in Hs. apply bind_Ok_inv in Hs as (? & _ & [= <-]). exact HP.
  - done.
Qed.

Definition risk_event_added (s s' : q1_store) (row : risk_event_row) : Prop :=
  risk_only s s' ∧ risk_episodes (risk s') = risk_episodes (risk s) ∧ risk_events (risk s') = risk_events (risk s) ++ [row].

Lemma risk_append_spec s e database s' row :
  RiskEpisodes.append_event s e database = Ok (s', row) →
  (s' = s ∧ RiskEpisodes.event_of_key s (re_idempotency_key e) = Some row ∧ re_event_hash (rr_event row) = re_event_hash e) ∨
  ∃ id episode, RiskEpisodes.event_of_key s (re_idempotency_key e) = None ∧ re_source_cycle_id e = Some id ∧
    fence_open s id (re_worker_fence_token e) (re_cycle_attempt_count e) ∧
    get_episode s (re_risk_episode_id e) = Some episode ∧
    RiskEpisodes._validate_transition e (RiskEpisodes.latest_event s (re_risk_episode_id e)) = Ok () ∧
    rr_event row = e ∧ rr_run_id row = ep_run_id episode ∧ rr_arm_id row = Q1ArmId_value (ep_arm_id episode) ∧
    existsb (λ r, re_idempotency_key (rr_event r) =s re_idempotency_key e) (risk_events (risk s)) = false ∧
    existsb (λ r, (re_risk_episode_id (rr_event r) =s re_risk_episode_id e) && (re_event_sequence (rr_event r) =? re_event_sequence e))
      (risk_events (risk s)) = false ∧
    risk_event_added s s' row.
Proof.
  unfold RiskEpisodes.append_event. destruct (RiskEpisodes.event_of_key s (re_idempotency_key e)) as [r|] eqn:Ek.
  { intros Ha. apply bind_Ok_inv in Ha as (? & Hh%raise_if_Ok_inv%negb_false_iff%String.eqb_eq & [= <- <-]). by left. }
  destruct (re_source_cycle_id e) as [id|]; [|done]. intros Ha. apply bind_Ok_inv in Ha as (r & Hf%fence_ok & Ha).
  destruct (get_episode s (re_risk_episode_id e)) as [ep|] eqn:Ee; [|done]. apply bind_Ok_inv in Ha as ([] & Ht & Ha). apply bind_Ok_inv in Ha as (s1 & Hs1 & Ha).
  assert (risk_only s s1 ∧ risk_episodes (risk s1) = risk_episodes (risk s) ∧ risk_events (risk s1) = risk_events (risk s)) as (Ho & He & Hev).
  { destruct (bool_decide _); [by eapply append_targets_spec|]. injection Hs1 as <-. done. }
  apply bind_Ok_inv in Ha as (tid & _ & Ha). apply bind_Ok_inv in Ha as (s2 & Hadd & [= <- <-]).
  unfold add_risk_event in Hadd. apply bind_Ok_inv in Hadd as ([] & Hc%raise_if_Ok_inv & [= <-]). right. exists id, ep.
  do 5 (split; [done|]). do 3 (split; [done|]). unfold risk_event_conflict in Hc. cbn [rr_event] in Hc. rewrite Hev in Hc.
  do 4 apply orb_false_iff in Hc as [Hc _]. rewrite <- !not_true_iff_false, !existsb_exists in *.
  split; [intros (x & Hx & E); apply Hc; exists x; rewrite E, orb_true_r; done|].
  split; [intros (x & Hx & E); apply Hc; exists x; rewrite E, orb_true_r; done|].
  split; [exact Ho|]. cbn. by rewrite He, Hev.
Qed.

Lemma cash_append_spec s e database s' row :
  CashSettlements.append s e database = Ok (s', row) →
  s' = s ∨ (row = e ∧ fence_open s (cs_source_cycle_id e) (cs_worker_fence_token e) (cs_cycle_attempt_count e) ∧ cash_conflict s e = false ∧
    s' = with_cash s {| cash_events := cash_events (cash s) ++ [e]; arm_states := arm_states (cash s); navs := navs (cash s) |}).
Proof.
  unfold CashSettlements.append. destruct (CashSettlements.event_of_key s _) as [r|].
  { intros Ha. apply bind_Ok_inv in Ha as (? & _ & [= <- <-]). by left. }
  destruct (CashSettlements.identity_match s e) as [r|].
  { intros Ha. apply bind_Ok_inv in Ha as (? & _ & [= <- <-]). by left. }
  intros Ha. apply bind_Ok_inv in Ha as (r & Hf%fence_ok & Ha). apply bind_Ok_inv in Ha as (s1 & Hadd & [= <- <-]).
  unfold add_cash_event in Hadd. apply bind_Ok_inv in Hadd as ([] & Hc%raise_if_Ok_inv & [= <-]). by right.
Qed.

Lemma decision_append_spec s d database s' row :
  Decisions.append s d database = Ok (s', row) →
  s' = s ∨ (row = d ∧ fence_open s (sd_source_cycle_id d) (sd_worker_fence_token d) (sd_cycle_attempt_count d) ∧
    cycle_tables s' = cycle_tables s ∧ orders s' = orders s ∧ cash s' = cash s ∧ risk s' = risk s ∧ decisions (strategy s') = decisions (strategy s) ++ [d]).
Proof.
  unfold Decisions.append. destruct (get_decision s _) as [r|].
  { intros Ha. apply bind_Ok_inv in Ha as (? & _ & [= <- <-]). by left. }
  intros Ha. apply bind_Ok_inv in Ha as (r & Hf%fence_ok & Ha). apply bind_Ok_inv in Ha as (s1 & Hadd & [= <- <-]).
  unfold add_decision in Hadd. apply bind_Ok_inv in Hadd as ([] & _ & [= <-]). by right.
Qed.

Definition episode_added (s s' : q1_store) (episode : RiskEpisode) : Prop :=
  risk_only s s' ∧ risk_episodes (risk s') = risk_episodes (risk s) ++ [episode] ∧ risk_events (risk s') = risk_events (risk s).

Lemma episode_append_spec s ep e database s' row :
  RiskEpisodes.append_episode s ep e database = Ok (s', row) →
  s' = s ∨ ∃ s1 r, RiskEpisodes.active s (ep_run_id ep) (Q1ArmId_value (ep_arm_id ep)) = Ok None ∧ episode_added s s1 ep ∧
    get_episode s (ep_risk_episode_id ep) = None ∧ episode_conflict s ep = false ∧
    re_risk_episode_id e = ep_risk_episode_id ep ∧ re_event_type e = ACTIVATE ∧ re_severity e = ep_severity ep ∧
    RiskEpisodes.append_event s1 e database = Ok (s', r).
Proof.
  unfold RiskEpisodes.append_episode. intros Ha. apply bind_Ok_inv in Ha as ([] & Hm%raise_if_Ok_inv & Ha).
  destruct (get_episode s _) as [old|] eqn:Eg.
  { apply bind_Ok_inv in Ha as (? & _ & [= <- <-]). by left. }
  right. apply bind_Ok_inv in Ha as (current & Hact & Ha). apply bind_Ok_inv in Ha as ([] & Hc%raise_if_Ok_inv & Ha).
  destruct current; [done|]. apply bind_Ok_inv in Ha as (s1 & Hadd & Ha). apply bind_Ok_inv in Ha as (s2 & Ht & Ha).
  apply bind_Ok_inv in Ha as ([s3 r] & Hev & [= <- <-]). exists s2, r.
  unfold add_episode in Hadd. apply bind_Ok_inv in Hadd as ([] & Hconf%raise_if_Ok_inv & [= <-]).
  apply append_targets_spec in Ht as (Ho & He & Hr). apply orb_false_iff in Hm as [[[Hid Hty]%orb_false_iff Hsev]%orb_false_iff _].
  split_bool. apply String.eqb_eq in Hid. split_and!; try done; unfold episode_added; by rewrite He, Hr.
Qed.

(** The commands without a fence leave the fenced tables alone. *)
Definition fenced_tables_kept (s s' : q1_store) : Prop :=
  cycle_tables s' = cycle_tables s ∧ order_events (orders s') = order_events (orders s) ∧ cash_events (cash s') = cash_events (cash s)
  ∧ risk s' = risk s ∧ decisions (strategy s') = decisions (strategy s).

Lemma unfenced_kept s c s' :
  match c with QCycle _ | QDecision _ _ | QOrderEvent _ _ | QCash _ _ | QEpisode _ _ _ | QRiskEvent _ _ => False | _ => True end →
  run_q1 s c = Ok s' → fenced_tables_kept s s'.
Proof.
  destruct c; try done; intros _; unfold run_q1, CalendarSessions.append, add_calendar_session, Anchors.append, add_anchor, append_risk_approval,
    add_risk_decision, append_order_intent, add_intent, append_fill, add_fill, append_arm_state, add_arm_state, append_nav_snapshot, add_nav,
    EvaluationResults.append_daily, add_daily_result, EvaluationResults.append_matched, add_matched_result, fenced_tables_kept; intros Hr;
    solve_kept; simplify_eq; done.
Qed.

(** ** Fencing *)

(** The tables whose rows carry a fence token, and the cycle and attempt of each row. *)
Inductive fenced_table := DecisionTable | OrderEventTable | CashTable | RiskEventTable.

Definition tokens (t : fenced_table) (s : q1_store) : list (string * Z) :=
  match t with
  | DecisionTable => map (λ d, (sd_source_cycle_id d, sd_cycle_attempt_count d)) (decisions (strategy s))
  | OrderEventTable => omap (λ r, (λ id, (id, oe_cycle_attempt_count (er_event r))) <$> oe_source_cycle_id (er_event r)) (order_events (orders s))
  | CashTable => map (λ e, (cs_source_cycle_id e, cs_cycle_attempt_count e)) (cash_events (cash s))
  | RiskEventTable => omap (λ r, (λ id, (id, re_cycle_attempt_count (rr_event r))) <$> re_source_cycle_id (rr_event r)) (risk_events (risk s))
  end.

Lemma tokens_kept t s s' : fenced_tables_kept s s' → tokens t s' = tokens t s.
Proof. intros (_ & Ho & Hc & Hr & Hd). destruct t; cbn; by rewrite ?Ho, ?Hc, ?Hr, ?Hd. Qed.

Definition writes (c : q1_command) (s s' : q1_store) (t : fenced_table) : Prop :=
  tokens t s' = tokens t s ∨
  ∃ id owner n, fenced_by c = Some (id, owner, n) ∧ fence_open s id owner n ∧ tokens t s' = tokens t s ++ [(id, n)].

Lemma fence_open_cycles s s' id owner n : cycle_tables s' = cycle_tables s → fence_open s' id owner n → fence_open s id owner n.
Proof. intros E (row & now & Hg & Hh). rewrite E in Hg. by exists row, now. Qed.

Lemma risk_event_writes c s s1 e database s' r :
  RiskEpisodes.append_event s1 e database = Ok (s', r) → cycle_tables s1 = cycle_tables s →
  fenced_by c = (λ id, (id, re_worker_fence_token e, re_cycle_attempt_count e)) <$> re_source_cycle_id e →
  (∀ t, tokens t s1 = tokens t s) → cycle_tables s' = cycle_tables s ∧ ∀ t, writes c s s' t.
Proof.
  intros Ha Hct Hf Ht. apply risk_append_spec in Ha as [[-> _]|(id & ep & _ & Hid & Ho & _ & _ & He & _ & _ & _ & _ & (Hc & Hor & Hca & Hst) & _ & Hev)].
  { split; [done|]. intros t. left. apply Ht. }
  split; [congruence|]. rewrite Hid in Hf. intros t. unfold writes. rewrite <- Ht.
  destruct t; cbn; rewrite ?Hst, ?Hor, ?Hca; [by left|by left|by left|]. right. exists id, (re_worker_fence_token e), (re_cycle_attempt_count e).
  split; [done|]. split; [by eapply fence_open_cycles|]. rewrite Hev, omap_app. cbn. by rewrite He, Hid.
Qed.

Lemma repository_writes s c s' :
  match c with QCycle _ => False | _ => True end → run_q1 s c = Ok s' → cycle_tables s' = cycle_tables s ∧ ∀ t, writes c s s' t.
Proof.
  intros Hc Hr. pose proof (unfenced_kept s c s') as Hk. destruct c; try done;
    try (specialize (Hk I Hr); split; [apply Hk|intros t; left; by apply tokens_kept]); clear Hk; cbn [run_q1] in Hr;
    apply bind_Ok_inv in Hr as ([s1 row] & Ha & [= ->]).
  - apply decision_append_spec in Ha as [->|(-> & Ho & Hct & Hor & Hca & Hri & Hd)]; [by split; [|left]|]. split; [done|].
    intros t. unfold writes. destruct t; cbn; rewrite ?Hor, ?Hca, ?Hri; try (by left). right. do 3 eexists. split; [reflexivity|]. split; [done|].
    by rewrite Hd, map_app.
  - apply order_append_spec in Ha as [[-> _]|(id & intent & _ & Hid & Ho & _ & _ & -> & _ & ->)]; [by split; [|left]|]. split; [done|].
    intros t. unfold writes. destruct t; try (by left). right. exists id, (oe_worker_fence_token event), (oe_cycle_attempt_count event).
    cbn. rewrite Hid. split; [done|]. split; [done|]. rewrite omap_app. cbn. by rewrite Hid.
  - apply cash_append_spec in Ha as [->|(-> & Ho & _ & ->)]; [by split; [|left]|]. split; [done|].
    intros t. unfold writes. destruct t; try (by left). right. do 3 eexists. split; [reflexivity|]. split; [done|]. cbn. by rewrite map_app.
  - apply episode_append_spec in Ha as [->|(s2 & r & _ & ((Hct & Hor & Hca & Hst) & _ & Hev) & _ & _ & _ & _ & _ & Ha)]; [by split; [|left]|].
    eapply risk_event_writes; [exact Ha|done|done|]. intros t. destruct t; cbn; by rewrite ?Hst, ?Hor, ?Hca, ?Hev.
  - eapply risk_event_writes; [exact Ha|done|done|done].
Qed.

(** The cycle table runs on its own. *)
Definition cycle_command (c : q1_command) : option command := match c with QCycle c => Some c | _ => None end.

Lemma cycle_tables_commit s c :
  cycle_tables (commit_q1 s c) = match cycle_command c with Some cc => commit (cycle_tables s) cc | None => cycle_tables s end.
Proof.
  unfold commit_q1. destruct (cycle_command c) as [cc|] eqn:Ec.
  - destruct c; try done. injection Ec as ->. unfold run_q1, commit. by destruct (run_command _ _).
  - destruct (run_q1 s c) eqn:Er; [|done]. apply (repository_writes s c); [by destruct c|done].
Qed.

Lemma cycle_tables_run s cs : cycle_tables (run_q1_commands s cs) = run_commands (cycle_tables s) (omap cycle_command cs).
Proof.
  revert s. induction cs as [|c cs IH]; intros s; [done|]. cbn [run_q1_commands fold_left]. fold (run_q1_commands (commit_q1 s c) cs).
  rewrite IH, cycle_tables_commit. cbn. by destruct (cycle_command c).
Qed.

Lemma run_q1_app s cs1 cs2 : run_q1_commands s (cs1 ++ cs2) = run_q1_commands (run_q1_commands s cs1) cs2.
Proof. apply fold_left_app. Qed.

Lemma cycle_tables_ok rs cs : cycles_ok (cycle_tables (run_q1_commands (empty_q1 rs) cs)).
Proof. rewrite cycle_tables_run. apply cycles_run_ok, empty_ok. Qed.

(** A property that the empty tables have and every committed command keeps. *)
Lemma run_q1_invariant (P : q1_store → Prop) rs cs :
  P (empty_q1 rs) → (∀ s c s', cycles_ok (cycle_tables s) → c ∈ cs → P s → run_q1 s c = Ok s' → P s') → P (run_q1_commands (empty_q1 rs) cs).
Proof.
  intros H0 Hstep. assert (∀ cs1 cs2, cs = cs1 ++ cs2 → P (run_q1_commands (empty_q1 rs) cs1)) as Hall; [|by apply (Hall cs []); rewrite app_nil_r].
  intros cs1. induction cs1 as [|c cs1 IH] using rev_ind; intros cs2 E; [done|]. rewrite run_q1_app. cbn. unfold commit_q1.
  destruct (run_q1 _ c) as [s'|] eqn:Er.
  - eapply Hstep; [apply cycle_tables_ok| |apply (IH ([c] ++ cs2)); by rewrite app_assoc|exact Er].
    rewrite E. set_solver.
  - apply (IH ([c] ++ cs2)). by rewrite app_assoc.
Qed.

(** The attempts of a cycle never decrease. *)
Lemma command_attempts t c t' id row :
  cycles_ok t → run_command t c = Ok t' → get_cycle t id = Some row →
  ∃ row', get_cycle t' id = Some row' ∧ pc_attempt_count row <= pc_attempt_count row'.
Proof.
  intros Hok Hr Hg. destruct (command_change _ _ _ Hok Hr) as [E|_ _ Hold _|r r' Hg' Hid Hrow ->].
  - exists row. unfold get_cycle in *. rewrite E. done.
  - exists row. split; [by apply Hold|lia].
  - rewrite get_update, Hg. destruct (String.eqb_spec id (pc_cycle_id r')) as [->|]; [|eexists; split; [done|lia]].
    rewrite Hid, Hg' in Hg. injection Hg as ->. eexists. split; [reflexivity|].
    destruct Hrow as [a locked now _ _ ->|a locked now _ _ ->|owner attempt now _ _ _ [(?&?&?&?& ->)|[(?&?&?& ->)|(?&?&?&?& ->)]]]; cbn; lia.
Qed.

(** Rows in the order of their insertion: a later row of the same cycle has no smaller attempt, and none exceeds the cycle's. *)
Definition in_attempt_order : list (string * Z) → Prop := StronglySorted (λ a b, a.1 = b.1 → a.2 <= b.2).
Definition attempts_known (s : q1_store) (l : list (string * Z)) : Prop :=
  Forall (λ a, ∃ row, get_cycle (cycle_tables s) a.1 = Some row ∧ a.2 <= pc_attempt_count row) l.

Lemma StronglySorted_snoc {A} (R : A → A → Prop) l a : StronglySorted R l → Forall (λ b, R b a) l → StronglySorted R (l ++ [a]).
Proof.
  induction 1 as [|b l Hs IH Hf]; intros Hl; cbn; [repeat constructor|]. inversion Hl; subst. constructor; [by apply IH|].
  apply Forall_app. split; [done|]. by repeat constructor.
Qed.

Lemma attempts_run rs cs t :
  let s := run_q1_commands (empty_q1 rs) cs in attempts_known s (tokens t s) ∧ in_attempt_order (tokens t s).
Proof.
  apply (run_q1_invariant (λ s, attempts_known s (tokens t s) ∧ in_attempt_order (tokens t s))).
  { destruct t; split; constructor. }
  intros s c s' Hok _ [Hk Ho] Hr. destruct (cycle_command c) as [cc|] eqn:Ec.
  - destruct c; try done. cbn [run_q1] in Hr. apply bind_Ok_inv in Hr as (t' & Hc & [= <-]).
    replace (tokens t (with_cycle_tables s t')) with (tokens t s) by (by destruct t). split; [|done].
    eapply Forall_impl; [exact Hk|]. intros a (row & Hg & Hle). destruct (command_attempts _ _ _ _ _ Hok Hc Hg) as (row' & Hg' & Hle').
    exists row'. split; [done|lia].
  - destruct (repository_writes s c s') as [Hct Hw]; [by destruct c|done|]. unfold attempts_known. rewrite Hct.
    destruct (Hw t) as [->|(id & owner & n & _ & (row & now & Hg & Hh) & ->)]; [done|].
    apply held_status in Hh as (_ & _ & <- & _). split.
    + apply Forall_app. split; [done|]. constructor; [|done]. exists row. cbn. split; [done|lia].
    + apply StronglySorted_snoc; [done|]. eapply Forall_impl; [exact Hk|]. intros a (row' & Hg' & Hle) E. cbn in E |- *. rewrite E, Hg in Hg'. by injection Hg' as <-.
Qed.

(** Risk events refer to stored episodes, and repeat their run and arm. *)
Definition risk_fk (s : q1_store) : Prop :=
  ∀ r, r ∈ risk_events (risk s) → ∃ ep, get_episode s (re_risk_episode_id (rr_event r)) = Some ep
    ∧ rr_run_id r = ep_run_id ep ∧ rr_arm_id r = Q1ArmId_value (ep_arm_id ep).

Lemma get_episode_added s s1 ep id : episode_added s s1 ep → get_episode s (ep_risk_episode_id ep) = None →
  get_episode s1 id = match get_episode s id with Some e => Some e | None => if ep_risk_episode_id ep =s id then Some ep else None end.
Proof. intros (_ & He & _) _. unfold get_episode. rewrite He, find_snoc. done. Qed.

Lemma risk_fk_event s e database s' row : risk_fk s → RiskEpisodes.append_event s e database = Ok (s', row) → risk_fk s'.
Proof.
  intros Hfk [[-> _]|(id & ep & _ & _ & _ & Hg & _ & He & Hrun & Harm & _ & _ & _ & Hep & Hev)]%risk_append_spec; [done|].
  intros r. rewrite Hev. intros Hr. assert (∀ id, get_episode s' id = get_episode s id) as Eg by (intros; unfold get_episode; by rewrite Hep).
  rewrite Eg. apply elem_of_app in Hr as [Hr|Hr%list_elem_of_singleton]; [by apply Hfk|]. subst r. rewrite He. by exists ep.
Qed.

Lemma risk_fk_episode s s1 ep : risk_fk s → episode_added s s1 ep → get_episode s (ep_risk_episode_id ep) = None → risk_fk s1.
Proof.
  intros Hfk Hadd Hnone r. pose proof Hadd as (_ & _ & Hev). rewrite Hev. intros Hr. destruct (Hfk r Hr) as (e & He & Hrun).
  exists e. by rewrite (get_episode_added _ _ _ _ Hadd Hnone), He.
Qed.

(** Only the risk commands change the risk tables. *)
Lemma risk_unchanged s c s' :
  match c with QEpisode _ _ _ | QRiskEvent _ _ => False | _ => True end → run_q1 s c = Ok s' → risk s' = risk s.
Proof.
  intros Hc Hr. destruct c; try done; try (by eapply unfenced_kept in Hr as (_ & _ & _ & Hk & _)); cbn [run_q1] in Hr.
  - by apply bind_Ok_inv in Hr as (t & _ & [= <-]).
  - apply bind_Ok_inv in Hr as ([s1 row] & Ha & [= ->]). by apply decision_append_spec in Ha as [->|(_ & _ & _ & _ & _ & ? & _)].
  - apply bind_Ok_inv in Hr as ([s1 row] & Ha & [= ->]). by apply order_append_spec in Ha as [[-> _]|(id & intent & _ & _ & _ & _ & _ & _ & _ & ->)].
  - apply bind_Ok_inv in Hr as ([s1 row] & Ha & [= ->]). by apply cash_append_spec in Ha as [->|(_ & _ & _ & ->)].
Qed.

Lemma risk_fk_run rs cs : risk_fk (run_q1_commands (empty_q1 rs) cs).
Proof.
  apply run_q1_invariant; [by intros r Hr%elem_of_nil|]. intros s c s' _ _ Hfk Hr. destruct c; try (
    apply risk_unchanged in Hr as E; [|done]; intros r; unfold get_episode; rewrite E; apply Hfk); cbn [run_q1] in Hr;
    apply bind_Ok_inv in Hr as ([s1 row] & Ha & [= ->]).
  - apply episode_append_spec in Ha as [->|(s2 & r & _ & Hadd & Hn & _ & _ & _ & _ & Ha)]; [done|].
    eapply risk_fk_event; [|exact Ha]. by eapply risk_fk_episode.
  - by eapply risk_fk_event.
Qed.

(** An activation whose key a stored event of another episode has, with the same hash: a collision. *)
Definition key_collision (s : q1_store) (c : q1_command) : Prop :=
  ∃ ep e database r, c = QEpisode ep e database ∧ r ∈ risk_events (risk s) ∧ re_idempotency_key (rr_event r) = re_idempotency_key e ∧
    re_event_hash (rr_event r) = re_event_hash e ∧ re_risk_episode_id (rr_event r) ≠ re_risk_episode_id e.

(** A write needs an open fence. *)
Lemma closed_fence_writes_nothing s c id owner n :
  risk_fk s → fenced_by c = Some (id, owner, n) → cycle_command c = None → (¬ fence_open s id owner n) → commit_q1 s c = s ∨ key_collision s c.
Proof.
  intros Hfk Hf Hc Hno. unfold commit_q1. destruct (run_q1 s c) as [s'|] eqn:Er; [|by left]. destruct c; try done; cbn [run_q1] in Er;
    apply bind_Ok_inv in Er as ([s1 row] & Ha & [= ->]); cbn in Hf.
  - injection Hf as <- <- <-. left. by apply decision_append_spec in Ha as [->|(_ & Ho & _)].
  - left. apply order_append_spec in Ha as [[-> _]|(id' & intent & _ & Hid & Ho & _)]; [done|]. rewrite Hid in Hf. by injection Hf as <- <- <-.
  - injection Hf as <- <- <-. left. by apply cash_append_spec in Ha as [->|(_ & Ho & _)].
  - apply episode_append_spec in Ha as [->|(s2 & r & _ & Hadd & Hn & _ & Hid & _ & _ & Ha)]; [by left|].
    pose proof Hadd as ((Hct & _) & _ & Hev). apply risk_append_spec in Ha as [(-> & Hk & Hh)|(id' & ep & _ & Hcy & Ho & _)].
    + right. unfold RiskEpisodes.event_of_key in Hk. apply find_elem in Hk as [Hin Hk%String.eqb_eq]. rewrite Hev in Hin.
      exists episode, activation, database, r. split_and!; try done. destruct (Hfk _ Hin) as (ep & Hep & _). rewrite Hid. intros E. by rewrite E, Hn in Hep.
    + rewrite Hcy in Hf. injection Hf as <- <- <-. by eapply fence_open_cycles in Ho.
  - left. apply risk_append_spec in Ha as [[-> _]|(id' & ep & _ & Hid & Ho & _)]; [done|]. rewrite Hid in Hf. by injection Hf as <- <- <-.
Qed.

(** ** Transactions of several commands *)

(** Every command of a list succeeds. *)
Definition run_all (s : q1_store) (cs : list q1_command) : res q1_store := foldM run_q1 s cs.

Lemma run_all_app s cs1 cs2 s1 s2 : run_all s cs1 = Ok s1 → run_all s1 cs2 = Ok s2 → run_all s (cs1 ++ cs2) = Ok s2.
Proof. revert s. induction cs1 as [|c cs1 IH]; intros s; cbn; [by intros [= ->]|]. intros (s' & Hc & Hr)%bind_Ok_inv H2. rewrite Hc. by apply IH. Qed.

Lemma run_all_commits s cs s' : run_all s cs = Ok s' → run_q1_commands s cs = s'.
Proof.
  revert s. induction cs as [|c cs IH]; intros s; cbn; [by intros [= ->]|]. intros (s1 & Hc & Hr)%bind_Ok_inv. unfold commit_q1. rewrite Hc. by apply IH.
Qed.

(** After its fenced completion a cycle can be locked by nobody, whatever other transactions commit. *)
Lemma completed_cycle_refuses rs cs0 id owner attempt now database locked cutoff input output completed_at t s1 cs owner' attempt' now' database' :
  require_cycle_fence (cycle_tables (run_q1_commands (empty_q1 rs) cs0)) id owner attempt now database = Ok locked →
  complete_fenced_cycle (cycle_tables (run_q1_commands (empty_q1 rs) cs0)) locked cutoff input output completed_at = Ok t → cycle_tables s1 = t →
  is_ok (require_cycle_fence (cycle_tables (run_q1_commands s1 cs)) id owner' attempt' now' database') = false.
Proof.
  intros Hl Ht Es. assert (get_cycle (cycle_tables (run_q1_commands (empty_q1 rs) cs0)) id = Some locked) as Hg.
  { unfold require_cycle_fence in Hl. destruct (get_cycle _ _) as [r|]; [|done]. apply bind_Ok_inv in Hl as (? & _ & Hl). by apply bind_Ok_inv in Hl as (? & _ & [= <-]). }
  pose proof (get_cycle_id _ _ _ Hg) as Eid. pose proof Ht as Ht'. unfold complete_fenced_cycle in Ht. do 2 apply bind_Ok_inv in Ht as (? & _ & Ht).
  apply bind_Ok_inv in Ht as (i & _ & Ht). apply bind_Ok_inv in Ht as (o & _ & [= <-]).
  set (c1 := update_cycle _ _) in *. assert (state c1 id = Some (Completed i o)) as Hst.
  { unfold c1. erewrite state_update; [|cbn; rewrite Eid; exact Hg]. cbn. by rewrite Eid, String.eqb_refl. }
  assert (cycles_ok c1) as Hok.
  { eapply (command_ok _ (KFenced id owner attempt now database cutoff input output completed_at)); [apply cycle_tables_ok|].
    cbn [run_command]. rewrite Hl. exact Ht'. }
  rewrite cycle_tables_run, Es. destruct (run_superseded c1 (omap cycle_command cs) _ attempt' _ Hok Hst I) as (y & Hy & Hs).
  by destruct (superseded_fences _ _ _ _ owner' now' database' Hy Hs) as [Hf _].
Qed.

End runs.

(** ** Theorems *)

(** C30: fencing tokens are monotone.  In each of the tables that carry a fence token the rows of a cycle appear in the order of its
    attempts: once a reclaimed cycle has written under its new attempt, no row of an earlier attempt follows; and no row is ahead of the
    cycle. *)
Theorem attempts_in_order `{Digest} rs cs t :
  let s := run_q1_commands (empty_q1 rs) cs in attempts_known s (tokens t s) ∧ in_attempt_order (tokens t s).
Proof. apply attempts_run. Qed.

(** C16: a worker whose lease is over writes nothing.  Once its cycle is finished, waits after its attempt or runs a later one, no command
    of that attempt changes a trading table or a cycle, however much later and whatever happened in between, unless two risk events of
    different episodes share key and hash. *)
Theorem stale_worker_writes_nothing `{Digest} rs cs0 cs c id owner n x :
  let s := run_q1_commands (empty_q1 rs) cs0 in let s' := run_q1_commands s cs in
  state (cycle_tables s) id = Some x → superseded n x → fenced_by c = Some (id, owner, n) →
  let s2 := commit_q1 s' c in
  orders s2 = orders s' ∧ cash s2 = cash s' ∧ risk s2 = risk s' ∧ strategy s2 = strategy s' ∧ cycles (cycle_tables s2) = cycles (cycle_tables s')
  ∨ key_collision s' c.
Proof.
  intros s s' Hx Hs Hf s2. pose proof (cycle_tables_ok rs cs0) as Hok. fold s in Hok.
  destruct (run_superseded _ (omap cycle_command cs) _ _ _ Hok Hx Hs) as (y & Hy & Hsy). rewrite <- cycle_tables_run in Hy. fold s' in Hy.
  assert (cycles_ok (cycle_tables s')) as Hok' by (unfold s'; rewrite cycle_tables_run; by apply cycles_run_ok).
  destruct (cycle_command c) as [cc|] eqn:Ec.
  - left. destruct c; try done. injection Ec as ->. cbn [fenced_by] in Hf. pose proof (superseded_no_effect _ _ _ _ _ _ Hok' Hy Hsy Hf) as Hc.
    unfold s2, commit_q1. cbn [run_q1]. unfold commit in Hc. destruct (run_command (cycle_tables s') cc); done.
  - destruct (closed_fence_writes_nothing s' c id owner n) as [E|Hc]; [|done|done| | |by right].
    + unfold s', s. rewrite <- run_q1_app. apply risk_fk_run.
    + intros (row & now & Hg & Hh). by rewrite (superseded_not_held _ _ _ _ _ _ _ Hy Hsy Hg) in Hh.
    + left. unfold s2. by rewrite E.
Qed.

(** ** A concrete run *)

#[local] Existing Instance rolling_digest.
#[local] Existing Instance ex_new_york.

(** The first worker's event arrives after another worker has taken the cycle. *)
Definition ex_late : OrderEvent := {|
  oe_event_id := "e"; oe_order_intent_id := "o"; oe_event_type := CREATED; oe_event_sequence := 1; oe_quantity_delta := d0;
  oe_commission_delta_usd := d0; oe_remaining_quantity := d1; oe_cumulative_filled_quantity := d0; oe_cumulative_commission_usd := d0;
  oe_occurred_at := ex_at 16; oe_available_at := ex_at 16; oe_idempotency_key := "k"; oe_reason := None; oe_source_id := None; oe_quote_id := None;
  oe_source_cycle_id := Some ex_id; oe_worker_fence_token := "a"; oe_cycle_attempt_count := 1; oe_event_hash := "h";
  oe_versioned := {| algorithm_version := Q1_ALGORITHM_VERSION; config_manifest_hash := "c"; code_version := "1"; model_version := "m";
                     source_manifest_hash := "s" |} |}.

Lemma stale_worker_writes_nothing_witness :
  orders (commit_q1 (run_q1_commands (empty_q1 ["run"%string]) (map QCycle ex_reclaimed)) (QOrderEvent ex_late None))
  = orders (run_q1_commands (empty_q1 ["run"%string]) (map QCycle ex_reclaimed)).
Proof.
  destruct (stale_worker_writes_nothing ["run"%string] (map QCycle ex_reclaimed) [] (QOrderEvent ex_late None) ex_id "a" 1
    (Held "b" 2 (instant (ex_at 16) + minutes 45))) as [(Ho & _)|(ep & e & database & r & E & _)].
  - rewrite cycle_tables_run. exact ex_taken.
  - cbn. lia.
  - reflexivity.
  - exact Ho.
  - discriminate E.
Defined.
