(* ===== verification/TradingOrders.v ===== *)
(** * Stored order streams

    What the order tables hold after any run of the commands of [TradingRuns]: every stored stream is a valid history of its order, events
    that a worker prepared from the stored book are accepted and extend it, those prepared from an older book are refused, and the pending
    orders of the database are those of [OrderState]. *)
From Stdlib Require Import ZArith Lia Ascii String Sorting.Sorted QArith Lqa.
From stdpp Require Import base list strings numbers sets.
From S2P Require Import Prelude PyDecimal Hashing Domain Text OrderState RiskMachine ArmState Payload.
From S2P Require Import Reconciliation Planning Schedule Cycles CycleStore CycleLifecycle Q1Records Q1Store TradingRuns.
Set Default Goal Selector "!".
Open Scope Z_scope.

(** ** Streams *)

Definition rows_of (s : q1_store) (id : string) : list order_event_row :=
  List.filter (λ r, oe_order_intent_id (er_event r) =s id) (order_events (orders s)).
Definition row_sequence (r : order_event_row) : Z := oe_event_sequence (er_event r).

(** Every event of a stream was valid after the events before it. *)
Definition stored_stream (intent : order_intent_row) (l : list order_event_row) : Prop :=
  ∀ l1 r l2, l = l1 ++ r :: l2 → OrderEvents._validate_transition (er_event r) intent (last l1) = Ok ().

(** The transition that a stored event made. *)
Record created_event (q : dec) (e : OrderEvent) : Prop := {
  ce_sequence : oe_event_sequence e = 1;
  ce_type : oe_event_type e = CREATED;
  ce_filled : (oe_cumulative_filled_quantity e =? d0)%dec = true;
  ce_remaining : (oe_remaining_quantity e =? q)%dec = true;
  ce_commission : (oe_cumulative_commission_usd e =? d0)%dec = true;
}.

Definition fill_delta (e : OrderEvent) : bool := is_fill_event (oe_event_type e).
Record next_event (latest e : OrderEvent) : Prop := {
  ne_open : is_terminal_order_event (oe_event_type latest) = false;
  ne_sequence : oe_event_sequence e = oe_event_sequence latest + 1;
  ne_filled : (oe_cumulative_filled_quantity e =? (if fill_delta e then oe_cumulative_filled_quantity latest + oe_quantity_delta e
                                                  else oe_cumulative_filled_quantity latest))%dec = true;
  ne_remaining : (oe_remaining_quantity e =? (if fill_delta e then oe_remaining_quantity latest - oe_quantity_delta e
                                             else oe_remaining_quantity latest))%dec = true;
  ne_commission : (oe_cumulative_commission_usd e =? oe_cumulative_commission_usd latest + oe_commission_delta_usd e)%dec = true;
}.

Lemma transition_created e intent :
  OrderEvents._validate_transition e intent None = Ok () ↔ ∃ q, ir_quantity intent = Some q ∧ created_event q e ∧ (oe_quantity_delta e =? d0)%dec = true.
Proof.
  unfold OrderEvents._validate_transition. destruct (ir_quantity intent) as [q|]; [|split; [done|by intros (? & ? & _)]]. split.
  - intros Hv. apply bind_Ok_inv in Hv as ([] & [H1 H2]%raise_if_Ok_inv%orb_false_iff & [[[H3 H4]%orb_false_iff H5]%orb_false_iff H6]%raise_if_Ok_inv%orb_false_iff).
    split_bool. exists q. split; [done|]. split; [|done]. split; try done. lia.
  - intros (q' & [= <-] & [H1 H2 H3 H4 H5] & H6). rewrite H1, H2, H3, H4, H5, H6. done.
Qed.

Lemma transition_next e intent latest :
  OrderEvents._validate_transition e intent (Some latest) = Ok () ↔ is_Some (ir_quantity intent) ∧ next_event (er_event latest) e.
Proof.
  unfold OrderEvents._validate_transition. destruct (ir_quantity intent) as [q|]; [|split; [done|by intros [[? ?] _]]]. split.
  - intros Hv. apply bind_Ok_inv in Hv as ([] & H1%raise_if_Ok_inv & Hv). apply bind_Ok_inv in Hv as ([] & H2%raise_if_Ok_inv%negb_false_iff & Hv).
    apply bind_Ok_inv in Hv as ([] & H3%raise_if_Ok_inv%negb_false_iff & Hv). apply bind_Ok_inv in Hv as ([] & H4%raise_if_Ok_inv%negb_false_iff & H5%raise_if_Ok_inv%negb_false_iff).
    split; [done|]. split; try done. lia.
  - intros [_ [H1 H2 H3 H4 H5]]. unfold fill_delta in *. rewrite H1, H2, Z.eqb_refl, H3, H4, H5. done.
Qed.

Lemma stored_stream_snoc intent l r :
  stored_stream intent (l ++ [r]) ↔ stored_stream intent l ∧ OrderEvents._validate_transition (er_event r) intent (last l) = Ok ().
Proof.
  split.
  - intros Hs. split; [|by apply (Hs l r [])]. intros l1 r1 l2 ->. apply (Hs l1 r1 (l2 ++ [r])). by rewrite <- app_assoc.
  - intros [Hs Hr] l1 r1 l2 E. destruct l2 as [|r2 l2 _] using rev_ind.
    + apply app_inj_tail in E as [<- <-]. done.
    + rewrite app_comm_cons, app_assoc in E. apply app_inj_tail in E as [-> _]. by apply (Hs l1 r1 l2).
Qed.

Lemma stored_stream_sequences intent l : stored_stream intent l → contiguous row_sequence 1 l = true.
Proof.
  induction l as [|r l IH] using rev_ind; intros Hs; [done|]. apply stored_stream_snoc in Hs as [Hl Hr]. rewrite contiguous_app, IH by done.
  cbn [contiguous]. rewrite andb_true_r, andb_true_l. apply Z.eqb_eq. destruct (last l) as [latest|] eqn:El.
  - apply transition_next in Hr as [_ Hn]. unfold row_sequence at 1. rewrite (ne_sequence _ _ Hn).
    rewrite (contiguous_last row_sequence 1 l latest (IH Hl) El) at 1. unfold row_sequence. lia.
  - apply last_None in El as ->. apply transition_created in Hr as (q & _ & Hc & _). unfold row_sequence. rewrite (ce_sequence _ _ Hc). done.
Qed.

(** Only the last event of a stream can be terminal. *)
Lemma stored_stream_open intent l l1 r l2 :
  stored_stream intent l → l = l1 ++ r :: l2 → l2 ≠ [] → is_terminal_order_event (oe_event_type (er_event r)) = false.
Proof.
  intros Hs -> Hne. destruct l2 as [|r2 l2]; [done|]. specialize (Hs (l1 ++ [r]) r2 l2). rewrite <- app_assoc in Hs. specialize (Hs eq_refl).
  rewrite last_snoc in Hs. apply transition_next in Hs as [_ Hn]. apply (ne_open _ _ Hn).
Qed.

(** The events hold amounts on the grid of [k] decimal places. *)
Definition stream_on_grid (k : Z) (q : dec) (l : list order_event_row) : Prop :=
  0 <= k ∧ on_grid k q ∧ 0 < units k q < LIMIT ∧
  Forall (λ r, on_grid k (oe_quantity_delta (er_event r)) ∧ units k (oe_quantity_delta (er_event r)) < LIMIT
               ∧ on_grid k (oe_remaining_quantity (er_event r)) ∧ on_grid k (oe_cumulative_filled_quantity (er_event r))) l.

Lemma valid_event_nonneg e : validate_OrderEvent e = Ok e →
  (0 <= dval (oe_remaining_quantity e))%Q ∧ (is_fill_event (oe_event_type e) = true → (0 < dval (oe_quantity_delta e))%Q).
Proof.
  unfold validate_OrderEvent, invalid. intros Hv. inv_ok. split.
  - match goal with E : (oe_remaining_quantity e <? d0)%dec = false |- _ => apply dltb_ge in E; by rewrite dval_d0 in E end.
  - intros Hf. rewrite Hf in *. match goal with E : true && (oe_quantity_delta e <=? d0)%dec = false |- _ => cbn in E; apply dleb_gt in E; by rewrite dval_d0 in E end.
Qed.

Lemma units_nonneg k d : on_grid k d → (0 <= dval d)%Q → 0 <= k → 0 <= units k d.
Proof. intros Hg Hd Hk. rewrite <- (units_d0 k). apply (dval_units_le k); [by apply on_grid_d0|done|by rewrite dval_d0]. Qed.

(** What remains and what is filled add up to the order. *)
Lemma stored_stream_conserves k q intent l r :
  ir_quantity intent = Some q → stream_on_grid k q l → Forall (λ r, validate_OrderEvent (er_event r) = Ok (er_event r)) l → stored_stream intent l →
  last l = Some r →
  0 <= units k (oe_remaining_quantity (er_event r)) ∧ 0 <= units k (oe_cumulative_filled_quantity (er_event r)) ∧
  units k (oe_remaining_quantity (er_event r)) + units k (oe_cumulative_filled_quantity (er_event r)) = units k q.
Proof.
  intros Hq (Hk & Gq & Hlim & Hg). revert r. induction l as [|r' l IH] using rev_ind; intros r Hv Hs Hl; [done|].
  rewrite last_snoc in Hl. injection Hl as ->. apply Forall_app in Hg as [Hg (Gd & Ud & Gr & Gf)%Forall_inv].
  apply Forall_app in Hv as [Hv Hvr%Forall_inv].
  apply stored_stream_snoc in Hs as [Hs Hr]. apply valid_event_nonneg in Hvr as [Hrem Hpos]. pose proof (units_nonneg _ _ Gr Hrem Hk) as H0.
  destruct (last l) as [latest|] eqn:El.
  - destruct (IH Hg latest Hv Hs eq_refl) as (H1 & H2 & H3). apply transition_next in Hr as [_ [_ _ Hf Hre _]].
    assert (on_grid k (oe_remaining_quantity (er_event latest)) ∧ on_grid k (oe_cumulative_filled_quantity (er_event latest))) as [Gr' Gf'].
    { apply last_Some_elem_of in El. rewrite Forall_forall in Hg. by destruct (Hg _ El) as (_ & _ & ? & ?). }
    unfold fill_delta in *. destruct (is_fill_event _).
    + assert (0 < units k (oe_quantity_delta (er_event r))) as Hd.
      { apply Z.lt_nge. rewrite <- (units_d0 k), <- (dval_units_le k) by (done || by apply on_grid_d0). rewrite dval_d0. apply Qlt_not_le, Hpos, eq_refl. }
      destruct (Z.le_gt_cases (units k (oe_quantity_delta (er_event r))) (units k (oe_remaining_quantity (er_event latest)))) as [Hle|Hgt].
      * destruct (fill_units k _ _ _ (units k q) Gr' Gf' Gd H1 H2 H3 Hlim (conj Hd Hle)) as (G1 & G2 & U1 & U2 & _).
        rewrite (deqb_units k) in Hf, Hre by done. apply Z.eqb_eq in Hf, Hre. lia.
      * destruct (dsub_units k _ _ Gr' Gd) as [G U]; [lia|]. rewrite (deqb_units k) in Hre by done. apply Z.eqb_eq in Hre. lia.
    + rewrite (deqb_units k) in Hf, Hre by done. apply Z.eqb_eq in Hf, Hre. lia.
  - apply transition_created in Hr as (q' & Hq' & [_ _ Hf Hre _] & _). rewrite Hq in Hq'. injection Hq' as <-.
    rewrite (deqb_units k) in Hf, Hre by (done || by apply on_grid_d0). apply Z.eqb_eq in Hf, Hre. rewrite units_d0 in Hf. lia.
Qed.

(** ** The order tables after a run *)

(** The events come from the validating constructor. *)
Definition valid_command (c : q1_command) : Prop := match c with QOrderEvent e _ => validate_OrderEvent e = Ok e | _ => True end.

Record orders_ok (s : q1_store) : Prop := {
  ok_intent_ids : NoDup (map (λ r, qi_order_intent_id (ir_intent r)) (order_intents (orders s)));
  ok_event_ids : NoDup (map (λ r, oe_event_id (er_event r)) (order_events (orders s)));
  ok_event_keys : NoDup (map (λ r, oe_idempotency_key (er_event r)) (order_events (orders s)));
  ok_intent_of : ∀ r, r ∈ order_events (orders s) → ∃ intent, get_intent s (oe_order_intent_id (er_event r)) = Some intent
    ∧ er_run_id r = qi_run_id (ir_intent intent) ∧ er_arm_id r = Q1ArmId_value (qi_arm_id (ir_intent intent));
  ok_valid : Forall (λ r, validate_OrderEvent (er_event r) = Ok (er_event r)) (order_events (orders s));
  ok_quantity : ∀ id intent, get_intent s id = Some intent → ir_quantity intent = Some (qi_quantity (ir_intent intent));
  ok_streams : ∀ id intent, get_intent s id = Some intent → stored_stream intent (rows_of s id);
}.

Section runs.
Context `{Digest}.

(** The order tables change in these ways only. *)
Inductive order_change (c : q1_command) (s s' : q1_store) : Prop :=
  | orders_kept : order_intents (orders s') = order_intents (orders s) → order_events (orders s') = order_events (orders s) → order_change c s s'
  | intent_added intent : c = QIntent intent → intent_conflict s {| ir_intent := intent; ir_quantity := Some (qi_quantity intent) |} = false →
      order_intents (orders s') = order_intents (orders s) ++ [{| ir_intent := intent; ir_quantity := Some (qi_quantity intent) |}] →
      order_events (orders s') = order_events (orders s) → order_change c s s'
  | event_added e database id intent row : c = QOrderEvent e database → oe_source_cycle_id e = Some id →
      fence_open s id (oe_worker_fence_token e) (oe_cycle_attempt_count e) → get_intent s (oe_order_intent_id e) = Some intent →
      OrderEvents._validate_transition e intent (OrderEvents.latest_for_order s (oe_order_intent_id e) None) = Ok () →
      row = {| er_event := e; er_run_id := qi_run_id (ir_intent intent); er_arm_id := Q1ArmId_value (qi_arm_id (ir_intent intent)) |} →
      order_event_conflict s row = false → s' = orders_with_event s row → order_change c s s'.

Lemma run_order_change s c s' : run_q1 s c = Ok s' → order_change c s s'.
Proof.
  intros Hr. destruct c; try (
    by (apply orders_kept; revert Hr; unfold run_q1, CalendarSessions.append, add_calendar_session, Anchors.append, add_anchor, append_risk_approval,
      add_risk_decision, append_fill, add_fill, append_arm_state, add_arm_state, append_nav_snapshot, add_nav,
      EvaluationResults.append_daily, add_daily_result, EvaluationResults.append_matched, add_matched_result; intros Hr; solve_kept; simplify_eq; done));
    cbn [run_q1] in Hr; apply bind_Ok_inv in Hr as ([s1 row] & Ha & [= ->]).
  - apply decision_append_spec in Ha as [->|(_ & _ & _ & Ho & _)]; apply orders_kept; by rewrite ?Ho.
  - unfold append_order_intent in Ha. destruct (List.find _ _).
    { apply bind_Ok_inv in Ha as (? & _ & [= <- <-]). by apply orders_kept. }
    apply bind_Ok_inv in Ha as (s2 & Hadd & [= <- <-]). unfold add_intent in Hadd. apply bind_Ok_inv in Hadd as (? & Hc%raise_if_Ok_inv & [= <-]).
    by eapply intent_added.
  - apply order_append_spec in Ha as [[-> _]|(id & intent & _ & Hid & Ho & Hg & Ht & -> & Hc & ->)]; [by apply orders_kept|]. by eapply event_added.
  - apply cash_append_spec in Ha as [->|(_ & _ & _ & ->)]; by apply orders_kept.
  - apply episode_append_spec in Ha as [->|(s2 & r & _ & ((_ & Ho & _) & _) & _ & _ & _ & _ & _ & Ha)]; [by apply orders_kept|].
    apply risk_append_spec in Ha as [(-> & _)|(? & ? & _ & _ & _ & _ & _ & _ & _ & _ & _ & _ & (_ & Ho' & _) & _)]; apply orders_kept; congruence.
  - apply risk_append_spec in Ha as [(-> & _)|(? & ? & _ & _ & _ & _ & _ & _ & _ & _ & _ & _ & (_ & Ho' & _) & _)]; apply orders_kept; congruence.
Qed.

(** No row has the key or the position of a row that does not conflict. *)
Lemma no_event_conflict s n r :
  order_event_conflict s n = false → r ∈ order_events (orders s) →
  oe_event_id (er_event r) ≠ oe_event_id (er_event n) ∧ oe_idempotency_key (er_event r) ≠ oe_idempotency_key (er_event n).
Proof.
  unfold order_event_conflict. intros Hc Hr. do 4 apply orb_false_iff in Hc as [Hc _]. apply not_true_iff_false in Hc. rewrite existsb_exists in Hc.
  split; intros E; apply Hc; exists r; (split; [by apply list_elem_of_In|]); rewrite E, String.eqb_refl; [done|by rewrite orb_true_r].
Qed.

Lemma get_intent_snoc s s' n id : order_intents (orders s') = order_intents (orders s) ++ [n] →
  get_intent s' id = match get_intent s id with Some r => Some r | None => if qi_order_intent_id (ir_intent n) =s id then Some n else None end.
Proof. unfold get_intent. intros ->. by rewrite find_snoc. Qed.

Lemma rows_of_snoc s r id : rows_of (orders_with_event s r) id = rows_of s id ++ (if oe_order_intent_id (er_event r) =s id then [r] else []).
Proof. unfold rows_of. cbn. rewrite List.filter_app. cbn. by destruct (String.eqb _ _). Qed.

Lemma get_intent_id s id intent : get_intent s id = Some intent → intent ∈ order_intents (orders s) ∧ qi_order_intent_id (ir_intent intent) = id.
Proof. unfold get_intent. by intros [? ?%String.eqb_eq]%find_elem. Qed.

(** The database's latest event of an order is the last one inserted. *)
Lemma latest_is_last s id intent :
  stored_stream intent (rows_of s id) → OrderEvents.latest_for_order s id None = last (rows_of s id).
Proof.
  intros Hs%stored_stream_sequences. unfold OrderEvents.latest_for_order. cbn [opt_holds].
  erewrite filter_ext; [apply (newest_is_last row_sequence (λ r, oe_event_id (er_event r)) _ 1); [done|exact Hs]|]. intros r. cbn. by rewrite andb_true_r.
Qed.

Lemma NoDup_map_snoc {A B} (f : A → B) l x : NoDup (map f l) → (∀ y, y ∈ l → f y ≠ f x) → NoDup (map f (l ++ [x])).
Proof.
  intros Hn Hf. rewrite map_app. apply NoDup_app. split_and!; [done| |apply NoDup_singleton]. intros z Hz Hz'. cbn in Hz'. apply list_elem_of_singleton in Hz' as ->.
  apply list_elem_of_fmap in Hz as (y & E & Hy). by apply (Hf y Hy).
Qed.

Lemma order_change_ok c s s' : valid_command c → orders_ok s → order_change c s s' → orders_ok s'.
Proof.
  intros Hv [Hi He Hk Hf Hva Hq Hst] [Ei Ee|intent Ec Hc Ei Ee|e database id intent row Ec Hid Ho Hg Ht Erow Hc ->].
  - assert (∀ id, get_intent s' id = get_intent s id) as Eg by (intros; unfold get_intent; by rewrite Ei).
    assert (∀ id, rows_of s' id = rows_of s id) as Er by (intros; unfold rows_of; by rewrite Ee).
    split; rewrite ?Ei, ?Ee; try done; [intros r Hr; rewrite Eg; by apply Hf|intros *; rewrite Eg; apply Hq|intros *; rewrite Eg, Er; apply Hst].
  - set (n := {| ir_intent := intent; ir_quantity := _ |}) in *. pose proof (λ id, get_intent_snoc s s' n id Ei) as Eg.
    assert (∀ id, rows_of s' id = rows_of s id) as Er by (intros; unfold rows_of; by rewrite Ee).
    assert (get_intent s (qi_order_intent_id intent) = None) as Hnone.
    { unfold intent_conflict in Hc. do 2 apply orb_false_iff in Hc as [Hc _]. destruct (get_intent s _) as [r|] eqn:Eg'; [|done].
      apply get_intent_id in Eg' as [Hin E]. apply not_true_iff_false in Hc. exfalso. apply Hc, existsb_exists. exists r.
      split; [by apply list_elem_of_In|]. cbn. by rewrite E, String.eqb_refl. }
    split; rewrite ?Ee; try done.
    + rewrite Ei. apply NoDup_map_snoc; [done|]. intros r Hr E. unfold get_intent in Hnone. pose proof (find_absent _ _ _ Hnone Hr) as Hx. cbn in Hx, E.
      by rewrite E, String.eqb_refl in Hx.
    + intros r Hr. destruct (Hf r Hr) as (i & Hgi & ?). exists i. by rewrite Eg, Hgi.
    + intros id i. rewrite Eg. destruct (get_intent s id) eqn:E; [by intros [= <-]; eauto|]. destruct (_ =s _); [|done]. by intros [= <-].
    + intros id i. rewrite Eg, Er. destruct (get_intent s id) as [i'|] eqn:E; [intros [= <-]; by apply Hst|]. intros _.
      assert (rows_of s id = []) as ->; [|by intros [] ? ?]. apply filterb_nil. intros r Hr. apply String.eqb_neq. intros E'.
      destruct (Hf r Hr) as (i'' & Hgi & _). by rewrite E', E in Hgi.
  - subst row. set (row := {| er_event := e |}) in *.
    assert (∀ r, r ∈ order_events (orders s) → oe_event_id (er_event r) ≠ oe_event_id e ∧ oe_idempotency_key (er_event r) ≠ oe_idempotency_key e) as Hno
      by (intros r Hr; by apply (no_event_conflict s row)).
    split; try done.
    + cbn [orders orders_with_event with_orders order_events]. apply NoDup_map_snoc; [done|]. intros r Hr. by apply Hno.
    + cbn [orders orders_with_event with_orders order_events]. apply NoDup_map_snoc; [done|]. intros r Hr. by apply Hno.
    + cbn [orders orders_with_event with_orders order_events]. intros r [Hr|Hr%list_elem_of_singleton]%elem_of_app; [by apply Hf|]. subst r. by exists intent.
    + cbn [orders orders_with_event with_orders order_events]. apply Forall_app. split; [done|]. constructor; [|constructor]. by subst c.
    + intros oid i Hgi. rewrite rows_of_snoc. cbn [er_event row]. destruct (String.eqb_spec (oe_order_intent_id e) oid) as [<-|]; [|rewrite app_nil_r; by apply Hst].
      change (get_intent s (oe_order_intent_id e) = Some i) in Hgi. rewrite Hg in Hgi. injection Hgi as <-.
      apply stored_stream_snoc. split; [by apply Hst|]. erewrite latest_is_last in Ht; [exact Ht|]. by apply Hst.
Qed.

Lemma orders_run rs cs : Forall valid_command cs → orders_ok (run_q1_commands (empty_q1 rs) cs).
Proof.
  intros Hv. apply run_q1_invariant.
  - split; try constructor; by try intros ? ?%elem_of_nil.
  - intros s c s' _ Hc Hok Hr%run_order_change. rewrite Forall_forall in Hv. eapply order_change_ok; [by apply Hv|done|done].
Qed.

End runs.

(** ** Prepared events *)

Section prepared.
Context `{Digest}.

(** Events made by [append_order_event], each from exactly the events before it. *)
Inductive prepared (order : OrderDescriptor) : list OrderEvent → Prop :=
  | prepared_nil : prepared order []
  | prepared_snoc l rq e : prepared order l → append_order_event order l rq = Ok e → prepared order (l ++ [e]).

Lemma build_event_version order rq totals e : build_event order rq totals = Ok e → algorithm_version (oe_versioned e) = Q1_ALGORITHM_VERSION.
Proof.
  destruct totals as [[[sq r] f] c]. unfold build_event. intros Hb. do 3 apply bind_Ok_inv in Hb as (? & _ & Hb).
  by rewrite (validate_OrderEvent_id _ _ Hb).
Qed.

(** What the append established of its event. *)
Lemma append_inv order l rq e :
  append_order_event order l rq = Ok e →
  ∃ sq r f c agg, next_totals order (relevant_events order l) rq = Ok (sq, r, f, c) ∧ build_event order rq (sq, r, f, c) = Ok e ∧
    reduce_order_events order (relevant_events order l ++ [e]) None = Ok agg.
Proof.
  unfold append_order_event. intros Ha. do 3 apply bind_Ok_inv in Ha as (? & _ & Ha).
  apply bind_Ok_inv in Ha as ([[[sq r] f] c] & Hn & Ha). apply bind_Ok_inv in Ha as (ev' & Hb & Ha).
  apply bind_Ok_inv in Ha as (agg & Hr & [= ->]). by exists sq, r, f, c, agg.
Qed.

Lemma next_totals_perm order l1 l2 rq t : l1 ≡ₚ l2 → next_totals order l1 rq = Ok t → next_totals order l2 rq = Ok t.
Proof.
  intros Hp. unfold next_totals. destruct (rq_event_type rq) eqn:Et; [|intros Hn; apply bind_Ok_inv in Hn as (agg & Hr & Hn);
    by rewrite (reduce_permutation _ _ _ _ _ Hp Hr)..].
  replace (bool_decide (l2 = [])) with (bool_decide (l1 = [])); [done|]. apply bool_decide_ext. split; intros ->; [by apply Permutation_nil|by apply Permutation_nil_r].
Qed.

(** The append depends on the order's events up to permutation. *)
Lemma append_perm order l1 l2 rq e :
  relevant_events order l1 ≡ₚ relevant_events order l2 → append_order_event order l1 rq = Ok e → append_order_event order l2 rq = Ok e.
Proof.
  intros Hp Ha. pose proof (append_inv _ _ _ _ Ha) as (sq & r & f & c & agg & Hn & Hb & Hr). revert Ha. unfold append_order_event.
  rewrite (next_totals_perm _ _ _ _ _ Hp Hn), Hn. cbn [mbind res_bind]. rewrite Hb. cbn [mbind res_bind]. rewrite Hr.
  rewrite (reduce_permutation _ _ (relevant_events order l2 ++ [e]) _ _ (Permutation_app_tail _ Hp) Hr). done.
Qed.

Lemma prepared_order order l : prepared order l → relevant_events order l = l.
Proof.
  induction 1 as [|l rq e Hl IH Ha]; [done|]. destruct (append_inv _ _ _ _ Ha) as (? & ? & ? & ? & _ & _ & Hb & _).
  apply build_event_fields in Hb as (Hid & _). by rewrite relevant_snoc, IH.
Qed.

(** The event reduces to its own fields. *)
Lemma prepared_reduces order l e :
  prepared order l → last l = Some e →
  reduce_order_events order l None = Ok {| ag_order := order; ag_status := oe_event_type e; ag_remaining_quantity := oe_remaining_quantity e;
    ag_cumulative_filled_quantity := oe_cumulative_filled_quantity e; ag_cumulative_commission_usd := oe_cumulative_commission_usd e;
    ag_latest_event_sequence := oe_event_sequence e; ag_latest_event_id := oe_event_id e |}.
Proof.
  intros [|l' rq e' Hl Ha] Hlast; [done|]. rewrite last_snoc in Hlast. injection Hlast as ->.
  destruct (append_inv _ _ _ _ Ha) as (sq & r & f & c & _ & Hn & Hb & _). apply append_sound in Ha as (sq' & r' & f' & c' & Hn' & _ & Ht & ->).
  rewrite Hn in Hn'. injection Hn' as <- <- <- <-. apply build_event_fields in Hb as (_ & -> & -> & _ & _ & -> & -> & -> & _). done.
Qed.

(** A non-fill event carries no commission. *)
Lemma next_totals_non_fill order l rq t :
  rq_event_type rq ≠ CREATED → is_fill_event (rq_event_type rq) = false → next_totals order l rq = Ok t → (rq_commission_delta_usd rq =? d0)%dec = true.
Proof.
  intros Hne Hf. unfold next_totals. destruct (rq_event_type rq); try done; intros Hn; apply bind_Ok_inv in Hn as (a & _ & Hn);
    apply bind_Ok_inv in Hn as ([] & _ & Hn); cbn [is_fill_event] in Hn; apply bind_Ok_inv in Hn as ([] & [_ Hc]%raise_if_Ok_inv%orb_false_iff & _);
    by split_bool.
Qed.

Lemma dadd_zero a b : drepr a → (b =? d0)%dec = true → (a =? a + b)%dec = true.
Proof.
  intros Ha Hb%deqb_eq. rewrite dval_d0 in Hb. apply deqb_eq. symmetry.
  rewrite (rounds_to_exact PREC _ _ a (dadd_rounds PREC a b prec_pos) Ha); rewrite Hb; ring.
Qed.

Lemma prepared_commission order l e : prepared order l → last l = Some e → drepr (oe_cumulative_commission_usd e).
Proof.
  intros Hp. revert e. induction Hp as [|l rq e' Hl IH Ha]; intros e Hlast; [done|]. rewrite last_snoc in Hlast. injection Hlast as <-.
  destruct (append_inv _ _ _ _ Ha) as (sq & r & f & c & _ & Hn & Hb & _). rewrite prepared_order in Hn by done.
  apply build_event_fields in Hb as (_ & _ & _ & _ & _ & _ & _ & -> & _). destruct (decide (rq_event_type rq = CREATED)) as [Et|Et].
  - unfold next_totals in Hn. rewrite Et in Hn. do 2 apply bind_Ok_inv in Hn as (? & _ & Hn). by injection Hn as <- <- <- <-.
  - destruct (next_totals_inv _ _ _ _ _ _ _ Et Hn) as (a & Hred & _ & _ & Htot). destruct (last l) as [latest|] eqn:El.
    + rewrite (prepared_reduces _ _ _ Hl El) in Hred. injection Hred as <-. destruct (is_fill_event _); injection Htot as _ _ ->; [|by apply IH].
      apply (dadd_rounds PREC), prec_pos.
    + apply last_None in El as ->. done.
Qed.

Lemma prepared_fields order l rq e :
  prepared order l → append_order_event order l rq = Ok e →
  oe_order_intent_id e = od_order_intent_id order ∧ validate_OrderEvent e = Ok e ∧ algorithm_version (oe_versioned e) = Q1_ALGORITHM_VERSION ∧
  oe_event_sequence e = Z.of_nat (length l) + 1 ∧
  match last l with None => created_event (od_quantity order) e ∧ (oe_quantity_delta e =? d0)%dec = true | Some latest => next_event latest e end.
Proof.
  intros Hl Ha. destruct (append_inv _ _ _ _ Ha) as (sq & r & f & c & agg & Hn & Hb & Hr). pose proof (build_event_version _ _ _ _ Hb) as Hver.
  destruct (build_event_fields _ _ _ _ _ _ _ Hb) as (Hid & Ht & Hs & Hd & Hcd & Hrem & Hfill & Hcomm & _ & _ & Hval).
  rewrite prepared_order in Hn by done. do 3 (split; [done|]). destruct (decide (rq_event_type rq = CREATED)) as [Et|Et].
  - unfold next_totals in Hn. rewrite Et in Hn. apply bind_Ok_inv in Hn as ([] & Hnil%raise_if_Ok_inv%negb_false_iff%bool_decide_eq_true & Hn). subst l.
    apply bind_Ok_inv in Hn as ([] & [H1 H2]%raise_if_Ok_inv%orb_false_iff & [= <- <- <- <-]). split_bool. split; [done|]. cbn. rewrite Hd. split; [|done].
    split; try done; rewrite ?Hfill, ?Hrem, ?Hcomm; try apply deqb_refl. by rewrite Ht.
  - destruct (next_totals_inv _ _ _ _ _ _ _ Et Hn) as (a & Hred & Hterm & -> & Htot). destruct (last l) as [latest|] eqn:El.
    + rewrite (prepared_reduces _ _ _ Hl El) in Hred. injection Hred as <-. cbn in Htot, Hterm, Hs. split.
      * rewrite Hs. f_equal. pose proof (prepared_reduces _ _ _ Hl El) as [_ _ _ Hc (f' & lt & st & _ & _ & Hlt & _ & Hag)]%reduce_Ok_iff.
        injection Hag as _ _ _ _ Hsq _. rewrite Hsq, (contiguous_last _ _ _ _ Hc Hlt). unfold stream_of.
        rewrite length_sorted, visible_None, prepared_order by done. lia.
      * unfold is_terminal in Hterm. cbn in Hterm. assert (fill_delta e = is_fill_event (rq_event_type rq)) as Hf by (unfold fill_delta; by rewrite Ht).
        split; rewrite ?Hf; try done; rewrite ?Hfill, ?Hrem, ?Hcomm, ?Hd, ?Hcd; destruct (is_fill_event _) eqn:Ef; injection Htot as -> -> ->; try apply deqb_refl.
        apply next_totals_non_fill in Hn; [|done|done]. apply dadd_zero; [|done]. by eapply prepared_commission.
    + apply last_None in El as ->. done.
Qed.

(** ** Workers *)

(** A worker loads the book of its run, takes one of its orders and appends an event to the book's. *)
Definition prepared_from (s : q1_store) (e : OrderEvent) : Prop :=
  ∃ run_id arm_id book order rq, load_q1_order_book s run_id arm_id = Ok book ∧ order ∈ ob_descriptors book
    ∧ append_order_event order (ob_events book) rq = Ok e.

(** Every order event of the run was prepared from the book as it was at some earlier point. *)
Definition prepared_earlier (rs : list string) (cs : list q1_command) : Prop :=
  ∀ cs1 e database cs2, cs = cs1 ++ QOrderEvent e database :: cs2 →
    ∃ csa csb, cs1 = csa ++ csb ∧ prepared_from (run_q1_commands (empty_q1 rs) csa) e.

Lemma prepared_earlier_app rs cs1 cs2 : prepared_earlier rs (cs1 ++ cs2) → prepared_earlier rs cs1.
Proof. intros Hp csa e database csb ->. apply (Hp csa e database (csb ++ cs2)). by rewrite <- app_assoc. Qed.

(** The intent behind a descriptor. *)
Definition describes (s : q1_store) (order : OrderDescriptor) (intent : order_intent_row) : Prop :=
  get_intent s (od_order_intent_id order) = Some intent ∧ descriptor_of (ir_intent intent) = Ok order.

Lemma descriptor_fields item order :
  descriptor_of item = Ok order → od_order_intent_id order = qi_order_intent_id item ∧ od_quantity order = qi_quantity item.
Proof.
  unfold descriptor_of, validate_OrderDescriptor. intros Hd. apply bind_Ok_inv in Hd as (cl & _ & Hd).
  do 5 apply bind_Ok_inv in Hd as (? & _ & Hd). by injection Hd as <-.
Qed.

Lemma validate_Q1OrderIntent_id o o' : validate_Q1OrderIntent o = Ok o' → o' = o.
Proof. unfold validate_Q1OrderIntent. intros Hv. repeat (apply bind_Ok_inv in Hv as (? & _ & Hv)). by injection Hv as <-. Qed.

Lemma mapM_res_id {A} (f : A → res A) l ys : (∀ x y, f x = Ok y → y = x) → mapM_res f l = Ok ys → ys = l.
Proof. intros Hf Hm%mapM_res_Forall2. induction Hm as [|x y l ys E _ IH]; [done|]. by rewrite (Hf _ _ E), IH. Qed.

Lemma find_unique {A} (f : A → string) l x : NoDup (map f l) → x ∈ l → List.find (λ y, f y =s f x) l = Some x.
Proof.
  induction l as [|y l IH]; intros Hn Hx; [by apply elem_of_nil in Hx|]. apply NoDup_cons in Hn as [Hy Hn]. cbn.
  apply elem_of_cons in Hx as [->|Hx]; [by rewrite String.eqb_refl|]. destruct (String.eqb_spec (f y) (f x)) as [E|]; [|by apply IH].
  exfalso. apply Hy. rewrite E. by apply list_elem_of_fmap_2.
Qed.

(** The streams of all orders were prepared event by event. *)
Record prepared_streams (s : q1_store) : Prop := {
  ps_ok : orders_ok s;
  ps_stream : ∀ order intent, describes s order intent → prepared order (map er_event (rows_of s (od_order_intent_id order)));
  ps_version : Forall (λ r, algorithm_version (oe_versioned (er_event r)) = Q1_ALGORITHM_VERSION) (order_events (orders s));
}.

Lemma rows_relevant s order : relevant_events order (map er_event (order_events (orders s))) = map er_event (rows_of s (od_order_intent_id order)).
Proof. unfold relevant_events, rows_of. induction (order_events (orders s)) as [|r l IH]; [done|]. cbn. destruct (_ =s _); cbn; by rewrite IH. Qed.

Lemma filter_map_filter {A B} (f : B → bool) (g : A → B) (p : A → bool) l :
  (∀ x, x ∈ l → f (g x) = true → p x = true) → List.filter f (map g (List.filter p l)) = List.filter f (map g l).
Proof.
  induction l as [|x l IH]; intros Hp; [done|]. cbn. assert (List.filter f (map g (List.filter p l)) = List.filter f (map g l)) as E
    by (apply IH; intros y Hy; apply Hp; by right).
  destruct (p x) eqn:Ex; cbn; rewrite E; [done|]. destruct (f (g x)) eqn:Ef; [|done]. by rewrite (Hp x) in Ex by (done || left).
Qed.

(** Loading the book of an order's run loses none of its events. *)
Lemma book_events s run_id arm_id book order :
  prepared_streams s → load_q1_order_book s run_id arm_id = Ok book → order ∈ ob_descriptors book →
  (∃ intent, describes s order intent) ∧ relevant_events order (ob_events book) ≡ₚ map er_event (rows_of s (od_order_intent_id order)).
Proof.
  intros [[Hids _ _ Hof _ _ _] _ Hver]. unfold load_q1_order_book. intros Hl Hin. apply bind_Ok_inv in Hl as (intents & Hi & Hl).
  apply mapM_res_id in Hi; [|exact validate_Q1OrderIntent_id]. apply bind_Ok_inv in Hl as (ds & Hd & Hl). apply bind_Ok_inv in Hl as (evs & He & [= <-]).
  apply mapM_res_id in He; [|exact validate_OrderEvent_id]. cbn in *. subst intents evs.
  apply mapM_res_Forall2 in Hd. apply list_elem_of_lookup in Hin as [n Hn]. destruct (Forall2_lookup_r _ _ _ _ _ Hd Hn) as (item & Hitem & Hdesc).
  apply list_elem_of_lookup_2 in Hitem. rewrite elem_of_sorted in Hitem. apply elem_of_filterb in Hitem as [Hcond Hitem].
  apply list_elem_of_fmap in Hitem as (intent & -> & Hintent). destruct (descriptor_fields _ _ Hdesc) as [Hid _].
  assert (get_intent s (od_order_intent_id order) = Some intent) as Hg.
  { unfold get_intent. rewrite Hid. exact (find_unique (λ r, qi_order_intent_id (ir_intent r)) _ _ Hids Hintent). }
  split; [by exists intent|]. rewrite <- rows_relevant. unfold relevant_events.
  rewrite (filterb_perm _ _ _ (sorted_perm book_event_le _)), filter_map_filter; [done|]. intros r Hr Hfor%String.eqb_eq.
  destruct (Hof r Hr) as (i & Hgi & -> & ->). rewrite Hfor, Hg in Hgi. injection Hgi as <-. rewrite Forall_forall in Hver. rewrite (Hver r Hr).
  apply andb_true_iff in Hcond as [[Hc1 _]%andb_true_iff Hc3]. by rewrite Hc1, Hc3, String.eqb_refl.
Qed.

(** Tables only grow. *)
Definition grown (s s' : q1_store) : Prop :=
  (∀ id i, get_intent s id = Some i → get_intent s' id = Some i) ∧ ∀ id, ∃ t, rows_of s' id = rows_of s id ++ t.

Lemma commit_grown s c : grown s (commit_q1 s c).
Proof.
  unfold commit_q1. destruct (run_q1 s c) as [s'|] eqn:Er; [|split; [done|intros id; exists []; by rewrite app_nil_r]].
  apply run_order_change in Er as [Ei Ee|intent _ _ Ei Ee|e database id intent row _ _ _ _ _ _ _ ->].
  - split; [intros id i; unfold get_intent; by rewrite Ei|intros id; exists []; rewrite app_nil_r; unfold rows_of; by rewrite Ee].
  - split; [intros id i Hg; by rewrite (get_intent_snoc _ _ _ _ Ei), Hg|intros id; exists []; rewrite app_nil_r; unfold rows_of; by rewrite Ee].
  - split; [done|]. intros id'. rewrite rows_of_snoc. by eexists.
Qed.

Lemma run_grown s cs : grown s (run_q1_commands s cs).
Proof.
  revert s. induction cs as [|c cs IH]; intros s; [split; [done|intros id; exists []; by rewrite app_nil_r]|].
  destruct (commit_grown s c) as [Hi He], (IH (commit_q1 s c)) as [Hi' He']. split; [intros id i Hg; by apply Hi', Hi|].
  intros id. destruct (He id) as [t Ht], (He' id) as [t' Ht']. exists (t ++ t'). cbn [run_q1_commands fold_left]. fold (run_q1_commands (commit_q1 s c) cs).
  by rewrite Ht', Ht, <- app_assoc.
Qed.

Lemma transition_sequence e intent l :
  stored_stream intent l → OrderEvents._validate_transition e intent (last l) = Ok () → oe_event_sequence e = Z.of_nat (length l) + 1.
Proof.
  intros Hs Ht. set (row := {| er_event := e; er_run_id := ""; er_arm_id := "" |}).
  assert (stored_stream intent (l ++ [row])) as Hc%stored_stream_sequences by (by apply stored_stream_snoc).
  pose proof (contiguous_last _ _ _ row Hc (last_snoc _ _)) as Hq. unfold row_sequence in Hq. cbn in Hq. rewrite Hq, length_app. cbn. lia.
Qed.

(** What a worker prepared: the next event of its order as it was then. *)
Lemma prepared_from_inv s e :
  prepared_streams s → prepared_from s e →
  ∃ order intent rq, describes s order intent ∧ oe_order_intent_id e = od_order_intent_id order ∧
    prepared order (map er_event (rows_of s (od_order_intent_id order))) ∧
    append_order_event order (map er_event (rows_of s (od_order_intent_id order))) rq = Ok e.
Proof.
  intros Hps (run_id & arm_id & book & order & rq & Hl & Ho & Ha). destruct (book_events _ _ _ _ _ Hps Hl Ho) as [[intent Hd] Hp].
  pose proof (ps_stream _ Hps _ _ Hd) as Hpre. exists order, intent, rq.
  assert (append_order_event order (map er_event (rows_of s (od_order_intent_id order))) rq = Ok e) as Ha'
    by (eapply append_perm; [|exact Ha]; by rewrite (prepared_order _ _ Hpre)).
  split_and!; [done|by apply (prepared_fields _ _ rq _ Hpre)|done|done].
Qed.

Lemma describes_grown s s' order intent : grown s s' → describes s order intent → describes s' order intent.
Proof. intros [Hi _] [Hg Hd]. split; [by apply Hi|done]. Qed.

(** An accepted event extends the stream it was prepared from. *)
Lemma accepted_current s0 s e intent :
  prepared_streams s0 → prepared_streams s → grown s0 s → prepared_from s0 e → get_intent s (oe_order_intent_id e) = Some intent →
  OrderEvents._validate_transition e intent (last (rows_of s (oe_order_intent_id e))) = Ok () →
  rows_of s (oe_order_intent_id e) = rows_of s0 (oe_order_intent_id e).
Proof.
  intros Hps0 Hps Hgr Hpf Hg Ht. destruct (prepared_from_inv _ _ Hps0 Hpf) as (order & i0 & rq & Hd & Hid & Hpre & Ha).
  destruct (prepared_fields _ _ _ _ Hpre Ha) as (_ & _ & _ & Hseq & _). pose proof Hgr as [Hi Hr]. destruct (Hr (oe_order_intent_id e)) as [t Hrow].
  apply transition_sequence in Ht; [|apply (ok_streams _ (ps_ok _ Hps)); done]. rewrite Hseq, Hrow, length_map, length_app, Hid in Ht.
  destruct t; [by rewrite Hrow, app_nil_r|cbn in Ht; lia].
Qed.

Lemma prepared_change c s s0 s' :
  prepared_streams s → (∀ e database, c = QOrderEvent e database → prepared_streams s0 ∧ grown s0 s ∧ prepared_from s0 e) →
  order_change c s s' → prepared_streams s'.
Proof.
  intros Hps Hc Hch. assert (valid_command c) as Hv.
  { destruct c; try done. destruct (Hc _ _ eq_refl) as (Hps0 & _ & Hpf). destruct (prepared_from_inv _ _ Hps0 Hpf) as (order & i0 & rq & _ & _ & Hpre & Ha).
    by destruct (prepared_fields _ _ _ _ Hpre Ha) as (_ & Hv & _). }
  pose proof (order_change_ok _ _ _ Hv (ps_ok _ Hps) Hch) as Hok. destruct Hps as [Hok0 Hst Hver].
  destruct Hch as [Ei Ee|intent Ec Hcf Ei Ee|e database id intent row Ec Hid Ho Hg Ht Erow Hcf ->].
  - split; [done| |by rewrite Ee]. intros order i [Hg Hd]. unfold rows_of. rewrite Ee. apply (Hst order i). split; [|done]. unfold get_intent in *. by rewrite <- Ei.
  - split; [done| |by rewrite Ee]. intros order i [Hg Hd]. unfold rows_of. rewrite Ee. rewrite (get_intent_snoc _ _ _ _ Ei) in Hg.
    destruct (get_intent s (od_order_intent_id order)) as [i'|] eqn:E.
    + injection Hg as ->. by apply (Hst order i).
    + assert (rows_of s (od_order_intent_id order) = []) as Hr; [|unfold rows_of in Hr; rewrite Hr; constructor].
      apply filterb_nil. intros r Hr. apply String.eqb_neq. intros E'. destruct (ok_intent_of _ Hok0 r Hr) as (i'' & Hgi & _). by rewrite E', E in Hgi.
  - destruct (Hc _ _ Ec) as (Hps0 & Hgr & Hpf). assert (prepared_streams s) as Hps by done.
    rewrite (latest_is_last _ _ intent) in Ht by (by apply (ok_streams _ Hok0)).
    pose proof (accepted_current _ _ _ _ Hps0 Hps Hgr Hpf Hg Ht) as Hrows. destruct (prepared_from_inv _ _ Hps0 Hpf) as (order & i0 & rq & Hd & Heid & Hpre & Ha).
    destruct (prepared_fields _ _ _ _ Hpre Ha) as (_ & _ & Hve & _). subst row. split; [done| |].
    + intros order' i [Hg' Hd']. change (get_intent s (od_order_intent_id order') = Some i) in Hg'. rewrite rows_of_snoc. cbn [er_event].
      destruct (String.eqb_spec (oe_order_intent_id e) (od_order_intent_id order')) as [E|]; [|rewrite app_nil_r; by apply (Hst order' i)].
      assert (order' = order) as ->.
      { destruct (describes_grown _ _ _ _ Hgr Hd) as [Hg2 Hd2]. rewrite <- Heid, E, Hg' in Hg2. injection Hg2 as <-. congruence. }
      rewrite map_app, <- Heid, Hrows, Heid. cbn. by eapply prepared_snoc.
    + cbn [orders orders_with_event with_orders order_events]. apply Forall_app. split; [done|]. by constructor.
Qed.

Lemma prepared_run rs cs : prepared_earlier rs cs → prepared_streams (run_q1_commands (empty_q1 rs) cs).
Proof.
  intros Hpe. assert (∀ csa csb, cs = csa ++ csb → prepared_streams (run_q1_commands (empty_q1 rs) csa)) as Hall; [|by apply (Hall cs []); rewrite app_nil_r].
  induction cs as [|c cs IH] using rev_ind; intros csa csb E.
  { symmetry in E. apply app_eq_nil in E as [-> ->]. split; [by apply (orders_run rs [])|by intros order i [? _]|constructor]. }
  pose proof (IH (prepared_earlier_app _ _ _ Hpe)) as IH'. destruct csb as [|c' csb _] using rev_ind.
  - rewrite app_nil_r in E. subst csa. rewrite run_q1_app. cbn. unfold commit_q1. assert (prepared_streams (run_q1_commands (empty_q1 rs) cs)) as Hps
      by (by apply (IH' cs []); rewrite app_nil_r).
    destruct (run_q1 _ c) as [s'|] eqn:Er; [|done]. apply run_order_change in Er. destruct c as [| | | | | |e database| | | | | | | |];
      try (by eapply (prepared_change _ _ (empty_q1 rs)); [exact Hps| |exact Er]).
    destruct (Hpe cs e database [] eq_refl) as (c1 & c2 & -> & Hpf). eapply (prepared_change _ _ (run_q1_commands (empty_q1 rs) c1)); [exact Hps| |exact Er].
    intros e' database' [= <- <-]. split_and!; [by apply (IH' c1 c2)|rewrite run_q1_app; apply run_grown|done].
  - rewrite app_assoc in E. apply app_inj_tail in E as [-> ->]. by apply (IH' csa csb).
Qed.

Lemma contiguous_lookup {A} (f : A → Z) n l i x : contiguous f n l = true → l !! i = Some x → f x = n + Z.of_nat i.
Proof.
  revert n i. induction l as [|y l IH]; intros n i Hc Hi; [done|]. cbn [contiguous] in Hc. apply andb_true_iff in Hc as [Hy%Z.eqb_eq Hc].
  destruct i as [|i]; cbn in Hi; [injection Hi as ->; lia|]. rewrite (IH _ _ Hc Hi). lia.
Qed.

(** No stored event has the identifier or the key of [e]. *)
Definition fresh_event (s : q1_store) (e : OrderEvent) : Prop :=
  ∀ r, r ∈ order_events (orders s) → oe_event_id (er_event r) ≠ oe_event_id e ∧ oe_idempotency_key (er_event r) ≠ oe_idempotency_key e.

Lemma fresh_no_conflict s e intent row :
  orders_ok s → fresh_event s e → validate_OrderEvent e = Ok e → get_intent s (oe_order_intent_id e) = Some intent →
  has_run s (qi_run_id (ir_intent intent)) = true → (∃ id, oe_source_cycle_id e = Some id ∧ has_cycle s id = true) →
  oe_event_sequence e = Z.of_nat (length (rows_of s (oe_order_intent_id e))) + 1 →
  er_event row = e → er_run_id row = qi_run_id (ir_intent intent) → order_event_conflict s row = false.
Proof.
  intros Hok Hfr Hv Hg Hrun (id & Hid & Hcy) Hseq He Er. unfold order_event_conflict. rewrite He, Hg, Er, Hrun, Hid. cbn [opt_holds is_None_b negb].
  rewrite Hcy. apply valid_event_nonneg in Hv as [Hrem _]. rewrite orb_false_r. cbn [negb]. rewrite !orb_false_r.
  apply orb_false_iff. split; [|apply dltb_ge; by rewrite dval_d0]. apply not_true_iff_false. rewrite existsb_exists. intros (r & Hin%list_elem_of_In & Hr).
  destruct (Hfr r Hin) as [H1 H2]. apply orb_true_iff in Hr as [[Hr%String.eqb_eq|Hr%String.eqb_eq]%orb_true_iff|[Hr%String.eqb_eq Hs%Z.eqb_eq]%andb_true_iff]; [done..|].
  assert (r ∈ rows_of s (oe_order_intent_id e)) as Hrow by (apply elem_of_filterb; split; [by apply String.eqb_eq|done]).
  pose proof (stored_stream_sequences _ _ (ok_streams _ Hok _ _ Hg)) as Hc. apply list_elem_of_lookup in Hrow as [n Hn].
  pose proof (contiguous_lookup _ _ _ _ _ Hc Hn) as Hq. apply lookup_lt_Some in Hn. unfold row_sequence in Hq. lia.
Qed.

(** A prepared event is valid after the events it was prepared from. *)
Lemma prepared_valid order intent rows rq e :
  ir_quantity intent = Some (od_quantity order) → prepared order (map er_event rows) → append_order_event order (map er_event rows) rq = Ok e →
  OrderEvents._validate_transition e intent (last rows) = Ok ().
Proof.
  intros Hq Hp Ha. destruct (prepared_fields _ _ _ _ Hp Ha) as (_ & _ & _ & _ & Hn). replace (last (map er_event rows)) with (er_event <$> last rows) in Hn
    by (symmetry; apply fmap_last). destruct (last rows) as [latest|]; cbn in Hn.
  - apply transition_next. split; [by rewrite Hq|done].
  - apply transition_created. exists (od_quantity order). by destruct Hn.
Qed.

(** Under a live lease a fresh event is accepted when its order is still as the worker read it. *)
Lemma current_accepted s0 s e database :
  prepared_streams s0 → prepared_streams s → grown s0 s → prepared_from s0 e → fresh_event s e →
  (∃ id row, oe_source_cycle_id e = Some id ∧
     _require_cycle_fence (cycle_tables s) id (oe_worker_fence_token e) (oe_cycle_attempt_count e) (oe_available_at e) database = Ok row) →
  (∀ intent, get_intent s (oe_order_intent_id e) = Some intent → has_run s (qi_run_id (ir_intent intent)) = true) →
  rows_of s (oe_order_intent_id e) = rows_of s0 (oe_order_intent_id e) →
  ∃ row, er_event row = e ∧ OrderEvents.append s e database = Ok (orders_with_event s row, row).
Proof.
  intros Hps0 Hps Hgr Hpf Hfr (id & crow & Hid & Hfence) Hrun Hrows. destruct (prepared_from_inv _ _ Hps0 Hpf) as (order & intent & rq & Hd & Heid & Hpre & Ha).
  destruct (prepared_fields _ _ _ _ Hpre Ha) as (_ & Hv & _ & Hseq & _). destruct (describes_grown _ _ _ _ Hgr Hd) as [Hg Hdesc]. rewrite <- Heid in Hg, Hpre, Ha, Hseq.
  rewrite <- Hrows in Hpre, Ha, Hseq. destruct (descriptor_fields _ _ Hdesc) as [_ Hq].
  assert (ir_quantity intent = Some (od_quantity order)) as Hqi by (rewrite Hq; by eapply (ok_quantity _ (ps_ok _ Hps))).
  eexists. split; [|unfold OrderEvents.append]; cycle 1.
  - assert (OrderEvents.event_of_key s (oe_idempotency_key e) = None) as ->.
    { unfold OrderEvents.event_of_key. destruct (List.find _ _) as [r|] eqn:Ef; [|done]. apply find_elem in Ef as [Hin Hk%String.eqb_eq]. by destruct (Hfr r Hin). }
    rewrite Hid, Hfence, Hg. cbn [mbind res_bind]. rewrite (latest_is_last _ _ intent) by (by apply (ok_streams _ (ps_ok _ Hps))).
    rewrite (prepared_valid _ _ _ _ _ Hqi Hpre Ha). cbn [mbind res_bind]. unfold add_order_event. erewrite fresh_no_conflict; [reflexivity|..]; try done.
    + by apply Hps.
    + by apply Hrun.
    + exists id. split; [done|]. unfold _require_cycle_fence in Hfence. unfold has_cycle. by destruct (get_cycle _ _).
    + by rewrite Hseq, length_map.
  - done.
Qed.

(** The maximum of a contiguous stream is at its end. *)
Lemma max_sequence_last n l : contiguous row_sequence n l = true → OrderEvents.max_sequence l = row_sequence <$> last l.
Proof.
  destruct l as [|r l _] using rev_ind; [done|]. intros Hc. rewrite last_snoc. unfold OrderEvents.max_sequence.
  assert (∀ l m, (∀ x, x ∈ l ++ [r] → row_sequence x <= row_sequence r) → m <= row_sequence r →
            fold_left (λ m r, Z.max m (oe_event_sequence (er_event r))) (l ++ [r]) m = row_sequence r) as Hmax.
  { clear. intros l. induction l as [|x l IH]; intros m Hl Hm; cbn; [unfold row_sequence in *; lia|]. apply IH; [intros y Hy; apply Hl; by right|].
    specialize (Hl x). unfold row_sequence in *. apply Z.max_lub; [done|apply Hl; by left]. }
  assert (∀ x, x ∈ l ++ [r] → row_sequence x <= row_sequence r) as Hle.
  { intros x Hx. pose proof (contiguous_last _ _ _ r Hc (last_snoc _ _)) as Hr. apply list_elem_of_lookup in Hx as [i Hi].
    rewrite (contiguous_lookup _ _ _ _ _ Hc Hi). apply lookup_lt_Some in Hi. lia. }
  destruct l as [|x l]; cbn; [done|]. f_equal. apply Hmax; [intros y Hy; apply Hle; by right|apply Hle; by left].
Qed.

Lemma filter_last_sequence n l r :
  contiguous row_sequence n l = true → last l = Some r → List.filter (λ x, row_sequence x =? row_sequence r) l = [r].
Proof.
  destruct l as [|r' l _] using rev_ind; [done|]. rewrite last_snoc. intros Hc [= ->]. rewrite List.filter_app. cbn. rewrite Z.eqb_refl.
  rewrite filterb_nil; [done|]. intros x Hx. apply Z.eqb_neq. pose proof (contiguous_last _ _ _ r Hc (last_snoc _ _)) as Hr. rewrite Hr.
  apply list_elem_of_lookup in Hx as [i Hi]. pose proof (lookup_lt_Some _ _ _ Hi). rewrite length_app. cbn.
  rewrite (contiguous_lookup _ _ _ _ _ Hc (lookup_app_l_Some _ _ _ _ Hi)). lia.
Qed.

Lemma filter_andb {A} (p q : A → bool) l : List.filter (λ x, p x && q x) l = List.filter q (List.filter p l).
Proof. induction l as [|x l IH]; [done|]. cbn. destruct (p x); cbn; by rewrite IH. Qed.

(** The rows that [pending] joins to an order of its run: the last one. *)
Definition joined_rows (s : q1_store) (run_id : string) (intent : order_intent_row) : list order_event_row :=
  match OrderEvents.max_sequence (List.filter (λ r, oe_order_intent_id (er_event r) =s qi_order_intent_id (ir_intent intent))
          (List.filter (OrderEvents.visible_row run_id None None) (order_events (orders s)))) with
  | None => []
  | Some m => List.filter (λ r, (oe_order_intent_id (er_event r) =s qi_order_intent_id (ir_intent intent)) && (oe_event_sequence (er_event r) =? m))
                (order_events (orders s))
  end.

Lemma joined_is_last s intent :
  orders_ok s → get_intent s (qi_order_intent_id (ir_intent intent)) = Some intent →
  joined_rows s (qi_run_id (ir_intent intent)) intent = option_list (last (rows_of s (qi_order_intent_id (ir_intent intent)))).
Proof.
  intros Hok Hg. pose proof (stored_stream_sequences _ _ (ok_streams _ Hok _ _ Hg)) as Hc. unfold joined_rows.
  set (id := qi_order_intent_id (ir_intent intent)) in *.
  replace (List.filter _ (List.filter _ _)) with (rows_of s id).
  - rewrite (max_sequence_last _ _ Hc). destruct (last (rows_of s id)) as [r|] eqn:El; [|done]. cbn.
    rewrite filter_andb. exact (filter_last_sequence _ _ _ Hc El).
  - pose proof (filter_map_filter (λ r, oe_order_intent_id (er_event r) =s id) (λ r, r) (OrderEvents.visible_row (qi_run_id (ir_intent intent)) None None)
      (order_events (orders s))) as Hf. rewrite !map_id in Hf. symmetry. apply Hf. intros r Hr E%String.eqb_eq. unfold OrderEvents.visible_row.
    destruct (ok_intent_of _ Hok r Hr) as (i & Hi & Er & _). rewrite E, Hg in Hi. injection Hi as <-. by rewrite Er, String.eqb_refl.
Qed.

Lemma pending_rows s run_id intent row :
  (intent, row) ∈ OrderEvents.pending s run_id None None ↔
  intent ∈ order_intents (orders s) ∧ row ∈ joined_rows s run_id intent ∧
  is_terminal_order_event (oe_event_type (er_event row)) = false ∧ (d0 <? oe_remaining_quantity (er_event row))%dec = true.
Proof.
  unfold OrderEvents.pending, joined_rows. rewrite elem_of_sorted, elem_of_filterb. cbn [fst snd]. rewrite andb_true_iff, negb_true_iff.
  rewrite list_elem_of_In, in_flat_map. setoid_rewrite <- list_elem_of_In. split.
  - intros [[Ht Hq] (i & Hi & Hr)]. destruct (OrderEvents.max_sequence _) as [m|] eqn:Em; [|by apply elem_of_nil in Hr].
    apply list_elem_of_fmap in Hr as (r & [= -> ->] & Hr). rewrite Em. done.
  - intros (Hi & Hr & Ht & Hq). split; [done|]. exists intent. split; [done|]. destruct (OrderEvents.max_sequence _) as [m|]; [|by apply elem_of_nil in Hr].
    by apply list_elem_of_fmap_2.
Qed.
End prepared.

(** ** Theorems *)

(** C26: the order tables guard themselves.  Whatever valid events the clients of the repository commit, in any interleaving, the rows of an
    order are numbered from 1 without a gap, the row that [latest_for_order] reads is the last one, only that one can be terminal, and its
    remaining and filled quantities are not negative and add up to the quantity of the order. *)
Theorem stored_quantities_conserved `{Digest} rs cs id intent k r :
  Forall valid_command cs → let s := run_q1_commands (empty_q1 rs) cs in get_intent s id = Some intent →
  stream_on_grid k (qi_quantity (ir_intent intent)) (rows_of s id) → OrderEvents.latest_for_order s id None = Some r →
  contiguous row_sequence 1 (rows_of s id) = true ∧ last (rows_of s id) = Some r ∧
  (∀ l1 r l2, rows_of s id = l1 ++ r :: l2 → l2 ≠ [] → is_terminal_order_event (oe_event_type (er_event r)) = false) ∧
  0 <= units k (oe_remaining_quantity (er_event r)) ∧ 0 <= units k (oe_cumulative_filled_quantity (er_event r)) ∧
  units k (oe_remaining_quantity (er_event r)) + units k (oe_cumulative_filled_quantity (er_event r)) = units k (qi_quantity (ir_intent intent)).
Proof.
  intros Hv s Hg Hgrid Hlast. pose proof (orders_run rs cs Hv) as Hok. fold s in Hok. pose proof (ok_streams _ Hok _ _ Hg) as Hst.
  rewrite (latest_is_last _ _ intent Hst) in Hlast. split; [by eapply stored_stream_sequences|]. split; [done|].
  split; [intros l1 r' l2; by apply (stored_stream_open intent)|]. eapply stored_stream_conserves; [by eapply (ok_quantity _ Hok)|exact Hgrid| |exact Hst|exact Hlast].
  apply Forall_forall. intros x [_ Hx]%elem_of_filterb. pose proof (ok_valid _ Hok) as Hall. rewrite Forall_forall in Hall. by apply Hall.
Qed.

(** C15: the stored history of every order is one that [append_order_event] wrote.  Workers load the book, prepare events and commit them at
    any later time, in any interleaving; still every stored event was prepared from exactly the events stored before it, the stream reduces to
    what its last event says, [latest_for_order] reads that event, and only the last one can be terminal. *)
Theorem stored_streams_prepared `{Digest} rs cs order intent :
  prepared_earlier rs cs → let s := run_q1_commands (empty_q1 rs) cs in describes s order intent →
  let rows := rows_of s (od_order_intent_id order) in
  prepared order (map er_event rows) ∧
  OrderEvents.latest_for_order s (od_order_intent_id order) None = last rows ∧
  (∀ l1 r l2, rows = l1 ++ r :: l2 → l2 ≠ [] → is_terminal_order_event (oe_event_type (er_event r)) = false) ∧
  ∀ r, last rows = Some r → ∃ agg, reduce_order_events order (map er_event rows) None = Ok agg ∧ ag_status agg = oe_event_type (er_event r) ∧
    ag_remaining_quantity agg = oe_remaining_quantity (er_event r) ∧ ag_cumulative_filled_quantity agg = oe_cumulative_filled_quantity (er_event r).
Proof.
  intros Hpe s Hd rows. pose proof (prepared_run _ _ Hpe) as Hps. fold s in Hps. pose proof (ps_stream _ Hps _ _ Hd) as Hpre. destruct Hd as [Hg _].
  pose proof (ok_streams _ (ps_ok _ Hps) _ _ Hg) as Hst. split; [done|]. split; [by eapply latest_is_last|]. split; [intros l1 r l2; by apply (stored_stream_open intent)|].
  intros r Hr. eexists. split; [apply prepared_reduces; [done|]|done]. rewrite <- (fmap_last er_event rows) || idtac. fold rows.
  change (map er_event rows) with (er_event <$> rows). by rewrite fmap_last, Hr.
Qed.

(** C17: optimistic concurrency of the order table.  An event that a worker prepared from the book of an earlier state is accepted, under a
    live lease and with a fresh identifier, exactly when nothing was stored for its order in between; a worker that lost the race is refused
    and has to read the book again. *)
Theorem prepared_event_accepted_iff_current `{Digest} rs cs0 cs e database :
  prepared_earlier rs (cs0 ++ cs) → let s0 := run_q1_commands (empty_q1 rs) cs0 in let s := run_q1_commands s0 cs in
  prepared_from s0 e → fresh_event s e →
  (∃ id row, oe_source_cycle_id e = Some id ∧
     _require_cycle_fence (cycle_tables s) id (oe_worker_fence_token e) (oe_cycle_attempt_count e) (oe_available_at e) database = Ok row) →
  (∀ intent, get_intent s (oe_order_intent_id e) = Some intent → has_run s (qi_run_id (ir_intent intent)) = true) →
  is_ok (OrderEvents.append s e database) = true ↔ rows_of s (oe_order_intent_id e) = rows_of s0 (oe_order_intent_id e).
Proof.
  intros Hpe s0 s Hpf Hfr Hfence Hrun. pose proof (prepared_run _ _ (prepared_earlier_app _ _ _ Hpe)) as Hps0. pose proof (prepared_run _ _ Hpe) as Hps.
  rewrite run_q1_app in Hps. fold s0 in Hps0, Hps. fold s in Hps. assert (grown s0 s) as Hgr by apply run_grown. split.
  - intros Ha. destruct (OrderEvents.append s e database) as [[s' row]|] eqn:E; [|done].
    apply order_append_spec in E as [[_ Hk]|(id & intent & _ & _ & _ & Hg & Ht & _)].
    + unfold OrderEvents.event_of_key in Hk. apply find_elem in Hk as [Hin Hk%String.eqb_eq]. by destruct (Hfr _ Hin).
    + rewrite (latest_is_last _ _ intent) in Ht by (by apply (ok_streams _ (ps_ok _ Hps))). by eapply accepted_current.
  - intros Hrows. by destruct (current_accepted s0 s e database Hps0 Hps Hgr Hpf Hfr Hfence Hrun Hrows) as (row & _ & ->).
Qed.

(** C27: the pending orders of the database are those of the order state machine.  The SQL query returns an intent of the run exactly when
    reducing its stored events gives a pending aggregate, and it returns it with its latest event. *)
Theorem pending_query_refines_reduction `{Digest} rs cs order intent row :
  prepared_earlier rs cs → let s := run_q1_commands (empty_q1 rs) cs in describes s order intent →
  (intent, row) ∈ OrderEvents.pending s (qi_run_id (ir_intent intent)) None None ↔
  ∃ agg, reduce_order_events order (map er_event (order_events (orders s))) None = Ok agg ∧ is_pending agg = true ∧
    last (rows_of s (od_order_intent_id order)) = Some row.
Proof.
  intros Hpe s Hd. pose proof (prepared_run _ _ Hpe) as Hps. fold s in Hps. pose proof (ps_stream _ Hps _ _ Hd) as Hpre. destruct Hd as [Hg Hdesc].
  destruct (get_intent_id _ _ _ Hg) as [Hin Hid]. rewrite pending_rows, joined_is_last by (try apply Hps; by rewrite Hid). rewrite Hid.
  rewrite (reduce_relevant order _ (map er_event (rows_of s (od_order_intent_id order)))) by (by rewrite rows_relevant, prepared_order).
  destruct (last (rows_of s (od_order_intent_id order))) as [r|] eqn:El; cbn [option_list].
  - assert (last (map er_event (rows_of s (od_order_intent_id order))) = Some (er_event r)) as Hlast
      by (change (map er_event ?l) with (er_event <$> l); by rewrite fmap_last, El).
    rewrite (prepared_reduces _ _ _ Hpre Hlast). unfold is_pending, is_terminal. split.
    + intros (_ & Hr%list_elem_of_singleton & Ht & Hq). subst row. eexists. split; [done|]. cbn. by rewrite Ht, Hq.
    + intros (agg & [= <-] & [Ht%negb_true_iff Hq]%andb_true_iff & [= ->]). split_and!; [done|by apply list_elem_of_singleton|done|done].
  - split; [by intros (_ & ?%elem_of_nil & _)|by intros (? & _ & _ & ?)].
Qed.

(** ** Concrete runs *)

#[local] Existing Instance rolling_digest.
#[local] Existing Instance ex_new_york.

Lemma prepared_earlier_snoc rs cs c :
  prepared_earlier rs cs →
  match c with QOrderEvent e _ => ∃ csa csb, cs = csa ++ csb ∧ prepared_from (run_q1_commands (empty_q1 rs) csa) e | _ => True end →
  prepared_earlier rs (cs ++ [c]).
Proof.
  intros Hp Hc cs1 e database cs2 E. destruct cs2 as [|c' cs2 _] using rev_ind.
  - apply app_inj_tail in E as [-> ->]. exact Hc.
  - rewrite app_comm_cons, app_assoc in E. apply app_inj_tail in E as [-> _]. by apply (Hp cs1 e database cs2).
Qed.

Lemma prepared_earlier_quiet rs cs : Forall (λ c, match c with QOrderEvent _ _ => False | _ => True end) cs → prepared_earlier rs cs.
Proof. intros Hf cs1 e database cs2 ->. apply Forall_app in Hf as [_ Hf]. by inversion Hf. Qed.

(** A buy of 2.5 shares in the claimed cycle, and the events that workers prepare for it. *)
Definition ex_order_intent : Q1OrderIntent := {|
  qi_order_intent_id := "o-1"; qi_run_id := "run"; qi_arm_id := Q1_DET; qi_portfolio_decision_id := "p"; qi_risk_decision_id := "r";
  qi_source_cycle_id := ex_id; qi_input_state_sequence := 1; qi_symbol := "QQQ"; qi_side := BUY; qi_order_class := "NORMAL";
  qi_quantity := Dec 25 (-1); qi_decision_quote_id := "q"; qi_decision_reference_price := Dec 100 0; qi_decision_spread_bps := d0;
  qi_created_at := ex_at 15; qi_valid_until := ex_at 18; qi_idempotency_key := "ik"; qi_algorithm_version := Q1_ALGORITHM_VERSION;
  qi_config_manifest_hash := "cfg"; qi_code_version := "1"; qi_model_version := "m"; qi_source_manifest_hash := "src"; qi_intent_hash := "h" |}.
Definition ex_descriptor : OrderDescriptor := Eval vm_compute in ok_or (ex_order "o-1" BUY) (descriptor_of ex_order_intent).
Definition ex_next (t : OrderEventType) : AppendRequest := {|
  rq_event_type := t; rq_occurred_at := ex_at 15; rq_available_at := ex_at 15;
  rq_provenance := {| op_config_manifest_hash := "cfg"; op_code_version := "1"; op_model_version := "m"; op_source_manifest_hash := "src";
                      op_worker_fence_token := "a"; op_cycle_attempt_count := 1 |};
  rq_quantity_delta := d0; rq_commission_delta_usd := d0; rq_reason := None; rq_source_id := None; rq_quote_id := None; rq_source_cycle_id := Some ex_id |}.

Definition ex_before : list q1_command := map QCycle ex_claimed ++ [QIntent ex_order_intent].
#[local] Notation ex_run cs := (run_q1_commands (empty_q1 ["run"%string]) cs) (only parsing).

Definition ex_prepare (cs : list q1_command) (t : OrderEventType) : res OrderEvent :=
  book ← load_q1_order_book (ex_run cs) "run" None; append_order_event ex_descriptor (ob_events book) (ex_next t).
Definition the_event (r : res OrderEvent) : if is_ok r then OrderEvent else unit := match r with Ok e => e | Raise _ => () end.
Definition ex_created : OrderEvent := Eval vm_compute in the_event (ex_prepare ex_before CREATED).
Definition ex_opened : list q1_command := ex_before ++ [QOrderEvent ex_created None].
(** Two workers read the book with the created order: one activates it, the other expires it. *)
Definition ex_active : OrderEvent := Eval vm_compute in the_event (ex_prepare ex_opened ACTIVE).
Definition ex_expired : OrderEvent := Eval vm_compute in the_event (ex_prepare ex_opened EXPIRED).

Lemma ex_prepared cs t e : ex_prepare cs t = Ok e → (∀ book, load_q1_order_book (ex_run cs) "run" None = Ok book → ex_descriptor ∈ ob_descriptors book) →
  prepared_from (ex_run cs) e.
Proof. intros Hp Hd. apply bind_Ok_inv in Hp as (book & Hl & Ha). exists "run"%string, None, book, ex_descriptor, (ex_next t). eauto. Qed.

Lemma ex_opened_earlier : prepared_earlier ["run"%string] ex_opened.
Proof.
  apply prepared_earlier_snoc; [apply prepared_earlier_quiet; repeat constructor|]. exists ex_before, []. split; [done|].
  apply (ex_prepared _ CREATED); [vm_compute; reflexivity|]. intros book Hb. vm_compute in Hb. injection Hb as <-. left.
Qed.

Lemma ex_expired_prepared : prepared_from (ex_run ex_opened) ex_expired.
Proof. apply (ex_prepared _ EXPIRED); [vm_compute; reflexivity|]. intros book Hb. vm_compute in Hb. injection Hb as <-. left. Qed.

Lemma ex_active_earlier : prepared_earlier ["run"%string] (ex_opened ++ [QOrderEvent ex_active None]).
Proof.
  apply prepared_earlier_snoc; [exact ex_opened_earlier|]. exists ex_opened, []. split; [done|].
  apply (ex_prepared _ ACTIVE); [vm_compute; reflexivity|]. intros book Hb. vm_compute in Hb. injection Hb as <-. left.
Qed.

Lemma ex_rows : rows_of (ex_run (ex_opened ++ [QOrderEvent ex_active None])) "o-1" = map (λ e, {| er_event := e; er_run_id := "run"; er_arm_id := "Q1-DET" |}) [ex_created; ex_active].
Proof. vm_compute. reflexivity. Qed.

Lemma stored_streams_prepared_witness :
  prepared ex_descriptor [ex_created; ex_active].
Proof.
  destruct (stored_streams_prepared ["run"%string] (ex_opened ++ [QOrderEvent ex_active None]) ex_descriptor
    {| ir_intent := ex_order_intent; ir_quantity := Some (Dec 25 (-1)) |} ex_active_earlier) as [Hp _]; [split; vm_compute; reflexivity|].
  change (od_order_intent_id ex_descriptor) with "o-1"%string in Hp. rewrite ex_rows in Hp. exact Hp.
Defined.

(** The activation was stored first, so the other worker's expiry is refused. *)
Lemma prepared_event_accepted_iff_current_witness :
  is_ok (OrderEvents.append (run_q1_commands (ex_run ex_opened) [QOrderEvent ex_active None]) ex_expired None) = false.
Proof.
  pose proof (prepared_event_accepted_iff_current ["run"%string] ex_opened [QOrderEvent ex_active None] ex_expired None ex_active_earlier
    ex_expired_prepared) as Hiff. cbv zeta in Hiff. rewrite <- run_q1_app in Hiff |- *. apply not_true_iff_false. intros Hok. apply Hiff in Hok.
  - apply (f_equal length) in Hok. change (oe_order_intent_id ex_expired) with "o-1"%string in Hok. rewrite ex_rows in Hok. vm_compute in Hok. discriminate Hok.
  - intros r Hr. assert (List.Forall (λ r, negb ((oe_event_id (er_event r) =s oe_event_id ex_expired) || (oe_idempotency_key (er_event r) =s oe_idempotency_key ex_expired)) = true)
      (order_events (orders (ex_run (ex_opened ++ [QOrderEvent ex_active None]))))) as Hall by (vm_compute; repeat constructor).
    apply list_elem_of_In, (proj1 (List.Forall_forall _ _) Hall) in Hr. apply negb_true_iff, orb_false_iff in Hr as [H1%String.eqb_neq H2%String.eqb_neq]. exact (conj H1 H2).
  - exists ex_id. destruct (_require_cycle_fence (cycle_tables (ex_run (ex_opened ++ [QOrderEvent ex_active None]))) ex_id "a" 1 (ex_at 15) None) as [row|] eqn:E;
      [|vm_compute in E; discriminate E]. exists row. split; [reflexivity|exact E].
  - intros intent Hg. vm_compute in Hg. injection Hg as <-. vm_compute. reflexivity.
Defined.

Lemma pending_query_refines_reduction_witness :
  ∃ agg, reduce_order_events ex_descriptor (map er_event (order_events (orders (ex_run (ex_opened ++ [QOrderEvent ex_active None]))))) None = Ok agg
    ∧ is_pending agg = true.
Proof.
  destruct (proj1 (pending_query_refines_reduction ["run"%string] (ex_opened ++ [QOrderEvent ex_active None]) ex_descriptor
    {| ir_intent := ex_order_intent; ir_quantity := Some (Dec 25 (-1)) |} {| er_event := ex_active; er_run_id := "run"; er_arm_id := "Q1-DET" |}
    ex_active_earlier ltac:(split; vm_compute; reflexivity))) as (agg & Hr & Hp & _); [|exists agg; exact (conj Hr Hp)].
  assert (OrderEvents.pending (ex_run (ex_opened ++ [QOrderEvent ex_active None])) "run" None None =
    [({| ir_intent := ex_order_intent; ir_quantity := Some (Dec 25 (-1)) |}, {| er_event := ex_active; er_run_id := "run"; er_arm_id := "Q1-DET" |})]) as Ep
    by (vm_compute; reflexivity). cbn [ir_intent qi_run_id ex_order_intent]. rewrite Ep. left.
Defined.

Lemma stored_quantities_conserved_witness :
  units 6 (oe_remaining_quantity ex_active) + units 6 (oe_cumulative_filled_quantity ex_active) = 2500000.
Proof.
  assert (Forall valid_command (ex_opened ++ [QOrderEvent ex_active None])) as Hv by (repeat constructor; vm_compute; reflexivity).
  destruct (stored_quantities_conserved ["run"%string] (ex_opened ++ [QOrderEvent ex_active None]) "o-1"
    {| ir_intent := ex_order_intent; ir_quantity := Some (Dec 25 (-1)) |} 6 {| er_event := ex_active; er_run_id := "run"; er_arm_id := "Q1-DET" |} Hv)
    as (_ & _ & _ & _ & _ & Hsum); [vm_compute; reflexivity| |vm_compute; reflexivity|exact Hsum].
  rewrite ex_rows. split; [lia|]. split; [unfold on_grid; cbn; lia|]. split; [vm_compute; split; reflexivity|].
  repeat constructor; unfold on_grid; cbn; lia.
Defined.
