(* ===== verification/PyRandom.v ===== *)
(** * Python's pseudo-random numbers

    [random.Random] as the bootstrap of [evaluation/matched.py] uses it: a generator seeded with an integer, [randrange(n)] and
    [str(random())].  The class [PyRandom] states what the theorems need of it; the instance is CPython's generator (the
    Mersenne Twister), so that examples evaluate to the numbers the program draws. *)
From Stdlib Require Import ZArith Lia Ascii String QArith.
From stdpp Require Import base list strings numbers.
From S2P Require Import Prelude PyDecimal Hashing.
Set Default Goal Selector "!".
Open Scope Z_scope.

(** [random_str] is [Decimal(str(generator.random()))]. *)
Class PyRandom := {
  generator : Type;
  Random : Z → generator;
  randrange : generator → Z → Z * generator;
  random_str : generator → dec * generator;
  randrange_range g n : 0 < n → 0 <= (randrange g n).1 < n;
}.

(** ** The shortest decimal of a double

    [repr] of [m * 2^e] with 53 significant bits: the fewest digits that read back as the same double, and of these the
    nearest one. *)
Section repr.
Context (m e : Z).

(** Everything below is in units of [2^(e - 2) * 10^(-k)], where the neighbours' midpoints are integers. *)
Definition scale_up (k : Z) : Z := if 0 <=? k then 10 ^ k else 1.
Definition scale_down (k : Z) : Z := if 0 <=? k then 1 else 10 ^ (- k).
Definition two_up : Z := if 0 <=? e - 2 then 2 ^ (e - 2) else 1.
Definition two_down : Z := if 0 <=? e - 2 then 1 else 2 ^ (2 - e).

(** Does [c * 10^(-k)] read back as the double?  Midpoints round to the even mantissa; below a power of two the gap is
    half as wide. *)
Definition reads_back (c k : Z) : bool :=
  let v := c * scale_down k * two_down in
  let at_ x := x * two_up * scale_up k in
  let lo := at_ (4 * m - (if m =? 2 ^ 52 then 1 else 2)) in
  let hi := at_ (4 * m + 2) in
  if Z.even m then (lo <=? v) && (v <=? hi) else (lo <? v) && (v <? hi).

(** The multiples of [10^(-k)] around the double, the nearest one first. *)
Definition candidates (k : Z) : list Z :=
  let n := 4 * m * two_up * scale_up k in let d := scale_down k * two_down in
  let c := n / d in if 2 * (n mod d) <=? d then [c; c + 1] else [c + 1; c].

Fixpoint shortest (fuel : nat) (k : Z) : dec :=
  match List.find (λ c, reads_back c k) (candidates k), fuel with
  | Some c, _ => Dec c (- k)
  | None, O => Dec (4 * m * two_up) 0
  | None, S fuel => shortest fuel (k + 1)
  end.

End repr.

(** [Decimal(str(x))] for [x = n / 2^53 < 1]; ["0.0"] for zero. *)
Definition unit_float_str (n : Z) : dec :=
  if n <=? 0 then Dec 0 (-1)
  else
    let shift := 52 - Z.log2 n in let m := n * 2 ^ shift in
    let d := shortest m (- 53 - shift) 40 0 in
    if (dcoef d =? 0) then Dec 0 (-1) else d.

(** ** The Mersenne Twister *)

Definition mask (z : Z) : Z := Z.land z 0xffffffff.

(** The last 624 words, oldest first. *)
Definition twister : Type := list Z.

Definition at_word (s : twister) (i : nat) : Z := nth i s 0.

Definition next_word (s : twister) : Z :=
  let y := Z.lor (Z.land (at_word s 0) 0x80000000) (Z.land (at_word s 1) 0x7fffffff) in
  Z.lxor (Z.lxor (at_word s 397) (Z.shiftr y 1)) (if Z.odd y then 0x9908b0df else 0).

Definition temper (y : Z) : Z :=
  let y := Z.lxor y (Z.shiftr y 11) in
  let y := Z.lxor y (Z.land (Z.shiftl y 7) 0x9d2c5680) in
  let y := Z.lxor y (Z.land (Z.shiftl y 15) 0xefc60000) in
  Z.lxor y (Z.shiftr y 18).

(** [genrand_uint32] *)
Definition genrand (s : twister) : Z * twister := let w := next_word s in (temper w, tail s ++ [w]).

Fixpoint init_words (n : nat) (i prev : Z) : list Z :=
  match n with O => [] | S n => prev :: init_words n (i + 1) (mask (1812433253 * Z.lxor prev (Z.shiftr prev 30) + (i + 1))) end.

(** [init_genrand] *)
Definition init_genrand (seed : Z) : list Z := init_words 624 0 (mask seed).

(** One step of a pass of [init_by_array]: word [i] is mixed with the one before it; after the last one the first word is
    overwritten. *)
Definition mix_step (f : Z → Z → Z) (i : nat) (s : twister) : nat * twister :=
  let s := <[i := f (at_word s (i - 1)) (at_word s i)]> s in
  if (624 <=? S i)%nat then (1%nat, <[0%nat := at_word s 623]> s) else (S i, s).

Definition spread (prev : Z) : Z := Z.lxor prev (Z.shiftr prev 30).

Fixpoint mix_key (steps : nat) (key : list Z) (i j : nat) (s : twister) : nat * twister :=
  match steps with
  | O => (i, s)
  | S steps =>
      let '(i, s) := mix_step (λ prev w, mask (Z.lxor w (spread prev * 1664525) + nth j key 0 + Z.of_nat j)) i s in
      mix_key steps key i (if (length key <=? S j)%nat then O else S j) s
  end.

Fixpoint mix_index (steps : nat) (i : nat) (s : twister) : twister :=
  match steps with
  | O => s
  | S steps => let '(i', s) := mix_step (λ prev w, mask (Z.lxor w (spread prev * 1566083941) - Z.of_nat i)) i s in mix_index steps i' s
  end.

Definition init_by_array (key : list Z) : twister :=
  let '(i, s) := mix_key (Nat.max 624 (length key)) key 1 0 (init_genrand 19650218) in
  <[0%nat := 0x80000000]> (mix_index 623 i s).

(** The words of [abs(seed)], low ones first; one word for zero. *)
Fixpoint seed_words (fuel : nat) (z : Z) : list Z :=
  match fuel with O => [] | S fuel => if z <=? 0 then [] else mask z :: seed_words fuel (Z.shiftr z 32) end.
Definition seeded (seed : Z) : twister :=
  let z := Z.abs seed in init_by_array (match seed_words (Z.to_nat (Z.log2 z / 32 + 1)) z with [] => [0] | key => key end).

(** [getrandbits(k)]: whole words, low ones first, and of the last word its highest bits. *)
Fixpoint getrandbits (words : nat) (k : Z) (s : twister) : Z * twister :=
  match words with
  | O => (0, s)
  | S words =>
      let '(r, s) := genrand s in
      if k <=? 32 then (Z.shiftr r (32 - k), s)
      else let '(high, s) := getrandbits words (k - 32) s in (Z.lor r (Z.shiftl high 32), s)
  end.

(** [_randbelow]: draws until one is below [n].  Each is with a chance of at least one half, and the loop is given [2^64]
    attempts; no run of the program makes that many. *)
Definition randbelow (s : twister) (n : Z) : Z * twister :=
  let k := Z.log2 n + 1 in
  let words := Z.to_nat ((k - 1) / 32 + 1) in
  match iter_until (2 ^ 64) (λ s, let '(r, s) := getrandbits words k s in if (0 <=? r) && (r <? n) then inr (r, s) else inl s) s with
  | inr result => result
  | inl s => (0, s)
  end.

(** [random()] is [(a * 2^26 + b) / 2^53] for 27 bits of one word and 26 of the next. *)
Definition random (s : twister) : Z * twister :=
  let '(a, s) := genrand s in let '(b, s) := genrand s in
  (Z.shiftr a 5 * 67108864 + Z.shiftr b 6, s).

Lemma iter_until_invariant {A B} (P : B → Prop) (f : A → A + B) p a b :
  (∀ a b, f a = inr b → P b) → iter_until p f a = inr b → P b.
Proof.
  intros Hf. revert a b. induction p as [p IH|p IH|]; intros a b; cbn.
  - destruct (f a) as [a1|b1] eqn:Hb; [|intros [= <-]; by eapply Hf]. destruct (iter_until p f a1) as [a2|b2] eqn:E.
    + apply IH.
    + intros [= <-]. by eapply IH.
  - destruct (iter_until p f a) as [a2|b2] eqn:E; [apply IH|]. intros [= <-]. by eapply IH.
  - apply Hf.
Qed.

Lemma randbelow_range s n : 0 < n → 0 <= (randbelow s n).1 < n.
Proof.
  intros Hn. unfold randbelow. case_match eqn:E; [done|]. subst.
  apply (iter_until_invariant (λ b, 0 <= b.1 < n)) in E; [done|]. intros a [r g].
  destruct (getrandbits _ _ a) as [r' s']. destruct ((0 <=? r') && (r' <? n)) eqn:Hr; [intros [= <- <-]|done].
  apply andb_prop in Hr as [?%Z.leb_le ?%Z.ltb_lt]. done.
Qed.

#[export] Instance mersenne_twister : PyRandom := {|
  generator := twister; Random := seeded; randrange := randbelow;
  random_str g := let '(x, g) := random g in (unit_float_str x, g);
  randrange_range := randbelow_range |}.

(** The first draws of [random.Random(7077)]. *)
Lemma draws_of_7077 :
  let g := Random 7077 in
  let '(a, g) := randrange g 126 in let '(x, g) := random_str g in let '(y, g) := random_str g in let '(b, g) := randrange g 7 in
  (a, x, y, b) = (13, Dec 9180245979828161 (-16), Dec 7438528128835127 (-16), 6).
Proof. vm_compute. reflexivity. Qed.
