(* ===== verification/MatchedEvaluation.v ===== *)
(** * Performance and matched attribution ([evaluation/matched.py])

    The metrics of one arm and the comparison of two arms over the sessions both have.  Arithmetic runs in the default
    context of 28 digits, except where the code opens one with the configured precision.  [random.Random] is the class
    [PyRandom]. *)
From Stdlib Require Import ZArith Lia Ascii String QArith.
From stdpp Require Import base list strings numbers sets.
From S2P Require Import Prelude PyDecimal Hashing DecimalMath Domain Q1Records PyRandom.
Set Default Goal Selector "!".
Open Scope Z_scope.

Definition evaluation_if (b : bool) (m : string) : res () := raise_if b EvaluationError m.

Record EvaluationConfig := {
  ev_version : string;
  ev_decimal_precision : Z;
  ev_result_quantum : dec;
  ev_annualization_sessions : Z;
  ev_risk_free_daily_return : dec;
  ev_downside_target_daily_return : dec;
  ev_newey_west_lag : Z;
  ev_bootstrap_samples : Z;
  ev_stationary_block_mean_length : dec;
  ev_bootstrap_confidence : dec;
  ev_bootstrap_seed : Z;
  ev_promotion_min_common_sessions : Z;
}.

Definition validate_EvaluationConfig (c : EvaluationConfig) : res EvaluationConfig :=
  evaluation_if (str_empty (ev_version c)) "Evaluation config version is required";;
  evaluation_if (ev_decimal_precision c <=? 0) "Evaluation decimal precision must be positive";;
  evaluation_if (ev_result_quantum c <=? d0)%dec "Evaluation result quantum must be positive";;
  evaluation_if (ev_annualization_sessions c <=? 0) "Annualization sessions must be positive";;
  evaluation_if (ev_newey_west_lag c <? 0) "Newey-West lag cannot be negative";;
  evaluation_if (ev_bootstrap_samples c <=? 0) "Bootstrap sample count must be positive";;
  evaluation_if (ev_stationary_block_mean_length c <? d1)%dec "Stationary block mean length must be at least one";;
  evaluation_if (negb ((d0 <? ev_bootstrap_confidence c) && (ev_bootstrap_confidence c <? d1))%dec) "Bootstrap confidence must be within (0, 1)";;
  evaluation_if (ev_promotion_min_common_sessions c <? 126) "Promotion threshold cannot be below 126 common sessions";;
  Ok c.

Record DailyEvaluationObservation := {
  ob_session_date : date;
  ob_arm_id : Q1ArmId;
  ob_net_daily_return : dec;
  ob_daily_turnover : dec;
  ob_commissions_usd : dec;
  ob_spread_cost_usd : dec;
  ob_delay_cost_usd : dec;
  ob_sensitivity_5bp_usd : dec;
  ob_sensitivity_10bp_usd : dec;
  ob_cash_weight : dec;
  ob_qqq_weight : dec;
  ob_soxx_weight : dec;
  ob_risk_episode_active : bool;
  ob_llm_reduction_active : bool;
}.

Definition validate_DailyEvaluationObservation (o : DailyEvaluationObservation) : res DailyEvaluationObservation :=
  evaluation_if (ob_net_daily_return o <=? Dec (-1) 0)%dec "Daily return cannot lose more than all NAV";;
  evaluation_if (existsb (λ v, v <? d0)%dec
    [ob_daily_turnover o; ob_commissions_usd o; ob_spread_cost_usd o; ob_delay_cost_usd o; ob_sensitivity_5bp_usd o;
     ob_sensitivity_10bp_usd o; ob_cash_weight o; ob_qqq_weight o; ob_soxx_weight o])
    "Evaluation costs, turnover, and weights cannot be negative";;
  evaluation_if (Dec 10000000001 (-10) <? ob_cash_weight o + ob_qqq_weight o + ob_soxx_weight o)%dec "Evaluation observation cannot imply leverage";;
  evaluation_if (ob_llm_reduction_active o && negb (bool_decide (ob_arm_id o = Q1_LLM))) "LLM reductions may be attributed only to Q1-LLM";;
  Ok o.

Record PerformanceMetrics := {
  pm_arm_id : Q1ArmId;
  pm_valid_sessions : Z;
  pm_cumulative_return : dec;
  pm_annualized_return : dec;
  pm_annualized_volatility : dec;
  pm_sharpe : option dec;
  pm_sortino : option dec;
  pm_maximum_drawdown : dec;
  pm_calmar : option dec;
  pm_daily_turnover_mean : dec;
  pm_cumulative_turnover : dec;
  pm_commissions_usd : dec;
  pm_spread_and_delay_cost_usd : dec;
  pm_sensitivity_5bp_usd : dec;
  pm_sensitivity_10bp_usd : dec;
  pm_percentage_time_in_cash : dec;
  pm_qqq_average_exposure : dec;
  pm_soxx_average_exposure : dec;
  pm_risk_episode_count : Z;
  pm_risk_episode_duration_sessions : Z;
  pm_llm_reduction_count : Z;
  pm_llm_reduction_duration_sessions : Z;
  pm_result_hash : string;
}.

Record MatchedAttribution := {
  ma_comparison : MatchedComparison;
  ma_left_arm_id : Q1ArmId;
  ma_right_arm_id : Q1ArmId;
  ma_common_session_dates : list date;
  ma_daily_differences : list dec;
  ma_mean_daily_difference : dec;
  ma_annualized_difference : dec;
  ma_newey_west_standard_error : dec;
  ma_bootstrap_lower : dec;
  ma_bootstrap_upper : dec;
  ma_common_valid_sessions : Z;
  ma_eligible_for_manual_promotion_review : bool;
  ma_promotion_is_manual : bool;
  ma_claims_statistical_significance : bool;
  ma_claims_profitability : bool;
  ma_result_hash : string;
}.

(** ** Statistics *)

Definition len {A} (l : list A) : dec := Dec (Z.of_nat (length l)) 0.

Definition _mean (values : list dec) : res dec :=
  evaluation_if (bool_decide (values = [])) "Mean requires observations";; ddiv (dsum values) (len values).

Definition _cumulative_return (returns : list dec) : dec := (fold_left (λ wealth value, wealth * (d1 + value)) returns d1 - d1)%dec.

(** The square of [_decimal]'s power: computed with three more digits and rounded again. *)
Definition dsquare (d : dec) : dec := if dcoef d =? 0 then d0 else dround PREC (dmul_p (PREC + 3) d d).

Definition _sample_standard_deviation (values : list dec) : res dec :=
  if (length values <? 2)%nat then Ok d0
  else
    mean ← _mean values;
    variance ← ddiv (dsum (map (λ value, dsquare (value - mean)%dec) values)) (Dec (Z.of_nat (length values) - 1) 0);
    dsqrt variance.

(** The loop of [_maximum_drawdown] from the wealth, peak and maximum reached. *)
Fixpoint drawdown_from (wealth peak maximum : dec) (returns : list dec) : res dec :=
  match returns with
  | [] => Ok maximum
  | value :: returns =>
      let wealth := (wealth * (d1 + value))%dec in
      let peak := dmax peak wealth in
      fall ← ddiv (peak - wealth)%dec peak;
      drawdown_from wealth peak (dmax maximum fall) returns
  end.
Definition _maximum_drawdown (returns : list dec) : res dec := drawdown_from d1 d1 d0 returns.

(** The loop of [_episode_runs]. *)
Definition episode_step (acc : Z * Z * bool) (flag : bool) : Z * Z * bool :=
  let '(count, duration, active) := acc in
  if flag then (if active then count else count + 1, duration + 1, true) else (count, duration, false).
Definition _episode_runs (flags : list bool) : Z * Z := (fold_left episode_step flags (0, 0, false)).1.

(** [centered[index] * centered[index - offset]] for [index in range(offset, count)]. *)
Definition lagged_products (centered : list dec) (offset : nat) : list dec := zip_with dmul (skipn offset centered) centered.

Definition newey_west_term (centered : list dec) (denominator : dec) (lag : Z) (long_run_variance : dec) (offset : Z) : res dec :=
  covariance ← ddiv (dsum (lagged_products centered (Z.to_nat offset))) denominator;
  bartlett_weight ← ddiv (Dec (lag + 1 - offset) 0) (Dec (lag + 1) 0);
  Ok (long_run_variance + Dec 2 0 * bartlett_weight * covariance)%dec.

Definition _newey_west_standard_error (values : list dec) (lag : Z) : res dec :=
  evaluation_if (bool_decide (values = [])) "Newey-West calculation requires observations";;
  mean ← _mean values;
  let centered := map (λ value, value - mean)%dec values in
  let denominator := len values in
  variance ← ddiv (dsum (map (λ value, value * value)%dec centered)) denominator;
  long_run_variance ← foldM (newey_west_term centered denominator lag) variance (seqZ 1 lag);
  scaled ← ddiv (dmax d0 long_run_variance) denominator;
  dsqrt scaled.

Definition _result_value (value : dec) (config : EvaluationConfig) : res dec :=
  dquantize_p (ev_decimal_precision config) value (ev_result_quantum config) ROUND_HALF_EVEN.

(** [l[i]] for an index that the code keeps non-negative. *)
Definition item {A} (l : list A) (i : Z) : res A :=
  match l !! Z.to_nat i with Some x => Ok x | None => raise IndexError "list index out of range" end.

(** [int(d)] *)
Definition dec_int (d : dec) : Z := if 0 <=? dexp d then dcoef d * 10 ^ dexp d else Z.quot (dcoef d) (10 ^ (- dexp d)).

Definition _percentile (sorted_values : list dec) (probability : dec) : res dec :=
  evaluation_if (bool_decide (sorted_values = [])) "Percentile requires values";;
  evaluation_if (negb ((d0 <=? probability) && (probability <=? d1))%dec) "Percentile probability must be within [0, 1]";;
  if (length sorted_values =? 1)%nat then item sorted_values 0
  else
    let last := Z.of_nat (length sorted_values) - 1 in
    let rank := (probability * Dec last 0)%dec in
    let lower_index := dec_int rank in
    let upper_index := Z.min (lower_index + 1) last in
    let fraction := (rank - Dec lower_index 0)%dec in
    lower ← item sorted_values lower_index;
    upper ← item sorted_values upper_index;
    Ok (lower * (d1 - fraction) + upper * fraction)%dec.

Section bootstrap.
Context `{PyRandom}.

(** The indices of one sample after its first one: a fresh start, or the next session. *)
Fixpoint sample_indices (positions : nat) (count : Z) (restart_probability : dec) (index : Z) (g : generator) : list Z * generator :=
  match positions with
  | O => ([], g)
  | S positions =>
      let '(x, g) := random_str g in
      let '(index, g) := if (x <? restart_probability)%dec then randrange g count else ((index + 1) mod count, g) in
      let '(rest, g) := sample_indices positions count restart_probability index g in (index :: rest, g)
  end.

Fixpoint bootstrap_means (samples : nat) (values : list dec) (restart_probability : dec) (g : generator) : res (list dec) :=
  match samples with
  | O => Ok []
  | S samples =>
      let count := Z.of_nat (length values) in
      let '(index, g) := randrange g count in
      let '(rest, g) := sample_indices (length values - 1) count restart_probability index g in
      sample ← mapM_res (item values) (index :: rest);
      mean ← _mean sample;
      means ← bootstrap_means samples values restart_probability g;
      Ok (mean :: means)
  end.

Definition _stationary_block_bootstrap_interval (values : list dec) (config : EvaluationConfig) : res (dec * dec) :=
  evaluation_if (bool_decide (values = [])) "Bootstrap requires observations";;
  restart_probability ← ddiv d1 (ev_stationary_block_mean_length config);
  means ← bootstrap_means (Z.to_nat (ev_bootstrap_samples config)) values restart_probability (Random (ev_bootstrap_seed config));
  let means := sorted dleb means in
  tail ← ddiv (d1 - ev_bootstrap_confidence config)%dec (Dec 2 0);
  lower ← _percentile means tail;
  upper ← _percentile means (d1 - tail)%dec;
  Ok (lower, upper).

End bootstrap.

Definition _annualized_return `{DecimalMath} (cumulative_return : dec) (session_count annualization_sessions decimal_precision : Z) : res dec :=
  evaluation_if (session_count <=? 0) "Annualized return requires sessions";;
  let gross := (d1 + cumulative_return)%dec in
  if (gross <=? d0)%dec then Ok (Dec (-1) 0)
  else
    let p := decimal_precision in
    exponent ← ddiv_p p (Dec annualization_sessions 0) (Dec session_count 0);
    log ← dln_p p gross;
    growth ← dexp_p p (dmul_p p log exponent);
    Ok (dsub_p p growth d1).

(** ** Payloads *)

Definition _observation_payload (o : DailyEvaluationObservation) : pyval :=
  PDict [("session_date", PDate (ob_session_date o)); ("arm_id", PStr (Q1ArmId_value (ob_arm_id o)));
         ("net_daily_return", PDecimal (ob_net_daily_return o)); ("daily_turnover", PDecimal (ob_daily_turnover o));
         ("commissions_usd", PDecimal (ob_commissions_usd o)); ("spread_cost_usd", PDecimal (ob_spread_cost_usd o));
         ("delay_cost_usd", PDecimal (ob_delay_cost_usd o)); ("sensitivity_5bp_usd", PDecimal (ob_sensitivity_5bp_usd o));
         ("sensitivity_10bp_usd", PDecimal (ob_sensitivity_10bp_usd o)); ("cash_weight", PDecimal (ob_cash_weight o));
         ("qqq_weight", PDecimal (ob_qqq_weight o)); ("soxx_weight", PDecimal (ob_soxx_weight o));
         ("risk_episode_active", PBool (ob_risk_episode_active o)); ("llm_reduction_active", PBool (ob_llm_reduction_active o))].

Definition _evaluation_config_payload (c : EvaluationConfig) : pyval :=
  PDict [("version", PStr (ev_version c)); ("decimal_precision", PInt (ev_decimal_precision c));
         ("annualization_sessions", PInt (ev_annualization_sessions c)); ("risk_free_daily_return", PDecimal (ev_risk_free_daily_return c));
         ("downside_target_daily_return", PDecimal (ev_downside_target_daily_return c)); ("newey_west_lag", PInt (ev_newey_west_lag c));
         ("bootstrap_samples", PInt (ev_bootstrap_samples c)); ("stationary_block_mean_length", PDecimal (ev_stationary_block_mean_length c));
         ("bootstrap_confidence", PDecimal (ev_bootstrap_confidence c)); ("bootstrap_seed", PInt (ev_bootstrap_seed c));
         ("promotion_min_common_sessions", PInt (ev_promotion_min_common_sessions c))].

(** ** [evaluate_performance] *)

Definition session_le (a b : DailyEvaluationObservation) : bool := ob_session_date a <=? ob_session_date b.

(** [_MATCHED_ARMS] *)
Definition _MATCHED_ARMS (comparison : MatchedComparison) : Q1ArmId * Q1ArmId :=
  match comparison with Q1_DET_MINUS_B0_VOL => (Q1_DET, B0_VOL) | Q1_LLM_MINUS_Q1_DET => (Q1_LLM, Q1_DET) end.

Section evaluate.
Context `{DecimalMath, Digest}.

(** A ratio that is [None] when its denominator is zero, scaled to a year. *)
Definition annual_ratio (excess_mean deviation root : dec) : res (option dec) :=
  if (deviation =? d0)%dec then Ok None else ratio ← ddiv excess_mean deviation; Ok (Some (ratio * root)%dec).

Definition performance_payload (arm_id : Q1ArmId) (ordered : list DailyEvaluationObservation) (config : EvaluationConfig)
    (cumulative annualized_return annualized_volatility max_drawdown : dec) : pyval :=
  PDict [("arm_id", PStr (Q1ArmId_value arm_id)); ("observations", PList (map _observation_payload ordered));
         ("evaluation_config", _evaluation_config_payload config);
         ("metrics", PDict [("cumulative_return", PDecimal cumulative); ("annualized_return", PDecimal annualized_return);
                            ("annualized_volatility", PDecimal annualized_volatility); ("maximum_drawdown", PDecimal max_drawdown)])].

Definition evaluate_performance (observations : list DailyEvaluationObservation) (config : EvaluationConfig) : res PerformanceMetrics :=
  let ordered := sorted session_le observations in
  match ordered with
  | [] => raise EvaluationError "Performance evaluation requires observations"
  | first :: _ =>
      let arm_id := ob_arm_id first in
      evaluation_if (existsb (λ o, negb (bool_decide (ob_arm_id o = arm_id))) ordered) "Performance evaluation must contain one arm";;
      evaluation_if (negb (bool_decide (NoDup (map ob_session_date ordered)))) "Performance sessions must be unique";;
      let returns := map ob_net_daily_return ordered in
      let sessions := Z.of_nat (length ordered) in
      let cumulative := _cumulative_return returns in
      annualized_return ← _annualized_return cumulative sessions (ev_annualization_sessions config) (ev_decimal_precision config);
      volatility ← _sample_standard_deviation returns;
      root ← dsqrt (Dec (ev_annualization_sessions config) 0);
      let annualized_volatility := (volatility * root)%dec in
      excess_mean ← _mean (map (λ value, value - ev_risk_free_daily_return config)%dec returns);
      sharpe ← annual_ratio excess_mean volatility root;
      let downside := map (λ value, dmin d0 (value - ev_downside_target_daily_return config)%dec) returns in
      downside_variance ← ddiv (dsum (map (λ value, value * value)%dec downside)) (len downside);
      downside_deviation ← dsqrt downside_variance;
      sortino ← annual_ratio excess_mean downside_deviation root;
      max_drawdown ← _maximum_drawdown returns;
      calmar ← (if (max_drawdown =? d0)%dec then Ok None else ratio ← ddiv annualized_return max_drawdown; Ok (Some ratio));
      let '(risk_count, risk_duration) := _episode_runs (map ob_risk_episode_active ordered) in
      let '(llm_count, llm_duration) := _episode_runs (map ob_llm_reduction_active ordered) in
      turnover_mean ← _mean (map ob_daily_turnover ordered);
      cash_mean ← _mean (map ob_cash_weight ordered);
      qqq_mean ← _mean (map ob_qqq_weight ordered);
      soxx_mean ← _mean (map ob_soxx_weight ordered);
      result_hash ← canonical_hash (performance_payload arm_id ordered config cumulative annualized_return annualized_volatility max_drawdown);
      Ok {| pm_arm_id := arm_id; pm_valid_sessions := sessions; pm_cumulative_return := cumulative; pm_annualized_return := annualized_return;
            pm_annualized_volatility := annualized_volatility; pm_sharpe := sharpe; pm_sortino := sortino; pm_maximum_drawdown := max_drawdown;
            pm_calmar := calmar; pm_daily_turnover_mean := turnover_mean; pm_cumulative_turnover := dsum (map ob_daily_turnover ordered);
            pm_commissions_usd := dsum (map ob_commissions_usd ordered);
            pm_spread_and_delay_cost_usd := dsum (map (λ o, ob_spread_cost_usd o + ob_delay_cost_usd o)%dec ordered);
            pm_sensitivity_5bp_usd := dsum (map ob_sensitivity_5bp_usd ordered);
            pm_sensitivity_10bp_usd := dsum (map ob_sensitivity_10bp_usd ordered); pm_percentage_time_in_cash := cash_mean;
            pm_qqq_average_exposure := qqq_mean; pm_soxx_average_exposure := soxx_mean; pm_risk_episode_count := risk_count;
            pm_risk_episode_duration_sessions := risk_duration; pm_llm_reduction_count := llm_count;
            pm_llm_reduction_duration_sessions := llm_duration; pm_result_hash := result_hash |}
  end.

(** ** [evaluate_matched_attribution] *)

(** A [dict] from dates, in insertion order. *)
Definition observed (session_date : date) (d : list (date * DailyEvaluationObservation)) : option DailyEvaluationObservation :=
  snd <$> List.find (λ kv, fst kv =? session_date) d.

Definition add_observation (expected_arm : Q1ArmId) (d : list (date * DailyEvaluationObservation)) (o : DailyEvaluationObservation) :
    res (list (date * DailyEvaluationObservation)) :=
  evaluation_if (negb (bool_decide (ob_arm_id o = expected_arm))) "Expected another arm";;
  evaluation_if (bool_decide (is_Some (observed (ob_session_date o) d))) "Matched arm has duplicate session";;
  Ok (d ++ [(ob_session_date o, o)]).

Definition _unique_by_session (observations : list DailyEvaluationObservation) (expected_arm : Q1ArmId) :
    res (list (date * DailyEvaluationObservation)) := foldM (add_observation expected_arm) [] observations.

(** [left[session_date]] *)
Definition session_return (d : list (date * DailyEvaluationObservation)) (session_date : date) : res dec :=
  match observed session_date d with Some o => Ok (ob_net_daily_return o) | None => raise KeyError "session" end.

Definition daily_difference (config : EvaluationConfig) (left right : list (date * DailyEvaluationObservation)) (session_date : date) : res dec :=
  l ← session_return left session_date; r ← session_return right session_date; _result_value (l - r)%dec config.

(** [sorted(set(left) & set(right))] *)
Definition common_sessions (left right : list (date * DailyEvaluationObservation)) : list date :=
  sorted Z.leb (List.filter (λ d, bool_decide (is_Some (observed d right))) left.*1).

Definition matched_payload (comparison : MatchedComparison) (common_dates : list date) (differences : list dec) (config : EvaluationConfig) : pyval :=
  let '(expected_left, expected_right) := _MATCHED_ARMS comparison in
  PDict [("comparison", PStr (MatchedComparison_value comparison)); ("left_arm_id", PStr (Q1ArmId_value expected_left));
         ("right_arm_id", PStr (Q1ArmId_value expected_right));
         ("common_session_dates", PList (map (λ d, PStr (date_isoformat d)) common_dates));
         ("daily_differences", PList (map PDecimal differences)); ("evaluation_config", _evaluation_config_payload config)].

Context `{PyRandom}.

Definition evaluate_matched_attribution (comparison : MatchedComparison) (left_observations right_observations : list DailyEvaluationObservation)
    (config : EvaluationConfig) : res MatchedAttribution :=
  let '(expected_left, expected_right) := _MATCHED_ARMS comparison in
  left ← _unique_by_session left_observations expected_left;
  right ← _unique_by_session right_observations expected_right;
  let common_dates := common_sessions left right in
  evaluation_if (bool_decide (common_dates = [])) "Matched attribution has no common valid sessions";;
  differences ← mapM_res (daily_difference config left right) common_dates;
  mean ← _mean differences;
  mean_difference ← _result_value mean config;
  annualized_difference ← _result_value (mean_difference * Dec (ev_annualization_sessions config) 0)%dec config;
  standard_error ← _newey_west_standard_error differences (Z.min (ev_newey_west_lag config) (Z.of_nat (length differences) - 1));
  newey_west ← _result_value standard_error config;
  interval ← _stationary_block_bootstrap_interval differences config;
  lower ← _result_value interval.1 config;
  upper ← _result_value interval.2 config;
  let common_count := Z.of_nat (length common_dates) in
  result_hash ← canonical_hash (matched_payload comparison common_dates differences config);
  Ok {| ma_comparison := comparison; ma_left_arm_id := expected_left; ma_right_arm_id := expected_right;
        ma_common_session_dates := common_dates; ma_daily_differences := differences; ma_mean_daily_difference := mean_difference;
        ma_annualized_difference := annualized_difference; ma_newey_west_standard_error := newey_west;
        ma_bootstrap_lower := lower; ma_bootstrap_upper := upper; ma_common_valid_sessions := common_count;
        ma_eligible_for_manual_promotion_review := ev_promotion_min_common_sessions config <=? common_count;
        ma_promotion_is_manual := true; ma_claims_statistical_significance := false; ma_claims_profitability := false;
        ma_result_hash := result_hash |}.

End evaluate.
