(* ===== verification/RuntimeConfig.v ===== *)
(** * Runtime configuration ([runtime/q1_config.py])

    How the runtime reads its typed configurations from the two documents of a bundle.  [str] is applied to scalars only: a
    version or number that is written as a list or a mapping is refused here. *)
From Stdlib Require Import ZArith Lia Ascii String QArith.
From stdpp Require Import base list strings numbers sets.
From S2P Require Import Prelude PyDecimal Hashing Domain Text Settlement RiskMachine Execution QuantConfig Planning PyRandom MatchedEvaluation.
Set Default Goal Selector "!".
Open Scope Z_scope.

(** [Q1ConfigBundle] of settings.py. *)
Record Q1ConfigBundle := { cb_document : document; cb_cost_document : document; cb_manifest_hash : string }.

(** ** Readers *)

Definition _section (d : document) (key : string) : res document :=
  match dget key d with Some (YMap m) => Ok m | _ => raise ValueError "Q1 config key must be an object" end.

Definition _sequence (d : document) (key : string) : res (list scalar) :=
  match dget key d with Some (YList l) => Ok l | _ => raise ValueError "Q1 config key must be a list" end.

Definition _strings (d : document) (key : string) : res (list string) :=
  items ← _sequence d key;
  let values := map (λ value, upper (strip (str_scalar value))) items in
  raise_if (bool_decide (values = []) || existsb str_empty values) ValueError "Q1 config key must contain strings";;
  Ok values.

(** [str(document[key])] *)
Definition str_of (d : document) (key : string) : res string :=
  match dget key d with
  | Some (YScalar s) => Ok (str_scalar s)
  | Some _ => raise InvalidOperation "not a scalar"
  | None => raise KeyError key
  end.

Definition _decimal (d : document) (key : string) : res dec := text ← str_of d key; decimal_of_string text.

Definition _integer (d : document) (key : string) : res Z :=
  match dget key d with
  | Some (YScalar (SInt z)) => Ok z
  | Some _ => raise ValueError "Q1 config key must be an integer"
  | None => raise KeyError key
  end.

Definition _positive_integer (d : document) (key : string) : res Z :=
  value ← _integer d key; raise_if (value <=? 0) ValueError "Q1 config key must be positive";; Ok value.

(** ** Operations and language model *)

Record Q1OperationalConfig := {
  op_calendar_sync_interval_hours : Z;
  op_calendar_history_lookback_days : Z;
  op_calendar_forward_days : Z;
}.

Definition operational_config (bundle : Q1ConfigBundle) : res Q1OperationalConfig :=
  operations ← _section (cb_document bundle) "operations";
  signal ← _section (cb_document bundle) "signal";
  settlement ← _section (cb_document bundle) "settlement";
  hours ← _positive_integer operations "calendar_sync_interval_hours";
  lookback ← _positive_integer operations "calendar_history_lookback_days";
  forward ← _positive_integer operations "calendar_forward_days";
  minimum_completed_sessions ← _positive_integer signal "minimum_completed_sessions";
  raise_if (lookback <? minimum_completed_sessions) ValueError "Q1 calendar history lookback must cover the signal sessions";;
  settlement_lag ← _integer settlement "settlement_lag_business_sessions";
  raise_if (forward <? settlement_lag) ValueError "Q1 calendar forward coverage must cover the settlement lag";;
  Ok {| op_calendar_sync_interval_hours := hours; op_calendar_history_lookback_days := lookback; op_calendar_forward_days := forward |}.

Record Q1LlmTransportConfig := {
  lt_provider_timeout_seconds : dec;
  lt_transport_timeout_seconds : dec;
  lt_transport_poll_interval_seconds : dec;
}.

Definition validate_Q1LlmTransportConfig (c : Q1LlmTransportConfig) : res Q1LlmTransportConfig :=
  raise_if (lt_provider_timeout_seconds c <=? d0)%dec ValueError "Q1 LLM provider timeout must be positive";;
  raise_if (lt_transport_timeout_seconds c <=? d0)%dec ValueError "Q1 LLM transport timeout must be positive";;
  raise_if (lt_transport_poll_interval_seconds c <=? d0)%dec ValueError "Q1 LLM transport poll interval must be positive";;
  raise_if (lt_provider_timeout_seconds c <=? lt_transport_timeout_seconds c)%dec ValueError "Q1 LLM transport timeout must be shorter";;
  raise_if (lt_transport_timeout_seconds c <? lt_transport_poll_interval_seconds c)%dec ValueError "Q1 LLM transport poll interval must not exceed its timeout";;
  Ok c.

Definition llm_transport_config (bundle : Q1ConfigBundle) : res Q1LlmTransportConfig :=
  d ← _section (cb_document bundle) "llm";
  provider ← _decimal d "provider_timeout_seconds"; transport ← _decimal d "transport_timeout_seconds";
  poll ← _decimal d "transport_poll_interval_seconds";
  validate_Q1LlmTransportConfig {| lt_provider_timeout_seconds := provider; lt_transport_timeout_seconds := transport;
    lt_transport_poll_interval_seconds := poll |}.

Definition llm_provider_timeout_seconds (bundle : Q1ConfigBundle) : res dec :=
  c ← llm_transport_config bundle; Ok (lt_provider_timeout_seconds c).

Definition maximum_llm_evidence_events (bundle : Q1ConfigBundle) : res Z :=
  d ← _section (cb_document bundle) "llm"; _positive_integer d "maximum_evidence_events".

(** ** Execution, planning, risk and settlement *)

Definition execution_config (bundle : Q1ConfigBundle) : res Q1ExecutionConfig :=
  d ← _section (cb_document bundle) "execution";
  commission ← _section (cb_cost_document bundle) "commission";
  configured_rate ← _decimal d "commission_rate";
  configured_waiver ← _decimal d "commission_waiver_notional_usd";
  cost_rate ← _decimal commission "us_equity_rate";
  cost_waiver ← _decimal commission "waive_if_order_total_usd_lte";
  raise_if (negb (configured_rate =? cost_rate)%dec || negb (configured_waiver =? cost_waiver)%dec)
    ValueError "Q1 execution commission must match costs.yaml";;
  items ← _sequence d "evaluation_sensitivity_bps";
  sensitivity ← mapM_res (λ item, decimal_of_string (str_scalar item)) items;
  displayed ← _decimal d "displayed_side_participation_fraction"; adv ← _decimal d "maximum_20d_iex_adv_fraction";
  delay ← _decimal d "delay_penalty_bps"; guard_min ← _decimal d "price_guard_minimum_bps"; guard_max ← _decimal d "price_guard_maximum_bps";
  multiplier ← _decimal d "price_guard_spread_multiplier"; quantity ← _decimal d "quantity_increment"; price ← _decimal d "price_increment_usd";
  commission_precision ← _decimal d "commission_increment_usd";
  validate_Q1ExecutionConfig {|
    xc_displayed_participation := displayed; xc_adv_participation := adv; xc_delay_penalty_bps := delay; xc_guard_min_bps := guard_min;
    xc_guard_max_bps := guard_max; xc_guard_spread_multiplier := multiplier; xc_quantity_precision := quantity; xc_price_precision := price;
    xc_commission_rate := cost_rate; xc_commission_waiver_threshold_usd := cost_waiver; xc_commission_precision := commission_precision;
    xc_sensitivity_bps := sensitivity |}.

Definition order_planning_config (bundle : Q1ConfigBundle) : res OrderPlanningConfig :=
  execution ← execution_config bundle;
  validate_OrderPlanningConfig {|
    oc_quantity_increment := xc_quantity_precision execution; oc_commission_rate := xc_commission_rate execution;
    oc_commission_waiver_notional_usd := xc_commission_waiver_threshold_usd execution; oc_delay_penalty_bps := xc_delay_penalty_bps execution;
    oc_commission_precision := xc_commission_precision execution |}.

Definition risk_engine_config (bundle : Q1ConfigBundle) : res RiskEngineConfig :=
  risk ← _section (cb_document bundle) "risk"; signal ← _section (cb_document bundle) "signal"; execution ← _section (cb_document bundle) "execution";
  version ← str_of (cb_document bundle) "version"; annualization ← _decimal signal "annualization_sessions";
  soft_sigma ← _decimal risk "dynamic_soft_daily_sigma_multiple"; hard_sigma ← _decimal risk "dynamic_hard_daily_sigma_multiple";
  soft_min ← _decimal risk "soft_daily_min"; soft_max ← _decimal risk "soft_daily_max"; hard_min ← _decimal risk "hard_daily_min";
  hard_max ← _decimal risk "hard_daily_max"; soft_drawdown ← _decimal risk "soft_stop_run_drawdown";
  hard_drawdown ← _decimal risk "hard_reduce_run_drawdown"; critical_drawdown ← _decimal risk "critical_exit_run_drawdown";
  gross ← _decimal risk "hard_reduce_max_risky_gross"; soxx ← _decimal risk "hard_reduce_max_soxx_weight";
  semiconductor ← _decimal risk "live_mirror_max_semiconductor_weight"; release_fraction ← _decimal risk "release_daily_loss_soft_threshold_fraction";
  release_drawdown ← _decimal risk "release_max_run_drawdown"; checks ← _integer risk "release_required_consecutive_checks";
  increment ← _decimal execution "quantity_increment"; leveraged ← _strings risk "leveraged_symbols"; semis ← _strings risk "semiconductor_symbols";
  validate_RiskEngineConfig {|
    rc_version := version; rc_annualization_sessions := annualization; rc_soft_sigma_multiple := soft_sigma; rc_hard_sigma_multiple := hard_sigma;
    rc_soft_daily_floor := soft_min; rc_soft_daily_ceiling := soft_max; rc_hard_daily_floor := hard_min; rc_hard_daily_ceiling := hard_max;
    rc_soft_drawdown_threshold := soft_drawdown; rc_hard_drawdown_threshold := hard_drawdown; rc_critical_drawdown_threshold := critical_drawdown;
    rc_q1_hard_gross_cap := gross; rc_q1_hard_soxx_weight_cap := soxx; rc_live_mirror_semiconductor_weight_cap := semiconductor;
    rc_release_daily_loss_soft_fraction := release_fraction; rc_release_drawdown_threshold := release_drawdown;
    rc_release_consecutive_valid_checks := checks; rc_quantity_precision := increment;
    rc_leveraged_symbols := remove_dups leveraged; rc_semiconductor_symbols := remove_dups semis |}.

Definition settlement_policy (bundle : Q1ConfigBundle) : res SettlementPolicy :=
  d ← _section (cb_document bundle) "settlement";
  version ← str_of d "policy_version"; calendar ← str_of d "business_calendar_version"; lag ← _integer d "settlement_lag_business_sessions";
  validate_SettlementPolicy {| sp_version := version; sp_calendar_version := calendar; sp_lag_business_sessions := lag |}.

Definition evaluation_config (bundle : Q1ConfigBundle) : res EvaluationConfig :=
  d ← _section (cb_document bundle) "evaluation";
  version ← str_of (cb_document bundle) "version";
  decimal_precision ← _integer d "decimal_precision";
  result_quantum ← _decimal d "result_quantum";
  annualization_sessions ← _integer d "annualization_sessions";
  risk_free_daily_return ← _decimal d "risk_free_daily_return";
  downside_target_daily_return ← _decimal d "downside_target_daily_return";
  newey_west_lag ← _integer d "newey_west_lag_sessions";
  bootstrap_samples ← _integer d "stationary_bootstrap_samples";
  stationary_block_mean_length ← _decimal d "stationary_bootstrap_expected_block_sessions";
  bootstrap_confidence ← _decimal d "bootstrap_confidence";
  bootstrap_seed ← _integer d "deterministic_bootstrap_seed";
  promotion_min_common_sessions ← _integer d "minimum_common_out_of_sample_sessions";
  validate_EvaluationConfig {|
    ev_version := version; ev_decimal_precision := decimal_precision; ev_result_quantum := result_quantum;
    ev_annualization_sessions := annualization_sessions; ev_risk_free_daily_return := risk_free_daily_return;
    ev_downside_target_daily_return := downside_target_daily_return; ev_newey_west_lag := newey_west_lag; ev_bootstrap_samples := bootstrap_samples;
    ev_stationary_block_mean_length := stationary_block_mean_length; ev_bootstrap_confidence := bootstrap_confidence;
    ev_bootstrap_seed := bootstrap_seed; ev_promotion_min_common_sessions := promotion_min_common_sessions |}.

Definition evaluation_closing_quote_max_age_seconds (bundle : Q1ConfigBundle) : res Z :=
  d ← _section (cb_document bundle) "evaluation"; _positive_integer d "closing_quote_max_age_seconds".
Definition displayed_size_unit_shares (bundle : Q1ConfigBundle) : res dec :=
  d ← _section (cb_document bundle) "execution"; _decimal d "displayed_size_unit_shares".
Definition maximum_quote_age_seconds (bundle : Q1ConfigBundle) : res Z :=
  d ← _section (cb_document bundle) "execution"; _integer d "maximum_quote_age_seconds".
Definition maximum_quote_skew_seconds (bundle : Q1ConfigBundle) : res Z :=
  d ← _section (cb_document bundle) "execution"; _integer d "maximum_multi_symbol_quote_skew_seconds".
Definition adv_lookback_sessions (bundle : Q1ConfigBundle) : res Z :=
  d ← _section (cb_document bundle) "execution"; _integer d "adv_lookback_completed_sessions".
Definition critical_reconciliation_conditions (bundle : Q1ConfigBundle) : res (list string) :=
  d ← _section (cb_document bundle) "risk"; values ← _strings d "critical_reconciliation_conditions"; Ok (remove_dups values).

(** ** The documents of the repository *)

(** config/q1-math-core.yaml, the sections that are read here, and the commission section of config/costs.yaml. *)
Definition core_runtime_document : document :=
  let txt s := YScalar (SStr s) in let num t := YScalar (SFloat t) in let int z := YScalar (SInt z) in let syms l := YList (map SStr l) in
  [("version", txt "q1_math_core_v1");
   ("operations", YMap [("calendar_sync_interval_hours", int 6); ("calendar_history_lookback_days", int 260); ("calendar_forward_days", int 30)]);
   ("signal", YMap [("minimum_completed_sessions", int 121); ("annualization_sessions", int 252)]);
   ("risk", YMap
      [("leveraged_symbols", syms ["SOXL"]); ("semiconductor_symbols", syms ["NVDA"; "TSM"; "KLAC"; "LRCX"; "MU"; "SOXL"; "SOXX"]);
       ("critical_reconciliation_conditions", syms ["POSITION_OR_CASH_MISMATCH"; "NEGATIVE_BALANCE"; "UNKNOWN_FILL"]);
       ("dynamic_soft_daily_sigma_multiple", num "2.0"); ("dynamic_hard_daily_sigma_multiple", num "3.0"); ("soft_daily_min", num "0.015");
       ("soft_daily_max", num "0.03"); ("hard_daily_min", num "0.025"); ("hard_daily_max", num "0.05"); ("soft_stop_run_drawdown", num "0.08");
       ("hard_reduce_run_drawdown", num "0.12"); ("critical_exit_run_drawdown", num "0.18"); ("hard_reduce_max_risky_gross", num "0.5");
       ("hard_reduce_max_soxx_weight", num "0.2"); ("live_mirror_max_semiconductor_weight", num "0.3");
       ("release_daily_loss_soft_threshold_fraction", num "0.75"); ("release_max_run_drawdown", num "0.06");
       ("release_required_consecutive_checks", int 2)]);
   ("execution", YMap
      [("price_increment_usd", num "0.0001"); ("displayed_size_unit_shares", int 100); ("maximum_quote_age_seconds", int 15);
       ("maximum_multi_symbol_quote_skew_seconds", int 2); ("displayed_side_participation_fraction", num "0.1");
       ("maximum_20d_iex_adv_fraction", num "0.025"); ("adv_lookback_completed_sessions", int 20); ("price_guard_minimum_bps", int 20);
       ("price_guard_maximum_bps", int 75); ("price_guard_spread_multiplier", num "3.0"); ("delay_penalty_bps", num "1.0");
       ("evaluation_sensitivity_bps", YList [SFloat "5.0"; SFloat "10.0"]); ("quantity_increment", num "1e-06"); ("commission_rate", num "0.001");
       ("commission_waiver_notional_usd", num "10.0"); ("commission_increment_usd", num "0.01")]);
   ("settlement", YMap
      [("policy_version", txt "us_equities_t_plus_1_v1"); ("settlement_lag_business_sessions", int 1);
       ("business_calendar_version", txt "alpaca_market_calendar_v1")]);
   ("evaluation", YMap
      [("minimum_common_out_of_sample_sessions", int 126); ("closing_quote_max_age_seconds", int 300); ("decimal_precision", int 40);
       ("result_quantum", num "1e-14"); ("risk_free_daily_return", num "0.0"); ("downside_target_daily_return", num "0.0");
       ("newey_west_lag_sessions", int 5); ("stationary_bootstrap_expected_block_sessions", int 10); ("stationary_bootstrap_samples", int 10000);
       ("bootstrap_confidence", num "0.95"); ("deterministic_bootstrap_seed", int 7077); ("annualization_sessions", int 252)]);
   ("llm", YMap
      [("maximum_evidence_events", int 100); ("provider_timeout_seconds", int 55); ("transport_timeout_seconds", int 50);
       ("transport_poll_interval_seconds", int 1)])].
Definition core_cost_document : document :=
  [("commission", YMap [("us_equity_rate", YScalar (SFloat "0.001")); ("waive_if_order_total_usd_lte", YScalar (SFloat "10.0"))])].
Definition core_bundle : Q1ConfigBundle := {| cb_document := core_runtime_document; cb_cost_document := core_cost_document; cb_manifest_hash := "manifest" |}.

Definition core_execution_config : Q1ExecutionConfig := {|
  xc_displayed_participation := Dec 1 (-1); xc_adv_participation := Dec 25 (-3); xc_delay_penalty_bps := Dec 10 (-1); xc_guard_min_bps := Dec 20 0;
  xc_guard_max_bps := Dec 75 0; xc_guard_spread_multiplier := Dec 30 (-1); xc_quantity_precision := Dec 1 (-6); xc_price_precision := Dec 1 (-4);
  xc_commission_rate := Dec 1 (-3); xc_commission_waiver_threshold_usd := Dec 100 (-1); xc_commission_precision := Dec 1 (-2);
  xc_sensitivity_bps := [Dec 50 (-1); Dec 100 (-1)] |}.

Lemma core_execution_config_parses : execution_config core_bundle = Ok core_execution_config.
Proof. vm_compute. reflexivity. Qed.

(** Every reader accepts the documents. *)
Lemma core_bundle_accepted :
  is_ok (operational_config core_bundle) && is_ok (llm_transport_config core_bundle) && is_ok (maximum_llm_evidence_events core_bundle)
  && is_ok (order_planning_config core_bundle) && is_ok (risk_engine_config core_bundle) && is_ok (settlement_policy core_bundle)
  && is_ok (evaluation_config core_bundle) && is_ok (evaluation_closing_quote_max_age_seconds core_bundle) && is_ok (displayed_size_unit_shares core_bundle)
  && is_ok (maximum_quote_age_seconds core_bundle) && is_ok (maximum_quote_skew_seconds core_bundle) && is_ok (adv_lookback_sessions core_bundle)
  && is_ok (critical_reconciliation_conditions core_bundle) = true.
Proof. vm_compute. reflexivity. Qed.
