(* ===== verification/MarketData.v ===== *)
(** * Market data ([data/market_repository.py], [data/q1_pit.py])

    The market tables, the repository's idempotent inserts and queries, the stream status, and the completed daily series that
    the Q1 signal and the volume cap are computed from. *)
From Stdlib Require Import ZArith Lia Ascii String.
From stdpp Require Import base list strings numbers sets.
From S2P Require Import Prelude PyDecimal Hashing Domain Text Payload Schedule Cycles CycleStore.
Set Default Goal Selector "!".
Open Scope Z_scope.

#[local] Notation "a =s b" := (String.eqb a b) (at level 70, only parsing).

(** ** Rows ([persistence/models.py]) *)

Record MarketBarRow := {
  mb_bar_id : string; mb_provider : string; mb_feed : string; mb_symbol : string; mb_timeframe : string; mb_event_time : datetime;
  mb_provider_timestamp : string; mb_available_at : datetime; mb_ingested_at : datetime; mb_source_kind : string; mb_open : dec; mb_high : dec;
  mb_low : dec; mb_close : dec; mb_volume : dec; mb_vwap : option dec; mb_trade_count : Z; mb_request_id : option string; mb_payload_hash : string;
  mb_raw_object_uri : option string; mb_payload_json : pydict pyval;
}.

Record MarketQuoteRow := {
  mq_quote_id : string; mq_provider : string; mq_feed : string; mq_symbol : string; mq_event_time : datetime; mq_provider_timestamp : string;
  mq_available_at : datetime; mq_ingested_at : datetime; mq_source_kind : string; mq_bid_exchange : option string; mq_bid_price : dec;
  mq_bid_size_round_lots : Z; mq_ask_exchange : option string; mq_ask_price : dec; mq_ask_size_round_lots : Z; mq_conditions : list string;
  mq_tape : option string; mq_payload_hash : string; mq_raw_object_uri : option string; mq_payload_json : pydict pyval;
}.

Record MarketTradeEventRow := {
  mt_trade_event_id : string; mt_provider : string; mt_feed : string; mt_symbol : string; mt_event_kind : string; mt_provider_event_id : option string;
  mt_event_time : datetime; mt_provider_timestamp : string; mt_available_at : datetime; mt_ingested_at : datetime; mt_source_kind : string;
  mt_exchange : option string; mt_price : option dec; mt_size : option Z; mt_conditions : list string; mt_tape : option string;
  mt_payload_hash : string; mt_raw_object_uri : option string; mt_payload_json : pydict pyval;
}.

Record MarketStreamStatusRow := {
  ms_provider : string; ms_feed : string; ms_state : string; ms_connected_at : option datetime; ms_disconnected_at : option datetime;
  ms_last_message_at : option datetime; ms_last_bar_at : option datetime; ms_last_quote_at : option datetime; ms_last_trade_at : option datetime;
  ms_reconnect_count : Z; ms_consecutive_failures : Z; ms_last_error_code : option string; ms_last_error_detail : option string; ms_updated_at : datetime;
}.

Record market_store := {
  bars : list MarketBarRow;
  quotes : list MarketQuoteRow;
  trades : list MarketTradeEventRow;
  statuses : list MarketStreamStatusRow;
}.

Inductive MarketConnectionState := STOPPED | AUTH_REQUIRED | CONNECTING | CONNECTED | DISCONNECTED | RECONNECTING.
#[global] Instance MarketConnectionState_eq_dec : EqDecision MarketConnectionState.
Proof. solve_decision. Defined.
Definition MarketConnectionState_value (s : MarketConnectionState) : string :=
  match s with
  | STOPPED => "STOPPED" | AUTH_REQUIRED => "AUTH_REQUIRED" | CONNECTING => "CONNECTING" | CONNECTED => "CONNECTED"
  | DISCONNECTED => "DISCONNECTED" | RECONNECTING => "RECONNECTING"
  end.

(** ** Inserts *)

(** Primary keys and unique constraints. *)
Definition bar_conflict (a b : MarketBarRow) : bool :=
  (mb_bar_id a =s mb_bar_id b)
  || ((mb_provider a =s mb_provider b) && (mb_feed a =s mb_feed b) && (mb_symbol a =s mb_symbol b) && (mb_timeframe a =s mb_timeframe b)
      && (mb_provider_timestamp a =s mb_provider_timestamp b) && (mb_payload_hash a =s mb_payload_hash b)).
Definition quote_conflict (a b : MarketQuoteRow) : bool :=
  (mq_quote_id a =s mq_quote_id b)
  || ((mq_provider a =s mq_provider b) && (mq_feed a =s mq_feed b) && (mq_symbol a =s mq_symbol b)
      && (mq_provider_timestamp a =s mq_provider_timestamp b) && (mq_payload_hash a =s mq_payload_hash b)).

(** [ON CONFLICT DO NOTHING], and the number of rows that [RETURNING] gives back. *)
Definition insert_row {A} (conflict : A → A → bool) (acc : list A * Z) (value : A) : list A * Z :=
  if existsb (λ r, conflict r value) acc.1 then acc else (acc.1 ++ [value], acc.2 + 1).
Definition _insert_ignore {A} (conflict : A → A → bool) (rows values : list A) : list A * Z := fold_left (insert_row conflict) values (rows, 0).

(** ** Queries *)

(** [case(("STREAM_UPDATE", 3), ("STREAM_BAR", 2), else_=1)] *)
Definition source_rank (kind : string) : Z := if kind =s "STREAM_UPDATE" then 3 else if kind =s "STREAM_BAR" then 2 else 1.

(** [order_by(available_at.desc(), ingested_at.desc(), source rank desc, bar_id.desc())] *)
Definition revision_lt (a b : MarketBarRow) : bool :=
  lex_lt [instant (mb_available_at b) ?= instant (mb_available_at a); instant (mb_ingested_at b) ?= instant (mb_ingested_at a);
          source_rank (mb_source_kind b) ?= source_rank (mb_source_kind a); String.compare (mb_bar_id b) (mb_bar_id a)].

Definition bar_visible (provider feed symbol timeframe : string) (cutoff : datetime) (r : MarketBarRow) : bool :=
  (mb_provider r =s provider) && (mb_feed r =s feed) && (mb_symbol r =s symbol) && (mb_timeframe r =s timeframe)
  && dt_le (mb_event_time r) cutoff && dt_le (mb_available_at r) cutoff.

(** [revision_rank == 1]: no revision of the same bar comes first. *)
Definition is_latest_revision (visible : list MarketBarRow) (r : MarketBarRow) : bool :=
  forallb (λ r', negb ((instant (mb_event_time r') =? instant (mb_event_time r)) && revision_lt r' r)) visible.

Definition newest_bar_le (a b : MarketBarRow) : bool := instant (mb_event_time b) <=? instant (mb_event_time a).

Definition latest_bars (m : market_store) (provider feed symbol timeframe : string) (as_of : datetime) (limit : Z) : res (list MarketBarRow) :=
  cutoff ← require_aware_utc as_of;
  let visible := List.filter (bar_visible provider feed symbol timeframe cutoff) (bars m) in
  Ok (rev (firstn (Z.to_nat limit) (sorted newest_bar_le (List.filter (is_latest_revision visible) visible)))).

(** [order_by(event_time.desc(), available_at.desc(), ingested_at.desc(), quote_id.desc())] *)
Definition latest_quote_le (a b : MarketQuoteRow) : bool :=
  negb (lex_lt [instant (mq_event_time a) ?= instant (mq_event_time b); instant (mq_available_at a) ?= instant (mq_available_at b);
                instant (mq_ingested_at a) ?= instant (mq_ingested_at b); String.compare (mq_quote_id a) (mq_quote_id b)]).

Definition latest_quote (m : market_store) (provider feed symbol : string) (as_of : datetime) : res (option MarketQuoteRow) :=
  cutoff ← require_aware_utc as_of;
  Ok (List.hd_error (sorted latest_quote_le (List.filter (λ r, (mq_provider r =s provider) && (mq_feed r =s feed) && (mq_symbol r =s symbol)
        && dt_le (mq_event_time r) cutoff && dt_le (mq_available_at r) cutoff) (quotes m)))).

Definition latest_trade_le (a b : MarketTradeEventRow) : bool :=
  negb (lex_lt [instant (mt_event_time a) ?= instant (mt_event_time b); instant (mt_available_at a) ?= instant (mt_available_at b);
                instant (mt_ingested_at a) ?= instant (mt_ingested_at b); String.compare (mt_trade_event_id a) (mt_trade_event_id b)]).

Definition latest_trade (m : market_store) (provider feed symbol : string) (as_of : datetime) : res (option MarketTradeEventRow) :=
  cutoff ← require_aware_utc as_of;
  Ok (List.hd_error (sorted latest_trade_le (List.filter (λ r, (mt_provider r =s provider) && (mt_feed r =s feed) && (mt_symbol r =s symbol)
        && dt_le (mt_event_time r) cutoff && dt_le (mt_available_at r) cutoff && (mt_event_kind r =s "TRADE")) (trades m)))).

(** [order_by(available_at, event_time, quote_id)] *)
Definition first_quote_le (a b : MarketQuoteRow) : bool :=
  negb (lex_lt [instant (mq_available_at b) ?= instant (mq_available_at a); instant (mq_event_time b) ?= instant (mq_event_time a);
                String.compare (mq_quote_id b) (mq_quote_id a)]).

Definition first_quote_after (m : market_store) (provider feed symbol : string) (observed_after as_of : datetime) : res (option MarketQuoteRow) :=
  start ← require_aware_utc observed_after; cutoff ← require_aware_utc as_of;
  Ok (List.hd_error (sorted first_quote_le (List.filter (λ r, (mq_provider r =s provider) && (mq_feed r =s feed) && (mq_symbol r =s symbol)
        && dt_le start (mq_event_time r) && dt_le start (mq_available_at r) && dt_le (mq_available_at r) cutoff) (quotes m)))).

(** The predicates of [first_executable_quote] without a spread limit. *)
Definition quote_executable (provider feed symbol : string) (start cutoff : datetime) (max_age_seconds : Z) (side : OrderSide) (r : MarketQuoteRow) : bool :=
  (mq_provider r =s provider) && (mq_feed r =s feed) && (mq_symbol r =s symbol) && dt_lt start (mq_event_time r)
  && dt_le (after cutoff (- (max_age_seconds * 1000000))) (mq_event_time r) && dt_lt start (mq_available_at r) && dt_le (mq_available_at r) cutoff
  && (d0 <? mq_bid_price r)%dec && (d0 <? mq_ask_price r)%dec && (mq_bid_price r <=? mq_ask_price r)%dec
  && (0 <? match side with BUY => mq_ask_size_round_lots r | SELL => mq_bid_size_round_lots r end).

Section spread.
(** [(ask - bid) * 20000 / (ask + bid) <= limit], with the database's numeric division. *)
Variable spread_within : dec → MarketQuoteRow → bool.

Definition first_executable_quote (m : market_store) (provider feed symbol : string) (observed_after as_of : datetime) (max_age_seconds : Z)
    (side : OrderSide) (max_spread_bps : option dec) : res (option MarketQuoteRow) :=
  raise_if (max_age_seconds <=? 0) ValueError "max_age_seconds must be positive";;
  start ← require_aware_utc observed_after; cutoff ← require_aware_utc as_of;
  raise_if (match max_spread_bps with Some v => (v <=? d0)%dec | None => false end) ValueError "max_spread_bps must be positive";;
  Ok (List.hd_error (sorted first_quote_le (List.filter (λ r, quote_executable provider feed symbol start cutoff max_age_seconds side r
        && opt_holds (λ v, spread_within v r) max_spread_bps) (quotes m)))).
End spread.

Definition last_bar_event_time (m : market_store) (provider feed : string) (symbols : list string) (timeframe : string) : option datetime :=
  match sorted newest_bar_le (List.filter (λ r, (mb_provider r =s provider) && (mb_feed r =s feed) && existsb (String.eqb (mb_symbol r)) symbols
          && (mb_timeframe r =s timeframe)) (bars m)) with
  | [] => None
  | r :: _ => Some (_aware (mb_event_time r))
  end.

(** ** Stream status *)

Definition get_status (m : market_store) (provider feed : string) : option MarketStreamStatusRow :=
  List.find (λ r, (ms_provider r =s provider) && (ms_feed r =s feed)) (statuses m).
Definition status : market_store → string → string → option MarketStreamStatusRow := get_status.

Definition with_statuses (m : market_store) (l : list MarketStreamStatusRow) : market_store :=
  {| bars := bars m; quotes := quotes m; trades := trades m; statuses := l |}.

Definition new_status (provider feed state : string) (now : datetime) : MarketStreamStatusRow := {|
  ms_provider := provider; ms_feed := feed; ms_state := state; ms_connected_at := None; ms_disconnected_at := None; ms_last_message_at := None;
  ms_last_bar_at := None; ms_last_quote_at := None; ms_last_trade_at := None; ms_reconnect_count := 0; ms_consecutive_failures := 0;
  ms_last_error_code := None; ms_last_error_detail := None; ms_updated_at := now |}.

Definition ensure_status (m : market_store) (provider feed : string) (state : MarketConnectionState) (now : datetime) : res market_store :=
  instant ← require_aware_utc now;
  Ok match get_status m provider feed with
     | Some _ => m
     | None => with_statuses m (statuses m ++ [new_status provider feed (MarketConnectionState_value state) instant])
     end.

(** Writes to the row of the stream, which [_status_row] creates as STOPPED when it is missing. *)
Definition update_status (m : market_store) (provider feed : string) (f : MarketStreamStatusRow → MarketStreamStatusRow) : market_store :=
  with_statuses m (map (λ r, if (ms_provider r =s provider) && (ms_feed r =s feed) then f r else r) (statuses m)).
Definition _status_row (m : market_store) (provider feed : string) (now : datetime) : market_store :=
  match get_status m provider feed with
  | Some _ => m
  | None => with_statuses m (statuses m ++ [new_status provider feed (MarketConnectionState_value STOPPED) now])
  end.

Definition transitioned (r : MarketStreamStatusRow) (state : MarketConnectionState) (now : datetime) (error_code error_detail : option string)
    (increment_reconnect failed : bool) : MarketStreamStatusRow := {|
  ms_provider := ms_provider r; ms_feed := ms_feed r; ms_state := MarketConnectionState_value state;
  ms_connected_at := if bool_decide (state = CONNECTED) then Some now else ms_connected_at r;
  ms_disconnected_at := match state with RECONNECTING | STOPPED | AUTH_REQUIRED => Some now | _ => ms_disconnected_at r end;
  ms_last_message_at := ms_last_message_at r; ms_last_bar_at := ms_last_bar_at r; ms_last_quote_at := ms_last_quote_at r;
  ms_last_trade_at := ms_last_trade_at r;
  ms_reconnect_count := if increment_reconnect then ms_reconnect_count r + 1 else ms_reconnect_count r;
  ms_consecutive_failures := let failures := if bool_decide (state = CONNECTED) then 0 else ms_consecutive_failures r in
                             if failed then failures + 1 else failures;
  ms_last_error_code := error_code; ms_last_error_detail := pytake 500 <$> error_detail; ms_updated_at := now |}.

Definition transition (m : market_store) (provider feed : string) (state : MarketConnectionState) (now : datetime) (error_code error_detail : option string)
    (increment_reconnect failed : bool) : res market_store :=
  instant ← require_aware_utc now;
  Ok (update_status (_status_row m provider feed instant) provider feed
        (λ r, transitioned r state instant error_code error_detail increment_reconnect failed)).

(** [max(_aware_or_min(previous), require_aware_utc(seen))] *)
Definition latest_seen (previous : option datetime) (seen : option datetime) : res (option datetime) :=
  match seen with
  | None => Ok previous
  | Some t => t ← require_aware_utc t; Ok (Some match previous with Some p => dt_max (_aware p) t | None => t end)
  end.

Definition record_received (m : market_store) (provider feed : string) (received_at : datetime) (bar_at quote_at trade_at : option datetime)
  : res market_store :=
  instant ← require_aware_utc received_at;
  let m := _status_row m provider feed instant in
  let row := get_status m provider feed in
  bar ← latest_seen (row ≫= ms_last_bar_at) bar_at; quote ← latest_seen (row ≫= ms_last_quote_at) quote_at;
  trade ← latest_seen (row ≫= ms_last_trade_at) trade_at;
  Ok (update_status m provider feed (λ r, {|
    ms_provider := ms_provider r; ms_feed := ms_feed r; ms_state := ms_state r; ms_connected_at := ms_connected_at r;
    ms_disconnected_at := ms_disconnected_at r; ms_last_message_at := Some instant; ms_last_bar_at := bar; ms_last_quote_at := quote;
    ms_last_trade_at := trade; ms_reconnect_count := ms_reconnect_count r; ms_consecutive_failures := ms_consecutive_failures r;
    ms_last_error_code := ms_last_error_code r; ms_last_error_detail := ms_last_error_detail r; ms_updated_at := instant |})).

Definition stream_heartbeat (m : market_store) (provider feed : string) (now : datetime) : res market_store :=
  instant ← require_aware_utc now;
  Ok (update_status m provider feed (λ r, if negb (ms_state r =s MarketConnectionState_value CONNECTED) then r else {|
    ms_provider := ms_provider r; ms_feed := ms_feed r; ms_state := ms_state r; ms_connected_at := ms_connected_at r;
    ms_disconnected_at := ms_disconnected_at r; ms_last_message_at := ms_last_message_at r; ms_last_bar_at := ms_last_bar_at r;
    ms_last_quote_at := ms_last_quote_at r; ms_last_trade_at := ms_last_trade_at r; ms_reconnect_count := ms_reconnect_count r;
    ms_consecutive_failures := ms_consecutive_failures r; ms_last_error_code := ms_last_error_code r;
    ms_last_error_detail := ms_last_error_detail r; ms_updated_at := instant |})).

(** ** Completed daily series ([data/q1_pit.py]) *)

Record CompletedDailySeries := {
  cd_symbol : string;
  cd_session_dates : list date;
  cd_adjusted_closes : list dec;
  cd_volumes : list dec;
  cd_bar_ids : list string;
  cd_event_times : list datetime;
  cd_available_ats : list datetime;
  cd_payload_hashes : list string;
}.

Definition validate_CompletedDailySeries (s : CompletedDailySeries) : res CompletedDailySeries :=
  let n := length (cd_session_dates s) in
  raise_if (negb (forallb (Nat.eqb n) [length (cd_adjusted_closes s); length (cd_volumes s); length (cd_bar_ids s); length (cd_event_times s);
                                       length (cd_available_ats s); length (cd_payload_hashes s)]))
    ValueError "Completed daily series fields must be aligned";;
  raise_if (existsb (λ v, v <=? d0)%dec (cd_adjusted_closes s)) ValueError "Completed daily closes must be positive";;
  raise_if (existsb (λ v, v <? d0)%dec (cd_volumes s)) ValueError "Completed daily volumes cannot be negative";;
  raise_if (negb (bool_decide (NoDup (cd_session_dates s)))) ValueError "Completed daily series contains duplicate sessions";;
  Ok s.

Record AlignedDailyInputs := {
  ad_session_dates : list date;
  ad_series : pydict CompletedDailySeries;
  ad_source_bar_ids : list string;
  ad_signal_data_cutoff : datetime;
}.

Definition PROVIDER : string := "alpaca".
Definition FEED : string := "iex".

Section series.
Context `{NewYork}.
Variable m : market_store.

(** [_aware(row.event_time).astimezone(NEW_YORK).date()] *)
Definition session_date_of (r : MarketBarRow) : date := local_date new_york (instant (mb_event_time r)).

(** [by_date]: a dictionary from session dates, kept as pairs in the order of first insertion. *)
Fixpoint date_get (d : date) (l : list (date * MarketBarRow)) : option MarketBarRow :=
  match l with [] => None | (k, r) :: l => if k =? d then Some r else date_get d l end.
Fixpoint date_set (d : date) (r : MarketBarRow) (l : list (date * MarketBarRow)) : list (date * MarketBarRow) :=
  match l with [] => [(d, r)] | (k, r') :: l => if k =? d then (k, r) :: l else (k, r') :: date_set d r l end.

Definition payload_is (r : MarketBarRow) (key value : string) : bool := match dget key (mb_payload_json r) with Some (PStr v) => v =s value | _ => false end.

Definition collect_bar (current_session_date : date) (cutoff : datetime) (dataset_version : string) (by_date : list (date * MarketBarRow)) (row : MarketBarRow)
  : res (list (date * MarketBarRow)) :=
  let session_date := session_date_of row in
  if current_session_date <=? session_date then Ok by_date
  else
    raise_if (dt_lt cutoff (mb_available_at row)) Q1PointInTimeDataError "Daily bar was unavailable at the cutoff";;
    raise_if (negb (payload_is row "_adjustment" "all") || negb (payload_is row "_dataset_version" dataset_version))
      Q1PointInTimeDataError "Daily bar lacks required adjusted provenance";;
    raise_if (match date_get session_date by_date with
              | Some previous => negb (mb_close previous =? mb_close row)%dec || negb (mb_volume previous =? mb_volume row)%dec
                                 || negb (mb_payload_hash previous =s mb_payload_hash row)
              | None => false
              end) Q1PointInTimeDataError "Inconsistent duplicate daily bars";;
    Ok (date_set session_date row by_date).

Definition date_le (a b : date * MarketBarRow) : bool := a.1 <=? b.1.

Definition _completed_series (symbol : string) (current_session_date : date) (cutoff : datetime) (limit : Z) (dataset_version : string)
  : res CompletedDailySeries :=
  rows ← latest_bars m PROVIDER FEED symbol "1Day" cutoff limit;
  by_date ← foldM (collect_bar current_session_date cutoff dataset_version) [] rows;
  let ordered := map snd (sorted date_le by_date) in
  raise_if (bool_decide (length ordered = 0%nat)) Q1PointInTimeDataError "No completed adjusted daily history";;
  raise_if (existsb (λ row, (mb_close row <=? d0)%dec || (mb_volume row <? d0)%dec) ordered) Q1PointInTimeDataError "Invalid completed daily values";;
  validate_CompletedDailySeries {|
    cd_symbol := symbol; cd_session_dates := map session_date_of ordered; cd_adjusted_closes := map mb_close ordered;
    cd_volumes := map mb_volume ordered; cd_bar_ids := map mb_bar_id ordered; cd_event_times := map (λ r, _aware (mb_event_time r)) ordered;
    cd_available_ats := map (λ r, _aware (mb_available_at r)) ordered; cd_payload_hashes := map mb_payload_hash ordered |}.

(** [l[-n:]] *)
Definition last_n {A} (n : Z) (l : list A) : list A := skipn (length l - Z.to_nat n) l.

Definition completed_adv_shares (symbol : string) (current_session_date : date) (as_of : datetime) (lookback_sessions query_limit : Z)
    (dataset_version : string) : res (dec * list string) :=
  raise_if ((lookback_sessions <=? 0) || (query_limit <? lookback_sessions)) ValueError "Invalid Q1 ADV lookback";;
  cutoff ← require_aware_utc as_of;
  series ← _completed_series symbol current_session_date cutoff query_limit dataset_version;
  raise_if (Z.of_nat (length (cd_volumes series)) <? lookback_sessions) Q1PointInTimeDataError "Insufficient completed ADV history";;
  average ← ddiv (dsum (last_n lookback_sessions (cd_volumes series))) (Dec lookback_sessions 0);
  raise_if (average <=? d0)%dec Q1PointInTimeDataError "Non-positive completed ADV";;
  Ok (average, last_n lookback_sessions (cd_bar_ids series)).

(** The items of a list at the positions of the selected dates. *)
Definition select {A} (dates selected : list date) (l : list A) : list A :=
  map snd (List.filter (λ p, existsb (Z.eqb p.1) selected) (List.combine dates l)).

Definition _select_dates (series : CompletedDailySeries) (selected : list date) : res CompletedDailySeries :=
  let dates := cd_session_dates series in
  validate_CompletedDailySeries {|
    cd_symbol := cd_symbol series; cd_session_dates := select dates selected dates; cd_adjusted_closes := select dates selected (cd_adjusted_closes series);
    cd_volumes := select dates selected (cd_volumes series); cd_bar_ids := select dates selected (cd_bar_ids series);
    cd_event_times := select dates selected (cd_event_times series); cd_available_ats := select dates selected (cd_available_ats series);
    cd_payload_hashes := select dates selected (cd_payload_hashes series) |}.

(** The dates that every series has, in increasing order. *)
Definition common_dates (loaded : pydict CompletedDailySeries) : list date :=
  match map snd loaded with
  | [] => []
  | s :: rest => sorted Z.leb (List.filter (λ d, forallb (λ s', existsb (Z.eqb d) (cd_session_dates s')) rest) (cd_session_dates s))
  end.

(** The dates of a series from the first selected one on are the selected ones. *)
Definition recent_complete (selected : list date) (series : CompletedDailySeries) : bool :=
  match selected with
  | [] => false
  | first :: _ => bool_decide (sorted Z.leb (List.filter (λ d, first <=? d) (cd_session_dates series)) = selected)
  end.

Definition aligned_completed_daily_inputs (symbols : list string) (current_session_date expected_latest_completed_session : date)
    (signal_data_cutoff : datetime) (minimum_completed_sessions query_limit : Z) (dataset_version : string) : res AlignedDailyInputs :=
  raise_if (bool_decide (symbols = [])) ValueError "Q1 daily inputs require symbols";;
  raise_if (minimum_completed_sessions <=? 0) ValueError "minimum_completed_sessions must be positive";;
  raise_if (query_limit <? minimum_completed_sessions) ValueError "query_limit is smaller than the required history";;
  cutoff ← require_aware_utc signal_data_cutoff;
  pairs ← mapM_res (λ symbol, s ← _completed_series symbol current_session_date cutoff query_limit dataset_version; Ok (symbol, s)) symbols;
  let loaded := dict_of_pairs pairs in
  let ordered_common := common_dates loaded in
  raise_if (Z.of_nat (length ordered_common) <? minimum_completed_sessions) Q1PointInTimeDataError "Insufficient aligned completed sessions";;
  raise_if (negb (bool_decide (List.hd_error (rev ordered_common) = Some expected_latest_completed_session))) Q1PointInTimeDataError "Q1 completed daily history is stale";;
  let selected_dates := last_n minimum_completed_sessions ordered_common in
  raise_if (existsb (λ kv, negb (recent_complete selected_dates kv.2)) loaded) Q1PointInTimeDataError "Incomplete or inconsistent recent daily history";;
  aligned ← mapM_res (λ kv, s ← _select_dates kv.2 selected_dates; Ok (kv.1, s)) loaded;
  Ok {| ad_session_dates := selected_dates; ad_series := aligned; ad_source_bar_ids := sorted String.leb (concat (map (λ kv, cd_bar_ids kv.2) aligned));
        ad_signal_data_cutoff := cutoff |}.
End series.
