(* ===== verification/ExecutionCycle.v ===== *)
(** * The execution cycle ([runtime/q1_execution_cycle.py])

    One run of the processor: it reads the order book, the arm states and the market data, prepares an event for every pending order
    that expires, is blocked or can be filled, and commits them in one transaction.  The stores that its queries see are separate
    arguments, because the queries run in separate sessions; the code version is a parameter.  The seconds between two quotes are exact. *)
From Stdlib Require Import ZArith Lia Ascii String.
From stdpp Require Import base list strings numbers sets.
From S2P Require Import Prelude PyDecimal Hashing Domain Text OrderState Settlement ArmState Payload Execution Reconciliation Planning Schedule Cycles CycleStore.
From S2P Require Import Q1Records Q1Store RuntimeConfig MarketData.
Set Default Goal Selector "!".
Open Scope Z_scope.

#[local] Notation "a =s b" := (String.eqb a b) (at level 70, only parsing).

Definition Q1_DAILY_DATASET_VERSION : string := "alpaca_iex_adjusted_all_v1".
Definition Q1_BASE_EXECUTION_SCENARIO : string := "Q1_BASE_V1".
Definition Q1_MODEL_VERSION : string := "q1_runtime_v1".

Record QuoteCandidate := {
  qc_aggregate : OrderAggregate;
  qc_intent : Q1OrderIntent;
  qc_quote : MarketQuoteRow;
  qc_adv_shares : dec;
  qc_adv_bar_ids : list string;
  qc_remaining_adv_capacity : dec;
  qc_cumulative_notional_before : dec;
}.

Record PreparedMutation := {
  pm_aggregate : OrderAggregate;
  pm_intent : Q1OrderIntent;
  pm_event : OrderEvent;
  pm_fill : option Q1Fill;
  pm_state_before_sequence : option Z;
  pm_state_after : option Q1ArmState;
  pm_settlement_event : option CashSettlementEvent;
}.

(** A mutation that only adds an event. *)
Definition event_only (aggregate : OrderAggregate) (intent : Q1OrderIntent) (event : OrderEvent) : PreparedMutation :=
  {| pm_aggregate := aggregate; pm_intent := intent; pm_event := event; pm_fill := None; pm_state_before_sequence := None; pm_state_after := None;
     pm_settlement_event := None |}.

Definition _lease_owner (cycle : PaperCycleRow) : res string :=
  match pc_lease_owner cycle with Some o => Ok o | None => raise Q1ExecutionCycleError "Q1 execution cycle has no lease owner" end.
Definition _required_receivable_id (value : option string) : res string :=
  match value with Some v => Ok v | None => raise Q1ExecutionCycleError "SELL settlement has no receivable ID" end.
Definition _required_settlement_date (value : option date) : res date :=
  match value with Some v => Ok v | None => raise Q1ExecutionCycleError "SELL settlement has no settlement date" end.
Definition _sensitivity (economics : Q1FillEconomics) (bps : string) : res dec :=
  match dget (String.append "plus_" (String.append bps "_bps")) (fe_sensitivity_costs_usd economics) with
  | Some value => Ok value
  | None => raise Q1ExecutionCycleError "Q1 execution sensitivity is not configured"
  end.

(** ** Affordability *)

(** The cash that [quantity] needs: its notional and the commission that it adds to the order's. *)
Definition cost_of (config : Q1ExecutionConfig) (fill_price cumulative_notional_before cumulative_commission_before quantity : dec) : res dec :=
  let notional := (quantity * fill_price)%dec in
  total_commission ← total_commission_due (cumulative_notional_before + notional)%dec config;
  let incremental := (total_commission - cumulative_commission_before)%dec in
  Ok (notional + dmax d0 incremental)%dec.

(** The body of [while quantity > 0]. *)
Definition affordable_step (config : Q1ExecutionConfig) (settled_cash fill_price cumulative_notional_before cumulative_commission_before : dec) (quantity : dec)
  : dec + res dec :=
  if negb (d0 <? quantity)%dec then inr (Ok d0)
  else match cost_of config fill_price cumulative_notional_before cumulative_commission_before quantity with
       | Raise e => inr (Raise e)
       | Ok cost => if (cost <=? settled_cash)%dec then inr (Ok quantity) else inl (quantity - xc_quantity_precision config)%dec
       end.

(** Each step takes at least one unit of the last place off. *)
Definition affordable_fuel (quantity : dec) : positive := Z.to_pos (Z.abs (dcoef quantity) + 1).

Definition _maximum_affordable_quantity (settled_cash ask_price cumulative_notional_before cumulative_commission_before : dec) (config : Q1ExecutionConfig)
  : res dec :=
  delay ← ddiv (xc_delay_penalty_bps config) TEN_THOUSAND;
  fill_price ← dquantize (ask_price * (d1 + delay))%dec (xc_price_precision config) ROUND_HALF_EVEN;
  let conservative_cash := dmax d0 (settled_cash - xc_commission_precision config)%dec in
  let denominator := (fill_price * (d1 + xc_commission_rate config))%dec in
  quotient ← ddiv conservative_cash denominator;
  quantity ← dquantize quotient (xc_quantity_precision config) ROUND_DOWN;
  match iter_until (affordable_fuel quantity) (affordable_step config settled_cash fill_price cumulative_notional_before cumulative_commission_before) quantity with
  | inr r => r
  | inl _ => Ok d0
  end.

(** ** Reading *)

(** What the queries of a run see. *)
Record Snapshots := {
  sn_book : q1_store;                     (* [_read_inputs] *)
  sn_market_status : market_store;
  sn_fills : string → q1_store;           (* the queries on the fills of an order *)
  sn_market : string → market_store;      (* the queries for the quotes and bars of an order *)
}.

Record ReadInputs := { in_book : Q1OrderBook; in_states : pydict Q1ArmState; in_stream_state : string; in_calendar_dates : list date }.

Definition session_row_le (a b : MarketCalendarSession) : bool := mcs_session_date a <=? mcs_session_date b.

(** The sessions of the calendar version that are available. *)
Definition calendar_session_dates (s : q1_store) (calendar_version : string) (as_of : datetime) : list date :=
  map mcs_session_date (sorted session_row_le (List.filter (λ r, (mcs_calendar_version r =s calendar_version) && dt_le (mcs_available_at r) as_of)
                                                           (calendar_sessions (strategy s)))).

(** [{descriptor.arm_id for descriptor in book.descriptors}], sorted *)
Definition arm_ids_of (book : Q1OrderBook) : list string := sorted String.leb (remove_dups (map od_arm_id (ob_descriptors book))).

Definition _read_inputs (s : q1_store) (m : market_store) (run_id : string) (calendar : VersionedMarketSession) (as_of : datetime) : res ReadInputs :=
  book ← load_q1_order_book s run_id None;
  states ← mapM_res (λ arm_id, state ← latest_arm_state s run_id arm_id; Ok (arm_id, state)) (arm_ids_of book);
  Ok {| in_book := book;
        in_states := omap (λ kv, (λ state, (kv.1, state)) <$> kv.2) states;
        in_stream_state := match get_status m PROVIDER FEED with None => MarketConnectionState_value DISCONNECTED | Some status => ms_state status end;
        in_calendar_dates := calendar_session_dates s (vs_calendar_version calendar) as_of |}.

(** [max(created_at, *(max(event_time, available_at) for row in rows))] *)
Definition quote_seen_at (r : MarketQuoteRow) : datetime := dt_max (_aware (mq_event_time r)) (_aware (mq_available_at r)).

Definition _quote_cursor (m : market_store) (aggregate : OrderAggregate) (events : list OrderEvent) : res datetime :=
  let quote_ids := omap (λ e, if oe_order_intent_id e =s od_order_intent_id (ag_order aggregate) then oe_quote_id e else None) events in
  if bool_decide (quote_ids = []) then Ok (od_created_at (ag_order aggregate))
  else
    let rows := List.filter (λ r, existsb (String.eqb (mq_quote_id r)) quote_ids) (quotes m) in
    raise_if (negb (Nat.eqb (length rows) (length (remove_dups quote_ids)))) Q1ExecutionCycleError "Order-event quote cursor references missing market data";;
    Ok (fold_left (λ t r, dt_max t (quote_seen_at r)) rows (od_created_at (ag_order aggregate))).

Definition _session_consumed_quantity (s : q1_store) (run_id arm_id symbol : string) (session_open as_of : datetime) : dec :=
  sql_sum (map qf_quantity (List.filter (λ f, (qf_run_id f =s run_id) && (Q1ArmId_value (qf_arm_id f) =s arm_id) && (qf_symbol f =s symbol)
    && (qf_algorithm_version f =s Q1_ALGORITHM_VERSION) && dt_le session_open (qf_effective_at f) && dt_le (qf_effective_at f) as_of) (fills (orders s)))).

Definition _order_cumulative_notional (s : q1_store) (order_intent_id : string) : dec :=
  dsum (map (λ f, qf_quantity f * qf_price f)%dec (List.filter (λ f, (qf_order_intent_id f =s order_intent_id)
    && (qf_algorithm_version f =s Q1_ALGORITHM_VERSION)) (fills (orders s)))).

(** [max(event_times) - min(event_times)] in seconds *)
Definition _quote_skew_seconds (candidates : list QuoteCandidate) : dec :=
  match map (λ c, instant (mq_event_time (qc_quote c))) candidates with
  | [] => d0
  | t :: ts => Dec (fold_left Z.max ts t - fold_left Z.min ts t) (-6)
  end.

(** ** [_q1_fill], [_descriptor], [_aggregate_for] *)

Definition _descriptor : Q1OrderIntent → res OrderDescriptor := descriptor_of.
Definition _aggregate_for (intent : Q1OrderIntent) (events : list OrderEvent) : res OrderAggregate :=
  order ← _descriptor intent; reduce_order_events order events None.

Section cycle.
Context `{Digest} `{NewYork}.
(** [self._runtime.config], [self._runtime.schedule] and [workspace_code_version(...)]. *)
Variables (bundle : Q1ConfigBundle) (schedule : Q1SessionSchedule) (workspace_code_version : string).

Definition _provenance (cycle : PaperCycleRow) (source_manifest : string) : res OrderEventProvenance :=
  owner ← _lease_owner cycle;
  validate_OrderEventProvenance {| op_config_manifest_hash := cb_manifest_hash bundle; op_code_version := workspace_code_version;
    op_model_version := Q1_MODEL_VERSION; op_source_manifest_hash := source_manifest; op_worker_fence_token := owner;
    op_cycle_attempt_count := pc_attempt_count cycle |}.

Definition _q1_fill (cycle : PaperCycleRow) (candidate : QuoteCandidate) (economics : Q1FillEconomics) (now : datetime) (source_manifest : string)
  : res Q1Fill :=
  let intent := qc_intent candidate in
  let quote := qc_quote candidate in
  fill_id ← stable_id "q1-fill" [PStr (qi_order_intent_id intent); PStr (mq_quote_id quote); PStr Q1_BASE_EXECUTION_SCENARIO];
  five ← _sensitivity economics "5.0"; ten ← _sensitivity economics "10.0";
  let content := [("fill_id", PStr fill_id); ("order_intent_id", PStr (qi_order_intent_id intent)); ("run_id", PStr (qi_run_id intent));
    ("arm_id", PStr (Q1ArmId_value (qi_arm_id intent))); ("source_cycle_id", PStr (pc_cycle_id cycle)); ("quote_id", PStr (mq_quote_id quote));
    ("quote_event_time", PDatetime (_aware (mq_event_time quote))); ("quote_available_at", PDatetime (_aware (mq_available_at quote)));
    ("symbol", PStr (qi_symbol intent)); ("side", PStr (OrderSide_value (qi_side intent))); ("quantity", PDecimal (fe_quantity economics));
    ("price", PDecimal (fe_price economics)); ("commission_usd", PDecimal (fe_commission_usd economics));
    ("cumulative_order_commission_usd", PDecimal (fe_cumulative_commission_usd economics));
    ("execution_scenario_id", PStr Q1_BASE_EXECUTION_SCENARIO); ("base_fill_cost_usd", PDecimal (fe_base_execution_cost_usd economics));
    ("sensitivity_5bp_cost_usd", PDecimal five); ("sensitivity_10bp_cost_usd", PDecimal ten); ("effective_at", PDatetime now);
    ("created_at", PDatetime now); ("algorithm_version", PStr Q1_ALGORITHM_VERSION); ("config_manifest_hash", PStr (cb_manifest_hash bundle));
    ("code_version", PStr workspace_code_version); ("model_version", PStr Q1_MODEL_VERSION); ("source_manifest_hash", PStr source_manifest)] in
  fill_hash ← canonical_hash (PDict content);
  validate_Q1Fill {|
    qf_fill_id := fill_id; qf_order_intent_id := qi_order_intent_id intent; qf_run_id := qi_run_id intent; qf_arm_id := qi_arm_id intent;
    qf_source_cycle_id := pc_cycle_id cycle; qf_quote_id := mq_quote_id quote; qf_quote_event_time := _aware (mq_event_time quote);
    qf_quote_available_at := _aware (mq_available_at quote); qf_symbol := qi_symbol intent; qf_side := qi_side intent;
    qf_quantity := fe_quantity economics; qf_price := fe_price economics; qf_commission_usd := fe_commission_usd economics;
    qf_cumulative_order_commission_usd := fe_cumulative_commission_usd economics; qf_execution_scenario_id := Q1_BASE_EXECUTION_SCENARIO;
    qf_base_fill_cost_usd := fe_base_execution_cost_usd economics; qf_sensitivity_5bp_cost_usd := five; qf_sensitivity_10bp_cost_usd := ten;
    qf_effective_at := now; qf_created_at := now; qf_algorithm_version := Q1_ALGORITHM_VERSION; qf_config_manifest_hash := cb_manifest_hash bundle;
    qf_code_version := workspace_code_version; qf_model_version := Q1_MODEL_VERSION; qf_source_manifest_hash := source_manifest;
    qf_fill_hash := fill_hash |}.

(** An event of the cycle without deltas. *)
Definition plain_request (event_type : OrderEventType) (now : datetime) (provenance : OrderEventProvenance) (reason : string) (quote_id : option string)
    (cycle : PaperCycleRow) : AppendRequest := {|
  rq_event_type := event_type; rq_occurred_at := now; rq_available_at := now; rq_provenance := provenance; rq_quantity_delta := d0;
  rq_commission_delta_usd := d0; rq_reason := Some reason; rq_source_id := None; rq_quote_id := quote_id;
  rq_source_cycle_id := Some (pc_cycle_id cycle) |}.

(** [intent_by_id[order_intent_id]] *)
Definition intent_by_id (book : Q1OrderBook) : pydict Q1OrderIntent := dict_of_pairs (map (λ i, (qi_order_intent_id i, i)) (ob_intents book)).

Definition prepare_expiry (book_events : list OrderEvent) (provenance : OrderEventProvenance) (cycle : PaperCycleRow) (now : datetime)
    (intents : pydict Q1OrderIntent) (provisional : OrderEvent) : res PreparedMutation :=
  intent ← dindex (oe_order_intent_id provisional) intents;
  order ← _descriptor intent;
  event ← append_order_event order book_events (plain_request EXPIRED now provenance "ORDER_VALIDITY_WINDOW_ENDED" None cycle);
  aggregate ← _aggregate_for intent book_events;
  Ok (event_only aggregate intent event).
Definition _prepare_expiry_mutations (expired book_events : list OrderEvent) (provenance : OrderEventProvenance) (cycle : PaperCycleRow) (now : datetime)
    (intents : pydict Q1OrderIntent) : res (list PreparedMutation) :=
  mapM_res (prepare_expiry book_events provenance cycle now intents) expired.

Definition prepare_blocked (blocked_reasons : pydict (string * option string)) (book_events : list OrderEvent) (provenance : OrderEventProvenance)
    (cycle : PaperCycleRow) (now : datetime) (intents : pydict Q1OrderIntent) (result : list PreparedMutation) (aggregate : OrderAggregate)
  : res (list PreparedMutation) :=
  let order_intent_id := od_order_intent_id (ag_order aggregate) in
  match dget order_intent_id blocked_reasons with
  | None => Ok result
  | Some (reason, quote_id) =>
      intent ← dindex order_intent_id intents;
      event ← append_order_event (ag_order aggregate) book_events (plain_request BLOCKED_BY_DATA now provenance reason quote_id cycle);
      Ok (result ++ [event_only aggregate intent event])
  end.
Definition _prepare_blocked_mutations (pending : list OrderAggregate) (blocked_reasons : pydict (string * option string)) (book_events : list OrderEvent)
    (provenance : OrderEventProvenance) (cycle : PaperCycleRow) (now : datetime) (intents : pydict Q1OrderIntent) : res (list PreparedMutation) :=
  foldM (prepare_blocked blocked_reasons book_events provenance cycle now intents) [] pending.

Definition _blocked_candidate (candidate : QuoteCandidate) (book_events : list OrderEvent) (provenance : OrderEventProvenance) (cycle : PaperCycleRow)
    (now : datetime) (reason : string) (event_type : OrderEventType) : res PreparedMutation :=
  event ← append_order_event (ag_order (qc_aggregate candidate)) book_events
            (plain_request event_type now provenance reason (Some (mq_quote_id (qc_quote candidate))) cycle);
  Ok (event_only (qc_aggregate candidate) (qc_intent candidate) event).

(** The variables of the loop: [working_states], [remaining_cap_by_arm_symbol], [result]. *)
Record filling := { fg_states : pydict Q1ArmState; fg_caps : list ((string * string) * dec); fg_result : list PreparedMutation }.

Definition cap_key (intent : Q1OrderIntent) : string * string := (Q1ArmId_value (qi_arm_id intent), qi_symbol intent).
Fixpoint cap_get (k : string * string) (l : list ((string * string) * dec)) : option dec :=
  match l with [] => None | (k', d) :: l => if bool_decide (k' = k) then Some d else cap_get k l end.
Fixpoint cap_set (k : string * string) (d : dec) (l : list ((string * string) * dec)) : list ((string * string) * dec) :=
  match l with [] => [(k, d)] | (k', d') :: l => if bool_decide (k' = k) then (k, d) :: l else (k', d') :: cap_set k d l end.

(** [0 if side is SELL else 1, arm, symbol, order] *)
Definition side_rank (s : OrderSide) : Z := match s with SELL => 0 | BUY => 1 end.
Definition candidate_le (a b : QuoteCandidate) : bool :=
  let x := qc_intent a in let y := qc_intent b in
  negb (lex_lt [side_rank (qi_side y) ?= side_rank (qi_side x); String.compare (Q1ArmId_value (qi_arm_id y)) (Q1ArmId_value (qi_arm_id x));
                String.compare (qi_symbol y) (qi_symbol x); String.compare (qi_order_intent_id y) (qi_order_intent_id x)]).

(** What the arm can still execute of the order. *)
Definition executable_remaining (candidate : QuoteCandidate) (state : Q1ArmState) (config : Q1ExecutionConfig) : res dec :=
  let remaining := ag_remaining_quantity (qc_aggregate candidate) in
  match qi_side (qc_intent candidate) with
  | SELL => Ok (dmin remaining match dget (qi_symbol (qc_intent candidate)) (as_positions state) with Some q => q | None => d0 end)
  | BUY =>
      affordable ← _maximum_affordable_quantity (as_settled_cash_usd state) (mq_ask_price (qc_quote candidate)) (qc_cumulative_notional_before candidate)
                     (ag_cumulative_commission_usd (qc_aggregate candidate)) config;
      Ok (dmin remaining affordable)
  end.

Definition fill_inputs (candidate : QuoteCandidate) (executable side_quantity remaining_adv : dec) : FillInputs :=
  let intent := qc_intent candidate in
  {| fi_side := qi_side intent; fi_remaining_quantity := executable; fi_bid_price := mq_bid_price (qc_quote candidate);
     fi_ask_price := mq_ask_price (qc_quote candidate); fi_executable_side_quantity := side_quantity; fi_remaining_adv_capacity := remaining_adv;
     fi_decision_reference_price := qi_decision_reference_price intent; fi_decision_spread_bps := qi_decision_spread_bps intent;
     fi_cumulative_notional_before := qc_cumulative_notional_before candidate;
     fi_cumulative_commission_before := ag_cumulative_commission_usd (qc_aggregate candidate) |}.

(** The arguments that do not change during the loop. *)
Record fill_context := {
  fc_config : Q1ExecutionConfig; fc_policy : SettlementPolicy; fc_calendar : BusinessCalendar; fc_settlement : SettlementProvenance;
  fc_events : list OrderEvent; fc_provenance : OrderEventProvenance; fc_cycle : PaperCycleRow; fc_session : VersionedMarketSession; fc_now : datetime;
  fc_source_manifest : string;
}.

Definition settlement_event_of (c : fill_context) (intent : Q1OrderIntent) (fill : Q1Fill) : res CashSettlementEvent :=
  let notional := (qf_quantity fill * qf_price fill)%dec in
  match qi_side intent with
  | BUY => record_buy_cash_debit (qi_arm_id intent) (qf_fill_id fill) (fc_now c) notional (qf_commission_usd fill) (fc_now c)
             (vs_calendar_session_id (fc_session c)) (fc_policy c) (fc_settlement c)
  | SELL => record_sell_receivable (qi_arm_id intent) (qf_fill_id fill) (fc_now c) (vs_session_date (fc_session c)) notional (qf_commission_usd fill)
              (fc_now c) (vs_calendar_session_id (fc_session c)) (fc_policy c) (fc_calendar c) (fc_settlement c)
  end.

Definition receivable_of (c : fill_context) (intent : Q1OrderIntent) (fill : Q1Fill) (event : CashSettlementEvent) : res (option UnsettledReceivable) :=
  match qi_side intent with
  | BUY => Ok None
  | SELL =>
      receivable_id ← _required_receivable_id (cs_receivable_id event);
      settlement_date ← _required_settlement_date (cs_settlement_date event);
      receivable ← validate_UnsettledReceivable {| ur_receivable_id := receivable_id; ur_source_fill_id := qf_fill_id fill;
        ur_amount_usd := cs_unsettled_receivable_delta_usd event; ur_settlement_date := settlement_date; ur_created_at := fc_now c |};
      Ok (Some receivable)
  end.

Definition fill_of (fill : Q1Fill) : res Fill :=
  validate_Fill {| fl_fill_id := qf_fill_id fill; fl_order_intent_id := qf_order_intent_id fill; fl_arm_id := Q1ArmId_value (qf_arm_id fill);
    fl_symbol := qf_symbol fill; fl_side := qf_side fill; fl_quantity := qf_quantity fill; fl_price := qf_price fill;
    fl_commission_usd := qf_commission_usd fill; fl_execution_scenario_id := qf_execution_scenario_id fill; fl_effective_at := qf_effective_at fill;
    fl_created_at := qf_created_at fill |}.

(** A candidate that is filled, after its economics. *)
Definition filled_mutation (c : fill_context) (candidate : QuoteCandidate) (state : Q1ArmState) (economics : Q1FillEconomics)
  : res (PreparedMutation * Q1ArmState) :=
  let intent := qc_intent candidate in
  let aggregate := qc_aggregate candidate in
  raise_if (bool_decide (qi_side intent = BUY) && (as_settled_cash_usd state <? fe_quantity economics * fe_price economics + fe_commission_usd economics)%dec)
    Q1ExecutionCycleError "Settled-cash affordability guard failed";;
  fill ← _q1_fill (fc_cycle c) candidate economics (fc_now c) (fc_source_manifest c);
  settlement_event ← settlement_event_of c intent fill;
  receivable ← receivable_of c intent fill settlement_event;
  contract ← fill_of fill;
  state_after ← apply_fill state contract receivable;
  let event_type := if (fe_quantity economics =? ag_remaining_quantity aggregate)%dec then FILLED else PARTIALLY_FILLED in
  event ← append_order_event (ag_order aggregate) (fc_events c) {|
    rq_event_type := event_type; rq_occurred_at := fc_now c; rq_available_at := fc_now c; rq_provenance := fc_provenance c;
    rq_quantity_delta := fe_quantity economics; rq_commission_delta_usd := fe_commission_usd economics; rq_reason := None;
    rq_source_id := Some (qf_fill_id fill); rq_quote_id := Some (mq_quote_id (qc_quote candidate));
    rq_source_cycle_id := Some (pc_cycle_id (fc_cycle c)) |};
  Ok ({| pm_aggregate := aggregate; pm_intent := intent; pm_event := event; pm_fill := Some fill; pm_state_before_sequence := Some (as_sequence state);
         pm_state_after := Some state_after; pm_settlement_event := Some settlement_event |}, state_after).

(** [result.append(mutation)] *)
Definition add_result (g : filling) (m : PreparedMutation) : filling :=
  {| fg_states := fg_states g; fg_caps := fg_caps g; fg_result := fg_result g ++ [m] |}.

Definition block (c : fill_context) (g : filling) (candidate : QuoteCandidate) (reason : string) (event_type : OrderEventType) : res filling :=
  m ← _blocked_candidate candidate (fc_events c) (fc_provenance c) (fc_cycle c) (fc_now c) reason event_type;
  Ok (add_result g m).

(** The body of the loop over the candidates. *)
Definition fill_candidate (c : fill_context) (g : filling) (candidate : QuoteCandidate) : res filling :=
  let intent := qc_intent candidate in
  match dget (Q1ArmId_value (qi_arm_id intent)) (fg_states g) with
  | None => block c g candidate "ARM_STATE_UNAVAILABLE" BLOCKED_BY_DATA
  | Some state =>
      let key := cap_key intent in
      let remaining_adv := match cap_get key (fg_caps g) with Some d => d | None => qc_remaining_adv_capacity candidate end in
      let g := {| fg_states := fg_states g; fg_caps := cap_set key remaining_adv (fg_caps g); fg_result := fg_result g |} in
      unit_shares ← displayed_size_unit_shares bundle;
      let lots := match qi_side intent with BUY => mq_ask_size_round_lots (qc_quote candidate) | SELL => mq_bid_size_round_lots (qc_quote candidate) end in
      let side_quantity := (Dec lots 0 * unit_shares)%dec in
      executable ← executable_remaining candidate state (fc_config c);
      if (executable <=? d0)%dec || (remaining_adv <=? d0)%dec then block c g candidate "EXECUTION_CAPACITY_UNAVAILABLE" BLOCKED_BY_DATA
      else
        match build_q1_fill_economics (fill_inputs candidate executable side_quantity remaining_adv) (fc_config c) with
        | Raise e =>
            if bool_decide (exn_kind e = Q1PriceGuardViolation) then block c g candidate "DYNAMIC_DECISION_PRICE_GUARD" BLOCKED_BY_PRICE_GUARD
            else if bool_decide (exn_kind e = ValueError) then block c g candidate "INVALID_EXECUTION_CAPACITY_OR_QUOTE" BLOCKED_BY_DATA
            else Raise e
        | Ok economics =>
            '(m, state_after) ← filled_mutation c candidate state economics;
            Ok {| fg_states := dset (Q1ArmId_value (qi_arm_id intent)) state_after (fg_states g);
                  fg_caps := cap_set key (remaining_adv - fe_quantity economics)%dec (fg_caps g); fg_result := fg_result g ++ [m] |}
        end
  end.

Definition _prepare_fill_mutations (candidates : list QuoteCandidate) (states : pydict Q1ArmState) (book_events : list OrderEvent)
    (provenance : OrderEventProvenance) (cycle : PaperCycleRow) (calendar : VersionedMarketSession) (calendar_dates : list date) (now : datetime)
    (source_manifest : string) : res (list PreparedMutation) :=
  config ← execution_config bundle;
  policy ← settlement_policy bundle;
  business_calendar ← validate_BusinessCalendar {| bc_version := vs_calendar_version calendar; bc_sessions := calendar_dates |};
  owner ← _lease_owner cycle;
  settlement_provenance ← validate_SettlementProvenance {| pv_run_id := pc_run_id cycle; pv_source_cycle_id := pc_cycle_id cycle;
    pv_config_manifest_hash := cb_manifest_hash bundle; pv_code_version := workspace_code_version; pv_model_version := Q1_MODEL_VERSION;
    pv_source_manifest_hash := source_manifest; pv_worker_fence_token := owner; pv_cycle_attempt_count := pc_attempt_count cycle |};
  let context := {| fc_config := config; fc_policy := policy; fc_calendar := business_calendar; fc_settlement := settlement_provenance;
    fc_events := book_events; fc_provenance := provenance; fc_cycle := cycle; fc_session := calendar; fc_now := now; fc_source_manifest := source_manifest |} in
  g ← foldM (fill_candidate context) {| fg_states := states; fg_caps := []; fg_result := [] |} (sorted candidate_le candidates);
  Ok (fg_result g).

(** ** [process] *)

(** What the loop over the pending orders collects: [candidates], [blocked_reasons], [adv_manifest], [quote_manifest]. *)
Record gathered := {
  gt_candidates : list QuoteCandidate;
  gt_blocked : pydict (string * option string);
  gt_adv : pydict pyval;
  gt_quotes : pydict pyval;
}.

Definition blocked_by (g : gathered) (order_intent_id reason : string) (quote_id : option string) : gathered :=
  {| gt_candidates := gt_candidates g; gt_blocked := dset order_intent_id (reason, quote_id) (gt_blocked g); gt_adv := gt_adv g; gt_quotes := gt_quotes g |}.

(** A query for an executable quote without a spread limit does not use the database's division. *)
Definition executable_quote (m : market_store) (symbol : string) (cursor now : datetime) (max_age : Z) (side : OrderSide) : res (option MarketQuoteRow) :=
  first_executable_quote (λ _ _, true) m PROVIDER FEED symbol cursor now max_age side None.

Record process_context := {
  px_cycle : PaperCycleRow; px_session : VersionedMarketSession; px_now : datetime; px_inputs : ReadInputs; px_snapshots : Snapshots;
  px_expired_ids : list string; px_intents : pydict Q1OrderIntent; px_normal_start : datetime;
}.

Definition gather_candidate (c : process_context) (g : gathered) (aggregate : OrderAggregate) (intent : Q1OrderIntent) (quote : MarketQuoteRow)
    (adv : dec) (bar_ids : list string) : res gathered :=
  let order := ag_order aggregate in
  let id := od_order_intent_id order in
  let fills_seen := sn_fills (px_snapshots c) id in
  let consumed := _session_consumed_quantity fills_seen (pc_run_id (px_cycle c)) (od_arm_id order) (od_symbol order) (vs_open_at (px_session c)) (px_now c) in
  config ← execution_config bundle;
  let cap := dmax d0 (adv * xc_adv_participation config - consumed)%dec in
  let candidate := {| qc_aggregate := aggregate; qc_intent := intent; qc_quote := quote; qc_adv_shares := adv; qc_adv_bar_ids := bar_ids;
    qc_remaining_adv_capacity := cap; qc_cumulative_notional_before := _order_cumulative_notional fills_seen id |} in
  Ok {| gt_candidates := gt_candidates g ++ [candidate]; gt_blocked := gt_blocked g;
        gt_adv := dset id (PDict [("adv_shares", PDecimal adv); ("bar_ids", PList (map PStr bar_ids)); ("consumed_quantity", PDecimal consumed);
                                  ("remaining_capacity", PDecimal cap)]) (gt_adv g);
        gt_quotes := dset id (PDict [("quote_id", PStr (mq_quote_id quote)); ("event_time", PDatetime (_aware (mq_event_time quote)));
                                     ("available_at", PDatetime (_aware (mq_available_at quote)))]) (gt_quotes g) |}.

(** The body of the loop. *)
Definition consider (c : process_context) (g : gathered) (aggregate : OrderAggregate) : res gathered :=
  let order := ag_order aggregate in
  let id := od_order_intent_id order in
  intent ← dindex id (px_intents c);
  if existsb (String.eqb id) (px_expired_ids c) then Ok g
  else if negb (is_regular_session_time (px_now c) (px_session c)) then Ok (blocked_by g id "OUTSIDE_ACTUAL_REGULAR_SESSION" None)
  else if bool_decide (od_order_class order = NORMAL_ORDER) && dt_lt (px_now c) (px_normal_start c) then Ok g
  else if negb (in_stream_state (px_inputs c) =s MarketConnectionState_value CONNECTED) then Ok (blocked_by g id "MARKET_STREAM_NOT_CONNECTED" None)
  else
    let market := sn_market (px_snapshots c) id in
    cursor ← _quote_cursor market aggregate (ob_events (in_book (px_inputs c)));
    max_age ← maximum_quote_age_seconds bundle;
    quote ← executable_quote market (od_symbol order) cursor (px_now c) max_age (od_side order);
    match quote with
    | None => Ok (blocked_by g id "NO_FRESH_POST_INTENT_EXECUTABLE_QUOTE" None)
    | Some quote =>
        lookback ← adv_lookback_sessions bundle;
        match completed_adv_shares market (od_symbol order) (vs_session_date (px_session c)) (px_now c) lookback (lookback + 1) Q1_DAILY_DATASET_VERSION with
        | Raise e =>
            if bool_decide (exn_kind e = Q1PointInTimeDataError) then Ok (blocked_by g id "POINT_IN_TIME_ADV_UNAVAILABLE" (Some (mq_quote_id quote)))
            else Raise e
        | Ok (adv, bar_ids) => gather_candidate c g aggregate intent quote adv bar_ids
        end
    end.

(** [candidates_by_decision] *)
Definition by_decision (candidates : list QuoteCandidate) : pydict (list QuoteCandidate) :=
  fold_left (λ d c, let k := qi_portfolio_decision_id (qc_intent c) in
    dset k (match dget k d with Some l => l | None => [] end ++ [c]) d) candidates [].

(** The candidates of the decisions whose quotes are too far apart. *)
Definition skewed (maximum_skew : dec) (candidates : list QuoteCandidate) : list QuoteCandidate :=
  concat (List.filter (λ bundle, negb (_quote_skew_seconds bundle <=? maximum_skew)%dec) (map snd (by_decision candidates))).

Definition candidate_id (c : QuoteCandidate) : string := qi_order_intent_id (qc_intent c).

Definition apply_skew (maximum_skew : dec) (g : gathered) : gathered :=
  let blocked := skewed maximum_skew (gt_candidates g) in
  {| gt_candidates := List.filter (λ c, negb (existsb (String.eqb (candidate_id c)) (map candidate_id blocked))) (gt_candidates g);
     gt_blocked := fold_left (λ d c, dset (candidate_id c) ("MULTI_SYMBOL_QUOTE_SKEW_EXCEEDED"%string, Some (mq_quote_id (qc_quote c))) d) blocked (gt_blocked g);
     gt_adv := gt_adv g; gt_quotes := gt_quotes g |}.

Record Preparation := { pr_mutations : list PreparedMutation; pr_stream_state : string; pr_source_manifest_hash : string }.

(** [process] up to the commit. *)
Definition prepare (sn : Snapshots) (cycle : PaperCycleRow) (calendar : VersionedMarketSession) (now : datetime) : res Preparation :=
  let instant := _aware now in
  inputs ← _read_inputs (sn_book sn) (sn_market_status sn) (pc_run_id cycle) calendar instant;
  let book := in_book inputs in
  pending ← pending_orders (ob_descriptors book) (ob_events book) (Some instant);
  expiry_hash ← canonical_hash (PDict [("cycle_id", PStr (pc_cycle_id cycle)); ("calendar_session_id", PStr (vs_calendar_session_id calendar));
                                       ("status", PStr "EXPIRY_PREPARATION")]);
  expiry_provenance ← _provenance cycle expiry_hash;
  expired ← expire_orders (ob_descriptors book) (ob_events book) instant expiry_provenance (pc_cycle_id cycle) (dt_le (vs_close_at calendar) instant);
  let context := {| px_cycle := cycle; px_session := calendar; px_now := instant; px_inputs := inputs; px_snapshots := sn;
    px_expired_ids := map oe_order_intent_id expired; px_intents := intent_by_id book; px_normal_start := (normal_order_window calendar schedule).1 |} in
  g ← foldM (consider context) {| gt_candidates := []; gt_blocked := []; gt_adv := []; gt_quotes := [] |} pending;
  maximum_skew ← maximum_quote_skew_seconds bundle;
  let g := apply_skew (Dec maximum_skew 0) g in
  source_manifest ← canonical_hash (PDict [("calendar_session_id", PStr (vs_calendar_session_id calendar)); ("stream_state", PStr (in_stream_state inputs));
    ("pending_latest_event_ids", PDict (dict_of_pairs (map (λ a, (od_order_intent_id (ag_order a), PStr (ag_latest_event_id a))) pending)));
    ("quotes", PDict (gt_quotes g)); ("adv", PDict (gt_adv g));
    ("blocked", PDict (map (λ kv, (kv.1, PList [PStr kv.2.1; opt_str kv.2.2])) (gt_blocked g)));
    ("settlement_calendar_dates", PList (map PDate (in_calendar_dates inputs)))]);
  provenance ← _provenance cycle source_manifest;
  expiries ← _prepare_expiry_mutations expired (ob_events book) provenance cycle instant (intent_by_id book);
  blocked ← _prepare_blocked_mutations pending (gt_blocked g) (ob_events book) provenance cycle instant (intent_by_id book);
  filled ← _prepare_fill_mutations (gt_candidates g) (in_states inputs) (ob_events book) provenance cycle calendar (in_calendar_dates inputs) instant source_manifest;
  Ok {| pr_mutations := expiries ++ blocked ++ filled; pr_stream_state := in_stream_state inputs; pr_source_manifest_hash := source_manifest |}.

(** ** [_commit]: one transaction *)

(** [fill_ids], [event_ids], [state_sequences]. *)
Record committing := { co_store : q1_store; co_fill_ids : list string; co_event_ids : list string; co_state_sequences : pydict Z }.

(** The database clock when a row is written, by the row's identifier. *)
Definition clock := string → option datetime.

Definition commit_fill (database : clock) (cycle : PaperCycleRow) (now : datetime) (m : PreparedMutation) (fill : Q1Fill) (co : committing) : res committing :=
  let arm_id := Q1ArmId_value (qi_arm_id (pm_intent m)) in
  state ← latest_arm_state (co_store co) (pc_run_id cycle) arm_id;
  match state, pm_state_before_sequence m, pm_state_after m with
  | Some state, Some before, Some after =>
      raise_if (negb (as_sequence state =? before)) Q1ExecutionCycleError "Arm state changed during execution preparation";;
      '(s, _) ← append_fill (co_store co) fill;
      match pm_settlement_event m with
      | None => raise Q1ExecutionCycleError "Fill is missing a settlement event"
      | Some event =>
          '(s, _) ← CashSettlements.append s event (database (cs_cash_settlement_event_id event));
          '(s, _) ← append_arm_state s (pc_run_id cycle) after (pc_cycle_id cycle) now (Some (as_sequence state));
          Ok {| co_store := s; co_fill_ids := co_fill_ids co ++ [qf_fill_id fill]; co_event_ids := co_event_ids co;
                co_state_sequences := dset arm_id (as_sequence after) (co_state_sequences co) |}
      end
  | _, _, _ => raise Q1ExecutionCycleError "Arm state changed during execution preparation"
  end.

(** The body of the loop; [latest] is [latest_by_id]. *)
Definition commit_mutation (database : clock) (cycle : PaperCycleRow) (now : datetime) (latest : pydict OrderAggregate) (co : committing) (m : PreparedMutation)
  : res committing :=
  raise_if (match dget (qi_order_intent_id (pm_intent m)) latest with
            | Some actual => negb (ag_latest_event_id actual =s ag_latest_event_id (pm_aggregate m))
            | None => true
            end) Q1ExecutionCycleError "Order state changed during execution preparation";;
  co ← match pm_fill m with Some fill => commit_fill database cycle now m fill co | None => Ok co end;
  '(s, _) ← OrderEvents.append (co_store co) (pm_event m) (database (oe_event_id (pm_event m)));
  Ok {| co_store := s; co_fill_ids := co_fill_ids co; co_event_ids := co_event_ids co ++ [oe_event_id (pm_event m)];
        co_state_sequences := co_state_sequences co |}.

Definition output_of (p : Preparation) (co : committing) : pyval :=
  PDict [("status", PStr (if bool_decide (length (pr_mutations p) = 0%nat) then "NO_PENDING_EXECUTION" else "Q1_EXECUTION_EVENTS_COMMITTED"));
         ("fill_ids", PList (map PStr (co_fill_ids co))); ("order_event_ids", PList (map PStr (co_event_ids co)));
         ("state_sequences", PDict (map (λ kv, (kv.1, PInt kv.2)) (co_state_sequences co))); ("stream_state", PStr (pr_stream_state p));
         ("real_order_routing", PBool false)].

Definition input_of (cycle : PaperCycleRow) (calendar : VersionedMarketSession) (p : Preparation) : pyval :=
  PDict [("cycle_id", PStr (pc_cycle_id cycle)); ("calendar_session_id", PStr (vs_calendar_session_id calendar));
         ("source_manifest_hash", PStr (pr_source_manifest_hash p)); ("config_manifest_hash", PStr (cb_manifest_hash bundle)); ("real_order_routing", PBool false)].

Definition _commit (s : q1_store) (database : clock) (cycle : PaperCycleRow) (calendar : VersionedMarketSession) (now : datetime) (p : Preparation)
  : res (q1_store * pyval) :=
  owner ← _lease_owner cycle;
  locked ← require_cycle_fence (cycle_tables s) (pc_cycle_id cycle) owner (pc_attempt_count cycle) now (database (pc_cycle_id cycle));
  book ← load_q1_order_book s (pc_run_id cycle) None;
  pending ← pending_orders (ob_descriptors book) (ob_events book) (Some now);
  let latest := dict_of_pairs (map (λ a, (od_order_intent_id (ag_order a), a)) pending) in
  co ← foldM (commit_mutation database cycle now latest) {| co_store := s; co_fill_ids := []; co_event_ids := []; co_state_sequences := [] |} (pr_mutations p);
  let output := output_of p co in
  t ← complete_fenced_cycle (cycle_tables (co_store co)) locked now (input_of cycle calendar p) output now;
  Ok (with_cycle_tables (co_store co) t, output).

(** The commit may find another store than the preparation read. *)
Definition process (sn : Snapshots) (s : q1_store) (database : clock) (cycle : PaperCycleRow) (calendar : VersionedMarketSession) (now : datetime)
  : res (q1_store * pyval) :=
  p ← prepare sn cycle calendar now;
  _commit s database cycle calendar (_aware now) p.
End cycle.
