(* ===== verification/ExecutionExample.v ===== *)
(** * A concrete execution cycle

    The order of [TradingOrders] with its arm state, a calendar, a market with a fresh quote and twenty-one completed daily bars, under the
    repository's configuration: the data of the witnesses of [ExecutionSafety] and [ExecutionCommit]. *)
From Stdlib Require Import ZArith Lia Ascii String.
From stdpp Require Import base list strings numbers sets.
From S2P Require Import Prelude PyDecimal Hashing Domain Text OrderState Settlement ArmState Payload Execution Reconciliation Planning Schedule Cycles CycleStore.
From S2P Require Import CycleLifecycle Q1Records Q1Store TradingRuns TradingOrders RuntimeConfig MarketData ExecutionCycle.
Set Default Goal Selector "!".
Open Scope Z_scope.

#[local] Existing Instance rolling_digest.
#[local] Existing Instance ex_new_york.

(** ** The tables *)

Definition ex_state : Q1ArmState := {|
  as_arm_id := "Q1-DET"; as_initial_nav_usd := Dec 1000 0; as_settled_cash_usd := Dec 1000 0; as_unsettled_receivables := []; as_positions := [];
  as_sequence := 0; as_evaluation_anchor_id := None; as_algorithm_version := Q1_ALGORITHM_VERSION |}.
Definition ex_calendar_row (d : date) (id : string) : MarketCalendarSession := {|
  mcs_calendar_session_id := id; mcs_calendar_version := "v1"; mcs_session_date := d; mcs_open_at := ex_at 15; mcs_close_at := ex_at 18;
  mcs_source := "alpaca"; mcs_available_at := ex_at 0; mcs_session_hash := id; mcs_created_at := ex_at 0;
  mcs_versioned := {| algorithm_version := Q1_ALGORITHM_VERSION; config_manifest_hash := "cfg"; code_version := "1"; model_version := "m";
                      source_manifest_hash := "src" |} |}.
Definition ex_commands : list q1_command :=
  ex_opened ++ [QOrderEvent ex_active None; QCalendarSession (ex_calendar_row 20000 "session"); QCalendarSession (ex_calendar_row 20001 "c-1");
                QArmState "run" ex_state ex_id (ex_at 15) None].
Definition ex_store : q1_store := Eval vm_compute in run_q1_commands (empty_q1 ["run"%string]) ex_commands.

(** Ten minutes into the session. *)
Definition ex_now : datetime := utc (instant (ex_at 15) + 600 * 1000000).
Definition seconds_before (s : Z) : datetime := utc (instant ex_now - s * 1000000).

Definition ex_quote (id : string) (event_age available_age : Z) : MarketQuoteRow := {|
  mq_quote_id := id; mq_provider := PROVIDER; mq_feed := FEED; mq_symbol := "QQQ"; mq_event_time := seconds_before event_age;
  mq_provider_timestamp := id; mq_available_at := seconds_before available_age; mq_ingested_at := seconds_before available_age;
  mq_source_kind := "STREAM_QUOTE"; mq_bid_exchange := None; mq_bid_price := Dec 9999 (-2); mq_bid_size_round_lots := 2; mq_ask_exchange := None;
  mq_ask_price := Dec 10001 (-2); mq_ask_size_round_lots := 1; mq_conditions := []; mq_tape := None; mq_payload_hash := id;
  mq_raw_object_uri := None; mq_payload_json := [] |}.
Definition ex_bar (n : nat) : MarketBarRow := {|
  mb_bar_id := String (ascii_of_nat (65 + n)) "bar"; mb_provider := PROVIDER; mb_feed := FEED; mb_symbol := "QQQ"; mb_timeframe := "1Day";
  mb_event_time := ex_at (6 - 24 * (Z.of_nat n + 1)); mb_provider_timestamp := "t"; mb_available_at := ex_at 0; mb_ingested_at := ex_at 0;
  mb_source_kind := "REST"; mb_open := Dec 100 0; mb_high := Dec 100 0; mb_low := Dec 100 0; mb_close := Dec 100 0; mb_volume := Dec 1000 0;
  mb_vwap := None; mb_trade_count := 1; mb_request_id := None; mb_payload_hash := "b"; mb_raw_object_uri := None;
  mb_payload_json := [("_adjustment", PStr "all"); ("_dataset_version", PStr Q1_DAILY_DATASET_VERSION)] |}.
Definition ex_market : market_store := {|
  bars := map ex_bar (seq 0 20); quotes := [ex_quote "stale" 700 700; ex_quote "fresh" 5 4; ex_quote "future" 5 (-1)]; trades := [];
  statuses := [new_status PROVIDER FEED "CONNECTED" (ex_at 15)] |}.

Definition ex_snapshots : Snapshots := {| sn_book := ex_store; sn_market_status := ex_market; sn_fills := λ _, ex_store; sn_market := λ _, ex_market |}.
Definition ex_execution_schedule : Q1SessionSchedule := {|
  qs_first_nav_time_et := 10 * 3600000000; qs_nav_interval_minutes := 90; qs_strategic_time_et := 10 * 3600000000;
  qs_llm_review_times_et := []; qs_normal_execution_start_et := 10 * 3600000000 + 60000000;
  qs_normal_execution_end_et := 12 * 3600000000; qs_execution_interval_minutes := 1; qs_no_risk_increase_after_et := 13 * 3600000000 |}.

(** The value that a computation ends with. *)
Definition the {A} (o : option A) : match o with Some _ => A | None => unit end := match o with Some x => x | None => () end.
Definition result {A} (r : res A) : option A := match r with Ok x => Some x | Raise _ => None end.

Definition ex_cycle : PaperCycleRow := Eval vm_compute in the (get_cycle (cycle_tables ex_store) ex_id).
Definition ex_preparation : Preparation :=
  Eval vm_compute in the (result (prepare core_bundle ex_execution_schedule "code" ex_snapshots ex_cycle ex_session ex_now)).

Lemma ex_cycle_prepared : prepare core_bundle ex_execution_schedule "code" ex_snapshots ex_cycle ex_session ex_now = Ok ex_preparation.
Proof. vm_compute. reflexivity. Qed.

(** The only mutation fills the order at the fresh quote. *)
Definition ex_mutation : PreparedMutation := Eval vm_compute in the (List.hd_error (pr_mutations ex_preparation)).
Definition ex_fill : Q1Fill := Eval vm_compute in the (pm_fill ex_mutation).
Lemma ex_one_fill : pr_mutations ex_preparation = [ex_mutation] ∧ pm_fill ex_mutation = Some ex_fill ∧ qf_quote_id ex_fill = "fresh"%string.
Proof. split_and!; reflexivity. Qed.

Lemma ex_intents_unique : NoDup (map (λ r, qi_order_intent_id (ir_intent r)) (order_intents (orders (sn_book ex_snapshots)))).
Proof. cbn. apply NoDup_singleton. Qed.
