(* ===== verification/ExecutionSafety.v ===== *)
(** * What an execution cycle prepares and commits

    Every pending order gets at most one event; fills use quotes seen after the order and by now, stay within the order, the position,
    the settled cash and the volume cap, and move the arm state and the cash ledger by the same amounts; the commit is a run of the
    repositories' transactions on a store that still is what the preparation read. *)
From Stdlib Require Import ZArith Lia Ascii String QArith Lqa.
From stdpp Require Import base list strings numbers sets.
From S2P Require Import Prelude PyDecimal Hashing Domain Text OrderState Settlement ArmState Payload Execution Reconciliation Planning Schedule Cycles CycleStore.
From S2P Require Import CycleLifecycle Q1Records Q1Store TradingRuns TradingOrders RuntimeConfig MarketData ExecutionCycle ExecutionExample.
Set Default Goal Selector "!".
Open Scope Z_scope.

(** ** The fills of a cycle *)

Definition mutation_id (m : PreparedMutation) : string := qi_order_intent_id (pm_intent m).
Definition mutation_arm (m : PreparedMutation) : string := Q1ArmId_value (qi_arm_id (pm_intent m)).

(** The working states after some mutations. *)
Definition states_after (states : pydict Q1ArmState) (l : list PreparedMutation) : pydict Q1ArmState :=
  fold_left (λ d m, match pm_state_after m with Some st => dset (mutation_arm m) st d | None => d end) l states.

Section facts.
Context `{Digest} `{NewYork}.
Variables (bundle : Q1ConfigBundle) (code : string).

(** How the loop treats a candidate when it meets the working states [states]. *)
Inductive treated (c : fill_context) (states : pydict Q1ArmState) (candidate : QuoteCandidate) (m : PreparedMutation) : Prop :=
  | treated_blocked reason event_type : is_fill_event event_type = false →
      _blocked_candidate candidate (fc_events c) (fc_provenance c) (fc_cycle c) (fc_now c) reason event_type = Ok m → treated c states candidate m
  | treated_filled state executable side_quantity remaining_adv economics after :
      dget (Q1ArmId_value (qi_arm_id (qc_intent candidate))) states = Some state →
      executable_remaining candidate state (fc_config c) = Ok executable →
      (remaining_adv <=? d0)%dec = false →
      build_q1_fill_economics (fill_inputs candidate executable side_quantity remaining_adv) (fc_config c) = Ok economics →
      filled_mutation bundle code c candidate state economics = Ok (m, after) → treated c states candidate m.

Lemma blocked_intent candidate events p cy now reason t m :
  _blocked_candidate candidate events p cy now reason t = Ok m →
  pm_intent m = qc_intent candidate ∧ pm_aggregate m = qc_aggregate candidate ∧ pm_state_after m = None ∧ pm_fill m = None ∧ pm_settlement_event m = None ∧
  append_order_event (ag_order (qc_aggregate candidate)) events (plain_request t now p reason (Some (mq_quote_id (qc_quote candidate))) cy) = Ok (pm_event m).
Proof. unfold _blocked_candidate. intros Hb. by apply bind_Ok_inv in Hb as (e & He & [= <-]). Qed.

(** The parts of a filled mutation. *)
Lemma filled_inv c candidate state economics m after :
  filled_mutation bundle code c candidate state economics = Ok (m, after) →
  ∃ fill event receivable contract rq,
    m = {| pm_aggregate := qc_aggregate candidate; pm_intent := qc_intent candidate; pm_event := pm_event m; pm_fill := Some fill;
           pm_state_before_sequence := Some (as_sequence state); pm_state_after := Some after; pm_settlement_event := Some event |} ∧
    (qi_side (qc_intent candidate) = BUY → (fe_quantity economics * fe_price economics + fe_commission_usd economics <=? as_settled_cash_usd state)%dec = true) ∧
    _q1_fill bundle code (fc_cycle c) candidate economics (fc_now c) (fc_source_manifest c) = Ok fill ∧
    settlement_event_of c (qc_intent candidate) fill = Ok event ∧
    receivable_of c (qc_intent candidate) fill event = Ok receivable ∧ fill_of fill = Ok contract ∧
    apply_fill state contract receivable = Ok after ∧
    append_order_event (ag_order (qc_aggregate candidate)) (fc_events c) rq = Ok (pm_event m) ∧
    rq_event_type rq = (if (fe_quantity economics =? ag_remaining_quantity (qc_aggregate candidate))%dec then FILLED else PARTIALLY_FILLED) ∧
    rq_quantity_delta rq = fe_quantity economics ∧ rq_commission_delta_usd rq = fe_commission_usd economics.
Proof.
  unfold filled_mutation. intros Hf. apply bind_Ok_inv in Hf as ([] & Hg%raise_if_Ok_inv & Hf). apply bind_Ok_inv in Hf as (fill & Hfill & Hf).
  apply bind_Ok_inv in Hf as (event & Hev & Hf). apply bind_Ok_inv in Hf as (receivable & Hr & Hf). apply bind_Ok_inv in Hf as (contract & Hc & Hf).
  apply bind_Ok_inv in Hf as (after' & Ha & Hf). apply bind_Ok_inv in Hf as (ev & He & [= <- <-]). do 5 eexists. split_and!; try done.
  intros Hb. rewrite Hb in Hg. cbn in Hg. apply negb_false_iff in Hg. exact Hg.
Qed.

Lemma filled_intent c candidate state economics m after :
  filled_mutation bundle code c candidate state economics = Ok (m, after) → pm_intent m = qc_intent candidate ∧ pm_state_after m = Some after.
Proof. intros (fill & event & r & contract & rq & E & _)%filled_inv. by rewrite E. Qed.

Lemma treated_intent c states candidate m : treated c states candidate m → pm_intent m = qc_intent candidate.
Proof. intros [reason t _ Hb|? ? ? ? ? ? _ _ _ _ Hf]; [by apply blocked_intent in Hb as [? _]|by apply filled_intent in Hf as [? _]]. Qed.

(** One step of the loop adds one mutation. *)
Lemma fill_candidate_spec c g candidate g' states :
  fg_states g = states_after states (fg_result g) → fill_candidate bundle code c g candidate = Ok g' →
  ∃ m, fg_result g' = fg_result g ++ [m] ∧ treated c (fg_states g) candidate m ∧ fg_states g' = states_after states (fg_result g').
Proof.
  intros Hst. assert (∀ g1 reason t, fg_states g1 = fg_states g → fg_result g1 = fg_result g → is_fill_event t = false → block c g1 candidate reason t = Ok g' →
    ∃ m, fg_result g' = fg_result g ++ [m] ∧ treated c (fg_states g) candidate m ∧ fg_states g' = states_after states (fg_result g')) as Hblock.
  { intros g1 reason t E1 E2 Ht Hb. unfold block in Hb. apply bind_Ok_inv in Hb as (m & Hm & [= <-]). exists m. cbn. rewrite E1, E2. split; [done|].
    split; [by eapply treated_blocked|]. unfold states_after. rewrite fold_left_app. fold (states_after states (fg_result g)). cbn.
    apply blocked_intent in Hm as (_ & _ & -> & _). exact Hst. }
  unfold fill_candidate. destruct (dget _ (fg_states g)) as [state|] eqn:Es; [|by apply Hblock]. intros Hf.
  set (g1 := {| fg_states := fg_states g |}) in *. apply bind_Ok_inv in Hf as (unit_shares & _ & Hf). apply bind_Ok_inv in Hf as (executable & Hex & Hf).
  destruct ((executable <=? d0)%dec || _) eqn:Eg; [by apply (Hblock g1) in Hf|].
  destruct (build_q1_fill_economics _ _) as [economics|e] eqn:Eb.
  - apply bind_Ok_inv in Hf as ([m after] & Hm & [= <-]). exists m. cbn. split; [done|]. apply orb_false_iff in Eg as [_ Eadv].
    split; [by eapply treated_filled|]. unfold states_after. rewrite fold_left_app. fold (states_after states (fg_result g)). cbn.
    apply filled_intent in Hm as [Ei ->]. unfold mutation_arm. by rewrite Ei, Hst.
  - destruct (bool_decide _); [by apply (Hblock g1) in Hf|]. destruct (bool_decide _); [by apply (Hblock g1) in Hf|done].
Qed.

(** The whole loop: one mutation per candidate, each from the states that the ones before it left. *)
Record fills_prepared (c : fill_context) (states : pydict Q1ArmState) (done_ : list QuoteCandidate) (g : filling) : Prop := {
  fp_states : fg_states g = states_after states (fg_result g);
  fp_ids : map mutation_id (fg_result g) = map candidate_id done_;
  fp_treated : ∀ l1 m l2, fg_result g = l1 ++ m :: l2 → ∃ candidate, candidate ∈ done_ ∧ treated c (states_after states l1) candidate m;
}.

Lemma fills_loop c states candidates g :
  foldM (fill_candidate bundle code c) {| fg_states := states; fg_caps := []; fg_result := [] |} candidates = Ok g → fills_prepared c states candidates g.
Proof.
  apply foldM_prefix_invariant.
  - split; [done..|]. intros [] ? ? [=].
  - intros pre candidate g1 g2 _ [Hs Hi Ht] Hf. destruct (fill_candidate_spec _ _ _ _ _ Hs Hf) as (m & Er & Hm & Hs'). split; [done| |].
    + rewrite Er, !map_app, Hi. cbn. unfold mutation_id, candidate_id. by rewrite (treated_intent _ _ _ _ Hm).
    + intros l1 m' l2 E. rewrite Er in E. destruct l2 as [|m2 l2 _] using rev_ind.
      * apply app_inj_tail in E as [<- <-]. exists candidate. rewrite <- Hs. split; [apply elem_of_app; right; by apply list_elem_of_singleton|done].
      * rewrite app_comm_cons, app_assoc in E. apply app_inj_tail in E as [E _]. destruct (Ht _ _ _ E) as (cd & Hcd & Htr). exists cd. split; [|done].
        apply elem_of_app. by left.
Qed.

Lemma fill_mutations_spec candidates states events p cy session dates now src l :
  _prepare_fill_mutations bundle code candidates states events p cy session dates now src = Ok l →
  ∃ c g, fills_prepared c states (sorted candidate_le candidates) g ∧ l = fg_result g ∧ fc_events c = events ∧ fc_now c = now ∧ fc_cycle c = cy
    ∧ fc_provenance c = p ∧ execution_config bundle = Ok (fc_config c).
Proof.
  unfold _prepare_fill_mutations. intros Hl. apply bind_Ok_inv in Hl as (config & Hc & Hl). apply bind_Ok_inv in Hl as (policy & _ & Hl).
  apply bind_Ok_inv in Hl as (cal & _ & Hl). apply bind_Ok_inv in Hl as (owner & _ & Hl). apply bind_Ok_inv in Hl as (sp & _ & Hl).
  apply bind_Ok_inv in Hl as (g & Hg%fills_loop & [= <-]). eexists _, g. split; [exact Hg|]. done.
Qed.

(** ** The candidates of a cycle *)

Lemma hd_sorted_elem {A} (le : A → A → bool) l x : List.hd_error (sorted le l) = Some x → x ∈ l.
Proof. intros Hx. rewrite <- (elem_of_sorted le). destruct (sorted le l); [done|]. injection Hx as ->. left. Qed.

(** The quote is one that was seen strictly after [start] and by [now]. *)
Record quote_in_time (m : market_store) (start now : Z) (max_age : Z) (side : OrderSide) (q : MarketQuoteRow) : Prop := {
  qt_stored : q ∈ quotes m;
  qt_after : start < instant (mq_event_time q) ∧ start < instant (mq_available_at q);
  qt_by_now : instant (mq_available_at q) <= now;
  qt_fresh : now - max_age * 1000000 <= instant (mq_event_time q);
  qt_prices : (d0 <? mq_bid_price q)%dec = true ∧ (d0 <? mq_ask_price q)%dec = true ∧ (mq_bid_price q <=? mq_ask_price q)%dec = true;
  qt_size : 0 < match side with BUY => mq_ask_size_round_lots q | SELL => mq_bid_size_round_lots q end;
}.

Lemma executable_quote_spec m symbol cursor now age side q :
  executable_quote m symbol cursor now age side = Ok (Some q) → quote_in_time m (instant cursor) (instant now) age side q ∧ mq_symbol q = symbol.
Proof.
  unfold executable_quote, first_executable_quote. intros Hq. apply bind_Ok_inv in Hq as ([] & _ & Hq). apply bind_Ok_inv in Hq as (start & ->%aware_ok & Hq).
  apply bind_Ok_inv in Hq as (cutoff & ->%aware_ok & Hq). cbn [mbind res_bind raise_if opt_holds] in Hq. injection Hq as Hq%hd_sorted_elem.
  apply elem_of_filterb in Hq as [[Hx _]%andb_true_iff Hin]. unfold quote_executable, dt_lt, dt_le, after in Hx. cbn [instant] in Hx.
  repeat (apply andb_true_iff in Hx as [Hx ?]). split; [|by apply String.eqb_eq]. split; [done|split; lia|lia|lia|done|lia].
Qed.

Lemma cursor_after m aggregate events cursor : _quote_cursor m aggregate events = Ok cursor → instant (od_created_at (ag_order aggregate)) <= instant cursor.
Proof.
  unfold _quote_cursor. destruct (bool_decide _); [by intros [= ->]|]. intros Hc. apply bind_Ok_inv in Hc as ([] & _ & [= <-]).
  generalize (od_created_at (ag_order aggregate)) as t. induction (List.filter _ (quotes m)) as [|r l IH]; intros t; cbn; [lia|].
  etrans; [|apply IH]. rewrite dt_max_instant. lia.
Qed.

Lemma intent_by_id_get book id intent : dget id (intent_by_id book) = Some intent → qi_order_intent_id intent = id ∧ intent ∈ ob_intents book.
Proof.
  unfold intent_by_id. intros Hg. apply dict_of_pairs_elem, list_elem_of_fmap in Hg as (i & [= -> ->] & Hi). done.
Qed.

Lemma dindex_get {A} k (d : pydict A) v : dindex k d = Ok v → dget k d = Some v.
Proof. unfold dindex. destruct (dget k d); [by intros [= ->]|done]. Qed.

(** A normal order waits, without an event, until its window opens. *)
Definition expired_in (c : process_context) (a : OrderAggregate) : bool := existsb (String.eqb (agg_id a)) (px_expired_ids c).
Definition waits (c : process_context) (a : OrderAggregate) : bool :=
  negb (expired_in c a) && is_regular_session_time (px_now c) (px_session c) &&
  (bool_decide (od_order_class (ag_order a) = NORMAL_ORDER) && dt_lt (px_now c) (px_normal_start c)).

(** An order that the cycle acts on without expiring it. *)
Definition acted_on (c : process_context) (a : OrderAggregate) : Prop := expired_in c a = false ∧ waits c a = false.

(** A candidate: a pending order and a quote in time for it. *)
Record candidate_ok (c : process_context) (pending : list OrderAggregate) (x : QuoteCandidate) : Prop := {
  ck_aggregate : qc_aggregate x ∈ pending;
  ck_intent : dget (agg_id (qc_aggregate x)) (px_intents c) = Some (qc_intent x);
  ck_session : is_regular_session_time (px_now c) (px_session c) = true;
  ck_acted_on : acted_on c (qc_aggregate x);
  ck_quote : ∃ age, maximum_quote_age_seconds bundle = Ok age ∧
    quote_in_time (sn_market (px_snapshots c) (agg_id (qc_aggregate x))) (instant (od_created_at (ag_order (qc_aggregate x)))) (instant (px_now c)) age
      (od_side (ag_order (qc_aggregate x))) (qc_quote x) ∧ mq_symbol (qc_quote x) = od_symbol (ag_order (qc_aggregate x));
  ck_cap : (0 <= dval (qc_remaining_adv_capacity x))%Q;
}.

Definition candidate_key (x : QuoteCandidate) : string := agg_id (qc_aggregate x).

(** Every order considered is a candidate or blocked, never both, unless it expires or waits. *)
Record gathered_ok (c : process_context) (pre : list OrderAggregate) (g : gathered) : Prop := {
  gk_candidates : ∀ x, x ∈ gt_candidates g → candidate_ok c pre x;
  gk_nodup : NoDup (map candidate_key (gt_candidates g));
  gk_blocked : ∀ k, dmem k (gt_blocked g) = true → (∃ a, a ∈ pre ∧ agg_id a = k ∧ acted_on c a) ∧ k ∉ map candidate_key (gt_candidates g);
  gk_covered : ∀ a, a ∈ pre → acted_on c a → dmem (agg_id a) (gt_blocked g) = true ∨ agg_id a ∈ map candidate_key (gt_candidates g);
}.

Lemma dmem_dset {A} k k' (v : A) d : dmem k (dset k' v d) = String.eqb k k' || dmem k d.
Proof. unfold dmem. rewrite dget_dset. destruct (String.eqb_spec k k') as [->|]; [|done]. by destruct (dget k' d). Qed.

Lemma candidate_ok_mono c pre pre' x : pre `prefix_of` pre' → candidate_ok c pre x → candidate_ok c pre' x.
Proof. intros [t ->] []. split; try done. apply elem_of_app. by left. Qed.

Section considering.
Variables (c : process_context) (pre : list OrderAggregate) (aggregate : OrderAggregate) (g : gathered).
Hypothesis Hnd : NoDup (map agg_id (pre ++ [aggregate])).
Hypothesis Hg : gathered_ok c pre g.

Lemma consider_new : agg_id aggregate ∉ map candidate_key (gt_candidates g).
Proof using Hnd Hg.
  rewrite map_app in Hnd. apply NoDup_app in Hnd as (_ & Hfresh & _). intros (x & E & Hx)%list_elem_of_fmap. apply (Hfresh (agg_id aggregate)); [|by left].
  rewrite E. unfold candidate_key. apply list_elem_of_fmap_2. apply (gk_candidates _ _ _ Hg x Hx).
Qed.

(** The order is left alone: it expires or waits. *)
Lemma consider_keep : ¬ acted_on c aggregate → gathered_ok c (pre ++ [aggregate]) g.
Proof.
  destruct Hg as [Hc Hn Hb Hcov]. intros Hnot. split; [|done| |].
  - intros x Hx. eapply candidate_ok_mono; [by eexists|by apply Hc].
  - intros k Hk. destruct (Hb k Hk) as [(a & Ha & ? & ?) ?]. split; [|done]. exists a. rewrite elem_of_app. auto.
  - intros a [Ha| ->%list_elem_of_singleton]%elem_of_app Hd; [by apply Hcov|done].
Qed.

Lemma consider_block reason q : acted_on c aggregate → gathered_ok c (pre ++ [aggregate]) (blocked_by g (agg_id aggregate) reason q).
Proof.
  destruct Hg as [Hc Hn Hb Hcov]. intros Hact. split; [|done| |]; cbn.
  - intros x Hx. eapply candidate_ok_mono; [by eexists|by apply Hc].
  - intros k Hk. rewrite dmem_dset in Hk. apply orb_true_iff in Hk as [->%String.eqb_eq|Hk].
    + split; [|apply consider_new]. exists aggregate. rewrite elem_of_app, list_elem_of_singleton. auto.
    + destruct (Hb k Hk) as [(a & Ha & ? & ?) ?]. split; [|done]. exists a. rewrite elem_of_app. auto.
  - intros a [Ha| ->%list_elem_of_singleton]%elem_of_app Hd; rewrite dmem_dset; [|left; by rewrite String.eqb_refl].
    destruct (Hcov a Ha Hd) as [->|?]; [left; by rewrite orb_true_r|by right].
Qed.

Lemma consider_add x adv quotes :
  candidate_ok c (pre ++ [aggregate]) x → candidate_key x = agg_id aggregate →
  gathered_ok c (pre ++ [aggregate]) {| gt_candidates := gt_candidates g ++ [x]; gt_blocked := gt_blocked g; gt_adv := adv; gt_quotes := quotes |}.
Proof.
  destruct Hg as [Hc Hn Hb Hcov]. intros Hx Ek. pose proof consider_new as Hnew. split; cbn [gt_candidates gt_blocked]; rewrite ?map_app.
  - intros y [Hy| ->%list_elem_of_singleton]%elem_of_app; [|done]. eapply candidate_ok_mono; [by eexists|by apply Hc].
  - apply NoDup_app. split; [done|]. split; [|apply NoDup_singleton]. intros k Hk ->%list_elem_of_singleton. rewrite Ek in Hk. by apply Hnew.
  - intros k Hk. destruct (Hb k Hk) as [(a & Ha & Ea & ?) Hcd]. split; [exists a; rewrite elem_of_app; auto|].
    intros [?| ->%list_elem_of_singleton]%elem_of_app; [done|]. rewrite Ek in Ea. rewrite map_app in Hnd. apply NoDup_app in Hnd as (_ & Hfresh & _).
    apply (Hfresh (agg_id aggregate)); [rewrite <- Ea; by apply list_elem_of_fmap_2|by left].
  - intros a [Ha| ->%list_elem_of_singleton]%elem_of_app Hd; rewrite elem_of_app; [by destruct (Hcov a Ha Hd); auto|].
    right. right. by apply list_elem_of_singleton.
Qed.

Lemma consider_spec g' : consider bundle c g aggregate = Ok g' → gathered_ok c (pre ++ [aggregate]) g'.
Proof.
  unfold consider. set (id := od_order_intent_id (ag_order aggregate)). change id with (agg_id aggregate) in *. clear id.
  intros Hf. apply bind_Ok_inv in Hf as (intent & Hi%dindex_get & Hf). fold (expired_in c aggregate) in Hf.
  destruct (expired_in c aggregate) eqn:Ee. { injection Hf as <-. apply consider_keep. intros [E _]. congruence. }
  assert (∀ b, waits c aggregate = b → b = false → acted_on c aggregate) as Hact by (intros b E ->; done). unfold waits in Hact. rewrite Ee in Hact.
  destruct (is_regular_session_time _ _) eqn:Er; cbn [negb andb] in *; [|injection Hf as <-; by eapply consider_block, Hact].
  destruct (bool_decide _ && dt_lt _ _) eqn:Ew.
  { injection Hf as <-. apply consider_keep. intros [_ E]. unfold waits in E. rewrite Ee, Er, Ew in E. discriminate E. }
  specialize (Hact false eq_refl eq_refl). destruct (negb (String.eqb _ _)); [injection Hf as <-; by apply consider_block|].
  apply bind_Ok_inv in Hf as (cursor & Hcur%cursor_after & Hf). apply bind_Ok_inv in Hf as (age & Hage & Hf). apply bind_Ok_inv in Hf as (quote & Hq & Hf).
  destruct quote as [quote|]; [|injection Hf as <-; by apply consider_block]. apply bind_Ok_inv in Hf as (lookback & _ & Hf).
  destruct (completed_adv_shares _ _ _ _ _ _ _) as [[adv bar_ids]|e]; [|destruct (bool_decide (exn_kind e = _)); [injection Hf as <-; by apply consider_block|done]].
  unfold gather_candidate in Hf. apply bind_Ok_inv in Hf as (config & _ & [= <-]). apply consider_add; [|done].
  apply executable_quote_spec in Hq as [[] Hsym]. split; cbn; try done.
  - apply elem_of_app. right. by apply list_elem_of_singleton.
  - exists age. split; [done|]. split; [|done]. split; try done. destruct qt_after0. split; lia.
  - pose proof (dmax_spec d0 (adv * xc_adv_participation config - _session_consumed_quantity (sn_fills (px_snapshots c) (od_order_intent_id (ag_order aggregate)))
      (pc_run_id (px_cycle c)) (od_arm_id (ag_order aggregate)) (od_symbol (ag_order aggregate)) (vs_open_at (px_session c)) (px_now c))%dec) as Hmax.
    rewrite dval_d0 in Hmax. destruct Hmax as [[E ?]|[E ?]]; rewrite E; lra.
Qed.
End considering.

Lemma consider_loop c pending g :
  NoDup (map agg_id pending) → foldM (consider bundle c) {| gt_candidates := []; gt_blocked := []; gt_adv := []; gt_quotes := [] |} pending = Ok g →
  gathered_ok c pending g.
Proof.
  intros Hnd. apply foldM_prefix_invariant.
  - split; cbn; [by intros x ?%not_elem_of_nil|constructor|done|by intros a ?%not_elem_of_nil].
  - intros pre a g1 g2 [t ->] Hg1. eapply consider_spec; [|done]. rewrite map_app in Hnd. by apply NoDup_app in Hnd as [? _].
Qed.

(** ** Skewed decisions *)

Lemma concat_dset {A} k (v : list A) d x : x ∈ concat (map snd (dset k v d)) → x ∈ v ∨ x ∈ concat (map snd d).
Proof.
  induction d as [|[k' v'] d IH]; cbn; [rewrite app_nil_r; by left|].
  destruct (String.eqb _ _); cbn; rewrite !elem_of_app; [naive_solver|]. intros [?|?]; [by right; left|]. naive_solver.
Qed.

Lemma dget_concat {A} k (d : pydict (list A)) v x : dget k d = Some v → x ∈ v → x ∈ concat (map snd d).
Proof.
  induction d as [|[k' v'] d IH]; cbn; [done|]. rewrite elem_of_app. destruct (String.eqb _ _); [intros [= ->]; by left|]. auto.
Qed.

Lemma by_decision_elem l x : x ∈ concat (map snd (by_decision l)) → x ∈ l.
Proof.
  unfold by_decision. induction l as [|y l IH] using rev_ind; [done|]. rewrite fold_left_app. cbn. rewrite elem_of_app, list_elem_of_singleton.
  intros [Hx|Hx]%concat_dset; [|left; by apply IH]. apply elem_of_app in Hx as [Hx| ->%list_elem_of_singleton]; [|by right]. left. apply IH.
  destruct (dget _ _) eqn:E; [by eapply dget_concat|by apply not_elem_of_nil in Hx].
Qed.

Lemma skewed_elem k l x : x ∈ skewed k l → x ∈ l.
Proof.
  unfold skewed. intros Hx. apply by_decision_elem. apply list_elem_of_In, in_concat in Hx as (y & [Hy _]%filter_In & Hx). apply list_elem_of_In, in_concat. eauto.
Qed.

Lemma dmem_fold_dset {A B} (f : A → string) (v : A → B) l d k :
  dmem k (fold_left (λ d x, dset (f x) (v x) d) l d) = true ↔ k ∈ map f l ∨ dmem k d = true.
Proof.
  revert d. induction l as [|x l IH]; intros d; cbn; [rewrite elem_of_nil; naive_solver|]. rewrite IH, dmem_dset, orb_true_iff, String.eqb_eq, elem_of_cons. naive_solver.
Qed.

(** The candidates carry the intents of their orders. *)
Lemma apply_skew_ok c pending g k :
  (∀ x, candidate_ok c pending x → candidate_id x = candidate_key x) → gathered_ok c pending g → gathered_ok c pending (apply_skew k g).
Proof.
  intros Hid [Hc Hn Hb Hcov]. unfold apply_skew. set (blocked := skewed k (gt_candidates g)).
  assert (∀ x, x ∈ blocked → x ∈ gt_candidates g) as Hin by apply skewed_elem.
  assert (∀ x, x ∈ gt_candidates g → candidate_id x = candidate_key x) as Hk by (intros x Hx; by eapply Hid, Hc).
  assert (map candidate_id blocked = map candidate_key blocked) as Em by (apply map_ext_in; intros x Hx%list_elem_of_In; by apply Hk, Hin).
  split; cbn [gt_candidates gt_blocked].
  - intros x [_ Hx]%elem_of_filterb. by apply Hc.
  - by apply NoDup_map_filter.
  - intros q [Hq|Hq]%dmem_fold_dset.
    + split. { rewrite Em in Hq. apply list_elem_of_fmap in Hq as (x & -> & Hx). exists (qc_aggregate x). destruct (Hc x (Hin x Hx)). done. }
      intros (x & E & [Hx1 Hx2]%elem_of_filterb)%list_elem_of_fmap. apply negb_true_iff, not_true_iff_false in Hx1. apply Hx1, existsb_exists.
      exists q. split; [by apply list_elem_of_In|]. rewrite (Hk x Hx2). by apply String.eqb_eq.
    + destruct (Hb q Hq) as [? Hq']. split; [done|]. intros (x & -> & [_ Hx]%elem_of_filterb)%list_elem_of_fmap. by apply Hq', list_elem_of_fmap_2.
  - intros a Ha Hd. rewrite dmem_fold_dset. destruct (Hcov a Ha Hd) as [?|(x & E & Hx)%list_elem_of_fmap]; [by left; right|].
    destruct (existsb (String.eqb (candidate_id x)) (map candidate_id blocked)) eqn:Ex.
    + left. left. apply existsb_exists in Ex as (y & Hy%list_elem_of_In & <-%String.eqb_eq). by rewrite E, <- (Hk x Hx).
    + right. rewrite E. apply list_elem_of_fmap_2, elem_of_filterb. by rewrite Ex.
Qed.

(** ** Expiries and blocked orders *)

Lemma append_selected_ids selected rq mat res0 pend res :
  append_selected selected rq mat res0 pend = Ok res →
  map oe_order_intent_id res = map oe_order_intent_id res0 ++ map agg_id (List.filter selected pend).
Proof.
  revert res0. induction pend as [|a pend IH]; intros res0 Hs; cbn in Hs; [injection Hs as ->; by rewrite app_nil_r|].
  apply bind_Ok_inv in Hs as (res1 & Ha & Hs). rewrite (IH _ Hs). cbn. destruct (selected a); [|by injection Ha as <-].
  apply bind_Ok_inv in Ha as (e & (_ & _ & _ & _ & _ & Hid & _)%append_sound & [= <-]). rewrite map_app, <- app_assoc. cbn. by rewrite Hid.
Qed.

Definition expires (boundary : bool) (now : datetime) (a : OrderAggregate) : bool :=
  negb (negb boundary && dt_le now (od_valid_until (ag_order a))).

Lemma expire_orders_ids orders events now p cycle_id boundary pending expired :
  pending_orders orders events (Some now) = Ok pending → expire_orders orders events now p cycle_id boundary = Ok expired →
  map oe_order_intent_id expired = map agg_id (List.filter (expires boundary now) pending).
Proof.
  unfold expire_orders. intros Hp He. apply bind_Ok_inv in He as ([] & _ & He). rewrite Hp in He. cbn [mbind res_bind] in He.
  by apply append_selected_ids in He.
Qed.

(** The mutation adds an event to its order's events of the book. *)
Definition event_of_book (events : list OrderEvent) (m : PreparedMutation) : Prop :=
  ∃ order rq, append_order_event order events rq = Ok (pm_event m) ∧ od_order_intent_id order = mutation_id m.

(** It adds nothing else. *)
Definition plain_of_book (events : list OrderEvent) (m : PreparedMutation) : Prop := event_of_book events m ∧ pm_fill m = None ∧ pm_state_after m = None.

Lemma descriptor_id intent order : descriptor_of intent = Ok order → od_order_intent_id order = qi_order_intent_id intent.
Proof. intros Hd. by apply descriptor_fields in Hd as (? & _). Qed.

Lemma expiry_mutations_spec expired book p cy now l :
  _prepare_expiry_mutations expired (ob_events book) p cy now (intent_by_id book) = Ok l →
  map mutation_id l = map oe_order_intent_id expired ∧ Forall (plain_of_book (ob_events book)) l.
Proof.
  unfold _prepare_expiry_mutations. intros Hl%mapM_res_Forall2. induction Hl as [|e m expired l He _ [IH1 IH2]]; [done|].
  unfold prepare_expiry in He. apply bind_Ok_inv in He as (intent & [Hi _]%dindex_get%intent_by_id_get & He). apply bind_Ok_inv in He as (order & Ho & He).
  apply bind_Ok_inv in He as (ev & Hev & He). apply bind_Ok_inv in He as (agg & _ & [= <-]). cbn. split; [by rewrite IH1; unfold mutation_id; cbn; rewrite Hi|].
  constructor; [|done]. split; [|done]. exists order. eexists. split; [exact Hev|]. by apply descriptor_id in Ho.
Qed.

Lemma blocked_mutations_spec pending blocked book p cy now l :
  _prepare_blocked_mutations pending blocked (ob_events book) p cy now (intent_by_id book) = Ok l →
  map mutation_id l = map agg_id (List.filter (λ a, dmem (agg_id a) blocked) pending) ∧ Forall (plain_of_book (ob_events book)) l.
Proof.
  apply (foldM_prefix_invariant (λ pre l, map mutation_id l = map agg_id (List.filter (λ a, dmem (agg_id a) blocked) pre)
    ∧ Forall (plain_of_book (ob_events book)) l)); [done|].
  intros pre a l1 l2 _ [IH1 IH2] Hs. rewrite List.filter_app, map_app. cbn. unfold prepare_blocked in Hs. fold (agg_id a) in Hs. unfold dmem.
  destruct (dget (agg_id a) blocked) as [[reason q]|]; [|injection Hs as <-; by rewrite app_nil_r].
  apply bind_Ok_inv in Hs as (intent & [Hi _]%dindex_get%intent_by_id_get & Hs). apply bind_Ok_inv in Hs as (ev & Hev & [= <-]).
  rewrite map_app. cbn. unfold mutation_id at 2. cbn. rewrite IH1, Hi. split; [done|]. apply Forall_app. split; [done|]. apply Forall_singleton. split; [|done].
  exists (ag_order a). eexists. split; [exact Hev|]. unfold mutation_id. cbn. by rewrite Hi.
Qed.

(** ** The book *)

Lemma book_intents s run_id arm_id book :
  load_q1_order_book s run_id arm_id = Ok book → NoDup (map (λ r, qi_order_intent_id (ir_intent r)) (order_intents (orders s))) →
  NoDup (map qi_order_intent_id (ob_intents book)) ∧ Forall2 (λ i o, descriptor_of i = Ok o) (ob_intents book) (ob_descriptors book).
Proof.
  unfold load_q1_order_book. intros Hl Hn. apply bind_Ok_inv in Hl as (intents & ->%(mapM_res_id _ _ _ validate_Q1OrderIntent_id) & Hl).
  apply bind_Ok_inv in Hl as (ds & Hd%mapM_res_Forall2 & Hl). apply bind_Ok_inv in Hl as (es & _ & [= <-]). cbn. split; [|done].
  rewrite sorted_perm. apply NoDup_map_filter. by rewrite map_map.
Qed.

Lemma descriptor_ids intents ds :
  Forall2 (λ i o, descriptor_of i = Ok o) intents ds → map od_order_intent_id ds = map qi_order_intent_id intents.
Proof. induction 1 as [|i o intents ds Ho _ IH]; cbn; [done|]. by rewrite IH, (descriptor_id _ _ Ho). Qed.

(** The intent that the cycle looks up for an order is the one its descriptor was made of. *)
Lemma order_intent_of book order intent :
  NoDup (map qi_order_intent_id (ob_intents book)) → Forall2 (λ i o, descriptor_of i = Ok o) (ob_intents book) (ob_descriptors book) →
  order ∈ ob_descriptors book → dget (od_order_intent_id order) (intent_by_id book) = Some intent → descriptor_of intent = Ok order.
Proof.
  intros Hn Hd Ho [Hid Hi]%intent_by_id_get. apply list_elem_of_lookup in Ho as [n Ho]. destruct (Forall2_lookup_r _ _ _ _ _ Hd Ho) as (i & Hin & Hdi).
  assert (intent = i) as ->; [|done]. apply (NoDup_map_inj _ _ _ _ Hn Hi); [apply list_elem_of_lookup; eauto|]. by rewrite Hid, (descriptor_id _ _ Hdi).
Qed.

(** ** The parts of a preparation *)

(** A normal order whose window has not opened, in the regular session and before its validity ends. *)
Definition before_window (schedule : Q1SessionSchedule) (calendar : VersionedMarketSession) (now : datetime) (a : OrderAggregate) : bool :=
  negb (expires (dt_le (vs_close_at calendar) now) now a) && is_regular_session_time now calendar &&
  (bool_decide (od_order_class (ag_order a) = NORMAL_ORDER) && dt_lt now (normal_order_window calendar schedule).1).

Variable schedule : Q1SessionSchedule.

Record prepared_parts (sn : Snapshots) (cycle : PaperCycleRow) (calendar : VersionedMarketSession) (now : datetime)
    (inputs : ReadInputs) (pending : list OrderAggregate) (c : process_context) (candidates : list QuoteCandidate)
    (expiries blocked filled : list PreparedMutation) : Prop := {
  pp_inputs : _read_inputs (sn_book sn) (sn_market_status sn) (pc_run_id cycle) calendar now = Ok inputs;
  pp_book : load_q1_order_book (sn_book sn) (pc_run_id cycle) None = Ok (in_book inputs);
  pp_pending : pending_orders (ob_descriptors (in_book inputs)) (ob_events (in_book inputs)) (Some now) = Ok pending;
  pp_context : px_session c = calendar ∧ px_now c = now ∧ px_snapshots c = sn ∧ px_intents c = intent_by_id (in_book inputs)
    ∧ px_normal_start c = (normal_order_window calendar schedule).1
    ∧ px_expired_ids c = map agg_id (List.filter (expires (dt_le (vs_close_at calendar) now) now) pending);
  pp_gathered : ∃ g, gathered_ok c pending g ∧ candidates = gt_candidates g ∧
    map mutation_id blocked = map agg_id (List.filter (λ a, dmem (agg_id a) (gt_blocked g)) pending);
  pp_expiries : map mutation_id expiries = px_expired_ids c;
  pp_plain : Forall (plain_of_book (ob_events (in_book inputs))) (expiries ++ blocked);
  pp_filled : ∃ fc g, fills_prepared fc (in_states inputs) (sorted candidate_le candidates) g ∧ filled = fg_result g ∧
    fc_events fc = ob_events (in_book inputs) ∧ fc_now fc = now ∧ execution_config bundle = Ok (fc_config fc);
}.

Lemma prepare_inv sn cycle calendar now p :
  NoDup (map (λ r, qi_order_intent_id (ir_intent r)) (order_intents (orders (sn_book sn)))) →
  prepare bundle schedule code sn cycle calendar now = Ok p →
  ∃ inputs pending c candidates expiries blocked filled,
    prepared_parts sn cycle calendar (_aware now) inputs pending c candidates expiries blocked filled ∧ pr_mutations p = expiries ++ blocked ++ filled ∧
    NoDup (map agg_id pending) ∧ NoDup (map qi_order_intent_id (ob_intents (in_book inputs))) ∧
    Forall2 (λ i o, descriptor_of i = Ok o) (ob_intents (in_book inputs)) (ob_descriptors (in_book inputs)) ∧
    (∀ a, a ∈ pending → ag_order a ∈ ob_descriptors (in_book inputs)).
Proof.
  intros Hnd. unfold prepare. intros Hp. apply bind_Ok_inv in Hp as (inputs & Hin & Hp). apply bind_Ok_inv in Hp as (pending & Hpend & Hp).
  apply bind_Ok_inv in Hp as (h & _ & Hp). apply bind_Ok_inv in Hp as (ep & _ & Hp). apply bind_Ok_inv in Hp as (expired & Hexp & Hp).
  apply bind_Ok_inv in Hp as (g & Hg & Hp). apply bind_Ok_inv in Hp as (skew & _ & Hp). apply bind_Ok_inv in Hp as (src & _ & Hp).
  apply bind_Ok_inv in Hp as (pv & _ & Hp). apply bind_Ok_inv in Hp as (expiries & Hes & Hp). apply bind_Ok_inv in Hp as (blocked & Hbs & Hp).
  apply bind_Ok_inv in Hp as (filled & Hfs & [= <-]). set (c := {| px_cycle := cycle |}) in *.
  assert (load_q1_order_book (sn_book sn) (pc_run_id cycle) None = Ok (in_book inputs)) as Hbook.
  { unfold _read_inputs in Hin. apply bind_Ok_inv in Hin as (book & Hb & Hin). by apply bind_Ok_inv in Hin as (? & _ & [= <-]). }
  destruct (book_intents _ _ _ _ Hbook Hnd) as [Hni Hds].
  destruct (pending_orders_spec _ _ _ _ Hpend) as (Hnp & _ & Hiff); [by rewrite (descriptor_ids _ _ Hds)|].
  apply (expire_orders_ids _ _ _ _ _ _ _ _ Hpend) in Hexp. apply consider_loop in Hg; [|done].
  apply (apply_skew_ok _ _ _ (Dec skew 0)) in Hg; [|intros x Hx; by apply ck_intent, intent_by_id_get in Hx as [? _]].
  apply expiry_mutations_spec in Hes as [Hes1 Hes2]. apply blocked_mutations_spec in Hbs as [Hbs1 Hbs2].
  apply fill_mutations_spec in Hfs as (fc & fg & Hf1 & Hf2 & Hf3 & Hf4 & _ & _ & Hf5).
  exists inputs, pending, c, (gt_candidates (apply_skew (Dec skew 0) g)), expiries, blocked, filled. split; [|split_and!; try done; by intros a (_ & ? & _)%Hiff].
  split; try done; [eauto| |eauto 10]. apply Forall_app. done.
Qed.

(** The orders that get an event: every pending one that does not wait for its window. *)
Lemma parts_exact sn cycle calendar now inputs pending c candidates expiries blocked filled :
  prepared_parts sn cycle calendar now inputs pending c candidates expiries blocked filled → NoDup (map agg_id pending) →
  map mutation_id (expiries ++ blocked ++ filled) ≡ₚ map agg_id (List.filter (λ a, negb (before_window schedule calendar now a)) pending).
Proof.
  intros [_ _ _ (Es & En & _ & Ei & Ew & Ex) (g & [Hc Hn Hb Hcov] & -> & Hbl) He _ (fc & fg & Hf & -> & _)] Hnp.
  assert (∀ a, a ∈ pending → expired_in c a = expires (dt_le (vs_close_at calendar) now) now a) as Hexp.
  { intros a Ha. unfold expired_in. rewrite Ex. apply eq_bool_prop_intro. split.
    - intros (k & Hk%list_elem_of_In & <-%String.eqb_eq)%Is_true_true%existsb_exists. apply list_elem_of_fmap in Hk as (b & E & [Hb1 Hb2]%elem_of_filterb).
      rewrite (NoDup_map_inj agg_id _ a b Hnp Ha Hb2 E). by apply Is_true_true.
    - intros Hx%Is_true_true. apply Is_true_true, existsb_exists. exists (agg_id a). split; [|apply String.eqb_refl].
      apply list_elem_of_In, list_elem_of_fmap_2, elem_of_filterb. done. }
  assert (∀ a, a ∈ pending → waits c a = before_window schedule calendar now a) as Hw.
  { intros a Ha. unfold waits, before_window. by rewrite (Hexp a Ha), Es, En, Ew. }
  assert (∀ x, x ∈ gt_candidates g → candidate_id x = candidate_key x ∧ qc_aggregate x ∈ pending ∧ acted_on c (qc_aggregate x)) as Hk.
  { intros x Hx. destruct (Hc x Hx) as [? Hi ? ? _ _]. rewrite Ei in Hi. by apply intent_by_id_get in Hi as [? _]. }
  assert (map mutation_id (fg_result fg) ≡ₚ map candidate_key (gt_candidates g)) as Hfill.
  { rewrite (fp_ids _ _ _ _ Hf). etrans; [apply Permutation_map, sorted_perm|].
    erewrite map_ext_in; [reflexivity|]. intros x Hx%list_elem_of_In. by apply Hk. }
  assert (∀ a b, a ∈ pending → b ∈ pending → agg_id a = agg_id b → a = b) as Hsame by (intros a b; by apply NoDup_map_inj).
  assert (∀ b, b ∈ pending → dmem (agg_id b) (gt_blocked g) = true → acted_on c b ∧ agg_id b ∉ map candidate_key (gt_candidates g)) as Hbk.
  { intros b Hb1 Hb2. destruct (Hb _ Hb2) as [(a & Ha & E & Hact) Hnk]. pose proof (Hsame a b Ha Hb1 E) as ->. done. }
  assert (∀ a, a ∈ pending → acted_on c a → a ∈ List.filter (λ a, negb (before_window schedule calendar now a)) pending) as Hact.
  { intros a Ha [_ Hx]. apply elem_of_filterb. by rewrite <- (Hw a Ha), Hx. }
  rewrite !map_app, He, Hbl, Hfill, Ex. apply NoDup_Permutation.
  - apply NoDup_app. split; [by apply NoDup_map_filter|]. split; [|apply NoDup_app; split_and!; [by apply NoDup_map_filter| |done]].
    + intros k (a & -> & [Ha1 Ha2]%elem_of_filterb)%list_elem_of_fmap. rewrite <- (Hexp a Ha2) in Ha1.
      intros [(b & E & [Hb1 Hb2]%elem_of_filterb)%list_elem_of_fmap|(x & E & Hx)%list_elem_of_fmap]%elem_of_app.
      * rewrite (Hsame a b Ha2 Hb2 E) in Ha1. destruct (Hbk b Hb2 Hb1) as [[? _] _]. congruence.
      * destruct (Hk x Hx) as (_ & Hx1 & [Hx2 _]). rewrite (Hsame a _ Ha2 Hx1 E) in Ha1. congruence.
    + intros k (b & -> & [Hb1 Hb2]%elem_of_filterb)%list_elem_of_fmap. by apply Hbk.
  - by apply NoDup_map_filter.
  - intros k. rewrite !elem_of_app. split.
    + intros [(a & -> & [Ha1 Ha2]%elem_of_filterb)%list_elem_of_fmap|[(b & -> & [Hb1 Hb2]%elem_of_filterb)%list_elem_of_fmap|(x & -> & Hx)%list_elem_of_fmap]].
      * apply list_elem_of_fmap_2, elem_of_filterb. unfold before_window. by rewrite Ha1.
      * by apply list_elem_of_fmap_2, Hact, Hbk.
      * unfold candidate_key. by apply list_elem_of_fmap_2, Hact; apply Hk.
    + intros (a & -> & [Ha1 Ha2]%elem_of_filterb)%list_elem_of_fmap. rewrite <- (Hw a Ha2) in Ha1. apply negb_true_iff in Ha1.
      destruct (expired_in c a) eqn:Ea.
      * left. apply list_elem_of_fmap_2, elem_of_filterb. by rewrite <- (Hexp a Ha2).
      * right. destruct (Hcov a Ha2 (conj Ea Ha1)) as [Hd|Hd]; [left|by right]. by apply list_elem_of_fmap_2, elem_of_filterb.
Qed.

(** ** The fills *)

(** The state and the ledger event move by the same amounts: a purchase within the settled cash, a sale within the position. *)
Definition moves_together (fill : Q1Fill) (before after : Q1ArmState) (event : CashSettlementEvent) : Prop :=
  let notional := (qf_quantity fill * qf_price fill)%dec in
  let position := match dget (qf_symbol fill) (as_positions before) with Some q => q | None => d0 end in
  (0 < dval (qf_quantity fill))%Q ∧ as_sequence after = as_sequence before + 1 ∧ as_arm_id before = Q1ArmId_value (qf_arm_id fill) ∧
  as_positions after = drop_zero (qf_symbol fill) (dset (qf_symbol fill) match qf_side fill with
    BUY => position + qf_quantity fill | SELL => position - qf_quantity fill end%dec (as_positions before)) ∧
  match qf_side fill with
  | BUY =>
      (dval (notional + qf_commission_usd fill)%dec <= dval (as_settled_cash_usd before))%Q ∧
      cs_settled_cash_delta_usd event = (- (notional + qf_commission_usd fill))%dec ∧ cs_unsettled_receivable_delta_usd event = d0 ∧
      as_settled_cash_usd after = (as_settled_cash_usd before + cs_settled_cash_delta_usd event)%dec ∧
      as_unsettled_receivables after = as_unsettled_receivables before
  | SELL =>
      (dval (qf_quantity fill) <= dval position)%Q ∧
      cs_settled_cash_delta_usd event = d0 ∧ cs_unsettled_receivable_delta_usd event = (notional - qf_commission_usd fill)%dec ∧
      as_settled_cash_usd after = as_settled_cash_usd before ∧
      ∃ receivable, as_unsettled_receivables after = as_unsettled_receivables before ++ [receivable] ∧
        ur_amount_usd receivable = cs_unsettled_receivable_delta_usd event ∧ Some (ur_settlement_date receivable) = cs_settlement_date event ∧
        Some (ur_receivable_id receivable) = cs_receivable_id event ∧ ur_source_fill_id receivable = qf_fill_id fill
  end.

Lemma q1_fill_fields cy candidate economics now src fill :
  _q1_fill bundle code cy candidate economics now src = Ok fill →
  qf_quote_id fill = mq_quote_id (qc_quote candidate) ∧ qf_symbol fill = qi_symbol (qc_intent candidate) ∧ qf_side fill = qi_side (qc_intent candidate) ∧
  qf_quantity fill = fe_quantity economics ∧ qf_price fill = fe_price economics ∧ qf_commission_usd fill = fe_commission_usd economics ∧
  qf_order_intent_id fill = qi_order_intent_id (qc_intent candidate) ∧ qf_arm_id fill = qi_arm_id (qc_intent candidate).
Proof.
  unfold _q1_fill. intros Hf. do 4 apply bind_Ok_inv in Hf as (? & _ & Hf). unfold validate_Q1Fill in Hf.
  repeat (apply bind_Ok_inv in Hf as (? & _ & Hf)). by injection Hf as <-.
Qed.

Lemma fill_of_fields fill f :
  fill_of fill = Ok f →
  (0 < dval (qf_quantity fill))%Q ∧ fl_quantity f = qf_quantity fill ∧ fl_price f = qf_price fill ∧ fl_commission_usd f = qf_commission_usd fill ∧
  fl_side f = qf_side fill ∧ fl_symbol f = qf_symbol fill ∧ fl_arm_id f = Q1ArmId_value (qf_arm_id fill) ∧ fl_fill_id f = qf_fill_id fill.
Proof.
  unfold fill_of, validate_Fill. intros Hf. apply bind_Ok_inv in Hf as ([] & Hq & Hf). repeat (apply bind_Ok_inv in Hf as (? & _ & Hf)). injection Hf as <-.
  split; [|done]. unfold invalid in Hq. inv_ok. dec_to_Q. done.
Qed.

Lemma receivable_of_spec c intent fill event r :
  receivable_of c intent fill event = Ok r →
  match qi_side intent with
  | BUY => r = None
  | SELL => ∃ x, r = Some x ∧ ur_amount_usd x = cs_unsettled_receivable_delta_usd event ∧ Some (ur_settlement_date x) = cs_settlement_date event
      ∧ Some (ur_receivable_id x) = cs_receivable_id event ∧ ur_source_fill_id x = qf_fill_id fill
  end.
Proof.
  unfold receivable_of, _required_receivable_id, _required_settlement_date. destruct (qi_side intent); [by intros [= <-]|]. intros Hr.
  apply bind_Ok_inv in Hr as (id & Hid & Hr). apply bind_Ok_inv in Hr as (d & Hd & Hr). apply bind_Ok_inv in Hr as (x & Hx & [= <-]).
  destruct (cs_receivable_id event); [injection Hid as ->|done]. destruct (cs_settlement_date event); [injection Hd as ->|done].
  unfold validate_UnsettledReceivable in Hx. repeat (apply bind_Ok_inv in Hx as (? & _ & Hx)). injection Hx as <-. by eexists.
Qed.

Lemma filled_moves c candidate state economics m after :
  filled_mutation bundle code c candidate state economics = Ok (m, after) →
  ∃ fill event, pm_fill m = Some fill ∧ pm_settlement_event m = Some event ∧ moves_together fill state after event.
Proof.
  intros (fill & event & receivable & f & rq & E & Hcash & Hf & He & Hr & Hc & Ha & _)%filled_inv. exists fill, event. rewrite E. split; [done|]. split; [done|].
  apply q1_fill_fields in Hf as (_ & _ & Es & Eq & Ep & Ec & _). destruct (fill_of_fields _ _ Hc) as (Hpos & F1 & F2 & F3 & F4 & F5 & F6 & F7).
  apply receivable_of_spec in Hr. unfold apply_fill in Ha. rewrite F1, F2, F3, F4, F5, F6 in Ha. apply bind_Ok_inv in Ha as ([] & Harm & Ha).
  apply raise_if_Ok_inv, negb_false_iff, String.eqb_eq in Harm. cbv zeta in Ha. apply bind_Ok_inv in Ha as ([[sc ps] rs] & Hch & Ha).
  apply validate_arm_inv in Ha as [-> _]. unfold moves_together, settlement_event_of in *. cbn [as_sequence as_positions as_settled_cash_usd as_unsettled_receivables].
  split; [done|]. split; [done|]. split; [done|]. rewrite Es in *. destruct (qi_side (qc_intent candidate)).
  - subst receivable. apply bind_Ok_inv in Hch as ([] & _ & Hch). apply bind_Ok_inv in Hch as ([] & Hle%raise_if_Ok_inv & [= <- <- <-]).
    unfold record_buy_cash_debit in He. apply bind_Ok_inv in He as ([] & _ & He). apply _event_fields in He as (_ & _ & _ & E4 & E5 & _). rewrite E4, E5.
    dec_to_Q. split_and!; try done. apply dsub_dneg, dadd_rounds; apply prec_pos.
  - destruct Hr as (x & -> & X1 & X2 & X3 & X4). apply bind_Ok_inv in Hch as ([] & Hle%raise_if_Ok_inv & Hch). apply bind_Ok_inv in Hch as ([] & _ & Hch).
    apply bind_Ok_inv in Hch as ([] & _ & [= <- <- <-]). unfold record_sell_receivable in He. do 6 apply bind_Ok_inv in He as (? & _ & He).
    apply _event_fields in He as (_ & _ & _ & E4 & E5 & _). rewrite E4, E5 in *. dec_to_Q. split; [done|]. split_and!; try done. by exists x.
Qed.

Lemma states_after_plain events states l l' : Forall (plain_of_book events) l → states_after states (l ++ l') = states_after states l'.
Proof.
  unfold states_after. rewrite fold_left_app. intros Hl. f_equal. revert states. induction Hl as [|m l (_ & _ & E) _ IH]; intros states; cbn; [done|].
  rewrite E. apply IH.
Qed.

Lemma filled_of_book sn cycle calendar now inputs pending c candidates expiries blocked filled :
  prepared_parts sn cycle calendar now inputs pending c candidates expiries blocked filled → Forall (event_of_book (ob_events (in_book inputs))) filled.
Proof.
  intros [_ _ _ (_ & _ & _ & Ei & _) (g & Hg & -> & _) _ _ (fc & fg & Hf & -> & He & _)]. apply Forall_forall. intros m (l1 & l2 & E)%list_elem_of_split.
  destruct (fp_treated _ _ _ _ Hf _ _ _ E) as (x & Hx & Ht). apply elem_of_sorted, (gk_candidates _ _ _ Hg), ck_intent in Hx.
  rewrite Ei in Hx. apply intent_by_id_get in Hx as [Hx _]. exists (ag_order (qc_aggregate x)).
  destruct Ht as [? ? _ Hb|? ? ? ? ? ? _ _ _ _ (fill & event & r & contract & rq & Em & _ & _ & _ & _ & _ & _ & Ha & _)%filled_inv].
  - apply blocked_intent in Hb as (Ei' & _ & _ & _ & _ & Ha). rewrite He in Ha. eexists. split; [exact Ha|]. unfold mutation_id. by rewrite Ei'.
  - rewrite He in Ha. eexists. split; [exact Ha|]. unfold mutation_id. by rewrite Em.
Qed.

(** A mutation with a fill comes from the loop over the candidates, with the states that the fills before it left. *)
Lemma fill_parts sn cycle calendar now inputs pending c candidates expiries blocked filled l1 m l2 fill :
  prepared_parts sn cycle calendar now inputs pending c candidates expiries blocked filled →
  expiries ++ blocked ++ filled = l1 ++ m :: l2 → pm_fill m = Some fill →
  ∃ fc candidate state economics after, candidate_ok c pending candidate ∧ execution_config bundle = Ok (fc_config fc) ∧ fc_now fc = now ∧
    dget (Q1ArmId_value (qi_arm_id (qc_intent candidate))) (states_after (in_states inputs) l1) = Some state ∧
    filled_mutation bundle code fc candidate state economics = Ok (m, after).
Proof.
  intros [_ _ _ _ (g & Hg & -> & _) _ Hpl (fc & fg & Hf & -> & _ & Hn & Hconf)] E Hm. rewrite app_assoc in E.
  assert (∃ l1', l1 = (expiries ++ blocked) ++ l1' ∧ fg_result fg = l1' ++ m :: l2) as (l1' & -> & Er).
  { apply app_eq_inv in E as [(k & E1 & E2)|(k & E1 & E2)]; [|by exists k].
    destruct k as [|m' k]; cbn in E2.
    - exists []. rewrite app_nil_r in *. by rewrite E1, E2.
    - injection E2 as -> ->. rewrite E1 in Hpl. apply Forall_app in Hpl as [_ (_ & E0 & _)%Forall_inv]. congruence. }
  destruct (fp_treated _ _ _ _ Hf _ _ _ Er) as (candidate & Hcd & Ht). apply elem_of_sorted in Hcd. rewrite (states_after_plain _ _ _ _ Hpl).
  destruct Ht as [? ? _ Hb|state ? ? ? economics after Hs _ _ _ Hfm]; [apply blocked_intent in Hb as (_ & _ & _ & Hb & _); congruence|].
  exists fc, candidate, state, economics, after. split_and!; try done. by apply (gk_candidates _ _ _ Hg).
Qed.
End facts.

(** ** The properties of a preparation *)

(** The identifiers of the intents are the key of their table. *)
Definition intent_ids_unique (s : q1_store) : Prop := NoDup (map (λ r, qi_order_intent_id (ir_intent r)) (order_intents (orders s))).

(** C2: one execution cycle prepares exactly one event for every pending order of its run, except for normal orders that wait for their window to
    open, and no event for any other order; each event is the next one of its order in the book that the cycle read. *)
Theorem execution_cycle_events_exact `{Digest} `{NewYork} bundle schedule code sn cycle calendar now p :
  intent_ids_unique (sn_book sn) → prepare bundle schedule code sn cycle calendar now = Ok p →
  ∃ book pending, load_q1_order_book (sn_book sn) (pc_run_id cycle) None = Ok book ∧
    pending_orders (ob_descriptors book) (ob_events book) (Some (_aware now)) = Ok pending ∧ NoDup (map agg_id pending) ∧
    map mutation_id (pr_mutations p) ≡ₚ map agg_id (List.filter (λ a, negb (before_window schedule calendar (_aware now) a)) pending) ∧
    Forall (event_of_book (ob_events book)) (pr_mutations p).
Proof.
  intros Hu Hp. destruct (prepare_inv _ _ _ _ _ _ _ _ Hu Hp) as (inputs & pending & c & cds & es & bs & fs & Hparts & -> & Hnd & Hni & Hds & Hord).
  exists (in_book inputs), pending. split; [apply Hparts|]. split; [apply Hparts|]. split; [done|]. split; [by eapply parts_exact|].
  rewrite app_assoc. apply Forall_app. split; [eapply Forall_impl; [apply Hparts|by intros m []]|].
  by eapply filled_of_book.
Qed.

Lemma descriptor_of_fields intent order :
  descriptor_of intent = Ok order →
  od_created_at order = qi_created_at intent ∧ od_symbol order = qi_symbol intent ∧ od_side order = qi_side intent.
Proof.
  unfold descriptor_of, validate_OrderDescriptor. intros Hd. apply bind_Ok_inv in Hd as (cl & _ & Hd).
  do 5 apply bind_Ok_inv in Hd as (? & _ & Hd). by injection Hd as <-.
Qed.

(** C6: an execution cycle never looks back and never looks ahead: every fill is at a quote of the order's symbol that took place and became
    available strictly after the order was created, was available by the time of the cycle, is not older than the configured age, is uncrossed and
    shows size on the side of the order; the cycle runs within the actual regular session. *)
Theorem fills_use_later_fresh_quotes `{Digest} `{NewYork} bundle schedule code sn cycle calendar now p m fill :
  intent_ids_unique (sn_book sn) → prepare bundle schedule code sn cycle calendar now = Ok p → m ∈ pr_mutations p → pm_fill m = Some fill →
  ∃ q age, maximum_quote_age_seconds bundle = Ok age ∧ is_regular_session_time (_aware now) calendar = true ∧
    quote_in_time (sn_market sn (mutation_id m)) (instant (qi_created_at (pm_intent m))) (instant (_aware now)) age (qi_side (pm_intent m)) q ∧
    mq_symbol q = qi_symbol (pm_intent m) ∧ qf_quote_id fill = mq_quote_id q ∧ qf_symbol fill = qi_symbol (pm_intent m) ∧
    qf_side fill = qi_side (pm_intent m) ∧ qf_order_intent_id fill = mutation_id m.
Proof.
  intros Hu Hp Hm Hfill. destruct (prepare_inv _ _ _ _ _ _ _ _ Hu Hp) as (inputs & pending & c & cds & es & bs & fs & Hparts & Epr & Hnd & Hni & Hds & Hord).
  rewrite Epr in Hm. apply list_elem_of_split in Hm as (l1 & l2 & E).
  destruct (fill_parts _ _ _ _ _ _ _ _ _ _ _ _ _ _ _ _ _ _ Hparts E Hfill) as (fc & x & st & ec & after & [Ha Hi Hses _ (age & Hage & Hq & Hsym) _] & _ & _ & _ & Hf).
  destruct (pp_context _ _ _ _ _ _ _ _ _ _ _ _ _ _ Hparts) as (Es & En & Esn & Ei & _). rewrite Es, En, Esn, Ei in *.
  pose proof (order_intent_of _ _ _ Hni Hds (Hord _ Ha) Hi) as Hdesc. destruct (descriptor_of_fields _ _ Hdesc) as (D1 & D2 & D3).
  destruct (filled_inv _ _ _ _ _ _ _ _ Hf) as (fill' & ev & r & ct & rq & Em & _ & Hqf & _).
  assert (fill' = fill) as -> by (rewrite Em in Hfill; by injection Hfill). apply q1_fill_fields in Hqf as (F1 & F2 & F3 & _ & _ & _ & F4 & _).
  rewrite Em. unfold mutation_id. cbn [pm_intent]. apply intent_by_id_get in Hi as [Hid _]. rewrite D1, D2, D3 in *. rewrite Hid.
  exists (qc_quote x), age. split_and!; try done. by rewrite F4.
Qed.

(** C3: the arm state and the cash ledger of a run cannot drift apart: every fill of a cycle moves the state of its arm and records a settlement
    event with the same amounts; a purchase costs at most the settled cash, a sale takes at most the position and its proceeds become one receivable.
    Each fill starts from the state that the earlier fills of the same arm in the cycle left. *)
Theorem fills_move_state_and_ledger_together `{Digest} `{NewYork} bundle schedule code sn cycle calendar now p l1 m l2 fill :
  intent_ids_unique (sn_book sn) → prepare bundle schedule code sn cycle calendar now = Ok p → pr_mutations p = l1 ++ m :: l2 → pm_fill m = Some fill →
  ∃ inputs before after event, _read_inputs (sn_book sn) (sn_market_status sn) (pc_run_id cycle) calendar (_aware now) = Ok inputs ∧
    dget (mutation_arm m) (states_after (in_states inputs) l1) = Some before ∧ pm_state_before_sequence m = Some (as_sequence before) ∧
    pm_state_after m = Some after ∧ pm_settlement_event m = Some event ∧ moves_together fill before after event.
Proof.
  intros Hu Hp Em Hfill. destruct (prepare_inv _ _ _ _ _ _ _ _ Hu Hp) as (inputs & pending & c & cds & es & bs & fs & Hparts & Epr & _).
  rewrite Epr in Em. destruct (fill_parts _ _ _ _ _ _ _ _ _ _ _ _ _ _ _ _ _ _ Hparts Em Hfill) as (fc & x & st & ec & after & _ & _ & _ & Hst & Hf).
  destruct (filled_moves _ _ _ _ _ _ _ _ Hf) as (fill' & ev & Hfill' & Hev & Hmv). rewrite Hfill in Hfill'. injection Hfill' as <-.
  exists inputs, st, after, ev. split; [apply Hparts|]. destruct (filled_intent _ _ _ _ _ _ _ _ Hf) as [Ei Ea].
  destruct (filled_inv _ _ _ _ _ _ _ _ Hf) as (? & ? & ? & ? & ? & E & _). split_and!; try done; [unfold mutation_arm; by rewrite Ei|by rewrite E].
Qed.

(** ** A concrete cycle *)

#[local] Existing Instance rolling_digest.
#[local] Existing Instance ex_new_york.

Lemma execution_cycle_events_exact_witness : map mutation_id (pr_mutations ex_preparation) ≡ₚ ["o-1"%string].
Proof.
  destruct (execution_cycle_events_exact _ _ _ _ _ _ _ _ ex_intents_unique ex_cycle_prepared) as (book & pending & Hb & Hp & _ & He & _). etrans; [exact He|].
  vm_compute in Hb. injection Hb as <-. vm_compute in Hp. injection Hp as <-. vm_compute. reflexivity.
Defined.

Lemma fills_use_later_fresh_quotes_witness : ∃ q, mq_quote_id q = "fresh"%string ∧ instant (ex_at 15) < instant (mq_available_at q) <= instant ex_now.
Proof.
  destruct ex_one_fill as (Em & Ef & Eq).
  destruct (fills_use_later_fresh_quotes _ _ _ _ _ _ _ _ ex_mutation ex_fill ex_intents_unique ex_cycle_prepared ltac:(rewrite Em; left) Ef)
    as (q & age & _ & _ & [_ [_ H1] H2 _ _ _] & _ & E & _).
  exists q. split; [by rewrite <- E|]. exact (conj H1 H2).
Defined.

Lemma fills_move_state_and_ledger_together_witness :
  ∃ before after event, as_settled_cash_usd before = Dec 1000 0 ∧ moves_together ex_fill before after event.
Proof.
  destruct ex_one_fill as (Em & Ef & _).
  destruct (fills_move_state_and_ledger_together _ _ _ _ _ _ _ _ [] ex_mutation [] ex_fill ex_intents_unique ex_cycle_prepared Em Ef)
    as (inputs & before & after & event & Hin & Hb & _ & _ & _ & Hm). exists before, after, event. split; [|exact Hm].
  vm_compute in Hin. injection Hin as <-. vm_compute in Hb. injection Hb as <-. reflexivity.
Defined.
