(* ===== verification/ExecutionCommit.v ===== *)
(** * The commit of an execution cycle

    The transaction that [_commit] runs is a sequence of the repositories' commands, the fenced completion of the cycle last; it refuses
    preparations whose orders, arms or lease have moved on, and it takes effect once. *)
From Stdlib Require Import ZArith Lia Ascii String.
From stdpp Require Import base list strings numbers sets.
From S2P Require Import Prelude PyDecimal Hashing Domain Text OrderState Settlement ArmState Payload Execution Reconciliation Planning Schedule Cycles CycleStore.
From S2P Require Import CycleLifecycle Q1Records Q1Store TradingRuns TradingOrders RuntimeConfig MarketData ExecutionCycle ExecutionExample ExecutionSafety.
Set Default Goal Selector "!".
Open Scope Z_scope.

(** ** The commands *)

Section commands.
Context `{Digest}.
Variables (bundle : Q1ConfigBundle) (database : clock) (cycle : PaperCycleRow) (now : datetime).

Definition mutation_commands (m : PreparedMutation) : list q1_command :=
  match pm_fill m, pm_settlement_event m, pm_state_after m with
  | Some fill, Some event, Some after =>
      [QFill fill; QCash event (database (cs_cash_settlement_event_id event));
       QArmState (pc_run_id cycle) after (pc_cycle_id cycle) now (pm_state_before_sequence m)]
  | _, _, _ => []
  end ++ [QOrderEvent (pm_event m) (database (oe_event_id (pm_event m)))].

Definition execution_commands (owner : string) (calendar : VersionedMarketSession) (p : Preparation) (output : pyval) : list q1_command :=
  concat (map mutation_commands (pr_mutations p)) ++
  [QCycle (KFenced (pc_cycle_id cycle) owner (pc_attempt_count cycle) now (database (pc_cycle_id cycle)) now (input_of bundle cycle calendar p) output now)].

(** The cycle tables stay during the mutations. *)
Lemma mutations_keep_cycles s l s' : run_all s (concat (map mutation_commands l)) = Ok s' → cycle_tables s' = cycle_tables s.
Proof.
  intros Hr. apply run_all_commits in Hr as <-. rewrite cycle_tables_run.
  assert (omap cycle_command (concat (map mutation_commands l)) = []) as ->; [|done].
  induction l as [|m l IH]; [done|]. cbn. rewrite omap_app, IH, app_nil_r. unfold mutation_commands.
  by destruct (pm_fill m), (pm_settlement_event m), (pm_state_after m).
Qed.

(** ** The steps *)

Lemma commit_fill_runs m fill co co' :
  pm_fill m = Some fill → commit_fill database cycle now m fill co = Ok co' →
  ∃ event before after, pm_settlement_event m = Some event ∧ pm_state_after m = Some after ∧
    latest_arm_state (co_store co) (pc_run_id cycle) (mutation_arm m) = Ok (Some before) ∧ pm_state_before_sequence m = Some (as_sequence before) ∧
    run_all (co_store co) [QFill fill; QCash event (database (cs_cash_settlement_event_id event));
                           QArmState (pc_run_id cycle) after (pc_cycle_id cycle) now (pm_state_before_sequence m)] = Ok (co_store co') ∧
    co_fill_ids co' = co_fill_ids co ++ [qf_fill_id fill] ∧ co_event_ids co' = co_event_ids co.
Proof.
  intros Hfill. unfold commit_fill. fold (mutation_arm m). intros Hc. apply bind_Ok_inv in Hc as (state & Hs & Hc).
  destruct state as [state|]; [|done]. destruct (pm_state_before_sequence m) as [before|]; [|done]. destruct (pm_state_after m) as [after|]; [|done].
  apply bind_Ok_inv in Hc as ([] & Hseq%raise_if_Ok_inv%negb_false_iff%Z.eqb_eq & Hc). apply bind_Ok_inv in Hc as ([s1 r1] & H1 & Hc).
  destruct (pm_settlement_event m) as [event|]; [|done]. apply bind_Ok_inv in Hc as ([s2 r2] & H2 & Hc). apply bind_Ok_inv in Hc as ([s3 r3] & H3 & [= <-]).
  exists event, state, after. split_and!; try done; [by rewrite Hseq|]. unfold run_all. cbn [foldM run_q1]. rewrite H1. cbn. rewrite H2. cbn.
  rewrite <- Hseq, H3. done.
Qed.

(** What a mutation needs of the tables: its order is pending with the event it was prepared on. *)
Definition still_current (latest : pydict OrderAggregate) (m : PreparedMutation) : Prop :=
  ∃ a, dget (mutation_id m) latest = Some a ∧ ag_latest_event_id a = ag_latest_event_id (pm_aggregate m).

(** The fills come with their settlement event and their state. *)
Definition complete_fill (m : PreparedMutation) : Prop :=
  match pm_fill m with Some _ => is_Some (pm_settlement_event m) ∧ is_Some (pm_state_after m) ∧ is_Some (pm_state_before_sequence m) | None => True end.

Lemma commit_mutation_runs latest co m co' :
  commit_mutation database cycle now latest co m = Ok co' →
  still_current latest m ∧ complete_fill m ∧ run_all (co_store co) (mutation_commands m) = Ok (co_store co') ∧
  co_event_ids co' = co_event_ids co ++ [oe_event_id (pm_event m)] ∧
  co_fill_ids co' = co_fill_ids co ++ match pm_fill m with Some f => [qf_fill_id f] | None => [] end.
Proof.
  unfold commit_mutation. fold (mutation_id m). intros Hc. apply bind_Ok_inv in Hc as ([] & Hcur%raise_if_Ok_inv & Hc).
  apply bind_Ok_inv in Hc as (co1 & H1 & Hc). apply bind_Ok_inv in Hc as ([s2 r2] & H2 & [= <-]). cbn [co_store co_event_ids co_fill_ids].
  split. { unfold still_current. destruct (dget (mutation_id m) latest) as [a|]; [|done]. exists a. split; [done|]. by apply negb_false_iff, String.eqb_eq in Hcur. }
  assert (run_all (co_store co1) [QOrderEvent (pm_event m) (database (oe_event_id (pm_event m)))] = Ok s2) as Hev by (unfold run_all; cbn; by rewrite H2).
  unfold complete_fill, mutation_commands. destruct (pm_fill m) as [fill|] eqn:Ef.
  - destruct (commit_fill_runs _ _ _ _ Ef H1) as (event & before & after & -> & -> & _ & -> & Hr & E1 & E2). split_and!; try done; [|by rewrite E2].
    by eapply run_all_app.
  - injection H1 as <-. rewrite app_nil_r. split_and!; done.
Qed.

Lemma commit_mutations_run latest s l co :
  foldM (commit_mutation database cycle now latest) {| co_store := s; co_fill_ids := []; co_event_ids := []; co_state_sequences := [] |} l = Ok co →
  Forall (still_current latest) l ∧ Forall complete_fill l ∧ run_all s (concat (map mutation_commands l)) = Ok (co_store co) ∧
  co_event_ids co = map (λ m, oe_event_id (pm_event m)) l ∧ co_fill_ids co = omap (λ m, qf_fill_id <$> pm_fill m) l.
Proof.
  apply (foldM_prefix_invariant (λ l co, Forall (still_current latest) l ∧ Forall complete_fill l ∧
    run_all s (concat (map mutation_commands l)) = Ok (co_store co) ∧
    co_event_ids co = map (λ m, oe_event_id (pm_event m)) l ∧ co_fill_ids co = omap (λ m, qf_fill_id <$> pm_fill m) l)); [done|].
  intros pre m co1 co2 _ (H1 & H2 & H3 & H4 & H5) Hm. destruct (commit_mutation_runs _ _ _ _ Hm) as (C1 & C2 & C3 & C4 & C5). split_and!.
  - apply Forall_app. split; [done|by apply Forall_singleton].
  - apply Forall_app. split; [done|by apply Forall_singleton].
  - rewrite map_app, concat_app. cbn. rewrite app_nil_r. by eapply run_all_app.
  - by rewrite C4, H4, map_app.
  - rewrite C5, H5, omap_app. cbn. by destruct (pm_fill m).
Qed.
End commands.

Lemma commit_spec `{Digest} bundle s database cycle calendar now p s' output :
  _commit bundle s database cycle calendar now p = Ok (s', output) →
  ∃ owner book pending co locked, pc_lease_owner cycle = Some owner ∧
    require_cycle_fence (cycle_tables s) (pc_cycle_id cycle) owner (pc_attempt_count cycle) now (database (pc_cycle_id cycle)) = Ok locked ∧
    load_q1_order_book s (pc_run_id cycle) None = Ok book ∧ pending_orders (ob_descriptors book) (ob_events book) (Some now) = Ok pending ∧
    Forall (still_current (dict_of_pairs (map (λ a, (od_order_intent_id (ag_order a), a)) pending))) (pr_mutations p) ∧
    Forall complete_fill (pr_mutations p) ∧
    run_all s (concat (map (mutation_commands database cycle now) (pr_mutations p))) = Ok (co_store co) ∧
    co_event_ids co = map (λ m, oe_event_id (pm_event m)) (pr_mutations p) ∧ co_fill_ids co = omap (λ m, qf_fill_id <$> pm_fill m) (pr_mutations p) ∧
    output = output_of p co ∧
    ∃ t, complete_fenced_cycle (cycle_tables (co_store co)) locked now (input_of bundle cycle calendar p) output now = Ok t ∧
      s' = with_cycle_tables (co_store co) t.
Proof.
  unfold _commit, _lease_owner. intros Hc. destruct (pc_lease_owner cycle) as [owner|]; [|done]. apply bind_Ok_inv in Hc as (o & [= <-] & Hc).
  apply bind_Ok_inv in Hc as (locked & Hl & Hc). apply bind_Ok_inv in Hc as (book & Hb & Hc). apply bind_Ok_inv in Hc as (pending & Hp & Hc).
  apply bind_Ok_inv in Hc as (co & Hco & Hc). apply bind_Ok_inv in Hc as (t & Ht & [= <- <-]).
  apply commit_mutations_run in Hco as (H1 & H2 & H3 & H4 & H5). exists owner, book, pending, co, locked. split_and!; try done. by exists t.
Qed.

(** C4: the commit of an execution cycle is one transaction of the repositories: while the lease is held and every order is pending with the very
    event that the preparation saw, it appends, for each mutation in order, the fill, its settlement event, the arm state and the order event, and
    completes the cycle last, every command succeeding; it reports exactly the identifiers of these fills and events.  The tables it leaves are
    those of a run of the commands, so what holds of every run of the repositories holds after it. *)
Theorem execution_commit_is_one_transaction `{Digest} bundle s database cycle calendar now p s' output :
  _commit bundle s database cycle calendar now p = Ok (s', output) →
  ∃ owner book pending sequences, pc_lease_owner cycle = Some owner ∧
    is_ok (require_cycle_fence (cycle_tables s) (pc_cycle_id cycle) owner (pc_attempt_count cycle) now (database (pc_cycle_id cycle))) = true ∧
    load_q1_order_book s (pc_run_id cycle) None = Ok book ∧ pending_orders (ob_descriptors book) (ob_events book) (Some now) = Ok pending ∧
    Forall (λ m, ∃ a, a ∈ pending ∧ agg_id a = mutation_id m ∧ ag_latest_event_id a = ag_latest_event_id (pm_aggregate m)) (pr_mutations p) ∧
    Forall complete_fill (pr_mutations p) ∧
    run_all s (execution_commands bundle database cycle now owner calendar p output) = Ok s' ∧
    run_q1_commands s (execution_commands bundle database cycle now owner calendar p output) = s' ∧
    output = output_of p {| co_store := s'; co_fill_ids := omap (λ m, qf_fill_id <$> pm_fill m) (pr_mutations p);
                            co_event_ids := map (λ m, oe_event_id (pm_event m)) (pr_mutations p); co_state_sequences := sequences |}.
Proof.
  intros (owner & book & pending & co & locked & H1 & Hl & H3 & H4 & H5 & H6 & Hr & H8 & H9 & Eo & t & Ht & ->)%commit_spec.
  exists owner, book, pending, (co_state_sequences co).
  assert (run_all s (execution_commands bundle database cycle now owner calendar p output) = Ok (with_cycle_tables (co_store co) t)) as Hall.
  { eapply run_all_app; [exact Hr|]. unfold run_all. cbn [foldM run_q1 run_command]. rewrite (mutations_keep_cycles _ _ _ _ _ _ Hr), Hl in *. cbn [mbind res_bind].
    by rewrite Ht. }
  split; [done|]. split; [by rewrite Hl|]. split; [done|]. split; [done|]. split.
  { eapply Forall_impl; [exact H5|]. intros m (a & Ha & E). exists a. apply dict_of_pairs_elem, list_elem_of_fmap in Ha as (a' & [= Ei ->] & Ha). done. }
  split; [done|]. split; [exact Hall|]. split; [by apply run_all_commits|]. rewrite Eo. unfold output_of. cbn. by rewrite H8, H9.
Qed.

(** C7: a cycle is executed at most once: after a commit, no commit for that cycle succeeds any more, whoever prepared it, under whichever attempt,
    and whatever other transactions came in between. *)
Theorem execution_takes_effect_once `{Digest} rs cs0 bundle database cycle calendar now p s' output cs bundle' database' cycle' calendar' now' p' :
  _commit bundle (run_q1_commands (empty_q1 rs) cs0) database cycle calendar now p = Ok (s', output) → pc_cycle_id cycle' = pc_cycle_id cycle →
  is_ok (_commit bundle' (run_q1_commands s' cs) database' cycle' calendar' now' p') = false.
Proof.
  intros (owner & _ & _ & co & locked & _ & Hl & _ & _ & _ & _ & Hr & _ & _ & _ & t & Ht & ->)%commit_spec Hid. rewrite (mutations_keep_cycles _ _ _ _ _ _ Hr) in Ht.
  unfold _commit. destruct (_lease_owner cycle') as [owner'|]; [|done]. cbn [mbind res_bind]. rewrite Hid.
  pose proof (completed_cycle_refuses _ _ _ _ _ _ _ _ _ _ _ _ _ (with_cycle_tables (co_store co) t) cs owner' (pc_attempt_count cycle') now'
    (database' (pc_cycle_id cycle)) Hl Ht eq_refl) as Hf. rewrite cycle_tables_run in *.
  match goal with |- is_ok (?f ≫= _) = _ => change (is_ok f = false) in Hf; by destruct f end.
Qed.

(** ** The concrete cycle *)

#[local] Existing Instance rolling_digest.
#[local] Existing Instance ex_new_york.

Definition ex_committed : q1_store * pyval :=
  Eval vm_compute in match _commit core_bundle ex_store (λ _, None) ex_cycle ex_session ex_now ex_preparation with Ok r => r | Raise _ => (ex_store, PNone) end.
Lemma ex_commit : _commit core_bundle ex_store (λ _, None) ex_cycle ex_session ex_now ex_preparation = Ok (ex_committed.1, ex_committed.2).
Proof. vm_compute. reflexivity. Qed.

Lemma execution_commit_is_one_transaction_witness :
  map qf_fill_id (fills (orders ex_committed.1)) = [qf_fill_id ex_fill] ∧
  ∃ cs, run_q1_commands ex_store cs = ex_committed.1 ∧ length cs = 5%nat.
Proof.
  split; [vm_compute; reflexivity|].
  destruct (execution_commit_is_one_transaction _ _ _ _ _ _ _ _ _ ex_commit) as (owner & _ & _ & _ & _ & _ & _ & _ & _ & _ & _ & Hr & _).
  eexists. split; [exact Hr|]. reflexivity.
Defined.

Lemma execution_takes_effect_once_witness :
  is_ok (_commit core_bundle ex_committed.1 (λ _, None) ex_cycle ex_session ex_now ex_preparation) = false.
Proof.
  apply (execution_takes_effect_once ["run"%string] ex_commands core_bundle (λ _, None) ex_cycle ex_session ex_now ex_preparation ex_committed.1 ex_committed.2 []);
    [exact ex_commit|reflexivity].
Defined.
