(* ===== verification/ExecutionBounds.v ===== *)
(** * Limits of an execution cycle

    The affordability loop ends and finds the largest quantity of its grid that the settled cash pays for; a calendar that holds two
    versions of a session stops every execution cycle. *)
From Stdlib Require Import ZArith Lia Ascii String QArith Lqa.
From stdpp Require Import base list strings numbers sets.
From S2P Require Import Prelude PyDecimal Hashing Domain Text OrderState Settlement ArmState Payload Execution Reconciliation Planning Schedule Cycles CycleStore.
From S2P Require Import CycleLifecycle Q1Records Q1Store TradingRuns TradingOrders RuntimeConfig MarketData ExecutionCycle ExecutionExample.
Set Default Goal Selector "!".
Open Scope Z_scope.

(** ** The affordability loop *)

Section affordable.
Variables (config : Q1ExecutionConfig) (cash price notional_before commission_before : dec).

Notation step := (affordable_step config cash price notional_before commission_before).
Notation cost := (cost_of config price notional_before commission_before).
Notation precision := (xc_quantity_precision config).

(** The quantity that the loop reaches after [i] steps down from [start]. *)
Definition steps_down (start : dec) (i : Z) : dec := Dec (dcoef start - i * dcoef precision) (dexp precision).

Definition affordable (q : dec) : Prop := ∃ c, cost q = Ok c ∧ (dval c <= dval cash)%Q.
Definition too_expensive (q : dec) : Prop := ∃ c, cost q = Ok c ∧ (dval cash < dval c)%Q.

(** The largest quantity of the grid below [start] that the cash pays for, zero when there is none. *)
Inductive largest_affordable (start : dec) : res dec → Prop :=
  | affordable_none : (∀ i, 0 <= i → 0 < dcoef (steps_down start i) → too_expensive (steps_down start i)) → largest_affordable start (Ok d0)
  | affordable_at i : 0 <= i → (0 < dval (steps_down start i))%Q → affordable (steps_down start i) →
      (∀ j, 0 <= j < i → too_expensive (steps_down start j)) → largest_affordable start (Ok (steps_down start i))
  | affordable_raises i e : 0 <= i → cost (steps_down start i) = Raise e → largest_affordable start (Raise e).

Hypothesis Hpos : 0 < dcoef precision.

Hypothesis Hrepr : drepr precision.

Lemma coef_positive d : (d0 <? d)%dec = (0 <? dcoef d).
Proof.
  apply eq_bool_prop_intro. rewrite !Is_true_true, Z.ltb_lt. split.
  - intros Hd. dec_to_Q. apply Z.nle_gt. intros Hc. assert (0 <= dval (dopp d))%Q as Hn by (apply dval_nonneg_coef; cbn; lia).
    rewrite dval_dopp in Hn. lra.
  - intros Hc. unfold dltb. apply negb_true_iff, not_true_iff_false. intros Hle. dec_to_Q. apply (Qle_not_lt _ _ Hle).
    unfold dval. apply Qmult_lt_0_compat; [|apply q10_pos]. unfold Qlt. cbn. lia.
Qed.

Lemma step_down start i :
  drepr start → 0 <= i → 0 < dcoef (steps_down start i) → (steps_down start i - precision)%dec = steps_down start (i + 1).
Proof.
  unfold drepr, repr in *. intros Hr Hi Hc. unfold steps_down in *. cbn in Hc. unfold dsub, dsub_p, at_exp. cbn [dcoef dexp].
  rewrite Z.min_id, Z.sub_diag, Z.pow_0_r, !Z.mul_1_r. rewrite dround_exact; [f_equal; lia|apply prec_pos|]. unfold repr. cbn [dcoef]. nia.
Qed.

(** The loop as a number of steps. *)
Fixpoint steps (n : nat) (q : dec) : dec + res dec :=
  match n with
  | O => inl q
  | S n => match step q with inl q => steps n q | inr r => inr r end
  end.

Lemma steps_app n1 n2 q : steps (n1 + n2) q = match steps n1 q with inl q => steps n2 q | inr r => inr r end.
Proof. revert q. induction n1 as [|n1 IH]; intros q; [done|]. cbn. destruct (step q); [apply IH|done]. Qed.

Lemma iter_steps p q : iter_until p step q = steps (Pos.to_nat p) q.
Proof.
  revert q. induction p as [p IH|p IH|]; intros q.
  - rewrite Pos2Nat.inj_xI. cbn [iter_until]. rewrite <- Nat.add_1_l, steps_app. cbn [steps]. destruct (step q) as [q'|r]; [|done].
    rewrite IH. replace (2 * Pos.to_nat p)%nat with (Pos.to_nat p + Pos.to_nat p)%nat by lia. rewrite steps_app. destruct (steps _ q'); [apply IH|done].
  - rewrite Pos2Nat.inj_xO. cbn [iter_until]. rewrite IH. replace (2 * Pos.to_nat p)%nat with (Pos.to_nat p + Pos.to_nat p)%nat by lia.
    rewrite steps_app. destruct (steps _ q); [apply IH|done].
  - rewrite Pos2Nat.inj_1. cbn [iter_until steps]. by destruct (step q).
Qed.

(** It ends within as many steps as the quantity has units of its last place. *)
Lemma steps_end start : drepr start → ∀ n i, 0 <= i → dcoef (steps_down start i) <= Z.of_nat n →
  (∀ j, 0 <= j < i → too_expensive (steps_down start j)) → ∃ r, steps (S n) (steps_down start i) = inr r ∧ largest_affordable start r.
Proof.
  intros Hr n. induction n as [|n IH]; intros i Hi Hn Hexp; cbn [steps]; unfold affordable_step at 1; rewrite coef_positive;
    destruct (Z.ltb_spec 0 (dcoef (steps_down start i))) as [Hc|Hc]; cbn [negb]; try lia.
  1,3: eexists; split; [reflexivity|]; apply affordable_none; intros j Hj Hcj; apply Hexp; cbn in *; nia.
  destruct (cost (steps_down start i)) as [c|e] eqn:Ec; [|eexists; split; [reflexivity|by eapply affordable_raises]].
  destruct (c <=? cash)%dec eqn:Ele.
  - eexists; split; [reflexivity|]. apply (affordable_at _ i); [done| |exists c; split; [done|by dec_to_Q]|done].
    pose proof (coef_positive (steps_down start i)) as Hp. rewrite (proj2 (Z.ltb_lt _ _) Hc) in Hp. dec_to_Q. done.
  - rewrite step_down by done. apply IH; [lia|cbn in *; lia|]. intros j Hj. destruct (Z.eq_dec j i) as [->|Hne]; [|apply Hexp; lia].
    exists c. split; [done|]. by dec_to_Q.
Qed.

Lemma loop_ends start : drepr start → dexp start = dexp precision →
  ∃ r, iter_until (affordable_fuel start) step start = inr r ∧ largest_affordable start r.
Proof.
  intros Hr He. rewrite iter_steps. unfold affordable_fuel. rewrite <- Z2Nat.inj_pos, Z2Pos.id by lia.
  replace (Z.to_nat (Z.abs (dcoef start) + 1)) with (S (Z.to_nat (Z.abs (dcoef start)))) by lia.
  assert (steps_down start 0 = start) as E by (unfold steps_down; rewrite Z.mul_0_l, Z.sub_0_r, <- He; by destruct start).
  pose proof (steps_end start Hr (Z.to_nat (Z.abs (dcoef start))) 0) as Hs. rewrite E in Hs. apply Hs; lia.
Qed.
End affordable.

(** The quantity that the loop starts from. *)
Definition first_quantity (config : Q1ExecutionConfig) (cash price : dec) : res dec :=
  quotient ← ddiv (dmax d0 (cash - xc_commission_precision config)%dec) (price * (d1 + xc_commission_rate config))%dec;
  dquantize quotient (xc_quantity_precision config) ROUND_DOWN.

(** C14: the affordability loop of a purchase ends, at the price that the fill will have, with the largest quantity, on the grid of the configured
    increment below the first estimate, whose notional and additional commission the settled cash covers, or with zero when there is none; it raises
    only where the price, the estimate or the cost of a quantity does. *)
Theorem affordable_quantity_is_largest config i cash :
  validate_Q1ExecutionConfig config = Ok config → drepr (xc_quantity_precision config) → fi_side i = BUY →
  let result := _maximum_affordable_quantity cash (fi_ask_price i) (fi_cumulative_notional_before i) (fi_cumulative_commission_before i) config in
  match fill_price i config with
  | Raise e => result = Raise e
  | Ok price =>
      match first_quantity config cash price with
      | Raise e => result = Raise e
      | Ok start => largest_affordable config cash price (fi_cumulative_notional_before i) (fi_cumulative_commission_before i) start result
      end
  end.
Proof.
  intros Hcfg Hrepr Hside. unfold fill_price, fill_reference, first_quantity, _maximum_affordable_quantity. rewrite Hside. cbv zeta.
  destruct (ddiv (xc_delay_penalty_bps config) TEN_THOUSAND) as [delay|e]; [|done]. cbn [mbind res_bind].
  destruct (dquantize (fi_ask_price i * (d1 + delay))%dec _ _) as [price|e]; [|done]. cbn [mbind res_bind].
  destruct (ddiv (dmax _ _) _) as [quotient|e]; [|done]. cbn [mbind res_bind].
  destruct (dquantize quotient _ _) as [start|e] eqn:Eq; [|done]. cbn [mbind res_bind].
  assert (0 < dcoef (xc_quantity_precision config)) as Hpos.
  { unfold validate_Q1ExecutionConfig in Hcfg. inv_ok. split_bool. apply Z.ltb_lt. rewrite <- coef_positive. unfold dltb. by apply negb_true_iff. }
  assert (drepr start ∧ dexp start = dexp (xc_quantity_precision config)) as [Hr He].
  { unfold dquantize, dquantize_p in Eq. cbv zeta in Eq. destruct (Z.ltb_spec PREC (ndigits (dcoef (rescale ROUND_DOWN quotient (dexp (xc_quantity_precision config))))));
      [done|]. injection Eq as <-. split; [apply ndigits_le; [apply prec_pos|done]|]. unfold rescale. by destruct (_ <=? _). }
  destruct (loop_ends config cash price (fi_cumulative_notional_before i) (fi_cumulative_commission_before i) Hpos Hrepr start Hr He) as (r & -> & Hl).
  exact Hl.
Qed.

(** ** Revised sessions *)

(** the calendar repository keeps every revision of a session, but an execution cycle reads the dates of all of them, so a session that was
    revised and published twice by the time of the cycle makes the preparation fail, with or without pending orders, for as long as both rows
    are there. *)
Theorem revised_session_stops_execution `{Digest} `{NewYork} bundle schedule code sn cycle calendar now r1 r2 l1 l2 l3 :
  calendar_sessions (strategy (sn_book sn)) = l1 ++ r1 :: l2 ++ r2 :: l3 →
  mcs_calendar_version r1 = vs_calendar_version calendar → mcs_calendar_version r2 = vs_calendar_version calendar →
  mcs_session_date r1 = mcs_session_date r2 →
  instant (mcs_available_at r1) <= instant now → instant (mcs_available_at r2) <= instant now →
  is_ok (prepare bundle schedule code sn cycle calendar now) = false.
Proof.
  intros Es V1 V2 Ed A1 A2. apply not_true_iff_false. intros Hok. unfold is_ok in Hok. destruct (prepare _ _ _ _ _ _ _) as [p|] eqn:Hp; [clear Hok|done].
  unfold prepare in Hp. apply bind_Ok_inv in Hp as (inputs & Hin & Hp).
  assert (in_calendar_dates inputs = calendar_session_dates (sn_book sn) (vs_calendar_version calendar) (_aware now)) as Ei.
  { unfold _read_inputs in Hin. do 2 apply bind_Ok_inv in Hin as (? & _ & Hin). by injection Hin as <-. }
  do 10 apply bind_Ok_inv in Hp as (? & _ & Hp). apply bind_Ok_inv in Hp as (filled & Hf & _). unfold _prepare_fill_mutations in Hf.
  do 2 apply bind_Ok_inv in Hf as (? & _ & Hf). apply bind_Ok_inv in Hf as (bc & Hs%validate_calendar_sorted%increasing_NoDup & _).
  cbn [bc_sessions] in Hs. rewrite Ei in Hs. unfold calendar_session_dates in Hs.
  rewrite sorted_perm, Es, List.filter_app in Hs. cbn [List.filter] in Hs. rewrite List.filter_app in Hs. cbn [List.filter] in Hs.
  unfold dt_le in Hs. cbn [instant _aware] in Hs. rewrite V1, V2, String.eqb_refl, !(proj2 (Z.leb_le _ _)) in Hs by done. cbn [andb] in Hs.
  rewrite map_app in Hs. cbn in Hs. rewrite map_app in Hs. cbn in Hs. apply NoDup_app in Hs as (_ & _ & Hs). apply NoDup_cons in Hs as [Hs _].
  apply Hs, elem_of_app. right. rewrite Ed. left.
Qed.

(** ** Concrete limits *)

#[local] Existing Instance rolling_digest.
#[local] Existing Instance ex_new_york.

(** With 100.05 dollars, and one cent set aside, one share at 99.99 dollars cannot be paid together with its commission of ten cents. *)
Definition ex_purchase : FillInputs := {|
  fi_side := BUY; fi_remaining_quantity := Dec 1 0; fi_bid_price := Dec 9997 (-2); fi_ask_price := Dec 9998 (-2);
  fi_executable_side_quantity := Dec 100 0; fi_remaining_adv_capacity := Dec 100 0; fi_decision_reference_price := Dec 100 0;
  fi_decision_spread_bps := d1; fi_cumulative_notional_before := d0; fi_cumulative_commission_before := d0 |}.
Definition ex_limit : dec := Eval vm_compute in
  match _maximum_affordable_quantity (Dec 10005 (-2)) (Dec 9998 (-2)) d0 d0 core_execution_config with Ok q => q | Raise _ => d0 end.

Lemma affordable_quantity_is_largest_witness :
  (0 < dval ex_limit < 1)%Q ∧ ∃ start, largest_affordable core_execution_config (Dec 10005 (-2)) (Dec 999900 (-4)) d0 d0 start (Ok ex_limit).
Proof.
  split; [split; vm_compute; reflexivity|].
  pose proof (affordable_quantity_is_largest core_execution_config ex_purchase (Dec 10005 (-2)) ltac:(vm_compute; reflexivity) ltac:(vm_compute; reflexivity)
    eq_refl) as Hl. cbv zeta in Hl.
  replace (_maximum_affordable_quantity (Dec 10005 (-2)) (fi_ask_price ex_purchase) (fi_cumulative_notional_before ex_purchase)
    (fi_cumulative_commission_before ex_purchase) core_execution_config) with (Ok ex_limit) in Hl by (vm_compute; reflexivity).
  replace (fill_price ex_purchase core_execution_config) with (Ok (Dec 999900 (-4))) in Hl by (vm_compute; reflexivity). 
  destruct (first_quantity _ _ _) as [start|e] eqn:Es; [exists start; exact Hl|discriminate Hl].
Defined.

(** The open of the session is moved by a minute: the repository accepts the revision, and no cycle executes any more. *)
Definition ex_revision : MarketCalendarSession := {|
  mcs_calendar_session_id := "session-2"; mcs_calendar_version := "v1"; mcs_session_date := 20000; mcs_open_at := utc (instant (ex_at 15) + 60000000);
  mcs_close_at := ex_at 18; mcs_source := "alpaca"; mcs_available_at := ex_at 0; mcs_session_hash := "revised"; mcs_created_at := ex_at 0;
  mcs_versioned := mcs_versioned (ex_calendar_row 20000 "session") |}.
Definition ex_revised : q1_store := Eval vm_compute in
  match CalendarSessions.append ex_store ex_revision with Ok (s, _) => s | Raise _ => ex_store end.

Lemma revised_session_stops_execution_witness :
  length (calendar_sessions (strategy ex_revised)) = 3%nat ∧
  is_ok (prepare core_bundle ex_execution_schedule "code"
    {| sn_book := ex_revised; sn_market_status := ex_market; sn_fills := λ _, ex_revised; sn_market := λ _, ex_market |} ex_cycle ex_session ex_now) = false.
Proof.
  split; [reflexivity|].
  apply (revised_session_stops_execution _ _ _ _ _ _ _ (ex_calendar_row 20000 "session") ex_revision [] [ex_calendar_row 20001 "c-1"] []);
    [reflexivity|reflexivity|reflexivity|reflexivity|vm_compute; discriminate|vm_compute; discriminate].
Defined.
