(* ===== verification/MarketSafety.v ===== *)
(** * What the daily inputs contain

    The aligned daily series hold no bar of the current session or from after the cutoff, they all cover exactly the same sessions, and these
    end at the latest completed one. *)
From Stdlib Require Import ZArith Lia Ascii String Sorting.Sorted.
From stdpp Require Import base list strings numbers sets.
From S2P Require Import Prelude PyDecimal Hashing Domain Text Payload Schedule Cycles CycleStore MarketData.
Set Default Goal Selector "!".
Open Scope Z_scope.

Section facts.
Context `{NewYork}.
Variable m : market_store.

(** A stored bar that a decision before the current session may use. *)
Record usable_bar (symbol : string) (current_session_date : date) (cutoff : datetime) (dataset_version : string) (r : MarketBarRow) : Prop := {
  ub_stored : r ∈ bars m;
  ub_stream : mb_provider r = PROVIDER ∧ mb_feed r = FEED ∧ mb_symbol r = symbol ∧ mb_timeframe r = "1Day"%string;
  ub_time : instant (mb_event_time r) <= instant cutoff ∧ instant (mb_available_at r) <= instant cutoff;
  ub_completed : session_date_of r < current_session_date;
  ub_adjusted : payload_is r "_adjustment" "all" = true ∧ payload_is r "_dataset_version" dataset_version = true;
}.

Definition series_of (symbol : string) (rows : list MarketBarRow) : CompletedDailySeries := {|
  cd_symbol := symbol; cd_session_dates := map session_date_of rows; cd_adjusted_closes := map mb_close rows; cd_volumes := map mb_volume rows;
  cd_bar_ids := map mb_bar_id rows; cd_event_times := map (λ r, _aware (mb_event_time r)) rows;
  cd_available_ats := map (λ r, _aware (mb_available_at r)) rows; cd_payload_hashes := map mb_payload_hash rows |}.

Lemma latest_bars_spec provider feed symbol timeframe as_of limit rows r :
  latest_bars m provider feed symbol timeframe as_of limit = Ok rows → r ∈ rows →
  r ∈ bars m ∧ bar_visible provider feed symbol timeframe as_of r = true.
Proof.
  unfold latest_bars. intros Hl Hr. apply bind_Ok_inv in Hl as (c & ->%aware_ok & [= <-]). rewrite list_elem_of_In, <- in_rev, <- list_elem_of_In in Hr.
  apply elem_of_take in Hr as (i & Hr%list_elem_of_lookup_2 & _). apply elem_of_sorted, elem_of_filterb in Hr as [_ Hr]. by apply elem_of_filterb in Hr as [? ?].
Qed.

(** ** One series *)

Lemma date_set_elem d r l k x : (k, x) ∈ date_set d r l → (k = d ∧ x = r) ∨ (k, x) ∈ l.
Proof.
  induction l as [|[k' r'] l IH]; cbn; [by intros [= -> ->]%list_elem_of_singleton; left|]. destruct (Z.eqb_spec k' d) as [->|].
  - intros [[= -> ->]|Hin]%elem_of_cons; [by left|]. right. by right.
  - intros [[= -> ->]|Hin]%elem_of_cons; [right; left|]. destruct (IH Hin) as [?|?]; [by left|]. right. by right.
Qed.

Lemma completed_series_spec symbol current cutoff limit dataset s :
  _completed_series m symbol current cutoff limit dataset = Ok s →
  ∃ rows, s = series_of symbol rows ∧ Forall (usable_bar symbol current cutoff dataset) rows ∧ StronglySorted Z.lt (map session_date_of rows).
Proof.
  unfold _completed_series. intros Hs. apply bind_Ok_inv in Hs as (rows & Hl & Hs). apply bind_Ok_inv in Hs as (by_date & Hf & Hs).
  assert (∀ k r, (k, r) ∈ by_date → k = session_date_of r ∧ usable_bar symbol current cutoff dataset r) as Hgood.
  { revert Hf. apply (foldM_invariant (λ d, ∀ k r, (k, r) ∈ d → k = session_date_of r ∧ usable_bar symbol current cutoff dataset r)).
    - intros d row d' Hrow IH Hc. unfold collect_bar in Hc. destruct (Z.leb_spec current (session_date_of row)) as [|Hlt]; [by injection Hc as <-|].
      apply bind_Ok_inv in Hc as ([] & _ & Hc). apply bind_Ok_inv in Hc as ([] & Hp%raise_if_Ok_inv & Hc). apply bind_Ok_inv in Hc as ([] & _ & [= <-]).
      apply orb_false_iff in Hp as [Hp1%negb_false_iff Hp2%negb_false_iff]. intros k r [[-> ->]|Hin]%date_set_elem; [|by apply IH]. split; [done|].
      destruct (latest_bars_spec _ _ _ _ _ _ _ _ Hl Hrow) as [Hb Hv]. unfold bar_visible, dt_le in Hv. split_bool.
      repeat match goal with E : String.eqb _ _ = true |- _ => apply String.eqb_eq in E end. split; try done. lia.
    - by intros k r ?%not_elem_of_nil. }
  apply bind_Ok_inv in Hs as ([] & _ & Hs). apply bind_Ok_inv in Hs as ([] & _ & Hs). unfold validate_CompletedDailySeries in Hs.
  do 3 apply bind_Ok_inv in Hs as (? & _ & Hs). apply bind_Ok_inv in Hs as ([] & Hn%raise_if_Ok_inv%negb_false_iff%bool_decide_eq_true & [= <-]).
  exists (map snd (sorted date_le by_date)). split; [done|]. cbn [cd_session_dates] in Hn.
  assert (map session_date_of (map snd (sorted date_le by_date)) = map fst (sorted date_le by_date)) as Ek.
  { rewrite map_map. apply map_ext_in. intros [k r] Hin%list_elem_of_In%elem_of_sorted. by destruct (Hgood k r Hin) as [-> _]. }
  split.
  - apply Forall_forall. intros r ([k r'] & -> & Hin%elem_of_sorted)%list_elem_of_fmap. by apply (Hgood k r').
  - rewrite Ek. apply (sorted_keys fst). rewrite <- (sorted_perm date_le), <- Ek. exact Hn.
Qed.

(** ** Aligned series *)

Lemma select_map {A} (f : MarketBarRow → A) selected rows :
  select (map session_date_of rows) selected (map f rows) = map f (List.filter (λ r, existsb (Z.eqb (session_date_of r)) selected) rows).
Proof. unfold select. induction rows as [|r rows IH]; cbn; [done|]. destruct (existsb _ _); cbn; by rewrite IH. Qed.

Lemma map_date_filter selected rows :
  map session_date_of (List.filter (λ r, existsb (Z.eqb (session_date_of r)) selected) rows)
  = List.filter (λ d, existsb (Z.eqb d) selected) (map session_date_of rows).
Proof. induction rows as [|r rows IH]; cbn; [done|]. destruct (existsb _ _); cbn; by rewrite IH. Qed.

Lemma existsb_Zeqb d l : existsb (Z.eqb d) l = true ↔ d ∈ l.
Proof. rewrite existsb_exists, list_elem_of_In. split; [by intros (x & Hx & ->%Z.eqb_eq)|]. intros Hd. exists d. split; [done|apply Z.eqb_refl]. Qed.

(** Selecting sessions that the series has keeps exactly these. *)
Lemma select_dates_spec symbol rows selected s :
  StronglySorted Z.lt (map session_date_of rows) → StronglySorted Z.lt selected → (∀ d, d ∈ selected → d ∈ map session_date_of rows) →
  _select_dates (series_of symbol rows) selected = Ok s →
  ∃ rows', s = series_of symbol rows' ∧ (∀ r, r ∈ rows' → r ∈ rows) ∧ map session_date_of rows' = selected.
Proof.
  intros Hrows Hsel Hin Hs. unfold _select_dates, validate_CompletedDailySeries in Hs. do 4 apply bind_Ok_inv in Hs as (? & _ & Hs). injection Hs as <-.
  exists (List.filter (λ r, existsb (Z.eqb (session_date_of r)) selected) rows). split; [cbn; by rewrite !select_map|]. split; [by intros r [_ ?]%elem_of_filterb|].
  rewrite map_date_filter. apply increasing_unique; [by apply increasing_filter|done|]. intros d. rewrite elem_of_filterb, existsb_Zeqb. naive_solver.
Qed.

Lemma common_dates_spec loaded :
  (∀ kv, kv ∈ loaded → StronglySorted Z.lt (cd_session_dates kv.2)) →
  StronglySorted Z.lt (common_dates loaded) ∧ ∀ d, d ∈ common_dates loaded → ∀ kv, kv ∈ loaded → d ∈ cd_session_dates kv.2.
Proof.
  unfold common_dates. intros Hl. destruct loaded as [|kv loaded]; cbn; [split; [constructor|by intros d ?%not_elem_of_nil]|].
  assert (StronglySorted Z.lt (cd_session_dates kv.2)) as Hk by (apply Hl; left). split.
  - by apply sorted_increasing, increasing_NoDup, increasing_filter.
  - intros d [Hall Hd]%elem_of_sorted%elem_of_filterb kv' [->|Hkv]%elem_of_cons; [done|]. rewrite forallb_forall in Hall.
    apply existsb_Zeqb, Hall, list_elem_of_In. by apply list_elem_of_fmap_2.
Qed.

Lemma last_n_elem {A} n (l : list A) x : x ∈ last_n n l → x ∈ l.
Proof. unfold last_n. intros Hx. rewrite <- (firstn_skipn (length l - Z.to_nat n) l). apply elem_of_app. by right. Qed.

Lemma last_n_length {A} n (l : list A) : 0 <= n <= Z.of_nat (length l) → Z.of_nat (length (last_n n l)) = n.
Proof. unfold last_n. rewrite length_skipn. lia. Qed.

Lemma last_n_last {A} n (l : list A) : 0 < n → last (last_n n l) = last l.
Proof.
  intros Hn. unfold last_n. destruct l as [|x l _] using rev_ind; [by rewrite skipn_nil|]. rewrite length_app. cbn.
  rewrite skipn_app. replace (length l + 1 - Z.to_nat n - length l)%nat with 0%nat by lia. cbn. by rewrite !last_snoc.
Qed.

Lemma hd_rev_last {A} (l : list A) : List.hd_error (rev l) = last l.
Proof. destruct l as [|x l _] using rev_ind; [done|]. by rewrite rev_app_distr, last_snoc. Qed.
End facts.

(** C8: the daily inputs of a decision do not look ahead and are aligned: every symbol's series is made of stored, adjusted daily bars of that symbol
    that took place and became available by the cutoff, in sessions before the current one; all series cover exactly the same sessions in increasing
    order, as many as required, and the last one is the latest completed session. *)
Theorem aligned_inputs_do_not_look_ahead `{NewYork} m symbols current latest cutoff minimum limit dataset inputs :
  aligned_completed_daily_inputs m symbols current latest cutoff minimum limit dataset = Ok inputs →
  StronglySorted Z.lt (ad_session_dates inputs) ∧ Z.of_nat (length (ad_session_dates inputs)) = minimum ∧ last (ad_session_dates inputs) = Some latest ∧
  (∀ symbol, symbol ∈ symbols ↔ symbol ∈ map fst (ad_series inputs)) ∧
  ∀ symbol s, (symbol, s) ∈ ad_series inputs → ∃ rows, s = series_of symbol rows ∧ map session_date_of rows = ad_session_dates inputs ∧
    Forall (usable_bar m symbol current cutoff dataset) rows.
Proof.
  unfold aligned_completed_daily_inputs. intros Ha. apply bind_Ok_inv in Ha as ([] & _ & Ha). apply bind_Ok_inv in Ha as ([] & Hmin%raise_if_Ok_inv & Ha).
  apply bind_Ok_inv in Ha as ([] & _ & Ha). apply bind_Ok_inv in Ha as (c & ->%aware_ok & Ha). apply bind_Ok_inv in Ha as (pairs & Hp%mapM_res_Forall2 & Ha).
  set (loaded := dict_of_pairs pairs) in *. apply bind_Ok_inv in Ha as ([] & Hlen%raise_if_Ok_inv & Ha).
  apply bind_Ok_inv in Ha as ([] & Hlast%raise_if_Ok_inv%negb_false_iff%bool_decide_eq_true & Ha). apply bind_Ok_inv in Ha as ([] & _ & Ha).
  apply bind_Ok_inv in Ha as (aligned & Hal%mapM_res_Forall2 & [= <-]). cbn [ad_session_dates ad_series].
  assert (∀ kv, kv ∈ loaded → ∃ rows, kv.2 = series_of kv.1 rows ∧ Forall (usable_bar m kv.1 current cutoff dataset) rows
    ∧ StronglySorted Z.lt (map session_date_of rows)) as Hloaded.
  { intros [k s] Hkv. apply (dget_elem k) in Hkv; [|apply dict_of_pairs_NoDup]. apply dict_of_pairs_elem in Hkv.
    apply list_elem_of_lookup in Hkv as [n Hn]. destruct (Forall2_lookup_r _ _ _ _ _ Hp Hn) as (symbol & _ & Hs).
    apply bind_Ok_inv in Hs as (s' & Hs & [= <- <-]). by apply completed_series_spec in Hs. }
  destruct (common_dates_spec loaded) as [Hinc Hcommon].
  { intros kv (rows & -> & _ & Hr)%Hloaded. exact Hr. }
  set (selected := last_n minimum (common_dates loaded)) in *.
  assert (StronglySorted Z.lt selected) as Hsel by (by apply increasing_skipn). split; [done|].
  split; [apply last_n_length; lia|]. split; [unfold selected; rewrite last_n_last by lia; by rewrite <- hd_rev_last|].
  assert (map fst aligned = map fst loaded) as Ek.
  { clear - Hal. induction Hal as [|kv kv' l l' Hkv _ IH]; cbn; [done|]. apply bind_Ok_inv in Hkv as (s & _ & [= <-]). by rewrite IH. }
  split.
  - intros symbol. rewrite Ek. unfold loaded. rewrite dict_of_pairs_keys.
    assert (map fst pairs = symbols) as ->; [|done]. clear - Hp. induction Hp as [|k kv l l' Hkv _ IH]; cbn; [done|].
    apply bind_Ok_inv in Hkv as (s & _ & [= <-]). by rewrite IH.
  - intros symbol s Hin. apply list_elem_of_lookup in Hin as [n Hn]. destruct (Forall2_lookup_r _ _ _ _ _ Hal Hn) as (kv & Hkv%list_elem_of_lookup_2 & Hs).
    apply bind_Ok_inv in Hs as (s' & Hs & [= <- <-]). destruct (Hloaded _ Hkv) as (rows & E & Hu & Hr). rewrite E in Hs.
    apply select_dates_spec in Hs as (rows' & -> & Hsub & Hd); [|done|done|].
    + exists rows'. split; [done|]. split; [done|]. rewrite Forall_forall in *. intros r Hr'. by apply Hu, Hsub.
    + intros d Hd%last_n_elem. specialize (Hcommon d Hd _ Hkv). by rewrite E in Hcommon.
Qed.

(** ** Concrete inputs *)

#[local] Existing Instance ex_new_york.

Definition ex_daily (symbol : string) (n : Z) : MarketBarRow := {|
  mb_bar_id := String.append symbol (string_of_Z n); mb_provider := PROVIDER; mb_feed := FEED; mb_symbol := symbol; mb_timeframe := "1Day";
  mb_event_time := ex_at (6 - 24 * n); mb_provider_timestamp := string_of_Z n; mb_available_at := ex_at (6 - 24 * n); mb_ingested_at := ex_at 0;
  mb_source_kind := "REST"; mb_open := Dec 100 0; mb_high := Dec 100 0; mb_low := Dec 100 0; mb_close := Dec 100 0; mb_volume := Dec 1000 0;
  mb_vwap := None; mb_trade_count := 1; mb_request_id := None; mb_payload_hash := "b"; mb_raw_object_uri := None;
  mb_payload_json := [("_adjustment", PStr "all"); ("_dataset_version", PStr "v")] |}.
(** SOXX has one more session in its history, and both have a bar of the current session. *)
Definition ex_daily_market : market_store := {|
  bars := [ex_daily "QQQ" 0; ex_daily "QQQ" 1; ex_daily "QQQ" 2; ex_daily "SOXX" 2; ex_daily "SOXX" 0; ex_daily "SOXX" 1; ex_daily "SOXX" 3];
  quotes := []; trades := []; statuses := [] |}.
Definition no_inputs : AlignedDailyInputs := {| ad_session_dates := []; ad_series := []; ad_source_bar_ids := []; ad_signal_data_cutoff := ex_at 0 |}.
Definition ex_aligned : AlignedDailyInputs := Eval vm_compute in
  match aligned_completed_daily_inputs ex_daily_market ["SOXX"; "QQQ"] 20000 19999 (ex_at 15) 2 9 "v" with Ok i => i | Raise _ => no_inputs end.

Lemma ex_aligned_ok : aligned_completed_daily_inputs ex_daily_market ["SOXX"; "QQQ"] 20000 19999 (ex_at 15) 2 9 "v" = Ok ex_aligned.
Proof. vm_compute. reflexivity. Qed.

Lemma aligned_inputs_do_not_look_ahead_witness : ad_session_dates ex_aligned = [19998; 19999] ∧ Forall (λ d, d < 20000) (ad_session_dates ex_aligned).
Proof.
  split; [reflexivity|].
  destruct (aligned_inputs_do_not_look_ahead _ _ _ _ _ _ _ _ _ ex_aligned_ok)
    as (_ & _ & _ & Hk & Hs).
  destruct (proj1 (list_elem_of_fmap fst (ad_series ex_aligned) "QQQ"%string) (proj1 (Hk "QQQ"%string) ltac:(right; left))) as ([k s] & _ & Hin).
  destruct (Hs k s Hin) as (rows & _ & <- & Hu). apply Forall_forall. intros d (r & -> & Hr)%list_elem_of_fmap.
  exact (ub_completed _ _ _ _ _ _ (proj1 (Forall_forall _ _) Hu r Hr)).
Defined.
