(* ===== verification/MatchedSafety.v ===== *)
(** * What the evaluation reports

    Matched attribution is a function of the returns on the sessions both arms have; performance metrics stay within their
    ranges, and the maximum drawdown is zero exactly when the wealth never falls. *)
From Stdlib Require Import ZArith Lia Ascii String QArith Lqa Sorting.Sorted.
From stdpp Require Import base list strings numbers sets.
From S2P Require Import Prelude PyDecimal Hashing DecimalMath Domain Q1Records PyRandom MatchedEvaluation.
Set Default Goal Selector "!".
Open Scope Z_scope.

(** ** Matched attribution *)

(** The observations of one arm: no others, and one per session. *)
Record one_arm (arm : Q1ArmId) (l : list DailyEvaluationObservation) : Prop := {
  oa_arm : Forall (λ o, ob_arm_id o = arm) l;
  oa_sessions : NoDup (map ob_session_date l);
}.

(** The sessions both arms have, with the two returns. *)
Definition paired (left right : list DailyEvaluationObservation) (d : date) (x y : dec) : Prop :=
  ∃ l r, l ∈ left ∧ r ∈ right ∧ ob_session_date l = d ∧ ob_session_date r = d ∧ ob_net_daily_return l = x ∧ ob_net_daily_return r = y.

Definition by_session (l : list DailyEvaluationObservation) : list (date * DailyEvaluationObservation) := map (λ o, (ob_session_date o, o)) l.

Lemma by_session_keys l : (by_session l).*1 = map ob_session_date l.
Proof. unfold by_session. rewrite <- list_fmap_compose. done. Qed.

Lemma observed_spec l d o : NoDup (map ob_session_date l) → observed d (by_session l) = Some o ↔ o ∈ l ∧ ob_session_date o = d.
Proof.
  unfold observed. induction l as [|o' l IH]; cbn; [intros; split; [done|intros [?%not_elem_of_nil ?]; done]|].
  intros [Hn Hl]%NoDup_cons. destruct (Z.eqb_spec (ob_session_date o') d) as [E|E]; cbn.
  - split; [intros [= <-]; split; [left|done]|]. intros [[->|Ho]%elem_of_cons Ed]; [done|]. destruct Hn.
    apply list_elem_of_In, in_map_iff. exists o. split; [congruence|by apply list_elem_of_In].
  - rewrite IH by done. split; [intros [? ?]; split; [by right|done]|]. by intros [[->|?]%elem_of_cons ?].
Qed.

Lemma observed_is_Some l d : is_Some (observed d (by_session l)) ↔ d ∈ map ob_session_date l.
Proof.
  unfold observed. induction l as [|o l IH]; cbn; [split; [by intros [? ?]|by intros ?%not_elem_of_nil]|].
  rewrite elem_of_cons. destruct (Z.eqb_spec (ob_session_date o) d) as [->|E]; cbn.
  - split; [by left|by eexists].
  - rewrite IH. split; [by right|]. by intros [->|?].
Qed.

Lemma unique_from arm done_ l :
  NoDup (map ob_session_date (done_ ++ l)) → Forall (λ o, ob_arm_id o = arm) l →
  foldM (add_observation arm) (by_session done_) l = Ok (by_session (done_ ++ l)).
Proof.
  revert done_. induction l as [|o l IH]; intros done_ Hn Ha; cbn; [by rewrite app_nil_r|]. apply Forall_cons in Ha as [Ho Ha].
  unfold add_observation. rewrite (bool_decide_eq_true_2 (ob_arm_id o = arm)) by done. cbn. rewrite bool_decide_eq_false_2.
  - cbn. specialize (IH (done_ ++ [o])). unfold by_session in IH |- *. rewrite !map_app, <- !app_assoc in IH. cbn in IH. rewrite map_app. by apply IH; [rewrite map_app in Hn; cbn in Hn|].
  - rewrite observed_is_Some. intros Hd. rewrite map_app in Hn. apply NoDup_app in Hn as (_ & Hn & _). apply (Hn _ Hd). cbn. left.
Qed.

(** The observations are accepted exactly when they are of the one arm and one per session. *)
Lemma unique_by_session_spec arm l d : _unique_by_session l arm = Ok d ↔ one_arm arm l ∧ d = by_session l.
Proof.
  split.
  - intros Hf. assert (∀ done_ e, foldM (add_observation arm) (by_session done_) l = Ok e → NoDup (map ob_session_date done_) →
      Forall (λ o, ob_arm_id o = arm) l ∧ NoDup (map ob_session_date (done_ ++ l)) ∧ e = by_session (done_ ++ l)) as Hgen.
    { clear d Hf. induction l as [|o l IH]; intros done_ e; cbn; [intros [= <-]; rewrite app_nil_r; split; [constructor|done]|].
      intros Hf Hn. apply bind_Ok_inv in Hf as (d & Ha & Hf). unfold add_observation in Ha. apply bind_Ok_inv in Ha as ([] & Ha%raise_if_Ok_inv & Hd).
      apply negb_false_iff, bool_decide_eq_true in Ha. apply bind_Ok_inv in Hd as ([] & Hd%raise_if_Ok_inv & [= <-]). apply bool_decide_eq_false in Hd.
      rewrite observed_is_Some in Hd. replace (by_session done_ ++ [(ob_session_date o, o)]) with (by_session (done_ ++ [o])) in Hf by (unfold by_session; by rewrite map_app).
      apply IH in Hf as (Hl & Hn' & ->); [rewrite <- app_assoc in Hn' |- *; cbn in *; split; [by constructor|done]|].
      rewrite map_app. apply NoDup_app. split; [done|]. split; [|apply NoDup_singleton]. by intros x Hx ->%list_elem_of_singleton. }
    destruct (Hgen [] d Hf (NoDup_nil_2)) as (? & ? & ->). done.
  - intros [[Ha Hn] ->]. by apply (unique_from arm []).
Qed.

Lemma common_sessions_increasing l r : NoDup (map ob_session_date l) → StronglySorted Z.lt (common_sessions (by_session l) (by_session r)).
Proof.
  intros Hl. unfold common_sessions. apply sorted_increasing. rewrite by_session_keys. apply NoDup_ListNoDup, List.NoDup_filter, NoDup_ListNoDup, Hl.
Qed.

Lemma elem_of_common l r d : d ∈ common_sessions (by_session l) (by_session r) ↔ d ∈ map ob_session_date l ∧ d ∈ map ob_session_date r.
Proof.
  unfold common_sessions. rewrite elem_of_sorted, elem_of_filterb, by_session_keys, bool_decide_eq_true, observed_is_Some. tauto.
Qed.

Lemma mapM_res_ext {A B} (f g : A → res B) l : (∀ x, x ∈ l → f x = g x) → mapM_res f l = mapM_res g l.
Proof.
  induction l as [|x l IH]; intros He; [done|]. cbn. rewrite (He x) by left. destruct (g x) as [y|]; cbn; [|done].
  rewrite IH; [done|]. intros x' Hx. apply He. by right.
Qed.

Lemma dquantize_nonneg p d q r a : (0 <= dval d)%Q → dquantize_p p d q r = Ok a → (0 <= dval a)%Q.
Proof.
  intros Hd. unfold dquantize_p. destruct (p <? _); [done|]. intros [= <-]. apply dval_nonneg_coef in Hd. apply dval_nonneg_coef.
  unfold rescale. destruct (dexp q <=? dexp d) eqn:E; cbn [dcoef].
  - unfold at_exp. pose proof (Z.pow_nonneg 10 (dexp d - dexp q)). nia.
  - apply Z.leb_gt in E. unfold round_coef. pose proof (Z.pow_pos_nonneg 10 (dexp q - dexp d)).
    destruct (quot_near_bound (Z.abs (dcoef d)) (10 ^ (dexp q - dexp d)) (round_mag r (Z.abs (dcoef d)) (dexp q - dexp d))); [lia|lia| |].
    + apply round_mag_near; lia.
    + nia.
Qed.

Section matched.
Context `{DecimalMath, Digest, PyRandom}.
Context (comparison : MatchedComparison) (config : EvaluationConfig).
Implicit Types left right : list DailyEvaluationObservation.

Definition is_left (l : list DailyEvaluationObservation) : Prop := one_arm (_MATCHED_ARMS comparison).1 l.
Definition is_right (l : list DailyEvaluationObservation) : Prop := one_arm (_MATCHED_ARMS comparison).2 l.

Lemma session_return_ok l d : NoDup (map ob_session_date l) → ∀ x, session_return (by_session l) d = Ok x ↔ ∃ o, o ∈ l ∧ ob_session_date o = d ∧ ob_net_daily_return o = x.
Proof.
  intros Hn x. unfold session_return. destruct (observed d (by_session l)) as [o|] eqn:E.
  - apply observed_spec in E as [Ho Hd]; [|done]. split; [intros [= <-]; eauto|]. intros (o' & Ho' & Hd' & <-).
    assert (observed d (by_session l) = Some o) as E by by apply observed_spec. assert (observed d (by_session l) = Some o') as E' by by apply observed_spec. congruence.
  - split; [done|]. intros (o & Ho & Hd & _). assert (observed d (by_session l) = Some o) by by apply observed_spec. congruence.
Qed.

Lemma paired_common left right d :
  d ∈ map ob_session_date left ∧ d ∈ map ob_session_date right ↔ ∃ x y, paired left right d x y.
Proof.
  split.
  - intros [Hl Hr]. apply list_elem_of_In, in_map_iff in Hl as (l & Hl & Hil), Hr as (r & Hr & Hir). apply list_elem_of_In in Hil, Hir.
    exists (ob_net_daily_return l), (ob_net_daily_return r), l, r. done.
  - intros (x & y & l & r & Hl & Hr & <- & Hd & _). split.
    + by apply list_elem_of_In, in_map, list_elem_of_In.
    + rewrite <- Hd. by apply list_elem_of_In, in_map, list_elem_of_In.
Qed.

(** One difference, from the two returns of its session. *)
Lemma daily_difference_paired left right d x y :
  is_left left → is_right right → paired left right d x y →
  daily_difference config (by_session left) (by_session right) d = _result_value (x - y)%dec config.
Proof.
  intros [_ Hl] [_ Hr] (l & r & Hil & Hir & Hdl & Hdr & Hx & Hy). unfold daily_difference.
  assert (session_return (by_session left) d = Ok x) as -> by (apply session_return_ok; eauto).
  by assert (session_return (by_session right) d = Ok y) as -> by (apply session_return_ok; eauto).
Qed.

(** C11: only the returns of the common sessions matter: not the sessions that one arm has alone, not the order of the rows and
    none of the other columns. *)
Theorem matched_attribution_of_common_sessions left right left' right' :
  is_left left → is_left left' → is_right right → is_right right' →
  (∀ d x y, paired left right d x y ↔ paired left' right' d x y) →
  evaluate_matched_attribution comparison left right config = evaluate_matched_attribution comparison left' right' config.
Proof.
  intros Hl Hl' Hr Hr' Hp. unfold evaluate_matched_attribution. destruct (_MATCHED_ARMS comparison) as [al ar] eqn:Ha.
  assert (∀ arm l, one_arm arm l → _unique_by_session l arm = Ok (by_session l)) as Hu by (intros; by apply unique_by_session_spec).
  unfold is_left, is_right in *. rewrite Ha in *. cbn in *. rewrite !Hu by done. cbn.
  assert (common_sessions (by_session left) (by_session right) = common_sessions (by_session left') (by_session right')) as Hc.
  { apply increasing_unique; [apply common_sessions_increasing, Hl|apply common_sessions_increasing, Hl'|]. intros d.
    rewrite !elem_of_common, !paired_common. by setoid_rewrite Hp. }
  assert (mapM_res (daily_difference config (by_session left) (by_session right)) (common_sessions (by_session left) (by_session right))
    = mapM_res (daily_difference config (by_session left') (by_session right')) (common_sessions (by_session left') (by_session right'))) as Hd.
  { rewrite <- Hc. apply mapM_res_ext. intros d (x & y & Hxy)%elem_of_common%paired_common.
    rewrite (daily_difference_paired left right d x y) by (try done; unfold is_left, is_right; by rewrite Ha).
    rewrite (daily_difference_paired left' right' d x y); [done|..]; try (unfold is_left, is_right; by rewrite Ha). by apply Hp. }
  by rewrite Hd, Hc.
Qed.

(** The daily differences, one per common session. *)
Definition difference_of left right (d : date) (x : dec) : Prop :=
  ∃ l r, l ∈ left ∧ r ∈ right ∧ ob_session_date l = d ∧ ob_session_date r = d ∧
    _result_value (ob_net_daily_return l - ob_net_daily_return r)%dec config = Ok x.

Lemma standard_error_nonneg values lag r : _newey_west_standard_error values lag = Ok r → (0 <= dval r)%Q.
Proof.
  unfold _newey_west_standard_error. intros Hr. apply bind_Ok_inv in Hr as (? & _ & Hr). do 4 apply bind_Ok_inv in Hr as (? & _ & Hr).
  by apply (dsqrt_nonneg PREC) in Hr.
Qed.

(** C13: what an attribution says: it compares two arms of one observation per session, over exactly the sessions both have, in
    order, by their rounded differences; its standard error is not negative; a review for promotion needs the configured
    number of sessions, never less than 126, and stays manual. *)
Theorem matched_attribution_exact left right m :
  is_ok (validate_EvaluationConfig config) = true →
  evaluate_matched_attribution comparison left right config = Ok m →
  is_left left ∧ is_right right
  ∧ StronglySorted Z.lt (ma_common_session_dates m)
  ∧ (∀ d, d ∈ ma_common_session_dates m ↔ d ∈ map ob_session_date left ∧ d ∈ map ob_session_date right)
  ∧ Forall2 (difference_of left right) (ma_common_session_dates m) (ma_daily_differences m)
  ∧ ma_common_valid_sessions m = Z.of_nat (length (ma_daily_differences m)) ∧ 0 < ma_common_valid_sessions m
  ∧ (0 <= dval (ma_newey_west_standard_error m))%Q
  ∧ (ma_eligible_for_manual_promotion_review m = true ↔ ev_promotion_min_common_sessions config <= ma_common_valid_sessions m)
  ∧ (ma_eligible_for_manual_promotion_review m = true → 126 <= ma_common_valid_sessions m)
  ∧ ma_promotion_is_manual m = true ∧ ma_claims_statistical_significance m = false ∧ ma_claims_profitability m = false.
Proof.
  intros Hv He. unfold evaluate_matched_attribution in He. unfold is_left, is_right. destruct (_MATCHED_ARMS comparison) as [al ar]. cbn.
  apply bind_Ok_inv in He as (dl & [Hl ->]%unique_by_session_spec & He). apply bind_Ok_inv in He as (dr & [Hr ->]%unique_by_session_spec & He).
  apply bind_Ok_inv in He as (? & Hne%raise_if_Ok_inv%bool_decide_eq_false & He). apply bind_Ok_inv in He as (ds & Hds & He).
  apply mapM_res_Forall2 in Hds. pose proof (Forall2_length _ _ _ Hds) as Hlen.
  do 3 apply bind_Ok_inv in He as (? & _ & He). apply bind_Ok_inv in He as (se & Hse & He). apply bind_Ok_inv in He as (nw & Hnw & He).
  do 4 apply bind_Ok_inv in He as (? & _ & He). injection He as <-. cbn [ma_common_session_dates ma_daily_differences ma_common_valid_sessions ma_newey_west_standard_error
    ma_eligible_for_manual_promotion_review ma_promotion_is_manual ma_claims_statistical_significance ma_claims_profitability]. rewrite Hlen.
  assert (126 <= ev_promotion_min_common_sessions config) as H126.
  { destruct (validate_EvaluationConfig config) as [c|] eqn:Hc; [|done]. unfold validate_EvaluationConfig in Hc.
    do 8 apply bind_Ok_inv in Hc as (? & _ & Hc). by apply bind_Ok_inv in Hc as (? & ?%raise_if_Ok_inv%Z.ltb_ge & _). }
  split_and!; try done.
  - apply common_sessions_increasing, Hl.
  - intros d. apply elem_of_common.
  - eapply Forall2_impl; [exact Hds|]. intros day v Hd. unfold daily_difference in Hd. apply bind_Ok_inv in Hd as (y & Hy & Hd).
    apply bind_Ok_inv in Hd as (z & Hz & Hd). apply session_return_ok in Hy as (o & Ho & <- & <-); [|apply Hl].
    apply session_return_ok in Hz as (o' & Ho' & Hd' & <-); [|apply Hr]. exists o, o'. done.
  - destruct (common_sessions _ _); [done|]. cbn in Hlen. rewrite <- Hlen. lia.
  - eapply dquantize_nonneg, Hnw. by eapply standard_error_nonneg.
  - apply Z.leb_le.
  - intros ?%Z.leb_le. lia.
Qed.

End matched.

(** ** Performance of one arm *)

Lemma rounds_positive p x d : 0 < p → rounds_to p x d → (0 < x)%Q → (0 < dval d)%Q.
Proof.
  intros Hp Hr Hx. destruct (magnitude x Hx) as (a & Ha & _). pose proof (q10_pos a).
  assert (dval (Dec 1 a) == q10 a)%Q as E by (unfold dval; cbn; change (inject_Z 1) with 1%Q; lra).
  apply Qlt_le_trans with (q10 a); [done|]. rewrite <- E. eapply rounds_ge; [exact Hr| |by rewrite E]. by apply pow10_gt1.
Qed.

Lemma rounds_zero p x d : 0 < p → rounds_to p x d → (x == 0)%Q → (dval d == 0)%Q.
Proof. intros Hp Hr E. apply Qle_antisym; [apply (rounds_nonpos p Hp x)|apply (rounds_nonneg p Hp x)]; try done; lra. Qed.

Definition grown (wealth value : dec) : dec := (wealth * (d1 + value))%dec.

Lemma grown_pos wealth value : (0 < dval wealth)%Q → (-1 < dval value)%Q → (0 < dval (grown wealth value))%Q.
Proof.
  intros Hw Hv. apply (rounds_positive PREC (dval wealth * dval (d1 + value)%dec)); [done|by apply dmul_rounds|].
  apply Qmult_lt_0_compat; [done|]. apply (rounds_positive PREC (dval d1 + dval value)); [done|by apply dadd_rounds|]. rewrite dval_d1. lra.
Qed.

Lemma grown_repr wealth value : drepr (grown wealth value).
Proof. by apply (dmul_rounds PREC). Qed.

(** The wealth before the first and after each session. *)
Fixpoint wealth_path (wealth : dec) (returns : list dec) : list dec :=
  wealth :: match returns with [] => [] | value :: returns => wealth_path (grown wealth value) returns end.

Definition never_falls (path : list dec) : Prop := Sorted (λ a b, (dval a <= dval b)%Q) path.

Definition loses_less_than_all (value : dec) : Prop := (-1 < dval value)%Q.

Section drawdown.
Implicit Types returns : list dec.

(** The fall from the peak, in the loop. *)
Lemma fall_spec peak wealth :
  (0 < dval wealth)%Q → drepr peak → (0 < dval peak)%Q → ∃ fall, ddiv (dmax peak wealth - wealth)%dec (dmax peak wealth) = Ok fall ∧ (0 <= dval fall <= 1)%Q
    ∧ ((dval fall == 0)%Q ↔ (dval peak <= dval wealth)%Q).
Proof.
  intros Hw Hrp Hpk. set (p := dmax peak wealth). assert (dval wealth <= dval p ∧ 0 < dval p)%Q as [Hle Hp].
  { unfold p. destruct (dmax_spec peak wealth) as [[E ?]|[E ?]]; rewrite E; lra. }
  pose proof (dsub_rounds PREC p wealth eq_refl) as Hs. assert (0 <= dval (p - wealth)%dec)%Q as H0 by by apply dsub_nonneg.
  destruct (Z.eq_dec (dcoef p) 0) as [Ez|Ez]; [by apply dval_pos_coef in Hp|].
  destruct (ddiv_rounds PREC (p - wealth)%dec p eq_refl Ez) as (fall & Hf & Hr). exists fall. split; [done|].
  assert (dval (p - wealth)%dec <= dval p ∨ p = wealth)%Q as Hcase.
  { unfold p, dmax. destruct (dltb peak wealth) eqn:E; [by right|left]. unfold p, dmax in Hs. rewrite E in Hs.
    eapply rounds_le; [exact Hs|done|lra]. }
  assert (0 <= dval fall <= 1)%Q as Hb.
  { destruct Hcase as [Hc|Hc]; [by apply (ddiv_unit PREC (p - wealth)%dec p)|]. rewrite Hc in *. clear Hc.
    assert (dval (wealth - wealth)%dec == 0)%Q as E by (apply (rounds_zero PREC _ _ eq_refl Hs); lra).
    apply (ddiv_unit PREC (wealth - wealth)%dec wealth); try done. rewrite E. lra. }
  split; [done|]. split.
  - intros E. destruct (Qlt_le_dec (dval wealth) (dval peak)) as [Hlt|]; [|done]. exfalso.
    assert (dval wealth < dval p)%Q by (unfold p; destruct (dmax_spec peak wealth) as [[E' ?]|[E' ?]]; rewrite E'; lra).
    assert (0 < dval (p - wealth)%dec)%Q by (apply (rounds_positive PREC _ _ eq_refl Hs); lra).
    assert (0 < dval fall)%Q; [|lra]. apply (rounds_positive PREC _ _ eq_refl Hr). by apply Qlt_shift_div_l; [|lra].
  - intros Hge. assert (dval p == dval wealth)%Q as E by (unfold p; destruct (dmax_spec peak wealth) as [[E' ?]|[E' ?]]; rewrite E'; lra).
    assert (dval (p - wealth)%dec == 0)%Q as E0 by (apply (rounds_zero PREC _ _ eq_refl Hs); lra).
    apply (rounds_zero PREC _ _ eq_refl Hr). rewrite E0. unfold Qdiv. lra.
Qed.

Lemma drawdown_from_range returns wealth peak maximum :
  Forall loses_less_than_all returns → (0 < dval wealth)%Q → drepr wealth → drepr peak → (0 < dval peak)%Q → (0 <= dval maximum <= 1)%Q →
  ∃ m, drawdown_from wealth peak maximum returns = Ok m ∧ (dval maximum <= dval m <= 1)%Q.
Proof.
  intros Hr. revert wealth peak maximum. induction Hr as [|value returns Hv Hr IH]; intros wealth peak maximum Hw Hrw Hrp Hpk Hm; cbn.
  { exists maximum. split; [done|lra]. }
  fold (grown wealth value). pose proof (grown_pos _ _ Hw Hv) as Hg. destruct (fall_spec peak (grown wealth value) Hg Hrp Hpk) as (fall & -> & Hf & _). cbn.
  assert (dval maximum <= dval (dmax maximum fall) <= 1)%Q by (destruct (dmax_spec maximum fall) as [[E ?]|[E ?]]; rewrite E; lra).
  destruct (IH (grown wealth value) (dmax peak (grown wealth value)) (dmax maximum fall)) as (m & -> & ?).
  - done.
  - apply grown_repr.
  - apply repr_max; [done|apply grown_repr].
  - destruct (dmax_spec peak (grown wealth value)) as [[E ?]|[E ?]]; rewrite E; lra.
  - lra.
  - exists m. split; [done|lra].
Qed.

Lemma drawdown_from_zero returns wealth peak maximum m :
  Forall loses_less_than_all returns → (0 < dval wealth)%Q → drepr wealth → drepr peak → (dval peak == dval wealth)%Q → (dval maximum == 0)%Q →
  drawdown_from wealth peak maximum returns = Ok m → (dval m == 0)%Q ↔ never_falls (wealth_path wealth returns).
Proof.
  intros Hr. revert wealth peak maximum. induction Hr as [|value returns Hv Hr IH]; intros wealth peak maximum Hw Hrw Hrp Hpk Hm; cbn.
  { intros [= <-]. split; [|done]. intros _. repeat constructor. }
  fold (grown wealth value). pose proof (grown_pos _ _ Hw Hv) as Hg. assert (0 < dval peak)%Q as Hpp by lra.
  destruct (fall_spec peak (grown wealth value) Hg Hrp Hpp) as (fall & -> & Hf & Hz). cbn. intros Hd.
  assert (drepr (dmax peak (grown wealth value))) by (apply repr_max; [done|apply grown_repr]).
  destruct (Qlt_le_dec (dval (grown wealth value)) (dval peak)) as [Hlt|Hge].
  - destruct (drawdown_from_range returns (grown wealth value) (dmax peak (grown wealth value)) (dmax maximum fall)) as (m' & Hd' & Hb); try done.
    + apply grown_repr.
    + destruct (dmax_spec peak (grown wealth value)) as [[E ?]|[E ?]]; rewrite E; lra.
    + destruct (dmax_spec maximum fall) as [[E ?]|[E ?]]; rewrite E; lra.
    + rewrite Hd in Hd'. injection Hd' as <-. split.
      * intros E. exfalso. assert (dval fall == 0)%Q as E' by (destruct (dmax_spec maximum fall) as [[E' ?]|[E' ?]]; rewrite E' in Hb; lra).
        apply Hz in E'. lra.
      * intros Hs. exfalso. inversion Hs as [|? ? _ Hh]; subst. destruct returns; inversion Hh; subst; lra.
  - eapply IH in Hd; [|done|apply grown_repr|done| |].
    + rewrite Hd. split; [|by inversion 1]. intros Hs. constructor; [done|]. destruct returns; constructor; lra.
    + destruct (dmax_spec peak (grown wealth value)) as [[E ?]|[E ?]]; rewrite E; lra.
    + apply Hz in Hge. destruct (dmax_spec maximum fall) as [[E ?]|[E ?]]; rewrite E; lra.
Qed.

Lemma maximum_drawdown_spec returns m :
  Forall loses_less_than_all returns → _maximum_drawdown returns = Ok m →
  (0 <= dval m <= 1)%Q ∧ ((dval m == 0)%Q ↔ never_falls (wealth_path d1 returns)).
Proof.
  intros Hr Hm. pose proof drepr_d1. assert (0 < dval d1)%Q by (rewrite dval_d1; lra). assert (0 <= dval d0 <= 1)%Q by (rewrite dval_d0; lra).
  split; [|by eapply drawdown_from_zero in Hm]. destruct (drawdown_from_range returns d1 d1 d0) as (m' & Hm' & Hb); try done.
  rewrite dval_d0 in Hb. unfold _maximum_drawdown in Hm. rewrite Hm' in Hm. by injection Hm as <-.
Qed.

(** The cumulative return is the last wealth less the first one. *)
Lemma cumulative_return_path returns : ∃ w, last (wealth_path d1 returns) = Some w ∧ _cumulative_return returns = (w - d1)%dec.
Proof.
  unfold _cumulative_return. generalize d1 at 1 3 as wealth. induction returns as [|value returns IH]; intros wealth; cbn; [by exists wealth|].
  destruct (IH (grown wealth value)) as (w & Hw & Hc). exists w. split; [|done]. by destruct returns.
Qed.

End drawdown.

(** *** Episodes *)

(** The sessions that start an episode: active ones after an inactive one. *)
Fixpoint starts (active : bool) (flags : list bool) : Z :=
  match flags with [] => 0 | flag :: flags => (if flag && negb active then 1 else 0) + starts flag flags end.
Definition active_sessions (flags : list bool) : Z := Z.of_nat (length (List.filter (λ b, b) flags)).

Lemma episode_steps flags count duration active :
  (fold_left episode_step flags (count, duration, active)).1 = (count + starts active flags, duration + active_sessions flags).
Proof.
  unfold active_sessions. revert count duration active. induction flags as [|flag flags IH]; intros count duration active; cbn; [f_equal; lia|].
  destruct flag, active; cbn; rewrite IH; cbn; f_equal; lia.
Qed.

Lemma episode_runs_spec flags : _episode_runs flags = (starts false flags, active_sessions flags).
Proof. unfold _episode_runs. rewrite episode_steps. f_equal; lia. Qed.

Lemma starts_bounds flags active : 0 <= starts active flags <= active_sessions flags.
Proof.
  unfold active_sessions. revert active. induction flags as [|flag flags IH]; intros active; cbn; [done|]. specialize (IH flag).
  destruct flag, active; cbn in *; lia.
Qed.

Lemma starts_some flags : starts false flags = 0 ↔ active_sessions flags = 0.
Proof.
  unfold active_sessions. induction flags as [|flag flags IH]; cbn; [done|]. pose proof (starts_bounds flags flag). destruct flag; cbn in *; lia.
Qed.

Lemma active_sessions_le flags : active_sessions flags <= Z.of_nat (length flags).
Proof. unfold active_sessions. pose proof (length_filterb_le (λ b : bool, b) flags). lia. Qed.

Lemma no_active {A} (f : A → bool) l : active_sessions (map f l) = 0 ↔ ∀ x, x ∈ l → f x = false.
Proof.
  unfold active_sessions. induction l as [|x l IH]; cbn; [split; [by intros _ x ?%not_elem_of_nil|done]|]. split.
  - destruct (f x) eqn:E; cbn; [done|]. intros Hl y [->|Hy]%elem_of_cons; [done|]. by apply IH.
  - intros Hl. rewrite (Hl x) by left. cbn. apply IH. intros y Hy. apply Hl. by right.
Qed.

(** *** Metrics *)

Definition valid_observation (o : DailyEvaluationObservation) : Prop := is_ok (validate_DailyEvaluationObservation o) = true.

Lemma valid_observation_facts o :
  valid_observation o → loses_less_than_all (ob_net_daily_return o)
  ∧ Forall (λ v, 0 <= dval v)%Q [ob_daily_turnover o; ob_commissions_usd o; ob_spread_cost_usd o; ob_delay_cost_usd o; ob_sensitivity_5bp_usd o;
      ob_sensitivity_10bp_usd o; ob_cash_weight o; ob_qqq_weight o; ob_soxx_weight o]
  ∧ (ob_llm_reduction_active o = true → ob_arm_id o = Q1_LLM).
Proof.
  unfold valid_observation. destruct (validate_DailyEvaluationObservation o) as [o'|] eqn:Hv; [|done]. intros _. unfold validate_DailyEvaluationObservation in Hv.
  apply bind_Ok_inv in Hv as (? & H1%raise_if_Ok_inv & Hv). apply bind_Ok_inv in Hv as (? & H2%raise_if_Ok_inv & Hv).
  apply bind_Ok_inv in Hv as (? & _ & Hv). apply bind_Ok_inv in Hv as (? & H4%raise_if_Ok_inv & _). split_and!.
  - apply dleb_gt in H1. unfold loses_less_than_all. assert (dval (Dec (-1) 0) == -1)%Q as E by reflexivity. lra.
  - apply Forall_forall. intros v Hin. destruct (dltb v d0) eqn:E; [|apply dltb_ge in E; by rewrite dval_d0 in E].
    assert (existsb (λ v, (v <? d0)%dec) [ob_daily_turnover o; ob_commissions_usd o; ob_spread_cost_usd o; ob_delay_cost_usd o;
      ob_sensitivity_5bp_usd o; ob_sensitivity_10bp_usd o; ob_cash_weight o; ob_qqq_weight o; ob_soxx_weight o] = true) as Hx.
    { apply existsb_exists. exists v. split; [by apply list_elem_of_In|done]. }
    by rewrite Hx in H2.
  - intros Hl. rewrite Hl in H4. cbn in H4. by apply negb_false_iff, bool_decide_eq_true in H4.
Qed.

Lemma dsum_nonneg l : Forall (λ v, 0 <= dval v)%Q l → (0 <= dval (dsum l))%Q.
Proof.
  unfold dsum. intros Hl. assert (0 <= dval d0)%Q as H0 by by rewrite dval_d0. revert H0. generalize d0 as acc.
  induction Hl as [|v l Hv Hl IH]; intros acc Ha; cbn; [done|]. apply IH. by apply dadd_nonneg.
Qed.

Lemma mean_nonneg l m : Forall (λ v, 0 <= dval v)%Q l → _mean l = Ok m → (0 <= dval m)%Q.
Proof.
  intros Hl Hm. unfold _mean in Hm. apply bind_Ok_inv in Hm as (? & _ & Hm). eapply (ddiv_nonneg PREC); [done|exact Hm|by apply dsum_nonneg|].
  apply dval_nonneg_coef. cbn. lia.
Qed.

Lemma deviation_nonneg l v : _sample_standard_deviation l = Ok v → (0 <= dval v)%Q.
Proof.
  unfold _sample_standard_deviation. destruct (_ <? _)%nat; [intros [= <-]; by rewrite dval_d0|]. intros Hv. do 2 apply bind_Ok_inv in Hv as (? & _ & Hv).
  by apply (dsqrt_nonneg PREC) in Hv.
Qed.

Lemma valid_column {B} (P : B → Prop) (f : DailyEvaluationObservation → B) l :
  (∀ o, valid_observation o → P (f o)) → Forall valid_observation l → Forall P (map f l).
Proof. intros Hf. induction 1; cbn; constructor; auto. Qed.

(** The columns that cannot be negative. *)
Ltac column := eapply valid_column; [|eassumption]; intros o (_ & Hcols & _)%valid_observation_facts; rewrite !Forall_cons in Hcols;
  destruct_and! Hcols; cbv beta in *; try apply dadd_nonneg; assumption.

Lemma totals_nonneg l tm cm qm sm :
  Forall valid_observation l → _mean (map ob_daily_turnover l) = Ok tm → _mean (map ob_cash_weight l) = Ok cm →
  _mean (map ob_qqq_weight l) = Ok qm → _mean (map ob_soxx_weight l) = Ok sm →
  Forall (λ v, 0 <= dval v)%Q
    [tm; dsum (map ob_daily_turnover l); dsum (map ob_commissions_usd l); dsum (map (λ o, ob_spread_cost_usd o + ob_delay_cost_usd o)%dec l);
     dsum (map ob_sensitivity_5bp_usd l); dsum (map ob_sensitivity_10bp_usd l); cm; qm; sm].
Proof.
  intros Hv Ht Hc Hq Hs. repeat apply Forall_cons_2; [..|apply Forall_nil_2];
    first [eapply mean_nonneg; [|eassumption]; column|apply dsum_nonneg; column].
Qed.

Lemma no_llm_episodes l : Forall valid_observation l → Forall (λ o, ob_arm_id o ≠ Q1_LLM) l → active_sessions (map ob_llm_reduction_active l) = 0.
Proof.
  intros Hv Ha. apply no_active. intros o Ho. destruct (ob_llm_reduction_active o) eqn:E; [|done].
  rewrite Forall_forall in Hv, Ha. by destruct (Ha o Ho); apply valid_observation_facts; auto.
Qed.

Lemma existsb_arm arm l : existsb (λ o, negb (bool_decide (ob_arm_id o = arm))) l = false → Forall (λ o, ob_arm_id o = arm) l.
Proof.
  induction l as [|o l IH]; cbn; [constructor|]. intros [Ho%negb_false_iff%bool_decide_eq_true Hl]%orb_false_iff. constructor; auto.
Qed.

Section performance.
Context `{DecimalMath, Digest}.

(** The returns in the order of the sessions. *)
Definition ordered_returns (observations : list DailyEvaluationObservation) : list dec := map ob_net_daily_return (sorted session_le observations).

(** C12: what performance metrics say of valid observations. *)
Theorem performance_within_ranges observations config m :
  Forall valid_observation observations → evaluate_performance observations config = Ok m →
  one_arm (pm_arm_id m) observations ∧ pm_valid_sessions m = Z.of_nat (length observations)
  ∧ (0 <= dval (pm_maximum_drawdown m) <= 1)%Q
  ∧ ((dval (pm_maximum_drawdown m) == 0)%Q ↔ never_falls (wealth_path d1 (ordered_returns observations)))
  ∧ (pm_calmar m = None ↔ (dval (pm_maximum_drawdown m) == 0)%Q)
  ∧ (∃ w, last (wealth_path d1 (ordered_returns observations)) = Some w ∧ pm_cumulative_return m = (w - d1)%dec)
  ∧ (0 <= dval (pm_annualized_volatility m))%Q
  ∧ Forall (λ v, 0 <= dval v)%Q
      [pm_daily_turnover_mean m; pm_cumulative_turnover m; pm_commissions_usd m; pm_spread_and_delay_cost_usd m; pm_sensitivity_5bp_usd m;
       pm_sensitivity_10bp_usd m; pm_percentage_time_in_cash m; pm_qqq_average_exposure m; pm_soxx_average_exposure m]
  ∧ 0 <= pm_risk_episode_count m <= pm_risk_episode_duration_sessions m ∧ pm_risk_episode_duration_sessions m <= pm_valid_sessions m
  ∧ (pm_risk_episode_count m = 0 ↔ ∀ o, o ∈ observations → ob_risk_episode_active o = false)
  ∧ 0 <= pm_llm_reduction_count m <= pm_llm_reduction_duration_sessions m ∧ pm_llm_reduction_duration_sessions m <= pm_valid_sessions m
  ∧ (pm_arm_id m ≠ Q1_LLM → pm_llm_reduction_count m = 0 ∧ pm_llm_reduction_duration_sessions m = 0).
Proof.
  intros Hv He. unfold evaluate_performance in He. unfold ordered_returns. pose proof (sorted_perm session_le observations) as Hp.
  assert (Forall valid_observation (sorted session_le observations)) as Hvs by (by rewrite Hp).
  destruct (sorted session_le observations) as [|first rest] eqn:Hs; [done|]. rewrite <- Hs in *. clear rest Hs. set (ordered := sorted session_le observations) in *.
  apply bind_Ok_inv in He as (? & Harm%raise_if_Ok_inv & He). apply bind_Ok_inv in He as (? & Hnd%raise_if_Ok_inv%negb_false_iff%bool_decide_eq_true & He).
  apply bind_Ok_inv in He as (ar & _ & He). apply bind_Ok_inv in He as (vol & Hvol & He). apply bind_Ok_inv in He as (root & Hroot & He).
  do 5 apply bind_Ok_inv in He as (? & _ & He). apply bind_Ok_inv in He as (mdd & Hmdd & He). apply bind_Ok_inv in He as (calmar & Hcalmar & He).
  rewrite !episode_runs_spec in He. apply bind_Ok_inv in He as (tm & Htm & He). apply bind_Ok_inv in He as (cm & Hcm & He).
  apply bind_Ok_inv in He as (qm & Hqm & He). apply bind_Ok_inv in He as (sm & Hsm & He). apply bind_Ok_inv in He as (hash & _ & He). injection He as <-.
  cbn [pm_arm_id pm_valid_sessions pm_maximum_drawdown pm_calmar pm_cumulative_return pm_annualized_volatility pm_daily_turnover_mean
    pm_cumulative_turnover pm_commissions_usd pm_spread_and_delay_cost_usd pm_sensitivity_5bp_usd pm_sensitivity_10bp_usd
    pm_percentage_time_in_cash pm_qqq_average_exposure pm_soxx_average_exposure pm_risk_episode_count pm_risk_episode_duration_sessions
    pm_llm_reduction_count pm_llm_reduction_duration_sessions].
  assert (Forall loses_less_than_all (map ob_net_daily_return ordered)) as Hr
    by (apply valid_column; [intros o Ho; by apply valid_observation_facts|done]).
  apply existsb_arm in Harm. destruct (maximum_drawdown_spec _ _ Hr Hmdd) as [Hrange Hzero].
  assert (∀ f, active_sessions (map f ordered) <= Z.of_nat (length ordered)) as Hact by (intros f; rewrite <- (length_map f); apply active_sessions_le).
  split_and!; try done; try apply starts_bounds; try apply Hact.
  - split; [by rewrite <- Hp|]. by apply (NoDup_Permutation_proper _ _ (Permutation_map ob_session_date Hp)).
  - by rewrite Hp.
  - apply Hrange.
  - apply Hrange.
  - destruct (deqb mdd d0) eqn:E; [apply deqb_eq in E|apply deqb_ne in E]; rewrite dval_d0 in E; [by injection Hcalmar as <-|].
    apply bind_Ok_inv in Hcalmar as (? & _ & [= <-]). done.
  - apply cumulative_return_path.
  - apply dmul_nonneg; [by eapply deviation_nonneg|by apply (dsqrt_nonneg PREC) in Hroot].
  - by apply totals_nonneg.
  - rewrite starts_some, no_active. setoid_rewrite Hp. done.
  - intros Hne. rewrite starts_some, no_llm_episodes; [done..|]. eapply Forall_impl; [exact Harm|]. by intros o ->.
Qed.

Lemma other_arm l first :
  existsb (λ o, negb (bool_decide (ob_arm_id o = ob_arm_id first))) l = true → first ∈ l → ∀ arm, ¬ Forall (λ o, ob_arm_id o = arm) l.
Proof.
  intros (o & Ho%list_elem_of_In & Hne%negb_true_iff%bool_decide_eq_false)%existsb_exists Hf arm Ha. rewrite Forall_forall in Ha.
  apply Hne. by rewrite (Ha o Ho), (Ha first Hf).
Qed.

(** The rows may come in any order: the metrics, and any refusal, are the same. *)
Theorem performance_ignores_row_order observations observations' config :
  observations ≡ₚ observations' → evaluate_performance observations config = evaluate_performance observations' config.
Proof.
  intros Hp. unfold evaluate_performance.
  assert (sorted session_le observations ≡ₚ sorted session_le observations') as Hps by by rewrite !sorted_perm.
  destruct (decide (NoDup (map ob_session_date observations))) as [Hn|Hn].
  - rewrite (sorted_perm_unique session_le observations observations'); [done|..|done]; unfold session_le.
    + intros x y ?%Z.leb_gt. apply Z.leb_le. lia.
    + intros x y z ?%Z.leb_le ?%Z.leb_le. apply Z.leb_le. lia.
    + intros x y Hx Hy ?%Z.leb_le ?%Z.leb_le. assert (ob_session_date x = ob_session_date y) as E by lia.
      assert (observed (ob_session_date x) (by_session observations) = Some x) as Ex by by apply observed_spec.
      assert (observed (ob_session_date x) (by_session observations) = Some y) as Ey by by apply observed_spec. congruence.
  - assert (∀ l, l ≡ₚ observations → ¬ NoDup (map ob_session_date l)) as Hd.
    { intros l Hl. by rewrite (NoDup_Permutation_proper _ _ (Permutation_map ob_session_date Hl)). }
    assert (¬ NoDup (map ob_session_date (sorted session_le observations))) as H1 by apply Hd, sorted_perm.
    assert (¬ NoDup (map ob_session_date (sorted session_le observations'))) as H2 by (apply Hd; by rewrite sorted_perm).
    destruct (sorted session_le observations) as [|f1 l1] eqn:E1, (sorted session_le observations') as [|f2 l2] eqn:E2;
      [done|by apply Permutation_nil_cons in Hps|by apply Permutation_sym, Permutation_nil_cons in Hps|].
    assert (f1 ∈ f2 :: l2) as Hf1 by (rewrite <- Hps; left). assert (f2 ∈ f1 :: l1) as Hf2 by (rewrite Hps; left).
    rewrite (bool_decide_eq_false_2 _ H1), (bool_decide_eq_false_2 _ H2). cbn [negb].
    destruct (existsb _ (f1 :: l1)) eqn:X1, (existsb _ (f2 :: l2)) eqn:X2; try done; exfalso.
    + apply (other_arm _ _ X1) with (ob_arm_id f2); [left|]. rewrite Hps. by apply existsb_arm.
    + apply (other_arm _ _ X2) with (ob_arm_id f1); [left|]. rewrite <- Hps. by apply existsb_arm.
Qed.

End performance.

(** ** Examples *)

Definition ex_observation (arm : Q1ArmId) (day : date) (daily : dec) (risk : bool) : DailyEvaluationObservation := {|
  ob_session_date := day; ob_arm_id := arm; ob_net_daily_return := daily; ob_daily_turnover := Dec 5 (-2); ob_commissions_usd := d1;
  ob_spread_cost_usd := Dec 25 (-2); ob_delay_cost_usd := Dec 1 (-1); ob_sensitivity_5bp_usd := Dec 5 (-1); ob_sensitivity_10bp_usd := d1;
  ob_cash_weight := Dec 4 (-1); ob_qqq_weight := Dec 6 (-1); ob_soxx_weight := d0; ob_risk_episode_active := risk; ob_llm_reduction_active := false |}.

Definition ex_left : list DailyEvaluationObservation :=
  [ex_observation Q1_DET 20004 (Dec (-1) (-2)) true; ex_observation Q1_DET 20001 (Dec 1 (-2)) false; ex_observation Q1_DET 20002 (Dec (-2) (-2)) true;
   ex_observation Q1_DET 20003 (Dec 3 (-2)) false].
Definition ex_right : list DailyEvaluationObservation :=
  [ex_observation B0_VOL 20002 (Dec (-15) (-3)) false; ex_observation B0_VOL 20003 (Dec 1 (-2)) false; ex_observation B0_VOL 20000 (Dec 2 (-2)) false;
   ex_observation B0_VOL 20004 (Dec 5 (-3)) false].

(** As configured, with fewer samples. *)
Definition ex_evaluation : EvaluationConfig := {|
  ev_version := "q1_math_core_v1"; ev_decimal_precision := 40; ev_result_quantum := Dec 1 (-14); ev_annualization_sessions := 252;
  ev_risk_free_daily_return := Dec 0 (-1); ev_downside_target_daily_return := Dec 0 (-1); ev_newey_west_lag := 5; ev_bootstrap_samples := 4;
  ev_stationary_block_mean_length := Dec 10 0; ev_bootstrap_confidence := Dec 95 (-2); ev_bootstrap_seed := 7077; ev_promotion_min_common_sessions := 126 |}.

Lemma ex_observations_valid : Forall valid_observation (ex_left ++ ex_right).
Proof. repeat apply Forall_cons_2; [reflexivity..|apply Forall_nil_2]. Qed.

Lemma ex_measured : ∃ m, evaluate_performance (H0 := rolling_digest) ex_left ex_evaluation = Ok m.
Proof. eexists. vm_compute. reflexivity. Qed.

Lemma ex_attributed : ∃ m, evaluate_matched_attribution (H0 := rolling_digest) Q1_DET_MINUS_B0_VOL ex_left ex_right ex_evaluation = Ok m.
Proof. eexists. vm_compute. reflexivity. Qed.

Lemma one_arm_check arm l : is_ok (_unique_by_session l arm) = true → one_arm arm l.
Proof. destruct (_unique_by_session l arm) as [d|] eqn:E; [|done]. intros _. by apply unique_by_session_spec in E as [? _]. Qed.

(** The pairs of two lists. *)
Definition pairs (left right : list DailyEvaluationObservation) : list (date * dec * dec) :=
  l ← left; r ← right; if ob_session_date l =? ob_session_date r then [(ob_session_date l, ob_net_daily_return l, ob_net_daily_return r)] else [].

Lemma paired_in left right d x y : paired left right d x y ↔ (d, x, y) ∈ pairs left right.
Proof.
  unfold pairs. split.
  - intros (l & r & Hl & Hr & <- & Hd & <- & <-). apply list_elem_of_bind. exists l. split; [|done]. apply list_elem_of_bind. exists r. split; [|done].
    rewrite Hd, Z.eqb_refl. left.
  - intros (l & (r & Hp & Hr)%list_elem_of_bind & Hl)%list_elem_of_bind. destruct (Z.eqb_spec (ob_session_date l) (ob_session_date r)) as [E|].
    + apply list_elem_of_singleton in Hp as [= -> -> ->]. exists l, r. done.
    + by apply not_elem_of_nil in Hp.
Qed.

Lemma same_pairs left right left' right' :
  Forall (λ p, p ∈ pairs left' right') (pairs left right) ∧ Forall (λ p, p ∈ pairs left right) (pairs left' right') →
  ∀ d x y, paired left right d x y ↔ paired left' right' d x y.
Proof. rewrite !Forall_forall. intros [H1 H2] d x y. rewrite !paired_in. split; auto. Qed.

(** The same common sessions, in another order, with other costs and without the session that one arm has alone. *)
Definition ex_left' : list DailyEvaluationObservation :=
  [ex_observation Q1_DET 20002 (Dec (-2) (-2)) false; ex_observation Q1_DET 20003 (Dec 3 (-2)) true; ex_observation Q1_DET 20004 (Dec (-1) (-2)) true].

Lemma matched_attribution_of_common_sessions_witness :
  ex_left ≠ ex_left' ∧ evaluate_matched_attribution (H0 := rolling_digest) Q1_DET_MINUS_B0_VOL ex_left ex_right ex_evaluation
    = evaluate_matched_attribution (H0 := rolling_digest) Q1_DET_MINUS_B0_VOL ex_left' ex_right ex_evaluation.
Proof.
  split; [done|]. apply (matched_attribution_of_common_sessions Q1_DET_MINUS_B0_VOL ex_evaluation); unfold is_left, is_right.
  1-4: apply one_arm_check; vm_compute; reflexivity.
  apply same_pairs. split; apply (bool_decide_unpack _); vm_compute; exact I.
Defined.

Lemma matched_attribution_exact_witness :
  ∃ m, evaluate_matched_attribution (H0 := rolling_digest) Q1_DET_MINUS_B0_VOL ex_left ex_right ex_evaluation = Ok m
    ∧ ∀ d, d ∈ ma_common_session_dates m ↔ d ∈ map ob_session_date ex_left ∧ d ∈ map ob_session_date ex_right.
Proof.
  destruct ex_attributed as [m Hm]. exists m. split; [exact Hm|].
  destruct (matched_attribution_exact Q1_DET_MINUS_B0_VOL ex_evaluation ex_left ex_right m eq_refl Hm) as (_ & _ & _ & Hd & _). exact Hd.
Defined.

Lemma performance_within_ranges_witness :
  ∃ m, evaluate_performance (H0 := rolling_digest) ex_left ex_evaluation = Ok m ∧ one_arm (pm_arm_id m) ex_left ∧ (0 <= dval (pm_maximum_drawdown m) <= 1)%Q.
Proof.
  destruct ex_measured as [m Hm]. exists m. split; [exact Hm|].
  destruct (performance_within_ranges (H0 := rolling_digest) ex_left ex_evaluation m) as (Ha & _ & Hd & _); [|exact Hm|by split].
  apply (Forall_app _ ex_left ex_right), ex_observations_valid.
Defined.

Lemma performance_ignores_row_order_witness :
  evaluate_performance (H0 := rolling_digest) ex_left ex_evaluation = evaluate_performance (H0 := rolling_digest) (rev ex_left) ex_evaluation.
Proof. apply (performance_ignores_row_order ex_left (rev ex_left) ex_evaluation), Permutation_rev. Defined.
