(* ===== verification/EvaluationCycle.v ===== *)
(** * The daily evaluation cycle ([runtime/q1_evaluation_cycle.py])

    One run of the processor after the close of a session: it values every arm at the closing quotes, prepares the day's results and
    the matched comparisons over all stored days, expires the orders that are still pending, and commits all of it in one
    transaction.  Queries that run in sessions of their own read stores of their own; the code version is a parameter.  Seconds
    between instants are exact.  A fill of this algorithm has all its columns, since only [append_fill] writes them. *)
From Stdlib Require Import ZArith Lia Ascii String.
From stdpp Require Import base list strings numbers sets.
From S2P Require Import Prelude PyDecimal Hashing DecimalMath Domain Text OrderState Settlement ArmState Payload Execution Reconciliation Planning Schedule Cycles CycleStore.
From S2P Require Import Q1Records Q1Store PyRandom MatchedEvaluation RuntimeConfig MarketData ExecutionCycle.
Set Default Goal Selector "!".
Open Scope Z_scope.

Record _DailyPrepared := { dp_result : StrategyDailyResult; dp_observation : DailyEvaluationObservation }.

Definition Q1ArmIds : list Q1ArmId := [HOLD; LIVE_MIRROR; B0_CASH; B0_QQQ; B0_VOL; Q1_DET; Q1_LLM].
Definition clean_arm_ids : list string := map Q1ArmId_value [B0_CASH; B0_QQQ; B0_VOL; Q1_DET; Q1_LLM].

(** [Q1ArmId(value)] *)
Definition arm_of_value (value : string) : res Q1ArmId :=
  match List.find (λ a, Q1ArmId_value a =s value) Q1ArmIds with Some a => Ok a | None => raise ValueError "not a valid Q1ArmId" end.

Definition _lease_owner (cycle : PaperCycleRow) : res string :=
  match pc_lease_owner cycle with Some o => Ok o | None => raise Q1EvaluationCycleError "Q1 evaluation cycle has no lease owner" end.

(** The symbols an arm holds. *)
Definition held_symbols (state : Q1ArmState) : list string := map fst (List.filter is_held (as_positions state)).

(** ** Stores *)

Record EvaluationSnapshots := {
  es_base : q1_store;                        (* [_read_base] *)
  es_quotes : string → market_store;         (* [_closing_quotes], for the clean arms (["CLEAN"]) or one other arm *)
  es_previous : string → q1_store;           (* [_previous_daily_result] of an arm *)
  es_fills : string → q1_store * market_store; (* [_session_economics] of an arm *)
  es_risk : string → q1_store;               (* [_risk_episode_count] of an arm *)
  es_llm : q1_store;                         (* [_llm_reduction_count] *)
  es_results : q1_store;                     (* [_observations_with_prepared] *)
}.

Section readers.
Variables (run_id : string) (calendar : VersionedMarketSession).

Definition _read_base (s : q1_store) : res (StrategyEvaluationAnchor * pydict Q1ArmState * Q1OrderBook) :=
  match Anchors.for_run s run_id with
  | None => raise Q1EvaluationCycleError "Evaluation anchor is not established"
  | Some anchor_row =>
      anchor ← validate_StrategyEvaluationAnchor anchor_row;
      states ← mapM_res (λ arm, state ← latest_arm_state s run_id (Q1ArmId_value arm); Ok (Q1ArmId_value arm, state)) Q1ArmIds;
      let states := omap (λ kv, (λ state, (kv.1, state)) <$> kv.2) states in
      book ← load_q1_order_book s run_id None;
      raise_if (bool_decide (length states = 0%nat)) Q1EvaluationCycleError "No Q1 arm states are initialized";;
      Ok (anchor, states, book)
  end.

(** The quotes that may value a symbol at the close, the latest one first. *)
Definition closing_quote_of (symbol : string) (available_as_of : datetime) (r : MarketQuoteRow) : bool :=
  (mq_provider r =s PROVIDER) && (mq_feed r =s FEED) && (mq_symbol r =s symbol) && dt_lt (mq_event_time r) (vs_close_at calendar)
  && dt_le (mq_available_at r) available_as_of && (d0 <? mq_bid_price r)%dec && (d0 <? mq_ask_price r)%dec && (mq_bid_price r <=? mq_ask_price r)%dec.
Definition closing_quote_le (a b : MarketQuoteRow) : bool :=
  negb (lex_lt [instant (mq_event_time a) ?= instant (mq_event_time b); instant (mq_available_at a) ?= instant (mq_available_at b);
                String.compare (mq_quote_id a) (mq_quote_id b)]).

Definition closing_quote (bundle : Q1ConfigBundle) (m : market_store) (available_as_of : datetime) (symbol : string) : res (string * MarketQuoteRow) :=
  match List.hd_error (sorted closing_quote_le (List.filter (closing_quote_of symbol available_as_of) (quotes m))) with
  | None => raise Q1EvaluationDataNotReady (String.append "Closing quote is unavailable for " symbol)
  | Some row =>
      let age := instant (vs_close_at calendar) - instant (_aware (mq_event_time row)) in
      stale ← (if age <? 0 then Ok true else limit ← evaluation_closing_quote_max_age_seconds bundle; Ok (limit * 1000000 <? age));
      raise_if stale Q1EvaluationDataNotReady (String.append "Closing quote is stale for " symbol);;
      Ok (symbol, row)
  end.

(** [max(event_times) - min(event_times)] *)
Definition event_spread (rows : pydict MarketQuoteRow) : Z :=
  match map (λ kv, instant (mq_event_time kv.2)) rows with [] => 0 | t :: ts => fold_left Z.max ts t - fold_left Z.min ts t end.

Definition _closing_quotes (bundle : Q1ConfigBundle) (m : market_store) (symbols : list string) (available_as_of : datetime)
  : res (pydict MarketQuoteRow) :=
  if bool_decide (symbols = []) then Ok []
  else
    rows ← mapM_res (closing_quote bundle m available_as_of) symbols;
    let rows := dict_of_pairs rows in
    limit ← maximum_quote_skew_seconds bundle;
    raise_if (limit * 1000000 <? event_spread rows) Q1EvaluationDataNotReady "Closing quote bundle exceeds maximum skew";;
    Ok rows.

(** [order_by(session_date.desc()).limit(1)] *)
Definition _previous_daily_result (s : q1_store) (arm_id : string) : option StrategyDailyResult :=
  List.hd_error (sorted (λ a b, dr_session_date b <=? dr_session_date a)
    (List.filter (λ r, (dr_run_id r =s run_id) && (Q1ArmId_value (dr_arm_id r) =s arm_id) && (dr_session_date r <? vs_session_date calendar))
      (daily_results (strategy s)))).

Record SessionEconomics := {
  se_turnover : dec; se_commissions : dec; se_spread : dec; se_delay : dec; se_sensitivity_5bp : dec; se_sensitivity_10bp : dec }.

(** The variables of the loop over the fills. *)
Record economics_acc := {
  ec_assets : pydict dec; ec_cash : dec; ec_commissions : dec; ec_spread : dec; ec_delay : dec; ec_sensitivity_5 : dec; ec_sensitivity_10 : dec }.

(** [d or 0] *)
Definition or_zero (d : dec) : dec := if (d =? d0)%dec then d0 else d.

Definition add_fill_economics (quote_by_id : string → option MarketQuoteRow) (a : economics_acc) (row : Q1Fill) : res economics_acc :=
  match quote_by_id (qf_quote_id row) with
  | None => raise Q1EvaluationCycleError "Q1 fill quote is missing during evaluation"
  | Some quote =>
      let notional := (qf_quantity row * qf_price row)%dec in
      let direction := match qf_side row with BUY => d1 | SELL => Dec (-1) 0 end in
      midpoint ← ddiv (mq_bid_price quote + mq_ask_price quote)%dec (Dec 2 0);
      let known := match dget (qf_symbol row) (ec_assets a) with Some d => d | None => d0 end in
      let '(spread, delay) := match qf_side row with
        | BUY => ((mq_ask_price quote - midpoint) * qf_quantity row, (qf_price row - mq_ask_price quote) * qf_quantity row)%dec
        | SELL => ((midpoint - mq_bid_price quote) * qf_quantity row, (mq_bid_price quote - qf_price row) * qf_quantity row)%dec
        end in
      Ok {| ec_assets := dset (qf_symbol row) (known + direction * notional)%dec (ec_assets a);
            ec_cash := (ec_cash a - direction * notional)%dec; ec_commissions := (ec_commissions a + qf_commission_usd row)%dec;
            ec_spread := (ec_spread a + spread)%dec; ec_delay := (ec_delay a + delay)%dec;
            ec_sensitivity_5 := (ec_sensitivity_5 a + or_zero (qf_sensitivity_5bp_cost_usd row))%dec;
            ec_sensitivity_10 := (ec_sensitivity_10 a + or_zero (qf_sensitivity_10bp_cost_usd row))%dec |}
  end.

Definition session_fills (s : q1_store) (arm_id : string) : list Q1Fill :=
  List.filter (λ f, (qf_run_id f =s run_id) && (Q1ArmId_value (qf_arm_id f) =s arm_id) && (qf_algorithm_version f =s Q1_ALGORITHM_VERSION)
    && dt_le (vs_open_at calendar) (qf_effective_at f) && dt_lt (qf_effective_at f) (vs_close_at calendar)) (fills (orders s)).

Definition _session_economics (s : q1_store) (m : market_store) (arm_id : string) (previous_nav : dec) : res SessionEconomics :=
  a ← foldM (add_fill_economics (λ id, List.find (λ q, mq_quote_id q =s id) (quotes m)))
        {| ec_assets := []; ec_cash := d0; ec_commissions := d0; ec_spread := d0; ec_delay := d0; ec_sensitivity_5 := d0; ec_sensitivity_10 := d0 |}
        (session_fills s arm_id);
  turnover ← (if (previous_nav <=? d0)%dec then Ok d0
              else ddiv (Dec 5 (-1) * (dsum (map (λ kv, dabs kv.2) (ec_assets a)) + dabs (ec_cash a)))%dec previous_nav);
  Ok {| se_turnover := turnover; se_commissions := ec_commissions a; se_spread := dmax d0 (ec_spread a); se_delay := dmax d0 (ec_delay a);
        se_sensitivity_5bp := ec_sensitivity_5 a; se_sensitivity_10bp := ec_sensitivity_10 a |}.

Definition _risk_episode_count (s : q1_store) (arm_id : string) : Z :=
  let episodes := List.filter (λ e, (ep_run_id e =s run_id) && (Q1ArmId_value (ep_arm_id e) =s arm_id) && dt_lt (ep_triggered_at e) (vs_close_at calendar))
                    (risk_episodes (risk s)) in
  let released_before_open := map (λ r, re_risk_episode_id (rr_event r))
    (List.filter (λ r, existsb (λ e, ep_risk_episode_id e =s re_risk_episode_id (rr_event r)) episodes
                       && bool_decide (re_event_type (rr_event r) = RELEASE) && dt_le (re_occurred_at (rr_event r)) (vs_open_at calendar))
      (risk_events (risk s))) in
  Z.of_nat (length (List.filter (λ e, negb (existsb (String.eqb (ep_risk_episode_id e)) released_before_open)) episodes)).

(** [diagnostics.get("llm_overlay_state") not in {None, "NO_CHANGE", "NOT_APPLICABLE"}] *)
Definition reduces (d : Q1StrategyDecision) : res bool :=
  match sd_diagnostics d with
  | CDict l =>
      match dget "llm_overlay_state" l with
      | None | Some CNone => Ok false
      | Some (CStr v) => Ok (negb ((v =s "NO_CHANGE") || (v =s "NOT_APPLICABLE")))
      | Some (CList _) | Some (CDict _) => raise TypeError "unhashable type"
      | Some _ => Ok true
      end
  | _ => raise ValidationError "diagnostics"
  end.

Definition _llm_reduction_count (s : q1_store) (arm_id : Q1ArmId) : res Z :=
  if negb (bool_decide (arm_id = Q1_LLM)) then Ok 0
  else
    flags ← mapM_res (λ d, d ← validate_Q1StrategyDecision d; reduces d)
      (List.filter (λ d, (sd_run_id d =s run_id) && bool_decide (sd_arm_id d = Q1_LLM) && (algorithm_version (sd_versioned d) =s Q1_ALGORITHM_VERSION)
        && dt_le (vs_open_at calendar) (sd_decision_created_at d) && dt_lt (sd_decision_created_at d) (vs_close_at calendar)) (decisions (strategy s)));
    Ok (Z.of_nat (length (List.filter (λ b, b) flags))).

End readers.

Definition _evaluation_weights (state : Q1ArmState) (prices : pydict dec) : res (pydict dec) :=
  n ← nav state prices;
  weights ← mapM_res (λ kv, v ← position_value prices kv; w ← ddiv v n; Ok (kv.1, w)) (List.filter is_held (as_positions state));
  cash ← ddiv (arm_total_cash_usd state) n;
  Ok (dset "USD_CASH" cash weights).

(** Fields that a record and its hashed content share. *)
Definition versioned_content (v : VersionedQ1Record) : list (string * pyval) :=
  [("algorithm_version", PStr (algorithm_version v)); ("config_manifest_hash", PStr (config_manifest_hash v)); ("code_version", PStr (code_version v));
   ("model_version", PStr (model_version v)); ("source_manifest_hash", PStr (source_manifest_hash v))].

(** [canonical_data(asdict(metrics))] *)
Definition opt_dec_data (o : option dec) : pyval := match o with Some d => PStr (format_f d) | None => PNone end.
Definition metrics_data (m : PerformanceMetrics) : pyval :=
  let num d := PStr (format_f d) in
  PDict [("arm_id", PStr (Q1ArmId_value (pm_arm_id m))); ("valid_sessions", PInt (pm_valid_sessions m)); ("cumulative_return", num (pm_cumulative_return m));
    ("annualized_return", num (pm_annualized_return m)); ("annualized_volatility", num (pm_annualized_volatility m)); ("sharpe", opt_dec_data (pm_sharpe m));
    ("sortino", opt_dec_data (pm_sortino m)); ("maximum_drawdown", num (pm_maximum_drawdown m)); ("calmar", opt_dec_data (pm_calmar m));
    ("daily_turnover_mean", num (pm_daily_turnover_mean m)); ("cumulative_turnover", num (pm_cumulative_turnover m));
    ("commissions_usd", num (pm_commissions_usd m)); ("spread_and_delay_cost_usd", num (pm_spread_and_delay_cost_usd m));
    ("sensitivity_5bp_usd", num (pm_sensitivity_5bp_usd m)); ("sensitivity_10bp_usd", num (pm_sensitivity_10bp_usd m));
    ("percentage_time_in_cash", num (pm_percentage_time_in_cash m)); ("qqq_average_exposure", num (pm_qqq_average_exposure m));
    ("soxx_average_exposure", num (pm_soxx_average_exposure m)); ("risk_episode_count", PInt (pm_risk_episode_count m));
    ("risk_episode_duration_sessions", PInt (pm_risk_episode_duration_sessions m)); ("llm_reduction_count", PInt (pm_llm_reduction_count m));
    ("llm_reduction_duration_sessions", PInt (pm_llm_reduction_duration_sessions m)); ("result_hash", PStr (pm_result_hash m))].

Definition _observation_from_row (row : StrategyDailyResult) : res DailyEvaluationObservation :=
  validate_DailyEvaluationObservation {|
    ob_session_date := dr_session_date row; ob_arm_id := dr_arm_id row; ob_net_daily_return := dr_net_daily_return row;
    ob_daily_turnover := dr_daily_turnover row; ob_commissions_usd := dr_commissions_usd row; ob_spread_cost_usd := dr_spread_cost_usd row;
    ob_delay_cost_usd := dr_delay_cost_usd row; ob_sensitivity_5bp_usd := dr_sensitivity_5bp_usd row;
    ob_sensitivity_10bp_usd := dr_sensitivity_10bp_usd row; ob_cash_weight := dr_cash_weight row; ob_qqq_weight := dr_qqq_weight row;
    ob_soxx_weight := dr_soxx_weight row; ob_risk_episode_active := 0 <? dr_active_risk_episode_count row;
    ob_llm_reduction_active := 0 <? dr_active_llm_reduction_count row |}.

Section evaluation.
Context `{Digest} `{DecimalMath} `{PyRandom}.
(** [self._runtime.config] and [workspace_code_version(...)]. *)
Variables (bundle : Q1ConfigBundle) (workspace_code_version : string).

Definition versioned_by (source_manifest_hash : string) : VersionedQ1Record := {|
  algorithm_version := Q1_ALGORITHM_VERSION; config_manifest_hash := cb_manifest_hash bundle; code_version := workspace_code_version;
  model_version := Q1_MODEL_VERSION; source_manifest_hash := source_manifest_hash |}.

(** ** The day's results *)

Record daily_context := {
  dc_cycle : PaperCycleRow; dc_calendar : VersionedMarketSession; dc_anchor : StrategyEvaluationAnchor; dc_now : datetime;
  dc_source_manifest : string; dc_snapshots : EvaluationSnapshots;
}.

(** The result without its hash and identifier, and the content that is hashed. *)
Definition daily_content (r : StrategyDailyResult) : pyval :=
  PDict ([("evaluation_anchor_id", PStr (dr_evaluation_anchor_id r)); ("run_id", PStr (dr_run_id r)); ("arm_id", PStr (Q1ArmId_value (dr_arm_id r)));
    ("calendar_session_id", PStr (dr_calendar_session_id r)); ("session_date", PDate (dr_session_date r)); ("valuation_at", PDatetime (dr_valuation_at r));
    ("nav_usd", PDecimal (dr_nav_usd r)); ("net_daily_return", PDecimal (dr_net_daily_return r)); ("cumulative_return", PDecimal (dr_cumulative_return r));
    ("daily_turnover", PDecimal (dr_daily_turnover r)); ("cumulative_turnover", PDecimal (dr_cumulative_turnover r));
    ("commissions_usd", PDecimal (dr_commissions_usd r)); ("spread_cost_usd", PDecimal (dr_spread_cost_usd r)); ("delay_cost_usd", PDecimal (dr_delay_cost_usd r));
    ("sensitivity_5bp_usd", PDecimal (dr_sensitivity_5bp_usd r)); ("sensitivity_10bp_usd", PDecimal (dr_sensitivity_10bp_usd r));
    ("cash_weight", PDecimal (dr_cash_weight r)); ("qqq_weight", PDecimal (dr_qqq_weight r)); ("soxx_weight", PDecimal (dr_soxx_weight r));
    ("active_risk_episode_count", PInt (dr_active_risk_episode_count r)); ("active_llm_reduction_count", PInt (dr_active_llm_reduction_count r));
    ("created_at", PDatetime (dr_created_at r))] ++ versioned_content (dr_versioned r)).

Definition with_daily_hash (r : StrategyDailyResult) (id result_hash : string) : StrategyDailyResult := {|
  dr_strategy_daily_result_id := id; dr_evaluation_anchor_id := dr_evaluation_anchor_id r; dr_run_id := dr_run_id r; dr_arm_id := dr_arm_id r;
  dr_calendar_session_id := dr_calendar_session_id r; dr_session_date := dr_session_date r; dr_valuation_at := dr_valuation_at r; dr_nav_usd := dr_nav_usd r;
  dr_net_daily_return := dr_net_daily_return r; dr_cumulative_return := dr_cumulative_return r; dr_daily_turnover := dr_daily_turnover r;
  dr_cumulative_turnover := dr_cumulative_turnover r; dr_commissions_usd := dr_commissions_usd r; dr_spread_cost_usd := dr_spread_cost_usd r;
  dr_delay_cost_usd := dr_delay_cost_usd r; dr_sensitivity_5bp_usd := dr_sensitivity_5bp_usd r; dr_sensitivity_10bp_usd := dr_sensitivity_10bp_usd r;
  dr_cash_weight := dr_cash_weight r; dr_qqq_weight := dr_qqq_weight r; dr_soxx_weight := dr_soxx_weight r;
  dr_active_risk_episode_count := dr_active_risk_episode_count r; dr_active_llm_reduction_count := dr_active_llm_reduction_count r;
  dr_result_hash := result_hash; dr_created_at := dr_created_at r; dr_versioned := dr_versioned r |}.

Definition dec_at (symbol : string) (weights : pydict dec) : dec := match dget symbol weights with Some w => w | None => d0 end.

(** The body of the loop for an arm that has prices. *)
Definition prepare_daily (c : daily_context) (prices : pydict dec) (arm_id : string) (state : Q1ArmState) : res _DailyPrepared :=
  let calendar := dc_calendar c in
  let anchor := dc_anchor c in
  let run_id := pc_run_id (dc_cycle c) in
  enum_arm ← arm_of_value arm_id;
  n ← nav state prices;
  raise_if (n <=? d0)%dec Q1EvaluationCycleError "closing NAV must be positive";;
  let previous := _previous_daily_result run_id calendar (es_previous (dc_snapshots c) arm_id) arm_id in
  let previous_nav := match previous with None => ea_initial_nav_usd anchor | Some r => dr_nav_usd r end in
  let previous_turnover := match previous with None => d0 | Some r => dr_cumulative_turnover r end in
  let '(fill_store, quote_store) := es_fills (dc_snapshots c) arm_id in
  economics ← _session_economics run_id calendar fill_store quote_store arm_id previous_nav;
  weights ← _evaluation_weights state prices;
  let risk_count := _risk_episode_count run_id calendar (es_risk (dc_snapshots c) arm_id) arm_id in
  llm_count ← _llm_reduction_count run_id calendar (es_llm (dc_snapshots c)) enum_arm;
  growth ← ddiv n previous_nav;
  total_growth ← ddiv n (ea_initial_nav_usd anchor);
  cash_weight ← dindex "USD_CASH" weights;
  let r := {|
    dr_strategy_daily_result_id := ""; dr_evaluation_anchor_id := ea_evaluation_anchor_id anchor; dr_run_id := run_id; dr_arm_id := enum_arm;
    dr_calendar_session_id := vs_calendar_session_id calendar; dr_session_date := vs_session_date calendar; dr_valuation_at := vs_close_at calendar;
    dr_nav_usd := n; dr_net_daily_return := (growth - d1)%dec; dr_cumulative_return := (total_growth - d1)%dec; dr_daily_turnover := se_turnover economics;
    dr_cumulative_turnover := (previous_turnover + se_turnover economics)%dec; dr_commissions_usd := se_commissions economics;
    dr_spread_cost_usd := se_spread economics; dr_delay_cost_usd := se_delay economics; dr_sensitivity_5bp_usd := se_sensitivity_5bp economics;
    dr_sensitivity_10bp_usd := se_sensitivity_10bp economics; dr_cash_weight := cash_weight; dr_qqq_weight := dec_at "QQQ" weights;
    dr_soxx_weight := dec_at "SOXX" weights; dr_active_risk_episode_count := risk_count; dr_active_llm_reduction_count := llm_count;
    dr_result_hash := ""; dr_created_at := dc_now c; dr_versioned := versioned_by (dc_source_manifest c) |} in
  result_hash ← canonical_hash (daily_content r);
  id ← stable_id "q1-daily-result" [PStr run_id; PStr arm_id; PDate (vs_session_date calendar); PStr result_hash];
  result ← validate_StrategyDailyResult (with_daily_hash r id result_hash);
  observation ← _observation_from_row result;
  Ok {| dp_result := result; dp_observation := observation |}.

Definition prepare_arm (c : daily_context) (prices_by_arm : pydict (pydict dec)) (prepared : pydict _DailyPrepared) (item : string * Q1ArmState)
  : res (pydict _DailyPrepared) :=
  match dget item.1 prices_by_arm with
  | None => Ok prepared
  | Some prices => p ← prepare_daily c prices item.1 item.2; Ok (dset item.1 p prepared)
  end.

Definition _prepare_daily_results (c : daily_context) (states : pydict Q1ArmState) (prices_by_arm : pydict (pydict dec)) : res (pydict _DailyPrepared) :=
  foldM (prepare_arm c prices_by_arm) [] (sorted_items states).

(** ** Performance and comparisons *)

Definition arm_observations (s : q1_store) (run_id : string) (prepared : pydict _DailyPrepared) (arm : Q1ArmId)
  : res (Q1ArmId * list DailyEvaluationObservation) :=
  rows ← mapM_res _observation_from_row (EvaluationResults.daily_results_of s run_id (Q1ArmId_value arm));
  Ok (arm, rows ++ match dget (Q1ArmId_value arm) prepared with Some current => [dp_observation current] | None => [] end).

(** The arms that have observations. *)
Definition _observations_with_prepared (s : q1_store) (run_id : string) (prepared : pydict _DailyPrepared)
  : res (list (Q1ArmId * list DailyEvaluationObservation)) :=
  all ← mapM_res (arm_observations s run_id prepared) Q1ArmIds; Ok (List.filter (λ kv, negb (bool_decide (kv.2 = []))) all).

Definition observations_of (arm : Q1ArmId) (observations : list (Q1ArmId * list DailyEvaluationObservation)) : option (list DailyEvaluationObservation) :=
  snd <$> List.find (λ kv, bool_decide (kv.1 = arm)) observations.

Definition matched_content (r : MatchedAttributionResult) : pyval :=
  PDict ([("evaluation_anchor_id", PStr (mr_evaluation_anchor_id r)); ("run_id", PStr (mr_run_id r));
    ("comparison", PStr (MatchedComparison_value (mr_comparison r))); ("left_arm_id", PStr (Q1ArmId_value (mr_left_arm_id r)));
    ("right_arm_id", PStr (Q1ArmId_value (mr_right_arm_id r))); ("through_session_date", PDate (mr_through_session_date r));
    ("common_valid_sessions", PInt (mr_common_valid_sessions r)); ("mean_daily_difference", PDecimal (mr_mean_daily_difference r));
    ("annualized_difference", PDecimal (mr_annualized_difference r)); ("newey_west_lag", PInt (mr_newey_west_lag r));
    ("newey_west_standard_error", PDecimal (mr_newey_west_standard_error r)); ("bootstrap_seed", PInt (mr_bootstrap_seed r));
    ("bootstrap_lower", PDecimal (mr_bootstrap_lower r)); ("bootstrap_upper", PDecimal (mr_bootstrap_upper r));
    ("promotion_ready", PBool (mr_promotion_ready r)); ("created_at", PDatetime (mr_created_at r))] ++ versioned_content (mr_versioned r)).

Definition with_matched_hash (r : MatchedAttributionResult) (id result_hash : string) : MatchedAttributionResult := {|
  mr_matched_attribution_result_id := id; mr_evaluation_anchor_id := mr_evaluation_anchor_id r; mr_run_id := mr_run_id r; mr_comparison := mr_comparison r;
  mr_left_arm_id := mr_left_arm_id r; mr_right_arm_id := mr_right_arm_id r; mr_through_session_date := mr_through_session_date r;
  mr_common_valid_sessions := mr_common_valid_sessions r; mr_mean_daily_difference := mr_mean_daily_difference r;
  mr_annualized_difference := mr_annualized_difference r; mr_newey_west_lag := mr_newey_west_lag r;
  mr_newey_west_standard_error := mr_newey_west_standard_error r; mr_bootstrap_seed := mr_bootstrap_seed r; mr_bootstrap_lower := mr_bootstrap_lower r;
  mr_bootstrap_upper := mr_bootstrap_upper r; mr_promotion_ready := mr_promotion_ready r; mr_result_hash := result_hash; mr_created_at := mr_created_at r;
  mr_versioned := mr_versioned r |}.

Definition _matched_record (matched : MatchedAttribution) (c : daily_context) (config : EvaluationConfig) : res MatchedAttributionResult :=
  let run_id := pc_run_id (dc_cycle c) in
  let r := {|
    mr_matched_attribution_result_id := ""; mr_evaluation_anchor_id := ea_evaluation_anchor_id (dc_anchor c); mr_run_id := run_id;
    mr_comparison := ma_comparison matched; mr_left_arm_id := ma_left_arm_id matched; mr_right_arm_id := ma_right_arm_id matched;
    mr_through_session_date := vs_session_date (dc_calendar c); mr_common_valid_sessions := ma_common_valid_sessions matched;
    mr_mean_daily_difference := ma_mean_daily_difference matched; mr_annualized_difference := ma_annualized_difference matched;
    mr_newey_west_lag := ev_newey_west_lag config; mr_newey_west_standard_error := ma_newey_west_standard_error matched;
    mr_bootstrap_seed := ev_bootstrap_seed config; mr_bootstrap_lower := ma_bootstrap_lower matched; mr_bootstrap_upper := ma_bootstrap_upper matched;
    mr_promotion_ready := ma_eligible_for_manual_promotion_review matched; mr_result_hash := ""; mr_created_at := dc_now c;
    mr_versioned := versioned_by (dc_source_manifest c) |} in
  result_hash ← canonical_hash (matched_content r);
  id ← stable_id "q1-matched-result" [PStr run_id; PStr (MatchedComparison_value (ma_comparison matched)); PDate (vs_session_date (dc_calendar c)); PStr result_hash];
  validate_MatchedAttributionResult (with_matched_hash r id result_hash).

Definition prepare_comparison (c : daily_context) (config : EvaluationConfig) (observations : list (Q1ArmId * list DailyEvaluationObservation))
    (result : list MatchedAttributionResult) (comparison : MatchedComparison * Q1ArmId * Q1ArmId) : res (list MatchedAttributionResult) :=
  let '(comparison, left_arm, right_arm) := comparison in
  match observations_of left_arm observations, observations_of right_arm observations with
  | Some left_observations, Some right_observations =>
      matched ← evaluate_matched_attribution comparison left_observations right_observations config;
      record ← _matched_record matched c config;
      Ok (result ++ [record])
  | _, _ => Ok result
  end.

Definition _prepare_matched (c : daily_context) (observations : list (Q1ArmId * list DailyEvaluationObservation)) : res (list MatchedAttributionResult) :=
  config ← evaluation_config bundle;
  foldM (prepare_comparison c config observations) [] [(Q1_DET_MINUS_B0_VOL, Q1_DET, B0_VOL); (Q1_LLM_MINUS_Q1_DET, Q1_LLM, Q1_DET)].

(** ** Orders at the close *)

Definition close_request (now : datetime) (provenance : OrderEventProvenance) (event_type : OrderEventType) (cycle_id : string) : AppendRequest :=
  terminal_request event_type now now provenance "ACTUAL_SESSION_CLOSE_REACHED" cycle_id.

(** One event of the comprehension, for an event of [provisional]. *)
Definition close_order (cycle : PaperCycleRow) (book : Q1OrderBook) (now : datetime) (provenance : OrderEventProvenance) (event : OrderEvent) : res OrderEvent :=
  match List.find (λ d, od_order_intent_id d =s oe_order_intent_id event) (ob_descriptors book) with
  | None => raise StopIteration ""
  | Some order => append_order_event order (ob_events book) (close_request now provenance (oe_event_type event) (pc_cycle_id cycle))
  end.

Definition _expiry_events (cycle : PaperCycleRow) (book : Q1OrderBook) (now : datetime) (source_manifest : string) : res (list OrderEvent) :=
  owner ← _lease_owner cycle;
  provenance ← validate_OrderEventProvenance {| op_config_manifest_hash := cb_manifest_hash bundle; op_code_version := workspace_code_version;
    op_model_version := Q1_MODEL_VERSION; op_source_manifest_hash := source_manifest; op_worker_fence_token := owner;
    op_cycle_attempt_count := pc_attempt_count cycle |};
  provisional ← expire_orders (ob_descriptors book) (ob_events book) now provenance (pc_cycle_id cycle) true;
  mapM_res (close_order cycle book now provenance)
    (List.filter (λ e, existsb (λ i, qi_order_intent_id i =s oe_order_intent_id e) (ob_intents book)) provisional).

(** ** [process] up to the commit *)

Definition midpoints (quotes : pydict MarketQuoteRow) : res (pydict dec) :=
  mapM_res (λ kv, price ← ddiv (mq_bid_price kv.2 + mq_ask_price kv.2)%dec (Dec 2 0); Ok (kv.1, price)) quotes.

(** The symbols of the clean arms, sorted. *)
Definition clean_symbols_of (states : pydict Q1ArmState) : list string :=
  sorted String.leb (remove_dups (concat (map (λ kv, if existsb (String.eqb kv.1) clean_arm_ids then held_symbols kv.2 else []) states))).

(** [quotes_by_arm] and [unavailable_arms]. *)
Definition quotes_gathered : Type := pydict (pydict MarketQuoteRow) * pydict string.

(** The body of the loop over the arms that are reported apart. *)
Definition gather_separate (sn : EvaluationSnapshots) (calendar : VersionedMarketSession) (now : datetime) (states : pydict Q1ArmState)
    (g : quotes_gathered) (arm_id : string) : res quotes_gathered :=
  match dget arm_id states with
  | None => Ok g
  | Some state =>
      match _closing_quotes calendar bundle (es_quotes sn arm_id) (sorted String.leb (held_symbols state)) now with
      | Ok rows => Ok (dset arm_id rows g.1, g.2)
      | Raise e => if bool_decide (exn_kind e = Q1EvaluationDataNotReady) then Ok (g.1, dset arm_id (exn_msg e) g.2) else Raise e
      end
  end.

Definition gather_quotes (sn : EvaluationSnapshots) (calendar : VersionedMarketSession) (now : datetime) (states : pydict Q1ArmState) : res quotes_gathered :=
  let clean_symbols := clean_symbols_of states in
  raise_if (existsb (λ s, negb ((s =s "QQQ") || (s =s "SOXX"))) clean_symbols) Q1EvaluationCycleError "Clean strategy arm contains symbols outside Q1 universe";;
  clean_quotes ← _closing_quotes calendar bundle (es_quotes sn "CLEAN") clean_symbols now;
  let quotes_by_arm := omap (λ kv, if existsb (String.eqb kv.1) clean_arm_ids then Some (kv.1, clean_quotes) else None) states in
  foldM (gather_separate sn calendar now states) (quotes_by_arm, []) [Q1ArmId_value HOLD; Q1ArmId_value LIVE_MIRROR].

Definition quote_manifest (prices : pydict dec) (quotes : pydict MarketQuoteRow) : pyval :=
  PDict (map (λ kv, (kv.1, PDict [("quote_id", PStr (mq_quote_id kv.2)); ("event_time", PDatetime (_aware (mq_event_time kv.2)));
    ("available_at", PDatetime (_aware (mq_available_at kv.2))); ("midpoint", PDecimal (dec_at kv.1 prices))])) quotes).

Record EvaluationPreparation := {
  prep_anchor : StrategyEvaluationAnchor;
  prep_states : pydict Q1ArmState;
  prep_source_manifest_hash : string;
  prep_prepared : pydict _DailyPrepared;
  prep_performance : list (Q1ArmId * PerformanceMetrics);
  prep_matched : list MatchedAttributionResult;
  prep_expiry_events : list OrderEvent;
  prep_unavailable_arms : pydict string;
}.

Definition prepare_evaluation (sn : EvaluationSnapshots) (cycle : PaperCycleRow) (calendar : VersionedMarketSession) (now : datetime)
  : res EvaluationPreparation :=
  let instant := _aware now in
  raise_if (dt_lt instant (vs_close_at calendar)) Q1EvaluationCycleError "Daily evaluation cannot precede the actual session close";;
  '(anchor, states, book) ← _read_base (pc_run_id cycle) (es_base sn);
  '(quotes_by_arm, unavailable_arms) ← gather_quotes sn calendar instant states;
  prices_by_arm ← mapM_res (λ kv, prices ← midpoints kv.2; Ok (kv.1, prices)) quotes_by_arm;
  source_manifest ← canonical_hash (PDict [("calendar_session_id", PStr (vs_calendar_session_id calendar)); ("valuation_at", PDatetime (vs_close_at calendar));
    ("quotes_by_arm", PDict (map (λ kv, (kv.1, quote_manifest (match dget kv.1 prices_by_arm with Some p => p | None => [] end) kv.2)) quotes_by_arm));
    ("unavailable_arms", PDict (map (λ kv, (kv.1, PStr kv.2)) unavailable_arms));
    ("state_sequences", PDict (map (λ kv, (kv.1, PInt (as_sequence kv.2))) states))]);
  let c := {| dc_cycle := cycle; dc_calendar := calendar; dc_anchor := anchor; dc_now := instant; dc_source_manifest := source_manifest; dc_snapshots := sn |} in
  prepared ← _prepare_daily_results c states prices_by_arm;
  observations ← _observations_with_prepared (es_results sn) (pc_run_id cycle) prepared;
  performance ← mapM_res (λ kv, config ← evaluation_config bundle; metrics ← evaluate_performance kv.2 config; Ok (kv.1, metrics)) observations;
  matched ← _prepare_matched c observations;
  expiry_events ← _expiry_events cycle book instant source_manifest;
  Ok {| prep_anchor := anchor; prep_states := states; prep_source_manifest_hash := source_manifest; prep_prepared := prepared; prep_performance := performance;
        prep_matched := matched; prep_expiry_events := expiry_events; prep_unavailable_arms := unavailable_arms |}.

(** ** [_commit]: one transaction *)

(** The arm is as it was read. *)
Definition unchanged_arm (s : q1_store) (run_id : string) (item : string * Q1ArmState) : res () :=
  actual ← latest_arm_state s run_id item.1;
  raise_if (match actual with Some a => negb (as_sequence a =? as_sequence item.2) | None => true end)
    Q1EvaluationCycleError "changed during daily evaluation".

Definition commit_daily (s : q1_store) (item : string * _DailyPrepared) : res q1_store :=
  '(s, _) ← EvaluationResults.append_daily s (dp_result item.2); Ok s.
Definition commit_matched (s : q1_store) (result : MatchedAttributionResult) : res q1_store :=
  '(s, _) ← EvaluationResults.append_matched s result; Ok s.
Definition commit_expiry (database : clock) (s : q1_store) (event : OrderEvent) : res q1_store :=
  '(s, _) ← OrderEvents.append s event (database (oe_event_id event)); Ok s.

Definition unavailable_data (p : EvaluationPreparation) : pyval := PDict (map (λ kv, (kv.1, PStr kv.2)) (prep_unavailable_arms p)).

Definition evaluation_output (p : EvaluationPreparation) : pyval :=
  PDict [("status", PStr "Q1_DAILY_RESULTS_COMMITTED"); ("evaluation_anchor_id", PStr (ea_evaluation_anchor_id (prep_anchor p)));
    ("daily_result_ids", PList (map (λ kv, PStr (dr_strategy_daily_result_id (dp_result kv.2))) (prep_prepared p)));
    ("matched_result_ids", PList (map (λ r, PStr (mr_matched_attribution_result_id r)) (prep_matched p)));
    ("expired_order_event_ids", PList (map (λ e, PStr (oe_event_id e)) (prep_expiry_events p)));
    ("performance", PDict (map (λ kv, (Q1ArmId_value kv.1, metrics_data kv.2)) (prep_performance p)));
    ("matched_readiness", PDict (map (λ r, (MatchedComparison_value (mr_comparison r),
      PDict [("common_valid_sessions", PInt (mr_common_valid_sessions r)); ("promotion_ready", PBool (mr_promotion_ready r));
             ("promotion_is_manual", PBool true)])) (prep_matched p)));
    ("unavailable_separate_reporting_arms", unavailable_data p); ("real_order_routing", PBool false)].

Definition evaluation_input (cycle : PaperCycleRow) (calendar : VersionedMarketSession) (p : EvaluationPreparation) : pyval :=
  PDict [("cycle_id", PStr (pc_cycle_id cycle)); ("calendar_session_id", PStr (vs_calendar_session_id calendar));
    ("valuation_at", PDatetime (vs_close_at calendar)); ("source_manifest_hash", PStr (prep_source_manifest_hash p));
    ("unavailable_separate_reporting_arms", unavailable_data p); ("config_manifest_hash", PStr (cb_manifest_hash bundle)); ("real_order_routing", PBool false)].

Definition commit_evaluation (s : q1_store) (database : clock) (cycle : PaperCycleRow) (calendar : VersionedMarketSession) (now : datetime)
    (p : EvaluationPreparation) : res (q1_store * pyval) :=
  owner ← _lease_owner cycle;
  locked ← require_cycle_fence (cycle_tables s) (pc_cycle_id cycle) owner (pc_attempt_count cycle) now (database (pc_cycle_id cycle));
  mapM_res (unchanged_arm s (pc_run_id cycle)) (prep_states p);;
  s ← foldM commit_daily s (prep_prepared p);
  s ← foldM commit_matched s (prep_matched p);
  s ← foldM (commit_expiry database) s (prep_expiry_events p);
  t ← complete_fenced_cycle (cycle_tables s) locked now (evaluation_input cycle calendar p) (evaluation_output p) now;
  Ok (with_cycle_tables s t, evaluation_output p).

Definition process_evaluation (sn : EvaluationSnapshots) (s : q1_store) (database : clock) (cycle : PaperCycleRow) (calendar : VersionedMarketSession)
    (now : datetime) : res (q1_store * pyval) :=
  p ← prepare_evaluation sn cycle calendar now; commit_evaluation s database cycle calendar (_aware now) p.

End evaluation.
