(* ===== verification/EvaluationExample.v ===== *)
(** * A concrete daily evaluation

    Two arms of the experiment, one with a position and a pending order, and a cycle claimed after the close: the data of the witnesses of
    [EvaluationSafety] and [EvaluationCommit].  The configuration is the repository's with three bootstrap samples. *)
From Stdlib Require Import ZArith Lia Ascii String.
From stdpp Require Import base list strings numbers sets.
From S2P Require Import Prelude PyDecimal Hashing DecimalMath Domain Text OrderState Settlement ArmState Payload Execution Reconciliation Planning Schedule Cycles CycleStore QuantConfig.
From S2P Require Import CycleLifecycle Q1Records Q1Store TradingRuns TradingOrders PyRandom MatchedEvaluation RuntimeConfig MarketData ExecutionCycle ExecutionExample EvaluationCycle.
Set Default Goal Selector "!".
Open Scope Z_scope.

#[local] Existing Instance rolling_digest.
#[local] Existing Instance ex_new_york.

Definition fewer_samples (d : document) : document :=
  match dget "evaluation" d with Some (YMap m) => dset "evaluation" (YMap (dset "stationary_bootstrap_samples" (YScalar (SInt 3)) m)) d | _ => d end.
Definition ev_bundle : Q1ConfigBundle :=
  {| cb_document := fewer_samples core_runtime_document; cb_cost_document := core_cost_document; cb_manifest_hash := "manifest" |}.

Definition ev_state (arm : string) (cash : dec) (positions : pydict dec) : Q1ArmState := {|
  as_arm_id := arm; as_initial_nav_usd := Dec 1000 0; as_settled_cash_usd := cash; as_unsettled_receivables := []; as_positions := positions;
  as_sequence := 0; as_evaluation_anchor_id := Some "anchor"; as_algorithm_version := Q1_ALGORITHM_VERSION |}.
Definition ev_anchor : StrategyEvaluationAnchor := {|
  ea_evaluation_anchor_id := "anchor"; ea_run_id := "run"; ea_calendar_session_id := "session"; ea_common_t0_at := ex_at 15; ea_initial_nav_usd := Dec 1000 0;
  ea_quote_manifest_hash := "q"; ea_anchor_hash := "a"; ea_created_at := ex_at 15;
  ea_versioned := {| algorithm_version := Q1_ALGORITHM_VERSION; config_manifest_hash := "cfg"; code_version := "1"; model_version := "m"; source_manifest_hash := "src" |} |}.
Definition ev_slot : PaperCycleSlot := {| cycle_kind := "Q1_DAILY_RESULT"; scheduled_at := ex_at 18 |}.

(** The day until the evaluation is claimed. *)
Definition ev_commands : list q1_command :=
  ex_opened ++ [QOrderEvent ex_active None; QCalendarSession (ex_calendar_row 20000 "session"); QAnchor ev_anchor;
    QArmState "run" (ev_state "Q1-DET" (Dec 600 0) [("QQQ"%string, Dec 4 0)]) ex_id (ex_at 15) None;
    QArmState "run" (ev_state "B0-VOL" (Dec 1000 0) []) ex_id (ex_at 15) None;
    QCycle (KComplete ex_id "a" 1 (ex_at 15) (PStr "in") (PStr "out") (ex_at 15) None); QCycle (KEnsure "run" [ev_slot] (ex_at 2));
    QCycle (KClaim {| ca_run_id := "run"; ca_grace := minutes 30; ca_lease := minutes 45; ca_owner := "a"; ca_kinds := Some ["Q1_DAILY_RESULT"%string] |}
              (λ _, false) (ex_at 18))].
Definition ev_store : q1_store := Eval vm_compute in run_q1_commands (empty_q1 ["run"%string]) ev_commands.

(** One minute after the close. *)
Definition ev_now : datetime := utc (instant (ex_at 18) + 60 * 1000000).

Definition ev_quote (id : string) (before : Z) (bid ask : dec) : MarketQuoteRow := {|
  mq_quote_id := id; mq_provider := PROVIDER; mq_feed := FEED; mq_symbol := "QQQ"; mq_event_time := utc (instant (ex_at 18) - before * 1000000);
  mq_provider_timestamp := id; mq_available_at := utc (instant (ex_at 18) - before * 1000000 + 1000000);
  mq_ingested_at := utc (instant (ex_at 18) - before * 1000000 + 1000000); mq_source_kind := "STREAM_QUOTE"; mq_bid_exchange := None; mq_bid_price := bid;
  mq_bid_size_round_lots := 2; mq_ask_exchange := None; mq_ask_price := ask; mq_ask_size_round_lots := 1; mq_conditions := []; mq_tape := None;
  mq_payload_hash := id; mq_raw_object_uri := None; mq_payload_json := [] |}.
(** The last quote before the close counts; the one after it does not. *)
Definition ev_market : market_store := {|
  bars := []; trades := []; statuses := [];
  quotes := [ev_quote "early" 200 (Dec 99 0) (Dec 101 0); ev_quote "last" 10 (Dec 1049 (-1)) (Dec 1051 (-1)); ev_quote "after" (-5) (Dec 200 0) (Dec 201 0)] |}.

Definition ev_snapshots : EvaluationSnapshots := {|
  es_base := ev_store; es_quotes := λ _, ev_market; es_previous := λ _, ev_store; es_fills := λ _, (ev_store, ev_market); es_risk := λ _, ev_store;
  es_llm := ev_store; es_results := ev_store |}.

Definition ev_cycle : PaperCycleRow := Eval vm_compute in the (List.find (λ c, String.eqb (pc_cycle_kind c) "Q1_DAILY_RESULT") (cycles (cycle_tables ev_store))).
Definition ev_prepared : option EvaluationPreparation :=
  Eval vm_compute in result (prepare_evaluation ev_bundle "code" ev_snapshots ev_cycle ex_session ev_now).
Definition ev_preparation : EvaluationPreparation := Eval cbv [the ev_prepared] in the ev_prepared.
Lemma ev_evaluation_prepared : prepare_evaluation ev_bundle "code" ev_snapshots ev_cycle ex_session ev_now = Ok ev_preparation.
Proof. vm_compute. reflexivity. Qed.

(** The order is pending at the close, and the evaluation expires it. *)
Definition ev_read_book : option Q1OrderBook := Eval vm_compute in result (load_q1_order_book ev_store "run" None).
Definition ev_book : Q1OrderBook := Eval cbv [the ev_read_book] in the ev_read_book.
Lemma ev_book_read : load_q1_order_book (es_base ev_snapshots) (pc_run_id ev_cycle) None = Ok ev_book.
Proof. vm_compute. reflexivity. Qed.
Definition ev_open_orders : option (list OrderAggregate) :=
  Eval vm_compute in result (pending_orders (ob_descriptors ev_book) (ob_events ev_book) (Some (_aware ev_now))).
Definition ev_pending : list OrderAggregate := Eval cbv [the ev_open_orders] in the ev_open_orders.
Lemma ev_pending_orders : pending_orders (ob_descriptors ev_book) (ob_events ev_book) (Some (_aware ev_now)) = Ok ev_pending.
Proof. vm_compute. reflexivity. Qed.

Definition ev_commit : option (q1_store * pyval) :=
  Eval vm_compute in result (commit_evaluation ev_bundle ev_store (λ _, None) ev_cycle ex_session (_aware ev_now) ev_preparation).
Definition ev_committed : q1_store * pyval := Eval cbv [the ev_commit] in the ev_commit.
Lemma ev_evaluation_committed :
  commit_evaluation ev_bundle (run_q1_commands (empty_q1 ["run"%string]) ev_commands) (λ _, None) ev_cycle ex_session (_aware ev_now) ev_preparation
  = Ok (ev_committed.1, ev_committed.2).
Proof. change (run_q1_commands (empty_q1 ["run"%string]) ev_commands) with ev_store. vm_compute. reflexivity. Qed.

Lemma ev_commands_valid : Forall valid_command ev_commands.
Proof. repeat constructor. Qed.
