(* ===== verification/EvaluationSafety.v ===== *)
(** * What a daily evaluation prepares

    Every arm that has a state is valued at the midpoints of fresh closing quotes; its returns are measured from its latest earlier
    result; and every order still pending at the close is expired. *)
From Stdlib Require Import ZArith Lia Ascii String QArith.
From stdpp Require Import base list strings numbers sets.
From S2P Require Import Prelude PyDecimal Hashing DecimalMath Domain Text OrderState Settlement ArmState Payload Execution Reconciliation Planning Schedule Cycles CycleStore.
From S2P Require Import Q1Records Q1Store PyRandom MatchedEvaluation RuntimeConfig MarketData TradingOrders ExecutionCycle ExecutionExample ExecutionSafety EvaluationCycle EvaluationExample.
Set Default Goal Selector "!".
Open Scope Z_scope.

(** ** Dictionaries built by comprehensions *)

Lemma mapM_values {A B} (f : string → A → res B) (l : pydict A) l' :
  mapM_res (λ kv, y ← f kv.1 kv.2; Ok (kv.1, y)) l = Ok l' →
  ∀ k, match dget k l with Some v => ∃ y, f k v = Ok y ∧ dget k l' = Some y | None => dget k l' = None end.
Proof.
  revert l'. induction l as [|[k v] l IH]; intros l' Hm k'; [by injection Hm as <-|]. cbn [mapM_res fst snd] in Hm.
  apply bind_Ok_inv in Hm as ([k0 y] & Hy & Hm). apply bind_Ok_inv in Hy as (y' & Hf & [= <- <-]). apply bind_Ok_inv in Hm as (ys & Hys & [= <-]).
  cbn [dget]. destruct (String.eqb k' k) eqn:E; [apply String.eqb_eq in E as ->; eauto|]. by apply IH.
Qed.

(** ** Closing quotes *)

(** A quote that may value [symbol] at the close: seen by now, of the regular stream, fresh at the close, and none later. *)
Record closing_ok (calendar : VersionedMarketSession) (bundle : Q1ConfigBundle) (m : market_store) (now : datetime) (symbol : string) (q : MarketQuoteRow) : Prop := {
  co_stored : q ∈ quotes m;
  co_stream : mq_provider q = PROVIDER ∧ mq_feed q = FEED ∧ mq_symbol q = symbol;
  co_before : instant (mq_event_time q) < instant (vs_close_at calendar);
  co_available : instant (mq_available_at q) <= instant now;
  co_prices : (0 < dval (mq_bid_price q) ∧ 0 < dval (mq_ask_price q) ∧ dval (mq_bid_price q) <= dval (mq_ask_price q))%Q;
  co_fresh : ∃ limit, evaluation_closing_quote_max_age_seconds bundle = Ok limit ∧ instant (vs_close_at calendar) - instant (mq_event_time q) <= limit * 1000000;
  co_latest : ∀ q', q' ∈ quotes m → closing_quote_of calendar symbol now q' = true → instant (mq_event_time q') <= instant (mq_event_time q);
}.

Definition closing_key : list (MarketQuoteRow → MarketQuoteRow → comparison) :=
  [λ a b, instant (mq_event_time b) ?= instant (mq_event_time a); λ a b, instant (mq_available_at b) ?= instant (mq_available_at a);
   λ a b, String.compare (mq_quote_id b) (mq_quote_id a)].

Lemma closing_quote_spec calendar bundle m now symbol kv :
  closing_quote calendar bundle m now symbol = Ok kv → kv.1 = symbol ∧ closing_ok calendar bundle m now symbol kv.2.
Proof.
  unfold closing_quote. destruct (List.hd_error _) as [q|] eqn:Hh; [|done]. intros Hq. apply bind_Ok_inv in Hq as (stale & Hs & Hq).
  apply bind_Ok_inv in Hq as ([] & ->%raise_if_Ok_inv & [= <-]). split; [done|]. cbn [snd].
  apply (sorted_lex_head closing_key) in Hh as [Hin Hhead]; [|repeat constructor; apply ordering_flip;
    first [apply (Zcompare_ordering (λ q : MarketQuoteRow, instant (mq_event_time q)))|apply (Zcompare_ordering (λ q : MarketQuoteRow, instant (mq_available_at q)))
          |apply (string_ordering mq_quote_id)]|done].
  apply elem_of_filterb in Hin as [Hx Hin]. pose proof Hx as Hx'. unfold closing_quote_of, dt_lt, dt_le in Hx. split_bool.
  split; try done.
  - split_and!; by apply String.eqb_eq.
  - lia.
  - lia.
  - dec_to_Q. done.
  - destruct (_ <? 0); [done|]. apply bind_Ok_inv in Hs as (limit & Hl & [= Hs]). exists limit. split; [done|]. cbn in Hs. lia.
  - intros q' Hin' Hq'. assert (closing_quote_le q q' = true) as Hle by by apply Hhead, elem_of_filterb.
    unfold closing_quote_le in Hle. cbn [lex_lt] in Hle. destruct (Z.compare_spec (instant (mq_event_time q)) (instant (mq_event_time q'))); cbn in Hle; [lia|done|lia].
Qed.

Lemma closing_quotes_elem calendar bundle m symbols now rows symbol :
  _closing_quotes calendar bundle m symbols now = Ok rows → symbol ∈ symbols →
  ∃ q, dget symbol rows = Some q ∧ closing_ok calendar bundle m now symbol q.
Proof.
  unfold _closing_quotes. destruct (bool_decide (symbols = [])) eqn:E; [by apply bool_decide_eq_true in E as ->; intros _ ?%not_elem_of_nil|].
  intros Hc Hin. apply bind_Ok_inv in Hc as (l & Hl%mapM_res_Forall2 & Hc). apply bind_Ok_inv in Hc as (limit & _ & Hc).
  apply bind_Ok_inv in Hc as ([] & _ & [= <-]). assert (Forall (λ kv, closing_ok calendar bundle m now kv.1 kv.2) l ∧ l.*1 = symbols) as [Hok Hkeys].
  { clear -Hl. induction Hl as [|s kv symbols l Hq _ [IH1 IH2]]; [done|]. apply closing_quote_spec in Hq as [E Hq]. cbn. rewrite E, IH2. split; [|done].
    constructor; [by rewrite E|done]. }
  assert (symbol ∈ l.*1) as ([k q] & -> & Hkv)%list_elem_of_fmap by by rewrite Hkeys.
  destruct (dict_of_pairs_mem l k q Hkv) as (q' & Hq'). exists q'. split; [done|]. apply dict_of_pairs_elem in Hq'. rewrite Forall_forall in Hok. apply (Hok _ Hq').
Qed.

(** ** The states and the quotes of the arms *)

Definition is_clean (arm : Q1ArmId) : bool := match arm with HOLD | LIVE_MIRROR => false | _ => true end.

Lemma clean_value arm : existsb (String.eqb (Q1ArmId_value arm)) clean_arm_ids = is_clean arm.
Proof. by destruct arm. Qed.

Lemma arm_values_inj a b : Q1ArmId_value a = Q1ArmId_value b → a = b.
Proof. by destruct a, b. Qed.

Lemma dget_omap {A B} (f : string → A → option B) (l : pydict A) k :
  dget k (omap (λ kv, (λ v, (kv.1, v)) <$> f kv.1 kv.2) l) = dget k l ≫= f k ∨ ¬ NoDup l.*1.
Proof.
  destruct (decide (NoDup l.*1)) as [Hn|]; [left|by right]. induction l as [|[k' v] l IH]; [done|]. cbn in Hn. apply NoDup_cons in Hn as [Hk Hn].
  cbn [dget omap list_omap fst snd]. destruct (String.eqb k k') eqn:E.
  - apply String.eqb_eq in E as ->. cbn. destruct (f k' v) as [b|]; cbn; [by rewrite String.eqb_refl|]. rewrite IH by done.
    apply dget_None_not_key in Hk. by rewrite Hk.
  - destruct (f k' v) as [b|]; cbn; [rewrite E|]; by apply IH.
Qed.

Lemma read_base_states run_id s anchor states book :
  _read_base run_id s = Ok (anchor, states, book) → ∀ arm, latest_arm_state s run_id (Q1ArmId_value arm) = Ok (dget (Q1ArmId_value arm) states).
Proof.
  unfold _read_base. destruct (Anchors.for_run s run_id); [|done]. intros Hr arm. apply bind_Ok_inv in Hr as (a & _ & Hr).
  apply bind_Ok_inv in Hr as (l & Hl & Hr). apply bind_Ok_inv in Hr as (b & _ & Hr). apply bind_Ok_inv in Hr as ([] & _ & [= _ <- _]).
  assert (l.*1 = map Q1ArmId_value Q1ArmIds ∧ ∀ a, a ∈ Q1ArmIds → ∃ o, latest_arm_state s run_id (Q1ArmId_value a) = Ok o ∧ (Q1ArmId_value a, o) ∈ l) as [Hk Hl'].
  { apply mapM_res_Forall2 in Hl. revert Hl. generalize Q1ArmIds as arms. clear. induction 1 as [|x kv arms l Hq _ [IH1 IH2]]; [split; [done|by intros ? ?%not_elem_of_nil]|].
    apply bind_Ok_inv in Hq as (o & Ho & [= <-]). cbn. rewrite IH1. split; [done|]. intros a [->|Ha]%elem_of_cons; [exists o; split; [done|left]|].
    destruct (IH2 a Ha) as (o' & ? & ?). exists o'. split; [done|by right]. }
  assert (NoDup l.*1) as Hn by (rewrite Hk; apply (bool_decide_unpack _); vm_compute; exact I).
  destruct (Hl' arm) as (o & -> & Ho); [by destruct arm; repeat (left || right)|]. f_equal.
  destruct (dget_omap (λ _ o, o) l (Q1ArmId_value arm)) as [E|]; [|done]. cbn beta in E. rewrite E, (dget_elem _ _ _ Hn Ho). done.
Qed.

Lemma read_base_nodup run_id s anchor states book : _read_base run_id s = Ok (anchor, states, book) → NoDup states.*1.
Proof.
  unfold _read_base. destruct (Anchors.for_run s run_id); [|done]. intros Hr. apply bind_Ok_inv in Hr as (a & _ & Hr).
  apply bind_Ok_inv in Hr as (l & Hl & Hr). apply bind_Ok_inv in Hr as (b & _ & Hr). apply bind_Ok_inv in Hr as ([] & _ & [= _ <- _]).
  assert (l.*1 = map Q1ArmId_value Q1ArmIds) as Hk.
  { apply mapM_res_Forall2 in Hl. revert Hl. generalize Q1ArmIds as arms. clear. induction 1 as [|x kv arms l Hq _ IH]; [done|].
    apply bind_Ok_inv in Hq as (o & Ho & [= <-]). cbn. by rewrite IH. }
  assert (NoDup l.*1) as Hn by (rewrite Hk; apply (bool_decide_unpack _); vm_compute; exact I). clear -Hn.
  induction l as [|[k [v|]] l IH]; [constructor|..]; cbn in *; apply NoDup_cons in Hn as [Hk Hn]; [|by apply IH]. apply NoDup_cons. split; [|by apply IH].
  intros (kv & E & Hin)%list_elem_of_fmap. apply list_elem_of_omap in Hin as ([k' o] & Hin & Ho). destruct o as [v'|]; [|done]. injection Ho as <-.
  apply Hk, list_elem_of_fmap. exists (k', Some v'). done.
Qed.

Section gathering.
Variables (bundle : Q1ConfigBundle) (sn : EvaluationSnapshots) (calendar : VersionedMarketSession) (now : datetime) (states : pydict Q1ArmState).

Definition market_of (arm : Q1ArmId) : market_store := es_quotes sn (if is_clean arm then "CLEAN" else Q1ArmId_value arm).

(** The quotes that value what an arm holds. *)
Definition values_arm (arm : Q1ArmId) (state : Q1ArmState) (rows : pydict MarketQuoteRow) : Prop :=
  ∀ symbol, symbol ∈ held_symbols state → ∃ q, dget symbol rows = Some q ∧ closing_ok calendar bundle (market_of arm) now symbol q.

Lemma gather_separate_spec g arm g' :
  is_clean arm = false → gather_separate bundle sn calendar now states g (Q1ArmId_value arm) = Ok g' →
  (∀ k, k ≠ Q1ArmId_value arm → dget k g'.1 = dget k g.1 ∧ dget k g'.2 = dget k g.2)
  ∧ ∀ state, dget (Q1ArmId_value arm) states = Some state →
      (∃ rows, dget (Q1ArmId_value arm) g'.1 = Some rows ∧ values_arm arm state rows)
      ∨ (dget (Q1ArmId_value arm) g'.1 = dget (Q1ArmId_value arm) g.1 ∧ is_Some (dget (Q1ArmId_value arm) g'.2)).
Proof.
  intros Ha. unfold gather_separate. destruct (dget (Q1ArmId_value arm) states) as [state|]; [|by intros [= <-]].
  destruct (_closing_quotes _ _ _ _ _) as [rows|e] eqn:Hc.
  - intros [= <-]. cbn. split; [intros k Hk; by rewrite dget_dset_ne|]. intros ? [= <-]. left. exists rows. split; [by rewrite dget_dset_eq|].
    intros symbol Hs. unfold market_of. rewrite Ha. eapply closing_quotes_elem; [exact Hc|]. by apply elem_of_sorted.
  - destruct (bool_decide _); [|done]. intros [= <-]. cbn. split; [intros k Hk; by rewrite dget_dset_ne|]. intros ? _. right. split; [done|].
    by rewrite dget_dset_eq.
Qed.

Lemma clean_symbols_held arm state symbol :
  is_clean arm = true → dget (Q1ArmId_value arm) states = Some state → symbol ∈ held_symbols state → symbol ∈ clean_symbols_of states.
Proof.
  intros Ha Hs%dget_Some_elem Hin. unfold clean_symbols_of. apply elem_of_sorted, elem_of_remove_dups. apply list_elem_of_In, in_concat.
  exists (held_symbols state). split; [|by apply list_elem_of_In]. apply in_map_iff. exists (Q1ArmId_value arm, state). cbn [fst snd]. rewrite clean_value, Ha.
  split; [done|by apply list_elem_of_In].
Qed.

Lemma gather_quotes_spec g :
  NoDup states.*1 → gather_quotes bundle sn calendar now states = Ok g → ∀ arm state, dget (Q1ArmId_value arm) states = Some state →
  (∃ rows, dget (Q1ArmId_value arm) g.1 = Some rows ∧ values_arm arm state rows)
  ∨ is_clean arm = false ∧ dget (Q1ArmId_value arm) g.1 = None ∧ is_Some (dget (Q1ArmId_value arm) g.2).
Proof.
  intros Hn Hg. unfold gather_quotes in Hg. apply bind_Ok_inv in Hg as ([] & _ & Hg). apply bind_Ok_inv in Hg as (clean & Hclean & Hg).
  set (g0 := omap _ states) in Hg. assert (∀ k, dget k g0 = dget k states ≫= λ _, if existsb (String.eqb k) clean_arm_ids then Some clean else None) as Hg0.
  { intros k. unfold g0. destruct (dget_omap (λ k _, if existsb (String.eqb k) clean_arm_ids then Some clean else None) states k) as [E|]; [|done].
    rewrite <- E. f_equal. clear. induction states as [|[k' v] l IH]; [done|]. cbn [omap list_omap fst snd]. rewrite IH. by destruct (existsb (String.eqb k') _). }
  cbn [foldM] in Hg. apply bind_Ok_inv in Hg as (g1 & H1 & Hg). apply bind_Ok_inv in Hg as (g2 & H2 & [= <-]).
  destruct (gather_separate_spec _ HOLD _ eq_refl H1) as [K1 S1]. destruct (gather_separate_spec _ LIVE_MIRROR _ eq_refl H2) as [K2 S2].
  intros arm state Hs. destruct (is_clean arm) eqn:Ha.
  - left. exists clean. split.
    + destruct (K2 (Q1ArmId_value arm)) as [-> _]; [by destruct arm|]. destruct (K1 (Q1ArmId_value arm)) as [-> _]; [by destruct arm|]. cbn. by rewrite Hg0, Hs, clean_value, Ha.
    + intros symbol Hin. unfold market_of. rewrite Ha. eapply closing_quotes_elem; [exact Hclean|]. by eapply clean_symbols_held.
  - assert (arm = HOLD ∨ arm = LIVE_MIRROR) as [->| ->] by (destruct arm; first [done|by left|by right]).
    + destruct (K2 (Q1ArmId_value HOLD)) as [-> ->]; [done|]. destruct (S1 _ Hs) as [?|[-> ?]]; [by left|right]. split_and!; [done| |done].
      cbn [fst]. by rewrite Hg0, Hs.
    + destruct (S2 _ Hs) as [?|[-> ?]]; [by left|right]. split_and!; [done| |done]. destruct (K1 (Q1ArmId_value LIVE_MIRROR)) as [-> _]; [done|]. cbn [fst]. by rewrite Hg0, Hs.
Qed.

End gathering.

(** ** The day's results *)

Lemma find_arm value arm : arm_of_value value = Ok arm → Q1ArmId_value arm = value.
Proof. unfold arm_of_value. destruct (List.find _ Q1ArmIds) as [a|] eqn:E; [|done]. intros [= ->]. apply find_elem in E as [_ E]. by apply String.eqb_eq. Qed.

Lemma validate_daily_id r r' : validate_StrategyDailyResult r = Ok r' → r' = r.
Proof. unfold validate_StrategyDailyResult. intros Hv. repeat (apply bind_Ok_inv in Hv as (? & _ & Hv)). by injection Hv as <-. Qed.
Lemma validate_observation_id o o' : validate_DailyEvaluationObservation o = Ok o' → o' = o.
Proof. unfold validate_DailyEvaluationObservation. intros Hv. repeat (apply bind_Ok_inv in Hv as (? & _ & Hv)). by injection Hv as <-. Qed.

(** What the returns of a result are measured from. *)
Definition base_nav (anchor : StrategyEvaluationAnchor) (previous : option StrategyDailyResult) : dec :=
  match previous with None => ea_initial_nav_usd anchor | Some r => dr_nav_usd r end.

(** A result of an arm whose state is valued at [prices]. *)
Record measures (c : daily_context) (prices : pydict dec) (arm : Q1ArmId) (state : Q1ArmState) (d : _DailyPrepared) : Prop := {
  me_identity : dr_run_id (dp_result d) = pc_run_id (dc_cycle c) ∧ dr_arm_id (dp_result d) = arm
    ∧ dr_session_date (dp_result d) = vs_session_date (dc_calendar c) ∧ dr_valuation_at (dp_result d) = vs_close_at (dc_calendar c);
  me_nav : nav state prices = Ok (dr_nav_usd (dp_result d)) ∧ (0 < dval (dr_nav_usd (dp_result d)))%Q;
  me_return : let previous := _previous_daily_result (pc_run_id (dc_cycle c)) (dc_calendar c) (es_previous (dc_snapshots c) (Q1ArmId_value arm)) (Q1ArmId_value arm) in
    ∃ growth total, ddiv (dr_nav_usd (dp_result d)) (base_nav (dc_anchor c) previous) = Ok growth
      ∧ ddiv (dr_nav_usd (dp_result d)) (ea_initial_nav_usd (dc_anchor c)) = Ok total
      ∧ dr_net_daily_return (dp_result d) = (growth - d1)%dec ∧ dr_cumulative_return (dp_result d) = (total - d1)%dec;
  me_observation : _observation_from_row (dp_result d) = Ok (dp_observation d);
}.

Section daily.
Context `{Digest}.
Variables (bundle : Q1ConfigBundle) (code : string) (c : daily_context).

Lemma prepare_daily_spec prices arm state d :
  prepare_daily bundle code c prices (Q1ArmId_value arm) state = Ok d → measures c prices arm state d.
Proof.
  unfold prepare_daily. intros Hp. apply bind_Ok_inv in Hp as (a & Ha%find_arm%arm_values_inj & Hp). subst a. apply bind_Ok_inv in Hp as (n & Hn & Hp).
  apply bind_Ok_inv in Hp as ([] & Hpos%raise_if_Ok_inv & Hp). destruct (es_fills _ _) as [fs qs]. apply bind_Ok_inv in Hp as (ec & _ & Hp).
  apply bind_Ok_inv in Hp as (ws & _ & Hp). apply bind_Ok_inv in Hp as (lc & _ & Hp). apply bind_Ok_inv in Hp as (growth & Hg & Hp).
  apply bind_Ok_inv in Hp as (total & Ht & Hp). apply bind_Ok_inv in Hp as (cw & _ & Hp). apply bind_Ok_inv in Hp as (h & _ & Hp).
  apply bind_Ok_inv in Hp as (id & _ & Hp). apply bind_Ok_inv in Hp as (r & ->%validate_daily_id & Hp). apply bind_Ok_inv in Hp as (o & Ho & [= <-]).
  split.
  - done.
  - split; [exact Hn|]. apply dleb_gt in Hpos. by rewrite dval_d0 in Hpos.
  - exists growth, total. done.
  - exact Ho.
Qed.

(** The loop: a result for each state with prices. *)
Lemma prepare_loop prices_by_arm states prepared :
  NoDup states.*1 → _prepare_daily_results bundle code c states prices_by_arm = Ok prepared →
  ∀ k, match dget k states, dget k prices_by_arm with
       | Some state, Some prices => ∃ d, dget k prepared = Some d ∧ prepare_daily bundle code c prices k state = Ok d
       | _, _ => dget k prepared = None
       end.
Proof.
  intros Hn Hp. pose proof (sorted_items_perm states) as Hperm. unfold _prepare_daily_results in Hp.
  assert (NoDup (sorted_items states).*1) as Hn' by by rewrite Hperm. assert (∀ k, dget k states = dget k (sorted_items states)) as Hget.
  { intros k. destruct (dget k states) as [v|] eqn:E.
    - symmetry. apply dget_elem; [done|]. rewrite Hperm. by apply dget_Some_elem.
    - symmetry. apply dget_None_not_key. rewrite Hperm. by apply dget_None_not_key. }
  intros k. rewrite Hget. clear Hget Hn Hperm. revert k Hn'.
  apply (foldM_prefix_invariant (λ l acc, ∀ k, NoDup l.*1 → match dget k l, dget k prices_by_arm with
    | Some state, Some prices => ∃ d, dget k acc = Some d ∧ prepare_daily bundle code c prices k state = Ok d | _, _ => dget k acc = None end)
    (prepare_arm bundle code c prices_by_arm) []) with (l := sorted_items states); [done| |exact Hp].
  intros pre [k v] acc acc' _ IH Hs k' Hn. rewrite fmap_app in Hn. apply NoDup_app in Hn as (Hn & Hk & _).
  assert (dget k pre = None) as Hfresh by (apply dget_None_not_key; intros Hin; apply (Hk _ Hin); cbn; left).
  assert (dget k' (pre ++ [(k, v)]) = if String.eqb k' k then Some v else dget k' pre) as ->.
  { rewrite <- (dset_fresh k v pre Hfresh). destruct (String.eqb k' k) eqn:E; [apply String.eqb_eq in E as ->; apply dget_dset_eq|].
    apply dget_dset_ne. by apply String.eqb_neq. }
  specialize (IH k' Hn). unfold prepare_arm in Hs. cbn [fst snd] in Hs. destruct (String.eqb k' k) eqn:E.
  - apply String.eqb_eq in E as ->. rewrite Hfresh in IH. destruct (dget k prices_by_arm) as [prices|]; [|by injection Hs as <-].
    apply bind_Ok_inv in Hs as (d & Hd & [= <-]). exists d. by rewrite dget_dset_eq.
  - apply String.eqb_neq in E. destruct (dget k prices_by_arm) as [prices|]; [|by injection Hs as <-].
    apply bind_Ok_inv in Hs as (d & Hd & [= <-]). by rewrite dget_dset_ne.
Qed.
End daily.

(** ** Orders at the close *)

Section closing_orders.
Context `{Digest}.
Variables (bundle : Q1ConfigBundle) (code : string).

Lemma expired_types orders events now p cycle_id boundary l : expire_orders orders events now p cycle_id boundary = Ok l → Forall (λ e, oe_event_type e = EXPIRED) l.
Proof.
  unfold expire_orders, append_selected. intros He. apply bind_Ok_inv in He as ([] & _ & He). apply bind_Ok_inv in He as (pending & _ & He). revert He.
  apply (foldM_invariant (Forall (λ e, oe_event_type e = EXPIRED))); [|constructor]. intros acc a acc' _ Hacc Hs. destruct (negb _); [|by injection Hs as <-].
  apply bind_Ok_inv in Hs as (e & (_ & _ & _ & _ & _ & _ & Ht & _)%append_sound & [= <-]). apply Forall_app. split; [done|]. by apply Forall_singleton.
Qed.

(** One event for each pending order, appended to the book's events. *)
Definition closes (book : Q1OrderBook) (now : datetime) (a : OrderAggregate) (e : OrderEvent) : Prop :=
  oe_event_type e = EXPIRED ∧ oe_order_intent_id e = agg_id a
  ∧ ∃ order rq, order ∈ ob_descriptors book ∧ od_order_intent_id order = agg_id a ∧ append_order_event order (ob_events book) rq = Ok e ∧ rq_available_at rq = now.

Lemma expiry_events_exact s cycle book now source events :
  load_q1_order_book s (pc_run_id cycle) None = Ok book → NoDup (map (λ r, qi_order_intent_id (ir_intent r)) (order_intents (orders s))) →
  _expiry_events bundle code cycle book now source = Ok events →
  ∃ pending, pending_orders (ob_descriptors book) (ob_events book) (Some now) = Ok pending ∧ NoDup (map agg_id pending) ∧ Forall2 (closes book now) pending events.
Proof.
  intros Hb Hn He. destruct (book_intents _ _ _ _ Hb Hn) as [Hni Hd]. pose proof (descriptor_ids _ _ Hd) as Hids. unfold _expiry_events in He.
  apply bind_Ok_inv in He as (owner & _ & He). apply bind_Ok_inv in He as (prov & _ & He). apply bind_Ok_inv in He as (provisional & Hprov & He).
  pose proof (expired_types _ _ _ _ _ _ _ Hprov) as Htypes. assert (∃ pending, pending_orders (ob_descriptors book) (ob_events book) (Some now) = Ok pending) as [pending Hp].
  { unfold expire_orders in Hprov. apply bind_Ok_inv in Hprov as ([] & _ & Hprov). apply bind_Ok_inv in Hprov as (pending & Hp & _). by exists pending. }
  exists pending. assert (NoDup (map od_order_intent_id (ob_descriptors book))) as Hno by by rewrite Hids.
  destruct (pending_orders_spec _ _ _ _ Hp Hno) as (Hnp & _ & Hin). split; [done|]. split; [done|].
  pose proof (expire_orders_ids _ _ _ _ _ _ _ _ Hp Hprov) as Hpi. rewrite (filterb_all (expires true now)) in Hpi by done.
  assert (∀ a, a ∈ pending → ag_order a ∈ ob_descriptors book) as Hof by (intros a Ha; by apply Hin in Ha as (_ & ? & _)).
  rewrite filterb_all in He; cycle 1.
  { intros e Hee. apply existsb_exists. assert (oe_order_intent_id e ∈ map agg_id pending) as (a & E & Ha)%list_elem_of_fmap by (rewrite <- Hpi; by apply list_elem_of_fmap_2).
    assert (agg_id a ∈ map qi_order_intent_id (ob_intents book)) as (i & Ei & Hi)%list_elem_of_fmap by (rewrite <- Hids; apply (list_elem_of_fmap_2 od_order_intent_id), Hof, Ha).
    exists i. split; [by apply list_elem_of_In|]. rewrite E, Ei. apply String.eqb_refl. }
  apply mapM_res_Forall2 in He. clear Hprov Hp Hnp Hin. revert pending Hpi Hof. induction He as [|e0 e provisional events He _ IH]; intros pending Hpi Hof.
  - apply eq_sym, map_eq_nil in Hpi as ->. constructor.
  - destruct pending as [|a pending]; [done|]. injection Hpi as Ea Hpi. apply Forall_cons in Htypes as [Ht Htypes]. constructor; [|apply IH; try done; intros b Hb'; apply Hof; by right].
    unfold close_order in He. destruct (List.find _ _) as [order|] eqn:Hf; [|done]. apply find_elem in Hf as [Ho Eo%String.eqb_eq].
    pose proof (append_sound _ _ _ _ He) as (sq & r & f & c & _ & Hid & Hty & _). unfold closes. rewrite Hid, Hty, Eo, Ea. split_and!; [exact Ht|done|].
    exists order. eexists. split_and!; [done|by rewrite Eo|exact He|done].
Qed.
End closing_orders.

(** ** Theorem *)

(** The price of a symbol is the midpoint of a quote that may value it at the close. *)
Definition priced (bundle : Q1ConfigBundle) (calendar : VersionedMarketSession) (m : market_store) (now : datetime) (prices : pydict dec) (symbol : string) : Prop :=
  ∃ q price, closing_ok calendar bundle m now symbol q ∧ ddiv (mq_bid_price q + mq_ask_price q)%dec (Dec 2 0) = Ok price ∧ dget symbol prices = Some price.

(** C9: the daily evaluation runs after the close and gives a result to every arm of the experiment that has a state, and to no other: its
    value is that of the latest state at the midpoints of closing quotes, its return is measured from its own latest earlier result (from the common
    start where there is none), and what the metrics see is the stored result.  Only the two inherited arms can be left out, with a reason. *)
Theorem daily_results_value_arms_at_the_close `{Digest} `{DecimalMath} `{PyRandom} bundle code sn cycle calendar now p :
  prepare_evaluation bundle code sn cycle calendar now = Ok p →
  let c := {| dc_cycle := cycle; dc_calendar := calendar; dc_anchor := prep_anchor p; dc_now := _aware now; dc_source_manifest := prep_source_manifest_hash p;
              dc_snapshots := sn |} in
  instant (vs_close_at calendar) <= instant (_aware now)
  ∧ (∀ arm state, latest_arm_state (es_base sn) (pc_run_id cycle) (Q1ArmId_value arm) = Ok (Some state) →
      (∃ d prices, dget (Q1ArmId_value arm) (prep_prepared p) = Some d ∧ measures c prices arm state d
         ∧ ∀ symbol, symbol ∈ held_symbols state → priced bundle calendar (market_of sn arm) (_aware now) prices symbol)
      ∨ is_clean arm = false ∧ dget (Q1ArmId_value arm) (prep_prepared p) = None ∧ is_Some (dget (Q1ArmId_value arm) (prep_unavailable_arms p)))
  ∧ (∀ arm, is_Some (dget (Q1ArmId_value arm) (prep_prepared p)) → ∃ state, latest_arm_state (es_base sn) (pc_run_id cycle) (Q1ArmId_value arm) = Ok (Some state)).
Proof.
  unfold prepare_evaluation. intros Hp. apply bind_Ok_inv in Hp as ([] & Hclose%raise_if_Ok_inv & Hp).
  apply bind_Ok_inv in Hp as ([[anchor states] book] & Hbase & Hp). apply bind_Ok_inv in Hp as ([qba un] & Hq & Hp). apply bind_Ok_inv in Hp as (pba & Hpba & Hp).
  apply bind_Ok_inv in Hp as (src & _ & Hp). apply bind_Ok_inv in Hp as (prepared & Hprep & Hp). do 4 apply bind_Ok_inv in Hp as (? & _ & Hp). injection Hp as <-.
  cbn [prep_anchor prep_source_manifest_hash prep_prepared prep_unavailable_arms].
  pose proof (read_base_nodup _ _ _ _ _ Hbase) as Hn. pose proof (read_base_states _ _ _ _ _ Hbase) as Hstates.
  pose proof (prepare_loop _ _ _ _ _ _ Hn Hprep) as Hloop. pose proof (mapM_values (λ _, midpoints) _ _ Hpba) as Hprices.
  split_and!.
  - unfold dt_lt in Hclose. apply Z.ltb_ge in Hclose. exact Hclose.
  - intros arm state Hs. rewrite Hstates in Hs. injection Hs as Hs. specialize (Hloop (Q1ArmId_value arm)). rewrite Hs in Hloop. specialize (Hprices (Q1ArmId_value arm)).
    destruct (gather_quotes_spec _ _ _ _ _ _ Hn Hq arm state Hs) as [(rows & Hrows & Hv)|(Ha & Hnone & Hsome)]; cbn [fst snd] in *.
    + left. rewrite Hrows in Hprices. destruct Hprices as (prices & Hmid & Hget). rewrite Hget in Hloop. destruct Hloop as (d & Hd & Hpd). exists d, prices.
      split_and!; [done|by eapply prepare_daily_spec|]. intros symbol Hsym. destruct (Hv symbol Hsym) as (q & Hqs & Hok).
      pose proof (mapM_values (λ _ q, ddiv (mq_bid_price q + mq_ask_price q)%dec (Dec 2 0)) _ _ Hmid symbol) as Hm. rewrite Hqs in Hm.
      destruct Hm as (price & Hpr & Hg). by exists q, price.
    + right. rewrite Hnone in Hprices. rewrite Hprices in Hloop. done.
  - intros arm [d Hd]. specialize (Hloop (Q1ArmId_value arm)). rewrite Hstates. destruct (dget (Q1ArmId_value arm) states) as [state|]; [by exists state|].
    by rewrite Hloop in Hd.
Qed.

#[local] Existing Instance rolling_digest.
#[local] Existing Instance ex_new_york.

(** Four shares at 105 and 600 of cash; the other arm holds cash only. *)
Lemma daily_results_value_arms_at_the_close_witness :
  map (λ kv, (kv.1, dr_nav_usd (dp_result kv.2))) (prep_prepared ev_preparation) = [("B0-VOL"%string, Dec 1000 0); ("Q1-DET"%string, Dec 10200 (-1))] ∧
  ∃ d prices, dget "Q1-DET" (prep_prepared ev_preparation) = Some d
    ∧ nav (ev_state "Q1-DET" (Dec 600 0) [("QQQ"%string, Dec 4 0)]) prices = Ok (dr_nav_usd (dp_result d))
    ∧ priced ev_bundle ex_session ev_market (_aware ev_now) prices "QQQ".
Proof.
  split; [vm_compute; reflexivity|].
  destruct (daily_results_value_arms_at_the_close _ _ _ _ _ _ _ ev_evaluation_prepared) as (_ & Harms & _).
  destruct (Harms Q1_DET (ev_state "Q1-DET" (Dec 600 0) [("QQQ"%string, Dec 4 0)])) as [(d & prices & Hd & [_ [Hn _] _ _] & Hp)|(Hc & _)];
    [vm_compute; reflexivity| |vm_compute in Hc; discriminate].
  exists d, prices. split; [exact Hd|]. split; [exact Hn|]. apply (Hp "QQQ"%string). vm_compute. left.
Defined.
