(* ===== verification/EvaluationCommit.v ===== *)
(** * The commit of a daily evaluation

    The transaction is a sequence of the repositories' commands with the fenced completion last; it takes effect once; and after it none of
    the orders that were pending at the close is pending. *)
From Stdlib Require Import ZArith Lia Ascii String.
From stdpp Require Import base list strings numbers sets.
From S2P Require Import Prelude PyDecimal Hashing DecimalMath Domain Text OrderState Settlement ArmState Payload Execution Reconciliation Planning Schedule Cycles CycleStore.
From S2P Require Import CycleLifecycle Q1Records Q1Store TradingRuns TradingOrders PyRandom MatchedEvaluation RuntimeConfig MarketData ExecutionCycle ExecutionExample ExecutionSafety EvaluationCycle EvaluationExample EvaluationSafety.
Set Default Goal Selector "!".
Open Scope Z_scope.

Section commit.
Context `{Digest} `{DecimalMath} `{PyRandom}.
Variables (bundle : Q1ConfigBundle) (database : clock) (cycle : PaperCycleRow) (calendar : VersionedMarketSession) (now : datetime).

Definition result_commands (p : EvaluationPreparation) : list q1_command :=
  map (λ kv, QDaily (dp_result kv.2)) (prep_prepared p) ++ map QMatched (prep_matched p).
Definition expiry_commands (p : EvaluationPreparation) : list q1_command :=
  map (λ e, QOrderEvent e (database (oe_event_id e))) (prep_expiry_events p).
Definition completion (owner : string) (p : EvaluationPreparation) : q1_command :=
  QCycle (KFenced (pc_cycle_id cycle) owner (pc_attempt_count cycle) now (database (pc_cycle_id cycle)) now (evaluation_input bundle cycle calendar p)
                  (evaluation_output p) now).
Definition evaluation_commands (owner : string) (p : EvaluationPreparation) : list q1_command :=
  (result_commands p ++ expiry_commands p) ++ [completion owner p].

(** A loop of appends runs its commands. *)
Lemma foldM_commands {A} (f : q1_store → A → res q1_store) (g : A → q1_command) l s s' :
  (∀ s x s1, f s x = Ok s1 → run_q1 s (g x) = Ok s1) → foldM f s l = Ok s' → run_all s (map g l) = Ok s'.
Proof.
  intros Hf. revert s. induction l as [|x l IH]; intros s; cbn; [done|]. intros (s1 & Hx & Hl)%bind_Ok_inv. rewrite (Hf _ _ _ Hx). by apply IH.
Qed.

Lemma omap_none {A B C} (f : B → option C) (g : A → B) l : (∀ x, f (g x) = None) → omap f (map g l) = [].
Proof. intros Hn. induction l as [|x l IH]; cbn; [done|]. by rewrite Hn. Qed.

Lemma no_cycle_commands p : omap cycle_command (result_commands p ++ expiry_commands p) = [].
Proof.
  unfold result_commands, expiry_commands. by rewrite !omap_app, !omap_none.
Qed.

Lemma commit_evaluation_spec s p s' output :
  commit_evaluation bundle s database cycle calendar now p = Ok (s', output) →
  ∃ owner locked s1 t, pc_lease_owner cycle = Some owner
    ∧ require_cycle_fence (cycle_tables s) (pc_cycle_id cycle) owner (pc_attempt_count cycle) now (database (pc_cycle_id cycle)) = Ok locked
    ∧ Forall (λ kv, ∃ actual, latest_arm_state s (pc_run_id cycle) kv.1 = Ok (Some actual) ∧ as_sequence actual = as_sequence kv.2) (prep_states p)
    ∧ run_all s (result_commands p ++ expiry_commands p) = Ok s1 ∧ cycle_tables s1 = cycle_tables s
    ∧ complete_fenced_cycle (cycle_tables s) locked now (evaluation_input bundle cycle calendar p) (evaluation_output p) now = Ok t
    ∧ s' = with_cycle_tables s1 t ∧ output = evaluation_output p.
Proof.
  unfold commit_evaluation. intros Hc. apply bind_Ok_inv in Hc as (owner & Ho & Hc). apply bind_Ok_inv in Hc as (locked & Hl & Hc).
  apply bind_Ok_inv in Hc as (us & Hu & Hc). apply bind_Ok_inv in Hc as (s1 & Hs1 & Hc). apply bind_Ok_inv in Hc as (s2 & Hs2 & Hc).
  apply bind_Ok_inv in Hc as (s3 & Hs3 & Hc). apply bind_Ok_inv in Hc as (t & Ht & [= <- <-]).
  assert (run_all s (result_commands p ++ expiry_commands p) = Ok s3) as Hr.
  { eapply run_all_app; [eapply run_all_app|].
    - apply (foldM_commands _ (λ kv, QDaily (dp_result kv.2))) in Hs1; [exact Hs1|]. intros s0 kv s4 Hs. exact Hs.
    - apply (foldM_commands _ QMatched) in Hs2; [exact Hs2|]. intros s0 r s4 Hs. exact Hs.
    - apply (foldM_commands _ (λ e, QOrderEvent e (database (oe_event_id e)))) in Hs3; [exact Hs3|]. intros s0 e s4 Hs. exact Hs. }
  assert (cycle_tables s3 = cycle_tables s) as Ek by (apply run_all_commits in Hr as <-; by rewrite cycle_tables_run, no_cycle_commands).
  exists owner, locked, s3, t. rewrite Ek in Ht. split_and!; try done.
  - unfold _lease_owner in Ho. destruct (pc_lease_owner cycle); [by injection Ho as ->|done].
  - apply mapM_res_Forall2 in Hu. clear -Hu. induction Hu as [|kv u l us Hk _ IH]; constructor; [|done]. unfold unchanged_arm in Hk.
    apply bind_Ok_inv in Hk as ([actual|] & Ha & Hk%raise_if_Ok_inv); [|done]. exists actual. split; [done|]. by apply negb_false_iff, Z.eqb_eq in Hk.
Qed.

Lemma commit_evaluation_runs s p s' output :
  commit_evaluation bundle s database cycle calendar now p = Ok (s', output) →
  ∃ owner, pc_lease_owner cycle = Some owner ∧ run_all s (evaluation_commands owner p) = Ok s'.
Proof.
  intros (owner & locked & s1 & t & Ho & Hl & _ & Hr & Ek & Ht & -> & _)%commit_evaluation_spec. exists owner. split; [done|].
  eapply run_all_app; [exact Hr|]. unfold run_all. cbn [foldM run_q1 run_command completion]. rewrite Ek, Hl. cbn [mbind res_bind]. by rewrite Ht.
Qed.
End commit.

(** ** The orders *)

Section orders_at_close.
Context `{Digest}.

Lemma appended_valid order events rq e : append_order_event order events rq = Ok e → validate_OrderEvent e = Ok e.
Proof.
  intros (sq & r & f & c & agg & _ & Hb & _)%append_inv. unfold build_event in Hb. do 3 apply bind_Ok_inv in Hb as (? & _ & Hb).
  pose proof (validate_OrderEvent_id _ _ Hb) as E. by rewrite <- E in Hb.
Qed.

(** Commands that are no order commands leave the order tables alone. *)
Lemma run_all_keeps_orders s cs s' :
  Forall (λ c, match c with QIntent _ | QOrderEvent _ _ => False | _ => True end) cs → run_all s cs = Ok s' →
  order_intents (orders s') = order_intents (orders s) ∧ order_events (orders s') = order_events (orders s).
Proof.
  intros Hc. revert s. induction Hc as [|c cs Hc _ IH]; intros s; cbn; [by intros [= <-]|]. intros (s1 & Hr & Hall)%bind_Ok_inv.
  destruct (IH _ Hall) as [-> ->]. apply run_order_change in Hr as [E1 E2|i -> _ _ _|e d id i row -> _ _ _ _ _ _ _]; done.
Qed.

(** Fresh events are stored one after the other. *)
Lemma expiry_rows database s l s' :
  NoDup (map oe_idempotency_key (map er_event (order_events (orders s)) ++ l)) →
  run_all s (map (λ e, QOrderEvent e (database (oe_event_id e))) l) = Ok s' →
  ∃ rows, map er_event rows = l ∧ order_events (orders s') = order_events (orders s) ++ rows ∧ order_intents (orders s') = order_intents (orders s).
Proof.
  revert s. induction l as [|e l IH]; intros s Hn; cbn; [intros [= <-]; exists []; by rewrite app_nil_r|]. intros (s1 & Ha & Hall)%bind_Ok_inv.
  apply bind_Ok_inv in Ha as ([s2 row] & Ha & [= ->]). apply order_append_spec in Ha as [[_ Hk]|(id & intent & _ & _ & _ & _ & _ & Er & _ & Es)].
  - exfalso. unfold OrderEvents.event_of_key in Hk. apply find_elem in Hk as [Hin Hk%String.eqb_eq]. rewrite map_app in Hn. apply NoDup_app in Hn as (_ & Hn & _).
    apply (Hn (oe_idempotency_key e)); [|cbn; left]. rewrite <- Hk. rewrite map_map. by apply (list_elem_of_fmap_2 (λ r, oe_idempotency_key (er_event r))).
  - assert (order_events (orders s1) = order_events (orders s) ++ [row]) as Ee by by rewrite Es.
    assert (order_intents (orders s1) = order_intents (orders s)) as Ei by by rewrite Es. assert (er_event row = e) as Ev by by rewrite Er.
    destruct (IH s1) as (rows & Hrows & E1 & E2); [rewrite Ee, (map_app er_event); cbn [map]; rewrite Ev, <- app_assoc; exact Hn|done|].
    exists (row :: rows). cbn. rewrite Ev, Hrows, E1, Ee, <- app_assoc. split_and!; [done|done|]. by rewrite E2.
Qed.

(** Their orders' streams end with them. *)
Lemma expired_last book now pending events s s' rows :
  Forall2 (closes book now) pending events → map er_event rows = events → order_events (orders s') = order_events (orders s) ++ rows →
  Forall (λ a, ∃ row, last (rows_of s' (agg_id a)) = Some row ∧ oe_event_type (er_event row) = EXPIRED) pending.
Proof.
  intros Hev Hrows Ee. apply Forall_forall. intros a Ha. unfold rows_of. rewrite Ee, List.filter_app.
  assert (Forall (λ r, oe_event_type (er_event r) = EXPIRED) rows) as Ht.
  { apply (proj1 (List.Forall_map er_event (λ e, oe_event_type e = EXPIRED) rows)). rewrite Hrows.
    eapply Forall2_Forall_r; [exact Hev|]. apply Forall_true. by intros ? ? (? & _). }
  assert (∃ r, r ∈ rows ∧ oe_order_intent_id (er_event r) = agg_id a) as (r & Hr & Er).
  { apply list_elem_of_lookup in Ha as [n Hn]. destruct (Forall2_lookup_l _ _ _ _ _ Hev Hn) as (e & He' & _ & Hid & _).
    rewrite <- Hrows in He'. apply list_lookup_fmap_Some in He' as (r & -> & Hr). exists r. split; [by eapply list_elem_of_lookup_2|done]. }
  set (mine := List.filter (λ r, oe_order_intent_id (er_event r) =s agg_id a) rows).
  assert (r ∈ mine) as Hin by (apply elem_of_filterb; split; [by apply String.eqb_eq|done]).
  destruct (last mine) as [row|] eqn:El; [|apply last_None in El; rewrite El in Hin; by apply elem_of_nil in Hin].
  exists row. rewrite last_app. fold mine. rewrite El. split; [done|]. apply last_Some_elem_of, elem_of_filterb in El as [_ El]. rewrite Forall_forall in Ht. by apply Ht.
Qed.

End orders_at_close.

(** ** Theorems *)

(** the commit of a daily evaluation is one transaction of the repositories: while the lease is held and no arm has moved since it was
    read, it appends the daily results, the comparisons and the expiries in order and completes the cycle last, every command succeeding; and it
    takes effect once: afterwards no evaluation of that cycle is committed, whoever prepared it and whatever came in between. *)
Theorem evaluation_commit_is_one_transaction `{Digest} `{DecimalMath} `{PyRandom} bundle rs cs0 database cycle calendar now p s' output :
  let s := run_q1_commands (empty_q1 rs) cs0 in
  commit_evaluation bundle s database cycle calendar now p = Ok (s', output) →
  (∃ owner, pc_lease_owner cycle = Some owner ∧ run_all s (evaluation_commands bundle database cycle calendar now owner p) = Ok s'
     ∧ run_q1_commands s (evaluation_commands bundle database cycle calendar now owner p) = s' ∧ output = evaluation_output p
     ∧ Forall (λ kv, ∃ actual, latest_arm_state s (pc_run_id cycle) kv.1 = Ok (Some actual) ∧ as_sequence actual = as_sequence kv.2) (prep_states p))
  ∧ ∀ cs bundle' database' cycle' calendar' now' p', pc_cycle_id cycle' = pc_cycle_id cycle →
      is_ok (commit_evaluation bundle' (run_q1_commands s' cs) database' cycle' calendar' now' p') = false.
Proof.
  intros s Hc. pose proof (commit_evaluation_runs _ _ _ _ _ _ _ _ _ Hc) as (owner & Ho & Hr).
  apply commit_evaluation_spec in Hc as (owner' & locked & s1 & t & Ho' & Hl & Hu & _ & _ & Ht & -> & ->). rewrite Ho in Ho'. injection Ho' as <-. split.
  - exists owner. split_and!; try done. by apply run_all_commits.
  - intros cs bundle' database' cycle' calendar' now' p' Hid. unfold commit_evaluation. destruct (_lease_owner cycle') as [owner'|]; [|done].
    cbn [mbind res_bind]. rewrite Hid.
    pose proof (completed_cycle_refuses _ _ _ _ _ _ _ _ _ _ _ _ _ (with_cycle_tables s1 t) cs owner' (pc_attempt_count cycle') now'
      (database' (pc_cycle_id cycle)) Hl Ht eq_refl) as Hf.
    match goal with |- is_ok (?f ≫= _) = _ => change (is_ok f = false) in Hf; by destruct f end.
Qed.

(** C10: no order survives its session: when the evaluation has been committed, the stored stream of every order that was pending at the close
    ends with its expiry, and the query for pending orders returns none of them. *)
Theorem orders_end_with_the_session `{Digest} `{DecimalMath} `{PyRandom} bundle code rs cs sn database cycle calendar now p s' output book pending :
  let s := run_q1_commands (empty_q1 rs) cs in
  Forall valid_command cs → prepare_evaluation bundle code sn cycle calendar now = Ok p →
  NoDup (map (λ r, qi_order_intent_id (ir_intent r)) (order_intents (orders (es_base sn)))) →
  load_q1_order_book (es_base sn) (pc_run_id cycle) None = Ok book →
  pending_orders (ob_descriptors book) (ob_events book) (Some (_aware now)) = Ok pending →
  NoDup (map oe_idempotency_key (map er_event (order_events (orders s)) ++ prep_expiry_events p)) →
  commit_evaluation bundle s database cycle calendar (_aware now) p = Ok (s', output) →
  Forall (λ a, ∃ row, last (rows_of s' (agg_id a)) = Some row ∧ oe_event_type (er_event row) = EXPIRED) pending
  ∧ ∀ intent row, (intent, row) ∈ OrderEvents.pending s' (qi_run_id (ir_intent intent)) None None → qi_order_intent_id (ir_intent intent) ∉ map agg_id pending.
Proof.
  intros s Hvalid Hp Hni Hbook Hpending Hkeys Hc. pose proof (commit_evaluation_runs _ _ _ _ _ _ _ _ _ Hc) as (owner & _ & Hrun).
  assert (∃ source, _expiry_events bundle code cycle book (_aware now) source = Ok (prep_expiry_events p)) as [source He].
  { unfold prepare_evaluation in Hp. apply bind_Ok_inv in Hp as ([] & _ & Hp). apply bind_Ok_inv in Hp as ([[anchor states] book'] & Hb & Hp).
    unfold _read_base in Hb. destruct (Anchors.for_run _ _); [|done]. do 2 apply bind_Ok_inv in Hb as (? & _ & Hb). apply bind_Ok_inv in Hb as (b & Hb' & Hb).
    apply bind_Ok_inv in Hb as ([] & _ & [= _ _ <-]). rewrite Hbook in Hb'. injection Hb' as <-.
    apply bind_Ok_inv in Hp as ([q u] & _ & Hp). do 6 apply bind_Ok_inv in Hp as (? & _ & Hp). apply bind_Ok_inv in Hp as (ev & Hev & [= <-]). by eexists. }
  destruct (expiry_events_exact _ _ _ _ _ _ _ _ Hbook Hni He) as (pending' & Hp' & _ & Hev). rewrite Hpending in Hp'. injection Hp' as <-.
  apply commit_evaluation_spec in Hc as (? & ? & s1 & t & _ & _ & _ & Hall & _ & _ & Es & _).
  unfold run_all in Hall. rewrite foldM_app in Hall. apply bind_Ok_inv in Hall as (s0 & Hres & Hexp).
  apply run_all_keeps_orders in Hres as [Ei0 Ee0]; cycle 1.
  { unfold result_commands. apply Forall_app. split; apply List.Forall_map, Forall_true; done. }
  destruct (expiry_rows database s0 (prep_expiry_events p) s1) as (rows & Hrows & Ee1 & Ei1); [by rewrite Ee0|exact Hexp|].
  assert (order_events (orders s') = order_events (orders s) ++ rows) as Ee by by rewrite Es; cbn; rewrite Ee1, Ee0.
  assert (orders_ok s') as Hok.
  { apply run_all_commits in Hrun as <-. unfold s. rewrite <- run_q1_app. apply orders_run. apply Forall_app. split; [done|].
    apply Forall_app. split; [|by apply Forall_singleton]. apply Forall_app. split; [unfold result_commands; apply Forall_app; split; apply List.Forall_map, Forall_true; done|].
    apply List.Forall_map. eapply Forall2_Forall_r; [exact Hev|]. apply Forall_true. intros a e (_ & _ & order & rq & _ & _ & Ha & _). by eapply appended_valid. }
  pose proof (expired_last _ _ _ _ _ _ _ Hev Hrows Ee) as Hlast.
  split; [exact Hlast|]. intros intent row (Hin & Hj & Hterm & _)%pending_rows (a & Ea & Ha)%list_elem_of_fmap.
  assert (get_intent s' (qi_order_intent_id (ir_intent intent)) = Some intent) as Hg by exact (find_unique (λ r, qi_order_intent_id (ir_intent r)) _ _ (ok_intent_ids _ Hok) Hin).
  rewrite joined_is_last, Ea in Hj by done. rewrite Forall_forall in Hlast. destruct (Hlast a Ha) as (row' & El & Et). rewrite El in Hj.
  apply list_elem_of_singleton in Hj as ->. by rewrite Et in Hterm.
Qed.

#[local] Existing Instance rolling_digest.
#[local] Existing Instance ex_new_york.

Lemma evaluation_commit_is_one_transaction_witness :
  (∃ owner, run_all ev_store (evaluation_commands ev_bundle (λ _, None) ev_cycle ex_session (_aware ev_now) owner ev_preparation) = Ok ev_committed.1
     ∧ length (evaluation_commands ev_bundle (λ _, None) ev_cycle ex_session (_aware ev_now) owner ev_preparation) = 5%nat)
  ∧ is_ok (commit_evaluation ev_bundle ev_committed.1 (λ _, None) ev_cycle ex_session (_aware ev_now) ev_preparation) = false.
Proof.
  destruct (evaluation_commit_is_one_transaction _ _ _ _ _ _ _ _ _ _ ev_evaluation_committed) as [(owner & _ & Hr & _) Honce].
  split; [exists owner; split; [exact Hr|reflexivity]|]. exact (Honce [] ev_bundle (λ _, None) ev_cycle ex_session (_aware ev_now) ev_preparation eq_refl).
Defined.

(** The one order that is pending expires. *)
Lemma orders_end_with_the_session_witness :
  map agg_id ev_pending = ["o-1"%string] ∧
  Forall (λ a, ∃ row, last (rows_of ev_committed.1 (agg_id a)) = Some row ∧ oe_event_type (er_event row) = EXPIRED) ev_pending.
Proof.
  split; [vm_compute; reflexivity|].
  refine (proj1 (orders_end_with_the_session ev_bundle "code" ["run"%string] ev_commands ev_snapshots (λ _, None) ev_cycle ex_session ev_now ev_preparation
    ev_committed.1 ev_committed.2 ev_book ev_pending ev_commands_valid ev_evaluation_prepared _ ev_book_read ev_pending_orders _ ev_evaluation_committed)).
  - apply (bool_decide_unpack _). vm_compute. exact I.
  - change (run_q1_commands (empty_q1 ["run"%string]) ev_commands) with ev_store. apply (bool_decide_unpack _). vm_compute. exact I.
Defined.
